(* ===== verification/_CoqProject ===== *)
-Q . S2P
Prelude.v
ListHead.v
Memblock.v
MemblockAlloc.v
Buddy.v
BuddyInv.v
BuddyBoot.v
BuddySpec.v
Slab.v
SlabInv.v
SlabSpec.v
PageTable.v
SlabKMem.v
BootTables.v
Sched.v
SchedInv.v
SchedSpec.v
CString.v
CMem.v
Process.v
ProcessSpec.v
TaskInv.v
SignalSpec.v
Queue.v
Tasklet.v
Timer.v
FsData.v
Vfs.v
Tmpfs.v
Initramfs.v
Fat32.v
FsInv.v
VfsSpec.v
VfsMount.v
FsNodes.v
TmpfsSpec.v
FileSystems.v
FsSafe.v
FsTree.v
FileOps.v
FsSpec.v
FatSpec.v
FatMount.v
FatFile.v
InitramfsSpec.v
RootFs.v
PathSpec.v
Console.v
ConsoleSpec.v
Kernel.v
Initrd.v
Syscall.v
Exception.v
SyscallSpec.v
UserSpec.v
ExceptionSpec.v
KernelInv.v
InitrdSpec.v
Dtb.v
DtbSpec.v
Boot.v
BootSpec.v
Mmio.v
SdCard.v
SdSpec.v
Devices.v
DevicesSpec.v
Serial.v
Loader.v
LoaderSpec.v
Asm.v
Entry.v
EntrySpec.v
SwitchSpec.v
Start.v
Shell.v
ShellSpec.v
Main.v
MainSpec.v
Demo.v
