(* ===== verification/Prelude.v ===== *)
(** * A verification library for the Raspberry Pi 3B+ kernel

    The program under [src/] is a small AArch64 kernel in C: it boots from the
    firmware with a device tree and a cpio archive in memory, sets up a page
    allocator and a slab allocator, runs a fixed pool of tasks under a round-robin
    scheduler with signals, serves system calls of programs in user mode, and has
    a virtual file system over a file system in memory, the read-only archive and
    a FAT32 partition on an SD card.

    ** How the parts are modelled

    A C function is a Rocq function of the same name; what it may run into instead
    of returning is a value of [fault] (an access out of bounds, a [NULL]
    dereference, the use of a value nothing initialised, one of the source's endless
    loops).  Functions that change state run in the state monad [M S]: [S] is the
    record of the global variables they use.  Integers are [Z], with the wrap-around
    of their width written out ([u8] to [u64], [s32], [s64]); arrays are lists
    indexed by [zget] and [zset], which fail out of range; a [char *] is the list of
    the bytes from it on, or a block and an offset where two pointers can meet.  The
    comment [src/...:first-last name] before a definition names the code it models.

    This file: outcomes, the monads, arrays, machine integers, the tactics
    ([run] executes one step of a computation, [inv_step] inverts one, [zcase] and
    [zbool] split integer tests) and the hint databases, and [keeps], a logic for the
    invariants a computation keeps.

    Memory.  [Memblock], [MemblockAlloc]: the early allocator ([memblock.c]): sorted
    arrays of ranges, insertion with merging, first fit.  [ListHead]: the intrusive
    lists of [list.h] at the level of their pointers.  [Buddy] with its invariant
    [BuddyInv], its start [BuddyBoot] and its contract [BuddySpec]: the page allocator
    of [mm.c].  [Slab], [SlabInv], [SlabSpec]: [slab.c], [kmalloc] and [kfree].
    [PageTable]: the page tables of processes, over an interface that [SlabKMem]
    discharges.  [BootTables]: the page table of the boot and what it maps.  [Dtb],
    [DtbSpec]: the device tree ([dtb.c]).  [Boot], [BootSpec]: [mm_init], which puts
    the allocators one on top of the other.

    Tasks.  [Sched], [SchedInv], [SchedSpec]: task pool, [schedule], context switch,
    signal delivery ([sched.c], [sched_.S], [signal.c]).  [Process], [ProcessSpec]:
    [fork], [exec], [exit], [kill], signals ([syscall.c], [exec.c]), on the words and
    bytes ([CMem]) of the kernel's memory.  [TaskInv]: what all of it keeps, and that the
    scheduler always comes to an end.  [SignalSpec]: a signal, its handler and the return.

    Interrupts.  [Queue]: the rings of the UART ([queue.c]).  [Tasklet]:
    [interrupt.c].  [Timer]: [timer.c].  [Exception], [ExceptionSpec]: the handlers
    of [exception.c] and the path of a system call from user mode and back.

    Files.  [FsData]: the objects.  [Vfs], [VfsSpec], [VfsMount]: [vfs.c] over the
    class [Ops] of file systems, proved against the laws [FsLaws].  [Tmpfs],
    [Initramfs], [Fat32]: the three file systems; [FsInv], [FsNodes], [TmpfsSpec],
    [FileSystems], [FsTree], [FileOps], [FsSpec], [InitramfsSpec], [RootFs]: the
    invariant of the objects, the laws discharged, what files and directories do through
    all the layers, and the tree the boot makes.  [FsSafe]: the weaker invariant that every
    operation keeps on whatever it is given, error or not.  [FatSpec], [FatMount], [FatFile]: the
    allocation table and the directories of a card, the tree a mount makes of them, its
    files.  [PathSpec]: absolute paths.

    Devices.  [Mmio]: registers of a device given by a class.  [SdCard], [SdSpec]: the
    driver of [sd.c], which refines the blocks [Fat32] is written on.  [Devices],
    [DevicesSpec]: mailbox, power, timers, UART set-up.  [Serial]: a UART as a port with
    a status register, which refines the lines [Kernel] has.

    The processor.  [Asm]: the instructions the assembly files use, on the registers and a
    memory of double words.  [Entry], [EntrySpec]: the exception vectors, the frame of an
    exception, the system call functions ([exception_.S], [syscall_.S]).  [SwitchSpec]:
    the context switch of [sched_.S] refines that of [Sched].  [Start]: [start.S].

    The boot loader, a program of its own under [bootloader/].  [Loader], [LoaderSpec].

    The rest.  [CString]: [string.c].  [Console], [ConsoleSpec]: [sprintf.c] and the
    output functions of [uart.c].  [Kernel]: the record of the whole state.  [Syscall],
    [SyscallSpec], [UserSpec]: the system calls on files, UART and mailbox, their table
    and its dispatch, and what a process sees of them.  [KernelInv]: the kernel as a
    transition system whose steps are system calls, interrupts and signal handlers, and
    the invariant of all its states.  [Initrd], [InitrdSpec]: the
    commands on the archive and starting a program of it.  [Shell], [ShellSpec]: the
    commands of [shell.c] and the demonstration of the UART it can start.  [Main],
    [MainSpec]: [main] on the state of the whole system, from what the firmware leaves to
    the first task.  [Demo]: the other demonstrations of [demo.c] and the
    functions that only report.

    ** What the theorems show

    The kernel comes from the firmware to its shell with every part in its invariant
    ([main_spec]), and no order of system calls, signals and interrupts takes it out
    of the one the tasks, the files, the timers and the queues have, in which every
    interrupt is served and every lookup ends ([kernel_safe]). The allocators never
    hand out memory that is in use, reserved or not there ([client_run_safe],
    [held_disjoint], [mm_init_spec]); allocation and free restore the free memory
    ([alloc_free_roundtrip]); mapping a range gives its translation and nothing else
    ([map_pages_spec]). The scheduler picks the runnable task with the largest counter
    and every runnable task runs in bounded time ([schedule_spec], [no_starvation]); a
    signal takes one page and gives it back when its handler returns
    ([signal_roundtrip]).
    Path lookup is the walk over the components of the path across the mounts, and
    what a process writes to a file is what it reads back, from the [svc] on
    ([vfs_lookup_spec], [user_file_roundtrip]). A mounted card gives the tree of its
    directories and the bytes of its files ([fat32_mount_spec],
    [fat_file_roundtrip]). The drivers implement the blocks and characters the layers
    above are written on ([sd_refines], [queue_refines_fifo], [uart_refines]), the
    assembly the functions the C model calls ([switch_to_refines]); an interrupt
    leaves no trace in what it interrupts ([irq_transparent]). An image sent to the
    boot loader is what it starts ([load_image_spec]). Where the code does not do what
    it means to, the theorem states what it does, or has the hypothesis under which it
    is right.

    ** Fuel

    A loop that is not structural has fuel.  Where the code bounds the loop, so does
    the model (the orders of the buddy allocator, the entries of a directory, the
    length of a string or of the archive).  Where it does not (a search, a retry, a
    walk along a chain), the theorems say how much is enough: the number of pairs of
    neighbouring ranges for the early allocator, the depth of the directories and the
    length of their chains for a FAT32 card, the number of transfers that fail for
    the SD card, the time to wait for a timer.  [NoFuel] is never the outcome the
    theorems state.

    ** Not modelled

    The translation of addresses by the processor and its caches; the code of user
    programs but the one that forks; floating point.
    Console messages of functions whose purpose is not output.  The allocation of the
    objects of the file systems is by fresh keys: that [kmalloc] returns memory nobody
    holds is proved of its own model. *)
From stdpp Require Export base numbers list gmap.
From stdpp Require Import options.
From Stdlib Require Export ZArith Lia.
#[global] Open Scope Z_scope.
#[export] Set Warnings "-clear-no-such-hyp".

(** * Outcomes and the state monad *)

(** What the C program may run into instead of returning: an access outside an
    array or an object, a dereference of [NULL], the use of a value nothing
    initialised, one of the source's deliberate [while (1);] loops, and, for a
    loop modelled with fuel, the exhaustion of that fuel. *)
Inductive fault :=
  | OutOfBounds
  | NullDeref
  | Uninit
  | Hang
  | NoFuel.

Inductive res (A : Type) :=
  | Ok (a : A)
  | Err (f : fault).

Arguments Ok {A} a.
Arguments Err {A} f.

#[global] Instance fault_eq_dec : EqDecision fault.
Proof. solve_decision. Defined.

#[global] Instance res_eq_dec {A} `{EqDecision A} : EqDecision (res A).
Proof. solve_decision. Defined.

#[global] Instance res_ret : MRet res := fun A a => Ok a.
#[global] Instance res_bind : MBind res :=
  fun A B k m => match m with Ok a => k a | Err f => Err f end.

(** [M S A]: a computation that may read and write a state of type [S]. *)
Definition M (S A : Type) : Type := S -> res (A * S).

#[global] Instance M_ret {S} : MRet (M S) := fun A a s => Ok (a, s).
#[global] Instance M_bind {S} : MBind (M S) :=
  fun A B k m s => match m s with Ok (a, s') => k a s' | Err f => Err f end.

Definition get {S} : M S S := fun s => Ok (s, s).
Definition put {S} (s : S) : M S unit := fun _ => Ok (tt, s).
Definition gets {S A} (f : S -> A) : M S A := fun s => Ok (f s, s).
Definition modify {S} (f : S -> S) : M S unit := fun s => Ok (tt, f s).
Definition fail {S A} (f : fault) : M S A := fun _ => Err f.
Definition lift_opt {S A} (f : fault) (o : option A) : M S A :=
  fun s => match o with Some a => Ok (a, s) | None => Err f end.

(** An optional value as an outcome. *)
Definition opt_res {A} (f : fault) (o : option A) : res A :=
  match o with Some a => Ok a | None => Err f end.

(** * Arrays *)

(** C arrays as lists, indexed by [Z]; an index outside the array is an
    [OutOfBounds] outcome, never a default value. *)
Definition zget {A} (l : list A) (i : Z) : option A :=
  if (0 <=? i) then l !! Z.to_nat i else None.

Definition zset {A} (l : list A) (i : Z) (v : A) : option (list A) :=
  if (0 <=? i) && (i <? Z.of_nat (length l)) then Some (<[Z.to_nat i := v]> l) else None.

Declare Scope kernel_scope.
Delimit Scope kernel_scope with K.
Notation "l .[ i ]" := (zget l i) (at level 1, left associativity, format "l .[ i ]") : kernel_scope.
Notation "l .[ i := v ]" := (zset l i v) (at level 1, left associativity, format "l .[ i  :=  v ]")
  : kernel_scope.
#[global] Open Scope kernel_scope.

(** * Machine integers *)

Definition u8 (x : Z) : Z := x mod 2 ^ 8.
Definition u16 (x : Z) : Z := x mod 2 ^ 16.
Definition u32 (x : Z) : Z := x mod 2 ^ 32.
Definition u64 (x : Z) : Z := x mod 2 ^ 64.

(** Conversion to a two's complement integer. *)
Definition s32 (x : Z) : Z := (x + 2 ^ 31) mod 2 ^ 32 - 2 ^ 31.
Definition s64 (x : Z) : Z := (x + 2 ^ 63) mod 2 ^ 64 - 2 ^ 63.

(* [src/library/kernel.h:44-44 ALIGN] *)
Definition ALIGN (x a : Z) : Z := u64 (Z.land (x + a - 1) (Z.lnot (a - 1))).

(** * Automation *)

Create HintDb kernel.
Create Rewrite HintDb kernel.

(** Case analysis on a monadic bind that returned: [E] is the equation of its
    first part, whose result is destructed by the pattern. *)
Tactic Notation "inv_bind" hyp(H) "as" simple_intropattern(p) ident(E) :=
  lazymatch type of H with
  | mbind ?k ?m ?s = Ok _ =>
      unfold mbind, M_bind in H; destruct (m s) as [p|?] eqn:E; [|discriminate H]
  | mbind ?k ?m = Ok _ =>
      unfold mbind, res_bind in H; destruct m as [p|?] eqn:E; [|discriminate H]
  end.

(** One step of a monadic computation whose first part is known to return. *)
Lemma bind_ok {S A B} (k : A -> M S B) (m : M S A) s a s' :
  m s = Ok (a, s') -> mbind k m s = k a s'.
Proof. unfold mbind, M_bind. by intros ->. Qed.

Lemma bind_err {S A B} (k : A -> M S B) (m : M S A) s f :
  m s = Err f -> mbind k m s = Err f.
Proof. unfold mbind, M_bind. by intros ->. Qed.

Lemma bind_inv {S A B} (k : A -> M S B) (m : M S A) s r :
  mbind k m s = Ok r -> exists a s', m s = Ok (a, s') /\ k a s' = Ok r.
Proof. unfold mbind, M_bind. destruct (m s) as [[a s']|f]; [|done]. by exists a, s'. Qed.

Lemma bind_err_inv {S A B} (k : A -> M S B) (m : M S A) s f :
  mbind k m s = Err f -> m s = Err f \/ exists a s', m s = Ok (a, s') /\ k a s' = Err f.
Proof.
  unfold mbind, M_bind. destruct (m s) as [[a s']|f']; intros E; [right; by exists a, s'|left; congruence].
Qed.

Lemma gets_ok {S A} (f : S -> A) s : gets f s = Ok (f s, s).
Proof. done. Qed.

Lemma res_bind_ok {A B} (k : A -> res B) a : mbind k (Ok a) = k a.
Proof. done. Qed.

(** The first step of a monadic computation that returned. *)
Tactic Notation "inv_step" hyp(H) "as" simple_intropattern(a) simple_intropattern(s) ident(E) :=
  apply bind_inv in H as (a & s & E & H); cbv beta zeta in H.

Ltac run E := rewrite (bind_ok _ _ _ _ _ E); cbv beta.

(** Turn the boolean integer tests of the context and goal into propositions. *)
Ltac zbool :=
  repeat match goal with
  | H : (_ <=? _) = true |- _ => apply Z.leb_le in H
  | H : (_ <=? _) = false |- _ => apply Z.leb_gt in H
  | H : (_ <? _) = true |- _ => apply Z.ltb_lt in H
  | H : (_ <? _) = false |- _ => apply Z.ltb_ge in H
  | H : (_ =? _) = true |- _ => apply Z.eqb_eq in H
  | H : (_ =? _) = false |- _ => apply Z.eqb_neq in H
  | H : (_ && _) = true |- _ => apply andb_true_iff in H; destruct H
  | H : (_ || _) = false |- _ => apply orb_false_iff in H; destruct H
  | H : negb _ = true |- _ => apply negb_true_iff in H
  | H : negb _ = false |- _ => apply negb_false_iff in H
  end.

(** Split the first integer test of the goal, recording its meaning. *)
Ltac zcase :=
  match goal with
  | |- context [?a <=? ?b] => destruct (Z.leb_spec a b)
  | |- context [?a <? ?b] => destruct (Z.ltb_spec a b)
  | |- context [?a =? ?b] => destruct (Z.eqb_spec a b)
  end; cbn [andb orb negb].

(** Equality of two constructor or record terms up to arithmetic in their leaves. *)
Ltac feq := first [reflexivity | lia | progress f_equal; feq].

(** * Lemmas on machine integers *)

Lemma u8_small x : 0 <= x < 2 ^ 8 -> u8 x = x.
Proof. apply Z.mod_small. Qed.
Lemma u16_small x : 0 <= x < 2 ^ 16 -> u16 x = x.
Proof. apply Z.mod_small. Qed.
Lemma u32_small x : 0 <= x < 2 ^ 32 -> u32 x = x.
Proof. apply Z.mod_small. Qed.
Lemma u64_small x : 0 <= x < 2 ^ 64 -> u64 x = x.
Proof. apply Z.mod_small. Qed.
Lemma u8_range x : 0 <= u8 x < 2 ^ 8.
Proof. apply Z.mod_pos_bound; lia. Qed.
Lemma u16_range x : 0 <= u16 x < 2 ^ 16.
Proof. apply Z.mod_pos_bound; lia. Qed.
Lemma u32_range x : 0 <= u32 x < 2 ^ 32.
Proof. apply Z.mod_pos_bound; lia. Qed.
Lemma u64_range x : 0 <= u64 x < 2 ^ 64.
Proof. apply Z.mod_pos_bound; lia. Qed.
Lemma s32_small x : - 2 ^ 31 <= x < 2 ^ 31 -> s32 x = x.
Proof. intros H. unfold s32. rewrite Z.mod_small by lia. lia. Qed.
Lemma s64_small x : - 2 ^ 63 <= x < 2 ^ 63 -> s64 x = x.
Proof. intros H. unfold s64. rewrite Z.mod_small by lia. lia. Qed.
Lemma s32_range x : - 2 ^ 31 <= s32 x < 2 ^ 31.
Proof. unfold s32. pose proof (Z.mod_pos_bound (x + 2 ^ 31) (2 ^ 32)). lia. Qed.

Lemma u64_add_l x y : u64 (u64 x + y) = u64 (x + y).
Proof. unfold u64. rewrite Z.add_mod_idemp_l; [done|lia]. Qed.
Lemma u64_add_r x y : u64 (x + u64 y) = u64 (x + y).
Proof. unfold u64. rewrite Z.add_mod_idemp_r; [done|lia]. Qed.

#[export] Hint Rewrite u64_small u32_small u16_small u8_small using lia : kernel.
#[export] Hint Resolve u8_range u16_range u32_range u64_range s32_range : kernel.

Lemma land_lnot_ones x k : 0 <= k -> Z.land x (Z.lnot (2 ^ k - 1)) = x / 2 ^ k * 2 ^ k.
Proof.
  intros Hk.
  replace (2 ^ k - 1) with (Z.ones k) by (rewrite Z.ones_equiv; lia).
  rewrite <-Z.ldiff_land, Z.ldiff_ones_r, Z.shiftl_mul_pow2, Z.shiftr_div_pow2 by lia. done.
Qed.

Lemma pow2_pos k : 0 <= k -> 0 < 2 ^ k.
Proof. intros. apply Z.pow_pos_nonneg; lia. Qed.

Lemma pow2_divide k o : 0 <= k <= o -> (2 ^ k | 2 ^ o).
Proof. intros H. exists (2 ^ (o - k)). rewrite <-Z.pow_add_r by lia. f_equal. lia. Qed.

(** Multiples of [d] are [d] apart. *)
Lemma multiple_gap d a b : 0 < d -> (d | a) -> (d | b) -> a < b -> a + d <= b.
Proof.
  intros Hd [x ->] [y ->] H. apply Z.mul_lt_mono_pos_r in H; [|done].
  replace (x * d + d) with ((x + 1) * d) by lia. apply Z.mul_le_mono_nonneg_r; lia.
Qed.

(** Two aligned blocks that share an address are nested. *)
Lemma aligned_nested k o c b x :
  0 <= k <= o -> (2 ^ k | c) -> (2 ^ o | b) -> c <= x < c + 2 ^ k -> b <= x < b + 2 ^ o ->
  b <= c /\ c + 2 ^ k <= b + 2 ^ o.
Proof.
  intros Hk Hc Hb Hx Hx'. pose proof (pow2_pos k ltac:(lia)) as Hp.
  pose proof (pow2_divide k o Hk) as Hd.
  assert (Hb' : (2 ^ k | b)) by (by transitivity (2 ^ o)).
  split.
  - destruct (Z.le_gt_cases b c) as [|Hlt]; [done|].
    pose proof (multiple_gap _ _ _ Hp Hc Hb' Hlt). lia.
  - assert (Hbe : (2 ^ k | b + 2 ^ o)) by (by apply Z.divide_add_r).
    apply (multiple_gap _ _ _ Hp Hc Hbe). lia.
Qed.

(** Bits of two words that do not overlap add up. *)
Lemma lor_shift a b k : 0 <= k -> 0 <= a < 2 ^ k -> Z.lor a (b * 2 ^ k) = a + b * 2 ^ k.
Proof.
  intros Hk Ha. assert (Hz : Z.land a (b * 2 ^ k) = 0).
  { apply Z.bits_inj'. intros i Hi. rewrite Z.land_spec, Z.bits_0.
    destruct (Z.lt_ge_cases i k).
    - rewrite Z.mul_pow2_bits_low by lia. apply andb_false_r.
    - rewrite <-(Z.mod_small a (2 ^ k)), Z.mod_pow2_bits_high by lia. done. }
  by rewrite <-Z.lxor_lor, <-Z.add_nocarry_lxor.
Qed.

(** [ALIGN] rounds up to a multiple of a power of two when nothing overflows. *)
Lemma ALIGN_spec x k :
  0 <= k < 64 -> 0 <= x -> x + 2 ^ k - 1 < 2 ^ 64 ->
  x <= ALIGN x (2 ^ k) < x + 2 ^ k /\ (2 ^ k | ALIGN x (2 ^ k)).
Proof.
  intros Hk Hx Ho. unfold ALIGN. rewrite land_lnot_ones by lia.
  assert (0 < 2 ^ k) by (apply Z.pow_pos_nonneg; lia).
  pose proof (Z.div_mod (x + 2 ^ k - 1) (2 ^ k)).
  pose proof (Z.mod_pos_bound (x + 2 ^ k - 1) (2 ^ k)).
  pose proof (Z.div_pos (x + 2 ^ k - 1) (2 ^ k)).
  rewrite u64_small by nia. split; [nia|apply Z.divide_factor_r].
Qed.

(** * Lemmas on arrays *)

Lemma zget_Some {A} (l : list A) i x :
  l.[i] = Some x <-> 0 <= i /\ l !! Z.to_nat i = Some x.
Proof. unfold zget. zcase; intuition (congruence || lia). Qed.

Lemma zget_lt {A} (l : list A) i x : l.[i] = Some x -> 0 <= i < Z.of_nat (length l).
Proof. rewrite zget_Some. intros [? ?%lookup_lt_Some]. lia. Qed.

Lemma zget_is_Some {A} (l : list A) i :
  0 <= i < Z.of_nat (length l) -> exists x, l.[i] = Some x.
Proof.
  intros H. destruct (lookup_lt_is_Some_2 l (Z.to_nat i)) as [x Hx]; [lia|].
  exists x. apply zget_Some. split; [lia|done].
Qed.

Lemma zset_ok {A} (l : list A) i v :
  0 <= i < Z.of_nat (length l) -> l.[i := v] = Some (<[Z.to_nat i := v]> l).
Proof. intros H. unfold zset. repeat zcase; (done || lia). Qed.

Lemma zset_Some {A} (l l' : list A) i v :
  l.[i := v] = Some l' <-> 0 <= i < Z.of_nat (length l) /\ l' = <[Z.to_nat i := v]> l.
Proof. unfold zset. repeat zcase; split; intros; intuition (congruence || lia). Qed.

Lemma zset_length {A} (l l' : list A) i v : l.[i := v] = Some l' -> length l' = length l.
Proof. rewrite zset_Some. intros [_ ->]. apply length_insert. Qed.

Lemma zget_zset_eq {A} (l l' : list A) i v : l.[i := v] = Some l' -> l'.[i] = Some v.
Proof.
  rewrite zset_Some. intros [? ->]. apply zget_Some. split; [lia|].
  apply list_lookup_insert_eq. lia.
Qed.

Lemma zget_zset_ne {A} (l l' : list A) i j v : l.[i := v] = Some l' -> i <> j -> l'.[j] = l.[j].
Proof.
  rewrite zset_Some. intros [? ->] ?. unfold zget. zcase; [|done].
  apply list_lookup_insert_ne. lia.
Qed.

Lemma zget_app_mid {A} (pre l : list A) x i :
  i = Z.of_nat (length pre) -> (pre ++ x :: l).[i] = Some x.
Proof.
  intros ->. apply zget_Some. split; [lia|].
  rewrite Nat2Z.id, lookup_app_r, Nat.sub_diag by lia. done.
Qed.

Lemma zset_app_mid {A} (pre l : list A) x y i :
  i = Z.of_nat (length pre) -> (pre ++ x :: l).[i := y] = Some (pre ++ y :: l).
Proof.
  intros ->. rewrite zset_ok by (rewrite length_app; cbn; lia). f_equal.
  rewrite Nat2Z.id, insert_app_r_alt, Nat.sub_diag by lia. done.
Qed.

(** [memmove] on an array of structures: [n] elements from [src] to [dst]. *)
Definition array_move {A} (l : list A) (dst src n : Z) : option (list A) :=
  if (0 <=? dst) && (0 <=? src) && (0 <=? n) &&
     (dst + n <=? Z.of_nat (length l)) && (src + n <=? Z.of_nat (length l))
  then Some (take (Z.to_nat dst) l ++ take (Z.to_nat n) (drop (Z.to_nat src) l)
             ++ drop (Z.to_nat (dst + n)) l)
  else None.

(** Opening a hole: the tail moves up by one, over the first unused slot. *)
Lemma array_move_up {A} (pre post junk : list A) j i n :
  i = Z.of_nat (length pre) -> n = Z.of_nat (length post) ->
  exists x, array_move (pre ++ post ++ j :: junk) (i + 1) i n = Some (pre ++ x :: post ++ junk).
Proof.
  intros -> ->. unfold array_move. rewrite !length_app, length_cons.
  do 5 (zcase; [|lia]).
  replace (Z.to_nat (Z.of_nat (length pre) + 1)) with (length pre + 1)%nat by lia.
  replace (Z.to_nat (Z.of_nat (length pre) + 1 + Z.of_nat (length post)))
    with (length pre + (length post + 1))%nat by lia.
  rewrite !Nat2Z.id, drop_app_length, take_app_length.
  rewrite take_app_add', drop_app_add' by done.
  exists (default j (head (post ++ [j]))). f_equal. rewrite <-app_assoc. f_equal.
  rewrite drop_app_add' by done. destruct post as [|p post]; done.
Qed.

(** Closing a hole: the tail moves down by one over [y]. *)
Lemma array_move_down {A} (pre post junk : list A) y i n :
  i = Z.of_nat (length pre) -> n = Z.of_nat (length post) ->
  exists junk', length junk' = S (length junk) /\
    array_move (pre ++ y :: post ++ junk) i (i + 1) n = Some (pre ++ post ++ junk').
Proof.
  intros -> ->. unfold array_move. rewrite !length_app, length_cons, length_app.
  do 5 (zcase; [|lia]).
  replace (Z.to_nat (Z.of_nat (length pre) + 1)) with (length pre + 1)%nat by lia.
  replace (Z.to_nat (Z.of_nat (length pre) + Z.of_nat (length post)))
    with (length pre + length post)%nat by lia.
  rewrite !Nat2Z.id, take_app_length, !drop_app_add' by done. cbn [skipn]. rewrite drop_0.
  rewrite take_app_length.
  eexists. split; [|reflexivity]. rewrite length_drop, length_cons, length_app. lia.
Qed.

(** * Keeping an invariant *)

(** A small logic of partial correctness for the state monad, with the automation that
    follows the structure of a computation. *)
Section Keeps.
Context {S : Type} (I : S -> Prop).

(** [m] keeps [I], and its result has [Q]. *)
Definition keeps {A} (m : M S A) (Q : A -> Prop) : Prop := forall s a s', I s -> m s = Ok (a, s') -> I s' /\ Q a.

Lemma keeps_ret {A} (a : A) (Q : A -> Prop) : Q a -> keeps (mret a) Q.
Proof. intros Hq s x s' Hs E. injection E as <- <-. done. Qed.

Lemma keeps_bind {A B} (m : M S A) (k : A -> M S B) P Q :
  keeps m P -> (forall a, P a -> keeps (k a) Q) -> keeps (a ← m; k a) Q.
Proof. intros Hm Hk s b s' Hs E. inv_step E as a s1 E1. destruct (Hm s a s1 Hs E1). by apply (Hk a) in E. Qed.

(** The usual case: nothing is said of the result of the first part. *)
Lemma keeps_then {A B} (m : M S A) (k : A -> M S B) Q :
  keeps m (fun _ => True) -> (forall a, keeps (k a) Q) -> keeps (a ← m; k a) Q.
Proof. intros Hm Hk. by apply (keeps_bind _ _ (fun _ => True)). Qed.

Lemma keeps_weaken {A} (m : M S A) (P Q : A -> Prop) : (forall a, P a -> Q a) -> keeps m P -> keeps m Q.
Proof. intros HPQ Hm s a s' Hs E. destruct (Hm s a s' Hs E). auto. Qed.

Lemma keeps_pure {A} (m : M S A) (Q : A -> Prop) : (forall s a s', m s = Ok (a, s') -> s' = s /\ (I s -> Q a)) -> keeps m Q.
Proof. intros H s a s' Hs E. destruct (H s a s' E) as [-> Hq]. auto. Qed.

Lemma keeps_gets {A} (f : S -> A) : keeps (gets f) (fun _ => True).
Proof. apply keeps_pure. intros s a s' E. by injection E as <- <-. Qed.

Lemma keeps_fail {A} f (Q : A -> Prop) : keeps (fail f) Q.
Proof. intros s a s' _ E. discriminate E. Qed.

Lemma keeps_lift {A} f (o : option A) (Q : A -> Prop) : (forall x, o = Some x -> Q x) -> keeps (lift_opt f o) Q.
Proof. intros H. apply keeps_pure. unfold lift_opt. intros s a s' E. destruct o; [|done]. injection E as <- <-. auto. Qed.

Lemma keeps_modify f : (forall s, I s -> I (f s)) -> keeps (modify f) (fun _ => True).
Proof. intros H s a s' Hs E. injection E as _ <-. auto. Qed.

(** A computation that only brings a result to the state. *)
Lemma keeps_lift_res {A} (r : res A) (m : M S A) (Q : A -> Prop) :
  (forall s, m s = match r with Ok a => Ok (a, s) | Err f => Err f end) -> (forall a, r = Ok a -> Q a) -> keeps m Q.
Proof. intros Hm HQ. apply keeps_pure. intros s a s' E. rewrite Hm in E. destruct r; [|done]. injection E as <- <-. auto. Qed.

Lemma keeps_any {A} (m : M S A) P : keeps m P -> keeps m (fun _ => True).
Proof. by apply keeps_weaken. Qed.
End Keeps.

Create HintDb keeps.
#[export] Hint Resolve keeps_gets keeps_fail : keeps.
#[export] Hint Extern 1 (keeps _ (mret _) _) => apply keeps_ret; exact Logic.I : keeps.
#[export] Hint Extern 1 (keeps _ (lift_opt _ _) _) => apply keeps_lift; intros; exact Logic.I : keeps.

(** One step along a computation of which nothing is said but that it keeps the invariant. *)
Ltac keep_step :=
  first
    [ progress intros
    | solve [eauto 2 with keeps]
    | lazymatch goal with
      | |- keeps _ (match ?x with _ => _ end) _ => destruct x
      | |- keeps _ (_ ≫= _) _ => apply keeps_then
      end ].
Ltac keep := repeat keep_step.
