(* ===== verification/ListHead.v ===== *)
(** Circular doubly linked lists: [src/library/list.h].

    Nodes are named by keys of a countable type; the heap maps each existing
    [struct list_head] to its two pointers.  The operations are the inline
    functions of the header, assignment by assignment.  [dll h hd xs] says that
    [hd] heads the circular list whose entries are [xs], and the lemmas give the
    effect of each operation on it together with its frame. *)
From S2P Require Import Prelude.

(** * The nodes and the operations *)

(* [src/library/list.h:46-48 list_head] *)
Record list_head (K : Type) := ListNode { next : option K; prev : option K }.

Arguments ListNode {K} next prev.
Arguments next {K} l.
Arguments prev {K} l.

Abbreviation lheap K := (gmap K (list_head K)).

Section Ops.
Context {K : Type} `{Countable K}.
Implicit Types (h : lheap K).

(** Reading and writing through a possibly null pointer. *)
Definition node_at h (p : option K) : res (list_head K) :=
  match p with
  | None => Err NullDeref
  | Some a => opt_res OutOfBounds (h !! a)
  end.

Definition set_next (p : option K) (v : option K) h : res (lheap K) :=
  match p with
  | None => Err NullDeref
  | Some a => n ← opt_res OutOfBounds (h !! a); Ok (<[a := ListNode v (prev n)]> h)
  end.

Definition set_prev (p : option K) (v : option K) h : res (lheap K) :=
  match p with
  | None => Err NullDeref
  | Some a => n ← opt_res OutOfBounds (h !! a); Ok (<[a := ListNode (next n) v]> h)
  end.

(* [src/library/list.h:50-54 INIT_LIST_HEAD] *)
Definition INIT_LIST_HEAD (list : K) h : res (lheap K) :=
  h ← set_next (Some list) (Some list) h;
  set_prev (Some list) (Some list) h.

(* [src/library/list.h:56-59 list_empty] *)
Definition list_empty h (head : K) : res bool :=
  n ← node_at h (Some head);
  Ok (bool_decide (next n = Some head)).

(* [src/library/list.h:61-67 __list_add] *)
Definition __list_add (new : K) (prv nxt : option K) h : res (lheap K) :=
  h ← set_prev nxt (Some new) h;
  h ← set_next (Some new) nxt h;
  h ← set_prev (Some new) prv h;
  set_next prv (Some new) h.

(* [src/library/list.h:69-72 list_add] *)
Definition list_add (new head : K) h : res (lheap K) :=
  n ← node_at h (Some head);
  __list_add new (Some head) (next n) h.

(* [src/library/list.h:74-77 list_add_tail] *)
Definition list_add_tail (new head : K) h : res (lheap K) :=
  n ← node_at h (Some head);
  __list_add new (prev n) (Some head) h.

(* [src/library/list.h:79-83 __list_del] *)
Definition __list_del (prv nxt : option K) h : res (lheap K) :=
  h ← set_prev nxt prv h;
  set_next prv nxt h.

(* [src/library/list.h:85-90 list_del] *)
Definition list_del (entry : K) h : res (lheap K) :=
  n ← node_at h (Some entry);
  h ← __list_del (prev n) (next n) h;
  h ← set_next (Some entry) None h;
  set_prev (Some entry) None h.

(** [list_first_entry]: the node after the head. *)
(* [src/library/list.h:37-38 list_first_entry] *)
Definition list_first_entry h (head : K) : res (option K) :=
  n ← node_at h (Some head);
  Ok (next n).

(** * The represented sequence *)

Definition nxt h (a : K) : option K := h !! a ≫= next.
Definition prv h (a : K) : option K := h !! a ≫= prev.

Fixpoint seg h (a : K) (xs : list K) (b : K) : Prop :=
  match xs with
  | [] => nxt h a = Some b /\ prv h b = Some a
  | x :: xs => nxt h a = Some x /\ prv h x = Some a /\ seg h x xs b
  end.

Definition dll h (hd : K) (xs : list K) : Prop := NoDup (hd :: xs) /\ seg h hd xs hd.

(** [h'] differs from [h] on the nodes of [xs] only. *)
Definition same_off h h' (xs : list K) : Prop :=
  forall a, a ∉ xs -> nxt h' a = nxt h a /\ prv h' a = prv h a.

End Ops.

Arguments set_next : simpl never.
Arguments set_prev : simpl never.

(** * Pointwise effect of the pointer assignments *)

Section Facts.
Context {K : Type} `{Countable K}.
Implicit Types (h : lheap K) (a b x y hd : K) (xs ys : list K).

Lemma nxt_is_Some h a b : nxt h a = Some b -> is_Some (h !! a).
Proof. unfold nxt. destruct (h !! a); [eauto|discriminate]. Qed.
Lemma prv_is_Some h a b : prv h a = Some b -> is_Some (h !! a).
Proof. unfold prv. destruct (h !! a); [eauto|discriminate]. Qed.

Lemma set_next_ok h a v :
  is_Some (h !! a) ->
  exists h', set_next (Some a) v h = Ok h' /\ dom h' = dom h /\
    (forall b, nxt h' b = if decide (b = a) then v else nxt h b) /\
    (forall b, prv h' b = prv h b).
Proof.
  intros [n Hn]. unfold set_next. rewrite Hn. cbn. eexists. split; [done|].
  split; [|split; intros b; unfold nxt, prv].
  - apply dom_insert_lookup_L. eauto.
  - rewrite lookup_insert. repeat case_decide; naive_solver.
  - rewrite lookup_insert. repeat case_decide; subst; rewrite ?Hn; done.
Qed.

Lemma set_prev_ok h a v :
  is_Some (h !! a) ->
  exists h', set_prev (Some a) v h = Ok h' /\ dom h' = dom h /\
    (forall b, prv h' b = if decide (b = a) then v else prv h b) /\
    (forall b, nxt h' b = nxt h b).
Proof.
  intros [n Hn]. unfold set_prev. rewrite Hn. cbn. eexists. split; [done|].
  split; [|split; intros b; unfold nxt, prv].
  - apply dom_insert_lookup_L. eauto.
  - rewrite lookup_insert. repeat case_decide; naive_solver.
  - rewrite lookup_insert. repeat case_decide; subst; rewrite ?Hn; done.
Qed.

Lemma dom_is_Some h h' a : dom h' = dom h -> is_Some (h !! a) -> is_Some (h' !! a).
Proof. intros E. rewrite <-!elem_of_dom, E. done. Qed.

Lemma __list_add_ok h new p n :
  is_Some (h !! new) -> is_Some (h !! p) -> is_Some (h !! n) -> new <> p -> new <> n ->
  exists h', __list_add new (Some p) (Some n) h = Ok h' /\ dom h' = dom h /\
    (forall a, nxt h' a =
       if decide (a = p) then Some new else if decide (a = new) then Some n else nxt h a) /\
    (forall a, prv h' a =
       if decide (a = n) then Some new else if decide (a = new) then Some p else prv h a).
Proof.
  intros Hnew Hp Hn N1 N2. unfold __list_add.
  destruct (set_prev_ok h n (Some new)) as (h1 & -> & D1 & P1 & X1); [done|]; cbn.
  destruct (set_next_ok h1 new (Some n)) as (h2 & -> & D2 & X2 & P2);
    [by eapply dom_is_Some|]; cbn.
  destruct (set_prev_ok h2 new (Some p)) as (h3 & -> & D3 & P3 & X3);
    [eapply dom_is_Some; [|exact Hnew]; congruence|]; cbn.
  destruct (set_next_ok h3 p (Some new)) as (h4 & -> & D4 & X4 & P4);
    [eapply dom_is_Some; [|exact Hp]; congruence|].
  exists h4. split_and!; [done|congruence|intros a..].
  - rewrite X4, X3, X2, X1. repeat case_decide; congruence.
  - rewrite P4, P3, P2, P1. repeat case_decide; congruence.
Qed.

Lemma list_del_ok h e p n :
  nxt h e = Some n -> prv h e = Some p -> is_Some (h !! p) -> is_Some (h !! n) ->
  e <> p -> e <> n ->
  exists h', list_del e h = Ok h' /\ dom h' = dom h /\
    (forall a, nxt h' a =
       if decide (a = e) then None else if decide (a = p) then Some n else nxt h a) /\
    (forall a, prv h' a =
       if decide (a = e) then None else if decide (a = n) then Some p else prv h a).
Proof.
  intros He1 He2 Hp Hn N1 N2. unfold list_del, __list_del, node_at.
  pose proof (nxt_is_Some _ _ _ He1) as Hse. destruct Hse as [v Hv].
  rewrite Hv. cbn. unfold nxt, prv in He1, He2. rewrite Hv in He1, He2. cbn in He1, He2.
  rewrite He1, He2.
  destruct (set_prev_ok h n (Some p)) as (h1 & -> & D1 & P1 & X1); [done|]; cbn.
  destruct (set_next_ok h1 p (Some n)) as (h2 & -> & D2 & X2 & P2);
    [by eapply dom_is_Some|]; cbn.
  destruct (set_next_ok h2 e None) as (h3 & -> & D3 & X3 & P3);
    [eapply dom_is_Some; [|exists v; exact Hv]; congruence|]; cbn.
  destruct (set_prev_ok h3 e None) as (h4 & -> & D4 & P4 & X4);
    [eapply dom_is_Some; [|exists v; exact Hv]; congruence|].
  exists h4. split_and!; [done|congruence|intros a..].
  - rewrite X4, X3, X2, X1. repeat case_decide; congruence.
  - rewrite P4, P3, P2, P1. repeat case_decide; congruence.
Qed.

(** * Segments *)

Lemma seg_app h a b x xs ys :
  seg h a (xs ++ x :: ys) b <-> seg h a xs x /\ seg h x ys b.
Proof. revert a. induction xs as [|z xs IH]; intros a; cbn; [|rewrite IH]; tauto. Qed.

Lemma seg_ext h h' a b xs :
  (forall y, y ∈ a :: xs -> nxt h' y = nxt h y) ->
  (forall y, y ∈ xs ++ [b] -> prv h' y = prv h y) ->
  seg h a xs b -> seg h' a xs b.
Proof.
  revert a. induction xs as [|x xs IH]; intros a Hn Hp; cbn.
  - intros [??]. rewrite Hn, Hp by set_solver. done.
  - intros (?&?&?). rewrite Hn, Hp by set_solver. split_and!; [done..|].
    apply IH; set_solver.
Qed.

Lemma dll_dom h hd xs y : dll h hd xs -> y ∈ hd :: xs -> is_Some (h !! y).
Proof.
  intros [_ Hs]. revert Hs. generalize hd at 1 3 as a. generalize hd as b. intros b a.
  revert a. induction xs as [|x xs IH]; intros a; cbn.
  - intros [E _] ->%list_elem_of_singleton. by eapply nxt_is_Some.
  - intros (E & _ & Hs) [->|Hy]%elem_of_cons; [by eapply nxt_is_Some|]. by eapply IH.
Qed.

Lemma dll_next h hd xs : dll h hd xs -> nxt h hd = Some (default hd (head xs)).
Proof. intros [_ Hs]. destruct xs; cbn in Hs; naive_solver. Qed.

Lemma dll_prev h hd xs : dll h hd xs -> prv h hd = Some (default hd (last xs)).
Proof.
  intros [_ Hs]. destruct xs as [|x xs _] using rev_ind; [cbn in Hs; naive_solver|].
  rewrite last_snoc. apply seg_app in Hs as [_ Hs]. cbn in *. naive_solver.
Qed.

Lemma dll_frame h h' hd xs ys :
  same_off h h' ys -> (forall y, y ∈ hd :: xs -> y ∉ ys) -> dll h hd xs -> dll h' hd xs.
Proof.
  intros Ho Hd [Hnd Hs]. split; [done|]. revert Hs.
  apply seg_ext; intros y Hy; apply Ho, Hd; set_solver.
Qed.

Lemma node_at_nxt h a v : h !! a = Some v -> nxt h a = next v.
Proof. unfold nxt. by intros ->. Qed.
Lemma node_at_prv h a v : h !! a = Some v -> prv h a = prev v.
Proof. unfold prv. by intros ->. Qed.

(** * What each operation does to the represented sequence *)

Lemma INIT_LIST_HEAD_ok h a :
  is_Some (h !! a) ->
  exists h', INIT_LIST_HEAD a h = Ok h' /\ dom h' = dom h /\ dll h' a [] /\ same_off h h' [a].
Proof.
  intros Ha. unfold INIT_LIST_HEAD.
  destruct (set_next_ok h a (Some a)) as (h1 & -> & D1 & X1 & P1); [done|]; cbn.
  destruct (set_prev_ok h1 a (Some a)) as (h2 & -> & D2 & P2 & X2);
    [by eapply dom_is_Some|].
  exists h2. split_and!; [done|congruence| |].
  - split; [apply NoDup_singleton|]. cbn. rewrite X2, X1, P2.
    rewrite !decide_True by done. done.
  - intros b Hb. rewrite X2, X1, P2, P1. rewrite !decide_False by set_solver. done.
Qed.

Lemma list_empty_ok h hd xs :
  dll h hd xs -> list_empty h hd = Ok (bool_decide (xs = [])).
Proof.
  intros Hd. pose proof (dll_dom _ _ _ hd Hd) as [v Hv]; [set_solver|].
  unfold list_empty, node_at. rewrite Hv. cbn.
  pose proof (dll_next _ _ _ Hd) as E. rewrite (node_at_nxt _ _ _ Hv) in E. rewrite E.
  f_equal. apply bool_decide_ext. destruct Hd as [Hnd _].
  destruct xs as [|x xs]; cbn; [done|]. split; [|discriminate].
  intros [= ->]. apply NoDup_cons in Hnd. set_solver.
Qed.

Lemma list_first_entry_ok h hd xs :
  dll h hd xs -> list_first_entry h hd = Ok (Some (default hd (head xs))).
Proof.
  intros Hd. pose proof (dll_dom _ _ _ hd Hd) as [v Hv]; [set_solver|].
  unfold list_first_entry, node_at. rewrite Hv. cbn.
  rewrite <-(dll_next _ _ _ Hd). by rewrite (node_at_nxt _ _ _ Hv).
Qed.

(** A pointer outside the neighbourhood of a change is untouched. *)
Local Ltac by_untouched X P :=
  first [rewrite X | rewrite P]; rewrite !decide_False; [done|..]; clear X P; set_solver.

(** The reasoning shared by the three mutators: rewrite with the pointwise
    description of the new heap and let the distinctness facts decide. *)
Local Ltac by_pointwise X P :=
  rewrite ?X, ?P; repeat (case_decide; subst); set_solver.

Lemma list_add_ok h hd xs new :
  dll h hd xs -> is_Some (h !! new) -> new ∉ hd :: xs ->
  exists h', list_add new hd h = Ok h' /\ dom h' = dom h /\ dll h' hd (new :: xs) /\
    same_off h h' (new :: hd :: xs).
Proof.
  intros Hd Hnew Hni. pose proof Hd as [Hnd Hs].
  pose proof (dll_dom _ _ _ hd Hd) as [v Hv]; [set_solver|].
  pose proof (dll_next _ _ _ Hd) as E. rewrite (node_at_nxt _ _ _ Hv) in E.
  unfold list_add, node_at. rewrite Hv. cbn. rewrite E.
  set (n := default hd (head xs)) in *.
  assert (Hn : n ∈ hd :: xs) by (subst n; destruct xs; set_solver).
  destruct (__list_add_ok h new hd n) as (h' & -> & D & X & P);
    [done|eauto|by eapply dll_dom|set_solver|set_solver|].
  exists h'. split_and!; [done..| |].
  - split.
    { apply NoDup_cons in Hnd as [??]. rewrite !NoDup_cons. set_solver. }
    apply NoDup_cons in Hnd as [Hhd Hxs]. cbn. rewrite X, P.
    rewrite decide_True by done. split; [done|].
    rewrite (decide_False (P := new = n)), decide_True by set_solver. split; [done|].
    destruct xs as [|x xs]; cbn in n, Hs |- *; subst n.
    + rewrite X, P, decide_False, !decide_True by set_solver. done.
    + destruct Hs as (_ & _ & Hs). apply NoDup_cons in Hxs as [??].
      rewrite X, P, decide_False, !decide_True by set_solver. split_and!; [done..|].
      revert Hs. apply seg_ext; intros y Hy; by_pointwise X P.
  - intros a Ha. rewrite X, P. rewrite !decide_False by set_solver. done.
Qed.

Lemma list_add_tail_ok h hd xs new :
  dll h hd xs -> is_Some (h !! new) -> new ∉ hd :: xs ->
  exists h', list_add_tail new hd h = Ok h' /\ dom h' = dom h /\ dll h' hd (xs ++ [new]) /\
    same_off h h' (new :: hd :: xs).
Proof.
  intros Hd Hnew Hni. pose proof Hd as [Hnd Hs].
  pose proof (dll_dom _ _ _ hd Hd) as [v Hv]; [set_solver|].
  pose proof (dll_prev _ _ _ Hd) as E. rewrite (node_at_prv _ _ _ Hv) in E.
  unfold list_add_tail, node_at. rewrite Hv. cbn. rewrite E.
  set (p := default hd (last xs)) in *.
  assert (Hp : p ∈ hd :: xs).
  { subst p. destruct xs as [|z zs _] using rev_ind; [set_solver|].
    rewrite last_snoc. set_solver. }
  destruct (__list_add_ok h new p hd) as (h' & -> & D & X & P);
    [done|by eapply dll_dom|eauto|set_solver|set_solver|].
  exists h'. split_and!; [done..| |].
  - apply NoDup_cons in Hnd as [Hhd Hxs]. split.
    { apply NoDup_cons. split; [set_solver|]. apply NoDup_app.
      split_and!; [done|set_solver|apply NoDup_singleton]. }
    apply seg_app. split; [|cbn; rewrite X, P; by_pointwise X P].
    destruct xs as [|z zs _] using rev_ind; cbn in p |- *.
    + subst p. rewrite X, P. repeat (case_decide; subst); set_solver.
    + subst p. rewrite last_snoc in *. cbn in *. apply seg_app in Hs as [Hs _].
      apply NoDup_app in Hxs as (Hz & Hz' & _).
      apply seg_app. split.
      * revert Hs. apply seg_ext; intros y Hy; by_pointwise X P.
      * cbn. rewrite X, P. repeat (case_decide; subst); set_solver.
  - intros a Ha. rewrite X, P. rewrite !decide_False by set_solver. done.
Qed.

Lemma list_del_spec h hd xs x ys :
  dll h hd (xs ++ x :: ys) ->
  exists h', list_del x h = Ok h' /\ dom h' = dom h /\ dll h' hd (xs ++ ys) /\
    same_off h h' (hd :: xs ++ x :: ys).
Proof.
  intros Hd. pose proof Hd as [Hnd Hs]. apply seg_app in Hs as [H1 H2].
  apply NoDup_cons in Hnd as [Hhd Hnd]. apply NoDup_app in Hnd as (Nxs & Nd & Nys).
  apply NoDup_cons in Nys as [Nx Nys].
  assert (exists n, nxt h x = Some n /\ n ∈ ys ++ [hd] /\
            (ys = [] /\ n = hd \/ exists ys', ys = n :: ys')) as (n & Hn & Hnin & Hn').
  { destruct ys as [|y ys]; cbn in H2; [exists hd|exists y]; set_solver. }
  assert (exists p, prv h x = Some p /\ p ∈ hd :: xs /\
            (xs = [] /\ p = hd \/ exists xs', xs = xs' ++ [p])) as (p & Hp & Hpin & Hp').
  { destruct xs as [|z zs _] using rev_ind; cbn in H1; [exists hd; set_solver|].
    apply seg_app in H1 as [_ H1]. exists z. cbn in H1. set_solver. }
  assert (F1 : (x <> hd) /\ (x ∉ xs) /\ (n ∉ xs) /\ (p ∉ ys) /\ (hd ∉ xs) /\ (hd ∉ ys)).
  { clear -Hhd Nd Nx Hnin Hpin. apply not_elem_of_app in Hhd as [??]. set_solver. }
  destruct F1 as (F1 & F2 & F3 & F4 & F5 & F6).
  assert (Dxy : forall y, y ∈ xs -> y ∉ ys) by (clear -Nd; set_solver). clear Nd Hhd.
  assert (x <> p /\ x <> n) as [F7 F8] by (clear -Nx F1 F2 Hnin Hpin; set_solver).
  destruct (list_del_ok h x p n) as (h' & -> & D & X & P);
    [done|done|eapply dll_dom; [done|]; clear -Hpin; set_solver
    |eapply dll_dom; [done|]; clear -Hnin; set_solver|done|done|].
  exists h'. split_and!; [done..| |].
  - split.
    { apply NoDup_cons. split; [by apply not_elem_of_app|]. apply NoDup_app.
      split_and!; [done|exact Dxy|done]. }
    assert (Hmid : nxt h' p = Some n /\ prv h' n = Some p).
    { rewrite X, P. split; repeat case_decide; congruence. }
    assert (Hl : forall xs', xs = xs' ++ [p] -> seg h' hd xs' p).
    { intros xs' ->. apply seg_app in H1 as [H1 _]. apply NoDup_app in Nxs as (_ & Nxs & _).
      revert H1. clear -X P F2 F3 F5 F1 Nxs. apply seg_ext; intros y Hy; by_untouched X P. }
    assert (Hr : forall ys', ys = n :: ys' -> seg h' n ys' hd).
    { intros ys' ->. cbn in H2. destruct H2 as (_ & _ & H2). apply NoDup_cons in Nys as [??].
      revert H2. clear -X P F1 F4 F6 Nx H0 H1. apply seg_ext; intros y Hy; by_untouched X P. }
    destruct Hp' as [[-> ->]|[xs' Exs]], Hn' as [[-> ->]|[ys' Eys]].
    + cbn. eauto.
    + rewrite Eys. cbn. destruct Hmid; eauto.
    + rewrite app_nil_r, Exs. apply seg_app. split; [eauto|]. cbn. eauto.
    + rewrite Eys, Exs, <-app_assoc. apply seg_app. split; [eauto|]. cbn.
      destruct Hmid; eauto.
  - intros a Ha. clear -X P Ha Hnin Hpin. rewrite X, P, !decide_False by set_solver. done.
Qed.

End Facts.

#[export] Hint Resolve dll_dom : kernel.
