(* ===== verification/Memblock.v ===== *)
(** The early allocator: [src/src/memblock.c], [src/include/memblock.h].

    Two arrays of address ranges, the memory that exists and the memory that is
    taken.  [memblock_add_range] inserts a range into a sorted array, splitting
    it around the entries already there and merging neighbours; allocation
    scans the gaps for a first fit and reserves it.  Addresses and sizes are
    64-bit words, indices are 32-bit [int]s packed in one 64-bit cursor. *)
From S2P Require Import Prelude.

(** * Data *)

(* [src/include/memblock.h:20-24 memblock_region] *)
Record memblock_region := Region { base : Z; size : Z }.

(* [src/include/memblock.h:26-33 memblock_type] *)
Record memblock_type := MType {
  cnt : Z;
  max : Z;
  total_size : Z;
  regions : list memblock_region
}.

(* [src/include/memblock.h:35-39 memblock] *)
Record memblock := Memblock {
  current_limit : Z;
  memory : memblock_type;
  reserved : memblock_type;
  phys_addr_max : Z
}.

(* [src/src/memblock.c:9-9 INIT_MEMLBOCK_REGIONS] *)
Definition INIT_MEMLBOCK_REGIONS : Z := 32.

(* [src/include/memblock.h:7-7 MEMBLOCK_ALLOC_ACCESSIBLE] *)
Definition MEMBLOCK_ALLOC_ACCESSIBLE : Z := 0.

Definition empty_type : memblock_type :=
  MType 1 INIT_MEMLBOCK_REGIONS 0 (replicate 32 (Region 0 0)).

(** The statically initialised [memblock] and [phys_addr_max]. *)
(* [src/src/memblock.c:24-37 memblock] *)
Definition memblock0 : memblock := Memblock 0 empty_type empty_type 0x3F000000.

Definition ULLONG_MAX : Z := 2 ^ 64 - 1.

(* [src/library/kernel.h:46-46 min] *)
Definition c_min (a b : Z) : Z := if a <=? b then a else b.
(* [src/library/kernel.h:47-47 max] *)
Definition c_max (a b : Z) : Z := if b <=? a then a else b.
(* [src/library/kernel.h:49-49 clamp] *)
Definition clamp (val lo hi : Z) : Z := c_min (c_max val lo) hi.

(** * Scanning free ranges *)

(** The cursor packs the two indices; unpacking truncates to [int]. *)
Definition cursor (idx_a idx_b : Z) : Z := Z.lor (u32 idx_a) (u64 (Z.shiftl (u64 idx_b) 32)).
Definition cursor_a (idx : Z) : Z := s32 (Z.land idx 0xffffffff).
Definition cursor_b (idx : Z) : Z := s32 (Z.shiftr idx 32).

(** One returned range: the new cursor and [*out_start], [*out_end]. *)
Definition found : Type := Z * (Z * Z).

(** The inner loop, over the gaps between the entries of [type_b]: either the
    range found ([inr]) or the index at which the scan stopped ([inl]). *)
(* [src/src/memblock.c:67-92 __next_mem_range] *)
Fixpoint next_gap (n : nat) (pmax : Z) (type_b : memblock_type) (idx_a m_start m_end idx_b : Z)
    : res (Z + found) :=
  if idx_b <? u64 (cnt type_b + 1) then
    match n with
    | O => Err NoFuel
    | S n =>
      r_start ← (if idx_b =? 0 then Ok 0 else
                   r ← opt_res OutOfBounds (regions type_b).[idx_b - 1];
                   Ok (u64 (base r + size r)));
      r_end ← (if idx_b <? cnt type_b then
                 r ← opt_res OutOfBounds (regions type_b).[idx_b]; Ok (base r)
               else Ok pmax);
      if m_end <=? r_start then Ok (inl idx_b) else
      if m_start <? r_end then
        let out := (c_max m_start r_start, c_min m_end r_end) in
        Ok (inr (if m_end <=? r_end then cursor (idx_a + 1) idx_b else cursor idx_a (idx_b + 1),
                 out))
      else next_gap n pmax type_b idx_a m_start m_end (idx_b + 1)
    end
  else Ok (inl idx_b).

(* [src/src/memblock.c:51-93 __next_mem_range] *)
Fixpoint next_loop (n : nat) (pmax : Z) (type_a : memblock_type) (type_b : option memblock_type)
    (idx_a idx_b : Z) : res (option found) :=
  if idx_a <? cnt type_a then
    match n with
    | O => Err NoFuel
    | S n =>
      m ← opt_res OutOfBounds (regions type_a).[idx_a];
      let m_start := base m in
      let m_end := u64 (m_start + size m) in
      match type_b with
      | None => Ok (Some (cursor (idx_a + 1) idx_b, (m_start, m_end)))
      | Some tb =>
        r ← next_gap (S (Z.to_nat (cnt tb + 1))) pmax tb idx_a m_start m_end idx_b;
        match r with
        | inr f => Ok (Some f)
        | inl idx_b => next_loop n pmax type_a type_b (idx_a + 1) idx_b
        end
      end
    end
  else Ok None.

(** [None]: the function returned without writing [*idx], [*out_start] or
    [*out_end]. *)
(* [src/src/memblock.c:44-94 __next_mem_range] *)
Definition __next_mem_range (pmax idx : Z) (type_a : memblock_type)
    (type_b : option memblock_type) : res (option found) :=
  next_loop (S (Z.to_nat (cnt type_a))) pmax type_a type_b (cursor_a idx) (cursor_b idx).

(** The body of [for_each_free_mem_range]: [vars] are [this_start] and
    [this_end], uninitialised before the first range is found. *)
(* [src/src/memblock.c:105-113 memblock_find_in_range] *)
Fixpoint find_loop (n : nat) (mb : memblock) (sz align start end_ : Z)
    (i : Z) (vars : option (Z * Z)) : res Z :=
  f ← __next_mem_range (phys_addr_max mb) i (memory mb) (Some (reserved mb));
  let '(i, vars) := match f with Some (i, out) => (i, Some out) | None => (i, vars) end in
  if i =? ULLONG_MAX then Ok 0 else
  match n with
  | O => Err NoFuel
  | S n =>
    match vars with
    | None => Err Uninit
    | Some (this_start, this_end) =>
      let this_start := clamp this_start start end_ in
      let this_end := clamp this_end start end_ in
      let cand := ALIGN this_start align in
      if (cand <? this_end) && (sz <=? u64 (this_end - cand)) then Ok cand
      else find_loop n mb sz align start end_ i (Some (this_start, this_end))
    end
  end.

(* [src/src/memblock.c:99-114 memblock_find_in_range] *)
Definition memblock_find_in_range (fuel : nat) (mb : memblock) (sz align start end_ : Z) : res Z :=
  find_loop fuel mb sz align start end_ 0 None.

(** * Adding a range *)

(* [src/src/memblock.c:116-126 memblock_insert_region] *)
Definition memblock_insert_region (t : memblock_type) (idx bs sz : Z) : res memblock_type :=
  rs ← opt_res OutOfBounds (array_move (regions t) (idx + 1) idx (cnt t - idx));
  rs ← opt_res OutOfBounds rs.[idx := Region bs sz];
  Ok (MType (u64 (cnt t + 1)) (max t) (u64 (total_size t + sz)) rs).

(** [while (1);] *)
(* [src/src/memblock.c:128-134 memblock_double_array] *)
Definition memblock_double_array (t : memblock_type) (bs sz : Z) : res (Z * memblock_type) :=
  Err Hang.

(* [src/src/memblock.c:140-152 memblock_merge_regions] *)
Fixpoint merge_loop (n : nat) (t : memblock_type) (i : Z) : res memblock_type :=
  if i <? u64 (cnt t - 1) then
    match n with
    | O => Err NoFuel
    | S n =>
      this ← opt_res OutOfBounds (regions t).[i];
      next ← opt_res OutOfBounds (regions t).[i + 1];
      if negb (u64 (base this + size this) =? base next) then merge_loop n t (i + 1) else
      rs ← opt_res OutOfBounds
             (regions t).[i := Region (base this) (u64 (size this + size next))];
      rs ← opt_res OutOfBounds (array_move rs (i + 1) (i + 2) (cnt t - (i + 2)));
      merge_loop n (MType (u64 (cnt t - 1)) (max t) (total_size t) rs) i
    end
  else Ok t.

(* [src/src/memblock.c:136-153 memblock_merge_regions] *)
Definition memblock_merge_regions (t : memblock_type) : res memblock_type :=
  merge_loop (Z.to_nat (cnt t)) t 0.

(** The loop over the entries: the type, [idx], [base] and [nr_new] at its end. *)
(* [src/src/memblock.c:193-208 memblock_add_range] *)
Fixpoint add_loop (n : nat) (insert : bool) (t : memblock_type) (idx bs end_ nr_new : Z)
    : res (memblock_type * Z * Z * Z) :=
  if idx <? cnt t then
    match n with
    | O => Err NoFuel
    | S n =>
      rgn ← opt_res OutOfBounds (regions t).[idx];
      let rbase := base rgn in
      let rend := u64 (rbase + size rgn) in
      if end_ <=? rbase then Ok (t, idx, bs, nr_new) else
      if rend <=? bs then add_loop n insert t (idx + 1) bs end_ nr_new else
      if bs <? rbase then
        if insert then
          t ← memblock_insert_region t idx bs (rbase - bs);
          add_loop n insert t (idx + 2) (c_min rend end_) end_ (nr_new + 1)
        else add_loop n insert t (idx + 1) (c_min rend end_) end_ (nr_new + 1)
      else add_loop n insert t (idx + 1) (c_min rend end_) end_ nr_new
    end
  else Ok (t, idx, bs, nr_new).

(** After the loop: insert the remaining portion. *)
(* [src/src/memblock.c:210-215 memblock_add_range] *)
Definition add_rest (insert : bool) (end_ : Z) (r : memblock_type * Z * Z * Z)
    : res (memblock_type * Z) :=
  let '(t, idx, bs, nr_new) := r in
  if bs <? end_ then
    if insert then t ← memblock_insert_region t idx bs (end_ - bs); Ok (t, nr_new + 1)
    else Ok (t, nr_new + 1)
  else Ok (t, nr_new).

(** One pass from the [repeat] label to the test of [nr_new]. *)
(* [src/src/memblock.c:187-215 memblock_add_range] *)
Definition add_round (insert : bool) (t : memblock_type) (obase end_ : Z)
    : res (memblock_type * Z) :=
  r ← add_loop (Z.to_nat (cnt t)) insert t 0 obase end_ 0;
  add_rest insert end_ r.

(* [src/src/memblock.c:158-233 memblock_add_range] *)
Definition memblock_add_range (t : memblock_type) (bs sz : Z) : res (Z * memblock_type) :=
  let end_ := u64 (bs + sz) in
  if sz =? 0 then Ok (0, t) else
  r0 ← opt_res OutOfBounds (regions t).[0];
  if size r0 =? 0 then
    rs ← opt_res OutOfBounds (regions t).[0 := Region bs sz];
    Ok (0, MType (cnt t) (max t) sz rs)
  else
  let insert := u64 (cnt t * 2 + 1) <? max t in
  r ← add_round insert t bs end_;
  let '(t, nr_new) := r in
  if nr_new =? 0 then Ok (0, t) else
  if insert then t ← memblock_merge_regions t; Ok (0, t) else
  if max t <? u64 (cnt t + nr_new) then memblock_double_array t bs sz else
  r ← add_round true t bs end_;
  let '(t, nr_new) := r in
  if nr_new =? 0 then Ok (0, t) else
  t ← memblock_merge_regions t; Ok (0, t).

(* [src/src/memblock.c:239-242 memblock_reserve] *)
Definition memblock_reserve (mb : memblock) (bs sz : Z) : res (Z * memblock) :=
  r ← memblock_add_range (reserved mb) bs (ALIGN sz 8);
  let '(v, t) := r in
  Ok (v, Memblock (current_limit mb) (memory mb) t (phys_addr_max mb)).

(** * Allocation and initialisation *)

(* [src/src/memblock.c:246-257 memblock_phys_alloc_range] *)
Definition memblock_phys_alloc_range (fuel : nat) (mb : memblock) (sz align start end_ : Z)
    : res (Z * memblock) :=
  let end_ := if end_ =? MEMBLOCK_ALLOC_ACCESSIBLE then phys_addr_max mb else end_ in
  ret ← memblock_find_in_range fuel mb sz align start end_;
  if ret =? 0 then Ok (ret, mb) else
  r ← memblock_reserve mb ret sz;
  Ok (ret, r.2).

(* [src/include/mm.h:10-10 KERNEL_VADDR_BASE] *)
Definition KERNEL_VADDR_BASE : Z := 0xffff000000000000.
(* [src/include/mm.h:179-179 phys_to_virt] *)
Definition phys_to_virt (phys : Z) : Z := Z.lor phys KERNEL_VADDR_BASE.
(* [src/include/mm.h:180-180 virt_to_phys] *)
Definition virt_to_phys (virt : Z) : Z := Z.land virt (2 ^ 64 - 1 - KERNEL_VADDR_BASE).

(* [src/src/memblock.c:263-267 memblock_phys_alloc] *)
Definition memblock_phys_alloc (fuel : nat) (mb : memblock) (sz : Z) : res (Z * memblock) :=
  r ← memblock_phys_alloc_range fuel mb sz 8 0 MEMBLOCK_ALLOC_ACCESSIBLE;
  Ok (phys_to_virt r.1, r.2).

(* [src/src/memblock.c:39-42 memblock_set_current_limit] *)
Definition memblock_set_current_limit (mb : memblock) (limit : Z) : memblock :=
  Memblock limit (memory mb) (reserved mb) (phys_addr_max mb).

(** [info] is what the mailbox reports ([__get_memory_info]), [kend] the linker
    symbol [_end]; [initrd_reserve_memory] and [fdt_reserve_memory] are modelled in
    [Initrd] and [Dtb]. *)
(* [src/src/memblock.c:269-292 memblock_init] *)
Definition memblock_init (initrd_reserve_memory fdt_reserve_memory : memblock -> res memblock)
    (mb : memblock) (info : Z * Z) (kend : Z) : res memblock :=
  let '(bs, sz) := info in
  let pmax := u32 (bs + sz) in
  let mb := Memblock (current_limit mb) (memory mb) (reserved mb) pmax in
  let mb := memblock_set_current_limit mb pmax in
  r ← memblock_add_range (memory mb) bs sz;
  let mb := Memblock (current_limit mb) r.2 (reserved mb) (phys_addr_max mb) in
  r ← memblock_reserve mb 0 (Z.land kend 0xffffffff);
  mb ← initrd_reserve_memory r.2;
  fdt_reserve_memory mb.

(** * What an array of regions denotes *)

(** The entries in use; a single empty entry stands for the empty array. *)
Definition live (t : memblock_type) : list memblock_region :=
  match regions t with
  | r :: _ => if size r =? 0 then [] else take (Z.to_nat (cnt t)) (regions t)
  | [] => []
  end.

Definition inside (x : Z) (r : memblock_region) : Prop := base r <= x < base r + size r.
Definition covers (l : list memblock_region) (x : Z) : Prop := exists r, r ∈ l /\ inside x r.

(** Sorted, pairwise disjoint, non-empty ranges above [lo] and below [2^64]. *)
Fixpoint sorted_from (lo : Z) (l : list memblock_region) : Prop :=
  match l with
  | [] => True
  | r :: l => lo <= base r /\ 0 < size r /\ base r + size r < 2 ^ 64
              /\ sorted_from (base r + size r) l
  end.

Fixpoint sizes (l : list memblock_region) : Z :=
  match l with [] => 0 | r :: l => size r + sizes l end.

(** No two neighbours touch: what [memblock_merge_regions] establishes. *)
Fixpoint separated (l : list memblock_region) : Prop :=
  match l with
  | r :: (s :: _) as l' => base r + size r <> base s /\ separated l'
  | _ => True
  end.

Record wf_type (t : memblock_type) : Prop := {
  wf_cnt : 1 <= cnt t <= max t;
  wf_max : max t = Z.of_nat (length (regions t)) /\ max t < 2 ^ 16;
  wf_dummy : live t = [] -> cnt t = 1;
  wf_sorted : sorted_from 0 (live t);
  wf_total : total_size t = u64 (sizes (live t));
  wf_separated : separated (live t)
}.

(** * The list functions the array loops compute *)

Fixpoint ins (l : list memblock_region) (bs end_ : Z) : list memblock_region :=
  match l with
  | [] => if bs <? end_ then [Region bs (end_ - bs)] else []
  | r :: l' =>
    if end_ <=? base r then (if bs <? end_ then [Region bs (end_ - bs)] else []) ++ l
    else if base r + size r <=? bs then r :: ins l' bs end_
    else (if bs <? base r then [Region bs (base r - bs)] else [])
           ++ r :: ins l' (c_min (base r + size r) end_) end_
  end.

Fixpoint merge_list (r : memblock_region) (l : list memblock_region) : list memblock_region :=
  match l with
  | [] => [r]
  | s :: l => if base r + size r =? base s then merge_list (Region (base r) (size r + size s)) l
              else r :: merge_list s l
  end.

(** * The list functions *)

Lemma sorted_from_le lo lo' l : lo' <= lo -> sorted_from lo l -> sorted_from lo' l.
Proof. destruct l; cbn; [done|]. intuition lia. Qed.

Lemma c_min_spec a b : c_min a b = Z.min a b.
Proof. unfold c_min. zcase; lia. Qed.
Lemma c_max_spec a b : c_max a b = Z.max a b.
Proof. unfold c_max. zcase; lia. Qed.

Lemma covers_nil x : covers [] x <-> False.
Proof. unfold covers. set_solver. Qed.
Lemma covers_cons r l x : covers (r :: l) x <-> inside x r \/ covers l x.
Proof. unfold covers. set_solver. Qed.
Lemma covers_app l l' x : covers (l ++ l') x <-> covers l x \/ covers l' x.
Proof. unfold covers. set_solver. Qed.
Create Rewrite HintDb covers.
#[local] Hint Rewrite covers_nil covers_cons covers_app : covers.

Lemma ins_done l bs end_ : end_ <= bs -> ins l bs end_ = l.
Proof.
  revert bs. induction l as [|r l IH]; intros bs H; cbn; rewrite ?c_min_spec.
  - zcase; [lia|done].
  - repeat zcase; try lia; cbn; [done| |]; by rewrite IH by lia.
Qed.

Lemma ins_sorted l lo bs end_ :
  sorted_from lo l -> 0 <= lo <= bs -> end_ < 2 ^ 64 -> sorted_from lo (ins l bs end_).
Proof.
  revert lo bs. induction l as [|r l IH]; intros lo bs Hs Hlo He.
  - cbn. zcase; cbn; [lia|done].
  - cbn in Hs. destruct Hs as (? & ? & ? & Hs). cbn [ins]. rewrite c_min_spec.
    assert (Hrec : forall b, b = bs /\ base r + size r <= bs \/ b = Z.min (base r + size r) end_ ->
              sorted_from (base r + size r) (ins l b end_)).
    { intros b Hb. destruct (Z.le_gt_cases end_ b); [by rewrite ins_done|].
      apply IH; [done|lia|done]. }
    repeat zcase; cbn; split_and?; try lia; try done; apply Hrec; lia.
Qed.

Lemma ins_covers l lo bs end_ x :
  sorted_from lo l -> covers (ins l bs end_) x <-> covers l x \/ bs <= x < end_.
Proof.
  revert lo bs. induction l as [|r l IH]; intros lo bs Hs.
  - cbn. zcase; autorewrite with covers; unfold inside; cbn; lia.
  - cbn in Hs. destruct Hs as (? & ? & ? & Hs). cbn [ins]. rewrite c_min_spec.
    repeat zcase; cbn [app]; autorewrite with covers; rewrite ?(IH _ _ Hs);
      unfold inside; cbn; intuition lia.
Qed.

Lemma ins_length l bs end_ : (length l <= length (ins l bs end_) <= 2 * length l + 1)%nat.
Proof.
  revert bs. induction l as [|r l IH]; intros bs; cbn; rewrite ?c_min_spec.
  - zcase; cbn; lia.
  - repeat zcase; cbn; rewrite ?length_app; cbn; try lia;
      match goal with |- context [ins l ?b end_] => specialize (IH b); lia end.
Qed.

(** Nothing new is inserted exactly when the range was already covered. *)
Lemma ins_same_length l bs end_ : length (ins l bs end_) = length l -> ins l bs end_ = l.
Proof.
  revert bs. induction l as [|r l IH]; intros bs; cbn; rewrite ?c_min_spec.
  - zcase; cbn; [lia|done].
  - repeat zcase; cbn; intros Hl; try lia; try done;
      try (match goal with |- context [ins l ?b end_] =>
             pose proof (ins_length l b end_); try lia; rewrite (IH b) by lia end); done.
Qed.

Lemma merge_sorted r l lo : sorted_from lo (r :: l) -> sorted_from lo (merge_list r l).
Proof.
  revert r lo. induction l as [|s l IH]; intros r lo H; cbn [merge_list]; [done|].
  cbn in H. destruct H as (? & ? & ? & ? & ? & ? & H). zcase.
  - apply IH. cbn. split_and!; try lia. eapply sorted_from_le; [|done]. lia.
  - cbn [sorted_from]. split_and!; try lia. apply IH. cbn. split_and!; try lia. done.
Qed.

Lemma merge_covers r l lo x :
  sorted_from lo (r :: l) -> covers (merge_list r l) x <-> covers (r :: l) x.
Proof.
  revert r lo. induction l as [|s l IH]; intros r lo H; cbn [merge_list]; [done|].
  cbn in H. destruct H as (? & ? & ? & ? & ? & ? & H). zcase.
  - rewrite (IH _ lo).
    + autorewrite with covers. unfold inside. cbn. intuition lia.
    + cbn. split_and!; try lia. eapply sorted_from_le; [|done]. lia.
  - rewrite covers_cons, (IH s (base r + size r)), !covers_cons; [done|].
    cbn. split_and!; try lia. done.
Qed.

Lemma merge_sizes r l : sizes (merge_list r l) = size r + sizes l.
Proof.
  revert r. induction l as [|s l IH]; intros r; cbn; [done|].
  zcase; cbn; rewrite IH; cbn; lia.
Qed.

Lemma merge_head r l : exists r' l', merge_list r l = r' :: l' /\ base r' = base r.
Proof.
  revert r. induction l as [|s l IH]; intros r; cbn; [eauto|].
  zcase; [|eauto]. destruct (IH (Region (base r) (size r + size s))) as (? & ? & -> & ?). eauto.
Qed.

Lemma merge_separated r l : separated (merge_list r l).
Proof.
  revert r. induction l as [|s l IH]; intros r; cbn; [done|].
  zcase; [done|]. specialize (IH s). destruct (merge_head s l) as (r' & l' & E & Hb).
  rewrite E in IH |- *. split; [by rewrite Hb|exact IH].
Qed.

Lemma merge_length r l : (1 <= length (merge_list r l) <= S (length l))%nat.
Proof.
  revert r. induction l as [|s l IH]; intros r; cbn; [lia|].
  zcase; cbn; [specialize (IH (Region (base r) (size r + size s)))|specialize (IH s)]; lia.
Qed.

(** * The array loops compute the list functions *)

Lemma insert_region_ok mx T pre post j junk idx c bs sz :
  idx = Z.of_nat (length pre) -> c = idx + Z.of_nat (length post) -> c < 2 ^ 16 ->
  memblock_insert_region (MType c mx (u64 T) (pre ++ post ++ j :: junk)) idx bs sz
  = Ok (MType (c + 1) mx (u64 (T + sz)) (pre ++ Region bs sz :: post ++ junk)).
Proof.
  intros Hi Hc Hb. unfold memblock_insert_region. cbn.
  destruct (array_move_up pre post junk j idx (c - idx)) as [y ->]; [done|lia|]. cbn.
  rewrite zset_app_mid by done. cbn. by rewrite u64_add_l, u64_small by lia.
Qed.

Definition in_range (l : list memblock_region) : Prop :=
  Forall (fun r => 0 <= base r /\ 0 < size r /\ base r + size r < 2 ^ 64) l.

Lemma sorted_in_range l lo : 0 <= lo -> sorted_from lo l -> in_range l.
Proof.
  revert lo. induction l as [|r l IH]; intros lo Hlo; cbn; [by constructor|].
  intros (? & ? & ? & Hs). constructor; [lia|]. eapply IH; [|done]. lia.
Qed.

(** The counting pass leaves the array alone. *)
Lemma add_loop_count post : forall pre junk mx T idx c bs end_ nr n,
  idx = Z.of_nat (length pre) -> c = idx + Z.of_nat (length post) ->
  in_range post -> (length post <= n)%nat ->
  (add_loop n false (MType c mx T (pre ++ post ++ junk)) idx bs end_ nr ≫= add_rest false end_)
  = Ok (MType c mx T (pre ++ post ++ junk),
        nr + Z.of_nat (length (ins post bs end_)) - Z.of_nat (length post)).
Proof.
  induction post as [|r post IH]; intros pre junk mx T idx c bs end_ nr n Hi Hc Hr Hn.
  - destruct n; cbn; (zcase; [cbn in *; lia|]); cbn; zcase; cbn; feq.
  - destruct n as [|n]; [cbn in Hn; lia|].
    apply Forall_cons in Hr as [(? & ? & ?) Hr]. cbn [length] in *.
    cbn [add_loop cnt regions app]. rewrite (proj2 (Z.ltb_lt idx c)) by lia.
    rewrite zget_app_mid by done. cbn [opt_res mbind res_bind]. rewrite u64_small by lia.
    assert (E : forall b m, (add_loop n false (MType c mx T (pre ++ r :: post ++ junk))
                (idx + 1) b end_ m ≫= add_rest false end_)
              = Ok (MType c mx T (pre ++ r :: post ++ junk),
                    m + Z.of_nat (length (ins post b end_)) - Z.of_nat (length post))).
    { intros b m. rewrite cons_middle, (assoc_L (++)).
      apply IH; rewrite ?length_app; cbn; (lia || done). }
    cbn [ins]. rewrite c_min_spec.
    repeat (zcase; cbn [mbind res_bind add_rest]); rewrite ?E, ?length_app; cbn [length app];
      try lia; feq.
Qed.

(** The inserting pass leaves [ins] in the used part of the array. *)
Lemma add_loop_insert post : forall pre junk mx T idx c bs end_ nr n,
  idx = Z.of_nat (length pre) -> c = idx + Z.of_nat (length post) ->
  in_range post -> (length post <= n)%nat ->
  (length (ins post bs end_) <= length post + length junk)%nat ->
  Z.of_nat (length pre + length post + length junk) < 2 ^ 16 ->
  exists junk', (length (ins post bs end_) + length junk' = length post + length junk)%nat /\
  (add_loop n true (MType c mx (u64 T) (pre ++ post ++ junk)) idx bs end_ nr ≫= add_rest true end_)
  = Ok (MType (idx + Z.of_nat (length (ins post bs end_))) mx
          (u64 (T + sizes (ins post bs end_) - sizes post)) (pre ++ ins post bs end_ ++ junk'),
        nr + Z.of_nat (length (ins post bs end_)) - Z.of_nat (length post)).
Proof.
  induction post as [|r post IH]; intros pre junk mx T idx c bs end_ nr n Hi Hc Hr Hn Hcap Hlen.
  - assert (E : add_loop n true (MType c mx (u64 T) (pre ++ [] ++ junk)) idx bs end_ nr
                = Ok (MType c mx (u64 T) (pre ++ junk), idx, bs, nr)).
    { destruct n; cbn [add_loop cnt app]; rewrite (proj2 (Z.ltb_ge idx c)) by (cbn in *; lia); done. }
    rewrite E. cbn [mbind res_bind add_rest]. cbn [ins length] in *.
    exists (drop (length (ins [] bs end_)) junk). cbn [ins].
    destruct (bs <? end_) eqn:E2; cbn [length] in *.
    + destruct junk as [|j junk]; [cbn in *; lia|]. cbn [skipn]. rewrite drop_0.
      split; [cbn; lia|]. rewrite (insert_region_ok mx T pre [] j junk) by (cbn; lia).
      cbn. feq.
    + rewrite drop_0. split; [lia|]. cbn. feq.
  - destruct n as [|n]; [cbn in Hn; lia|].
    apply Forall_cons in Hr as [(? & ? & ?) Hr]. cbn [length] in *.
    cbn [ins] in *. cbn [add_loop cnt regions app]. rewrite (proj2 (Z.ltb_lt idx c)) by lia.
    rewrite zget_app_mid by done. cbn [mbind res_bind opt_res base size].
    rewrite (u64_small (base r + size r)) by lia. rewrite c_min_spec in *.
    destruct (end_ <=? base r) eqn:E1; zbool.
    { (* the new range ends before this entry *)
      exists (drop (length (if bs <? end_ then [Region bs (end_ - bs)] else [])) junk).
      cbn [mbind res_bind add_rest]. destruct (bs <? end_) eqn:E2; cbn in *.
      - destruct junk as [|j junk]; [cbn in *; lia|]. split; [cbn; rewrite drop_0; lia|].
        rewrite (insert_region_ok mx T pre (r :: post) j junk) by (cbn; lia). cbn.
        rewrite drop_0. feq.
      - rewrite drop_0. split; [lia|]. feq. }
    assert (Epre : forall l : list memblock_region, pre ++ r :: l = (pre ++ [r]) ++ l)
      by (intros l; by rewrite <-(assoc_L (++))).
    destruct (base r + size r <=? bs) eqn:E2; zbool.
    { (* the entry lies before the new range *)
      cbn [length] in *.
      destruct (IH (pre ++ [r]) junk mx T (idx + 1) c bs end_ nr n) as (junk' & Hl & E);
        rewrite ?length_app; cbn; try lia; [done|].
      exists junk'. split; [cbn; lia|]. rewrite Epre. cbn [app] in *.
      rewrite <-(assoc_L (++)) in E. cbn in E |- *. rewrite <-(assoc_L (++)) . cbn. rewrite E.
      rewrite <-!(assoc_L (++)). cbn. feq. }
    set (m := Z.min (base r + size r) end_) in *.
    destruct (bs <? base r) eqn:E3; zbool.
    + (* a piece before the entry is inserted first *)
      cbn [app length] in *. destruct junk as [|j junk].
      { pose proof (ins_length post m end_). cbn in *. lia. }
      cbn [app]. rewrite (insert_region_ok mx T pre (r :: post) j junk) by (cbn; lia).
      cbn [mbind res_bind].
      destruct (IH (pre ++ [Region bs (base r - bs); r]) junk mx (T + (base r - bs)) (idx + 2)
                  (c + 1) m end_ (nr + 1) n) as (junk' & Hl & E);
        rewrite ?length_app; cbn in *; try lia; [done|].
      exists junk'. split; [cbn; lia|]. rewrite <-(assoc_L (++)) in E. cbn in E. rewrite E.
      rewrite <-!(assoc_L (++)). cbn. feq.
    + cbn [app length] in *.
      destruct (IH (pre ++ [r]) junk mx T (idx + 1) c m end_ nr n) as (junk' & Hl & E);
        rewrite ?length_app; cbn; try lia; [done|].
      exists junk'. split; [cbn; lia|].
      rewrite <-(assoc_L (++)) in E. cbn in E |- *. rewrite E.
      rewrite <-!(assoc_L (++)). cbn. feq.
Qed.

Lemma merge_loop_ok post : forall pre r junk mx T n i c lo,
  i = Z.of_nat (length pre) -> c = i + 1 + Z.of_nat (length post) ->
  0 <= lo -> sorted_from lo (r :: post) -> (length post <= n)%nat -> c < 2 ^ 16 ->
  exists junk', (length (merge_list r post) + length junk' = S (length post) + length junk)%nat /\
  merge_loop n (MType c mx T (pre ++ r :: post ++ junk)) i
  = Ok (MType (i + Z.of_nat (length (merge_list r post))) mx T
          (pre ++ merge_list r post ++ junk')).
Proof.
  induction post as [|s post IH]; intros pre r junk mx T n i c lo Hi Hc Hlo Hs Hn Hb.
  - exists junk. split; [done|]. cbn [merge_list app length] in *.
    destruct n; cbn [merge_loop cnt]; rewrite u64_small by lia;
      rewrite (proj2 (Z.ltb_ge i (c - 1))) by lia; feq.
  - destruct n as [|n]; [cbn in Hn; lia|]. cbn [length] in *.
    cbn [merge_loop cnt regions total_size max app]. rewrite u64_small by lia.
    rewrite (proj2 (Z.ltb_lt i (c - 1))) by lia.
    assert (E1 : forall l, pre ++ r :: s :: l = (pre ++ [r]) ++ s :: l)
      by (intros l; by rewrite <-(assoc_L (++))).
    rewrite (zget_app_mid pre _ r i) by done.
    rewrite E1, (zget_app_mid (pre ++ [r]) _ s (i + 1)) by (rewrite length_app; cbn; lia).
    cbn in Hs. destruct Hs as (? & ? & ? & ? & ? & ? & Hs).
    cbn [opt_res mbind res_bind]. rewrite u64_small by lia. cbn [merge_list].
    destruct (Z.eqb_spec (base r + size r) (base s)) as [Ea|Ea]; cbn [negb].
    + rewrite <-E1, zset_app_mid by done. cbn [opt_res mbind res_bind].
      rewrite (u64_small (size r + size s)) by lia.
      destruct (array_move_down (pre ++ [Region (base r) (size r + size s)]) post junk s (i + 1)
                  (c - (i + 2))) as (junk1 & Hl & E); [rewrite length_app; cbn; lia|lia|].
      rewrite <-!(assoc_L (++)) in E. cbn [app] in E. replace (i + 1 + 1) with (i + 2) in E by lia.
      rewrite E. cbn [opt_res mbind res_bind].
      destruct (IH pre (Region (base r) (size r + size s)) junk1 mx T n i (c - 1) lo)
        as (junk' & Hl' & E'); try lia.
      { cbn. split_and!; try lia. eapply sorted_from_le; [|done]. lia. }
      exists junk'. split; [lia|]. exact E'.
    + destruct (IH (pre ++ [r]) s junk mx T n (i + 1) c (base r + size r))
        as (junk' & Hl' & E'); rewrite ?length_app; cbn [length]; try lia.
      { cbn. split_and!; try lia. done. }
      rewrite E'. exists junk'. split; [cbn; lia|]. cbn [length].
      rewrite <-(assoc_L (++)). cbn [app]. feq.
Qed.

(** * Well-formed arrays *)

Lemma wf_intro c mx T l junk :
  l <> [] -> sorted_from 0 l -> separated l -> c = Z.of_nat (length l) ->
  mx = Z.of_nat (length (l ++ junk)) -> mx < 2 ^ 16 -> T = u64 (sizes l) ->
  live (MType c mx T (l ++ junk)) = l /\ wf_type (MType c mx T (l ++ junk)).
Proof.
  intros Hne Hs Hsep -> -> Hmx ->.
  assert (E : live (MType (Z.of_nat (length l)) (Z.of_nat (length (l ++ junk)))
                (u64 (sizes l)) (l ++ junk)) = l).
  { destruct l as [|r l]; [done|]. cbn in Hs. unfold live. cbn [regions app cnt].
    destruct (Z.eqb_spec (size r) 0); [lia|].
    by rewrite Nat2Z.id, app_comm_cons, take_app_length. }
  split; [done|]. rewrite length_app in *. destruct l as [|r l]; [done|].
  split; rewrite ?E; cbn [cnt max regions total_size]; rewrite ?length_app; cbn [length] in *;
    try done; try lia.
Qed.

Lemma live_split t :
  wf_type t -> live t <> [] ->
  cnt t = Z.of_nat (length (live t)) /\
  exists junk, regions t = live t ++ junk /\ max t = Z.of_nat (length (live t) + length junk) /\
    (forall r0, (regions t).[0] = Some r0 -> size r0 <> 0).
Proof.
  intros [Hc [Hm _] _ _ _ _] Hne. unfold live in *. destruct (regions t) as [|r l]; [done|].
  destruct (Z.eqb_spec (size r) 0); [done|]. cbn [length] in *.
  rewrite length_take. cbn [length]. split; [lia|].
  exists (drop (Z.to_nat (cnt t)) (r :: l)). rewrite take_drop. split; [done|].
  rewrite length_drop. cbn [length]. split; [lia|]. intros r0 [= <-]. done.
Qed.

Lemma live_empty t :
  wf_type t -> live t = [] -> exists r0 l, regions t = r0 :: l /\ size r0 = 0 /\ cnt t = 1.
Proof.
  intros [Hc [Hm _] Hd _ _ _] E. pose proof (Hd E) as H1. unfold live in E.
  destruct (regions t) as [|r l]; [cbn in *; lia|].
  destruct (Z.eqb_spec (size r) 0) as [E0|E0]; [eauto|].
  rewrite H1 in E. discriminate E.
Qed.

(** What a successful call returns. *)
Definition added (t t' : memblock_type) (bs sz : Z) : Prop :=
  wf_type t' /\ max t' = max t /\ live t' <> [] /\
  (length (live t') <= 2 * length (live t) + 1)%nat /\
  forall x, covers (live t') x <-> covers (live t) x \/ bs <= x < bs + sz.

Lemma add_merge_ok t bs sz junk :
  wf_type t -> live t <> [] -> 0 <= bs -> 0 < sz -> bs + sz < 2 ^ 64 ->
  regions t = live t ++ junk -> max t = Z.of_nat (length (live t) + length junk) ->
  (length (ins (live t) bs (bs + sz)) <= length (live t) + length junk)%nat ->
  exists t1 nr, add_round true t bs (bs + sz) = Ok (t1, nr) /\
    nr = Z.of_nat (length (ins (live t) bs (bs + sz))) - Z.of_nat (length (live t)) /\
    (nr = 0 -> added t t1 bs sz) /\
    (nr <> 0 -> exists t', memblock_merge_regions t1 = Ok t' /\ added t t' bs sz).
Proof.
  intros Hwf Hne Hbs Hsz Hov Hr Hm Hcap. pose proof (live_split t Hwf Hne) as [Hc _].
  pose proof Hwf as [? [_ Hmx] _ Hs HT _].
  destruct (add_loop_insert (live t) [] junk (max t) (sizes (live t)) 0 (cnt t) bs (bs + sz) 0
              (Z.to_nat (cnt t))) as (junk1 & Hl & E);
    [done|lia|eapply (sorted_in_range _ 0); [lia|done]|lia|lia|cbn; lia|].
  cbn [app] in E. rewrite <-HT, <-Hr in E. unfold add_round.
  assert (Et : MType (cnt t) (max t) (total_size t) (regions t) = t) by (by destruct t).
  rewrite Et in E. eexists _, _. split; [exact E|]. split; [lia|]. split.
  { intros E0. rewrite (ins_same_length (live t)) in Hl |- * by lia.
    destruct (wf_intro (0 + Z.of_nat (length (live t))) (max t)
      (u64 (sizes (live t) + sizes (live t) - sizes (live t))) (live t) junk1)
      as [Elive Hwf']; rewrite ?length_app; try done; try lia; [apply Hwf|feq|].
    split; [done|]. split; [done|]. rewrite Elive. split; [done|]. split; [lia|]. intros x.
    rewrite <-(ins_covers _ _ bs (bs + sz) x Hs). by rewrite ins_same_length by lia. }
  intros Hnz.
  assert (Hs' : sorted_from 0 (ins (live t) bs (bs + sz))) by (apply ins_sorted; [done|lia|lia]).
  set (l := ins (live t) bs (bs + sz)) in *.
  assert (Hcov : forall x, covers l x <-> covers (live t) x \/ bs <= x < bs + sz)
    by (intros x; by eapply ins_covers).
  destruct l as [|r l'] eqn:El.
  { pose proof (ins_length (live t) bs (bs + sz)). subst l. rewrite El in *.
    destruct (live t); [done|cbn in *; lia]. }
  destruct (merge_loop_ok l' [] r junk1 (max t)
              (u64 (sizes (live t) + sizes (r :: l') - sizes (live t)))
              (Z.to_nat (Z.of_nat (length (r :: l')))) 0 (Z.of_nat (length (r :: l'))) 0)
    as (junk2 & Hl2 & E2); [done|cbn; lia|lia|done|cbn; lia|lia|].
  unfold memblock_merge_regions. cbn [cnt]. cbn [app] in E2. rewrite !Z.add_0_l in *.
  cbn [app]. rewrite E2. eexists. split; [done|].
  pose proof (merge_head r l') as (r1 & l1 & Em & _).
  destruct (wf_intro (Z.of_nat (length (merge_list r l'))) (max t)
              (u64 (sizes (live t) + sizes (r :: l') - sizes (live t))) (merge_list r l') junk2)
    as [Elive Hwf'].
  - by rewrite Em.
  - by apply merge_sorted.
  - apply merge_separated.
  - done.
  - rewrite length_app. cbn [length] in *. lia.
  - done.
  - rewrite merge_sizes. cbn [sizes]. f_equal. lia.
  - split; [done|]. split; [done|]. rewrite Elive. split; [by rewrite Em|].
    pose proof (merge_length r l'). pose proof (ins_length (live t) bs (bs + sz)) as Hi.
    fold l in Hi. rewrite El in Hi. cbn [length] in Hi. split; [lia|].
    intros x. by rewrite <-Hcov, (merge_covers r l' 0).
Qed.

(** The unit test of the loop bound: with [insert] false the counting pass
    returns the number of pieces that the inserting pass would add. *)
Lemma add_round_count t bs sz :
  wf_type t -> live t <> [] -> 0 <= bs -> 0 < sz -> bs + sz < 2 ^ 64 ->
  add_round false t bs (bs + sz) =
  Ok (t, Z.of_nat (length (ins (live t) bs (bs + sz))) - Z.of_nat (length (live t))).
Proof.
  intros Hwf Hne Hbs Hsz Hov. destruct (live_split t Hwf Hne) as (Hc & junk & Hr & _ & _).
  pose proof Hwf as [_ _ _ Hs _ _].
  pose proof (add_loop_count (live t) [] junk (max t) (total_size t) 0 (cnt t) bs (bs + sz) 0
                (Z.to_nat (cnt t))) as E.
  cbn [app] in E. rewrite <-Hr in E. unfold add_round.
  assert (Et : MType (cnt t) (max t) (total_size t) (regions t) = t) by (by destruct t).
  rewrite Et in E. etrans; [apply E|feq];
    [done|lia|eapply (sorted_in_range _ 0); [lia|done]|lia].
Qed.

(** The range is already covered when nothing new would be inserted. *)
Lemma added_nothing t bs sz :
  wf_type t -> live t <> [] ->
  Z.of_nat (length (ins (live t) bs (bs + sz))) - Z.of_nat (length (live t)) = 0 ->
  added t t bs sz.
Proof.
  intros Hwf Hne E. split_and!; [done..|lia|]. intros x. pose proof Hwf as [_ _ _ Hs _ _].
  rewrite <-(ins_covers _ _ bs (bs + sz) x Hs). by rewrite ins_same_length by lia.
Qed.

Lemma added_first t bs sz :
  wf_type t -> live t = [] -> 0 <= bs -> 0 < sz -> bs + sz < 2 ^ 64 ->
  exists rs, (regions t).[0 := Region bs sz] = Some rs /\
    added t (MType (cnt t) (max t) sz rs) bs sz.
Proof.
  intros Hwf He Hbs Hsz Hov. destruct (live_empty t Hwf He) as (r0 & l & Er & E0 & Ec).
  pose proof Hwf as [? [Hm Hmx] _ _ _ _]. rewrite Er in *. cbn [length] in *.
  exists (Region bs sz :: l). split.
  { rewrite zset_ok by (cbn; lia). done. }
  rewrite Ec.
  destruct (wf_intro 1 (max t) sz [Region bs sz] l) as [El Hw]; cbn; try done; try lia.
  { rewrite Z.add_0_r. by rewrite u64_small by lia. }
  split; [done|]. split; [done|]. cbn [app] in El. rewrite El, He. split; [done|].
  split; [cbn; lia|]. intros x. rewrite covers_cons, covers_nil. unfold inside. cbn. intuition lia.
Qed.

Lemma add_range_ok t bs sz :
  wf_type t -> 0 <= bs -> 0 < sz -> bs + sz < 2 ^ 64 ->
  (exists t', memblock_add_range t bs sz = Ok (0, t') /\ added t t' bs sz) \/
  (memblock_add_range t bs sz = Err Hang /\ max t < Z.of_nat (length (ins (live t) bs (bs + sz)))).
Proof.
  intros Hwf Hbs Hsz Hov. unfold memblock_add_range.
  rewrite (u64_small (bs + sz)) by lia. rewrite (proj2 (Z.eqb_neq sz 0)) by lia.
  pose proof Hwf as [Hc [Hm Hmx] _ _ _ _].
  destruct (decide (live t = [])) as [He|Hne].
  { destruct (added_first t bs sz) as (rs & -> & Ha); try done.
    destruct (live_empty t Hwf He) as (r0 & l & Er & E0 & _).
    assert (E1 : (regions t).[0] = Some r0) by (by rewrite Er).
    rewrite E1. cbn [opt_res mbind res_bind]. rewrite (proj2 (Z.eqb_eq (size r0) 0)) by done.
    cbn. eauto. }
  destruct (live_split t Hwf Hne) as (Hcl & junk & Hr & Hml & Hnz).
  destruct (zget_is_Some (regions t) 0) as [r0 Hr0]; [lia|].
  rewrite Hr0. cbn [opt_res mbind res_bind].
  rewrite (proj2 (Z.eqb_neq (size r0) 0)) by eauto. rewrite u64_small by lia.
  pose proof (ins_length (live t) bs (bs + sz)) as Hil.
  destruct (cnt t * 2 + 1 <? max t) eqn:Eins; zbool.
  - destruct (add_merge_ok t bs sz junk) as (t1 & nr & -> & Hnr & H0 & Hmg); try done; [lia|].
    cbn [mbind res_bind]. destruct (Z.eqb_spec nr 0) as [E|E]; [by eauto|].
    destruct (Hmg E) as (t' & -> & Ha). cbn. eauto.
  - rewrite add_round_count by done. cbn [mbind res_bind].
    set (nr := Z.of_nat _ - Z.of_nat _) in *.
    destruct (Z.eqb_spec nr 0) as [E|E]; [left; by eauto using added_nothing|].
    rewrite u64_small by lia. destruct (max t <? cnt t + nr) eqn:Ecap; zbool;
      [right; split; [done|lia]|].
    destruct (add_merge_ok t bs sz junk) as (t1 & nr' & -> & Hnr & H0 & Hmg); try done; [lia|].
    cbn [mbind res_bind]. destruct (Z.eqb_spec nr' 0) as [E'|E']; [by eauto|].
    destruct (Hmg E') as (t' & -> & Ha). cbn. eauto.
Qed.

(** C12. [memblock_add_range] on a well-formed array either returns 0 with a
    well-formed (sorted, disjoint, merged) array that covers exactly the old
    addresses and the new range, or is stuck in [memblock_double_array] because
    the array cannot hold the pieces before they are merged. *)
Theorem memblock_add_range_covers t bs sz :
  wf_type t -> 0 <= bs -> 0 < sz -> bs + sz < 2 ^ 64 ->
  (exists t', memblock_add_range t bs sz = Ok (0, t') /\ added t t' bs sz) \/
  (memblock_add_range t bs sz = Err Hang /\ max t < Z.of_nat (length (ins (live t) bs (bs + sz)))).
Proof. apply add_range_ok. Qed.

Lemma memblock_add_range_covers_witness :
  let t := MType 2 8 24 [Region 0 8; Region 32 16; Region 0 0; Region 0 0;
                         Region 0 0; Region 0 0; Region 0 0; Region 0 0] in
  (exists t', memblock_add_range t 4 28 = Ok (0, t') /\ added t t' 4 28) \/
  (memblock_add_range t 4 28 = Err Hang /\ max t < Z.of_nat (length (ins (live t) 4 (4 + 28)))).
Proof.
  cbv zeta. apply memblock_add_range_covers; [|lia..].
  split; vm_compute; repeat split; (done || congruence).
Defined.
