(* ===== verification/MemblockAlloc.v ===== *)
(** First-fit allocation from the early allocator: [__next_mem_range],
    [memblock_find_in_range] and [memblock_phys_alloc_range] of
    [src/src/memblock.c].  A request that fits somewhere returns an aligned,
    free block; a request that fits nowhere never returns, because the cursor is
    never set to [ULLONG_MAX]. *)
From S2P Require Import Prelude Memblock.

(** The gap before entry [b] of an array: from the end of the entry before it to
    its own base, or to the end of physical memory after the last entry. *)
Definition gap_start (t : memblock_type) (b : Z) : Z :=
  if b =? 0 then 0 else
  match (regions t).[b - 1] with Some r => u64 (base r + size r) | None => 0 end.

Definition gap_end (pmax : Z) (t : memblock_type) (b : Z) : Z :=
  if b <? cnt t then match (regions t).[b] with Some r => base r | None => 0 end else pmax.

(** An aligned block of [sz] bytes at [c] inside [start, end_). *)
Definition block_in (sz k start end_ c : Z) : Prop :=
  start <= c /\ c + sz <= end_ /\ (2 ^ k | c).

(** Every address of the block is memory, and none is reserved. *)
Definition block_free (mb : memblock) (c sz : Z) : Prop :=
  forall x, c <= x < c + sz -> covers (live (memory mb)) x /\ ~ covers (live (reserved mb)) x.

(** Requests within the machine's range: alignment [2^k], limits below [2^63]. *)
Definition ok_request (sz k start end_ : Z) : Prop :=
  0 <= k <= 32 /\ 0 <= start /\ 0 <= end_ < 2 ^ 63 /\ 0 < sz.

(** A memblock after [memblock_init]: both arrays well-formed, some memory. *)
Record wf_memblock (mb : memblock) : Prop := {
  wf_memory : wf_type (memory mb);
  wf_reserved : wf_type (reserved mb);
  wf_some : live (memory mb) <> [];
  wf_pmax : 0 <= phys_addr_max mb < 2 ^ 63
}.

(** * Sorted arrays *)

Lemma sorted_lookup l : forall lo i j r s,
  sorted_from lo l -> l !! i = Some r -> l !! j = Some s -> (i < j)%nat ->
  base r + size r <= base s.
Proof.
  assert (Hlb : forall l lo j s, sorted_from lo l -> l !! j = Some s -> lo <= base s).
  { induction l0 as [|a l0 IH]; intros lo [|j] s; cbn; try done.
    - intros (? & _) [= <-]. done.
    - intros (? & ? & ? & Hs) Hj. specialize (IH _ _ _ Hs Hj). lia. }
  induction l as [|a l IH]; intros lo [|i] [|j] r s; cbn; try (done || lia).
  - intros (? & ? & ? & Hs) [= <-] Hj _. by eapply Hlb.
  - intros (? & ? & ? & Hs) Hi Hj ?. eapply (IH _ i j); (done || lia).
Qed.

Lemma sorted_head lo r l i s :
  sorted_from lo (r :: l) -> l !! i = Some s -> base r + size r <= base s.
Proof. intros Hs Hi. apply (sorted_lookup (r :: l) lo 0 (S i) r s Hs eq_refl Hi). lia. Qed.

Lemma live_zget t i r :
  wf_type t -> live t <> [] -> i < cnt t -> (regions t).[i] = Some r ->
  live t !! Z.to_nat i = Some r /\ 0 <= i.
Proof.
  intros Hwf Hne Hi [? Hr]%zget_Some.
  destruct (live_split t Hwf Hne) as (Hc & junk & Er & _ & _).
  rewrite Er, lookup_app_l in Hr by lia. done.
Qed.

Lemma live_zget_ex t i :
  wf_type t -> 0 <= i < cnt t -> exists r, (regions t).[i] = Some r.
Proof. intros [? [Hm _] _ _ _ _] Hi. apply zget_is_Some. lia. Qed.

Lemma live_in_range t i r :
  wf_type t -> live t !! i = Some r -> 0 <= base r /\ 0 < size r /\ base r + size r < 2 ^ 64.
Proof.
  intros [_ _ _ Hs _ _] Hi. pose proof (sorted_in_range _ 0 ltac:(lia) Hs) as Hr.
  by eapply Forall_lookup_1 in Hr.
Qed.

Lemma covers_lookup l x : covers l x <-> exists i r, l !! i = Some r /\ inside x r.
Proof.
  unfold covers. split.
  - intros (r & [i Hi]%list_elem_of_lookup & Hx). eauto.
  - intros (i & r & Hi & Hx). exists r. split; [|done]. apply list_elem_of_lookup. eauto.
Qed.

(** An address in a gap is not reserved. *)
Lemma gap_free pmax t b x :
  wf_type t -> 0 <= b <= cnt t -> gap_start t b <= x < gap_end pmax t b -> ~ covers (live t) x.
Proof.
  intros Hwf Hb Hx (i & r & Hi & Hin)%covers_lookup. unfold inside in Hin.
  assert (Hne : live t <> []) by (by intros E; rewrite E in Hi).
  destruct (live_split t Hwf Hne) as (Hc & _). pose proof (lookup_lt_Some _ _ _ Hi).
  pose proof Hwf as [_ _ _ Hs _ _]. unfold gap_start, gap_end in Hx.
  destruct (Z.le_gt_cases b (Z.of_nat i)) as [Hle|Hgt].
  - rewrite (proj2 (Z.ltb_lt b (cnt t))) in Hx by lia.
    destruct (live_zget_ex t b Hwf) as [s Hs']; [lia|]. rewrite Hs' in Hx.
    destruct (live_zget t b s Hwf Hne) as [Hl _]; [lia|done|].
    destruct (decide (Z.to_nat b = i)) as [<-|]; [simplify_eq; lia|].
    pose proof (sorted_lookup _ _ _ _ _ _ Hs Hl Hi ltac:(lia)).
    pose proof (live_in_range _ _ _ Hwf Hl). lia.
  - rewrite (proj2 (Z.eqb_neq b 0)) in Hx by lia.
    destruct (live_zget_ex t (b - 1) Hwf) as [s Hs']; [lia|]. rewrite Hs' in Hx.
    destruct (live_zget t (b - 1) s Hwf Hne) as [Hl _]; [lia|done|].
    pose proof (live_in_range _ _ _ Hwf Hl). rewrite u64_small in Hx by lia.
    destruct (decide (Z.to_nat (b - 1) = i)) as [<-|]; [simplify_eq; lia|].
    pose proof (sorted_lookup _ _ _ _ _ _ Hs Hi Hl ltac:(lia)). lia.
Qed.

(** * Soundness of the scan *)

(** One step of the inner loop, in terms of the gap functions. *)
Lemma next_gap_unfold n pmax t a ms me b :
  wf_type t -> 0 <= b ->
  next_gap (S n) pmax t a ms me b =
  if b <? cnt t + 1 then
    if me <=? gap_start t b then Ok (inl b) else
    if ms <? gap_end pmax t b then
      Ok (inr (if me <=? gap_end pmax t b then cursor (a + 1) b else cursor a (b + 1),
               (Z.max ms (gap_start t b), Z.min me (gap_end pmax t b))))
    else next_gap n pmax t a ms me (b + 1)
  else Ok (inl b).
Proof.
  intros Hwf Hb. pose proof Hwf as [Hc [Hm Hmx] _ _ _ _]. cbn [next_gap].
  rewrite u64_small by lia. destruct (b <? cnt t + 1) eqn:E; zbool; [|done].
  unfold gap_start, gap_end.
  destruct (Z.eqb_spec b 0) as [E0|E0]; cbn [mbind res_bind].
  - destruct (b <? cnt t) eqn:E1; zbool; cbn [mbind res_bind];
      [|by rewrite c_max_spec, c_min_spec].
    destruct (live_zget_ex t b Hwf) as [r ->]; [lia|]. cbn [opt_res mbind res_bind].
    by rewrite c_max_spec, c_min_spec.
  - destruct (live_zget_ex t (b - 1) Hwf) as [r ->]; [lia|]. cbn [opt_res mbind res_bind].
    destruct (b <? cnt t) eqn:E1; zbool; cbn [mbind res_bind];
      [|by rewrite c_max_spec, c_min_spec].
    destruct (live_zget_ex t b Hwf) as [r' ->]; [lia|]. cbn [opt_res mbind res_bind].
    by rewrite c_max_spec, c_min_spec.
Qed.

Lemma cursor_val a b : 0 <= a < 2 ^ 31 -> 0 <= b < 2 ^ 31 -> cursor a b = a + b * 2 ^ 32.
Proof.
  intros Ha Hb. unfold cursor. rewrite Z.shiftl_mul_pow2 by lia.
  rewrite (u32_small a), (u64_small b), u64_small by lia. apply lor_shift; lia.
Qed.

Lemma cursor_roundtrip a b :
  0 <= a < 2 ^ 31 -> 0 <= b < 2 ^ 31 ->
  cursor_a (cursor a b) = a /\ cursor_b (cursor a b) = b /\ cursor a b <> ULLONG_MAX.
Proof.
  intros Ha Hb. rewrite cursor_val by done. unfold cursor_a, cursor_b, ULLONG_MAX.
  change 0xffffffff with (Z.ones 32). rewrite Z.land_ones, Z.shiftr_div_pow2 by lia.
  rewrite Z.mod_add, Z.div_add, Z.mod_small, Z.div_small by lia.
  rewrite !s32_small by lia. split_and!; lia.
Qed.

(** A position of the scan: the indices of a cursor, within the arrays. *)
Definition in_arrays (mb : memblock) (a b : Z) : Prop :=
  0 <= a <= cnt (memory mb) /\ 0 <= b <= cnt (reserved mb) + 1.

(** What a returned range [s, e) guarantees. *)
Definition range_free (mb : memblock) (s e : Z) : Prop :=
  forall x, s <= x < e -> covers (live (memory mb)) x /\ ~ covers (live (reserved mb)) x.

(** Region [a] of the memory and gap [b] of the reservations overlap. *)
Definition hit (mb : memblock) (a b : Z) (m : memblock_region) : Prop :=
  0 <= a < cnt (memory mb) /\ 0 <= b <= cnt (reserved mb) /\ (regions (memory mb)).[a] = Some m /\
  base m < gap_end (phys_addr_max mb) (reserved mb) b /\
  gap_start (reserved mb) b < base m + size m.

(** What the scan returns for that pair: the overlap, and the cursor that moves
    past whichever of the two ends first. *)
Definition hit_out (mb : memblock) (a b : Z) (m : memblock_region) (f : found) : Prop :=
  f = (if base m + size m <=? gap_end (phys_addr_max mb) (reserved mb) b
       then cursor (a + 1) b else cursor a (b + 1),
       (Z.max (base m) (gap_start (reserved mb) b),
        Z.min (base m + size m) (gap_end (phys_addr_max mb) (reserved mb) b))).

Lemma next_gap_spec mb a m n : forall b,
  wf_memblock mb -> 0 <= b <= cnt (reserved mb) + 1 -> 0 <= a < cnt (memory mb) ->
  (regions (memory mb)).[a] = Some m -> cnt (reserved mb) + 1 - b < Z.of_nat n ->
  let t := reserved mb in
  exists r, next_gap n (phys_addr_max mb) t a (base m) (base m + size m) b = Ok r /\
  match r with
  | inl b' => b <= b' <= cnt t + 1 /\ (b' <= cnt t -> base m + size m <= gap_start t b') /\
              (forall c, b <= c < b' -> gap_end (phys_addr_max mb) t c <= base m)
  | inr f => exists b', b <= b' /\ hit mb a b' m /\ hit_out mb a b' m f /\
              (forall c, b <= c < b' -> gap_end (phys_addr_max mb) t c <= base m)
  end.
Proof.
  induction n as [|n IH]; intros b Hwf Hb Ha Hm Hn t; [lia|].
  pose proof Hwf as [_ Hwr _ _]. subst t.
  rewrite next_gap_unfold by (done || lia).
  destruct (Z.ltb_spec b (cnt (reserved mb) + 1)).
  2:{ eexists; split; [done|]. cbn. split_and!; [lia..|]. intros; lia. }
  destruct (Z.leb_spec (base m + size m) (gap_start (reserved mb) b)).
  { eexists; split; [done|]. cbn. split_and!; [lia..|]. intros; lia. }
  destruct (Z.ltb_spec (base m) (gap_end (phys_addr_max mb) (reserved mb) b)).
  { eexists; split; [done|]. exists b. split_and!; [lia| |done|intros; lia].
    split_and!; (done || lia). }
  destruct (IH (b + 1)) as (r & -> & Hr); try (done || lia).
  exists r. split; [done|]. destruct r as [b'|f].
  - destruct Hr as (? & ? & Hs). split_and!; [lia..|done|]. intros c Hc.
    destruct (decide (c = b)) as [->|]; [lia|]. apply Hs; lia.
  - destruct Hr as (b' & ? & ? & ? & Hs). exists b'. split_and!; [lia|done..|]. intros c Hc.
    destruct (decide (c = b)) as [->|]; [lia|]. apply Hs; lia.
Qed.

(** Order of the gaps. *)
Lemma gap_order pmax t b b' :
  wf_type t -> live t <> [] -> 0 <= b < b' -> b' <= cnt t ->
  gap_end pmax t b < gap_start t b' /\ gap_start t b <= gap_start t b'.
Proof.
  intros Hwf Hne Hb Hb'. pose proof Hwf as [_ _ _ Hs _ _].
  assert (Hle : forall i j r s, 0 <= i <= j -> j < cnt t -> (regions t).[i] = Some r ->
            (regions t).[j] = Some s -> base r <= base s /\ base r + size r <= base s + size s).
  { intros i j r s Hij Hj Hr Hs'.
    destruct (live_zget t i r Hwf Hne) as [Hl _]; [lia|done|].
    destruct (live_zget t j s Hwf Hne) as [Hl' _]; [lia|done|].
    destruct (decide (i = j)) as [->|]; [simplify_eq; lia|].
    pose proof (sorted_lookup _ _ _ _ _ _ Hs Hl Hl' ltac:(lia)).
    pose proof (live_in_range _ _ _ Hwf Hl). pose proof (live_in_range _ _ _ Hwf Hl'). lia. }
  destruct (live_zget_ex t (b' - 1) Hwf) as [s Es]; [lia|].
  destruct (live_zget t (b' - 1) s Hwf Hne) as [Hl _]; [lia|done|].
  pose proof (live_in_range _ _ _ Hwf Hl). unfold gap_end, gap_start.
  rewrite (proj2 (Z.eqb_neq b' 0)), (proj2 (Z.ltb_lt b (cnt t))), Es by lia.
  rewrite (u64_small (base s + size s)) by lia.
  destruct (live_zget_ex t b Hwf) as [r Er]; [lia|]. rewrite Er.
  pose proof (Hle b (b' - 1) r s ltac:(lia) ltac:(lia) Er Es).
  split; [lia|].
  destruct (Z.eqb_spec b 0); [lia|].
  destruct (live_zget_ex t (b - 1) Hwf) as [q Eq]; [lia|]. rewrite Eq.
  destruct (live_zget t (b - 1) q Hwf Hne) as [Hq _]; [lia|done|].
  pose proof (live_in_range _ _ _ Hwf Hq). rewrite u64_small by lia.
  pose proof (Hle (b - 1) (b' - 1) q s ltac:(lia) ltac:(lia) Eq Es). lia.
Qed.

(** Where a scan at ([a], [b]) may go without missing the overlap ([x], [y]). *)
Lemma hit_order mb a b m x y mx :
  wf_memblock mb -> live (reserved mb) <> [] ->
  (regions (memory mb)).[a] = Some m -> 0 <= a <= x -> 0 <= b <= y -> hit mb x y mx ->
  let pmax := phys_addr_max mb in let t := reserved mb in
  (base m + size m <= gap_start t b -> a < x) /\
  (gap_end pmax t b <= base m -> b < y) /\
  (base m + size m <= gap_end pmax t b -> a < x \/ (a = x /\ b = y)) /\
  (gap_end pmax t b < base m + size m -> b < y \/ (a = x /\ b = y)).
Proof.
  intros [Hwm Hwr Hne _] Hnr Hm Ha Hb (Hx & Hy & Hmx & Hlo & Hhi) pmax t. subst pmax t.
  destruct (live_zget _ _ _ Hwm Hne (proj2 Hx) Hmx) as [Hlx _].
  destruct (live_zget _ a m Hwm Hne ltac:(lia) Hm) as [Hla _].
  pose proof (live_in_range _ _ _ Hwm Hlx). pose proof (live_in_range _ _ _ Hwm Hla).
  assert (Hax : a < x -> base m + size m <= base mx).
  { intros. eapply (sorted_lookup _ 0 (Z.to_nat a) (Z.to_nat x)); try done; [|lia].
    by apply Hwm. }
  assert (Hax' : a = x -> m = mx) by (intros ->; by simplify_eq).
  assert (Hby : b < y -> gap_end (phys_addr_max mb) (reserved mb) b < gap_start (reserved mb) y /\
                 gap_start (reserved mb) b <= gap_start (reserved mb) y)
    by (intros; apply gap_order; (done || lia)).
  assert (Hby' : b = y \/ b < y) by lia. assert (Ha' : a = x \/ a < x) by lia.
  destruct Hby' as [->|Hlt]; [|specialize (Hby Hlt)];
    (destruct Ha' as [->|Hlt']; [specialize (Hax' eq_refl); subst mx|specialize (Hax Hlt')]);
    split_and!; intros; lia.
Qed.

(** The overlap of a pair ends before the overlap of a later pair starts. *)
Lemma hit_gap mb a b m x y mx :
  wf_memblock mb -> live (reserved mb) <> [] -> hit mb a b m -> hit mb x y mx -> (a < x \/ b < y) ->
  Z.min (base m + size m) (gap_end (phys_addr_max mb) (reserved mb) b) <= Z.max (base mx) (gap_start (reserved mb) y).
Proof.
  intros [Hwm Hwr Hne _] Hnr (Ha & Hb & Hm & _) (Hx & Hy & Hmx & _) [Hlt|Hlt].
  - destruct (live_zget _ _ _ Hwm Hne (proj2 Hx) Hmx) as [Hlx _]. destruct (live_zget _ _ _ Hwm Hne (proj2 Ha) Hm) as [Hla _].
    assert (base m + size m <= base mx); [|lia].
    eapply (sorted_lookup _ 0 (Z.to_nat a) (Z.to_nat x)); try done; [|lia]. by apply Hwm.
  - pose proof (gap_order (phys_addr_max mb) (reserved mb) b y Hwr Hnr ltac:(lia) ltac:(lia)). lia.
Qed.

Lemma next_loop_spec mb n : forall a b,
  wf_memblock mb -> in_arrays mb a b -> cnt (memory mb) - a < Z.of_nat n ->
  exists r, next_loop n (phys_addr_max mb) (memory mb) (Some (reserved mb)) a b = Ok r /\
  match r with
  | Some f => exists x y m, a <= x /\ b <= y /\ hit mb x y m /\ hit_out mb x y m f /\
                (live (reserved mb) <> [] -> forall x' y' m', a <= x' -> b <= y' ->
                   hit mb x' y' m' -> x <= x' /\ y <= y')
  | None => live (reserved mb) <> [] -> forall x' y' m', a <= x' -> b <= y' -> ~ hit mb x' y' m'
  end.
Proof.
  induction n as [|n IH]; intros a b Hwf [Ha Hb] Hn; [lia|].
  pose proof Hwf as [Hwm Hwr Hne _]. cbn [next_loop].
  destruct (Z.ltb_spec a (cnt (memory mb))) as [Hlt|Hge].
  2:{ eexists; split; [done|]. intros _ x' y' m' ? ? [? _]. lia. }
  destruct (live_zget_ex _ a Hwm) as [m Hm]; [lia|].
  destruct (live_zget _ _ _ Hwm Hne Hlt Hm) as [Hl _]. pose proof (live_in_range _ _ _ Hwm Hl).
  rewrite Hm. cbn [opt_res mbind res_bind]. rewrite u64_small by lia.
  destruct (next_gap_spec mb a m (S (Z.to_nat (cnt (reserved mb) + 1))) b)
    as (r & -> & Hr); try (done || lia).
  cbn [opt_res mbind res_bind]. destruct r as [b'|f].
  - destruct Hr as (Hb' & Hend & Hskip).
    assert (Hgo : live (reserved mb) <> [] -> forall x' y' m', a <= x' -> b <= y' ->
              hit mb x' y' m' -> a + 1 <= x' /\ b' <= y').
    { intros Hnr x' y' m' Hx Hy Hh. assert (b' <= y').
      { destruct (Z.le_gt_cases b' y') as [|Hgt]; [done|].
        pose proof (Hskip y' ltac:(lia)).
        destruct (hit_order mb a y' m x' y' m') as (_ & H2 & _); (done || lia). }
      split; [|done].
      destruct (hit_order mb a b' m x' y' m') as (H1 & _); try (done || lia).
      destruct Hh as (? & ? & _). lia. }
    destruct (IH (a + 1) b') as (r & -> & Hr); [done|split; lia|lia|].
    exists r. split; [done|]. destruct r as [f|].
    + destruct Hr as (x & y & m0 & ? & ? & ? & ? & Hrest). exists x, y, m0.
      split_and!; [lia|lia|done|done|]. intros Hnr x' y' m' ? ? Hh.
      destruct (Hgo Hnr x' y' m'); try done. by eapply Hrest.
    + intros Hnr x' y' m' ? ? Hh. destruct (Hgo Hnr x' y' m'); try done. by eapply Hr.
  - destruct Hr as (b' & Hb' & Hh & Ho & Hskip). eexists. split; [done|]. exists a, b', m.
    split_and!; [lia|done|done|done|]. intros Hnr x' y' m' Hx Hy Hh'. split; [lia|].
    destruct (Z.le_gt_cases b' y') as [|Hgt]; [done|].
    pose proof (Hskip y' ltac:(lia)).
    destruct (hit_order mb a y' m x' y' m') as (_ & H2 & _); (done || lia).
Qed.

(** One call of [__next_mem_range] on a cursor of the scan. *)
Lemma next_range_spec mb a b :
  wf_memblock mb -> in_arrays mb a b ->
  exists r, __next_mem_range (phys_addr_max mb) (cursor a b) (memory mb) (Some (reserved mb)) = Ok r /\
  match r with
  | Some (i, (s, e)) => range_free mb s e /\ exists x y, a <= x /\ b <= y /\ a + b < x + y /\
      in_arrays mb x y /\ i = cursor x y /\
      (live (reserved mb) <> [] -> forall x' y' m', a <= x' -> b <= y' -> hit mb x' y' m' ->
         (x <= x' /\ y <= y' /\ e <= Z.max (base m') (gap_start (reserved mb) y')) \/ (s, e) = (Z.max (base m') (gap_start (reserved mb) y'),
                    Z.min (base m' + size m') (gap_end (phys_addr_max mb) (reserved mb) y')))
  | None => live (reserved mb) <> [] -> forall x' y' m', a <= x' -> b <= y' -> ~ hit mb x' y' m'
  end.
Proof.
  intros Hwf Hin. pose proof Hwf as [Hwm Hwr Hne _].
  pose proof Hwm as [? [? ?] _ _ _ _]. pose proof Hwr as [? [? ?] _ _ _ _].
  unfold __next_mem_range. destruct Hin as [Ha Hb].
  destruct (cursor_roundtrip a b) as (-> & -> & _); [lia..|].
  destruct (next_loop_spec mb (S (Z.to_nat (cnt (memory mb)))) a b) as (r & Hr & Hspec);
    [done|done|lia|]. exists r. split; [done|]. destruct r as [[i [s e]]|]; [|done].
  destruct Hspec as (x & y & m & Hax & Hby & Hh & Ho & Hrest). unfold hit_out in Ho.
  pose proof Hh as (Hx' & Hy' & Hm & Hlo & Hhi). split.
  { injection Ho as _ -> ->. intros z Hz. split; [|apply (gap_free (phys_addr_max mb) _ y);
      (done || lia)].
    apply covers_lookup. destruct (live_zget _ _ _ Hwm Hne (proj2 Hx') Hm) as [Hl _].
    exists (Z.to_nat x), m. split; [done|]. unfold inside. lia. }
  assert (Hord : live (reserved mb) <> [] -> forall x' y' m', a <= x' -> b <= y' ->
    hit mb x' y' m' -> (if base m + size m <=? gap_end (phys_addr_max mb) (reserved mb) y
       then x + 1 <= x' /\ y <= y' else x <= x' /\ y + 1 <= y') /\
       Z.min (base m + size m) (gap_end (phys_addr_max mb) (reserved mb) y) <= Z.max (base m') (gap_start (reserved mb) y')
       \/ (x = x' /\ y = y' /\ m = m')).
  { intros Hnr x' y' m' ? ? Hh'. destruct (Hrest Hnr x' y' m') as [? ?]; try done.
    destruct (hit_order mb x y m x' y' m') as (_ & _ & Hlt & Hgt); try (done || lia).
    pose proof Hh' as (_ & _ & Hm' & _). pose proof (hit_gap mb x y m x' y' m' Hwf Hnr Hh Hh') as Hgap.
    destruct (Z.leb_spec (base m + size m) (gap_end (phys_addr_max mb) (reserved mb) y)) as [Hc|Hc];
      [destruct (Hlt Hc) as [?|[-> ->]]|destruct (Hgt Hc) as [?|[-> ->]]]; simplify_eq; (lia || auto). }
  injection Ho as -> -> ->.
  destruct (Z.leb_spec (base m + size m) (gap_end (phys_addr_max mb) (reserved mb) y));
    [exists (x + 1), y|exists x, (y + 1)]; split_and!; try lia; try (split; lia);
    intros Hnr x' y' m' Hx Hy Hh'; (destruct (Hord Hnr x' y' m' Hx Hy Hh') as [[[? ?] ?]|(-> & -> & ->)];
      [by left|by right]).
Qed.

Lemma ALIGN_least x k c :
  0 <= k <= 32 -> 0 <= x < 2 ^ 63 -> (2 ^ k | c) -> x <= c -> ALIGN x (2 ^ k) <= c.
Proof.
  intros Hk Hx [q ->] Hle. assert (0 < 2 ^ k) by (apply Z.pow_pos_nonneg; lia).
  assert (2 ^ k <= 2 ^ 32) by (apply Z.pow_le_mono_r; lia).
  destruct (ALIGN_spec x k) as [[? Hub] [q' Eq]]; [lia..|]. rewrite Eq in *.
  apply Z.mul_le_mono_nonneg_r; [lia|]. apply Z.lt_succ_r, (Z.mul_lt_mono_pos_r (2 ^ k)); lia.
Qed.

Lemma clamp_spec v lo hi : clamp v lo hi = Z.min (Z.max v lo) hi.
Proof. unfold clamp. by rewrite c_min_spec, c_max_spec. Qed.

(** One iteration: the cursor stays inside the arrays and never becomes the
    end marker, so the loop has only its own test to stop it. *)
Lemma find_loop_step mb sz align start end_ a b vars :
  wf_memblock mb -> in_arrays mb a b -> (forall s e, vars = Some (s, e) -> range_free mb s e) ->
  exists a' b' vars', in_arrays mb a' b' /\
    (forall s e, vars' = Some (s, e) -> range_free mb s e) /\
    forall n, find_loop n mb sz align start end_ (cursor a b) vars =
      match n with
      | O => Err NoFuel
      | S n =>
        match vars' with
        | None => Err Uninit
        | Some (s, e) =>
          let s := Z.min (Z.max s start) end_ in
          let e := Z.min (Z.max e start) end_ in
          if (ALIGN s align <? e) && (sz <=? u64 (e - ALIGN s align)) then Ok (ALIGN s align)
          else find_loop n mb sz align start end_ (cursor a' b') (Some (s, e))
        end
      end.
Proof.
  intros Hwf Hin Hv. destruct (next_range_spec mb a b Hwf Hin) as (r & Hr & Hspec).
  pose proof Hwf as [[? [? ?] _ _ _ _] [? [? ?] _ _ _ _] _ _].
  destruct r as [[i [s e]]|].
  - destruct Hspec as (Hf & x & y & _ & _ & _ & Hxy & -> & _). exists x, y, (Some (s, e)).
    split_and!; [done|by intros ? ? [= <- <-]|]. intros n.
    destruct Hxy as [? ?]. destruct (cursor_roundtrip x y) as (_ & _ & Hm); [lia..|].
    destruct n; cbn [find_loop]; rewrite Hr; cbn [mbind res_bind];
      rewrite (proj2 (Z.eqb_neq _ _) Hm); [done|]. cbv zeta. by rewrite !clamp_spec.
  - exists a, b, vars. split_and!; [done..|]. intros n.
    destruct Hin as [? ?]. destruct (cursor_roundtrip a b) as (_ & _ & Hm); [lia..|].
    destruct n; cbn [find_loop]; rewrite Hr; cbn [mbind res_bind];
      rewrite (proj2 (Z.eqb_neq _ _) Hm); [done|].
    destruct vars as [[s e]|]; [|done].
    by rewrite !clamp_spec.
Qed.

Lemma find_loop_sound n mb sz k start end_ : forall a b vars c,
  wf_memblock mb -> ok_request sz k start end_ -> in_arrays mb a b ->
  (forall s e, vars = Some (s, e) -> range_free mb s e) ->
  find_loop n mb sz (2 ^ k) start end_ (cursor a b) vars = Ok c ->
  block_in sz k start end_ c /\ block_free mb c sz.
Proof.
  induction n as [|n IH]; intros a b vars c Hwf Hreq Hin Hv H;
    destruct (find_loop_step mb sz (2 ^ k) start end_ a b vars Hwf Hin Hv)
      as (a' & b' & vars' & Hin' & Hv' & Hstep); rewrite Hstep in H; [done|].
  destruct vars' as [[s e]|]; [|done]. specialize (Hv' s e eq_refl). cbv zeta in H.
  set (s' := Z.min (Z.max s start) end_) in *.
  set (e' := Z.min (Z.max e start) end_) in *. pose proof Hreq as (Hk & Hst & He & Hsz).
  assert (0 < 2 ^ k <= 2 ^ 32).
  { split; [apply Z.pow_pos_nonneg; lia|]. apply Z.pow_le_mono_r; lia. }
  pose proof (ALIGN_spec s' k ltac:(lia) ltac:(lia) ltac:(lia)) as [Ha Hdiv].
  destruct ((_ <? e') && _) eqn:Et; zbool.
  - injection H as <-. rewrite u64_small in * by lia.
    split; [split_and!; [lia..|done]|]. intros x Hx. apply Hv'. lia.
  - eapply (IH a' b' (Some (s', e')) c); try done. intros ? ? [= <- <-] x Hx. apply Hv'. lia.
Qed.

Lemma find_loop_complete n mb sz k start end_ x y m c0 : forall a b vars,
  wf_memblock mb -> ok_request sz k start end_ -> live (reserved mb) <> [] ->
  block_in sz k start end_ c0 -> hit mb x y m ->
  Z.max (base m) (gap_start (reserved mb) y) <= c0 ->
  c0 + sz <= Z.min (base m + size m) (gap_end (phys_addr_max mb) (reserved mb) y) ->
  in_arrays mb a b -> a <= x -> b <= y -> x + y - (a + b) < Z.of_nat n ->
  exists c, find_loop n mb sz (2 ^ k) start end_ (cursor a b) vars = Ok c /\ c <= c0.
Proof.
  induction n as [|n IH];
    intros a b vars Hwf Hreq Hnr Hin Hh Hlo Hhi Hab Hax Hby Hn; [lia|].
  cbn [find_loop]. destruct (next_range_spec mb a b Hwf Hab) as (r & -> & Hspec).
  cbn [mbind res_bind]. destruct r as [[i [s e]]|].
  2:{ exfalso. by apply (Hspec Hnr x y m). }
  destruct Hspec as (_ & a' & b' & _ & _ & Hlt & Hab' & -> & Hnext).
  pose proof Hwf as [[? [? ?] _ _ _ _] [? [? ?] _ _ _ _] _ _].
  pose proof Hab' as [Ha' Hb'].
  destruct (cursor_roundtrip a' b') as (_ & _ & Hm); [lia..|].
  rewrite (proj2 (Z.eqb_neq _ _) Hm). cbv zeta. rewrite !clamp_spec.
  destruct (Hnext Hnr x y m Hax Hby Hh) as [(Hx' & Hy' & Hend)|[= -> ->]].
  { destruct (_ && _) eqn:Et; [|eapply IH; try done; lia]. eexists. split; [done|]. zbool. destruct Hin. lia. }
  destruct Hin as (? & ? & Hdiv). destruct Hreq as (? & ? & ? & ?).
  set (s' := Z.min (Z.max (Z.max _ _) start) end_).
  set (e' := Z.min (Z.max (Z.min _ _) start) end_).
  assert (s' <= c0 /\ c0 + sz <= e' /\ 0 <= s' < 2 ^ 63 /\ e' < 2 ^ 63) by lia.
  pose proof (ALIGN_least s' k c0 ltac:(lia) ltac:(lia) Hdiv ltac:(lia)).
  assert (0 <= ALIGN s' (2 ^ k)) by apply u64_range.
  rewrite u64_small by lia.
  rewrite (proj2 (Z.ltb_lt (ALIGN _ _) _)), (proj2 (Z.leb_le sz _)) by lia. by eexists.
Qed.

(** * From free blocks to overlaps *)

(** A covered interval lies in one entry, since neighbours never touch. *)
Lemma one_entry l : forall lo c sz,
  sorted_from lo l -> separated l -> 0 < sz -> (forall x, c <= x < c + sz -> covers l x) ->
  exists i r, l !! i = Some r /\ base r <= c /\ c + sz <= base r + size r.
Proof.
  induction l as [|r l IH]; intros lo c sz Hs Hsep Hsz Hc.
  { destruct (Hc c ltac:(lia)) as (r & []%elem_of_nil & _). }
  pose proof Hs as (Hlo & Hr & _ & Hs').
  assert (Hsep' : separated l) by (destruct l; [done|apply Hsep]).
  assert (Hlb : forall x, covers l x -> base r + size r <= x).
  { intros x (i & s & Hi & Hx)%covers_lookup. unfold inside in Hx.
    pose proof (sorted_head _ _ _ _ _ Hs Hi). lia. }
  destruct (Z.lt_ge_cases c (base r + size r)) as [Hlt|Hge].
  - exists 0%nat, r. assert (Hin : base r <= c).
    { destruct (Hc c ltac:(lia)) as (s & [->|Hel]%elem_of_cons & Hx); [unfold inside in Hx; lia|].
      enough (base r + size r <= c) by lia. apply Hlb. by exists s. }
    split_and!; [done..|]. destruct (Z.le_gt_cases (c + sz) (base r + size r)) as [|Hgt]; [done|].
    destruct (Hc (base r + size r) ltac:(lia)) as (s & [->|Hel]%elem_of_cons & Hx);
      unfold inside in Hx; [lia|]. destruct l as [|s0 l]; [by apply elem_of_nil in Hel|].
    destruct Hsep as [Hne _]. pose proof Hs' as (? & ? & _).
    apply elem_of_cons in Hel as [->|Hel]; [lia|].
    apply list_elem_of_lookup in Hel as [i Hi].
    pose proof (sorted_head _ _ _ _ _ Hs' Hi). lia.
  - destruct (IH (base r + size r) c sz) as (i & s & Hi & ?); [done..| |by exists (S i), s].
    intros x Hx. destruct (Hc x Hx) as (s & [->|Hel]%elem_of_cons & Hin);
      [unfold inside in Hin; lia|by exists s].
Qed.

(** An interval that meets no entry lies between two of them. *)
Lemma one_gap l : forall lo c sz,
  sorted_from lo l -> 0 < sz -> (forall x, c <= x < c + sz -> ~ covers l x) ->
  exists j, (j <= length l)%nat /\
    (forall i r, l !! i = Some r -> (i < j)%nat -> base r + size r <= c) /\
    (forall i r, l !! i = Some r -> (j <= i)%nat -> c + sz <= base r).
Proof.
  induction l as [|r l IH]; intros lo c sz Hs Hsz Hc; [exists 0%nat; split_and!; [done|done|done]|].
  pose proof Hs as (Hlo & Hr & _ & Hs').
  destruct (Z.le_gt_cases (c + sz) (base r)) as [Hle|Hgt].
  - exists 0%nat. split_and!; [lia|intros; lia|]. intros [|i] s Hi _; cbn in Hi; [by simplify_eq|].
    pose proof (sorted_head _ _ _ _ _ Hs Hi). lia.
  - assert (base r + size r <= c).
    { destruct (Z.le_gt_cases (base r + size r) c) as [|Hlt]; [done|]. exfalso.
      apply (Hc (Z.max c (base r)) ltac:(lia)). exists r. split; [apply elem_of_cons; by left|].
      unfold inside. lia. }
    destruct (IH (base r + size r) c sz Hs' Hsz) as (j & Hj & Hb & Ha).
    { intros x Hx (s & Hel & Hin). apply (Hc x Hx). exists s. split; [by apply elem_of_cons; right|done]. }
    exists (S j). cbn. split_and!; [lia|..]; intros [|i] s Hi Hlt; cbn in Hi; simplify_eq;
      try lia;
      [eapply Hb; [exact Hi|lia]|eapply Ha; [exact Hi|lia]].
Qed.

Lemma fits_hit mb c sz :
  wf_memblock mb -> live (reserved mb) <> [] -> 0 < sz -> 0 <= c -> c + sz <= phys_addr_max mb ->
  block_free mb c sz -> exists x y m, hit mb x y m /\
    Z.max (base m) (gap_start (reserved mb) y) <= c /\
    c + sz <= Z.min (base m + size m) (gap_end (phys_addr_max mb) (reserved mb) y).
Proof.
  intros [Hwm Hwr Hne _] Hnr Hsz Hc0 Hmax Hfree.
  destruct (one_entry (live (memory mb)) 0 c sz) as (i & m & Hi & Hlo & Hhi);
    [apply Hwm|apply Hwm|done|intros x Hx; by apply Hfree|].
  destruct (one_gap (live (reserved mb)) 0 c sz) as (j & Hj & Hb & Ha);
    [apply Hwr|done|intros x Hx; by apply Hfree|].
  destruct (live_split _ Hwm Hne) as (Hcm & jm & Erm & _ & _).
  destruct (live_split _ Hwr Hnr) as (Hcr & jr & Err & _ & _).
  pose proof (lookup_lt_Some _ _ _ Hi).
  assert (gap_start (reserved mb) (Z.of_nat j) <= c).
  { unfold gap_start. destruct (Z.eqb_spec (Z.of_nat j) 0); [lia|].
    destruct (live_zget_ex _ (Z.of_nat j - 1) Hwr) as [r Er]; [lia|]. rewrite Er.
    destruct (live_zget (reserved mb) (Z.of_nat j - 1) r Hwr Hnr ltac:(lia) Er) as [Hl _].
    pose proof (live_in_range _ _ _ Hwr Hl). rewrite u64_small by lia.
    eapply Hb; [exact Hl|lia]. }
  assert (c + sz <= gap_end (phys_addr_max mb) (reserved mb) (Z.of_nat j)).
  { unfold gap_end. destruct (Z.ltb_spec (Z.of_nat j) (cnt (reserved mb))); [|lia].
    destruct (live_zget_ex _ (Z.of_nat j) Hwr) as [r Er]; [lia|]. rewrite Er.
    destruct (live_zget (reserved mb) (Z.of_nat j) r Hwr Hnr ltac:(lia) Er) as [Hl _]. eapply Ha; [exact Hl|lia]. }
  exists (Z.of_nat i), (Z.of_nat j), m. split; [|lia]. split_and!; try lia.
  apply zget_Some. split; [lia|]. rewrite Erm, Nat2Z.id. by apply lookup_app_l_Some.
Qed.

Lemma find_in_range_sound fuel mb sz k start end_ c :
  wf_memblock mb -> ok_request sz k start end_ ->
  memblock_find_in_range fuel mb sz (2 ^ k) start end_ = Ok c ->
  block_in sz k start end_ c /\ block_free mb c sz.
Proof.
  intros Hwf Hreq H. pose proof Hwf as [[? _ _ _ _ _] [? _ _ _ _ _] _ _].
  apply (find_loop_sound fuel mb sz k start end_ 0 0 None c); try done. split; lia.
Qed.

Lemma find_in_range_complete fuel mb sz k start end_ c0 :
  wf_memblock mb -> live (reserved mb) <> [] -> ok_request sz k start end_ ->
  cnt (memory mb) + cnt (reserved mb) < Z.of_nat fuel ->
  block_in sz k start end_ c0 -> block_free mb c0 sz -> c0 + sz <= phys_addr_max mb ->
  exists c, memblock_find_in_range fuel mb sz (2 ^ k) start end_ = Ok c /\ c <= c0.
Proof.
  intros Hwf Hnr Hreq Hfuel Hin Hfree Hmax. pose proof Hreq as (_ & ? & _ & ?).
  destruct (fits_hit mb c0 sz) as (x & y & m & Hh & ? & ?); try done; [destruct Hin; lia|].
  pose proof Hh as (? & ? & _). pose proof Hwf as [[? _ _ _ _ _] [? _ _ _ _ _] _ _].
  apply (find_loop_complete fuel mb sz k start end_ x y m c0 0 0 None); try done; try lia.
  split; lia.
Qed.

Lemma ALIGN8_spec sz : 0 < sz < 2 ^ 63 -> sz <= ALIGN sz 8 < sz + 8.
Proof. intros H. change 8 with (2 ^ 3). apply ALIGN_spec; lia. Qed.

(** Reserving: the core of [memblock_reserve] on a well-formed allocator. *)
Lemma reserve_ok mb bs sz :
  wf_memblock mb -> 0 <= bs -> 0 < sz -> bs + sz < 2 ^ 63 ->
  (exists t', memblock_reserve mb bs sz =
      Ok (0, Memblock (current_limit mb) (memory mb) t' (phys_addr_max mb)) /\
    added (reserved mb) t' bs (ALIGN sz 8)) \/
  (memblock_reserve mb bs sz = Err Hang /\
   max (reserved mb) <= 2 * Z.of_nat (length (live (reserved mb)))).
Proof.
  intros [Hwm Hwr Hne _] Hbs Hsz Ho. pose proof (ALIGN8_spec sz ltac:(lia)). unfold memblock_reserve.
  destruct (add_range_ok (reserved mb) bs (ALIGN sz 8) Hwr) as [(t' & -> & Ha)|[-> Hc]];
    [lia..|left; by exists t'|right; split; [done|]].
  pose proof (ins_length (live (reserved mb)) bs (bs + ALIGN sz 8)). lia.
Qed.

Lemma reserve_wf mb t' bs sz :
  wf_memblock mb -> added (reserved mb) t' bs sz ->
  wf_memblock (Memblock (current_limit mb) (memory mb) t' (phys_addr_max mb)).
Proof. intros [] [? _]. by split. Qed.

(** What [initrd_reserve_memory] and [fdt_reserve_memory] do: a reservation, if there is
    anything to reserve. *)
Definition opt_reserve (r : option (Z * Z)) (mb : memblock) : res memblock :=
  match r with
  | None => Ok mb
  | Some (b, s) => r ← memblock_reserve mb b s; Ok r.2
  end.

(** An optional reservation of [memblock_init]; [n] bounds the entries so far. *)
Definition opt_covers (o : option (Z * Z)) (x : Z) : Prop :=
  match o with Some (b, s) => b <= x < b + ALIGN s 8 | None => False end.

Definition opt_valid (o : option (Z * Z)) : Prop :=
  match o with Some (b, s) => 0 <= b /\ 0 < s /\ b + s < 2 ^ 63 | None => True end.

Lemma opt_reserve_ok o mb n :
  wf_memblock mb -> opt_valid o ->
  (length (live (reserved mb)) <= n)%nat -> 2 * Z.of_nat n < max (reserved mb) ->
  exists mb', opt_reserve o mb = Ok mb' /\ wf_memblock mb' /\
    memory mb' = memory mb /\ phys_addr_max mb' = phys_addr_max mb /\
    current_limit mb' = current_limit mb /\
    max (reserved mb') = max (reserved mb) /\
    (length (live (reserved mb')) <= 2 * n + 1)%nat /\
    forall x, covers (live (reserved mb')) x <-> covers (live (reserved mb)) x \/ opt_covers o x.
Proof.
  intros Hwf Ho Hn Hmax. destruct o as [[b s]|]; cbn [opt_reserve opt_covers opt_valid] in *.
  - destruct Ho as (? & ? & ?).
    destruct (reserve_ok mb b s) as [(t' & -> & Ha)|[_ ?]]; try done; [|lia].
    eexists. split; [done|]. split; [by eapply reserve_wf|].
    destruct Ha as (? & ? & ? & ? & Hc). cbn. split_and!; (done || lia).
  - exists mb. split_and!; try done; [lia|]. tauto.
Qed.

(** * The properties *)

(** C13. The scan is complete and first fit: if some aligned block of the requested size
    lies inside the limits, in memory and free, then [memblock_find_in_range] returns
    after at most one iteration per pair of neighbouring entries, and what it
    returns is such a block, not above the given one: the lowest there is. *)
Theorem memblock_find_in_range_complete fuel mb sz k start end_ c0 :
  wf_memblock mb -> live (reserved mb) <> [] -> ok_request sz k start end_ ->
  cnt (memory mb) + cnt (reserved mb) < Z.of_nat fuel ->
  block_in sz k start end_ c0 -> block_free mb c0 sz -> c0 + sz <= phys_addr_max mb ->
  exists c, memblock_find_in_range fuel mb sz (2 ^ k) start end_ = Ok c /\
            block_in sz k start end_ c /\ block_free mb c sz /\ c <= c0.
Proof.
  intros Hwf Hnr Hreq Hfuel Hin Hfree Hmax.
  destruct (find_in_range_complete fuel mb sz k start end_ c0) as (c & Hc & Hle); try done.
  exists c. split; [done|]. destruct (find_in_range_sound fuel mb sz k start end_ c); done.
Qed.

(** The scan has no failure value: whatever [memblock_find_in_range] returns
    is an aligned free block inside the limits.  So a request for which there is
    none does not return 0, as the function's last line means it to; for no
    number of iterations does the loop return. *)
Theorem memblock_find_in_range_never_fails fuel mb sz k start end_ c :
  wf_memblock mb -> ok_request sz k start end_ ->
  memblock_find_in_range fuel mb sz (2 ^ k) start end_ = Ok c ->
  block_in sz k start end_ c /\ block_free mb c sz.
Proof. apply find_in_range_sound. Qed.

(** Allocation, once address 0 is reserved: when a fitting block exists, [memblock_phys_alloc_range]
    returns an aligned block that was free, and reserves exactly that block
    rounded up to 8 bytes, unless it is stuck in [memblock_double_array] with a
    reservation table that is at least half full. *)
Theorem memblock_phys_alloc_range_spec fuel mb sz k start end_ c0 :
  wf_memblock mb -> covers (live (reserved mb)) 0 ->
  let e := if end_ =? 0 then phys_addr_max mb else end_ in
  ok_request sz k start e -> cnt (memory mb) + cnt (reserved mb) < Z.of_nat fuel ->
  block_in sz k start e c0 -> block_free mb c0 sz -> c0 + sz <= phys_addr_max mb ->
  (exists c mb', memblock_phys_alloc_range fuel mb sz (2 ^ k) start end_ = Ok (c, mb') /\ c <= c0 /\
     block_in sz k start e c /\ block_free mb c sz /\ wf_memblock mb' /\ memory mb' = memory mb /\
     forall x, covers (live (reserved mb')) x <->
               covers (live (reserved mb)) x \/ c <= x < c + ALIGN sz 8) \/
  (memblock_phys_alloc_range fuel mb sz (2 ^ k) start end_ = Err Hang /\
   max (reserved mb) <= 2 * Z.of_nat (length (live (reserved mb)))).
Proof.
  intros Hwf H0 e Hreq Hfuel Hin Hfree Hmax.
  assert (Hnr : live (reserved mb) <> []) by (by intros E; rewrite E, covers_nil in H0).
  unfold memblock_phys_alloc_range.
  change MEMBLOCK_ALLOC_ACCESSIBLE with 0. fold e.
  destruct (find_in_range_complete fuel mb sz k start e c0) as (c & Hc & Hle); try done.
  destruct (find_in_range_sound fuel mb sz k start e c) as [Hb Hf]; try done.
  rewrite Hc. cbn [mbind res_bind]. pose proof Hreq as (_ & ? & ? & ?).
  destruct (Z.eqb_spec c 0) as [->|Hnz].
  { exfalso. by apply (Hf 0); [lia|]. }
  destruct Hb as (? & ? & ?).
  destruct (reserve_ok mb c sz) as [(t' & -> & Ha)|[-> ?]]; try done; try lia; [left|by right].
  cbn [mbind res_bind snd]. eexists _, _. split; [done|]. split_and!; try done.
  - by eapply reserve_wf.
  - apply Ha.
Qed.

(** [memblock_init] on the statically initialised arrays: it returns, the
    memory is the range the mailbox reports, and the reservations are the kernel
    image, the initial ramdisk and the device tree, each rounded up to 8 bytes. *)
Theorem memblock_init_ok bs sz kend reserve_initrd reserve_fdt initrd fdt :
  (forall mb, reserve_initrd mb = opt_reserve initrd mb) -> (forall mb, reserve_fdt mb = opt_reserve fdt mb) ->
  0 <= bs -> 0 < sz -> bs + sz < 2 ^ 32 -> 0 < Z.land kend 0xffffffff < 2 ^ 32 ->
  opt_valid initrd -> opt_valid fdt ->
  exists mb, memblock_init reserve_initrd reserve_fdt memblock0 (bs, sz) kend = Ok mb /\
    wf_memblock mb /\ phys_addr_max mb = bs + sz /\ current_limit mb = bs + sz /\
    max (reserved mb) = 32 /\ (length (live (memory mb)) <= 1)%nat /\ (length (live (reserved mb)) <= 7)%nat /\
    (forall x, covers (live (memory mb)) x <-> bs <= x < bs + sz) /\
    (forall x, covers (live (reserved mb)) x <->
       0 <= x < ALIGN (Z.land kend 0xffffffff) 8 \/ opt_covers initrd x \/ opt_covers fdt x).
Proof.
  intros Ei Ef Hbs Hsz Hov Hk Hi Hf. unfold memblock_init.
  assert (Hw0 : wf_type empty_type) by (split; vm_compute; repeat split; (done || congruence)).
  rewrite u32_small by lia. cbn [memblock_set_current_limit current_limit memory reserved memblock0
    phys_addr_max].
  destruct (add_range_ok empty_type bs sz Hw0) as [(tm & -> & Hm)|[_ Hc]]; [lia..| |].
  2:{ vm_compute live in Hc. pose proof (ins_length [] bs (bs + sz)). cbn [length max empty_type] in *.
      unfold INIT_MEMLBOCK_REGIONS in Hc. lia. }
  cbn [mbind res_bind snd]. destruct Hm as (Hwm & _ & Hnm & Hlm & Hcm).
  set (mb := Memblock _ _ _ _).
  assert (Hwf : wf_memblock mb) by (split; cbn; (done || lia)).
  destruct (reserve_ok mb 0 (Z.land kend 0xffffffff)) as [(t1 & -> & Ha)|[_ Hx]];
    [done|lia..| |by vm_compute in Hx].
  cbn [mbind res_bind snd]. pose proof (reserve_wf _ _ _ _ Hwf Ha) as Hw1. rewrite Ei.
  destruct Ha as (_ & Hx1 & _ & Hn1 & Hc1). set (mb1 := Memblock _ _ t1 _) in *.
  destruct (opt_reserve_ok initrd mb1 1) as (mb2 & -> & Hw2 & Em2 & Ep2 & El2 & Hx2 & Hn2 & Hc2);
    [done|done|exact Hn1|cbn; rewrite Hx1; done|].
  cbn [mbind res_bind]. rewrite Ef.
  destruct (opt_reserve_ok fdt mb2 3) as (mb3 & -> & Hw3 & Em3 & Ep3 & El3 & Hx3 & Hn3 & Hc3);
    [done|done|lia|rewrite Hx2; cbn; rewrite Hx1; done|].
  exists mb3. split_and!; [done|done|by rewrite Ep3, Ep2|by rewrite El3, El2|by rewrite Hx3, Hx2; cbn; rewrite Hx1| |lia|..].
  { rewrite Em3, Em2. exact Hlm. }
  all: intros x.
  - rewrite Em3, Em2. cbn. rewrite Hcm. change (live empty_type) with (@nil memblock_region).
    rewrite covers_nil. tauto.
  - rewrite Hc3, Hc2. cbn. rewrite Hc1. change (live (reserved mb)) with (@nil memblock_region).
    rewrite covers_nil. cbn. tauto.
Qed.

(** * Instances *)

(** 1 MiB of kernel and a ramdisk in 944 MiB of memory. *)
Definition mb_example : memblock :=
  Memblock 0x3b000000 (MType 1 4 0x3b000000 [Region 0 0x3b000000; Region 0 0; Region 0 0; Region 0 0])
    (MType 2 4 0x104000
       [Region 0 0x100000; Region 0x8000000 0x4000; Region 0 0; Region 0 0]) 0x3b000000.

Lemma mb_example_wf : wf_memblock mb_example.
Proof.
  split; [| |done|done]; split; vm_compute; repeat split; (done || congruence).
Qed.

Lemma mb_example_free c sz :
  0x100000 <= c -> c + sz <= 0x8000000 -> block_free mb_example c sz.
Proof.
  intros Hc Hs x Hx. split.
  - exists (Region 0 0x3b000000). split; [by left|]. unfold inside. cbn. lia.
  - intros (r & [->|[->|[]%elem_of_nil]%elem_of_cons]%elem_of_cons & Hin);
      unfold inside in Hin; cbn in Hin; lia.
Qed.

Lemma memblock_find_in_range_complete_witness :
  exists c, memblock_find_in_range 4 mb_example 0x1000 (2 ^ 12) 0 0x3b000000 = Ok c /\
            block_in 0x1000 12 0 0x3b000000 c /\ block_free mb_example c 0x1000 /\ c <= 0x101000.
Proof.
  apply (memblock_find_in_range_complete 4 mb_example 0x1000 12 0 0x3b000000 0x101000);
    [apply mb_example_wf|done|unfold ok_request; lia|done| |by apply mb_example_free|done].
  split_and!; [done|done|by exists 0x101].
Defined.

Lemma memblock_find_in_range_never_fails_witness :
  block_in 0x2000000 12 0 0x3b000000 0x100000 /\ block_free mb_example 0x100000 0x2000000.
Proof.
  apply (memblock_find_in_range_never_fails 4 mb_example 0x2000000 12 0 0x3b000000 0x100000);
    [apply mb_example_wf|unfold ok_request; lia|reflexivity].
Defined.

Lemma memblock_phys_alloc_range_spec_witness :
  (exists c mb', memblock_phys_alloc_range 4 mb_example 100 (2 ^ 3) 0 0 = Ok (c, mb') /\
     c <= 0x101000 /\ block_in 100 3 0 0x3b000000 c /\ block_free mb_example c 100 /\ wf_memblock mb' /\
     memory mb' = memory mb_example /\
     forall x, covers (live (reserved mb')) x <->
               covers (live (reserved mb_example)) x \/ c <= x < c + ALIGN 100 8) \/
  (memblock_phys_alloc_range 4 mb_example 100 (2 ^ 3) 0 0 = Err Hang /\
   max (reserved mb_example) <= 2 * Z.of_nat (length (live (reserved mb_example)))).
Proof.
  apply (memblock_phys_alloc_range_spec 4 mb_example 100 3 0 0 0x101000);
    [apply mb_example_wf| |unfold ok_request; cbn; lia|done| |by apply mb_example_free|done].
  - exists (Region 0 0x100000). split; [by left|]. unfold inside. cbn. lia.
  - split_and!; [done|done|by exists (0x101000 / 8)].
Defined.

Lemma memblock_init_ok_witness :
  exists mb, memblock_init (opt_reserve (Some (0x8000000, 0x4000))) (opt_reserve (Some (0x8200000, 0x8000)))
               memblock0 (0, 0x3b400000) 0xffff000000100000 = Ok mb /\
    wf_memblock mb /\ phys_addr_max mb = 0x3b400000 /\ current_limit mb = 0x3b400000 /\
    max (reserved mb) = 32 /\ (length (live (memory mb)) <= 1)%nat /\ (length (live (reserved mb)) <= 7)%nat /\
    (forall x, covers (live (memory mb)) x <-> 0 <= x < 0x3b400000) /\
    (forall x, covers (live (reserved mb)) x <->
       0 <= x < ALIGN (Z.land 0xffff000000100000 0xffffffff) 8 \/
       opt_covers (Some (0x8000000, 0x4000)) x \/ opt_covers (Some (0x8200000, 0x8000)) x).
Proof.
  apply (memblock_init_ok 0 0x3b400000 0xffff000000100000 _ _ (Some (0x8000000, 0x4000))
           (Some (0x8200000, 0x8000))); [done..| |unfold opt_valid; lia|unfold opt_valid; lia].
  split; reflexivity.
Defined.
