(* ===== verification/Buddy.v ===== *)
(** The buddy allocator: the first part of [src/src/mm.c], with the page
    structures and the zone of [src/include/mm.h].

    A [struct page *] is the index of the page in [mem_map], so that pointer
    arithmetic on pages is addition.  The list heads of the free lists and of the
    pages are nodes of one heap ([ListHead]).  Definitions run in the state monad
    over [mm]; an access outside [mem_map] or [free_area] is [OutOfBounds]. *)
From S2P Require Import Prelude ListHead Memblock.

(** * Data *)

(* [src/include/mm.h:6-6 MAX_ORDER] *)
Definition MAX_ORDER : Z := 10.
(* [src/include/mm.h:5-5 PAGE_SHIFT] *)
Definition PAGE_SHIFT : Z := 12.
(* [src/include/mm.h:71-71 PAGE_SIZE] *)
Definition PAGE_SIZE : Z := Z.shiftl 1 12.
(* [src/include/mm.h:115-115 PG_USED] *)
Definition PG_USED : Z := 1.
(* [src/include/mm.h:118-118 PG_AVAIL] *)
Definition PG_AVAIL : Z := 4.
(* [src/include/mm.h:119-119 PG_RESERVED] *)
Definition PG_RESERVED : Z := 0x80.
(* [src/include/mm.h:121-121 PG_slab] *)
Definition PG_slab : Z := 0x20.
(* [src/include/mm.h:122-122 PG_buddy] *)
Definition PG_buddy : Z := 0x40.

(** The list heads: of [zone.free_area[o]], of a page ([buddy_list], which shares
    its place with [slab_list]), and of the partial list of [kmem_caches[i]]. *)
Inductive lnode :=
  | HFree (o : Z)
  | HPage (pfn : Z)
  | HPartial (i : Z).

#[global] Instance lnode_eq_dec : EqDecision lnode.
Proof. solve_decision. Defined.

#[global] Program Instance lnode_countable : Countable lnode :=
  inj_countable' (fun n => match n with HFree o => inl o | HPage p => inr (inl p)
                                      | HPartial i => inr (inr i) end)
                 (fun v => match v with inl o => HFree o | inr (inl p) => HPage p
                                      | inr (inr i) => HPartial i end) _.
Next Obligation. by intros []. Qed.

(** The members of [struct page] other than its list head.  [private] and
    [slab_cache] are one word of the union. *)
(* [src/include/mm.h:124-146 page] *)
Record page := Page {
  flags : Z;
  private : Z;
  freelist : Z;
  counters : Z
}.

(* [src/include/mm.h:148-163 zone] *)
Record mm := MM {
  nr_pages : Z;
  mem_map : gmap Z page;
  nodes : lheap lnode;
  nr_free : list Z;
  managed_pages : Z
}.

(** * Access to the state *)

Definition page_at (p : Z) : M mm page :=
  fun s => match mem_map s !! p with Some pg => Ok (pg, s) | None => Err OutOfBounds end.

Definition upd_page (p : Z) (f : page -> page) : M mm unit :=
  fun s => match mem_map s !! p with
           | Some pg => Ok (tt, MM (nr_pages s) (<[p := f pg]> (mem_map s)) (nodes s)
                                   (nr_free s) (managed_pages s))
           | None => Err OutOfBounds
           end.

Definition with_flags (v : Z) (pg : page) : page := Page v (private pg) (freelist pg) (counters pg).
Definition with_private (v : Z) (pg : page) : page := Page (flags pg) v (freelist pg) (counters pg).
Definition with_freelist (v : Z) (pg : page) : page := Page (flags pg) (private pg) v (counters pg).

Definition on_nodes (f : lheap lnode -> res (lheap lnode)) : M mm unit :=
  fun s => match f (nodes s) with
           | Ok h => Ok (tt, MM (nr_pages s) (mem_map s) h (nr_free s) (managed_pages s))
           | Err e => Err e
           end.

Definition set_nr_free (o v : Z) : M mm unit :=
  fun s => match (nr_free s).[o := v] with
           | Some l => Ok (tt, MM (nr_pages s) (mem_map s) (nodes s) l (managed_pages s))
           | None => Err OutOfBounds
           end.

Definition upd_nr_free (o d : Z) : M mm unit :=
  fun s => match (nr_free s).[o] with
           | Some n => set_nr_free o (u64 (n + d)) s
           | None => Err OutOfBounds
           end.

Definition upd_managed (d : Z) : M mm unit :=
  fun s => Ok (tt, MM (nr_pages s) (mem_map s) (nodes s) (nr_free s) (u64 (managed_pages s + d))).

(** [&zone.free_area[o]]: the array has [MAX_ORDER] elements. *)
Definition area (o : Z) : M mm lnode :=
  if (0 <=? o) && (o <? MAX_ORDER) then mret (HFree o) else fail OutOfBounds.

(** * Buddies *)

(* [src/src/mm.c:30-34 __find_buddy_pfn] *)
Definition __find_buddy_pfn (page_pfn order : Z) : Z := Z.lxor page_pfn (Z.shiftl 1 order).

(* [src/src/mm.c:37-40 buddy_order] *)
Definition buddy_order (page : Z) : M mm Z := pg ← page_at page; mret (private pg).

(* [src/src/mm.c:49-52 page_is_buddy] *)
Definition page_is_buddy (page buddy order : Z) : M mm bool :=
  b ← page_at buddy;
  mret ((flags b =? PG_buddy) && (private b =? order)).

(** The buddy, if it is one, and [*buddy_pfn]. *)
(* [src/src/mm.c:55-67 find_buddy_page_pfn] *)
Definition find_buddy_page_pfn (page pfn order : Z) : M mm (option Z * Z) :=
  let __buddy_pfn := __find_buddy_pfn pfn order in
  let buddy := page + (__buddy_pfn - pfn) in
  ok ← page_is_buddy page buddy order;
  mret (if ok : bool then Some buddy else None, __buddy_pfn).

(* [src/src/mm.c:70-75 del_page_from_free_area] *)
Definition del_page_from_free_area (page order : Z) : M mm unit :=
  _ ← on_nodes (list_del (HPage page));
  _ ← upd_nr_free order (-1);
  upd_managed (-1).

(* [src/src/mm.c:78-83 add_to_free_area] *)
Definition add_to_free_area (page order : Z) : M mm unit :=
  a ← area order;
  _ ← on_nodes (list_add_tail (HPage page) a);
  _ ← upd_nr_free order 1;
  upd_managed 1.

(* [src/src/mm.c:86-89 set_page_order] *)
Definition set_page_order (page order : Z) : M mm unit := upd_page page (with_private order).
(* [src/src/mm.c:92-95 set_page_buddy] *)
Definition set_page_buddy (page : Z) : M mm unit := upd_page page (with_flags PG_buddy).
(* [src/src/mm.c:98-102 set_buddy_order] *)
Definition set_buddy_order (page order : Z) : M mm unit :=
  _ ← set_page_order page order;
  set_page_buddy page.

(** The merging loop: the page, its frame number and the order it ends with.
    At most [MAX_ORDER - 1] iterations, which the fuel counts down. *)
(* [src/src/mm.c:111-136 __free_one_page] *)
Fixpoint merge_buddies (n : nat) (page pfn order : Z) : M mm (Z * Z * Z) :=
  if order <? MAX_ORDER - 1 then
    match n with
    | O => fail NoFuel
    | S n =>
      r ← find_buddy_page_pfn page pfn order;
      let '(buddy, buddy_pfn) := r in
      match buddy with
      | None => mret (page, pfn, order)
      | Some buddy =>
        _ ← del_page_from_free_area buddy order;
        let combined_pfn := Z.land buddy_pfn pfn in
        merge_buddies n (page + (combined_pfn - pfn)) combined_pfn (order + 1)
      end
    end
  else mret (page, pfn, order).

(* [src/src/mm.c:105-152 __free_one_page] *)
Definition __free_one_page (page pfn order : Z) : M mm unit :=
  r ← merge_buddies (Z.to_nat MAX_ORDER) page pfn order;
  let '(page, _, order) := r in
  _ ← set_buddy_order page order;
  add_to_free_area page order.

(** * Allocation *)

(* [src/src/mm.c:198-203 get_page_from_free_area] *)
Definition get_page_from_free_area (area : lnode) : M mm (option Z) :=
  fun s =>
    match list_empty (nodes s) area with
    | Err e => Err e
    | Ok true => Ok (None, s)
    | Ok false =>
      match list_first_entry (nodes s) area with
      | Err e => Err e
      | Ok (Some (HPage p)) => Ok (Some p, s)
      | Ok _ => Err OutOfBounds
      end
    end.

(** The body of [expand]'s loop, [n] times. *)
(* [src/src/mm.c:229-247 expand] *)
Fixpoint expand_loop (n : nat) (page low_order high_order size : Z) : M mm unit :=
  if low_order <? high_order then
    match n with
    | O => fail NoFuel
    | S n =>
      let high_order := high_order - 1 in
      let size := Z.shiftr size 1 in
      _ ← set_buddy_order (page + size) high_order;
      _ ← add_to_free_area (page + size) high_order;
      expand_loop n page low_order high_order size
    end
  else mret tt.

(* [src/src/mm.c:206-248 expand] *)
Definition expand (page low_order high_order : Z) : M mm unit :=
  let size := Z.shiftl 1 high_order in
  if low_order =? high_order then mret tt else
  expand_loop (Z.to_nat MAX_ORDER) page low_order high_order size.

(* [src/src/mm.c:265-284 __rmqueue_smallest] *)
Fixpoint rmqueue_loop (n : nat) (order current_order : Z) : M mm (option Z) :=
  if current_order <? MAX_ORDER then
    match n with
    | O => fail NoFuel
    | S n =>
      a ← area current_order;
      page ← get_page_from_free_area a;
      match page with
      | None => rmqueue_loop n order (current_order + 1)
      | Some page =>
        _ ← del_page_from_free_area page current_order;
        _ ← expand page order current_order;
        _ ← set_page_order page order;
        _ ← upd_page page (with_flags PG_USED);
        mret (Some page)
      end
    end
  else mret None.

(* [src/src/mm.c:251-285 __rmqueue_smallest] *)
Definition __rmqueue_smallest (order : Z) : M mm (option Z) :=
  rmqueue_loop (Z.to_nat MAX_ORDER) order order.

(* [src/src/mm.c:288-294 rmqueue] *)
Definition rmqueue (order : Z) : M mm (option Z) := __rmqueue_smallest order.

(* [src/src/mm.c:315-318 __alloc_pages] *)
Definition __alloc_pages (order : Z) : M mm (option Z) := rmqueue order.

(** [while (1);] when the page was not allocated by the buddy system. *)
(* [src/src/mm.c:321-331 free_one_page] *)
Definition free_one_page (page pfn order : Z) : M mm unit :=
  pg ← page_at page;
  if negb (flags pg =? PG_USED) then fail Hang else
  __free_one_page page pfn order.

(** * Initialisation *)

(* [src/src/mm.c:188-195 buddy_free_area_init] *)
Fixpoint area_init_loop (n : nat) (i : Z) : M mm unit :=
  match n with
  | O => mret tt
  | S n =>
    a ← area i;
    _ ← on_nodes (INIT_LIST_HEAD a);
    _ ← set_nr_free i 0;
    area_init_loop n (i + 1)
  end.

(* [src/src/mm.c:188-195 buddy_free_area_init] *)
Definition buddy_free_area_init : M mm unit := area_init_loop (Z.to_nat MAX_ORDER) 0.

(** The pages of one reserved region, [n] of them from [pfn] on. *)
(* [src/src/mm.c:168-171 page_frame_init] *)
Fixpoint reserve_pages (n : nat) (pfn : Z) : M mm unit :=
  match n with
  | O => mret tt
  | S n =>
    _ ← upd_page pfn (with_flags PG_RESERVED);
    _ ← on_nodes (INIT_LIST_HEAD (HPage pfn));
    reserve_pages n (pfn + 1)
  end.

(** [for_each_memblock_type] over [memblock.reserved]. *)
(* [src/src/mm.c:167-172 page_frame_init] *)
Fixpoint reserve_regions (l : list memblock_region) : M mm unit :=
  match l with
  | [] => mret tt
  | r :: l =>
    let first := Z.shiftr (base r) 12 in
    let last := Z.shiftr (u64 (base r + size r)) 12 in
    _ ← reserve_pages (Z.to_nat (last + 1 - first)) first;
    reserve_regions l
  end.

(* [src/src/mm.c:174-180 page_frame_init] *)
Fixpoint free_pages_loop (n : nat) (i : Z) : M mm unit :=
  match n with
  | O => mret tt
  | S n =>
    pg ← page_at i;
    _ ← (if flags pg =? PG_RESERVED then mret tt else
           _ ← upd_page i (with_flags PG_AVAIL);
           _ ← on_nodes (INIT_LIST_HEAD (HPage i));
           __free_one_page i i 0);
    free_pages_loop n (i + 1)
  end.

(** [sizeof(struct page)]: six 8-byte words. *)
Definition sizeof_page : Z := 48.

(** The array [memblock_phys_alloc] returned: [raw] is what the memory holds. *)
Definition new_mem_map (raw : Z -> page) (n : Z) : gmap Z page :=
  list_to_map ((fun p => (p, raw p)) <$> seqZ 0 n).

Definition new_nodes (n : Z) : lheap lnode :=
  list_to_map ((fun a => (a, ListNode None None)) <$>
    ((HFree <$> seqZ 0 MAX_ORDER) ++ (HPartial <$> seqZ 0 9) ++ (HPage <$> seqZ 0 n))).

(** Before [page_frame_init]: no page structures, [zone] zeroed. *)
Definition mm0 : mm := MM 0 ∅ (new_nodes 0) (replicate 10 0) 0.

(** [fuel] bounds the search of [memblock_phys_alloc]; the static lists of the
    zone exist before the page structures do and are kept. *)
(* [src/src/mm.c:155-185 page_frame_init] *)
Definition page_frame_init (fuel : nat) (raw : Z -> page) (mb : memblock) (s : mm)
    : res (memblock * mm) :=
  let n := Z.shiftr (current_limit mb) 12 in
  r ← memblock_phys_alloc fuel mb (u64 (sizeof_page * n));
  let s := MM n (new_mem_map raw n) (nodes s ∪ new_nodes n) (nr_free s) (managed_pages s) in
  r' ← reserve_regions (take (Z.to_nat (cnt (reserved r.2))) (regions (reserved r.2))) s;
  r' ← free_pages_loop (Z.to_nat n) 0 r'.2;
  Ok (r.2, r'.2).

(* [src/src/mm.c:299-305 buddy_init] *)
Definition buddy_init (fuel : nat) (raw : Z -> page) (mb : memblock) (s : mm)
    : res (memblock * mm) :=
  r ← buddy_free_area_init s;
  page_frame_init fuel raw mb r.2.
