(* ===== verification/BuddyInv.v ===== *)
(** The buddy allocator keeps a partition of the managed memory into aligned
    blocks.  [buddy_inv B L s]: in state [s], [B] gives the state and the order of
    each block and [L o] the free list of order [o], in order.  Each operation of
    [Buddy] acts on [B] as one of a few moves (taking a block off its list,
    joining and splitting blocks nobody owns, putting a block on its list), which
    all keep the available memory and the blocks in use. *)
From S2P Require Import Prelude ListHead Memblock Buddy.

(** * The ghost state *)

(** [Limbo]: a block that an operation in progress has taken off the lists. *)
Inductive bstate := Free | Used | Limbo.

#[global] Instance bstate_eq_dec : EqDecision bstate.
Proof. solve_decision. Defined.

Abbreviation blocks := (gmap Z (bstate * Z)).

Definition blk_in (n b o : Z) : Prop :=
  0 <= o < MAX_ORDER /\ 0 <= b /\ b + 2 ^ o <= n /\ (2 ^ o | b).

(** Aligned, disjoint blocks in [n] pages, a whole number of largest blocks. *)
Record wf_blocks (n : Z) (B : blocks) : Prop := {
  wb_range : 0 <= n /\ (2 ^ (MAX_ORDER - 1) | n);
  wb_in : forall b st o, B !! b = Some (st, o) -> blk_in n b o;
  wb_disj : forall b b' st st' o o',
    B !! b = Some (st, o) -> B !! b' = Some (st', o') -> b < b' -> b + 2 ^ o <= b'
}.

Definition covered (B : blocks) (x : Z) : Prop :=
  exists b st o, B !! b = Some (st, o) /\ b <= x < b + 2 ^ o.

(** Memory that is free or in an operation's hands. *)
Definition avail (B : blocks) (x : Z) : Prop :=
  exists b st o, B !! b = Some (st, o) /\ st <> Used /\ b <= x < b + 2 ^ o.

Definition head_ok (st : bstate) (o : Z) (pg : page) : Prop :=
  match st with
  | Free => flags pg = PG_buddy /\ private pg = o
  | Used => flags pg <> PG_buddy
  | Limbo => True
  end.

Record list_ok (B : blocks) (L : Z -> list Z) (s : mm) (o : Z) : Prop := {
  lo_dll : dll (nodes s) (HFree o) (HPage <$> L o);
  lo_elem : forall b, b ∈ L o <-> B !! b = Some (Free, o);
  lo_count : (nr_free s).[o] = Some (u64 (Z.of_nat (length (L o))))
}.

Record buddy_inv (B : blocks) (L : Z -> list Z) (s : mm) : Prop := {
  bi_wf : wf_blocks (nr_pages s) B;
  bi_pages : forall p, is_Some (mem_map s !! p) <-> 0 <= p < nr_pages s;
  bi_nodes : forall p, 0 <= p < nr_pages s -> is_Some (nodes s !! HPage p);
  bi_head : forall b st o pg,
    B !! b = Some (st, o) -> mem_map s !! b = Some pg -> head_ok st o pg;
  (** A page that carries the mark of a free block, current or stale. *)
  bi_mark : forall p pg, mem_map s !! p = Some pg -> flags pg = PG_buddy ->
    0 <= private pg < MAX_ORDER /\ (2 ^ private pg | p) /\ covered B p;
  bi_list : forall o, 0 <= o < MAX_ORDER -> list_ok B L s o;
  bi_length : length (nr_free s) = 10%nat;
  bi_managed : managed_pages s = u64 (foldr Z.add 0 (nr_free s))
}.

(** No two buddies are both free: merging is complete. *)
Definition coalesced (B : blocks) : Prop :=
  forall b o, o < MAX_ORDER - 1 -> B !! b = Some (Free, o) ->
              B !! __find_buddy_pfn b o <> Some (Free, o).

Definition no_limbo (B : blocks) : Prop := forall b o, B !! b <> Some (Limbo, o).

(** What every move keeps: the available memory, the blocks in use, their page
    structures and list heads, and the heads of the slab caches. *)
Record moves (B : blocks) (s : mm) (B' : blocks) (s' : mm) : Prop := {
  mv_avail : forall x, avail B x <-> avail B' x;
  mv_used : forall b o, B !! b = Some (Used, o) <-> B' !! b = Some (Used, o);
  mv_pages : forall b o, B !! b = Some (Used, o) -> mem_map s' !! b = mem_map s !! b;
  mv_outside : forall p, ~ avail B p -> mem_map s' !! p = mem_map s !! p;
  mv_nodes : forall b o, B !! b = Some (Used, o) ->
    nxt (nodes s') (HPage b) = nxt (nodes s) (HPage b) /\
    prv (nodes s') (HPage b) = prv (nodes s) (HPage b);
  mv_partial : forall i, nxt (nodes s') (HPartial i) = nxt (nodes s) (HPartial i) /\
                         prv (nodes s') (HPartial i) = prv (nodes s) (HPartial i);
  mv_dom : dom (nodes s') = dom (nodes s);
  mv_nr : nr_pages s' = nr_pages s
}.

Definition set_list (L : Z -> list Z) (o : Z) (l : list Z) : Z -> list Z :=
  fun o' => if o' =? o then l else L o'.

(** * Arithmetic of buddies *)

Lemma even_bits a :
  Z.lxor (2 * a) 1 = 2 * a + 1 /\ Z.lxor (2 * a + 1) 1 = 2 * a /\
  Z.land (2 * a + 1) (2 * a) = 2 * a /\ Z.land (2 * a) (2 * a + 1) = 2 * a.
Proof.
  assert (H0 : Z.land (2 * a) 1 = 0).
  { change 1 with (Z.ones 1) at 1. rewrite Z.land_ones by lia.
    change (2 ^ 1) with 2. rewrite Z.mul_comm. by rewrite Z.mod_mul. }
  assert (H1 : Z.lxor (2 * a) 1 = 2 * a + 1) by (by rewrite Z.add_nocarry_lxor).
  assert (H2 : Z.land (2 * a) (2 * a + 1) = 2 * a).
  { rewrite <-H1, Z.lxor_lor by done. by rewrite Z.land_lor_distr_r, Z.land_diag, H0, Z.lor_0_r. }
  split_and!; [done| |by rewrite Z.land_comm|done].
  by rewrite <-H1, Z.lxor_assoc, Z.lxor_nilpotent, Z.lxor_0_r.
Qed.

(** The two halves of the next larger block: the buddy is the other half, and
    [buddy & pfn] is the start of the pair. *)
Lemma buddy_cases b o :
  0 <= o -> (2 ^ o | b) ->
  let c := __find_buddy_pfn b o in
  (2 ^ (o + 1) | b) /\ c = b + 2 ^ o /\ Z.land c b = b \/
  (2 ^ (o + 1) | c) /\ b = c + 2 ^ o /\ Z.land c b = c.
Proof.
  intros Ho [q ->]. cbv zeta. unfold __find_buddy_pfn.
  rewrite <-!Z.shiftl_mul_pow2 by done. rewrite <-Z.shiftl_lxor, <-Z.shiftl_land.
  rewrite !Z.shiftl_mul_pow2, Z.pow_add_r by lia. change (2 ^ 1) with 2.
  destruct (Z.Even_or_Odd q) as [[a ->]|[a ->]]; destruct (even_bits a) as (E1 & E2 & E3 & E4);
    [left|right]; rewrite ?E1, ?E2, ?E3, ?E4; split_and!; try lia; try done; exists a; lia.
Qed.

Lemma buddy_involutive b o : __find_buddy_pfn (__find_buddy_pfn b o) o = b.
Proof. unfold __find_buddy_pfn. by rewrite Z.lxor_assoc, Z.lxor_nilpotent, Z.lxor_0_r. Qed.

Lemma blk_size n b o : blk_in n b o -> 0 < 2 ^ o.
Proof. intros (? & _). apply pow2_pos. lia. Qed.

(** The buddy of a block below the largest order exists. *)
Lemma buddy_in n b o :
  0 <= n -> (2 ^ (MAX_ORDER - 1) | n) -> o < MAX_ORDER - 1 -> blk_in n b o ->
  blk_in n (__find_buddy_pfn b o) o.
Proof.
  intros Hn Hd Ho Hb. pose proof (blk_size _ _ _ Hb). destruct Hb as (Hr & Hb0 & Hbn & Ha).
  assert (Hdn : (2 ^ (o + 1) | n)).
  { transitivity (2 ^ (MAX_ORDER - 1)); [|done]. apply pow2_divide. unfold MAX_ORDER in *. lia. }
  assert (Hda : (2 ^ o | 2 ^ (o + 1))) by (apply pow2_divide; lia).
  assert (Hp : 2 ^ (o + 1) = 2 ^ o + 2 ^ o) by (rewrite Z.pow_add_r by lia; lia).
  destruct (buddy_cases b o) as [(Hdb & E & _)|(Hdc & E & _)]; [lia|done|..];
    set (c := __find_buddy_pfn b o) in *; clearbody c; split_and!; try lia.
  - pose proof (multiple_gap (2 ^ (o + 1)) b n ltac:(lia) Hdb Hdn ltac:(lia)). lia.
  - rewrite E. by apply Z.divide_add_r.
  - destruct (Z.le_gt_cases 0 c) as [|Hlt]; [done|].
    pose proof (multiple_gap (2 ^ (o + 1)) c 0 ltac:(lia) Hdc ltac:(apply Z.divide_0_r) Hlt). lia.
  - by transitivity (2 ^ (o + 1)).
Qed.

(** * Moves *)

Lemma moves_refl B s : moves B s B s.
Proof. by split. Qed.

Lemma moves_trans B s B1 s1 B2 s2 : moves B s B1 s1 -> moves B1 s1 B2 s2 -> moves B s B2 s2.
Proof.
  intros [A U P O N R D Q] [A' U' P' O' N' R' D' Q']. split.
  - intros x. by rewrite A.
  - intros b o. by rewrite U.
  - intros b o H. rewrite <-(P b o H). eapply P'. by apply U.
  - intros p Hp. rewrite <-(O p Hp). apply O'. by rewrite <-A.
  - intros b o H. destruct (N b o H) as [<- <-]. eapply N'. by apply U.
  - intros i. destruct (R i) as [<- <-]. apply R'.
  - by rewrite D'.
  - by rewrite Q'.
Qed.

(** A change of list heads outside the blocks in use. *)
Lemma moves_nodes B s h' nf mg xs :
  same_off (nodes s) h' xs -> dom h' = dom (nodes s) ->
  (forall p o, HPage p ∈ xs -> B !! p <> Some (Used, o)) -> (forall i, HPartial i ∉ xs) ->
  moves B s B (MM (nr_pages s) (mem_map s) h' nf mg).
Proof.
  intros Ho Hd Hp Hi. split; try done.
  - intros b o Hb. apply Ho. intros Hin. by eapply Hp.
  - intros i. apply Ho, Hi.
Qed.

(** A change of the page structure of a block that is not in use. *)
Lemma moves_page B s b pg st o :
  B !! b = Some (st, o) -> st <> Used -> 0 <= o ->
  moves B s B (MM (nr_pages s) (<[b := pg]> (mem_map s)) (nodes s) (nr_free s) (managed_pages s)).
Proof.
  intros Hb Hst Ho. pose proof (pow2_pos o Ho). split; try done; cbn.
  - intros b' o' H'. apply lookup_insert_ne. congruence.
  - intros p Hp. apply lookup_insert_ne. intros <-. apply Hp. exists b, st, o. split_and!; (done || lia).
Qed.

(** Regrouping blocks nobody owns: the state does not change. *)
Lemma inv_regroup B B' L s :
  buddy_inv B L s -> wf_blocks (nr_pages s) B' ->
  (forall b st o, st <> Limbo -> B' !! b = Some (st, o) <-> B !! b = Some (st, o)) ->
  (forall x, covered B x -> covered B' x) -> buddy_inv B' L s.
Proof.
  intros [W P N H K Ls Ln Mg] W' Hl Hc. split; try done.
  - intros b st o pg Hb Hpg. destruct (decide (st = Limbo)) as [->|Hne]; [done|].
    eapply H; [|done]. by apply Hl.
  - intros p pg Hp Hf. destruct (K p pg Hp Hf) as (? & ? & ?). auto.
  - intros o Ho. destruct (Ls o Ho) as [D E C]. split; [done| |done].
    intros b. rewrite E. by rewrite Hl.
Qed.

(** Relabelling one block. *)
Lemma relabel_wf n B b st st' o :
  wf_blocks n B -> B !! b = Some (st, o) -> wf_blocks n (<[b := (st', o)]> B).
Proof.
  intros [Wr Wi Wd] Hb.
  assert (Hor : forall b' s1 o1, <[b := (st', o)]> B !! b' = Some (s1, o1) ->
            exists s2, B !! b' = Some (s2, o1)).
  { intros b' s1 o1. rewrite lookup_insert. case_decide; naive_solver. }
  split; [done|..].
  - intros b' s1 o1 [s2 H]%Hor. by eapply Wi.
  - intros b1 b2 s1 s2 o1 o2 [s1' H1]%Hor [s2' H2]%Hor. by eapply Wd.
Qed.

Lemma relabel_covered B b st st' o x :
  B !! b = Some (st, o) -> covered B x <-> covered (<[b := (st', o)]> B) x.
Proof.
  intros Hb. split.
  - intros (c & s1 & o1 & Hc & Hx). destruct (decide (c = b)) as [->|Hne].
    + rewrite Hb in Hc. injection Hc as <- <-. exists b, st', o. by rewrite lookup_insert_eq.
    + exists c, s1, o1. by rewrite lookup_insert_ne.
  - intros (c & s1 & o1 & Hc & Hx). rewrite lookup_insert in Hc. case_decide as Hd.
    + injection Hc as <- <-. subst. by exists c, st, o.
    + by exists c, s1, o1.
Qed.

Lemma relabel_avail B b st st' o x :
  B !! b = Some (st, o) -> st <> Used -> st' <> Used ->
  avail B x <-> avail (<[b := (st', o)]> B) x.
Proof.
  intros Hb Hs Hs'. split.
  - intros (c & s1 & o1 & Hc & Hn & Hx). destruct (decide (c = b)) as [->|Hne].
    + rewrite Hb in Hc. injection Hc as <- <-. exists b, st', o. by rewrite lookup_insert_eq.
    + exists c, s1, o1. by rewrite lookup_insert_ne.
  - intros (c & s1 & o1 & Hc & Hn & Hx). rewrite lookup_insert in Hc. case_decide as Hd.
    + injection Hc as <- <-. subst. by exists c, st, o.
    + by exists c, s1, o1.
Qed.

Lemma relabel_used (B : blocks) (b : Z) st st' o b' o' :
  B !! b = Some (st, o) -> st <> Used -> st' <> Used ->
  B !! b' = Some (Used, o') <-> <[b := (st', o)]> B !! b' = Some (Used, o').
Proof. intros Hb Hs Hs'. rewrite lookup_insert. case_decide; naive_solver. Qed.

Lemma moves_relabel B s b st st' o s' :
  B !! b = Some (st, o) -> st <> Used -> st' <> Used ->
  moves B s B s' -> moves B s (<[b := (st', o)]> B) s'.
Proof.
  intros Hb Hs Hs' [A U P O N R D Q]. split; try done.
  - intros x. by eapply relabel_avail.
  - intros b' o'. by eapply relabel_used.
Qed.

(** * The moves of the allocator *)

Lemma inv_page_at B L s b st o :
  buddy_inv B L s -> B !! b = Some (st, o) ->
  exists pg, mem_map s !! b = Some pg /\ head_ok st o pg /\ blk_in (nr_pages s) b o.
Proof.
  intros [W P N H K Ls Ln Mg] Hb. pose proof W as [_ Wi _].
  pose proof (Wi _ _ _ Hb) as Hin. pose proof (blk_size _ _ _ Hin).
  destruct (proj2 (P b)) as [pg Hpg]; [destruct Hin; lia|]. eauto.
Qed.

(** Writing the page structure at the head of a block in limbo. *)
Lemma upd_page_ok B L s b o f pg :
  buddy_inv B L s -> B !! b = Some (Limbo, o) -> mem_map s !! b = Some pg ->
  (flags (f pg) = PG_buddy -> 0 <= private (f pg) < MAX_ORDER /\ (2 ^ private (f pg) | b)) ->
  exists s', upd_page b f s = Ok (tt, s') /\ buddy_inv B L s' /\ moves B s B s' /\
    mem_map s' !! b = Some (f pg).
Proof.
  intros Hinv Hb Hpg Hf. unfold upd_page. rewrite Hpg. eexists. split; [done|].
  destruct Hinv as [W P N H K Ls Ln Mg]. split_and!; cbn [mem_map].
  - split; cbn; try done.
    + intros p. rewrite <-P. rewrite lookup_insert_is_Some.
      destruct (decide (b = p)) as [->|]; [rewrite Hpg|]; naive_solver.
    + intros b' st' o' pg' Hb'. rewrite lookup_insert. case_decide; [|by eapply H].
      subst b'. rewrite Hb in Hb'. by injection Hb' as <- <-.
    + intros p pg'. rewrite lookup_insert. case_decide; [|apply K]. subst p. intros [= <-] Hfl.
      destruct (Hf Hfl). split_and!; [lia..|done|]. exists b, Limbo, o. split; [done|].
      destruct W as [_ Wi _]. pose proof (blk_size _ _ _ (Wi _ _ _ Hb)). lia.
    + intros o' Ho'. by destruct (Ls o' Ho').
  - eapply moves_page; [done..|]. destruct W as [_ Wi _]. by destruct (Wi _ _ _ Hb) as [[? _] _].
  - apply lookup_insert_eq.
Qed.

Lemma foldr_add_insert l i v x :
  l.[i] = Some x -> foldr Z.add 0 (<[Z.to_nat i := v]> l) = foldr Z.add 0 l + v - x.
Proof.
  intros [_ Hl]%zget_Some. revert Hl. generalize (Z.to_nat i) as k.
  induction l as [|a l IH]; intros [|k] Hl; try done.
  - injection Hl as ->. cbn. lia.
  - change (<[S k := v]> (a :: l)) with (a :: <[k := v]> l). cbn [foldr]. rewrite (IH _ Hl). lia.
Qed.

Lemma u64_eq_mod a b : (exists q, a = b + q * 2 ^ 64) -> u64 a = u64 b.
Proof. intros [q ->]. unfold u64. by rewrite Z.mod_add. Qed.

(** The counters after one of the two list operations. *)
Lemma counters_ok s o n d :
  length (nr_free s) = 10%nat -> managed_pages s = u64 (foldr Z.add 0 (nr_free s)) ->
  0 <= o < MAX_ORDER -> (nr_free s).[o] = Some (u64 n) ->
  exists nf, (_ ← upd_nr_free o d; upd_managed d) s =
      Ok (tt, MM (nr_pages s) (mem_map s) (nodes s) nf (u64 (managed_pages s + d))) /\
    length nf = 10%nat /\ u64 (managed_pages s + d) = u64 (foldr Z.add 0 nf) /\
    nf.[o] = Some (u64 (n + d)) /\ forall o', o' <> o -> nf.[o'] = (nr_free s).[o'].
Proof.
  intros Hl Hm Ho Hn. unfold MAX_ORDER in Ho.
  pose proof (zset_ok (nr_free s) o (u64 (u64 n + d)) ltac:(lia)) as Hz.
  exists (<[Z.to_nat o := u64 (u64 n + d)]> (nr_free s)).
  assert (E : upd_nr_free o d s = Ok (tt, MM (nr_pages s) (mem_map s) (nodes s)
      (<[Z.to_nat o := u64 (u64 n + d)]> (nr_free s)) (managed_pages s))).
  { unfold upd_nr_free, set_nr_free. rewrite Hn. by rewrite Hz. }
  run E. split_and!; [done|by rewrite length_insert| | |].
  - rewrite (foldr_add_insert _ _ _ _ Hn), Hm, u64_add_l.
    apply u64_eq_mod. unfold u64 at 1. rewrite Z.mod_eq by lia.
    exists ((u64 n + d) / 2 ^ 64). lia.
  - rewrite (zget_zset_eq _ _ _ _ Hz). f_equal. apply u64_add_l.
  - intros o' Hne. by apply (zget_zset_ne _ _ _ _ _ Hz).
Qed.

Lemma list_heads_apart B L s o o' y :
  buddy_inv B L s -> 0 <= o < MAX_ORDER -> 0 <= o' < MAX_ORDER -> o' <> o ->
  y ∈ HFree o' :: (HPage <$> L o') -> y ∉ HFree o :: (HPage <$> L o).
Proof.
  intros Hinv Ho Ho' Hne Hy Hy'. destruct (bi_list _ _ _ Hinv o Ho) as [_ E _].
  destruct (bi_list _ _ _ Hinv o' Ho') as [_ E' _].
  apply elem_of_cons in Hy as [->|Hy]; apply elem_of_cons in Hy' as [Hy'|Hy'];
    [congruence| | |].
  - by apply list_elem_of_fmap in Hy' as (? & ? & _).
  - subst. by apply list_elem_of_fmap in Hy as (? & ? & _).
  - apply list_elem_of_fmap in Hy as (p & -> & Hp%E').
    apply list_elem_of_fmap in Hy' as (p' & [= <-] & Hp'%E). congruence.
Qed.

(** Rebuilding the invariant after the free list of order [o] and the label of
    one block of that order have changed. *)
Lemma inv_relist B L s b st st' o l h' nf xs :
  buddy_inv B L s -> B !! b = Some (st, o) -> st <> Used ->
  (st' = Free -> exists pg, mem_map s !! b = Some pg /\ head_ok Free o pg) -> st' <> Used ->
  same_off (nodes s) h' xs -> dom h' = dom (nodes s) ->
  (forall y, y ∈ xs -> y = HPage b \/ y ∈ HFree o :: (HPage <$> L o)) ->
  dll h' (HFree o) (HPage <$> l) ->
  (forall c, c ∈ l <-> <[b := (st', o)]> B !! c = Some (Free, o)) ->
  length nf = 10%nat -> nf.[o] = Some (u64 (Z.of_nat (length l))) ->
  (forall o', o' <> o -> nf.[o'] = (nr_free s).[o']) ->
  let s' := MM (nr_pages s) (mem_map s) h' nf (u64 (foldr Z.add 0 nf)) in
  buddy_inv (<[b := (st', o)]> B) (set_list L o l) s' /\ moves B s (<[b := (st', o)]> B) s'.
Proof.
  intros Hinv Hb Hst Hpg Hst' Hoff Hdom Hxs Hdll Hel Hlen Hcnt Hoth s'.
  pose proof Hinv as [W P N H K Ls Ln Mg].
  assert (Hbo : blk_in (nr_pages s) b o) by (destruct W as [_ Wi _]; by eapply Wi).
  assert (Ho : 0 <= o < MAX_ORDER) by apply Hbo.
  assert (Hsw : forall c o', c <> b -> <[b := (st', o)]> B !! c = Some (Free, o') <->
                             B !! c = Some (Free, o')) by (intros; by rewrite lookup_insert_ne).
  split.
  - split; cbn; try done.
    + by eapply relabel_wf.
    + intros p Hp. eapply dom_is_Some; [done|by apply N].
    + intros c st1 o1 pg1. rewrite lookup_insert. case_decide; [|apply H]. subst c.
      intros [= <- <-] Hp. destruct st'; [|done|done]. destruct Hpg as (pg & Hpg & ?); [done|].
      by rewrite Hpg in Hp; injection Hp as <-.
    + intros p pg Hp Hf. destruct (K p pg Hp Hf) as (? & ? & Hc). split_and!; [lia..|done|].
      by eapply relabel_covered in Hc.
    + intros o' Ho'. unfold set_list. destruct (Z.eqb_spec o' o) as [->|Hne]; split; cbn;
        try by (rewrite (proj2 (Z.eqb_eq o o)) by done).
      * rewrite (proj2 (Z.eqb_neq o' o)) by done. destruct (Ls o' Ho') as [D E _].
        eapply dll_frame; [done| |done]. intros y Hy Hin. destruct (Hxs _ Hin) as [->|Hin'].
        -- apply elem_of_cons in Hy as [Hy|Hy]; [done|].
           apply list_elem_of_fmap in Hy as (p & [= <-] & Hp%E). congruence.
        -- by eapply (list_heads_apart B L s o o').
      * intros c. rewrite (proj2 (Z.eqb_neq o' o)) by done. destruct (Ls o' Ho') as [_ E _].
        rewrite E. destruct (decide (c = b)) as [->|]; [|by rewrite Hsw].
        rewrite lookup_insert_eq. split; intros; congruence.
      * rewrite (proj2 (Z.eqb_neq o' o)), Hoth by done. by destruct (Ls o' Ho').
  - eapply moves_relabel; [done..|]. eapply moves_nodes; [done..| |].
    + intros p o' Hin. destruct (Hxs _ Hin) as [[= ->]|Hin']; [rewrite Hb; congruence|].
      apply elem_of_cons in Hin' as [?|Hin']; [done|].
      apply list_elem_of_fmap in Hin' as (p' & [= <-] & Hp). destruct (Ls o Ho) as [_ E _].
      apply E in Hp. congruence.
    + intros i Hin. destruct (Hxs _ Hin) as [?|Hin']; [done|].
      apply elem_of_cons in Hin' as [?|Hin']; [done|].
      by apply list_elem_of_fmap in Hin' as (? & ? & _).
Qed.

Lemma del_page_ok B L s b o :
  buddy_inv B L s -> B !! b = Some (Free, o) ->
  exists l s', del_page_from_free_area b o s = Ok (tt, s') /\ mem_map s' = mem_map s /\
    buddy_inv (<[b := (Limbo, o)]> B) (set_list L o l) s' /\
    moves B s (<[b := (Limbo, o)]> B) s'.
Proof.
  intros Hinv Hb. pose proof Hinv as [W P N H K Ls Ln Mg].
  assert (Ho : 0 <= o < MAX_ORDER) by (destruct W as [_ Wi _]; apply (Wi _ _ _ Hb)).
  destruct (Ls o Ho) as [D E C]. apply E in Hb as Hin.
  apply list_elem_of_split in Hin as (l1 & l2 & El). rewrite El in *.
  rewrite fmap_app, fmap_cons in D. pose proof D as [Hnd _].
  destruct (list_del_spec _ _ _ _ _ D) as (h' & Hdel & Hdom & Hdll & Hoff).
  unfold del_page_from_free_area.
  assert (E1 : on_nodes (list_del (HPage b)) s =
    Ok (tt, MM (nr_pages s) (mem_map s) h' (nr_free s) (managed_pages s)))
    by (unfold on_nodes; by rewrite Hdel).
  run E1.
  destruct (counters_ok (MM (nr_pages s) (mem_map s) h' (nr_free s) (managed_pages s)) o
              (Z.of_nat (length (l1 ++ b :: l2))) (-1)) as (nf & -> & Hl & Hm & Hn & Hne);
    [done..|].
  cbn in Hm, Hne |- *. rewrite Hm. exists (l1 ++ l2). eexists. split; [done|]. split; [done|].
  eapply inv_relist; try done.
  - intros y Hy. right. by rewrite El, fmap_app, fmap_cons.
  - by rewrite fmap_app.
  - apply NoDup_cons in Hnd as [_ Hnd]. rewrite <-fmap_cons, <-fmap_app in Hnd.
    apply NoDup_fmap_1 in Hnd. apply NoDup_app in Hnd as (_ & Hd & Hnd).
    apply NoDup_cons in Hnd as [Hnb _].
    intros c. rewrite lookup_insert. case_decide as Hd'.
    + subst c. split; [|done]. intros [Hc|Hc]%elem_of_app; [|done].
      exfalso. apply (Hd b Hc). apply elem_of_cons. by left.
    + rewrite <-E, !elem_of_app, elem_of_cons. naive_solver.
  - rewrite Hn. do 2 f_equal. rewrite !length_app. cbn. lia.
Qed.

Lemma add_page_ok B L s b o pg :
  buddy_inv B L s -> B !! b = Some (Limbo, o) ->
  mem_map s !! b = Some pg -> head_ok Free o pg ->
  exists s', add_to_free_area b o s = Ok (tt, s') /\ mem_map s' = mem_map s /\
    buddy_inv (<[b := (Free, o)]> B) (set_list L o (L o ++ [b])) s' /\
    moves B s (<[b := (Free, o)]> B) s'.
Proof.
  intros Hinv Hb Hpg Hok. pose proof Hinv as [W P N H K Ls Ln Mg].
  assert (Ho : 0 <= o < MAX_ORDER) by (destruct W as [_ Wi _]; apply (Wi _ _ _ Hb)).
  destruct (Ls o Ho) as [D E C].
  assert (Hnew : HPage b ∉ HFree o :: (HPage <$> L o)).
  { intros [?|Hin]%elem_of_cons; [done|].
    apply list_elem_of_fmap in Hin as (p & [= <-] & Hp%E). congruence. }
  destruct (list_add_tail_ok _ _ _ _ D (N b ltac:(apply P; eauto)) Hnew)
    as (h' & Hadd & Hdom & Hdll & Hoff).
  unfold add_to_free_area.
  assert (E0 : area o s = Ok (HFree o, s)).
  { unfold area. by rewrite (proj2 (Z.leb_le 0 o)), (proj2 (Z.ltb_lt o MAX_ORDER)) by lia. }
  run E0.
  assert (E1 : on_nodes (list_add_tail (HPage b) (HFree o)) s =
    Ok (tt, MM (nr_pages s) (mem_map s) h' (nr_free s) (managed_pages s)))
    by (unfold on_nodes; by rewrite Hadd).
  run E1.
  destruct (counters_ok (MM (nr_pages s) (mem_map s) h' (nr_free s) (managed_pages s)) o
              (Z.of_nat (length (L o))) 1) as (nf & -> & Hl & Hm & Hn & Hne); [done..|].
  cbn in Hm, Hne |- *. rewrite Hm. eexists. split; [done|]. split; [done|].
  eapply inv_relist; try done; try (by eauto).
  - intros y. rewrite elem_of_cons. naive_solver.
  - by rewrite fmap_app.
  - intros c. rewrite elem_of_app, E, list_elem_of_singleton, lookup_insert.
    case_decide; subst; naive_solver.
  - rewrite Hn. do 2 f_equal. rewrite length_app. cbn. lia.
Qed.

(** Joining two buddies in limbo into the block that contains both. *)
Definition join (B : blocks) (b c m o : Z) : blocks :=
  <[m := (Limbo, o + 1)]> (delete b (delete c B)).

Lemma join_lookup B b c m o p :
  join B b c m o !! p = if decide (p = m) then Some (Limbo, o + 1)
                        else if decide (p = b \/ p = c) then None else B !! p.
Proof.
  unfold join. rewrite lookup_insert, !lookup_delete. repeat case_decide; naive_solver.
Qed.

Lemma join_wf n B b c o :
  wf_blocks n B -> B !! b = Some (Limbo, o) -> B !! c = Some (Limbo, o) ->
  o < MAX_ORDER - 1 -> c = b + 2 ^ o -> (2 ^ (o + 1) | b) ->
  wf_blocks n (join B b c b o) /\
  (forall x, covered B x <-> covered (join B b c b o) x) /\
  (forall x, avail B x <-> avail (join B b c b o) x) /\
  (forall p st k, st <> Limbo -> join B b c b o !! p = Some (st, k) <-> B !! p = Some (st, k)).
Proof.
  intros [Wr Wi Wd] Hb Hc Ho Ec Hal.
  pose proof (Wi _ _ _ Hb) as Hbi. pose proof (Wi _ _ _ Hc) as Hci.
  pose proof (blk_size _ _ _ Hbi) as Hpos.
  assert (Hp : 2 ^ (o + 1) = 2 ^ o + 2 ^ o).
  { destruct Hbi as (? & _). rewrite Z.pow_add_r by lia. lia. }
  assert (Hcov : forall x (P : bstate -> Prop), P Limbo ->
    (exists p st k, B !! p = Some (st, k) /\ P st /\ p <= x < p + 2 ^ k) <->
    (exists p st k, join B b c b o !! p = Some (st, k) /\ P st /\ p <= x < p + 2 ^ k)).
  { intros x Q HQ. split; intros (p & st & k & Hl & HP & Hx).
    - destruct (decide (p = b \/ p = c)) as [Hd|Hd].
      + assert (k = o) as -> by (destruct Hd; subst; congruence).
        exists b, Limbo, (o + 1). rewrite join_lookup, decide_True by done.
        split_and!; [done|done|destruct Hd; lia|destruct Hd; lia].
      + exists p, st, k. rewrite join_lookup, !decide_False by tauto. done.
    - rewrite join_lookup in Hl. repeat case_decide; simplify_eq.
      + destruct (Z.lt_ge_cases x (b + 2 ^ o)).
        * exists b, Limbo, o. split_and!; (done || lia).
        * exists (b + 2 ^ o), Limbo, o. split_and!; (done || lia).
      + by exists p, st, k. }
  split_and!.
  - split; [done|..].
    + intros p st k. rewrite join_lookup. repeat case_decide; simplify_eq; [|done|by apply Wi].
      intros [= <- <-]. destruct Hbi as (? & ? & ? & ?), Hci as (? & ? & ? & ?).
      unfold blk_in, MAX_ORDER in *. split_and!; (done || lia).
    + intros p q st st' k k'. rewrite !join_lookup.
      repeat case_decide; simplify_eq; try lia; try done.
      * intros [= <- <-] Hq Hlt. pose proof (Wd _ _ _ _ _ _ Hb Hq Hlt).
        pose proof (Wd _ _ _ _ _ _ Hc Hq ltac:(naive_solver lia)). lia.
      * intros Hp' [= <- <-]. by eapply Wd.
      * by apply Wd.
  - intros x. pose proof (Hcov x (fun _ => True) I) as [H1 H2].
    split; intros (p & st & k & Hk & Hx);
      [destruct H1 as (p' & st' & k' & ? & _ & ?)|destruct H2 as (p' & st' & k' & ? & _ & ?)];
      try (by exists p, st, k); by exists p', st', k'.
  - intros x. apply (Hcov x (fun st => st <> Used)). done.
  - intros p st k Hst. rewrite join_lookup. repeat case_decide; naive_solver.
Qed.

(** Splitting a block in limbo into its two halves. *)
Definition split_blk (B : blocks) (b o : Z) : blocks :=
  <[b + 2 ^ o := (Limbo, o)]> (<[b := (Limbo, o)]> B).

Lemma split_wf n B b o :
  wf_blocks n B -> B !! b = Some (Limbo, o + 1) -> 0 <= o ->
  wf_blocks n (split_blk B b o) /\
  (forall x, covered B x <-> covered (split_blk B b o) x) /\
  (forall x, avail B x <-> avail (split_blk B b o) x) /\
  (forall p st k, st <> Limbo -> split_blk B b o !! p = Some (st, k) <-> B !! p = Some (st, k)).
Proof.
  intros [Wr Wi Wd] Hb Ho. pose proof (Wi _ _ _ Hb) as Hbi. pose proof (pow2_pos o Ho) as Hpos.
  assert (Hp : 2 ^ (o + 1) = 2 ^ o + 2 ^ o) by (rewrite Z.pow_add_r by lia; lia).
  assert (Hl : forall p, split_blk B b o !! p = if decide (p = b \/ p = b + 2 ^ o)
                then Some (Limbo, o) else B !! p).
  { intros p. unfold split_blk. rewrite !lookup_insert. repeat case_decide; naive_solver. }
  assert (Hmid : forall st k, B !! (b + 2 ^ o) <> Some (st, k)).
  { intros st k Hk. pose proof (Wd _ _ _ _ _ _ Hb Hk). lia. }
  assert (Hcov : forall x (P : bstate -> Prop), P Limbo ->
    (exists p st k, B !! p = Some (st, k) /\ P st /\ p <= x < p + 2 ^ k) <->
    (exists p st k, split_blk B b o !! p = Some (st, k) /\ P st /\ p <= x < p + 2 ^ k)).
  { intros x Q HQ. split; intros (p & st & k & Hk & HP & Hx).
    - destruct (decide (p = b)) as [->|Hne].
      + rewrite Hb in Hk. injection Hk as <- <-.
        destruct (Z.lt_ge_cases x (b + 2 ^ o)); [exists b|exists (b + 2 ^ o)];
          exists Limbo, o; (rewrite Hl, decide_True by tauto); split_and!; (done || lia).
      + exists p, st, k. rewrite Hl, decide_False; [done|]. intros [?| ->]; [done|]. by eapply Hmid.
    - rewrite Hl in Hk. case_decide as Hd; [|by exists p, st, k]. injection Hk as <- <-.
      exists b, Limbo, (o + 1). split_and!; (done || (destruct Hd; lia)). }
  split_and!.
  - split; [done|..].
    + intros p st k. rewrite Hl. case_decide as Hd; [|by apply Wi]. intros [= <- <-].
      destruct Hbi as (? & ? & ? & Hal).
      assert ((2 ^ o | b)) by (transitivity (2 ^ (o + 1)); [apply pow2_divide; lia|done]).
      unfold blk_in. split_and!; try (destruct Hd; lia).
      destruct Hd; subst; [done|by apply Z.divide_add_r].
    + intros p q st st' k k' Hk Hq Hlt. rewrite Hl in Hk, Hq.
      repeat case_decide; try (injection Hk as <- <-); try (injection Hq as <- <-); try lia;
        [| |by eapply Wd].
      * destruct (Z.lt_ge_cases p b) as [Hpb|Hpb].
        -- pose proof (Wd p b _ _ _ _ Hk Hb Hpb). lia.
        -- pose proof (Wd b p _ _ _ _ Hb Hk ltac:(lia)). lia.
      * pose proof (Wd b q _ _ _ _ Hb Hq ltac:(lia)). lia.
  - intros x. pose proof (Hcov x (fun _ => True) I) as [H1 H2].
    split; intros (p & st & k & Hk & Hx);
      [destruct H1 as (p' & st' & k' & ? & _ & ?)|destruct H2 as (p' & st' & k' & ? & _ & ?)];
      try (by exists p, st, k); by exists p', st', k'.
  - intros x. apply (Hcov x (fun st => st <> Used)). done.
  - intros p st k Hst. rewrite Hl. case_decide as Hd; [|done]. split; [congruence|].
    destruct Hd as [->| ->]; [congruence|]. by intros ?%Hmid.
Qed.

(** * Merging *)

Definition only_limbo (B : blocks) (b : Z) : Prop := forall c o, B !! c = Some (Limbo, o) -> c = b.

Lemma coalesced_mono B B' :
  (forall p k, B' !! p = Some (Free, k) -> B !! p = Some (Free, k)) -> coalesced B -> coalesced B'.
Proof. intros H HB b o Ho Hb Hc. apply (HB b o Ho); by apply H. Qed.

(** The mark on the buddy tells the truth: stale marks inside larger blocks and
    marks of another order never make a page look like a buddy. *)
Lemma page_is_buddy_ok B L s b o :
  buddy_inv B L s -> B !! b = Some (Limbo, o) -> only_limbo B b -> o < MAX_ORDER - 1 ->
  let c := __find_buddy_pfn b o in
  page_is_buddy b c o s = Ok (bool_decide (B !! c = Some (Free, o)), s).
Proof.
  intros Hinv Hb Hol Ho c. pose proof Hinv as [[Wr Wi Wd] P N H K Ls Ln Mg].
  pose proof (Wi _ _ _ Hb) as Hbi. pose proof (blk_size _ _ _ Hbi).
  pose proof (buddy_in _ b o (proj1 Wr) (proj2 Wr) Ho Hbi) as Hci. fold c in Hci.
  destruct (proj2 (P c)) as [pg Hpg]; [destruct Hci; lia|].
  unfold page_is_buddy, page_at, mbind, M_bind. rewrite Hpg. unfold mret, M_ret. do 2 f_equal.
  destruct (bool_decide_reflect (B !! c = Some (Free, o))) as [Hf|Hnf].
  { destruct (H _ _ _ _ Hf Hpg) as [-> ->]. by rewrite !Z.eqb_refl. }
  destruct (Z.eqb_spec (flags pg) PG_buddy) as [Ef|]; [|done].
  destruct (Z.eqb_spec (private pg) o) as [Ep|]; [|done]. exfalso.
  destruct (K _ _ Hpg Ef) as (_ & _ & d & st & k & Hd & Hx).
  pose proof (Wi _ _ _ Hd) as Hdi. pose proof Hdi as (Hk & _ & _ & Hda).
  pose proof Hci as (_ & _ & _ & Hca). pose proof Hbi as (Ho0 & _ & _ & Hba).
  destruct (Z.le_gt_cases k o) as [Hle|Hgt].
  - destruct (aligned_nested k o d c c) as [? _]; try (done || lia).
    assert (d = c) as -> by lia. pose proof (H _ _ _ _ Hd Hpg) as Hh. destruct st; cbn in Hh.
    + destruct Hh. congruence.
    + done.
    + apply Hol in Hd.
      destruct (buddy_cases b o) as [(_ & E & _)|(_ & E & _)]; [lia|done|..]; fold c in E; lia.
  - assert (Hp : 2 ^ (o + 1) = 2 ^ o + 2 ^ o) by (rewrite Z.pow_add_r by lia; lia).
    assert (Hin : d <= b < d + 2 ^ k).
    { destruct (buddy_cases b o) as [(Hal & E & _)|(Hal & E & _)]; [lia|done|..]; fold c in E, Hal.
      - destruct (aligned_nested (o + 1) k b d c) as [? ?]; (done || lia).
      - destruct (aligned_nested (o + 1) k c d c) as [? ?]; (done || lia). }
    destruct (Z.lt_trichotomy d b) as [Hlt|[->|Hlt]]; [|rewrite Hb in Hd; injection Hd; lia|lia].
    pose proof (Wd _ _ _ _ _ _ Hd Hb Hlt). lia.
Qed.

Lemma merge_buddies_ok n : forall B L s b o,
  buddy_inv B L s -> B !! b = Some (Limbo, o) -> only_limbo B b -> coalesced B ->
  MAX_ORDER - 1 - o <= Z.of_nat n ->
  exists B' L' s' b' o', merge_buddies n b b o s = Ok ((b', b', o'), s') /\
    buddy_inv B' L' s' /\ moves B s B' s' /\ B' !! b' = Some (Limbo, o') /\ only_limbo B' b' /\
    coalesced B' /\ (o' < MAX_ORDER - 1 -> B' !! __find_buddy_pfn b' o' <> Some (Free, o')).
Proof.
  induction n as [|n IH]; intros B L s b o Hinv Hb Hol Hco Hn; cbn [merge_buddies];
    (destruct (Z.ltb_spec o (MAX_ORDER - 1)) as [Hlt|Hge];
     [|exists B, L, s, b, o; split_and!; try done; lia]); [lia|].
  pose proof Hinv as [W _ _ _ _ _ _ _]. pose proof W as [Wr Wi Wd].
  pose proof (Wi _ _ _ Hb) as Hbi. pose proof Hbi as (Ho0 & _ & _ & Hba).
  pose proof (page_is_buddy_ok _ _ _ _ _ Hinv Hb Hol Hlt) as Hpb. cbv zeta in Hpb.
  set (c := __find_buddy_pfn b o) in *.
  assert (E1 : find_buddy_page_pfn b b o s =
    Ok ((if bool_decide (B !! c = Some (Free, o)) then Some c else None, c), s)).
  { unfold find_buddy_page_pfn. fold c. replace (b + (c - b)) with c by lia. by run Hpb. }
  run E1. destruct (bool_decide_reflect (B !! c = Some (Free, o))) as [Hf|Hnf].
  2:{ exists B, L, s, b, o. by split_and!. }
  destruct (del_page_ok _ _ _ _ _ Hinv Hf) as (l & s1 & E2 & _ & Hinv1 & Hmv1). run E2.
  assert (Hcb : c <> b) by congruence.
  set (B1 := <[c := (Limbo, o)]> B) in *.
  assert (Hb1 : B1 !! b = Some (Limbo, o)) by (subst B1; by rewrite lookup_insert_ne).
  assert (Hc1 : B1 !! c = Some (Limbo, o)) by (subst B1; by rewrite lookup_insert_eq).
  assert (Hf1 : forall p k, B1 !! p = Some (Free, k) -> B !! p = Some (Free, k)).
  { intros p k. subst B1. rewrite lookup_insert. case_decide; [congruence|done]. }
  assert (Hl1 : forall p k, B1 !! p = Some (Limbo, k) -> p = b \/ p = c).
  { intros p k. subst B1. rewrite lookup_insert. case_decide; [auto|]. intros ?%Hol. auto. }
  (* the pair starts at its lower half [m]; the upper half is [u] *)
  assert (Hpair : exists m u, Z.land c b = m /\ u = m + 2 ^ o /\ (2 ^ (o + 1) | m) /\
    B1 !! m = Some (Limbo, o) /\ B1 !! u = Some (Limbo, o) /\
    (forall p k, B1 !! p = Some (Limbo, k) -> p = m \/ p = u)).
  { destruct (buddy_cases b o) as [(Hal & Ec & El)|(Hal & Ec & El)]; [lia|done|..];
      fold c in Hal, Ec, El; [exists b, c|exists c, b]; split_and!; try done.
    intros p k Hp. destruct (Hl1 p k Hp); auto. }
  destruct Hpair as (m & u & Em & Eu & Hal & Hm & Hu & Hlm). rewrite Em.
  replace (b + (m - b)) with m by lia.
  pose proof Hinv1 as [W1 _ _ _ _ _ _ _].
  destruct (join_wf _ B1 m u o W1 Hm Hu Hlt Eu Hal) as (Wj & Hcov & Hav & Hsame).
  set (B2 := join B1 m u m o) in *.
  assert (Hinv2 : buddy_inv B2 (set_list L o l) s1).
  { eapply inv_regroup; [exact Hinv1|done|done|]. intros x. by apply Hcov. }
  destruct (IH B2 (set_list L o l) s1 m (o + 1)) as (B' & L' & s' & b' & o' & E3 & ? & Hmv & Hrest).
  - done.
  - subst B2. by rewrite join_lookup, decide_True.
  - intros p k. subst B2. rewrite join_lookup. repeat case_decide; try done.
    intros Hp. destruct (Hlm p k Hp); tauto.
  - apply (coalesced_mono B); [|done]. intros p k Hp. apply Hf1. by apply Hsame.
  - lia.
  - exists B', L', s', b', o'. split; [exact E3|]. split; [done|]. split; [|done].
    eapply moves_trans; [exact Hmv1|]. eapply moves_trans; [|exact Hmv].
    destruct (moves_refl B1 s1). split; try done. intros p k. by rewrite Hsame.
Qed.

(** * Freeing and allocating *)

(** Between calls: nothing in limbo, merging complete. *)
Definition buddy_ok (B : blocks) (s : mm) : Prop :=
  (exists L, buddy_inv B L s) /\ no_limbo B /\ coalesced B.

(** Handing a block over between the allocator and a client. *)
Lemma inv_handover B L s b st st' o :
  buddy_inv B L s -> B !! b = Some (st, o) -> st <> Free -> st' <> Free ->
  (forall pg, mem_map s !! b = Some pg -> head_ok st' o pg) ->
  buddy_inv (<[b := (st', o)]> B) L s.
Proof.
  intros Hinv Hb Hs Hs' Hh. pose proof Hinv as [W P N H K Ls Ln Mg]. split; try done.
  - by eapply relabel_wf.
  - intros c s1 o1 pg1. rewrite lookup_insert. case_decide; [|apply H]. subst.
    intros [= <- <-]. apply Hh.
  - intros p pg Hp Hf. destruct (K p pg Hp Hf) as (? & ? & Hc). split_and!; [lia..|done|].
    by eapply relabel_covered in Hc.
  - intros k Hk. destruct (Ls k Hk) as [D E C]. split; [done| |done]. intros c. rewrite E.
    rewrite lookup_insert. case_decide; [|done]. subst. rewrite Hb. split; congruence.
Qed.

Lemma handover_avail B b o x :
  B !! b = Some (Limbo, o) -> avail B x <-> avail (<[b := (Used, o)]> B) x \/ b <= x < b + 2 ^ o.
Proof.
  intros Hb. split.
  - intros (c & st & k & Hc & Hst & Hx). destruct (decide (c = b)) as [->|].
    + right. rewrite Hb in Hc. by injection Hc as <- <-.
    + left. exists c, st, k. by rewrite lookup_insert_ne.
  - intros [(c & st & k & Hc & Hst & Hx)|Hx]; [|by exists b, Limbo, o].
    rewrite lookup_insert in Hc. case_decide; [congruence|by exists c, st, k].
Qed.

Lemma set_buddy_order_ok B L s b o k :
  buddy_inv B L s -> B !! b = Some (Limbo, o) -> k = o ->
  exists s' pg, set_buddy_order b k s = Ok (tt, s') /\ buddy_inv B L s' /\ moves B s B s' /\
    mem_map s' !! b = Some pg /\ head_ok Free o pg.
Proof.
  intros Hinv Hb ->. destruct (inv_page_at _ _ _ _ _ _ Hinv Hb) as (pg & Hpg & _ & Hin).
  destruct (upd_page_ok B L s b o (with_private o) pg) as (s1 & E1 & Hinv1 & Hm1 & Hp1); try done.
  { intros Hf. cbn. split; apply Hin. }
  destruct (upd_page_ok B L s1 b o (with_flags PG_buddy) (with_private o pg))
    as (s2 & E2 & Hinv2 & Hm2 & Hp2); try done.
  { intros _. cbn. split; apply Hin. }
  exists s2, (with_flags PG_buddy (with_private o pg)). unfold set_buddy_order, set_page_order.
  run E1. split_and!; try done. by eapply moves_trans.
Qed.

Lemma buddy_ne b o : 0 <= o -> __find_buddy_pfn b o <> b.
Proof.
  intros Ho E. unfold __find_buddy_pfn in E. apply (f_equal (Z.lxor b)) in E.
  rewrite <-Z.lxor_assoc, Z.lxor_nilpotent, Z.lxor_0_l, Z.shiftl_mul_pow2 in E by done.
  pose proof (pow2_pos o Ho). lia.
Qed.

(** A block put on its list is free, and its buddy is not. *)
Lemma coalesced_add B b o :
  coalesced B -> 0 <= o -> (o < MAX_ORDER - 1 -> B !! __find_buddy_pfn b o <> Some (Free, o)) ->
  coalesced (<[b := (Free, o)]> B).
Proof.
  intros Hco Ho Hn c k Hk. rewrite !lookup_insert.
  destruct (decide (b = c)) as [->|Hne].
  - intros [= <-]. rewrite decide_False by (intros E; by destruct (buddy_ne c o Ho)). auto.
  - intros Hc. destruct (decide (b = _)) as [E|E]; [|by apply Hco].
    intros [= <-]. rewrite E, buddy_involutive in Hn. by apply Hn.
Qed.

Lemma __free_one_page_ok B L s b o :
  buddy_inv B L s -> B !! b = Some (Limbo, o) -> only_limbo B b -> coalesced B ->
  exists B' s', __free_one_page b b o s = Ok (tt, s') /\ buddy_ok B' s' /\ moves B s B' s'.
Proof.
  intros Hinv Hb Hol Hco.
  destruct (inv_page_at _ _ _ _ _ _ Hinv Hb) as (_ & _ & _ & (Ho & _)).
  destruct (merge_buddies_ok (Z.to_nat MAX_ORDER) B L s b o)
    as (B1 & L1 & s1 & b1 & o1 & E1 & Hinv1 & Hm1 & Hb1 & Hol1 & Hco1 & Hnb); try done;
    [unfold MAX_ORDER in *; lia|].
  unfold __free_one_page. run E1.
  destruct (set_buddy_order_ok B1 L1 s1 b1 o1 o1) as (s2 & pg & E2 & Hinv2 & Hm2 & Hpg & Hh); try done.
  run E2. destruct (add_page_ok _ _ _ _ _ _ Hinv2 Hb1 Hpg Hh) as (s3 & E3 & _ & Hinv3 & Hm3).
  destruct (inv_page_at _ _ _ _ _ _ Hinv1 Hb1) as (_ & _ & _ & (Ho1 & _)).
  exists (<[b1 := (Free, o1)]> B1), s3. split; [exact E3|]. split.
  - split; [by eexists|]. split.
    + intros c k. rewrite lookup_insert. case_decide; [congruence|].
      intros Hc%Hol1. congruence.
    + by apply coalesced_add; [|lia|].
  - by eapply moves_trans; [|eapply moves_trans].
Qed.

(** What a client sees of a call: its blocks, their page structures and its list
    heads stay as they are; [b] is the block that changes hands. *)
Record kept (B : blocks) (s : mm) (B' : blocks) (s' : mm) (b : Z) : Prop := {
  kp_pages : forall c o, c <> b -> B !! c = Some (Used, o) -> mem_map s' !! c = mem_map s !! c;
  kp_nodes : forall c o, c <> b -> B !! c = Some (Used, o) ->
    nxt (nodes s') (HPage c) = nxt (nodes s) (HPage c) /\
    prv (nodes s') (HPage c) = prv (nodes s) (HPage c);
  kp_partial : forall i, nxt (nodes s') (HPartial i) = nxt (nodes s) (HPartial i) /\
                         prv (nodes s') (HPartial i) = prv (nodes s) (HPartial i);
  kp_dom : dom (nodes s') = dom (nodes s);
  kp_nr : nr_pages s' = nr_pages s
}.

Lemma free_one_page_ok B s b o pg :
  buddy_ok B s -> B !! b = Some (Used, o) -> mem_map s !! b = Some pg -> flags pg = PG_USED ->
  exists B' s', free_one_page b b o s = Ok (tt, s') /\ buddy_ok B' s' /\ kept B s B' s' b /\
    (forall x, avail B' x <-> avail B x \/ b <= x < b + 2 ^ o) /\
    (forall c k, B' !! c = Some (Used, k) <-> B !! c = Some (Used, k) /\ c <> b).
Proof.
  intros ([L Hinv] & Hnl & Hco) Hb Hpg Hfl.
  set (B0 := <[b := (Limbo, o)]> B).
  assert (Hb0 : B0 !! b = Some (Limbo, o)) by apply lookup_insert_eq.
  assert (EB : B = <[b := (Used, o)]> B0)
    by (subst B0; rewrite insert_insert_eq; symmetry; by apply insert_id).
  destruct (__free_one_page_ok B0 L s b o) as (B' & s' & E & Hok & Hm).
  - eapply inv_handover; done.
  - done.
  - intros c k. subst B0. rewrite lookup_insert. case_decide; [congruence|]. by intros ?%Hnl.
  - apply (coalesced_mono B); [|done]. intros p k. subst B0. rewrite lookup_insert.
    case_decide; congruence.
  - exists B', s'. split.
    { unfold free_one_page, page_at, mbind, M_bind. rewrite Hpg, Hfl. exact E. }
    destruct Hm as [A U Pg O N R D Q].
    assert (HU : forall c k, c <> b -> B !! c = Some (Used, k) -> B0 !! c = Some (Used, k))
      by (intros; subst B0; by rewrite lookup_insert_ne).
    split; [done|]. split; [split; try done; eauto|]. split.
    + intros x. rewrite <-A, EB. by apply handover_avail.
    + intros c k. rewrite <-U. subst B0. rewrite lookup_insert. case_decide; naive_solver.
Qed.

(** Splitting down: the upper halves go on their lists, the lowest stays in hand. *)
Lemma expand_loop_ok n : forall B L s b low high,
  buddy_inv B L s -> B !! b = Some (Limbo, high) -> only_limbo B b -> coalesced B ->
  0 <= low <= high -> high - low <= Z.of_nat n ->
  exists B' L' s', expand_loop n b low high (2 ^ high) s = Ok (tt, s') /\
    buddy_inv B' L' s' /\ moves B s B' s' /\ B' !! b = Some (Limbo, low) /\
    only_limbo B' b /\ coalesced B'.
Proof.
  induction n as [|n IH]; intros B L s b low high Hinv Hb Hol Hco Hlh Hn; cbn [expand_loop];
    (destruct (Z.ltb_spec low high) as [Hlt|Hge];
     [|assert (high = low) as -> by lia; exists B, L, s; by split_and!]); [lia|].
  set (o := high - 1). assert (Eh : high = o + 1) by lia. rewrite Eh in Hb.
  assert (Hp : Z.shiftr (2 ^ high) 1 = 2 ^ o).
  { rewrite Eh, Z.pow_add_r, Z.shiftr_div_pow2 by lia. by rewrite Z.div_mul. }
  rewrite Hp. pose proof Hinv as [W _ _ _ _ _ _ _].
  destruct (split_wf _ B b o W Hb ltac:(lia)) as (Ws & Hcov & Hav & Hsame).
  set (u := b + 2 ^ o) in *. pose proof (pow2_pos o ltac:(lia)).
  set (B1 := split_blk B b o) in *.
  assert (Hinv1 : buddy_inv B1 L s).
  { eapply inv_regroup; [exact Hinv|done|done|]. intros x. by apply Hcov. }
  assert (Hm1 : moves B s B1 s) by (destruct (moves_refl B s); split; try done;
    intros p k; by rewrite Hsame).
  assert (Hu1 : B1 !! u = Some (Limbo, o)) by apply lookup_insert_eq.
  assert (Hb1 : B1 !! b = Some (Limbo, o)).
  { subst B1. unfold split_blk. fold u. rewrite lookup_insert_ne by lia. apply lookup_insert_eq. }
  destruct (set_buddy_order_ok _ _ _ _ _ o Hinv1 Hu1 eq_refl)
    as (s2 & pg & E2 & Hinv2 & Hm2 & Hpg & Hh).
  run E2. destruct (add_page_ok _ _ _ _ _ _ Hinv2 Hu1 Hpg Hh) as (s3 & E3 & _ & Hinv3 & Hm3).
  run E3. set (B3 := <[u := (Free, o)]> B1) in *.
  destruct (inv_page_at _ _ _ _ _ _ Hinv Hb) as (_ & _ & _ & (_ & _ & _ & Hal)).
  destruct (IH B3 (set_list L o (L o ++ [u])) s3 b low o) as (B' & L' & s' & E & ? & Hm & Hrest).
  - done.
  - subst B3. by rewrite lookup_insert_ne by lia.
  - intros p k. subst B3 B1. unfold split_blk. fold u. rewrite !lookup_insert.
    repeat case_decide; try congruence. apply Hol.
  - apply coalesced_add; [|lia|].
    + apply (coalesced_mono B); [|done]. intros p k Hf. by apply Hsame.
    + intros _. assert (Hbu : __find_buddy_pfn b o = u).
      { destruct (buddy_cases b o) as [(_ & E & _)|(Hc & E & _)]; [lia| |done|].
        - transitivity (2 ^ (o + 1)); [apply pow2_divide; lia|done].
        - exfalso. pose proof (multiple_gap (2 ^ (o + 1)) _ _ ltac:(lia) Hc Hal ltac:(lia)) as Hg.
          rewrite Z.pow_add_r in Hg by lia. lia. }
      rewrite <-Hbu, buddy_involutive. congruence.
  - lia.
  - lia.
  - exists B', L', s'. split; [exact E|]. split; [done|]. split; [|done].
    eapply moves_trans; [exact Hm1|]. eapply moves_trans; [exact Hm2|].
    by eapply moves_trans.
Qed.

Lemma expand_ok B L s b low high :
  buddy_inv B L s -> B !! b = Some (Limbo, high) -> only_limbo B b -> coalesced B ->
  0 <= low <= high ->
  exists B' L' s', expand b low high s = Ok (tt, s') /\
    buddy_inv B' L' s' /\ moves B s B' s' /\ B' !! b = Some (Limbo, low) /\
    only_limbo B' b /\ coalesced B'.
Proof.
  intros Hinv Hb Hol Hco Hlh. unfold expand.
  destruct (inv_page_at _ _ _ _ _ _ Hinv Hb) as (_ & _ & _ & (Ho & _)).
  rewrite Z.shiftl_mul_pow2, Z.mul_1_l by lia.
  destruct (Z.eqb_spec low high) as [->|]; [exists B, L, s; by split_and!|].
  apply (expand_loop_ok _ B L s b low high); try done. unfold MAX_ORDER in *. lia.
Qed.

Lemma get_page_ok B L s o :
  buddy_inv B L s -> 0 <= o < MAX_ORDER ->
  get_page_from_free_area (HFree o) s = Ok (head (L o), s).
Proof.
  intros Hinv Ho. destruct (bi_list _ _ _ Hinv o Ho) as [D _ _].
  unfold get_page_from_free_area. rewrite (list_empty_ok _ _ _ D).
  rewrite (list_first_entry_ok _ _ _ D). by destruct (L o).
Qed.

(** The search from order [cur] on: the first list that is not empty. *)
Lemma rmqueue_loop_ok n B L s order : forall cur,
  buddy_inv B L s -> no_limbo B -> coalesced B -> 0 <= order <= cur ->
  MAX_ORDER - cur <= Z.of_nat n ->
  (rmqueue_loop n order cur s = Ok (None, s) /\
   forall b k, cur <= k -> B !! b <> Some (Free, k)) \/
  (exists b k B' L' s', rmqueue_loop n order cur s = Ok (Some b, s') /\
     B !! b = Some (Free, k) /\ cur <= k /\
     (forall c j, B !! c = Some (Free, j) -> cur <= j -> k <= j) /\
     buddy_inv B' L' s' /\ moves B s B' s' /\ B' !! b = Some (Limbo, order) /\
     only_limbo B' b /\ coalesced B' /\
     exists pg, mem_map s' !! b = Some pg /\ flags pg = PG_USED /\ private pg = order).
Proof.
  induction n as [|n IH]; intros cur Hinv Hnl Hco Hoc Hn; cbn [rmqueue_loop];
    (destruct (Z.ltb_spec cur MAX_ORDER) as [Hlt|Hge];
     [|left; split; [done|]; intros b k Hk Hb;
       destruct (inv_page_at _ _ _ _ _ _ Hinv Hb) as (_ & _ & _ & (? & _)); lia]); [lia|].
  assert (E0 : area cur s = Ok (HFree cur, s)).
  { unfold area. by rewrite (proj2 (Z.leb_le 0 cur)), (proj2 (Z.ltb_lt cur MAX_ORDER)) by lia. }
  run E0. run (get_page_ok B L s cur Hinv ltac:(lia)).
  destruct (bi_list _ _ _ Hinv cur ltac:(lia)) as [_ Hel _].
  destruct (L cur) as [|b l] eqn:El; cbn [head].
  - assert (Hno : forall b, B !! b <> Some (Free, cur)).
    { intros b Hb%Hel. by apply elem_of_nil in Hb. }
    destruct (IH (cur + 1)) as [(E & Hnone)|(b & k & B' & L' & s' & E & Hb & Hk & Hmin & Hrest)];
      try done; [lia|lia|left|right].
    + split; [exact E|]. intros b k Hk Hb. destruct (decide (k = cur)) as [->|]; [by eapply Hno|].
      apply (Hnone b k ltac:(lia) Hb).
    + exists b, k, B', L', s'. split; [exact E|]. split_and!; [done|lia| |apply Hrest..].
      intros c j Hc Hj. destruct (decide (j = cur)) as [->|]; [by destruct (Hno c)|].
      eapply Hmin; [done|lia].
  - right. assert (Hb : B !! b = Some (Free, cur)) by (apply Hel, elem_of_cons; by left).
    destruct (del_page_ok _ _ _ _ _ Hinv Hb) as (l1 & s1 & E1 & _ & Hinv1 & Hm1). run E1.
    set (B1 := <[b := (Limbo, cur)]> B) in *.
    destruct (expand_ok B1 (set_list L cur l1) s1 b order cur)
      as (B2 & L2 & s2 & E2 & Hinv2 & Hm2 & Hb2 & Hol2 & Hco2).
    + done.
    + apply lookup_insert_eq.
    + intros c k. subst B1. rewrite lookup_insert. case_decide; [congruence|]. by intros ?%Hnl.
    + apply (coalesced_mono B); [|done]. intros p k. subst B1. rewrite lookup_insert.
      case_decide; congruence.
    + lia.
    + run E2. destruct (inv_page_at _ _ _ _ _ _ Hinv2 Hb2) as (pg & Hpg & _ & Hbi).
      destruct (upd_page_ok B2 L2 s2 b order (with_private order) pg)
        as (s3 & E3 & Hinv3 & Hm3 & Hp3); try done; [intros _; cbn; split; apply Hbi|].
      unfold set_page_order. run E3.
      destruct (upd_page_ok B2 L2 s3 b order (with_flags PG_USED) (with_private order pg))
        as (s4 & E4 & Hinv4 & Hm4 & Hp4); try done.
      run E4. exists b, cur, B2, L2, s4. split; [done|]. split_and!; try done; try lia.
      * eapply moves_trans; [exact Hm1|]. eapply moves_trans; [exact Hm2|].
        by eapply moves_trans.
      * eexists. by split_and!.
Qed.

Lemma __alloc_pages_ok B s order :
  buddy_ok B s -> 0 <= order ->
  (__alloc_pages order s = Ok (None, s) /\ forall b k, order <= k -> B !! b <> Some (Free, k)) \/
  (exists b k B' s', __alloc_pages order s = Ok (Some b, s') /\
     B !! b = Some (Free, k) /\ order <= k /\
     (forall c j, B !! c = Some (Free, j) -> order <= j -> k <= j) /\
     buddy_ok B' s' /\ kept B s B' s' b /\
     (forall x, avail B x <-> avail B' x \/ b <= x < b + 2 ^ order) /\
     (forall c j, B' !! c = Some (Used, j) <-> B !! c = Some (Used, j) \/ (c = b /\ j = order)) /\
     exists pg, mem_map s' !! b = Some pg /\ flags pg = PG_USED /\ private pg = order).
Proof.
  intros ([L Hinv] & Hnl & Hco) Ho. unfold __alloc_pages, rmqueue, __rmqueue_smallest.
  destruct (rmqueue_loop_ok (Z.to_nat MAX_ORDER) B L s order order)
    as [(E & Hnone)|(b & k & B1 & L1 & s1 & E & Hb & Hk & Hmin & Hinv1 & Hm & Hb1 & Hol & Hco1 & Hpg)];
    try done; [unfold MAX_ORDER; lia|by left|right].
  destruct Hpg as (pg & Hpg & Hfl & Hpr). destruct Hm as [A U Pg O N R D Q].
  exists b, k, (<[b := (Used, order)]> B1), s1. split; [exact E|]. split_and!; try done.
  - split; [|split].
    + exists L1. eapply inv_handover; try done. intros pg'. rewrite Hpg. intros [= <-].
      cbn. by rewrite Hfl.
    + intros c j. rewrite lookup_insert. case_decide; [congruence|]. intros Hc%Hol. congruence.
    + apply (coalesced_mono B1); [|done]. intros p j. rewrite lookup_insert.
      case_decide; congruence.
  - split; try done; eauto.
  - intros x. rewrite A. by apply handover_avail.
  - intros c j. rewrite lookup_insert. case_decide; [|rewrite <-U; naive_solver]. subst c.
    rewrite U, Hb1. naive_solver.
  - eauto.
Qed.
