(* ===== verification/BuddyBoot.v ===== *)
(** Bringing the buddy allocator up: [buddy_init] leaves a consistent allocator
    whose available memory is every page outside the reserved regions, provided
    that the memory [mem_map] is placed in does not already hold the marks
    [PG_buddy] and [PG_RESERVED] (the code never clears it). *)
From S2P Require Import Prelude ListHead Memblock Buddy BuddyInv.

(** * The fresh arrays *)

Lemma new_mem_map_lookup raw n p :
  new_mem_map raw n !! p = if decide (0 <= p < n) then Some (raw p) else None.
Proof.
  unfold new_mem_map. case_decide as H.
  - apply elem_of_list_to_map.
    + rewrite <-list_fmap_compose. apply NoDup_fmap_2; [by intros ? ? ?|apply NoDup_seqZ].
    + apply list_elem_of_fmap. exists p. split; [done|]. by apply elem_of_seqZ.
  - apply not_elem_of_list_to_map. rewrite <-list_fmap_compose.
    intros (q & -> & Hq)%list_elem_of_fmap. apply elem_of_seqZ in Hq. cbn in *. lia.
Qed.

Lemma new_nodes_page n p : 0 <= p < n -> is_Some (new_nodes n !! HPage p).
Proof.
  intros Hp. unfold new_nodes. apply elem_of_dom. rewrite dom_list_to_map_L.
  apply elem_of_list_to_set. rewrite <-list_fmap_compose. apply list_elem_of_fmap.
  exists (HPage p). split; [done|]. rewrite !elem_of_app. right. right. apply list_elem_of_fmap. exists p. split; [done|].
  apply elem_of_seqZ. lia.
Qed.

(** * The free lists *)

Lemma area_init_loop_ok n : forall i s,
  0 <= i -> i + Z.of_nat n <= MAX_ORDER -> length (nr_free s) = 10%nat ->
  (forall j, 0 <= j < MAX_ORDER -> is_Some (nodes s !! HFree j)) ->
  exists h nf, area_init_loop n i s = Ok (tt, MM (nr_pages s) (mem_map s) h nf (managed_pages s)) /\
    dom h = dom (nodes s) /\ length nf = 10%nat /\
    (forall j, i <= j < i + Z.of_nat n -> dll h (HFree j) [] /\ nf.[j] = Some 0) /\
    (forall j, j < i -> nf.[j] = (nr_free s).[j] /\
       nxt h (HFree j) = nxt (nodes s) (HFree j) /\ prv h (HFree j) = prv (nodes s) (HFree j)).
Proof.
  induction n as [|n IH]; intros i s Hi Hn Hl Hd; cbn [area_init_loop].
  { exists (nodes s), (nr_free s). destruct s. split_and!; try done. intros; lia. }
  assert (E0 : area i s = Ok (HFree i, s)).
  { unfold area. by rewrite (proj2 (Z.leb_le 0 i)), (proj2 (Z.ltb_lt i MAX_ORDER)) by lia. }
  run E0. destruct (INIT_LIST_HEAD_ok (nodes s) (HFree i)) as (h1 & E1 & D1 & Hd1 & Ho1);
    [apply Hd; lia|].
  assert (E1' : on_nodes (INIT_LIST_HEAD (HFree i)) s =
    Ok (tt, MM (nr_pages s) (mem_map s) h1 (nr_free s) (managed_pages s)))
    by (unfold on_nodes; by rewrite E1).
  run E1'. pose proof (zset_ok (nr_free s) i 0 ltac:(unfold MAX_ORDER in *; lia)) as Hz.
  set (nf1 := <[Z.to_nat i := 0]> (nr_free s)) in *.
  assert (E2 : set_nr_free i 0 (MM (nr_pages s) (mem_map s) h1 (nr_free s) (managed_pages s)) =
    Ok (tt, MM (nr_pages s) (mem_map s) h1 nf1 (managed_pages s)))
    by (unfold set_nr_free; cbn [nr_free]; by rewrite Hz).
  run E2.
  destruct (IH (i + 1) (MM (nr_pages s) (mem_map s) h1 nf1 (managed_pages s)))
    as (h & nf & E & D & Hln & Hin & Hout); cbn; try lia.
  - subst nf1. by rewrite length_insert.
  - intros j Hj. eapply dom_is_Some; [exact D1|by apply Hd].
  - exists h, nf. cbn in *. split_and!; [done|congruence|done|..].
    + intros j Hj. destruct (decide (j = i)) as [->|]; [|apply Hin; lia].
      destruct (Hout i ltac:(lia)) as (-> & Hx & Hp). split; [|by apply (zget_zset_eq _ _ _ _ Hz)].
      destruct Hd1 as [Hnd Hs]. split; [done|]. cbn in *. by rewrite Hx, Hp.
    + intros j Hj. destruct (Hout j ltac:(lia)) as (-> & -> & ->).
      rewrite (zget_zset_ne _ _ _ _ _ Hz) by lia. split; [done|]. apply Ho1.
      intros ?%list_elem_of_singleton. simplify_eq. lia.
Qed.

(** * Writing to pages outside all blocks *)

Definition no_lists : Z -> list Z := fun _ => [].

Lemma raw_page_ok B L s p f pg :
  buddy_inv B L s -> mem_map s !! p = Some pg -> ~ covered B p -> flags (f pg) <> PG_buddy ->
  exists s', upd_page p f s = Ok (tt, s') /\ buddy_inv B L s' /\ nr_pages s' = nr_pages s /\
    mem_map s' = <[p := f pg]> (mem_map s).
Proof.
  intros [W P N H K Ls Ln Mg] Hp Hc Hf. unfold upd_page. rewrite Hp. eexists.
  split; [done|]. split; [|done]. split; cbn; try done.
  - intros q. rewrite <-P, lookup_insert_is_Some. destruct (decide (p = q)) as [<-|]; [|naive_solver].
    rewrite Hp. naive_solver.
  - intros b st o pg' Hb. rewrite lookup_insert. case_decide; [|by apply H]. subst b. intros _.
    exfalso. apply Hc. exists p, st, o. split; [done|].
    destruct W as [_ Wi _]. pose proof (blk_size _ _ _ (Wi _ _ _ Hb)). lia.
  - intros q pg'. rewrite lookup_insert. case_decide; [|apply K]. congruence.
  - intros o Ho. by destruct (Ls o Ho).
Qed.

Lemma raw_node_ok B L s p :
  buddy_inv B L s -> 0 <= p < nr_pages s -> (forall o, B !! p <> Some (Free, o)) ->
  exists s', on_nodes (INIT_LIST_HEAD (HPage p)) s = Ok (tt, s') /\ buddy_inv B L s' /\
    nr_pages s' = nr_pages s /\ mem_map s' = mem_map s.
Proof.
  intros [W P N H K Ls Ln Mg] Hp Hb.
  destruct (INIT_LIST_HEAD_ok (nodes s) (HPage p)) as (h & E & D & _ & Ho); [by apply N|].
  unfold on_nodes. rewrite E. eexists. split; [done|]. split; [|done]. split; cbn; try done.
  - intros q Hq. eapply dom_is_Some; [exact D|by apply N].
  - intros o Hoo. destruct (Ls o Hoo) as [Dl El Cl]. split; [|done|done]. cbn.
    eapply dll_frame; [exact Ho| |done]. intros y Hy ->%list_elem_of_singleton.
    apply elem_of_cons in Hy as [?|Hy]; [done|].
    apply list_elem_of_fmap in Hy as (q & [= <-] & Hq%El). by eapply Hb.
Qed.

(** No page is marked free, and [R] tells which are marked reserved. *)
Definition marked (R : Z -> Prop) (from : Z) (s : mm) : Prop :=
  forall q pg, from <= q -> mem_map s !! q = Some pg ->
    flags pg <> PG_buddy /\ (flags pg = PG_RESERVED <-> R q).

Lemma not_covered_empty x : ~ covered ∅ x.
Proof. intros (b & st & o & Hb & _). by rewrite lookup_empty in Hb. Qed.

Lemma reserve_pages_ok n : forall p s R,
  buddy_inv ∅ no_lists s -> marked R 0 s -> 0 <= p -> p + Z.of_nat n <= nr_pages s ->
  exists s', reserve_pages n p s = Ok (tt, s') /\ buddy_inv ∅ no_lists s' /\
    nr_pages s' = nr_pages s /\ marked (fun q => R q \/ p <= q < p + Z.of_nat n) 0 s'.
Proof.
  induction n as [|n IH]; intros p s R Hinv Hm Hp Hn; cbn [reserve_pages].
  { exists s. split_and!; try done. intros q pg Hq Hl. destruct (Hm q pg Hq Hl) as [? E].
    split; [done|]. rewrite E. intuition lia. }
  destruct (proj2 (bi_pages _ _ _ Hinv p)) as [pg Hpg]; [lia|].
  destruct (raw_page_ok _ _ _ p (with_flags PG_RESERVED) pg Hinv Hpg)
    as (s1 & E1 & Hinv1 & Hn1 & Hm1); [apply not_covered_empty|done|]. run E1.
  destruct (raw_node_ok _ _ s1 p Hinv1) as (s2 & E2 & Hinv2 & Hn2 & Hm2);
    [lia|intros o; by rewrite lookup_empty|]. run E2.
  destruct (IH (p + 1) s2 (fun q => R q \/ q = p)) as (s' & E & Hinv' & Hn' & Hm'); try done; try lia.
  { intros q pg' Hq. rewrite Hm2, Hm1, lookup_insert. case_decide as Hd.
    - intros [= <-]. cbn. split; [done|]. split; [|done]. intros _. by right.
    - intros Hl. destruct (Hm q pg' Hq Hl) as [? E]. split; [done|]. rewrite E. naive_solver. }
  exists s'. split_and!; [exact E|done|congruence|]. intros q pg' Hq Hl.
  destruct (Hm' q pg' Hq Hl) as [? E']. split; [done|]. rewrite E'. intuition lia.
Qed.

(** * The reserved regions *)

(** The frames the first loop marks for one region: the last one is included. *)
Definition frames_of (r : memblock_region) (q : Z) : Prop :=
  base r / 2 ^ 12 <= q <= (base r + size r) / 2 ^ 12.

Definition reserved_frame (l : list memblock_region) (q : Z) : Prop :=
  exists r, r ∈ l /\ frames_of r q.

Definition region_fits (n : Z) (r : memblock_region) : Prop :=
  0 <= base r /\ 0 <= size r /\ base r + size r < 2 ^ 64 /\ (base r + size r) / 2 ^ 12 < n.

Lemma marked_iff R R' from s : (forall q, R q <-> R' q) -> marked R from s -> marked R' from s.
Proof. intros H Hm q pg Hq Hl. rewrite <-H. by apply Hm. Qed.

Lemma reserve_regions_ok l : forall s R,
  buddy_inv ∅ no_lists s -> marked R 0 s -> Forall (region_fits (nr_pages s)) l ->
  exists s', reserve_regions l s = Ok (tt, s') /\ buddy_inv ∅ no_lists s' /\
    nr_pages s' = nr_pages s /\ marked (fun q => R q \/ reserved_frame l q) 0 s'.
Proof.
  induction l as [|r l IH]; intros s R Hinv Hm Hl; cbn [reserve_regions].
  { exists s. split_and!; try done. eapply marked_iff; [|done]. intros q. unfold reserved_frame.
    split; [by left|]. intros [?|(r & []%elem_of_nil & _)]. done. }
  apply Forall_cons in Hl as [(H0 & H1 & H2 & H3) Hl].
  rewrite u64_small, !Z.shiftr_div_pow2 by lia.
  set (a := base r / 2 ^ 12). set (e := (base r + size r) / 2 ^ 12) in *.
  assert (Hae : 0 <= a <= e) by (subst a e; split; [apply Z.div_pos; lia|apply Z.div_le_mono; lia]).
  destruct (reserve_pages_ok (Z.to_nat (e + 1 - a)) a s R) as (s1 & E1 & Hinv1 & Hn1 & Hm1);
    [done|done|lia|lia|]. run E1.
  destruct (IH s1 (fun q => R q \/ a <= q < a + Z.of_nat (Z.to_nat (e + 1 - a))))
    as (s' & E & Hinv' & Hn' & Hm'); [done|done|by rewrite Hn1|].
  exists s'. split_and!; [exact E|done|congruence|]. eapply marked_iff; [|exact Hm'].
  intros q. unfold reserved_frame. setoid_rewrite elem_of_cons. unfold frames_of. split.
  - intros [[?|?]|(r' & ? & ?)]; [by left|right; exists r; split; [by left|subst a e; lia]|].
    right. exists r'. auto.
  - intros [?|(r' & [->|?] & ?)]; [by left; left|left; right; subst a e; lia|].
    right. by exists r'.
Qed.

(** * Handing the other pages to the allocator *)

(** Memory outside all blocks becomes a block in limbo. *)
Lemma inv_new B L s p o :
  buddy_inv B L s -> blk_in (nr_pages s) p o -> (forall x, p <= x < p + 2 ^ o -> ~ covered B x) ->
  buddy_inv (<[p := (Limbo, o)]> B) L s.
Proof.
  intros [W P N H K Ls Ln Mg] Hp Hc. destruct W as [Wr Wi Wd].
  pose proof (blk_size _ _ _ Hp) as Hpos.
  assert (Hb0 : forall b st k, B !! b = Some (st, k) -> covered B b).
  { intros b st k Hb. exists b, st, k. split; [done|].
    pose proof (blk_size _ _ _ (Wi _ _ _ Hb)). lia. }
  assert (HpB : forall st k, B !! p <> Some (st, k)) by (intros st k Hb; eapply (Hc p); [lia|eauto]).
  split; try done.
  - split; [done|..].
    + intros b st k. rewrite lookup_insert. case_decide; [|by apply Wi]. subst b. by intros [= <- <-].
    + intros b b' st st' k k'. rewrite !lookup_insert. repeat case_decide; subst; try lia.
      * intros [= <- <-] Hb Hlt. destruct (Z.le_gt_cases (b + 2 ^ o) b') as [|Hgt]; [done|].
        exfalso. eapply (Hc b'); [lia|eauto].
      * intros Hb [= <- <-] Hlt. destruct (Z.le_gt_cases (b + 2 ^ k) b') as [|Hgt]; [done|].
        exfalso. apply (Hc b'); [lia|]. exists b, st, k. split; [done|lia].
      * by apply Wd.
  - intros b st k pg. rewrite lookup_insert. case_decide; [|apply H]. by intros [= <- <-].
  - intros q pg Hq Hf. destruct (K q pg Hq Hf) as (? & ? & b & st & k & Hb & Hx).
    split_and!; [lia..|done|]. exists b, st, k. split; [|done]. rewrite lookup_insert_ne; [done|].
    intros ->. by eapply HpB.
  - intros k Hk. destruct (Ls k Hk) as [Dl El Cl]. split; [done| |done]. intros b. rewrite El.
    rewrite lookup_insert. case_decide; [|done]. subst b.
    split; intros Hb; [by apply HpB in Hb|congruence].
Qed.

Lemma single_page n p : 0 <= p < n -> blk_in n p 0.
Proof.
  intros Hp. unfold blk_in, MAX_ORDER. change (2 ^ 0) with 1.
  split_and!; try lia. apply Z.divide_1_l.
Qed.

Lemma free_pages_loop_ok n : forall i s B R,
  buddy_ok B s -> (forall b o, B !! b <> Some (Used, o)) ->
  0 <= i -> i + Z.of_nat n = nr_pages s -> marked R i s ->
  (forall x, avail B x <-> 0 <= x < i /\ ~ R x) ->
  exists B' s', free_pages_loop n i s = Ok (tt, s') /\ buddy_ok B' s' /\
    nr_pages s' = nr_pages s /\ (forall b o, B' !! b <> Some (Used, o)) /\
    (forall x, avail B' x <-> 0 <= x < nr_pages s /\ ~ R x).
Proof.
  induction n as [|n IH]; intros i s B R Hok Hnu Hi Hn Hm Hav; cbn [free_pages_loop].
  { exists B, s. split_and!; try done. intros x. rewrite Hav.
    replace (nr_pages s) with i by lia. done. }
  pose proof Hok as ([L Hinv] & Hnl & Hco).
  destruct (proj2 (bi_pages _ _ _ Hinv i)) as [pg Hpg]; [lia|].
  assert (E0 : page_at i s = Ok (pg, s)) by (unfold page_at; by rewrite Hpg).
  run E0. destruct (Hm i pg ltac:(lia) Hpg) as [Hnf Hres].
  destruct (Z.eqb_spec (flags pg) PG_RESERVED) as [Er|Er].
  - cbn. apply (IH (i + 1) s B R); try done; [lia|lia| |].
    + intros q pg' Hq. apply Hm. lia.
    + intros x. rewrite Hav. apply Hres in Er. split; [intros [? ?]; split; [lia|done]|].
      intros [? Hx]. split; [|done]. destruct (decide (x = i)) as [->|]; [done|lia].
  - assert (Hnc : ~ covered B i).
    { intros (b & st & o & Hb & Hx). destruct st; [|by apply Hnu in Hb|by apply Hnl in Hb].
      assert (Ha : avail B i) by (by exists b, Free, o). apply Hav in Ha. lia. }
    assert (Hinv0 : buddy_inv (<[i := (Limbo, 0)]> B) L s).
    { apply inv_new; [done|apply single_page; lia|]. change (2 ^ 0) with 1. intros x Hx.
      by replace x with i by lia. }
    set (B0 := <[i := (Limbo, 0)]> B) in *.
    assert (Hb0 : B0 !! i = Some (Limbo, 0)) by apply lookup_insert_eq.
    destruct (upd_page_ok B0 L s i 0 (with_flags PG_AVAIL) pg)
      as (s1 & E1 & Hinv1 & Hm1 & _); [done..|].
    destruct (raw_node_ok B0 L s1 i Hinv1) as (s2 & E2 & Hinv2 & Hn2 & Hmm2);
      [rewrite (mv_nr _ _ _ _ Hm1); lia|intros o; congruence|].
    destruct (__free_one_page_ok B0 L s2 i 0) as (B' & s3 & E3 & Hok3 & Hm3); [done|done|..].
    { intros c k. subst B0. rewrite lookup_insert. case_decide; [congruence|]. by intros ?%Hnl. }
    { apply (coalesced_mono B); [|done]. intros p k. subst B0. rewrite lookup_insert.
      case_decide; congruence. }
    assert (E4 : (_ ← upd_page i (with_flags PG_AVAIL);
                  _ ← on_nodes (INIT_LIST_HEAD (HPage i)); __free_one_page i i 0) s = Ok (tt, s3))
      by (run E1; by run E2).
    run E4.
    assert (Hav0 : forall x, avail B0 x <-> 0 <= x < i + 1 /\ ~ R x).
    { intros x. assert (HRi : ~ R i) by tauto. split.
      - intros (b & st & o & Hb & Hst & Hx). subst B0. rewrite lookup_insert in Hb. case_decide.
        + injection Hb as <- <-. subst b. change (2 ^ 0) with 1 in Hx.
          assert (x = i) as -> by lia. split; [lia|done].
        + assert (Ha : avail B x) by (by exists b, st, o). apply Hav in Ha. split; [lia|tauto].
      - intros [Hx HRx]. destruct (decide (x = i)) as [->|].
        + exists i, Limbo, 0. split_and!; (done || (cbn; lia)).
        + destruct (proj2 (Hav x)) as (b & st & o & Hb & ? & ?); [split; [lia|done]|].
          exists b, st, o. split_and!; try lia; [|done]. subst B0. rewrite lookup_insert_ne; [done|].
          intros ->. apply Hnc. exists b, st, o. split; [done|].
          pose proof (blk_size _ _ _ (wb_in _ _ (bi_wf _ _ _ Hinv) _ _ _ Hb)). lia. }
    assert (Hn3 : nr_pages s3 = nr_pages s)
      by (rewrite (mv_nr _ _ _ _ Hm3), Hn2; apply (mv_nr _ _ _ _ Hm1)).
    rewrite <-Hn3. apply (IH (i + 1) s3 B' R); try done; try lia.
    + intros b o Hb. apply (mv_used _ _ _ _ Hm3) in Hb. subst B0. rewrite lookup_insert in Hb.
      case_decide; [congruence|by eapply Hnu].
    + intros q pg' Hq Hl. apply Hm; [lia|]. rewrite <-Hl.
      assert (Hna : ~ avail B0 q) by (rewrite Hav0; lia).
      rewrite (mv_outside _ _ _ _ Hm3 q Hna), Hmm2. symmetry. by apply (mv_outside _ _ _ _ Hm1).
    + intros x. by rewrite <-(mv_avail _ _ _ _ Hm3).
Qed.

(** * The whole initialisation *)

Lemma new_nodes_free n j : 0 <= j < MAX_ORDER -> is_Some (new_nodes n !! HFree j).
Proof.
  intros Hj. unfold new_nodes. apply elem_of_dom. rewrite dom_list_to_map_L.
  apply elem_of_list_to_set. rewrite <-list_fmap_compose. apply list_elem_of_fmap.
  exists (HFree j). split; [done|]. rewrite elem_of_app. left. apply list_elem_of_fmap.
  exists j. split; [done|]. apply elem_of_seqZ. unfold MAX_ORDER in *. lia.
Qed.

Lemma zeros_of nf : length nf = 10%nat -> (forall j, 0 <= j < 10 -> nf.[j] = Some 0) ->
  nf = replicate 10 0.
Proof.
  intros Hl H. apply list_eq_same_length with 10%nat; [done|done|]. intros i x y Hi Hx Hy.
  specialize (H (Z.of_nat i) ltac:(lia)). apply zget_Some in H as [_ H].
  rewrite Nat2Z.id in H. apply lookup_replicate in Hy as [-> _]. congruence.
Qed.

(** The state between [buddy_free_area_init] and the marking of reserved pages. *)
Lemma boot_state_ok h raw n :
  0 <= n -> (2 ^ (MAX_ORDER - 1) | n) ->
  (forall p, flags (raw p) <> PG_buddy /\ flags (raw p) <> PG_RESERVED) ->
  (forall j, 0 <= j < MAX_ORDER -> dll h (HFree j) []) ->
  let s := MM n (new_mem_map raw n) (h ∪ new_nodes n) (replicate 10 0) 0 in
  buddy_inv ∅ no_lists s /\ marked (fun _ => False) 0 s.
Proof.
  intros Hn Hd Hraw Hdll s. split.
  - split; cbn; try done.
    + intros p. rewrite new_mem_map_lookup. case_decide; [by split|]. split; [by intros []|done].
    + intros p Hp. destruct (new_nodes_page n p Hp) as [v Hv].
      destruct (h !! HPage p) as [w|] eqn:E; [exists w; by apply lookup_union_Some_l|].
      exists v. by rewrite lookup_union_r.
    + intros p pg. rewrite new_mem_map_lookup. case_decide; [|done]. intros [= <-] Hf.
      by destruct (Hraw p).
    + intros o Ho. split; cbn.
      * destruct (Hdll o Ho) as [Hnd [Hx Hp]]. split; [done|]. cbn. unfold nxt, prv in *.
        destruct (h !! HFree o) as [w|] eqn:E; [|done].
        by rewrite (lookup_union_Some_l _ _ _ _ E).
      * intros b. rewrite lookup_empty, elem_of_nil. by split.
      * unfold MAX_ORDER in Ho. unfold zget. rewrite (proj2 (Z.leb_le 0 o)) by lia.
        change [0; 0; 0; 0; 0; 0; 0; 0; 0; 0] with (replicate 10 0).
        apply (lookup_replicate_2 10). lia.
  - intros q pg _. cbn. rewrite new_mem_map_lookup. case_decide; [|done]. intros [= <-].
    destruct (Hraw q). by split.
Qed.

Lemma boot_ok fuel raw mb va mb' n :
  n = Z.shiftr (current_limit mb) 12 -> 0 <= n -> (2 ^ (MAX_ORDER - 1) | n) ->
  (forall p, flags (raw p) <> PG_buddy /\ flags (raw p) <> PG_RESERVED) ->
  memblock_phys_alloc fuel mb (u64 (sizeof_page * n)) = Ok (va, mb') ->
  live (reserved mb') <> [] -> Forall (region_fits n) (live (reserved mb')) ->
  exists B s, buddy_init fuel raw mb mm0 = Ok (mb', s) /\ buddy_ok B s /\ nr_pages s = n /\
    (forall b o, B !! b <> Some (Used, o)) /\
    (forall x, avail B x <-> 0 <= x < n /\ ~ reserved_frame (live (reserved mb')) x).
Proof.
  intros -> Hn Hd Hraw Ha Hl Hf. unfold buddy_init, buddy_free_area_init.
  destruct (area_init_loop_ok (Z.to_nat MAX_ORDER) 0 mm0) as (h & nf & E0 & _ & Hln & Hall & _);
    [lia|unfold MAX_ORDER; lia|done|intros; by apply new_nodes_free|].
  assert (Hz : nf = replicate 10 0).
  { apply zeros_of; [done|]. intros j Hj. apply Hall. unfold MAX_ORDER. lia. }
  rewrite E0, Hz, res_bind_ok. unfold page_frame_init. rewrite Ha, res_bind_ok. cbn [fst snd].
  cbn [nodes nr_free managed_pages]. change (managed_pages mm0) with 0. clear E0 Hz.
  set (n := Z.shiftr (current_limit mb) 12) in *.
  destruct (boot_state_ok h raw n) as [Hinv Hm]; try done.
  { intros j Hj. apply Hall. unfold MAX_ORDER in *. lia. }
  assert (Elive : take (Z.to_nat (cnt (reserved mb'))) (regions (reserved mb')) = live (reserved mb')).
  { unfold live in *. destruct (regions (reserved mb')); [done|]. by destruct (_ =? _). }
  rewrite Elive.
  destruct (reserve_regions_ok (live (reserved mb')) _ _ Hinv Hm) as (s1 & E1 & Hinv1 & Hn1 & Hm1);
    [done|]. rewrite E1, res_bind_ok. cbn [snd].
  destruct (free_pages_loop_ok (Z.to_nat n) 0 s1 ∅ (reserved_frame (live (reserved mb'))))
    as (B & s2 & E2 & Hok & Hn2 & Hnu & Hav).
  - split; [by eexists|]. split; intros b o; by rewrite lookup_empty.
  - intros b o. by rewrite lookup_empty.
  - lia.
  - rewrite Hn1. cbn [nr_pages]. lia.
  - eapply marked_iff; [|exact Hm1]. intros q. tauto.
  - intros x. split; [|lia]. intros (b & st & o & Hb & _). by rewrite lookup_empty in Hb.
  - rewrite E2, res_bind_ok. exists B, s2. rewrite Hn1 in *. cbn [nr_pages snd] in *. by split_and!.
Qed.

(** [buddy_init] after [memblock_init]: it returns, and leaves a consistent
    allocator with nothing in use whose available memory is every page frame that
    no reserved region touches.  The number of pages must be a multiple of the
    largest block (otherwise merging looks past the end of [mem_map]), reserved
    regions must end below the last page, and the memory that receives [mem_map],
    which is never cleared, must not hold the marks of free or reserved pages. *)
Theorem buddy_init_ok fuel raw mb va mb' n :
  n = Z.shiftr (current_limit mb) 12 -> 0 <= n -> (2 ^ (MAX_ORDER - 1) | n) ->
  (forall p, flags (raw p) <> PG_buddy /\ flags (raw p) <> PG_RESERVED) ->
  memblock_phys_alloc fuel mb (u64 (sizeof_page * n)) = Ok (va, mb') ->
  live (reserved mb') <> [] -> Forall (region_fits n) (live (reserved mb')) ->
  exists B s, buddy_init fuel raw mb mm0 = Ok (mb', s) /\ buddy_ok B s /\ nr_pages s = n /\
    (forall b o, B !! b <> Some (Used, o)) /\
    (forall x, avail B x <-> 0 <= x < n /\ ~ reserved_frame (live (reserved mb')) x).
Proof. apply boot_ok. Qed.

(** * Instances *)

(** 2 MiB of memory, the first 32 KiB of it reserved, over zeroed page structures. *)
Definition ex_mb : memblock :=
  Memblock 0x200000 (MType 1 4 0x200000 [Region 0 0x200000; Region 0 0; Region 0 0; Region 0 0])
    (MType 1 4 0x8000 [Region 0 0x8000; Region 0 0; Region 0 0; Region 0 0]) 0x200000.

Definition ex_mb' : memblock :=
  Memblock 0x200000 (MType 1 4 0x200000 [Region 0 0x200000; Region 0 0; Region 0 0; Region 0 0])
    (MType 1 4 0xe000 [Region 0 0xe000; Region 0x8000 0x6000; Region 0 0; Region 0 0]) 0x200000.

Definition zero_page : page := Page 0 0 0 0.

Lemma buddy_init_ok_witness :
  exists B s, buddy_init 4 (fun _ => zero_page) ex_mb mm0 = Ok (ex_mb', s) /\ buddy_ok B s /\
    nr_pages s = 512 /\ (forall b o, B !! b <> Some (Used, o)) /\
    (forall x, avail B x <-> 0 <= x < 512 /\ ~ reserved_frame (live (reserved ex_mb')) x).
Proof.
  apply (buddy_init_ok 4 (fun _ => zero_page) ex_mb 0xffff000000008000 ex_mb' 512).
  - reflexivity.
  - lia.
  - by exists 1.
  - done.
  - vm_compute. reflexivity.
  - done.
  - repeat constructor; vm_compute; (done || congruence).
Defined.

(** One block of the largest order, in the hands of an operation. *)
Definition ex_limbo : mm :=
  match buddy_free_area_init mm0 with
  | Ok (_, s) => MM 512 (new_mem_map (fun _ => zero_page) 512) (nodes s ∪ new_nodes 512)
                    (replicate 10 0) 0
  | Err _ => mm0
  end.

(** The same block free, and in use. *)
Definition ex_free : mm :=
  match (_ ← set_buddy_order 0 9; add_to_free_area 0 9) ex_limbo with
  | Ok (_, s) => s
  | Err _ => mm0
  end.

Definition ex_used : mm :=
  match (_ ← set_page_order 0 9; upd_page 0 (with_flags PG_USED)) ex_limbo with
  | Ok (_, s) => s
  | Err _ => mm0
  end.

Lemma singleton_limbo_ok (b o c k : Z) st :
  st <> Limbo -> ({[b := (st, o)]} : blocks) !! c <> Some (Limbo, k).
Proof. intros Hst. rewrite lookup_singleton. case_decide; congruence. Qed.

Lemma ex_limbo_ok : buddy_inv {[0 := (Limbo, 9)]} no_lists ex_limbo.
Proof.
  unfold ex_limbo, buddy_free_area_init.
  destruct (area_init_loop_ok (Z.to_nat MAX_ORDER) 0 mm0) as (h & nf & E0 & _ & Hln & Hall & _);
    [lia|unfold MAX_ORDER; lia|done|intros; by apply new_nodes_free|].
  rewrite E0. clear E0. cbn [nodes]. apply (inv_new ∅).
  - destruct (boot_state_ok h (fun _ => zero_page) 512) as [Hs _]; [lia|by exists 1|done| |exact Hs].
    intros j Hj. apply Hall. unfold MAX_ORDER in *. lia.
  - unfold blk_in, MAX_ORDER. cbn [nr_pages]. split_and!; try lia. apply Z.divide_0_r.
  - intros x _. apply not_covered_empty.
Qed.

Lemma limbo_to_free L s :
  buddy_inv {[0 := (Limbo, 9)]} L s ->
  exists s', (_ ← set_buddy_order 0 9; add_to_free_area 0 9) s = Ok (tt, s') /\
             buddy_ok {[0 := (Free, 9)]} s'.
Proof.
  intros Hi. destruct (set_buddy_order_ok _ _ _ 0 9 9 Hi) as (s1 & pg & E1 & Hi1 & _ & Hp & Hh);
    [done|done|].
  run E1. destruct (add_page_ok _ _ _ 0 9 pg Hi1) as (s2 & E2 & _ & Hi2 & _); [done..|].
  exists s2. split; [done|]. split; [|split].
  - eexists. rewrite insert_singleton_eq in Hi2. exact Hi2.
  - intros b o. by apply singleton_limbo_ok.
  - intros b o Ho. rewrite lookup_singleton. case_decide; [|done]. intros [= <-]. done.
Qed.

Lemma limbo_to_used L s :
  buddy_inv {[0 := (Limbo, 9)]} L s ->
  exists s', (_ ← set_page_order 0 9; upd_page 0 (with_flags PG_USED)) s = Ok (tt, s') /\
             buddy_ok {[0 := (Used, 9)]} s'.
Proof.
  intros Hi. destruct (inv_page_at _ _ _ 0 Limbo 9 Hi) as (pg & Hp & _ & Hb); [done|].
  destruct (upd_page_ok _ _ _ 0 9 (with_private 9) pg Hi)
    as (s1 & E1 & Hi1 & _ & Hp1); [done|done|intros _; split; apply Hb|].
  unfold set_page_order. run E1.
  destruct (upd_page_ok _ _ s1 0 9 (with_flags PG_USED) (with_private 9 pg) Hi1)
    as (s2 & E2 & Hi2 & _ & Hp2); [done..|].
  exists s2. split; [done|]. split; [|split].
  - exists L. replace ({[0 := (Used, 9)]} : blocks) with
      (<[0 := (Used, 9)]> ({[0 := (Limbo, 9)]} : blocks)) by apply insert_singleton_eq.
    eapply inv_handover; [done|done|done|done|]. rewrite Hp2. by intros pg' [= <-].
  - intros b o. by apply singleton_limbo_ok.
  - intros b o Ho. rewrite lookup_singleton. case_decide; congruence.
Qed.

Lemma ex_free_ok : buddy_ok {[0 := (Free, 9)]} ex_free.
Proof. unfold ex_free. by destruct (limbo_to_free _ _ ex_limbo_ok) as (s & -> & Hs). Qed.

Lemma ex_used_ok : buddy_ok {[0 := (Used, 9)]} ex_used.
Proof. unfold ex_used. by destruct (limbo_to_used _ _ ex_limbo_ok) as (s & -> & Hs). Qed.
