(* ===== verification/BuddySpec.v ===== *)
(** What the buddy allocator promises: the theorems about [__alloc_pages],
    [free_one_page] and [buddy_init], and the canonicity of its partition. *)
From S2P Require Import Prelude ListHead Memblock Buddy BuddyInv BuddyBoot.

(** * The partition is canonical *)

(** A well-formed partition between calls. *)
Record partition (n : Z) (B : blocks) : Prop := {
  pt_wf : wf_blocks n B;
  pt_limbo : no_limbo B;
  pt_coalesced : coalesced B
}.

Lemma ok_partition B s : buddy_ok B s -> partition (nr_pages s) B.
Proof. intros ([L Hinv] & ? & ?). split; [apply Hinv|done|done]. Qed.

Lemma avail_free n B x :
  partition n B -> avail B x -> exists b o, B !! b = Some (Free, o) /\ b <= x < b + 2 ^ o /\ blk_in n b o.
Proof.
  intros [[_ Wi _] Hnl _] (b & st & o & Hb & Hst & Hx). exists b, o.
  destruct st; [|done|by apply Hnl in Hb]. eauto.
Qed.

(** Where an aligned run of pages is available, one free block contains it. *)
Lemma coalesced_contains n B (k : nat) : forall c,
  partition n B -> Z.of_nat k < MAX_ORDER -> (2 ^ Z.of_nat k | c) ->
  (forall x, c <= x < c + 2 ^ Z.of_nat k -> avail B x) ->
  exists b o, B !! b = Some (Free, o) /\ Z.of_nat k <= o /\ b <= c < b + 2 ^ o.
Proof.
  induction k as [|k IH]; intros c HB Hk Hal Hav.
  { destruct (avail_free n B c HB) as (b & o & Hb & Hx & (? & _)); [apply Hav; cbn; lia|].
    exists b, o. split_and!; (done || lia). }
  set (j := Z.of_nat k) in *. replace (Z.of_nat (S k)) with (j + 1) in * by lia.
  assert (Hp : 2 ^ (j + 1) = 2 ^ j + 2 ^ j) by (rewrite Z.pow_add_r by lia; lia).
  pose proof (pow2_pos j ltac:(lia)).
  assert (Hcj : (2 ^ j | c)) by (transitivity (2 ^ (j + 1)); [apply pow2_divide; lia|done]).
  destruct (IH c) as (b & o & Hb & Hko & Hx); [done|lia|done|intros x Hx; apply Hav; lia|].
  destruct (IH (c + 2 ^ j)) as (b' & o' & Hb' & Hko' & Hx');
    [done|lia|by apply Z.divide_add_r|intros x Hx'; apply Hav; lia|].
  destruct HB as [[_ Wi Wd] _ Hco].
  pose proof (Wi _ _ _ Hb) as (Ho & _ & _ & Ha). pose proof (Wi _ _ _ Hb') as (Ho' & _ & _ & Ha').
  destruct (decide (o = j)) as [->|]; [|exists b, o; split_and!; (done || lia)].
  destruct (decide (o' = j)) as [->|].
  - exfalso. destruct (aligned_nested j j b c c) as [? ?]; try (done || lia).
    assert (b = c) as -> by lia.
    destruct (aligned_nested j j b' (c + 2 ^ j) (c + 2 ^ j)) as [? ?]; try (done || lia).
    { by apply Z.divide_add_r. }
    assert (b' = c + 2 ^ j) as -> by lia.
    apply (Hco c j); [unfold MAX_ORDER in *; lia|done|].
    destruct (buddy_cases c j) as [(_ & -> & _)|(Hc & E & _)]; [lia|done|done|exfalso].
    pose proof (multiple_gap (2 ^ (j + 1)) _ _ ltac:(lia) Hc Hal ltac:(lia)). lia.
  - exists b', o'. destruct (aligned_nested (j + 1) o' c b' (c + 2 ^ j)); try (done || lia).
    split_and!; (done || lia).
Qed.

(** Two partitions of the same available memory have the same free blocks. *)
Lemma partition_unique n B1 B2 b o :
  partition n B1 -> partition n B2 -> (forall x, avail B1 x <-> avail B2 x) ->
  B1 !! b = Some (Free, o) -> B2 !! b = Some (Free, o).
Proof.
  intros H1 H2 Hav Hb. pose proof H1 as [[_ Wi1 Wd1] _ _]. pose proof H2 as [[_ Wi2 Wd2] _ _].
  pose proof (Wi1 _ _ _ Hb) as (Ho & _ & _ & Ha).
  assert (Hfree : forall B c k, B !! c = Some (Free, k) -> forall x, c <= x < c + 2 ^ k -> avail B x)
    by (intros B c k Hc x Hx; by exists c, Free, k).
  destruct (coalesced_contains n B2 (Z.to_nat o) b) as (c & k & Hc & Hk & Hx);
    rewrite ?Z2Nat.id by lia; try (done || lia).
  { intros x Hx. apply Hav. by eapply Hfree. }
  rewrite Z2Nat.id in Hk by lia. pose proof (Wi2 _ _ _ Hc) as (Hk' & _ & _ & Hca).
  destruct (coalesced_contains n B1 (Z.to_nat k) c) as (d & j & Hd & Hj & Hy);
    rewrite ?Z2Nat.id by lia; try (done || lia).
  { intros x Hx'. apply Hav. by eapply Hfree. }
  rewrite Z2Nat.id in Hj by lia. pose proof (Wi1 _ _ _ Hd) as (Hj' & _ & _ & Hda).
  pose proof (pow2_pos o ltac:(lia)). pose proof (pow2_pos k ltac:(lia)).
  destruct (aligned_nested k j c d c) as [? ?]; try (done || lia).
  assert (d = b) as ->.
  { destruct (Z.lt_trichotomy d b) as [Hlt|[->|Hlt]]; [|done|lia].
    pose proof (Wd1 _ _ _ _ _ _ Hd Hb Hlt). lia. }
  rewrite Hb in Hd. injection Hd as <-. assert (k = o) as -> by lia.
  destruct (aligned_nested o o b c b) as [? ?]; try (done || lia).
  by assert (c = b) as -> by lia.
Qed.

Lemma partition_eq n B1 B2 :
  partition n B1 -> partition n B2 -> (forall x, avail B1 x <-> avail B2 x) ->
  (forall b o, B1 !! b = Some (Used, o) <-> B2 !! b = Some (Used, o)) -> B1 = B2.
Proof.
  intros H1 H2 Hav Hus. apply map_eq. intros b.
  pose proof H1 as [_ L1 _]. pose proof H2 as [_ L2 _].
  assert (Hav' : forall x, avail B2 x <-> avail B1 x) by (intros x; by rewrite Hav).
  assert (Hlk : forall st o, B1 !! b = Some (st, o) <-> B2 !! b = Some (st, o)).
  { intros st o. destruct st.
    - split; intros Hb; eapply partition_unique; [| |done..]; done.
    - apply Hus.
    - split; intros Hb; [by apply L1 in Hb|by apply L2 in Hb]. }
  destruct (B1 !! b) as [[st o]|] eqn:E1; [symmetry; by apply Hlk|].
  destruct (B2 !! b) as [[st o]|] eqn:E2; [|done]. by apply Hlk.
Qed.

(** * Clients *)

(** A client's view: the blocks it holds, by their first page, with their orders. *)
Inductive request := Alloc (order : Z) | Release (b : Z).

(** A client that only gives back what it holds. *)
Definition client_step (r : request) (c : mm * gmap Z Z) : res (mm * gmap Z Z) :=
  let '(s, held) := c in
  match r with
  | Alloc order =>
      x ← __alloc_pages order s;
      Ok (x.2, match x.1 with Some b => <[b := order]> held | None => held end)
  | Release b =>
      match held !! b with
      | Some order => x ← free_one_page b b order s; Ok (x.2, delete b held)
      | None => Ok (s, held)
      end
  end.

Fixpoint client_run (rs : list request) (c : mm * gmap Z Z) : res (mm * gmap Z Z) :=
  match rs with
  | [] => Ok c
  | r :: rs => c ← client_step r c; client_run rs c
  end.

(** The allocator's blocks in use are the client's, and are marked as such. *)
Definition client_ok (n : Z) (c : mm * gmap Z Z) (total : Z -> Prop) : Prop :=
  exists B, buddy_ok B c.1 /\ nr_pages c.1 = n /\
    (forall b o, B !! b = Some (Used, o) <-> c.2 !! b = Some o) /\
    (forall b o, c.2 !! b = Some o -> exists pg, mem_map c.1 !! b = Some pg /\ flags pg = PG_USED) /\
    (forall x, total x <-> avail B x \/ exists b o, c.2 !! b = Some o /\ b <= x < b + 2 ^ o).

Definition valid_request (r : request) : Prop :=
  match r with Alloc order => 0 <= order | Release _ => True end.

Lemma client_step_ok n r c total :
  client_ok n c total -> valid_request r ->
  exists c', client_step r c = Ok c' /\ client_ok n c' total.
Proof.
  destruct c as [s held]. intros (B & Hok & Hn & Hus & Hfl & Htot) Hr. cbn [fst snd] in *.
  destruct r as [order|b]; cbn [client_step valid_request] in *.
  - destruct (__alloc_pages_ok B s order Hok Hr)
      as [(-> & _)|(b & k & B' & s' & -> & Hb & Hk & _ & Hok' & Hkp & Hav & Hus' & Hpg)].
    { cbn. eexists. split; [done|]. by exists B. }
    cbn. eexists. split; [done|]. exists B'. cbn.
    assert (Hnb : held !! b = None).
    { destruct (held !! b) as [o|] eqn:E; [|done]. apply Hus in E. congruence. }
    split_and!; [done|by rewrite (kp_nr _ _ _ _ _ Hkp)|..].
    + intros c j. rewrite Hus', Hus, lookup_insert. case_decide; naive_solver.
    + intros c j. rewrite lookup_insert. case_decide as Hd.
      * subst c. intros _. destruct Hpg as (pg & ? & ? & _). eauto.
      * intros Hc. destruct (Hfl _ _ Hc) as (pg & Hp & ?). apply Hus in Hc. exists pg. split; [|done].
        rewrite <-Hp. eapply (kp_pages _ _ _ _ _ Hkp); [congruence|done].
    + intros x. rewrite Htot, Hav. split.
      * intros [[Hx|Hx]|(c & j & Hc & Hx)]; [by left|right|right].
        -- exists b, order. by rewrite lookup_insert_eq.
        -- exists c, j. by rewrite lookup_insert_ne by congruence.
      * intros [Hx|(c & j & Hc & Hx)]; [by left; left|]. rewrite lookup_insert in Hc.
        case_decide; simplify_eq; [by left; right|by right; exists c, j].
  - destruct (held !! b) as [order|] eqn:Eb; [|eexists; split; [done|]; by exists B].
    destruct (Hfl _ _ Eb) as (pg & Hp & Hpf). apply Hus in Eb as Hb.
    destruct (free_one_page_ok B s b order pg Hok Hb Hp Hpf)
      as (B' & s' & -> & Hok' & Hkp & Hav & Hus').
    cbn. eexists. split; [done|]. exists B'. cbn.
    split_and!; [done|by rewrite (kp_nr _ _ _ _ _ Hkp)|..].
    + intros c j. rewrite Hus', Hus, lookup_delete. case_decide; naive_solver.
    + intros c j. rewrite lookup_delete. case_decide as Hd; [done|].
      intros Hc. destruct (Hfl _ _ Hc) as (pg' & Hp' & ?). apply Hus in Hc. exists pg'.
      split; [|done]. rewrite <-Hp'. by eapply (kp_pages _ _ _ _ _ Hkp).
    + intros x. rewrite Htot, Hav. split.
      * intros [Hx|(c & j & Hc & Hx)]; [by left; left|]. destruct (decide (c = b)) as [->|].
        -- left; right. rewrite Eb in Hc. by injection Hc as <-.
        -- right. exists c, j. by rewrite lookup_delete_ne.
      * intros [[Hx|Hx]|(c & j & Hc & Hx)]; [by left|by right; exists b, order|].
        rewrite lookup_delete in Hc. case_decide; [done|]. right. by exists c, j.
Qed.

Lemma client_run_ok n rs total : forall c,
  client_ok n c total -> Forall valid_request rs ->
  exists c', client_run rs c = Ok c' /\ client_ok n c' total.
Proof.
  induction rs as [|r rs IH]; intros c Hc Hv; cbn [client_run]; [by exists c|].
  apply Forall_cons in Hv as [Hr Hv].
  destruct (client_step_ok n r c total Hc Hr) as (c1 & -> & Hc1). cbn [mbind res_bind].
  by apply IH.
Qed.

(** * The properties *)

(** C3. [__alloc_pages] on a consistent allocator: it returns [NULL] and changes
    nothing exactly when no free block is large enough; otherwise it returns the
    first page of a free block of the smallest sufficient order, the block of the
    requested order there moves from the available memory to the blocks in use
    (marked [PG_USED] with its order), the rest stays available with all buddies
    merged, and no other block in use, page or list head of a client changes. *)
Theorem alloc_pages_spec B s order :
  buddy_ok B s -> 0 <= order ->
  (__alloc_pages order s = Ok (None, s) /\ forall b k, order <= k -> B !! b <> Some (Free, k)) \/
  (exists b k B' s', __alloc_pages order s = Ok (Some b, s') /\
     B !! b = Some (Free, k) /\ order <= k /\
     (forall c j, B !! c = Some (Free, j) -> order <= j -> k <= j) /\
     buddy_ok B' s' /\ kept B s B' s' b /\
     (forall x, avail B x <-> avail B' x \/ b <= x < b + 2 ^ order) /\
     (forall c j, B' !! c = Some (Used, j) <-> B !! c = Some (Used, j) \/ (c = b /\ j = order)) /\
     exists pg, mem_map s' !! b = Some pg /\ flags pg = PG_USED /\ private pg = order).
Proof. apply __alloc_pages_ok. Qed.

(** C4. [free_one_page] on a block in use: it returns, the block becomes available
    and is merged with its buddies as far as possible, and no other block in use,
    page or list head of a client changes. *)
Theorem free_one_page_spec B s b o pg :
  buddy_ok B s -> B !! b = Some (Used, o) -> mem_map s !! b = Some pg -> flags pg = PG_USED ->
  exists B' s', free_one_page b b o s = Ok (tt, s') /\ buddy_ok B' s' /\ kept B s B' s' b /\
    (forall x, avail B' x <-> avail B x \/ b <= x < b + 2 ^ o) /\
    (forall c k, B' !! c = Some (Used, k) <-> B !! c = Some (Used, k) /\ c <> b).
Proof. apply free_one_page_ok. Qed.

(** C5. Freeing undoes allocating: freeing the block just allocated gives back
    exactly the partition there was before, every split undone. *)
Theorem alloc_free_roundtrip B s order b s1 :
  buddy_ok B s -> 0 <= order -> __alloc_pages order s = Ok (Some b, s1) ->
  exists s2, free_one_page b b order s1 = Ok (tt, s2) /\ buddy_ok B s2.
Proof.
  intros Hok Ho E. destruct (__alloc_pages_ok B s order Hok Ho)
    as [(E' & _)|(b' & k & B' & s' & E' & Hb & Hk & _ & Hok' & Hkp & Hav & Hus' & pg & Hpg & Hfl & _)];
    rewrite E in E'; [done|]. injection E' as <- <-.
  destruct (free_one_page_ok B' s1 b order pg Hok') as (B2 & s2 & E2 & Hok2 & Hkp2 & Hav2 & Hus2);
    [apply Hus'; by right|done|done|].
  exists s2. split; [exact E2|]. enough (B2 = B) as <- by done.
  apply (partition_eq (nr_pages s)).
  - rewrite <-(kp_nr _ _ _ _ _ Hkp), <-(kp_nr _ _ _ _ _ Hkp2). by apply ok_partition.
  - by apply ok_partition.
  - intros x. by rewrite Hav2, Hav.
  - intros c j. rewrite Hus2, Hus'. destruct (decide (c = b)) as [->|]; naive_solver.
Qed.

(** C6. Any sequence of allocations and releases by a client that gives back what
    it holds runs without a fault: no access outside [mem_map] or the free lists,
    no null pointer, no endless loop.  Throughout, the blocks held are disjoint
    blocks of the partition and what is held together with what is available is
    the same memory as at the start. *)
Theorem client_run_safe n rs c total :
  client_ok n c total -> Forall valid_request rs ->
  exists c', client_run rs c = Ok c' /\ client_ok n c' total.
Proof. apply client_run_ok. Qed.

(** The check of [free_one_page] does not detect a double free: when the block
    was merged into a buddy below it, its own page keeps the mark [PG_USED], so
    freeing it again succeeds and puts memory that is free on a list once more. *)
Theorem double_free_undetected :
  (r ← (b0 ← __alloc_pages 0; b1 ← __alloc_pages 0;
        _ ← free_one_page 0 0 0; _ ← free_one_page 1 1 0; once ← gets nr_free;
        _ ← free_one_page 1 1 0; twice ← gets nr_free; mret (b0, b1, once, twice)) ex_free;
   Ok r.1) = Ok (Some 0, Some 1, [0; 0; 0; 0; 0; 0; 0; 0; 0; 1], [1; 0; 0; 0; 0; 0; 0; 0; 0; 1]).
Proof. vm_compute. reflexivity. Qed.

(** * Instances *)

Lemma alloc_pages_spec_witness :
  (__alloc_pages 2 ex_free = Ok (None, ex_free) /\
   forall b k, 2 <= k -> ({[0 := (Free, 9)]} : blocks) !! b <> Some (Free, k)) \/
  (exists b k B' s', __alloc_pages 2 ex_free = Ok (Some b, s') /\
     ({[0 := (Free, 9)]} : blocks) !! b = Some (Free, k) /\ 2 <= k /\
     (forall c j, ({[0 := (Free, 9)]} : blocks) !! c = Some (Free, j) -> 2 <= j -> k <= j) /\
     buddy_ok B' s' /\ kept {[0 := (Free, 9)]} ex_free B' s' b /\
     (forall x, avail {[0 := (Free, 9)]} x <-> avail B' x \/ b <= x < b + 2 ^ 2) /\
     (forall c j, B' !! c = Some (Used, j) <->
        ({[0 := (Free, 9)]} : blocks) !! c = Some (Used, j) \/ (c = b /\ j = 2)) /\
     exists pg, mem_map s' !! b = Some pg /\ flags pg = PG_USED /\ private pg = 2).
Proof. apply (alloc_pages_spec {[0 := (Free, 9)]} ex_free 2); [apply ex_free_ok|lia]. Defined.

Lemma free_one_page_spec_witness :
  exists B' s', free_one_page 0 0 9 ex_used = Ok (tt, s') /\ buddy_ok B' s' /\
    kept {[0 := (Used, 9)]} ex_used B' s' 0 /\
    (forall x, avail B' x <-> avail {[0 := (Used, 9)]} x \/ 0 <= x < 0 + 2 ^ 9) /\
    (forall c k, B' !! c = Some (Used, k) <->
       ({[0 := (Used, 9)]} : blocks) !! c = Some (Used, k) /\ c <> 0).
Proof.
  apply (free_one_page_spec {[0 := (Used, 9)]} ex_used 0 9 (Page PG_USED 9 0 0));
    [apply ex_used_ok|done|vm_compute; reflexivity|done].
Defined.

(** The state after an allocation of order 2. *)
Definition ex_alloc : mm := match __alloc_pages 2 ex_free with Ok (_, s) => s | Err _ => mm0 end.

Lemma ex_alloc_eq : __alloc_pages 2 ex_free = Ok (Some 0, ex_alloc).
Proof.
  assert (H : match __alloc_pages 2 ex_free with Ok (o, _) => o | Err _ => None end = Some 0)
    by (vm_compute; reflexivity).
  unfold ex_alloc. destruct (__alloc_pages 2 ex_free) as [[o s]|f]; [by subst o|discriminate H].
Qed.

Lemma alloc_free_roundtrip_witness :
  exists s2, free_one_page 0 0 2 ex_alloc = Ok (tt, s2) /\ buddy_ok {[0 := (Free, 9)]} s2.
Proof.
  apply (alloc_free_roundtrip {[0 := (Free, 9)]} ex_free 2 0 ex_alloc);
    [apply ex_free_ok|lia|apply ex_alloc_eq].
Defined.

Lemma client_run_safe_witness :
  exists c', client_run [Alloc 2; Alloc 0; Release 0; Alloc 12; Release 4] (ex_free, ∅) = Ok c' /\
    client_ok 512 c' (fun x => 0 <= x < 512).
Proof.
  apply (client_run_safe 512 [Alloc 2; Alloc 0; Release 0; Alloc 12; Release 4] (ex_free, ∅)
           (fun x => 0 <= x < 512)).
  - exists {[0 := (Free, 9)]}. split_and!; [apply ex_free_ok|vm_compute; reflexivity|..].
    + intros b o. cbn. rewrite lookup_empty, lookup_singleton. case_decide; split; congruence.
    + intros b o. cbn. by rewrite lookup_empty.
    + intros x. split.
      * intros Hx. left. exists 0, Free, 9. split_and!; (done || lia).
      * intros [(b & st & o & Hb & _ & Hx)|(b & o & Hb & _)]; [|cbn in Hb; by rewrite lookup_empty in Hb].
        apply lookup_singleton_Some in Hb as [<- [= <- <-]]. lia.
  - repeat constructor; cbn; lia.
Defined.
