(* ===== verification/Slab.v ===== *)
(** The slab allocator [src/src/slab.c] on top of the buddy allocator, and
    [kmalloc] and [kfree] of [src/src/mm.c].

    The free objects of a slab form a list threaded through the objects
    themselves: [words] is the memory, by virtual address of the 8-byte words the
    allocator reads and writes.  The pointer [&kmem_caches[i]] is represented by
    [i]; [NULL] is 0. *)
From S2P Require Import Prelude ListHead Memblock Buddy.

(** * Data *)

(* [src/include/slab.h:17-17 NR_OBJECTS] *)
Definition NR_OBJECTS : Z := 9.
(* [src/include/slab.h:18-18 OBJECT_SIZE] *)
Definition OBJECT_SIZE (n : Z) : Z := Z.shiftl 1 (n + 3).

(** [nr_partial] is the counter of the cache's node; the head of its list is the
    node [HPartial i]. *)
(* [src/include/slab.h:21-35 kmem_cache] *)
Record kmem_cache := KmemCache {
  csize : Z;
  object_size : Z;
  offset : Z;
  nr_partial : Z
}.

Record slab_state := SlabState {
  zone_of : mm;
  kmem_caches : list kmem_cache;
  words : gmap Z Z
}.

Definition on_mm {A} (m : M mm A) : M slab_state A :=
  fun s => match m (zone_of s) with
           | Ok (a, z) => Ok (a, SlabState z (kmem_caches s) (words s))
           | Err f => Err f
           end.

Definition cache_at (i : Z) : M slab_state kmem_cache :=
  fun s => match (kmem_caches s).[i] with Some c => Ok (c, s) | None => Err OutOfBounds end.

Definition set_cache (i : Z) (c : kmem_cache) : M slab_state unit :=
  fun s => match (kmem_caches s).[i := c] with
           | Some l => Ok (tt, SlabState (zone_of s) l (words s))
           | None => Err OutOfBounds
           end.

Definition load (a : Z) : M slab_state Z := fun s => Ok (default 0 (words s !! a), s).

Definition store (a v : Z) : M slab_state unit :=
  fun s => Ok (tt, SlabState (zone_of s) (kmem_caches s) (<[a := v]> (words s))).

(** * Initialisation *)

(* [src/src/slab.c:9-13 kmem_cache_node_init] *)
Definition kmem_cache_node_init (i : Z) (c : kmem_cache) : M slab_state kmem_cache :=
  _ ← on_mm (on_nodes (INIT_LIST_HEAD (HPartial i)));
  mret (KmemCache (csize c) (object_size c) (offset c) 0).

(* [src/src/slab.c:16-20 calculate_size] *)
Definition calculate_size (obj_size : Z) : Z := u32 (ALIGN obj_size 8).

(* [src/src/slab.c:22-28 kmem_cache_init] *)
Definition kmem_cache_init (i obj_size : Z) : M slab_state unit :=
  c ← cache_at i;
  c ← kmem_cache_node_init i (KmemCache (calculate_size obj_size) obj_size 0 (nr_partial c));
  set_cache i c.

(* [src/src/slab.c:31-35 kmem_caches_init] *)
Fixpoint kmem_caches_init (n : nat) (i : Z) : M slab_state unit :=
  match n with
  | O => mret tt
  | S n => _ ← kmem_cache_init i (OBJECT_SIZE i); kmem_caches_init n (i + 1)
  end.

(* [src/src/slab.c:161-164 slab_init] *)
Definition slab_init : M slab_state unit := kmem_caches_init (Z.to_nat NR_OBJECTS) 0.

(** * Addresses *)

(* [src/include/mm.h:172-172 pfn_to_phys] *)
Definition pfn_to_phys (pfn : Z) : Z := u64 (Z.shiftl pfn PAGE_SHIFT).
(* [src/include/mm.h:173-173 phys_to_pfn] *)
Definition phys_to_pfn (phys : Z) : Z := Z.shiftr phys PAGE_SHIFT.

(** The virtual address of the page, whatever the comment in the source says. *)
(* [src/src/slab.c:38-41 slab_address] *)
Definition slab_address (slab : Z) : Z := phys_to_virt (pfn_to_phys slab).

(* [src/src/slab.c:44-48 setup_object] *)
Definition setup_object (cache object : Z) : Z := object.

(* [src/src/slab.c:51-55 set_freepointer] *)
Definition set_freepointer (cache object fp : Z) : M slab_state unit :=
  c ← cache_at cache;
  store (object + offset c) fp.

(** * Allocation *)

(** Threading [n] objects from [p] on; the last one is returned. *)
(* [src/src/slab.c:88-94 allocate_slab] *)
Fixpoint thread_objects (n : nat) (cache size p : Z) : M slab_state Z :=
  match n with
  | O => mret p
  | S n =>
    let next := setup_object cache (p + size) in
    _ ← set_freepointer cache p next;
    thread_objects n cache size next
  end.

(* [src/src/slab.c:58-98 allocate_slab] *)
Definition allocate_slab (cache : Z) : M slab_state (option Z) :=
  slab ← on_mm (__alloc_pages 0);
  match slab with
  | None => mret None
  | Some slab =>
    _ ← on_mm (upd_page slab (with_flags PG_slab));
    _ ← on_mm (on_nodes (INIT_LIST_HEAD (HPage slab)));
    _ ← on_mm (on_nodes (list_add (HPage slab) (HPartial cache)));
    _ ← on_mm (upd_page slab (with_private cache));
    let start := setup_object cache (slab_address slab) in
    _ ← on_mm (upd_page slab (with_freelist start));
    c ← cache_at cache;
    let nr_objects := PAGE_SIZE / csize c in
    p ← thread_objects (Z.to_nat (nr_objects - 1)) cache (csize c) start;
    _ ← set_freepointer cache p 0;
    mret (Some slab)
  end.

(** [list_for_each_entry] over the partial list from [pos] on: the first slab
    with a free object.  The fuel is the number of pages and one. *)
(* [src/src/slab.c:106-112 __get_object] *)
Fixpoint find_slab (n : nat) (cache : Z) (pos : option lnode) : M slab_state (option Z) :=
  if decide (pos = Some (HPartial cache)) then mret None else
  match n with
  | O => fail NoFuel
  | S n =>
    match pos with
    | Some (HPage p) =>
      pg ← on_mm (page_at p);
      if negb (freelist pg =? 0) then mret (Some p) else
      nx ← on_mm (fun z => match node_at (nodes z) pos with
                           | Ok v => Ok (next v, z) | Err f => Err f end);
      find_slab n cache nx
    | _ => fail OutOfBounds
    end
  end.

(** Unlinking the first free object of a slab. *)
(* [src/src/slab.c:118-120 __get_object] *)
Definition take_object (slab : Z) : M slab_state Z :=
  pg ← on_mm (page_at slab);
  let object := freelist pg in
  fp ← load (phys_to_virt object);
  _ ← on_mm (upd_page slab (with_freelist fp));
  mret object.

(* [src/src/slab.c:100-121 __get_object] *)
Definition __get_object (cache : Z) : M slab_state Z :=
  _ ← cache_at cache;
  first ← on_mm (fun z => match list_first_entry (nodes z) (HPartial cache) with
                          | Ok v => Ok (v, z) | Err f => Err f end);
  n ← gets (fun s => S (Z.to_nat (nr_pages (zone_of s))));
  slab ← find_slab n cache first;
  match slab with
  | Some slab => take_object slab
  | None =>
    slab ← allocate_slab cache;
    match slab with
    | None => mret 0
    | Some slab => take_object slab
    end
  end.

(** The index the size loop stops at: 9 when the size is above 2048. *)
(* [src/src/slab.c:130-132 get_object] *)
Fixpoint size_index (n : nat) (size idx : Z) : Z :=
  match n with
  | O => idx
  | S n => if size <=? OBJECT_SIZE idx then idx else size_index n size (idx + 1)
  end.

(* [src/src/slab.c:124-139 get_object] *)
Definition get_object (size : Z) : M slab_state Z :=
  __get_object (size_index (Z.to_nat NR_OBJECTS) (u32 size) 0).

(* [src/src/slab.c:141-158 free_object] *)
Definition free_object (object : Z) : M slab_state unit :=
  let slab := phys_to_pfn (virt_to_phys object) in
  pg ← on_mm (page_at slab);
  if negb (flags pg =? PG_slab) then mret tt else
  let cache := private pg in
  _ ← set_freepointer cache object (freelist pg);
  on_mm (upd_page slab (with_freelist object)).

(** * kmalloc and kfree *)

(** [while (size > PAGE_SIZE) { size >>= 1; order++; }] *)
(* [src/src/mm.c:354-357 kmalloc] *)
Fixpoint order_loop (n : nat) (size order : Z) : res Z :=
  if PAGE_SIZE <? size then
    match n with
    | O => Err NoFuel
    | S n => order_loop n (Z.shiftr size 1) (order + 1)
    end
  else Ok order.

(** The source does not test the page [__alloc_pages] returns: the frame number
    of [NULL] is [NullDeref] here. *)
(* [src/src/mm.c:348-363 kmalloc] *)
Definition kmalloc (size : Z) : M slab_state Z :=
  if PAGE_SIZE <=? size then
    order ← (fun s => match order_loop 64 size 0 with Ok o => Ok (o, s) | Err f => Err f end);
    page ← on_mm (__alloc_pages order);
    match page with
    | None => fail NullDeref
    | Some page => mret (phys_to_virt (pfn_to_phys page))
    end
  else
    o ← get_object size;
    mret (phys_to_virt o).

(* [src/src/mm.c:365-378 kfree] *)
Definition kfree (obj : Z) : M slab_state unit :=
  let page := phys_to_pfn (virt_to_phys obj) in
  order ← on_mm (buddy_order page);
  pg ← on_mm (page_at page);
  if flags pg =? PG_slab then free_object obj
  else on_mm (free_one_page page page (u32 order)).
