(* ===== verification/SlabInv.v ===== *)
(** The slab allocator hands out disjoint objects: every slab page is cut into
    slots, a slot is either on the page's free list or in use, and the free lists
    are chains through the free slots.  [slab_inv B P F s]: [B] is the partition
    of the buddy allocator below, [P i] the slab pages of cache [i] in the order
    of its partial list, [F p] the free objects of page [p] in order. *)
From S2P Require Import Prelude ListHead Memblock Buddy BuddyInv Slab.

(** * The ghost state *)

Definition slots (i : Z) : Z := 2 ^ (9 - i).
Definition slot_size (i : Z) : Z := 2 ^ (i + 3).
Definition slot (i p j : Z) : Z := slab_address p + j * slot_size i.
Definition is_slot (i p o : Z) : Prop := exists j, 0 <= j < slots i /\ o = slot i p j.

(** The chain of free pointers from [h] visits [fl] and ends in [NULL]. *)
Fixpoint chain (w : gmap Z Z) (fl : list Z) (h : Z) : Prop :=
  match fl with
  | [] => h = 0
  | o :: fl => h = o /\ chain w fl (default 0 (w !! o))
  end.

Definition slab_page (s : slab_state) (i p : Z) (fl : list Z) : Prop :=
  exists pg, mem_map (zone_of s) !! p = Some pg /\ flags pg = PG_slab /\ private pg = i /\
    chain (words s) fl (freelist pg) /\ NoDup fl /\ (forall o, o ∈ fl -> is_slot i p o).

Definition cache_ok (s : slab_state) (i : Z) : Prop :=
  exists c, (kmem_caches s).[i] = Some c /\ csize c = slot_size i /\ offset c = 0.

Record slab_inv (B : blocks) (P F : Z -> list Z) (s : slab_state) : Prop := {
  si_buddy : buddy_ok B (zone_of s);
  si_nr : nr_pages (zone_of s) <= 2 ^ 36;
  si_cache : forall i, 0 <= i < NR_OBJECTS -> cache_ok s i;
  si_list : forall i, 0 <= i < NR_OBJECTS -> dll (nodes (zone_of s)) (HPartial i) (HPage <$> P i);
  si_page : forall i p, 0 <= i < NR_OBJECTS -> p ∈ P i ->
    B !! p = Some (Used, 0) /\ slab_page s i p (F p);
  (** blocks in use that are not slabs keep the mark and the order [kfree] needs *)
  si_block : forall p k, B !! p = Some (Used, k) -> (forall i, 0 <= i < NR_OBJECTS -> p ∉ P i) ->
    exists pg, mem_map (zone_of s) !! p = Some pg /\ flags pg = PG_USED /\ private pg = k
}.

(** * Addresses *)

Lemma phys_to_virt_val x : 0 <= x < 2 ^ 48 -> phys_to_virt x = x + KERNEL_VADDR_BASE.
Proof.
  intros Hx. unfold phys_to_virt. change KERNEL_VADDR_BASE with (0xffff * 2 ^ 48).
  apply lor_shift; lia.
Qed.

Lemma virt_to_phys_val x : 0 <= x < 2 ^ 48 -> virt_to_phys (x + KERNEL_VADDR_BASE) = x.
Proof.
  intros Hx. unfold virt_to_phys.
  change (2 ^ 64 - 1 - KERNEL_VADDR_BASE) with (Z.ones 48). rewrite Z.land_ones by lia.
  change KERNEL_VADDR_BASE with (0xffff * 2 ^ 48). rewrite Z.mod_add by lia. by apply Z.mod_small.
Qed.

Lemma phys_to_virt_idem x : phys_to_virt (phys_to_virt x) = phys_to_virt x.
Proof. unfold phys_to_virt. by rewrite <-Z.lor_assoc, Z.lor_diag. Qed.

Lemma slab_address_val p : 0 <= p < 2 ^ 36 -> slab_address p = p * 4096 + KERNEL_VADDR_BASE.
Proof.
  intros Hp. unfold slab_address, pfn_to_phys. rewrite Z.shiftl_mul_pow2 by (unfold PAGE_SHIFT; lia).
  change (2 ^ PAGE_SHIFT) with 4096. rewrite u64_small by lia. apply phys_to_virt_val. lia.
Qed.

Lemma slots_size i : 0 <= i < NR_OBJECTS -> slots i * slot_size i = 4096 /\ 1 <= slots i /\ 8 <= slot_size i.
Proof.
  intros Hi. unfold slots, slot_size, NR_OBJECTS in *. split_and!.
  - rewrite <-Z.pow_add_r by lia. by replace (9 - i + (i + 3)) with 12 by lia.
  - pose proof (pow2_pos (9 - i)). lia.
  - change 8 with (2 ^ 3). apply Z.pow_le_mono_r; lia.
Qed.

(** A slot lies in its page. *)
Lemma slot_range i p o :
  0 <= i < NR_OBJECTS -> 0 <= p < 2 ^ 36 -> is_slot i p o ->
  0 <= o - KERNEL_VADDR_BASE - p * 4096 < 4096 /\
  o - KERNEL_VADDR_BASE - p * 4096 + slot_size i <= 4096.
Proof.
  intros Hi Hp (j & Hj & ->). unfold slot. rewrite slab_address_val by done.
  destruct (slots_size i Hi) as (E & _ & _). nia.
Qed.

Lemma slot_page i p o :
  0 <= i < NR_OBJECTS -> 0 <= p < 2 ^ 36 -> is_slot i p o ->
  phys_to_pfn (virt_to_phys o) = p /\ phys_to_virt o = o /\ o <> 0.
Proof.
  intros Hi Hp Hs. pose proof (slot_range i p o Hi Hp Hs) as [Hr _].
  set (x := o - KERNEL_VADDR_BASE). replace o with (x + KERNEL_VADDR_BASE) by lia.
  assert (Hx : 0 <= x < 2 ^ 48) by lia. split_and!.
  - rewrite virt_to_phys_val by done. unfold phys_to_pfn, PAGE_SHIFT.
    rewrite Z.shiftr_div_pow2 by lia. change (2 ^ 12) with 4096.
    symmetry. apply (Z.div_unique _ _ _ (x - p * 4096)); lia.
  - rewrite <-phys_to_virt_val by done. apply phys_to_virt_idem.
  - unfold KERNEL_VADDR_BASE. lia.
Qed.

(** Distinct slots do not overlap. *)
Lemma slots_apart i p j i' p' j' :
  0 <= i < NR_OBJECTS -> 0 <= i' < NR_OBJECTS -> 0 <= p < 2 ^ 36 -> 0 <= p' < 2 ^ 36 ->
  is_slot i p j -> is_slot i' p' j' -> (p = p' -> i = i') -> j < j' -> j + slot_size i <= j'.
Proof.
  intros Hi Hi' Hp Hp' Hs Hs' Hpi Hlt.
  destruct (decide (p = p')) as [->|Hne].
  - specialize (Hpi eq_refl) as ->. destruct Hs as (a & Ha & ->), Hs' as (b & Hb & ->).
    unfold slot in *. destruct (slots_size i' Hi') as (_ & _ & ?).
    assert (a + 1 <= b) by nia. nia.
  - pose proof (slot_range _ _ _ Hi Hp Hs). pose proof (slot_range _ _ _ Hi' Hp' Hs').
    destruct (slots_size i Hi) as (_ & _ & ?). lia.
Qed.

(** * Chains *)

Lemma chain_ext w w' fl : forall h,
  (forall o, o ∈ fl -> w' !! o = w !! o) -> chain w fl h -> chain w' fl h.
Proof.
  induction fl as [|o fl IH]; intros h Hw; cbn; [done|]. intros [-> Hc]. split; [done|].
  rewrite Hw by (apply elem_of_cons; by left). apply IH; [|done].
  intros o' Ho'. apply Hw, elem_of_cons. by right.
Qed.

(** * The buddy allocator does not mind its clients *)

(** A client writes to the page structure of a block it holds. *)
Lemma client_page_ok B z b o f pg :
  buddy_ok B z -> B !! b = Some (Used, o) -> mem_map z !! b = Some pg -> flags (f pg) <> PG_buddy ->
  exists z', upd_page b f z = Ok (tt, z') /\ buddy_ok B z' /\ nodes z' = nodes z /\
    nr_pages z' = nr_pages z /\ mem_map z' = <[b := f pg]> (mem_map z).
Proof.
  intros ([L [W P N H K Ls Ln Mg]] & Hnl & Hco) Hb Hpg Hf. unfold upd_page. rewrite Hpg.
  eexists. split; [done|]. split; [|done]. split; [|done]. exists L. split; cbn; try done.
  - intros p. rewrite <-P, lookup_insert_is_Some. destruct (decide (b = p)) as [<-|]; [|naive_solver].
    rewrite Hpg. naive_solver.
  - intros b' st' o' pg' Hb'. rewrite lookup_insert. case_decide; [|by eapply H].
    subst b'. rewrite Hb in Hb'. injection Hb' as <- <-. by intros [= <-].
  - intros p pg'. rewrite lookup_insert. case_decide; [|apply K]. by intros [= <-].
  - intros o' Ho'. by destruct (Ls o' Ho').
Qed.

(** A client links the pages it holds into its own lists. *)
Lemma client_nodes_ok B z h' xs :
  buddy_ok B z -> same_off (nodes z) h' xs -> dom h' = dom (nodes z) ->
  (forall y, y ∈ xs -> (exists i, y = HPartial i) \/
                       exists p o, y = HPage p /\ B !! p = Some (Used, o)) ->
  buddy_ok B (MM (nr_pages z) (mem_map z) h' (nr_free z) (managed_pages z)).
Proof.
  intros ([L [W P N H K Ls Ln Mg]] & Hnl & Hco) Hoff Hdom Hxs. split; [|done].
  exists L. split; cbn; try done.
  - intros p Hp. eapply dom_is_Some; [exact Hdom|by apply N].
  - intros o Ho. destruct (Ls o Ho) as [D E C]. split; cbn; [|done|done].
    eapply dll_frame; [exact Hoff| |done]. intros y Hy Hin.
    destruct (Hxs y Hin) as [[i ->]|(p & k & -> & Hp)].
    + apply elem_of_cons in Hy as [?|Hy]; [done|]. by apply list_elem_of_fmap in Hy as (? & ? & _).
    + apply elem_of_cons in Hy as [?|Hy]; [done|].
      apply list_elem_of_fmap in Hy as (q & [= <-] & Hq%E). congruence.
Qed.

Lemma dll_same (h h' : lheap lnode) hd xs :
  (forall y, y ∈ hd :: xs -> nxt h' y = nxt h y /\ prv h' y = prv h y) -> dll h hd xs -> dll h' hd xs.
Proof.
  intros Hs [Hnd Hseg]. split; [done|]. eapply seg_ext; [| |exact Hseg].
  - intros y Hy. by apply Hs.
  - intros y [Hy|Hy]%elem_of_app; apply Hs, elem_of_cons; [by right|].
    apply list_elem_of_singleton in Hy. by left.
Qed.

(** * Taking and returning objects *)

Lemma on_mm_ok {A} (m : M mm A) s a z :
  m (zone_of s) = Ok (a, z) -> on_mm m s = Ok (a, SlabState z (kmem_caches s) (words s)).
Proof. unfold on_mm. by intros ->. Qed.

Lemma page_at_ok z p pg : mem_map z !! p = Some pg -> page_at p z = Ok (pg, z).
Proof. unfold page_at. by intros ->. Qed.

Lemma slab_page_inv B P F s i p :
  slab_inv B P F s -> 0 <= i < NR_OBJECTS -> p ∈ P i ->
  0 <= p < 2 ^ 36 /\ B !! p = Some (Used, 0) /\ slab_page s i p (F p).
Proof.
  intros [Hb Hn _ _ Hp _] Hi Hin. destruct (Hp i p Hi Hin) as [HB Hsp]. split; [|done].
  destruct Hb as ([L Hinv] & _). destruct Hsp as (pg & Hpg & _).
  pose proof (proj1 (bi_pages _ _ _ Hinv p) ltac:(eauto)). lia.
Qed.

(** Slab pages of different caches are different pages. *)
Lemma slab_page_cache s i i' p fl fl' : slab_page s i p fl -> slab_page s i' p fl' -> i = i'.
Proof. intros (pg & Hp & _ & <- & _) (pg' & Hp' & _ & <- & _). congruence. Qed.

(** The invariant after the free list of page [p] has changed: its page structure
    and words that are not free objects of other pages. *)
Lemma slab_inv_relist B P F s i p l z w :
  slab_inv B P F s -> 0 <= i < NR_OBJECTS -> p ∈ P i ->
  buddy_ok B z -> nr_pages z = nr_pages (zone_of s) -> nodes z = nodes (zone_of s) ->
  (forall q, q <> p -> mem_map z !! q = mem_map (zone_of s) !! q) ->
  (forall q o i', q <> p -> 0 <= i' < NR_OBJECTS -> q ∈ P i' -> o ∈ F q -> w !! o = words s !! o) ->
  slab_page (SlabState z (kmem_caches s) w) i p l ->
  slab_inv B P (set_list F p l) (SlabState z (kmem_caches s) w).
Proof.
  intros Hinv Hi Hin Hb Hnr Hnd Hmm Hw Hsp. pose proof Hinv as [_ Hn Hc Hl Hp Hbk].
  split; cbn; try done.
  - by rewrite Hnr.
  - intros i' Hi'. rewrite Hnd. by apply Hl.
  - intros i' q Hi' Hq. destruct (Hp i' q Hi' Hq) as [HB Hsp']. split; [done|]. unfold set_list.
    destruct (Z.eqb_spec q p) as [->|Hne].
    + by rewrite (slab_page_cache _ _ _ _ _ _ Hsp' (proj2 (Hp i p Hi Hin))).
    + destruct Hsp' as (pg & Hpg & Hfl & Hpr & Hch & Hnd' & Hs). exists pg. cbn.
      rewrite Hmm by done. split_and!; try done. eapply chain_ext; [|exact Hch].
      intros o Ho. by eapply Hw.
  - intros q k Hq Hnq. rewrite Hmm; [by apply Hbk|]. intros ->. by apply (Hnq i).
Qed.

Lemma take_object_ok B P F s i p o l :
  slab_inv B P F s -> 0 <= i < NR_OBJECTS -> p ∈ P i -> F p = o :: l ->
  exists s', take_object p s = Ok (o, s') /\ slab_inv B P (set_list F p l) s'.
Proof.
  intros Hinv Hi Hin HF. destruct (slab_page_inv _ _ _ _ _ _ Hinv Hi Hin) as (Hpr & HB & Hsp).
  rewrite HF in Hsp. destruct Hsp as (pg & Hpg & Hfl & Hpv & [Hfo Hch] & Hnd & Hs).
  assert (Hso : is_slot i p o) by (apply Hs, elem_of_cons; by left).
  destruct (slot_page i p o Hi Hpr Hso) as (_ & Hv & _).
  unfold take_object. run (on_mm_ok _ s _ _ (page_at_ok _ _ _ Hpg)).
  unfold load at 1. unfold mbind at 1, M_bind at 1. cbn [words]. rewrite Hfo, Hv.
  set (fp := default 0 (words s !! o)) in *.
  destruct (client_page_ok B (zone_of s) p 0 (with_freelist fp) pg)
    as (z & Ez & Hbz & Hnz & Hrz & Hmz); try done; [apply Hinv|by cbn; rewrite Hfl|].
  assert (E : on_mm (upd_page p (with_freelist fp)) (SlabState (zone_of s) (kmem_caches s) (words s)) =
    Ok (tt, SlabState z (kmem_caches s) (words s))) by (by apply (on_mm_ok _ (SlabState _ _ _))).
  run E. eexists. split; [done|]. eapply slab_inv_relist; try done.
  - intros q Hq. rewrite Hmz. by rewrite lookup_insert_ne.
  - exists (with_freelist fp pg). cbn. rewrite Hmz, lookup_insert_eq.
    apply NoDup_cons in Hnd as [_ Hnd]. split_and!; try done.
    intros o' Ho'. apply Hs, elem_of_cons. by right.
Qed.

Lemma free_object_ok B P F s i p o :
  slab_inv B P F s -> 0 <= i < NR_OBJECTS -> p ∈ P i -> is_slot i p o -> o ∉ F p ->
  exists s', free_object o s = Ok (tt, s') /\ slab_inv B P (set_list F p (o :: F p)) s'.
Proof.
  intros Hinv Hi Hin Hso Hno. destruct (slab_page_inv _ _ _ _ _ _ Hinv Hi Hin) as (Hpr & HB & Hsp).
  destruct Hsp as (pg & Hpg & Hfl & Hpv & Hch & Hnd & Hs).
  destruct (slot_page i p o Hi Hpr Hso) as (Ep & Hv & Hnz).
  unfold free_object. rewrite Ep. run (on_mm_ok _ s _ _ (page_at_ok _ _ _ Hpg)).
  rewrite Hfl. cbn [negb Z.eqb]. rewrite Hpv.
  destruct (si_cache _ _ _ _ Hinv i Hi) as (c & Hc & _ & Hoff).
  set (w := <[o := freelist pg]> (words s)).
  assert (E1 : set_freepointer i o (freelist pg) (SlabState (zone_of s) (kmem_caches s) (words s)) =
    Ok (tt, SlabState (zone_of s) (kmem_caches s) w)).
  { unfold set_freepointer, cache_at, mbind, M_bind. cbn [kmem_caches]. rewrite Hc, Hoff.
    unfold store. by rewrite Z.add_0_r. }
  cbn. run E1.
  destruct (client_page_ok B (zone_of s) p 0 (with_freelist o) pg)
    as (z & Ez & Hbz & Hnz' & Hrz & Hmz); try done; [apply Hinv|by cbn; rewrite Hfl|].
  assert (E2 : on_mm (upd_page p (with_freelist o)) (SlabState (zone_of s) (kmem_caches s) w) =
    Ok (tt, SlabState z (kmem_caches s) w)) by (by apply (on_mm_ok _ (SlabState _ _ _))).
  rewrite E2. eexists. split; [done|]. eapply slab_inv_relist; try done.
  - intros q Hq. rewrite Hmz. by rewrite lookup_insert_ne.
  - intros q o' i' Hq Hi' Hqi Ho'. subst w. rewrite lookup_insert_ne; [done|]. intros <-.
    destruct (slab_page_inv _ _ _ _ _ _ Hinv Hi' Hqi) as (Hqr & _ & (pg' & _ & _ & _ & _ & _ & Hs')).
    destruct (slot_page i' q o Hi' Hqr (Hs' _ Ho')) as (Eq & _ & _). congruence.
  - exists (with_freelist o pg). cbn. rewrite Hmz, lookup_insert_eq. split_and!; try done.
    + cbn. subst w. rewrite lookup_insert_eq. cbn. eapply chain_ext; [|exact Hch].
      intros o' Ho'. rewrite lookup_insert_ne; [done|]. by intros <-.
    + by apply NoDup_cons.
    + intros o' [->|Ho']%elem_of_cons; [done|by apply Hs].
Qed.

(** * Looking for a slab *)

Lemma find_slab_ok B P F s i ps : forall n a,
  slab_inv B P F s -> 0 <= i < NR_OBJECTS ->
  seg (nodes (zone_of s)) a (HPage <$> ps) (HPartial i) -> (forall p, p ∈ ps -> p ∈ P i) ->
  (length ps <= n)%nat ->
  (find_slab n i (nxt (nodes (zone_of s)) a) s = Ok (None, s) /\ forall p, p ∈ ps -> F p = []) \/
  (exists p, find_slab n i (nxt (nodes (zone_of s)) a) s = Ok (Some p, s) /\ p ∈ ps /\ F p <> []).
Proof.
  induction ps as [|p ps IH]; intros n a Hinv Hi Hseg Hin Hn.
  { left. destruct Hseg as [-> _]. split; [|by intros p ?%elem_of_nil].
    destruct n; cbn; by rewrite decide_True. }
  destruct n as [|n]; [cbn in Hn; lia|].
  rewrite fmap_cons in Hseg. destruct Hseg as (-> & _ & Hseg).
  assert (Hp : p ∈ P i) by (apply Hin, elem_of_cons; by left).
  destruct (slab_page_inv _ _ _ _ _ _ Hinv Hi Hp) as (Hpr & _ & (pg & Hpg & _ & _ & Hch & _ & Hs)).
  assert (Hnx : exists v, nodes (zone_of s) !! HPage p = Some v /\ next v = nxt (nodes (zone_of s)) (HPage p)).
  { assert (Hy : exists y, nxt (nodes (zone_of s)) (HPage p) = Some y)
      by (destruct ps; destruct Hseg as [? _]; eauto).
    unfold nxt in *. destruct Hy as [y Hy].
    destruct (nodes (zone_of s) !! HPage p) as [v|]; [by eexists|done]. }
  destruct Hnx as (v & Hv & Hnext).
  destruct s as [z cs w]. cbn [find_slab]. rewrite decide_False by done.
  run (on_mm_ok _ (SlabState z cs w) _ _ (page_at_ok _ _ _ Hpg)). cbn [zone_of words kmem_caches] in *.
  destruct (F p) as [|o l] eqn:HF.
  - rewrite Hch. cbn [negb Z.eqb].
    assert (E2 : on_mm (fun z' => match node_at (nodes z') (Some (HPage p)) with
        | Ok v => Ok (next v, z') | Err f => Err f end) (SlabState z cs w) =
        Ok (nxt (nodes z) (HPage p), SlabState z cs w)).
    { unfold on_mm. cbn. rewrite Hv. cbn. by rewrite Hnext. }
    run E2. destruct (IH n (HPage p)) as [[E Hall]|(q & E & Hq & HFq)]; try done.
    + intros q Hq. apply Hin, elem_of_cons. by right.
    + cbn in Hn. lia.
    + left. split; [exact E|]. intros q [->|Hq]%elem_of_cons; [done|by apply Hall].
    + right. exists q. split; [exact E|]. split; [apply elem_of_cons; by right|done].
  - right. exists p. destruct Hch as [Hfo _].
    destruct (slot_page i p o Hi Hpr) as (_ & _ & Hnz); [apply Hs, elem_of_cons; by left|].
    rewrite Hfo, (proj2 (Z.eqb_neq o 0)) by done. cbn.
    split_and!; [done|apply elem_of_cons; by left|by rewrite HF].
Qed.

Lemma nodup_range_length (l : list Z) n :
  NoDup l -> (forall x, x ∈ l -> 0 <= x < n) -> (length l <= Z.to_nat n)%nat.
Proof.
  intros Hnd Hr. rewrite <-(length_seqZ 0 n). apply submseteq_length, NoDup_submseteq; [done|].
  intros x Hx. apply elem_of_seqZ. specialize (Hr x Hx). lia.
Qed.

Lemma partial_length B P F s i :
  slab_inv B P F s -> 0 <= i < NR_OBJECTS -> (length (P i) <= Z.to_nat (nr_pages (zone_of s)))%nat.
Proof.
  intros Hinv Hi. apply nodup_range_length.
  - destruct (si_list _ _ _ _ Hinv i Hi) as [Hnd _]. apply NoDup_cons in Hnd as [_ Hnd].
    by apply NoDup_fmap_1 in Hnd.
  - intros p Hp. destruct (slab_page_inv _ _ _ _ _ _ Hinv Hi Hp) as (_ & _ & (pg & Hpg & _)).
    destruct (si_buddy _ _ _ _ Hinv) as ([L Hb] & _). apply (bi_pages _ _ _ Hb). eauto.
Qed.

(** * A new slab *)

(** The [n + 1] objects from [p] on. *)
Fixpoint objs (n : nat) (p size : Z) : list Z :=
  match n with
  | O => [p]
  | S n => p :: objs n (p + size) size
  end.

Lemma elem_of_objs n size : forall p o,
  o ∈ objs n p size <-> exists j, 0 <= j <= Z.of_nat n /\ o = p + j * size.
Proof.
  induction n as [|n IH]; intros p o; cbn [objs].
  - rewrite list_elem_of_singleton. split; [intros ->; exists 0; lia|].
    intros (j & Hj & ->). assert (j = 0) as -> by lia. lia.
  - rewrite elem_of_cons, IH. split.
    + intros [->|(j & Hj & ->)]; [exists 0; lia|exists (j + 1); lia].
    + intros (j & Hj & ->). destruct (decide (j = 0)) as [->|]; [left; lia|right].
      exists (j - 1). lia.
Qed.

Lemma objs_NoDup n size : forall p, 0 < size -> NoDup (objs n p size).
Proof.
  induction n as [|n IH]; intros p Hs; cbn [objs]; [apply NoDup_singleton|].
  apply NoDup_cons. split; [|by apply IH]. rewrite elem_of_objs. intros (j & Hj & E). nia.
Qed.

Lemma thread_objects_ok z cs i c n : forall p w,
  cs.[i] = Some c -> offset c = 0 -> 0 < csize c ->
  exists w', (q ← thread_objects n i (csize c) p; set_freepointer i q 0) (SlabState z cs w) =
      Ok (tt, SlabState z cs w') /\
    chain w' (objs n p (csize c)) p /\
    (forall a, a ∉ objs n p (csize c) -> w' !! a = w !! a).
Proof.
  assert (Hset : forall a v w, cs.[i] = Some c -> offset c = 0 ->
    set_freepointer i a v (SlabState z cs w) = Ok (tt, SlabState z cs (<[a := v]> w))).
  { intros a v w Hc Ho. unfold set_freepointer, cache_at, mbind, M_bind. cbn [kmem_caches].
    rewrite Hc, Ho. unfold store. by rewrite Z.add_0_r. }
  induction n as [|n IH]; intros p w Hc Ho Hs; cbn [thread_objects objs].
  - exists (<[p := 0]> w). split; [by apply Hset|]. split.
    + cbn. by rewrite lookup_insert_eq.
    + intros a Ha. rewrite lookup_insert_ne; [done|]. intros <-. apply Ha. by left.
  - unfold setup_object. set (q := p + csize c).
    destruct (IH q (<[p := q]> w) Hc Ho Hs) as (w' & E & Hch & Hout). exists w'. split; [|split].
    + unfold mbind at 1, M_bind at 1. run (Hset p q w Hc Ho). exact E.
    + split; [done|]. rewrite Hout, lookup_insert_eq; [done|].
      rewrite elem_of_objs. intros (j & Hj & Ej). subst q. nia.
    + intros a Ha. rewrite elem_of_cons in Ha. rewrite Hout by tauto.
      apply lookup_insert_ne. intros <-. tauto.
Qed.

Lemma is_slot_objs i p o :
  0 <= i < NR_OBJECTS ->
  is_slot i p o <-> o ∈ objs (Z.to_nat (slots i - 1)) (slab_address p) (slot_size i).
Proof.
  intros Hi. destruct (slots_size i Hi) as (_ & ? & _). rewrite elem_of_objs. unfold is_slot, slot.
  split; intros (j & Hj & ->); exists j; lia.
Qed.

(** Linking a fresh page, in use and of order 0, at the front of cache [i]. *)
Lemma link_page_ok B z i p ps pg :
  buddy_ok B z -> B !! p = Some (Used, 0) -> mem_map z !! p = Some pg ->
  dll (nodes z) (HPartial i) (HPage <$> ps) -> p ∉ ps ->
  (forall q, q ∈ ps -> B !! q = Some (Used, 0)) ->
  exists h z', (_ ← on_nodes (INIT_LIST_HEAD (HPage p)); on_nodes (list_add (HPage p) (HPartial i))) z
      = Ok (tt, z') /\
    z' = MM (nr_pages z) (mem_map z) h (nr_free z) (managed_pages z) /\
    buddy_ok B z' /\ dll h (HPartial i) (HPage <$> (p :: ps)) /\
    same_off (nodes z) h (HPage p :: HPartial i :: (HPage <$> ps)).
Proof.
  intros Hb HB Hpg Hd Hnp Hps.
  assert (Hnode : is_Some (nodes z !! HPage p)).
  { destruct Hb as ([L Hi] & _). apply (bi_nodes _ _ _ Hi), (bi_pages _ _ _ Hi). eauto. }
  assert (Hnl : HPage p ∉ HPage <$> ps).
  { intros (q & [= <-] & Hq)%list_elem_of_fmap. done. }
  destruct (INIT_LIST_HEAD_ok (nodes z) (HPage p) Hnode) as (h1 & E1 & D1 & _ & O1).
  assert (Hd1 : dll h1 (HPartial i) (HPage <$> ps)).
  { eapply dll_frame; [exact O1| |exact Hd]. intros y Hy ->%list_elem_of_singleton.
    apply elem_of_cons in Hy as [?|?]; done. }
  destruct (list_add_ok h1 (HPartial i) (HPage <$> ps) (HPage p)) as (h2 & E2 & D2 & Hd2 & O2).
  { done. } { by eapply dom_is_Some. } { intros [?|?]%elem_of_cons; done. }
  assert (Hoff : same_off (nodes z) h2 (HPage p :: HPartial i :: (HPage <$> ps))).
  { intros y Hy. destruct (O2 y Hy) as [-> ->]. apply O1. rewrite list_elem_of_singleton.
    intros ->. apply Hy, elem_of_cons. by left. }
  exists h2. eexists. split.
  { unfold mbind, M_bind, on_nodes. rewrite E1. cbn [nodes]. by rewrite E2. }
  split; [done|]. split; [|done].
  apply (client_nodes_ok B z h2 _ Hb Hoff); [congruence|].
  intros y [->|[->|Hy]%elem_of_cons]%elem_of_cons; [right; by exists p, 0|left; by exists i|].
  apply list_elem_of_fmap in Hy as (q & -> & Hq). right. exists q, 0. auto.
Qed.

Definition page_fresh (B : blocks) (p : Z) : Prop := exists k, B !! p = Some (Free, k).

Lemma allocate_slab_ok B P F s i :
  slab_inv B P F s -> 0 <= i < NR_OBJECTS ->
  (allocate_slab i s = Ok (None, s) /\ forall b k, 0 <= k -> B !! b <> Some (Free, k)) \/
  (exists p B' s', allocate_slab i s = Ok (Some p, s') /\ page_fresh B p /\
     (forall c j, B' !! c = Some (Used, j) <-> B !! c = Some (Used, j) \/ (c = p /\ j = 0)) /\
     slab_inv B' (set_list P i (p :: P i))
       (set_list F p (objs (Z.to_nat (slots i - 1)) (slab_address p) (slot_size i))) s').
Proof.
  intros Hinv Hi. destruct s as [z cs w]. pose proof Hinv as [Hbz Hnr Hca Hls Hpg Hbk].
  cbn [zone_of words kmem_caches] in *. unfold allocate_slab.
  destruct (__alloc_pages_ok B z 0 Hbz ltac:(lia))
    as [(E & Hnone)|(p & k & B1 & z1 & E & Hpf & _ & _ & Hb1 & Hkp & _ & Hus & pg1 & Hp1 & Hf1 & _)].
  { left. unfold mbind, M_bind. rewrite (on_mm_ok _ (SlabState z cs w) _ _ E). done. }
  right. run (on_mm_ok _ (SlabState z cs w) _ _ E). cbn [kmem_caches words].
  assert (HB1 : B1 !! p = Some (Used, 0)) by (apply Hus; by right).
  assert (Hold : forall j q, 0 <= j < NR_OBJECTS -> q ∈ P j -> q <> p /\ B !! q = Some (Used, 0)).
  { intros j q Hj Hq. destruct (Hpg j q Hj Hq) as [HBq _]. split; [congruence|done]. }
  assert (Hdll1 : forall j, 0 <= j < NR_OBJECTS -> dll (nodes z1) (HPartial j) (HPage <$> P j)).
  { intros j Hj. eapply dll_same; [|by apply Hls]. intros y [->|Hy]%elem_of_cons.
    - apply (kp_partial _ _ _ _ _ Hkp).
    - apply list_elem_of_fmap in Hy as (q & -> & Hq). destruct (Hold j q Hj Hq).
      by eapply (kp_nodes _ _ _ _ _ Hkp). }
  destruct (client_page_ok B1 z1 p 0 (with_flags PG_slab) pg1)
    as (z2 & E2 & Hb2 & Hn2 & Hr2 & Hm2); [done..|].
  run (on_mm_ok _ (SlabState z1 cs w) _ _ E2). cbn [kmem_caches words].
  destruct (link_page_ok B1 z2 i p (P i) (with_flags PG_slab pg1))
    as (h & z3 & E3 & Ez3 & Hb3 & Hd3 & Ho3); [done|done|by rewrite Hm2, lookup_insert_eq| | |..].
  { rewrite Hn2. by apply Hdll1. }
  { intros Hin. by destruct (Hold i p Hi Hin). }
  { intros q Hq. apply Hus. left. by apply (Hold i). }
  unfold mbind at 1, M_bind at 1 in E3.
  destruct (on_nodes (INIT_LIST_HEAD (HPage p)) z2) as [[[] z2']|] eqn:E3a; [|done].
  run (on_mm_ok _ (SlabState z2 cs w) _ _ E3a). cbn [kmem_caches words].
  run (on_mm_ok _ (SlabState z2' cs w) _ _ E3). cbn [kmem_caches words].
  assert (Hm3 : mem_map z3 !! p = Some (with_flags PG_slab pg1))
    by (rewrite Ez3; cbn; by rewrite Hm2, lookup_insert_eq).
  destruct (client_page_ok B1 z3 p 0 (with_private i) _ Hb3 HB1 Hm3)
    as (z4 & E4 & Hb4 & Hn4 & Hr4 & Hm4); [done|].
  run (on_mm_ok _ (SlabState z3 cs w) _ _ E4). cbn [kmem_caches words].
  set (start := setup_object i (slab_address p)).
  destruct (client_page_ok B1 z4 p 0 (with_freelist start) (with_private i (with_flags PG_slab pg1)))
    as (z5 & E5 & Hb5 & Hn5 & Hr5 & Hm5); [done|done|by rewrite Hm4, lookup_insert_eq|done|].
  run (on_mm_ok _ (SlabState z4 cs w) _ _ E5). cbn [kmem_caches words].
  destruct (Hca i Hi) as (c & Hc & Hcs & Hco).
  assert (E6 : cache_at i (SlabState z5 cs w) = Ok (c, SlabState z5 cs w))
    by (unfold cache_at; cbn [kmem_caches] in *; by rewrite Hc).
  run E6. destruct (slots_size i Hi) as (Hss & Hs1 & Hs8).
  assert (Hdiv : PAGE_SIZE / csize c = slots i)
    by (rewrite Hcs; change PAGE_SIZE with 4096; rewrite <-Hss; apply Z.div_mul; lia).
  rewrite Hdiv.
  destruct (thread_objects_ok z5 cs i c (Z.to_nat (slots i - 1)) start w Hc Hco ltac:(lia))
    as (w' & E7 & Hch & Hw).
  unfold mbind at 1, M_bind at 1 in E7.
  destruct (thread_objects _ i (csize c) start _) as [[q s7]|] eqn:E7a; [|done].
  run E7a. run E7. exists p, B1. eexists. split; [done|]. split; [by exists k|]. split; [done|].
  rewrite Hcs in Hch, Hw. change start with (slab_address p) in *.
  assert (Hmq : forall q, q <> p -> mem_map z5 !! q = mem_map z1 !! q).
  { intros q' Hq'. rewrite Hm5, lookup_insert_ne, Hm4, lookup_insert_ne, Ez3 by done. cbn.
    by rewrite Hm2, lookup_insert_ne. }
  assert (Hpr : 0 <= p < 2 ^ 36).
  { destruct Hb1 as ([L1 Hi1] & _). pose proof (proj1 (bi_pages _ _ _ Hi1 p) ltac:(eauto)).
    rewrite (kp_nr _ _ _ _ _ Hkp) in *. lia. }
  split; cbn [zone_of kmem_caches words]; try done.
  - rewrite Hr5, Hr4, Ez3. cbn. by rewrite Hr2, (kp_nr _ _ _ _ _ Hkp).
  - intros j Hj. rewrite Hn5, Hn4, Ez3. cbn [nodes]. unfold set_list.
    destruct (Z.eqb_spec j i) as [->|Hne]; [done|].
    eapply dll_frame; [exact Ho3| |rewrite Hn2; by apply Hdll1].
    intros y Hy Hin. apply elem_of_cons in Hy as [->|Hy].
    + apply elem_of_cons in Hin as [?|[?|Hin]%elem_of_cons]; simplify_eq.
      by apply list_elem_of_fmap in Hin as (? & ? & _).
    + apply list_elem_of_fmap in Hy as (q' & -> & Hq').
      apply elem_of_cons in Hin as [[= ->]|[?|Hin]%elem_of_cons]; [|done|].
      * by destruct (Hold j p Hj Hq').
      * apply list_elem_of_fmap in Hin as (q2 & [= <-] & Hq2).
        destruct (Hpg j q' Hj Hq') as [_ Hsj]. destruct (Hpg i q' Hi Hq2) as [_ Hsi].
        by destruct Hne; eapply slab_page_cache.
  - intros j q' Hj Hq'. unfold set_list in *.
    destruct (Z.eqb_spec q' p) as [->|Hqp].
    + destruct (Z.eqb_spec j i) as [->|Hne]; [|by destruct (Hold j p Hj Hq')].
      split; [done|]. eexists. cbn. rewrite Hm5, lookup_insert_eq.
      split; [done|]. split_and!; try done; [apply objs_NoDup; lia|].
      intros o. by apply is_slot_objs.
    + assert (Hqj : q' ∈ P j).
      { destruct (Z.eqb_spec j i) as [->|]; [|done]. by apply elem_of_cons in Hq' as [?|?]. }
      destruct (Hpg j q' Hj Hqj) as [HBq (pg & Hpgq & Hfl & Hpv & Hcq & Hnd & Hsq)].
      split; [apply Hus; by left|]. exists pg. cbn in *. rewrite Hmq by done.
      rewrite (kp_pages _ _ _ _ _ Hkp q' 0) by done. split_and!; try done.
      eapply chain_ext; [|exact Hcq]. intros o Ho. apply Hw. intros Hin.
      apply is_slot_objs in Hin; [|done]. destruct (slot_page i p o Hi Hpr Hin) as (Ep & _).
      destruct (slab_page_inv _ _ _ _ _ _ Hinv Hj Hqj) as (Hqr & _).
      destruct (slot_page j q' o Hj Hqr (Hsq _ Ho)) as (Eq & _). congruence.
  - intros q' k' Hq' Hnq. unfold set_list in Hnq. assert (Hqp : q' <> p).
    { intros ->. apply (Hnq i Hi). rewrite Z.eqb_refl. apply elem_of_cons. by left. }
    apply Hus in Hq' as [Hq'|[? _]]; [|done].
    rewrite Hmq, (kp_pages _ _ _ _ _ Hkp q' k') by done. apply Hbk; [done|].
    intros j Hj Hin. apply (Hnq j Hj). destruct (Z.eqb_spec j i) as [->|]; [|done].
    apply elem_of_cons. by right.
Qed.

(** The slabs do not mind what happens to other blocks. *)
Lemma slab_inv_pages B P F s B' z b :
  slab_inv B P F s -> buddy_ok B' z -> kept B (zone_of s) B' z b ->
  (forall i, 0 <= i < NR_OBJECTS -> b ∉ P i) ->
  (forall c k, c <> b -> B !! c = Some (Used, k) <-> B' !! c = Some (Used, k)) ->
  (forall k, B' !! b = Some (Used, k) ->
     exists pg, mem_map z !! b = Some pg /\ flags pg = PG_USED /\ private pg = k) ->
  slab_inv B' P F (SlabState z (kmem_caches s) (words s)).
Proof.
  intros Hinv Hb Hkp Hnb Hus Hbb. pose proof Hinv as [_ Hnr Hca Hls Hpg Hbk].
  assert (Hne : forall i q, 0 <= i < NR_OBJECTS -> q ∈ P i -> q <> b).
  { intros i q Hi Hq ->. by apply (Hnb i). }
  split; cbn [zone_of kmem_caches words]; try done.
  - by rewrite (kp_nr _ _ _ _ _ Hkp).
  - intros i Hi. eapply dll_same; [|by apply Hls]. intros y [->|Hy]%elem_of_cons.
    + apply (kp_partial _ _ _ _ _ Hkp).
    + apply list_elem_of_fmap in Hy as (q & -> & Hq). destruct (Hpg i q Hi Hq).
      eapply (kp_nodes _ _ _ _ _ Hkp); [by eapply Hne|done].
  - intros i q Hi Hq. destruct (Hpg i q Hi Hq) as [HB (pg & Hpgq & Hrest)].
    pose proof (Hne i q Hi Hq) as Hqb. split; [by apply Hus|]. exists pg. cbn.
    rewrite (kp_pages _ _ _ _ _ Hkp q 0) by done. done.
  - intros q k Hq Hnq. destruct (decide (q = b)) as [->|Hqb]; [by apply Hbb|].
    apply Hus in Hq; [|done]. rewrite (kp_pages _ _ _ _ _ Hkp q k) by done. by apply Hbk.
Qed.
