(* ===== verification/SlabSpec.v ===== *)
(** What [kmalloc] and [kfree] promise, on the slab and the buddy allocator. *)
From S2P Require Import Prelude ListHead Memblock Buddy BuddyInv BuddyBoot Slab SlabInv.

(** * Objects in use *)

Definition inuse (P F : Z -> list Z) (i o : Z) : Prop :=
  exists p, p ∈ P i /\ is_slot i p o /\ o ∉ F p.

(** A page block that is not a slab. *)
Definition block_inuse (B : blocks) (P : Z -> list Z) (p k : Z) : Prop :=
  B !! p = Some (Used, k) /\ forall i, 0 <= i < NR_OBJECTS -> p ∉ P i.

(** The areas [a, a + len) that callers hold. *)
Definition held (B : blocks) (P F : Z -> list Z) (a len : Z) : Prop :=
  (exists i, 0 <= i < NR_OBJECTS /\ inuse P F i a /\ len = slot_size i) \/
  (exists p k, block_inuse B P p k /\ a = slab_address p /\ len = 4096 * 2 ^ k).

Lemma slot_unique B P F s i i' p p' o :
  slab_inv B P F s -> 0 <= i < NR_OBJECTS -> 0 <= i' < NR_OBJECTS -> p ∈ P i -> p' ∈ P i' ->
  is_slot i p o -> is_slot i' p' o -> p = p' /\ i = i'.
Proof.
  intros Hinv Hi Hi' Hp Hp' Hs Hs'.
  destruct (slab_page_inv _ _ _ _ _ _ Hinv Hi Hp) as (Hr & _ & Hsp).
  destruct (slab_page_inv _ _ _ _ _ _ Hinv Hi' Hp') as (Hr' & _ & Hsp').
  destruct (slot_page i p o Hi Hr Hs) as (E & _). destruct (slot_page i' p' o Hi' Hr' Hs') as (E' & _).
  assert (p = p') as <- by congruence. split; [done|]. by eapply slab_page_cache.
Qed.

(** Popping the free list of one page puts exactly that object in use. *)
Lemma inuse_pop B P F s i p o l :
  slab_inv B P F s -> 0 <= i < NR_OBJECTS -> p ∈ P i -> F p = o :: l ->
  (forall j, 0 <= j < NR_OBJECTS -> ~ inuse P F j o) /\
  forall j o', 0 <= j < NR_OBJECTS ->
    inuse P (set_list F p l) j o' <-> inuse P F j o' \/ (j = i /\ o' = o).
Proof.
  intros Hinv Hi Hp HF. destruct (slab_page_inv _ _ _ _ _ _ Hinv Hi Hp) as (_ & _ & Hsp).
  rewrite HF in Hsp. destruct Hsp as (_ & _ & _ & _ & _ & Hnd & Hs). apply NoDup_cons in Hnd as [Hno _].
  assert (Hso : is_slot i p o) by (apply Hs, elem_of_cons; by left). split.
  - intros j Hj (q & Hq & Hsq & Hnf). destruct (slot_unique _ _ _ _ _ _ _ _ _ Hinv Hi Hj Hp Hq Hso Hsq).
    subst. apply Hnf. rewrite HF. apply elem_of_cons. by left.
  - intros j o' Hj. unfold inuse, set_list. split.
    + intros (q & Hq & Hsq & Hnf). destruct (Z.eqb_spec q p) as [->|Hne]; [|left; by exists q].
      destruct (decide (o' = o)) as [->|Hne].
      * right. by destruct (slot_unique _ _ _ _ _ _ _ _ _ Hinv Hi Hj Hp Hq Hso Hsq).
      * left. exists p. rewrite HF, elem_of_cons. tauto.
    + intros [(q & Hq & Hsq & Hnf)|[-> ->]].
      * exists q. destruct (Z.eqb_spec q p) as [->|]; [|done]. rewrite HF, elem_of_cons in Hnf. tauto.
      * exists p. by rewrite Z.eqb_refl.
Qed.

(** Pushing does the converse. *)
Lemma inuse_push B P F s i p o :
  slab_inv B P F s -> 0 <= i < NR_OBJECTS -> p ∈ P i -> is_slot i p o -> o ∉ F p ->
  forall j o', 0 <= j < NR_OBJECTS ->
    inuse P (set_list F p (o :: F p)) j o' <-> inuse P F j o' /\ o' <> o.
Proof.
  intros Hinv Hi Hp Hso Hno j o' Hj. unfold inuse, set_list. split.
  - intros (q & Hq & Hsq & Hnf). destruct (Z.eqb_spec q p) as [->|Hne].
    + rewrite elem_of_cons in Hnf. split; [exists p|]; tauto.
    + split; [by exists q|]. intros ->.
      by destruct (slot_unique _ _ _ _ _ _ _ _ _ Hinv Hi Hj Hp Hq Hso Hsq).
  - intros [(q & Hq & Hsq & Hnf) Hne]. exists q. destruct (Z.eqb_spec q p) as [->|]; [|done].
    rewrite elem_of_cons. tauto.
Qed.

(** A fresh slab adds no object in use. *)
Lemma inuse_fresh B P F s i p :
  slab_inv B P F s -> 0 <= i < NR_OBJECTS -> page_fresh B p ->
  forall j o, 0 <= j < NR_OBJECTS ->
    inuse (set_list P i (p :: P i))
      (set_list F p (objs (Z.to_nat (slots i - 1)) (slab_address p) (slot_size i))) j o
    <-> inuse P F j o.
Proof.
  intros Hinv Hi [k Hk] j o Hj.
  assert (Hnp : forall j, 0 <= j < NR_OBJECTS -> p ∉ P j).
  { intros j' Hj' Hin. destruct (si_page _ _ _ _ Hinv j' p Hj' Hin). congruence. }
  unfold inuse, set_list. split.
  - intros (q & Hq & Hsq & Hnf). destruct (Z.eqb_spec q p) as [->|Hne].
    + destruct (Z.eqb_spec j i) as [->|]; [|by destruct (Hnp j)].
      apply is_slot_objs in Hsq; [done|done].
    + exists q. split; [|done]. destruct (Z.eqb_spec j i) as [->|]; [|done].
      by apply elem_of_cons in Hq as [?|?].
  - intros (q & Hq & Hsq & Hnf). exists q.
    destruct (Z.eqb_spec q p) as [->|Hne]; [by destruct (Hnp j)|]. split; [|done].
    destruct (Z.eqb_spec j i) as [->|]; [|done]. apply elem_of_cons. by right.
Qed.

Lemma block_inuse_fresh B P F s i p B' q k :
  slab_inv B P F s -> 0 <= i < NR_OBJECTS -> page_fresh B p ->
  (forall c j, B' !! c = Some (Used, j) <-> B !! c = Some (Used, j) \/ (c = p /\ j = 0)) ->
  block_inuse B' (set_list P i (p :: P i)) q k <-> block_inuse B P q k.
Proof.
  intros Hinv Hi [k' Hk'] Hus. unfold block_inuse, set_list. rewrite Hus. split.
  - intros [Hq Hnp]. pose proof (Hnp i Hi) as Hni. rewrite Z.eqb_refl, elem_of_cons in Hni.
    split; [destruct Hq as [?|[-> _]]; tauto|]. intros j Hj. specialize (Hnp j Hj).
    destruct (Z.eqb_spec j i) as [E|E]; [subst j; tauto|done].
  - intros [Hq Hnp]. split; [by left|]. intros j Hj. destruct (Z.eqb_spec j i) as [->|]; [|by apply Hnp].
    rewrite elem_of_cons. intros [->|?]; [congruence|by apply (Hnp i)].
Qed.

(** * [__get_object] *)

Definition no_memory (B : blocks) (P F : Z -> list Z) (i : Z) : Prop :=
  (forall p, p ∈ P i -> F p = []) /\ forall b k, 0 <= k -> B !! b <> Some (Free, k).

Lemma __get_object_ok B P F s i :
  slab_inv B P F s -> 0 <= i < NR_OBJECTS ->
  (__get_object i s = Ok (0, s) /\ no_memory B P F i) \/
  (exists o B' P' F' s', __get_object i s = Ok (o, s') /\ slab_inv B' P' F' s' /\
     (exists p, 0 <= p < 2 ^ 36 /\ is_slot i p o) /\
     (forall j, 0 <= j < NR_OBJECTS -> ~ inuse P F j o) /\
     (forall j o', 0 <= j < NR_OBJECTS ->
        inuse P' F' j o' <-> inuse P F j o' \/ (j = i /\ o' = o)) /\
     forall p k, block_inuse B' P' p k <-> block_inuse B P p k).
Proof.
  intros Hinv Hi. unfold __get_object.
  destruct (si_cache _ _ _ _ Hinv i Hi) as (c & Hc & _ & _).
  assert (E0 : cache_at i s = Ok (c, s)) by (unfold cache_at; by rewrite Hc).
  run E0. pose proof (si_list _ _ _ _ Hinv i Hi) as Hd.
  assert (E1 : on_mm (fun z => match list_first_entry (nodes z) (HPartial i) with
      | Ok v => Ok (v, z) | Err f => Err f end) s = Ok (nxt (nodes (zone_of s)) (HPartial i), s)).
  { unfold on_mm. rewrite (list_first_entry_ok _ _ _ Hd), (dll_next _ _ _ Hd). by destruct s. }
  run E1. run (gets_ok (fun s => S (Z.to_nat (nr_pages (zone_of s)))) s).
  assert (Hslot : forall p o B' P' F' s', slab_inv B' P' F' s' -> p ∈ P' i -> o ∈ F' p ->
            exists p, 0 <= p < 2 ^ 36 /\ is_slot i p o).
  { intros p o B' P' F' s' Hinv' Hp Ho. exists p.
    destruct (slab_page_inv _ _ _ _ _ _ Hinv' Hi Hp) as (? & _ & Hsp).
    destruct Hsp as (pg & _ & _ & _ & _ & _ & Hs). split; [done|by apply Hs]. }
  destruct (find_slab_ok B P F s i (P i) (S (Z.to_nat (nr_pages (zone_of s)))) (HPartial i))
    as [[E2 Hall]|(p & E2 & Hp & HF)]; try done; [apply Hd| | |].
  { pose proof (partial_length _ _ _ _ _ Hinv Hi). lia. }
  - run E2. destruct (allocate_slab_ok B P F s i Hinv Hi) as [[E3 Hno]|(p & B' & s' & E3 & Hf & Hus & Hinv')].
    { run E3. left. split; [done|]. by split. }
    run E3. right. pose proof (inuse_fresh _ _ _ _ _ _ Hinv Hi Hf) as Hsame.
    set (P' := set_list P i (p :: P i)) in *.
    set (F' := set_list F p _) in *.
    assert (Hp : p ∈ P' i) by (subst P'; unfold set_list; rewrite Z.eqb_refl; apply elem_of_cons; by left).
    assert (HF : exists o l, F' p = o :: l)
      by (subst F'; unfold set_list; rewrite Z.eqb_refl; destruct (Z.to_nat (slots i - 1)); cbn; eauto).
    destruct HF as (o & l & HF).
    destruct (take_object_ok B' P' F' s' i p o l Hinv' Hi Hp HF) as (s2 & E4 & Hinv2).
    destruct (inuse_pop _ _ _ _ _ _ _ _ Hinv' Hi Hp HF) as [Hfresh Hin].
    exists o, B', P', (set_list F' p l), s2. split; [exact E4|]. split; [done|]. split_and!.
    + apply (Hslot p o B' P' F' s'); [done|done|]. rewrite HF. apply elem_of_cons. by left.
    + intros j Hj. rewrite <-Hsame by done. by apply Hfresh.
    + intros j o' Hj. rewrite Hin, Hsame by done. done.
    + intros q k. by eapply block_inuse_fresh.
  - run E2. right. destruct (F p) as [|o l] eqn:EF; [done|].
    destruct (take_object_ok B P F s i p o l Hinv Hi Hp EF) as (s2 & E4 & Hinv2).
    destruct (inuse_pop _ _ _ _ _ _ _ _ Hinv Hi Hp EF) as [Hfresh Hin].
    exists o, B, P, (set_list F p l), s2. split; [exact E4|]. split_and!; try done.
    apply (Hslot p o B P F s); [done|done|]. rewrite EF. apply elem_of_cons. by left.
Qed.

(** * Sizes *)

Lemma OBJECT_SIZE_val n : 0 <= n -> OBJECT_SIZE n = slot_size n.
Proof. intros Hn. unfold OBJECT_SIZE, slot_size. rewrite Z.shiftl_mul_pow2 by lia. lia. Qed.

Lemma size_index_ok n size : forall i,
  0 <= i -> let r := size_index n size i in
  i <= r <= i + Z.of_nat n /\ (r < i + Z.of_nat n -> size <= slot_size r) /\
  (forall k, i <= k < r -> slot_size k < size).
Proof.
  induction n as [|n IH]; intros i Hi; cbn [size_index]; cbv zeta; [split_and!; intros; lia|].
  rewrite OBJECT_SIZE_val by done. destruct (Z.leb_spec size (slot_size i)); [split_and!; intros; lia|].
  destruct (IH (i + 1) ltac:(lia)) as (? & ? & Hlt). split_and!; try lia.
  intros k Hk. destruct (decide (k = i)) as [->|]; [done|]. apply Hlt. lia.
Qed.

(** The cache chosen for a size up to 2048: the smallest slot that holds it. *)
Lemma cache_for size :
  0 <= size <= 2048 -> let i := size_index (Z.to_nat NR_OBJECTS) (u32 size) 0 in
  0 <= i < NR_OBJECTS /\ size <= slot_size i /\ forall k, 0 <= k < i -> slot_size k < size.
Proof.
  intros Hs i. destruct (size_index_ok (Z.to_nat NR_OBJECTS) (u32 size) 0) as (Hr & Hle & Hlt); [lia|].
  fold i in Hr, Hle, Hlt. rewrite u32_small in Hle, Hlt by lia. unfold NR_OBJECTS in *.
  assert (Hi : i < 9).
  { destruct (Z.lt_ge_cases i 9) as [|Hge]; [done|]. specialize (Hlt 8 ltac:(lia)).
    change (slot_size 8) with 2048 in Hlt. lia. }
  split_and!; try lia. intros k Hk. apply Hlt. lia.
Qed.

(** The loop of [kmalloc] halves until at most a page is left. *)
Lemma order_loop_ok n : forall size order,
  0 <= size < 2 ^ Z.of_nat n * (PAGE_SIZE + 1) -> 0 <= order ->
  exists k, order_loop n size order = Ok (order + k) /\ 0 <= k <= Z.of_nat n /\
    size < 2 ^ k * (PAGE_SIZE + 1) /\ (0 < k -> 2 ^ (k - 1) * (PAGE_SIZE + 1) <= size).
Proof.
  change PAGE_SIZE with 4096. induction n as [|n IH]; intros size order Hs Ho; cbn [order_loop];
    change PAGE_SIZE with 4096; destruct (Z.ltb_spec 4096 size).
  - change (2 ^ Z.of_nat 0) with 1 in Hs. lia.
  - exists 0. rewrite Z.add_0_r. split_and!; (done || lia).
  - rewrite Nat2Z.inj_succ, Z.pow_succ_r in Hs by lia. rewrite Z.shiftr_div_pow2 by lia.
    change (2 ^ 1) with 2. pose proof (Z.div_mod size 2 ltac:(lia)). pose proof (Z.mod_pos_bound size 2).
    destruct (IH (size / 2) (order + 1)) as (k & E & Hk & Hlt & Hge); [lia|lia|].
    exists (k + 1). rewrite E. split_and!; try lia; [f_equal; lia| |].
    + rewrite Z.pow_add_r by lia. lia.
    + intros _. replace (k + 1 - 1) with k by lia. destruct (decide (k = 0)) as [->|]; [lia|].
      replace k with (k - 1 + 1) by lia. rewrite Z.pow_add_r by lia. lia.
  - exists 0. rewrite Z.add_0_r. split_and!; (done || lia).
Qed.

(** * Areas do not overlap *)

Lemma block_range B P F s p k :
  slab_inv B P F s -> B !! p = Some (Used, k) ->
  0 <= p < 2 ^ 36 /\ 0 < 2 ^ k /\ slab_address p = p * 4096 + KERNEL_VADDR_BASE.
Proof.
  intros Hinv Hp. destruct (si_buddy _ _ _ _ Hinv) as ([L Hb] & _).
  pose proof (wb_in _ _ (bi_wf _ _ _ Hb) _ _ _ Hp) as Hin. pose proof (blk_size _ _ _ Hin).
  pose proof (si_nr _ _ _ _ Hinv). destruct Hin as (? & ? & ? & _).
  assert (0 <= p < 2 ^ 36) by lia. split_and!; try lia. by apply slab_address_val.
Qed.

(** An area lies in the pages of one block in use. *)
Lemma held_in_block B P F s a len :
  slab_inv B P F s -> held B P F a len -> exists p k, B !! p = Some (Used, k) /\
    p * 4096 <= a - KERNEL_VADDR_BASE /\ a + len - KERNEL_VADDR_BASE <= (p + 2 ^ k) * 4096 /\
    0 < len /\ (forall a' len', held B P F a' len' -> p * 4096 <= a' - KERNEL_VADDR_BASE < (p + 2 ^ k) * 4096 ->
                a < a' -> a + len <= a').
Proof.
  intros Hinv Ha.
  assert (Hsame : forall p k p' k' x, B !! p = Some (Used, k) -> B !! p' = Some (Used, k') ->
     p * 4096 <= x < (p + 2 ^ k) * 4096 -> p' * 4096 <= x < (p' + 2 ^ k') * 4096 -> p = p').
  { intros p k p' k' x Hp Hp' Hx Hx'. destruct (si_buddy _ _ _ _ Hinv) as ([L Hb] & _).
    pose proof (wb_disj _ _ (bi_wf _ _ _ Hb)) as Wd.
    destruct (Z.lt_trichotomy p p') as [Hlt|[->|Hlt]]; [|done|].
    - pose proof (Wd _ _ _ _ _ _ Hp Hp' Hlt). lia.
    - pose proof (Wd _ _ _ _ _ _ Hp' Hp Hlt). lia. }
  destruct Ha as [(i & Hi & (p & Hp & Hs & Hn) & ->)|(p & k & [Hp Hnp] & -> & ->)].
  - destruct (slab_page_inv _ _ _ _ _ _ Hinv Hi Hp) as (Hr & HB & Hsp).
    destruct (slot_range i p a Hi Hr Hs) as [? ?]. destruct (slots_size i Hi) as (_ & _ & ?).
    exists p, 0. change (2 ^ 0) with 1. split_and!; try done; try lia.
    intros a' len' Ha' Hx Hlt.
    destruct Ha' as [(i' & Hi' & (p' & Hp' & Hs' & _) & ->)|(p' & k' & [HB' Hnp'] & -> & ->)].
    + destruct (slab_page_inv _ _ _ _ _ _ Hinv Hi' Hp') as (Hr' & HB' & Hsp').
      eapply (slots_apart i p a i' p' a'); try done. intros <-. by eapply slab_page_cache.
    + destruct (block_range _ _ _ _ _ _ Hinv HB') as (? & ? & Ea). rewrite Ea in *.
      exfalso. apply (Hnp' i Hi). enough (p = p') as <- by done.
      eapply (Hsame p 0 p' k' (p' * 4096)); try done; change (2 ^ 0) with 1; lia.
  - destruct (block_range _ _ _ _ _ _ Hinv Hp) as (? & ? & Ea). rewrite Ea.
    exists p, k. split_and!; try done; try lia. intros a' len' Ha' Hx Hlt. exfalso.
    destruct Ha' as [(i' & Hi' & (p' & Hp' & Hs' & _) & ->)|(p' & k' & [HB' Hnp'] & -> & ->)].
    + destruct (slab_page_inv _ _ _ _ _ _ Hinv Hi' Hp') as (Hr' & HB' & _).
      destruct (slot_range i' p' a' Hi' Hr' Hs') as [? _].
      apply (Hnp i' Hi'). enough (p = p') as -> by done.
      eapply (Hsame p k p' 0 (a' - KERNEL_VADDR_BASE)); try done; change (2 ^ 0) with 1; lia.
    + destruct (block_range _ _ _ _ _ _ Hinv HB') as (? & ? & Ea'). rewrite Ea' in *.
      assert (p = p') by (eapply (Hsame p k p' k' (p' * 4096)); try done; lia). subst. lia.
Qed.

Lemma held_apart_lt B P F s a len a' len' :
  slab_inv B P F s -> held B P F a len -> held B P F a' len' -> a < a' -> a + len <= a'.
Proof.
  intros Hinv Ha Ha' Hlt.
  destruct (held_in_block _ _ _ _ _ _ Hinv Ha) as (p & k & Hp & Hlo & Hhi & Hpos & Hap).
  destruct (Z.lt_ge_cases (a' - KERNEL_VADDR_BASE) ((p + 2 ^ k) * 4096)); [|lia].
  eapply Hap; [done|lia|done].
Qed.

(** * kmalloc and kfree *)

Lemma held_alloc B P F s B' b k :
  slab_inv B P F s -> (forall c j, B' !! c = Some (Used, j) <-> B !! c = Some (Used, j) \/ (c = b /\ j = k)) ->
  (exists j, B !! b = Some (Free, j)) -> forall a len,
  held B' P F a len <-> held B P F a len \/ (a = slab_address b /\ len = 4096 * 2 ^ k).
Proof.
  intros Hinv Hus [j Hb] a len. assert (Hnb : forall i, 0 <= i < NR_OBJECTS -> b ∉ P i).
  { intros i Hi Hin. destruct (si_page _ _ _ _ Hinv i b Hi Hin). congruence. }
  unfold held, block_inuse. setoid_rewrite Hus. split.
  - intros [?|(p & k' & [[Hp|[-> ->]] Hn] & -> & ->)]; [by left; left|left; right|by right].
    by exists p, k'.
  - intros [[?|(p & k' & [Hp Hn] & -> & ->)]|[-> ->]]; [by left|right|right].
    + exists p, k'. split_and!; try done. by left.
    + exists b, k. split_and!; try done. by right.
Qed.

Lemma slab_address_page p : 0 <= p < 2 ^ 36 -> phys_to_pfn (virt_to_phys (slab_address p)) = p.
Proof.
  intros Hp. rewrite slab_address_val, virt_to_phys_val by lia. unfold phys_to_pfn, PAGE_SHIFT.
  rewrite Z.shiftr_div_pow2 by lia. change (2 ^ 12) with 4096. by rewrite Z.div_mul.
Qed.

Lemma buddy_order_ok z p pg : mem_map z !! p = Some pg -> buddy_order p z = Ok (private pg, z).
Proof. intros Hp. unfold buddy_order. by run (page_at_ok z p pg Hp). Qed.

(** A large request is a block of pages, which is no slab. *)
Lemma kmalloc_pages_ok B P F s size k :
  slab_inv B P F s -> PAGE_SIZE <= size -> order_loop 64 size 0 = Ok k -> 0 <= k ->
  (kmalloc size s = Err NullDeref /\ forall b j, k <= j -> B !! b <> Some (Free, j)) \/
  (exists b B' s', kmalloc size s = Ok (slab_address b, s') /\ words s' = words s /\ slab_inv B' P F s' /\
     nr_pages (zone_of s') = nr_pages (zone_of s) /\ (forall i, 0 <= i < NR_OBJECTS -> b ∉ P i) /\
     (forall x, avail B x <-> avail B' x \/ b <= x < b + 2 ^ k) /\ (exists j, B !! b = Some (Free, j)) /\
     (forall c j, B' !! c = Some (Used, j) <-> B !! c = Some (Used, j) \/ (c = b /\ j = k))).
Proof.
  intros Hinv Hsz Hk Hk0. unfold kmalloc. rewrite (proj2 (Z.leb_le PAGE_SIZE size)) by done.
  unfold mbind at 1 3, M_bind at 1 3. rewrite Hk.
  destruct (__alloc_pages_ok B (zone_of s) k (si_buddy _ _ _ _ Hinv) Hk0)
    as [(E & Hno)|(b & j & B' & z & E & Hb & Hkj & _ & Hok & Hkp & Hav & Hus & Hpg)].
  { left. unfold mbind, M_bind. rewrite (on_mm_ok _ s _ _ E). done. }
  right. assert (Hnb : forall i, 0 <= i < NR_OBJECTS -> b ∉ P i).
  { intros i Hi Hin. destruct (si_page _ _ _ _ Hinv i b Hi Hin). congruence. }
  exists b, B', (SlabState z (kmem_caches s) (words s)). split_and!; try done.
  - run (on_mm_ok _ s _ _ E). done.
  - eapply slab_inv_pages; try done.
    + intros c k' Hc. rewrite Hus. split; [by left|]. by intros [?|[? _]].
    + intros k' [Hb'|[_ ->]]%Hus; [congruence|]. by destruct Hpg as (pg & ? & ? & ?); exists pg.
  - apply (kp_nr _ _ _ _ _ Hkp).
  - by exists j.
Qed.

(** [kfree] of such a block. *)
Lemma kfree_pages_ok B P F s b k :
  slab_inv B P F s -> B !! b = Some (Used, k) -> (forall i, 0 <= i < NR_OBJECTS -> b ∉ P i) ->
  exists B' s', kfree (slab_address b) s = Ok (tt, s') /\ slab_inv B' P F s' /\
    nr_pages (zone_of s') = nr_pages (zone_of s) /\
    (forall x, avail B' x <-> avail B x \/ b <= x < b + 2 ^ k) /\
    (forall c j, B' !! c = Some (Used, j) <-> B !! c = Some (Used, j) /\ c <> b).
Proof.
  intros Hinv Hb Hnb. destruct (block_range _ _ _ _ _ _ Hinv Hb) as (Hr & _).
  destruct (si_block _ _ _ _ Hinv b k Hb Hnb) as (pg & Hpg & Hfl & Hpr).
  destruct (free_one_page_ok B (zone_of s) b k pg (si_buddy _ _ _ _ Hinv) Hb Hpg Hfl)
    as (B' & z' & E & Hok & Hkp & Hav & Hus).
  exists B', (SlabState z' (kmem_caches s) (words s)). split_and!; try done.
  - unfold kfree. rewrite slab_address_page by done. destruct s as [z cs w]. cbn [zone_of] in *.
    run (on_mm_ok _ (SlabState z cs w) _ _ (buddy_order_ok z b pg Hpg)).
    run (on_mm_ok _ (SlabState z cs w) _ _ (page_at_ok z b pg Hpg)). rewrite Hfl.
    destruct (si_buddy _ _ _ _ Hinv) as ([L Hi] & _).
    destruct (wb_in _ _ (bi_wf _ _ _ Hi) _ _ _ Hb) as (Hk & _). unfold MAX_ORDER in Hk.
    rewrite Hpr. cbn [Z.eqb]. rewrite u32_small by lia. by apply (on_mm_ok _ (SlabState z cs w)).
  - eapply slab_inv_pages; try done.
    + intros c j Hc. rewrite Hus. tauto.
    + intros j [_ ?]%Hus. done.
  - apply (kp_nr _ _ _ _ _ Hkp).
Qed.

Lemma kmalloc_large_ok B P F s size k :
  slab_inv B P F s -> PAGE_SIZE <= size -> order_loop 64 size 0 = Ok k -> 0 <= k ->
  (kmalloc size s = Err NullDeref /\ forall b j, k <= j -> B !! b <> Some (Free, j)) \/
  (exists a B' s', kmalloc size s = Ok (a, s') /\ words s' = words s /\ slab_inv B' P F s' /\
     (forall l, ~ held B P F a l) /\
     forall x l, held B' P F x l <-> held B P F x l \/ (x = a /\ l = 4096 * 2 ^ k)).
Proof.
  intros Hinv Hsz Hk Hk0. destruct (kmalloc_pages_ok B P F s size k Hinv Hsz Hk Hk0)
    as [?|(b & B' & s' & E & Hw & Hinv' & _ & Hnb & _ & (j & Hb) & Hus)]; [by left|right].
  exists (slab_address b), B', s'. split_and!; try done.
  - intros l Hl. destruct (held_in_block _ _ _ _ _ _ Hinv Hl) as (p & k' & Hp & Hlo & Hhi & Hl0 & _).
    assert (Hb' : B' !! b = Some (Used, k)) by (apply Hus; by right).
    assert (Hp' : B' !! p = Some (Used, k')) by (apply Hus; by left).
    destruct (block_range _ _ _ _ _ _ Hinv' Hb') as (_ & Hk2 & Ea). rewrite Ea in *.
    destruct (si_buddy _ _ _ _ Hinv') as ([L' Hi'] & _). pose proof (wb_disj _ _ (bi_wf _ _ _ Hi')) as Wd.
    destruct (Z.lt_trichotomy p b) as [Hlt|[->|Hlt]]; [|congruence|lia].
    pose proof (Wd _ _ _ _ _ _ Hp' Hb' Hlt). lia.
  - intros x l. eapply held_alloc; eauto.
Qed.

(** A slot and a block that is not a slab have different addresses. *)
Lemma slot_not_block B P F s i a q k :
  slab_inv B P F s -> 0 <= i < NR_OBJECTS -> inuse P F i a -> block_inuse B P q k -> a <> slab_address q.
Proof.
  intros Hinv Hi (p & Hp & Hs & _) [Hq Hnq] ->.
  destruct (slab_page_inv _ _ _ _ _ _ Hinv Hi Hp) as (Hr & _).
  destruct (block_range _ _ _ _ _ _ Hinv Hq) as (Hr' & _).
  destruct (slot_page i p _ Hi Hr Hs) as (E & _). rewrite slab_address_page in E by done. subst.
  by apply (Hnq i).
Qed.

Lemma inuse_cache B P F s i j a :
  slab_inv B P F s -> 0 <= i < NR_OBJECTS -> 0 <= j < NR_OBJECTS -> inuse P F i a -> inuse P F j a -> i = j.
Proof.
  intros Hinv Hi Hj (p & Hp & Hs & _) (q & Hq & Hs' & _).
  by destruct (slot_unique _ _ _ _ _ _ _ _ _ Hinv Hi Hj Hp Hq Hs Hs').
Qed.

Lemma kmalloc_small_ok B P F s size :
  slab_inv B P F s -> 0 <= size <= 2048 ->
  let i := size_index (Z.to_nat NR_OBJECTS) (u32 size) 0 in
  (kmalloc size s = Ok (KERNEL_VADDR_BASE, s) /\ no_memory B P F i) \/
  (exists a B' P' F' s', kmalloc size s = Ok (a, s') /\ slab_inv B' P' F' s' /\
     (forall l, ~ held B P F a l) /\
     forall x l, held B' P' F' x l <-> held B P F x l \/ (x = a /\ l = slot_size i)).
Proof.
  intros Hinv Hsz i. destruct (cache_for size Hsz) as (Hi & _ & _). fold i in Hi.
  unfold kmalloc. rewrite (proj2 (Z.leb_gt PAGE_SIZE size)) by (change PAGE_SIZE with 4096; lia).
  destruct (__get_object_ok B P F s i Hinv Hi)
    as [[E Hno]|(o & B' & P' & F' & s' & E & Hinv' & (p & Hp & Hs) & Hfr & Hin & Hbl)].
  { left. split; [|done]. unfold get_object. fold i. by run E. }
  right. destruct (slot_page i p o Hi Hp Hs) as (_ & Hv & _).
  assert (Ho : inuse P' F' i o) by (apply Hin; [done|by right]).
  exists o, B', P', F', s'. split_and!.
  - unfold get_object. fold i. run E. by rewrite Hv.
  - done.
  - intros l [(j & Hj & Hu & _)|(q & k & Hq & Eq & _)]; [by apply (Hfr j)|].
    apply Hbl in Hq. by apply (slot_not_block _ _ _ _ i o q k Hinv').
  - intros x l. unfold held. split.
    + intros [(j & Hj & Hu & ->)|(q & k & Hq & -> & ->)].
      * apply Hin in Hu as [Hu|[-> ->]]; [left; left; by exists j|by right|done].
      * left; right. exists q, k. by rewrite <-Hbl.
    + intros [[(j & Hj & Hu & ->)|(q & k & Hq & -> & ->)]|[-> ->]].
      * left. exists j. split; [done|]. split; [|done]. apply Hin; [done|by left].
      * right. exists q, k. by rewrite Hbl.
      * left. by exists i.
Qed.

Lemma kfree_ok B P F s a len :
  slab_inv B P F s -> held B P F a len ->
  exists B' F' s', kfree a s = Ok (tt, s') /\ slab_inv B' P F' s' /\
    forall x l, held B' P F' x l <-> held B P F x l /\ x <> a.
Proof.
  intros Hinv Ha. unfold kfree.
  destruct Ha as [(i & Hi & Hu & ->)|(p & k & Hbl & -> & ->)].
  - pose proof Hu as (p & Hp & Hs & Hn).
    destruct (slab_page_inv _ _ _ _ _ _ Hinv Hi Hp) as (Hr & HB & (pg & Hpg & Hfl & _)).
    destruct (slot_page i p a Hi Hr Hs) as (Ep & _). rewrite Ep.
    destruct (free_object_ok B P F s i p a Hinv Hi Hp Hs Hn) as (s' & E & Hinv').
    exists B, (set_list F p (a :: F p)), s'. split; [|split; [done|]].
    + destruct s as [z cs w]. cbn [zone_of] in Hpg.
      run (on_mm_ok _ (SlabState z cs w) _ _ (buddy_order_ok z p pg Hpg)). run (on_mm_ok _ (SlabState z cs w) _ _ (page_at_ok z p pg Hpg)). rewrite Hfl. exact E.
    + intros x l. pose proof (inuse_push _ _ _ _ _ _ _ Hinv Hi Hp Hs Hn) as Hpush. unfold held. split.
      * intros [(j & Hj & Hx & ->)|(q & k & Hq & -> & ->)].
        -- apply Hpush in Hx as [? ?]; [|done]. split; [left; by exists j|done].
        -- split; [right; by exists q, k|]. intros Eq. by apply (slot_not_block B P F s i a q k).
      * intros [[(j & Hj & Hx & ->)|?] Hne]; [|by right]. left. exists j. split; [done|].
        split; [|done]. by apply Hpush.
  - pose proof Hbl as [Hb Hnb].
    destruct (block_range _ _ _ _ _ _ Hinv Hb) as (Hr & _).
    destruct (kfree_pages_ok B P F s p k Hinv Hb Hnb) as (B' & s' & E & Hinv' & _ & _ & Hus).
    exists B', F, s'. split; [exact E|split; [done|]].
    intros x l. unfold held, block_inuse. setoid_rewrite Hus. split.
      * intros [(j & Hj & Hx & ->)|(q & j & [[Hq Hne] Hnq] & -> & ->)].
        -- split; [left; by exists j|]. by apply (slot_not_block B P F s j x p k).
        -- split; [right; by exists q, j|]. intros Eq. apply Hne.
           destruct (block_range _ _ _ _ _ _ Hinv Hq) as (Hr' & _).
           rewrite <-(slab_address_page q), Eq by done. by apply slab_address_page.
      * intros [[?|(q & j & [Hq Hnq] & -> & ->)] Hne]; [by left|]. right. exists q, j.
        split_and!; try done. by intros ->.
Qed.

(** * Initialisation *)

Lemma kmem_caches_init_ok B n : forall i z cs w,
  buddy_ok B z -> 0 <= i -> i + Z.of_nat n <= NR_OBJECTS -> length cs = 9%nat ->
  (forall j, 0 <= j < NR_OBJECTS -> is_Some (nodes z !! HPartial j)) ->
  exists h cs', kmem_caches_init n i (SlabState z cs w) =
      Ok (tt, SlabState (MM (nr_pages z) (mem_map z) h (nr_free z) (managed_pages z)) cs' w) /\
    buddy_ok B (MM (nr_pages z) (mem_map z) h (nr_free z) (managed_pages z)) /\
    (forall j, i <= j < i + Z.of_nat n -> dll h (HPartial j) [] /\
       exists c, cs'.[j] = Some c /\ csize c = slot_size j /\ offset c = 0) /\
    (forall j, j < i -> nxt h (HPartial j) = nxt (nodes z) (HPartial j) /\
       prv h (HPartial j) = prv (nodes z) (HPartial j) /\ cs'.[j] = cs.[j]).
Proof.
  induction n as [|n IH]; intros i z cs w Hb Hi Hn Hl Hd; cbn [kmem_caches_init].
  { exists (nodes z), cs. destruct z. split_and!; try done. intros; lia. }
  destruct (INIT_LIST_HEAD_ok (nodes z) (HPartial i)) as (h1 & E1 & D1 & Hd1 & O1); [apply Hd; lia|].
  set (z1 := MM (nr_pages z) (mem_map z) h1 (nr_free z) (managed_pages z)).
  destruct (zget_is_Some cs i) as [c0 Hc0]; [unfold NR_OBJECTS in *; lia|].
  set (c1 := KmemCache (calculate_size (OBJECT_SIZE i)) (OBJECT_SIZE i) 0 0).
  pose proof (zset_ok cs i c1 ltac:(unfold NR_OBJECTS in *; lia)) as Hz.
  set (cs1 := <[Z.to_nat i := c1]> cs) in *.
  assert (E : kmem_cache_init i (OBJECT_SIZE i) (SlabState z cs w) = Ok (tt, SlabState z1 cs1 w)).
  { unfold kmem_cache_init.
    assert (Ea : cache_at i (SlabState z cs w) = Ok (c0, SlabState z cs w))
      by (unfold cache_at; cbn [kmem_caches]; by rewrite Hc0).
    run Ea. unfold kmem_cache_node_init.
    assert (Eb : on_nodes (INIT_LIST_HEAD (HPartial i)) z = Ok (tt, z1))
      by (unfold on_nodes; by rewrite E1).
    unfold mbind, M_bind. rewrite (on_mm_ok _ (SlabState z cs w) _ _ Eb).
    unfold mret, M_ret, set_cache. cbn [kmem_caches zone_of words csize object_size offset]. fold c1.
    by rewrite Hz. }
  run E.
  assert (Hb1 : buddy_ok B z1).
  { apply (client_nodes_ok B z h1 [HPartial i]); try done. intros y ->%list_elem_of_singleton.
    left. by exists i. }
  destruct (IH (i + 1) z1 cs1 w Hb1) as (h & cs' & E2 & Hb2 & Hin & Hout); [lia|lia| | |].
  { subst cs1. by rewrite length_insert. }
  { intros j Hj. eapply dom_is_Some; [exact D1|by apply Hd]. }
  exists h, cs'. split; [exact E2|]. split; [exact Hb2|]. split.
  - intros j Hj. destruct (decide (j = i)) as [->|]; [|apply Hin; lia].
    destruct (Hout i ltac:(lia)) as (Hx & Hp & Hcs). split.
    + destruct Hd1 as [Hnd Hs]. split; [done|]. cbn in *. by rewrite Hx, Hp.
    + exists c1. rewrite Hcs. split_and!; [by apply (zget_zset_eq _ _ _ _ Hz)| |done].
      subst c1. cbn. unfold calculate_size. rewrite OBJECT_SIZE_val by done. unfold slot_size.
      unfold NR_OBJECTS in Hn. assert (8 <= 2 ^ (i + 3) <= 2 ^ 11).
      { split; [change 8 with (2 ^ 3)|]; apply Z.pow_le_mono_r; lia. }
      change 8 with (2 ^ 3) in *. assert (Hal : ALIGN (2 ^ (i + 3)) (2 ^ 3) = 2 ^ (i + 3)).
      { destruct (ALIGN_spec (2 ^ (i + 3)) 3) as [[Hlo Hhi] Hdiv]; [lia|lia|lia|].
        destruct (Z.lt_trichotomy (2 ^ (i + 3)) (ALIGN (2 ^ (i + 3)) (2 ^ 3))) as [Hlt|[<-|?]]; [|done|lia].
        pose proof (multiple_gap (2 ^ 3) _ _ ltac:(lia) (pow2_divide 3 (i + 3) ltac:(lia)) Hdiv Hlt). lia. }
      rewrite Hal. by rewrite u32_small by lia.
  - intros j Hj. destruct (Hout j ltac:(lia)) as (-> & -> & ->).
    rewrite (zget_zset_ne _ _ _ _ _ Hz) by lia. cbn [nodes z1].
    destruct (O1 (HPartial j)) as [-> ->]; [|done].
    intros ?%list_elem_of_singleton. simplify_eq. lia.
Qed.

Lemma slab_boot_ok B z w :
  buddy_ok B z -> (forall b o, B !! b <> Some (Used, o)) -> nr_pages z <= 2 ^ 36 ->
  (forall j, 0 <= j < NR_OBJECTS -> is_Some (nodes z !! HPartial j)) ->
  exists s, slab_init (SlabState z (replicate 9 (KmemCache 0 0 0 0)) w) = Ok (tt, s) /\
    slab_inv B (fun _ => []) (fun _ => []) s.
Proof.
  intros Hb Hnu Hn Hd. unfold slab_init.
  destruct (kmem_caches_init_ok B (Z.to_nat NR_OBJECTS) 0 z (replicate 9 (KmemCache 0 0 0 0)) w)
    as (h & cs & E & Hb' & Hin & _); try done.
  rewrite E. eexists. split; [done|]. split; cbn; try done.
  - intros i Hi. apply Hin. unfold NR_OBJECTS in *. lia.
  - intros i Hi. apply Hin. unfold NR_OBJECTS in *. lia.
  - intros i p _ []%elem_of_nil.
  - intros p k Hp. by apply Hnu in Hp.
Qed.

(** * The properties *)

(** C7. Small requests: [kmalloc] of at most 2048 bytes returns an area that no
    caller holds, of the smallest slot size that is large enough, and adds exactly
    that area to the areas held; when neither the cache nor the buddy allocator
    has memory left it returns the kernel base address, not [NULL], and changes
    nothing. *)
Theorem kmalloc_small_spec B P F s size :
  slab_inv B P F s -> 0 <= size <= 2048 ->
  exists i, 0 <= i < NR_OBJECTS /\ size <= slot_size i /\ (forall k, 0 <= k < i -> slot_size k < size) /\
  ((kmalloc size s = Ok (KERNEL_VADDR_BASE, s) /\ no_memory B P F i) \/
   (exists a B' P' F' s', kmalloc size s = Ok (a, s') /\ slab_inv B' P' F' s' /\
      (forall l, ~ held B P F a l) /\
      forall x l, held B' P' F' x l <-> held B P F x l \/ (x = a /\ l = slot_size i))).
Proof.
  intros Hinv Hs. destruct (cache_for size Hs) as (? & ? & ?). eexists.
  do 3 (split; [eassumption|]). by apply kmalloc_small_ok.
Qed.

(** Large requests: [kmalloc] of a page or more adds one free block of
    [2^k] pages to the areas held, or dereferences the missing page when no block
    is large enough; [k] is the least number of halvings that leaves at most a
    page, so the area falls short of the request by less than [2^k] bytes, and is
    large enough for any multiple of the page size the allocator can serve. *)
Theorem kmalloc_large_spec B P F s size :
  slab_inv B P F s -> PAGE_SIZE <= size < 2 ^ 64 ->
  exists k, 0 <= k /\ size < 2 ^ k * (PAGE_SIZE + 1) /\
  (0 < k -> 2 ^ (k - 1) * (PAGE_SIZE + 1) <= size) /\
  ((PAGE_SIZE | size) -> k < MAX_ORDER -> size <= 4096 * 2 ^ k) /\
  ((kmalloc size s = Err NullDeref /\ forall b j, k <= j -> B !! b <> Some (Free, j)) \/
   (exists a B' s', kmalloc size s = Ok (a, s') /\ slab_inv B' P F s' /\
      (forall l, ~ held B P F a l) /\
      forall x l, held B' P F x l <-> held B P F x l \/ (x = a /\ l = 4096 * 2 ^ k))).
Proof.
  intros Hinv Hs. change PAGE_SIZE with 4096 in *.
  destruct (order_loop_ok 64 size 0) as (k & E & Hk & Hlt & Hge); [change PAGE_SIZE with 4096; lia|lia|].
  change PAGE_SIZE with 4096 in *. exists k. split; [lia|]. split; [done|]. split; [done|]. split.
  - intros Hd Hm. unfold MAX_ORDER in Hm. pose proof (pow2_pos k ltac:(lia)).
    assert (2 ^ k <= 2 ^ 9) by (apply Z.pow_le_mono_r; lia).
    destruct (Z.le_gt_cases size (4096 * 2 ^ k)) as [|Hgt]; [done|].
    pose proof (multiple_gap 4096 (4096 * 2 ^ k) size ltac:(lia) (Z.divide_factor_l _ _) Hd Hgt). lia.
  - destruct (kmalloc_large_ok B P F s size k) as [?|(a & B' & s' & ? & _ & ?)];
      [done|change PAGE_SIZE with 4096; lia|by rewrite E|lia|by left|right].
    by exists a, B', s'.
Qed.

(** C8. [kfree] of an area a caller holds returns and removes exactly that area,
    whether it is a slab object or a block of pages. *)
Theorem kfree_spec B P F s a len :
  slab_inv B P F s -> held B P F a len ->
  exists B' F' s', kfree a s = Ok (tt, s') /\ slab_inv B' P F' s' /\
    forall x l, held B' P F' x l <-> held B P F x l /\ x <> a.
Proof. apply kfree_ok. Qed.


(** Requests between 2049 and 4095 bytes run past the array of caches: the
    search for a size stops at index 9 of 9. *)
Theorem kmalloc_medium_out_of_bounds B P F s size :
  slab_inv B P F s -> length (kmem_caches s) = 9%nat -> 2048 < size < PAGE_SIZE ->
  kmalloc size s = Err OutOfBounds.
Proof.
  intros Hinv Hl Hs. change PAGE_SIZE with 4096 in Hs. unfold kmalloc.
  rewrite (proj2 (Z.leb_gt PAGE_SIZE size)) by (change PAGE_SIZE with 4096; lia).
  unfold get_object. destruct (size_index_ok (Z.to_nat NR_OBJECTS) (u32 size) 0) as (Hr & Hle & _); [lia|].
  rewrite u32_small in * by lia. set (i := size_index _ size 0) in *. unfold NR_OBJECTS in *.
  assert (i = 9) as ->.
  { destruct (Z.lt_ge_cases i 9) as [Hlt|]; [|lia]. specialize (Hle ltac:(lia)).
    assert (slot_size i <= 2 ^ 11) by (apply Z.pow_le_mono_r; lia). lia. }
  unfold mbind, M_bind, __get_object, cache_at, mbind, M_bind. unfold zget. cbn.
  by rewrite lookup_ge_None_2 by lia.
Qed.

(** [slab_init] on a fresh buddy allocator: every cache is set up, empty and
    with the slot size of its index, and nothing is held. *)
Theorem slab_init_ok B z w :
  buddy_ok B z -> (forall b o, B !! b <> Some (Used, o)) -> nr_pages z <= 2 ^ 36 ->
  (forall j, 0 <= j < NR_OBJECTS -> is_Some (nodes z !! HPartial j)) ->
  exists s, slab_init (SlabState z (replicate 9 (KmemCache 0 0 0 0)) w) = Ok (tt, s) /\
    slab_inv B (fun _ => []) (fun _ => []) s /\ forall a l, ~ held B (fun _ => []) (fun _ => []) a l.
Proof.
  intros Hb Hnu Hn Hd. destruct (slab_boot_ok B z w Hb Hnu Hn Hd) as (s & E & Hinv).
  exists s. split_and!; [done|done|]. intros a l [(i & _ & (p & []%elem_of_nil & _) & _)|(p & k & [Hp _] & _)].
  by apply Hnu in Hp.
Qed.

(** * Instances *)

(** An initialised allocator over 512 free pages. *)
Definition ex_slab : slab_state :=
  match slab_init (SlabState ex_free (replicate 9 (KmemCache 0 0 0 0)) ∅) with
  | Ok (_, s) => s
  | Err _ => SlabState mm0 [] ∅
  end.

Abbreviation no_slabs := (fun _ : Z => @nil Z).

Lemma ex_partial j : 0 <= j < NR_OBJECTS -> is_Some (nodes ex_free !! HPartial j).
Proof.
  intros Hj. unfold NR_OBJECTS in Hj.
  assert (Hall : forallb (fun j => bool_decide (is_Some (nodes ex_free !! HPartial j))) (seqZ 0 9) = true)
    by (vm_compute; reflexivity).
  rewrite forallb_forall in Hall. specialize (Hall j). apply bool_decide_eq_true in Hall; [done|].
  apply list_elem_of_In, elem_of_seqZ. lia.
Qed.

Lemma ex_not_used b o : ({[0 := (Free, 9)]} : blocks) !! b <> Some (Used, o).
Proof. rewrite lookup_singleton. case_decide; congruence. Qed.

Lemma ex_free_pages : nr_pages ex_free = 512.
Proof. vm_compute. reflexivity. Qed.

Lemma ex_slab_ok : slab_inv {[0 := (Free, 9)]} no_slabs no_slabs ex_slab.
Proof.
  destruct (slab_boot_ok {[0 := (Free, 9)]} ex_free ∅) as (s & E & Hinv);
    [apply ex_free_ok|apply ex_not_used|rewrite ex_free_pages; lia|apply ex_partial|].
  unfold ex_slab. by rewrite E.
Qed.

Lemma slab_init_ok_witness :
  exists s, slab_init (SlabState ex_free (replicate 9 (KmemCache 0 0 0 0)) ∅) = Ok (tt, s) /\
    slab_inv {[0 := (Free, 9)]} no_slabs no_slabs s /\
    forall a l, ~ held {[0 := (Free, 9)]} no_slabs no_slabs a l.
Proof.
  apply (slab_init_ok {[0 := (Free, 9)]} ex_free ∅);
    [apply ex_free_ok|apply ex_not_used|rewrite ex_free_pages; lia|apply ex_partial].
Defined.

Lemma kmalloc_small_spec_witness :
  exists i, 0 <= i < NR_OBJECTS /\ 100 <= slot_size i /\ (forall k, 0 <= k < i -> slot_size k < 100) /\
  ((kmalloc 100 ex_slab = Ok (KERNEL_VADDR_BASE, ex_slab) /\
    no_memory {[0 := (Free, 9)]} no_slabs no_slabs i) \/
   (exists a B' P' F' s', kmalloc 100 ex_slab = Ok (a, s') /\ slab_inv B' P' F' s' /\
      (forall l, ~ held {[0 := (Free, 9)]} no_slabs no_slabs a l) /\
      forall x l, held B' P' F' x l <->
        held {[0 := (Free, 9)]} no_slabs no_slabs x l \/ (x = a /\ l = slot_size i))).
Proof. apply (kmalloc_small_spec {[0 := (Free, 9)]} no_slabs no_slabs ex_slab 100); [apply ex_slab_ok|lia]. Defined.

Lemma kmalloc_large_spec_witness :
  exists k, 0 <= k /\ 8193 < 2 ^ k * (PAGE_SIZE + 1) /\
  (0 < k -> 2 ^ (k - 1) * (PAGE_SIZE + 1) <= 8193) /\
  ((PAGE_SIZE | 8193) -> k < MAX_ORDER -> 8193 <= 4096 * 2 ^ k) /\
  ((kmalloc 8193 ex_slab = Err NullDeref /\
    forall b j, k <= j -> ({[0 := (Free, 9)]} : blocks) !! b <> Some (Free, j)) \/
   (exists a B' s', kmalloc 8193 ex_slab = Ok (a, s') /\ slab_inv B' no_slabs no_slabs s' /\
      (forall l, ~ held {[0 := (Free, 9)]} no_slabs no_slabs a l) /\
      forall x l, held B' no_slabs no_slabs x l <->
        held {[0 := (Free, 9)]} no_slabs no_slabs x l \/ (x = a /\ l = 4096 * 2 ^ k))).
Proof.
  apply (kmalloc_large_spec {[0 := (Free, 9)]} no_slabs no_slabs ex_slab 8193);
    [apply ex_slab_ok|change PAGE_SIZE with 4096; lia].
Defined.

Lemma kmalloc_medium_out_of_bounds_witness : kmalloc 3000 ex_slab = Err OutOfBounds.
Proof.
  apply (kmalloc_medium_out_of_bounds {[0 := (Free, 9)]} no_slabs no_slabs ex_slab 3000);
    [apply ex_slab_ok|vm_compute; reflexivity|change PAGE_SIZE with 4096; lia].
Defined.

(** A page from an allocator that has one. *)
Lemma ex_kmalloc B s :
  slab_inv B no_slabs no_slabs s -> (exists r, kmalloc 4096 s = Ok r) ->
  exists a B' s', kmalloc 4096 s = Ok (a, s') /\ slab_inv B' no_slabs no_slabs s' /\
    (forall l, ~ held B no_slabs no_slabs a l) /\
    forall x l, held B' no_slabs no_slabs x l <-> held B no_slabs no_slabs x l \/ (x = a /\ l = 4096).
Proof.
  intros Hinv [r Hr]. destruct (kmalloc_large_ok B no_slabs no_slabs s 4096 0)
    as [[E _]|(a & B' & s' & H & _ & H')]; [done|by change PAGE_SIZE with 4096|done|lia|congruence|].
  by exists a, B', s'.
Qed.

(** The example has two. *)
Lemma ex_two :
  exists a1 s1 r, kmalloc 4096 ex_slab = Ok (a1, s1) /\ kmalloc 4096 s1 = Ok r.
Proof.
  assert (H : match kmalloc 4096 ex_slab with
              | Ok (_, s1) => match kmalloc 4096 s1 with Ok _ => true | Err _ => false end
              | Err _ => false
              end = true) by (vm_compute; reflexivity).
  destruct (kmalloc 4096 ex_slab) as [[a1 s1]|]; [|discriminate H].
  destruct (kmalloc 4096 s1) as [r|] eqn:E; [|discriminate H]. by exists a1, s1, r.
Qed.

Lemma kfree_spec_witness :
  exists a s1 s2, kmalloc 4096 ex_slab = Ok (a, s1) /\ kfree a s1 = Ok (tt, s2).
Proof.
  destruct ex_two as (a1 & s1' & _ & E1 & _).
  destruct (ex_kmalloc _ _ ex_slab_ok) as (a & B' & s1 & E & Hinv & _ & Hh); [eauto|].
  destruct (kfree_spec B' no_slabs no_slabs s1 a 4096 Hinv) as (B2 & F2 & s2 & E2 & _);
    [apply Hh; right; split; reflexivity|]. exists a, s1, s2. split; assumption.
Defined.

