(* ===== verification/PageTable.v ===== *)
(** Page tables: [create_empty_page_table], [walk], [map_pages] and
    [simulate_walk] of [src/src/mm.c].

    The code is written against an interface: a kernel memory of 64-bit words,
    addressed by kernel virtual address, and a page allocator that returns pages
    nobody holds.  [SlabKMem] discharges the interface with [kmalloc]. *)
From S2P Require Import Prelude Memblock Buddy.

(** * The memory the page tables live in *)

(** [G] is the ghost state of the allocator; [live g p] says that the page at the
    kernel virtual address [p] is held by a caller. *)
Class KMem (S G : Type) := {
  ld : Z -> S -> Z;
  st : Z -> Z -> S -> S;
  page_alloc : M S Z;
  kinv : G -> S -> Prop;
  live : G -> Z -> Prop;
  ld_st_eq : forall a v s, ld a (st a v s) = v;
  ld_st_ne : forall a b v s, a <> b -> ld b (st a v s) = ld b s;
  st_inv : forall g s p a v, kinv g s -> live g p -> p <= a < p + 4096 -> kinv g (st a v s);
  alloc_inv : forall g s a s', kinv g s -> page_alloc s = Ok (a, s') ->
    exists g', kinv g' s' /\ ~ live g a /\ (forall p, live g' p <-> live g p \/ p = a) /\
      (exists pa, 0 <= pa < 2 ^ 48 /\ (4096 | pa) /\ a = pa + KERNEL_VADDR_BASE) /\
      forall x, ld x s' = ld x s
}.

(** * The code *)

(* [src/include/mm.h:45-45 PD_TABLE] *)
Definition PD_TABLE : Z := 3.
(* [src/include/mm.h:64-64 TABLE_ENTRY] *)
Definition TABLE_ENTRY : Z := PD_TABLE.
(* [src/include/mm.h:52-52 PXN] *)
Definition PXN : Z := Z.shiftl 1 53.
(* [src/include/mm.h:54-54 PD_ACCESS] *)
Definition PD_ACCESS : Z := Z.shiftl 1 10.
(* [src/include/mm.h:63-63 NORMAL_PAGE_ATTR] *)
Definition NORMAL_PAGE_ATTR : Z := Z.lor (Z.lor PD_ACCESS (Z.shiftl 1 2)) 3.
(* [src/include/mm.h:98-98 ENTRY_ADDR_MASK] *)
Definition ENTRY_ADDR_MASK : Z := 0xfffffffff000.

Section Code.
Context {S G : Type} `{KMem S G}.

Definition load (a : Z) : M S Z := fun s => Ok (ld a s, s).
Definition store (a v : Z) : M S unit := fun s => Ok (tt, st a v s).

(** [memset(p, 0, 8 * n)] by words. *)
Fixpoint zero_words (n : nat) (p : Z) : M S unit :=
  match n with
  | O => mret tt
  | Datatypes.S n => _ ← store p 0; zero_words n (p + 8)
  end.

(* [src/src/mm.c:411-418 create_empty_page_table] *)
Definition create_empty_page_table : M S Z :=
  pgd ← page_alloc;
  _ ← zero_words (Z.to_nat 512) pgd;
  mret pgd.

(** The 9-bit index of a level. *)
(* [src/src/mm.c:432-432 walk] *)
Definition pt_idx (va level : Z) : Z := Z.land (Z.shiftr va (39 - level * 9)) 0x1ff.

(** The rest of the loop body of a level above the last: make the next table if
    there is none, and go to it. *)
(* [src/src/mm.c:440-447 walk] *)
Definition next_table (table_p idx : Z) : M S Z :=
  e ← load (table_p + 8 * idx);
  _ ← (if e =? 0 then
         newtable_p ← create_empty_page_table;
         _ ← store (table_p + 8 * idx) (virt_to_phys newtable_p);
         e ← load (table_p + 8 * idx);
         store (table_p + 8 * idx) (Z.lor e TABLE_ENTRY)
       else mret tt);
  e ← load (table_p + 8 * idx);
  mret (phys_to_virt (Z.land e ENTRY_ADDR_MASK)).

(** Levels [level] to 3, [n] of them. *)
(* [src/src/mm.c:431-448 walk] *)
Fixpoint walk_loop (n : nat) (table_p level va pa flag : Z) : M S unit :=
  match n with
  | O => mret tt
  | Datatypes.S n =>
    let idx := pt_idx va level in
    if level =? 3 then
      _ ← store (table_p + 8 * idx) pa;
      e ← load (table_p + 8 * idx);
      store (table_p + 8 * idx) (Z.lor e (Z.lor (Z.lor NORMAL_PAGE_ATTR PXN) flag))
    else
      table_p ← next_table table_p idx;
      walk_loop n table_p (level + 1) va pa flag
  end.

(* [src/src/mm.c:426-449 walk] *)
Definition walk (virt_pgd va pa flag : Z) : M S unit := walk_loop 4 virt_pgd 0 va pa flag.

(** One iteration per page; [fuel] bounds the number of pages. *)
(* [src/src/mm.c:455-462 map_pages] *)
Fixpoint map_loop (fuel : nat) (virt_pgd va size pa flags i : Z) : M S unit :=
  if i <? size then
    match fuel with
    | O => fail NoFuel
    | Datatypes.S fuel =>
      _ ← walk virt_pgd (u64 (va + i)) (u64 (pa + i)) flags;
      map_loop fuel virt_pgd va size pa flags (i + PAGE_SIZE)
    end
  else mret tt.

(* [src/src/mm.c:455-462 map_pages] *)
Definition map_pages (virt_pgd va size pa flags : Z) : M S unit :=
  map_loop (Z.to_nat size) virt_pgd va size pa flags 0.

(* [src/src/mm.c:470-482 simulate_walk] *)
Fixpoint simulate_loop (n : nat) (table_p level va : Z) : M S Z :=
  match n with
  | O => mret 0
  | Datatypes.S n =>
    let idx := pt_idx va level in
    e ← load (table_p + 8 * idx);
    if level =? 3 then mret (Z.lor (Z.land e ENTRY_ADDR_MASK) (Z.land va 0xfff)) else
    if e =? 0 then mret 0 else
    simulate_loop n (phys_to_virt (Z.land e ENTRY_ADDR_MASK)) (level + 1) va
  end.

(* [src/src/mm.c:464-484 simulate_walk] *)
Definition simulate_walk (virt_pgd va : Z) : M S Z := simulate_loop 4 virt_pgd 0 va.

End Code.

(** * The tree of tables *)

Section Tree.
Context {S G : Type} `{KM : KMem S G}.
Implicit Types (s : S) (g : G) (T : gmap (list Z) Z).

(** [T] gives the kernel virtual address of the table at each path of indices
    from the root; the last level is at paths of length 3. *)
Record pt_ok (g : G) (T : gmap (list Z) Z) (root : Z) (s : S) : Prop := {
  pt_kinv : kinv g s;
  pt_root : T !! [] = Some root;
  pt_live : forall l p, T !! l = Some p -> live g p /\ (length l <= 3)%nat /\
    exists pa, 0 <= pa < 2 ^ 48 /\ (4096 | pa) /\ p = pa + KERNEL_VADDR_BASE;
  pt_inj : forall l l' p, T !! l = Some p -> T !! l' = Some p -> l = l';
  pt_entry : forall l p i, T !! l = Some p -> (length l < 3)%nat -> 0 <= i < 512 ->
    ld (p + 8 * i) s = match T !! (l ++ [i]) with
                       | Some q => Z.lor (virt_to_phys q) TABLE_ENTRY
                       | None => 0
                       end;
  pt_prefix : forall l i, is_Some (T !! (l ++ [i])) -> is_Some (T !! l)
}.

(** The leaf entry at a path of three indices and a fourth one; 0 without a table. *)
Definition pte (T : gmap (list Z) Z) (l : list Z) (i : Z) (s : S) : Z :=
  match T !! l with Some p => ld (p + 8 * i) s | None => 0 end.

Definition path (va : Z) : list Z := [pt_idx va 0; pt_idx va 1; pt_idx va 2].

Lemma idx_range va level : 0 <= pt_idx va level < 512.
Proof.
  unfold pt_idx. change 0x1ff with (Z.ones 9). rewrite Z.land_ones by lia.
  apply Z.mod_pos_bound. lia.
Qed.

(** A table entry decodes to the table it was made from. *)
Lemma entry_decode pa :
  0 <= pa < 2 ^ 48 -> (4096 | pa) ->
  let e := Z.lor (virt_to_phys (pa + KERNEL_VADDR_BASE)) TABLE_ENTRY in
  e <> 0 /\ phys_to_virt (Z.land e ENTRY_ADDR_MASK) = pa + KERNEL_VADDR_BASE.
Proof.
  intros Hpa [q ->]. cbv zeta.
  assert (Hv : virt_to_phys (q * 4096 + KERNEL_VADDR_BASE) = q * 4096).
  { unfold virt_to_phys. change (2 ^ 64 - 1 - KERNEL_VADDR_BASE) with (Z.ones 48).
    rewrite Z.land_ones by lia. change KERNEL_VADDR_BASE with (0xffff * 2 ^ 48).
    rewrite Z.mod_add by lia. by apply Z.mod_small. }
  rewrite Hv. change TABLE_ENTRY with 3. change 4096 with (2 ^ 12) in *.
  rewrite Z.lor_comm, lor_shift by lia. split; [lia|].
  assert (Hm : Z.land (3 + q * 2 ^ 12) ENTRY_ADDR_MASK = q * 2 ^ 12).
  { change ENTRY_ADDR_MASK with (Z.ldiff (Z.ones 48) (Z.ones 12)).
    rewrite Z.ldiff_land, Z.land_assoc, Z.land_ones, Z.mod_small by lia.
    rewrite <-Z.ldiff_land, Z.ldiff_ones_r, Z.shiftl_mul_pow2, Z.shiftr_div_pow2 by lia.
    f_equal. rewrite Z.div_add by lia. done. }
  rewrite Hm. unfold phys_to_virt. change KERNEL_VADDR_BASE with (0xffff * 2 ^ 48).
  apply lor_shift; lia.
Qed.

(** Words of different live tables are different. *)
Lemma words_apart g T root s l p l' p' i j :
  pt_ok g T root s -> T !! l = Some p -> T !! l' = Some p' -> 0 <= i < 512 -> 0 <= j < 512 ->
  (l <> l' \/ i <> j) -> p + 8 * i <> p' + 8 * j.
Proof.
  intros Hok Hl Hl' Hi Hj Hne E.
  destruct (pt_live _ _ _ _ Hok _ _ Hl) as (_ & _ & pa & _ & [x ->] & ->).
  destruct (pt_live _ _ _ _ Hok _ _ Hl') as (_ & _ & pa' & _ & [y ->] & ->).
  assert (x = y) as -> by lia. assert (i = j) as -> by lia. destruct Hne; [|done].
  by apply (pt_inj _ _ _ _ Hok l l') in Hl.
Qed.

(** [simulate_walk] follows the tree. *)
Lemma simulate_ok g T root s va :
  pt_ok g T root s ->
  simulate_walk root va s =
  Ok (match T !! path va with
      | Some _ => Z.lor (Z.land (pte T (path va) (pt_idx va 3) s) ENTRY_ADDR_MASK) (Z.land va 0xfff)
      | None => 0
      end, s).
Proof.
  intros Hok. unfold simulate_walk.
  assert (Hstep : forall n l p i level, T !! l = Some p -> (length l < 3)%nat -> level <> 3 ->
    i = pt_idx va level ->
    simulate_loop (Datatypes.S n) p level va s =
    match T !! (l ++ [i]) with Some q => simulate_loop n q (level + 1) va s | None => Ok (0, s) end).
  { intros n l p i level Hl Hlen Hlv ->. cbn [simulate_loop].
    unfold mbind, M_bind, load. rewrite (proj2 (Z.eqb_neq level 3)) by done.
    rewrite (pt_entry _ _ _ _ Hok l p _ Hl Hlen (idx_range va level)).
    destruct (T !! (l ++ _)) as [q|] eqn:Eq; [|done].
    destruct (pt_live _ _ _ _ Hok _ _ Eq) as (_ & _ & pa & Hpa & Hal & ->).
    destruct (entry_decode pa Hpa Hal) as [Hnz ->]. by rewrite (proj2 (Z.eqb_neq _ 0)) by done. }
  assert (Hnone : forall l i, T !! l = None -> T !! (l ++ [i]) = None).
  { intros l i Hl. destruct (T !! (l ++ [i])) eqn:E; [|done].
    destruct (pt_prefix _ _ _ _ Hok l i) as [? ?]; [by eexists|congruence]. }
  pose proof (pt_root _ _ _ _ Hok) as Hr. unfold path, pte.
  rewrite (Hstep 3%nat [] root (pt_idx va 0) 0 Hr) by (done || cbn; lia). cbn [app]. change (0 + 1) with 1.
  destruct (T !! [pt_idx va 0]) as [p1|] eqn:E1.
  2:{ pose proof (Hnone _ (pt_idx va 1) E1) as E2. cbn in E2.
      pose proof (Hnone _ (pt_idx va 2) E2) as E3. cbn in E3. by rewrite E3. }
  rewrite (Hstep 2%nat _ p1 (pt_idx va 1) 1 E1) by (done || cbn; lia). cbn [app]. change (1 + 1) with 2.
  destruct (T !! [pt_idx va 0; pt_idx va 1]) as [p2|] eqn:E2.
  2:{ pose proof (Hnone _ (pt_idx va 2) E2) as E3. cbn in E3. by rewrite E3. }
  rewrite (Hstep 1%nat _ p2 (pt_idx va 2) 2 E2) by (done || cbn; lia). cbn [app].
  by destruct (T !! [pt_idx va 0; pt_idx va 1; pt_idx va 2]) as [p3|] eqn:E3.
Qed.

(** * Growing the tree *)

Lemma zero_words_ok g p0 n : forall p s,
  kinv g s -> live g p0 -> (forall j, 0 <= j < Z.of_nat n -> p0 <= p + 8 * j < p0 + 4096) ->
  exists s', zero_words n p s = Ok (tt, s') /\ kinv g s' /\
    (forall j, 0 <= j < Z.of_nat n -> ld (p + 8 * j) s' = 0) /\
    (forall x, (forall j, 0 <= j < Z.of_nat n -> x <> p + 8 * j) -> ld x s' = ld x s).
Proof.
  induction n as [|n IH]; intros p s Hk Hl Hr; cbn [zero_words].
  { exists s. split_and!; try done; intros; lia. }
  assert (Hk' : kinv g (st p 0 s)) by (eapply st_inv; [done|exact Hl|specialize (Hr 0); lia]).
  destruct (IH (p + 8) (st p 0 s) Hk' Hl) as (s' & E & Hks & Hz & Ho).
  { intros j Hj. specialize (Hr (j + 1)). lia. }
  exists s'. split; [exact E|]. split; [done|]. split.
  - intros j Hj. destruct (decide (j = 0)) as [->|].
    + rewrite Ho, Z.mul_0_r, Z.add_0_r; [apply ld_st_eq|]. intros k Hk0. lia.
    + replace (p + 8 * j) with (p + 8 + 8 * (j - 1)) by lia. apply Hz. lia.
  - intros x Hx. rewrite Ho; [|intros j Hj; specialize (Hx (j + 1)); lia].
    apply ld_st_ne. specialize (Hx 0). lia.
Qed.

Lemma create_table_ok g s :
  kinv g s ->
  (exists f, create_empty_page_table s = Err f /\ page_alloc s = Err f) \/
  (exists a g' s', create_empty_page_table s = Ok (a, s') /\ kinv g' s' /\ ~ live g a /\
     (forall p, live g' p <-> live g p \/ p = a) /\
     (exists pa, 0 <= pa < 2 ^ 48 /\ (4096 | pa) /\ a = pa + KERNEL_VADDR_BASE) /\
     (forall j, 0 <= j < 512 -> ld (a + 8 * j) s' = 0) /\
     (forall x, (forall j, 0 <= j < 512 -> x <> a + 8 * j) -> ld x s' = ld x s)).
Proof.
  intros Hk. unfold create_empty_page_table. destruct (page_alloc s) as [[a s1]|f] eqn:E.
  - right. destruct (alloc_inv g s a s1 Hk E) as (g' & Hk' & Hn & Hl & Hpa & Hld).
    run E. destruct (zero_words_ok g' a (Z.to_nat 512) a s1 Hk') as (s2 & E2 & Hk2 & Hz & Ho);
      [apply Hl; by right|intros; lia|].
    run E2. exists a, g', s2. split_and!; try done. intros x Hx. rewrite Ho by exact Hx. apply Hld.
  - left. exists f. by rewrite (bind_err _ _ _ _ E).
Qed.

(** Adding a zeroed table below the entry [i] of the table at [l]. *)
Lemma pt_grow g g' T root s s' l p i a :
  pt_ok g T root s -> T !! l = Some p -> (length l < 3)%nat -> 0 <= i < 512 ->
  T !! (l ++ [i]) = None -> kinv g' s' -> ~ live g a -> (forall q, live g' q <-> live g q \/ q = a) ->
  (exists pa, 0 <= pa < 2 ^ 48 /\ (4096 | pa) /\ a = pa + KERNEL_VADDR_BASE) ->
  (forall j, 0 <= j < 512 -> ld (a + 8 * j) s' = 0) ->
  ld (p + 8 * i) s' = Z.lor (virt_to_phys a) TABLE_ENTRY ->
  (forall x, (forall j, 0 <= j < 512 -> x <> a + 8 * j) -> x <> p + 8 * i -> ld x s' = ld x s) ->
  pt_ok g' (<[l ++ [i] := a]> T) root s' /\
  (forall l' j, length l' = 3%nat -> 0 <= j < 512 -> pte (<[l ++ [i] := a]> T) l' j s' = pte T l' j s).
Proof.
  intros Hok Hl Hlen Hi Hnone Hk Hna Hlive Hpa Hz He Ho.
  assert (Hold : forall l' p' j, T !! l' = Some p' -> 0 <= j < 512 -> (l' <> l \/ j <> i) ->
            ld (p' + 8 * j) s' = ld (p' + 8 * j) s).
  { intros l' p' j Hl' Hj Hne. apply Ho.
    - intros k Hk' E. destruct (pt_live _ _ _ _ Hok _ _ Hl') as (Hlv & _ & pa' & _ & [y ->] & ->).
      destruct Hpa as (pa & _ & [x ->] & ->). assert (x = y) as -> by lia. done.
    - by apply (words_apart g T root s l' p' l p j i). }
  assert (Hnl : forall l' : list Z, is_Some (T !! l') -> l' <> l ++ [i]).
  { intros l' [p' Hp'] ->. congruence. }
  split.
  - split.
    + done.
    + rewrite lookup_insert_ne; [apply Hok|]. by destruct l.
    + intros l' p'. rewrite lookup_insert. case_decide as Hd.
      * intros [= <-]. subst l'. split; [apply Hlive; by right|]. rewrite length_app. cbn.
        split; [lia|done].
      * intros Hl'. destruct (pt_live _ _ _ _ Hok _ _ Hl') as (? & ? & ?).
        split; [apply Hlive; by left|done].
    + intros l1 l2 q. rewrite !lookup_insert. repeat case_decide; subst; try done.
      * intros [= <-] H2. destruct (pt_live _ _ _ _ Hok _ _ H2). done.
      * intros H1 [= <-]. destruct (pt_live _ _ _ _ Hok _ _ H1). done.
      * by apply (pt_inj _ _ _ _ Hok).
    + intros l' p' j Hl' Hlen' Hj. rewrite lookup_insert in Hl'. case_decide as Hd.
      * injection Hl' as <-. subst l'. rewrite Hz by done.
        rewrite lookup_insert_ne by (intros E; apply (f_equal length) in E; rewrite !length_app in E;
          cbn in E; lia).
        destruct (T !! ((l ++ [i]) ++ [j])) eqn:E; [|done].
        destruct (pt_prefix _ _ _ _ Hok (l ++ [i]) j) as [? ?]; [by eexists|congruence].
      * destruct (decide (l' = l /\ j = i)) as [[-> ->]|Hne].
        -- rewrite lookup_insert_eq. rewrite Hl in Hl'. by injection Hl' as <-.
        -- rewrite lookup_insert_ne by (intros [-> ->]%app_inj_tail; by apply Hne).
           rewrite (Hold l') by (done || (destruct (decide (l' = l)); subst; [right|left]; naive_solver)).
           by apply (pt_entry _ _ _ _ Hok).
    + intros l' j Hs. destruct (decide (l ++ [i] = l')) as [<-|Hne].
      { rewrite lookup_insert_eq. by eexists. }
      rewrite lookup_insert_ne by done. rewrite lookup_insert in Hs.
      case_decide as Hd; [apply app_inj_tail in Hd as [-> _]; by eexists|].
      by eapply (pt_prefix _ _ _ _ Hok).
  - intros l' j Hlen' Hj. unfold pte. rewrite lookup_insert. case_decide as Hd.
    + subst l'. rewrite Hnone. by apply Hz.
    + destruct (T !! l') as [p'|] eqn:El; [|done]. apply (Hold l'); [done|done|].
      left. intros ->. lia.
Qed.

Lemma next_table_ok g T root s l p i :
  pt_ok g T root s -> T !! l = Some p -> (length l < 3)%nat -> 0 <= i < 512 ->
  (exists f, next_table p i s = Err f /\ page_alloc s = Err f) \/
  (exists g' T' q s', next_table p i s = Ok (q, s') /\ pt_ok g' T' root s' /\ T ⊆ T' /\
     T' !! (l ++ [i]) = Some q /\
     (forall l' j, length l' = 3%nat -> 0 <= j < 512 -> pte T' l' j s' = pte T l' j s)).
Proof.
  intros Hok Hl Hlen Hi. unfold next_table.
  assert (Eld : forall s, load (p + 8 * i) s = Ok (ld (p + 8 * i) s, s)) by done.
  run (Eld s). rewrite (pt_entry _ _ _ _ Hok l p i Hl Hlen Hi).
  destruct (T !! (l ++ [i])) as [q|] eqn:Eq.
  - right. destruct (pt_live _ _ _ _ Hok _ _ Eq) as (_ & _ & pa & Hpa & Hal & ->).
    destruct (entry_decode pa Hpa Hal) as [Hnz Hdec].
    exists g, T, (pa + KERNEL_VADDR_BASE), s. rewrite (proj2 (Z.eqb_neq _ 0)) by done.
    split_and!; try done. unfold mbind at 1, M_bind at 1. cbn [mret M_ret]. run (Eld s).
    rewrite (pt_entry _ _ _ _ Hok l p i Hl Hlen Hi), Eq, Hdec. done.
  - rewrite Z.eqb_refl.
    destruct (create_table_ok g s (pt_kinv _ _ _ _ Hok))
      as [(f & Ef & Ea)|(a & g' & s1 & E1 & Hk1 & Hna & Hlv & Hpa & Hz & Ho)].
    { left. exists f. split; [|done]. apply bind_err. by rewrite (bind_err _ _ _ _ Ef). }
    right. set (w := p + 8 * i) in *. set (e := Z.lor (virt_to_phys a) TABLE_ENTRY).
    set (s2 := st w e (st w (virt_to_phys a) s1)).
    assert (E2 : (newtable_p ← create_empty_page_table; _ ← store w (virt_to_phys newtable_p);
                  e ← load w; store w (Z.lor e TABLE_ENTRY)) s = Ok (tt, s2)).
    { run E1. unfold mbind, M_bind, store, load. by rewrite ld_st_eq. }
    assert (Hpl : live g' p) by (apply Hlv; left; by eapply (pt_live _ _ _ _ Hok)).
    destruct (pt_grow g g' T root s s2 l p i a) as [Hok' Hpte]; try done.
    + apply (st_inv g' _ p); [|done|subst w; lia]. apply (st_inv g' _ p); [done|done|subst w; lia].
    + intros j Hj. subst s2. rewrite !ld_st_ne; [by apply Hz|..]; intros E;
        (destruct (pt_live _ _ _ _ Hok _ _ Hl) as (Hpv & _ & pa' & _ & [y ->] & ->));
        destruct Hpa as (pa & _ & [x ->] & ->); subst w; assert (x = y) as -> by lia; done.
    + subst s2. by rewrite ld_st_eq.
    + intros x Hx Hne. subst s2. rewrite !ld_st_ne by done. by apply Ho.
    + exists g', (<[l ++ [i] := a]> T), a, s2. run E2. run (Eld s2). fold w.
      assert (Hlda : ld w s2 = e) by (subst s2; by rewrite ld_st_eq). rewrite Hlda.
      destruct Hpa as (pa & Hpa & Hal & ->). destruct (entry_decode pa Hpa Hal) as [_ Hdec].
      split_and!; [by rewrite <-Hdec|done|by apply insert_subseteq|apply lookup_insert_eq|done].
Qed.

(** * Mapping one page *)

(** The last level: the entry is written, no table changes. *)
Lemma pt_leaf g T root s s' l p i v :
  pt_ok g T root s -> T !! l = Some p -> length l = 3%nat -> 0 <= i < 512 -> kinv g s' ->
  ld (p + 8 * i) s' = v -> (forall x, x <> p + 8 * i -> ld x s' = ld x s) ->
  pt_ok g T root s' /\
  forall l' j, length l' = 3%nat -> 0 <= j < 512 ->
    pte T l' j s' = if decide (l' = l /\ j = i) then v else pte T l' j s.
Proof.
  intros Hok Hl Hlen Hi Hk Hv Ho. split.
  - split; try apply Hok; [done|]. intros l' p' j Hl' Hlen' Hj. rewrite Ho.
    + by apply (pt_entry _ _ _ _ Hok).
    + apply (words_apart g T root s l' p' l p j i); try done. left. intros ->. lia.
  - intros l' j Hlen' Hj. unfold pte. case_decide as Hd.
    + destruct Hd as [-> ->]. by rewrite Hl.
    + destruct (T !! l') as [p'|] eqn:El; [|done]. apply Ho.
      apply (words_apart g T root s l' p' l p j i); try done.
      destruct (decide (l' = l)); subst; naive_solver.
Qed.

Definition leaf_entry (pa flag : Z) : Z := Z.lor pa (Z.lor (Z.lor NORMAL_PAGE_ATTR PXN) flag).

(** What [walk] does to the tree: exactly one leaf entry changes. *)
Record walked g T root s g' T' s' (va pa flag : Z) : Prop := {
  wk_ok : pt_ok g' T' root s';
  wk_grow : T ⊆ T';
  wk_table : is_Some (T' !! path va);
  wk_pte : forall l j, length l = 3%nat -> 0 <= j < 512 ->
    pte T' l j s' = if decide (l = path va /\ j = pt_idx va 3) then leaf_entry pa flag
                    else pte T l j s
}.

Lemma walk_loop_ok n va pa flag : forall g T root s l p level,
  pt_ok g T root s -> T !! l = Some p -> (length l + n = 4)%nat -> level = Z.of_nat (length l) ->
  l = take (length l) (path va) ->
  (1 <= n)%nat ->
  (exists s1 f, walk_loop n p level va pa flag s = Err f /\ page_alloc s1 = Err f) \/
  (exists g' T' s', walk_loop n p level va pa flag s = Ok (tt, s') /\
     walked g T root s g' T' s' va pa flag).
Proof.
  induction n as [|n IH]; intros g T root s l p level Hok Hl Hlen Hlv Hpath Hn; [lia|].
  cbn [walk_loop]. destruct (Z.eqb_spec level 3) as [E3|E3].
  - right. assert (Hl3 : length l = 3%nat) by lia. rewrite Hl3 in Hpath. cbn in Hpath.
    clear Hlv. subst level. set (w := p + 8 * pt_idx va 3).
    set (s2 := st w (leaf_entry pa flag) (st w pa s)).
    destruct (pt_live _ _ _ _ Hok _ _ Hl) as (Hpl & _). pose proof (idx_range va 3) as Hi.
    destruct (pt_leaf g T root s s2 l p (pt_idx va 3) (leaf_entry pa flag)) as [Hok' Hpte]; try done.
    + apply (st_inv g _ p); [|done|subst w; lia].
      apply (st_inv g _ p); [apply Hok|done|subst w; lia].
    + subst s2. apply ld_st_eq.
    + intros x Hx. subst s2. by rewrite !ld_st_ne.
    + exists g, T, s2. split.
      { unfold mbind, M_bind, store, load. by rewrite ld_st_eq. }
      split; [done|done|rewrite Hpath in Hl; by eexists|]. by rewrite Hpath in Hpte.
  - destruct (next_table_ok g T root s l p (pt_idx va level)) as
      [(f & Ef & Ea)|(g1 & T1 & q & s1 & E1 & Hok1 & Hsub & Hq & Hpte)];
      [done|done|lia|apply idx_range| |].
    { left. exists s, f. by rewrite (bind_err _ _ _ _ Ef). }
    run E1. destruct (IH g1 T1 root s1 (l ++ [pt_idx va level]) q (level + 1))
      as [(s2 & f & Ef & Ea)|(g2 & T2 & s2 & E2 & [Wo Wg Wt Wp])]; try done.
    + rewrite length_app. cbn. lia.
    + rewrite length_app. cbn. lia.
    + rewrite length_app. cbn. subst level. rewrite Hpath at 1.
      destruct l as [|a [|b [|c [|]]]]; cbn in *; try lia; try done.
    + destruct l as [|a [|b [|c [|]]]]; cbn in *; lia.
    + left. by exists s2, f.
    + right. exists g2, T2, s2. split; [exact E2|]. split; [done|by etrans|done|].
      intros l' j Hl' Hj. rewrite Wp by done. case_decide; [done|]. by apply Hpte.
Qed.

(** * Translation *)

Lemma leaf_decode pa flag :
  0 <= pa < 2 ^ 48 -> (4096 | pa) -> Z.land flag ENTRY_ADDR_MASK = 0 ->
  Z.land (leaf_entry pa flag) ENTRY_ADDR_MASK = pa.
Proof.
  intros Hpa [q ->] Hf. unfold leaf_entry. rewrite !Z.land_lor_distr_l, Hf.
  change (Z.land NORMAL_PAGE_ATTR ENTRY_ADDR_MASK) with 0. change (Z.land PXN ENTRY_ADDR_MASK) with 0.
  rewrite !Z.lor_0_r. change ENTRY_ADDR_MASK with (Z.ldiff (Z.ones 48) (Z.ones 12)).
  rewrite Z.ldiff_land, Z.land_assoc, Z.land_ones, Z.mod_small by lia.
  rewrite <-Z.ldiff_land, Z.ldiff_ones_r, Z.shiftl_mul_pow2, Z.shiftr_div_pow2 by lia.
  change (2 ^ 12) with 4096. by rewrite Z.div_mul.
Qed.

Lemma page_offset pa va :
  0 <= pa -> (4096 | pa) -> Z.lor pa (Z.land va 0xfff) = pa + va mod 4096.
Proof.
  intros Hpa [q ->]. change 0xfff with (Z.ones 12). rewrite Z.land_ones by lia.
  change 4096 with (2 ^ 12). rewrite Z.lor_comm, lor_shift; [lia|lia|].
  apply Z.mod_pos_bound. lia.
Qed.

Lemma pt_idx_val va level :
  0 <= va -> 0 <= level <= 3 -> pt_idx va level = va / 4096 / 2 ^ (27 - level * 9) mod 512.
Proof.
  intros Hva Hlv. unfold pt_idx. change 0x1ff with (Z.ones 9). rewrite Z.land_ones by lia.
  rewrite Z.shiftr_div_pow2, Z.div_div by (try apply pow2_pos; lia). change 4096 with (2 ^ 12).
  rewrite <-Z.pow_add_r by lia. change (2 ^ 9) with 512. do 3 f_equal. lia.
Qed.

(** The four indices identify the page. *)
Lemma page_of_indices x y :
  0 <= x < 2 ^ 48 -> 0 <= y < 2 ^ 48 ->
  path x = path y /\ pt_idx x 3 = pt_idx y 3 <-> x / 4096 = y / 4096.
Proof.
  intros Hx Hy. split.
  - assert (Hrec : forall v, 0 <= v < 2 ^ 48 ->
      v / 4096 = ((pt_idx v 0 * 512 + pt_idx v 1) * 512 + pt_idx v 2) * 512 + pt_idx v 3).
    { intros v Hv. rewrite !pt_idx_val by lia.
      change (2 ^ (27 - 0 * 9)) with (512 * 512 * 512). change (2 ^ (27 - 1 * 9)) with (512 * 512).
      change (2 ^ (27 - 2 * 9)) with 512. change (2 ^ (27 - 3 * 9)) with 1. rewrite Z.div_1_r.
      rewrite <-!Z.div_div by lia. set (w := v / 4096).
      assert (0 <= w < 2 ^ 36).
      { split; [apply Z.div_pos; lia|apply Z.div_lt_upper_bound; lia]. }
      rewrite (Z.mod_small (w / 512 / 512 / 512) 512).
      2:{ split; [repeat apply Z.div_pos; lia|].
          rewrite !Z.div_div by lia. apply Z.div_lt_upper_bound; lia. }
      pose proof (Z.div_mod w 512 ltac:(lia)). pose proof (Z.div_mod (w / 512) 512 ltac:(lia)).
      pose proof (Z.div_mod (w / 512 / 512) 512 ltac:(lia)). lia. }
    intros [[= H0 H1 H2] H3]. rewrite (Hrec x), (Hrec y) by done. congruence.
  - intros E. unfold path. rewrite !pt_idx_val by lia. by rewrite E.
Qed.

(** The physical address [simulate_walk] reports for a virtual address. *)
Definition translates (root : Z) (s : S) (va r : Z) : Prop := simulate_walk root va s = Ok (r, s).

(** What [simulate_walk] reports through an unchanged leaf entry.  A table that
    now exists where there was none makes it report the page offset instead of 0. *)
Definition same_or_unmapped (va r r' : Z) : Prop := r' = r \/ (r = 0 /\ r' = va mod 4096).

Lemma translate_mapped g T root s va pa flag :
  pt_ok g T root s -> is_Some (T !! path va) -> pte T (path va) (pt_idx va 3) s = leaf_entry pa flag ->
  0 <= pa < 2 ^ 48 -> (4096 | pa) -> Z.land flag ENTRY_ADDR_MASK = 0 ->
  translates root s va (pa + va mod 4096).
Proof.
  intros Hok [p Hp] He Hpa Hal Hf. unfold translates. rewrite (simulate_ok g T root s va Hok), Hp.
  rewrite He, leaf_decode by done. by rewrite page_offset by (done || lia).
Qed.

Lemma translate_kept g T root s g' T' s' va :
  pt_ok g T root s -> pt_ok g' T' root s' -> T ⊆ T' ->
  pte T' (path va) (pt_idx va 3) s' = pte T (path va) (pt_idx va 3) s ->
  exists r r', translates root s va r /\ translates root s' va r' /\ same_or_unmapped va r r'.
Proof.
  intros Hok Hok' Hsub He. unfold translates.
  rewrite (simulate_ok g T root s va Hok), (simulate_ok g' T' root s' va Hok').
  eexists _, _. split; [done|]. split; [done|].
  destruct (T !! path va) as [p|] eqn:E.
  - rewrite (lookup_weaken _ _ _ _ E Hsub), He. by left.
  - assert (Hz : pte T (path va) (pt_idx va 3) s = 0) by (unfold pte; by rewrite E).
    destruct (T' !! path va) as [p'|]; [|by left]. right. split; [done|]. rewrite He, Hz.
    rewrite Z.land_0_l, Z.lor_0_l. change 0xfff with (Z.ones 12). by rewrite Z.land_ones.
Qed.

(** * Mapping a range *)

(** The multiples of the page size that the loop of [map_pages] visits from [i] on. *)
Definition visits (i size k : Z) : Prop := i <= k < size /\ (4096 | k - i).

Lemma map_loop_ok fuel root va size pa flag : forall i g T s,
  pt_ok g T root s -> (4096 | va) -> 0 <= va -> va + size <= 2 ^ 48 -> 0 <= pa -> pa + size <= 2 ^ 48 ->
  0 <= i -> (4096 | i) -> size - i <= Z.of_nat fuel * 4096 ->
  (exists s1 f, map_loop fuel root va size pa flag i s = Err f /\ page_alloc s1 = Err f) \/
  (exists g' T' s', map_loop fuel root va size pa flag i s = Ok (tt, s') /\ pt_ok g' T' root s' /\
     T ⊆ T' /\
     (forall k, visits i size k -> is_Some (T' !! path (va + k)) /\
        pte T' (path (va + k)) (pt_idx (va + k) 3) s' = leaf_entry (pa + k) flag) /\
     (forall l j, length l = 3%nat -> 0 <= j < 512 ->
        (forall k, visits i size k -> ~ (l = path (va + k) /\ j = pt_idx (va + k) 3)) ->
        pte T' l j s' = pte T l j s)).
Proof.
  induction fuel as [|fuel IH]; intros i g T s Hok Hva Hva0 Hvs Hpa0 Hps Hi Hdi Hf; cbn [map_loop];
    (destruct (Z.ltb_spec i size) as [Hlt|Hge];
     [|right; exists g, T, s; split_and!; try done; intros k [? _]; lia]); [lia|].
  rewrite !u64_small by lia.
  destruct (walk_loop_ok 4 (va + i) (pa + i) flag g T root s [] root 0)
    as [(s1 & f & Ef & Ea)|(g1 & T1 & s1 & E1 & [Wo Wg Wt Wp])]; try done; try lia; [apply Hok| |].
  { left. exists s1, f. unfold walk. by rewrite (bind_err _ _ _ _ Ef). }
  unfold walk. run E1. change PAGE_SIZE with 4096.
  destruct (IH (i + 4096) g1 T1 s1) as [Herr|(g2 & T2 & s2 & E2 & Hok2 & Hsub & Hmap & Hkeep)];
    try done; try lia; [by apply Z.divide_add_r; [|exists 1]|by left|right].
  exists g2, T2, s2. split; [exact E2|]. split; [done|]. split; [by etrans|].
  assert (Hlater : forall k, visits (i + 4096) size k -> visits i size k /\ k <> i).
  { intros k [Hk Hd]. split; [split; [lia|]|lia]. replace (k - i) with (k - (i + 4096) + 4096) by lia.
    by apply Z.divide_add_r; [|exists 1]. }
  assert (Hsplit : forall k, visits i size k -> k = i \/ visits (i + 4096) size k).
  { intros k [Hk Hd]. destruct (decide (k = i)) as [|Hne]; [by left|right].
    pose proof (multiple_gap 4096 0 (k - i) ltac:(lia) (Z.divide_0_r _) Hd ltac:(lia)).
    split; [lia|]. replace (k - (i + 4096)) with (k - i - 4096) by lia.
    by apply Z.divide_sub_r; [|exists 1]. }
  assert (Hdiff : forall k, visits (i + 4096) size k ->
            ~ (path (va + i) = path (va + k) /\ pt_idx (va + i) 3 = pt_idx (va + k) 3)).
  { intros k [Hk Hd]. rewrite page_of_indices by lia. destruct Hva as [x ->]. destruct Hdi as [y ->].
    destruct Hd as [z Hz]. replace (x * 4096 + y * 4096) with ((x + y) * 4096) by lia.
    replace (x * 4096 + k) with ((x + (z + y + 1)) * 4096) by lia. rewrite !Z.div_mul by lia. lia. }
  split.
  - intros k [->|Hk]%Hsplit; [|by apply Hmap]. split.
    + destruct Wt as [q Hq]. exists q. by eapply lookup_weaken.
    + rewrite Hkeep; [|done|apply idx_range|done]. rewrite Wp by (done || apply idx_range).
      by rewrite decide_True.
  - intros l j Hl Hj Hno. rewrite Hkeep; [|done|done|intros k Hk; apply Hno; by apply Hlater].
    rewrite Wp by done. rewrite decide_False; [done|]. apply Hno. split; [lia|].
    rewrite Z.sub_diag. apply Z.divide_0_r.
Qed.

Lemma create_root_ok g s root s' :
  kinv g s -> create_empty_page_table s = Ok (root, s') ->
  exists g', pt_ok g' {[ [] := root ]} root s'.
Proof.
  intros Hk E. destruct (create_table_ok g s Hk)
    as [(f & Ef & _)|(a & g' & s1 & E1 & Hk1 & _ & Hlv & Hpa & Hz & _)]; [congruence|].
  rewrite E in E1. injection E1 as <- <-. exists g'. split.
  - done.
  - by rewrite lookup_singleton_eq.
  - intros l p [<- <-]%lookup_singleton_Some. split_and!; [apply Hlv; by right|cbn; lia|done].
  - intros l l' p [<- _]%lookup_singleton_Some [<- _]%lookup_singleton_Some. done.
  - intros l p i [<- <-]%lookup_singleton_Some _ Hi. rewrite lookup_singleton_ne by done. by apply Hz.
  - intros l i [q Hq]. apply lookup_singleton_Some in Hq as [Hq _]. by destruct l.
Qed.

Lemma map_pages_ok g T root s va size pa flag :
  pt_ok g T root s -> (4096 | va) -> 0 <= va -> va + size <= 2 ^ 48 ->
  (4096 | pa) -> 0 <= pa -> pa + size <= 2 ^ 48 -> 0 <= size -> Z.land flag ENTRY_ADDR_MASK = 0 ->
  (exists s1 f, map_pages root va size pa flag s = Err f /\ page_alloc s1 = Err f) \/
  (exists g' T' s', map_pages root va size pa flag s = Ok (tt, s') /\ pt_ok g' T' root s' /\
     (forall x, 0 <= x < 2 ^ 48 - va -> x / 4096 * 4096 < size ->
        translates root s' (va + x) (pa + x)) /\
     (forall va', 0 <= va' < 2 ^ 48 -> (va' < va \/ size <= (va' - va) / 4096 * 4096) ->
        exists r r', translates root s va' r /\ translates root s' va' r' /\
                     same_or_unmapped va' r r')).
Proof.
  intros Hok Hav Hva0 Hvs Hap Hpa0 Hps Hsz Hf. unfold map_pages.
  destruct (map_loop_ok (Z.to_nat size) root va size pa flag 0 g T s)
    as [Herr|(g' & T' & s' & E & Hok' & Hsub & Hmap & Hkeep)];
    try done; try lia; [apply Z.divide_0_r|by left|right].
  exists g', T', s'. split; [exact E|]. split; [done|]. destruct Hav as [a ->]. split.
  - intros x Hx Hxs. set (k := x / 4096 * 4096) in *.
    assert (Hk : 0 <= k <= x /\ x - k < 4096 /\ x mod 4096 = x - k).
    { subst k. pose proof (Z.div_mod x 4096 ltac:(lia)). pose proof (Z.mod_pos_bound x 4096).
      pose proof (Z.div_pos x 4096). lia. }
    destruct (Hmap k) as [Ht He]; [split; [lia|]; rewrite Z.sub_0_r; apply Z.divide_factor_r|].
    assert (Hpg : path (a * 4096 + x) = path (a * 4096 + k) /\
                  pt_idx (a * 4096 + x) 3 = pt_idx (a * 4096 + k) 3).
    { apply page_of_indices; [lia|lia|]. subst k. rewrite !(Z.add_comm (a * 4096)).
      rewrite !Z.div_add, Z.div_mul by lia. done. }
    destruct Hpg as [Hp Hi]. destruct Hap as [b ->].
    replace (b * 4096 + x) with (b * 4096 + k + (a * 4096 + x) mod 4096).
    + eapply translate_mapped; [exact Hok'|by rewrite Hp|rewrite Hp, Hi; exact He|lia| |exact Hf].
      apply Z.divide_add_r; [apply Z.divide_factor_r|]. subst k. apply Z.divide_factor_r.
    + rewrite Z.add_comm, (Z.add_comm (a * 4096)), Z.mod_add by lia. lia.
  - intros va' Hva' Hout. eapply translate_kept; [exact Hok|exact Hok'|done|].
    apply Hkeep; [done|apply idx_range|]. intros k [Hk [q Hq]] Heq. rewrite Z.sub_0_r in Hq. subst k.
    apply page_of_indices in Heq; [|lia|lia].
    replace (a * 4096 + q * 4096) with ((a + q) * 4096) in Heq by lia. rewrite Z.div_mul in Heq by lia.
    pose proof (Z.div_mod va' 4096 ltac:(lia)). pose proof (Z.mod_pos_bound va' 4096).
    destruct Hout as [?|Hout]; [lia|]. replace (va' - a * 4096) with (va' + (- a) * 4096) in Hout by lia.
    rewrite Z.div_add in Hout by lia. lia.
Qed.

(** The tree survives what leaves its words and its pages alone. *)
Lemma pt_frame g g' T root s s' :
  pt_ok g T root s -> kinv g' s' -> (forall p, live g p -> live g' p) -> (forall a, ld a s' = ld a s) ->
  pt_ok g' T root s'.
Proof.
  intros [H1 H2 H3 H4 H5 H6] Hk Hl He. split; try done.
  - intros l p E. destruct (H3 l p E) as (? & ? & ?). by auto.
  - intros l p i E Hlen Hi. rewrite He. by apply H5.
Qed.

(** [walk] maps one page: it returns (or the allocator ran out of pages), the
    translation of every address of the page becomes the physical page with the
    same offset, and the translation of no other mapped address changes. *)
Theorem walk_spec g T root s va pa flag :
  pt_ok g T root s -> 0 <= va < 2 ^ 48 -> 0 <= pa < 2 ^ 48 -> (4096 | pa) ->
  Z.land flag ENTRY_ADDR_MASK = 0 ->
  (exists s1 f, walk root va pa flag s = Err f /\ page_alloc s1 = Err f) \/
  (exists g' T' s', walk root va pa flag s = Ok (tt, s') /\ pt_ok g' T' root s' /\
     (forall va', 0 <= va' < 2 ^ 48 -> va' / 4096 = va / 4096 ->
        translates root s' va' (pa + va' mod 4096)) /\
     (forall va', 0 <= va' < 2 ^ 48 -> va' / 4096 <> va / 4096 ->
        exists r r', translates root s va' r /\ translates root s' va' r' /\
                     same_or_unmapped va' r r')).
Proof.
  intros Hok Hva Hpa Hal Hf.
  destruct (walk_loop_ok 4 va pa flag g T root s [] root 0)
    as [Herr|(g' & T' & s' & E & [Wo Wg Wt Wp])]; try done; [apply Hok|lia|by left|right].
  exists g', T', s'. split; [exact E|]. split; [done|]. split.
  - intros va' Hva' Hpg. apply page_of_indices in Hpg as [Hp Hi]; [|done|done].
    eapply translate_mapped; [exact Wo|by rewrite Hp| |done|done|exact Hf].
    rewrite Wp, decide_True by (done || apply idx_range). done.
  - intros va' Hva' Hpg. eapply translate_kept; [exact Hok|exact Wo|done|].
    rewrite Wp by (done || apply idx_range). rewrite decide_False; [done|].
    intros Heq. apply Hpg. by apply page_of_indices.
Qed.

(** C10. [map_pages] maps a range: with page-aligned addresses it returns (or the
    allocator ran out of pages), every address from [va] up to the end of the last
    page translates to the physical address at the same distance from [pa], and
    the translation of no other mapped address changes. *)
Theorem map_pages_spec g T root s va size pa flag :
  pt_ok g T root s -> (4096 | va) -> 0 <= va -> va + size <= 2 ^ 48 ->
  (4096 | pa) -> 0 <= pa -> pa + size <= 2 ^ 48 -> 0 <= size -> Z.land flag ENTRY_ADDR_MASK = 0 ->
  (exists s1 f, map_pages root va size pa flag s = Err f /\ page_alloc s1 = Err f) \/
  (exists g' T' s', map_pages root va size pa flag s = Ok (tt, s') /\ pt_ok g' T' root s' /\
     (forall x, 0 <= x < 2 ^ 48 - va -> x / 4096 * 4096 < size ->
        translates root s' (va + x) (pa + x)) /\
     (forall va', 0 <= va' < 2 ^ 48 -> (va' < va \/ size <= (va' - va) / 4096 * 4096) ->
        exists r r', translates root s va' r /\ translates root s' va' r' /\
                     same_or_unmapped va' r r')).
Proof. apply map_pages_ok. Qed.

(** [create_empty_page_table] gives an address space in which nothing is
    mapped: [simulate_walk] reports 0 for every address. *)
Theorem create_empty_page_table_spec g s root s' va :
  kinv g s -> create_empty_page_table s = Ok (root, s') -> translates root s' va 0.
Proof.
  intros Hk E. destruct (create_root_ok g s root s' Hk E) as (g' & Hok). unfold translates.
  rewrite (simulate_ok g' _ root s' va Hok). by rewrite lookup_singleton_ne.
Qed.
End Tree.
