(* ===== verification/SlabKMem.v ===== *)
(** [kmalloc(PAGE_SIZE)] as the page allocator of the page tables: the instance of
    the interface of [PageTable], and the page-table theorems on a concrete
    kernel heap. *)
From S2P Require Import Prelude ListHead Memblock Buddy BuddyInv BuddyBoot Slab SlabInv SlabSpec PageTable.

(** The ghost state: the partition, the slab pages and their free objects. *)
Record heap_ghost := HeapGhost {
  gh_blocks : blocks;
  gh_pages : Z -> list Z;
  gh_free : Z -> list Z
}.

Definition heap_inv (g : heap_ghost) (s : slab_state) : Prop :=
  slab_inv (gh_blocks g) (gh_pages g) (gh_free g) s.
Definition heap_live (g : heap_ghost) (p : Z) : Prop :=
  held (gh_blocks g) (gh_pages g) (gh_free g) p 4096.

Lemma held_page B P F s p :
  slab_inv B P F s -> held B P F p 4096 ->
  exists q, block_inuse B P q 0 /\ p = q * 4096 + KERNEL_VADDR_BASE /\ 0 <= q < 2 ^ 36.
Proof.
  intros Hinv [(i & Hi & _ & E)|(q & k & Hb & -> & E)].
  - unfold slot_size, NR_OBJECTS in *. assert (2 ^ (i + 3) <= 2 ^ 11) by (apply Z.pow_le_mono_r; lia). lia.
  - destruct (block_range _ _ _ _ q k Hinv (proj1 Hb)) as (Hq & Hk & Ea). exists q.
    assert (k = 0) as ->; [|done].
    destruct (si_buddy _ _ _ _ Hinv) as ([L Hi] & _).
    destruct (wb_in _ _ (bi_wf _ _ _ Hi) _ _ _ (proj1 Hb)) as (Hk0 & _).
    destruct (decide (k = 0)) as [|Hne]; [done|].
    assert (2 ^ 1 <= 2 ^ k) by (apply Z.pow_le_mono_r; lia). lia.
Qed.

(** A caller's writes to a page it holds leave the allocator alone. *)
Lemma heap_st_inv B P F s p a v :
  slab_inv B P F s -> held B P F p 4096 -> p <= a < p + 4096 ->
  slab_inv B P F (SlabState (zone_of s) (kmem_caches s) (<[a := v]> (words s))).
Proof.
  intros Hinv Hp Ha. destruct (held_page _ _ _ _ _ Hinv Hp) as (q & [Hq Hnq] & -> & Hqr).
  pose proof Hinv as [Hb Hn Hc Hl Hpg Hbk]. split; cbn; try done.
  intros i r Hi Hr. destruct (slab_page_inv _ _ _ _ _ _ Hinv Hi Hr) as (Hrr & HB & Hsp).
  split; [done|]. destruct Hsp as (pg & Hpgr & Hfl & Hpv & Hch & Hnd & Hs).
  exists pg. split_and!; try done. eapply chain_ext; [|exact Hch]. intros o Ho.
  apply lookup_insert_ne. intros ->. destruct (slot_range i r o Hi Hrr (Hs _ Ho)) as [? _].
  apply (Hnq i Hi). by replace q with r by lia.
Qed.

Lemma heap_alloc_inv g s a s' :
  heap_inv g s -> kmalloc 4096 s = Ok (a, s') ->
  exists g', heap_inv g' s' /\ ~ heap_live g a /\ (forall p, heap_live g' p <-> heap_live g p \/ p = a) /\
    (exists pa, 0 <= pa < 2 ^ 48 /\ (4096 | pa) /\ a = pa + KERNEL_VADDR_BASE) /\
    words s' = words s.
Proof.
  destruct g as [B P F]. intros Hinv E. unfold heap_inv, heap_live in *. cbn in *.
  destruct (kmalloc_large_ok B P F s 4096 0 Hinv)
    as [[Ee _]|(a' & B' & s1 & E1 & Hw & Hinv' & Hn & Hh)];
    [by change PAGE_SIZE with 4096|done|lia|congruence|].
  rewrite E in E1. injection E1 as <- <-. exists (HeapGhost B' P F). cbn. split_and!; try done.
  - intros p. rewrite Hh. by change (4096 * 2 ^ 0) with 4096; intuition.
  - destruct (held_page B' P F s' a Hinv') as (q & _ & -> & Hq).
    { apply Hh. right. by change (4096 * 2 ^ 0) with 4096. }
    exists (q * 4096). split; [lia|]. split; [apply Z.divide_factor_r|done].
Qed.

#[global] Program Instance slab_kmem : KMem slab_state heap_ghost := {|
  ld a s := default 0 (words s !! a);
  st a v s := SlabState (zone_of s) (kmem_caches s) (<[a := v]> (words s));
  page_alloc := kmalloc 4096;
  kinv := heap_inv;
  live := heap_live
|}.
Next Obligation. intros. cbn. by rewrite lookup_insert_eq. Qed.
Next Obligation. intros. cbn. by rewrite lookup_insert_ne. Qed.
Next Obligation. intros g s p a v Hk Hl Ha. by eapply heap_st_inv. Qed.
Next Obligation.
  intros g s a s' Hk E. destruct (heap_alloc_inv g s a s' Hk E) as (g' & ? & ? & ? & ? & Hw).
  exists g'. split_and!; try done. intros x. by rewrite Hw.
Qed.

(** * Instances *)

Abbreviation ex_ghost := (HeapGhost {[0 := (Free, 9)]} (fun _ => []) (fun _ => [])).

Lemma ex_heap : kinv ex_ghost ex_slab.
Proof. apply ex_slab_ok. Qed.

(** The example heap has a page for a root table. *)
Lemma ex_root : exists root s, create_empty_page_table ex_slab = Ok (root, s).
Proof.
  assert (H : match create_empty_page_table ex_slab with Ok _ => true | Err _ => false end = true)
    by (vm_compute; reflexivity).
  destruct (create_empty_page_table ex_slab) as [[root s]|f]; [by exists root, s|discriminate H].
Qed.

Lemma create_empty_page_table_spec_witness :
  exists root s, create_empty_page_table ex_slab = Ok (root, s) /\ translates root s 0x1234 0.
Proof.
  destruct ex_root as (root & s & E). exists root, s. split; [exact E|].
  exact (create_empty_page_table_spec ex_ghost ex_slab root s 0x1234 ex_heap E).
Defined.

Lemma walk_spec_witness :
  exists root s, create_empty_page_table ex_slab = Ok (root, s) /\
  ((exists s1 f, walk root 0x1000 0x5000 0x40 s = Err f /\ page_alloc s1 = Err f) \/
   (exists g' T' s', walk root 0x1000 0x5000 0x40 s = Ok (tt, s') /\ pt_ok g' T' root s' /\
      (forall va', 0 <= va' < 2 ^ 48 -> va' / 4096 = 0x1000 / 4096 ->
         translates root s' va' (0x5000 + va' mod 4096)) /\
      (forall va', 0 <= va' < 2 ^ 48 -> va' / 4096 <> 0x1000 / 4096 ->
         exists r r', translates root s va' r /\ translates root s' va' r' /\
                      same_or_unmapped va' r r'))).
Proof.
  destruct ex_root as (root & s & E). exists root, s. split; [exact E|].
  destruct (create_root_ok ex_ghost ex_slab root s ex_heap E) as (g & Hok). clear E.
  apply (walk_spec g {[ [] := root ]} root s 0x1000 0x5000 0x40);
    [exact Hok|lia|lia|by exists 5|reflexivity].
Defined.

Lemma map_pages_spec_witness :
  exists root s, create_empty_page_table ex_slab = Ok (root, s) /\
  ((exists s1 f, map_pages root 0 0x2800 0x80000 0x40 s = Err f /\ page_alloc s1 = Err f) \/
   (exists g' T' s', map_pages root 0 0x2800 0x80000 0x40 s = Ok (tt, s') /\ pt_ok g' T' root s' /\
      (forall x, 0 <= x < 2 ^ 48 - 0 -> x / 4096 * 4096 < 0x2800 ->
         translates root s' (0 + x) (0x80000 + x)) /\
      (forall va', 0 <= va' < 2 ^ 48 -> (va' < 0 \/ 0x2800 <= (va' - 0) / 4096 * 4096) ->
         exists r r', translates root s va' r /\ translates root s' va' r' /\
                      same_or_unmapped va' r r'))).
Proof.
  destruct ex_root as (root & s & E). exists root, s. split; [exact E|].
  destruct (create_root_ok ex_ghost ex_slab root s ex_heap E) as (g & Hok). clear E.
  apply (map_pages_spec g {[ [] := root ]} root s 0 0x2800 0x80000 0x40);
    [exact Hok|apply Z.divide_0_r|lia|lia|by exists 0x80|lia|lia|lia|reflexivity].
Defined.
