(* ===== verification/BootTables.v ===== *)
(** The page table of the boot: [setup_page_table] of [src/src/mm.c], which runs before the
    translation of addresses is switched on.

    The memory is its 64-bit words, by physical address.  Nothing clears the tables: the
    entries the function does not write keep what the memory held. *)
From S2P Require Import Prelude Memblock PageTable.

(* [src/include/mm.h:79-81 MMU_PGD_ADDR] *)
Definition MMU_PGD_ADDR : Z := 0x1000.
Definition MMU_PUD_ADDR : Z := MMU_PGD_ADDR + 0x1000.
Definition MMU_PMD_ADDR : Z := MMU_PGD_ADDR + 0x2000.
(* [src/include/mm.h:84-84 PERIPH_MMIO_BASE] *)
Definition PERIPH_MMIO_BASE : Z := 0x3F000000.
(* [src/include/mm.h:37-38 MAIR_IDX_DEVICE_nGnRnE] *)
Definition MAIR_IDX_DEVICE_nGnRnE : Z := 0.
Definition MAIR_IDX_NORMAL_NOCACHE : Z := 1.
(* [src/include/mm.h:46-46 PD_BLOCK] *)
Definition PD_BLOCK : Z := 1.
(* [src/include/mm.h:60-60 DEVICE_BLOCK_ATTR] *)
Definition DEVICE_BLOCK_ATTR : Z := Z.lor (Z.lor PD_ACCESS (Z.shiftl MAIR_IDX_DEVICE_nGnRnE 2)) PD_BLOCK.
(* [src/include/mm.h:61-61 NORMAL_BLOCK_ATTR] *)
Definition NORMAL_BLOCK_ATTR : Z := Z.lor (Z.lor PD_ACCESS (Z.shiftl MAIR_IDX_NORMAL_NOCACHE 2)) PD_BLOCK.

(* [src/include/mm.h:100-101 ENTRY_IS_TABLE] *)
Definition ENTRY_IS_TABLE (x : Z) : bool := Z.land x 3 =? 3.
Definition ENTRY_IS_BLOCK (x : Z) : bool := Z.land x 3 =? 1.

(** [pmd[i]] and [pmd1[i]] for [n] values from [i] on. *)
(* [src/src/mm.c:397-404 setup_page_table] *)
Fixpoint setup_pmds (n : nat) (i : Z) (m : gmap Z Z) : gmap Z Z :=
  match n with
  | O => m
  | S n =>
    let addr := Z.shiftl i 21 in
    let m := <[MMU_PMD_ADDR + 8 * i :=
               if PERIPH_MMIO_BASE <=? addr then Z.lor addr DEVICE_BLOCK_ATTR else Z.lor addr NORMAL_BLOCK_ATTR]> m in
    let m := <[MMU_PMD_ADDR + 0x1000 + 8 * i := Z.lor (addr + 0x40000000) DEVICE_BLOCK_ATTR]> m in
    setup_pmds n (i + 1) m
  end.

(** The memory, [ttbr0_el1] and [ttbr1_el1]. *)
(* [src/src/mm.c:381-409 setup_page_table] *)
Definition setup_page_table (m : gmap Z Z) : gmap Z Z * Z * Z :=
  let m := <[MMU_PGD_ADDR := Z.lor MMU_PUD_ADDR TABLE_ENTRY]> m in
  let m := <[MMU_PUD_ADDR := Z.lor MMU_PMD_ADDR TABLE_ENTRY]> m in
  let m := <[MMU_PUD_ADDR + 8 := Z.lor (MMU_PMD_ADDR + 0x1000) TABLE_ENTRY]> m in
  (setup_pmds 512 0 m, MMU_PGD_ADDR, MMU_PGD_ADDR).

(** * What the tables map *)

(** The translation of an address by the tables at [table], from [level] on: the physical
    address and the index of the memory attributes.  A descriptor that is neither a table
    nor a block is a fault. *)
Fixpoint hw_walk (n : nat) (m : gmap Z Z) (table level va : Z) : option (Z * Z) :=
  match n with
  | O => None
  | S n =>
    e ← m !! (table + 8 * pt_idx va level);
    if ENTRY_IS_TABLE e then
      if level =? 3 then Some (Z.land e ENTRY_ADDR_MASK + va mod 2 ^ 12, Z.land (Z.shiftr e 2) 7)
      else hw_walk n m (Z.land e ENTRY_ADDR_MASK) (level + 1) va
    else if ENTRY_IS_BLOCK e && (1 <=? level) && (level <=? 2) then
      Some (Z.land e ENTRY_ADDR_MASK + va mod 2 ^ (39 - level * 9), Z.land (Z.shiftr e 2) 7)
    else None
  end.
Definition translate (m : gmap Z Z) (ttbr va : Z) : option (Z * Z) := hw_walk 4 m ttbr 0 va.

(** The descriptor of the [j]-th block of 2 MiB, and where it is. *)
Definition block_entry (j : Z) : Z :=
  if j <? 512 then
    if PERIPH_MMIO_BASE <=? Z.shiftl j 21 then Z.lor (Z.shiftl j 21) DEVICE_BLOCK_ATTR else Z.lor (Z.shiftl j 21) NORMAL_BLOCK_ATTR
  else Z.lor (Z.shiftl (j - 512) 21 + 0x40000000) DEVICE_BLOCK_ATTR.
Definition block_place (j : Z) : Z := MMU_PMD_ADDR + 8 * j.

Definition memory_kind (x : Z) : Z := if x <? PERIPH_MMIO_BASE then MAIR_IDX_NORMAL_NOCACHE else MAIR_IDX_DEVICE_nGnRnE.

Lemma block_entry_ok j : 0 <= j < 1024 ->
  ENTRY_IS_TABLE (block_entry j) = false /\ ENTRY_IS_BLOCK (block_entry j) = true /\
  Z.land (block_entry j) ENTRY_ADDR_MASK = j * 2 ^ 21 /\ Z.land (Z.shiftr (block_entry j) 2) 7 = memory_kind (j * 2 ^ 21).
Proof.
  intros Hj.
  assert (Hall : forallb (fun j => negb (ENTRY_IS_TABLE (block_entry j)) && ENTRY_IS_BLOCK (block_entry j) &&
    (Z.land (block_entry j) ENTRY_ADDR_MASK =? j * 2 ^ 21) && (Z.land (Z.shiftr (block_entry j) 2) 7 =? memory_kind (j * 2 ^ 21)))
    (seqZ 0 1024) = true) by (by vm_compute).
  rewrite forallb_forall in Hall. specialize (Hall j (proj1 (list_elem_of_In _ _) (proj2 (elem_of_seqZ 0 1024 j) ltac:(lia)))).
  by zbool.
Qed.

(** The loop writes the descriptors of the blocks [i] and [512 + i] on. *)
Lemma setup_pmds_ok n : forall i m, 0 <= i -> i + Z.of_nat n = 512 ->
  (forall j, i <= j < 512 \/ 512 + i <= j < 1024 -> setup_pmds n i m !! block_place j = Some (block_entry j)) /\
  (forall a, (forall j, i <= j < 512 \/ 512 + i <= j < 1024 -> a <> block_place j) -> setup_pmds n i m !! a = m !! a).
Proof.
  induction n as [|n IH]; intros i m Hi Hn; [split; [intros j Hj; lia|done]|]. cbn [setup_pmds].
  set (m1 := <[_ := _]> (<[_ := _]> m)). destruct (IH (i + 1) m1 ltac:(lia) ltac:(lia)) as [Hin Hout].
  assert (E1 : m1 !! block_place i = Some (block_entry i)).
  { unfold m1, block_place. rewrite lookup_insert_ne, lookup_insert_eq by lia. unfold block_entry. by rewrite (proj2 (Z.ltb_lt i 512)) by lia. }
  assert (E2 : m1 !! block_place (512 + i) = Some (block_entry (512 + i))).
  { unfold m1, block_place. replace (MMU_PMD_ADDR + 8 * (512 + i)) with (MMU_PMD_ADDR + 0x1000 + 8 * i) by lia.
    rewrite lookup_insert_eq. unfold block_entry. rewrite (proj2 (Z.ltb_ge (512 + i) 512)) by lia. by replace (512 + i - 512) with i by lia. }
  split.
  - intros j Hj. destruct (decide (j = i)) as [->|Hji]; [|destruct (decide (j = 512 + i)) as [->|Hji']; [|apply Hin; lia]].
    + rewrite Hout; [done|]. intros j Hj'. unfold block_place. lia.
    + rewrite Hout; [done|]. intros j Hj'. unfold block_place. lia.
  - intros a Ha. rewrite Hout by (intros j Hj; apply Ha; lia). unfold m1.
    pose proof (Ha i ltac:(lia)). pose proof (Ha (512 + i) ltac:(lia)). unfold block_place in *.
    rewrite !lookup_insert_ne by lia. done.
Qed.

Lemma pt_idx_ok k x level : 0 <= k -> 0 <= x < 2 ^ 48 -> 0 <= level <= 3 ->
  pt_idx (k * 2 ^ 48 + x) level = x / 2 ^ (39 - level * 9) mod 512.
Proof.
  intros Hk Hx Hl. unfold pt_idx. rewrite Z.shiftr_div_pow2 by lia. change 0x1ff with (Z.ones 9). rewrite Z.land_ones by lia. change (2 ^ 9) with 512.
  set (s := 39 - level * 9). replace (2 ^ 48) with (2 ^ (39 - s) * 512 * 2 ^ s).
  2:{ change 512 with (2 ^ 9). rewrite <-!Z.pow_add_r by lia. f_equal. lia. }
  rewrite Z.mul_assoc, Z.div_add_l by (apply Z.pow_nonzero; lia).
  rewrite Z.mul_assoc, Z.add_comm, Z.mod_add by lia. done.
Qed.

Lemma low_bits k x s : 0 <= s <= 48 -> (k * 2 ^ 48 + x) mod 2 ^ s = x mod 2 ^ s.
Proof.
  intros Hs. replace (2 ^ 48) with (2 ^ (48 - s) * 2 ^ s) by (rewrite <-Z.pow_add_r by lia; f_equal; lia).
  rewrite Z.mul_assoc, Z.add_comm. apply Z.mod_add, Z.pow_nonzero; lia.
Qed.

(** One level of the walk: through a table, and at a block. *)
Lemma walk_table n m table level va e next : m !! (table + 8 * pt_idx va level) = Some e ->
  ENTRY_IS_TABLE e = true -> Z.land e ENTRY_ADDR_MASK = next -> level <> 3 ->
  hw_walk (S n) m table level va = hw_walk n m next (level + 1) va.
Proof. intros He Ht Hn Hl. cbn [hw_walk]. rewrite He. cbn [mbind option_bind]. rewrite Ht, Hn. by rewrite (proj2 (Z.eqb_neq level 3) Hl). Qed.

Lemma walk_block n m table level va e : m !! (table + 8 * pt_idx va level) = Some e ->
  ENTRY_IS_TABLE e = false -> ENTRY_IS_BLOCK e = true -> 1 <= level <= 2 ->
  hw_walk (S n) m table level va = Some (Z.land e ENTRY_ADDR_MASK + va mod 2 ^ (39 - level * 9), Z.land (Z.shiftr e 2) 7).
Proof.
  intros He Ht Hb Hl. cbn [hw_walk]. rewrite He. cbn [mbind option_bind]. rewrite Ht, Hb.
  by rewrite (proj2 (Z.leb_le 1 level)), (proj2 (Z.leb_le level 2)) by lia.
Qed.

(** The entries of the tables, and the rest of the memory. *)
Lemma table_entries m :
  let m1 := (setup_page_table m).1.1 in
  m1 !! (MMU_PGD_ADDR + 8 * 0) = Some (Z.lor MMU_PUD_ADDR TABLE_ENTRY) /\
  (forall q, 0 <= q < 2 -> m1 !! (MMU_PUD_ADDR + 8 * q) = Some (Z.lor (MMU_PMD_ADDR + 0x1000 * q) TABLE_ENTRY)) /\
  (forall j, 0 <= j < 1024 -> m1 !! block_place j = Some (block_entry j)) /\
  (forall a, a < MMU_PGD_ADDR \/ MMU_PMD_ADDR + 0x2000 <= a -> m1 !! a = m !! a).
Proof.
  unfold setup_page_table. cbn [fst]. set (m0 := <[MMU_PUD_ADDR + 8 := _]> _).
  destruct (setup_pmds_ok 512 0 m0 ltac:(lia) ltac:(lia)) as [Hin Hout]. generalize dependent (setup_pmds 512 0 m0). intros m1 Hin Hout.
  split_and!.
  - rewrite Hout by (intros j Hj; unfold block_place, MMU_PMD_ADDR, MMU_PUD_ADDR, MMU_PGD_ADDR; lia); unfold m0.
    by rewrite !lookup_insert_ne, lookup_insert_eq by done.
  - intros q Hq. assert (Hq' : q = 0 \/ q = 1) by lia.
    rewrite Hout by (intros j Hj; unfold block_place, MMU_PMD_ADDR, MMU_PUD_ADDR, MMU_PGD_ADDR; lia); unfold m0.
    destruct Hq' as [-> | ->]; [by rewrite lookup_insert_ne, lookup_insert_eq by done|by rewrite lookup_insert_eq].
  - intros j Hj. apply Hin. lia.
  - intros a Ha. rewrite Hout by (intros j Hj; unfold block_place, MMU_PMD_ADDR, MMU_PGD_ADDR in *; lia). unfold m0.
    rewrite !lookup_insert_ne by (unfold MMU_PUD_ADDR, MMU_PMD_ADDR, MMU_PGD_ADDR in *; lia). done.
Qed.

Lemma pud_entry_ok q : 0 <= q < 2 ->
  ENTRY_IS_TABLE (Z.lor (MMU_PMD_ADDR + 0x1000 * q) TABLE_ENTRY) = true /\
  Z.land (Z.lor (MMU_PMD_ADDR + 0x1000 * q) TABLE_ENTRY) ENTRY_ADDR_MASK = MMU_PMD_ADDR + 0x1000 * q.
Proof. intros Hq. assert (q = 0 \/ q = 1) as [-> | ->] by lia; split; reflexivity. Qed.

(** The walk through the three levels, for any upper 16 bits. *)
Lemma translate_ok m k x : 0 <= k -> 0 <= x < 2 ^ 31 ->
  translate (setup_page_table m).1.1 MMU_PGD_ADDR (k * 2 ^ 48 + x) = Some (x, memory_kind x).
Proof.
  intros Hk Hx. set (q := x / 2 ^ 21 / 512). set (j := x / 2 ^ 21).
  pose proof (fun l Hl => pt_idx_ok k x l Hk ltac:(lia) Hl) as Hidx.
  pose proof (Z.div_mod x (2 ^ 21) ltac:(lia)) as Dx. pose proof (Z.mod_pos_bound x (2 ^ 21) ltac:(lia)) as Mx. fold j in Dx.
  assert (Hj : 0 <= j < 1024) by lia.
  pose proof (Z.div_mod j 512 ltac:(lia)) as Dj. pose proof (Z.mod_pos_bound j 512 ltac:(lia)) as Mj. change (j / 512) with q in Dj.
  assert (Hq : 0 <= q < 2) by lia.
  destruct (table_entries m) as (Epgd & Epud & Hin & _). specialize (Epud q Hq). unfold translate.
  assert (E0 : pt_idx (k * 2 ^ 48 + x) 0 = 0).
  { rewrite (Hidx 0 ltac:(lia)). change (39 - 0 * 9) with 39. by rewrite (Z.div_small x (2 ^ 39)) by lia. }
  assert (E1 : pt_idx (k * 2 ^ 48 + x) 1 = q).
  { rewrite (Hidx 1 ltac:(lia)). change (2 ^ (39 - 1 * 9)) with (2 ^ 21 * 512). rewrite <-Z.div_div by lia. by apply Z.mod_small; lia. }
  assert (E2 : MMU_PMD_ADDR + 0x1000 * q + 8 * pt_idx (k * 2 ^ 48 + x) 2 = block_place j).
  { rewrite (Hidx 2 ltac:(lia)). change (39 - 2 * 9) with 21. fold j. unfold block_place. lia. }
  destruct (pud_entry_ok q Hq) as [Tq Aq].
  rewrite (walk_table 3 _ _ 0 _ (Z.lor MMU_PUD_ADDR TABLE_ENTRY) MMU_PUD_ADDR); [|by rewrite E0|reflexivity|reflexivity|lia].
  change (0 + 1) with 1. rewrite (walk_table 2 _ _ 1 _ (Z.lor (MMU_PMD_ADDR + 0x1000 * q) TABLE_ENTRY) (MMU_PMD_ADDR + 0x1000 * q)); [|by rewrite E1|exact Tq|exact Aq|lia].
  destruct (block_entry_ok j Hj) as (T & B & Ea & Ek).
  change (1 + 1) with 2. rewrite (walk_block 1 _ _ 2 _ (block_entry j)); [|rewrite E2; by apply Hin|exact T|exact B|lia].
  rewrite Ea, Ek. change (39 - 2 * 9) with 21. rewrite low_bits by lia. f_equal. f_equal; [lia|].
  unfold memory_kind, PERIPH_MMIO_BASE. destruct (Z.ltb_spec (j * 2 ^ 21) 0x3F000000), (Z.ltb_spec x 0x3F000000); [reflexivity|exfalso; lia|exfalso; lia|reflexivity].
Qed.


