(* ===== verification/Sched.v ===== *)
(** The scheduler: tasks, the choice of the next task, the context switch with
    its signal delivery [src/src/sched.c, src/src/sched_.S], the timer tick
    [do_timer] of [src/src/exception.c] and [src/src/signal.c].

    [current], the pointer the kernel keeps in [tpidr_el1], is the index of the
    task in [task_pool].  [regs] are the registers [switch_to] saves and loads.
    A context switch ends in one of the ways of [resume]: the code that continues
    is the one of the task that was switched to. *)
From S2P Require Import Prelude ListHead Memblock Buddy Slab.

(** * Data *)

(* [src/include/sched.h:9-9 NR_TASKS] *)
Definition NR_TASKS : Z := 16.
(* [src/include/sched.h:10-11 KSTACK_TOP] *)
Definition KSTACK_SIZE : Z := 4096.
(* [src/include/sched.h:12-13 USTACK_SIZE] *)
Definition USTACK_SIZE : Z := 4096.
(* [src/include/sched.h:24-24 TASK_RUNNING] *)
Definition TASK_RUNNING : Z := 0.
(* [src/include/sched.h:28-28 TASK_STOPPED] *)
Definition TASK_STOPPED : Z := 8.
(* [src/include/signal.h:9-9 NR_SIGNALS] *)
Definition NR_SIGNALS : Z := 10.

(** Addresses the linker gives to the functions and arrays the kernel takes the
    address of; [switch_ret] is the return address of the call of [switch_to] in
    [context_switch], and [sigreturn_addr] the system call of [src/src/syscall_.S] that a
    signal handler returns to. *)
Class Link := {
  kstack_pool : Z;
  do_shell_user : Z;
  no_sighandler : Z;
  default_sigkill : Z;
  exit_kernel : Z;
  switch_ret : Z;
  sigreturn_addr : Z
}.

(** The registers of a task: [x19] to [x28], and [ttbr0_el1] as [pgd]. *)
(* [src/include/sched.h:42-56 task_state_segment] *)
Record cpu_context := CpuContext {
  x19_x28 : list Z;
  fp : Z;
  lr : Z;
  sp : Z;
  pgd : Z
}.

(* [src/include/sched.h:57-58 task_state_segment] *)
Record task_state_segment := Tss {
  ctx : cpu_context;
  sp_backup : Z
}.

(* [src/include/sched.h:36-39 mm_struct] *)
Record mm_struct := Mm {
  prog_addr : Z;
  prog_sz : Z
}.

(** [fd_table] holds file pointers, 0 for [NULL]. *)
(* [src/include/sched.h:60-77 task_struct] *)
Record task_struct := Task {
  task_id : Z;
  state : Z;
  priority : Z;
  counter : Z;
  pending : Z;
  process_sig : Z;
  sighand : list Z;
  exit_state : Z;
  tss : task_state_segment;
  mm_of : mm_struct;
  current_dir : list Z;
  fd_table : list Z
}.

(* [src/src/sched.c:13-15 task_pool] *)
Record sched_state := Sched {
  task_pool : list task_struct;
  num_running_task : Z;
  current : Z;
  regs : cpu_context;
  heap : slab_state
}.

(** What runs next: the interrupted kernel code of the current task ([Return]), the
    function a task that never ran starts in ([Enter]), or code in user mode with
    its stack pointer ([User]). *)
Inductive resume :=
  | Return
  | Enter (pc : Z)
  | User (pc stack : Z).

Definition set_state (v : Z) (t : task_struct) : task_struct :=
  Task (task_id t) v (priority t) (counter t) (pending t) (process_sig t) (sighand t)
    (exit_state t) (tss t) (mm_of t) (current_dir t) (fd_table t).
Definition set_counter (v : Z) (t : task_struct) : task_struct :=
  Task (task_id t) (state t) (priority t) v (pending t) (process_sig t) (sighand t)
    (exit_state t) (tss t) (mm_of t) (current_dir t) (fd_table t).
Definition set_priority (v : Z) (t : task_struct) : task_struct :=
  Task (task_id t) (state t) v (counter t) (pending t) (process_sig t) (sighand t)
    (exit_state t) (tss t) (mm_of t) (current_dir t) (fd_table t).
Definition set_task_id (v : Z) (t : task_struct) : task_struct :=
  Task v (state t) (priority t) (counter t) (pending t) (process_sig t) (sighand t)
    (exit_state t) (tss t) (mm_of t) (current_dir t) (fd_table t).
Definition set_pending (v : Z) (t : task_struct) : task_struct :=
  Task (task_id t) (state t) (priority t) (counter t) v (process_sig t) (sighand t)
    (exit_state t) (tss t) (mm_of t) (current_dir t) (fd_table t).
Definition set_process_sig (v : Z) (t : task_struct) : task_struct :=
  Task (task_id t) (state t) (priority t) (counter t) (pending t) v (sighand t)
    (exit_state t) (tss t) (mm_of t) (current_dir t) (fd_table t).
Definition set_sighand (v : list Z) (t : task_struct) : task_struct :=
  Task (task_id t) (state t) (priority t) (counter t) (pending t) (process_sig t) v
    (exit_state t) (tss t) (mm_of t) (current_dir t) (fd_table t).
Definition set_exit_state (v : Z) (t : task_struct) : task_struct :=
  Task (task_id t) (state t) (priority t) (counter t) (pending t) (process_sig t) (sighand t)
    v (tss t) (mm_of t) (current_dir t) (fd_table t).
Definition set_tss (v : task_state_segment) (t : task_struct) : task_struct :=
  Task (task_id t) (state t) (priority t) (counter t) (pending t) (process_sig t) (sighand t)
    (exit_state t) v (mm_of t) (current_dir t) (fd_table t).
Definition set_mm (v : mm_struct) (t : task_struct) : task_struct :=
  Task (task_id t) (state t) (priority t) (counter t) (pending t) (process_sig t) (sighand t)
    (exit_state t) (tss t) v (current_dir t) (fd_table t).
Definition set_current_dir (v : list Z) (t : task_struct) : task_struct :=
  Task (task_id t) (state t) (priority t) (counter t) (pending t) (process_sig t) (sighand t)
    (exit_state t) (tss t) (mm_of t) v (fd_table t).
Definition set_fd_table (v : list Z) (t : task_struct) : task_struct :=
  Task (task_id t) (state t) (priority t) (counter t) (pending t) (process_sig t) (sighand t)
    (exit_state t) (tss t) (mm_of t) (current_dir t) v.

Definition set_ctx (c : cpu_context) (t : task_struct) : task_struct :=
  set_tss (Tss c (sp_backup (tss t))) t.

(** * Access to the state *)

Definition task_at (i : Z) : M sched_state task_struct :=
  fun s => match (task_pool s).[i] with Some t => Ok (t, s) | None => Err OutOfBounds end.

Definition put_task (i : Z) (t : task_struct) : M sched_state unit :=
  fun s => match (task_pool s).[i := t] with
           | Some l => Ok (tt, Sched l (num_running_task s) (current s) (regs s) (heap s))
           | None => Err OutOfBounds
           end.

Definition upd_task (i : Z) (f : task_struct -> task_struct) : M sched_state unit :=
  t ← task_at i; put_task i (f t).

Definition get_current : M sched_state Z := gets current.

Definition on_heap {A} (m : M slab_state A) : M sched_state A :=
  fun s => match m (heap s) with
           | Ok (a, h) => Ok (a, Sched (task_pool s) (num_running_task s) (current s) (regs s) h)
           | Err f => Err f
           end.

(* [src/src/sched_.S:2-5 update_current] *)
Definition update_current (i : Z) : M sched_state unit :=
  modify (fun s => Sched (task_pool s) (num_running_task s) i (regs s) (heap s)).

Definition set_num_running (n : Z) : M sched_state unit :=
  modify (fun s => Sched (task_pool s) n (current s) (regs s) (heap s)).

Definition set_regs (c : cpu_context) : M sched_state unit :=
  modify (fun s => Sched (task_pool s) (num_running_task s) (current s) c (heap s)).

(** [lr], the register a function returns to. *)
(* [src/src/sched.c:63-63 context_switch] *)
Definition set_lr (v : Z) : M sched_state unit :=
  c ← gets regs; set_regs (CpuContext (x19_x28 c) (fp c) v (sp c) (pgd c)).

Section Code.
Context `{Link}.

(** [&kstack_pool[i][KSTACK_TOP]]. *)
Definition kstack_top (i : Z) : Z := kstack_pool + i * KSTACK_SIZE + KSTACK_SIZE.

(* [src/src/signal.c:21-24 default_sighandler] *)
Definition default_sighandler : list Z :=
  [no_sighandler; no_sighandler; no_sighandler; no_sighandler; no_sighandler;
   no_sighandler; no_sighandler; no_sighandler; no_sighandler; default_sigkill].

(* [src/src/sched.c:20-24 task_init] *)
Fixpoint task_init_loop (n : nat) (i : Z) : M sched_state unit :=
  match n with
  | O => mret tt
  | S n =>
    _ ← upd_task i (fun t => set_sighand default_sighandler (set_task_id i (set_state TASK_STOPPED t)));
    task_init_loop n (i + 1)
  end.

(* [src/src/sched.c:18-38 task_init] *)
Definition task_init : M sched_state unit :=
  _ ← task_init_loop (Z.to_nat NR_TASKS) 0;
  _ ← upd_task 0 (set_state TASK_RUNNING);
  _ ← upd_task 0 (set_priority 1);
  _ ← upd_task 0 (set_counter 1);
  _ ← update_current 0;
  _ ← set_num_running 1;
  upd_task 0 (fun t => let c := ctx (tss t) in
    set_ctx (CpuContext (x19_x28 c) (kstack_top 0) do_shell_user (kstack_top 0) (pgd c)) t).

(** The tasks from [i] on, [n] of them: the first stopped one, or [NR_TASKS]. *)
(* [src/src/sched.c:75-77 find_empty_task] *)
Fixpoint find_empty_loop (n : nat) (i : Z) : M sched_state Z :=
  match n with
  | O => mret i
  | S n =>
    t ← task_at i;
    if state t =? TASK_STOPPED then mret i else find_empty_loop n (i + 1)
  end.

(* [src/src/sched.c:72-81 find_empty_task] *)
Definition find_empty_task : M sched_state Z :=
  i ← find_empty_loop (Z.to_nat (NR_TASKS - 1)) 1;
  _ ← (if negb (i =? NR_TASKS) then
         n ← gets num_running_task; set_num_running (s32 (n + 1))
       else mret tt);
  mret i.

(* [src/src/sched.c:84-103 privilege_task_create] *)
Definition privilege_task_create (func prio : Z) : M sched_state Z :=
  i ← find_empty_task;
  if negb (i =? NR_TASKS) then
    _ ← upd_task i (set_state TASK_RUNNING);
    _ ← upd_task i (set_priority prio);
    _ ← upd_task i (set_counter prio);
    _ ← upd_task i (fun t => let c := ctx (tss t) in
          set_ctx (CpuContext (x19_x28 c) (kstack_top i) func (kstack_top i) (pgd c)) t);
    mret i
  else fail Hang.

(** [while ((--i) >= 0)], with [n] tasks left, from the last one down. *)
(* [src/src/sched.c:113-118 schedule] *)
Fixpoint scan (n : nat) (c next : Z) : M sched_state (Z * Z) :=
  match n with
  | O => mret (c, next)
  | S n =>
    let i := Z.of_nat n in
    t ← task_at i;
    if (state t =? TASK_RUNNING) && (c <? counter t)
    then scan n (s32 (counter t)) i
    else scan n c next
  end.

Definition recharge (t : task_struct) : task_struct :=
  if state t =? TASK_RUNNING then set_counter (s64 (Z.shiftr (counter t) 1 + priority t)) t else t.

(* [src/src/sched.c:121-123 schedule] *)
Fixpoint reset_counters (n : nat) (i : Z) : M sched_state unit :=
  match n with
  | O => mret tt
  | S n => _ ← upd_task i recharge; reset_counters n (i + 1)
  end.

(** The [while (1)] loop that picks the next task. *)
(* [src/src/sched.c:112-124 schedule] *)
Fixpoint pick (fuel : nat) (c next : Z) : M sched_state Z :=
  match fuel with
  | O => fail NoFuel
  | S fuel =>
    '(c, next) ← scan (Z.to_nat NR_TASKS) c next;
    if negb (c =? 0) then mret next
    else
      _ ← reset_counters (Z.to_nat NR_TASKS) 0;
      pick fuel c next
  end.

(** Save the registers of [prev], with the return address of the call, and load
    those of [next]; the last [ret] jumps to the loaded [lr]. *)
(* [src/src/sched_.S:9-36 switch_to] *)
Definition switch_to (prev next : Z) : M sched_state Z :=
  c ← gets regs;
  _ ← upd_task prev (set_ctx (CpuContext (x19_x28 c) (fp c) switch_ret (sp c) (pgd c)));
  t ← task_at next;
  _ ← set_regs (ctx (tss t));
  mret (lr (ctx (tss t))).

(** The part of [context_switch] after [switch_to], run by the task that was
    switched to; [again] is the call of [schedule]. *)
(* [src/src/sched.c:51-69 context_switch] *)
Definition switched (again : M sched_state resume) : M sched_state resume :=
  cur ← get_current;
  t ← task_at cur;
  if negb (pending t =? 0) then
    sig_stack ← on_heap (kmalloc USTACK_SIZE);
    _ ← upd_task cur (fun t => set_process_sig (pending t) t);
    _ ← upd_task cur (set_pending 0);
    _ ← upd_task cur (fun t => set_tss (Tss (ctx (tss t)) (sp (ctx (tss t)))) t);
    t ← task_at cur;
    handler ← lift_opt OutOfBounds (sighand t).[process_sig t];
    _ ← set_lr sigreturn_addr;
    mret (User handler (u64 (sig_stack + USTACK_SIZE - 16)))
  else if state t =? TASK_STOPPED then again
  else mret Return.

(* [src/src/sched.c:41-69 context_switch] *)
Definition context_switch (again : M sched_state resume) (next : Z) : M sched_state resume :=
  prev ← get_current;
  _ ← update_current next;
  pc ← switch_to prev next;
  if pc =? switch_ret then switched again else mret (Enter pc).

(* [src/src/sched.c:106-127 schedule] *)
Fixpoint schedule (fuel : nat) : M sched_state resume :=
  match fuel with
  | O => fail NoFuel
  | S fuel' =>
    next ← pick fuel (-1) 0;
    cur ← get_current;
    t ← task_at cur;
    if negb (next =? task_id t) then context_switch (schedule fuel') next
    else mret Return
  end.

(** The registers of the task's [tss] are loaded, except [ttbr0_el1]; the last
    [ret] jumps to the loaded [lr]. *)
(* [src/src/sched_.S:38-48 sig_restore_context] *)
Definition sig_restore_context (i : Z) : M sched_state Z :=
  t ← task_at i;
  r ← gets regs;
  let c := ctx (tss t) in
  _ ← set_regs (CpuContext (x19_x28 c) (fp c) (lr c) (sp c) (pgd r));
  mret (lr c).

(** Start task 0, at the [lr] of its [tss].  The interrupts and the core timer are
    switched on in hardware. *)
(* [src/src/sched.c:130-140 sched_init] *)
Definition sched_init : M sched_state Z :=
  _ ← task_init;
  cur ← get_current;
  sig_restore_context cur.

(** The timer tick. *)
(* [src/src/exception.c:206-211 do_timer] *)
Definition do_timer (fuel : nat) : M sched_state resume :=
  cur ← get_current;
  _ ← upd_task cur (fun t => set_counter (s64 (counter t - 1)) t);
  t ← task_at cur;
  if 0 <? counter t then mret Return else schedule fuel.

(** The default handler of [SIGKILL], for the task that runs it. *)
(* [src/src/signal.c:11-19 default_sigkill] *)
Definition run_default_sigkill : M sched_state unit :=
  cur ← get_current;
  t ← task_at cur;
  let pid := task_id t in
  _ ← upd_task pid (set_state TASK_STOPPED);
  _ ← upd_task pid (set_exit_state 0);
  n ← gets num_running_task;
  set_num_running (s32 (n - 1)).

End Code.
