(* ===== verification/SchedInv.v ===== *)
(** The invariant of the scheduler, and what each of its operations does to a
    state that satisfies it. *)
From S2P Require Import Prelude ListHead Memblock Buddy Slab Sched.

Definition running (t : task_struct) : bool := state t =? TASK_RUNNING.

(** The scheduler's fields of the task in slot [i]; counters and priorities are
    bounded so that the [int] that holds the best counter holds every counter. *)
Record task_ok (i : nat) (t : task_struct) : Prop := {
  to_id : task_id t = Z.of_nat i;
  to_state : state t = TASK_RUNNING \/ state t = TASK_STOPPED;
  to_priority : running t = true -> 1 <= priority t < 2 ^ 29;
  to_counter : running t = true -> 0 <= counter t < 2 ^ 30;
  to_pending : 0 <= pending t < NR_SIGNALS;
  to_sighand : Z.of_nat (length (sighand t)) = NR_SIGNALS
}.

Definition count_running (pool : list task_struct) : Z :=
  foldr (fun t n => Z.b2z (running t) + n) 0 pool.

Record sched_ok (s : sched_state) : Prop := {
  so_pool : Z.of_nat (length (task_pool s)) = NR_TASKS;
  so_tasks : forall i t, task_pool s !! i = Some t -> task_ok i t;
  so_current : 0 <= current s < NR_TASKS;
  so_count : num_running_task s = count_running (task_pool s)
}.

Definition with_pool (l : list task_struct) (s : sched_state) : sched_state :=
  Sched l (num_running_task s) (current s) (regs s) (heap s).

(** * Access *)

Lemma task_at_ok s i t :
  task_pool s !! i = Some t -> task_at (Z.of_nat i) s = Ok (t, s).
Proof. intros E. unfold task_at, zget. zcase; [|lia]. by rewrite Nat2Z.id, E. Qed.

Lemma put_task_ok s i t t' :
  task_pool s !! i = Some t -> put_task (Z.of_nat i) t' s = Ok (tt, with_pool (<[i := t']> (task_pool s)) s).
Proof.
  intros E%lookup_lt_Some. unfold put_task. rewrite zset_ok by lia. by rewrite Nat2Z.id.
Qed.

Lemma upd_task_ok s i t f :
  task_pool s !! i = Some t -> upd_task (Z.of_nat i) f s = Ok (tt, with_pool (<[i := f t]> (task_pool s)) s).
Proof.
  intros E. unfold upd_task. run (task_at_ok s i t E). by apply put_task_ok with t.
Qed.

(** A further update of a task that was just updated. *)
Lemma upd_again s i t t' g :
  task_pool s !! i = Some t ->
  upd_task (Z.of_nat i) g (with_pool (<[i := t']> (task_pool s)) s) =
    Ok (tt, with_pool (<[i := g t']> (task_pool s)) s).
Proof.
  intros E. rewrite (upd_task_ok _ i t' g).
  - unfold with_pool. cbn. by rewrite list_insert_insert_eq.
  - cbn. rewrite list_lookup_insert_eq; [done|]. by eapply lookup_lt_Some.
Qed.

Lemma lookup_ok s i :
  sched_ok s -> 0 <= i < NR_TASKS -> exists t, task_pool s !! Z.to_nat i = Some t.
Proof.
  intros H Hi. apply lookup_lt_is_Some_2. pose proof (so_pool s H). lia.
Qed.

Lemma current_ok s : sched_ok s -> exists c t,
  current s = Z.of_nat c /\ task_pool s !! c = Some t /\ task_ok c t.
Proof.
  intros H. destruct (lookup_ok s _ H (so_current s H)) as [t Ht].
  exists (Z.to_nat (current s)), t. pose proof (so_current s H).
  split_and!; [lia|done|by apply (so_tasks s H)].
Qed.

Lemma count_running_insert pool i t t' :
  pool !! i = Some t ->
  count_running (<[i := t']> pool) = count_running pool - Z.b2z (running t) + Z.b2z (running t').
Proof.
  revert i. induction pool as [|u pool IH]; intros [|i] E; [done|done|..]; cbn in *.
  - injection E as ->. lia.
  - specialize (IH i E).
    change (Z.b2z (running u) + count_running (<[i := t']> pool) =
      Z.b2z (running u) + count_running pool - Z.b2z (running t) + Z.b2z (running t')). lia.
Qed.

(** A task whose scheduler fields change, the others being left alone. *)
Lemma sched_ok_insert s i t t' n :
  sched_ok s -> task_pool s !! i = Some t -> task_ok i t' ->
  n = num_running_task s - Z.b2z (running t) + Z.b2z (running t') ->
  sched_ok (Sched (<[i := t']> (task_pool s)) n (current s) (regs s) (heap s)).
Proof.
  intros [Hl Ht Hc Hn] E Ht' ->. split; cbn; [by rewrite length_insert| |done|].
  - intros j u Hu. apply list_lookup_insert_Some in Hu as [(-> & <- & _)|[_ Hu]]; [done|by apply Ht].
  - rewrite (count_running_insert _ _ _ _ E). lia.
Qed.

(** * The choice of the next task *)

(** [j] is runnable, has time left, and no task has more of it; among those that
    have as much it is the last one. *)
Definition chosen (pool : list task_struct) (j : nat) : Prop :=
  exists t, pool !! j = Some t /\ running t = true /\ 0 < counter t /\
    forall k t', pool !! k = Some t' -> running t' = true ->
      counter t' <= counter t /\ ((j < k)%nat -> counter t' < counter t).

Lemma scan_ok n s c next :
  sched_ok s -> (n <= 16)%nat -> -1 <= c ->
  exists c' next', scan n c next s = Ok ((c', next'), s) /\
    ((c' = c /\ next' = next /\
      forall k t, (k < n)%nat -> task_pool s !! k = Some t -> running t = true -> counter t <= c) \/
     (exists j t, next' = Z.of_nat j /\ (j < n)%nat /\ task_pool s !! j = Some t /\ running t = true /\
        counter t = c' /\ c < c' /\
        forall k t', (k < n)%nat -> task_pool s !! k = Some t' -> running t' = true ->
          counter t' <= c' /\ ((j < k)%nat -> counter t' < c'))).
Proof.
  intros Hs. revert c next. induction n as [|n IH]; intros c next Hn Hc.
  { exists c, next. split; [done|]. left. split_and!; try done. lia. }
  destruct (lookup_ok s (Z.of_nat n) Hs) as [t Ht]; [unfold NR_TASKS; lia|].
  rewrite Nat2Z.id in Ht. cbn [scan]. run (task_at_ok s n t Ht). fold (running t).
  pose proof (so_tasks s Hs n t Ht) as Hok.
  destruct (running t && (c <? counter t)) eqn:Eb.
  - zbool. pose proof (to_counter n t Hok ltac:(done)). rewrite s32_small by lia.
    destruct (IH (counter t) (Z.of_nat n)) as (c' & next' & E & Hr); [lia|lia|].
    exists c', next'. split; [exact E|]. right. destruct Hr as [(-> & -> & Hr)|(j & u & -> & Hj & Hu & Hru & Hcu & Hlt & Hr)].
    + exists n, t. split_and!; try done; [lia|]. intros k u Hk Hu Hru.
      destruct (decide (k = n)) as [->|Hne]; [|specialize (Hr k u ltac:(lia) Hu Hru); lia].
      assert (u = t) as -> by congruence. lia.
    + exists j, u. split_and!; try done; [lia|lia|]. intros k v Hk Hv Hrv.
      destruct (decide (k = n)) as [->|Hne]; [|by apply (Hr k v); [lia|..]].
      assert (v = t) as -> by congruence. lia.
  - destruct (IH c next) as (c' & next' & E & Hr); [lia|lia|].
    assert (Ht' : running t = true -> counter t <= c).
    { intros Hrt. rewrite Hrt in Eb. cbn in Eb. zbool. done. }
    exists c', next'. split; [exact E|]. destruct Hr as [(-> & -> & Hr)|(j & u & -> & Hj & Hu & Hru & Hcu & Hlt & Hr)].
    + left. split_and!; try done. intros k u Hk Hu Hru.
      destruct (decide (k = n)) as [->|Hne]; [|by apply (Hr k u); [lia|..]].
      assert (u = t) as -> by congruence. auto.
    + right. exists j, u. split_and!; try done; [lia|]. intros k v Hk Hv Hrv.
      destruct (decide (k = n)) as [->|Hne]; [|by apply (Hr k v); [lia|..]].
      assert (v = t) as -> by congruence. specialize (Ht' Hrv). lia.
Qed.

Lemma reset_counters_ok n i s :
  (i + n <= length (task_pool s))%nat ->
  reset_counters n (Z.of_nat i) s =
    Ok (tt, with_pool (take i (task_pool s) ++ map recharge (take n (drop i (task_pool s)))
                       ++ drop (i + n) (task_pool s)) s).
Proof.
  revert i s. induction n as [|n IH]; intros i s Hn.
  - cbn [reset_counters]. rewrite Nat.add_0_r, take_0. cbn [map app]. rewrite take_drop. by destruct s.
  - destruct (lookup_lt_is_Some_2 (task_pool s) i) as [t Ht]; [lia|].
    cbn [reset_counters]. run (upd_task_ok s i t recharge Ht).
    replace (Z.of_nat i + 1) with (Z.of_nat (S i)) by lia.
    rewrite IH by (cbn; rewrite length_insert; lia).
    f_equal. f_equal. unfold with_pool. cbn. f_equal.
    rewrite (drop_S _ _ _ Ht). cbn.
    rewrite (take_S_r _ _ (recharge t)) by (apply list_lookup_insert_eq; lia).
    rewrite take_insert_ge by lia. rewrite !drop_insert_lt by lia.
    rewrite <-app_assoc. cbn. replace (i + S n)%nat with (S (i + n)) by lia. done.
Qed.

Lemma reset_all_ok s :
  sched_ok s -> reset_counters (Z.to_nat NR_TASKS) 0 s = Ok (tt, with_pool (map recharge (task_pool s)) s).
Proof.
  intros Hs. pose proof (so_pool s Hs) as Hl. change 0 with (Z.of_nat 0).
  rewrite reset_counters_ok by (cbn [Nat.add]; lia). f_equal. f_equal. f_equal.
  cbn [take drop app Nat.add]. rewrite <-Hl, Nat2Z.id, drop_all, app_nil_r.
  rewrite take_0, drop_0. cbn [app]. by rewrite take_ge by lia.
Qed.

Lemma recharge_running t : running (recharge t) = running t.
Proof. unfold recharge, running. destruct (state t =? TASK_RUNNING) eqn:E; cbn; by rewrite ?E. Qed.

Lemma recharge_counter t i :
  task_ok i t -> running t = true -> counter (recharge t) = counter t / 2 + priority t.
Proof.
  intros Hok Hr. pose proof (to_priority i t Hok Hr). pose proof (to_counter i t Hok Hr).
  unfold recharge. unfold running in Hr. rewrite Hr. cbn. rewrite Z.shiftr_div_pow2 by lia.
  change (2 ^ 1) with 2. assert (0 <= counter t / 2 < 2 ^ 29).
  { split; [apply Z.div_pos; lia|]. apply Z.div_lt_upper_bound; lia. }
  apply s64_small. lia.
Qed.

Lemma recharge_ok i t : task_ok i t -> task_ok i (recharge t).
Proof.
  intros Hok. pose proof (recharge_counter t i Hok) as Hc. pose proof (recharge_running t) as Hr.
  destruct Hok as [H1 H2 H3 H4 H5 H6].
  assert (E : forall A (f : task_struct -> A), (forall v u, f (set_counter v u) = f u) -> f (recharge t) = f t).
  { intros A f Hf. unfold recharge. by destruct (_ =? _). }
  split; rewrite ?Hr; rewrite ?(E _ task_id), ?(E _ state), ?(E _ priority), ?(E _ pending),
    ?(E _ sighand) by done; try done.
  intros Hrt. specialize (Hc Hrt). specialize (H3 Hrt). specialize (H4 Hrt). rewrite Hc.
  assert (0 <= counter t / 2 < 2 ^ 29).
  { split; [apply Z.div_pos; lia|]. apply Z.div_lt_upper_bound; lia. }
  lia.
Qed.

Lemma count_recharge pool : count_running (map recharge pool) = count_running pool.
Proof.
  induction pool as [|t pool IH]; [done|].
  unfold count_running in *. cbn. by rewrite recharge_running, IH.
Qed.

Lemma sched_ok_recharge s : sched_ok s -> sched_ok (with_pool (map recharge (task_pool s)) s).
Proof.
  intros [Hl Ht Hc Hn]. split; cbn; [by rewrite length_map| |done|by rewrite count_recharge].
  intros i t E. apply list_lookup_fmap_Some in E as (u & -> & Hu). by apply recharge_ok, Ht.
Qed.

(** What the loop of [schedule] does to the counters: nothing, or a recharge of
    every runnable task when none of them had time left. *)
Definition charged (pool pool' : list task_struct) : Prop :=
  pool' = pool \/
  ((forall k t, pool !! k = Some t -> running t = true -> counter t = 0) /\ pool' = map recharge pool).

Definition some_running (s : sched_state) : Prop :=
  exists k t, task_pool s !! k = Some t /\ running t = true.

Lemma sched_ok_charged s pool' :
  sched_ok s -> charged (task_pool s) pool' -> sched_ok (with_pool pool' s).
Proof.
  intros Hs [->|[_ ->]]; [by destruct s|by apply sched_ok_recharge].
Qed.

Lemma pick_ok s fuel :
  sched_ok s -> some_running s ->
  exists j pool', pick (S (S fuel)) (-1) 0 s = Ok (Z.of_nat j, with_pool pool' s) /\
    charged (task_pool s) pool' /\ chosen pool' j.
Proof.
  intros Hs (k & t & Hk & Hr). cbn [pick].
  pose proof (lookup_lt_Some _ _ _ Hk) as Hlt. pose proof (so_pool s Hs) as Hl.
  change (Z.to_nat NR_TASKS) with 16%nat. unfold NR_TASKS in Hl.
  destruct (scan_ok 16 s (-1) 0 Hs) as (c & next & E & Hsc); [lia|lia|].
  run E. destruct Hsc as [(-> & -> & Hno)|(j & u & -> & Hj & Hu & Hru & <- & Hpos & Hmax)].
  { specialize (Hno k t ltac:(lia) Hk Hr). pose proof (to_counter k t (so_tasks s Hs k t Hk) Hr). lia. }
  pose proof (to_counter j u (so_tasks s Hs j u Hu) Hru) as Hcu.
  assert (Hin : forall i v, task_pool s !! i = Some v -> (i < 16)%nat).
  { intros i v Hi%lookup_lt_Some. lia. }
  destruct (Z.eqb_spec (counter u) 0) as [E0|Hne]; cbn [negb].
  2:{ exists j, (task_pool s). split_and!; [by destruct s|by left|].
      exists u. split_and!; try done; [lia|]. intros i v Hi Hv.
      apply (Hmax i v); [by eapply Hin|done|done]. }
  pose proof (reset_all_ok s Hs) as Ere. change (Z.to_nat NR_TASKS) with 16%nat in Ere. run Ere.
  assert (Hzero : forall i v, task_pool s !! i = Some v -> running v = true -> counter v = 0).
  { intros i v Hi Hv. pose proof (Hmax i v (Hin i v Hi) Hi Hv).
    pose proof (to_counter i v (so_tasks s Hs i v Hi) Hv). lia. }
  set (s' := with_pool (map recharge (task_pool s)) s).
  pose proof (sched_ok_recharge s Hs) as Hs'. fold s' in Hs'.
  assert (Hget : forall i v, task_pool s' !! i = Some v -> running v = true ->
            exists w, task_pool s !! i = Some w /\ v = recharge w /\ running w = true /\ 1 <= counter v).
  { intros i v Hi Hv. apply list_lookup_fmap_Some in Hi as (w & -> & Hw).
    exists w. rewrite recharge_running in Hv. split_and!; try done.
    rewrite (recharge_counter w i (so_tasks s Hs i w Hw) Hv), (Hzero i w Hw Hv).
    pose proof (to_priority i w (so_tasks s Hs i w Hw) Hv). change (0 / 2) with 0. lia. }
  rewrite E0. destruct (scan_ok 16 s' 0 (Z.of_nat j) Hs') as (c & next & E' & Hsc'); [lia|lia|].
  run E'. destruct Hsc' as [(-> & -> & Hno)|(j' & u' & -> & Hj' & Hu' & Hru' & <- & Hpos' & Hmax')].
  - assert (Hj2 : task_pool s' !! j = Some (recharge u)) by (cbn; by rewrite list_lookup_fmap, Hu).
    specialize (Hno j (recharge u) ltac:(lia) Hj2 ltac:(by rewrite recharge_running)).
    destruct (Hget j (recharge u) Hj2 ltac:(by rewrite recharge_running)) as (? & _ & _ & _ & ?). lia.
  - destruct (Z.eqb_spec (counter u') 0) as [?|_]; [lia|]. cbn [negb].
    exists j', (map recharge (task_pool s)). split_and!; [done|by right|].
    exists u'. split_and!; try done. intros i v Hi Hv. apply (Hmax' i v); [|done|done].
    destruct (Hget i v Hi Hv) as (w & Hw & _). by eapply Hin.
Qed.
