(* ===== verification/SchedSpec.v ===== *)
(** What the scheduler promises: which task runs next, that a stopped task never
    does while there is a runnable one, and that every runnable task gets its turn. *)
From S2P Require Import Prelude ListHead Memblock Buddy Slab Sched SchedInv.

Section Spec.
Context `{Link}.

(** * The context switch *)

(** A task whose pending signal is delivered. *)
Definition deliver (t : task_struct) : task_struct :=
  set_tss (Tss (ctx (tss t)) (sp (ctx (tss t)))) (set_pending 0 (set_process_sig (pending t) t)).

(** The registers a handler starts with: it returns to [sigreturn]. *)
Definition handler_regs (c : cpu_context) : cpu_context :=
  CpuContext (x19_x28 c) (fp c) sigreturn_addr (sp c) (pgd c).

Definition saved (s : sched_state) : cpu_context :=
  CpuContext (x19_x28 (regs s)) (fp (regs s)) switch_ret (sp (regs s)) (pgd (regs s)).

(** The state once [switch_to] has left task [c], whose structure is [tc], for
    task [j], whose structure is [t]. *)
Definition after_switch (s : sched_state) (c : nat) (tc : task_struct) (j : nat) (t : task_struct) :
  sched_state :=
  Sched (<[c := set_ctx (saved s) tc]> (task_pool s)) (num_running_task s) (Z.of_nat j)
    (ctx (tss t)) (heap s).

Lemma task_ok_ctx i c t : task_ok i t -> task_ok i (set_ctx c t).
Proof. by intros [? ? ? ? ? ?]; split. Qed.

Lemma task_ok_deliver i t : task_ok i t -> task_ok i (deliver t).
Proof. intros [? ? ? ? ? ?]; split; try done. Qed.

Lemma after_switch_ok s c tc j t :
  sched_ok s -> task_pool s !! c = Some tc -> task_pool s !! j = Some t ->
  sched_ok (after_switch s c tc j t).
Proof.
  intros Hs Hc Hj. pose proof (so_pool s Hs). apply lookup_lt_Some in Hj as Hlt.
  pose proof (sched_ok_insert s c tc (set_ctx (saved s) tc) (num_running_task s) Hs Hc) as [H1 H2 H3 H4].
  { by apply task_ok_ctx, (so_tasks s Hs). }
  { change (running (set_ctx (saved s) tc)) with (running tc). lia. }
  split; cbn in *; [done|done|lia|done].
Qed.

Lemma switch_to_ok s c tc j t :
  task_pool s !! c = Some tc -> task_pool s !! j = Some t -> c <> j -> current s = Z.of_nat c ->
  forall again, context_switch again (Z.of_nat j) s =
    let s1 := after_switch s c tc j t in
    if lr (ctx (tss t)) =? switch_ret then switched again s1 else Ok (Enter (lr (ctx (tss t))), s1).
Proof.
  intros Hc Hj Hne Hcur again. unfold context_switch, get_current. run (gets_ok current s). rewrite Hcur.
  set (s0 := Sched (task_pool s) (num_running_task s) (Z.of_nat j) (regs s) (heap s)).
  run (eq_refl : update_current (Z.of_nat j) s = Ok (tt, s0)).
  assert (E : switch_to (Z.of_nat c) (Z.of_nat j) s0 =
              Ok (lr (ctx (tss t)), after_switch s c tc j t)).
  { unfold switch_to. run (gets_ok regs s0). run (upd_task_ok s0 c tc (set_ctx (saved s)) Hc).
    rewrite (bind_ok _ _ _ t (with_pool (<[c := set_ctx (saved s) tc]> (task_pool s)) s0)); [done|].
    apply task_at_ok. cbn. by rewrite list_lookup_insert_ne. }
  run E. destruct (_ =? _); done.
Qed.

Lemma switched_ok s c t again :
  sched_ok s -> current s = Z.of_nat c -> task_pool s !! c = Some t ->
  (pending t = 0 -> running t = true -> switched again s = Ok (Return, s)) /\
  (pending t = 0 -> running t = false -> switched again s = again s) /\
  (pending t <> 0 -> exists handler, sighand t !! Z.to_nat (pending t) = Some handler /\
     (forall stk h, kmalloc USTACK_SIZE (heap s) = Ok (stk, h) ->
       switched again s = Ok (User handler (u64 (stk + USTACK_SIZE - 16)),
         Sched (<[c := deliver t]> (task_pool s)) (num_running_task s) (current s) (handler_regs (regs s)) h)) /\
     (forall f, kmalloc USTACK_SIZE (heap s) = Err f -> switched again s = Err f)).
Proof.
  intros Hs Hcur Hc. pose proof (so_tasks s Hs c t Hc) as Ht.
  unfold switched, get_current. rewrite (bind_ok _ _ _ _ _ (gets_ok current s)). cbv beta. rewrite Hcur.
  run (task_at_ok s c t Hc). split_and!.
  - intros -> Hr. unfold running in Hr. zbool. by rewrite Hr.
  - intros -> Hr. destruct (to_state c t Ht) as [E|E]; unfold running in Hr; rewrite E in *; done.
  - intros Hp. pose proof (to_pending c t Ht) as Hpr. pose proof (to_sighand c t Ht) as Hl.
    destruct (lookup_lt_is_Some_2 (sighand t) (Z.to_nat (pending t))) as [hd Hh]; [lia|].
    exists hd. destruct (Z.eqb_spec (pending t) 0) as [|_]; [done|]. cbn [negb].
    split_and!; [done| |].
    + intros stk h Ek. set (s1 := Sched (task_pool s) (num_running_task s) (current s) (regs s) h).
      rewrite (bind_ok _ _ _ stk s1); [|unfold on_heap; by rewrite Ek]. cbv beta.
      run (upd_task_ok s1 c t (fun t => set_process_sig (pending t) t) Hc).
      set (t1 := set_process_sig (pending t) t).
      run (upd_again s1 c t t1 (set_pending 0) Hc).
      run (upd_again s1 c t (set_pending 0 t1) (fun t => set_tss (Tss (ctx (tss t)) (sp (ctx (tss t)))) t) Hc).
      set (s4 := with_pool _ s1).
      assert (Hc4 : task_pool s4 !! c = Some (deliver t)).
      { cbn. rewrite list_lookup_insert_eq; [done|]. by eapply lookup_lt_Some. }
      run (task_at_ok s4 c _ Hc4).
      change (sighand (deliver t)) with (sighand t). change (process_sig (deliver t)) with (pending t).
      rewrite (bind_ok _ _ _ hd s4).
      2:{ unfold lift_opt. replace (zget _ _) with (Some hd); [done|].
          symmetry. apply zget_Some. split; [lia|done]. }
      rewrite <-Hcur. done.
    + intros f Ek. apply bind_err. unfold on_heap. by rewrite Ek.
Qed.

(** * The next task *)

Lemma with_pool_id s : with_pool (task_pool s) s = s.
Proof. by destruct s. Qed.

Lemma charged_lookup pool pool' i t :
  charged pool pool' -> pool !! i = Some t ->
  exists t', pool' !! i = Some t' /\ running t' = running t /\ (t' = t \/ t' = recharge t).
Proof.
  intros [->|[_ ->]] E; [by exists t; auto|]. exists (recharge t).
  rewrite list_lookup_fmap, E. split_and!; [done|apply recharge_running|by right].
Qed.

Lemma schedule_ok s fuel :
  sched_ok s -> some_running s ->
  exists j pool' t, charged (task_pool s) pool' /\ chosen pool' j /\ pool' !! j = Some t /\
    (current s = Z.of_nat j -> schedule (S (S fuel)) s = Ok (Return, with_pool pool' s)) /\
    (current s <> Z.of_nat j -> exists c tc, current s = Z.of_nat c /\ c <> j /\ pool' !! c = Some tc /\
       let s1 := after_switch (with_pool pool' s) c tc j t in
       (lr (ctx (tss t)) <> switch_ret ->
          schedule (S (S fuel)) s = Ok (Enter (lr (ctx (tss t))), s1)) /\
       (lr (ctx (tss t)) = switch_ret -> pending t = 0 ->
          schedule (S (S fuel)) s = Ok (Return, s1)) /\
       (lr (ctx (tss t)) = switch_ret -> pending t <> 0 ->
          exists handler, sighand t !! Z.to_nat (pending t) = Some handler /\
          (forall stk h, kmalloc USTACK_SIZE (heap s) = Ok (stk, h) ->
           schedule (S (S fuel)) s = Ok (User handler (u64 (stk + USTACK_SIZE - 16)),
             Sched (<[j := deliver t]> (task_pool s1)) (num_running_task s1) (current s1) (handler_regs (regs s1)) h)) /\
          (forall f, kmalloc USTACK_SIZE (heap s) = Err f -> schedule (S (S fuel)) s = Err f))).
Proof.
  intros Hs Hr. destruct (pick_ok s fuel Hs Hr) as (j & pool' & E & Hch & Hjc).
  pose proof Hjc as (t & Hj & Hrt & Hct & _). exists j, pool', t. split_and!; try done.
  - intros Hcur. cbn [schedule]. run E. unfold get_current. run (gets_ok current (with_pool pool' s)).
    cbn. rewrite Hcur. run (task_at_ok (with_pool pool' s) j t Hj).
    pose proof (so_tasks _ (sched_ok_charged s pool' Hs Hch) j t Hj) as Ht.
    rewrite (to_id j t Ht), Z.eqb_refl. done.
  - intros Hcur. set (s' := with_pool pool' s). pose proof (sched_ok_charged s pool' Hs Hch) as Hs'. fold s' in Hs'.
    destruct (current_ok s' Hs') as (c & tc & Ec & Hc & Htc). exists c, tc.
    assert (Hne : c <> j) by (intros ->; apply Hcur; exact Ec).
    split_and!; [exact Ec|done|done|].
    assert (Es : schedule (S (S fuel)) s = context_switch (schedule (S fuel)) (Z.of_nat j) s').
    { cbn [schedule]. run E. fold s'. unfold get_current. run (gets_ok current s'). rewrite Ec.
      run (task_at_ok s' c tc Hc). rewrite (to_id c tc Htc).
      destruct (Z.eqb_spec (Z.of_nat j) (Z.of_nat c)); [lia|done]. }
    rewrite Es, (switch_to_ok s' c tc j t Hc Hj Hne Ec). cbv zeta.
    set (s1 := after_switch s' c tc j t).
    assert (Hj1 : task_pool s1 !! j = Some t) by (cbn; by rewrite list_lookup_insert_ne).
    destruct (switched_ok s1 j t (schedule (S fuel)) (after_switch_ok s' c tc j t Hs' Hc Hj) eq_refl Hj1)
      as (H1 & _ & H3).
    split_and!.
    + intros Hlr. by destruct (Z.eqb_spec (lr (ctx (tss t))) switch_ret).
    + intros -> Hp. rewrite Z.eqb_refl. by apply H1.
    + intros -> Hp. rewrite Z.eqb_refl. destruct (H3 Hp) as (hd & Hh & Hk & Hf). by exists hd.
Qed.

(** The current task may run. *)
Definition current_running (s : sched_state) : Prop :=
  exists c t, current s = Z.of_nat c /\ task_pool s !! c = Some t /\ running t = true.

Lemma schedule_inv s fuel r s' :
  sched_ok s -> some_running s -> schedule (S (S fuel)) s = Ok (r, s') ->
  sched_ok s' /\ current_running s'.
Proof.
  intros Hs Hr E.
  destruct (schedule_ok s fuel Hs Hr) as (j & pool' & t & Hch & (t' & Hj' & Hrt & _) & Hj & H1 & H2).
  assert (t' = t) as -> by congruence. pose proof (sched_ok_charged s pool' Hs Hch) as Hs'.
  destruct (decide (current s = Z.of_nat j)) as [Hc|Hc].
  - rewrite (H1 Hc) in E. injection E as <- <-. split; [done|]. by exists j, t.
  - destruct (H2 Hc) as (c & tc & Ec & Hne & Htc & H3 & H4 & H5).
    set (s1 := after_switch (with_pool pool' s) c tc j t) in *.
    assert (Hs1 : sched_ok s1) by by apply after_switch_ok.
    assert (Hj1 : task_pool s1 !! j = Some t) by (cbn; by rewrite list_lookup_insert_ne).
    destruct (decide (lr (ctx (tss t)) = switch_ret)) as [Hlr|Hlr].
    2:{ rewrite (H3 Hlr) in E. injection E as <- <-. split; [done|]. by exists j, t. }
    destruct (decide (pending t = 0)) as [Hp|Hp].
    { rewrite (H4 Hlr Hp) in E. injection E as <- <-. split; [done|]. by exists j, t. }
    destruct (H5 Hlr Hp) as (hd & Hh & Hk & Hf).
    destruct (kmalloc USTACK_SIZE (heap s)) as [[stk h]|f] eqn:Ek.
    2:{ by rewrite (Hf f eq_refl) in E. }
    rewrite (Hk stk h eq_refl) in E. injection E as <- <-. split.
    + pose proof (sched_ok_insert s1 j t (deliver t) (num_running_task s1) Hs1 Hj1) as [A B C D].
      { by apply task_ok_deliver, (so_tasks s1 Hs1). }
      { change (running (deliver t)) with (running t). lia. }
      by split.
    + exists j, (deliver t). split_and!; [done| |done].
      cbn [task_pool]. rewrite list_lookup_insert_eq; [done|]. by eapply lookup_lt_Some.
Qed.

(** * Time slices *)

(** What the choice of the next task depends on. *)
Definition slice : Type := bool * Z * Z.
Definition slice_of (t : task_struct) : slice := (running t, priority t, counter t).
Definition slices (s : sched_state) : list slice := map slice_of (task_pool s).

(** Ticks left before the runnable tasks are recharged. *)
Definition energy (l : list slice) : Z :=
  foldr (fun '(r, p, c) n => (if (r : bool) then c else 0) + n) 0 l.
(** Ticks of a full round. *)
Definition round (l : list slice) : Z :=
  foldr (fun '(r, p, c) n => (if (r : bool) then p else 0) + n) 0 l.
Definition refill (x : slice) : slice := let '(r, p, c) := x in (r, p, if (r : bool) then p else c).

Definition sound (l : list slice) : Prop :=
  forall i r p c, l !! i = Some (r, p, c) -> (r : bool) = true -> 0 <= c /\ 1 <= p.

Lemma energy_ge l i p c : sound l -> l !! i = Some (true, p, c) -> c <= energy l.
Proof.
  revert i. induction l as [|[[r p'] c'] l IH]; intros i Hs E; [done|].
  assert (Hl : sound l) by (intros k; apply (Hs (S k))).
  assert (0 <= energy l).
  { clear -Hl. induction l as [|[[r p'] c'] l IH]; [done|]. cbn.
    specialize (IH (fun k => Hl (S k))). destruct r; [|done].
    destruct (Hl O true p' c' eq_refl eq_refl). fold (energy l). lia. }
  destruct i as [|i]; cbn.
  - injection E as -> -> ->. fold (energy l). lia.
  - specialize (IH i Hl E). fold (energy l). destruct r; [|lia].
    destruct (Hs O true p' c' eq_refl eq_refl). lia.
Qed.

Lemma energy_insert l i p c c' :
  l !! i = Some (true, p, c) -> energy (<[i := (true, p, c')]> l) = energy l - c + c'.
Proof.
  revert i. induction l as [|[[r p0] c0] l IH]; intros [|i] E; [done|done| |].
  - injection E as -> -> ->. cbn. fold (energy l). lia.
  - specialize (IH i E). change (<[S i := (true, p, c')]> ((r, p0, c0) :: l))
      with ((r, p0, c0) :: <[i := (true, p, c')]> l).
    change (energy ((r, p0, c0) :: ?x)) with ((if r then c0 else 0) + energy x).
    cbn [energy foldr]. fold (energy l). fold (energy (<[i := (true, p, c')]> l)). lia.
Qed.

Lemma round_insert l i p c c' :
  l !! i = Some (true, p, c) -> round (<[i := (true, p, c')]> l) = round l.
Proof.
  revert i. induction l as [|[[r p0] c0] l IH]; intros [|i] E; [done|done| |].
  - by injection E as -> -> ->.
  - specialize (IH i E). change (<[S i := (true, p, c')]> ((r, p0, c0) :: l))
      with ((r, p0, c0) :: <[i := (true, p, c')]> l).
    cbn [round foldr]. fold (round l). fold (round (<[i := (true, p, c')]> l)). lia.
Qed.

Lemma energy_refill l : energy (map refill l) = round l.
Proof.
  induction l as [|[[r p] c] l IH]; [done|]. cbn [map refill energy round foldr].
  fold (energy (map refill l)). fold (round l). rewrite IH. by destruct r.
Qed.

Lemma round_refill l : round (map refill l) = round l.
Proof.
  induction l as [|[[r p] c] l IH]; [done|]. cbn [map refill round foldr].
  fold (round (map refill l)). fold (round l). by rewrite IH.
Qed.

Lemma slices_lookup s i x : slices s !! i = Some x <-> exists t, task_pool s !! i = Some t /\ x = slice_of t.
Proof. unfold slices. rewrite list_lookup_fmap_Some. naive_solver. Qed.

Lemma slices_sound s : sched_ok s -> sound (slices s).
Proof.
  intros Hs i r p c E Hr. apply slices_lookup in E as (t & Ht & Ex). injection Ex as -> -> ->.
  pose proof (so_tasks s Hs i t Ht) as Hok. pose proof (to_counter i t Hok Hr).
  pose proof (to_priority i t Hok Hr). lia.
Qed.

(** ** One tick *)

(** No signal waits for a task. *)
Definition quiet (s : sched_state) : Prop := forall i t, task_pool s !! i = Some t -> pending t = 0.

(** The current task runs and has time left. *)
Definition active (s : sched_state) : Prop :=
  exists c p k, current s = Z.of_nat c /\ slices s !! c = Some (true, p, k) /\ 0 < k.

Lemma quiet_recharge pool : (forall i t, pool !! i = Some t -> pending t = 0) ->
  forall i t, map recharge pool !! i = Some t -> pending t = 0.
Proof.
  intros Hp i t E. apply list_lookup_fmap_Some in E as (u & -> & Hu).
  unfold recharge. destruct (_ =? _); by apply (Hp i u).
Qed.

Lemma schedule_quiet s fuel :
  sched_ok s -> quiet s -> some_running s ->
  exists r s' pool', schedule (S (S fuel)) s = Ok (r, s') /\ sched_ok s' /\ quiet s' /\ active s' /\
    charged (task_pool s) pool' /\ slices s' = map slice_of pool'.
Proof.
  intros Hs Hq Hr. destruct (schedule_ok s fuel Hs Hr)
    as (j & pool' & t & Hch & (t' & Hj' & Hrt & Hpos & _) & Hj & H1 & H2).
  assert (t' = t) as -> by congruence. pose proof (sched_ok_charged s pool' Hs Hch) as Hs'.
  assert (Hq' : forall i u, pool' !! i = Some u -> pending u = 0).
  { destruct Hch as [->|[_ ->]]; [exact Hq|by apply quiet_recharge]. }
  destruct (decide (current s = Z.of_nat j)) as [Hc|Hc].
  { exists Return, (with_pool pool' s), pool'. split_and!; try done; [by apply H1|].
    exists j, (priority t), (counter t). split_and!; [done| |done].
    apply slices_lookup. exists t. split; [done|]. unfold slice_of. by rewrite Hrt. }
  destruct (H2 Hc) as (c & tc & Ec & Hne & Htc & H3 & H4 & _).
  set (s1 := after_switch (with_pool pool' s) c tc j t) in *.
  assert (Hs1 : sched_ok s1) by by apply after_switch_ok.
  assert (Hsl : slices s1 = map slice_of pool').
  { unfold slices, s1. cbn. apply list_eq. intros i. rewrite !list_lookup_fmap.
    destruct (decide (i = c)) as [->|Hic]; [|by rewrite list_lookup_insert_ne].
    rewrite list_lookup_insert_eq by by eapply lookup_lt_Some. by rewrite Htc. }
  exists (if lr (ctx (tss t)) =? switch_ret then Return else Enter (lr (ctx (tss t)))), s1, pool'.
  split_and!; try done.
  - destruct (Z.eqb_spec (lr (ctx (tss t))) switch_ret) as [E|E]; [|by apply H3].
    apply H4; [done|by apply (Hq' j)].
  - intros i u Hu. cbn in Hu. apply list_lookup_insert_Some in Hu as [(<- & <- & _)|[_ Hu]].
    + by apply (Hq' c tc).
    + by apply (Hq' i u).
  - exists j, (priority t), (counter t). split_and!; [done| |done].
    rewrite Hsl, list_lookup_fmap, Hj. cbn. unfold slice_of. by rewrite Hrt.
Qed.

(** A tick takes one unit from the task that runs, and recharges every runnable
    task when that was the last unit of all. *)
Lemma tick_ok s fuel :
  sched_ok s -> quiet s -> active s ->
  exists r s' c p k, do_timer (S (S fuel)) s = Ok (r, s') /\ sched_ok s' /\ quiet s' /\ active s' /\
    current s = Z.of_nat c /\ slices s !! c = Some (true, p, k) /\
    let l := <[c := (true, p, k - 1)]> (slices s) in
    (slices s' = l \/
     ((forall i p' k', l !! i = Some (true, p', k') -> k' = 0) /\ slices s' = map refill l)).
Proof.
  intros Hs Hq (c & p & k & Ec & Hc & Hk). apply slices_lookup in Hc as Hc'.
  destruct Hc' as (t & Ht & Ex). injection Ex as Er -> ->.
  pose proof (so_tasks s Hs c t Ht) as Hok. pose proof (to_counter c t Hok (eq_sym Er)) as Hct.
  unfold do_timer, get_current. rewrite (bind_ok _ _ _ _ _ (gets_ok current s)). cbv beta. rewrite Ec.
  rewrite (bind_ok _ _ _ _ _ (upd_task_ok s c t (fun t => set_counter (s64 (counter t - 1)) t) Ht)). cbv beta.
  rewrite s64_small by lia. set (t1 := set_counter (counter t - 1) t). set (s1 := with_pool _ s).
  assert (Hlt : (c < length (task_pool s))%nat) by by eapply lookup_lt_Some.
  assert (Ht1 : task_pool s1 !! c = Some t1) by (cbn; by rewrite list_lookup_insert_eq).
  assert (Hr1 : running t1 = running t) by done.
  assert (Hs1 : sched_ok s1).
  { apply (sched_ok_insert s c t t1 (num_running_task s) Hs Ht); [|rewrite Hr1; lia].
    destruct Hok as [A B C D E F]. split; try done. intros _. cbn. lia. }
  assert (Hq1 : quiet s1).
  { intros i u Hu. apply list_lookup_insert_Some in Hu as [(<- & <- & _)|[_ Hu]]; [by apply (Hq c t)|by apply (Hq i u)]. }
  assert (Hsl : slices s1 = <[c := (true, priority t, counter t - 1)]> (slices s)).
  { unfold slices, s1. cbn. rewrite list_fmap_insert. f_equal. unfold slice_of. rewrite Hr1, <-Er. done. }
  run (task_at_ok s1 c t1 Ht1). destruct (Z.ltb_spec 0 (counter t1)) as [Hp|Hp].
  - exists Return, s1, c, (priority t), (counter t). split_and!; try done; [|by left].
    exists c, (priority t), (counter t1). split_and!; [done| |done].
    rewrite Hsl. apply list_lookup_insert_eq. unfold slices. by rewrite length_map.
  - destruct (schedule_quiet s1 fuel Hs1 Hq1) as (r & s' & pool' & E & Hs' & Hq' & Ha' & Hch & Hsl').
    { exists c, t1. by rewrite Hr1. }
    exists r, s', c, (priority t), (counter t). split_and!; try done.
    cbv zeta. rewrite <-Hsl, Hsl'. destruct Hch as [->|[Hz ->]]; [by left|]. right. split.
    + intros i p' k' Hi. apply slices_lookup in Hi as (u & Hu & Ex). injection Ex as Eu -> ->.
      by apply (Hz i u).
    + unfold slices. rewrite !map_map. apply list_eq. intros i. rewrite !list_lookup_fmap.
      destruct (task_pool s1 !! i) as [u|] eqn:Hu; [|done]. cbn. f_equal. unfold slice_of.
      rewrite recharge_running. cbn. unfold recharge. fold (running u).
      destruct (running u) eqn:Eu; [|done]. cbn.
      pose proof (so_tasks s1 Hs1 i u Hu) as Hou. pose proof (to_priority i u Hou Eu).
      rewrite (Hz i u Hu Eu). change (Z.shiftr 0 1) with 0. by rewrite s64_small by lia.
Qed.

(** ** Every runnable task gets its turn *)

Fixpoint ticks (n : nat) (s : sched_state) : res sched_state :=
  match n with
  | O => Ok s
  | S n => '(_, s) ← do_timer 2 s; ticks n s
  end.

Lemma ticks_S s r s' n : do_timer 2 s = Ok (r, s') -> ticks (S n) s = ticks n s'.
Proof. intros E. cbn. by rewrite E. Qed.

(** A task with time left is reached before a recharge. *)
Lemma turn_charged m s j p k :
  sched_ok s -> quiet s -> active s ->
  slices s !! j = Some (true, p, k) -> 0 < k -> energy (slices s) <= Z.of_nat m ->
  exists n s', Z.of_nat n <= energy (slices s) /\ ticks n s = Ok s' /\ current s' = Z.of_nat j.
Proof.
  revert s. induction m as [|m IH]; intros s Hs Hq Ha Hj Hk Hm.
  { pose proof (energy_ge _ _ _ _ (slices_sound s Hs) Hj). lia. }
  pose proof (energy_ge _ _ _ _ (slices_sound s Hs) Hj) as Hge.
  destruct (decide (current s = Z.of_nat j)) as [Hc|Hc].
  { exists O, s. split_and!; [lia|done|done]. }
  destruct (tick_ok s 0 Hs Hq Ha) as (r & s' & c & pc & kc & E & Hs' & Hq' & Ha' & Ec & Hsc & Hcase).
  assert (Hne : c <> j) by (intros ->; congruence).
  pose proof (energy_insert _ c pc kc (kc - 1) Hsc) as He.
  destruct Hcase as [El|[Hz _]].
  - destruct (IH s' Hs' Hq' Ha') as (n & s2 & Hn & En & Ej).
    + by rewrite El, list_lookup_insert_ne.
    + done.
    + rewrite El. lia.
    + exists (S n), s2. rewrite El in Hn. split_and!; [lia|by rewrite (ticks_S _ _ _ _ E)|done].
  - assert (k = 0); [|lia]. apply (Hz j p). by rewrite list_lookup_insert_ne.
Qed.

Lemma turn m s j p k :
  sched_ok s -> quiet s -> active s ->
  slices s !! j = Some (true, p, k) -> energy (slices s) <= Z.of_nat m ->
  exists n s', Z.of_nat n <= energy (slices s) + round (slices s) /\
    ticks n s = Ok s' /\ current s' = Z.of_nat j.
Proof.
  revert s k. induction m as [|m IH]; intros s k Hs Hq Ha Hj Hm.
  - destruct Ha as (c & pc & kc & _ & Hc & Hkc).
    pose proof (energy_ge _ _ _ _ (slices_sound s Hs) Hc). lia.
  - assert (Hround : 0 <= round (slices s)).
    { pose proof (slices_sound s Hs) as Hsd. clear -Hsd.
      induction (slices s) as [|[[r p] c] l IH]; [done|]. cbn. fold (round l).
      specialize (IH (fun i => Hsd (S i))). destruct r; [|done].
      destruct (Hsd O true p c eq_refl eq_refl). lia. }
    destruct (decide (0 < k)) as [Hk|Hk].
    { destruct (turn_charged (S m) s j p k Hs Hq Ha Hj Hk Hm) as (n & s' & Hn & E & Ej).
      exists n, s'. split_and!; [lia|done|done]. }
    destruct (tick_ok s 0 Hs Hq Ha) as (r & s' & c & pc & kc & E & Hs' & Hq' & Ha' & Ec & Hsc & Hcase).
    destruct (decide (c = j)) as [->|Hne].
    { exists O, s. split_and!; [|done|done].
      pose proof (energy_ge _ _ _ _ (slices_sound s Hs) Hsc).
      destruct (slices_sound s Hs j _ _ _ Hsc eq_refl). lia. }
    pose proof (energy_insert _ c pc kc (kc - 1) Hsc) as He.
    pose proof (round_insert _ c pc kc (kc - 1) Hsc) as Hro.
    set (l := <[c := (true, pc, kc - 1)]> (slices s)) in *.
    assert (Hjl : l !! j = Some (true, p, k)) by (unfold l; by rewrite list_lookup_insert_ne).
    destruct (slices_sound s Hs j _ _ _ Hj eq_refl) as [Hk0 Hp1].
    cbv zeta in Hcase. destruct Hcase as [El|[Hz El]].
    + destruct (IH s' k Hs' Hq' Ha') as (n & s2 & Hn & En & Ej); [by rewrite El|rewrite El; lia|].
      exists (S n), s2. rewrite El in Hn. split_and!; [lia|by rewrite (ticks_S _ _ _ _ E)|done].
    + assert (Hr' : energy (slices s') = round (slices s)) by (rewrite El, energy_refill; lia).
      destruct (turn_charged (Z.to_nat (round (slices s))) s' j p p Hs' Hq' Ha') as (n & s2 & Hn & En & Ej).
      * rewrite El. apply list_lookup_fmap_Some. by exists (true, p, k).
      * lia.
      * lia.
      * exists (S n), s2. split_and!; [|by rewrite (ticks_S _ _ _ _ E)|done].
        pose proof (energy_ge _ _ _ _ (slices_sound s Hs) Hsc).
        destruct (slices_sound s Hs c _ _ _ Hsc eq_refl).
        destruct Ha as (c2 & p2 & k2 & Ec2 & Hc2 & Hk2).
        assert (c2 = c) as -> by lia. assert (k2 = kc) as -> by congruence. lia.
Qed.

(** * Task creation *)

Lemma find_empty_loop_ok n i s :
  (i + n <= length (task_pool s))%nat ->
  exists j, find_empty_loop n (Z.of_nat i) s = Ok (Z.of_nat j, s) /\ (i <= j <= i + n)%nat /\
    (forall k t, (i <= k < j)%nat -> task_pool s !! k = Some t -> state t <> TASK_STOPPED) /\
    ((j < i + n)%nat -> exists t, task_pool s !! j = Some t /\ state t = TASK_STOPPED).
Proof.
  revert i. induction n as [|n IH]; intros i Hn.
  { exists i. split_and!; [done|lia|lia|intros; lia|lia]. }
  destruct (lookup_lt_is_Some_2 (task_pool s) i) as [t Ht]; [lia|].
  cbn [find_empty_loop]. run (task_at_ok s i t Ht). destruct (Z.eqb_spec (state t) TASK_STOPPED) as [E|E].
  - exists i. split_and!; [done|lia|lia|intros; lia|]. intros _. by exists t.
  - replace (Z.of_nat i + 1) with (Z.of_nat (S i)) by lia.
    destruct (IH (S i)) as (j & Ej & Hj & Hno & Hyes); [lia|]. exists j. split_and!; [done|lia|lia| |].
    + intros k u Hk Hu. destruct (decide (k = i)) as [->|]; [congruence|]. apply (Hno k u); [lia|done].
    + intros Hlt. apply Hyes. lia.
Qed.

(** The first stopped slot after slot 0, if there is one. *)
Definition first_stopped (s : sched_state) (i : nat) : Prop :=
  (1 <= i < 16)%nat /\ (exists t, task_pool s !! i = Some t /\ state t = TASK_STOPPED) /\
  (forall k t, (1 <= k < i)%nat -> task_pool s !! k = Some t -> state t <> TASK_STOPPED).

Definition pool_full (s : sched_state) : Prop :=
  forall k t, (1 <= k)%nat -> task_pool s !! k = Some t -> state t <> TASK_STOPPED.

Lemma count_running_range pool : 0 <= count_running pool <= Z.of_nat (length pool).
Proof.
  induction pool as [|t pool IH]; [done|]. unfold count_running in *. cbn.
  destruct (running t); cbn [Z.b2z]; lia.
Qed.

Lemma find_empty_task_ok s :
  sched_ok s ->
  (pool_full s /\ find_empty_task s = Ok (NR_TASKS, s)) \/
  (exists i, first_stopped s i /\
     find_empty_task s = Ok (Z.of_nat i,
       Sched (task_pool s) (num_running_task s + 1) (current s) (regs s) (heap s))).
Proof.
  intros Hs. pose proof (so_pool s Hs) as Hl. unfold NR_TASKS in Hl.
  destruct (find_empty_loop_ok 15 1 s) as (j & E & Hj & Hno & Hyes); [lia|].
  unfold find_empty_task. change (Z.to_nat (NR_TASKS - 1)) with 15%nat.
  change (Z.of_nat 1) with 1 in E. run E. destruct (Z.eqb_spec (Z.of_nat j) NR_TASKS) as [Ej|Ej];
    unfold NR_TASKS in Ej; cbn [negb].
  - left. split; [|by rewrite (Ej : Z.of_nat j = 16)].
    intros k t Hk Ht. apply (Hno k t); [|done]. apply lookup_lt_Some in Ht. lia.
  - right. exists j. split.
    + split_and!; [lia|lia| |done]. apply Hyes. lia.
    + pose proof (count_running_range (task_pool s)). rewrite <-(so_count s Hs) in *.
      unfold set_num_running, modify, mbind, M_bind, gets, mret, M_ret. rewrite s32_small by lia. done.
Qed.

(** A task as [privilege_task_create] leaves it. *)
Definition created (i : nat) (func prio : Z) (t : task_struct) : task_struct :=
  set_ctx (CpuContext (x19_x28 (ctx (tss t))) (kstack_top (Z.of_nat i)) func (kstack_top (Z.of_nat i))
             (pgd (ctx (tss t))))
    (set_counter prio (set_priority prio (set_state TASK_RUNNING t))).

Lemma privilege_task_create_ok s func prio :
  sched_ok s ->
  (pool_full s /\ privilege_task_create func prio s = Err Hang) \/
  (exists i t, first_stopped s i /\ task_pool s !! i = Some t /\
     privilege_task_create func prio s = Ok (Z.of_nat i,
       Sched (<[i := created i func prio t]> (task_pool s)) (num_running_task s + 1) (current s)
         (regs s) (heap s))).
Proof.
  intros Hs. unfold privilege_task_create.
  destruct (find_empty_task_ok s Hs) as [[Hf E]|(i & Hi & E)]; [left|right].
  - split; [done|]. run E. done.
  - pose proof Hi as (Hr & (t & Ht & Hst) & _). exists i, t. split_and!; try done.
    set (s1 := Sched _ _ _ _ _) in E. run E.
    destruct (Z.eqb_spec (Z.of_nat i) NR_TASKS) as [?|_]; [unfold NR_TASKS in *; lia|]. cbn [negb].
    run (upd_task_ok s1 i t (set_state TASK_RUNNING) Ht).
    run (upd_again s1 i t (set_state TASK_RUNNING t) (set_priority prio) Ht).
    run (upd_again s1 i t (set_priority prio (set_state TASK_RUNNING t)) (set_counter prio) Ht).
    erewrite (bind_ok _ _ _ _ _ (upd_again s1 i t _ _ Ht)). done.
Qed.

Lemma task_init_loop_ok n i s :
  (i + n <= length (task_pool s))%nat ->
  exists pool', task_init_loop n (Z.of_nat i) s = Ok (tt, with_pool pool' s) /\
    length pool' = length (task_pool s) /\
    forall k t, task_pool s !! k = Some t -> pool' !! k = Some
      (if decide (i <= k < i + n)%nat
       then set_sighand default_sighandler (set_task_id (Z.of_nat k) (set_state TASK_STOPPED t)) else t).
Proof.
  revert i s. induction n as [|n IH]; intros i s Hn.
  { exists (task_pool s). rewrite with_pool_id. split_and!; [done|done|].
    intros k t Hk. by rewrite decide_False by lia. }
  destruct (lookup_lt_is_Some_2 (task_pool s) i) as [t Ht]; [lia|]. cbn [task_init_loop].
  erewrite (bind_ok _ _ _ _ _ (upd_task_ok s i t _ Ht)). cbv beta.
  replace (Z.of_nat i + 1) with (Z.of_nat (S i)) by lia.
  set (s1 := with_pool _ s).
  destruct (IH (S i) s1) as (pool' & E & Hl & Hk); [cbn; rewrite length_insert; lia|].
  exists pool'. split_and!; [by rewrite E| |].
  { rewrite Hl. cbn. by rewrite length_insert. }
  intros k u Hu. destruct (decide (k = i)) as [->|Hne].
  - rewrite (decide_True (P := (i <= i < i + S n)%nat)) by lia.
    rewrite (Hk i (set_sighand default_sighandler (set_task_id (Z.of_nat i) (set_state TASK_STOPPED t)))).
    + rewrite decide_False by lia. congruence.
    + cbn. apply list_lookup_insert_eq. by eapply lookup_lt_Some.
  - rewrite (Hk k u) by (cbn; by rewrite list_lookup_insert_ne).
    destruct (decide (S i <= k < S i + n)%nat); [rewrite decide_True by lia|rewrite decide_False by lia]; done.
Qed.

(** Task 0 as [task_init] leaves it. *)
Definition shell_ctx (t : task_struct) : task_struct :=
  let c := ctx (tss t) in
  set_ctx (CpuContext (x19_x28 c) (kstack_top 0) do_shell_user (kstack_top 0) (pgd c)) t.
Definition shell_task (t : task_struct) : task_struct :=
  shell_ctx (set_counter 1 (set_priority 1 (set_state TASK_RUNNING
    (set_sighand default_sighandler (set_task_id 0 (set_state TASK_STOPPED t)))))).

(** The pool before [task_init]: in the [bss] section, all zeros. *)
Definition bss_pool (pool : list task_struct) : Prop :=
  Z.of_nat (length pool) = NR_TASKS /\ forall i t, pool !! i = Some t -> pending t = 0.

Lemma task_init_ok s t0 :
  bss_pool (task_pool s) -> task_pool s !! O = Some t0 ->
  exists pool', task_init s = Ok (tt, Sched (<[O := shell_task t0]> pool') 1 0 (regs s) (heap s)) /\
    length pool' = length (task_pool s) /\
    forall k t, task_pool s !! k = Some t ->
      pool' !! k = Some (set_sighand default_sighandler (set_task_id (Z.of_nat k) (set_state TASK_STOPPED t))).
Proof.
  intros [Hl Hp] H0. unfold NR_TASKS in Hl.
  destruct (task_init_loop_ok 16 0 s) as (pool' & E & Hl' & Hk); [lia|].
  exists pool'. split_and!; [|done|].
  2:{ intros k t Hk'. rewrite (Hk k t Hk'). rewrite decide_True; [done|].
      apply lookup_lt_Some in Hk'. lia. }
  unfold task_init. change (Z.to_nat NR_TASKS) with 16%nat. change (Z.of_nat 0) with 0 in E. run E.
  set (s1 := with_pool pool' s). specialize (Hk O t0 H0). rewrite decide_True in Hk by lia.
  set (t1 := set_sighand _ _) in Hk. change 0 with (Z.of_nat 0) at 1 2 3.
  assert (Hk1 : task_pool s1 !! O = Some t1) by exact Hk.
  run (upd_task_ok s1 0 t1 (set_state TASK_RUNNING) Hk1).
  run (upd_again s1 0 t1 (set_state TASK_RUNNING t1) (set_priority 1) Hk1).
  run (upd_again s1 0 t1 (set_priority 1 (set_state TASK_RUNNING t1)) (set_counter 1) Hk1).
  set (s2 := with_pool _ s1). set (s3 := Sched (task_pool s2) 1 0 (regs s) (heap s)).
  run (eq_refl : update_current 0 s2 = Ok (tt, Sched (task_pool s2) (num_running_task s) 0 (regs s) (heap s))).
  run (eq_refl : set_num_running 1 (Sched (task_pool s2) (num_running_task s) 0 (regs s) (heap s)) = Ok (tt, s3)).
  change 0 with (Z.of_nat 0) at 1.
  set (t2 := set_counter 1 (set_priority 1 (set_state TASK_RUNNING t1))).
  set (s1' := Sched pool' 1 0 (regs s) (heap s)).
  change s3 with (with_pool (<[O := t2]> (task_pool s1')) s1').
  exact (upd_again s1' 0 t1 t2 shell_ctx Hk).
Qed.

(** * Properties *)

(** C14. [schedule] gives the processor to the last task among the runnable ones with
    the most time left, after recharging every runnable task if none had time
    left; it saves the registers of the task it leaves and loads those of the
    chosen one, which continues where it was interrupted, starts in its function,
    or, when a signal is pending, enters its handler on a fresh stack, from which it
    returns to the system call [sigreturn]. *)
Theorem schedule_spec s fuel :
  sched_ok s -> some_running s ->
  exists j pool' t, charged (task_pool s) pool' /\ chosen pool' j /\ pool' !! j = Some t /\
    (current s = Z.of_nat j -> schedule (S (S fuel)) s = Ok (Return, with_pool pool' s)) /\
    (current s <> Z.of_nat j -> exists c tc, current s = Z.of_nat c /\ c <> j /\ pool' !! c = Some tc /\
       let s1 := after_switch (with_pool pool' s) c tc j t in
       (lr (ctx (tss t)) <> switch_ret ->
          schedule (S (S fuel)) s = Ok (Enter (lr (ctx (tss t))), s1)) /\
       (lr (ctx (tss t)) = switch_ret -> pending t = 0 ->
          schedule (S (S fuel)) s = Ok (Return, s1)) /\
       (lr (ctx (tss t)) = switch_ret -> pending t <> 0 ->
          exists handler, sighand t !! Z.to_nat (pending t) = Some handler /\
          (forall stk h, kmalloc USTACK_SIZE (heap s) = Ok (stk, h) ->
           schedule (S (S fuel)) s = Ok (User handler (u64 (stk + USTACK_SIZE - 16)),
             Sched (<[j := deliver t]> (task_pool s1)) (num_running_task s1) (current s1) (handler_regs (regs s1)) h)) /\
          (forall f, kmalloc USTACK_SIZE (heap s) = Err f -> schedule (S (S fuel)) s = Err f))).
Proof. apply schedule_ok. Qed.

(** C15. Whatever way [schedule] ends, the scheduler's invariant holds again and the
    task it leaves current is runnable: a stopped task never runs while another
    task can. *)
Theorem schedule_safe s fuel r s' :
  sched_ok s -> some_running s -> schedule (S (S fuel)) s = Ok (r, s') ->
  sched_ok s' /\ current_running s'.
Proof. apply schedule_inv. Qed.

(** C16. No task starves: if no signal is pending, every runnable task becomes the
    current one after at most as many timer ticks as the runnable tasks have time
    left, plus one full round. *)
Theorem no_starvation s j p k :
  sched_ok s -> quiet s -> active s -> slices s !! j = Some (true, p, k) ->
  exists n s', Z.of_nat n <= energy (slices s) + round (slices s) /\
    ticks n s = Ok s' /\ current s' = Z.of_nat j.
Proof.
  intros Hs Hq Ha Hj. apply (turn (Z.to_nat (energy (slices s))) s j p k); try done.
  pose proof Ha as (c & pc & kc & _ & Hc & Hkc).
  pose proof (energy_ge _ _ _ _ (slices_sound s Hs) Hc). lia.
Qed.

(** [privilege_task_create] puts the new task in the first stopped slot after slot
    0, runnable, with its priority as time slice, starting in [func] on an empty
    kernel stack, keeps the invariant, and hangs when there is no such slot. *)
Theorem privilege_task_create_spec s func prio :
  sched_ok s -> 1 <= prio < 2 ^ 29 ->
  (pool_full s /\ privilege_task_create func prio s = Err Hang) \/
  (exists i t s', first_stopped s i /\ task_pool s !! i = Some t /\
     privilege_task_create func prio s = Ok (Z.of_nat i, s') /\ sched_ok s' /\
     s' = Sched (<[i := created i func prio t]> (task_pool s)) (num_running_task s + 1) (current s)
            (regs s) (heap s)).
Proof.
  intros Hs Hp. destruct (privilege_task_create_ok s func prio Hs) as [?|(i & t & Hi & Ht & E)]; [by left|].
  right. exists i, t. eexists. split_and!; [done|done|exact E| |done].
  pose proof Hi as (_ & (t' & Ht' & Hst) & _). assert (t' = t) as -> by congruence.
  apply (sched_ok_insert s i t); [done|done| |].
  - destruct (so_tasks s Hs i t Ht) as [A B C D F G]. split; try done; [by left|].
    intros _. cbn. lia.
  - unfold running at 1. rewrite Hst. cbn. lia.
Qed.

(** From the zeroed pool of the kernel image [sched_init] establishes the
    invariant: every slot but 0 is free, task 0 starts the shell on its kernel
    stack, and the descriptors and directories of the tasks are those they had. *)
Theorem sched_init_spec s :
  bss_pool (task_pool s) ->
  exists s', sched_init s = Ok (do_shell_user, s') /\ sched_ok s' /\ quiet s' /\ active s' /\
    num_running_task s' = 1 /\ current s' = 0 /\ sp (regs s') = kstack_top 0 /\ heap s' = heap s /\
    (forall i t, (1 <= i)%nat -> task_pool s' !! i = Some t -> state t = TASK_STOPPED) /\
    (forall i t, task_pool s' !! i = Some t ->
       exists u, task_pool s !! i = Some u /\ fd_table t = fd_table u /\ current_dir t = current_dir u).
Proof.
  intros Hb. pose proof Hb as [Hl Hp]. unfold NR_TASKS in Hl.
  destruct (lookup_lt_is_Some_2 (task_pool s) 0) as [t0 H0]; [lia|].
  destruct (task_init_ok s t0 Hb H0) as (pool' & E & Hl' & Hk).
  unfold sched_init. run E. set (s1 := Sched _ _ _ _ _). unfold get_current. run (gets_ok current s1).
  assert (Hlt : (O < length pool')%nat) by lia.
  assert (Ht : task_pool s1 !! O = Some (shell_task t0)) by (cbn; by apply list_lookup_insert_eq).
  change (current s1) with (Z.of_nat 0). unfold sig_restore_context.
  run (task_at_ok s1 0 _ Ht). run (gets_ok regs s1).
  assert (Hget : forall i t, task_pool s1 !! i = Some t ->
    (i = O /\ t = shell_task t0) \/
    (i <> O /\ exists u, task_pool s !! i = Some u /\
       t = set_sighand default_sighandler (set_task_id (Z.of_nat i) (set_state TASK_STOPPED u)))).
  { intros i t Hi. cbn in Hi. apply list_lookup_insert_Some in Hi as [(<- & <- & _)|[Hne Hi]]; [by left|right].
    split; [done|]. destruct (lookup_lt_is_Some_2 (task_pool s) i) as [u Hu].
    { apply lookup_lt_Some in Hi. lia. }
    exists u. split; [done|]. rewrite (Hk i u Hu) in Hi. congruence. }
  eexists. split; [reflexivity|]. split_and!; try done.
  - split; cbn.
    + rewrite length_insert. unfold NR_TASKS. lia.
    + intros i t Hi. destruct (Hget i t Hi) as [[-> ->]|(Hne & u & Hu & ->)].
      * split; cbn; try done; [by left|by rewrite (Hp O t0 H0)].
      * split; cbn; try done; [by right|by rewrite (Hp i u Hu)].
    + done.
    + assert (Hs : forall l, (forall i t, l !! i = Some t -> running t = false) -> count_running l = 0).
      { induction l as [|x l IH]; intros Hx; [done|]. unfold count_running in *. cbn.
        rewrite (Hx O x eq_refl), IH; [done|]. intros i. apply (Hx (S i)). }
      destruct pool' as [|x l]; [done|]. cbn. unfold count_running in *. rewrite Hs; [done|].
      intros i t Hi. destruct (Hget (S i) t Hi) as [[? _]|(_ & u & _ & ->)]; done.
  - intros i t Hi. destruct (Hget i t Hi) as [[-> ->]|(Hne & u & Hu & ->)]; [by apply (Hp O t0)|by apply (Hp i u)].
  - exists O, 1, 1. split_and!; [done| |done]. apply slices_lookup. exists (shell_task t0). by split.
  - intros i t Hi Ht'. destruct (Hget i t Ht') as [[-> _]|(_ & u & _ & ->)]; [lia|done].
  - intros i t Hi. destruct (Hget i t Hi) as [[-> ->]|(_ & u & Hu & ->)]; [by exists t0|by exists u].
Qed.
End Spec.

(** * Instances *)

#[export] Instance ex_link : Link := {|
  kstack_pool := 0xffff000000090000; do_shell_user := 0xffff000000081000;
  no_sighandler := 0xffff000000082000; default_sigkill := 0xffff000000082100;
  exit_kernel := 0xffff000000083000; switch_ret := 0xffff000000084000;
  sigreturn_addr := 0xffff000000086000 |}.

Definition ex_task (i st p c pc : Z) : task_struct :=
  Task i st p c 0 0 default_sighandler 0 (Tss (CpuContext (replicate 10 0) 0 pc 0 0) 0) (Mm 0 0)
    (replicate 256 0) (replicate 16 0).

Definition free_slots : list task_struct :=
  map (fun i => ex_task i TASK_STOPPED 0 0 0) [2; 3; 4; 5; 6; 7; 8; 9; 10; 11; 12; 13; 14; 15].

Definition ex_pool : list task_struct :=
  ex_task 0 TASK_RUNNING 1 1 0 :: ex_task 1 TASK_RUNNING 10 10 0xffff000000081000 :: free_slots.

(** The shell runs, and a task of priority 10 was just created. *)
Definition ex_sched : sched_state :=
  Sched ex_pool 2 0 (CpuContext (replicate 10 0) 0 0 0 0) (SlabState mm0 [] ∅).

Lemma ex_sched_ok : sched_ok ex_sched.
Proof.
  split; [done| |done|done]. intros i t Hi.
  do 16 (destruct i as [|i]; [injection Hi as <-; split; cbn; unfold TASK_RUNNING, TASK_STOPPED, NR_SIGNALS; lia|]).
  discriminate Hi.
Qed.

Lemma ex_quiet : quiet ex_sched.
Proof.
  intros i t Hi. do 16 (destruct i as [|i]; [by injection Hi as <-|]). discriminate Hi.
Qed.

Lemma ex_some_running : some_running ex_sched.
Proof. by exists O, (ex_task 0 TASK_RUNNING 1 1 0). Qed.

Lemma schedule_spec_witness :
  exists j pool' t, charged ex_pool pool' /\ chosen pool' j /\ pool' !! j = Some t.
Proof.
  destruct (schedule_spec ex_sched 0 ex_sched_ok ex_some_running) as (j & pool' & t & H1 & H2 & H3 & _).
  exists j, pool', t. split; [exact H1|]. split; [exact H2|exact H3].
Defined.

Lemma schedule_safe_witness :
  exists r s', schedule 2 ex_sched = Ok (r, s') /\ current s' = 1 /\ sched_ok s' /\ current_running s'.
Proof.
  exists (Enter 0xffff000000081000).
  refine (let s' := match schedule 2 ex_sched with Ok (_, s) => s | Err _ => ex_sched end in _).
  exists s'. split; [reflexivity|]. split; [reflexivity|].
  apply (schedule_safe ex_sched 0 (Enter 0xffff000000081000) s' ex_sched_ok ex_some_running). reflexivity.
Defined.

(** The new task is reached within 22 ticks, and in fact after the first one. *)
Lemma no_starvation_witness :
  exists n s', Z.of_nat n <= 22 /\ ticks n ex_sched = Ok s' /\ current s' = Z.of_nat 1.
Proof.
  apply (no_starvation ex_sched 1 10 10 ex_sched_ok ex_quiet); [|reflexivity].
  exists O, 1, 1. split; [reflexivity|]. split; reflexivity.
Defined.

Lemma privilege_task_create_spec_witness :
  (pool_full ex_sched /\ privilege_task_create 0xffff000000085000 10 ex_sched = Err Hang) \/
  (exists i t s', first_stopped ex_sched i /\ task_pool ex_sched !! i = Some t /\
     privilege_task_create 0xffff000000085000 10 ex_sched = Ok (Z.of_nat i, s') /\ sched_ok s' /\
     s' = Sched (<[i := created i 0xffff000000085000 10 t]> (task_pool ex_sched)) (2 + 1) 0
            (regs ex_sched) (heap ex_sched)).
Proof. apply (privilege_task_create_spec ex_sched 0xffff000000085000 10 ex_sched_ok). lia. Defined.

Definition ex_bss : sched_state :=
  Sched (replicate 16 (Task 0 0 0 0 0 0 (replicate 10 0) 0 (Tss (CpuContext (replicate 10 0) 0 0 0 0) 0)
    (Mm 0 0) (replicate 256 0) (replicate 16 0))) 0 0 (CpuContext (replicate 10 0) 0 0 0 0) (SlabState mm0 [] ∅).

Lemma sched_init_spec_witness :
  exists s', sched_init ex_bss = Ok (do_shell_user, s') /\ sched_ok s' /\ quiet s' /\ active s' /\
    num_running_task s' = 1 /\ current s' = 0 /\ sp (regs s') = kstack_top 0 /\
    (forall i t, (1 <= i)%nat -> task_pool s' !! i = Some t -> state t = TASK_STOPPED).
Proof.
  destruct (sched_init_spec ex_bss) as (s' & E & H1 & H2 & H3 & H4 & H5 & H6 & _ & H7 & _).
  - split; [reflexivity|]. intros i t Hi. apply lookup_replicate in Hi as [-> _]. reflexivity.
  - exists s'. exact (conj E (conj H1 (conj H2 (conj H3 (conj H4 (conj H5 (conj H6 H7))))))).
Defined.
