(* ===== verification/CString.v ===== *)
(** The string functions of [src/src/string.c].

    A pointer into a [char] array is the rest of the array from there on, so a read
    past the end of the array is an [OutOfBounds] outcome.  [char] is unsigned, as
    it is on AArch64.  The source and destination of a copy are distinct arrays. *)
From Stdlib Require Import Ascii String.
From S2P Require Import Prelude.

(** * The functions *)

(* [src/src/string.c:6-14 oct2bin] *)
Fixpoint oct2bin_loop (n : nat) (r : Z) (s : list Z) : res Z :=
  match n, s with
  | O, _ => Ok r
  | S n, c :: s => oct2bin_loop n (s32 (s32 (r * 8) + (c - 48))) s
  | S _, [] => Err OutOfBounds
  end.
Definition oct2bin (s : list Z) (n : Z) : res Z := oct2bin_loop (Z.to_nat n) 0 s.

(** The digit branches of the loop of [hex2bin]. *)
(* [src/src/string.c:21-28 hex2bin] *)
Definition hex_digit (c : Z) : option Z :=
  if (48 <=? c) && (c <=? 57) then Some (c - 48)
  else if (97 <=? c) && (c <=? 102) then Some (c - 97 + 10)
  else if (65 <=? c) && (c <=? 70) then Some (c - 65 + 10)
  else None.

(* [src/src/string.c:16-31 hex2bin] *)
Fixpoint hex2bin_loop (n : nat) (r : Z) (s : list Z) : res Z :=
  match n, s with
  | O, _ => Ok r
  | S n, c :: s =>
    match hex_digit c with
    | Some d => hex2bin_loop n (s32 (s32 (r * 16) + d)) s
    | None => Ok (-1)
    end
  | S _, [] => Err OutOfBounds
  end.
Definition hex2bin (s : list Z) (n : Z) : res Z := hex2bin_loop (Z.to_nat n) 0 s.

(* [src/src/string.c:34-43 strcmp] *)
Fixpoint strcmp (a b : list Z) : res Z :=
  match a, b with
  | x :: a, y :: b =>
    if x =? 0 then Ok (x - y)
    else if negb (x =? y) then Ok (x - y)
    else strcmp a b
  | _, _ => Err OutOfBounds
  end.

(* [src/src/string.c:46-57 memcmp] *)
Fixpoint memcmp (a b : list Z) (n : nat) {struct n} : res Z :=
  match n with
  | O => Ok 0
  | S n =>
    match a, b with
    | x :: a, y :: b => if negb (x =? y) then Ok (x - y) else memcmp a b n
    | _, _ => Err OutOfBounds
    end
  end.

(* [src/src/string.c:59-65 strlen] *)
Fixpoint strlen (str : list Z) : res Z :=
  match str with
  | c :: s => if c =? 0 then Ok 0 else n ← strlen s; Ok (n + 1)
  | [] => Err OutOfBounds
  end.

(* [src/src/string.c:67-73 strcpy] *)
Fixpoint strcpy (dst src : list Z) : res (list Z) :=
  match dst, src with
  | _ :: dst, c :: src =>
    if c =? 0 then Ok (c :: dst) else dst ← strcpy dst src; Ok (c :: dst)
  | _, _ => Err OutOfBounds
  end.

(* [src/src/string.c:75-82 strcat] *)
Fixpoint strcat (dst src : list Z) : res (list Z) :=
  match dst with
  | c :: dst' => if c =? 0 then strcpy dst src else dst' ← strcat dst' src; Ok (c :: dst')
  | [] => Err OutOfBounds
  end.

(* [src/src/string.c:91-94 atoi] *)
Fixpoint atoi_loop (n : Z) (s : list Z) : res Z :=
  match s with
  | c :: s =>
    if (48 <=? c) && (c <=? 57) then atoi_loop (s32 (s32 (n * 10) + (c - 48))) s else Ok n
  | [] => Err OutOfBounds
  end.
(* [src/src/string.c:84-96 atoi] *)
Definition atoi (s : list Z) : res Z :=
  match s with
  | c :: s' =>
    if c =? 45 then n ← atoi_loop 0 s'; Ok (s32 (n * -1)) else n ← atoi_loop 0 s; Ok (s32 (n * 1))
  | [] => Err OutOfBounds
  end.

(* [src/src/string.c:98-104 memset] *)
Fixpoint memset (dst : list Z) (c : Z) (n : nat) {struct n} : res (list Z) :=
  match n, dst with
  | O, _ => Ok dst
  | S n, _ :: dst => dst ← memset dst c n; Ok (u8 c :: dst)
  | S _, [] => Err OutOfBounds
  end.

(* [src/src/string.c:106-114 memcpy] *)
Fixpoint memcpy {A} (dst src : list A) (n : nat) {struct n} : res (list A) :=
  match n with
  | O => Ok dst
  | S n =>
    match dst, src with
    | _ :: dst, c :: src => dst ← memcpy dst src n; Ok (c :: dst)
    | _, _ => Err OutOfBounds
    end
  end.

(** A string literal of the source, with its terminator. *)
Definition chars (s : String.string) : list Z :=
  map (fun c => Z.of_N (Ascii.N_of_ascii c)) (String.list_ascii_of_string s).
Definition cstr (s : String.string) : list Z := chars s ++ [0].
Arguments cstr s%_string.
Arguments chars s%_string.

(** * Strings and buffers *)

(** The characters of a string: bytes other than the terminator. *)
Definition nonzero (s : list Z) : Prop := Forall (fun c => 0 < c < 256) s.

(** [buf] holds the string [s]. *)
Definition holds (buf s : list Z) : Prop := nonzero s /\ exists rest, buf = s ++ 0 :: rest.

Lemma nonzero_cons c s : nonzero (c :: s) <-> 0 < c < 256 /\ nonzero s.
Proof. unfold nonzero. by rewrite Forall_cons. Qed.

Lemma nonzero_nil : nonzero [].
Proof. constructor. Qed.

Lemma nonzero_app s t : nonzero (s ++ t) <-> nonzero s /\ nonzero t.
Proof. unfold nonzero. by rewrite Forall_app. Qed.

(** A buffer after the characters [s] were put at its start, one by one, each followed by a
    terminator: no character leaves it as it was. *)
Definition typed (s buf : list Z) : list Z := if decide (s = []) then buf else s ++ 0 :: drop (S (length s)) buf.

Lemma typed_holds s buf : s <> [] -> nonzero s -> holds (typed s buf) s.
Proof. intros Hn Hz. unfold typed. rewrite decide_False by done. split; [done|]. by eexists. Qed.

Lemma holds_cons c buf s : 0 < c < 256 -> holds (c :: buf) (c :: s) <-> holds buf s.
Proof.
  intros Hc. unfold holds. rewrite nonzero_cons. split.
  - intros ([_ Hs] & rest & E). injection E as E. split; [done|]. by exists rest.
  - intros (Hs & rest & ->). split; [done|]. by exists rest.
Qed.

Lemma holds_self s rest : nonzero s -> holds (s ++ 0 :: rest) s.
Proof. intros H. split; [done|]. by exists rest. Qed.

Lemma holds_det buf s t : holds buf s -> holds buf t -> s = t.
Proof.
  revert s t. induction buf as [|c buf IH]; intros s t [Hs [r1 E1]] [Ht [r2 E2]].
  - by destruct s.
  - destruct s as [|a s], t as [|b t]; [done| | |].
    + injection E1 as -> _. injection E2 as <- _. apply nonzero_cons in Ht. lia.
    + injection E2 as -> _. injection E1 as <- _. apply nonzero_cons in Hs. lia.
    + injection E1 as -> E1. injection E2 as -> E2. apply nonzero_cons in Hs, Ht. f_equal.
      apply IH; [split; [tauto|by exists r1]|split; [tauto|by exists r2]].
Qed.

Lemma strlen_ok buf s : holds buf s -> strlen buf = Ok (Z.of_nat (length s)).
Proof.
  intros [Hs [rest ->]]. induction s as [|c s IH]; [done|].
  apply nonzero_cons in Hs as [Hc Hs]. cbn [app strlen]. destruct (Z.eqb_spec c 0); [lia|].
  rewrite (IH Hs), res_bind_ok. cbn [length]. f_equal. lia.
Qed.

Lemma strcpy_ok dst src s :
  holds src s -> (length s < length dst)%nat ->
  strcpy dst src = Ok (s ++ 0 :: drop (S (length s)) dst).
Proof.
  intros [Hs [rest ->]]. revert dst. induction s as [|c s IH]; intros [|d dst] Hl; cbn in Hl; try lia; [done|].
  apply nonzero_cons in Hs as [Hc Hs]. cbn [app strcpy]. destruct (Z.eqb_spec c 0); [lia|].
  rewrite IH by (done || lia). done.
Qed.

(** [strcpy] leaves a string in a buffer of the same size. *)
Lemma strcpy_shape dst src d : strcpy dst src = Ok d -> length d = length dst /\ 0 ∈ d.
Proof.
  revert src d. induction dst as [|x dst IH]; intros [|c src] d E; try done. cbn [strcpy] in E.
  destruct (Z.eqb_spec c 0) as [->|_]; [injection E as <-; split; [done|by left]|].
  destruct (strcpy dst src) as [e|] eqn:Ee; [|done]. cbn in E. injection E as <-. destruct (IH _ _ Ee). cbn. split; [lia|by right].
Qed.

Lemma strcpy_short dst src s :
  holds src s -> (length dst <= length s)%nat -> strcpy dst src = Err OutOfBounds.
Proof.
  intros [Hs [rest ->]]. revert dst. induction s as [|c s IH]; intros [|d dst] Hl; cbn in Hl; try lia; try done.
  apply nonzero_cons in Hs as [Hc Hs]. cbn [app strcpy]. destruct (Z.eqb_spec c 0); [lia|].
  by rewrite IH by (done || lia).
Qed.

Lemma strcat_ok dst src s t :
  holds dst s -> holds src t -> (length s + length t < length dst)%nat ->
  strcat dst src = Ok (s ++ t ++ 0 :: drop (S (length s + length t)) dst).
Proof.
  intros [Hs [rest ->]] Ht. induction s as [|c s IH]; intros Hl.
  - cbn [app] in *. cbn [strcat]. by rewrite (strcpy_ok _ _ t) by done.
  - apply nonzero_cons in Hs as [Hc Hs]. cbn [app strcat]. destruct (Z.eqb_spec c 0); [lia|].
    rewrite IH by (done || (cbn in Hl; lia)). done.
Qed.

Lemma strcmp_ok a b s t : holds a s -> holds b t -> exists d, strcmp a b = Ok d /\ (d = 0 <-> s = t).
Proof.
  intros [Hs [r1 ->]] [Ht [r2 ->]]. revert t Ht.
  induction s as [|x s IH]; intros [|y t] Ht; cbn [app strcmp]; try apply nonzero_cons in Ht as [Hy Ht];
    try apply nonzero_cons in Hs as [Hx Hs].
  - rewrite Z.eqb_refl. by exists 0.
  - rewrite Z.eqb_refl. exists (0 - y). split; [done|]. split; [lia|done].
  - destruct (Z.eqb_spec x 0); [lia|]. cbn [negb]. exists (x - 0). split; [done|]. split; [lia|done].
  - destruct (Z.eqb_spec x 0); [lia|]. destruct (Z.eqb_spec x y) as [->|Hne]; cbn [negb].
    + destruct (IH Hs t Ht) as (d & -> & Hd). exists d. split; [done|]. rewrite Hd. split; congruence.
    + exists (x - y). split; [done|]. split; [lia|congruence].
Qed.

Lemma memcpy_ok {A} (dst src : list A) n :
  (n <= length dst)%nat -> (n <= length src)%nat -> memcpy dst src n = Ok (take n src ++ drop n dst).
Proof.
  revert dst src. induction n as [|n IH]; intros dst src Hd Hs; [by rewrite take_0, drop_0|].
  destruct dst as [|d dst], src as [|c src]; cbn in Hd, Hs; try lia. cbn [memcpy].
  by rewrite IH by lia.
Qed.

Lemma memcpy_short {A} (dst src : list A) n : (length dst < n)%nat -> memcpy dst src n = Err OutOfBounds.
Proof.
  revert dst src. induction n as [|n IH]; intros dst src Hd; [lia|].
  destruct dst as [|d dst], src as [|c src]; try done. cbn [memcpy]. rewrite IH by (cbn in Hd; lia). done.
Qed.

Lemma memset_ok dst c n :
  (n <= length dst)%nat -> memset dst c n = Ok (replicate n (u8 c) ++ drop n dst).
Proof.
  revert dst. induction n as [|n IH]; intros dst Hd; [by rewrite drop_0|].
  destruct dst as [|d dst]; cbn in Hd; [lia|]. cbn [memset]. by rewrite IH by lia.
Qed.

Lemma memcmp_ok a b n :
  (n <= length a)%nat -> (n <= length b)%nat ->
  exists d, memcmp a b n = Ok d /\ (d = 0 <-> take n a = take n b).
Proof.
  revert a b. induction n as [|n IH]; intros a b Ha Hb; [by exists 0; rewrite !take_0|].
  destruct a as [|x a], b as [|y b]; cbn in Ha, Hb; try lia. cbn [memcmp].
  destruct (Z.eqb_spec x y) as [->|Hne]; cbn [negb take].
  - destruct (IH a b) as (d & -> & Hd); [lia|lia|]. exists d. split; [done|]. rewrite Hd.
    split; congruence.
  - exists (x - y). split; [done|]. split; [lia|congruence].
Qed.

(** * Numerals *)

(** The [k] hexadecimal digits of [v], in the given case. *)
Definition hex_char (upper : bool) (d : Z) : Z :=
  if d <? 10 then 48 + d else if upper then 55 + d else 87 + d.
Fixpoint hex_string (upper : bool) (k : nat) (v : Z) : list Z :=
  match k with
  | O => []
  | S k => hex_string upper k (v / 16) ++ [hex_char upper (v mod 16)]
  end.

Lemma hex_digit_char upper d : 0 <= d < 16 -> hex_digit (hex_char upper d) = Some d.
Proof.
  intros Hd. unfold hex_digit, hex_char. destruct (Z.ltb_spec d 10), upper;
    repeat zcase; try (f_equal; lia); lia.
Qed.

Lemma hex_string_length upper k v : length (hex_string upper k v) = k.
Proof.
  revert v. induction k as [|k IH]; intros v; [done|]. cbn. rewrite length_app, IH. cbn. lia.
Qed.

Lemma hex2bin_loop_app n m r s t r' :
  length s = n -> hex2bin_loop n r s = Ok r' -> Forall (fun c => hex_digit c <> None) s ->
  hex2bin_loop (n + m) r (s ++ t) = hex2bin_loop m r' t.
Proof.
  revert r s. induction n as [|n IH]; intros r s Hl E Hf.
  - destruct s; [|done]. cbn in E. injection E as ->. done.
  - destruct s as [|c s]; [done|]. apply Forall_cons in Hf as [Hc Hf]. cbn in E |- *.
    destruct (hex_digit c); [|done]. apply IH; [|done..]. by injection Hl.
Qed.

Lemma hex2bin_string upper k v t :
  0 <= v < 16 ^ Z.of_nat k -> v < 2 ^ 31 ->
  hex2bin_loop k 0 (hex_string upper k v ++ t) = Ok v.
Proof.
  revert v t. induction k as [|k IH]; intros v t Hv Hv2.
  - cbn. f_equal. change (16 ^ Z.of_nat 0) with 1 in Hv. lia.
  - cbn [hex_string]. rewrite <-app_assoc. cbn [app].
    pose proof (Z.mod_pos_bound v 16 ltac:(lia)). pose proof (Z.div_mod v 16 ltac:(lia)).
    assert (Hq : 0 <= v / 16 < 16 ^ Z.of_nat k).
    { split; [apply Z.div_pos; lia|]. apply Z.div_lt_upper_bound; [lia|].
      rewrite Nat2Z.inj_succ, Z.pow_succ_r in Hv by lia. lia. }
    assert (v / 16 < 2 ^ 31) by lia.
    replace (S k) with (k + 1)%nat by lia.
    rewrite (hex2bin_loop_app k 1 0 (hex_string upper k (v / 16)) _ (v / 16)).
    + cbn [hex2bin_loop]. rewrite hex_digit_char by done. rewrite (s32_small (v / 16 * 16)) by lia.
      rewrite s32_small by lia. f_equal. lia.
    + apply hex_string_length.
    + rewrite <-(app_nil_r (hex_string upper k (v / 16))). by apply IH.
    + clear. generalize (v / 16). intros x. revert x. induction k as [|k IH]; intros x; [constructor|].
      cbn. apply Forall_app. split; [apply IH|]. constructor; [|constructor].
      rewrite hex_digit_char; [done|]. apply Z.mod_pos_bound. lia.
Qed.

(** The decimal digits of [v]; [n] bounds their number. *)
Fixpoint decimal (n : nat) (v : Z) : list Z :=
  match n with
  | O => []
  | S n => if v <? 10 then [48 + v] else decimal n (v / 10) ++ [48 + v mod 10]
  end.

Lemma atoi_loop_app s t r r' :
  Forall (fun c => 48 <= c <= 57) s -> atoi_loop r (s ++ [0]) = Ok r' ->
  atoi_loop r (s ++ t) = atoi_loop r' t.
Proof.
  revert r. induction s as [|c s IH]; intros r Hf E.
  - cbn in E. by injection E as ->.
  - apply Forall_cons in Hf as [Hc Hf]. cbn in E |- *.
    destruct (Z.leb_spec 48 c), (Z.leb_spec c 57); try lia. cbn [andb] in *. by apply IH.
Qed.

Lemma decimal_digits n v : 0 <= v -> Forall (fun c => 48 <= c <= 57) (decimal n v).
Proof.
  revert v. induction n as [|n IH]; intros v Hv; [constructor|]. cbn.
  destruct (Z.ltb_spec v 10); [by repeat constructor; lia|].
  apply Forall_app. split; [apply IH, Z.div_pos; lia|]. constructor; [|constructor].
  pose proof (Z.mod_pos_bound v 10 ltac:(lia)). lia.
Qed.

Lemma atoi_decimal n v :
  0 <= v < 10 ^ Z.of_nat n -> v < 2 ^ 31 -> atoi_loop 0 (decimal n v ++ [0]) = Ok v.
Proof.
  revert v. induction n as [|n IH]; intros v Hv Hv2.
  { change (10 ^ Z.of_nat 0) with 1 in Hv. cbn. f_equal. lia. }
  cbn [decimal]. destruct (Z.ltb_spec v 10).
  - cbn. destruct (Z.leb_spec 48 (48 + v)), (Z.leb_spec (48 + v) 57); try lia. cbn [andb].
    rewrite (s32_small (0 * 10)), s32_small by lia. f_equal. lia.
  - rewrite Nat2Z.inj_succ, Z.pow_succ_r in Hv by lia.
    assert (0 <= v / 10 < 10 ^ Z.of_nat n).
    { split; [apply Z.div_pos; lia|]. apply Z.div_lt_upper_bound; lia. }
    pose proof (Z.mod_pos_bound v 10 ltac:(lia)). pose proof (Z.div_mod v 10 ltac:(lia)).
    rewrite <-app_assoc, (atoi_loop_app _ _ 0 (v / 10)); [|apply decimal_digits; lia|apply IH; lia].
    cbn [app atoi_loop]. destruct (Z.leb_spec 48 (48 + v mod 10)), (Z.leb_spec (48 + v mod 10) 57); try lia.
    cbn [andb]. rewrite (s32_small (v / 10 * 10)) by lia. rewrite s32_small by lia. f_equal. lia.
Qed.

Lemma decimal_head n v c s : 0 <= v -> decimal n v = c :: s -> 48 <= c <= 57.
Proof.
  intros Hv E. pose proof (decimal_digits n v Hv) as Hf. rewrite E in Hf.
  by apply Forall_cons in Hf as [Hc _].
Qed.

(** * Properties *)

(** [strcmp] returns 0 exactly when the two strings are equal, and never reads
    past the terminator of either. *)
Theorem strcmp_spec a b s t :
  holds a s -> holds b t -> exists d, strcmp a b = Ok d /\ (d = 0 <-> s = t).
Proof. apply strcmp_ok. Qed.

(** [strcpy] writes the string and its terminator over the start of the
    destination and leaves the rest alone; it runs out of the destination exactly
    when the string and its terminator do not fit. *)
Theorem strcpy_spec dst src s :
  holds src s ->
  strcpy dst src = if (length s <? length dst)%nat
                   then Ok (s ++ 0 :: drop (S (length s)) dst) else Err OutOfBounds.
Proof.
  intros Hs. destruct (Nat.ltb_spec (length s) (length dst)).
  - by apply strcpy_ok.
  - by apply (strcpy_short _ _ s).
Qed.

(** [hex2bin] reads back the hexadecimal digits of a number below 2^31, in either
    case, whatever follows them. *)
Theorem hex2bin_roundtrip upper k v rest :
  0 <= v < 16 ^ Z.of_nat k -> v < 2 ^ 31 ->
  hex2bin (hex_string upper k v ++ rest) (Z.of_nat k) = Ok v.
Proof. intros Hv Hv2. unfold hex2bin. rewrite Nat2Z.id. by apply hex2bin_string. Qed.

(** [atoi] reads back the decimal digits of a number, with or without a sign, up
    to the first character that is not a digit. *)
Theorem atoi_roundtrip n v c rest :
  0 <= v < 10 ^ Z.of_nat n -> v < 2 ^ 31 -> c < 48 \/ 57 < c -> n <> O ->
  atoi (decimal n v ++ c :: rest) = Ok v /\ atoi (45 :: decimal n v ++ c :: rest) = Ok (- v).
Proof.
  intros Hv Hv2 Hc Hn.
  assert (E : atoi_loop 0 (decimal n v ++ c :: rest) = Ok v).
  { rewrite (atoi_loop_app _ _ 0 v); [|apply decimal_digits; lia|by apply atoi_decimal].
    cbn. destruct (Z.leb_spec 48 c), (Z.leb_spec c 57); (done || lia). }
  split.
  - unfold atoi. destruct (decimal n v) as [|d s] eqn:Ed.
    + exfalso. destruct n; [done|]. cbn in Ed. destruct (v <? 10); [done|].
      by destruct (decimal n (v / 10)).
    + pose proof (decimal_head n v d s ltac:(lia) Ed). cbn [app] in *.
      destruct (Z.eqb_spec d 45); [lia|]. rewrite E, res_bind_ok. f_equal.
      rewrite s32_small; lia.
  - cbn [atoi]. rewrite Z.eqb_refl. rewrite E, res_bind_ok. f_equal. rewrite s32_small; lia.
Qed.

Lemma strcmp_spec_witness :
  exists d, strcmp [97; 98; 0; 7] [97; 98; 0] = Ok d /\ (d = 0 <-> [97; 98] = [97; 98]).
Proof.
  apply (strcmp_spec [97; 98; 0; 7] [97; 98; 0] [97; 98] [97; 98]).
  - split; [repeat constructor|by exists [7]].
  - split; [repeat constructor|by exists []].
Defined.

Lemma strcpy_spec_witness :
  strcpy [1; 2; 3; 4] [97; 98; 0; 7] =
    if (2 <? 4)%nat then Ok ([97; 98] ++ 0 :: drop 3 [1; 2; 3; 4]) else Err OutOfBounds.
Proof.
  apply (strcpy_spec [1; 2; 3; 4] [97; 98; 0; 7] [97; 98]). split; [repeat constructor|by exists [7]].
Defined.

Lemma hex2bin_roundtrip_witness :
  hex2bin (hex_string true 8 0x7000b1ff ++ [48]) 8 = Ok 0x7000b1ff.
Proof. apply (hex2bin_roundtrip true 8 0x7000b1ff [48]); cbn; lia. Defined.

Lemma atoi_roundtrip_witness :
  atoi (decimal 3 907 ++ 0 :: []) = Ok 907 /\ atoi (45 :: decimal 3 907 ++ 0 :: []) = Ok (- 907).
Proof. apply (atoi_roundtrip 3 907 0 []); cbn; lia. Defined.
