(* ===== verification/CMem.v ===== *)
(** Bytes of the kernel's memory.  The memory is kept by aligned 64-bit words
    ([Slab.words]); a byte is a part of its word, little-endian. *)
From S2P Require Import Prelude ListHead Memblock Buddy Slab.

Definition word_of (a : Z) : Z := a / 8 * 8.
Definition shift_of (a : Z) : Z := 8 * (a mod 8).

Definition byte_at (s : slab_state) (a : Z) : Z :=
  Z.land (Z.shiftr (default 0 (words s !! word_of a)) (shift_of a)) 255.

Definition with_byte (w sh v : Z) : Z :=
  Z.lor (Z.ldiff w (Z.shiftl 255 sh)) (Z.shiftl (u8 v) sh).

Definition load_byte (a : Z) : M slab_state Z := gets (fun s => byte_at s a).
Definition store_byte (a v : Z) : M slab_state unit :=
  w ← load (word_of a);
  store (word_of a) (with_byte w (shift_of a) v).

(** [memcpy] on memory; addresses are 64-bit. *)
(* [src/src/string.c:106-114 memcpy] *)
Fixpoint mem_copy (n : nat) (d s : Z) : M slab_state unit :=
  match n with
  | O => mret tt
  | S n =>
    c ← load_byte s;
    _ ← store_byte d c;
    mem_copy n (u64 (d + 1)) (u64 (s + 1))
  end.

(** * Laws *)

Lemma shift_range a : 0 <= shift_of a /\ shift_of a <= 56.
Proof. unfold shift_of. pose proof (Z.mod_pos_bound a 8). lia. Qed.

Lemma bit_255 i : 0 <= i -> Z.testbit 255 i = (i <? 8).
Proof. intros Hi. change 255 with (Z.ones 8). rewrite Z.testbit_ones by lia. repeat zcase; (done || lia). Qed.

Lemma with_byte_eq w sh v : 0 <= sh -> Z.land (Z.shiftr (with_byte w sh v) sh) 255 = u8 v.
Proof.
  intros Hsh. apply Z.bits_inj'. intros i Hi. unfold with_byte.
  rewrite Z.land_spec, Z.shiftr_spec, Z.lor_spec, Z.ldiff_spec, !Z.shiftl_spec by lia.
  replace (i + sh - sh) with i by lia. rewrite bit_255 by lia.
  destruct (Z.ltb_spec i 8).
  - cbn. by rewrite andb_false_r, orb_false_l, andb_true_r.
  - rewrite andb_false_r. unfold u8. by rewrite Z.mod_pow2_bits_high by lia.
Qed.

Lemma with_byte_ne w j k v :
  0 <= j <= 7 -> 0 <= k <= 7 -> j <> k ->
  Z.land (Z.shiftr (with_byte w (8 * j) v) (8 * k)) 255 = Z.land (Z.shiftr w (8 * k)) 255.
Proof.
  intros Hj Hk Hne. apply Z.bits_inj'. intros i Hi. unfold with_byte.
  rewrite !Z.land_spec, !Z.shiftr_spec, Z.lor_spec, Z.ldiff_spec, !Z.shiftl_spec by lia.
  rewrite (bit_255 i) by lia. destruct (Z.ltb_spec i 8); [|by rewrite !andb_false_r].
  rewrite !andb_true_r. destruct (Z.lt_ge_cases (i + 8 * k) (8 * j)).
  - rewrite (Z.testbit_neg_r 255), (Z.testbit_neg_r (u8 v)) by lia. by rewrite andb_true_r, orb_false_r.
  - rewrite bit_255 by lia. unfold u8. rewrite Z.mod_pow2_bits_high by lia.
    destruct (Z.ltb_spec (i + 8 * k - 8 * j) 8); [lia|]. by rewrite andb_true_r, orb_false_r.
Qed.

Definition poke (s : slab_state) (a v : Z) : slab_state :=
  SlabState (zone_of s) (kmem_caches s)
    (<[word_of a := with_byte (default 0 (words s !! word_of a)) (shift_of a) v]> (words s)).

Lemma store_byte_ok s a v : store_byte a v s = Ok (tt, poke s a v).
Proof. done. Qed.

Lemma byte_poke_eq s a v : byte_at (poke s a v) a = u8 v.
Proof.
  unfold byte_at, poke. cbn [words]. rewrite lookup_insert_eq.
  cbn. apply with_byte_eq. apply shift_range.
Qed.

Lemma byte_poke_ne s a b v : a <> b -> byte_at (poke s a v) b = byte_at s b.
Proof.
  intros Hne. unfold byte_at, poke. cbn [words]. destruct (decide (word_of a = word_of b)) as [E|E].
  - rewrite E, lookup_insert_eq. cbn. rewrite <-E at 2. unfold shift_of.
    rewrite with_byte_ne; [by rewrite E| | |].
    + pose proof (Z.mod_pos_bound a 8). lia.
    + pose proof (Z.mod_pos_bound b 8). lia.
    + unfold word_of in E. pose proof (Z.div_mod a 8). pose proof (Z.div_mod b 8). lia.
  - by rewrite lookup_insert_ne.
Qed.

(** [mem_copy] between ranges that do not overlap. *)
Lemma mem_copy_ok n d src s :
  0 <= d -> d + Z.of_nat n < 2 ^ 64 -> 0 <= src -> src + Z.of_nat n < 2 ^ 64 ->
  (d + Z.of_nat n <= src \/ src + Z.of_nat n <= d) ->
  exists s', mem_copy n d src s = Ok (tt, s') /\ zone_of s' = zone_of s /\
    kmem_caches s' = kmem_caches s /\
    (forall i, 0 <= i < Z.of_nat n -> byte_at s' (d + i) = u8 (byte_at s (src + i))) /\
    (forall a, a < d \/ d + Z.of_nat n <= a -> byte_at s' a = byte_at s a) /\
    (forall w, w + 8 <= d \/ d + Z.of_nat n <= w -> (8 | w) -> words s' !! w = words s !! w).
Proof.
  revert d src s. induction n as [|n IH]; intros d src s Hd Hdn Hs Hsn Hdis.
  { exists s. split_and!; try done. lia. }
  cbn [mem_copy]. unfold load_byte. run (gets_ok (fun s => byte_at s src) s).
  run (store_byte_ok s d (byte_at s src)). rewrite !u64_small by lia.
  set (s1 := poke s d (byte_at s src)).
  destruct (IH (d + 1) (src + 1) s1) as (s' & E & Hz & Hc & Hin & Hout & Hw); [lia..|].
  exists s'. split_and!; try done.
  - intros i Hi. destruct (decide (i = 0)) as [->|Hne].
    + rewrite !Z.add_0_r, Hout by lia. apply byte_poke_eq.
    + replace (d + i) with (d + 1 + (i - 1)) by lia. rewrite Hin by lia.
      replace (src + 1 + (i - 1)) with (src + i) by lia. unfold s1. by rewrite byte_poke_ne by lia.
  - intros a Ha. rewrite Hout by lia. unfold s1. apply byte_poke_ne. lia.
  - intros w Hwr Hw8. rewrite Hw by (done || lia). unfold s1, poke. cbn. apply lookup_insert_ne.
    unfold word_of. intros <-. pose proof (Z.div_mod d 8). pose proof (Z.mod_pos_bound d 8). lia.
Qed.
