(* ===== verification/Process.v ===== *)
(** The process system calls of [src/src/syscall.c] and [do_exec] of
    [src/src/exec.c].

    A trap frame is a structure on the kernel stack of the task that trapped:
    [tf] is its address, and its registers are words of the kernel's memory. *)
From S2P Require Import Prelude ListHead Memblock Buddy Slab PageTable SlabKMem Sched CMem.

(** * Constants *)

(* [src/include/syscall.h:26-27 SYSCALL_ERROR] *)
Definition SYSCALL_SUCCESS : Z := 0.
Definition SYSCALL_ERROR : Z := -1.
(* [src/include/mm.h:104-104 USER_PROG_START] *)
Definition USER_PROG_START : Z := 0.
(* [src/include/mm.h:105-105 USER_STACK_ADDR] *)
Definition USER_STACK_ADDR : Z := 0xffffffffb000.
(* [src/include/mm.h:106-106 USER_STACK_TOP] *)
Definition USER_STACK_TOP : Z := 0xfffffffff000.
(* [src/include/mm.h:107-107 USER_STACK_SIZE] *)
Definition USER_STACK_SIZE : Z := 0x4000.
(* [src/include/mm.h:13-13 PERIPHERAL_BASE] *)
Definition PERIPHERAL_BASE : Z := 0x3c000000.
(* [src/include/mm.h:14-14 PERIPHERAL_SIZE] *)
Definition PERIPHERAL_SIZE : Z := 0x03000000.
(* [src/include/mm.h:57-57 PD_AP_EL0] *)
Definition PD_AP_EL0 : Z := Z.shiftl 1 6.

(** A system call returns its status, or the processor goes elsewhere. *)
Inductive sysret :=
  | Status (v : Z)
  | Away (r : resume).

(** * The trap frame *)

(** [trapframe->x[i]]. *)
(* [src/include/syscall.h:44-45 trapframe] *)
Definition get_x (tf i : Z) : M sched_state Z := on_heap (Slab.load (tf + 8 * i)).
Definition set_x (tf i v : Z) : M sched_state unit := on_heap (Slab.store (tf + 8 * i) (u64 v)).
(** [trapframe->sp], after the 31 registers. *)
(* [src/include/syscall.h:46-49 trapframe] *)
Definition get_sp (tf : Z) : M sched_state Z := on_heap (Slab.load (tf + 8 * 31)).

Definition current_task : M sched_state task_struct := cur ← get_current; task_at cur.
Definition upd_current (f : task_struct -> task_struct) : M sched_state unit :=
  cur ← get_current; upd_task cur f.

Section Code.
Context `{Link}.

(* [src/src/syscall.c:36-43 sys_get_taskid] *)
Definition sys_get_taskid (tf : Z) : M sched_state sysret :=
  t ← current_task;
  _ ← set_x tf 0 (task_id t);
  mret (Status SYSCALL_SUCCESS).

(** [&kstack_pool[i][0]]. *)
Definition kstack (i : Z) : Z := kstack_pool + i * KSTACK_SIZE.

(** The copies the child gets of the parent's user stack and program, and the new
    address space they are mapped in. *)
(* [src/src/syscall.c:118-134 sys_fork] *)
Definition fork_memory (child : Z) : M sched_state Z :=
  child_pgd ← on_heap create_empty_page_table;
  child_stack ← on_heap (kmalloc USER_STACK_SIZE);
  t ← current_task;
  phys ← on_heap (simulate_walk (phys_to_virt (pgd (ctx (tss t)))) USER_STACK_ADDR);
  let parent_stack := phys_to_virt phys in
  _ ← on_heap (mem_copy (Z.to_nat USER_STACK_SIZE) child_stack parent_stack);
  prog ← on_heap (kmalloc (prog_sz (mm_of t)));
  _ ← upd_task child (fun c => set_mm (Mm prog (prog_sz (mm_of c))) c);
  _ ← upd_task child (fun c => set_mm (Mm (prog_addr (mm_of c)) (prog_sz (mm_of t))) c);
  _ ← on_heap (mem_copy (Z.to_nat (prog_sz (mm_of t))) prog (prog_addr (mm_of t)));
  _ ← on_heap (map_pages child_pgd USER_STACK_ADDR USER_STACK_SIZE (virt_to_phys child_stack) PD_AP_EL0);
  _ ← on_heap (map_pages child_pgd USER_PROG_START (prog_sz (mm_of t)) (virt_to_phys prog) PD_AP_EL0);
  _ ← on_heap (map_pages child_pgd PERIPHERAL_BASE PERIPHERAL_SIZE PERIPHERAL_BASE PD_AP_EL0);
  mret child_pgd.

(** The child's structure, before its memory. *)
(* [src/src/syscall.c:102-116 sys_fork] *)
Definition fork_task (tf : Z) : M sched_state Z :=
  child ← find_empty_task;
  t ← current_task;
  _ ← put_task child t;
  _ ← upd_task child (set_task_id child);
  _ ← upd_task child (fun c => set_counter (priority c) c);
  _ ← upd_task child (fun c => let x := ctx (tss c) in
        set_ctx (CpuContext (x19_x28 x) (fp x) exit_kernel (sp x) (pgd x)) c);
  t ← current_task;
  _ ← on_heap (mem_copy (Z.to_nat KSTACK_SIZE) (kstack child) (kstack (task_id t)));
  let kstack_offset := u32 (kstack child - kstack (task_id t)) in
  _ ← upd_task child (fun c => let x := ctx (tss c) in
        set_ctx (CpuContext (x19_x28 x) (fp x) (lr x) (u64 (tf + kstack_offset)) (pgd x)) c);
  mret child.

(* [src/src/syscall.c:91-143 sys_fork] *)
Definition sys_fork (tf : Z) : M sched_state sysret :=
  child ← fork_task tf;
  child_pgd ← fork_memory child;
  _ ← upd_task child (fun c => let x := ctx (tss c) in
        set_ctx (CpuContext (x19_x28 x) (fp x) (lr x) (sp x) (virt_to_phys child_pgd)) c);
  c ← task_at child;
  let child_trapframe := sp (ctx (tss c)) in
  _ ← set_x child_trapframe 0 0;
  _ ← set_x tf 0 child;
  mret (Status SYSCALL_SUCCESS).

(* [src/src/syscall.c:146-155 sys_exit] *)
Definition sys_exit (fuel : nat) (tf : Z) : M sched_state sysret :=
  _ ← upd_current (set_state TASK_STOPPED);
  x0 ← get_x tf 0;
  _ ← upd_current (set_exit_state (s32 x0));
  n ← gets num_running_task;
  _ ← set_num_running (s32 (n - 1));
  r ← schedule fuel;
  mret (Away r).

(* [src/src/syscall.c:172-193 sys_kill] *)
Definition sys_kill (tf : Z) : M sched_state sysret :=
  x0 ← get_x tf 0;
  let pid := s32 x0 in
  t ← current_task;
  if (pid =? task_id t) || (pid <? 0) || (NR_TASKS <=? pid) then mret (Status SYSCALL_ERROR) else
  task ← task_at pid;
  if negb (state task =? TASK_RUNNING) then mret (Status SYSCALL_ERROR) else
  _ ← upd_task pid (set_state TASK_STOPPED);
  _ ← upd_task pid (set_exit_state 1);
  n ← gets num_running_task;
  _ ← set_num_running (s32 (n - 1));
  mret (Status SYSCALL_SUCCESS).

(* [src/src/syscall.c:196-210 sys_signal] *)
Definition sys_signal (tf : Z) : M sched_state sysret :=
  x0 ← get_x tf 0;
  let signum := s32 x0 in
  if (signum <? 0) || (NR_SIGNALS <=? signum) then mret (Status SYSCALL_ERROR) else
  handler ← get_x tf 1;
  t ← current_task;
  action ← lift_opt OutOfBounds (sighand t).[signum := handler];
  _ ← upd_current (set_sighand action);
  mret (Status SYSCALL_SUCCESS).

(* [src/src/syscall.c:213-233 sys_sigkill] *)
Definition sys_sigkill (tf : Z) : M sched_state sysret :=
  x0 ← get_x tf 0;
  x1 ← get_x tf 1;
  let pid := s32 x0 in
  let signum := s32 x1 in
  t ← current_task;
  if (pid =? task_id t) || (pid <? 0) || (NR_TASKS <=? pid) then mret (Status SYSCALL_ERROR) else
  if (signum <? 0) || (NR_SIGNALS <=? signum) then mret (Status SYSCALL_ERROR) else
  _ ← upd_task pid (set_pending signum);
  mret (Status SYSCALL_SUCCESS).

(** [sig_restore_context] jumps to the saved return address in [context_switch]. *)
(* [src/src/syscall.c:235-247 sys_sigreturn] *)
Definition sys_sigreturn (fuel : nat) (tf : Z) : M sched_state sysret :=
  usp ← get_sp tf;
  _ ← on_heap (kfree usp);
  _ ← upd_current (fun t => let c := ctx (tss t) in
        set_ctx (CpuContext (x19_x28 c) (fp c) (lr c) (sp_backup (tss t)) (pgd c)) t);
  cur ← get_current;
  pc ← sig_restore_context cur;
  if pc =? switch_ret then r ← switched (schedule fuel); mret (Away r)
  else mret (Away (Enter pc)).

(** The last [eret] enters user mode at the start of the program. *)
(* [src/src/exec.c:11-40 do_exec] *)
Definition do_exec (func size : Z) : M sched_state resume :=
  t ← current_task;
  _ ← (if pgd (ctx (tss t)) =? 0 then
         root ← on_heap create_empty_page_table;
         upd_current (fun t => let c := ctx (tss t) in
           set_ctx (CpuContext (x19_x28 c) (fp c) (lr c) (sp c) (virt_to_phys root)) t)
       else mret tt);
  t ← current_task;
  let root := phys_to_virt (pgd (ctx (tss t))) in
  stack ← on_heap (kmalloc USER_STACK_SIZE);
  _ ← upd_current (fun t => set_mm (Mm func (prog_sz (mm_of t))) t);
  _ ← upd_current (fun t => set_mm (Mm (prog_addr (mm_of t)) size) t);
  _ ← on_heap (map_pages root USER_PROG_START size (virt_to_phys func) PD_AP_EL0);
  _ ← on_heap (map_pages root USER_STACK_ADDR USER_STACK_SIZE (virt_to_phys stack) PD_AP_EL0);
  _ ← on_heap (map_pages root PERIPHERAL_BASE PERIPHERAL_SIZE PERIPHERAL_BASE PD_AP_EL0);
  c ← gets regs;
  _ ← set_regs (CpuContext (x19_x28 c) (fp c) (lr c) (sp c) (virt_to_phys root));
  mret (User USER_PROG_START USER_STACK_TOP).

End Code.
