(* ===== verification/ProcessSpec.v ===== *)
(** What the process system calls and [do_exec] promise. *)
From S2P Require Import Prelude ListHead Memblock Buddy BuddyInv BuddyBoot Slab SlabInv SlabSpec PageTable.
From S2P Require Import SlabKMem Sched SchedInv SchedSpec CMem Process.

Section Spec.
Context `{Link}.

(** * Small steps *)

Definition with_heap (h : slab_state) (s : sched_state) : sched_state :=
  Sched (task_pool s) (num_running_task s) (current s) (regs s) h.

(** The word of the trap frame that holds [x[i]]. *)
Definition xreg (s : sched_state) (tf i : Z) : Z := default 0 (words (heap s) !! (tf + 8 * i)).

Lemma on_heap_ok {A} (m : M slab_state A) s a h :
  m (heap s) = Ok (a, h) -> on_heap m s = Ok (a, with_heap h s).
Proof. intros E. unfold on_heap. by rewrite E. Qed.

Lemma on_heap_err {A} (m : M slab_state A) s f : m (heap s) = Err f -> on_heap m s = Err f.
Proof. intros E. unfold on_heap. by rewrite E. Qed.

Lemma on_heap_inv {A} (m : M slab_state A) s a s' :
  on_heap m s = Ok (a, s') -> s' = with_heap (heap s') s /\ m (heap s) = Ok (a, heap s').
Proof.
  unfold on_heap. destruct (m (heap s)) as [[x h]|f]; [|done]. intros E. injection E as <- <-. done.
Qed.

(** A further change of the heap. *)
Lemma on_heap_next {A} (m : M slab_state A) h s a s' :
  on_heap m (with_heap h s) = Ok (a, s') -> exists h', s' = with_heap h' s.
Proof. intros E. apply on_heap_inv in E as [-> _]. by eexists. Qed.

Lemma get_x_ok tf i s : get_x tf i s = Ok (xreg s tf i, s).
Proof. unfold get_x, on_heap, Slab.load. cbn. by destruct s. Qed.

Lemma current_task_ok s c t :
  current s = Z.of_nat c -> task_pool s !! c = Some t -> current_task s = Ok (t, s).
Proof.
  intros Hc Ht. unfold current_task, get_current. run (gets_ok current s). rewrite Hc.
  by apply task_at_ok.
Qed.

Lemma upd_current_ok s c t f :
  current s = Z.of_nat c -> task_pool s !! c = Some t ->
  upd_current f s = Ok (tt, with_pool (<[c := f t]> (task_pool s)) s).
Proof.
  intros Hc Ht. unfold upd_current, get_current. run (gets_ok current s). rewrite Hc.
  by apply upd_task_ok.
Qed.

(** * Killing and signalling *)

Definition valid_pid (s : sched_state) (pid : Z) : Prop := pid <> current s /\ 0 <= pid < NR_TASKS.

#[global] Instance valid_pid_dec s pid : Decision (valid_pid s pid).
Proof. unfold valid_pid. apply _. Defined.

Lemma pid_check s c t pid :
  sched_ok s -> current s = Z.of_nat c -> task_pool s !! c = Some t ->
  ((pid =? task_id t) || (pid <? 0) || (NR_TASKS <=? pid)) = negb (bool_decide (valid_pid s pid)).
Proof.
  intros Hs Hc Ht. rewrite (to_id c t (so_tasks s Hs c t Ht)), <-Hc. unfold valid_pid.
  repeat zcase; case_bool_decide; cbn; try done; try lia.
Qed.

Definition killed (t : task_struct) : task_struct := set_exit_state 1 (set_state TASK_STOPPED t).

Lemma stop_ok s i t u :
  sched_ok s -> task_pool s !! i = Some t -> running t = true ->
  task_id u = task_id t -> state u = TASK_STOPPED -> pending u = pending t -> sighand u = sighand t ->
  s32 (num_running_task s - 1) = num_running_task s - 1 /\
  sched_ok (Sched (<[i := u]> (task_pool s)) (num_running_task s - 1) (current s) (regs s) (heap s)).
Proof.
  intros Hs Ht Hr Hid Hst Hp Hsg. assert (Hru : running u = false) by (unfold running; by rewrite Hst).
  split.
  - pose proof (count_running_range (task_pool s)). pose proof (so_pool s Hs). unfold NR_TASKS in *.
    rewrite (so_count s Hs). apply s32_small. lia.
  - apply (sched_ok_insert s i t u); [done|done| |rewrite Hr, Hru; cbn; lia].
    destruct (so_tasks s Hs i t Ht) as [A B C D E F].
    split; rewrite ?Hid, ?Hp, ?Hsg, ?Hru; try done. by right.
Qed.

Lemma sys_kill_ok s tf :
  sched_ok s ->
  let pid := s32 (xreg s tf 0) in
  (~ valid_pid s pid -> sys_kill tf s = Ok (Status SYSCALL_ERROR, s)) /\
  (valid_pid s pid -> exists t, task_pool s !! Z.to_nat pid = Some t /\
     if running t
     then let s' := Sched (<[Z.to_nat pid := killed t]> (task_pool s)) (num_running_task s - 1)
                      (current s) (regs s) (heap s) in
          sys_kill tf s = Ok (Status SYSCALL_SUCCESS, s') /\ sched_ok s'
     else sys_kill tf s = Ok (Status SYSCALL_ERROR, s)).
Proof.
  intros Hs pid. destruct (current_ok s Hs) as (c & tc & Hc & Htc & _).
  unfold sys_kill. rewrite (bind_ok _ _ _ _ _ (get_x_ok tf 0 s)). fold pid. cbv beta zeta.
  rewrite (bind_ok _ _ _ _ _ (current_task_ok s c tc Hc Htc)). fold pid. clearbody pid.
  rewrite (pid_check s c tc pid Hs Hc Htc). split.
  - intros Hv. by rewrite bool_decide_eq_false_2.
  - intros Hv. rewrite bool_decide_eq_true_2 by done. cbn [negb]. destruct Hv as [_ Hpid].
    destruct (lookup_ok s pid Hs Hpid) as [t Ht]. exists t. split; [done|].
    destruct (Z_of_nat_complete pid) as [n ->]; [lia|]. rewrite Nat2Z.id in *.
    run (task_at_ok s n t Ht). fold (running t). destruct (running t) eqn:Er; cbn [negb]; [|done].
    destruct (stop_ok s n t (killed t) Hs Ht Er eq_refl eq_refl eq_refl eq_refl) as [En Hok].
    split; [|exact Hok]. run (upd_task_ok s _ t (set_state TASK_STOPPED) Ht).
    run (upd_again s _ t (set_state TASK_STOPPED t) (set_exit_state 1) Ht).
    set (s1 := with_pool _ s). run (gets_ok num_running_task s1).
    change (num_running_task s1) with (num_running_task s). rewrite En. done.
Qed.

Lemma sys_signal_ok s tf :
  sched_ok s ->
  let signum := s32 (xreg s tf 0) in
  if decide (0 <= signum < NR_SIGNALS)
  then exists c t, current s = Z.of_nat c /\ task_pool s !! c = Some t /\
    let s' := with_pool (<[c := set_sighand (<[Z.to_nat signum := xreg s tf 1]> (sighand t)) t]> (task_pool s)) s in
    sys_signal tf s = Ok (Status SYSCALL_SUCCESS, s') /\ sched_ok s'
  else sys_signal tf s = Ok (Status SYSCALL_ERROR, s).
Proof.
  intros Hs signum. unfold sys_signal. rewrite (bind_ok _ _ _ _ _ (get_x_ok tf 0 s)). cbv beta zeta. fold signum.
  destruct (decide (0 <= signum < NR_SIGNALS)) as [Hr|Hr].
  - destruct (Z.ltb_spec signum 0), (Z.leb_spec NR_SIGNALS signum); try lia. cbn [orb].
    destruct (current_ok s Hs) as (c & t & Hc & Ht & Hok). exists c, t. split; [done|]. split; [done|].
    run (get_x_ok tf 1 s). run (current_task_ok s c t Hc Ht).
    pose proof (to_sighand c t Hok) as Hl.
    assert (El : lift_opt OutOfBounds (sighand t).[signum := xreg s tf 1] s =
      Ok (<[Z.to_nat signum := xreg s tf 1]> (sighand t), s)).
    { unfold lift_opt. rewrite zset_ok by lia. done. }
    run El. set (a := <[Z.to_nat signum := xreg s tf 1]> (sighand t)).
    run (upd_current_ok s c t (set_sighand a) Hc Ht). split; [done|].
    apply (sched_ok_insert s c t (set_sighand a t) (num_running_task s) Hs Ht).
    + destruct Hok as [A B C D E F]. split; try done. cbn. unfold a. by rewrite length_insert.
    + change (running (set_sighand a t)) with (running t). lia.
  - destruct (Z.ltb_spec signum 0), (Z.leb_spec NR_SIGNALS signum); try lia; done.
Qed.

Lemma sys_sigkill_ok s tf :
  sched_ok s ->
  let pid := s32 (xreg s tf 0) in
  let signum := s32 (xreg s tf 1) in
  (~ (valid_pid s pid /\ 0 <= signum < NR_SIGNALS) -> sys_sigkill tf s = Ok (Status SYSCALL_ERROR, s)) /\
  (valid_pid s pid -> 0 <= signum < NR_SIGNALS ->
   exists t, task_pool s !! Z.to_nat pid = Some t /\
     let s' := with_pool (<[Z.to_nat pid := set_pending signum t]> (task_pool s)) s in
     sys_sigkill tf s = Ok (Status SYSCALL_SUCCESS, s') /\ sched_ok s').
Proof.
  intros Hs pid signum. destruct (current_ok s Hs) as (c & tc & Hc & Htc & _).
  unfold sys_sigkill. rewrite (bind_ok _ _ _ _ _ (get_x_ok tf 0 s)). cbv beta.
  rewrite (bind_ok _ _ _ _ _ (get_x_ok tf 1 s)). cbv beta zeta. fold pid signum. clearbody pid signum.
  rewrite (bind_ok _ _ _ _ _ (current_task_ok s c tc Hc Htc)). cbv beta.
  rewrite (pid_check s c tc pid Hs Hc Htc). split.
  - intros Hv. case_bool_decide as Hp; cbn [negb]; [|done].
    destruct (Z.ltb_spec signum 0), (Z.leb_spec NR_SIGNALS signum); try done.
    exfalso. apply Hv. split; [done|lia].
  - intros Hv Hsig. rewrite bool_decide_eq_true_2 by done. cbn [negb]. destruct Hv as [_ Hpid].
    destruct (Z.ltb_spec signum 0), (Z.leb_spec NR_SIGNALS signum); try lia. cbn [orb].
    destruct (lookup_ok s pid Hs Hpid) as [t Ht]. exists t. split; [done|].
    destruct (Z_of_nat_complete pid) as [n ->]; [lia|]. rewrite Nat2Z.id in *.
    run (upd_task_ok s _ t (set_pending signum) Ht). split; [done|].
    apply (sched_ok_insert s _ t (set_pending signum t) (num_running_task s) Hs Ht).
    + destruct (so_tasks s Hs _ t Ht) as [A B C D E F]. split; done.
    + change (running (set_pending signum t)) with (running t). lia.
Qed.

(** The task that exits. *)
Definition exited (code : Z) (t : task_struct) : task_struct := set_exit_state code (set_state TASK_STOPPED t).

Lemma sys_exit_ok s tf fuel c t :
  sched_ok s -> current s = Z.of_nat c -> task_pool s !! c = Some t -> running t = true ->
  let s1 := Sched (<[c := exited (s32 (xreg s tf 0)) t]> (task_pool s)) (num_running_task s - 1)
              (current s) (regs s) (heap s) in
  sched_ok s1 /\
  sys_exit fuel tf s = match schedule fuel s1 with Ok (r, s') => Ok (Away r, s') | Err f => Err f end.
Proof.
  intros Hs Hc Ht Hr s1. set (code := s32 (xreg s tf 0)) in *.
  destruct (stop_ok s c t (exited code t) Hs Ht Hr eq_refl eq_refl eq_refl eq_refl) as [En Hok].
  split; [exact Hok|]. unfold sys_exit. run (upd_current_ok s c t (set_state TASK_STOPPED) Hc Ht).
  set (s2 := with_pool _ s). assert (Ex : xreg s2 tf 0 = xreg s tf 0) by done.
  run (get_x_ok tf 0 s2). rewrite Ex. fold code.
  assert (Eu : upd_current (set_exit_state code) s2 =
    Ok (tt, with_pool (<[c := exited code t]> (task_pool s)) s)).
  { unfold upd_current, get_current. run (gets_ok current s2). change (current s2) with (current s).
    rewrite Hc. exact (upd_again s c t (set_state TASK_STOPPED t) (set_exit_state code) Ht). }
  run Eu. set (s3 := with_pool _ s). run (gets_ok num_running_task s3).
  change (num_running_task s3) with (num_running_task s). rewrite En.
  run (eq_refl : set_num_running (num_running_task s - 1) s3 = Ok (tt, s1)).
  unfold mbind, M_bind. destruct (schedule fuel s1) as [[r s']|f]; done.
Qed.

(** * Fork *)

Lemma mem_copy_total n d src h : exists h', mem_copy n d src h = Ok (tt, h').
Proof.
  revert d src h. induction n as [|n IH]; intros d src h; [by exists h|].
  cbn [mem_copy]. unfold load_byte. run (gets_ok (fun s => byte_at s src) h).
  run (store_byte_ok h d (byte_at h src)). apply IH.
Qed.

(** The child's structure before its memory is set up: it will leave the kernel
    through its copy of the trap frame. *)
Definition fork_child (i c : nat) (tf : Z) (t : task_struct) : task_struct :=
  let x := ctx (tss t) in
  set_ctx (CpuContext (x19_x28 x) (fp x) exit_kernel (u64 (tf + u32 ((Z.of_nat i - Z.of_nat c) * KSTACK_SIZE))) (pgd x))
    (set_counter (priority t) (set_task_id (Z.of_nat i) t)).

Lemma fork_task_ok s tf c t :
  sched_ok s -> current s = Z.of_nat c -> task_pool s !! c = Some t -> running t = true ->
  (pool_full s /\ fork_task tf s = Err OutOfBounds) \/
  (exists i h, first_stopped s i /\ i <> c /\
     mem_copy (Z.to_nat KSTACK_SIZE) (kstack (Z.of_nat i)) (kstack (Z.of_nat c)) (heap s) = Ok (tt, h) /\
     fork_task tf s = Ok (Z.of_nat i, Sched (<[i := fork_child i c tf t]> (task_pool s))
       (num_running_task s + 1) (current s) (regs s) h)).
Proof.
  intros Hs Hc Ht Hr. unfold fork_task.
  destruct (find_empty_task_ok s Hs) as [[Hf E]|(i & Hi & E)]; [left|right].
  - split; [done|]. run E. run (current_task_ok s c t Hc Ht). apply bind_err.
    unfold put_task, zset. pose proof (so_pool s Hs). destruct (Z.ltb_spec NR_TASKS (Z.of_nat (length (task_pool s)))); [lia|].
    by rewrite andb_false_r.
  - pose proof Hi as (Hir & (u & Hu & Hst) & _).
    assert (Hne : i <> c).
    { intros ->. assert (u = t) as -> by congruence. unfold running in Hr. by rewrite Hst in Hr. }
    destruct (mem_copy_total (Z.to_nat KSTACK_SIZE) (kstack (Z.of_nat i)) (kstack (Z.of_nat c)) (heap s)) as [h Eh].
    exists i, h. split_and!; [done|done|done|]. run E. set (s1 := Sched _ _ _ _ _).
    rewrite (bind_ok _ _ _ _ _ (current_task_ok s1 c t Hc Ht)). cbv beta.
    run (put_task_ok s1 i u t Hu). run (upd_again s1 i u t (set_task_id (Z.of_nat i)) Hu).
    set (t1 := set_task_id (Z.of_nat i) t).
    run (upd_again s1 i u t1 (fun c => set_counter (priority c) c) Hu).
    set (t2 := set_counter (priority t1) t1).
    erewrite (bind_ok _ _ _ _ _ (upd_again s1 i u t2 _ Hu)). cbv beta.
    set (t3 := set_ctx _ t2). set (s2 := with_pool (<[i := t3]> (task_pool s1)) s1).
    assert (Hc2 : task_pool s2 !! c = Some t) by (cbn; by rewrite list_lookup_insert_ne).
    rewrite (bind_ok _ _ _ _ _ (current_task_ok s2 c t Hc Hc2)). cbv beta.
    rewrite (to_id c t (so_tasks s Hs c t Ht)).
    rewrite (bind_ok _ _ _ _ _ (on_heap_ok _ s2 _ _ Eh)). cbv beta.
    change (with_heap h s2) with (with_pool (<[i := t3]> (task_pool s1)) (with_heap h s1)).
    erewrite (bind_ok _ _ _ _ _ (upd_again (with_heap h s1) i u t3 _ Hu)). cbv beta.
    replace (kstack (Z.of_nat i) - kstack (Z.of_nat c)) with ((Z.of_nat i - Z.of_nat c) * KSTACK_SIZE)
      by (unfold kstack; lia).
    reflexivity.
Qed.

Lemma fork_memory_inv s i ti c t root s' :
  i <> c -> current s = Z.of_nat c -> task_pool s !! c = Some t -> task_pool s !! i = Some ti ->
  fork_memory (Z.of_nat i) s = Ok (root, s') ->
  exists prog h, s' = Sched (<[i := set_mm (Mm prog (prog_sz (mm_of t))) ti]> (task_pool s))
    (num_running_task s) (current s) (regs s) h.
Proof.
  intros Hne Hc Ht Hi E. unfold fork_memory in E. replace s with (with_heap (heap s) s) in E by (by destruct s).
  inv_step E as r1 ? E1. apply on_heap_next in E1 as [h1 ->].
  inv_step E as r2 ? E2. apply on_heap_next in E2 as [h2 ->].
  rewrite (bind_ok _ _ _ _ _ (current_task_ok (with_heap h2 s) c t Hc Ht)) in E. cbv beta in E.
  inv_step E as r3 ? E3. apply on_heap_next in E3 as [h3 ->].
  inv_step E as r4 ? E4. apply on_heap_next in E4 as [h4 ->].
  inv_step E as prog ? E5. apply on_heap_next in E5 as [h5 ->].
  erewrite (bind_ok _ _ _ _ _ (upd_task_ok (with_heap h5 s) i ti _ Hi)) in E. cbv beta in E.
  erewrite (bind_ok _ _ _ _ _ (upd_again (with_heap h5 s) i ti _ _ Hi)) in E. cbv beta in E.
  set (f := set_mm (Mm prog (prog_sz (mm_of t))) ti).
  set (s5 := with_pool (<[i := f]> (task_pool s)) s).
  change (with_pool _ (with_heap h5 s)) with (with_heap h5 s5) in E.
  inv_step E as r6 ? E6. apply on_heap_next in E6 as [h6 ->].
  inv_step E as r7 ? E7. apply on_heap_next in E7 as [h7 ->].
  inv_step E as r8 ? E8. apply on_heap_next in E8 as [h8 ->].
  inv_step E as r9 ? E9. apply on_heap_next in E9 as [h9 ->].
  injection E as <- <-. by exists prog, h9.
Qed.

(** The child once [sys_fork] is done. *)
Definition forked (i c : nat) (tf prog root : Z) (t : task_struct) : task_struct :=
  let f := set_mm (Mm prog (prog_sz (mm_of t))) (fork_child i c tf t) in
  let x := ctx (tss f) in
  set_ctx (CpuContext (x19_x28 x) (fp x) (lr x) (sp x) (virt_to_phys root)) f.

Lemma sys_fork_inv s tf c t r s' :
  sched_ok s -> current s = Z.of_nat c -> task_pool s !! c = Some t -> running t = true ->
  sys_fork tf s = Ok (r, s') ->
  exists i prog root, first_stopped s i /\ i <> c /\ r = Status SYSCALL_SUCCESS /\
    task_pool s' = <[i := forked i c tf prog root t]> (task_pool s) /\
    num_running_task s' = num_running_task s + 1 /\ current s' = current s /\ regs s' = regs s /\
    xreg s' tf 0 = Z.of_nat i /\
    (sp (ctx (tss (forked i c tf prog root t))) <> tf ->
     xreg s' (sp (ctx (tss (forked i c tf prog root t)))) 0 = 0).
Proof.
  intros Hs Hc Ht Hr E. unfold sys_fork in E.
  destruct (fork_task_ok s tf c t Hs Hc Ht Hr) as [[_ Ef]|(i & h & Hi & Hne & _ & Ef)].
  { by rewrite (bind_err _ _ _ _ Ef) in E. }
  rewrite (bind_ok _ _ _ _ _ Ef) in E. cbv beta in E. set (s1 := Sched _ _ _ _ h) in E.
  assert (Hl : (i < length (task_pool s))%nat).
  { destruct Hi as (_ & (u & Hu & _) & _). by eapply lookup_lt_Some. }
  assert (Hi1 : task_pool s1 !! i = Some (fork_child i c tf t)) by (cbn; by rewrite list_lookup_insert_eq).
  assert (Ht1 : task_pool s1 !! c = Some t) by (cbn; by rewrite list_lookup_insert_ne).
  inv_step E as root s2 E2.
  destruct (fork_memory_inv s1 i _ c t root s2 Hne Hc Ht1 Hi1 E2) as (prog & h2 & ->).
  set (f := set_mm _ (fork_child i c tf t)) in E.
  set (s2 := Sched (task_pool s1) (num_running_task s1) (current s1) (regs s1) h2).
  change (Sched (<[i := f]> (task_pool s1)) _ _ _ _) with (with_pool (<[i := f]> (task_pool s2)) s2) in E.
  erewrite (bind_ok _ _ _ _ _ (upd_again s2 i _ f _ Hi1)) in E. cbv beta in E.
  change (set_ctx _ f) with (forked i c tf prog root t) in E.
  set (s3 := with_pool (<[i := forked i c tf prog root t]> (task_pool s2)) s2) in E.
  assert (Hi3 : task_pool s3 !! i = Some (forked i c tf prog root t)).
  { cbn. rewrite list_lookup_insert_eq; [done|by rewrite length_insert]. }
  rewrite (bind_ok _ _ _ _ _ (task_at_ok s3 i _ Hi3)) in E. cbv beta zeta in E.
  set (csp := sp (ctx (tss (forked i c tf prog root t)))) in *.
  assert (Est : forall p v q, set_x p 0 v q = Ok (tt, with_heap
    (SlabState (zone_of (heap q)) (kmem_caches (heap q)) (<[p + 8 * 0 := u64 v]> (words (heap q)))) q)) by done.
  rewrite (bind_ok _ _ _ _ _ (Est csp 0 s3)) in E. cbv beta in E.
  rewrite (bind_ok _ _ _ _ _ (Est tf (Z.of_nat i) _)) in E. injection E as <- <-.
  exists i, prog, root. split_and!; try done.
  - cbn. by rewrite list_insert_insert_eq.
  - unfold xreg. cbn. rewrite lookup_insert_eq. cbn. apply u64_small. destruct Hi. lia.
  - fold csp. intros Hsp. unfold xreg. cbn [heap with_heap words]. rewrite lookup_insert_ne by lia.
    rewrite lookup_insert_eq. done.
Qed.

(** * The address space of a program *)

Lemma heap_alloc_block g s size k :
  heap_inv g s -> PAGE_SIZE <= size -> order_loop 64 size 0 = Ok k -> 0 <= k ->
  kmalloc size s = Err NullDeref \/
  (exists a g' s', kmalloc size s = Ok (a, s') /\ heap_inv g' s' /\ words s' = words s /\
     (forall p, heap_live g p -> heap_live g' p) /\
     exists pa, a = pa + KERNEL_VADDR_BASE /\ 0 <= pa /\ (4096 | pa) /\ pa + 4096 * 2 ^ k <= 2 ^ 48).
Proof.
  destruct g as [B P F]. intros Hinv Hsz Hk Hk0. unfold heap_inv, heap_live in *. cbn in *.
  destruct (kmalloc_large_ok B P F s size k Hinv Hsz Hk Hk0)
    as [[E _]|(a & B' & s' & E & Hw & Hinv' & _ & Hh)]; [by left|right].
  exists a, (HeapGhost B' P F), s'. cbn. split_and!; try done.
  - intros p Hp. apply Hh. by left.
  - assert (Ha : held B' P F a (4096 * 2 ^ k)) by (apply Hh; by right).
    destruct Ha as [(i & Hi & _ & Es)|(q & k' & Hb & -> & Es)].
    + exfalso. unfold slot_size, NR_OBJECTS in *. assert (2 ^ (i + 3) <= 2 ^ 11) by (apply Z.pow_le_mono_r; lia).
      pose proof (pow2_pos k Hk0). lia.
    + destruct (block_range _ _ _ _ q k' Hinv' (proj1 Hb)) as (Hq & Hle & Ea).
      exists (q * 4096). split_and!; [done|lia|apply Z.divide_factor_r|].
      destruct (si_buddy _ _ _ _ Hinv') as ([L Hi] & _). pose proof (si_nr _ _ _ _ Hinv').
      destruct (wb_in _ _ (bi_wf _ _ _ Hi) _ _ _ (proj1 Hb)) as (_ & _ & ? & _). lia.
Qed.

Lemma keep_translation {S G} `{KMem S G} root (s s' : S) va r :
  translates root s va r -> r mod 4096 = va mod 4096 ->
  (exists r0 r', translates root s va r0 /\ translates root s' va r' /\ same_or_unmapped va r0 r') ->
  translates root s' va r.
Proof.
  intros Ht Hm (r0 & r' & Hr0 & Hr1 & Hs). assert (r0 = r) as -> by (unfold translates in *; congruence).
  destruct Hs as [->|[-> ->]]; [done|]. rewrite Z.mod_0_l in Hm by lia. by rewrite <-Hm in Hr1.
Qed.

(** [size] bytes from [va] on are mapped to the physical addresses from [pa] on. *)
Definition mapped (root : Z) (h : slab_state) (va size pa : Z) : Prop :=
  forall x, 0 <= x < size -> translates root h (va + x) (pa + x).

Lemma map_next g T root h va size pa :
  pt_ok g T root h -> (4096 | va) -> 0 <= va -> va + size <= 2 ^ 48 ->
  (4096 | pa) -> 0 <= pa -> pa + size <= 2 ^ 48 -> 0 <= size ->
  (exists s1 f, map_pages root va size pa PD_AP_EL0 h = Err f /\ kmalloc 4096 s1 = Err f) \/
  (exists g' T' h', map_pages root va size pa PD_AP_EL0 h = Ok (tt, h') /\ pt_ok g' T' root h' /\
     mapped root h' va size pa /\
     forall va2 size2 pa2, mapped root h va2 size2 pa2 -> (4096 | va2) -> (4096 | pa2) -> 0 <= va2 ->
       va2 + size2 <= 2 ^ 48 -> (va2 + size2 <= va \/ va + size + 4096 <= va2) -> mapped root h' va2 size2 pa2).
Proof.
  intros Hok Hva Hva0 Hvs Hpa Hpa0 Hps Hsz.
  destruct (map_pages_ok g T root h va size pa PD_AP_EL0) as [Herr|(g' & T' & h' & E & Hok' & Hmap & Hkeep)];
    try done; [by left|right]. exists g', T', h'. split_and!; try done.
  - intros x Hx. apply Hmap; [lia|]. pose proof (Z.div_mod x 4096 ltac:(lia)).
    pose proof (Z.mod_pos_bound x 4096 ltac:(lia)). lia.
  - intros va2 size2 pa2 Hm [a ->] [b ->] Hv0 Hvs2 Hdis x Hx. eapply keep_translation; [by apply Hm| |].
    + rewrite !(Z.add_comm (_ * 4096)), !Z.mod_add by lia. done.
    + apply Hkeep; [lia|]. destruct Hdis as [?|Hdis]; [left; lia|right].
      pose proof (Z.div_mod (a * 4096 + x - va) 4096 ltac:(lia)).
      pose proof (Z.mod_pos_bound (a * 4096 + x - va) 4096 ltac:(lia)). lia.
Qed.

(** The address space the current task has: none, or a tree of tables. *)
Definition has_space (g : heap_ghost) (t : task_struct) (h : slab_state) : Prop :=
  heap_inv g h /\
  (pgd (ctx (tss t)) = 0 \/
   exists T root, pt_ok g T root h /\ pgd (ctx (tss t)) = virt_to_phys root).

Lemma phys_virt pa :
  0 <= pa < 2 ^ 48 -> (4096 | pa) ->
  virt_to_phys (pa + KERNEL_VADDR_BASE) = pa /\ phys_to_virt pa = pa + KERNEL_VADDR_BASE.
Proof.
  intros Hpa _. split.
  - unfold virt_to_phys. change (2 ^ 64 - 1 - KERNEL_VADDR_BASE) with (Z.ones 48).
    rewrite Z.land_ones by lia. change KERNEL_VADDR_BASE with (0xffff * 2 ^ 48).
    rewrite Z.mod_add by lia. by apply Z.mod_small.
  - unfold phys_to_virt. change KERNEL_VADDR_BASE with (0xffff * 2 ^ 48). apply lor_shift; lia.
Qed.

Lemma pt_root_phys g T root h :
  pt_ok g T root h -> phys_to_virt (virt_to_phys root) = root.
Proof.
  intros Hok. destruct (pt_live _ _ _ _ Hok [] root (pt_root _ _ _ _ Hok)) as (_ & _ & pa & Hpa & Hal & ->).
  by destruct (phys_virt pa Hpa Hal) as [-> ->].
Qed.

(** A memory allocation that failed. *)
Definition no_memory (f : fault) : Prop := exists h size, kmalloc size h = Err f.

(** The first step of [do_exec]: the task has a root table. *)
Definition exec_root (t : task_struct) : M sched_state unit :=
  if pgd (ctx (tss t)) =? 0 then
    root ← on_heap create_empty_page_table;
    upd_current (fun t => let c := ctx (tss t) in
      set_ctx (CpuContext (x19_x28 c) (fp c) (lr c) (sp c) (virt_to_phys root)) t)
  else mret tt.

Definition with_pgd (v : Z) (t : task_struct) : task_struct :=
  let c := ctx (tss t) in set_ctx (CpuContext (x19_x28 c) (fp c) (lr c) (sp c) v) t.

Lemma exec_root_ok s c t g :
  current s = Z.of_nat c -> task_pool s !! c = Some t -> has_space g t (heap s) ->
  (exists f, exec_root t s = Err f /\ no_memory f) \/
  (exists g' T root h t', exec_root t s = Ok (tt, with_pool (<[c := t']> (task_pool s)) (with_heap h s)) /\
     pt_ok g' T root h /\ t' = with_pgd (virt_to_phys root) t).
Proof.
  intros Hc Ht [Hk Hsp]. change (kinv g (heap s)) in Hk. unfold exec_root. destruct (Z.eqb_spec (pgd (ctx (tss t))) 0) as [E0|Hne].
  - destruct (create_empty_page_table (heap s)) as [[root h]|f] eqn:E.
    + right. destruct (create_root_ok g (heap s) root h Hk E) as (g' & Hok).
      eexists g', _, root, h, _. rewrite (bind_ok _ _ _ _ _ (on_heap_ok _ s _ _ E)). split_and!; [|exact Hok|].
      * exact (upd_current_ok (with_heap h s) c t (with_pgd (virt_to_phys root)) Hc Ht).
      * done.
    + left. exists f. rewrite (bind_err _ _ _ _ (on_heap_err _ s f E)). split; [done|].
      exists (heap s), 4096. destruct (create_table_ok g (heap s) Hk) as [(f' & Ef & Ea)|(? & ? & ? & ? & _)]; [|congruence].
      rewrite E in Ef. by injection Ef as ->.
  - right. destruct Hsp as [?|(T & root & Hok & Ep)]; [done|]. exists g, T, root, (heap s), t.
    split_and!; [|done|].
    + unfold mret, M_ret. rewrite list_insert_id by done. by destruct s.
    + unfold with_pgd. rewrite <-Ep. by destruct t as [? ? ? ? ? ? ? ? [[]] ? ? ?].
Qed.

Lemma do_exec_ok s c t g func size pa :
  current s = Z.of_nat c -> task_pool s !! c = Some t -> has_space g t (heap s) ->
  func = pa + KERNEL_VADDR_BASE -> 0 <= pa < 2 ^ 48 -> (4096 | pa) -> pa + size <= 2 ^ 48 ->
  0 <= size <= PERIPHERAL_BASE - 4096 ->
  (exists f, do_exec func size s = Err f /\ no_memory f) \/
  (exists g' T root stk s', do_exec func size s = Ok (User USER_PROG_START USER_STACK_TOP, s') /\
     pt_ok g' T root (heap s') /\ pgd (regs s') = virt_to_phys root /\
     task_pool s' = <[c := set_mm (Mm func size) (with_pgd (virt_to_phys root) t)]> (task_pool s) /\
     mapped root (heap s') USER_PROG_START size pa /\
     mapped root (heap s') USER_STACK_ADDR USER_STACK_SIZE stk /\
     mapped root (heap s') PERIPHERAL_BASE PERIPHERAL_SIZE PERIPHERAL_BASE).
Proof.
  intros Hc Ht Hsp -> Hpa Hal Hps Hsz. unfold do_exec.
  assert (Hd1 : (4096 | USER_PROG_START)) by apply Z.divide_0_r.
  assert (Hd2 : (4096 | USER_STACK_ADDR)) by (exists 0xffffffffb; reflexivity).
  assert (Hd3 : (4096 | PERIPHERAL_BASE)) by (exists 0x3c000; reflexivity).
  rewrite (bind_ok _ _ _ _ _ (current_task_ok s c t Hc Ht)). cbv beta. fold (exec_root t).
  destruct (exec_root_ok s c t g Hc Ht Hsp) as [(f & Ef & Hf)|(g1 & T1 & root & h1 & t1 & E1 & Hok1 & Et1)].
  { left. exists f. by rewrite (bind_err _ _ _ _ Ef). }
  run E1. set (s1 := with_pool _ _). assert (Hl : (c < length (task_pool s))%nat) by by eapply lookup_lt_Some.
  assert (Ht1 : task_pool s1 !! c = Some t1) by (cbn; by rewrite list_lookup_insert_eq).
  rewrite (bind_ok _ _ _ _ _ (current_task_ok s1 c t1 Hc Ht1)). cbv beta zeta.
  assert (Er : phys_to_virt (pgd (ctx (tss t1))) = root) by (rewrite Et1; exact (pt_root_phys _ _ _ _ Hok1)).
  rewrite Er. destruct (heap_alloc_block g1 h1 USER_STACK_SIZE 2) as [Ek|(a & g2 & h2 & Ek & Hk2 & Hw2 & Hl2 & pb & -> & Hpb & Hab & Hpb2)];
    [apply (pt_kinv _ _ _ _ Hok1)|by vm_compute|done|lia| |].
  { left. exists NullDeref. rewrite (bind_err _ _ _ _ (on_heap_err _ s1 _ Ek)). split; [done|]. by exists h1, USER_STACK_SIZE. }
  rewrite (bind_ok _ _ _ _ _ (on_heap_ok _ s1 _ _ Ek)). cbv beta.
  assert (Hok2 : pt_ok g2 T1 root h2).
  { eapply pt_frame; [exact Hok1|exact Hk2|exact Hl2|]. intros x. cbn. by rewrite Hw2. }
  assert (Eu : forall f g0 h, upd_current f (with_heap h (with_pool (<[c := g0]> (task_pool s)) s)) =
    Ok (tt, with_heap h (with_pool (<[c := f g0]> (task_pool s)) s))).
  { intros f g0 h. unfold upd_current, get_current.
    change (with_heap h (with_pool (<[c := g0]> (task_pool s)) s)) with
      (with_pool (<[c := g0]> (task_pool (with_heap h s))) (with_heap h s)).
    run (gets_ok current (with_pool (<[c := g0]> (task_pool (with_heap h s))) (with_heap h s))).
    change (current (with_pool _ _)) with (current s). rewrite Hc. exact (upd_again (with_heap h s) c t g0 f Ht). }
  change (with_heap h2 s1) with (with_heap h2 (with_pool (<[c := t1]> (task_pool s)) s)).
  erewrite (bind_ok _ _ _ _ _ (Eu _ t1 h2)). cbv beta.
  erewrite (bind_ok _ _ _ _ _ (Eu _ _ h2)). cbv beta.
  set (t2 := set_mm (Mm (pa + KERNEL_VADDR_BASE) size) t1). set (sp := with_pool (<[c := t2]> (task_pool s)) s).
  change (with_heap h2 (with_pool _ s)) with (with_heap h2 sp).
  destruct (phys_virt pa Hpa Hal) as [-> _].
  destruct (phys_virt pb) as [-> _]; [split; [lia|unfold USER_STACK_SIZE in *; lia]|done|].
  destruct (map_next g2 T1 root h2 USER_PROG_START size pa) as [(q & f & Ef & Eq)|(g3 & T3 & h3 & E3 & Hok3 & Hm3 & _)];
    try assumption; try (unfold USER_PROG_START, PERIPHERAL_BASE in *; lia).
  { left. exists f. rewrite (bind_err _ _ _ _ (on_heap_err _ (with_heap h2 sp) f Ef)). split; [done|]. by exists q, 4096. }
  rewrite (bind_ok _ _ _ _ _ (on_heap_ok _ (with_heap h2 sp) _ _ E3)). cbv beta.
  change (with_heap h3 (with_heap h2 sp)) with (with_heap h3 sp).
  destruct (map_next g3 T3 root h3 USER_STACK_ADDR USER_STACK_SIZE pb) as [(q & f & Ef & Eq)|(g4 & T4 & h4 & E4 & Hok4 & Hm4 & Hk4)];
    try assumption; try (unfold USER_STACK_ADDR, USER_STACK_SIZE in *; lia).
  { left. exists f. rewrite (bind_err _ _ _ _ (on_heap_err _ (with_heap h3 sp) f Ef)). split; [done|]. by exists q, 4096. }
  rewrite (bind_ok _ _ _ _ _ (on_heap_ok _ (with_heap h3 sp) _ _ E4)). cbv beta.
  change (with_heap h4 (with_heap h3 sp)) with (with_heap h4 sp).
  destruct (map_next g4 T4 root h4 PERIPHERAL_BASE PERIPHERAL_SIZE PERIPHERAL_BASE) as [(q & f & Ef & Eq)|(g5 & T5 & h5 & E5 & Hok5 & Hm5 & Hk5)];
    try assumption; try (unfold PERIPHERAL_BASE, PERIPHERAL_SIZE in *; lia).
  { left. exists f. rewrite (bind_err _ _ _ _ (on_heap_err _ (with_heap h4 sp) f Ef)). split; [done|]. by exists q, 4096. }
  rewrite (bind_ok _ _ _ _ _ (on_heap_ok _ (with_heap h4 sp) _ _ E5)). cbv beta.
  change (with_heap h5 (with_heap h4 sp)) with (with_heap h5 sp).
  right. exists g5, T5, root, pb. eexists. split; [reflexivity|].
  split_and!; [exact Hok5|done|by rewrite <-Et1| | |exact Hm5].
  - apply Hk5; [apply Hk4; [exact Hm3|..]|..]; try assumption;
      unfold USER_PROG_START, USER_STACK_ADDR, USER_STACK_SIZE, PERIPHERAL_BASE, PERIPHERAL_SIZE in *; try lia.
  - apply Hk5; [exact Hm4|..]; try assumption;
      unfold USER_STACK_ADDR, USER_STACK_SIZE, PERIPHERAL_BASE, PERIPHERAL_SIZE in *; lia.
Qed.

(** ** What can go wrong in a fork *)

Lemma create_table_err h f : create_empty_page_table h = Err f -> no_memory f.
Proof.
  intros E. apply bind_err_inv in E as [E|(a & h1 & _ & E)]; [by exists h, 4096|].
  apply bind_err_inv in E as [E|(u & h2 & _ & E)]; [|done]. exfalso. revert E.
  generalize (Z.to_nat 512) as n. intros n. revert a h1. induction n as [|n IH]; intros a h1 E; [done|].
  cbn in E. by apply IH in E.
Qed.

Lemma next_table_err p idx h f : next_table p idx h = Err f -> no_memory f.
Proof.
  unfold next_table. intros E. apply bind_err_inv in E as [E|(e & h1 & _ & E)]; [done|].
  apply bind_err_inv in E as [E|(u & h2 & _ & E)].
  - destruct (e =? 0); [|done]. apply bind_err_inv in E as [E|(q & h3 & _ & E)]; [by eapply create_table_err|].
    done.
  - done.
Qed.

Lemma walk_loop_err n p level va pa flag h f : walk_loop n p level va pa flag h = Err f -> no_memory f.
Proof.
  revert p level h. induction n as [|n IH]; intros p level h E; [done|]. cbn in E.
  destruct (level =? 3); [done|]. apply bind_err_inv in E as [E|(q & h1 & _ & E)].
  - by eapply next_table_err.
  - by eapply IH.
Qed.

Lemma map_loop_err fuel root va size pa flag i h f :
  size - i <= Z.of_nat fuel * 4096 -> map_loop fuel root va size pa flag i h = Err f -> no_memory f.
Proof.
  revert i h. induction fuel as [|fuel IH]; intros i h Hf E; cbn [map_loop] in E;
    destruct (Z.ltb_spec i size); try done; [lia|].
  apply bind_err_inv in E as [E|(u & h1 & _ & E)]; [by eapply walk_loop_err|].
  eapply IH; [|exact E]. change PAGE_SIZE with 4096. lia.
Qed.

Lemma map_pages_err root va size pa flag h f :
  map_pages root va size pa flag h = Err f -> no_memory f.
Proof. intros E. eapply map_loop_err; [|exact E]. lia. Qed.

Lemma simulate_total n p level va h : exists r, simulate_loop n p level va h = Ok (r, h).
Proof.
  revert p level. induction n as [|n IH]; intros p level; [by exists 0|]. cbn [simulate_loop].
  rewrite (bind_ok _ _ _ _ _ (eq_refl : PageTable.load (p + 8 * pt_idx va level) h = Ok (_, h))). cbv beta.
  destruct (level =? 3); [by eexists|]. destruct (_ =? 0); [by eexists|]. apply IH.
Qed.

Lemma mem_copy_no_err n d src h f : mem_copy n d src h = Err f -> False.
Proof. intros E. destruct (mem_copy_total n d src h) as [h' Eh]. congruence. Qed.

Lemma simulate_no_err root va h f : simulate_walk root va h = Err f -> False.
Proof. unfold simulate_walk. intros E. destruct (simulate_total 4 root 0 va h) as [r Er]. congruence. Qed.

Lemma on_heap_err_inv {A} (m : M slab_state A) s f : on_heap m s = Err f -> m (heap s) = Err f.
Proof. unfold on_heap. destruct (m (heap s)) as [[a h]|f']; congruence. Qed.

Lemma fork_memory_err s i ti c t f :
  i <> c -> current s = Z.of_nat c -> task_pool s !! c = Some t -> task_pool s !! i = Some ti ->
  fork_memory (Z.of_nat i) s = Err f -> no_memory f.
Proof.
  intros Hne Hc Ht Hi E. unfold fork_memory in E. replace s with (with_heap (heap s) s) in E by (by destruct s).
  apply bind_err_inv in E as [E|(r1 & ? & E1 & E)]; [exact (create_table_err _ _ (on_heap_err_inv _ _ _ E))|].
  apply on_heap_next in E1 as [h1 ->].
  apply bind_err_inv in E as [E|(r2 & ? & E2 & E)]; [exact (ex_intro _ _ (ex_intro _ _ (on_heap_err_inv _ _ _ E)))|].
  apply on_heap_next in E2 as [h2 ->].
  rewrite (bind_ok _ _ _ _ _ (current_task_ok (with_heap h2 s) c t Hc Ht)) in E. cbv beta in E.
  apply bind_err_inv in E as [E|(r3 & ? & E3 & E)].
  { exfalso. apply on_heap_err_inv in E. revert E. apply simulate_no_err. }
  apply on_heap_next in E3 as [h3 ->]. cbv zeta in E.
  apply bind_err_inv in E as [E|(r4 & ? & E4 & E)].
  { exfalso. apply on_heap_err_inv in E. revert E. apply mem_copy_no_err. }
  apply on_heap_next in E4 as [h4 ->].
  apply bind_err_inv in E as [E|(prog & ? & E5 & E)]; [exact (ex_intro _ _ (ex_intro _ _ (on_heap_err_inv _ _ _ E)))|].
  apply on_heap_next in E5 as [h5 ->].
  erewrite (bind_ok _ _ _ _ _ (upd_task_ok (with_heap h5 s) i ti _ Hi)) in E. cbv beta in E.
  erewrite (bind_ok _ _ _ _ _ (upd_again (with_heap h5 s) i ti _ _ Hi)) in E. cbv beta in E.
  apply bind_err_inv in E as [E|(r6 & s6 & _ & E)].
  { exfalso. apply on_heap_err_inv in E. revert E. apply mem_copy_no_err. }
  apply bind_err_inv in E as [E|(r7 & s7 & _ & E)]; [exact (map_pages_err _ _ _ _ _ _ _ (on_heap_err_inv _ _ _ E))|].
  apply bind_err_inv in E as [E|(r8 & s8 & _ & E)]; [exact (map_pages_err _ _ _ _ _ _ _ (on_heap_err_inv _ _ _ E))|].
  apply bind_err_inv in E as [E|(r9 & s9 & _ & E)]; [exact (map_pages_err _ _ _ _ _ _ _ (on_heap_err_inv _ _ _ E))|].
  done.
Qed.

Lemma sys_fork_err s tf c t f :
  sched_ok s -> current s = Z.of_nat c -> task_pool s !! c = Some t -> running t = true ->
  sys_fork tf s = Err f -> (pool_full s /\ f = OutOfBounds) \/ no_memory f.
Proof.
  intros Hs Hc Ht Hr E. unfold sys_fork in E.
  destruct (fork_task_ok s tf c t Hs Hc Ht Hr) as [[Hp Ef]|(i & h & Hi & Hne & _ & Ef)].
  { left. rewrite (bind_err _ _ _ _ Ef) in E. split; [exact Hp|congruence]. }
  right. rewrite (bind_ok _ _ _ _ _ Ef) in E. cbv beta in E. set (s1 := Sched _ _ _ _ h) in E.
  assert (Hl : (i < length (task_pool s))%nat).
  { destruct Hi as (_ & (u & Hu & _) & _). by eapply lookup_lt_Some. }
  assert (Hi1 : task_pool s1 !! i = Some (fork_child i c tf t)) by (cbn; by rewrite list_lookup_insert_eq).
  assert (Ht1 : task_pool s1 !! c = Some t) by (cbn; by rewrite list_lookup_insert_ne).
  apply bind_err_inv in E as [E|(root & s2 & E2 & E)]; [by eapply (fork_memory_err s1 i _ c t)|].
  exfalso. destruct (fork_memory_inv s1 i _ c t root s2 Hne Hc Ht1 Hi1 E2) as (prog & h2 & ->).
  set (f' := set_mm _ (fork_child i c tf t)) in E.
  set (s2 := Sched (task_pool s1) (num_running_task s1) (current s1) (regs s1) h2).
  change (Sched (<[i := f']> (task_pool s1)) _ _ _ _) with (with_pool (<[i := f']> (task_pool s2)) s2) in E.
  erewrite (bind_ok _ _ _ _ _ (upd_again s2 i _ f' _ Hi1)) in E. cbv beta in E.
  change (set_ctx _ f') with (forked i c tf prog root t) in E.
  set (s3 := with_pool (<[i := forked i c tf prog root t]> (task_pool s2)) s2) in E.
  assert (Hi3 : task_pool s3 !! i = Some (forked i c tf prog root t)).
  { cbn. rewrite list_lookup_insert_eq; [done|by rewrite length_insert]. }
  rewrite (bind_ok _ _ _ _ _ (task_at_ok s3 i _ Hi3)) in E. discriminate E.
Qed.

(** * Properties *)

Lemma schedule_total s fuel :
  sched_ok s -> some_running s ->
  (exists f, schedule (S (S fuel)) s = Err f /\ kmalloc USTACK_SIZE (heap s) = Err f) \/
  (exists r s' j t, schedule (S (S fuel)) s = Ok (r, s') /\ current s' = Z.of_nat j /\
     task_pool s !! j = Some t /\ running t = true /\ num_running_task s' = num_running_task s).
Proof.
  intros Hs Hr. destruct (schedule_ok s fuel Hs Hr)
    as (j & pool' & t & Hch & (t' & Hj' & Hrt & _) & Hj & H1 & H2).
  assert (t' = t) as -> by congruence.
  assert (Hold : exists u, task_pool s !! j = Some u /\ running u = true).
  { destruct Hch as [->|[_ ->]]; [by exists t|]. apply list_lookup_fmap_Some in Hj as (u & -> & Hu).
    exists u. by rewrite recharge_running in Hrt. }
  destruct Hold as (u & Hu & Hru). destruct (decide (current s = Z.of_nat j)) as [Hc|Hc].
  { right. exists Return, (with_pool pool' s), j, u. split; [by apply H1|done]. }
  destruct (H2 Hc) as (c & tc & Ec & Hne & Htc & H3 & H4 & H5).
  set (s1 := after_switch (with_pool pool' s) c tc j t) in *.
  destruct (decide (lr (ctx (tss t)) = switch_ret)) as [Hlr|Hlr].
  2:{ right. eexists _, s1, j, u. split; [by apply H3|done]. }
  destruct (decide (pending t = 0)) as [Hp|Hp].
  { right. eexists _, s1, j, u. split; [by apply H4|done]. }
  destruct (H5 Hlr Hp) as (hd & _ & Hk & Hf).
  destruct (kmalloc USTACK_SIZE (heap s)) as [[stk h]|f] eqn:Ek.
  - right. eexists _, _, j, u. split; [by apply Hk|done].
  - left. exists f. split; [by apply Hf|done].
Qed.

(** [sys_kill] stops a runnable task other than the caller, with exit state 1, and
    counts one runnable task less; it refuses, and changes nothing, when the pid is
    the caller's, out of range, or of a task that is not runnable. *)
Theorem sys_kill_spec s tf :
  sched_ok s ->
  let pid := s32 (xreg s tf 0) in
  (~ valid_pid s pid -> sys_kill tf s = Ok (Status SYSCALL_ERROR, s)) /\
  (valid_pid s pid -> exists t, task_pool s !! Z.to_nat pid = Some t /\
     if running t
     then let s' := Sched (<[Z.to_nat pid := killed t]> (task_pool s)) (num_running_task s - 1)
                      (current s) (regs s) (heap s) in
          sys_kill tf s = Ok (Status SYSCALL_SUCCESS, s') /\ sched_ok s'
     else sys_kill tf s = Ok (Status SYSCALL_ERROR, s)).
Proof. apply sys_kill_ok. Qed.

(** [sys_sigkill] records the signal for another task of the pool, whatever its
    state, and keeps the invariant; it refuses, and changes nothing, when the pid or
    the signal number is not valid. *)
Theorem sys_sigkill_spec s tf :
  sched_ok s ->
  let pid := s32 (xreg s tf 0) in
  let signum := s32 (xreg s tf 1) in
  (~ (valid_pid s pid /\ 0 <= signum < NR_SIGNALS) -> sys_sigkill tf s = Ok (Status SYSCALL_ERROR, s)) /\
  (valid_pid s pid -> 0 <= signum < NR_SIGNALS ->
   exists t, task_pool s !! Z.to_nat pid = Some t /\
     let s' := with_pool (<[Z.to_nat pid := set_pending signum t]> (task_pool s)) s in
     sys_sigkill tf s = Ok (Status SYSCALL_SUCCESS, s') /\ sched_ok s').
Proof. apply sys_sigkill_ok. Qed.

(** A task that exits while another one is runnable never returns: the scheduler
    gives the processor to a runnable task other than it, with one task less
    counted, unless no signal stack can be allocated for that task. *)
Theorem sys_exit_spec s tf fuel c t :
  sched_ok s -> current s = Z.of_nat c -> task_pool s !! c = Some t -> running t = true ->
  (exists k u, k <> c /\ task_pool s !! k = Some u /\ running u = true) ->
  (exists f, sys_exit (S (S fuel)) tf s = Err f /\ no_memory f) \/
  (exists r s', sys_exit (S (S fuel)) tf s = Ok (Away r, s') /\ sched_ok s' /\ current_running s' /\
     current s' <> Z.of_nat c /\ num_running_task s' = num_running_task s - 1).
Proof.
  intros Hs Hc Ht Hr (k & u & Hk & Hu & Hru).
  destruct (sys_exit_ok s tf (S (S fuel)) c t Hs Hc Ht Hr) as [Hs1 E]. set (s1 := Sched _ _ _ _ _) in *.
  assert (Hsome : some_running s1).
  { exists k, u. split; [|done]. cbn. by rewrite list_lookup_insert_ne. }
  destruct (schedule_total s1 fuel Hs1 Hsome) as [(f & Ef & Hf)|(r & s' & j & v & Es & Hj & Hv & Hrv & Hn)].
  - left. exists f. rewrite E, Ef. split; [done|]. by exists (heap s1), USTACK_SIZE.
  - right. exists r, s'. rewrite E, Es. destruct (schedule_inv s1 fuel r s' Hs1 Hsome Es) as [Hok Hcur].
    split_and!; try done. rewrite Hj. intros ->%Nat2Z.inj. cbn in Hv.
    rewrite list_lookup_insert_eq in Hv by by eapply lookup_lt_Some. injection Hv as <-. discriminate Hrv.
Qed.


End Spec.

(** * Instances *)

(** The example of the scheduler, with a heap. *)
Definition ex_procs : sched_state :=
  Sched ex_pool 2 0 (CpuContext (replicate 10 0) 0 0 0 0)
    (SlabState (zone_of ex_slab) (kmem_caches ex_slab) (<[0xffff000000090f00 := 1]> ∅)).

Lemma ex_procs_ok : sched_ok ex_procs.
Proof. destruct ex_sched_ok as [A B C D]. split; [exact A|exact B|exact C|exact D]. Qed.

Abbreviation ex_tf := 0xffff000000090f00.

(** The shell kills task 1. *)
Lemma sys_kill_spec_witness :
  exists t, task_pool ex_procs !! 1%nat = Some t /\
    let s' := Sched (<[1%nat := killed t]> ex_pool) 1 0 (regs ex_procs) (heap ex_procs) in
    sys_kill ex_tf ex_procs = Ok (Status SYSCALL_SUCCESS, s') /\ sched_ok s'.
Proof.
  destruct (proj2 (sys_kill_spec ex_procs ex_tf ex_procs_ok)) as (t & Ht & H).
  - split; [discriminate|]. unfold NR_TASKS. vm_compute. split; [discriminate|reflexivity].
  - exists t. injection Ht as <-. split; [reflexivity|exact H].
Defined.

Lemma sys_sigkill_spec_witness :
  exists t, task_pool ex_procs !! 1%nat = Some t /\
    let s' := with_pool (<[1%nat := set_pending 0 t]> ex_pool) ex_procs in
    sys_sigkill ex_tf ex_procs = Ok (Status SYSCALL_SUCCESS, s') /\ sched_ok s'.
Proof.
  destruct (proj2 (sys_sigkill_spec ex_procs ex_tf ex_procs_ok)) as (t & Ht & H).
  - split; [discriminate|]. vm_compute. split; [discriminate|reflexivity].
  - vm_compute. split; [discriminate|reflexivity].
  - exists t. injection Ht as <-. split; [reflexivity|exact H].
Defined.

Lemma sys_exit_spec_witness :
  (exists f, sys_exit 2 ex_tf ex_procs = Err f /\ no_memory f) \/
  (exists r s', sys_exit 2 ex_tf ex_procs = Ok (Away r, s') /\ sched_ok s' /\ current_running s' /\
     current s' <> Z.of_nat 0 /\ num_running_task s' = num_running_task ex_procs - 1).
Proof.
  apply (sys_exit_spec ex_procs ex_tf 0 0 (ex_task 0 TASK_RUNNING 1 1 0) ex_procs_ok eq_refl eq_refl eq_refl).
  exists 1%nat, (ex_task 1 TASK_RUNNING 10 10 0xffff000000081000).
  split; [discriminate|]. split; reflexivity.
Defined.


Definition ex_exec : sched_state := Sched ex_pool 2 0 (CpuContext (replicate 10 0) 0 0 0 0) ex_slab.

