(* ===== verification/TaskInv.v ===== *)
(** What every operation of the scheduler and of the tasks keeps, however it ends: the
    counts of the scheduler, the time slice of the task that runs and the arrays of the
    tasks. *)
From S2P Require Import Prelude ListHead Memblock Buddy Slab PageTable SlabKMem Sched SchedInv SchedSpec CMem Process ProcessSpec.

(** * The tasks *)

(** The arrays of a task have the size of their declarations, and the current directory ends
    in them. *)
Record shaped (t : task_struct) : Prop := {
  sh_table : length (fd_table t) = 16%nat;
  sh_dir : length (current_dir t) = 256%nat;
  sh_end : 0 ∈ current_dir t
}.

Lemma shaped_same t u : shaped t -> fd_table u = fd_table t -> current_dir u = current_dir t -> shaped u.
Proof. intros [A B C] E1 E2. by split; rewrite ?E1, ?E2. Qed.

(** The invariant: that of the scheduler, the arrays, and a task that runs has time left. *)
Record pool_ok (s : sched_state) : Prop := {
  pk_sched : sched_ok s;
  pk_shape : forall i t, task_pool s !! i = Some t -> shaped t
}.

Record tasks_ok (s : sched_state) : Prop := {
  tk_pool : pool_ok s;
  tk_slice : forall c t, current s = Z.of_nat c -> task_pool s !! c = Some t -> running t = true -> 0 < counter t
}.

(** A change of a task that the scheduler does not see. *)
Definition benign (f : task_struct -> task_struct) : Prop := forall i t, task_ok i t -> shaped t ->
  task_ok i (f t) /\ shaped (f t) /\ running (f t) = running t /\ counter (f t) = counter t.

Lemma upd_task_inv i f s u s' : upd_task i f s = Ok (u, s') ->
  exists n t, i = Z.of_nat n /\ task_pool s !! n = Some t /\ s' = with_pool (<[n := f t]> (task_pool s)) s.
Proof.
  intros E. assert (Hi : exists t, (task_pool s).[i] = Some t).
  { unfold upd_task in E. inv_step E as t s1 E1. unfold task_at in E1. destruct ((task_pool s).[i]); [by eexists|done]. }
  destruct Hi as (t & Hi). apply zget_Some in Hi as [Hi0 Hi]. exists (Z.to_nat i), t. split; [lia|]. split; [done|].
  rewrite <-(Z2Nat.id i) in E by done. rewrite (upd_task_ok s _ t f Hi) in E. by injection E as _ <-.
Qed.

Lemma pool_ok_insert s i t t' n :
  pool_ok s -> task_pool s !! i = Some t -> task_ok i t' -> shaped t' ->
  n = num_running_task s - Z.b2z (running t) + Z.b2z (running t') ->
  pool_ok (Sched (<[i := t']> (task_pool s)) n (current s) (regs s) (heap s)).
Proof.
  intros [Hs Hp] Ht Hok Hsh Hn. split; [by apply (sched_ok_insert s i t)|].
  intros j u Hj. apply list_lookup_insert_Some in Hj as [(_ & <- & _)|[_ Hj]]; [done|by apply (Hp j)].
Qed.

(** The tasks do not depend on the registers and the heap. *)
Lemma pool_ok_regs s r h : pool_ok s -> pool_ok (Sched (task_pool s) (num_running_task s) (current s) r h).
Proof. intros [[A B C D] E]. by split. Qed.
Lemma tasks_ok_regs s r h : tasks_ok s -> tasks_ok (Sched (task_pool s) (num_running_task s) (current s) r h).
Proof. intros [A B]. split; [by apply pool_ok_regs|done]. Qed.

Lemma keeps_upd i f : benign f -> keeps tasks_ok (upd_task i f) (fun _ => True).
Proof.
  intros Hf s u s' [Hp Hsl] E. split; [|done]. apply upd_task_inv in E as (n & t & -> & Ht & ->).
  pose proof Hp as [Hs Hsh]. destruct (Hf n t (so_tasks s Hs n t Ht) (Hsh n t Ht)) as (H1 & H2 & H3 & H4).
  split; [apply (pool_ok_insert s n t); (done || rewrite H3; lia)|].
  intros c v Hc Hv. cbn in Hv. apply list_lookup_insert_Some in Hv as [(-> & <- & _)|[_ Hv]].
  - rewrite H3, H4. apply (Hsl c t Hc Ht).
  - apply (Hsl c v Hc Hv).
Qed.

Lemma keeps_upd_current f : benign f -> keeps tasks_ok (upd_current f) (fun _ => True).
Proof. intros Hf. unfold upd_current, get_current. keep. by apply keeps_upd. Qed.

Lemma keeps_heap {A} (m : M slab_state A) : keeps tasks_ok (on_heap m) (fun _ => True).
Proof. intros s a s' Hs E. apply on_heap_inv in E as [-> _]. split; [|done]. by apply tasks_ok_regs. Qed.

Lemma keeps_regs c : keeps tasks_ok (set_regs c) (fun _ => True).
Proof. apply keeps_modify. intros s Hs. by apply tasks_ok_regs. Qed.

Lemma keeps_set_lr v : keeps tasks_ok (set_lr v) (fun _ => True).
Proof. apply (keeps_bind _ _ _ (fun _ => True)); [apply keeps_gets|intros; apply keeps_regs]. Qed.

Lemma keeps_task_at i : keeps tasks_ok (task_at i) shaped.
Proof.
  apply keeps_pure. intros s t s' E. unfold task_at in E. destruct ((task_pool s).[i]) as [u|] eqn:Eu; [|done]. injection E as <- <-.
  split; [done|]. intros [[_ Hsh] _]. apply zget_Some in Eu as [_ Eu]. by apply (Hsh _ _ Eu).
Qed.

Lemma keeps_current_task : keeps tasks_ok current_task shaped.
Proof. unfold current_task, get_current. apply keeps_then; [keep|]. intros a. apply keeps_task_at. Qed.

Ltac benign := let i := fresh in let t := fresh in
  intros i t [? ? ? ? ? ?] [? ? ?]; split_and?; [split; done|split; done|done|done].
#[export] Hint Resolve keeps_heap keeps_regs keeps_set_lr : keeps.
#[export] Hint Extern 1 (keeps tasks_ok (upd_task _ _) _) => apply keeps_upd; benign : keeps.
#[export] Hint Extern 1 (keeps tasks_ok (upd_current _) _) => apply keeps_upd_current; benign : keeps.
#[export] Hint Extern 1 (keeps tasks_ok (task_at _) _) => apply (keeps_any _ _ _ (keeps_task_at _)) : keeps.
#[export] Hint Extern 1 (keeps tasks_ok current_task _) => apply (keeps_any _ _ _ keeps_current_task) : keeps.

(** * The scheduler *)

Section Sched.
Context `{Link}.

Lemma pool_ok_recharge s : pool_ok s -> pool_ok (with_pool (map recharge (task_pool s)) s).
Proof using Type.
  intros [Hs Hsh]. split; [by apply sched_ok_recharge|]. intros i t E. apply list_lookup_fmap_Some in E as (u & -> & Hu).
  destruct (Hsh i u Hu). unfold recharge. by destruct (_ =? _).
Qed.

(** Whatever is chosen has time left, if it runs. *)
Lemma pick_inv fuel : forall c next s j s', pool_ok s -> c = -1 \/ c = 0 -> 0 <= next < NR_TASKS -> pick fuel c next s = Ok (j, s') ->
  pool_ok s' /\ num_running_task s' = num_running_task s /\ current s' = current s /\
  exists k t, j = Z.of_nat k /\ task_pool s' !! k = Some t /\ (running t = true -> 0 < counter t).
Proof using Type.
  induction fuel as [|fuel IH]; intros c next s j s' Hp Hc Hn E; [discriminate E|]. cbn [pick] in E. pose proof (pk_sched s Hp) as Hs.
  change (Z.to_nat NR_TASKS) with 16%nat in E. destruct (scan_ok 16 s c next Hs) as (c' & next' & Esc & Hsc); [lia|destruct Hc; lia|].
  rewrite (bind_ok _ _ _ _ _ Esc) in E.
  assert (Hn' : 0 <= next' < NR_TASKS) by (unfold NR_TASKS; destruct Hsc as [(_ & -> & _)|(k & t & -> & Hk & _)]; [exact Hn|lia]).
  destruct (Z.eqb_spec c' 0) as [->|Hne]; cbn [negb] in E.
  - pose proof (reset_all_ok s Hs) as Er. change (Z.to_nat NR_TASKS) with 16%nat in Er. rewrite (bind_ok _ _ _ _ _ Er) in E.
    exact (IH 0 next' _ j s' (pool_ok_recharge s Hp) (or_intror eq_refl) Hn' E).
  - injection E as <- <-. split; [done|]. split; [done|]. split; [done|].
    destruct Hsc as [(-> & -> & Hall)|(k & t & -> & Hk & Ht & _ & <- & Hlt & _)]; [|by exists k, t; split_and!; [| |intros; lia]].
    destruct Hc as [->| ->]; [|done]. destruct (lookup_ok s next Hs Hn) as (t & Ht). exists (Z.to_nat next), t. split; [lia|].
    split; [done|]. intros Hr. pose proof (lookup_lt_Some _ _ _ Ht). pose proof (so_pool s Hs). unfold NR_TASKS in *.
    pose proof (Hall (Z.to_nat next) t ltac:(lia) Ht Hr). pose proof (to_counter _ t (so_tasks s Hs _ t Ht) Hr). lia.
Qed.

Lemma after_switch_pool s c tc j t : pool_ok s -> task_pool s !! c = Some tc -> task_pool s !! j = Some t ->
  pool_ok (after_switch s c tc j t).
Proof using Type.
  intros [Hs Hsh] Hc Hj. split; [by apply after_switch_ok|]. intros i u Hu. cbn in Hu.
  apply list_lookup_insert_Some in Hu as [(_ & <- & _)|[_ Hu]]; [by apply (shaped_same tc); [apply (Hsh c)|..]|by apply (Hsh i)].
Qed.

Lemma tasks_ok_intro s k t : pool_ok s -> current s = Z.of_nat k -> task_pool s !! k = Some t ->
  (running t = true -> 0 < counter t) -> tasks_ok s.
Proof using Type.
  intros Hp Hc Ht Htime. split; [done|]. intros x u Hx Hu. assert (x = k) as -> by lia. rewrite Ht in Hu. by injection Hu as <-.
Qed.

(** [schedule] keeps the pool, counts nothing anew, and what is current in the end has time. *)
Lemma schedule_keeps fuel : forall s r s', pool_ok s -> schedule fuel s = Ok (r, s') ->
  tasks_ok s' /\ num_running_task s' = num_running_task s.
Proof using Type.
  induction fuel as [|fuel IH]; intros s r s' Hp E; [discriminate E|]. cbn [schedule] in E. inv_step E as j s1 E1.
  destruct (pick_inv (S fuel) (-1) 0 s j s1 Hp (or_introl eq_refl) ltac:(unfold NR_TASKS; lia) E1) as (Hp1 & Hn1 & Hc1 & k & t & -> & Ht & Htime).
  pose proof (pk_sched s1 Hp1) as Hs1. destruct (current_ok s1 Hs1) as (c & tc & Ec & Htc & Htok).
  unfold get_current in E. rewrite (bind_ok _ _ _ _ _ (gets_ok current s1)), Ec in E.
  rewrite (bind_ok _ _ _ _ _ (task_at_ok s1 c tc Htc)), (to_id c tc Htok) in E.
  destruct (Z.eqb_spec (Z.of_nat k) (Z.of_nat c)) as [Ek|Ek]; cbn [negb] in E.
  { injection E as <- <-. split; [|done]. apply (tasks_ok_intro s1 k t); [done|congruence|done|done]. }
  assert (Hne : c <> k) by (intros ->; done). rewrite (switch_to_ok s1 c tc k t Htc Ht Hne Ec) in E. cbv zeta in E.
  pose proof (after_switch_pool s1 c tc k t Hp1 Htc Ht) as Hp2. set (s2 := after_switch s1 c tc k t) in *.
  assert (Hk2 : task_pool s2 !! k = Some t) by (cbn; by rewrite list_lookup_insert_ne).
  assert (Hdone : tasks_ok s2) by (by apply (tasks_ok_intro s2 k t)).
  destruct (lr (ctx (tss t)) =? switch_ret); [|injection E as <- <-; by split; [|rewrite <-Hn1]].
  destruct (switched_ok s2 k t (schedule fuel) (pk_sched s2 Hp2) eq_refl Hk2) as (H1 & H2 & H3).
  destruct (decide (pending t = 0)) as [Hpe|Hpe].
  - destruct (running t) eqn:Er.
    + rewrite (H1 Hpe eq_refl) in E. injection E as <- <-. by split; [|rewrite <-Hn1].
    + rewrite (H2 Hpe eq_refl) in E. destruct (IH s2 r s' Hp2 E) as [? Hn]. split; [done|]. rewrite Hn. exact Hn1.
  - destruct (H3 Hpe) as (hd & _ & Hk & Hf). destruct (kmalloc USTACK_SIZE (heap s2)) as [[stk h]|f] eqn:Em.
    2:{ by rewrite (Hf f eq_refl) in E. }
    rewrite (Hk stk h eq_refl) in E. injection E as <- <-. split; [|exact Hn1].
    pose proof (pool_ok_insert s2 k t (deliver t) (num_running_task s2) Hp2 Hk2) as Hd.
    apply (tasks_ok_intro _ k (deliver t)); [apply (pool_ok_regs (Sched _ _ _ (regs s2) (heap s2))), Hd|done| |exact Htime].
    + apply task_ok_deliver, (so_tasks s2 (pk_sched s2 Hp2) k t Hk2).
    + by apply (shaped_same t); [apply (pk_shape s2 Hp2 k)|..].
    + change (running (deliver t)) with (running t). lia.
    + cbn. rewrite list_lookup_insert_eq; [done|by eapply lookup_lt_Some].
Qed.

Lemma keeps_schedule fuel : keeps tasks_ok (schedule fuel) (fun _ => True).
Proof using Type. intros s r s' [Hp _] E. split; [|done]. by apply (schedule_keeps fuel s r s'). Qed.

(** Another task is switched to, or a signal is delivered. *)
Lemma keeps_switched again : keeps tasks_ok again (fun _ => True) -> keeps tasks_ok (switched again) (fun _ => True).
Proof using Type. intros Ha. unfold switched, get_current. keep. Qed.

(** One unit less for the task that runs. *)
Lemma ticked s : tasks_ok s -> exists c t, current s = Z.of_nat c /\ task_pool s !! c = Some t /\
  pool_ok (with_pool (<[c := set_counter (s64 (counter t - 1)) t]> (task_pool s)) s).
Proof using Type.
  intros [Hp Hsl]. pose proof (pk_sched s Hp) as Hs. destruct (current_ok s Hs) as (c & t & Ec & Ht & Hok).
  exists c, t. split; [done|]. split; [done|]. set (t1 := set_counter _ t).
  apply (pool_ok_insert s c t t1 (num_running_task s) Hp Ht).
  - pose proof (Hsl c t Ec Ht) as Hpos. destruct Hok as [A B C D F G]. split; try done. intros Hr. change (running t = true) in Hr.
    cbn [counter set_counter t1]. specialize (Hpos Hr). specialize (D Hr). rewrite s64_small by lia. lia.
  - destruct (pk_shape s Hp c t Ht). by split.
  - change (running t1) with (running t). lia.
Qed.

(** The tick of the timer. *)
Lemma keeps_do_timer fuel : keeps tasks_ok (do_timer fuel) (fun _ => True).
Proof using Type.
  intros s r s' Hs E. split; [|done]. destruct (ticked s Hs) as (c & t & Ec & Ht & Hp1).
  unfold do_timer, get_current in E. rewrite (bind_ok _ _ _ _ _ (gets_ok current s)), Ec in E.
  rewrite (bind_ok _ _ _ _ _ (upd_task_ok s c t _ Ht)) in E. set (t1 := set_counter (s64 (counter t - 1)) t) in *. set (s1 := with_pool _ s) in *.
  assert (Ht1 : task_pool s1 !! c = Some t1) by (cbn; rewrite list_lookup_insert_eq; [done|by eapply lookup_lt_Some]).
  rewrite (bind_ok _ _ _ _ _ (task_at_ok s1 c t1 Ht1)) in E. destruct (Z.ltb_spec 0 (counter t1)) as [Hpos|Hpos].
  - injection E as <- <-. by apply (tasks_ok_intro s1 c t1).
  - by apply (schedule_keeps fuel s1 r s' Hp1).
Qed.

(** ** The scheduler always comes to an end *)

(** With no task that can run, the first of the pool is chosen. *)
Lemma pick_idle s fuel : sched_ok s -> ~ some_running s -> pick (S fuel) (-1) 0 s = Ok (0, s).
Proof using Type.
  intros Hs Hno. cbn [pick]. change (Z.to_nat NR_TASKS) with 16%nat.
  destruct (scan_ok 16 s (-1) 0 Hs) as (c & next & E & [(-> & -> & _)|(j & t & _ & _ & Ht & Hr & _)]); [lia|lia| |].
  - by rewrite (bind_ok _ _ _ _ _ E).
  - exfalso. apply Hno. by exists j, t.
Qed.

(** The signal of the task that was switched to cannot be delivered without a stack. *)
Definition no_stack (s : sched_state) (f : fault) : Prop := kmalloc USTACK_SIZE (heap s) = Err f.

Lemma switched_total s c t again :
  sched_ok s -> current s = Z.of_nat c -> task_pool s !! c = Some t -> (running t = false -> exists r s', again s = Ok (r, s')) ->
  (exists r s', switched again s = Ok (r, s')) \/ (exists f, switched again s = Err f /\ no_stack s f).
Proof using Type.
  intros Hs Hc Ht Ha. destruct (switched_ok s c t again Hs Hc Ht) as (H1 & H2 & H3).
  destruct (decide (pending t = 0)) as [Hp|Hp].
  - left. destruct (running t) eqn:Er; [rewrite (H1 Hp eq_refl); by do 2 eexists|rewrite (H2 Hp eq_refl); by apply Ha].
  - destruct (H3 Hp) as (hd & _ & Hk & Hf). destruct (kmalloc USTACK_SIZE (heap s)) as [[stk h]|f] eqn:Ek.
    + left. rewrite (Hk stk h eq_refl). by do 2 eexists.
    + right. exists f. split; [by apply Hf|done].
Qed.

Lemma idle_schedule s fuel : sched_ok s -> current s = 0 -> ~ some_running s -> schedule (S fuel) s = Ok (Return, s).
Proof using Type.
  intros Hs Hc Hno. cbn [schedule]. rewrite (bind_ok _ _ _ _ _ (pick_idle s fuel Hs Hno)).
  unfold get_current. rewrite (bind_ok _ _ _ _ _ (gets_ok current s)), Hc.
  destruct (lookup_ok s 0 Hs) as (t & Ht); [unfold NR_TASKS; lia|]. change 0 with (Z.of_nat 0).
  by rewrite (bind_ok _ _ _ _ _ (task_at_ok s 0 t Ht)), (to_id _ t (so_tasks s Hs _ t Ht)).
Qed.

Lemma some_running_dec s : {some_running s} + {~ some_running s}.
Proof using Type.
  destruct (decide (Exists (fun t => running t = true) (task_pool s))) as [He|He]; [left|right].
  - apply Exists_exists in He as (t & Ht & Hr). apply list_elem_of_lookup in Ht as (i & Hi). by exists i, t.
  - intros (i & t & Hi & Hr). apply He, Exists_exists. exists t. split; [by apply list_elem_of_lookup; exists i|done].
Qed.

(** Whatever state the tasks are in, only a lack of memory stops the scheduler. *)
Lemma schedule_runs s fuel : sched_ok s ->
  (exists r s', schedule (S (S fuel)) s = Ok (r, s')) \/ (exists f, schedule (S (S fuel)) s = Err f /\ no_stack s f).
Proof using Type.
  intros Hs. destruct (some_running_dec s) as [Hr|Hno].
  { destruct (schedule_total s fuel Hs Hr) as [Hf|(r & s' & _ & _ & E & _)]; [by right|left; by exists r, s']. }
  destruct (current_ok s Hs) as (c & tc & Ec & Htc & Htok). destruct c as [|c].
  { left. rewrite (idle_schedule s (S fuel) Hs Ec Hno). by do 2 eexists. }
  destruct (lookup_ok s 0 Hs) as (t & Ht); [unfold NR_TASKS; lia|]. change (Z.to_nat 0) with O in Ht.
  change (schedule (S (S fuel))) with (next ← pick (S (S fuel)) (-1) 0; cur ← get_current; t ← task_at cur;
    if negb (next =? task_id t) then context_switch (schedule (S fuel)) next else mret Return).
  rewrite (bind_ok _ _ _ _ _ (pick_idle s (S fuel) Hs Hno)).
  unfold get_current. rewrite (bind_ok _ _ _ _ _ (gets_ok current s)), Ec, (bind_ok _ _ _ _ _ (task_at_ok s _ tc Htc)), (to_id _ tc Htok).
  change (negb (0 =? Z.of_nat (S c))) with true. cbv iota.
  pose proof (switch_to_ok s (S c) tc O t Htc Ht ltac:(done) Ec (schedule (S fuel))) as Esw. change (Z.of_nat 0) with 0 in Esw.
  rewrite Esw. cbv zeta. clear Esw.
  pose proof (after_switch_ok s (S c) tc O t Hs Htc Ht) as Hs1. set (s1 := after_switch s (S c) tc O t) in *.
  destruct (_ =? switch_ret); [|left; by do 2 eexists].
  apply (switched_total s1 O t); [done|done|cbn; by rewrite list_lookup_insert_ne|]. intros _.
  exists Return, s1. apply (idle_schedule s1 fuel Hs1); [done|]. intros (i & u & Hi & Hu). cbn in Hi.
  apply list_lookup_insert_Some in Hi as [(<- & <- & _)|[_ Hi]]; apply Hno; [exists (S c), tc|exists i, u]; done.
Qed.

(** The tick of the timer. *)
Lemma do_timer_runs s fuel : tasks_ok s ->
  (exists r s', do_timer (S (S fuel)) s = Ok (r, s')) \/ (exists f, do_timer (S (S fuel)) s = Err f /\ no_stack s f).
Proof using Type.
  intros Hs. destruct (ticked s Hs) as (c & t & Ec & Ht & Hp). unfold do_timer, get_current.
  rewrite (bind_ok _ _ _ _ _ (gets_ok current s)), Ec, (bind_ok _ _ _ _ _ (upd_task_ok s c t _ Ht)).
  set (t1 := set_counter (s64 (counter t - 1)) t) in *. set (s1 := with_pool _ s) in *.
  assert (Ht1 : task_pool s1 !! c = Some t1) by (cbn; rewrite list_lookup_insert_eq; [done|by eapply lookup_lt_Some]).
  rewrite (bind_ok _ _ _ _ _ (task_at_ok s1 c t1 Ht1)). destruct (0 <? counter t1); [left; by do 2 eexists|].
  exact (schedule_runs s1 fuel (pk_sched s1 Hp)).
Qed.

(** * The system calls of the processes *)

(** A task that is stopped no longer counts. *)
Lemma tasks_ok_stop s i t u :
  tasks_ok s -> task_pool s !! i = Some t -> running t = true ->
  task_id u = task_id t -> state u = TASK_STOPPED -> pending u = pending t -> sighand u = sighand t -> shaped u ->
  tasks_ok (Sched (<[i := u]> (task_pool s)) (num_running_task s - 1) (current s) (regs s) (heap s)).
Proof using Type.
  intros [[Hs Hsh] Hsl] Ht Hr Hid Hst Hpe Hsg Hu. destruct (stop_ok s i t u Hs Ht Hr Hid Hst Hpe Hsg) as [_ Hok].
  split; [split; [exact Hok|]|].
  - intros j v Hv. cbn in Hv. apply list_lookup_insert_Some in Hv as [(_ & <- & _)|[_ Hv]]; [done|by apply (Hsh j)].
  - intros c v Hc Hv Hrv. cbn in Hc, Hv. apply list_lookup_insert_Some in Hv as [(_ & <- & _)|[_ Hv]]; [|by apply (Hsl c v)].
    unfold running in Hrv. by rewrite Hst in Hrv.
Qed.

Lemma keeps_get_x tf i : keeps tasks_ok (get_x tf i) (fun _ => True).
Proof using Type. apply keeps_heap. Qed.
Lemma keeps_set_x tf i v : keeps tasks_ok (set_x tf i v) (fun _ => True).
Proof using Type. apply keeps_heap. Qed.

Lemma keeps_get_taskid tf : keeps tasks_ok (sys_get_taskid tf) (fun _ => True).
Proof using Type. unfold sys_get_taskid, set_x. keep. Qed.

Lemma keeps_kill tf : keeps tasks_ok (sys_kill tf) (fun _ => True).
Proof using Type.
  intros s r s' Hs E. split; [|done]. destruct (sys_kill_ok s tf (pk_sched s (tk_pool s Hs))) as [Hno Hyes]. cbv zeta in Hno, Hyes.
  destruct (decide (valid_pid s (s32 (xreg s tf 0)))) as [Hv|Hv].
  - destruct (Hyes Hv) as (t & Ht & Hb). destruct (running t) eqn:Er.
    + destruct Hb as [Eb _]. rewrite Eb in E. injection E as <- <-. apply (tasks_ok_stop s _ t); try done.
      by apply (shaped_same t); [apply (pk_shape s (tk_pool s Hs) _ t Ht)|..].
    + rewrite Hb in E. by injection E as <- <-.
  - rewrite (Hno Hv) in E. by injection E as <- <-.
Qed.

Lemma keeps_signal tf : keeps tasks_ok (sys_signal tf) (fun _ => True).
Proof using Type.
  unfold sys_signal. apply keeps_then; [apply keeps_get_x|]. intros x0. cbv zeta. destruct (_ || _); [keep|].
  apply keeps_then; [apply keeps_get_x|]. intros h.
  apply (keeps_bind _ _ _ (fun t => Z.of_nat (length (sighand t)) = NR_SIGNALS)).
  { intros s t s' Hs E. pose proof (pk_sched s (tk_pool s Hs)) as Hok. destruct (current_ok s Hok) as (c & u & Hc & Hu & Huk).
    rewrite (current_task_ok s c u Hc Hu) in E. injection E as <- <-. split; [done|apply Huk]. }
  intros t Ht. apply (keeps_bind _ _ _ (fun l => Z.of_nat (length l) = NR_SIGNALS)).
  { apply keeps_lift. intros l El. apply zset_length in El. by rewrite El. }
  intros l Hl. apply keeps_then; [|keep]. apply keeps_upd_current.
  intros i u [? ? ? ? ? ?] [? ? ?]. split_and?; [split; done|split; done|done|done].
Qed.

Lemma keeps_sigkill tf : keeps tasks_ok (sys_sigkill tf) (fun _ => True).
Proof using Type.
  unfold sys_sigkill. apply keeps_then; [apply keeps_get_x|]. intros x0. apply keeps_then; [apply keeps_get_x|]. intros x1.
  cbv zeta. apply keeps_then; [keep|]. intros t. destruct (_ || _ || _); [keep|].
  destruct ((s32 x1 <? 0) || (NR_SIGNALS <=? s32 x1)) eqn:Ez; [keep|]. apply orb_false_iff in Ez as [Ez1 Ez2]. zbool.
  apply keeps_then; [|keep]. apply keeps_upd.
  intros i u [? ? ? ? ? ?] [? ? ?]. split_and?; [split; try done; cbn; lia|split; done|done|done].
Qed.

Lemma keeps_sigreturn fuel tf : keeps tasks_ok (sys_sigreturn fuel tf) (fun _ => True).
Proof using Type.
  pose proof (keeps_switched _ (keeps_schedule fuel)). unfold sys_sigreturn, get_sp, get_current, sig_restore_context. keep.
Qed.

Lemma keeps_do_exec func size : keeps tasks_ok (do_exec func size) (fun _ => True).
Proof using Type. unfold do_exec. keep. Qed.

(** A task that exits or forks is one that runs. *)
Lemma exit_keeps fuel tf s r s' : tasks_ok s -> current_running s -> sys_exit fuel tf s = Ok (r, s') -> tasks_ok s'.
Proof using Type.
  intros Hs (c & t & Hc & Ht & Hr) E. destruct (sys_exit_ok s tf fuel c t (pk_sched s (tk_pool s Hs)) Hc Ht Hr) as [_ Ex].
  cbv zeta in Ex. set (s1 := Sched _ _ _ _ _) in Ex. rewrite Ex in E. destruct (schedule fuel s1) as [[a s2]|] eqn:Esc; [|done].
  injection E as _ <-. refine (proj1 (schedule_keeps fuel s1 a s2 _ Esc)). apply tk_pool.
  apply (tasks_ok_stop s c t); try done. by apply (shaped_same t); [apply (pk_shape s (tk_pool s Hs) c t Ht)|..].
Qed.

Lemma fork_keeps tf s r s' : tasks_ok s -> current_running s -> sys_fork tf s = Ok (r, s') -> tasks_ok s'.
Proof using Type.
  intros Hs (c & t & Hc & Ht & Hr) E. pose proof Hs as [Hp Hsl]. pose proof (pk_sched s Hp) as Hok.
  destruct (sys_fork_inv s tf c t r s' Hok Hc Ht Hr E) as (i & prog & root & Hi & Hne & _ & Epool & En & Ec & _).
  destruct Hi as (_ & (u & Hu & Hst) & _). set (f := forked i c tf prog root t) in *.
  destruct (so_tasks s Hok c t Ht) as [A B C D F G]. pose proof (C Hr) as HC.
  pose proof (pool_ok_insert s i u f (num_running_task s + 1) Hp Hu) as Hins.
  assert (Hru : running u = false) by (unfold running; by rewrite Hst).
  assert (Hrf : running f = true) by (unfold running in *; done).
  assert (Hp' : pool_ok s').
  { destruct s' as [pool n cur rg hp]. cbn in Epool, En, Ec. subst pool n cur.
    apply (pool_ok_regs (Sched _ _ _ (regs s) (heap s))), Hins.
    - split; try done. intros _. cbn. lia.
    - by apply (shaped_same t); [apply (pk_shape s Hp c t Ht)|..].
    - rewrite Hru, Hrf. cbn. lia. }
  apply (tasks_ok_intro s' c t Hp'); [congruence| |by apply (Hsl c t)].
  rewrite Epool, list_lookup_insert_ne by done. exact Ht.
Qed.

(** The default handler of [SIGKILL], run by a task that can run. *)
Lemma default_sigkill_keeps s r s' : tasks_ok s -> current_running s -> run_default_sigkill s = Ok (r, s') -> tasks_ok s'.
Proof using Type.
  intros Hs (c & t & Hc & Ht & Hr) E. pose proof (pk_sched s (tk_pool s Hs)) as Hok.
  pose proof (tasks_ok_stop s c t (exited 0 t) Hs Ht Hr eq_refl eq_refl eq_refl eq_refl) as Hst.
  destruct (stop_ok s c t (exited 0 t) Hok Ht Hr eq_refl eq_refl eq_refl eq_refl) as [En _].
  unfold run_default_sigkill, get_current in E. rewrite (bind_ok _ _ _ _ _ (gets_ok current s)), Hc in E.
  rewrite (bind_ok _ _ _ _ _ (task_at_ok s c t Ht)) in E. cbv zeta in E.
  rewrite (to_id c t (so_tasks s Hok c t Ht)), (bind_ok _ _ _ _ _ (upd_task_ok s c t _ Ht)) in E.
  rewrite (bind_ok _ _ _ _ _ (upd_again s c t _ _ Ht)) in E. fold (exited 0 t) in E. set (s1 := with_pool _ s) in E.
  rewrite (bind_ok _ _ _ _ _ (gets_ok num_running_task s1)) in E. change (num_running_task s1) with (num_running_task s) in E.
  rewrite En in E. injection E as _ <-. apply Hst. by apply (shaped_same t); [apply (pk_shape s (tk_pool s Hs) c t Ht)|..].
Qed.
End Sched.
#[export] Hint Resolve keeps_schedule keeps_do_timer keeps_get_x keeps_set_x keeps_get_taskid keeps_kill keeps_signal
  keeps_sigkill keeps_sigreturn keeps_do_exec : keeps.
