(* ===== verification/SignalSpec.v ===== *)
(** Signals: the delivery of a signal in [context_switch] and the return from its handler
    by [sys_sigreturn], which gives back the stack of the handler and continues the task
    where it was interrupted. *)
From S2P Require Import Prelude ListHead Memblock Buddy BuddyInv Slab SlabInv SlabSpec Sched SchedInv SchedSpec Process.

Section Signal.
Context `{Link}.

(** * The stack of a handler *)

(** Nothing smaller than a page is held as [USTACK_SIZE] bytes: a stack is a page. *)
Lemma stack_page B P F s a : slab_inv B P F s -> held B P F a USTACK_SIZE ->
  exists p pg, B !! p = Some (Used, 0) /\ a = slab_address p /\ 0 <= p < 2 ^ 36 /\
    mem_map (zone_of s) !! p = Some pg /\ flags pg = PG_USED.
Proof using Type.
  unfold USTACK_SIZE. intros Hinv [(i & Hi & _ & Hl)|(p & k & [Hp Hn] & -> & Hl)].
  - exfalso. unfold slot_size, NR_OBJECTS in *.
    pose proof (Z.pow_le_mono_r 2 (i + 3) 11 ltac:(lia) ltac:(lia)). lia.
  - destruct (block_range _ _ _ _ _ _ Hinv Hp) as (Hr & Hk & _).
    destruct (si_block _ _ _ _ Hinv p k Hp Hn) as (pg & Hpg & Hf & _).
    assert (k = 0) as ->.
    { destruct (Z.lt_trichotomy k 0) as [Hlt|[?|Hgt]]; [|done|].
      - rewrite Z.pow_neg_r in Hk by done. lia.
      - pose proof (Z.pow_gt_1 2 k ltac:(lia)). lia. }
    by exists p, pg.
Qed.

(** [kfree] of any address in the stack is [kfree] of the stack. *)
Lemma kfree_inside B P F s a x : slab_inv B P F s -> held B P F a USTACK_SIZE -> a <= x < a + USTACK_SIZE ->
  kfree x s = kfree a s.
Proof using Type.
  intros Hinv Ha Hx. destruct (stack_page _ _ _ _ _ Hinv Ha) as (p & pg & Hp & -> & Hr & Hpg & Hf).
  unfold USTACK_SIZE in Hx. assert (E : phys_to_pfn (virt_to_phys x) = p).
  { rewrite slab_address_val in Hx by done.
    replace x with (x - KERNEL_VADDR_BASE + KERNEL_VADDR_BASE) by lia. rewrite virt_to_phys_val by lia.
    unfold phys_to_pfn, PAGE_SHIFT. rewrite Z.shiftr_div_pow2 by lia. change (2 ^ 12) with 4096.
    symmetry. apply (Z.div_unique _ _ _ (x - KERNEL_VADDR_BASE - p * 4096)); lia. }
  unfold kfree. rewrite E, slab_address_page by done.
  destruct s as [z cs w]. cbn [zone_of] in Hpg.
  do 2 run (on_mm_ok _ (SlabState z cs w) _ _ (buddy_order_ok _ p pg Hpg)).
  do 2 run (on_mm_ok _ (SlabState z cs w) _ _ (page_at_ok z p pg Hpg)). by rewrite Hf.
Qed.

(** * The return from a handler *)

(** The registers [sys_sigreturn] loads: those the task was switched away with, on the stack
    of the time of the signal and with the tables of now. *)
Definition unwound (t : task_struct) (root : Z) : cpu_context :=
  CpuContext (x19_x28 (ctx (tss t))) (fp (ctx (tss t))) (lr (ctx (tss t))) (sp_backup (tss t)) root.

(** The structure of the task after it. *)
Definition returned (t : task_struct) : task_struct := set_ctx (unwound t (pgd (ctx (tss t)))) t.

Lemma task_ok_returned i t : task_ok i t -> task_ok i (returned t).
Proof using Type. by intros [? ? ? ? ? ?]; split. Qed.

(** The handler was entered with the stack pointer 16 bytes below the end of its stack. *)
Definition on_stack (stk : Z) (tf : Z) (s : sched_state) : Prop :=
  stk <= default 0 (words (heap s) !! (tf + 8 * 31)) < stk + USTACK_SIZE.

Lemma sigreturn_ok B P F s c t tf stk fuel :
  sched_ok s -> slab_inv B P F (heap s) -> current s = Z.of_nat c -> task_pool s !! c = Some t ->
  held B P F stk USTACK_SIZE -> on_stack stk tf s -> lr (ctx (tss t)) = switch_ret ->
  exists B' F' s', sys_sigreturn fuel tf s = (r ← switched (schedule fuel); mret (Away r)) s' /\
    sched_ok s' /\ slab_inv B' P F' (heap s') /\
    (forall x l, held B' P F' x l <-> held B P F x l /\ x <> stk) /\
    regs s' = unwound t (pgd (regs s)) /\ current s' = current s /\
    task_pool s' = <[c := returned t]> (task_pool s).
Proof using Type.
  intros Hs Hinv Hc Ht Hst Hsp Hlr. unfold sys_sigreturn, get_sp.
  destruct (kfree_ok B P F (heap s) stk USTACK_SIZE Hinv Hst) as (B' & F' & h & Ek & Hinv' & Hh).
  rewrite (bind_ok _ _ s (default 0 (words (heap s) !! (tf + 8 * 31))) s) by (destruct s; done). cbv beta.
  set (s1 := Sched (task_pool s) (num_running_task s) (current s) (regs s) h).
  rewrite (bind_ok _ _ s tt s1) by (unfold on_heap; by rewrite (kfree_inside B P F _ stk _ Hinv Hst Hsp), Ek). cbv beta.
  unfold upd_current, get_current. rewrite (bind_ok _ _ s1 tt (with_pool (<[c := returned t]> (task_pool s)) s1)).
  2:{ rewrite (bind_ok _ _ _ _ _ (gets_ok current s1)). change (current s1) with (current s). rewrite Hc.
      exact (upd_task_ok s1 c t _ Ht). }
  set (s2 := with_pool _ s1). rewrite (bind_ok _ _ _ _ _ (gets_ok current s2)). change (current s2) with (current s).
  rewrite Hc. assert (Ht2 : task_pool s2 !! c = Some (returned t)).
  { cbn. rewrite list_lookup_insert_eq; [done|by eapply lookup_lt_Some]. }
  set (s3 := Sched (task_pool s2) (num_running_task s) (current s) (unwound t (pgd (regs s))) h).
  rewrite (bind_ok _ _ s2 (lr (ctx (tss t))) s3).
  2:{ unfold sig_restore_context. by rewrite (bind_ok _ _ _ _ _ (task_at_ok s2 c _ Ht2)). }
  rewrite Hlr, Z.eqb_refl. exists B', F', s3. split_and!; try done.
  pose proof (sched_ok_insert s c t (returned t) (num_running_task s) Hs Ht) as [Q1 Q2 Q3 Q4];
    [by apply task_ok_returned, (so_tasks s Hs)|change (running (returned t)) with (running t); lia|by split].
Qed.

(** * The delivery *)

(** The signal cannot be delivered when the allocator has no page. *)
Lemma deliver_ok B P F s c t again :
  sched_ok s -> slab_inv B P F (heap s) -> current s = Z.of_nat c -> task_pool s !! c = Some t -> pending t <> 0 ->
  (switched again s = Err NullDeref /\ forall b k, 0 <= k -> B !! b <> Some (Free, k)) \/
  (exists handler stk B' s', sighand t !! Z.to_nat (pending t) = Some handler /\
     switched again s = Ok (User handler (stk + USTACK_SIZE - 16), s') /\
     sched_ok s' /\ slab_inv B' P F (heap s') /\ words (heap s') = words (heap s) /\
     (forall l, ~ held B P F stk l) /\
     (forall x l, held B' P F x l <-> held B P F x l \/ (x = stk /\ l = USTACK_SIZE)) /\
     regs s' = handler_regs (regs s) /\ current s' = current s /\
     task_pool s' = <[c := deliver t]> (task_pool s)).
Proof using Type.
  intros Hs Hinv Hc Ht Hp. destruct (switched_ok s c t again Hs Hc Ht) as (_ & _ & H3).
  destruct (H3 Hp) as (hd & Hhd & Hk & Hf).
  destruct (kmalloc_large_ok B P F (heap s) USTACK_SIZE 0 Hinv) as [[E Hno]|(stk & B' & h & E & Hw & Hinv' & Hfr & Hh)];
    [done|by vm_compute|done|left; split; [by apply Hf|exact Hno]|].
  right. change (4096 * 2 ^ 0) with USTACK_SIZE in Hh.
  assert (Hst : held B' P F stk USTACK_SIZE) by (apply Hh; by right).
  destruct (stack_page _ _ _ _ _ Hinv' Hst) as (p & _ & _ & Ep & Hr & _).
  pose proof (Hk stk h E) as Ed. rewrite slab_address_val in Ep by done. unfold KERNEL_VADDR_BASE in Ep.
  rewrite u64_small in Ed by (unfold USTACK_SIZE; lia).
  exists hd, stk, B'. eexists. split; [done|]. split; [exact Ed|]. split_and!; try done.
  pose proof (sched_ok_insert s c t (deliver t) (num_running_task s) Hs Ht) as [Q1 Q2 Q3 Q4];
    [by apply task_ok_deliver, (so_tasks s Hs)|change (running (deliver t)) with (running t); lia|by split].
Qed.

(** A second signal before the first handler returns takes the place of [sp_backup]: when both
    handlers have returned the task is not on the stack it was interrupted on, but on that
    of the second signal. *)
Lemma nested_signal_stack_lost t n c root : let u := deliver (set_ctx c (set_pending n (deliver t))) in
  sp (unwound u root) = sp c /\ sp (unwound (returned u) root) = sp c /\
  (sp c <> sp (ctx (tss t)) -> sp (unwound (returned u) root) <> sp (unwound (deliver t) root)).
Proof using Type. done. Qed.

(** * Properties *)

(** C19. A signal and back: unless there is no page for it, the pending signal of the task that is
    switched to enters its handler, on a new page that nothing else holds and with the system
    call [sigreturn] to return to.  Whatever the kernel does until the handler returns, if
    the page is still held, no second signal took [sp_backup] and the stack pointer of the
    program is in the page, [sys_sigreturn] frees that page and nothing else, and the task
    continues in [context_switch] on the stack it was interrupted on. *)
Theorem signal_roundtrip B P F s c t again :
  sched_ok s -> slab_inv B P F (heap s) -> current s = Z.of_nat c -> task_pool s !! c = Some t -> pending t <> 0 ->
  (switched again s = Err NullDeref /\ forall b k, 0 <= k -> B !! b <> Some (Free, k)) \/
  (exists handler stk B1 s1, sighand t !! Z.to_nat (pending t) = Some handler /\
     switched again s = Ok (User handler (stk + USTACK_SIZE - 16), s1) /\ lr (regs s1) = sigreturn_addr /\
     sched_ok s1 /\ slab_inv B1 P F (heap s1) /\ (forall l, ~ held B P F stk l) /\
     (forall x l, held B1 P F x l <-> held B P F x l \/ (x = stk /\ l = USTACK_SIZE)) /\
     current s1 = current s /\ task_pool s1 = <[c := deliver t]> (task_pool s) /\
     forall B2 P2 F2 s2 u tf fuel,
       sched_ok s2 -> slab_inv B2 P2 F2 (heap s2) -> held B2 P2 F2 stk USTACK_SIZE -> on_stack stk tf s2 ->
       current s2 = Z.of_nat c -> task_pool s2 !! c = Some u -> running u = true -> pending u = 0 ->
       sp_backup (tss u) = sp (ctx (tss t)) -> lr (ctx (tss u)) = switch_ret ->
       exists B3 F3 s3, sys_sigreturn fuel tf s2 = Ok (Away Return, s3) /\
         sched_ok s3 /\ slab_inv B3 P2 F3 (heap s3) /\
         (forall x l, held B3 P2 F3 x l <-> held B2 P2 F2 x l /\ x <> stk) /\
         regs s3 = CpuContext (x19_x28 (ctx (tss u))) (fp (ctx (tss u))) switch_ret (sp (ctx (tss t))) (pgd (regs s2)) /\
         task_pool s3 = <[c := returned u]> (task_pool s2)).
Proof using Type.
  intros Hs Hinv Hc Ht Hp. destruct (deliver_ok B P F s c t again Hs Hinv Hc Ht Hp)
    as [Hno|(hd & stk & B1 & s1 & Hhd & E & Hs1 & Hinv1 & _ & Hfr & Hh & Hr & Hcu & Hp1)]; [by left|right].
  exists hd, stk, B1, s1. split_and!; try done; [by rewrite Hr|].
  intros B2 P2 F2 s2 u tf fuel Hs2 Hinv2 Hst Hsp Hc2 Hu Hrun Hpe Hb Hlr.
  destruct (sigreturn_ok B2 P2 F2 s2 c u tf stk fuel) as (B3 & F3 & s3 & E3 & Hs3 & Hinv3 & Hh3 & Hr3 & Hc3 & Hp3); try done.
  exists B3, F3, s3. split_and!; try done; [|by rewrite Hr3; unfold unwound; rewrite Hb, Hlr].
  rewrite E3. assert (Hu3 : task_pool s3 !! c = Some (returned u)).
  { rewrite Hp3, list_lookup_insert_eq; [done|by eapply lookup_lt_Some]. }
  destruct (switched_ok s3 c (returned u) (schedule fuel) Hs3) as (H1 & _); [by rewrite Hc3|done|].
  by rewrite (bind_ok _ _ _ _ _ (H1 Hpe Hrun)).
Qed.
End Signal.

(** * An instance *)

(** The words of memory matter only to slabs. *)
Lemma slab_inv_words B F s w :
  slab_inv B no_slabs F s -> slab_inv B no_slabs F (SlabState (zone_of s) (kmem_caches s) w).
Proof. intros [Q1 Q2 Q3 Q4 Q5 Q6]. split; try done. intros i p _ Hp. set_solver. Qed.

(** A task that is switched back to with a [SIGKILL] pending. *)
Definition ex_signalled_task : task_struct :=
  set_ctx (CpuContext (replicate 10 0) 0xffff000000090f40 switch_ret 0xffff000000090f00 0x80000)
    (set_pending 9 (ex_task 0 TASK_RUNNING 1 1 0)).
Definition ex_signalled : sched_state :=
  Sched (<[O := ex_signalled_task]> ex_pool) 2 0 (CpuContext (replicate 10 0) 0 0 0 0x80000) ex_slab.

Lemma ex_signalled_ok : sched_ok ex_signalled.
Proof.
  pose proof (sched_ok_insert ex_sched O (ex_task 0 TASK_RUNNING 1 1 0) ex_signalled_task 2 ex_sched_ok eq_refl)
    as [Q1 Q2 Q3 Q4]; [|done|by split].
  split; cbn; unfold TASK_RUNNING, TASK_STOPPED, NR_SIGNALS; lia.
Qed.

(** The state when the handler returns: its stack pointer [x] is in the trap frame. *)
Definition ex_handled (x : Z) (s : sched_state) : sched_state :=
  Sched (task_pool s) (num_running_task s) (current s) (regs s)
    (SlabState (zone_of (heap s)) (kmem_caches (heap s)) (<[0xffff000000090d00 + 8 * 31 := x]> (words (heap s)))).

Lemma signal_roundtrip_witness :
  exists stk s1 s3, switched (mret Return) ex_signalled = Ok (User default_sigkill (stk + USTACK_SIZE - 16), s1) /\
    sys_sigreturn 2 0xffff000000090d00 (ex_handled (stk + USTACK_SIZE - 16) s1) = Ok (Away Return, s3) /\
    sp (regs s3) = 0xffff000000090f00.
Proof.
  destruct (signal_roundtrip {[0 := (Free, 9)]} no_slabs no_slabs ex_signalled O ex_signalled_task (mret Return))
    as [[_ Hno]|(hd & stk & B1 & s1 & Hhd & E & _ & Hs1 & Hinv & _ & Hh & Hcu & Hp & Hret)];
    [apply ex_signalled_ok|unfold ex_signalled; cbn [heap]; apply ex_slab_ok|reflexivity|reflexivity|discriminate| |].
  { exfalso. apply (Hno 0 9); [lia|reflexivity]. }
  injection Hhd as <-. exists stk, s1.
  destruct (Hret B1 no_slabs no_slabs (ex_handled (stk + USTACK_SIZE - 16) s1) (deliver ex_signalled_task) 0xffff000000090d00 2%nat)
    as (B3 & F3 & s3 & E3 & _ & _ & _ & Hr & _).
  - destruct Hs1 as [Q1 Q2 Q3 Q4]. split; assumption.
  - apply slab_inv_words, Hinv.
  - apply Hh. right. split; reflexivity.
  - unfold on_stack, ex_handled. cbn [heap words]. rewrite lookup_insert_eq. cbn [default]. unfold USTACK_SIZE. cbn. lia.
  - cbn [ex_handled current]. rewrite Hcu. reflexivity.
  - cbn [ex_handled task_pool]. rewrite Hp. reflexivity.
  - reflexivity.
  - reflexivity.
  - reflexivity.
  - reflexivity.
  - exists s3. split; [exact E|]. split; [exact E3|]. rewrite Hr. reflexivity.
Defined.
