(* ===== verification/Queue.v ===== *)
(** The character queues between the UART interrupt handler and the rest of the
    kernel [src/src/queue.c], and the asynchronous operations of [src/src/uart.c]
    on them.

    A queue is a ring of [size] characters; the abstract view of it is the list of
    the characters that wait in it. *)
From S2P Require Import Prelude.

(** * Data and operations *)

(* [src/include/queue.h:10-18 queue] *)
Record queue := Queue {
  buffer : list Z;
  head : Z;
  tail : Z;
  size : Z
}.

(* [src/src/queue.c:3-4 read_buffer] *)
Definition read_buffer0 : queue := Queue (replicate 64 0) 0 0 64.

(* [src/src/queue.c:8-12 enqueue_char] *)
Definition enqueue_char (q : queue) (c : Z) : res queue :=
  b ← opt_res OutOfBounds (buffer q).[head q := u8 c];
  Ok (Queue b (Z.rem (head q + 1) (size q)) (tail q) (size q)).

(* [src/src/queue.c:14-19 dequeue_char] *)
Definition dequeue_char (q : queue) : res (Z * queue) :=
  c ← opt_res OutOfBounds (buffer q).[tail q];
  Ok (c, Queue (buffer q) (head q) (Z.rem (tail q + 1) (size q)) (size q)).

(* [src/src/queue.c:21-24 is_empty] *)
Definition is_empty (q : queue) : bool := head q =? tail q.

(** ** The users of the queues in [uart.c] *)

(* [src/src/uart.c:190-195 uart_async_getc] *)
Definition uart_async_getc (q : queue) : res (Z * queue) :=
  if is_empty q then Ok (0, q) else dequeue_char q.

(** The characters are queued one by one; the transmit interrupt is then enabled. *)
(* [src/src/uart.c:203-209 uart_async_puts] *)
Fixpoint uart_async_puts (q : queue) (s : list Z) : res queue :=
  match s with
  | c :: s => if c =? 0 then Ok q else q ← enqueue_char q c; uart_async_puts q s
  | [] => Err OutOfBounds
  end.

(** [while (!is_empty(&read_buffer))], with [fuel] characters at most. *)
(* [src/src/uart.c:214-221 uart_async_gets] *)
Fixpoint uart_async_gets (fuel : nat) (q : queue) (buf : list Z) (i : Z) : res (Z * queue * list Z) :=
  if is_empty q then
    buf ← opt_res OutOfBounds buf.[i := 0];
    Ok (i, q, buf)
  else
    match fuel with
    | O => Err NoFuel
    | S fuel =>
      '(c, q) ← dequeue_char q;
      buf ← opt_res OutOfBounds buf.[i := c];
      uart_async_gets fuel q buf (i + 1)
    end.

(** The bottom half of the receive interrupt. *)
(* [src/src/uart.c:224-228 uart_tasklet] *)
Definition uart_tasklet (q : queue) (data : Z) : res queue := enqueue_char q (u8 data).

(** * The abstract queue *)

(** How many characters wait. *)
Definition waiting (q : queue) : Z := (head q - tail q) mod size q.

(** The [k]-th character that waits. *)
Definition slot (q : queue) (k : nat) : Z :=
  default 0 ((buffer q).[(tail q + Z.of_nat k) mod size q]).

Definition contents (q : queue) : list Z := map (slot q) (seq 0 (Z.to_nat (waiting q))).

Record queue_ok (q : queue) : Prop := {
  qo_size : Z.of_nat (length (buffer q)) = size q;
  qo_pos : 0 < size q;
  qo_head : 0 <= head q < size q;
  qo_tail : 0 <= tail q < size q
}.

Lemma contents_length q : queue_ok q -> Z.of_nat (length (contents q)) = waiting q.
Proof.
  intros H. unfold contents. rewrite length_map, length_seq.
  pose proof (Z.mod_pos_bound (head q - tail q) (size q) (qo_pos q H)). unfold waiting. lia.
Qed.

Lemma waiting_range q : queue_ok q -> 0 <= waiting q < size q.
Proof. intros H. apply Z.mod_pos_bound, H. Qed.

Lemma is_empty_ok q : queue_ok q -> is_empty q = true <-> contents q = [].
Proof.
  intros H. pose proof (contents_length q H) as Hl. pose proof (qo_head q H). pose proof (qo_tail q H).
  unfold is_empty. rewrite Z.eqb_eq. split.
  - intros E. unfold waiting in Hl. rewrite E, Z.sub_diag, Z.mod_0_l in Hl by lia.
    destruct (contents q); [done|]. cbn in Hl. lia.
  - intros E. rewrite E in Hl. cbn in Hl. unfold waiting in Hl. symmetry in Hl.
    apply Z.mod_divide in Hl as [k Hk]; [|lia]. assert (k = 0) by nia. lia.
Qed.

(** The position of the [k]-th waiting character, and of the first free place. *)
Lemma slot_pos q k : queue_ok q -> 0 <= (tail q + Z.of_nat k) mod size q < Z.of_nat (length (buffer q)).
Proof. intros H. rewrite (qo_size q H). apply Z.mod_pos_bound, H. Qed.

Lemma head_pos q : queue_ok q -> head q = (tail q + waiting q) mod size q.
Proof.
  intros H. unfold waiting. pose proof (qo_head q H). pose proof (qo_pos q H).
  rewrite Z.add_mod_idemp_r by lia. replace (tail q + (head q - tail q)) with (head q) by lia.
  by rewrite Z.mod_small.
Qed.

Lemma mod_inj a b n : 0 < n -> 0 <= b - a < n -> a mod n = b mod n -> a = b.
Proof.
  intros Hn Hab E. pose proof (Z.div_mod a n ltac:(lia)). pose proof (Z.div_mod b n ltac:(lia)).
  assert (Hd : b - a = n * (b / n - a / n)) by lia.
  assert (b / n - a / n = 0) by nia. nia.
Qed.

Lemma enqueue_ok q c :
  queue_ok q ->
  exists q', enqueue_char q c = Ok q' /\ queue_ok q' /\ size q' = size q /\
    contents q' = if (waiting q <? size q - 1) then contents q ++ [u8 c] else [].
Proof.
  intros H. pose proof (qo_head q H). pose proof (qo_pos q H). pose proof (qo_size q H).
  pose proof (qo_tail q H). pose proof (waiting_range q H) as Hw.
  unfold enqueue_char. rewrite zset_ok by lia. cbn [opt_res]. rewrite res_bind_ok.
  rewrite Z.rem_mod_nonneg by lia. eexists. split; [done|].
  set (q' := Queue _ _ _ _).
  assert (H' : queue_ok q').
  { split; cbn; [by rewrite length_insert|lia|apply Z.mod_pos_bound; lia|lia]. }
  split; [done|]. split; [done|].
  assert (Hw' : waiting q' = (waiting q + 1) mod size q).
  { unfold waiting. cbn. rewrite Z.add_mod_idemp_l by lia.
    rewrite Zminus_mod_idemp_l. f_equal. lia. }
  destruct (Z.ltb_spec (waiting q) (size q - 1)).
  - rewrite Z.mod_small in Hw' by lia. unfold contents. rewrite Hw'.
    replace (Z.to_nat (waiting q + 1)) with (S (Z.to_nat (waiting q))) by lia.
    rewrite seq_S, map_app. cbn [map Nat.add]. f_equal.
    + apply map_ext_in. intros k [_ Hk]%in_seq. unfold slot. cbn. f_equal.
      apply (zget_zset_ne _ _ (head q) _ (u8 c)); [apply zset_ok; lia|].
      rewrite (head_pos q H). intros E. symmetry in E. apply mod_inj in E; lia.
    + f_equal. unfold slot. cbn. rewrite Z2Nat.id by lia. rewrite <-(head_pos q H).
      rewrite (zget_zset_eq (buffer q) _ (head q) (u8 c)); [done|apply zset_ok; lia].
  - replace (waiting q + 1) with (1 * size q) in Hw' by lia. rewrite Z.mod_mul in Hw' by lia.
    unfold contents. by rewrite Hw'.
Qed.

Lemma dequeue_ok q c l :
  queue_ok q -> contents q = c :: l ->
  exists q', dequeue_char q = Ok (c, q') /\ queue_ok q' /\ size q' = size q /\ contents q' = l.
Proof.
  intros H E. pose proof (qo_head q H). pose proof (qo_pos q H). pose proof (qo_size q H).
  pose proof (qo_tail q H). pose proof (waiting_range q H) as Hw. pose proof (contents_length q H) as Hl.
  rewrite E in Hl. cbn in Hl.
  assert (Ec : (buffer q).[tail q] = Some c).
  { unfold contents in E. destruct (Z.to_nat (waiting q)) as [|n] eqn:En; [done|]. cbn in E.
    injection E as Ec _. unfold slot in Ec. rewrite Z.add_0_r, Z.mod_small in Ec by lia.
    destruct (zget_is_Some (buffer q) (tail q)) as [x Hx]; [lia|]. rewrite Hx in *. cbn in Ec. by subst. }
  unfold dequeue_char. rewrite Ec. cbn [opt_res]. rewrite res_bind_ok, Z.rem_mod_nonneg by lia.
  eexists. split; [done|]. set (q' := Queue _ _ _ _).
  split; [split; cbn; try lia; apply Z.mod_pos_bound; lia|]. split; [done|].
  assert (Hw' : waiting q' = waiting q - 1).
  { unfold waiting. cbn. rewrite Zminus_mod_idemp_r.
    replace (head q - (tail q + 1)) with (head q - tail q - 1) by lia.
    rewrite <-Zminus_mod_idemp_l. fold (waiting q). apply Z.mod_small. lia. }
  unfold contents in E |- *. rewrite Hw'.
  replace (Z.to_nat (waiting q)) with (S (Z.to_nat (waiting q - 1))) in E by lia.
  cbn [seq map] in E. injection E as _ <-. rewrite <-seq_shift, map_map. apply map_ext. intros k.
  unfold slot. cbn. f_equal. f_equal. rewrite Z.add_mod_idemp_l by lia. f_equal. lia.
Qed.

(** * Refinement *)

Inductive op :=
  | Enqueue (c : Z)
  | Dequeue.

(** The abstract queue: at most [cap] characters wait, and none is taken from an
    empty queue. *)
Fixpoint fifo (cap : Z) (ops : list op) (l : list Z) : option (list Z * list Z) :=
  match ops with
  | [] => Some ([], l)
  | Enqueue c :: ops =>
    if (Z.of_nat (length l) <? cap) then fifo cap ops (l ++ [u8 c]) else None
  | Dequeue :: ops =>
    match l with
    | [] => None
    | c :: l => match fifo cap ops l with Some (out, l) => Some (c :: out, l) | None => None end
    end
  end.

(** The same operations on the ring. *)
Fixpoint run_ops (ops : list op) (q : queue) : res (list Z * queue) :=
  match ops with
  | [] => Ok ([], q)
  | Enqueue c :: ops => q ← enqueue_char q c; run_ops ops q
  | Dequeue :: ops => '(c, q) ← dequeue_char q; '(out, q) ← run_ops ops q; Ok (c :: out, q)
  end.

(** C21. The ring buffer refines a FIFO that holds one character less than the ring:
    whatever such a FIFO can do the ring does, giving out the same characters in the
    same order, and what still waits in the ring is what waits in the FIFO. *)
Theorem queue_refines_fifo ops q out l :
  queue_ok q -> fifo (size q - 1) ops (contents q) = Some (out, l) ->
  exists q', run_ops ops q = Ok (out, q') /\ queue_ok q' /\ contents q' = l.
Proof.
  revert q out. induction ops as [|[c|] ops IH]; intros q out H E; cbn in E |- *.
  - injection E as <- <-. by exists q.
  - destruct (enqueue_ok q c H) as (q' & -> & H' & Hs & Hc). rewrite res_bind_ok.
    rewrite (contents_length q H) in E. destruct (waiting q <? size q - 1); [|done].
    apply IH; [done|]. by rewrite Hs, Hc.
  - destruct (contents q) as [|c l'] eqn:Ec; [done|].
    destruct (dequeue_ok q c l' H Ec) as (q' & -> & H' & Hs & Hc). rewrite res_bind_ok.
    destruct (fifo (size q - 1) ops l') as [[o l2]|] eqn:Ef; [|done]. injection E as <- <-.
    destruct (IH q' o H') as (q2 & Eq & Hq2 & Hl2); [by rewrite Hs, Hc|].
    exists q2. rewrite Eq, res_bind_ok. done.
Qed.

(** A full queue is not detected: one more character makes it look empty, and
    everything that waited is lost. *)
Theorem enqueue_full_loses_all q c :
  queue_ok q -> Z.of_nat (length (contents q)) = size q - 1 ->
  exists q', enqueue_char q c = Ok q' /\ is_empty q' = true /\ contents q' = [].
Proof.
  intros H Hl. rewrite (contents_length q H) in Hl.
  destruct (enqueue_ok q c H) as (q' & E & H' & _ & Hc). rewrite Hl, Z.ltb_irrefl in Hc.
  exists q'. split; [done|]. split; [by apply is_empty_ok|done].
Qed.

(** [uart_async_gets] takes everything that waits, in order, puts it into the buffer
    as a string and leaves the queue empty, when the buffer has room for it. *)
Theorem uart_async_gets_spec q buf :
  queue_ok q -> waiting q < Z.of_nat (length buf) ->
  exists q', uart_async_gets (Z.to_nat (size q)) q buf 0 =
      Ok (waiting q, q', contents q ++ 0 :: drop (S (length (contents q))) buf) /\
    queue_ok q' /\ contents q' = [].
Proof.
  intros H Hb.
  assert (G : forall fuel pre q rest, queue_ok q -> (length (contents q) <= fuel)%nat ->
    (length (contents q) < length rest)%nat ->
    exists q', uart_async_gets fuel q (pre ++ rest) (Z.of_nat (length pre)) =
      Ok (Z.of_nat (length pre + length (contents q)), q',
          pre ++ contents q ++ 0 :: drop (S (length (contents q))) rest) /\
      queue_ok q' /\ contents q' = []).
  { clear q H Hb buf. induction fuel as [|fuel IH]; intros pre q rest H Hf Hr; cbn [uart_async_gets];
      (destruct (is_empty q) eqn:Ee;
       [apply (is_empty_ok q H) in Ee; rewrite Ee in *; cbn in Hr; destruct rest as [|x rest]; [cbn in Hr; lia|];
        rewrite (zset_app_mid pre rest x 0 _ eq_refl); cbn [opt_res]; rewrite res_bind_ok;
        exists q; cbn; rewrite Nat.add_0_r, drop_0; done|]);
      (destruct (contents q) as [|c l] eqn:Ec;
       [apply (is_empty_ok q H) in Ec; congruence|]); cbn in Hf, Hr; [lia|].
    destruct (dequeue_ok q c l H Ec) as (q' & -> & H' & _ & Hc). rewrite res_bind_ok.
    destruct rest as [|x rest]; [cbn in Hr; lia|].
    rewrite (zset_app_mid pre rest x c _ eq_refl). cbn [opt_res]. rewrite res_bind_ok.
    destruct (IH (pre ++ [c]) q' rest H') as (q2 & E & Hq2); [rewrite Hc; lia|rewrite Hc; cbn in Hr; lia|].
    exists q2. rewrite Hc in E. rewrite <-!app_assoc in E. cbn [app] in E.
    rewrite length_app in E. cbn [length] in E.
    replace (Z.of_nat (length pre) + 1) with (Z.of_nat (length pre + 1)) by lia.
    rewrite E. split; [|done]. cbn [length drop app]. do 3 f_equal. lia. }
  pose proof (contents_length q H) as Hl. pose proof (waiting_range q H).
  destruct (G (Z.to_nat (size q)) [] q buf H) as (q' & E & Hq'); [lia|lia|].
  exists q'. cbn [app length Nat.add] in E. rewrite Hl in E. done.
Qed.

(** * Instances *)

Lemma read_buffer0_ok : queue_ok read_buffer0.
Proof. split; cbn; (lia || reflexivity). Qed.

Lemma queue_refines_fifo_witness :
  exists q', run_ops [Enqueue 104; Enqueue 105; Dequeue] read_buffer0 = Ok ([104], q') /\
    queue_ok q' /\ contents q' = [105].
Proof.
  apply (queue_refines_fifo [Enqueue 104; Enqueue 105; Dequeue] read_buffer0 [104] [105] read_buffer0_ok).
  reflexivity.
Defined.

(** A queue of four places that holds three characters. *)
Definition ex_queue : queue := Queue [97; 98; 99; 0] 3 0 4.

Lemma ex_queue_ok : queue_ok ex_queue.
Proof. split; cbn; (lia || reflexivity). Qed.

Lemma enqueue_full_loses_all_witness :
  exists q', enqueue_char ex_queue 100 = Ok q' /\ is_empty q' = true /\ contents q' = [].
Proof. apply (enqueue_full_loses_all ex_queue 100 ex_queue_ok). reflexivity. Defined.

Lemma uart_async_gets_spec_witness :
  exists q', uart_async_gets 4 ex_queue [1; 2; 3; 4; 5] 0 =
      Ok (3, q', [97; 98; 99] ++ 0 :: drop 4 [1; 2; 3; 4; 5]) /\
    queue_ok q' /\ contents q' = [].
Proof. apply (uart_async_gets_spec ex_queue [1; 2; 3; 4; 5] ex_queue_ok). reflexivity. Defined.
