(* ===== verification/Tasklet.v ===== *)
(** Tasklets, the bottom halves of the interrupt handlers [src/src/interrupt.c].

    The queued tasklets form a list linked through their [next] fields, with a
    pointer to the last link for insertion at the tail.  A tasklet is represented by
    its index in [tl_pool], and a pointer to a link by [cell].  What a tasklet's
    function does to the rest of the kernel is a parameter. *)
From S2P Require Import Prelude.
From Stdlib Require Import Sorting.Sorted.

(** * Data *)

(* [src/include/interrupt.h:14-19 tasklet_struct] *)
Record tasklet_struct := TaskletStruct {
  next : option Z;
  state : Z;
  func : Z;
  data : Z
}.

(** A [struct tasklet_struct *] in memory: the head, or the link of a tasklet. *)
Inductive cell :=
  | HeadCell
  | NextOf (i : Z).

#[global] Instance cell_eq_dec : EqDecision cell.
Proof. solve_decision. Defined.

(** [ran] is the log of the tasklets whose function was called. *)
(* [src/src/interrupt.c:9-13 tl_pool] *)
Record tasklets (W : Type) := Tasklets {
  tl_head : option Z;
  tl_tail : cell;
  tl_pool : list tasklet_struct;
  cur_tl_priority : Z;
  ran : list Z;
  world : W
}.
Arguments Tasklets {W}.
Arguments tl_head {W}. Arguments tl_tail {W}. Arguments tl_pool {W}.
Arguments cur_tl_priority {W}. Arguments ran {W}. Arguments world {W}.

(* [src/include/interrupt.h:9-11 UART_TASKLET] *)
Definition NO_TASKLET : Z := 0.
Definition UART_TASKLET : Z := 1.
Definition TIMER_TASKLET : Z := 2.

Section Code.
Context {W : Type}.
(** The functions: the identifier in [func], the argument, the rest of the kernel. *)
Variable call : Z -> Z -> W -> res W.
#[local] Abbreviation state_m := (M (tasklets W)).

Definition tasklet_at (i : Z) : state_m tasklet_struct :=
  fun s => match (tl_pool s).[i] with Some t => Ok (t, s) | None => Err OutOfBounds end.

Definition put_tasklet (i : Z) (t : tasklet_struct) : state_m unit :=
  fun s => match (tl_pool s).[i := t] with
           | Some l => Ok (tt, Tasklets (tl_head s) (tl_tail s) l (cur_tl_priority s) (ran s) (world s))
           | None => Err OutOfBounds
           end.

Definition set_head (h : option Z) : state_m unit :=
  modify (fun s => Tasklets h (tl_tail s) (tl_pool s) (cur_tl_priority s) (ran s) (world s)).
Definition set_tail (c : cell) : state_m unit :=
  modify (fun s => Tasklets (tl_head s) c (tl_pool s) (cur_tl_priority s) (ran s) (world s)).
Definition set_priority (p : Z) : state_m unit :=
  modify (fun s => Tasklets (tl_head s) (tl_tail s) (tl_pool s) p (ran s) (world s)).

(** [*c] and [*c = v]. *)
Definition read_cell (c : cell) : state_m (option Z) :=
  match c with
  | HeadCell => gets tl_head
  | NextOf i => t ← tasklet_at i; mret (next t)
  end.
Definition write_cell (c : cell) (v : option Z) : state_m unit :=
  match c with
  | HeadCell => set_head v
  | NextOf i => t ← tasklet_at i; put_tasklet i (TaskletStruct v (state t) (func t) (data t))
  end.

(* [src/src/interrupt.c:16-24 tasklet_init] *)
Definition tasklet_init : state_m unit :=
  _ ← set_priority NO_TASKLET;
  _ ← set_head None;
  set_tail HeadCell.

(* [src/src/interrupt.c:27-37 tasklet_add] *)
Definition tasklet_add (tl : Z) : state_m unit :=
  _ ← write_cell (NextOf tl) None;
  c ← gets tl_tail;
  _ ← write_cell c (Some tl);
  set_tail (NextOf tl).

(** The search for the tasklet to run: the link to it, and whether there is one. *)
(* [src/src/interrupt.c:55-62 do_tasklet] *)
Fixpoint scan (fuel : nat) (prev : Z) (tl_iter tl : cell) (todo : bool) : state_m (cell * bool) :=
  match fuel with
  | O => fail NoFuel
  | S fuel =>
    v ← read_cell tl_iter;
    match v with
    | None => mret (tl, todo)
    | Some i =>
      t ← tasklet_at i;
      cur ← gets cur_tl_priority;
      if (prev <? state t) && (cur <? state t)
      then _ ← set_priority (state t); scan fuel prev (NextOf i) tl_iter true
      else scan fuel prev (NextOf i) tl todo
    end
  end.

(** The chosen tasklet leaves the list and runs. *)
(* [src/src/interrupt.c:67-78 do_tasklet] *)
Definition run_tasklet (prev : Z) (tl : cell) : state_m unit :=
  v ← read_cell tl;
  match v with
  | None => fail NullDeref
  | Some i =>
    t ← tasklet_at i;
    _ ← (match next t with None => set_tail tl | Some _ => mret tt end);
    t ← tasklet_at i;
    _ ← write_cell tl (next t);
    _ ← (fun s => match call (func t) (data t) (world s) with
                  | Ok w => Ok (tt, Tasklets (tl_head s) (tl_tail s) (tl_pool s) (cur_tl_priority s)
                                      (ran s ++ [i]) w)
                  | Err f => Err f
                  end);
    set_priority prev
  end.

(* [src/src/interrupt.c:49-79 do_tasklet] *)
Fixpoint do_tasklet_loop (fuel : nat) (prev : Z) : state_m unit :=
  match fuel with
  | O => fail NoFuel
  | S fuel' =>
    '(tl, todo) ← scan fuel prev HeadCell HeadCell false;
    if negb todo then mret tt
    else _ ← run_tasklet prev tl; do_tasklet_loop fuel' prev
  end.

(* [src/src/interrupt.c:40-80 do_tasklet] *)
Definition do_tasklet (fuel : nat) : state_m unit :=
  prev ← gets cur_tl_priority;
  do_tasklet_loop fuel prev.

End Code.

(** * The list of queued tasklets *)

Section Spec.
Context {W : Type} (call : Z -> Z -> W -> res W).
Implicit Types (s : tasklets W) (l : list Z).

(** What a link holds, and the priority of a tasklet. *)
Definition rd s (c : cell) : option Z :=
  match c with HeadCell => tl_head s | NextOf i => match (tl_pool s).[i] with Some t => next t | None => None end end.
Definition prio s (i : Z) : Z := match (tl_pool s).[i] with Some t => state t | None => 0 end.

(** The links from [c] lead through the tasklets [l] to the link [d]. *)
Fixpoint seg (r : cell -> option Z) (c : cell) l (d : cell) : Prop :=
  match l with
  | [] => d = c
  | i :: l => r c = Some i /\ seg r (NextOf i) l d
  end.

(** The tasklets [l] are queued, in this order. *)
Record queued s l : Prop := {
  qu_seg : seg (rd s) HeadCell l (tl_tail s);
  qu_end : rd s (tl_tail s) = None;
  qu_nodup : NoDup l;
  qu_pool : forall i, i ∈ l -> 0 <= i < Z.of_nat (length (tl_pool s))
}.

Definition last_cell (c : cell) l : cell := match last l with None => c | Some i => NextOf i end.

Lemma seg_last r c l d : seg r c l d -> d = last_cell c l.
Proof.
  revert c. induction l as [|i l IH]; intros c; cbn; [done|]. intros [_ Hs].
  rewrite (IH _ Hs). unfold last_cell. destruct l as [|j l]; [done|]. cbn.
  destruct (last (j :: l)) eqn:E; [done|]. apply last_None in E. done.
Qed.

Lemma tl_seg_app r c a b d : seg r c (a ++ b) d <-> exists m, seg r c a m /\ seg r m b d.
Proof.
  revert c. induction a as [|i a IH]; intros c; cbn.
  - split; [intros; by exists c|by intros (m & -> & ?)].
  - rewrite IH. split.
    + intros (? & m & ? & ?). by exists m.
    + intros (m & [? ?] & ?). split; [done|]. by exists m.
Qed.

(** A segment only reads its first link and the links of its tasklets but the last. *)
Lemma tl_seg_ext r r' c l d :
  seg r c l d -> NoDup l -> (forall x, x <> d -> x = c \/ (exists i, i ∈ l /\ x = NextOf i) -> r' x = r x) ->
  (c = d -> l = []) -> seg r' c l d.
Proof.
  revert c. induction l as [|i l IH]; intros c Hs Hn He Hc; [done|]. destruct Hs as [Hr Hs].
  apply NoDup_cons in Hn as [Hi Hn]. cbn. split.
  - rewrite He; [done| |by left]. intros E. by specialize (Hc E).
  - apply IH; [done|done| |].
    + intros x Hx [->|(j & Hj & ->)]; (apply He; [done|]); right.
      * exists i. split; [by left|done].
      * exists j. split; [by right|done].
    + intros E. apply seg_last in Hs. destruct l as [|j l]; [done|exfalso].
      unfold last_cell in Hs. destruct (last (j :: l)) as [k|] eqn:El; [|by apply last_None in El].
      rewrite Hs in E. injection E as ->. apply Hi. by eapply last_Some_elem_of.
Qed.

Lemma seg_functional r c l l' d d' :
  seg r c l d -> seg r c l' d' -> r d = None -> r d' = None -> l = l' /\ d = d'.
Proof.
  revert c l'. induction l as [|i l IH]; intros c [|j l'] Hs Hs' Hd Hd'; cbn in *.
  - by subst.
  - subst. destruct Hs' as [E _]. congruence.
  - subst. destruct Hs as [E _]. congruence.
  - destruct Hs as [E Hs], Hs' as [E' Hs']. assert (i = j) as <- by congruence.
    destruct (IH _ _ Hs Hs' Hd Hd') as [-> ->]. done.
Qed.

(** ** Writing a link *)

Definition info s (i : Z) : option (Z * Z * Z) :=
  match (tl_pool s).[i] with Some t => Some (state t, func t, data t) | None => None end.

Lemma info_prio s s' i : info s' i = info s i -> prio s' i = prio s i.
Proof. unfold info, prio. destruct (tl_pool s).[i], (tl_pool s').[i]; intros E; by inversion E. Qed.

Record same_rest s s' : Prop := {
  sr_info : forall i, info s' i = info s i;
  sr_len : length (tl_pool s') = length (tl_pool s);
  sr_ran : ran s' = ran s;
  sr_world : world s' = world s
}.

Definition valid_cell s (c : cell) : Prop :=
  match c with HeadCell => True | NextOf i => 0 <= i < Z.of_nat (length (tl_pool s)) end.

Lemma tasklet_at_ok s i :
  0 <= i < Z.of_nat (length (tl_pool s)) ->
  exists t, tasklet_at i s = Ok (t, s) /\ (tl_pool s).[i] = Some t.
Proof. intros Hi. destruct (zget_is_Some (tl_pool s) i Hi) as [t Ht]. exists t. unfold tasklet_at. by rewrite Ht. Qed.

Lemma read_cell_ok s c : valid_cell s c -> read_cell c s = Ok (rd s c, s).
Proof.
  destruct c as [|i]; [done|]. intros Hi. cbn. destruct (tasklet_at_ok s i Hi) as (t & E & Ht).
  run E. by rewrite Ht.
Qed.

Lemma write_cell_ok s c v :
  valid_cell s c ->
  exists s', write_cell c v s = Ok (tt, s') /\ same_rest s s' /\ tl_tail s' = tl_tail s /\
    cur_tl_priority s' = cur_tl_priority s /\ rd s' c = v /\ forall x, x <> c -> rd s' x = rd s x.
Proof.
  destruct c as [|i]; intros Hc; cbn.
  - eexists. split; [done|]. split_and!; try done. intros [|j]; done.
  - cbn in Hc. destruct (tasklet_at_ok s i Hc) as (t & E & Ht). run E.
    set (t' := TaskletStruct _ _ _ _). unfold put_tasklet. destruct (tl_pool s).[i := t'] as [l|] eqn:El.
    2:{ rewrite zset_ok in El by lia. done. }
    eexists. split; [done|]. pose proof (zget_zset_eq _ _ _ _ El) as Eq.
    split_and!; try done.
    + split; try done; [|by apply zset_length in El]. intros j. unfold info. cbn.
      destruct (decide (j = i)) as [->|Hne]; [by rewrite Eq, Ht|]. by rewrite (zget_zset_ne _ _ _ j _ El).
    + cbn. by rewrite Eq.
    + intros [|j] Hj; [done|]. cbn. by rewrite (zget_zset_ne _ _ _ j _ El) by congruence.
Qed.

Lemma queued_valid s l : queued s l -> valid_cell s (tl_tail s).
Proof.
  intros [Hs _ _ Hp]. rewrite (seg_last _ _ _ _ Hs). unfold last_cell.
  destruct (last l) as [i|] eqn:E; [|done]. apply Hp. by eapply last_Some_elem_of.
Qed.

Lemma tail_not_member s l i : queued s l -> i ∉ l -> tl_tail s <> NextOf i.
Proof.
  intros [Hs _ _ _] Hi. rewrite (seg_last _ _ _ _ Hs). unfold last_cell.
  destruct (last l) as [j|] eqn:E; [|done]. apply last_Some_elem_of in E. congruence.
Qed.

(** [tasklet_add] puts a tasklet that is not queued at the end. *)
Lemma tasklet_add_ok s l i :
  queued s l -> i ∉ l -> 0 <= i < Z.of_nat (length (tl_pool s)) ->
  exists s', tasklet_add i s = Ok (tt, s') /\ queued s' (l ++ [i]) /\ same_rest s s' /\
    cur_tl_priority s' = cur_tl_priority s.
Proof.
  intros Hq Hi Hr. unfold tasklet_add.
  destruct (write_cell_ok s (NextOf i) None Hr) as (s1 & E1 & R1 & T1 & C1 & D1 & O1). run E1.
  run (gets_ok tl_tail s1). rewrite T1. pose proof (queued_valid s l Hq) as Hv.
  assert (Hv1 : valid_cell s1 (tl_tail s)).
  { destruct (tl_tail s); [done|]. cbn in *. by rewrite (sr_len _ _ R1). }
  destruct (write_cell_ok s1 (tl_tail s) (Some i) Hv1) as (s2 & E2 & R2 & T2 & C2 & D2 & O2). run E2.
  pose proof (tail_not_member s l i Hq Hi) as Hne. destruct Hq as [Hs He Hn Hp].
  eexists. split; [reflexivity|]. split_and!.
  - split; cbn [tl_tail tl_pool].
    + apply tl_seg_app. exists (tl_tail s). split; [|cbn; split; [exact D2|done]].
      apply (tl_seg_ext (rd s)); [done|done| |].
      * intros x Hx Hc. change (rd s2 x = rd s x). rewrite O2 by done. apply O1.
        destruct Hc as [->|(j & Hj & ->)]; [done|]. intros E. injection E as ->. done.
      * intros E. rewrite (seg_last _ _ _ _ Hs) in E. unfold last_cell in E.
        destruct (last l) eqn:El; [done|]. by apply last_None in El.
    + change (rd s2 (NextOf i) = None). rewrite O2 by congruence. exact D1.
    + apply NoDup_app. split_and!; [done| |apply NoDup_singleton].
      intros x Hx ->%list_elem_of_singleton. done.
    + intros j [Hj|Hj]%elem_of_app; change (0 <= j < Z.of_nat (length (tl_pool s2)));
        rewrite (sr_len _ _ R2), (sr_len _ _ R1).
      * by apply Hp.
      * apply list_elem_of_singleton in Hj as ->. done.
  - destruct R1 as [A1 A2 A3 A4], R2 as [B1 B2 B3 B4]. split; cbn; try congruence.
    intros j. change (info s2 j = info s j). by rewrite B1, A1.
  - change (cur_tl_priority s2 = cur_tl_priority s). congruence.
Qed.

(** ** The choice *)

Definition with_cur (p : Z) s : tasklets W :=
  Tasklets (tl_head s) (tl_tail s) (tl_pool s) p (ran s) (world s).

Lemma tl_scan_ok fuel s prev c l d tl todo :
  seg (rd s) c l d -> rd s d = None -> valid_cell s c ->
  (forall i, i ∈ l -> 0 <= i < Z.of_nat (length (tl_pool s))) -> (length l < fuel)%nat ->
  exists tl' todo' p, scan fuel prev c tl todo s = Ok ((tl', todo'), with_cur p s) /\
    ((tl' = tl /\ todo' = todo /\ p = cur_tl_priority s /\
      forall i, i ∈ l -> prio s i <= prev \/ prio s i <= cur_tl_priority s) \/
     (exists pre i post, l = pre ++ i :: post /\ tl' = last_cell c pre /\ todo' = true /\ p = prio s i /\
        prev < prio s i /\ cur_tl_priority s < prio s i /\
        (forall j, j ∈ pre -> prio s j < prio s i) /\ forall j, j ∈ post -> prio s j <= prio s i)).
Proof.
  revert s c l tl todo. induction fuel as [|fuel IH]; intros s c l tl todo Hs Hd Hc Hp Hl; [lia|].
  cbn [scan]. rewrite (bind_ok _ _ _ _ _ (read_cell_ok s c Hc)). cbv beta.
  destruct l as [|i l].
  { cbn in Hs. subst d. rewrite Hd. exists tl, todo, (cur_tl_priority s). split; [by destruct s|].
    left. split_and!; try done. intros i Hi. by apply elem_of_nil in Hi. }
  destruct Hs as [Hr Hs]. rewrite Hr.
  assert (Hi : 0 <= i < Z.of_nat (length (tl_pool s))) by (apply Hp; by left).
  destruct (tasklet_at_ok s i Hi) as (t & Et & Ht). run Et. run (gets_ok (@cur_tl_priority W) s).
  assert (Hpi : state t = prio s i) by (unfold prio; by rewrite Ht). rewrite Hpi. cbn in Hl.
  assert (Hp' : forall j, j ∈ l -> 0 <= j < Z.of_nat (length (tl_pool s))) by (intros j Hj; apply Hp; by right).
  assert (Hlast : forall pre, last_cell (NextOf i) pre = last_cell c (i :: pre)).
  { intros pre. unfold last_cell. destruct pre as [|j pre]; [done|]. cbn.
    destruct (last (j :: pre)) eqn:E; [done|]. by apply last_None in E. }
  destruct ((prev <? prio s i) && (cur_tl_priority s <? prio s i)) eqn:Eb.
  - zbool. set (s1 := with_cur (prio s i) s).
    run (eq_refl : set_priority (prio s i) s = Ok (tt, s1)).
    destruct (IH s1 (NextOf i) l c true) as (tl' & todo' & p & E & Hcase); [done|done|done|done|lia|].
    exists tl', todo', p. split; [exact E|]. right.
    destruct Hcase as [(-> & -> & -> & Hle)|(pre & j & post & -> & -> & -> & -> & H1 & H2 & H3 & H4)].
    + exists [], i, l. split_and!; try done.
      * intros j Hj. by apply elem_of_nil in Hj.
      * intros j Hj. destruct (Hle j Hj) as [Hx|Hx]; change (prio s1 j) with (prio s j) in Hx; [lia|exact Hx].
    + change (prio s1) with (prio s) in *. change (cur_tl_priority s1) with (prio s i) in H2. exists (i :: pre), j, post. split_and!; try done; [lia|].
      intros k [->|Hk]%elem_of_cons; [lia|by apply H3].
  - destruct (IH s (NextOf i) l tl todo) as (tl' & todo' & p & E & Hcase); [done|done|done|done|lia|].
    exists tl', todo', p. split; [exact E|].
    assert (Hno : prio s i <= prev \/ prio s i <= cur_tl_priority s).
    { apply andb_false_iff in Eb as [Eb|Eb]; zbool; lia. }
    destruct Hcase as [(-> & -> & -> & Hle)|(pre & j & post & -> & -> & -> & -> & H1 & H2 & H3 & H4)].
    + left. split_and!; try done. intros j [->|Hj]%elem_of_cons; [done|by apply Hle].
    + right. exists (i :: pre), j, post. split_and!; try done.
      intros k [->|Hk]%elem_of_cons; [lia|by apply H3].
Qed.

(** ** Running a tasklet *)

Lemma last_cell_cases c l :
  (l = [] /\ last_cell c l = c) \/ exists i, i ∈ l /\ last_cell c l = NextOf i.
Proof.
  unfold last_cell. destruct (last l) as [i|] eqn:E.
  - right. exists i. split; [by eapply last_Some_elem_of|done].
  - left. by apply last_None in E.
Qed.

(** Unlinking [i]: the link before it takes its successor. *)
Lemma unlink r r' pre i post d :
  seg r HeadCell (pre ++ i :: post) d -> r d = None -> NoDup (pre ++ i :: post) ->
  let c := last_cell HeadCell pre in
  let d' := match r (NextOf i) with None => c | Some _ => d end in
  r' c = r (NextOf i) -> (forall x, x <> c -> r' x = r x) ->
  seg r' HeadCell (pre ++ post) d' /\ r' d' = None.
Proof.
  intros Hs Hd Hn c d' Hc Ho. apply tl_seg_app in Hs as (m & Hpre & Hi & Hpost).
  pose proof (seg_last _ _ _ _ Hpre) as Hm. fold c in Hm. subst m.
  apply NoDup_app in Hn as (Hn1 & Hn2 & Hn3). apply NoDup_cons in Hn3 as [Hip Hn3].
  assert (Hnc : forall k, k ∈ i :: post -> NextOf k <> c).
  { intros k Hk E. destruct (last_cell_cases HeadCell pre) as [[_ Ec]|(j & Hj & Ec)]; fold c in Ec.
    - congruence.
    - rewrite Ec in E. injection E as ->. by apply (Hn2 j). }
  assert (Hpre' : seg r' HeadCell pre c).
  { apply (tl_seg_ext r); [done|done|intros x Hx _; by apply Ho|].
    intros E. destruct (last_cell_cases HeadCell pre) as [[? _]|(j & _ & Ec)]; [done|]. fold c in Ec. congruence. }
  destruct post as [|j post]; cbn in Hpost.
  - subst d. unfold d'. rewrite Hd in *. rewrite app_nil_r. done.
  - destruct Hpost as [Hj Hpost]. unfold d'. rewrite Hj.
    assert (Hpost' : seg r' (NextOf j) post d).
    { apply (tl_seg_ext r); [done|by apply NoDup_cons in Hn3 as [_ ?]| |].
      - intros x _ [->|(k & Hk & ->)]; apply Ho, Hnc; [by right; left|by right; right].
      - intros E. apply seg_last in Hpost. destruct (last_cell_cases (NextOf j) post) as [[? _]|(k & Hk & Ek)]; [done|].
        rewrite Ek in Hpost. apply NoDup_cons in Hn3 as [Hjn _]. congruence. }
    split.
    + apply tl_seg_app. exists c. split; [done|]. cbn. split; [congruence|done].
    + rewrite Ho; [done|]. pose proof (seg_last _ _ _ _ Hpost) as Ed.
      destruct (last_cell_cases (NextOf j) post) as [[_ Ek]|(k & Hk & Ek)]; rewrite Ed, Ek; apply Hnc.
      * by right; left.
      * by right; right.
Qed.

Lemma run_tasklet_ok s prev pre i post st f d w :
  queued s (pre ++ i :: post) -> info s i = Some (st, f, d) -> call f d (world s) = Ok w ->
  exists s', run_tasklet call prev (last_cell HeadCell pre) s = Ok (tt, s') /\
    queued s' (pre ++ post) /\ (forall j, info s' j = info s j) /\
    ran s' = ran s ++ [i] /\ world s' = w /\ cur_tl_priority s' = prev.
Proof.
  intros [Hs Hd Hn Hp] Hinf Hw. set (c := last_cell HeadCell pre).
  assert (Hi : 0 <= i < Z.of_nat (length (tl_pool s))) by (apply Hp, elem_of_app; right; by left).
  assert (Hvc : valid_cell s c).
  { destruct (last_cell_cases HeadCell pre) as [[_ Ec]|(j & Hj & Ec)]; unfold c; rewrite Ec; [done|].
    apply Hp, elem_of_app. by left. }
  assert (Hci : rd s c = Some i).
  { apply tl_seg_app in Hs as (m & Hpre & Hi' & _). by rewrite (seg_last _ _ _ _ Hpre) in Hi'. }
  unfold run_tasklet. rewrite (bind_ok _ _ _ _ _ (read_cell_ok s c Hvc)). cbv beta. rewrite Hci.
  destruct (tasklet_at_ok s i Hi) as (t & Et & Ht).
  assert (Hnx : rd s (NextOf i) = next t) by (cbn; by rewrite Ht).
  unfold info in Hinf. rewrite Ht in Hinf. injection Hinf as <- <- <-.
  run Et. set (d' := match rd s (NextOf i) with None => c | Some _ => tl_tail s end).
  set (s1 := Tasklets (tl_head s) d' (tl_pool s) (cur_tl_priority s) (ran s) (world s)).
  assert (E1 : (match next t with None => set_tail c | Some _ => mret tt end) s = Ok (tt, s1)).
  { unfold s1, d'. rewrite Hnx. destruct (next t); [by destruct s|done]. }
  run E1. assert (Et1 : tasklet_at i s1 = Ok (t, s1)) by (unfold tasklet_at; cbn; by rewrite Ht). run Et1.
  destruct (write_cell_ok s1 c (next t)) as (s2 & E2 & [A1 A2 A3 A4] & T2 & C2 & D2 & O2); [by destruct c|]. run E2.
  set (s3 := Tasklets (tl_head s2) (tl_tail s2) (tl_pool s2) (cur_tl_priority s2) (ran s2 ++ [i]) w).
  rewrite (bind_ok _ _ _ tt s3).
  2:{ rewrite A4. change (world s1) with (world s). by rewrite Hw. }
  cbv beta. set (s4 := with_cur prev s3). exists s4. split; [done|].
  destruct (unlink (rd s) (rd s2) pre i post (tl_tail s) Hs Hd Hn) as [Hs' Hd'].
  { fold c. by rewrite D2, Hnx. } { intros x Hx. by rewrite O2. }
  assert (Ht4 : tl_tail s4 = d') by (change (tl_tail s4) with (tl_tail s2); by rewrite T2).
  split_and!; try done.
  - split.
    + rewrite Ht4. exact Hs'.
    + rewrite Ht4. exact Hd'.
    + apply NoDup_app in Hn as (H1 & H2 & H3). apply NoDup_cons in H3 as [_ H3].
      apply NoDup_app. split_and!; [done| |done]. intros x Hx Hx'. apply (H2 x Hx). by right.
    + intros j Hj. change (tl_pool s4) with (tl_pool s2). rewrite A2. apply Hp.
      apply elem_of_app in Hj as [?|?]; apply elem_of_app; [by left|right; by right].
  - change (ran s4) with (ran s2 ++ [i]). by rewrite A3.
Qed.

(** ** The order of execution *)

(** The calls of the tasklets [l], in this order. *)
Fixpoint perform s l (w : W) : res W :=
  match l with
  | [] => Ok w
  | i :: l =>
    match info s i with
    | Some (_, f, d) => w ← call f d w; perform s l w
    | None => Err OutOfBounds
    end
  end.

Lemma perform_ext s s' l w : (forall i, info s' i = info s i) -> perform s' l w = perform s l w.
Proof.
  intros E. revert w. induction l as [|i l IH]; intros w; [done|]. cbn. rewrite E.
  destruct (info s i) as [[[st f] d]|]; [|done]. destruct (call f d w); [|done]. cbn. apply IH.
Qed.

Definition urgent s (prev : Z) l : list Z := filter (fun i => prev < prio s i) l.
Definition patient s (prev : Z) l : list Z := filter (fun i => prio s i <= prev) l.

(** [done] is [l] in order of decreasing priority, first come first served. *)
Record served s l (done : list Z) : Prop := {
  sv_perm : done ≡ₚ l;
  sv_sorted : StronglySorted (fun i j => prio s j <= prio s i) done;
  sv_stable : forall p, filter (fun i => prio s i = p) done = filter (fun i => prio s i = p) l
}.

Lemma served_cons s pre i post done :
  served s (pre ++ post) done ->
  (forall j, j ∈ pre -> prio s j < prio s i) -> (forall j, j ∈ post -> prio s j <= prio s i) ->
  served s (pre ++ i :: post) (i :: done).
Proof.
  intros [Hp Hs Hf] Hpre Hpost. split.
  - rewrite Hp. by apply Permutation_middle.
  - constructor; [done|]. apply Forall_forall. intros j Hj. rewrite Hp in Hj.
    apply elem_of_app in Hj as [Hj|Hj]; [|by apply Hpost]. specialize (Hpre j Hj). lia.
  - intros p. rewrite filter_app, !filter_cons. specialize (Hf p). rewrite filter_app in Hf.
    case_decide as E.
    + rewrite Hf. assert (filter (fun j => prio s j = p) pre = []) as ->; [|done].
      clear -Hpre E. induction pre as [|j pre IH]; [done|]. rewrite filter_cons, decide_False.
      * apply IH. intros k Hk. apply Hpre. by right.
      * specialize (Hpre j ltac:(by left)). lia.
    + done.
Qed.

Lemma filter_none (P : Z -> Prop) `{!forall x, Decision (P x)} l :
  (forall i, i ∈ l -> ~ P i) -> filter P l = [].
Proof.
  induction l as [|i l IH]; intros Hl; [done|]. rewrite filter_cons, decide_False by (apply Hl; by left).
  apply IH. intros j Hj. apply Hl. by right.
Qed.

Lemma filter_all (P : Z -> Prop) `{!forall x, Decision (P x)} l :
  (forall i, i ∈ l -> P i) -> filter P l = l.
Proof.
  induction l as [|i l IH]; intros Hl; [done|]. rewrite filter_cons, decide_True by (apply Hl; by left).
  f_equal. apply IH. intros j Hj. apply Hl. by right.
Qed.

(** Only the priorities matter. *)
Lemma served_ext s s' l done : (forall i, prio s' i = prio s i) -> served s' l done -> served s l done.
Proof.
  intros E [S1 S2 S3]. split; [done| |].
  - clear -S2 E. induction S2 as [|x m ? IH Hfa]; constructor; [done|].
    eapply Forall_impl; [exact Hfa|]. intros y. cbn. by rewrite !E.
  - intros q. transitivity (filter (fun j => prio s' j = q) done); [apply list_filter_iff; intros x; by rewrite E|].
    rewrite S3. apply list_filter_iff. intros x. by rewrite E.
Qed.

Lemma urgent_ext s s' prev l : (forall i, prio s' i = prio s i) -> urgent s' prev l = urgent s prev l.
Proof. intros E. apply list_filter_iff. intros x. by rewrite E. Qed.

Lemma patient_ext s s' prev l : (forall i, prio s' i = prio s i) -> patient s' prev l = patient s prev l.
Proof. intros E. apply list_filter_iff. intros x. by rewrite E. Qed.

Lemma do_tasklet_loop_ok fuel s l prev :
  queued s l -> cur_tl_priority s = prev -> (length l < fuel)%nat ->
  (forall f d w, exists w', call f d w = Ok w') ->
  exists s' done, do_tasklet_loop call fuel prev s = Ok (tt, s') /\
    served s (urgent s prev l) done /\ queued s' (patient s prev l) /\
    perform s done (world s) = Ok (world s') /\ ran s' = ran s ++ done /\
    cur_tl_priority s' = prev /\ forall i, info s' i = info s i.
Proof.
  intros Hq Hcur Hf Htot. revert s l Hq Hcur Hf. induction fuel as [|fuel IH]; intros s l Hq Hcur Hf; [lia|].
  cbn [do_tasklet_loop]. pose proof Hq as [Hs Hd Hn Hp].
  destruct (tl_scan_ok (S fuel) s prev HeadCell l (tl_tail s) HeadCell false Hs Hd I Hp Hf)
    as (tl' & todo' & p & E & Hcase). run E.
  destruct Hcase as [(-> & -> & -> & Hle)|(pre & i & post & -> & -> & -> & -> & H1 & H2 & H3 & H4)]; cbn [negb].
  - exists s, []. split; [by destruct s|]. unfold urgent, patient. rewrite app_nil_r.
    assert (Hle' : forall i, i ∈ l -> prio s i <= prev) by (intros i Hi; specialize (Hle i Hi); lia).
    rewrite (filter_none _ l), (filter_all _ l) by (intros i Hi; specialize (Hle' i Hi); lia).
    split_and!; try done. split; [done|constructor|done].
  - set (s1 := with_cur (prio s i) s). assert (Hq1 : queued s1 (pre ++ i :: post)) by by destruct Hq.
    assert (Hi : 0 <= i < Z.of_nat (length (tl_pool s))) by (apply Hp, elem_of_app; right; by left).
    destruct (zget_is_Some _ _ Hi) as [t Ht].
    assert (Hinf : info s1 i = Some (state t, func t, data t)) by (unfold info; cbn; by rewrite Ht).
    destruct (Htot (func t) (data t) (world s1)) as [w Hw].
    destruct (run_tasklet_ok s1 prev pre i post _ _ _ w Hq1 Hinf Hw) as (s2 & E2 & Hq2 & Hi2 & Hr2 & Hw2 & Hc2).
    run E2. rewrite length_app in Hf. cbn in Hf.
    destruct (IH s2 (pre ++ post) Hq2 Hc2) as (s3 & done & E3 & Hsv & Hq3 & Hpf & Hr3 & Hc3 & Hi3);
      [rewrite length_app; lia|].
    assert (Hpr : forall j, prio s2 j = prio s j) by (intros j; apply info_prio, Hi2).
    rewrite (urgent_ext s s2) in Hsv by done. rewrite (patient_ext s s2) in Hq3 by done.
    exists s3, (i :: done). split; [exact E3|]. split_and!.
    + unfold urgent in *. rewrite filter_app in Hsv |- *. rewrite filter_cons, decide_True by done.
      apply served_cons; [by eapply served_ext|intros j [_ Hj]%list_elem_of_filter; by apply H3|].
      intros j [_ Hj]%list_elem_of_filter. by apply H4.
    + unfold patient in *. rewrite filter_app in Hq3 |- *. by rewrite filter_cons, decide_False by lia.
    + cbn. change (info s i) with (info s1 i). rewrite Hinf. change (world s) with (world s1). rewrite Hw. cbn.
      rewrite <-Hpf, Hw2. symmetry. by apply perform_ext.
    + rewrite Hr3, Hr2. change (ran s1) with (ran s). by rewrite <-app_assoc.
    + done.
    + intros j. by rewrite Hi3, Hi2.
Qed.

(** ** A tasklet queued twice *)

Lemma scan_cycle fuel s prev i c l tl todo :
  rd s (NextOf i) = Some i -> 0 <= i < Z.of_nat (length (tl_pool s)) ->
  seg (rd s) c l (NextOf i) -> valid_cell s c ->
  (forall j, j ∈ l -> 0 <= j < Z.of_nat (length (tl_pool s))) ->
  scan fuel prev c tl todo s = Err NoFuel.
Proof.
  revert s c l tl todo. induction fuel as [|fuel IH]; intros s c l tl todo Hc Hi Hs Hv Hp; [done|].
  cbn [scan]. rewrite (bind_ok _ _ _ _ _ (read_cell_ok s c Hv)). cbv beta.
  assert (Hstep : exists j l', rd s c = Some j /\ 0 <= j < Z.of_nat (length (tl_pool s)) /\
    seg (rd s) (NextOf j) l' (NextOf i) /\ forall k, k ∈ l' -> 0 <= k < Z.of_nat (length (tl_pool s))).
  { destruct l as [|j l]; cbn in Hs.
    - subst c. exists i, []. split; [done|]. split; [done|]. split; [done|]. intros k Hk. by apply elem_of_nil in Hk.
    - destruct Hs as [Hr Hs]. exists j, l. split; [done|]. split; [apply Hp; by left|]. split; [done|].
      intros k Hk. apply Hp. by right. }
  destruct Hstep as (j & l' & Hr & Hj & Hs' & Hp'). rewrite Hr.
  destruct (tasklet_at_ok s j Hj) as (t & Et & _). run Et. run (gets_ok (@cur_tl_priority W) s).
  destruct (_ && _).
  - run (eq_refl : set_priority (state t) s = Ok (tt, with_cur (state t) s)).
    by apply (IH (with_cur (state t) s) (NextOf j) l').
  - by apply (IH s (NextOf j) l').
Qed.

(** * Properties *)

(** C20. [do_tasklet] terminates: it runs every queued tasklet more urgent than the code
    it interrupted, in order of decreasing priority and first come first served
    among equals, leaves the others queued in their order, and restores the current
    priority. *)
Theorem do_tasklet_spec fuel s l :
  queued s l -> (length l < fuel)%nat -> (forall f d w, exists w', call f d w = Ok w') ->
  exists s' done, do_tasklet call fuel s = Ok (tt, s') /\
    served s (urgent s (cur_tl_priority s) l) done /\ queued s' (patient s (cur_tl_priority s) l) /\
    perform s done (world s) = Ok (world s') /\ ran s' = ran s ++ done /\
    cur_tl_priority s' = cur_tl_priority s /\ forall i, info s' i = info s i.
Proof.
  intros Hq Hf Htot. unfold do_tasklet. run (gets_ok (@cur_tl_priority W) s).
  by apply do_tasklet_loop_ok.
Qed.

(** Queuing the last tasklet a second time, before it ran, links it to itself: the
    next [do_tasklet] never ends. *)
Theorem requeue_tail_hangs s l i :
  queued s (l ++ [i]) ->
  exists s', tasklet_add i s = Ok (tt, s') /\ forall fuel, do_tasklet call fuel s' = Err NoFuel.
Proof.
  intros [Hs Hd Hn Hp]. assert (Hi : 0 <= i < Z.of_nat (length (tl_pool s))).
  { apply Hp, elem_of_app. right. by left. }
  apply tl_seg_app in Hs as (m & Hl & Him & Ht). cbn in Him, Ht. unfold tasklet_add.
  destruct (write_cell_ok s (NextOf i) None Hi) as (s1 & E1 & R1 & T1 & _ & D1 & O1). run E1.
  run (gets_ok tl_tail s1). rewrite T1, Ht.
  destruct (write_cell_ok s1 (NextOf i) (Some i)) as (s2 & E2 & R2 & T2 & _ & D2 & O2).
  { cbn. by rewrite (sr_len _ _ R1). }
  run E2. eexists. split; [reflexivity|]. set (s3 := Tasklets _ _ _ _ _ _).
  assert (Hrd : forall c, rd s3 c = if decide (c = NextOf i) then Some i else rd s c).
  { intros c. change (rd s3 c) with (rd s2 c). case_decide as E; [by rewrite E|]. by rewrite O2, O1. }
  assert (Hlen : length (tl_pool s3) = length (tl_pool s)).
  { change (tl_pool s3) with (tl_pool s2). by rewrite (sr_len _ _ R2), (sr_len _ _ R1). }
  apply NoDup_app in Hn as (Hn & Hni & _).
  intros [|fuel]; unfold do_tasklet; run (gets_ok (@cur_tl_priority W) s3); [done|].
  cbn [do_tasklet_loop]. apply bind_err. apply (scan_cycle _ s3 _ i HeadCell (l ++ [i])).
  - by rewrite Hrd, decide_True.
  - by rewrite Hlen.
  - pose proof (seg_last _ _ _ _ Hl) as Em.
    assert (Hm : m <> NextOf i).
    { destruct (last_cell_cases HeadCell l) as [[_ Ec]|(j & Hj & Ec)]; rewrite Em, Ec; [done|].
      intros E. injection E as ->. apply (Hni i Hj). by left. }
    apply tl_seg_app. exists m. split.
    + apply (tl_seg_ext (rd s)); [done|done| |].
      * intros x _ [->|(j & Hj & ->)]; rewrite Hrd; [done|]. rewrite decide_False; [done|].
        intros E. injection E as ->. apply (Hni i Hj). by left.
      * intros E. destruct (last_cell_cases HeadCell l) as [[? _]|(j & _ & Ec)]; [done|]. congruence.
    + cbn. split; [|done]. by rewrite Hrd, decide_False.
  - done.
  - intros j Hj. rewrite Hlen. by apply Hp.
Qed.
End Spec.

(** * Instances *)

(** Both tasklets are queued, the UART's first; their functions do nothing here. *)
Definition ex_tasklets : tasklets unit :=
  Tasklets (Some 0) (NextOf 1)
    [TaskletStruct (Some 1) UART_TASKLET 0 97; TaskletStruct None TIMER_TASKLET 1 0] NO_TASKLET [] tt.

Definition ex_call (f d : Z) (w : unit) : res unit := Ok w.

Lemma ex_queued : queued ex_tasklets ([0] ++ [1]).
Proof.
  split; [cbn; done|done|repeat constructor; set_solver|].
  intros i Hi. apply elem_of_cons in Hi as [->|Hi]; [cbn; lia|].
  apply list_elem_of_singleton in Hi as ->. cbn. lia.
Qed.

Lemma do_tasklet_spec_witness :
  exists s' done, do_tasklet ex_call 3 ex_tasklets = Ok (tt, s') /\
    served ex_tasklets (urgent ex_tasklets 0 [0; 1]) done /\ queued s' (patient ex_tasklets 0 [0; 1]) /\
    perform ex_call ex_tasklets done tt = Ok (world s') /\ ran s' = [] ++ done /\
    cur_tl_priority s' = 0 /\ forall i, info s' i = info ex_tasklets i.
Proof.
  apply (do_tasklet_spec ex_call 3 ex_tasklets [0; 1] ex_queued); [cbn; lia|].
  intros f d w. exists w. reflexivity.
Defined.

(** The timer's tasklet runs first. *)
Example ex_order :
  match do_tasklet ex_call 3 ex_tasklets with Ok (_, s) => ran s | Err _ => [] end = [1; 0].
Proof. vm_compute. reflexivity. Qed.

Lemma requeue_tail_hangs_witness :
  exists s', tasklet_add 1 ex_tasklets = Ok (tt, s') /\ forall fuel, do_tasklet ex_call fuel s' = Err NoFuel.
Proof. apply (requeue_tail_hangs ex_call ex_tasklets [0] 1 ex_queued). Defined.
