(* ===== verification/Timer.v ===== *)
(** The software timers of [src/src/timer.c].

    The time, in seconds, comes from the counter of the processor: it is an argument
    of the operations that read it.  What they print is a log of events. *)
From S2P Require Import Prelude CString.

(** * Data and operations *)

(* [src/include/timer.h:4-6 TIMER_ENABLE] *)
Definition NR_TIMER : Z := 2.
Definition TIMER_DISABLE : Z := 0.
Definition TIMER_ENABLE : Z := 1.

(* [src/include/timer.h:16-21 timer] *)
Record timer := Timer {
  enable : Z;
  start_time : Z;
  timeout : Z;
  message : list Z
}.

(** A line on the console. *)
Inductive event :=
  | TimerInit
  | SetTimer (timeout : Z) (message : list Z)
  | NoMoreTimer
  | TimedOut (message : list Z)
  | CurrentTime (t : Z).

Record timers := Timers {
  timer_pool : list timer;
  log : list event
}.

Definition timer_at (i : Z) : M timers timer :=
  fun s => match (timer_pool s).[i] with Some t => Ok (t, s) | None => Err OutOfBounds end.
Definition put_timer (i : Z) (t : timer) : M timers unit :=
  fun s => match (timer_pool s).[i := t] with
           | Some l => Ok (tt, Timers l (log s))
           | None => Err OutOfBounds
           end.
Definition print (e : event) : M timers unit := modify (fun s => Timers (timer_pool s) (log s ++ [e])).
Definition lift {A} (r : res A) : M timers A := fun s => match r with Ok a => Ok (a, s) | Err f => Err f end.

(* [src/src/timer.c:24-29 timer_init] *)
Fixpoint timer_init_loop (n : nat) (i : Z) : M timers unit :=
  match n with
  | O => mret tt
  | S n =>
    t ← timer_at i;
    m ← lift_opt OutOfBounds (message t).[0 := 0];
    _ ← put_timer i (Timer TIMER_DISABLE 0 0 m);
    timer_init_loop n (i + 1)
  end.
(* [src/src/timer.c:22-31 timer_init] *)
Definition timer_init : M timers unit :=
  _ ← timer_init_loop (Z.to_nat NR_TIMER) 0;
  print TimerInit.

(** The first disabled timer from [i] on takes the timeout and the message. *)
(* [src/src/timer.c:38-46 timer_set] *)
Fixpoint timer_set_loop (n : nat) (i now tmo : Z) (msg : list Z) : M timers Z :=
  match n with
  | O => _ ← print NoMoreTimer; mret (-1)
  | S n =>
    t ← timer_at i;
    if enable t =? TIMER_DISABLE then
      m ← lift (strcpy (message t) msg);
      _ ← put_timer i (Timer TIMER_ENABLE now tmo m);
      mret i
    else timer_set_loop n (i + 1) now tmo msg
  end.
(* [src/src/timer.c:33-50 timer_set] *)
Definition timer_set (now tmo : Z) (msg : list Z) : M timers Z :=
  _ ← print (SetTimer tmo msg);
  timer_set_loop (Z.to_nat NR_TIMER) 0 now tmo msg.

(* [src/src/timer.c:58-69 timer_update] *)
Fixpoint timer_update_loop (n : nat) (i now : Z) (is_timer_enable : bool) : M timers bool :=
  match n with
  | O => mret is_timer_enable
  | S n =>
    t ← timer_at i;
    if enable t =? TIMER_DISABLE then timer_update_loop n (i + 1) now is_timer_enable
    else
      let deadline := u64 (start_time t + timeout t) in
      _ ← (if (enable t =? TIMER_ENABLE) && (deadline <? now) then
             _ ← print (TimedOut (message t));
             m ← lift_opt OutOfBounds (message t).[0 := 0];
             put_timer i (Timer TIMER_DISABLE (start_time t) 0 m)
           else mret tt);
      timer_update_loop n (i + 1) now true
  end.
(* [src/src/timer.c:52-72 timer_update] *)
Definition timer_update (now : Z) : M timers unit :=
  e ← timer_update_loop (Z.to_nat NR_TIMER) 0 now false;
  if (e : bool) then print (CurrentTime now) else mret tt.

(* [src/src/timer.c:75-78 timer_tasklet] *)
Definition timer_tasklet (now data : Z) : M timers unit := timer_update now.

(** * The abstract view: the running timers *)

Record timers_ok (s : timers) : Prop := {
  tm_len : Z.of_nat (length (timer_pool s)) = NR_TIMER;
  tm_timer : forall i t, timer_pool s !! i = Some t ->
    (enable t = TIMER_DISABLE \/ enable t = TIMER_ENABLE) /\ length (message t) = 64%nat
}.

Definition armed (t : timer) : bool := enable t =? TIMER_ENABLE.
Definition expired (now : Z) (t : timer) : bool := armed t && (u64 (start_time t + timeout t) <? now).
Definition disarm (t : timer) : timer := Timer TIMER_DISABLE (start_time t) 0 (<[O := 0]> (message t)).

(** What [timer_update] makes of a timer, and what it prints. *)
Definition tick (now : Z) (t : timer) : timer := if expired now t then disarm t else t.
Definition alarms (now : Z) (l : list timer) : list event :=
  flat_map (fun t => if expired now t then [TimedOut (message t)] else []) l.

Lemma timers_two s : timers_ok s -> exists a b, timer_pool s = [a; b].
Proof.
  intros H. pose proof (tm_len s H) as E. unfold NR_TIMER in E.
  destruct (timer_pool s) as [|a [|b [|c l]]]; cbn in E; try lia. by exists a, b.
Qed.

(** [timer_init] on the memory of the image: no timer runs. *)
Lemma timer_init_ok s : Z.of_nat (length (timer_pool s)) = NR_TIMER ->
  (forall i t, timer_pool s !! i = Some t -> length (message t) = 64%nat) ->
  exists s', timer_init s = Ok (tt, s') /\ timers_ok s' /\ forall t, t ∈ timer_pool s' -> armed t = false.
Proof.
  destruct s as [l lg]. cbn [timer_pool]. unfold NR_TIMER. intros Hl Hm.
  destruct l as [|a [|b [|c l]]]; cbn in Hl; try lia. pose proof (Hm 0%nat a eq_refl) as Ha. pose proof (Hm 1%nat b eq_refl) as Hb.
  assert (Hz : forall t, length (message t) = 64%nat -> (message t).[0 := 0] = Some (<[O := 0]> (message t))).
  { intros t Ht. unfold zset. by rewrite Ht. }
  eexists. split.
  - unfold timer_init. change (Z.to_nat NR_TIMER) with 2%nat. cbn [timer_init_loop].
    assert (Hs : forall t (s' : timers), (message t).[0 := 0] = Some (<[O := 0]> (message t)) ->
      lift_opt OutOfBounds (message t).[0 := 0] s' = Ok (<[O := 0]> (message t), s')) by (intros t s' ->; done).
    rewrite (bind_ok _ _ _ tt (Timers [Timer TIMER_DISABLE 0 0 (<[O := 0]> (message a)); Timer TIMER_DISABLE 0 0 (<[O := 0]> (message b))] lg)).
    + reflexivity.
    + rewrite (bind_ok _ _ _ a (Timers [a; b] lg)) by done. run (Hs a (Timers [a; b] lg) (Hz a Ha)).
      rewrite (bind_ok _ _ _ tt (Timers [Timer TIMER_DISABLE 0 0 (<[O := 0]> (message a)); b] lg)) by done.
      rewrite (bind_ok _ _ _ b (Timers [Timer TIMER_DISABLE 0 0 (<[O := 0]> (message a)); b] lg)) by done.
      run (Hs b (Timers [Timer TIMER_DISABLE 0 0 (<[O := 0]> (message a)); b] lg) (Hz b Hb)). done.
  - split; [split; [done|]|].
    + intros [|[|i]] t Hi; cbn in Hi; try done; injection Hi as <-; (split; [by left|cbn; by rewrite length_insert]).
    + intros t Ht. cbn in Ht. set_solver.
Qed.

Lemma timer_update_loop_ok n i s now e pre l :
  timer_pool s = pre ++ l -> i = Z.of_nat (length pre) -> n = length l ->
  (forall t, t ∈ l -> (enable t = TIMER_DISABLE \/ enable t = TIMER_ENABLE) /\ length (message t) = 64%nat) ->
  timer_update_loop n i now e s =
    Ok (e || existsb armed l, Timers (pre ++ map (tick now) l) (log s ++ alarms now l)).
Proof.
  revert i s e pre l. induction n as [|n IH]; intros i s e pre l Hp -> Hn Hl.
  { destruct l; [|done]. cbn. rewrite orb_false_r, !app_nil_r. rewrite app_nil_r in Hp. subst. by destruct s. }
  destruct l as [|t l]; [done|]. injection Hn as Hn. cbn [timer_update_loop].
  assert (Et : timer_at (Z.of_nat (length pre)) s = Ok (t, s)).
  { unfold timer_at. by rewrite Hp, zget_app_mid. }
  run Et. destruct (Hl t) as [He Hm]; [by left|].
  assert (Hl' : forall u, u ∈ l -> (enable u = TIMER_DISABLE \/ enable u = TIMER_ENABLE) /\ length (message u) = 64%nat)
    by (intros u Hu; apply Hl; by right).
  assert (Hi : Z.of_nat (length pre) + 1 = Z.of_nat (length (pre ++ [t]))) by (rewrite length_app; cbn; lia).
  cbn [existsb map alarms flat_map]. fold (alarms now l).
  assert (Ea : armed t = (enable t =? TIMER_ENABLE)) by done.
  assert (Ex : expired now t = (enable t =? TIMER_ENABLE) && (u64 (start_time t + timeout t) <? now)) by done.
  unfold tick at 1. rewrite Ex, Ea. clear Ex Ea. destruct He as [He|He]; rewrite !He.
  - change (TIMER_DISABLE =? TIMER_DISABLE) with true. change (TIMER_DISABLE =? TIMER_ENABLE) with false. cbn [andb].
    rewrite Hi, (IH _ s e (pre ++ [t]) l); [|by rewrite <-app_assoc|done|done|done].
    cbn [orb app]. by rewrite <-app_assoc.
  - change (TIMER_ENABLE =? TIMER_DISABLE) with false. change (TIMER_ENABLE =? TIMER_ENABLE) with true. cbn [andb].
    destruct (u64 (start_time t + timeout t) <? now) eqn:Ed.
    + set (s1 := Timers (pre ++ disarm t :: l) (log s ++ [TimedOut (message t)])).
      rewrite (bind_ok _ _ _ tt s1).
      2:{ run (eq_refl : print (TimedOut (message t)) s = Ok (tt, Timers (timer_pool s) (log s ++ [TimedOut (message t)]))).
          unfold lift_opt. rewrite zset_ok by (rewrite Hm; lia). unfold mbind, M_bind, put_timer. cbn [timer_pool].
          rewrite Hp, (zset_app_mid pre l t _ _ eq_refl). done. }
      replace (Z.of_nat (length pre) + 1) with (Z.of_nat (length (pre ++ [disarm t]))) by (rewrite length_app; cbn; lia).
      rewrite (IH _ s1 true (pre ++ [disarm t]) l); [|by rewrite <-app_assoc|done|done|done].
      cbn [orb app log s1]. rewrite <-!app_assoc, orb_true_r. done.
    + rewrite (bind_ok _ (mret tt) s tt s eq_refl).
      rewrite Hi, (IH _ s true (pre ++ [t]) l); [|by rewrite <-app_assoc|done|done|done].
      cbn [orb app]. by rewrite <-app_assoc, orb_true_r.
Qed.

Lemma timer_update_ok s now :
  timers_ok s ->
  timer_update now s = Ok (tt, Timers (map (tick now) (timer_pool s))
    (log s ++ alarms now (timer_pool s) ++ (if existsb armed (timer_pool s) then [CurrentTime now] else []))).
Proof.
  intros H. unfold timer_update. destruct (timers_two s H) as (a & b & E).
  assert (El : timer_update_loop (Z.to_nat NR_TIMER) 0 now false s =
    Ok (existsb armed (timer_pool s), Timers (map (tick now) (timer_pool s)) (log s ++ alarms now (timer_pool s)))).
  { apply (timer_update_loop_ok 2 0 s now false [] (timer_pool s)); [done|done|by rewrite E|].
    intros t [i Hi]%list_elem_of_lookup. by apply (tm_timer s H i). }
  run El. destruct (existsb armed (timer_pool s)).
  - unfold print, modify. cbn. by rewrite <-app_assoc.
  - by rewrite app_nil_r.
Qed.

(** * Properties *)

(** [timer_update] turns off exactly the timers whose deadline is past, frees their
    slots and prints their messages in slot order, leaves the others as they are,
    and prints the time when some timer was on. *)
Theorem timer_update_spec s now :
  timers_ok s ->
  timer_update now s = Ok (tt, Timers (map (tick now) (timer_pool s))
    (log s ++ alarms now (timer_pool s) ++ (if existsb armed (timer_pool s) then [CurrentTime now] else []))).
Proof. apply timer_update_ok. Qed.

(** [timer_set] starts the first timer that is off, with the current time, and
    returns its index; with none off it returns -1 and changes no timer; a message of
    more than 63 characters overruns the timer's buffer. *)
Theorem timer_set_spec s now tmo msg m :
  timers_ok s -> holds msg m ->
  (forall i t, timer_pool s !! i = Some t -> enable t = TIMER_DISABLE ->
     (forall k u, (k < i)%nat -> timer_pool s !! k = Some u -> enable u <> TIMER_DISABLE) ->
     timer_set now tmo msg s =
       if (length m <? 64)%nat
       then Ok (Z.of_nat i, Timers (<[i := Timer TIMER_ENABLE now tmo (m ++ 0 :: drop (S (length m)) (message t))]>
                              (timer_pool s)) (log s ++ [SetTimer tmo msg]))
       else Err OutOfBounds) /\
  ((forall t, t ∈ timer_pool s -> enable t <> TIMER_DISABLE) -> 
     timer_set now tmo msg s = Ok (-1, Timers (timer_pool s) (log s ++ [SetTimer tmo msg; NoMoreTimer]))).
Proof.
  intros H Hm. destruct (timers_two s H) as (a & b & E).
  pose proof (tm_timer s H) as Ht. rewrite E in *.
  assert (Hc : forall t, length (message t) = 64%nat ->
    strcpy (message t) msg = if (length m <? 64)%nat then Ok (m ++ 0 :: drop (S (length m)) (message t)) else Err OutOfBounds).
  { intros t El. destruct (Nat.ltb_spec (length m) 64); [apply strcpy_ok|apply (strcpy_short _ _ m)]; done || lia. }
  set (s1 := Timers (timer_pool s) (log s ++ [SetTimer tmo msg])).
  assert (Ea : timer_at 0 s1 = Ok (a, s1)) by (unfold timer_at, s1; cbn [timer_pool]; by rewrite E).
  assert (Eb : timer_at 1 s1 = Ok (b, s1)) by (unfold timer_at, s1; cbn [timer_pool]; by rewrite E).
  unfold timer_set. rewrite (bind_ok _ (print (SetTimer tmo msg)) s tt s1 eq_refl). change (Z.to_nat NR_TIMER) with 2%nat. cbn [timer_set_loop].
  rewrite (bind_ok _ _ _ _ _ Ea). cbv beta. change (0 + 1) with 1. split.
  - intros i t Hi He Hlt. destruct i as [|[|i]]; [| |done].
    + injection Hi as ->. rewrite He. change (TIMER_DISABLE =? TIMER_DISABLE) with true. cbv iota.
      unfold lift, mbind at 1, M_bind at 1. rewrite Hc by apply (Ht O t eq_refl).
      destruct (length m <? 64)%nat; [|done]. unfold put_timer, mbind, M_bind, mret, M_ret, s1. cbn [timer_pool log]. by rewrite E.
    + injection Hi as ->. specialize (Hlt O a ltac:(lia) eq_refl).
      destruct (Z.eqb_spec (enable a) TIMER_DISABLE); [done|].
      rewrite (bind_ok _ _ _ _ _ Eb). cbv beta. rewrite He.
      change (TIMER_DISABLE =? TIMER_DISABLE) with true. cbv iota.
      unfold lift, mbind at 1, M_bind at 1. rewrite Hc by apply (Ht 1%nat t eq_refl).
      destruct (length m <? 64)%nat; [|done]. unfold put_timer, mbind, M_bind, mret, M_ret, s1. cbn [timer_pool log]. by rewrite E.
  - intros Hall. destruct (Z.eqb_spec (enable a) TIMER_DISABLE) as [Ex|_]; [exfalso; apply (Hall a); [by left|done]|].
    rewrite (bind_ok _ _ _ _ _ Eb). cbv beta.
    destruct (Z.eqb_spec (enable b) TIMER_DISABLE) as [Ex|_]; [exfalso; apply (Hall b); [right; by left|done]|].
    unfold print, modify, mbind, M_bind, mret, M_ret, s1. cbn [timer_pool log]. by rewrite E, <-app_assoc.
Qed.

(** * Instances *)

(** One timer of 3 seconds, set at time 10, and a free one. *)
Definition ex_timers : timers :=
  Timers [Timer TIMER_ENABLE 10 3 (104 :: 105 :: replicate 62 0); Timer TIMER_DISABLE 0 0 (replicate 64 0)] [].

Lemma ex_timers_ok : timers_ok ex_timers.
Proof.
  split; [done|]. intros [|[|i]] t Hi; [| |done]; injection Hi as <-; cbn; split; auto.
Qed.

Lemma timer_update_spec_witness :
  timer_update 14 ex_timers = Ok (tt, Timers (map (tick 14) (timer_pool ex_timers))
    ([] ++ alarms 14 (timer_pool ex_timers) ++ [CurrentTime 14])).
Proof. apply (timer_update_spec ex_timers 14 ex_timers_ok). Defined.

Lemma timer_set_spec_witness :
  timer_set 14 5 [98; 0] ex_timers =
    Ok (1, Timers (<[1%nat := Timer TIMER_ENABLE 14 5 ([98] ++ 0 :: drop 2 (replicate 64 0))]> (timer_pool ex_timers)) [SetTimer 5 [98; 0]]).
Proof.
  apply (proj1 (timer_set_spec ex_timers 14 5 [98; 0] [98] ex_timers_ok
    ltac:(split; [repeat constructor|by exists []])) 1%nat (Timer TIMER_DISABLE 0 0 (replicate 64 0)) eq_refl eq_refl).
  intros k u Hk Hu. destruct k as [|k]; [|lia]. injection Hu as <-. discriminate.
Defined.
