(* ===== verification/FsData.v ===== *)
(** The objects of the file systems: [src/include/vfs.h], [tmpfs.h], [initramfs.h],
    [fat32.h], [mbr.h].

    A pointer to an object is a key of the map of the objects of its type, and 0 is
    [NULL].  [kmalloc] hands out keys never used before: what it promises of the
    addresses it returns is proved of its model ([SlabSpec.held_disjoint]).  The
    object is in its map once its fields are set, so that a read of a structure that
    was allocated but not filled in is an [Uninit] outcome, and the use of a freed
    one too.  A [char *] into a data block is the block and an offset; a byte of a
    block that nothing wrote is [None].  The SD card is its blocks of 512 bytes. *)
From S2P Require Import Prelude CString.

(* [src/include/vfs.h:6-6 NR_FILESYSTEM] *)
Definition NR_FILESYSTEM : Z := 8.
(* [src/include/vfs.h:7-7 MAX_FILE_NAME_LEN] *)
Definition MAX_FILE_NAME_LEN : Z := 16.
(* [src/include/vfs.h:8-8 MAX_PATH_LEN] *)
Definition MAX_PATH_LEN : Z := 256.
(* [src/include/vfs.h:9-9 MAX_DIR_NUM] *)
Definition MAX_DIR_NUM : Z := 16.
(* [src/include/vfs.h:10-10 SEEK_SET] *)
Definition SEEK_SET : Z := 0.
(* [src/include/vfs.h:14-16 O_CREAT] *)
Definition O_CREAT : Z := 100.
(* [src/include/tmpfs.h:6-8 DEFAULT_INODE_SIZE] *)
Definition DEFAULT_INODE_SIZE : Z := 4096.
(* [src/include/mbr.h:6-8 BLOCK_SIZE] *)
Definition BLOCK_SIZE : Z := 512.

(* [src/include/vfs.h:19-22 fsnode_type] *)
Inductive fsnode_type := FSNODE_TYPE_FILE | FSNODE_TYPE_DIR.

#[global] Instance fsnode_type_eq_dec : EqDecision fsnode_type.
Proof. solve_decision. Defined.

(** The static tables a [filesystem], [v_ops] or [f_ops] pointer refers to. *)
Inductive fs_type := Tmpfs | Initramfs | Fat32.

#[global] Instance fs_type_eq_dec : EqDecision fs_type.
Proof. solve_decision. Defined.

(* [src/include/vfs.h:24-29 vnode] *)
Record vnode := Vnode {
  v_mount : Z;
  v_ops : fs_type;
  vf_ops : fs_type;
  internal : Z
}.

(** [flags] is only ever written. *)
(* [src/include/vfs.h:32-37 file] *)
Record file := File {
  f_vnode : Z;
  f_pos : Z;
  f_ops : fs_type;
  f_flags : option Z
}.

(* [src/include/vfs.h:39-42 mount] *)
Record mount := Mount {
  root : Z;
  m_fs : fs_type
}.

Definition ptr : Type := Z * Z.

(** [tmpfs_inode] and [initramfs_inode]; a [fat32_inode] has the same fields first. *)
(* [src/include/tmpfs.h:12-18 tmpfs_inode] *)
Record inode := Inode {
  i_type : fsnode_type;
  i_name : list Z;
  childs : list Z;
  data : ptr;
  data_size : Z
}.

(** The fields a [fat32_inode] adds. *)
(* [src/include/fat32.h:121-122 fat32_inode] *)
Record fat_node := FatNode {
  cluster : Z;
  abs_block_num : Z
}.

(* [src/include/fat32.h:125-134 fat32_info] *)
Record fat32_info := FatInfo {
  starting_sector : Z;
  fat_region : Z;
  data_region : Z;
  blocks_per_cluster : Z;
  sectors_per_fat : Z;
  sectors_per_cluster : Z;
  file_name_type : Z
}.

Record fs_state := FsState {
  vnodes : gmap Z vnode;
  inodes : gmap Z inode;
  fat_nodes : gmap Z fat_node;
  mounts : gmap Z mount;
  files : gmap Z file;
  blocks : gmap Z (list (option Z));
  next_key : Z;
  filesystems : list (option fs_type);
  rootfs : Z;
  cpio_base : ptr;
  fat_info : fat32_info;
  fat_boot_sector : list Z;
  mbr : list Z;
  sd : gmap Z (list Z)
}.

(** * Reading and writing objects *)

Definition set_vnodes (f : gmap Z vnode -> gmap Z vnode) (s : fs_state) : fs_state :=
  FsState (f (vnodes s)) (inodes s) (fat_nodes s) (mounts s) (files s) (blocks s) (next_key s)
    (filesystems s) (rootfs s) (cpio_base s) (fat_info s) (fat_boot_sector s) (mbr s) (sd s).
Definition set_inodes (f : gmap Z inode -> gmap Z inode) (s : fs_state) : fs_state :=
  FsState (vnodes s) (f (inodes s)) (fat_nodes s) (mounts s) (files s) (blocks s) (next_key s)
    (filesystems s) (rootfs s) (cpio_base s) (fat_info s) (fat_boot_sector s) (mbr s) (sd s).
Definition set_fat_nodes (f : gmap Z fat_node -> gmap Z fat_node) (s : fs_state) : fs_state :=
  FsState (vnodes s) (inodes s) (f (fat_nodes s)) (mounts s) (files s) (blocks s) (next_key s)
    (filesystems s) (rootfs s) (cpio_base s) (fat_info s) (fat_boot_sector s) (mbr s) (sd s).
Definition set_mounts (f : gmap Z mount -> gmap Z mount) (s : fs_state) : fs_state :=
  FsState (vnodes s) (inodes s) (fat_nodes s) (f (mounts s)) (files s) (blocks s) (next_key s)
    (filesystems s) (rootfs s) (cpio_base s) (fat_info s) (fat_boot_sector s) (mbr s) (sd s).
Definition set_files (f : gmap Z file -> gmap Z file) (s : fs_state) : fs_state :=
  FsState (vnodes s) (inodes s) (fat_nodes s) (mounts s) (f (files s)) (blocks s) (next_key s)
    (filesystems s) (rootfs s) (cpio_base s) (fat_info s) (fat_boot_sector s) (mbr s) (sd s).
Definition set_blocks (f : gmap Z (list (option Z)) -> gmap Z (list (option Z))) (s : fs_state) : fs_state :=
  FsState (vnodes s) (inodes s) (fat_nodes s) (mounts s) (files s) (f (blocks s)) (next_key s)
    (filesystems s) (rootfs s) (cpio_base s) (fat_info s) (fat_boot_sector s) (mbr s) (sd s).
Definition set_next_key (k : Z) (s : fs_state) : fs_state :=
  FsState (vnodes s) (inodes s) (fat_nodes s) (mounts s) (files s) (blocks s) k
    (filesystems s) (rootfs s) (cpio_base s) (fat_info s) (fat_boot_sector s) (mbr s) (sd s).
Definition set_filesystems (l : list (option fs_type)) (s : fs_state) : fs_state :=
  FsState (vnodes s) (inodes s) (fat_nodes s) (mounts s) (files s) (blocks s) (next_key s)
    l (rootfs s) (cpio_base s) (fat_info s) (fat_boot_sector s) (mbr s) (sd s).
Definition set_rootfs (m : Z) (s : fs_state) : fs_state :=
  FsState (vnodes s) (inodes s) (fat_nodes s) (mounts s) (files s) (blocks s) (next_key s)
    (filesystems s) m (cpio_base s) (fat_info s) (fat_boot_sector s) (mbr s) (sd s).
Definition set_fat_info (i : fat32_info) (b m : list Z) (s : fs_state) : fs_state :=
  FsState (vnodes s) (inodes s) (fat_nodes s) (mounts s) (files s) (blocks s) (next_key s)
    (filesystems s) (rootfs s) (cpio_base s) i b m (sd s).
Definition set_sd (f : gmap Z (list Z) -> gmap Z (list Z)) (s : fs_state) : fs_state :=
  FsState (vnodes s) (inodes s) (fat_nodes s) (mounts s) (files s) (blocks s) (next_key s)
    (filesystems s) (rootfs s) (cpio_base s) (fat_info s) (fat_boot_sector s) (mbr s) (f (sd s)).

(** The object at [p] of the map [f]. *)
Definition deref {A} (f : fs_state -> gmap Z A) (p : Z) : M fs_state A :=
  fun s => if p =? 0 then Err NullDeref else match f s !! p with Some x => Ok (x, s) | None => Err Uninit end.

(** A call of an operation of [string.c], which has no access to the objects. *)
Definition pure_op {A} (r : res A) : M fs_state A :=
  fun s => match r with Ok x => Ok (x, s) | Err f => Err f end.

Definition kmalloc_key : M fs_state Z :=
  fun s => Ok (next_key s, set_next_key (next_key s + 1) s).

(** [char path[MAX_PATH_LEN] = {0}] *)
Definition path_buffer : list Z := replicate 256 0.

(** The rest of the block [p] points into. *)
Definition read_block (p : ptr) : M fs_state (list (option Z)) :=
  b ← deref blocks p.1;
  if (0 <=? p.2) && (p.2 <=? Z.of_nat (length b)) then mret (drop (Z.to_nat p.2) b) else fail OutOfBounds.

(** [memcpy(p, buf, n)] to a data block. *)
Definition copy_to (p : ptr) (buf : list Z) (n : Z) : M fs_state unit :=
  b ← read_block p;
  b' ← pure_op (memcpy b (Some <$> buf) (Z.to_nat n));
  modify (set_blocks (fun m => <[p.1 := take (Z.to_nat p.2) (default [] (m !! p.1)) ++ b']> m)).

(** [memcpy(buf, p, n)] from a data block: the buffer after it. *)
Definition copy_from (buf : list Z) (p : ptr) (n : Z) : M fs_state (list Z) :=
  b ← read_block p;
  b' ← pure_op (memcpy (Some <$> buf) b (Z.to_nat n));
  match mapM id b' with Some l => mret l | None => fail Uninit end.
