(* ===== verification/Vfs.v ===== *)
(** The virtual file system of [src/src/vfs.c]: path lookup across mounts, opening,
    reading and writing files, directories, mounting, absolute paths.

    A function of this file reaches a file system through the operation tables only,
    an instance of the class [Ops]; what it needs of them is the class [FsLaws] of
    [VfsSpec].  The console messages are not modelled. *)
From Stdlib Require Import Ascii String.
From S2P Require Import Prelude CString FsData.

(** * Operation tables *)

(** An operation that has a [struct vnode **target] argument returns its result and
    what it stored there, if it did. *)
(* [src/include/vfs.h:57-64 vnode_operations] *)
Record vnode_operations := VnodeOperations {
  lookup_op : Z -> list Z -> M fs_state (Z * option Z);
  create_op : Z -> list Z -> M fs_state (Z * option Z);
  mkdir_op : Z -> list Z -> M fs_state (Z * option Z)
}.

(* [src/include/vfs.h:49-56 file_operations] *)
Record file_operations := FileOperations {
  write_op : Z -> list Z -> Z -> M fs_state Z;
  read_op : Z -> list Z -> Z -> M fs_state (Z * list Z);
  open_op : Z -> Z -> M fs_state Z;
  close_op : Z -> M fs_state Z;
  lseek64_op : Z -> Z -> Z -> M fs_state Z
}.

(* [src/include/vfs.h:44-47 filesystem] *)
Record filesystem := Filesystem {
  fs_name : list Z;
  setup_mount : fs_type -> Z -> M fs_state Z
}.

Class Ops := {
  vnode_ops : fs_type -> vnode_operations;
  file_ops : fs_type -> file_operations;
  fs_table : fs_type -> filesystem
}.

(** The target of an operation that returned: using one it did not store is using an
    uninitialised variable. *)
Definition stored (t : option Z) : M fs_state Z := lift_opt Uninit t.

(* [src/src/vfs.c:16-24 register_filesystem] *)
Fixpoint register_loop (n : nat) (i : Z) (fs : fs_type) : M fs_state Z :=
  match n with
  | O => mret 0
  | S n =>
    s ← get;
    f ← lift_opt OutOfBounds (filesystems s).[i];
    match f with
    | None =>
      l ← lift_opt OutOfBounds (filesystems s).[i := Some fs];
      _ ← modify (set_filesystems l);
      mret 1
    | Some _ => register_loop n (i + 1) fs
    end
  end.
(* [src/src/vfs.c:14-27 register_filesystem] *)
Definition register_filesystem (fs : fs_type) : M fs_state Z :=
  register_loop (Z.to_nat NR_FILESYSTEM) 0 fs.

Section Vfs.
Context `{Ops}.

(** [dir->v_ops->lookup(dir, &dir, path)] *)
Definition lookup_in (dir : Z) (path : list Z) : M fs_state (Z * option Z) :=
  v ← deref vnodes dir;
  lookup_op (vnode_ops (v_ops v)) dir path.

(** Follow the mount on a vnode, if there is one. *)
(* [src/src/vfs.c:95-97 vfs_lookup] *)
Definition redirect (dir : Z) : M fs_state Z :=
  v ← deref vnodes dir;
  if v_mount v =? 0 then mret dir
  else m ← deref mounts (v_mount v); mret (root m).

(** The loop over the path: the directory reached, the buffer and the length of the
    last component, or [None] when a directory is not found. *)
(* [src/src/vfs.c:85-101 vfs_lookup] *)
Fixpoint lookup_loop (n : nat) (pathname : list Z) (dir : Z) (path : list Z) (i idx : Z) :
    M fs_state (option (Z * list Z * Z)) :=
  match n with
  | O => fail NoFuel
  | S n =>
    len ← pure_op (strlen pathname);
    if i <? len then
      c ← lift_opt OutOfBounds pathname.[i];
      if c =? 47 then
        path ← lift_opt OutOfBounds path.[idx := 0];
        r ← lookup_in dir path;
        if r.1 =? 0 then mret None
        else
          dir ← mret (default dir r.2);
          dir ← redirect dir;
          lookup_loop n pathname dir path (i + 1) 0
      else
        path ← lift_opt OutOfBounds path.[idx := c];
        lookup_loop n pathname dir path (i + 1) (idx + 1)
    else mret (Some (dir, path, idx))
  end.

(** The vnode found, or [None] when the function returns 0. *)
(* [src/src/vfs.c:73-116 vfs_lookup] *)
Definition vfs_lookup (pathname : list Z) : M fs_state (option Z) :=
  r ← gets rootfs;
  r ← deref mounts r;
  len ← pure_op (strlen pathname);
  c ← lift_opt OutOfBounds pathname.[0];
  if (len =? 0) || ((len =? 1) && (c =? 47)) then mret (Some (root r))
  else
    w ← lookup_loop (length pathname) pathname (root r) path_buffer 1 0;
    match w with
    | None => mret None
    | Some (dir, path, idx) =>
      path ← lift_opt OutOfBounds path.[idx := 0];
      r ← lookup_in dir path;
      if r.1 =? 0 then mret None
      else
        dir ← mret (default dir r.2);
        dir ← redirect dir;
        mret (Some dir)
    end.

(* [src/src/vfs.c:39-44 vfs_mount] *)
Fixpoint find_filesystem (n : nat) (i : Z) (name : list Z) : M fs_state (option fs_type) :=
  match n with
  | O => mret None
  | S n =>
    s ← get;
    f ← lift_opt OutOfBounds (filesystems s).[i];
    match f with
    | Some fs =>
      d ← pure_op (strcmp (fs_name (fs_table fs)) name);
      if d =? 0 then mret (Some fs) else find_filesystem n (i + 1) name
    | None => find_filesystem n (i + 1) name
    end
  end.

(* [src/src/vfs.c:33-71 vfs_mount] *)
Definition vfs_mount (target name : list Z) : M fs_state Z :=
  f ← find_filesystem (Z.to_nat NR_FILESYSTEM) 0 name;
  match f with
  | None => mret 0
  | Some fs =>
    t ← vfs_lookup target;
    match t with
    | None => mret 0
    | Some target_node =>
      m ← kmalloc_key;
      r ← setup_mount (fs_table fs) fs m;
      if r =? 0 then _ ← modify (set_mounts (delete m)); mret 0
      else
        v ← deref vnodes target_node;
        if negb (v_mount v =? 0) then _ ← modify (set_mounts (delete m)); mret 0
        else
          _ ← modify (set_vnodes (<[target_node := Vnode m (v_ops v) (vf_ops v) (internal v)]>));
          mret 1
    end
  end.

(** The copy of a path, with the index of its last '/'. *)
(* [src/src/vfs.c:137-141 vfs_open] *)
Fixpoint copy_path (n : nat) (pathname path : list Z) (i idx : Z) : res (list Z * Z) :=
  match n with
  | O => Err NoFuel
  | S n =>
    len ← strlen pathname;
    if i <? len then
      c ← opt_res OutOfBounds pathname.[i];
      path ← opt_res OutOfBounds path.[i := c];
      copy_path n pathname path (i + 1) (if c =? 47 then i else idx)
    else Ok (path, idx)
  end.

(** A handle for the vnode [node]. *)
(* [src/src/vfs.c:165-169 vfs_open] *)
Definition open_node (node flags : Z) : M fs_state (option Z) :=
  target ← kmalloc_key;
  v ← deref vnodes node;
  _ ← open_op (file_ops (vf_ops v)) node target;
  f ← deref files target;
  _ ← modify (set_files (<[target := File (f_vnode f) (f_pos f) (f_ops f) (Some flags)]>));
  mret (Some target).

(** The handle, or [None] when the function returns 0. *)
(* [src/src/vfs.c:119-170 vfs_open] *)
Definition vfs_open (pathname : list Z) (flags : Z) : M fs_state (option Z) :=
  t ← vfs_lookup pathname;
  match t with
  | Some node => open_node node flags
  | None =>
    if negb (Z.land flags O_CREAT =? 0) then
      p ← pure_op (copy_path (length pathname) pathname path_buffer 0 0);
      path ← lift_opt OutOfBounds (p.1).[p.2 := 0];
      d ← vfs_lookup path;
      match d with
      | None => mret None
      | Some node =>
        v ← deref vnodes node;
        r ← create_op (vnode_ops (v_ops v)) node (drop (Z.to_nat (p.2 + 1)) pathname);
        target_node ← stored r.2;
        open_node target_node flags
      end
    else mret None
  end.

(* [src/src/vfs.c:173-178 vfs_close] *)
Definition vfs_close (f : Z) : M fs_state Z :=
  h ← deref files f;
  _ ← close_op (file_ops (f_ops h)) f;
  mret 1.

(* [src/src/vfs.c:181-186 vfs_write] *)
Definition vfs_write (f : Z) (buf : list Z) (len : Z) : M fs_state Z :=
  h ← deref files f;
  write_op (file_ops (f_ops h)) f buf len.

(* [src/src/vfs.c:188-193 vfs_read] *)
Definition vfs_read (f : Z) (buf : list Z) (len : Z) : M fs_state (Z * list Z) :=
  h ← deref files f;
  read_op (file_ops (f_ops h)) f buf len.

(* [src/src/vfs.c:266-268 vfs_mkdir] *)
Fixpoint last_slash (n : nat) (path : list Z) (i last : Z) : res Z :=
  match n with
  | O => Err NoFuel
  | S n =>
    len ← strlen path;
    if i <? len then
      c ← opt_res OutOfBounds path.[i];
      last_slash n path (u32 (i + 1)) (if c =? 47 then i else last)
    else Ok last
  end.

(* [src/src/vfs.c:260-280 vfs_mkdir] *)
Definition vfs_mkdir (path : list Z) : M fs_state Z :=
  last ← pure_op (last_slash (length path) path 0 0);
  dir_name ← pure_op (memcpy path_buffer path (Z.to_nat last));
  new_dir_name ← pure_op (strcpy path_buffer (drop (Z.to_nat (last + 1)) path));
  t ← vfs_lookup dir_name;
  match t with
  | Some node =>
    v ← deref vnodes node;
    _ ← mkdir_op (vnode_ops (v_ops v)) node new_dir_name;
    mret 1
  | None => mret 0
  end.

(** The initialisation of the SD card, [sd_init], is a parameter. *)
(* [src/src/vfs.c:195-213 rootfs_init] *)
Definition rootfs_init (sd_init : M fs_state unit) : M fs_state unit :=
  _ ← sd_init;
  _ ← register_filesystem Tmpfs;
  _ ← register_filesystem Initramfs;
  _ ← register_filesystem Fat32;
  m ← kmalloc_key;
  _ ← modify (set_rootfs m);
  s ← get;
  f ← lift_opt OutOfBounds (filesystems s).[0];
  fs ← lift_opt NullDeref f;
  _ ← setup_mount (fs_table fs) fs m;
  _ ← vfs_mkdir (cstr "/initramfs");
  _ ← vfs_mount (cstr "/initramfs") (cstr "initramfs");
  _ ← vfs_mkdir (cstr "/boot");
  _ ← vfs_mount (cstr "/boot") (cstr "fat32");
  mret tt.

End Vfs.

(** The index [idx] goes back to a '/'; the read at [idx] is one of the old contents
    of [path] or of what was written there before. *)
(* [src/src/vfs.c:239-240 get_absolute_path] *)
Fixpoint back_up (n : nat) (path : list Z) (idx : Z) : res Z :=
  match n with
  | O => Err NoFuel
  | S n =>
    if 0 <=? idx then
      c ← opt_res OutOfBounds path.[idx];
      if negb (c =? 47) then back_up n path (idx - 1) else Ok idx
    else Ok idx
  end.

(* [src/src/vfs.c:235-254 get_absolute_path] *)
Fixpoint absolute_loop (n : nat) (abs_path path : list Z) (i idx : Z) : res (list Z * Z) :=
  match n with
  | O => Err NoFuel
  | S n =>
    len ← strlen abs_path;
    if i <? len then
      c ← opt_res OutOfBounds abs_path.[i];
      c1 ← opt_res OutOfBounds abs_path.[i + 1];
      c2 ← (if (c =? 47) && (c1 =? 46) then opt_res OutOfBounds abs_path.[i + 2] else Ok 0);
      if (c =? 47) && (c1 =? 46) && (c2 =? 46) then
        idx ← back_up (S (S (length path))) path idx;
        absolute_loop n abs_path path (i + 3) idx
      else if (c =? 47) && (c1 =? 46) then absolute_loop n abs_path path (i + 2) idx
      else
        path ← opt_res OutOfBounds path.[idx := c];
        absolute_loop n abs_path path (i + 1) (idx + 1)
    else Ok (path, idx)
  end.

(* [src/src/vfs.c:219-257 get_absolute_path] *)
Definition get_absolute_path (path current_path : list Z) : res (list Z) :=
  c ← opt_res OutOfBounds path.[0];
  abs_path ←
    (if negb (c =? 47) then
       a ← strcpy path_buffer current_path;
       d ← strcmp current_path [47; 0];
       a ← (if negb (d =? 0) then strcat a [47; 0] else Ok a);
       strcat a path
     else strcpy path_buffer path);
  r ← absolute_loop (S (length abs_path)) abs_path path 0 0;
  opt_res OutOfBounds (r.1).[r.2 := 0].
