(* ===== verification/Tmpfs.v ===== *)
(** The file system in memory, [src/src/tmpfs.c].  The loops over a directory and the
    construction of a node are stated once: [initramfs.c] and [fat32.c] have the same
    ones. *)
From Stdlib Require Import Ascii String.
From S2P Require Import Prelude CString FsData Vfs.

(** * Nodes *)

(** A data block of [n] bytes, each [b]. *)
Definition new_block (n : Z) (b : option Z) : M fs_state Z :=
  k ← kmalloc_key;
  _ ← modify (set_blocks (<[k := replicate (Z.to_nat n) b]>));
  mret k.

(** A vnode with an inode of type [type] below it; the data block is of [size] bytes. *)
Definition create_vnode (t : fs_type) (size : Z) (b : option Z) (mnt : Z) (type : fsnode_type) :
    M fs_state Z :=
  node ← kmalloc_key;
  i ← kmalloc_key;
  d ← new_block size b;
  _ ← modify (set_inodes (<[i := Inode type (replicate 16 0) (replicate 16 0) (d, 0) 0]>));
  _ ← modify (set_vnodes (<[node := Vnode mnt t t i]>));
  mret node.

(* [src/src/tmpfs.c:52-72 tmpfs_create_vnode] *)
Definition tmpfs_create_vnode : Z -> fsnode_type -> M fs_state Z :=
  create_vnode Tmpfs DEFAULT_INODE_SIZE None.

(** The inode below a vnode. *)
Definition inode_of (node : Z) : M fs_state inode :=
  v ← deref vnodes node; deref inodes (internal v).

(** Update of the inode below a vnode. *)
Definition upd_inode (node : Z) (f : inode -> inode) : M fs_state unit :=
  v ← deref vnodes node;
  i ← deref inodes (internal v);
  modify (set_inodes (<[internal v := f i]>)).

Definition with_child (l : list Z) (i : inode) : inode := Inode (i_type i) (i_name i) l (data i) (data_size i).
Definition with_name (n : list Z) (i : inode) : inode := Inode (i_type i) n (childs i) (data i) (data_size i).
Definition with_size (n : Z) (i : inode) : inode := Inode (i_type i) (i_name i) (childs i) (data i) n.

(* [src/src/tmpfs.c:37-46 tmpfs_setup_mount] *)
Definition tmpfs_setup_mount (fs : fs_type) (m : Z) : M fs_state Z :=
  r ← tmpfs_create_vnode 0 FSNODE_TYPE_DIR;
  _ ← modify (set_mounts (<[m := Mount r fs]>));
  mret 1.

(** * File operations *)

(* [src/src/tmpfs.c:75-92 tmpfs_write] *)
Definition tmpfs_write (f : Z) (buf : list Z) (len : Z) : M fs_state Z :=
  if len =? 0 then mret 0
  else
    h ← deref files f;
    i ← inode_of (f_vnode h);
    _ ← copy_to ((data i).1, (data i).2 + f_pos h) buf len;
    let pos := u64 (f_pos h + len) in
    _ ← modify (set_files (<[f := File (f_vnode h) pos (f_ops h) (f_flags h)]>));
    _ ← (if data_size i <? pos then upd_inode (f_vnode h) (with_size pos) else mret tt);
    mret (s32 len).

(** The part of a read both file systems in memory have. *)
Definition read_node (f : Z) (buf : list Z) (len : Z) : M fs_state (Z * list Z) :=
  h ← deref files f;
  i ← inode_of (f_vnode h);
  let len' := if data_size i <? u64 (f_pos h + len) then u64 (data_size i - f_pos h) else len in
  buf ← copy_from buf ((data i).1, (data i).2 + f_pos h) len';
  _ ← modify (set_files (<[f := File (f_vnode h) (u64 (f_pos h + len')) (f_ops h) (f_flags h)]>));
  mret (s32 len', buf).

(* [src/src/tmpfs.c:95-110 tmpfs_read] *)
Definition tmpfs_read : Z -> list Z -> Z -> M fs_state (Z * list Z) := read_node.

(** The handle a new [struct file] becomes. *)
Definition open_handle (node target : Z) : M fs_state Z :=
  v ← deref vnodes node;
  _ ← modify (set_files (<[target := File node 0 (vf_ops v) None]>));
  mret 1.

(* [src/src/tmpfs.c:113-119 tmpfs_open] *)
Definition tmpfs_open : Z -> Z -> M fs_state Z := open_handle.

(* [src/src/tmpfs.c:122-126 tmpfs_close] *)
Definition tmpfs_close (f : Z) : M fs_state Z :=
  _ ← modify (set_files (delete f)); mret 1.

Definition seek (f offset whence : Z) : M fs_state Z :=
  if whence =? SEEK_SET then
    h ← deref files f;
    _ ← modify (set_files (<[f := File (f_vnode h) (u64 offset) (f_ops h) (f_flags h)]>));
    mret (s64 offset)
  else mret 0.

(* [src/src/tmpfs.c:129-136 tmpfs_lseek64] *)
Definition tmpfs_lseek64 : Z -> Z -> Z -> M fs_state Z := seek.

(** * Directory operations *)

(** The child with a name. *)
(* [src/src/tmpfs.c:150-159 tmpfs_lookup] *)
Fixpoint find_child (n : nat) (i : Z) (dir : inode) (name : list Z) : M fs_state (option Z) :=
  match n with
  | O => mret None
  | S n =>
    c ← lift_opt OutOfBounds (childs dir).[i];
    if c =? 0 then mret None
    else
      nd ← inode_of c;
      d ← pure_op (strcmp name (i_name nd));
      if d =? 0 then mret (Some c) else find_child n (i + 1) dir name
  end.

Definition lookup_child (dir : Z) (name : list Z) : M fs_state (Z * option Z) :=
  i ← inode_of dir;
  c ← find_child (Z.to_nat MAX_DIR_NUM) 0 i name;
  match c with
  | Some c => mret (1, Some c)
  | None => mret (0, None)
  end.

(* [src/src/tmpfs.c:142-164 tmpfs_lookup] *)
Definition tmpfs_lookup : Z -> list Z -> M fs_state (Z * option Z) := lookup_child.

(** The first free slot, or [None] when a child has the name already. *)
(* [src/src/tmpfs.c:184-193 tmpfs_create] *)
Fixpoint new_slot (n : nat) (i : Z) (dir : inode) (name : list Z) : M fs_state (option Z) :=
  match n with
  | O => mret (Some i)
  | S n =>
    c ← lift_opt OutOfBounds (childs dir).[i];
    if c =? 0 then mret (Some i)
    else
      nd ← inode_of c;
      d ← pure_op (strcmp (i_name nd) name);
      if d =? 0 then mret None else new_slot n (i + 1) dir name
  end.

(* [src/src/tmpfs.c:231-233 tmpfs_mkdir] *)
Fixpoint free_slot (n : nat) (i : Z) (dir : inode) : M fs_state Z :=
  match n with
  | O => mret i
  | S n =>
    c ← lift_opt OutOfBounds (childs dir).[i];
    if c =? 0 then mret i else free_slot n (i + 1) dir
  end.

(** A new node of the directory [dir], at the slot [slot]. *)
(* [src/src/tmpfs.c:206-212 tmpfs_create] *)
Definition add_child (dir slot : Z) (type : fsnode_type) (name : list Z) : M fs_state Z :=
  node ← tmpfs_create_vnode 0 type;
  i ← inode_of dir;
  l ← lift_opt OutOfBounds (childs i).[slot := node];
  _ ← upd_inode dir (with_child l);
  nd ← inode_of node;
  nm ← pure_op (strcpy (i_name nd) name);
  _ ← upd_inode node (with_name nm);
  mret node.

(* [src/src/tmpfs.c:167-215 tmpfs_create] *)
Definition tmpfs_create (dir : Z) (name : list Z) : M fs_state (Z * option Z) :=
  i ← inode_of dir;
  if negb (bool_decide (i_type i = FSNODE_TYPE_DIR)) then mret (0, None)
  else
    c ← new_slot (Z.to_nat MAX_DIR_NUM) 0 i name;
    match c with
    | None => mret (0, None)
    | Some slot =>
      if MAX_DIR_NUM <=? slot then mret (0, None)
      else
        len ← pure_op (strlen name);
        if MAX_PATH_LEN <? len then mret (0, None)
        else
          node ← add_child dir slot FSNODE_TYPE_FILE name;
          mret (1, Some node)
    end.

(* [src/src/tmpfs.c:218-254 tmpfs_mkdir] *)
Definition tmpfs_mkdir (dir : Z) (name : list Z) : M fs_state (Z * option Z) :=
  i ← inode_of dir;
  if negb (bool_decide (i_type i = FSNODE_TYPE_DIR)) then mret (-1, None)
  else
    slot ← free_slot (Z.to_nat MAX_DIR_NUM) 0 i;
    if MAX_DIR_NUM <=? slot then mret (-1, None)
    else
      len ← pure_op (strlen name);
      if MAX_PATH_LEN <? len then mret (-1, None)
      else
        node ← add_child dir slot FSNODE_TYPE_DIR name;
        mret (0, Some node).

(* [src/src/tmpfs.c:31-35 tmpfs_vnode_operations] *)
Definition tmpfs_vnode_operations : vnode_operations :=
  VnodeOperations tmpfs_lookup tmpfs_create tmpfs_mkdir.
(* [src/src/tmpfs.c:23-29 tmpfs_file_operations] *)
Definition tmpfs_file_operations : file_operations :=
  FileOperations tmpfs_write tmpfs_read tmpfs_open tmpfs_close tmpfs_lseek64.
(* [src/src/tmpfs.c:18-21 tmpfs_filesystem] *)
Definition tmpfs_filesystem : filesystem := Filesystem (cstr "tmpfs") tmpfs_setup_mount.
