(* ===== verification/Initramfs.v ===== *)
(** The read-only file system on the cpio archive of the boot: [src/src/initramfs.c] and
    [initramfs_init] of [src/src/initrd.c]. *)
From Stdlib Require Import Ascii String.
From S2P Require Import Prelude CString FsData Vfs Tmpfs.

(* [src/src/initramfs.c:61-81 initramfs_create_vnode] *)
Definition initramfs_create_vnode : Z -> fsnode_type -> M fs_state Z :=
  create_vnode Initramfs DEFAULT_INODE_SIZE None.

(** * The archive *)

(** The written bytes a pointer into a block can reach. *)
Fixpoint written (b : list (option Z)) : list Z :=
  match b with
  | Some c :: b => c :: written b
  | _ => []
  end.
Definition bytes_from (p : ptr) : M fs_state (list Z) :=
  b ← read_block p; mret (written b).

(** [sizeof(cpio_f)], and the places of its fields. *)
(* [src/include/initrd.h:31-46 cpio_f] *)
Definition CPIO_SIZE : Z := 110.
Definition filesize (header : list Z) : list Z := drop 54 header.
Definition namesize (header : list Z) : list Z := drop 94 header.

(** [int] and [size_t] instances of [ALIGN]. *)
(* [src/library/kernel.h:44-44 ALIGN] *)
Definition ALIGN_int (x a : Z) : Z := s32 (Z.land (x + a - 1) (Z.lnot (a - 1))).

(** [!memcmp(buf, "070701", 6)] *)
Definition is_cpio (buf : list Z) : res bool :=
  d ← memcmp buf (chars "070701") 6; Ok (d =? 0).
(** [memcmp(buf + sizeof(cpio_f), "TRAILER!!", 9)] *)
Definition not_trailer (buf : list Z) : res bool :=
  d ← memcmp (drop 110 buf) (chars "TRAILER!!") 9; Ok (negb (d =? 0)).

(** The two sizes of a header, and the distance to the next one. *)
Definition cpio_sizes (buf : list Z) : res (Z * Z) :=
  ns ← hex2bin (namesize buf) 8;
  fs ← hex2bin (filesize buf) 8;
  Ok (ns, ALIGN_int fs 4).
Definition data_offset (ns : Z) : Z := s64 (ALIGN (u64 (CPIO_SIZE + ns)) 4).
Definition cpio_step (ns fs : Z) : Z := s64 (data_offset ns + fs).

(** The file of the archive at [buf], whose bytes are [l], as the child [idx] of [dir]. *)
(* [src/src/initrd.c:245-251 initramfs_init] *)
Definition add_file (dir : Z) (buf : ptr) (l : list Z) (ns fs idx : Z) : M fs_state unit :=
  file_vnode ← initramfs_create_vnode 0 FSNODE_TYPE_FILE;
  nd ← inode_of file_vnode;
  nm ← pure_op (strcpy (i_name nd) (drop 110 l));
  _ ← upd_inode file_vnode (fun i =>
        Inode (i_type i) nm (childs i) (buf.1, buf.2 + data_offset ns) (u64 fs));
  d ← deref inodes dir;
  c ← lift_opt OutOfBounds (childs d).[idx := file_vnode];
  modify (set_inodes (<[dir := with_child c d]>)).

(* [src/src/initrd.c:233-255 initramfs_init] *)
Fixpoint initramfs_init_loop (fuel : nat) (dir : Z) (buf : ptr) (idx : Z) : M fs_state unit :=
  match fuel with
  | O => fail NoFuel
  | S fuel =>
    l ← bytes_from buf;
    m ← pure_op (is_cpio l);
    if negb m then mret tt
    else
      t ← pure_op (not_trailer l);
      if negb t then mret tt
      else
        z ← pure_op (cpio_sizes l);
        idx' ← (if z.2 =? 0 then mret idx
                else _ ← add_file dir buf l z.1 z.2 idx; mret (idx + 1));
        initramfs_init_loop fuel dir (buf.1, buf.2 + cpio_step z.1 z.2) idx'
  end.

(** While the sizes are not negative, a pass moves forward at least the size of a header:
    the bytes of the archive bound their number. *)
(* [src/src/initrd.c:221-256 initramfs_init] *)
Definition initramfs_init (dir : Z) : M fs_state unit :=
  buf ← gets cpio_base;
  l ← bytes_from buf;
  m ← pure_op (is_cpio l);
  if negb m then mret tt
  else initramfs_init_loop (S (length l)) dir buf 0.

(* [src/src/initramfs.c:42-55 initramfs_setup_mount] *)
Definition initramfs_setup_mount (fs : fs_type) (m : Z) : M fs_state Z :=
  r ← initramfs_create_vnode 0 FSNODE_TYPE_DIR;
  _ ← modify (set_mounts (<[m := Mount r fs]>));
  v ← deref vnodes r;
  _ ← initramfs_init (internal v);
  mret 1.

(* [src/src/initramfs.c:84-87 initramfs_write] *)
Definition initramfs_write (f : Z) (buf : list Z) (len : Z) : M fs_state Z := mret 0.
(* [src/src/initramfs.c:90-105 initramfs_read] *)
Definition initramfs_read : Z -> list Z -> Z -> M fs_state (Z * list Z) := read_node.
(* [src/src/initramfs.c:108-114 initramfs_open] *)
Definition initramfs_open : Z -> Z -> M fs_state Z := open_handle.
(* [src/src/initramfs.c:117-121 initramfs_close] *)
Definition initramfs_close (f : Z) : M fs_state Z :=
  _ ← modify (set_files (delete f)); mret 1.
(* [src/src/initramfs.c:124-131 initramfs_lseek64] *)
Definition initramfs_lseek64 : Z -> Z -> Z -> M fs_state Z := seek.
(* [src/src/initramfs.c:137-157 initramfs_lookup] *)
Definition initramfs_lookup : Z -> list Z -> M fs_state (Z * option Z) := lookup_child.
(* [src/src/initramfs.c:160-163 initramfs_create] *)
Definition initramfs_create (dir : Z) (name : list Z) : M fs_state (Z * option Z) := mret (0, None).
(* [src/src/initramfs.c:166-169 initramfs_mkdir] *)
Definition initramfs_mkdir (dir : Z) (name : list Z) : M fs_state (Z * option Z) := mret (0, None).

(* [src/src/initramfs.c:36-40 initramfs_vnode_operations] *)
Definition initramfs_vnode_operations : vnode_operations :=
  VnodeOperations initramfs_lookup initramfs_create initramfs_mkdir.
(* [src/src/initramfs.c:28-34 initramfs_file_operations] *)
Definition initramfs_file_operations : file_operations :=
  FileOperations initramfs_write initramfs_read initramfs_open initramfs_close initramfs_lseek64.
(* [src/src/initramfs.c:23-26 initramfs_filesystem] *)
Definition initramfs_filesystem : filesystem := Filesystem (cstr "initramfs") initramfs_setup_mount.
