(* ===== verification/Fat32.v ===== *)
(** The FAT32 file system, [src/src/fat32.c], and the partition table, [src/src/mbr.c].

    A structure read from the card is its bytes, and a field the little-endian number at
    its offset.  [readblock] and [writeblock] are stated as what the driver of
    [src/src/sd.c] does when the card answers: a transfer of one block; a block the card
    does not have is the driver's endless retry.  The messages are not modelled, and so
    neither are the tests that only choose one. *)
From Stdlib Require Import Ascii String.
From S2P Require Import Prelude CString FsData Vfs Tmpfs.

(** * Fields *)

Fixpoint le (n : nat) (l : list Z) : option Z :=
  match n, l with
  | O, _ => Some 0
  | S n, c :: l => v ← le n l; Some (c + 256 * v)
  | S _, [] => None
  end.
Fixpoint le_bytes (n : nat) (v : Z) : list Z :=
  match n with
  | O => []
  | S n => u8 v :: le_bytes n (v / 256)
  end.
Definition field (n : nat) (off : Z) (l : list Z) : M fs_state Z :=
  lift_opt OutOfBounds (le n (drop (Z.to_nat off) l)).

(* [src/include/fat32.h:16-16 ATTR_HIDDEN] *)
Definition ATTR_HIDDEN : Z := 0x02.
(* [src/include/fat32.h:19-20 ATTR_DIRECTORY] *)
Definition ATTR_DIRECTORY : Z := 0x10.
Definition ATTR_ARCHIVE : Z := 0x20.
(* [src/include/fat32.h:23-23 ATTR_LONG_NAME] *)
Definition ATTR_LONG_NAME : Z := 0x0f.
(* [src/include/fat32.h:34-34 FAT_ENTRY] *)
Definition FAT_ENTRY (c : Z) : Z := Z.land c 0x0fffffff.
(* [src/include/fat32.h:30-30 FAT_ENTRY_INVALID] *)
Definition FAT_ENTRY_INVALID : Z := 0x0ffffff0.
(* [src/include/fat32.h:31-31 FAT_ENTRY_FREE] *)
Definition FAT_ENTRY_FREE : Z := 0.
(* [src/include/fat32.h:32-32 FAT_ENTRY_EOC] *)
Definition FAT_ENTRY_EOC : Z := 0x0ffffff8.
(* [src/include/fat32.h:35-35 IS_FAT_ENTRY_VALID] *)
Definition IS_FAT_ENTRY_VALID (c : Z) : bool := (FAT_ENTRY c <? FAT_ENTRY_INVALID) && (2 <=? FAT_ENTRY c).
(* [src/include/fat32.h:37-37 DIR_ENTRY_SIZE] *)
Definition DIR_ENTRY_SIZE : Z := 32.

(** The places of the fields of [fat_boot_sector]. *)
Definition boot_sectors_per_cluster : list Z -> M fs_state Z := field 1 13.
Definition boot_nr_reserved_sectors : list Z -> M fs_state Z := field 2 14.
Definition boot_nr_fat_copies : list Z -> M fs_state Z := field 1 16.
Definition boot_sectors_per_fat : list Z -> M fs_state Z := field 4 36.
Definition boot_root_dir : list Z -> M fs_state Z := field 4 44.
(* [src/include/fat32.h:44-75 fat_boot_sector] *)
Definition BOOT_SECTOR_SIZE : nat := 90.

(** The places of the fields of [sfn_entry]. *)
(* [src/include/fat32.h:82-96 sfn_entry] *)
Record sfn_entry := SfnEntry {
  sfn_name : list Z;
  file_ext : list Z;
  attr : Z;
  cluster_high : Z;
  cluster_low : Z;
  file_size : Z
}.
Definition read_entry (l : list Z) : M fs_state sfn_entry :=
  a ← field 1 11 l;
  h ← field 2 20 l;
  w ← field 2 26 l;
  z ← field 4 28 l;
  mret (SfnEntry (take 8 l) (take 3 (drop 8 l)) a h w z).
(** The fields not set keep the bytes [junk] of the stack. *)
Definition entry_bytes (junk : list Z) (e : sfn_entry) : list Z :=
  sfn_name e ++ file_ext e ++ le_bytes 1 (attr e) ++ take 8 (drop 12 junk) ++ le_bytes 2 (cluster_high e)
    ++ take 4 (drop 22 junk) ++ le_bytes 2 (cluster_low e) ++ le_bytes 4 (file_size e).

(** * The card *)

Definition readblock (idx : Z) : M fs_state (list Z) :=
  fun s => match sd s !! s32 idx with Some b => Ok (b, s) | None => Err Hang end.
Definition writeblock (idx : Z) (b : list Z) : M fs_state unit :=
  fun s => match sd s !! s32 idx with
           | Some _ => Ok (tt, set_sd (<[s32 idx := take 512 b]>) s)
           | None => Err Hang
           end.

(* [src/src/mbr.c:8-18 get_mbr] *)
Definition get_mbr : M fs_state unit :=
  buf ← readblock 0;
  m ← pure_op (memcpy (replicate 512 0) buf 512);
  _ ← modify (fun s => set_fat_info (fat_info s) (fat_boot_sector s) m s);
  sig ← field 2 510 m;
  if negb (sig =? 0xaa55) then fail Hang else mret tt.

(** The first partition: its type and its first sector. *)
(* [src/src/fat32.c:377-400 get_fat32_boot_sector] *)
Definition get_fat32_boot_sector : M fs_state unit :=
  _ ← get_mbr;
  m ← gets mbr;
  start ← field 4 (446 + 8) m;
  buf ← readblock start;
  b ← pure_op (memcpy (replicate BOOT_SECTOR_SIZE 0) buf BOOT_SECTOR_SIZE);
  reserved ← boot_nr_reserved_sectors b;
  copies ← boot_nr_fat_copies b;
  spf ← boot_sectors_per_fat b;
  spc ← boot_sectors_per_cluster b;
  type ← field 1 (446 + 4) m;
  let fat := u32 (start + reserved) in
  modify (fun s => set_fat_info (FatInfo start fat (u32 (fat + copies * spf)) spc spf spc type) b (mbr s) s).

(** * The allocation table *)

(* [src/src/fat32.c:352-361 read_fat_entry] *)
Definition read_fat_entry (c : Z) : M fs_state Z :=
  i ← gets fat_info;
  buf ← readblock (u32 (fat_region i + c / 128));
  field 4 (4 * (c mod 128)) buf.

(* [src/src/fat32.c:364-374 write_fat_table] *)
Definition write_fat_table (c value : Z) : M fs_state unit :=
  i ← gets fat_info;
  let block_idx := u32 (fat_region i + c / 128) in
  buf ← readblock block_idx;
  let off := 4 * (c mod 128) in
  old ← field 4 off buf;
  writeblock block_idx (take (Z.to_nat off) buf ++ le_bytes 4 (Z.lor old value) ++ drop (Z.to_nat (off + 4)) buf).

(** The first free entry of a block of the table. *)
(* [src/src/fat32.c:340-342 get_free_fat_cluster] *)
Fixpoint free_entry (n : nat) (i : Z) (buf : list Z) : M fs_state (option Z) :=
  match n with
  | O => mret None
  | S n =>
    v ← field 4 (4 * i) buf;
    if FAT_ENTRY v =? FAT_ENTRY_FREE then mret (Some i) else free_entry n (i + 1) buf
  end.
(* [src/src/fat32.c:337-345 get_free_fat_cluster] *)
Fixpoint free_cluster_loop (n : nat) (block_idx : Z) : M fs_state Z :=
  match n with
  | O => mret 0
  | S n =>
    buf ← readblock block_idx;
    e ← free_entry 128 0 buf;
    match e with
    | Some i => mret i
    | None => free_cluster_loop n (block_idx + 1)
    end
  end.
(* [src/src/fat32.c:332-346 get_free_fat_cluster] *)
Definition get_free_fat_cluster : M fs_state Z :=
  i ← gets fat_info;
  free_cluster_loop (Z.to_nat (u32 (fat_region i + sectors_per_fat i) - fat_region i)) (fat_region i).

(** The first block of a cluster. *)
(* [src/src/fat32.c:462-462 setup_fat32] *)
Definition cluster_block (i : fat32_info) (c : Z) : Z :=
  u32 (data_region i + u32 ((c - 2) * blocks_per_cluster i)).

(** * Nodes *)

(* [src/src/fat32.c:85-106 fat32_create_vnode] *)
Definition fat32_create_vnode (mnt : Z) (type : fsnode_type) : M fs_state Z :=
  node ← create_vnode Fat32 BLOCK_SIZE (Some 0) mnt type;
  v ← deref vnodes node;
  _ ← modify (set_fat_nodes (<[internal v := FatNode 0 0]>));
  mret node.

Definition fat_node_of (node : Z) : M fs_state fat_node :=
  v ← deref vnodes node; deref fat_nodes (internal v).
Definition set_fat_node (node : Z) (n : fat_node) : M fs_state unit :=
  v ← deref vnodes node; modify (set_fat_nodes (<[internal v := n]>)).

(** The 512 bytes of the data block of an inode, to be written to the card. *)
Definition block_bytes (p : ptr) : M fs_state (list Z) := copy_from (replicate 512 0) p BLOCK_SIZE.

(** A block of the card, read to the data block of an inode. *)
Definition read_data (idx : Z) (p : ptr) : M fs_state unit :=
  b ← readblock idx; copy_to p b BLOCK_SIZE.

(** * Directories on the card *)

(** The first unused entry of a block of a directory. *)
(* [src/src/fat32.c:541-543 fat32_new_dir_entry] *)
Fixpoint unused_entry (n : nat) (i : Z) (buf : list Z) : M fs_state (option Z) :=
  match n with
  | O => mret None
  | S n =>
    a ← field 1 (32 * i + 11) buf;
    if negb (a =? 0) then unused_entry n (i + 1) buf else mret (Some i)
  end.

(* [src/src/fat32.c:534-551 fat32_new_dir_entry] *)
Fixpoint new_dir_entry_loop (fuel : nat) (cur nxt : Z) (bytes : list Z) : M fs_state unit :=
  match fuel with
  | O => fail NoFuel
  | S fuel =>
    if IS_FAT_ENTRY_VALID cur then
      info ← gets fat_info;
      buf ← readblock (cluster_block info cur);
      e ← unused_entry 16 0 buf;
      match e with
      | Some i =>
        let off := Z.to_nat (32 * i) in
        writeblock (cluster_block info cur) (take off buf ++ bytes ++ drop (off + 32) buf)
      | None =>
        n ← read_fat_entry nxt;
        new_dir_entry_loop fuel nxt n bytes
      end
    else mret tt
  end.
(* [src/src/fat32.c:527-555 fat32_new_dir_entry] *)
Definition fat32_new_dir_entry (fuel : nat) (dir_cluster : Z) (bytes : list Z) : M fs_state unit :=
  nxt ← read_fat_entry dir_cluster;
  new_dir_entry_loop fuel dir_cluster nxt bytes.

(** The name of an entry as a string: a space is padding. *)
(* [src/src/fat32.c:433-453 setup_fat32] *)
Definition entry_name (e : sfn_entry) : list Z :=
  let base := filter (fun c => c <> 32) (sfn_name e) in
  if negb (Z.land (attr e) ATTR_DIRECTORY =? 0) then base ++ [0]
  else base ++ [46] ++ filter (fun c => c <> 32) (file_ext e) ++ [0].

(* [src/src/fat32.c:426-431 setup_fat32] *)
Definition skip_entry (e : sfn_entry) : bool :=
  let c := default 0 (head (sfn_name e)) in
  negb (Z.land (attr e) ATTR_HIDDEN =? 0) || (Z.land (attr e) 0xf =? ATTR_LONG_NAME) ||
  ((c =? 32) || (c =? 0) || (c =? 46)).

(** The node of an entry of the directory [dir], at the slot [idx]; [rec] sets up a
    directory. *)
(* [src/src/fat32.c:433-478 setup_fat32] *)
Definition setup_entry (rec : Z -> M fs_state unit) (dir : Z) (e : sfn_entry) (idx : Z) : M fs_state unit :=
  let type := if negb (Z.land (attr e) ATTR_DIRECTORY =? 0) then FSNODE_TYPE_DIR else FSNODE_TYPE_FILE in
  node ← fat32_create_vnode 0 type;
  d ← deref inodes dir;
  c ← lift_opt OutOfBounds (childs d).[idx := node];
  _ ← modify (set_inodes (<[dir := with_child c d]>));
  nd ← inode_of node;
  nm ← pure_op (strcpy (i_name nd) (entry_name e));
  _ ← upd_inode node (with_name nm);
  info ← gets fat_info;
  let cl := Z.lor (Z.shiftl (cluster_high e) 16) (cluster_low e) in
  _ ← set_fat_node node (FatNode cl (cluster_block info cl));
  _ ← read_data (cluster_block info cl) (data nd);
  _ ← upd_inode node (with_size (file_size e));
  v ← deref vnodes node;
  if bool_decide (type = FSNODE_TYPE_DIR) then rec (internal v) else mret tt.

(** The entries from [i] on of the directory table in the data block of [dir]. *)
(* [src/src/fat32.c:422-479 setup_fat32] *)
Fixpoint setup_entries (rec : Z -> M fs_state unit) (n : nat) (i : Z) (dir idx : Z) : M fs_state Z :=
  match n with
  | O => mret idx
  | S n =>
    d ← deref inodes dir;
    b ← block_bytes (data d);
    e ← read_entry (drop (Z.to_nat (32 * i)) b);
    if skip_entry e then setup_entries rec n (i + 1) dir idx
    else
      _ ← setup_entry rec dir e idx;
      setup_entries rec n (i + 1) dir (idx + 1)
  end.

(** The clusters of the directory. *)
(* [src/src/fat32.c:417-483 setup_fat32] *)
Fixpoint setup_clusters (rec : Z -> M fs_state unit) (fuel : nat) (dir cur nxt idx : Z) : M fs_state unit :=
  match fuel with
  | O => fail NoFuel
  | S fuel =>
    if IS_FAT_ENTRY_VALID cur then
      info ← gets fat_info;
      d ← deref inodes dir;
      _ ← read_data (cluster_block info cur) (data d);
      idx ← setup_entries rec 16 0 dir idx;
      n ← read_fat_entry nxt;
      setup_clusters rec fuel dir nxt n idx
    else mret tt
  end.

(** [dir] is an inode.  The depth of the directories and the length of a chain of
    clusters are bounded by the fuel. *)
(* [src/src/fat32.c:406-484 setup_fat32] *)
Fixpoint setup_fat32 (fuel : nat) (dir : Z) : M fs_state unit :=
  match fuel with
  | O => fail NoFuel
  | S fuel' =>
    d ← deref fat_nodes dir;
    nxt ← read_fat_entry (cluster d);
    setup_clusters (setup_fat32 fuel') fuel dir (cluster d) nxt 0
  end.

(** * Operations *)

Section Fat32.
(** [junk]: what the stack holds where [new_entry] is built. *)
Variables (fuel : nat) (junk : list Z).

(* [src/src/fat32.c:51-78 fat32_setup_mount] *)
Definition fat32_setup_mount (fs : fs_type) (m : Z) : M fs_state Z :=
  r ← fat32_create_vnode 0 FSNODE_TYPE_DIR;
  _ ← modify (set_mounts (<[m := Mount r fs]>));
  nd ← inode_of r;
  _ ← get_fat32_boot_sector;
  info ← gets fat_info;
  _ ← set_fat_node r (FatNode (data_region info) 0);
  buf ← readblock (data_region info);
  _ ← copy_to (data nd) buf BLOCK_SIZE;
  b ← gets fat_boot_sector;
  cl ← boot_root_dir b;
  _ ← set_fat_node r (FatNode cl (cluster_block info cl));
  v ← deref vnodes r;
  _ ← setup_fat32 fuel (internal v);
  mret 1.

(* [src/src/fat32.c:109-132 fat32_write] *)
Definition fat32_write (f : Z) (buf : list Z) (len : Z) : M fs_state Z :=
  if len =? 0 then mret 0
  else
    h ← deref files f;
    i ← inode_of (f_vnode h);
    _ ← copy_to ((data i).1, (data i).2 + f_pos h) buf len;
    n ← fat_node_of (f_vnode h);
    b ← block_bytes (data i);
    _ ← writeblock (abs_block_num n) b;
    let pos := u64 (f_pos h + len) in
    _ ← modify (set_files (<[f := File (f_vnode h) pos (f_ops h) (f_flags h)]>));
    _ ← (if data_size i <? pos then upd_inode (f_vnode h) (with_size pos) else mret tt);
    mret (s32 len).

(* [src/src/fat32.c:135-156 fat32_read] *)
Definition fat32_read (f : Z) (buf : list Z) (len : Z) : M fs_state (Z * list Z) :=
  h ← deref files f;
  i ← inode_of (f_vnode h);
  n ← fat_node_of (f_vnode h);
  _ ← read_data (abs_block_num n) (data i);
  read_node f buf len.

(* [src/src/fat32.c:159-165 fat32_open] *)
Definition fat32_open : Z -> Z -> M fs_state Z := open_handle.
(* [src/src/fat32.c:168-172 fat32_close] *)
Definition fat32_close (f : Z) : M fs_state Z :=
  _ ← modify (set_files (delete f)); mret 1.
(* [src/src/fat32.c:175-182 fat32_lseek64] *)
Definition fat32_lseek64 : Z -> Z -> Z -> M fs_state Z := seek.
(* [src/src/fat32.c:188-210 fat32_lookup] *)
Definition fat32_lookup : Z -> list Z -> M fs_state (Z * option Z) := lookup_child.

(** The first part of a file name, padded: the bytes and the index reached. *)
(* [src/src/fat32.c:266-271 fat32_create] *)
Fixpoint short_name (n : nat) (name : list Z) (idx : Z) : res (list Z * Z) :=
  match n with
  | O => Ok ([], idx)
  | S n =>
    c ← opt_res OutOfBounds name.[idx];
    if (c =? 46) || (c =? 0) then
      r ← short_name n name idx; Ok (32 :: r.1, r.2)
    else
      r ← short_name n name (idx + 1); Ok (c :: r.1, r.2)
  end.
(* [src/src/fat32.c:272-277 fat32_create] *)
Fixpoint short_ext (n : nat) (name : list Z) (idx : Z) : res (list Z) :=
  match n with
  | O => Ok []
  | S n =>
    c ← opt_res OutOfBounds name.[idx];
    if c =? 0 then r ← short_ext n name idx; Ok (32 :: r)
    else
      x ← opt_res OutOfBounds name.[idx + 1];
      r ← short_ext n name (idx + 1); Ok (x :: r)
  end.

(* [src/src/fat32.c:213-290 fat32_create] *)
Definition fat32_create (dir : Z) (name : list Z) : M fs_state (Z * option Z) :=
  i ← inode_of dir;
  if negb (bool_decide (i_type i = FSNODE_TYPE_DIR)) then mret (0, None)
  else
    c ← new_slot (Z.to_nat MAX_DIR_NUM) 0 i name;
    match c with
    | None => mret (0, None)
    | Some slot =>
      if MAX_DIR_NUM <=? slot then mret (0, None)
      else
        len ← pure_op (strlen name);
        if MAX_FILE_NAME_LEN <? len then mret (0, None)
        else
          node ← fat32_create_vnode 0 FSNODE_TYPE_FILE;
          l ← lift_opt OutOfBounds (childs i).[slot := node];
          _ ← upd_inode dir (with_child l);
          nd ← inode_of node;
          nm ← pure_op (strcpy (i_name nd) name);
          _ ← upd_inode node (with_name nm);
          cl ← get_free_fat_cluster;
          info ← gets fat_info;
          _ ← set_fat_node node (FatNode cl (cluster_block info cl));
          p ← pure_op (short_name 8 name 0);
          x ← pure_op (short_ext 3 name p.2);
          d ← fat_node_of dir;
          _ ← fat32_new_dir_entry fuel (cluster d)
                (entry_bytes junk (SfnEntry p.1 x ATTR_ARCHIVE (Z.shiftr cl 16) (Z.land cl 0xffff) BLOCK_SIZE));
          _ ← write_fat_table cl FAT_ENTRY_EOC;
          mret (1, Some node)
    end.

(* [src/src/fat32.c:293-329 fat32_mkdir] *)
Definition fat32_mkdir (dir : Z) (name : list Z) : M fs_state (Z * option Z) :=
  i ← inode_of dir;
  if negb (bool_decide (i_type i = FSNODE_TYPE_DIR)) then mret (-1, None)
  else
    slot ← free_slot (Z.to_nat MAX_DIR_NUM) 0 i;
    if MAX_DIR_NUM <=? slot then mret (-1, None)
    else
      len ← pure_op (strlen name);
      if MAX_PATH_LEN <? len then mret (-1, None)
      else
        node ← fat32_create_vnode 0 FSNODE_TYPE_DIR;
        l ← lift_opt OutOfBounds (childs i).[slot := node];
        _ ← upd_inode dir (with_child l);
        nd ← inode_of node;
        nm ← pure_op (strcpy (i_name nd) name);
        _ ← upd_inode node (with_name nm);
        mret (0, Some node).

(* [src/src/fat32.c:45-49 fat32_vnode_operations] *)
Definition fat32_vnode_operations : vnode_operations :=
  VnodeOperations fat32_lookup fat32_create fat32_mkdir.
(* [src/src/fat32.c:37-43 fat32_file_operations] *)
Definition fat32_file_operations : file_operations :=
  FileOperations fat32_write fat32_read fat32_open fat32_close fat32_lseek64.
(* [src/src/fat32.c:32-35 fat32_filesystem] *)
Definition fat32_filesystem : filesystem := Filesystem (cstr "fat32") fat32_setup_mount.
End Fat32.
