(* ===== verification/FsInv.v ===== *)
(** The tree of directories as the objects of [FsData] represent it, the invariant of
    the objects, and how the basic operations keep it. *)
From S2P Require Import Prelude CString FsData Vfs.

(** * The directories *)

(** The entries of an array up to the first 0: the characters of a string, the nodes
    of a directory. *)
Fixpoint upto0 (l : list Z) : list Z :=
  match l with
  | c :: l => if c =? 0 then [] else c :: upto0 l
  | [] => []
  end.

Definition node_inode (s : fs_state) (d : Z) : option inode :=
  v ← vnodes s !! d; inodes s !! internal v.
Definition children (s : fs_state) (d : Z) : list Z :=
  match node_inode s d with Some i => upto0 (childs i) | None => [] end.
Definition name_of (s : fs_state) (d : Z) : list Z :=
  match node_inode s d with Some i => upto0 (i_name i) | None => [] end.

(** The first child of [d] with the name [n]. *)
Definition child (s : fs_state) (d : Z) (n : list Z) : option Z :=
  List.find (fun c => bool_decide (name_of s c = n)) (children s d).

(** The node a vnode leads to: the root of the file system mounted there, or itself. *)
Definition mounted (s : fs_state) (d : Z) : Z :=
  match vnodes s !! d with
  | Some v =>
    if v_mount v =? 0 then d
    else match mounts s !! v_mount v with Some m => root m | None => d end
  | None => d
  end.

(** The node reached by the components of a path, each mount followed. *)
Fixpoint walk (s : fs_state) (d : Z) (comps : list (list Z)) : option Z :=
  match comps with
  | [] => Some d
  | n :: l => c ← child s d n; walk s (mounted s c) l
  end.

(** The pieces of a string between the '/'. *)
Fixpoint split (l : list Z) : list (list Z) :=
  match l with
  | [] => [[]]
  | c :: l =>
    if c =? 47 then [] :: split l
    else match split l with
         | w :: ws => (c :: w) :: ws
         | [] => [[c]]
         end
  end.

(** What the lookup takes a path for: the first character is not looked at, the empty
    path and "/" are the root. *)
Definition components (p : list Z) : list (list Z) :=
  if bool_decide (p = []) || bool_decide (p = [47]) then [] else split (tail p).

Definition root_of (s : fs_state) : Z :=
  match mounts s !! rootfs s with Some m => root m | None => 0 end.

(** * The invariant *)

Record inode_ok (s : fs_state) (k : Z) (i : inode) : Prop := {
  io_name : holds (i_name i) (upto0 (i_name i));
  io_name_len : length (i_name i) = 16%nat;
  io_childs_pad : exists n, childs i = upto0 (childs i) ++ replicate n 0;
  io_childs_len : length (childs i) = 16%nat;
  io_childs : forall c, c ∈ upto0 (childs i) -> k < c /\ is_Some (vnodes s !! c)
}.

(** The objects refer to each other; a node is younger than the directory it is in and
    than the node it is mounted on, so that there is no cycle. *)
Record objs_ok (s : fs_state) : Prop := {
  ob_next : 0 < next_key s;
  ob_vnode : forall k v, vnodes s !! k = Some v ->
    0 < k < next_key s /\ 0 < internal v < next_key s /\
    exists i, inodes s !! internal v = Some i /\ inode_ok s k i;
  ob_inj : forall k k' v v', vnodes s !! k = Some v -> vnodes s !! k' = Some v' ->
    internal v = internal v' -> k = k';
  ob_mount : forall k v, vnodes s !! k = Some v -> v_mount v <> 0 ->
    0 < v_mount v < next_key s /\
    exists m, mounts s !! v_mount v = Some m /\ k < root m /\ is_Some (vnodes s !! root m);
  ob_fresh : forall k, next_key s <= k ->
    inodes s !! k = None /\ mounts s !! k = None /\ files s !! k = None /\ blocks s !! k = None
}.

Record fs_ok (s : fs_state) : Prop := {
  fo_objs : objs_ok s;
  fo_filesystems : length (filesystems s) = 8%nat;
  fo_root : rootfs s <> 0 /\ exists m, mounts s !! rootfs s = Some m /\ is_Some (vnodes s !! root m)
}.

(** * Lemmas *)

Lemma deref_ok {A} (f : fs_state -> gmap Z A) p s x : p <> 0 -> f s !! p = Some x -> deref f p s = Ok (x, s).
Proof. intros Hp Hx. unfold deref. destruct (Z.eqb_spec p 0); [done|]. by rewrite Hx. Qed.

Lemma pure_op_ok {A} (r : res A) s x : r = Ok x -> pure_op r s = Ok (x, s).
Proof. by intros ->. Qed.

Lemma lift_opt_ok {S A} f (o : option A) (s : S) x : o = Some x -> lift_opt f o s = Ok (x, s).
Proof. by intros ->. Qed.

Lemma upto0_holds buf n : holds buf n -> upto0 buf = n.
Proof.
  intros [Hn [r ->]]. induction n as [|c n IH]; [done|].
  apply nonzero_cons in Hn as [Hc Hn]. cbn [app upto0]. destruct (Z.eqb_spec c 0); [lia|].
  by rewrite (IH Hn).
Qed.

Lemma upto0_elem l c : c ∈ upto0 l -> c <> 0 /\ c ∈ l.
Proof.
  induction l as [|x l IH]; cbn; [by intros ?%elem_of_nil|].
  destruct (Z.eqb_spec x 0); [by intros ?%elem_of_nil|]. intros [->|Hc]%elem_of_cons.
  - split; [done|by left].
  - destruct (IH Hc). split; [done|by right].
Qed.

Section Lookups.
Variable (s : fs_state).
Hypothesis (Hs : objs_ok s).

Lemma vnode_pos k : is_Some (vnodes s !! k) -> 0 < k < next_key s.
Proof using Hs. intros [v Hv]. apply (ob_vnode s Hs k v Hv). Qed.

Lemma vnode_inode k : is_Some (vnodes s !! k) -> exists i, node_inode s k = Some i /\ inode_ok s k i.
Proof using Hs.
  intros [v Hv]. destruct (ob_vnode s Hs k v Hv) as (_ & _ & i & Hi & Hok).
  exists i. split; [|done]. unfold node_inode. rewrite Hv. exact Hi.
Qed.

Lemma children_vnode d c : c ∈ children s d -> is_Some (vnodes s !! c) /\ d < c.
Proof using Hs.
  unfold children. destruct (node_inode s d) as [i|] eqn:E; [|by intros ?%elem_of_nil].
  assert (Hd : is_Some (vnodes s !! d)).
  { unfold node_inode in E. destruct (vnodes s !! d); [by eexists|done]. }
  destruct (vnode_inode d Hd) as (i' & E' & Hok). rewrite E in E'. injection E' as <-.
  intros Hc. destruct (io_childs s d i Hok c Hc). done.
Qed.

Lemma child_vnode d n c : child s d n = Some c -> is_Some (vnodes s !! c) /\ d < c.
Proof using Hs. intros [Hc _]%List.find_some. apply children_vnode. by apply list_elem_of_In. Qed.

Lemma mounted_vnode d : is_Some (vnodes s !! d) -> is_Some (vnodes s !! mounted s d) /\ d <= mounted s d.
Proof using Hs.
  intros [v Hv]. unfold mounted. rewrite Hv. destruct (Z.eqb_spec (v_mount v) 0); [split; [by eexists|lia]|].
  destruct (ob_mount s Hs d v Hv n) as (_ & m & -> & Hlt & Hr). split; [done|lia].
Qed.

Lemma walk_vnode comps d x :
  is_Some (vnodes s !! d) -> walk s d comps = Some x -> is_Some (vnodes s !! x) /\ d <= x.
Proof using Hs.
  revert d. induction comps as [|n l IH]; intros d Hd E; cbn in E.
  - injection E as <-. split; [done|lia].
  - destruct (child s d n) as [c|] eqn:Ec; [|done]. cbn in E.
    destruct (child_vnode d n c Ec) as [Hc Hlt]. destruct (mounted_vnode c Hc) as [Hm Hle].
    destruct (IH _ Hm E). split; [done|lia].
Qed.

Lemma redirect_ok d : is_Some (vnodes s !! d) -> redirect d s = Ok (mounted s d, s).
Proof using Hs.
  intros [v Hv]. destruct (ob_vnode s Hs d v Hv) as ([Hd _] & _). unfold redirect.
  run (deref_ok vnodes d s v ltac:(lia) Hv). unfold mounted. rewrite Hv.
  destruct (Z.eqb_spec (v_mount v) 0); [done|].
  destruct (ob_mount s Hs d v Hv n) as (Hm & m & Em & _). rewrite Em.
  run (deref_ok mounts (v_mount v) s m ltac:(lia) Em). done.
Qed.

End Lookups.

Lemma root_vnode s : fs_ok s -> is_Some (vnodes s !! root_of s).
Proof. intros [_ _ (_ & m & Hm & Hr)]. unfold root_of. by rewrite Hm. Qed.

(** [split] of a piece without '/'. *)
Lemma split_plain w : Forall (fun c => c <> 47) w -> split w = [w].
Proof.
  induction 1 as [|c w Hc Hw IH]; [done|]. cbn. destruct (Z.eqb_spec c 47); [done|]. by rewrite IH.
Qed.

Lemma split_cons w l : Forall (fun c => c <> 47) w -> split (w ++ 47 :: l) = w :: split l.
Proof.
  induction 1 as [|c w Hc Hw IH]; [done|]. cbn [app split]. destruct (Z.eqb_spec c 47); [done|].
  by rewrite IH.
Qed.

Lemma split_nonempty l : split l <> [].
Proof. destruct l as [|c l]; cbn; [done|]. destruct (c =? 47); [done|]. by destruct (split l). Qed.

Lemma last_split_cons w l : List.last (w :: split l) [] = List.last (split l) [].
Proof. pose proof (split_nonempty l). by destruct (split l). Qed.

Lemma removelast_split_cons w l : removelast (w :: split l) = w :: removelast (split l).
Proof. pose proof (split_nonempty l). by destruct (split l). Qed.

Lemma last_split_room l : Forall (fun w => (length w < 256)%nat) (split l) -> (length (List.last (split l) []) < 256)%nat.
Proof.
  intros H. rewrite (app_removelast_last [] (split_nonempty l)) in H.
  apply Forall_app in H as [_ H]. by apply Forall_cons in H as [H _].
Qed.

(** A piece begun has room for its next character or its terminator. *)
Lemma split_room cur c rem :
  Forall (fun c => c <> 47) cur -> Forall (fun w => (length w < 256)%nat) (split (cur ++ c :: rem)) ->
  (length cur < 256)%nat.
Proof.
  intros Hns Hw.
  assert (exists w ws, split (cur ++ c :: rem) = w :: ws /\ (length cur <= length w)%nat) as (w & ws & E & Hl).
  { clear Hw. induction Hns as [|y cur Hy Hns IHc]; cbn [app split].
    - pose proof (split_nonempty (c :: rem)). destruct (split (c :: rem)) as [|w ws] eqn:E; [done|].
      cbn in E. rewrite E. eexists _, _. split; [done|cbn; lia].
    - destruct (Z.eqb_spec y 47); [done|]. destruct IHc as (w & ws & -> & Hl).
      eexists _, _. split; [done|]. cbn. lia. }
  rewrite E in Hw. apply Forall_cons in Hw as [Hw _]. lia.
Qed.

Lemma nonzero_split l w : nonzero l -> w ∈ split l -> nonzero w.
Proof.
  revert w. induction l as [|c l IH]; intros w Hl Hw; cbn in Hw.
  - apply list_elem_of_singleton in Hw as ->. apply nonzero_nil.
  - apply nonzero_cons in Hl as [Hc Hl]. destruct (c =? 47).
    + apply elem_of_cons in Hw as [->|Hw]; [apply nonzero_nil|by apply IH].
    + destruct (split l) as [|v ws] eqn:E.
      * apply list_elem_of_singleton in Hw as ->. apply nonzero_cons. split; [done|apply nonzero_nil].
      * apply elem_of_cons in Hw as [->|Hw].
        -- apply nonzero_cons. split; [done|]. apply IH; [done|by left].
        -- apply IH; [done|by right].
Qed.

Lemma nonzero_last_split l : nonzero l -> nonzero (List.last (split l) []).
Proof.
  intros Hl. apply (nonzero_split l); [done|]. rewrite (app_removelast_last [] (split_nonempty l)) at 2.
  apply elem_of_app. right. by left.
Qed.
