(* ===== verification/VfsSpec.v ===== *)
(** What the virtual file system promises, whatever the file systems below it: the
    lookup of a path is the walk over its components.  [FsLaws] is what it needs of the
    operation tables; the file systems discharge it. *)
From S2P Require Import Prelude CString FsData Vfs FsInv.

(** The part of a state an operation that only adds objects leaves alone. *)
Record grows (s s' : fs_state) : Prop := {
  gr_vnodes : vnodes s ⊆ vnodes s';
  gr_inodes : inodes s ⊆ inodes s';
  gr_mounts : mounts s ⊆ mounts s';
  gr_files : files s' = files s;
  gr_blocks : blocks s ⊆ blocks s';
  gr_next : next_key s <= next_key s';
  gr_filesystems : filesystems s' = filesystems s;
  gr_rootfs : rootfs s' = rootfs s;
  gr_cpio : cpio_base s' = cpio_base s
}.

(** The operation tables agree with the tree: a lookup in a directory finds its first
    child of that name and changes nothing. *)
Class FsLaws `{Ops} := {
  fs_string : fs_type -> list Z;
  name_law : forall t, holds (fs_name (fs_table t)) (fs_string t);
  lookup_law : forall t s d buf n,
    objs_ok s -> is_Some (vnodes s !! d) -> holds buf n ->
    lookup_op (vnode_ops t) d buf s =
      Ok (match child s d n with Some c => (1, Some c) | None => (0, None) end, s)
}.

(** A file system that can be mounted in the states [mount_pre]: where its
    [setup_mount] returns, it made a root directory, younger than every object, below
    objects it did not touch. *)
Class Mountable `{Ops} (t : fs_type) := {
  mount_pre : fs_state -> Prop;
  setup_law : forall s m r s',
    objs_ok s -> mount_pre s -> 0 < m < next_key s -> mounts s !! m = None ->
    setup_mount (fs_table t) t m s = Ok (r, s') ->
    r = 1 /\ objs_ok s' /\ grows s s' /\
    exists rt, mounts s' !! m = Some (Mount rt t) /\ next_key s <= rt /\ is_Some (vnodes s' !! rt)
}.

Section Lookup.
Context `{FsLaws}.
Variable (s : fs_state).
Hypothesis (Hs : objs_ok s).

Lemma lookup_in_ok d buf n :
  is_Some (vnodes s !! d) -> holds buf n ->
  lookup_in d buf s = Ok (match child s d n with Some c => (1, Some c) | None => (0, None) end, s).
Proof using Hs H0.
  intros [v Hv] Hn. destruct (ob_vnode s Hs d v Hv) as ([Hd _] & _). unfold lookup_in.
  run (deref_ok vnodes d s v ltac:(lia) Hv). apply (lookup_law _ s d buf n Hs); [by eexists|done].
Qed.

(** The lookup of one component, with its mount: what the loop and the end of
    [vfs_lookup] share. *)
Lemma lookup_step {A} d buf n (no : M fs_state A) (k : Z -> M fs_state A) :
  is_Some (vnodes s !! d) -> holds buf n ->
  (r ← lookup_in d buf; if r.1 =? 0 then no else dir ← mret (default d r.2); dir ← redirect dir; k dir) s =
    match child s d n with Some c => k (mounted s c) s | None => no s end.
Proof using Hs H0.
  intros Hd Hn. run (lookup_in_ok d buf n Hd Hn). destruct (child s d n) as [c|] eqn:Ec; [|done].
  cbn [fst snd default]. change (1 =? 0) with false. cbv iota.
  rewrite (bind_ok _ (mret (default d (Some c))) s c s eq_refl).
  destruct (child_vnode s Hs d n c Ec) as [Hc _].
  run (redirect_ok s Hs c Hc). done.
Qed.

Lemma walk_last d l n :
  walk s d (l ++ [n]) = (d' ← walk s d l; c ← child s d' n; Some (mounted s c)).
Proof using Type.
  revert d. induction l as [|m l IH]; intros d; cbn; [done|].
  destruct (child s d m) as [c|]; cbn; [apply IH|done].
Qed.

Lemma walk_split d l :
  walk s d (split l) =
    (d' ← walk s d (removelast (split l)); c ← child s d' (List.last (split l) []); Some (mounted s c)).
Proof using Type. by rewrite <-walk_last, <-(app_removelast_last [] (split_nonempty l)). Qed.

(** What the loop ends with: the directory of the last component, which it does not
    look up, and the component in the buffer. *)
Definition prefix_walk (d : Z) (comps : list (list Z)) (path : list Z) : option (Z * list Z * Z) :=
  d' ← walk s d (removelast comps);
  Some (d', path, Z.of_nat (length (List.last comps []))).

(** One round of the loop, on the character [c] after [dn]. *)
Lemma lookup_loop_round n pathname p dn c rem d path idx :
  holds pathname p -> p = dn ++ c :: rem ->
  lookup_loop (S n) pathname d path (Z.of_nat (length dn)) idx s =
    (if c =? 47 then
       path ← lift_opt OutOfBounds path.[idx := 0];
       r ← lookup_in d path;
       if r.1 =? 0 then mret None
       else
         dir ← mret (default d r.2);
         dir ← redirect dir;
         lookup_loop n pathname dir path (Z.of_nat (length (dn ++ [c]))) 0
     else
       path ← lift_opt OutOfBounds path.[idx := c];
       lookup_loop n pathname d path (Z.of_nat (length (dn ++ [c]))) (idx + 1)) s.
Proof using Type.
  intros Hp E. cbn [lookup_loop]. run (pure_op_ok _ s _ (strlen_ok pathname p Hp)).
  destruct (Z.ltb_spec (Z.of_nat (length dn)) (Z.of_nat (length p))) as [_|Hx];
    [|subst p; rewrite length_app in Hx; cbn in Hx; lia].
  assert (Hget : pathname.[Z.of_nat (length dn)] = Some c).
  { destruct Hp as [_ [r ->]]. subst p. rewrite <-app_assoc. by apply zget_app_mid. }
  run (lift_opt_ok OutOfBounds _ s _ Hget).
  by replace (Z.of_nat (length (dn ++ [c]))) with (Z.of_nat (length dn) + 1) by (rewrite length_app; cbn; lia).
Qed.

(** The loop with the component [cur] read so far and [rem] to go: it walks all the
    components but the last, which it leaves in the buffer. *)
Lemma lookup_loop_ok pathname p rem : forall n dn cur rest d,
  holds pathname p -> p = dn ++ rem -> (length rem < n)%nat ->
  nonzero cur -> Forall (fun c => c <> 47) cur ->
  length (cur ++ rest) = 256%nat -> is_Some (vnodes s !! d) ->
  Forall (fun w => (length w < 256)%nat) (split (cur ++ rem)) ->
  let w := List.last (split (cur ++ rem)) [] in
  exists rest', length (w ++ rest') = 256%nat /\
  lookup_loop n pathname d (cur ++ rest) (Z.of_nat (length dn)) (Z.of_nat (length cur)) s =
    Ok (prefix_walk d (split (cur ++ rem)) (w ++ rest'), s).
Proof using Hs H0.
  induction rem as [|c rem IH]; intros [|n] dn cur rest d Hp E Hn Hcur Hns Hlen Hd Hw; [cbn in Hn; lia| |cbn in Hn; lia|].
  - rewrite app_nil_r in *. rewrite split_plain in * by done. exists rest. split; [done|].
    cbn [lookup_loop]. run (pure_op_ok _ s _ (strlen_ok pathname p Hp)). subst p. by rewrite Z.ltb_irrefl.
  - assert (Hc : 0 < c < 256 /\ nonzero rem).
    { destruct Hp as [Hz _]. subst p. apply nonzero_app in Hz as [_ Hz]. by apply nonzero_cons in Hz. }
    assert (Hroom : (length cur < 256)%nat) by exact (split_room _ _ _ Hns Hw).
    destruct rest as [|x rest]; [rewrite app_nil_r in Hlen; lia|].
    assert (E' : p = (dn ++ [c]) ++ rem) by (by rewrite <-app_assoc).
    rewrite (lookup_loop_round n pathname p dn c rem d _ _ Hp E). destruct (Z.eqb_spec c 47) as [->|Hne].
    + rewrite split_cons in * by done. apply Forall_cons in Hw as [Hl Hw].
      run (lift_opt_ok OutOfBounds _ s _ (zset_app_mid cur rest x 0 _ eq_refl)).
      rewrite (lookup_step d _ cur) by (done || by apply holds_self).
      unfold prefix_walk. rewrite last_split_cons, removelast_split_cons. cbn [walk].
      destruct (child s d cur) as [c|] eqn:Ec; cbn [mbind option_bind].
      * destruct (child_vnode s Hs d cur c Ec) as [Hcv _]. destruct (mounted_vnode s Hs c Hcv) as [Hm _].
        apply (IH n (dn ++ [47]) [] (cur ++ 0 :: rest) (mounted s c) Hp E' ltac:(cbn in Hn; lia)
          nonzero_nil (Forall_nil_2 _)); [|done|done].
        rewrite <-Hlen. cbn. by rewrite !length_app.
      * exists (replicate (256 - length (List.last (split rem) [])) 0). split; [|done].
        pose proof (last_split_room rem Hw). rewrite length_app, length_replicate. lia.
    + assert (Ecur : cur ++ c :: rem = (cur ++ [c]) ++ rem) by (by rewrite <-app_assoc). rewrite Ecur in *.
      run (lift_opt_ok OutOfBounds _ s _ (zset_app_mid cur rest x c _ eq_refl)).
      replace (cur ++ c :: rest) with ((cur ++ [c]) ++ rest) by (by rewrite <-app_assoc).
      replace (Z.of_nat (length cur) + 1) with (Z.of_nat (length (cur ++ [c]))) by (rewrite length_app; cbn; lia).
      apply IH; try done.
      * cbn in Hn; lia.
      * apply nonzero_app; split; [done|]. apply nonzero_cons; split; [tauto|apply nonzero_nil].
      * apply Forall_app; split; [done|by constructor].
      * rewrite <-Hlen, !length_app. cbn. lia.
Qed.

(** [vfs_lookup] on a state with a root file system. *)
Lemma vfs_lookup_ok buf p :
  fs_ok s -> holds buf p -> Forall (fun w => (length w < 256)%nat) (components p) ->
  vfs_lookup buf s = Ok (walk s (root_of s) (components p), s).
Proof using Hs H0.
  intros Hf Hp Hw. pose proof (root_vnode s Hf) as Hr. destruct (fo_root s Hf) as (Hr0 & m & Em & _).
  assert (Eroot : root_of s = root m) by (unfold root_of; by rewrite Em). rewrite Eroot in *.
  unfold vfs_lookup. run (gets_ok rootfs s). run (deref_ok mounts _ s m Hr0 Em).
  run (pure_op_ok _ s _ (strlen_ok buf p Hp)).
  destruct Hp as [Hz [r Eb]]. pose proof (conj Hz (ex_intro _ r Eb) : holds buf p) as Hp.
  unfold components in *. destruct p as [|c0 rem].
  { rewrite Eb. cbn [app]. change ((0 :: r).[0]) with (Some 0).
    run (lift_opt_ok OutOfBounds (Some 0) s 0 eq_refl). done. }
  rewrite Eb. cbn [app] in *. change ((c0 :: rem ++ 0 :: r).[0]) with (Some c0). rewrite <-Eb.
  run (lift_opt_ok OutOfBounds (Some c0) s c0 eq_refl).
  destruct (Z.eqb_spec (Z.of_nat (length (c0 :: rem))) 0) as [Hl|_]; [cbn in Hl; lia|].
  rewrite (bool_decide_false (c0 :: rem = [])) in * by done. cbn [orb] in *.
  assert (Hone : (Z.of_nat (length (c0 :: rem)) =? 1) && (c0 =? 47) = bool_decide (c0 :: rem = [47])).
  { destruct (bool_decide_reflect (c0 :: rem = [47])) as [[= -> ->]|Hne]; [done|].
    destruct (Z.eqb_spec (Z.of_nat (length (c0 :: rem))) 1) as [Hl|]; [|done]. cbn [andb].
    apply Z.eqb_neq. intros ->. destruct rem; [done|cbn in Hl; lia]. }
  rewrite Hone. destruct (bool_decide (c0 :: rem = [47])); [done|]. cbn [tail] in *.
  assert (Hlen : (length rem < length buf)%nat) by (rewrite Eb; cbn; rewrite length_app; cbn; lia).
  destruct (lookup_loop_ok buf (c0 :: rem) rem (length buf) [c0] [] path_buffer (root m) Hp eq_refl Hlen
    nonzero_nil (Forall_nil_2 _) eq_refl Hr Hw) as (rest & Hl & E). cbn [app] in E, Hl.
  change (Z.of_nat (length [c0])) with 1 in E. change (Z.of_nat (length (A:=Z) [])) with 0 in E. run E.
  pose proof (last_split_room rem Hw) as Hroom. apply nonzero_cons in Hz as [_ Hz].
  pose proof (nonzero_last_split rem Hz) as Hnz.
  rewrite (walk_split (root m) rem). unfold prefix_walk.
  destruct (walk s (root m) (removelast (split rem))) as [d'|] eqn:Ew; [|done].
  cbn [mbind option_bind]. destruct rest as [|x rest]; [rewrite app_nil_r in Hl; lia|].
  run (lift_opt_ok OutOfBounds _ s _ (zset_app_mid (List.last (split rem) []) rest x 0 _ eq_refl)).
  destruct (walk_vnode s Hs _ _ _ Hr Ew) as [Hd' _].
  rewrite (lookup_step d' (List.last (split rem) [] ++ 0 :: rest) (List.last (split rem) [])) by (done || by apply holds_self).
  by destruct (child s d' (List.last (split rem) [])).
Qed.

End Lookup.

(** * Paths *)

(** The path [p] of an entry [n] of the directory [pre]. *)
Record entry_path (p pre n : list Z) : Prop := {
  ep_eq : p = pre ++ 47 :: n;
  ep_name : Forall (fun c => c <> 47) n;
  ep_len : (length p < 256)%nat
}.

Lemma split_snoc q n : Forall (fun c => c <> 47) n -> split (q ++ 47 :: n) = split q ++ [n].
Proof.
  intros Hn. induction q as [|c q IH]; cbn [app split].
  - change (47 =? 47) with true. cbv iota. by rewrite split_plain.
  - rewrite IH. destruct (c =? 47); [done|]. pose proof (split_nonempty q). by destruct (split q).
Qed.

Lemma components_entry pre n :
  Forall (fun c => c <> 47) n -> n <> [] -> pre <> [47] -> components (pre ++ 47 :: n) = components pre ++ [n].
Proof.
  intros Hn Hne Hp. unfold components. rewrite (bool_decide_false (pre ++ 47 :: n = [])) by (by destruct pre).
  destruct pre as [|c q].
  - cbn. rewrite bool_decide_false by (intros [= ->]; done). by rewrite split_plain.
  - rewrite (bool_decide_false (c :: q = [])), (bool_decide_false (c :: q = [47])) by done.
    rewrite bool_decide_false by (intros [= _ E]; by destruct q). cbn. by apply split_snoc.
Qed.

Lemma split_length l w : w ∈ split l -> (length w <= length l)%nat.
Proof.
  revert w. induction l as [|c l IH]; intros w Hw; cbn in *.
  - apply list_elem_of_singleton in Hw as ->. done.
  - destruct (c =? 47).
    + apply elem_of_cons in Hw as [->|Hw]; [cbn; lia|]. pose proof (IH w Hw). lia.
    + destruct (split l) as [|v ws].
      * apply list_elem_of_singleton in Hw as ->. cbn. lia.
      * apply elem_of_cons in Hw as [->|Hw].
        -- pose proof (IH v ltac:(by left)). cbn. lia.
        -- pose proof (IH w ltac:(by right)). lia.
Qed.

Lemma components_length p : (length p < 256)%nat -> Forall (fun w => (length w < 256)%nat) (components p).
Proof.
  intros Hp. apply Forall_forall. intros w Hw. unfold components in Hw.
  destruct (bool_decide (p = []) || bool_decide (p = [47])); [by apply elem_of_nil in Hw|].
  apply split_length in Hw. destruct p; cbn in *; lia.
Qed.

(** The index of the last '/', as the loops over a path find it. *)
Fixpoint slash_index (i : Z) (l : list Z) (last : Z) : Z :=
  match l with
  | [] => last
  | c :: l => slash_index (i + 1) l (if c =? 47 then i else last)
  end.

Lemma slash_index_entry p pre n : entry_path p pre n -> slash_index 0 p 0 = Z.of_nat (length pre).
Proof.
  intros [-> Hn _].
  assert (Hnone : forall i last, slash_index i n last = last).
  { clear -Hn. induction Hn as [|c n Hc Hn IH]; intros i last; cbn; [done|].
    destruct (Z.eqb_spec c 47); [done|apply IH]. }
  assert (Hpre : forall l i last, slash_index i (l ++ 47 :: n) last = i + Z.of_nat (length l)).
  { induction l as [|c l IH]; intros i last; cbn [app slash_index length].
    - change (47 =? 47) with true. rewrite Hnone. lia.
    - rewrite IH. lia. }
  rewrite Hpre. lia.
Qed.

(** The two loops, [c] being the character after [dn]. *)
Lemma path_char p buf dn c rem :
  holds buf p -> p = dn ++ c :: rem ->
  (Z.of_nat (length dn) <? Z.of_nat (length p)) = true /\ buf.[Z.of_nat (length dn)] = Some c.
Proof.
  intros [_ [r ->]] ->. split; [rewrite length_app; cbn; apply Z.ltb_lt; lia|].
  rewrite <-app_assoc. by apply zget_app_mid.
Qed.

Lemma last_slash_ok p rem : forall k buf dn last,
  holds buf p -> p = dn ++ rem -> (length rem < k)%nat -> (length p < 256)%nat ->
  last_slash k buf (Z.of_nat (length dn)) last = Ok (slash_index (Z.of_nat (length dn)) rem last).
Proof.
  induction rem as [|c rem IH]; intros [|k] buf dn last Hp E Hk Hl; try (cbn in Hk; lia);
    cbn [last_slash slash_index]; rewrite (strlen_ok buf p Hp), res_bind_ok.
  - rewrite app_nil_r in E. subst p. by rewrite Z.ltb_irrefl.
  - destruct (path_char p buf dn c rem Hp E) as [-> Hget]. rewrite Hget. cbn [opt_res mbind res_bind].
    assert (Hu : Z.of_nat (length dn) + 1 = Z.of_nat (length (dn ++ [c]))) by (rewrite length_app; cbn; lia).
    rewrite u32_small by (subst p; rewrite length_app in Hl; lia). rewrite Hu.
    apply (IH k buf (dn ++ [c])); [done|by rewrite <-app_assoc|cbn in Hk; lia|done].
Qed.

Lemma copy_path_ok p rem : forall k buf dn idx rest,
  holds buf p -> p = dn ++ rem -> (length rem < k)%nat -> (length p < 256)%nat -> length (dn ++ rest) = 256%nat ->
  copy_path k buf (dn ++ rest) (Z.of_nat (length dn)) idx =
    Ok (p ++ drop (length rem) rest, slash_index (Z.of_nat (length dn)) rem idx).
Proof.
  induction rem as [|c rem IH]; intros [|k] buf dn idx rest Hp E Hk Hl Hr; try (cbn in Hk; lia);
    cbn [copy_path slash_index]; rewrite (strlen_ok buf p Hp), res_bind_ok.
  - rewrite app_nil_r in E. subst p. by rewrite Z.ltb_irrefl.
  - destruct (path_char p buf dn c rem Hp E) as [-> Hget]. rewrite Hget. cbn [opt_res mbind res_bind].
    destruct rest as [|x rest]; [subst p; rewrite app_nil_r in Hr; rewrite length_app in Hl; cbn in Hl; lia|].
    rewrite (zset_app_mid dn rest x c _ eq_refl). cbn [opt_res mbind res_bind].
    replace (dn ++ c :: rest) with ((dn ++ [c]) ++ rest) by (by rewrite <-app_assoc).
    replace (Z.of_nat (length dn) + 1) with (Z.of_nat (length (dn ++ [c]))) by (rewrite length_app; cbn; lia).
    apply (IH k buf (dn ++ [c])); [done|by rewrite <-app_assoc|cbn in Hk; lia|done|].
    rewrite <-Hr, !length_app. cbn. lia.
Qed.

(** * The operations on paths *)

Section Paths.
Context `{FsLaws}.
Variables (s : fs_state) (buf p pre n : list Z).
Hypotheses (Hf : fs_ok s) (Hp : holds buf p) (He : entry_path p pre n).

Lemma entry_nonzero : nonzero pre /\ nonzero n.
Proof using Hp He.
  destruct Hp as [Hz _]. rewrite (ep_eq _ _ _ He) in Hz. apply nonzero_app in Hz as [H1 H2].
  by apply nonzero_cons in H2 as [_ H2].
Qed.

(** The rest of the path after the last '/' holds the name. *)
Lemma entry_rest : holds (drop (length pre + 1) buf) n.
Proof using Hp He.
  pose proof entry_nonzero as [_ Hn]. destruct Hp as [_ [r ->]]. rewrite (ep_eq _ _ _ He).
  rewrite <-app_assoc, drop_app_add'; [|done]. cbn. by apply holds_self.
Qed.

Lemma entry_dir_length : Forall (fun w => (length w < 256)%nat) (components pre).
Proof using He.
  clear Hp. apply components_length. destruct He as [-> _ Hl]. rewrite length_app in Hl. lia.
Qed.

(** [vfs_mkdir] asks the directory of the last component to make it, and returns 1
    whatever that says. *)
Lemma vfs_mkdir_ok : exists nbuf, holds nbuf n /\
  vfs_mkdir buf s =
    match walk s (root_of s) (components pre) with
    | None => Ok (0, s)
    | Some d => (v ← deref vnodes d; _ ← mkdir_op (vnode_ops (v_ops v)) d nbuf; mret 1) s
    end.
Proof using Hf Hp He H0.
  destruct He as [Ep Hns Hl]. pose proof entry_nonzero as [Hz Hn].
  assert (Hlen : (length p < length buf)%nat) by (destruct Hp as [_ [r ->]]; rewrite length_app; cbn; lia).
  assert (Hlp : (length pre + S (length n) < 256)%nat) by (rewrite Ep, length_app in Hl; cbn in Hl; lia).
  unfold vfs_mkdir.
  pose proof (last_slash_ok p p (length buf) buf [] 0 Hp eq_refl Hlen Hl) as E1.
  change (Z.of_nat (length (A:=Z) [])) with 0 in E1. rewrite (slash_index_entry p pre n He) in E1.
  run (pure_op_ok _ s _ E1). rewrite Nat2Z.id.
  assert (E2 : memcpy path_buffer buf (length pre) = Ok (pre ++ replicate (256 - length pre) 0)).
  { rewrite memcpy_ok by (unfold path_buffer; rewrite ?length_replicate; destruct Hp as [_ [r ->]]; rewrite ?Ep, ?length_app in *; lia).
    unfold path_buffer. rewrite drop_replicate. destruct Hp as [_ [r ->]]. by rewrite Ep, <-app_assoc, take_app_length. }
  run (pure_op_ok _ s _ E2).
  replace (Z.to_nat (Z.of_nat (length pre) + 1)) with (length pre + 1)%nat by lia.
  run (pure_op_ok _ s _ (strcpy_ok path_buffer _ n entry_rest ltac:(unfold path_buffer; rewrite length_replicate; lia))).
  exists (n ++ 0 :: drop (S (length n)) path_buffer). split; [by apply holds_self|].
  assert (Hpre : holds (pre ++ replicate (256 - length pre) 0) pre).
  { replace (256 - length pre)%nat with (S (255 - length pre)) by lia. by apply holds_self. }
  run (vfs_lookup_ok s (fo_objs s Hf) _ pre Hf Hpre entry_dir_length).
  by destruct (walk s (root_of s) (components pre)).
Qed.

(** [vfs_open] opens the node of the path; without one and with [O_CREAT] it asks the
    directory to create it. *)
Lemma vfs_open_ok flags : exists nbuf, holds nbuf n /\
  vfs_open buf flags s =
    match walk s (root_of s) (components p) with
    | Some node => open_node node flags s
    | None =>
      if Z.land flags O_CREAT =? 0 then Ok (None, s)
      else
        match walk s (root_of s) (components pre) with
        | None => Ok (None, s)
        | Some d =>
          (v ← deref vnodes d; r ← create_op (vnode_ops (v_ops v)) d nbuf;
           target_node ← stored r.2; open_node target_node flags) s
        end
    end.
Proof using Hf Hp He H0.
  destruct He as [Ep Hns Hl]. pose proof entry_nonzero as [Hz Hn].
  assert (Hlen : (length p < length buf)%nat) by (destruct Hp as [_ [r ->]]; rewrite length_app; cbn; lia).
  assert (Hlp : (length pre + S (length n) < 256)%nat) by (rewrite Ep, length_app in Hl; cbn in Hl; lia).
  exists (drop (length pre + 1) buf). split; [exact entry_rest|]. unfold vfs_open.
  run (vfs_lookup_ok s (fo_objs s Hf) buf p Hf Hp (components_length p Hl)).
  destruct (walk s (root_of s) (components p)) as [node|]; [done|].
  destruct (Z.land flags O_CREAT =? 0); [done|]. cbn [negb].
  pose proof (copy_path_ok p p (length buf) buf [] 0 path_buffer Hp eq_refl Hlen Hl eq_refl) as E1.
  change (Z.of_nat (length (A:=Z) [])) with 0 in E1. rewrite (slash_index_entry p pre n He) in E1.
  cbn [app] in E1. run (pure_op_ok _ s _ E1). cbn [fst snd].
  replace (Z.to_nat (Z.of_nat (length pre) + 1)) with (length pre + 1)%nat by lia.
  set (tl := drop (length p) path_buffer). rewrite Ep at 1. rewrite <-app_assoc. cbn [app].
  run (lift_opt_ok OutOfBounds _ s _ (zset_app_mid pre (n ++ tl) 47 0 _ eq_refl)).
  run (vfs_lookup_ok s (fo_objs s Hf) _ pre Hf (holds_self pre (n ++ tl) Hz) entry_dir_length).
  by destruct (walk s (root_of s) (components pre)).
Qed.

End Paths.
