(* ===== verification/VfsMount.v ===== *)
(** Mounting: the path of a directory leads to the root of the file system mounted on
    it, and the paths that do not go through it lead where they led. *)
From S2P Require Import Prelude CString FsData Vfs FsInv VfsSpec.

(** [s'] is [s] with a mount of [m] on the vnode [c]. *)
Definition mount_on (s : fs_state) (c m : Z) (v : vnode) : fs_state :=
  set_vnodes (<[c := Vnode m (v_ops v) (vf_ops v) (internal v)]>) s.

Section MountOn.
Variables (s : fs_state) (c m rt : Z) (v : vnode) (t : fs_type).
Hypotheses (Hs : objs_ok s) (Hv : vnodes s !! c = Some v) (Hm : 0 < m < next_key s)
  (Hmt : mounts s !! m = Some (Mount rt t)) (Hrt : c < rt) (Hrv : is_Some (vnodes s !! rt)).
Let s' := mount_on s c m v.

Lemma mount_on_some k : is_Some (vnodes s !! k) -> is_Some (vnodes s' !! k).
Proof using Type.
  clear Hrt Hv. intros Hk. cbn. destruct (decide (c = k)) as [->|]; [rewrite lookup_insert_eq; by eexists|].
  by rewrite lookup_insert_ne.
Qed.

Lemma mount_on_inode k : node_inode s' k = node_inode s k.
Proof using Hv.
  unfold node_inode. cbn. destruct (decide (c = k)) as [<-|]; [rewrite lookup_insert_eq, Hv; done|by rewrite lookup_insert_ne].
Qed.

Lemma mount_on_child k n : child s' k n = child s k n.
Proof using Hv.
  unfold child, children. rewrite mount_on_inode.
  assert (E : forall l, List.find (fun x => bool_decide (name_of s' x = n)) l =
    List.find (fun x => bool_decide (name_of s x = n)) l).
  { induction l as [|x l IH]; [done|]. cbn. unfold name_of in *. rewrite mount_on_inode. by rewrite IH. }
  apply E.
Qed.

Lemma mount_on_ok : objs_ok s'.
Proof using Hs Hv Hm Hmt Hrt Hrv.
  assert (Hold : forall k w, vnodes s' !! k = Some w -> exists w0, vnodes s !! k = Some w0 /\
    internal w = internal w0 /\ ((k = c /\ v_mount w = m) \/ v_mount w = v_mount w0)).
  { intros k w Hw. change (vnodes s') with (<[c := Vnode m (v_ops v) (vf_ops v) (internal v)]> (vnodes s)) in Hw.
    apply lookup_insert_Some in Hw as [[<- <-]|[_ Hw]]; [exists v|exists w]; cbn; auto. }
  split.
  - apply (ob_next s Hs).
  - intros k w Hw. destruct (Hold k w Hw) as (w0 & Hw0 & -> & _).
    destruct (ob_vnode s Hs k w0 Hw0) as (H1 & H2 & i & Hi & [J1 J2 J3 J4 J5]). split; [done|]. split; [done|].
    exists i. split; [done|]. split; try done. intros x Hx. destruct (J5 x Hx). split; [done|by apply mount_on_some].
  - intros k k' w w' Hw Hw' E. destruct (Hold k w Hw) as (w0 & Hw0 & E0 & _), (Hold k' w' Hw') as (w1 & Hw1 & E1 & _).
    apply (ob_inj s Hs k k' w0 w1 Hw0 Hw1). congruence.
  - intros k w Hw Hne. destruct (Hold k w Hw) as (w0 & Hw0 & _ & [[-> E]|E]); rewrite E in *.
    + split; [done|]. eexists. split; [exact Hmt|]. split; [done|by apply mount_on_some].
    + destruct (ob_mount s Hs k w0 Hw0 Hne) as (H1 & m0 & H2 & H3 & H4). split; [done|].
      exists m0. split; [done|]. split; [done|by apply mount_on_some].
  - apply (ob_fresh s Hs).
Qed.

Lemma mount_on_mounted k : k <> c -> mounted s' k = mounted s k.
Proof using Type. intros Hk. unfold mounted. cbn. by rewrite lookup_insert_ne. Qed.

Lemma mount_on_mounted_eq : mounted s' c = rt.
Proof using Hm Hmt.
  clear Hrt.
  unfold mounted. cbn. rewrite lookup_insert_eq. cbn. destruct (Z.eqb_spec m 0); [lia|]. by rewrite Hmt.
Qed.

(** A walk that ends before [c] does not go through it. *)
Lemma mount_on_walk comps x y :
  is_Some (vnodes s !! x) -> walk s x comps = Some y -> y < c -> walk s' x comps = Some y.
Proof using Hs Hv.
  revert x. induction comps as [|n l IH]; intros x Hx E Hy; [done|]. cbn in *. rewrite mount_on_child.
  destruct (child s x n) as [z|] eqn:Ez; [|done]. cbn in *.
  destruct (child_vnode s Hs x n z Ez) as [Hz _]. destruct (mounted_vnode s Hs z Hz) as [Hmz Hle].
  destruct (walk_vnode s Hs l _ y Hmz E) as [_ Hle']. rewrite mount_on_mounted by lia. by apply IH.
Qed.
End MountOn.

Lemma grows_trans s1 s2 s3 : grows s1 s2 -> grows s2 s3 -> grows s1 s3.
Proof. intros [] []. split; try (by etrans); lia. Qed.

Lemma walk_app s d q q' : walk s d (q ++ q') = (x ← walk s d q; walk s x q').
Proof. revert d. induction q as [|n q IH]; intros d; [done|]. cbn. destruct (child s d n); [apply IH|done]. Qed.

(** A directory keeps its entries when the nodes do. *)
Lemma child_kept s s' : objs_ok s -> (forall x, is_Some (vnodes s !! x) -> node_inode s' x = node_inode s x) ->
  forall k n, is_Some (vnodes s !! k) -> child s' k n = child s k n.
Proof.
  intros Hs Hn k n Hk. unfold child, children. rewrite (Hn k Hk).
  assert (E : forall l, (forall x, x ∈ l -> is_Some (vnodes s !! x)) ->
    List.find (fun x => bool_decide (name_of s' x = n)) l = List.find (fun x => bool_decide (name_of s x = n)) l).
  { induction l as [|x l IH]; intros Hl; [done|]. cbn. unfold name_of in *.
    rewrite (Hn x) by (apply Hl; by left). destruct (bool_decide _); [done|].
    apply IH. intros y Hy. apply Hl. by right. }
  apply E. intros x Hx. apply (children_vnode s Hs k x). exact Hx.
Qed.

(** Growing a state keeps its walks. *)
Section Grows.
Variables (s s' : fs_state).
Hypotheses (Hs : objs_ok s) (Hg : grows s s').

Lemma grows_vnode k v : vnodes s !! k = Some v -> vnodes s' !! k = Some v.
Proof using Hg. intros Hv. by apply (lookup_weaken (vnodes s)), gr_vnodes. Qed.

Lemma grows_inode k : is_Some (vnodes s !! k) -> node_inode s' k = node_inode s k.
Proof using Hs Hg.
  intros [v Hv]. unfold node_inode. rewrite Hv, (grows_vnode k v Hv). cbn.
  destruct (ob_vnode s Hs k v Hv) as (_ & _ & i & Hi & _). rewrite Hi.
  by apply (lookup_weaken (inodes s)), gr_inodes.
Qed.

Lemma grows_child k n : is_Some (vnodes s !! k) -> child s' k n = child s k n.
Proof using Hs Hg. apply child_kept; [done|exact grows_inode]. Qed.

Lemma grows_mounted k : is_Some (vnodes s !! k) -> mounted s' k = mounted s k.
Proof using Hs Hg.
  intros [v Hv]. unfold mounted. rewrite Hv, (grows_vnode k v Hv). destruct (Z.eqb_spec (v_mount v) 0); [done|].
  destruct (ob_mount s Hs k v Hv n) as (_ & m & Em & _). rewrite Em.
  by rewrite (lookup_weaken _ (mounts s') _ _ Em (gr_mounts s s' Hg)).
Qed.

Lemma grows_walk comps x : is_Some (vnodes s !! x) -> walk s' x comps = walk s x comps.
Proof using Hs Hg.
  revert x. induction comps as [|n l IH]; intros x Hx; [done|]. cbn. rewrite (grows_child x n Hx).
  destruct (child s x n) as [z|] eqn:Ez; [|done]. cbn. destruct (child_vnode s Hs x n z Ez) as [Hz _].
  rewrite (grows_mounted z Hz). apply IH. by apply mounted_vnode.
Qed.

Lemma grows_root : fs_ok s -> root_of s' = root_of s.
Proof using Hg.
  intros [_ _ (_ & m & Em & _)]. unfold root_of. rewrite (gr_rootfs s s' Hg), Em.
  by rewrite (lookup_weaken _ (mounts s') _ _ Em (gr_mounts s s' Hg)).
Qed.

Lemma grows_fs_ok : fs_ok s -> objs_ok s' -> fs_ok s'.
Proof using Hg.
  intros [_ Hl (Hr & m & Em & v & Hv)] Ho. split; [done|by rewrite (gr_filesystems s s' Hg)|].
  rewrite (gr_rootfs s s' Hg). split; [done|]. exists m. split.
  - by apply (lookup_weaken (mounts s)), gr_mounts.
  - exists v. by apply grows_vnode.
Qed.
End Grows.

(** [s'] is [s] with the root [rt] of a new file system, made in between, mounted on [c]:
    the nodes of [s] are as they were, but for the mount. *)
Record mounts_on (s s' : fs_state) (c rt : Z) : Prop := {
  mo_ok : fs_ok s';
  mo_root : root_of s' = root_of s;
  mo_vnode : forall x, is_Some (vnodes s !! x) -> x <> c -> vnodes s' !! x = vnodes s !! x;
  mo_node : forall x, is_Some (vnodes s !! x) -> node_inode s' x = node_inode s x;
  mo_inodes : inodes s ⊆ inodes s';
  mo_mounts : mounts s ⊆ mounts s';
  mo_blocks : blocks s ⊆ blocks s';
  mo_rest : filesystems s' = filesystems s /\ cpio_base s' = cpio_base s;
  mo_mounted : mounted s' c = rt;
  mo_new : next_key s < rt
}.

Lemma mount_on_mounts s s1 c rt v t :
  objs_ok s -> vnodes s !! c = Some v -> grows s s1 -> fs_ok s1 -> root_of s1 = root_of s ->
  mounts s1 !! next_key s = Some (Mount rt t) -> next_key s < rt -> is_Some (vnodes s1 !! rt) ->
  mounts_on s (mount_on s1 c (next_key s) v) c rt.
Proof.
  intros Hs Hv Hg Hf Hr Hm Hrt Hrv. pose proof (ob_next s Hs). pose proof (fo_objs s1 Hf) as Ho1.
  pose proof (grows_vnode s s1 Hg c v Hv) as Hv1. destruct (vnode_pos s Hs c ltac:(by eexists)) as [_ Hck].
  assert (Hm1 : 0 < next_key s < next_key s1) by (pose proof (vnode_pos s1 Ho1 rt Hrv); lia).
  split; try (done || apply Hg).
  - split; [|apply (fo_filesystems s1 Hf)|].
    + by apply (mount_on_ok s1 c (next_key s) rt v t); try done; lia.
    + destruct (fo_root s1 Hf) as (H1 & m1 & H2 & H3). split; [done|]. exists m1. split; [done|]. by apply mount_on_some.
  - intros x [w Hw] Hx. cbn. rewrite lookup_insert_ne by done. by rewrite Hw, (grows_vnode s s1 Hg x w Hw).
  - intros x Hx. rewrite mount_on_inode by done. by apply (grows_inode s s1 Hs Hg).
  - by split; apply Hg.
  - by apply (mount_on_mounted_eq s1 c (next_key s) rt v t).
Qed.

(** A key taken by [kmalloc] and not used yet. *)
Lemma grows_key s : grows s (set_next_key (next_key s + 1) s).
Proof. split; try done. cbn. lia. Qed.

Lemma objs_key s : objs_ok s -> objs_ok (set_next_key (next_key s + 1) s).
Proof.
  intros Hs. pose proof (ob_next s Hs). split; cbn.
  - lia.
  - intros k v Hv. destruct (ob_vnode s Hs k v Hv) as (? & ? & i & Hi & [J1 J2 J3 J4 J5]).
    split; [lia|]. split; [lia|]. exists i. split; [done|]. by split.
  - apply (ob_inj s Hs).
  - intros k v Hv Hm. destruct (ob_mount s Hs k v Hv Hm) as (? & m & ? & ? & ?). split; [lia|]. by exists m.
  - intros k Hk. apply (ob_fresh s Hs). lia.
Qed.

(** A mount object at such a key. *)
Lemma objs_mount s m x : objs_ok s -> m < next_key s -> mounts s !! m = None ->
  objs_ok (set_mounts (<[m := x]>) s) /\ grows s (set_mounts (<[m := x]>) s).
Proof.
  intros [H1 H2 H3 H4 H5] Hm Hnone.
  assert (Hsub : mounts s ⊆ <[m := x]> (mounts s)) by (by apply insert_subseteq).
  split; [|by split]. split; try done.
  - intros k v Hv. destruct (H2 k v Hv) as (? & ? & j & ? & [J1 J2 J3 J4 J5]).
    split; [done|]. split; [done|]. exists j. split; [done|]. by split.
  - intros k v Hv Hne. destruct (H4 k v Hv Hne) as (? & m0 & Em & ? & ?). split; [done|].
    exists m0. split; [|done]. by apply (lookup_weaken (mounts s)).
  - intros k Hk. change (next_key s <= k) in Hk. destruct (H5 k Hk) as (? & F2 & ? & ?).
    split; [done|]. split; [|done]. cbn. rewrite lookup_insert_ne; [done|lia].
Qed.

Section Mount.
Context `{FsLaws}.

(** The file system of a name: the first one registered under it. *)
Definition find_fs (s : fs_state) (nm : list Z) : option fs_type :=
  head (omap (fun f => f' ← f; if bool_decide (fs_string f' = nm) then Some f' else None) (filesystems s)).

Lemma find_filesystem_ok s pre l buf nm :
  holds buf nm -> filesystems s = pre ++ l ->
  find_filesystem (length l) (Z.of_nat (length pre)) buf s =
    Ok (head (omap (fun f => f' ← f; if bool_decide (fs_string f' = nm) then Some f' else None) l), s).
Proof using H0.
  intros Hn. revert pre. induction l as [|f l IH]; intros pre E; [done|]. cbn [find_filesystem length].
  rewrite (bind_ok _ get s s s eq_refl).
  assert (Eg : (filesystems s).[Z.of_nat (length pre)] = Some f) by (rewrite E; by apply zget_app_mid).
  run (lift_opt_ok OutOfBounds _ s _ Eg). specialize (IH (pre ++ [f]) ltac:(by rewrite <-app_assoc)).
  replace (Z.of_nat (length (pre ++ [f]))) with (Z.of_nat (length pre) + 1) in IH by (rewrite length_app; cbn; lia).
  destruct f as [t|]; [|exact IH]. cbn [omap list_omap mbind option_bind].
  destruct (strcmp_ok _ _ _ _ (name_law t) Hn) as (d & Ed & Hd). run (pure_op_ok _ s _ Ed).
  destruct (bool_decide_reflect (fs_string t = nm)) as [En|En].
  - rewrite (proj2 (Z.eqb_eq d 0)) by (by apply Hd). done.
  - rewrite (proj2 (Z.eqb_neq d 0)) by (intros E0; apply En; by apply Hd). exact IH.
Qed.

Lemma find_fs_ok s buf nm : fs_ok s -> holds buf nm ->
  find_filesystem (Z.to_nat NR_FILESYSTEM) 0 buf s = Ok (find_fs s nm, s).
Proof using H0.
  intros Hs Hn. change (Z.to_nat NR_FILESYSTEM) with 8%nat. rewrite <-(fo_filesystems s Hs).
  by apply (find_filesystem_ok s [] (filesystems s)).
Qed.

Lemma mount_failures s tbuf p fbuf nm :
  fs_ok s -> holds tbuf p -> (length p < 256)%nat -> holds fbuf nm ->
  find_fs s nm = None \/ walk s (root_of s) (components p) = None -> vfs_mount tbuf fbuf s = Ok (0, s).
Proof using H0.
  intros Hs Hp Hl Hn Hno. unfold vfs_mount. run (find_fs_ok s fbuf nm Hs Hn).
  destruct (find_fs s nm) as [t|]; [|done]. destruct Hno as [|Hno]; [done|].
  run (vfs_lookup_ok s (fo_objs s Hs) tbuf p Hs Hp (components_length p Hl)). by rewrite Hno.
Qed.

(** A mount on the directory entry [c], which nothing is mounted on. *)
Lemma vfs_mount_ok s t tbuf p pre n fbuf nm d c v r0 s1 `{!Mountable t} :
  fs_ok s -> holds tbuf p -> entry_path p pre n -> n <> [] -> pre <> [47] -> holds fbuf nm ->
  find_fs s nm = Some t ->
  walk s (root_of s) (components pre) = Some d -> child s d n = Some c ->
  vnodes s !! c = Some v -> v_mount v = 0 -> mount_pre (set_next_key (next_key s + 1) s) ->
  setup_mount (fs_table t) t (next_key s) (set_next_key (next_key s + 1) s) = Ok (r0, s1) ->
  let s' := mount_on s1 c (next_key s) v in
  vfs_mount tbuf fbuf s = Ok (1, s') /\ fs_ok s' /\ root_of s' = root_of s /\
  (exists rt, mounts s1 !! next_key s = Some (Mount rt t) /\ next_key s < rt /\
     walk s' (root_of s) (components p) = Some rt) /\
  (forall q y, walk s (root_of s) q = Some y -> y < c -> walk s' (root_of s) q = Some y).
Proof using H0.
  intros Hs Hp He Hne Hpre Hn Hfs Hd Hc Hv Hv0 Hpm Esetup s'.
  pose proof (fo_objs s Hs) as Ho. pose proof (root_vnode s Hs) as Hr. pose proof (ob_next s Ho) as Hk.
  destruct (walk_vnode s Ho _ _ _ Hr Hd) as [Hdv _]. destruct (child_vnode s Ho d n c Hc) as [Hcv Hdc].
  assert (Hcm : mounted s c = c) by (unfold mounted; by rewrite Hv, Hv0).
  assert (Ewalk : walk s (root_of s) (components p) = Some c).
  { rewrite (ep_eq _ _ _ He), components_entry by (done || apply (ep_name _ _ _ He)).
    rewrite walk_last, Hd. cbn. rewrite Hc. cbn. by rewrite Hcm. }
  destruct (setup_law (set_next_key (next_key s + 1) s) (next_key s) r0 s1) as (-> & Ho1 & Hg1 & rt & Ert & Hrt & Hrtv);
    [by apply objs_key|done|cbn; lia|apply (ob_fresh s Ho); lia|done|].
  pose proof (grows_trans _ _ _ (grows_key s) Hg1) as Hg. pose proof (grows_vnode s s1 Hg c v Hv) as Hv1.
  pose proof (vnode_pos s Ho c Hcv) as Hcpos. cbn in Hrt.
  assert (Hm1 : 0 < next_key s < next_key s1) by (pose proof (gr_next _ _ Hg1) as Hx; cbn in Hx; lia).
  assert (Hr1 : root_of s1 = root_of s) by exact (grows_root s s1 Hg Hs).
  assert (Hw1 : forall q y, walk s (root_of s) q = Some y -> y < c -> walk s' (root_of s) q = Some y).
  { intros q y Hq Hy. apply mount_on_walk; [done|done| | |done].
    - destruct Hr as [w Hw]. exists w. by apply (grows_vnode s s1 Hg).
    - by rewrite (grows_walk s s1 Ho Hg q _ Hr). }
  assert (Hfs1 : fs_ok s1) by (by apply (grows_fs_ok s s1 Hg Hs)).
  split_and!; [| | |exists rt; split_and!; [done|lia|]|done].
  - unfold vfs_mount. run (find_fs_ok s fbuf nm Hs Hn). rewrite Hfs.
    run (vfs_lookup_ok s Ho tbuf p Hs Hp (components_length p (ep_len _ _ _ He))). rewrite Ewalk.
    run (eq_refl : kmalloc_key s = Ok (next_key s, set_next_key (next_key s + 1) s)).
    run Esetup. change (1 =? 0) with false. cbv iota. run (deref_ok vnodes c s1 v ltac:(lia) Hv1).
    rewrite Hv0. done.
  - split.
    + by apply (mount_on_ok s1 c (next_key s) rt v t); try done; lia.
    + apply (fo_filesystems s1 Hfs1).
    + destruct (fo_root s1 Hfs1) as (H1 & m1 & H2 & H3). split; [done|]. exists m1. split; [done|].
      by apply mount_on_some.
  - change (root_of s') with (root_of s1). done.
  - rewrite (ep_eq _ _ _ He), components_entry by (done || apply (ep_name _ _ _ He)).
    rewrite walk_last, (Hw1 _ d Hd Hdc). cbn. unfold s'. rewrite mount_on_child by done.
    rewrite (grows_child s s1 Ho Hg d n Hdv), Hc. cbn. f_equal.
    by apply (mount_on_mounted_eq s1 c (next_key s) rt v t).
Qed.
End Mount.
