(* ===== verification/FsNodes.v ===== *)
(** Adding a node to the objects and to a directory. *)
From S2P Require Import Prelude CString FsData Vfs FsInv VfsSpec.

(** A new vnode with the inode [i] and the data block [b]: the keys are the next three. *)
Definition new_node (s : fs_state) (t : fs_type) (mnt : Z) (i : inode) (b : list (option Z)) : fs_state :=
  let k := next_key s in
  FsState (<[k := Vnode mnt t t (k + 1)]> (vnodes s)) (<[k + 1 := i]> (inodes s)) (fat_nodes s) (mounts s)
    (files s) (<[k + 2 := b]> (blocks s)) (k + 3) (filesystems s) (rootfs s) (cpio_base s) (fat_info s)
    (fat_boot_sector s) (mbr s) (sd s).

(** The node [c] as the last child of the directory whose inode is [di]. *)
Definition attach (s : fs_state) (di : Z) (i : inode) (c : Z) : fs_state :=
  set_inodes (<[di := Inode (i_type i) (i_name i) (<[length (upto0 (childs i)) := c]> (childs i)) (data i) (data_size i)]>) s.

Record fresh_inode (i : inode) : Prop := {
  fi_name : holds (i_name i) (upto0 (i_name i));
  fi_len : length (i_name i) = 16%nat;
  fi_childs : childs i = replicate 16 0
}.

Lemma list_find_app {A} (f : A -> bool) l l' :
  List.find f (l ++ l') = match List.find f l with Some x => Some x | None => List.find f l' end.
Proof. induction l as [|x l IH]; [done|]. cbn. by destruct (f x). Qed.

Lemma upto0_zeros n : upto0 (replicate n 0) = [].
Proof. by destruct n. Qed.

Lemma upto0_le l : (length (upto0 l) <= length l)%nat.
Proof. induction l as [|c l IH]; cbn; [lia|]. destruct (c =? 0); cbn; lia. Qed.

Lemma upto0_pad l n : (forall c, c ∈ l -> c <> 0) -> upto0 (l ++ replicate n 0) = l.
Proof.
  induction l as [|c l IH]; intros Hl; cbn; [apply upto0_zeros|].
  destruct (Z.eqb_spec c 0) as [E|]; [exfalso; apply (Hl c); [by left|done]|].
  rewrite IH; [done|]. intros x Hx. apply Hl. by right.
Qed.

(** Filling the first free entry. *)
Lemma upto0_insert l n c :
  l = upto0 l ++ replicate n 0 -> (length (upto0 l) < length l)%nat -> c <> 0 ->
  <[length (upto0 l) := c]> l = (upto0 l ++ [c]) ++ replicate (n - 1) 0 /\
  upto0 (<[length (upto0 l) := c]> l) = upto0 l ++ [c].
Proof.
  intros E Hl Hc.
  assert (Hn : exists m, n = S m).
  { destruct n as [|m]; [|by exists m]. rewrite app_nil_r in E. rewrite <-E in Hl. lia. }
  destruct Hn as [m ->].
  assert (Ei : <[length (upto0 l) := c]> l = (upto0 l ++ [c]) ++ replicate (S m - 1) 0).
  { rewrite E at 2. rewrite insert_app_r_alt, Nat.sub_diag by lia. cbn.
    by rewrite Nat.sub_0_r, <-app_assoc. }
  split; [done|]. rewrite Ei. apply upto0_pad. intros x [Hx|Hx%list_elem_of_singleton]%elem_of_app.
  - by apply upto0_elem in Hx as [].
  - by subst.
Qed.

Lemma empty_fresh type d : fresh_inode (Inode type (replicate 16 0) (replicate 16 0) d 0).
Proof. split; [|done|done]. split; [apply nonzero_nil|by exists (replicate 15 0)]. Qed.

Section NewNode.
Variables (s : fs_state) (t : fs_type) (i : inode) (b : list (option Z)).
Hypotheses (Hs : objs_ok s) (Hi : fresh_inode i).
Let s' := new_node s t 0 i b.

Lemma new_node_vnode k : is_Some (vnodes s !! k) -> vnodes s' !! k = vnodes s !! k.
Proof using Hs. intros Hk. apply lookup_insert_ne. pose proof (vnode_pos s Hs k Hk). lia. Qed.

Lemma new_node_inode k : k < next_key s -> inodes s' !! k = inodes s !! k.
Proof using Type. intros Hk. apply lookup_insert_ne. lia. Qed.

Lemma new_node_node : node_inode s' (next_key s) = Some i.
Proof using Type. unfold node_inode, s', new_node. cbn. rewrite lookup_insert_eq. cbn. by rewrite lookup_insert_eq. Qed.

Lemma new_node_node_old d : is_Some (vnodes s !! d) -> node_inode s' d = node_inode s d.
Proof using Hs.
  intros Hd. unfold node_inode. rewrite (new_node_vnode d Hd). destruct Hd as [v Hv]. rewrite Hv. cbn.
  apply new_node_inode. apply (ob_vnode s Hs d v Hv).
Qed.

Lemma new_node_ok : objs_ok s'.
Proof using Hs Hi.
  pose proof (ob_next s Hs) as Hn.
  assert (Hold : forall k v, vnodes s' !! k = Some v ->
    (k = next_key s /\ v = Vnode 0 t t (next_key s + 1)) \/ vnodes s !! k = Some v).
  { intros k v Hv. change (vnodes s') with (<[next_key s := Vnode 0 t t (next_key s + 1)]> (vnodes s)) in Hv.
    apply lookup_insert_Some in Hv as [[<- <-]|[_ Hv]]; [by left|by right]. }
  assert (Hsome : forall k, is_Some (vnodes s !! k) -> is_Some (vnodes s' !! k)).
  { intros k Hk. by rewrite (new_node_vnode k Hk). }
  split.
  - change (next_key s') with (next_key s + 3). lia.
  - intros k v Hv. change (next_key s') with (next_key s + 3). destruct (Hold k v Hv) as [[-> ->]|Hv'].
    + cbn. split; [lia|]. split; [lia|]. exists i. split; [apply lookup_insert_eq|]. destruct Hi as [H1 H2 H3].
      split; [done|done| | |]; rewrite H3.
      * by exists 16%nat.
      * done.
      * by intros c ?%elem_of_nil.
    + destruct (ob_vnode s Hs k v Hv') as (Hk & Hiv & j & Hj & [J1 J2 J3 J4 J5]).
      split; [lia|]. split; [lia|]. exists j. rewrite new_node_inode by lia. split; [done|].
      split; try done. intros c Hc. destruct (J5 c Hc). split; [done|by apply Hsome].
  - intros k k' v v' Hv Hv' E. destruct (Hold k v Hv) as [[-> ->]|H1], (Hold k' v' Hv') as [[-> ->]|H2]; cbn in E.
    + done.
    + destruct (ob_vnode s Hs k' v' H2) as (_ & ? & _). lia.
    + destruct (ob_vnode s Hs k v H1) as (_ & ? & _). lia.
    + by apply (ob_inj s Hs k k' v v').
  - intros k v Hv Hm. destruct (Hold k v Hv) as [[-> ->]|H1]; [done|].
    destruct (ob_mount s Hs k v H1 Hm) as (Hk & m & Em & Hlt & Hr).
    change (next_key s') with (next_key s + 3). split; [lia|]. exists m. split; [done|]. split; [done|by apply Hsome].
  - intros k Hk. change (next_key s') with (next_key s + 3) in Hk.
    destruct (ob_fresh s Hs k ltac:(lia)) as (F1 & F2 & F3 & F4). split_and!; try done.
    + rewrite <-F1. apply lookup_insert_ne. lia.
    + rewrite <-F4. apply lookup_insert_ne. lia.
Qed.

Lemma new_node_grows : grows s s'.
Proof using Hs.
  split; try done.
  - apply insert_subseteq. destruct (vnodes s !! next_key s) as [v|] eqn:E; [|done].
    destruct (ob_vnode s Hs _ _ E). lia.
  - apply insert_subseteq. apply (ob_fresh s Hs). lia.
  - apply insert_subseteq. apply (ob_fresh s Hs). lia.
  - change (next_key s') with (next_key s + 3). lia.
Qed.

End NewNode.

Section Attach.
Variables (s : fs_state) (d : Z) (v : vnode) (i : inode) (c : Z).
Hypotheses (Hs : objs_ok s) (Hd : vnodes s !! d = Some v) (Hi : inodes s !! internal v = Some i)
  (Hroom : (length (children s d) < 16)%nat) (Hc : d < c) (Hcv : is_Some (vnodes s !! c)).
Let s' := attach s (internal v) i c.

Lemma attach_children_eq : children s d = upto0 (childs i).
Proof using Hd Hi. unfold children, node_inode. rewrite Hd. cbn. by rewrite Hi. Qed.

Lemma attach_inode_ok : inode_ok s d i.
Proof using Hs Hd Hi. destruct (ob_vnode s Hs d v Hd) as (_ & _ & j & Hj & Hok). congruence. Qed.

Lemma attach_upto0 : upto0 (<[length (upto0 (childs i)) := c]> (childs i)) = upto0 (childs i) ++ [c] /\
  exists n, <[length (upto0 (childs i)) := c]> (childs i) = (upto0 (childs i) ++ [c]) ++ replicate n 0.
Proof using Hs Hd Hi Hroom Hc.
  pose proof attach_inode_ok as [_ _ [n En] Hl _]. rewrite attach_children_eq in Hroom.
  pose proof (vnode_pos s Hs d ltac:(by eexists)).
  destruct (upto0_insert (childs i) n c En) as [E1 E2]; [lia|lia|].
  split; [done|]. by exists (n - 1)%nat.
Qed.

Lemma attach_node d' j :
  is_Some (vnodes s !! d') -> node_inode s d' = Some j ->
  node_inode s' d' = Some (if decide (d' = d)
    then Inode (i_type i) (i_name i) (<[length (upto0 (childs i)) := c]> (childs i)) (data i) (data_size i) else j).
Proof using Hs Hd Hi.
  intros [v' Hv'] Hj. unfold node_inode in *. cbn [attach set_inodes vnodes s' inodes] in *. rewrite Hv' in *. cbn in *.
  destruct (decide (d' = d)) as [->|Hne].
  - rewrite Hd in Hv'. injection Hv' as <-. by rewrite lookup_insert_eq.
  - rewrite lookup_insert_ne; [done|]. intros E. apply Hne, (ob_inj s Hs d' d v' v Hv' Hd). done.
Qed.

Lemma attach_children d' : is_Some (vnodes s !! d') ->
  children s' d' = children s d' ++ (if decide (d' = d) then [c] else []).
Proof using Hs Hd Hi Hroom Hc.
  intros Hv. destruct (vnode_inode s Hs d' Hv) as (j & Hj & _). unfold children.
  rewrite (attach_node d' j Hv Hj), Hj. destruct (decide (d' = d)) as [->|].
  - cbn. unfold node_inode in Hj. rewrite Hd in Hj. cbn in Hj. rewrite Hi in Hj. injection Hj as <-.
    apply attach_upto0.
  - by rewrite app_nil_r.
Qed.

Lemma attach_name d' : is_Some (vnodes s !! d') -> name_of s' d' = name_of s d'.
Proof using Hs Hd Hi.
  intros Hv. destruct (vnode_inode s Hs d' Hv) as (j & Hj & _). unfold name_of.
  rewrite (attach_node d' j Hv Hj), Hj. destruct (decide (d' = d)) as [->|]; [|done]. cbn.
  unfold node_inode in Hj. rewrite Hd in Hj. cbn in Hj. rewrite Hi in Hj. by injection Hj as <-.
Qed.

Lemma attach_ok : objs_ok s'.
Proof using Hs Hd Hi Hroom Hc Hcv.
  destruct Hs as [H1 H2 H3 H4 H5]. split; try done.
  - intros k w Hw. destruct (H2 k w Hw) as (Hk & Hiw & j & Hj & Hok). split; [done|]. split; [done|].
    cbn [attach set_inodes vnodes s' inodes] in *. destruct (decide (internal w = internal v)) as [E|Hne].
    + assert (k = d) as -> by (by apply (H3 k d w v)). rewrite E, lookup_insert_eq. eexists. split; [done|].
      rewrite E, Hi in Hj. injection Hj as <-. destruct Hok as [J1 J2 J3 J4 J5].
      destruct attach_upto0 as [Eu [n En]]. split; cbn.
      * done.
      * done.
      * exists n. by rewrite Eu.
      * by rewrite length_insert.
      * rewrite Eu. intros x [Hx|Hx%list_elem_of_singleton]%elem_of_app; [by apply J5|by subst].
    + rewrite lookup_insert_ne by done. exists j. split; [done|]. by destruct Hok.
  - intros k Hk. destruct (H5 k Hk) as (F1 & F2 & F3 & F4). split_and!; try done.
    rewrite <-F1. apply lookup_insert_ne. destruct (H2 d v Hd) as (_ & ? & _). change (next_key s') with (next_key s) in Hk. lia.
Qed.

(** A lookup after it: the new child has the name no older child has. *)
Lemma attach_child d' n : is_Some (vnodes s !! d') ->
  child s' d' n = match child s d' n with
                  | Some x => Some x
                  | None => if decide (d' = d /\ name_of s c = n) then Some c else None
                  end.
Proof using Hs Hd Hi Hroom Hc Hcv.
  intros Hv. unfold child. rewrite (attach_children d' Hv).
  assert (Hfind : forall l, (forall x, x ∈ l -> is_Some (vnodes s !! x)) ->
    List.find (fun x => bool_decide (name_of s' x = n)) l = List.find (fun x => bool_decide (name_of s x = n)) l).
  { induction l as [|x l IH]; intros Hl; [done|]. cbn. rewrite (attach_name x) by (apply Hl; by left).
    destruct (bool_decide (name_of s x = n)); [done|]. apply IH. intros y Hy. apply Hl. by right. }
  rewrite list_find_app, (Hfind (children s d')) by (intros x Hx; by apply (children_vnode s Hs d')).
  destruct (List.find _ (children s d')) as [x|] eqn:E; [done|].
  destruct (decide (d' = d)) as [->|Hne].
  - rewrite Hfind; [|by intros x ->%list_elem_of_singleton]. cbn.
    destruct (bool_decide_reflect (name_of s c = n)); destruct (decide (d = d /\ name_of s c = n)); tauto.
  - cbn. destruct (decide (d' = d /\ name_of s c = n)); tauto.
Qed.

End Attach.
