(* ===== verification/TmpfsSpec.v ===== *)
(** What the file system in memory promises: its lookup is the walk of one component,
    [tmpfs_create] and [tmpfs_mkdir] add one entry, a file holds what was written. *)
From S2P Require Import Prelude CString FsData Vfs Tmpfs FsInv VfsSpec VfsMount FsNodes.

(** * The loops over a directory *)

Section Dir.
Variable (s : fs_state).
Hypothesis (Hs : objs_ok s).

Lemma inode_of_ok d i : node_inode s d = Some i -> inode_of d s = Ok (i, s).
Proof using Hs.
  unfold node_inode, inode_of. destruct (vnodes s !! d) as [v|] eqn:Hv; [|done]. cbn. intros Hi.
  destruct (ob_vnode s Hs d v Hv) as (? & ? & _).
  run (deref_ok vnodes d s v ltac:(lia) Hv). apply deref_ok; [lia|done].
Qed.

(** The comparison of a name with that of a child. *)
Lemma child_name d i c n buf :
  inode_ok s d i -> c ∈ upto0 (childs i) -> holds buf n ->
  exists j x y, node_inode s c = Some j /\ c <> 0 /\
    strcmp buf (i_name j) = Ok x /\ strcmp (i_name j) buf = Ok y /\
    (x =? 0) = bool_decide (name_of s c = n) /\ (y =? 0) = bool_decide (name_of s c = n).
Proof using Hs.
  intros Hok Hc Hn. destruct (io_childs s d i Hok c Hc) as [_ Hv].
  destruct (vnode_inode s Hs c Hv) as (j & Hj & Hjok). pose proof (vnode_pos s Hs c Hv).
  destruct (strcmp_ok buf (i_name j) n _ Hn (io_name s c j Hjok)) as (x & Ex & Hx).
  destruct (strcmp_ok (i_name j) buf _ n (io_name s c j Hjok) Hn) as (y & Ey & Hy).
  exists j, x, y. assert (En : name_of s c = upto0 (i_name j)) by (unfold name_of; by rewrite Hj). rewrite En.
  split_and!; [done|lia|done|done| |].
  - destruct (bool_decide_reflect (upto0 (i_name j) = n)) as [E|E]; [by apply Z.eqb_eq, Hx|].
    apply Z.eqb_neq. intros E0. apply E. symmetry. by apply Hx.
  - destruct (bool_decide_reflect (upto0 (i_name j) = n)) as [E|E]; [by apply Z.eqb_eq, Hy|].
    apply Z.eqb_neq. intros E0. apply E. by apply Hy.
Qed.

Variables (d : Z) (i : inode) (n buf : list Z).
Hypotheses (Hok : inode_ok s d i) (Hn : holds buf n).
Let named (c : Z) : bool := bool_decide (name_of s c = n).

(** The loops stop at the end of the children: at a 0 or at the end of the array. *)
Lemma find_child_ok pre l pad :
  childs i = pre ++ l ++ replicate pad 0 -> upto0 (childs i) = pre ++ l ->
  find_child (length l + pad) (Z.of_nat (length pre)) i buf s = Ok (List.find named l, s) /\
  new_slot (length l + pad) (Z.of_nat (length pre)) i buf s =
    Ok (match List.find named l with Some _ => None | None => Some (Z.of_nat (length (pre ++ l))) end, s) /\
  free_slot (length l + pad) (Z.of_nat (length pre)) i s = Ok (Z.of_nat (length (pre ++ l)), s).
Proof using Hs Hok Hn.
  revert pre. induction l as [|c l IH]; intros pre E Eu.
  - rewrite app_nil_r. cbn [app length Nat.add List.find] in *. destruct pad as [|pad]; [done|].
    cbn [find_child new_slot free_slot].
    assert (Eg : (childs i).[Z.of_nat (length pre)] = Some 0) by (rewrite E; by apply zget_app_mid).
    split_and!; run (lift_opt_ok OutOfBounds _ s _ Eg); done.
  - cbn [app length Nat.add] in *. cbn [find_child new_slot free_slot].
    assert (Eg : (childs i).[Z.of_nat (length pre)] = Some c) by (rewrite E; by apply zget_app_mid).
    destruct (child_name d i c n buf Hok) as (j & x & y & Hj & Hc0 & Ex & Ey & Hx & Hy).
    { rewrite Eu. apply elem_of_app. right. by left. }
    { done. }
    destruct (IH (pre ++ [c])) as (IH1 & IH2 & IH3); [by rewrite <-app_assoc|by rewrite <-app_assoc|].
    replace (Z.of_nat (length (pre ++ [c]))) with (Z.of_nat (length pre) + 1) in IH1, IH2, IH3
      by (rewrite length_app; cbn; lia).
    replace ((pre ++ [c]) ++ l) with (pre ++ c :: l) in IH2, IH3 by (by rewrite <-app_assoc).
    change (List.find named (c :: l)) with (if named c then Some c else List.find named l).
    split_and!; run (lift_opt_ok OutOfBounds _ s _ Eg); (destruct (Z.eqb_spec c 0); [done|]).
    + run (inode_of_ok c j Hj). run (pure_op_ok _ s _ Ex). rewrite Hx. unfold named at 1. by destruct bool_decide.
    + run (inode_of_ok c j Hj). run (pure_op_ok _ s _ Ey). rewrite Hy. unfold named at 1. by destruct bool_decide.
    + done.
Qed.

End Dir.

Lemma dir_loops_ok s d i buf n :
  objs_ok s -> node_inode s d = Some i -> inode_ok s d i -> holds buf n ->
  find_child (Z.to_nat MAX_DIR_NUM) 0 i buf s = Ok (child s d n, s) /\
  new_slot (Z.to_nat MAX_DIR_NUM) 0 i buf s =
    Ok (match child s d n with Some _ => None | None => Some (Z.of_nat (length (children s d))) end, s) /\
  free_slot (Z.to_nat MAX_DIR_NUM) 0 i s = Ok (Z.of_nat (length (children s d)), s).
Proof.
  intros Hs Hi Hok Hn. pose proof Hok as [_ _ [pad Ep] Hl _].
  assert (Ec : children s d = upto0 (childs i)) by (unfold children; by rewrite Hi).
  assert (El : (Z.to_nat MAX_DIR_NUM = length (upto0 (childs i)) + pad)%nat).
  { change (Z.to_nat MAX_DIR_NUM) with 16%nat. rewrite <-Hl, Ep at 1. by rewrite length_app, length_replicate. }
  unfold child. rewrite El, Ec. apply (find_child_ok s Hs d i n buf Hok Hn []); done.
Qed.

Lemma lookup_child_ok s d buf n :
  objs_ok s -> is_Some (vnodes s !! d) -> holds buf n ->
  lookup_child d buf s = Ok (match child s d n with Some c => (1, Some c) | None => (0, None) end, s).
Proof.
  intros Hs Hd Hn. destruct (vnode_inode s Hs d Hd) as (i & Hi & Hok). unfold lookup_child.
  run (inode_of_ok s Hs d i Hi). destruct (dir_loops_ok s d i buf n Hs Hi Hok Hn) as (E & _). run E.
  by destruct (child s d n).
Qed.

Lemma upd_inode_ok s d v i f :
  objs_ok s -> vnodes s !! d = Some v -> inodes s !! internal v = Some i ->
  upd_inode d f s = Ok (tt, set_inodes (<[internal v := f i]>) s).
Proof.
  intros Hs Hd Hi. destruct (ob_vnode s Hs d v Hd) as (? & ? & _). unfold upd_inode.
  run (deref_ok vnodes d s v ltac:(lia) Hd). by run (deref_ok inodes (internal v) s i ltac:(lia) Hi).
Qed.

(** * New nodes *)

Lemma create_vnode_ok t size b mnt type s :
  create_vnode t size b mnt type s =
    Ok (next_key s, new_node s t mnt (Inode type (replicate 16 0) (replicate 16 0) (next_key s + 2, 0) 0)
                      (replicate (Z.to_nat size) b)).
Proof.
  destruct s as [V I N C F B k fs r cpio fi bs mb card].
  transitivity (Ok (k, FsState (<[k := Vnode mnt t t (k + 1)]> V)
    (<[k + 1 := Inode type (replicate 16 0) (replicate 16 0) (k + 1 + 1, 0) 0]> I) N C F
    (<[k + 1 + 1 := replicate (Z.to_nat size) b]> B) (k + 1 + 1 + 1) fs r cpio fi bs mb card)); [reflexivity|].
  unfold new_node. cbn [next_key vnodes inodes blocks fat_nodes mounts files filesystems rootfs cpio_base fat_info
    fat_boot_sector mbr sd].
  replace (k + 1 + 1) with (k + 2) by lia. by replace (k + 2 + 1) with (k + 3) by lia.
Qed.

(** The inode of a new tmpfs node with a name. *)
Definition named_inode (k : Z) (type : fsnode_type) (n : list Z) : inode :=
  Inode type (n ++ 0 :: drop (S (length n)) (replicate 16 0)) (replicate 16 0) (k + 2, 0) 0.

Lemma named_inode_fresh k type n : nonzero n -> (length n < 16)%nat -> fresh_inode (named_inode k type n).
Proof.
  intros Hn Hl. assert (Hh : holds (n ++ 0 :: drop (S (length n)) (replicate 16 0)) n) by by apply holds_self.
  split; [|cbn [i_name named_inode]; rewrite length_app; cbn [length]; rewrite length_drop, length_replicate; lia|done].
  cbn [i_name named_inode]. by rewrite (upto0_holds _ _ Hh).
Qed.

Lemma named_inode_name k type n : nonzero n -> upto0 (i_name (named_inode k type n)) = n.
Proof. intros Hn. apply upto0_holds. by apply holds_self. Qed.

(** The state after a node named [n] was added to [d]. *)
Definition added (s : fs_state) (d : Z) (v : vnode) (i : inode) (type : fsnode_type) (n : list Z) : fs_state :=
  attach (new_node s Tmpfs 0 (named_inode (next_key s) type n) (replicate 4096 None)) (internal v) i (next_key s).

Lemma add_child_ok s d v i type buf n :
  objs_ok s -> vnodes s !! d = Some v -> inodes s !! internal v = Some i -> holds buf n ->
  (length (children s d) < 16)%nat ->
  add_child d (Z.of_nat (length (children s d))) type buf s =
    if (length n <? 16)%nat then Ok (next_key s, added s d v i type n) else Err OutOfBounds.
Proof.
  intros Hs Hd Hi Hn Hroom. pose proof (ob_next s Hs) as Hk.
  destruct (ob_vnode s Hs d v Hd) as (Hdk & Hik & i' & Hi' & Hiok). rewrite Hi in Hi'. injection Hi' as <-.
  assert (Ec : children s d = upto0 (childs i)) by (unfold children, node_inode; rewrite Hd; cbn; by rewrite Hi).
  unfold add_child, tmpfs_create_vnode. run (create_vnode_ok Tmpfs DEFAULT_INODE_SIZE None 0 type s).
  set (k := next_key s) in *. set (s1 := new_node s Tmpfs 0 _ _).
  set (j0 := Inode type (replicate 16 0) (replicate 16 0) (k + 2, 0) 0) in s1.
  assert (Hs1 : objs_ok s1).
  { apply new_node_ok; [done|apply empty_fresh]. }
  assert (Hd1 : vnodes s1 !! d = Some v) by (cbn; rewrite lookup_insert_ne; [done|unfold k; lia]).
  assert (Hi1 : inodes s1 !! internal v = Some i) by (cbn; rewrite lookup_insert_ne; [done|unfold k; lia]).
  run (inode_of_ok s1 Hs1 d i ltac:(unfold node_inode; rewrite Hd1; exact Hi1)).
  assert (El : length (childs i) = 16%nat) by apply Hiok. rewrite Ec in *.
  run (lift_opt_ok OutOfBounds _ s1 _ (zset_ok (childs i) (Z.of_nat (length (upto0 (childs i)))) k ltac:(lia))).
  rewrite Nat2Z.id.
  rewrite (bind_ok _ _ s1 tt (attach s1 (internal v) i k)) by exact (upd_inode_ok s1 d v i _ Hs1 Hd1 Hi1).
  set (s2 := attach s1 (internal v) i k).
  assert (Hk2 : node_inode s2 k = Some j0).
  { unfold node_inode. cbn. rewrite lookup_insert_eq. cbn. rewrite lookup_insert_ne by (unfold k; lia).
    by rewrite lookup_insert_eq. }
  assert (Hs2 : objs_ok s2).
  { apply (attach_ok s1 d v i k); try done; [|unfold k; lia|cbn; rewrite lookup_insert_eq; by eexists].
    unfold children, node_inode. rewrite Hd1. cbn [mbind option_bind]. by rewrite Hi1. }
  run (inode_of_ok s2 Hs2 k j0 Hk2).
  destruct (Nat.ltb_spec (length n) 16) as [Hl|Hl].
  - run (pure_op_ok _ s2 _ (strcpy_ok (i_name j0) buf n Hn Hl)).
    assert (Hw : vnodes s2 !! k = Some (Vnode 0 Tmpfs Tmpfs (k + 1))) by (cbn; by rewrite lookup_insert_eq).
    unfold node_inode in Hk2. rewrite Hw in Hk2.
    run (upd_inode_ok s2 k _ j0 (with_name (n ++ 0 :: drop (S (length n)) (i_name j0))) Hs2 Hw Hk2).
    match goal with |- mret k ?x = _ => assert (x = added s d v i type n) as ->; [|done] end.
    unfold added, attach, new_node, set_inodes. cbn. f_equal.
    rewrite insert_insert_ne by (unfold k; lia). by rewrite insert_insert_eq.
  - cbn [mbind M_bind]. unfold mbind, M_bind, pure_op. by rewrite (strcpy_short _ _ n) by (done || (cbn; lia)).
Qed.

(** * Adding an entry *)

(** [s'] is [s] with an empty node [k], not mounted on, as the entry [n] of [d]. *)
Record adds (s s' : fs_state) (d : Z) (n : list Z) (k : Z) : Prop := {
  ad_objs : objs_ok s';
  ad_old : forall x, is_Some (vnodes s !! x) -> vnodes s' !! x = vnodes s !! x;
  ad_none : vnodes s !! k = None;
  ad_some : is_Some (vnodes s' !! k);
  ad_child : forall x m, is_Some (vnodes s !! x) ->
    child s' x m = match child s x m with
                   | Some y => Some y
                   | None => if decide (x = d /\ m = n) then Some k else None
                   end;
  ad_empty : forall m, child s' k m = None;
  ad_mounted : mounted s' k = k;
  ad_mounts : mounts s' = mounts s;
  ad_files : files s' = files s;
  ad_filesystems : filesystems s' = filesystems s;
  ad_rootfs : rootfs s' = rootfs s
}.

Lemma added_adds s d v i type n :
  objs_ok s -> vnodes s !! d = Some v -> inodes s !! internal v = Some i -> nonzero n -> (length n < 16)%nat ->
  (length (children s d) < 16)%nat -> adds s (added s d v i type n) d n (next_key s).
Proof.
  intros Hs Hd Hi Hn Hl Hroom. set (k := next_key s). set (j := named_inode k type n).
  set (s1 := new_node s Tmpfs 0 j (replicate 4096 None)).
  pose proof (named_inode_fresh k type n Hn Hl) as Hj.
  pose proof (new_node_ok s Tmpfs j (replicate 4096 None) Hs Hj) as Hs1. fold s1 in Hs1.
  pose proof (new_node_grows s Tmpfs j (replicate 4096 None) Hs) as Hg. fold s1 in Hg.
  assert (Hdk : 0 < d < k /\ 0 < internal v < k).
  { destruct (ob_vnode s Hs d v Hd) as (? & ? & _). done. }
  assert (Hd1 : vnodes s1 !! d = Some v) by exact (grows_vnode s s1 Hg d v Hd).
  assert (Hi1 : inodes s1 !! internal v = Some i) by (cbn; rewrite lookup_insert_ne; [done|unfold k in *; lia]).
  assert (Hk1 : is_Some (vnodes s1 !! k)) by (cbn; rewrite lookup_insert_eq; by eexists).
  assert (Hroom1 : (length (children s1 d) < 16)%nat).
  { unfold children in *. by rewrite (grows_inode s s1 Hs Hg d ltac:(by eexists)). }
  assert (Hnode : node_inode s1 k = Some j) by apply new_node_node.
  assert (Hname : name_of s1 k = n) by (unfold name_of; rewrite Hnode; by apply named_inode_name).
  assert (Hold : forall x, is_Some (vnodes s !! x) -> is_Some (vnodes s1 !! x)).
  { intros x [w Hw]. exists w. by apply (grows_vnode s s1 Hg). }
  pose proof (attach_child s1 d v i k Hs1 Hd1 Hi1 Hroom1 ltac:(lia) Hk1) as Hch.
  assert (Hempty : forall m, child s1 k m = None) by (intros m; unfold child, children; by rewrite Hnode).
  split; try done.
  - apply (attach_ok s1 d v i k); (done || lia).
  - intros x Hx. exact (new_node_vnode s Tmpfs j (replicate 4096 None) Hs x Hx).
  - destruct (vnodes s !! k) as [w|] eqn:E; [|done]. destruct (ob_vnode s Hs k w E). lia.
  - intros x m Hx. change (added s d v i type n) with (attach s1 (internal v) i k).
    rewrite (Hch x m (Hold x Hx)), (grows_child s s1 Hs Hg x m Hx). destruct (child s x m); [done|].
    rewrite Hname. destruct (decide (x = d /\ n = m)), (decide (x = d /\ m = n)); intuition congruence.
  - intros m. change (added s d v i type n) with (attach s1 (internal v) i k).
    rewrite (Hch k m Hk1), Hempty. destruct (decide _) as [[E _]|]; [lia|done].
  - unfold mounted. cbn. rewrite lookup_insert_eq. done.
Qed.

Section Adds.
Variables (s s' : fs_state) (d : Z) (n : list Z) (k : Z).
Hypotheses (Hs : objs_ok s) (Ha : adds s s' d n k).

Lemma adds_mounted x : is_Some (vnodes s !! x) -> mounted s' x = mounted s x.
Proof using Hs Ha.
  intros Hx. unfold mounted. rewrite (ad_old s s' d n k Ha x Hx). destruct Hx as [v Hv]. rewrite Hv.
  by rewrite (ad_mounts s s' d n k Ha).
Qed.

(** The old paths lead where they led; a new one leads to the new node. *)
Lemma adds_walk q x : is_Some (vnodes s !! x) ->
  (forall y, walk s x q = Some y -> walk s' x q = Some y) /\
  (forall y, walk s' x q = Some y -> walk s x q = Some y \/ y = k).
Proof using Hs Ha.
  revert x. induction q as [|m q IH]; intros x Hx; [split; auto|]. cbn.
  rewrite (ad_child s s' d n k Ha x m Hx). destruct (child s x m) as [z|] eqn:Ez.
  - destruct (child_vnode s Hs x m z Ez) as [Hz _]. cbn. rewrite (adds_mounted z Hz).
    apply IH. by apply (mounted_vnode s Hs z Hz).
  - destruct (decide (x = d /\ m = n)); [|split; auto]. cbn. split; [done|]. intros y.
    rewrite (ad_mounted s s' d n k Ha). destruct q as [|m' q]; cbn.
    + intros [= <-]. by right.
    + by rewrite (ad_empty s s' d n k Ha).
Qed.

Lemma adds_new pre : is_Some (vnodes s !! root_of s) ->
  walk s (root_of s) pre = Some d -> child s d n = None -> walk s' (root_of s) (pre ++ [n]) = Some k.
Proof using Hs Ha.
  intros Hr Hd Hc. destruct (adds_walk pre _ Hr) as [Hw _]. destruct (walk_vnode s Hs _ _ _ Hr Hd) as [Hdv _].
  rewrite walk_last, (Hw d Hd). cbn. rewrite (ad_child s s' d n k Ha d n Hdv), Hc.
  rewrite decide_True by done. cbn. by rewrite (ad_mounted s s' d n k Ha).
Qed.

Lemma adds_root : root_of s' = root_of s.
Proof using Ha. unfold root_of. by rewrite (ad_rootfs _ _ _ _ _ Ha), (ad_mounts _ _ _ _ _ Ha). Qed.

Lemma adds_fs_ok : fs_ok s -> fs_ok s'.
Proof using Ha.
  intros [_ Hl (Hr & m & Em & Hv)]. split.
  - apply (ad_objs s s' d n k Ha).
  - by rewrite (ad_filesystems s s' d n k Ha).
  - rewrite (ad_rootfs s s' d n k Ha), (ad_mounts s s' d n k Ha). split; [done|]. exists m. split; [done|].
    by rewrite (ad_old s s' d n k Ha).
Qed.
End Adds.

(** * The operations on a directory *)

Lemma tmpfs_create_ok s d v i buf n :
  objs_ok s -> vnodes s !! d = Some v -> inodes s !! internal v = Some i -> holds buf n ->
  tmpfs_create d buf s =
    if decide (i_type i <> FSNODE_TYPE_DIR) then Ok (0, None, s)
    else match child s d n with
         | Some _ => Ok (0, None, s)
         | None =>
           if (length (children s d) <? 16)%nat && (length n <=? 256)%nat then
             if (length n <? 16)%nat then Ok (1, Some (next_key s), added s d v i FSNODE_TYPE_FILE n)
             else Err OutOfBounds
           else Ok (0, None, s)
         end.
Proof.
  intros Hs Hd Hi Hn. assert (Hni : node_inode s d = Some i) by (unfold node_inode; rewrite Hd; exact Hi).
  destruct (vnode_inode s Hs d ltac:(by eexists)) as (i' & Hi' & Hok). rewrite Hni in Hi'. injection Hi' as <-.
  unfold tmpfs_create. run (inode_of_ok s Hs d i Hni).
  destruct (decide (i_type i <> FSNODE_TYPE_DIR)) as [Ht|Ht].
  { by rewrite bool_decide_false. }
  rewrite bool_decide_true by (destruct (i_type i); [exfalso; by apply Ht|done]). cbn [negb].
  destruct (dir_loops_ok s d i buf n Hs Hni Hok Hn) as (_ & E & _). run E.
  destruct (child s d n); [done|]. unfold MAX_DIR_NUM, MAX_PATH_LEN.
  destruct (Z.leb_spec 16 (Z.of_nat (length (children s d)))), (Nat.ltb_spec (length (children s d)) 16); try lia; [done|].
  run (pure_op_ok _ s _ (strlen_ok buf n Hn)). cbn [andb].
  destruct (Z.ltb_spec 256 (Z.of_nat (length n))), (Nat.leb_spec (length n) 256); try lia; [done|].
  pose proof (add_child_ok s d v i FSNODE_TYPE_FILE buf n Hs Hd Hi Hn ltac:(lia)) as Ea.
  destruct (length n <? 16)%nat; [by run Ea|by apply bind_err].
Qed.

Lemma tmpfs_mkdir_ok s d v i buf n :
  objs_ok s -> vnodes s !! d = Some v -> inodes s !! internal v = Some i -> holds buf n ->
  tmpfs_mkdir d buf s =
    if decide (i_type i <> FSNODE_TYPE_DIR) then Ok (-1, None, s)
    else if (length (children s d) <? 16)%nat && (length n <=? 256)%nat then
      if (length n <? 16)%nat then Ok (0, Some (next_key s), added s d v i FSNODE_TYPE_DIR n)
      else Err OutOfBounds
    else Ok (-1, None, s).
Proof.
  intros Hs Hd Hi Hn. assert (Hni : node_inode s d = Some i) by (unfold node_inode; rewrite Hd; exact Hi).
  destruct (vnode_inode s Hs d ltac:(by eexists)) as (i' & Hi' & Hok). rewrite Hni in Hi'. injection Hi' as <-.
  unfold tmpfs_mkdir. run (inode_of_ok s Hs d i Hni).
  destruct (decide (i_type i <> FSNODE_TYPE_DIR)) as [Ht|Ht].
  { by rewrite bool_decide_false. }
  rewrite bool_decide_true by (destruct (i_type i); [exfalso; by apply Ht|done]). cbn [negb].
  destruct (dir_loops_ok s d i buf n Hs Hni Hok Hn) as (_ & _ & E). run E. unfold MAX_DIR_NUM, MAX_PATH_LEN.
  destruct (Z.leb_spec 16 (Z.of_nat (length (children s d)))), (Nat.ltb_spec (length (children s d)) 16); try lia; [done|].
  run (pure_op_ok _ s _ (strlen_ok buf n Hn)). cbn [andb].
  destruct (Z.ltb_spec 256 (Z.of_nat (length n))), (Nat.leb_spec (length n) 256); try lia; [done|].
  pose proof (add_child_ok s d v i FSNODE_TYPE_DIR buf n Hs Hd Hi Hn ltac:(lia)) as Ea.
  destruct (length n <? 16)%nat; [by run Ea|by apply bind_err].
Qed.
