(* ===== verification/FileSystems.v ===== *)
(** The kernel's three file systems under the virtual one: the operation tables as the
    instance of [Ops], the laws the virtual file system asks for, and what files and
    directories do through both layers. *)
From Stdlib Require Import Ascii String.
From S2P Require Import Prelude CString FsData Vfs Tmpfs Initramfs Fat32 FsInv VfsSpec VfsMount FsNodes TmpfsSpec.

(** [fuel] bounds the depth of the directories and the length of the chains on the
    FAT32 card, [junk] is the stack under [new_entry] of [fat32_create]. *)
Section Kernel.
Variables (fuel : nat) (junk : list Z).

#[export] Instance kernel_ops : Ops := {
  vnode_ops t := match t with
                 | Tmpfs => tmpfs_vnode_operations
                 | Initramfs => initramfs_vnode_operations
                 | Fat32 => fat32_vnode_operations fuel junk
                 end;
  file_ops t := match t with
                | Tmpfs => tmpfs_file_operations
                | Initramfs => initramfs_file_operations
                | Fat32 => fat32_file_operations
                end;
  fs_table t := match t with
                | Tmpfs => tmpfs_filesystem
                | Initramfs => initramfs_filesystem
                | Fat32 => fat32_filesystem fuel
                end
}.

#[export] Instance kernel_laws : FsLaws.
Proof.
  refine {| fs_string := fun t => match t with
                                  | Tmpfs => chars "tmpfs" | Initramfs => chars "initramfs" | Fat32 => chars "fat32"
                                  end |}.
  - intros []; (split; [repeat constructor|by exists []]).
  - intros [] s d buf n; apply lookup_child_ok.
Defined.

#[export] Instance tmpfs_mountable : Mountable Tmpfs.
Proof.
  refine {| mount_pre := fun _ => True |}. intros s m r s' Hs _ Hm Hnone E. cbn in E.
  unfold tmpfs_setup_mount, tmpfs_create_vnode in E.
  rewrite (bind_ok _ _ _ _ _ (create_vnode_ok Tmpfs DEFAULT_INODE_SIZE None 0 FSNODE_TYPE_DIR s)) in E.
  match type of E with context [new_node s Tmpfs 0 ?j ?b] => set (i := j) in E; set (blk := b) in E end.
  set (s1 := new_node s Tmpfs 0 i blk) in E. assert (Hi : fresh_inode i) by apply empty_fresh.
  assert (Hs1 : objs_ok s1) by (by apply new_node_ok).
  assert (Hg : grows s s1) by (by apply new_node_grows).
  assert (E' : Ok (1, set_mounts (<[m := Mount (next_key s) Tmpfs]>) s1) = Ok (r, s')) by exact E.
  injection E' as <- <-. split; [done|].
  destruct (objs_mount s1 m (Mount (next_key s) Tmpfs) Hs1) as [Ho Hg'];
    [pose proof (gr_next s s1 Hg); lia|done|]. split; [done|]. split; [by eapply grows_trans|].
  exists (next_key s). split; [apply lookup_insert_eq|]. split; [lia|]. cbn. rewrite lookup_insert_eq. by eexists.
Defined.

(** * Files *)

(** The vnode [node] is a tmpfs file with the bytes [b]. *)
Record regular (s : fs_state) (node : Z) (v : vnode) (i : inode) (b : list (option Z)) : Prop := {
  rg_vnode : vnodes s !! node = Some v;
  rg_ops : vf_ops v = Tmpfs;
  rg_inode : inodes s !! internal v = Some i;
  rg_off : (data i).2 = 0;
  rg_ptr : (data i).1 <> 0;
  rg_block : blocks s !! (data i).1 = Some b;
  rg_len : length b = 4096%nat;
  rg_size : 0 <= data_size i <= 4096;
  rg_written : forall k, Z.of_nat k < data_size i -> exists c, b !! k = Some (Some c)
}.

(** The bytes of a file. *)
Definition contents (i : inode) (b : list (option Z)) : list Z :=
  written (take (Z.to_nat (data_size i)) b).

Lemma written_app l r : written ((Some <$> l) ++ r) = l ++ written r.
Proof. induction l as [|c l IH]; [done|]. cbn. by rewrite IH. Qed.

Lemma written_some l : written (Some <$> l) = l.
Proof. rewrite <-(app_nil_r (Some <$> l)), written_app. by rewrite app_nil_r. Qed.

Lemma all_written (b : list (option Z)) :
  (forall k, (k < length b)%nat -> exists c, b !! k = Some (Some c)) -> b = Some <$> written b.
Proof.
  induction b as [|o b IH]; intros H; [done|]. destruct (H O) as [c Hc]; [cbn; lia|]. injection Hc as ->. cbn.
  f_equal. apply IH. intros k Hk. apply (H (S k)). cbn. lia.
Qed.

Lemma mapM_some (l : list Z) : mapM id (Some <$> l) = Some l.
Proof. induction l as [|c l IH]; [done|]. cbn. rewrite IH. done. Qed.

Section File.
Variables (s : fs_state) (f : Z) (h : file) (v : vnode) (i : inode) (b : list (option Z)).
Hypotheses (Hs : objs_ok s) (Hf : files s !! f = Some h) (Hf0 : f <> 0) (Ho : f_ops h = Tmpfs)
  (Hr : regular s (f_vnode h) v i b) (Hpos : 0 <= f_pos h <= data_size i).

Lemma file_inode : inode_of (f_vnode h) s = Ok (i, s).
Proof using Hs Hr.
  apply (inode_of_ok s Hs). unfold node_inode. rewrite (rg_vnode _ _ _ _ _ Hr). apply (rg_inode _ _ _ _ _ Hr).
Qed.

Lemma file_block : read_block ((data i).1, (data i).2 + f_pos h) s = Ok (drop (Z.to_nat (f_pos h)) b, s).
Proof using Hr Hpos.
  destruct Hr as [? ? ? E0 Hp Hb Hl Hz _]. unfold read_block. cbn [fst snd]. run (deref_ok blocks _ s b Hp Hb).
  rewrite E0, Hl. change (Z.of_nat 4096) with 4096. rewrite Z.add_0_l. by repeat zcase; try lia.
Qed.

(** The state after a write of [bytes] at the position of the handle. *)
Definition write_state (bytes : list Z) : fs_state :=
  let pos := f_pos h + Z.of_nat (length bytes) in
  let s1 := set_blocks (<[(data i).1 := take (Z.to_nat (f_pos h)) b ++ (Some <$> bytes)
                                          ++ drop (Z.to_nat pos) b]>) s in
  let s2 := set_files (<[f := File (f_vnode h) pos (f_ops h) (f_flags h)]>) s1 in
  if data_size i <? pos then set_inodes (<[internal v := with_size pos i]>) s2 else s2.

(** A write fits in the 4096 bytes or overruns the block. *)
Lemma tmpfs_write_ok buf len :
  0 < len <= Z.of_nat (length buf) ->
  tmpfs_write f buf len s =
    if f_pos h + len <=? 4096 then Ok (s32 len, write_state (take (Z.to_nat len) buf)) else Err OutOfBounds.
Proof using Hs Hf Hf0 Hr Hpos.
  intros Hlen. pose proof Hr as [Hv Hvo Hi E0 Hp Hb Hl Hz _]. unfold tmpfs_write.
  destruct (Z.eqb_spec len 0); [lia|]. run (deref_ok files f s h Hf0 Hf). run file_inode.
  unfold copy_to at 1. cbn [fst snd].
  destruct (Z.leb_spec (f_pos h + len) 4096) as [Hfit|Hover].
  - set (bytes := take (Z.to_nat len) buf).
    assert (Hbl : length bytes = Z.to_nat len) by (unfold bytes; rewrite length_take; lia).
    set (s1 := set_blocks (<[(data i).1 := take (Z.to_nat (f_pos h)) b ++ (Some <$> bytes)
                ++ drop (Z.to_nat (f_pos h + Z.of_nat (length bytes))) b]>) s).
    rewrite (bind_ok _ _ s tt s1).
    2:{ run file_block. rewrite E0, Z.add_0_l.
        run (pure_op_ok _ s _ (memcpy_ok (drop (Z.to_nat (f_pos h)) b) (Some <$> buf) (Z.to_nat len)
               ltac:(rewrite length_drop; lia) ltac:(rewrite length_fmap; lia))).
        unfold modify, s1, set_blocks. rewrite Hb. cbn [default]. rewrite <-fmap_take, drop_drop.
        fold bytes. rewrite Hbl. do 4 f_equal. f_equal. f_equal. f_equal. lia. }
    rewrite u64_small by lia.
    replace (f_pos h + len) with (f_pos h + Z.of_nat (length bytes)) by lia.
    set (s2 := set_files (<[f := File (f_vnode h) (f_pos h + Z.of_nat (length bytes)) (f_ops h) (f_flags h)]>) s1).
    run (eq_refl : modify (set_files (<[f := File (f_vnode h) (f_pos h + Z.of_nat (length bytes)) (f_ops h) (f_flags h)]>)) s1 = Ok (tt, s2)).
    unfold write_state. fold s1. fold s2. destruct (data_size i <? f_pos h + Z.of_nat (length bytes)); [|done].
    unfold upd_inode. destruct (ob_vnode s Hs _ v Hv) as (? & ? & _).
    rewrite (bind_ok _ _ s2 tt (set_inodes (<[internal v := with_size (f_pos h + Z.of_nat (length bytes)) i]>) s2)); [done|].
    run (deref_ok vnodes (f_vnode h) s2 v ltac:(lia) Hv). by run (deref_ok inodes (internal v) s2 i ltac:(lia) Hi).
  - apply bind_err. run file_block.
    assert (E : memcpy (drop (Z.to_nat (f_pos h)) b) (Some <$> buf) (Z.to_nat len) = Err OutOfBounds).
    { apply memcpy_short. rewrite length_drop. lia. }
    unfold mbind, M_bind, pure_op. by rewrite E.
Qed.

(** A read gives the bytes of the file from the position of the handle on, as many as
    there are. *)
Lemma tmpfs_read_ok buf len :
  0 <= len -> f_pos h + len < 2 ^ 64 -> Z.min len (data_size i - f_pos h) <= Z.of_nat (length buf) ->
  let n := Z.min len (data_size i - f_pos h) in
  tmpfs_read f buf len s =
    Ok (n, take (Z.to_nat n) (drop (Z.to_nat (f_pos h)) (contents i b)) ++ drop (Z.to_nat n) buf,
        set_files (<[f := File (f_vnode h) (f_pos h + n) (f_ops h) (f_flags h)]>) s).
Proof using Hs Hf Hf0 Hr Hpos.
  intros Hlen Hw Hbuf n. pose proof Hr as [Hv Hvo Hi E0 Hp Hb Hl Hz Hwr]. unfold tmpfs_read, read_node.
  run (deref_ok files f s h Hf0 Hf). run file_inode. rewrite (u64_small (f_pos h + len)) by lia.
  assert (En : (if data_size i <? f_pos h + len then u64 (data_size i - f_pos h) else len) = n).
  { unfold n. zcase; [rewrite u64_small by lia|]; lia. }
  rewrite En. assert (Hn : 0 <= n <= data_size i - f_pos h) by lia.
  set (out := take (Z.to_nat n) (drop (Z.to_nat (f_pos h)) (contents i b)) ++ drop (Z.to_nat n) buf).
  rewrite (bind_ok _ _ s out s).
  2:{ unfold copy_from. run file_block.
      run (pure_op_ok _ s _ (memcpy_ok (Some <$> buf) (drop (Z.to_nat (f_pos h)) b) (Z.to_nat n)
             ltac:(rewrite length_fmap; lia) ltac:(rewrite length_drop; lia))).
      assert (Ec : take (Z.to_nat (data_size i)) b = Some <$> contents i b).
      { apply all_written. intros k Hk. rewrite length_take in Hk. rewrite lookup_take_lt by lia.
        apply Hwr. lia. }
      assert (Ed : take (Z.to_nat n) (drop (Z.to_nat (f_pos h)) b) =
                   Some <$> take (Z.to_nat n) (drop (Z.to_nat (f_pos h)) (contents i b))).
      { rewrite fmap_take, fmap_drop, <-Ec, <-(take_drop (Z.to_nat (data_size i)) b) at 1.
        rewrite drop_app_le by (rewrite length_take; lia). rewrite take_app_le; [done|].
        rewrite length_drop, length_take. lia. }
      rewrite Ed, <-fmap_drop, <-fmap_app. fold out. by rewrite mapM_some. }
  rewrite u64_small by lia. unfold mbind, M_bind, modify, mret, M_ret. rewrite s32_small by lia. done.
Qed.

End File.
End Kernel.
