(* ===== verification/FsSafe.v ===== *)
(** What every operation of the file systems keeps, however it ends: the nodes are a tree of
    objects that are there, so no lookup ever follows a pointer to nothing. *)
From Stdlib Require Import Ascii String.
From S2P Require Import Prelude CString FsData Vfs Tmpfs Initramfs Fat32 FsInv VfsSpec VfsMount FsNodes TmpfsSpec FileSystems.

(** * The invariant *)

(** A name is a string in its array; the children are younger nodes, or none. *)
Definition name_ok (n : list Z) : Prop := length n = 16%nat /\ 0 ∈ n.
Definition kids_ok (s : fs_state) (k : Z) (l : list Z) : Prop :=
  length l = 16%nat /\ forall c, c ∈ l -> c <> 0 -> k < c /\ is_Some (vnodes s !! c).

Record tree_ok (s : fs_state) : Prop := {
  tr_next : 0 < next_key s;
  tr_vnode : forall k v, vnodes s !! k = Some v -> 0 < k < next_key s /\ 0 < internal v < next_key s /\ is_Some (inodes s !! internal v);
  tr_inode : forall k v i, vnodes s !! k = Some v -> inodes s !! internal v = Some i -> name_ok (i_name i) /\ kids_ok s k (childs i);
  tr_inj : forall k k' v v', vnodes s !! k = Some v -> vnodes s !! k' = Some v' -> internal v = internal v' -> k = k';
  tr_mount : forall k v, vnodes s !! k = Some v -> v_mount v <> 0 ->
    exists m, mounts s !! v_mount v = Some m /\ k < root m /\ is_Some (vnodes s !! root m);
  tr_fresh : forall k, next_key s <= k -> inodes s !! k = None /\ mounts s !! k = None;
  tr_root : rootfs s <> 0 /\ exists m, mounts s !! rootfs s = Some m /\ is_Some (vnodes s !! root m);
  tr_table : length (filesystems s) = 8%nat
}.

(** The invariant of the objects is stronger. *)
Lemma name_ok_holds n : length n = 16%nat -> holds n (upto0 n) -> name_ok n.
Proof. intros Hl [_ (r & E)]. split; [done|]. rewrite E. set_solver. Qed.

Lemma fs_ok_tree s : fs_ok s -> tree_ok s.
Proof.
  intros [[H1 H2 H3 H4 H5] Ht Hr]. split; try done.
  - intros k v Hv. destruct (H2 k v Hv) as (A & B & i & Hi & _). split_and!; [lia..|by exists i].
  - intros k v i Hv Hi. destruct (H2 k v Hv) as (_ & _ & j & Hj & Hok). assert (j = i) as -> by congruence.
    split; [apply name_ok_holds; apply Hok|]. split; [apply Hok|]. intros c Hc Hz. apply (io_childs s k i Hok).
    destruct (io_childs_pad s k i Hok) as (n & En). rewrite En in Hc. apply elem_of_app in Hc as [Hc|Hc]; [done|].
    apply elem_of_replicate in Hc as [-> _]. done.
  - intros k v Hv Hm. by destruct (H4 k v Hv Hm).
  - intros k Hk. by destruct (H5 k Hk) as (? & ? & _).
Qed.

(** * How the objects grow *)

(** Nothing but new nodes: they are mounted on nothing, and nothing is mounted on them. *)
Record ext (s s' : fs_state) : Prop := {
  ex_vnodes : forall k v, vnodes s !! k = Some v -> vnodes s' !! k = Some v;
  ex_new : forall k v, vnodes s' !! k = Some v -> vnodes s !! k = None -> next_key s <= k /\ next_key s <= internal v /\ v_mount v = 0;
  ex_inodes : forall k, is_Some (inodes s !! k) -> is_Some (inodes s' !! k);
  ex_next : next_key s <= next_key s';
  ex_mounts : mounts s' = mounts s;
  ex_root : rootfs s' = rootfs s
}.

Lemma ext_refl s : ext s s.
Proof. split; try done. congruence. Qed.
Lemma ext_trans s1 s2 s3 : ext s1 s2 -> ext s2 s3 -> ext s1 s3.
Proof.
  intros [A1 A2 A3 A4 A5 A6] [B1 B2 B3 B4 B5 B6]. split; [auto| |auto|lia|congruence|congruence].
  intros k v Hv Hn. destruct (vnodes s2 !! k) as [w|] eqn:E; [|destruct (B2 k v Hv E) as (? & ? & ?); split_and!; [lia|lia|done]].
  rewrite (B1 k w E) in Hv. injection Hv as ->. by apply A2.
Qed.

Lemma kids_ext s s' k l : ext s s' -> kids_ok s k l -> kids_ok s' k l.
Proof.
  intros Hx [Hl Hk]. split; [done|]. intros c Hc Hz. destruct (Hk c Hc Hz) as [? [v Hv]]. split; [done|].
  exists v. by apply (ex_vnodes s s' Hx).
Qed.

(** The invariant, some time after [s0]. *)
Definition since (s0 s : fs_state) : Prop := tree_ok s /\ ext s0 s.

(** [m] keeps the invariant and only adds nodes. *)
Abbreviation safe m := (forall s0, keeps (since s0) m (fun _ => True)).

Lemma safe_use {A} (m : M fs_state A) s a s' : safe m -> tree_ok s -> m s = Ok (a, s') -> tree_ok s' /\ ext s s'.
Proof. intros Hm Hs E. by destruct (Hm s s a s' (conj Hs (ext_refl s)) E). Qed.

Lemma safe_intro {A} (m : M fs_state A) : (forall s a s', tree_ok s -> m s = Ok (a, s') -> tree_ok s' /\ ext s s') -> safe m.
Proof. intros Hm s0 s a s' [Hs Hx] E. destruct (Hm s a s' Hs E). split; [|done]. split; [done|by apply (ext_trans s0 s)]. Qed.

(** A change of what the tree does not depend on. *)
Record same_nodes (s s' : fs_state) : Prop := {
  sn_vnodes : vnodes s' = vnodes s;
  sn_inodes : inodes s' = inodes s;
  sn_mounts : mounts s' = mounts s;
  sn_next : next_key s' = next_key s;
  sn_root : rootfs s' = rootfs s;
  sn_table : filesystems s' = filesystems s
}.
Lemma same_nodes_ok s s' : same_nodes s s' -> tree_ok s -> tree_ok s' /\ ext s s'.
Proof.
  intros [A B C D E F] [H1 H2 H3 H4 H5 H6 H7 H8]. split; split; unfold kids_ok in *; rewrite ?A, ?B, ?C, ?D, ?E, ?F; try done. congruence.
Qed.
Lemma safe_modify f : (forall s, same_nodes s (f s)) -> safe (modify f).
Proof. intros Hf. apply safe_intro. intros s a s' Hs E. injection E as _ <-. by apply same_nodes_ok. Qed.

Lemma same_deref {A} (f : fs_state -> gmap Z A) p s x s' : deref f p s = Ok (x, s') -> s' = s /\ p <> 0 /\ f s !! p = Some x.
Proof.
  unfold deref. destruct (Z.eqb_spec p 0); [done|]. destruct (f s !! p) eqn:E; [|done]. intros H. injection H as <- <-. done.
Qed.
Lemma keeps_deref {A} I (f : fs_state -> gmap Z A) p : keeps I (deref f p) (fun _ => True).
Proof. apply keeps_pure. intros s a s' E. by apply same_deref in E as (-> & _). Qed.
Lemma keeps_pure_op {A} I (r : res A) : keeps I (pure_op r) (fun _ => True).
Proof. by apply (keeps_lift_res _ r _ _ (fun _ => eq_refl)). Qed.
Lemma same_inode_of node s i s' : inode_of node s = Ok (i, s') ->
  s' = s /\ exists v, vnodes s !! node = Some v /\ inodes s !! internal v = Some i.
Proof.
  unfold inode_of. intros E. inv_step E as v s1 E1. apply same_deref in E1 as (-> & _ & Hv). apply same_deref in E as (-> & _ & Hi).
  split; [done|]. by exists v.
Qed.
Lemma keeps_inode_of I node : keeps I (inode_of node) (fun _ => True).
Proof. apply keeps_pure. intros s a s' E. by apply same_inode_of in E as (-> & _). Qed.

#[export] Hint Extern 1 (keeps _ (deref _ _) _) => apply keeps_deref : keeps.
#[export] Hint Extern 1 (keeps _ (pure_op _) _) => apply keeps_pure_op : keeps.
#[export] Hint Extern 1 (keeps _ (inode_of _) _) => apply keeps_inode_of : keeps.
#[export] Hint Extern 1 (keeps (since _) (modify _) _) => (apply safe_modify; intros; split; reflexivity) : keeps.
#[export] Hint Extern 1 (keeps _ get _) => apply (keeps_gets _ id) : keeps.

(** * The files *)

Lemma safe_read_block p : safe (read_block p).
Proof. intros s0. unfold read_block. keep. Qed.
#[export] Hint Resolve safe_read_block : keeps.
Lemma safe_copy_to p buf n : safe (copy_to p buf n).
Proof. intros s0. unfold copy_to. keep. Qed.
Lemma safe_copy_from buf p n : safe (copy_from buf p n).
Proof. intros s0. unfold copy_from. keep. Qed.
#[export] Hint Resolve safe_copy_to safe_copy_from : keeps.

(** An inode is written: whoever has it must be content with it. *)
Lemma set_inode_ok s p i : tree_ok s -> is_Some (inodes s !! p) ->
  (forall k v, vnodes s !! k = Some v -> internal v = p -> name_ok (i_name i) /\ kids_ok s k (childs i)) ->
  tree_ok (set_inodes (<[p := i]>) s) /\ ext s (set_inodes (<[p := i]>) s).
Proof.
  intros [H1 H2 H3 H4 H5 H6 H7 H8] Hp Hi. split.
  - split; cbn; try done.
    + intros k v Hv. destruct (H2 k v Hv) as (? & ? & Hs). split_and!; [lia..|]. destruct (decide (internal v = p)) as [->|].
      * rewrite lookup_insert_eq. by eexists.
      * by rewrite lookup_insert_ne.
    + intros k v j Hv Hj. destruct (decide (internal v = p)) as [E|E].
      * rewrite E, lookup_insert_eq in Hj. injection Hj as <-. by apply (Hi k v).
      * rewrite lookup_insert_ne in Hj by done. by apply (H3 k v j).
    + intros k Hk. destruct (H6 k Hk) as [Hn Hm]. split; [|done]. rewrite lookup_insert_ne; [done|]. intros ->. rewrite Hn in Hp. by destruct Hp.
  - split; cbn; try done; [congruence|]. intros k Hk. destruct (decide (k = p)) as [->|].
    + rewrite lookup_insert_eq. by eexists.
    + by rewrite lookup_insert_ne.
Qed.

Lemma upd_inode_inv node f s u s' : upd_inode node f s = Ok (u, s') ->
  exists v i, vnodes s !! node = Some v /\ inodes s !! internal v = Some i /\ s' = set_inodes (<[internal v := f i]>) s.
Proof.
  unfold upd_inode. intros E. inv_step E as v s1 E1. apply same_deref in E1 as (-> & _ & Hv).
  inv_step E as i s2 E2. apply same_deref in E2 as (-> & _ & Hi). injection E as _ <-. by exists v, i.
Qed.

Lemma safe_size node n : safe (upd_inode node (with_size n)).
Proof.
  apply safe_intro. intros s u s' Hs E. apply upd_inode_inv in E as (v & i & Hv & Hi & ->). apply set_inode_ok; [done|by exists i|].
  intros k w Hw Ew. rewrite <-Ew in Hi. exact (tr_inode s Hs k w i Hw Hi).
Qed.
#[export] Hint Resolve safe_size : keeps.

Lemma safe_tmpfs_write f buf len : safe (tmpfs_write f buf len).
Proof. intros s0. unfold tmpfs_write. keep. Qed.
Lemma safe_read_node f buf len : safe (read_node f buf len).
Proof. intros s0. unfold read_node. keep. Qed.
Lemma safe_open_handle node t : safe (open_handle node t).
Proof. intros s0. unfold open_handle. keep. Qed.
#[export] Hint Resolve safe_tmpfs_write safe_read_node safe_open_handle : keeps.

(** ** The card *)

Lemma same_readblock idx s b s' : readblock idx s = Ok (b, s') -> s' = s.
Proof. unfold readblock. destruct (sd s !! s32 idx); [|done]. intros E. by injection E as _ <-. Qed.
Lemma safe_readblock idx : safe (readblock idx).
Proof. intros s0. apply keeps_pure. intros s b s' E. by apply same_readblock in E as ->. Qed.
Lemma safe_writeblock idx b : safe (writeblock idx b).
Proof.
  apply safe_intro. intros s u s' Hs E. unfold writeblock in E. destruct (sd s !! s32 idx); [|done]. injection E as _ <-.
  apply (same_nodes_ok s); [by split|done].
Qed.
Lemma safe_field n off l : safe (field n off l).
Proof. intros s0. apply keeps_lift. done. Qed.
#[export] Hint Resolve safe_readblock safe_writeblock : keeps.
#[export] Hint Extern 1 (keeps (since _) (field _ _ _) _) => apply safe_field : keeps.

Lemma safe_fat_entry c : safe (read_fat_entry c).
Proof. intros s0. unfold read_fat_entry. keep. Qed.
Lemma safe_fat_table c v : safe (write_fat_table c v).
Proof. intros s0. unfold write_fat_table. keep. Qed.
Lemma safe_free_entry n : forall i buf, safe (free_entry n i buf).
Proof. induction n as [|n IH]; intros i buf s0; cbn [free_entry]; keep. Qed.
Lemma safe_unused_entry n : forall i buf, safe (unused_entry n i buf).
Proof. induction n as [|n IH]; intros i buf s0; cbn [unused_entry]; keep. Qed.
#[export] Hint Resolve safe_fat_entry safe_fat_table safe_free_entry safe_unused_entry : keeps.
Lemma safe_free_cluster : safe get_free_fat_cluster.
Proof.
  intros s0. unfold get_free_fat_cluster. apply keeps_then; [keep|]. intros info. generalize (fat_region info) at 3 as b.
  induction (Z.to_nat _) as [|n IH]; intros b; cbn [free_cluster_loop]; keep.
Qed.
Lemma safe_new_dir_entry fuel c bytes : safe (fat32_new_dir_entry fuel c bytes).
Proof.
  intros s0. unfold fat32_new_dir_entry. apply keeps_then; [keep|]. intros nxt. revert c nxt.
  induction fuel as [|fuel IH]; intros c nxt; cbn [new_dir_entry_loop]; keep.
Qed.
Lemma safe_boot_sector : safe get_fat32_boot_sector.
Proof.
  intros s0. unfold get_fat32_boot_sector, get_mbr, boot_nr_reserved_sectors, boot_nr_fat_copies, boot_sectors_per_fat, boot_sectors_per_cluster.
  keep.
Qed.
Lemma safe_fat_node node n : safe (set_fat_node node n).
Proof. intros s0. unfold set_fat_node. keep. Qed.
Lemma safe_fat_node_of node : safe (fat_node_of node).
Proof. intros s0. unfold fat_node_of. keep. Qed.
Lemma safe_block_bytes p : safe (block_bytes p).
Proof. intros s0. unfold block_bytes. keep. Qed.
Lemma safe_read_data idx p : safe (read_data idx p).
Proof. intros s0. unfold read_data. keep. Qed.
Lemma safe_read_entry l : safe (read_entry l).
Proof. intros s0. unfold read_entry. keep. Qed.
#[export] Hint Resolve safe_free_cluster safe_new_dir_entry safe_boot_sector safe_fat_node safe_fat_node_of safe_block_bytes safe_read_data safe_read_entry : keeps.

Lemma safe_fat32_write f buf len : safe (fat32_write f buf len).
Proof. intros s0. unfold fat32_write. keep. Qed.
Lemma safe_fat32_read f buf len : safe (fat32_read f buf len).
Proof. intros s0. unfold fat32_read. keep. Qed.
#[export] Hint Resolve safe_fat32_write safe_fat32_read : keeps.

(** * New nodes *)

(** The proof goes on from a later state, of which more is known. *)
Lemma keeps_rebase {A B} (m : M fs_state A) (k : A -> M fs_state B) s0 :
  (forall s a s', since s0 s -> m s = Ok (a, s') -> since s0 s' /\ keeps (since s') (k a) (fun _ => True)) ->
  keeps (since s0) (a ← m; k a) (fun _ => True).
Proof.
  intros Hm s b s' Hs E. inv_step E as a s1 E1. destruct (Hm s a s1 Hs E1) as [[Ht Hx] Hk].
  destruct (Hk s1 b s' (conj Ht (ext_refl s1)) E) as [[Ht' Hx'] _]. split; [|done]. split; [done|by apply (ext_trans s0 s1)].
Qed.

(** A look at an object. *)
Lemma keeps_look {A B} (f : fs_state -> gmap Z A) p (k : A -> M fs_state B) s0 :
  (forall s x, since s0 s -> f s !! p = Some x -> keeps (since s) (k x) (fun _ => True)) ->
  keeps (since s0) (x ← deref f p; k x) (fun _ => True).
Proof. intros Hk. apply keeps_rebase. intros s x s' Hs E. apply same_deref in E as (-> & _ & Hx). split; [done|by apply Hk]. Qed.

Lemma keeps_look_inode {B} node (k : inode -> M fs_state B) s0 :
  (forall s v i, since s0 s -> vnodes s !! node = Some v -> inodes s !! internal v = Some i -> keeps (since s) (k i) (fun _ => True)) ->
  keeps (since s0) (i ← inode_of node; k i) (fun _ => True).
Proof.
  intros Hk. apply keeps_rebase. intros s x s' Hs E. apply same_inode_of in E as (-> & v & Hv & Hx). split; [done|by apply (Hk s v)].
Qed.

(** What the creation of a node does to the tree. *)
Record made (s : fs_state) (node : Z) (s' : fs_state) : Prop := {
  md_tree : tree_ok s';
  md_ext : ext s s';
  md_node : node = next_key s;
  md_lt : node < next_key s';
  md_vnode : exists v, vnodes s' !! node = Some v /\ next_key s < internal v;
  md_old : forall k v, vnodes s' !! k = Some v -> k <> node -> vnodes s !! k = Some v
}.

Lemma zeros_kids s k : kids_ok s k (replicate 16 0).
Proof. split; [done|]. intros c Hc Hz. by apply elem_of_replicate in Hc as [-> _]. Qed.

Lemma create_made t size b type s node s' : tree_ok s -> create_vnode t size b 0 type s = Ok (node, s') -> made s node s'.
Proof.
  intros Hs E. rewrite create_vnode_ok in E. injection E as <- <-. set (i := Inode _ _ _ _ _). set (bl := replicate _ b).
  pose proof Hs as [H1 H2 H3 H4 H5 H6 H7 H8]. set (k := next_key s) in *.
  assert (Hno : vnodes s !! k = None) by (destruct (vnodes s !! k) eqn:E; [apply H2 in E; lia|done]).
  assert (Hlive : forall x, is_Some (vnodes s !! x) -> is_Some (vnodes (new_node s t 0 i bl) !! x)).
  { intros x [w Hw]. cbn. fold k. rewrite lookup_insert_ne; [by exists w|]. intros ->. congruence. }
  assert (Hcase : forall x w, vnodes (new_node s t 0 i bl) !! x = Some w -> (x = k /\ w = Vnode 0 t t (k + 1)) \/ (x <> k /\ vnodes s !! x = Some w)).
  { intros x w Hw. cbn in Hw. fold k in Hw. apply lookup_insert_Some in Hw as [[-> <-]|[? Hw]]; [by left|by right]. }
  split; [| |done|cbn; lia| |].
  - split; cbn [new_node next_key inodes mounts rootfs filesystems]; fold k; try done; [lia|..].
    + intros x w [[-> ->]|[_ Hw]]%Hcase; cbn [internal].
      * split_and!; [lia..|]. rewrite lookup_insert_eq. by eexists.
      * destruct (H2 x w Hw) as (? & ? & Hi). split_and!; [lia..|]. rewrite lookup_insert_ne by lia. done.
    + intros x w j [[-> ->]|[_ Hw]]%Hcase Hj; cbn [internal] in Hj.
      * rewrite lookup_insert_eq in Hj. injection Hj as <-. split; [split; [done|by left]|apply zeros_kids].
      * destruct (H2 x w Hw) as (? & ? & _). rewrite lookup_insert_ne in Hj by lia. destruct (H3 x w j Hw Hj) as [Hn [Hl Hk]].
        split; [done|]. split; [done|]. intros c Hc Hz. destruct (Hk c Hc Hz). split; [done|by apply Hlive].
    + intros x y v w [[-> ->]|[? Hv]]%Hcase [[-> ->]|[? Hw]]%Hcase E; cbn [internal] in E; [done|..|by apply (H4 x y v w)].
      * apply H2 in Hw as (? & ? & _). lia.
      * apply H2 in Hv as (? & ? & _). lia.
    + intros x w [[-> ->]|[_ Hw]]%Hcase Hm; [done|]. destruct (H5 x w Hw Hm) as (m & Hm1 & Hlt & Hr). exists m. auto.
    + intros x Hx. destruct (H6 x) as [Hi Hm]; [lia|]. split; [|done]. by rewrite lookup_insert_ne by lia.
    + destruct H7 as (? & m & ? & ?). split; [done|]. exists m. auto.
  - split; cbn [new_node next_key inodes mounts rootfs]; fold k; try done; [..|lia].
    + intros x w Hw. cbn. fold k. rewrite lookup_insert_ne; [done|]. intros ->. congruence.
    + intros x w [[-> ->]|[_ Hw]]%Hcase Hn; [cbn; split_and!; [lia..|done]|congruence].
    + intros x [j Hj]. destruct (decide (x = k + 1)) as [->|]; [rewrite lookup_insert_eq|rewrite lookup_insert_ne by done]; by eexists.
  - exists (Vnode 0 t t (k + 1)). cbn. fold k. rewrite lookup_insert_eq. split; [done|lia].
  - intros x w [[-> _]|[_ Hw]]%Hcase Hne; [done|exact Hw].
Qed.

Lemma fat_create_made type s node s' : tree_ok s -> fat32_create_vnode 0 type s = Ok (node, s') -> made s node s'.
Proof.
  intros Hs E. unfold fat32_create_vnode in E. inv_step E as n s1 E1. destruct (create_made _ _ _ _ _ _ _ Hs E1) as [A B C D F G].
  inv_step E as v s2 E2. apply same_deref in E2 as (-> & _ & Hv). injection E as <- <-.
  set (s3 := set_fat_nodes _ s1). destruct (same_nodes_ok s1 s3 ltac:(by split) A) as [A3 B3]. split; try done. by apply (ext_trans s s1).
Qed.

(** The new node becomes a child. *)
Lemma kids_link s k l slot node l' : kids_ok s k l -> k < node -> is_Some (vnodes s !! node) -> l.[slot := node] = Some l' -> kids_ok s k l'.
Proof.
  intros [Hl Hk] Hlt Hn E. split; [by rewrite (zset_length _ _ _ _ E)|]. intros c Hc Hz.
  apply zset_Some in E as (_ & ->). apply list_elem_of_lookup in Hc as (i & Hi).
  apply list_lookup_insert_Some in Hi as [(_ & <- & _)|[_ Hi]]; [done|]. apply Hk; [by apply list_elem_of_lookup_2 in Hi|done].
Qed.

Lemma keeps_child s0 dir l : is_Some (vnodes s0 !! dir) -> kids_ok s0 dir l -> keeps (since s0) (upd_inode dir (with_child l)) (fun _ => True).
Proof.
  intros [v0 Hv0] Hk s u s' [Hs Hx] E. split; [|done]. apply upd_inode_inv in E as (v & i & Hv & Hi & ->).
  destruct (set_inode_ok s (internal v) (with_child l i) Hs) as [Ht Hx']; [by exists i| |split; [done|by apply (ext_trans s0 s)]].
  intros k w Hw Ew. rewrite (tr_inj s Hs k dir w v Hw Hv Ew). split; [exact (proj1 (tr_inode s Hs dir v i Hv Hi))|by apply (kids_ext s0)].
Qed.

(** The name of a node, and what is set with it. *)
Lemma keeps_name {A} s0 node name (g : list Z -> inode -> inode) (k : inode -> M fs_state A) :
  (forall nm i, i_name (g nm i) = nm /\ childs (g nm i) = childs i) -> (forall nd, keeps (since s0) (k nd) (fun _ => True)) ->
  keeps (since s0) (nd ← inode_of node; nm ← pure_op (strcpy (i_name nd) name); _ ← upd_inode node (g nm); k nd) (fun _ => True).
Proof.
  intros Hg Hk. apply (keeps_bind _ _ _ (fun nd => name_ok (i_name nd))).
  { apply keeps_pure. intros s i s' E. apply same_inode_of in E as (-> & v & Hv & Hi). split; [done|]. intros [Hs _].
    exact (proj1 (tr_inode s Hs node v i Hv Hi)). }
  intros nd [Hl Hz]. apply (keeps_bind _ _ _ name_ok).
  { apply (keeps_lift_res _ (strcpy (i_name nd) name) _ _ (fun _ => eq_refl)). intros nm E. destruct (strcpy_shape _ _ _ E). split; [lia|done]. }
  intros nm Hnm. apply keeps_then; [|intros _; apply Hk]. intros s u s' [Hs Hx] E. split; [|done].
  apply upd_inode_inv in E as (w & j & Hw & Hj & ->). destruct (Hg nm j) as [Hg1 Hg2].
  destruct (set_inode_ok s (internal w) (g nm j) Hs) as [Ht Hx']; [by exists j| |split; [done|by apply (ext_trans s0 s)]].
  intros x y Hy Ey. rewrite <-Ey in Hj. rewrite Hg1, Hg2. split; [done|]. exact (proj2 (tr_inode s Hs x y j Hy Hj)).
Qed.

(** ** Into a directory *)

(** A directory found before the node was made takes it as a child. *)
Lemma made_child s node s' dir l slot l' : tree_ok s -> made s node s' -> is_Some (vnodes s !! dir) -> kids_ok s dir l ->
  l.[slot := node] = Some l' -> keeps (since s') (upd_inode dir (with_child l')) (fun _ => True).
Proof.
  intros Hs Hm [v Hv] Hk El. destruct (md_vnode _ _ _ Hm) as (w & Hw & _). apply keeps_child.
  - exists v. by apply (ex_vnodes s s' (md_ext _ _ _ Hm)).
  - apply (kids_link s' dir l slot node); [by apply (kids_ext s); [apply Hm|]| |by exists w|done].
    rewrite (md_node _ _ _ Hm). apply (tr_vnode s Hs dir v Hv).
Qed.

(** The searches change nothing. *)
Lemma keeps_find_child I n : forall i dir name, keeps I (find_child n i dir name) (fun _ => True).
Proof. induction n as [|n IH]; intros i dir name; cbn [find_child]; keep. Qed.
Lemma keeps_new_slot I n : forall i dir name, keeps I (new_slot n i dir name) (fun _ => True).
Proof. induction n as [|n IH]; intros i dir name; cbn [new_slot]; keep. Qed.
Lemma keeps_free_slot I n : forall i dir, keeps I (free_slot n i dir) (fun _ => True).
Proof. induction n as [|n IH]; intros i dir; cbn [free_slot]; keep. Qed.
#[export] Hint Resolve keeps_find_child keeps_new_slot keeps_free_slot : keeps.
Lemma keeps_lookup_child I dir name : keeps I (lookup_child dir name) (fun _ => True).
Proof. unfold lookup_child. keep. Qed.
#[export] Hint Resolve keeps_lookup_child : keeps.

Lemma keeps_add_child s0 dir slot type name : is_Some (vnodes s0 !! dir) -> keeps (since s0) (add_child dir slot type name) (fun _ => True).
Proof.
  intros [v0 Hv0]. unfold add_child. apply keeps_rebase. intros s node s1 [Hs Hx] E. pose proof (create_made _ _ _ _ _ _ _ Hs E) as Hm.
  split; [split; [apply Hm|apply (ext_trans s0 s); [done|apply Hm]]|].
  apply keeps_look_inode. intros s2 v i [Hs2 Hx2] Hv Hi. apply keeps_rebase. intros s3 l s4 Hs3 E3.
  unfold lift_opt in E3. destruct ((childs i).[slot := node]) as [l'|] eqn:El; [|done]. injection E3 as <- <-. split; [done|].
  destruct Hs3 as [Hs3 Hx3]. apply keeps_then; [|intros _; apply (keeps_name _ node name with_name (fun _ => mret node)); [done|]; intros nd; keep].
  destruct (md_vnode _ _ _ Hm) as (w & Hw & _). assert (Hlt : dir < node).
  { rewrite (md_node _ _ _ Hm). apply (tr_vnode s Hs dir v0), (ex_vnodes s0 s Hx dir v0 Hv0). }
  pose proof (ex_vnodes _ _ (ext_trans _ _ _ Hx2 Hx3) _ _ Hw) as Hw3.
  apply keeps_child; [exists v; by apply (ex_vnodes s2 s3 Hx3)|].
  apply (kids_link s3 dir (childs i) slot node); [|done|by exists w|done].
  apply (kids_ext s2); [done|]. exact (proj2 (tr_inode s2 Hs2 dir v i Hv Hi)).
Qed.

Lemma safe_tmpfs_create dir name : safe (tmpfs_create dir name).
Proof.
  intros s0. unfold tmpfs_create. apply keeps_look_inode. intros s v i Hs Hv Hi. destruct (negb _); [keep|].
  apply keeps_then; [keep|]. intros [slot|]; [|keep]. destruct (_ <=? _); [keep|]. apply keeps_then; [keep|]. intros len.
  destruct (_ <? _); [keep|]. apply keeps_then; [apply keeps_add_child; by exists v|keep].
Qed.
Lemma safe_tmpfs_mkdir dir name : safe (tmpfs_mkdir dir name).
Proof.
  intros s0. unfold tmpfs_mkdir. apply keeps_look_inode. intros s v i Hs Hv Hi. destruct (negb _); [keep|].
  apply keeps_then; [keep|]. intros slot. destruct (_ <=? _); [keep|]. apply keeps_then; [keep|]. intros len.
  destruct (_ <? _); [keep|]. apply keeps_then; [apply keeps_add_child; by exists v|keep].
Qed.

(** The part [fat32_create] and [fat32_mkdir] share: a node at a slot of a directory that was
    read before. *)
Lemma keeps_fat_child {A} s0 dir v i slot type name (k : Z -> M fs_state A) :
  tree_ok s0 -> vnodes s0 !! dir = Some v -> inodes s0 !! internal v = Some i -> (forall node, safe (k node)) ->
  keeps (since s0) (node ← fat32_create_vnode 0 type; l ← lift_opt OutOfBounds (childs i).[slot := node];
    _ ← upd_inode dir (with_child l); nd ← inode_of node; nm ← pure_op (strcpy (i_name nd) name); _ ← upd_inode node (with_name nm); k node)
    (fun _ => True).
Proof.
  intros Hs0 Hv Hi Hk. apply keeps_rebase. intros s node s1 [Hs Hx] E. pose proof (fat_create_made _ _ _ _ Hs E) as Hm.
  split; [split; [apply Hm|apply (ext_trans s0 s); [done|apply Hm]]|].
  apply (keeps_bind _ _ _ (fun l => (childs i).[slot := node] = Some l)); [by apply keeps_lift|]. intros l El.
  apply keeps_then; [|intros _; apply (keeps_name _ node name with_name); [done|]; intros nd; apply Hk]. apply (made_child s node s1 dir (childs i) slot l Hs Hm); [|apply (kids_ext s0)|]; try done.
  - exists v. by apply (ex_vnodes s0 s Hx).
  - exact (proj2 (tr_inode s0 Hs0 dir v i Hv Hi)).
Qed.

Lemma safe_fat32_create fuel junk dir name : safe (fat32_create fuel junk dir name).
Proof.
  intros s0. unfold fat32_create. apply keeps_look_inode. intros s v i [Hs _] Hv Hi. destruct (negb _); [keep|].
  apply keeps_then; [keep|]. intros [slot|]; [|keep]. destruct (_ <=? _); [keep|]. apply keeps_then; [keep|]. intros len.
  destruct (_ <? _); [keep|]. apply (keeps_fat_child s dir v i slot FSNODE_TYPE_FILE name); [done..|]. intros node s1. keep.
Qed.
Lemma safe_fat32_mkdir dir name : safe (fat32_mkdir dir name).
Proof.
  intros s0. unfold fat32_mkdir. apply keeps_look_inode. intros s v i [Hs _] Hv Hi. destruct (negb _); [keep|].
  apply keeps_then; [keep|]. intros slot. destruct (_ <=? _); [keep|]. apply keeps_then; [keep|]. intros len.
  destruct (_ <? _); [keep|]. apply (keeps_fat_child s dir v i slot FSNODE_TYPE_DIR name (fun node => mret (0, Some node))); [done..|].
  intros node s1. keep.
Qed.

(** ** By the inode of the directory *)

Lemma keeps_adopt s node s' p s1 d idx l : tree_ok s -> made s node s' -> is_Some (inodes s !! p) ->
  since s' s1 -> inodes s1 !! p = Some d -> (childs d).[idx := node] = Some l ->
  keeps (since s1) (modify (set_inodes (<[p := with_child l d]>))) (fun _ => True).
Proof.
  intros Hs Hm Hp [Hs1 Hx1] Hd El s2 u s3 [Hs2 Hx2] E. injection E as _ <-. split; [|done].
  destruct (set_inode_ok s2 p (with_child l d) Hs2) as [Ht Hx]; [apply (ex_inodes s1 s2 Hx2); by exists d| |split; [done|by apply (ext_trans s1 s2)]].
  pose proof (ext_trans _ _ _ Hx1 Hx2) as Hx12. destruct (md_vnode _ _ _ Hm) as (w & Hw & Hwi). pose proof (ex_vnodes _ _ Hx12 _ _ Hw) as Hw2.
  assert (Hpn : p < next_key s).
  { destruct (Z.lt_ge_cases p (next_key s)); [done|]. destruct (tr_fresh s Hs p) as [Hno _]; [done|]. rewrite Hno in Hp. by destruct Hp. }
  pose proof (ex_next _ _ (md_ext _ _ _ Hm)) as Hnext.
  intros k0 v Hv Ev. assert (Hold : vnodes s !! k0 = Some v).
  { destruct (vnodes s' !! k0) as [v'|] eqn:Ek.
    - pose proof (ex_vnodes _ _ Hx12 _ _ Ek). assert (v' = v) as -> by congruence. apply (md_old _ _ _ Hm k0 v Ek). intros ->.
      assert (w = v) as -> by congruence. lia.
    - destruct (ex_new _ _ Hx12 k0 v Hv Ek) as (_ & ? & _). lia. }
  assert (Hv1 : vnodes s1 !! k0 = Some v).
  { apply (ex_vnodes _ _ Hx1), (ex_vnodes _ _ (md_ext _ _ _ Hm)), Hold. }
  destruct (tr_inode s1 Hs1 k0 v d Hv1) as [Hn Hkids]; [by rewrite Ev|]. split; [done|]. cbn [with_child childs].
  apply (kids_link s2 k0 (childs d) idx node); [by apply (kids_ext s1)| |by exists w|done].
  rewrite (md_node _ _ _ Hm). apply (tr_vnode s Hs k0 v Hold).
Qed.

Lemma keeps_add_file s0 dir buf l ns fs idx : is_Some (inodes s0 !! dir) -> keeps (since s0) (add_file dir buf l ns fs idx) (fun _ => True).
Proof.
  intros Hd. unfold add_file. apply keeps_rebase. intros s node s1 [Hs Hx] E. pose proof (create_made _ _ _ _ _ _ _ Hs E) as Hm.
  split; [split; [apply Hm|apply (ext_trans s0 s); [done|apply Hm]]|].
  apply (keeps_name s1 node _ (fun nm i => Inode (i_type i) nm (childs i) (buf.1, buf.2 + data_offset ns) (u64 fs))); [done|]. intros _.
  apply keeps_look. intros s2 d Hs2 Hd2. apply (keeps_bind _ _ _ (fun c => (childs d).[idx := node] = Some c)); [by apply keeps_lift|].
  intros c Ec. apply (keeps_adopt s node s1 dir s2 d idx c); try done. by apply (ex_inodes s0 s).
Qed.

(** * The file systems *)

Lemma same_bytes p s l s' : bytes_from p s = Ok (l, s') -> s' = s.
Proof.
  unfold bytes_from, read_block. intros E. inv_step E as b s1 E1. inv_step E1 as c s2 E2. apply same_deref in E2 as (-> & _).
  destruct (_ && _); [|done]. injection E1 as _ <-. by injection E as _ <-.
Qed.
Lemma safe_bytes p : safe (bytes_from p).
Proof. intros s0. unfold bytes_from. keep. Qed.
#[export] Hint Resolve safe_bytes : keeps.

Lemma keeps_initramfs_loop fuel : forall s0 dir buf idx, is_Some (inodes s0 !! dir) ->
  keeps (since s0) (initramfs_init_loop fuel dir buf idx) (fun _ => True).
Proof.
  induction fuel as [|fuel IH]; intros s0 dir buf idx Hd; cbn [initramfs_init_loop]; [keep|].
  apply keeps_then; [keep|]. intros l. apply keeps_then; [keep|]. intros m. destruct (negb m); [keep|].
  apply keeps_then; [keep|]. intros t. destruct (negb t); [keep|]. apply keeps_then; [keep|]. intros z.
  apply keeps_then; [|intros i; by apply IH]. destruct (z.2 =? 0); [keep|]. apply keeps_then; [by apply keeps_add_file|keep].
Qed.
Lemma keeps_initramfs s0 dir : is_Some (inodes s0 !! dir) -> keeps (since s0) (initramfs_init dir) (fun _ => True).
Proof.
  intros Hd. unfold initramfs_init. apply keeps_then; [keep|]. intros buf. apply keeps_then; [keep|]. intros l.
  apply keeps_then; [keep|]. intros m. destruct (negb m); [keep|]. by apply keeps_initramfs_loop.
Qed.

Lemma keeps_setup_entry rec s0 dir e idx : (forall x, safe (rec x)) -> is_Some (inodes s0 !! dir) ->
  keeps (since s0) (setup_entry rec dir e idx) (fun _ => True).
Proof.
  intros Hrec Hd. unfold setup_entry. apply keeps_rebase. intros s node s1 [Hs Hx] E. pose proof (fat_create_made _ _ _ _ Hs E) as Hm.
  split; [split; [apply Hm|apply (ext_trans s0 s); [done|apply Hm]]|].
  apply keeps_look. intros s2 d Hs2 Hd2. apply (keeps_bind _ _ _ (fun c => (childs d).[idx := node] = Some c)); [by apply keeps_lift|].
  intros c Ec. apply keeps_then; [apply (keeps_adopt s node s1 dir s2 d idx c); try done; by apply (ex_inodes s0 s)|]. intros _.
  apply (keeps_name s2 node _ with_name); [done|]. intros nd. keep.
Qed.
Lemma safe_setup_entries rec n : (forall x, safe (rec x)) -> forall i dir idx, safe (setup_entries rec n i dir idx).
Proof.
  intros Hrec. induction n as [|n IH]; intros i dir idx s0; cbn [setup_entries]; [keep|].
  apply keeps_look. intros s d Hs Hd. apply keeps_then; [keep|]. intros b. apply keeps_then; [keep|]. intros e.
  destruct (skip_entry e); [apply IH|]. apply keeps_then; [|intros _; apply IH]. apply keeps_setup_entry; [done|by exists d].
Qed.
Lemma safe_setup_clusters rec fuel : (forall x, safe (rec x)) -> forall dir cur nxt idx, safe (setup_clusters rec fuel dir cur nxt idx).
Proof.
  intros Hrec. induction fuel as [|fuel IH]; intros dir cur nxt idx s0; cbn [setup_clusters]; [keep|].
  destruct (IS_FAT_ENTRY_VALID cur); [|keep]. apply keeps_then; [keep|]. intros info. apply keeps_then; [keep|]. intros d.
  apply keeps_then; [keep|]. intros _. apply keeps_then; [by apply safe_setup_entries|]. intros i. apply keeps_then; [keep|]. intros x. apply IH.
Qed.
Lemma safe_setup_fat32 fuel : forall dir, safe (setup_fat32 fuel dir).
Proof.
  induction fuel as [|fuel IH]; intros dir s0; cbn [setup_fat32]; [keep|]. apply keeps_then; [keep|]. intros d.
  apply keeps_then; [keep|]. intros nxt. by apply safe_setup_clusters.
Qed.
#[export] Hint Resolve safe_setup_fat32 : keeps.

(** * The virtual file system *)

Section Vfs.
Variables (fuel : nat) (junk : list Z).
Let ops : Ops := kernel_ops fuel junk.
#[local] Existing Instance ops | 0.

Lemma keeps_lookup_in I dir path : keeps I (lookup_in dir path) (fun _ => True).
Proof using Type. unfold lookup_in. apply keeps_then; [keep|]. intros v. destruct (v_ops v); apply keeps_lookup_child. Qed.
#[local] Hint Resolve keeps_lookup_in : keeps.
Lemma keeps_lookup_loop I n : forall p dir path i idx, keeps I (lookup_loop n p dir path i idx) (fun _ => True).
Proof using Type. induction n as [|n IH]; intros p dir path i idx; cbn [lookup_loop]; unfold redirect; keep. Qed.
#[local] Hint Resolve keeps_lookup_loop : keeps.
Lemma keeps_vfs_lookup I p : keeps I (vfs_lookup p) (fun _ => True).
Proof using Type. unfold vfs_lookup, redirect. keep. Qed.
Lemma keeps_find_filesystem I n : forall i name, keeps I (find_filesystem n i name) (fun _ => True).
Proof using Type. induction n as [|n IH]; intros i name; cbn [find_filesystem]; keep. Qed.
#[local] Hint Resolve keeps_vfs_lookup keeps_find_filesystem : keeps.

Lemma keeps_same {A} (m : M fs_state A) s a s' : (forall I, keeps I m (fun _ => True)) -> m s = Ok (a, s') -> s' = s.
Proof using Type. intros Hm E. destruct (Hm (fun x => x = s) s a s' eq_refl E). done. Qed.

(** ** A lookup finds a node that is there *)

Section Live.
Variable s : fs_state.
Hypothesis Hs : tree_ok s.
Let here (x : fs_state) : Prop := x = s.
Let live (o : option Z) : Prop := forall c, o = Some c -> is_Some (vnodes s !! c).

Lemma found_child k i name n : kids_ok s k (childs i) -> forall j, keeps here (find_child n j i name) live.
Proof using Hs.
  intros [_ Hk]. induction n as [|n IH]; intros j; cbn [find_child]; [by apply keeps_ret|].
  apply (keeps_bind _ _ _ (fun c => c ∈ childs i)).
  { apply keeps_lift. intros c Ec. apply zget_Some in Ec as [_ Ec]. by apply list_elem_of_lookup_2 in Ec. }
  intros c Hc. destruct (Z.eqb_spec c 0) as [|Hz]; [by apply keeps_ret|]. apply keeps_then; [keep|]. intros nd.
  apply keeps_then; [keep|]. intros d. destruct (d =? 0); [|apply IH]. apply keeps_ret. intros x Ex. injection Ex as <-. by apply Hk.
Qed.

Lemma found_in dir path : keeps here (lookup_in dir path) (fun r => live r.2).
Proof using Hs.
  unfold lookup_in. apply keeps_then; [keep|]. intros v.
  assert (Hl : keeps here (lookup_child dir path) (fun r => live r.2)).
  { unfold lookup_child. apply (keeps_bind _ _ _ (fun i => exists k, kids_ok s k (childs i))).
    - apply keeps_pure. intros s1 i s2 E. apply same_inode_of in E as (-> & w & Hw & Hi). split; [done|]. intros ->.
      exists dir. exact (proj2 (tr_inode s Hs dir w i Hw Hi)).
    - intros i (k & Hk). apply (keeps_bind _ _ _ live _ (found_child k i path _ Hk 0)). intros [c|] Hc; by apply keeps_ret. }
  destruct (v_ops v); exact Hl.
Qed.

Lemma redirected d : is_Some (vnodes s !! d) -> keeps here (redirect d) (fun x => is_Some (vnodes s !! x)).
Proof using Hs.
  intros Hd. unfold redirect. apply (keeps_bind _ _ _ (fun v => vnodes s !! d = Some v)).
  { apply keeps_pure. intros s1 v s2 E. apply same_deref in E as (-> & _ & Hv). split; [done|]. by intros ->. }
  intros v Hv. destruct (Z.eqb_spec (v_mount v) 0) as [|Hz]; [by apply keeps_ret|].
  destruct (tr_mount s Hs d v Hv Hz) as (m & Hm & _ & Hr). apply (keeps_bind _ _ _ (fun x => x = m)).
  { apply keeps_pure. intros s1 x s2 E. apply same_deref in E as (-> & _ & Hx). split; [done|]. intros ->. congruence. }
  intros x ->. by apply keeps_ret.
Qed.

Lemma stepped d path : is_Some (vnodes s !! d) -> forall A (k : Z -> M fs_state A) a Q,
  (forall x, is_Some (vnodes s !! x) -> keeps here (k x) Q) -> keeps here (mret a) Q ->
  keeps here (r ← lookup_in d path; if r.1 =? 0 then mret a else dir ← mret (default d r.2); dir ← redirect dir; k dir) Q.
Proof using Hs.
  intros Hd A k a Q Hk Ha. apply (keeps_bind _ _ _ _ _ (found_in d path)). intros r Hr. destruct (r.1 =? 0); [done|].
  apply (keeps_bind _ _ _ (fun x => is_Some (vnodes s !! x))).
  { apply keeps_ret. destruct (r.2) as [c|]; [by apply Hr|done]. }
  intros x Hx. by apply (keeps_bind _ _ _ _ _ (redirected x Hx)).
Qed.

Lemma found_loop n : forall p d path i idx, is_Some (vnodes s !! d) ->
  keeps here (lookup_loop n p d path i idx) (fun r => forall x, r = Some x -> is_Some (vnodes s !! x.1.1)).
Proof using Hs.
  induction n as [|n IH]; intros p d path i idx Hd; cbn [lookup_loop]; [keep|]. apply keeps_then; [keep|]. intros len.
  destruct (i <? len); [|apply keeps_ret; intros x Ex; by injection Ex as <-]. apply keeps_then; [keep|]. intros c.
  destruct (c =? 47); (apply keeps_then; [keep|]); intros l; [|by apply IH].
  apply (stepped d l Hd); [|by apply keeps_ret]. intros x Hx. by apply IH.
Qed.

Lemma found_node p : keeps here (vfs_lookup p) live.
Proof using Hs.
  unfold vfs_lookup. destruct (tr_root s Hs) as (_ & m & Hm & Hr).
  apply (keeps_bind _ _ _ (fun x => x = rootfs s)); [apply keeps_pure; intros s1 x s2 E; injection E as <- <-; split; [done|by intros ->]|].
  intros r ->. apply (keeps_bind _ _ _ (fun x => x = m)).
  { apply keeps_pure. intros s1 x s2 E. apply same_deref in E as (-> & _ & Hx). split; [done|]. intros ->. congruence. }
  intros x ->. apply keeps_then; [keep|]. intros len. apply keeps_then; [keep|]. intros c. destruct (_ || _).
  { apply keeps_ret. intros x Ex. by injection Ex as <-. }
  apply (keeps_bind _ _ _ _ _ (found_loop _ p (root m) path_buffer 1 0 Hr)). intros [[[d path] idx]|] Hd; [|by apply keeps_ret].
  apply keeps_then; [keep|]. intros l. apply (stepped d l (Hd _ eq_refl)); [|by apply keeps_ret].
  intros x Hx. apply keeps_ret. intros y Ey. by injection Ey as <-.
Qed.

(** And it always ends, for a path that fits the buffers. *)
Lemma strcmp_total a b : 0 ∈ a -> 0 ∈ b -> exists d, strcmp a b = Ok d.
Proof using Type.
  revert b. induction a as [|x a IH]; intros [|y b] Ha Hb; try (by apply elem_of_nil in Ha); try (by apply elem_of_nil in Hb).
  cbn [strcmp]. repeat case_match; try (by eexists); zbool; subst.
  apply elem_of_cons in Ha as [|Ha]; [done|]. apply elem_of_cons in Hb as [|Hb]; [done|]. by apply IH.
Qed.

Lemma here_inode k : is_Some (vnodes s !! k) -> exists i, inode_of k s = Ok (i, s) /\ name_ok (i_name i) /\ kids_ok s k (childs i).
Proof using Hs.
  intros [v Hv]. destruct (tr_vnode s Hs k v Hv) as (? & ? & i & Hi). exists i. unfold inode_of.
  run (deref_ok vnodes k s v ltac:(lia) Hv). rewrite (deref_ok inodes (internal v) s i ltac:(lia) Hi).
  split; [done|exact (tr_inode s Hs k v i Hv Hi)].
Qed.

Lemma child_search k i name n : kids_ok s k (childs i) -> 0 ∈ name -> forall j, 0 <= j -> j + Z.of_nat n <= 16 ->
  exists r, find_child n j i name s = Ok (r, s).
Proof using Hs.
  intros [Hl Hk] Hz. induction n as [|n IH]; intros j Hj Hn; cbn [find_child]; [by eexists|].
  destruct (lookup_lt_is_Some_2 (childs i) (Z.to_nat j)) as [c Hc]; [lia|].
  rewrite (bind_ok _ _ s c s) by (unfold lift_opt; replace ((childs i).[j]) with (Some c); [done|symmetry; apply zget_Some; split; [lia|done]]).
  destruct (Z.eqb_spec c 0) as [|Hne]; [by eexists|]. destruct (Hk c) as [_ Hc']; [by apply list_elem_of_lookup_2 in Hc|done|].
  destruct (here_inode c Hc') as (nd & End & [_ Hnd] & _). run End. destruct (strcmp_total name (i_name nd) Hz Hnd) as (d & Ed).
  run (pure_op_ok _ s d Ed). destruct (d =? 0); [by eexists|]. apply IH; lia.
Qed.

Lemma lookup_in_ends d path : is_Some (vnodes s !! d) -> 0 ∈ path -> exists r, lookup_in d path s = Ok (r, s).
Proof using Hs.
  intros Hd Hz. pose proof Hd as [v Hv]. unfold lookup_in. pose proof (tr_vnode s Hs d v Hv). run (deref_ok vnodes d s v ltac:(lia) Hv).
  assert (Hl : exists r, lookup_child d path s = Ok (r, s)).
  { unfold lookup_child. destruct (here_inode d Hd) as (i & Ei & _ & Hk). run Ei.
    destruct (child_search d i path (Z.to_nat MAX_DIR_NUM) Hk Hz 0) as (c & Ec); [lia|done|]. run Ec. destruct c; by eexists. }
  destruct (v_ops v); exact Hl.
Qed.

Lemma redirect_ends d : is_Some (vnodes s !! d) -> exists x, redirect d s = Ok (x, s).
Proof using Hs.
  intros [v Hv]. unfold redirect. pose proof (tr_vnode s Hs d v Hv). run (deref_ok vnodes d s v ltac:(lia) Hv).
  destruct (Z.eqb_spec (v_mount v) 0) as [|Hz]; [by eexists|]. destruct (tr_mount s Hs d v Hv Hz) as (m & Hm & _).
  run (deref_ok mounts (v_mount v) s m Hz Hm). by eexists.
Qed.

Lemma step_ends {A} d path (k : Z -> M fs_state A) a (Q : A -> Prop) : is_Some (vnodes s !! d) -> 0 ∈ path ->
  (forall x, is_Some (vnodes s !! x) -> exists r, k x s = Ok (r, s) /\ Q r) -> Q a ->
  exists r, (r ← lookup_in d path; if r.1 =? 0 then mret a else dir ← mret (default d r.2); dir ← redirect dir; k dir) s = Ok (r, s) /\ Q r.
Proof using Hs.
  intros Hd Hz Hk Ha. destruct (lookup_in_ends d path Hd Hz) as (r & Er). destruct (found_in d path s r s eq_refl Er) as [_ Hr]. run Er.
  destruct (r.1 =? 0); [by exists a|]. set (e := default d r.2).
  assert (He : is_Some (vnodes s !! e)) by (unfold e; destruct (r.2) as [c|]; [by apply Hr|done]).
  run (eq_refl : (mret e : M fs_state Z) s = Ok (e, s)). destruct (redirect_ends e He) as (x & Ex).
  destruct (redirected e He s x s eq_refl Ex) as [_ Hx]. run Ex. by apply Hk.
Qed.

Lemma loop_ends p q n : holds p q -> (length q < 256)%nat -> forall d path i idx, is_Some (vnodes s !! d) ->
  length path = 256%nat -> 0 <= idx <= i -> i <= Z.of_nat (length q) < Z.of_nat n + i ->
  exists r, lookup_loop n p d path i idx s = Ok (r, s) /\ forall x, r = Some x -> length x.1.2 = 256%nat /\ 0 <= x.2 < 256.
Proof using Hs.
  intros Hp Hq. pose proof (strlen_ok p q Hp) as El. induction n as [|n IH]; intros d path i idx Hd Hl Hi Hn; [lia|]. cbn [lookup_loop].
  run (pure_op_ok _ s _ El). destruct (Z.ltb_spec i (Z.of_nat (length q))) as [Hlt|Hge].
  2:{ eexists. split; [reflexivity|]. intros x Ex. injection Ex as <-. cbn. lia. }
  assert (Hc : exists c, p.[i] = Some c).
  { apply zget_is_Some. destruct Hp as (_ & rest & ->). rewrite length_app. cbn. lia. }
  destruct Hc as (c & Ec). run (lift_opt_ok OutOfBounds _ s c Ec).
  assert (Hset : forall v, path.[idx := v] = Some (<[Z.to_nat idx := v]> path)) by (intros v; apply zset_ok; lia).
  assert (Hlen : forall v, length (<[Z.to_nat idx := v]> path) = 256%nat) by (intros v; by rewrite length_insert).
  destruct (c =? 47); rewrite (bind_ok _ _ _ _ _ (lift_opt_ok OutOfBounds _ s _ (Hset _))); [|apply IH; (done || lia || apply Hlen)].
  assert (Hz : 0 ∈ <[Z.to_nat idx := 0]> path).
  { apply (list_elem_of_lookup_2 _ (Z.to_nat idx)), list_lookup_insert_eq. lia. }
  apply step_ends; [done|done| |done]. intros x Hx. apply IH; (done || lia || apply Hlen).
Qed.

Lemma lookup_ends p q : holds p q -> (length q < 256)%nat -> exists r, vfs_lookup p s = Ok (r, s).
Proof using Hs.
  intros Hp Hq. unfold vfs_lookup. destruct (tr_root s Hs) as (Hr0 & m & Hm & Hr). run (gets_ok rootfs s).
  run (deref_ok mounts (rootfs s) s m Hr0 Hm). run (pure_op_ok _ s _ (strlen_ok p q Hp)).
  assert (Hc : exists c, p.[0] = Some c) by (apply zget_is_Some; destruct Hp as (_ & rest & ->); rewrite length_app; cbn; lia).
  destruct Hc as (c & Ec). run (lift_opt_ok OutOfBounds _ s c Ec). destruct (Z.eqb_spec (Z.of_nat (length q)) 0) as [|Hne]; [by eexists|].
  cbn [orb]. destruct (_ && _); [by eexists|].
  assert (Hlen : (length q < length p)%nat) by (destruct Hp as (_ & rest & ->); rewrite length_app; cbn; lia).
  destruct (loop_ends p q (length p) Hp Hq (root m) path_buffer 1 0 Hr eq_refl) as (w & Ew & Hw); [lia|lia|].
  destruct (found_loop (length p) p (root m) path_buffer 1 0 Hr s w s eq_refl Ew) as [_ Hlive]. run Ew.
  destruct w as [[[d path] idx]|]; [|by eexists]. destruct (Hw _ eq_refl) as [Hl Hi]. cbn in Hl, Hi.
  run (lift_opt_ok OutOfBounds _ s _ (zset_ok path idx 0 ltac:(lia))).
  match goal with |- exists r, ?m s = _ => assert (Hr1 : exists r, m s = Ok (r, s) /\ True) end.
  { apply step_ends; [exact (Hlive _ eq_refl)| |intros x Hx; by eexists|done].
    apply (list_elem_of_lookup_2 _ (Z.to_nat idx)), list_lookup_insert_eq. lia. }
  destruct Hr1 as (r & Er & _). by exists r.
Qed.
End Live.

(** ** A key that is not used yet *)

Lemma key_ok s : tree_ok s -> tree_ok (set_next_key (next_key s + 1) s) /\ ext s (set_next_key (next_key s + 1) s).
Proof using Type.
  intros [H1 H2 H3 H4 H5 H6 H7 H8]. split.
  - split; cbn; try done; [lia| |].
    + intros k v Hv. destruct (H2 k v Hv) as (? & ? & ?). split_and!; (lia || done).
    + intros k Hk. apply H6. lia.
  - split; cbn; try done; [congruence|lia].
Qed.
Lemma safe_key : safe kmalloc_key.
Proof using Type. apply safe_intro. intros s k s' Hs E. injection E as _ <-. by apply key_ok. Qed.
#[local] Hint Resolve safe_key : keeps.

(** ** Files *)

Lemma safe_seek f o w : safe (seek f o w).
Proof using Type. intros s0. unfold seek. keep. Qed.
Lemma safe_open_op t node target : safe (open_op (file_ops t) node target).
Proof using Type. intros s0. destruct t; apply safe_open_handle. Qed.
Lemma safe_close_op t f : safe (close_op (file_ops t) f).
Proof using Type. intros s0. destruct t; cbn; unfold tmpfs_close, initramfs_close, fat32_close; keep. Qed.
Lemma safe_write_op t f buf len : safe (write_op (file_ops t) f buf len).
Proof using Type. intros s0. destruct t; cbn; unfold initramfs_write; keep. Qed.
Lemma safe_read_op t f buf len : safe (read_op (file_ops t) f buf len).
Proof using Type. intros s0. destruct t; cbn; [apply safe_read_node|apply safe_read_node|apply safe_fat32_read]. Qed.
Lemma safe_create_op t dir name : safe (create_op (vnode_ops t) dir name).
Proof using Type. intros s0. destruct t; cbn; [apply safe_tmpfs_create|unfold initramfs_create; keep|apply safe_fat32_create]. Qed.
Lemma safe_mkdir_op t dir name : safe (mkdir_op (vnode_ops t) dir name).
Proof using Type. intros s0. destruct t; cbn; [apply safe_tmpfs_mkdir|unfold initramfs_mkdir; keep|apply safe_fat32_mkdir]. Qed.
#[local] Hint Resolve safe_open_op safe_close_op safe_write_op safe_read_op safe_create_op safe_mkdir_op : keeps.

Lemma safe_open_node node flags : safe (open_node node flags).
Proof using Type. intros s0. unfold open_node. keep. Qed.
#[local] Hint Resolve safe_open_node : keeps.
Lemma safe_vfs_open p flags : safe (vfs_open p flags).
Proof using Type. intros s0. unfold vfs_open, stored. keep. Qed.
Lemma safe_vfs_close f : safe (vfs_close f).
Proof using Type. intros s0. unfold vfs_close. keep. Qed.
Lemma safe_vfs_write f buf len : safe (vfs_write f buf len).
Proof using Type. intros s0. unfold vfs_write. keep. Qed.
Lemma safe_vfs_read f buf len : safe (vfs_read f buf len).
Proof using Type. intros s0. unfold vfs_read. keep. Qed.
Lemma safe_vfs_mkdir p : safe (vfs_mkdir p).
Proof using Type. intros s0. unfold vfs_mkdir. keep. Qed.

(** ** Mounting *)

(** The mount [m] is made, and used nowhere yet. *)
Record unmounted (s : fs_state) (m : Z) : Prop := {
  un_key : 0 < m < next_key s;
  un_root : rootfs s <> m;
  un_nodes : forall k v, vnodes s !! k = Some v -> v_mount v <> m
}.

Lemma unmounted_ext s s' m : ext s s' -> unmounted s m -> unmounted s' m.
Proof using Type.
  intros [A B C D E F] [H1 H2 H3]. split; [lia|congruence|]. intros k v Hv. destruct (vnodes s !! k) as [w|] eqn:Ek.
  - pose proof (A k w Ek). assert (w = v) as -> by congruence. by apply (H3 k).
  - destruct (B k v Hv Ek) as (_ & _ & Hz). lia.
Qed.

(** The mounts but [m]. *)
Lemma mounts_ok s m f : tree_ok s -> unmounted s m -> (forall k, k <> m -> f (mounts s) !! k = mounts s !! k) -> tree_ok (set_mounts f s).
Proof using Type.
  intros [H1 H2 H3 H4 H5 H6 [Hr0 Hr] H8] [U1 U2 U3] Hf. split; cbn; try done.
  - intros k v Hv Hm. rewrite Hf by (by apply (U3 k)). by apply (H5 k v).
  - intros k Hk. destruct (H6 k Hk) as [? Hno]. split; [done|]. rewrite Hf by lia. done.
  - split; [done|]. by rewrite Hf.
Qed.

(** The file system [t] is set up on the mount [m]: its root is a new node. *)
Record set_up (s : fs_state) (m : Z) (s' : fs_state) : Prop := {
  su_tree : tree_ok s';
  su_mount : exists rt, mounts s' !! m = Some rt /\ next_key s <= root rt /\ is_Some (vnodes s' !! root rt);
  su_vnodes : forall k v, vnodes s !! k = Some v -> vnodes s' !! k = Some v;
  su_unused : unmounted s' m
}.

Lemma set_up_intro s m node s1 t s' : tree_ok s -> unmounted s m -> made s node s1 ->
  tree_ok s' -> ext (set_mounts (<[m := Mount node t]>) s1) s' -> set_up s m s'.
Proof using Type.
  intros Hs Hu [A B -> D (w & Hw & _) G] Ht Hx. pose proof (unmounted_ext s s1 m B Hu) as [U1 U2 U3]. split; [done|..].
  - exists (Mount (next_key s) t). rewrite (ex_mounts _ _ Hx). cbn. rewrite lookup_insert_eq. split; [done|]. split; [lia|].
    exists w. by apply (ex_vnodes _ _ Hx).
  - intros k v Hv. apply (ex_vnodes _ _ Hx), (ex_vnodes s s1 B k v Hv).
  - apply (unmounted_ext (set_mounts (<[m := Mount (next_key s) t]>) s1)); [done|]. by split.
Qed.

Lemma mount_made s m node s1 t : tree_ok s -> unmounted s m -> made s node s1 -> tree_ok (set_mounts (<[m := Mount node t]>) s1).
Proof using Type.
  intros Hs Hu Hm. apply (mounts_ok s1 m); [apply Hm|by apply (unmounted_ext s); [apply Hm|]|].
  intros k Hk. by rewrite lookup_insert_ne.
Qed.

(** What comes after the root is mounted. *)
Lemma set_up_rest {A} s m node s1 t (k : M fs_state A) s' r : tree_ok s -> unmounted s m -> made s node s1 ->
  let s2 := set_mounts (<[m := Mount node t]>) s1 in
  keeps (since s2) k (fun _ => True) -> k s2 = Ok (r, s') -> set_up s m s'.
Proof using Type.
  intros Hs Hu Hm s2 Hk E. pose proof (mount_made s m node s1 t Hs Hu Hm) as Ht.
  destruct (Hk s2 r s' (conj Ht (ext_refl s2)) E) as [[Ht' Hx] _]. by apply (set_up_intro s m node s1 t).
Qed.

Lemma setup_ok t m s r s' : tree_ok s -> unmounted s m -> setup_mount (fs_table t) t m s = Ok (r, s') -> set_up s m s'.
Proof using Type.
  intros Hs Hu E. destruct t; cbn in E.
  - unfold tmpfs_setup_mount, tmpfs_create_vnode in E. inv_step E as node s1 E1. pose proof (create_made _ _ _ _ _ _ _ Hs E1) as Hm.
    by apply (set_up_rest s m node s1 Tmpfs (mret 1) s' r Hs Hu Hm ltac:(keep)).
  - unfold initramfs_setup_mount, initramfs_create_vnode in E. inv_step E as node s1 E1. pose proof (create_made _ _ _ _ _ _ _ Hs E1) as Hm.
    refine (set_up_rest s m node s1 Initramfs _ s' r Hs Hu Hm _ E). apply keeps_look. intros s3 v [Hs3 _] Hv.
    apply keeps_then; [apply keeps_initramfs, (tr_vnode s3 Hs3 node v Hv)|keep].
  - unfold fat32_setup_mount in E. inv_step E as node s1 E1. pose proof (fat_create_made _ _ _ _ Hs E1) as Hm.
    refine (set_up_rest s m node s1 Fat32 _ s' r Hs Hu Hm _ E). unfold boot_root_dir. keep.
Qed.

(** The node is covered by the mount. *)
Lemma cover_ok s m rt node v : tree_ok s -> 0 < m < next_key s -> mounts s !! m = Some rt -> node < root rt -> is_Some (vnodes s !! root rt) ->
  vnodes s !! node = Some v -> tree_ok (set_vnodes (<[node := Vnode m (v_ops v) (vf_ops v) (internal v)]>) s).
Proof using Type.
  intros [H1 H2 H3 H4 H5 H6 (Hr0 & mt & Hmt & Hmr) H8] Hm Hrt Hlt Hlive Hv. set (w := Vnode m _ _ _).
  assert (Hcase : forall k u, <[node := w]> (vnodes s) !! k = Some u -> exists u0, vnodes s !! k = Some u0 /\ internal u = internal u0 /\
    (k = node /\ v_mount u = m \/ u = u0)).
  { intros k u Hu. apply lookup_insert_Some in Hu as [[<- <-]|[? Hu]]; [exists v|exists u]; auto. }
  assert (Hl : forall k, is_Some (vnodes s !! k) -> is_Some (<[node := w]> (vnodes s) !! k)).
  { intros k Hk. destruct (decide (k = node)) as [->|]; [rewrite lookup_insert_eq; by eexists|by rewrite lookup_insert_ne]. }
  split; cbn; try done.
  - intros k u (u0 & Hu & -> & _)%Hcase. by apply H2.
  - intros k u i (u0 & Hu & -> & _)%Hcase Hi. destruct (H3 k u0 i Hu Hi) as [Hn [Hlen Hk]]. split; [done|]. split; [done|].
    intros c Hc Hz. destruct (Hk c Hc Hz). split; [done|by apply Hl].
  - intros k k' u u' (u0 & Hu & E1 & _)%Hcase (u1 & Hu' & E2 & _)%Hcase E. apply (H4 k k' u0 u1); congruence.
  - intros k u (u0 & Hu & _ & [[-> ->]| ->])%Hcase Hz; [exists rt; auto|]. destruct (H5 k u0 Hu Hz) as (x & Hx & Hlx & Hlv). exists x. auto.
  - split; [done|]. exists mt. auto.
Qed.

Lemma key_unmounted s : tree_ok s -> unmounted (set_next_key (next_key s + 1) s) (next_key s).
Proof using Type.
  intros [H1 H2 H3 H4 H5 H6 (Hr0 & mt & Hmt & _) H8]. split; cbn; [lia|..].
  - intros Er. destruct (H6 (rootfs s)) as [_ Hno]; [lia|]. congruence.
  - intros k v Hv Em. destruct (decide (v_mount v = 0)) as [Ez|Hne]; [lia|]. destruct (H5 k v Hv Hne) as (mt' & Hm' & _).
    destruct (H6 (v_mount v)) as [_ Hno]; [lia|]. congruence.
Qed.

Lemma keeps_vfs_mount target name : keeps tree_ok (vfs_mount target name) (fun _ => True).
Proof using Type.
  unfold vfs_mount. apply keeps_then; [keep|]. intros [t|]; [|keep]. intros s r s' Hs E. split; [|done].
  inv_step E as o s0 E0. destruct (found_node s Hs target s o s0 eq_refl E0) as [-> Hfound].
  destruct o as [node|]; [|by injection E as _ <-]. destruct (Hfound node eq_refl) as [v0 Hv0].
  inv_step E as m s1 E1. injection E1 as <- <-. destruct (key_ok s Hs) as [Hs1 _]. pose proof (key_unmounted s Hs) as Hu.
  set (s1 := set_next_key (next_key s + 1) s) in *. set (m := next_key s) in *.
  inv_step E as x s2 E2. destruct (setup_ok t m s1 x s2 Hs1 Hu E2) as [Hs2 (rt & Hrt & Hlt & Hlive) Hvn Hu2].
  assert (Hdel : tree_ok (set_mounts (delete m) s2)) by (apply (mounts_ok s2 m); [done|done|]; intros k Hk; by rewrite lookup_delete_ne).
  destruct (x =? 0); [by injection E as _ <-|]. inv_step E as v s3 E3. apply same_deref in E3 as (-> & _ & Hv).
  destruct (v_mount v =? 0); cbn [negb] in E; [|by injection E as _ <-]. injection E as _ <-.
  apply (cover_ok s2 m rt node v); try done; [apply Hu2|]. pose proof (tr_vnode s Hs node v0 Hv0). cbn in Hlt. lia.
Qed.

(** ** Each operation keeps the tree *)

Lemma safe_tree {A} (m : M fs_state A) : safe m -> keeps tree_ok m (fun _ => True).
Proof using Type. intros Hm s a s' Hs E. by destruct (safe_use m s a s' Hm Hs E). Qed.
Lemma keeps_tree_open p flags : keeps tree_ok (vfs_open p flags) (fun _ => True).
Proof using Type. apply safe_tree, safe_vfs_open. Qed.
Lemma keeps_tree_close f : keeps tree_ok (vfs_close f) (fun _ => True).
Proof using Type. apply safe_tree, safe_vfs_close. Qed.
Lemma keeps_tree_write f buf len : keeps tree_ok (vfs_write f buf len) (fun _ => True).
Proof using Type. apply safe_tree, safe_vfs_write. Qed.
Lemma keeps_tree_read f buf len : keeps tree_ok (vfs_read f buf len) (fun _ => True).
Proof using Type. apply safe_tree, safe_vfs_read. Qed.
Lemma keeps_tree_mkdir p : keeps tree_ok (vfs_mkdir p) (fun _ => True).
Proof using Type. apply safe_tree, safe_vfs_mkdir. Qed.
Lemma keeps_tree_lookup p : keeps tree_ok (vfs_lookup p) (fun _ => True).
Proof using Type. apply keeps_vfs_lookup. Qed.
Lemma keeps_tree_bytes p : keeps tree_ok (bytes_from p) (fun _ => True).
Proof using Type. apply safe_tree, safe_bytes. Qed.

(** A handle that was closed: whoever else has it, as the child of a fork has those of its
    parent, uses a structure that was freed. *)
Lemma closed_dangles f s r s' : vfs_close f s = Ok (r, s') ->
  (forall buf len, vfs_write f buf len s' = Err Uninit) /\ (forall buf len, vfs_read f buf len s' = Err Uninit) /\ vfs_close f s' = Err Uninit.
Proof using Type.
  unfold vfs_close. intros E. inv_step E as h s1 E1. apply same_deref in E1 as (-> & Hf & _). inv_step E as x s2 E2.
  assert (Hno : files s2 !! f = None).
  { destruct (f_ops h); injection E2 as _ <-; cbn; apply lookup_delete_eq. }
  injection E as _ <-. assert (Hd : deref files f s2 = Err Uninit) by (unfold deref; destruct (Z.eqb_spec f 0); [done|by rewrite Hno]).
  split_and!; intros; apply bind_err, Hd.
Qed.
End Vfs.
#[export] Hint Resolve keeps_tree_open keeps_tree_close keeps_tree_write keeps_tree_read keeps_tree_mkdir keeps_tree_lookup keeps_vfs_mount
  keeps_tree_bytes : keeps.
