(* ===== verification/FsTree.v ===== *)
(** States with the same tree of directories: files and their contents may differ. *)
From S2P Require Import Prelude CString FsData Vfs FsInv.

Definition tree_part (i : inode) : fsnode_type * list Z * list Z := (i_type i, i_name i, childs i).

Record same_tree (s s' : fs_state) : Prop := {
  st_vnodes : vnodes s' = vnodes s;
  st_inodes : forall k, tree_part <$> inodes s' !! k = tree_part <$> inodes s !! k;
  st_mounts : mounts s' = mounts s;
  st_rootfs : rootfs s' = rootfs s;
  st_filesystems : filesystems s' = filesystems s;
  st_next : next_key s <= next_key s';
  st_fresh : forall k, next_key s' <= k -> files s' !! k = None /\ blocks s' !! k = None
}.

Section SameTree.
Variables (s s' : fs_state).
Hypothesis (Ht : same_tree s s').

Lemma same_tree_inode d : tree_part <$> node_inode s' d = tree_part <$> node_inode s d.
Proof using Ht.
  unfold node_inode. rewrite (st_vnodes s s' Ht). destruct (vnodes s !! d) as [v|]; [|done]. cbn.
  apply (st_inodes s s' Ht).
Qed.

Lemma same_tree_children d : children s' d = children s d /\ name_of s' d = name_of s d.
Proof using Ht.
  pose proof (same_tree_inode d) as E. unfold children, name_of, tree_part in *.
  destruct (node_inode s' d), (node_inode s d); cbn in E; try done.
  injection E as E1 E2 E3. by rewrite E2, E3.
Qed.

Lemma same_tree_child d n : child s' d n = child s d n.
Proof using Ht.
  unfold child. rewrite (proj1 (same_tree_children d)). induction (children s d) as [|c l IH]; [done|].
  cbn. rewrite (proj2 (same_tree_children c)). by destruct (bool_decide _).
Qed.

Lemma same_tree_walk d q : walk s' d q = walk s d q.
Proof using Ht.
  revert d. induction q as [|n q IH]; intros d; [done|]. cbn. rewrite same_tree_child.
  destruct (child s d n) as [c|]; [|done]. cbn.
  assert (mounted s' c = mounted s c) as ->.
  { unfold mounted. by rewrite (st_vnodes s s' Ht), (st_mounts s s' Ht). }
  apply IH.
Qed.

Lemma same_tree_root : root_of s' = root_of s.
Proof using Ht. unfold root_of. by rewrite (st_mounts s s' Ht), (st_rootfs s s' Ht). Qed.

Lemma same_tree_ok : objs_ok s -> objs_ok s'.
Proof using Ht.
  intros [H1 H2 H3 H4 H5]. destruct Ht as [Ev Ei Em Er Ef En Efr]. split; rewrite ?Ev, ?Em in *.
  - lia.
  - intros k v Hv. destruct (H2 k v Hv) as (Hk & Hiv & i & Hi & [J1 J2 J3 J4 J5]). split; [lia|]. split; [lia|].
    specialize (Ei (internal v)). rewrite Hi in Ei. unfold tree_part in Ei.
    destruct (inodes s' !! internal v) as [j|]; [|done]. cbn in Ei. injection Ei as E1 E2 E3. exists j. split; [done|].
    split; rewrite ?E2, ?E3, ?Ev; done.
  - done.
  - intros k v Hv Hm. destruct (H4 k v Hv Hm) as (? & Hex). split; [lia|done].
  - intros k Hk. destruct (H5 k ltac:(lia)) as (F1 & F2 & _). destruct (Efr k Hk). split_and!; try done.
    specialize (Ei k). rewrite F1 in Ei. by destruct (inodes s' !! k).
Qed.

Lemma same_tree_fs_ok : fs_ok s -> fs_ok s'.
Proof using Ht.
  intros [Ho Hf Hr]. split; [by apply same_tree_ok|by rewrite (st_filesystems s s' Ht)|].
  by rewrite (st_rootfs s s' Ht), (st_mounts s s' Ht), (st_vnodes s s' Ht).
Qed.
End SameTree.
