(* ===== verification/FileOps.v ===== *)
(** Handles on regular tmpfs files: what opening, writing, reading and closing one does
    to the contents of the file and to the tree. *)
From Stdlib Require Import Ascii String.
From S2P Require Import Prelude CString FsData Vfs Tmpfs Initramfs Fat32 FsInv VfsSpec VfsMount FsNodes TmpfsSpec.
From S2P Require Import FileSystems FsTree.

Section Kernel.
Variables (fuel : nat) (junk : list Z).
#[local] Existing Instance kernel_ops.
#[local] Existing Instance kernel_laws.
Let ops : Ops := kernel_ops fuel junk.
#[local] Existing Instance ops | 0.
Let laws : @FsLaws ops := kernel_laws fuel junk.
#[local] Existing Instance laws | 0.

(** * Handles *)

(** A new handle on [node]. *)
Definition opened (s : fs_state) (node : Z) (v : vnode) (fl : Z) : fs_state :=
  set_files (<[next_key s := File node 0 (vf_ops v) (Some fl)]>) (set_next_key (next_key s + 1) s).

Lemma open_node_ok s node v fl :
  objs_ok s -> vnodes s !! node = Some v -> open_node node fl s = Ok (Some (next_key s), opened s node v fl).
Proof using Type.
  intros Hs Hv. destruct (ob_vnode s Hs node v Hv) as (? & _). unfold open_node.
  pose proof (ob_next s Hs) as Hk. set (k := next_key s) in *. set (s1 := set_next_key (k + 1) s).
  run (eq_refl : kmalloc_key s = Ok (k, s1)). run (deref_ok vnodes node s1 v ltac:(lia) Hv).
  set (s2 := set_files (<[k := File node 0 (vf_ops v) None]>) s1).
  rewrite (bind_ok _ _ s1 1 s2).
  2:{ assert (E : open_handle node k s1 = Ok (1, s2)) by (unfold open_handle; by run (deref_ok vnodes node s1 v ltac:(lia) Hv)).
      by destruct (vf_ops v). }
  assert (E : files s2 !! k = Some (File node 0 (vf_ops v) None)) by apply lookup_insert_eq.
  run (deref_ok files k s2 _ ltac:(lia) E). unfold mbind, M_bind, modify, mret, M_ret. cbn [f_vnode f_pos f_ops].
  match goal with |- Ok (_, ?x) = _ => assert (x = opened s node v fl) as ->; [|done] end.
  unfold opened, s2, s1, set_files. cbn. by rewrite insert_insert_eq.
Qed.

Lemma opened_tree s node v fl : objs_ok s -> same_tree s (opened s node v fl).
Proof using Type.
  intros Hs. split; try done; cbn; [lia|]. intros k Hk. destruct (ob_fresh s Hs k ltac:(lia)) as (_ & _ & F & ?).
  split; [|done]. rewrite lookup_insert_ne; [done|lia].
Qed.

Lemma opened_regular s node v fl i b : regular s node v i b -> regular (opened s node v fl) node v i b.
Proof using Type. intros []. by split. Qed.

(** * Writing *)

Section Write.
Variables (s : fs_state) (f : Z) (h : file) (v : vnode) (i : inode) (b : list (option Z)) (bytes : list Z).
Hypotheses (Hs : objs_ok s) (Hf : files s !! f = Some h) (Hr : regular s (f_vnode h) v i b)
  (Hpos : 0 <= f_pos h <= data_size i) (Hfit : f_pos h + Z.of_nat (length bytes) <= 4096).
Let s' := write_state s f h v i b bytes.
Let pos := f_pos h + Z.of_nat (length bytes).
Let i' := if data_size i <? pos then with_size pos i else i.
Let b' := take (Z.to_nat (f_pos h)) b ++ (Some <$> bytes) ++ drop (Z.to_nat pos) b.

Lemma write_inode k : inodes s' !! k = if decide (k = internal v) then Some i' else inodes s !! k.
Proof using Hr.
  unfold s', write_state, i'. fold pos. destruct (data_size i <? pos); cbn.
  - destruct (decide (k = internal v)) as [->|]; [by rewrite lookup_insert_eq|by rewrite lookup_insert_ne].
  - destruct (decide (k = internal v)) as [->|]; [apply (rg_inode _ _ _ _ _ Hr)|done].
Qed.

Lemma write_rest : vnodes s' = vnodes s /\ mounts s' = mounts s /\ rootfs s' = rootfs s /\
  filesystems s' = filesystems s /\ next_key s' = next_key s /\
  files s' = <[f := File (f_vnode h) pos (f_ops h) (f_flags h)]> (files s) /\
  blocks s' = <[(data i).1 := b']> (blocks s).
Proof using Type. unfold s', write_state. fold pos. by destruct (data_size i <? pos). Qed.

Lemma write_tree : same_tree s s'.
Proof using Hs Hf Hr.
  destruct write_rest as (E1 & E2 & E3 & E4 & E5 & E6 & E7). split; try done.
  - intros k. rewrite write_inode. destruct (decide (k = internal v)) as [->|]; [|done].
    rewrite (rg_inode _ _ _ _ _ Hr). unfold i'. by destruct (data_size i <? pos).
  - rewrite E5. lia.
  - intros k Hk. rewrite E5 in Hk. destruct (ob_fresh s Hs k Hk) as (_ & _ & F1 & F2). rewrite E6, E7.
    split; rewrite lookup_insert_ne; try done; intros <-.
    + congruence.
    + rewrite (rg_block _ _ _ _ _ Hr) in F2. done.
Qed.

Lemma write_size : data_size i' = Z.max (data_size i) pos /\ data i' = data i.
Proof using Type. unfold i'. destruct (Z.ltb_spec (data_size i) pos); cbn; (split; [lia|done]). Qed.

(** The bytes of the file after the write. *)
Lemma write_regular : regular s' (f_vnode h) v i' b' /\
  contents i' b' = take (Z.to_nat (f_pos h)) (contents i b) ++ bytes ++ drop (Z.to_nat pos) (contents i b).
Proof using Hs Hr Hpos Hfit.
  destruct write_rest as (E1 & E2 & E3 & E4 & E5 & E6 & E7). destruct write_size as [Ez Ed].
  pose proof Hr as [Hv Hvo Hi E0 Hp Hb Hl Hz Hw].
  assert (Ec : take (Z.to_nat (data_size i)) b = Some <$> contents i b).
  { apply all_written. intros k Hk. rewrite length_take in Hk. rewrite lookup_take_lt by lia. apply Hw. lia. }
  assert (Hcl : length (contents i b) = Z.to_nat (data_size i)).
  { rewrite <-(length_fmap Some), <-Ec, length_take. lia. }
  assert (Eb : b' = (Some <$> (take (Z.to_nat (f_pos h)) (contents i b) ++ bytes ++ drop (Z.to_nat pos) (contents i b)))
                    ++ drop (Z.to_nat (data_size i')) b).
  { rewrite !fmap_app, fmap_take, fmap_drop, <-Ec, <-!app_assoc. unfold b'. rewrite take_take.
    replace (Z.to_nat (f_pos h) `min` Z.to_nat (data_size i))%nat with (Z.to_nat (f_pos h)) by lia.
    f_equal. f_equal. rewrite Ez. destruct (Z.le_gt_cases (data_size i) pos) as [Hle|Hgt].
    - rewrite (drop_ge (take _ _)) by (rewrite length_take; lia). cbn. f_equal. lia.
    - rewrite <-(take_drop (Z.to_nat (data_size i)) b) at 1.
      rewrite drop_app_le by (rewrite length_take; lia). f_equal. f_equal. lia. }
  assert (Hnl : length (take (Z.to_nat (f_pos h)) (contents i b) ++ bytes ++ drop (Z.to_nat pos) (contents i b)) =
                Z.to_nat (data_size i')).
  { rewrite !length_app, length_take, length_drop, Hcl, Ez. unfold pos in *. lia. }
  assert (Et : take (Z.to_nat (data_size i')) b' =
    Some <$> (take (Z.to_nat (f_pos h)) (contents i b) ++ bytes ++ drop (Z.to_nat pos) (contents i b))).
  { rewrite Eb. rewrite take_app_le, take_ge; [done| |]; rewrite length_fmap; lia. }
  split; [split|]; rewrite ?Ed; try done.
  - by rewrite E1.
  - rewrite write_inode. by rewrite decide_True.
  - rewrite E7. apply lookup_insert_eq.
  - rewrite Eb, length_app, length_fmap, Hnl, length_drop, Hl, Ez. unfold pos. lia.
  - rewrite Ez. unfold pos in *. lia.
  - intros k Hk. assert (Hk' : (k < Z.to_nat (data_size i'))%nat) by lia.
    rewrite <-(lookup_take_lt b' (Z.to_nat (data_size i')) k Hk'), Et, list_lookup_fmap.
    rewrite <-Hnl in Hk'. apply lookup_lt_is_Some_2 in Hk' as [c Hc]. exists c. by rewrite Hc.
  - unfold contents at 1. by rewrite Et, written_some.
Qed.
End Write.

(** * The abstract view: the bytes of a file, and handles with a position *)

Definition file_is (s : fs_state) (node : Z) (c : list Z) : Prop :=
  exists v i b, regular s node v i b /\ contents i b = c.
Definition handle (s : fs_state) (f node pos : Z) : Prop :=
  f <> 0 /\ exists fl, files s !! f = Some (File node pos Tmpfs fl).

Lemma file_contents_length s node v i b : regular s node v i b -> Z.of_nat (length (contents i b)) = data_size i.
Proof using Type.
  intros Hr. destruct Hr as [_ _ _ _ _ _ Hl Hz Hw]. unfold contents.
  assert (E : take (Z.to_nat (data_size i)) b = Some <$> written (take (Z.to_nat (data_size i)) b)).
  { apply all_written. intros k Hk. rewrite length_take in Hk. rewrite lookup_take_lt by lia. apply Hw. lia. }
  apply (f_equal length) in E. rewrite length_fmap, length_take in E. lia.
Qed.

Lemma file_is_length s node c : file_is s node c -> Z.of_nat (length c) <= 4096.
Proof using Type.
  intros (v & i & b & Hr & <-). rewrite (file_contents_length s node v i b Hr). pose proof (rg_size _ _ _ _ _ Hr). lia.
Qed.

Lemma vfs_write_ok s f node pos c buf len :
  fs_ok s -> handle s f node pos -> file_is s node c -> 0 <= pos <= Z.of_nat (length c) ->
  0 < len <= Z.of_nat (length buf) -> pos + len <= 4096 ->
  exists s', vfs_write f buf len s = Ok (len, s') /\ fs_ok s' /\ same_tree s s' /\ handle s' f node (pos + len) /\
    file_is s' node (take (Z.to_nat pos) c ++ take (Z.to_nat len) buf ++ drop (Z.to_nat (pos + len)) c).
Proof using Type.
  intros Hfs (Hf0 & fl & Hf) (v & i & b & Hr & <-) Hpos Hlen Hfit. pose proof (fo_objs s Hfs) as Ho.
  rewrite (file_contents_length _ _ _ _ _ Hr) in Hpos. set (h := File node pos Tmpfs fl) in *. set (bytes := take (Z.to_nat len) buf).
  assert (Hbl : Z.of_nat (length bytes) = len) by (unfold bytes; rewrite length_take; lia).
  set (s1 := write_state s f h v i b bytes). exists s1.
  destruct (write_regular s f h v i b bytes Ho Hr ltac:(cbn; lia) ltac:(cbn [h f_pos]; lia)) as [Hr1 Hc1].
  pose proof (write_tree s f h v i b bytes Ho Hf Hr) as Ht. fold s1 in Hr1, Ht. split_and!.
  - unfold vfs_write. run (deref_ok files f s h Hf0 Hf). change (tmpfs_write f buf len s = Ok (len, s1)).
    rewrite (tmpfs_write_ok s f h v i b Ho Hf Hf0 Hr ltac:(cbn; lia) buf len ltac:(lia)).
    cbn [h f_pos]. destruct (Z.leb_spec (pos + len) 4096); [|lia]. by rewrite s32_small by lia.
  - by apply (same_tree_fs_ok s s1).
  - done.
  - split; [done|]. exists fl. destruct (write_rest s f h v i b bytes) as (_ & _ & _ & _ & _ & E & _). fold s1 in E.
    rewrite E, lookup_insert_eq. cbn [h f_vnode f_pos f_ops f_flags]. by rewrite Hbl.
  - eexists _, _, _. split; [exact Hr1|]. rewrite Hc1. cbn [h f_pos]. by rewrite Hbl.
Qed.

(** A change of handles only. *)
Definition same_files (s s' : fs_state) : Prop := exists g, s' = set_files g s.

Lemma set_files_file g s node c : file_is s node c -> file_is (set_files g s) node c.
Proof using Type. intros (v & i & b & [] & Hc). by exists v, i, b. Qed.

Lemma set_files_tree g s : (forall k, next_key s <= k -> g (files s) !! k = None) -> objs_ok s -> same_tree s (set_files g s).
Proof using Type.
  intros Hg Hs. split; try done. intros k Hk. split; [by apply Hg|]. by destruct (ob_fresh s Hs k Hk) as (_ & _ & _ & ?).
Qed.

Lemma handle_old s f node pos : objs_ok s -> handle s f node pos -> f < next_key s.
Proof using Type.
  intros Hs (_ & fl & Hf). destruct (Z.lt_ge_cases f (next_key s)) as [|Hk]; [done|].
  destruct (ob_fresh s Hs f Hk) as (_ & _ & F & _). congruence.
Qed.

Lemma vfs_read_ok s f node pos c buf len :
  fs_ok s -> handle s f node pos -> file_is s node c -> 0 <= pos <= Z.of_nat (length c) -> 0 <= len < 2 ^ 63 ->
  let n := Z.min len (Z.of_nat (length c) - pos) in n <= Z.of_nat (length buf) ->
  exists s', vfs_read f buf len s = Ok (n, take (Z.to_nat n) (drop (Z.to_nat pos) c) ++ drop (Z.to_nat n) buf, s') /\
    fs_ok s' /\ same_tree s s' /\ handle s' f node (pos + n) /\ file_is s' node c.
Proof using Type.
  intros Hfs Hh Hc Hpos Hlen n Hn. pose proof (fo_objs s Hfs) as Ho. pose proof (handle_old s f node pos Ho Hh) as Hold.
  pose proof (file_is_length s node c Hc) as Hc4. destruct Hh as (Hf0 & fl & Hf). pose proof Hc as (v & i & b & Hr & Ec).
  pose proof (file_contents_length s node v i b Hr) as Hcl. rewrite Ec in Hcl. set (h := File node pos Tmpfs fl) in *.
  eexists (set_files (<[f := File node (pos + n) Tmpfs fl]>) s). split_and!.
  - unfold vfs_read. run (deref_ok files f s h Hf0 Hf). change (read_op (file_ops (f_ops h))) with tmpfs_read.
    rewrite (tmpfs_read_ok s f h v i b Ho Hf Hf0 Hr ltac:(cbn; lia) buf len ltac:(lia) ltac:(cbn [h f_pos]; lia)
      ltac:(cbn [h f_pos]; lia)). cbn [h f_pos f_vnode f_ops f_flags]. by rewrite Ec, <-Hcl.
  - apply (same_tree_fs_ok s); [|done]. apply set_files_tree; [|done]. intros k Hk.
    rewrite lookup_insert_ne by lia. by destruct (ob_fresh s Ho k Hk) as (_ & _ & ? & _).
  - apply set_files_tree; [|done]. intros k Hk. rewrite lookup_insert_ne by lia.
    by destruct (ob_fresh s Ho k Hk) as (_ & _ & ? & _).
  - split; [done|]. exists fl. cbn. by rewrite lookup_insert_eq.
  - by apply set_files_file.
Qed.

Lemma vfs_close_ok s f node pos :
  fs_ok s -> handle s f node pos ->
  exists s', vfs_close f s = Ok (1, s') /\ fs_ok s' /\ same_tree s s' /\ files s' = delete f (files s) /\
    (forall n c, file_is s n c -> file_is s' n c).
Proof using Type.
  intros Hfs Hh. pose proof (fo_objs s Hfs) as Ho. destruct Hh as (Hf0 & fl & Hf).
  assert (Ht : same_tree s (set_files (delete f) s)).
  { apply set_files_tree; [|done]. intros k Hk. destruct (ob_fresh s Ho k Hk) as (_ & _ & F & _).
    apply lookup_delete_None. by right. }
  exists (set_files (delete f) s). split_and!; try done.
  - unfold vfs_close. by run (deref_ok files f s _ Hf0 Hf).
  - by apply (same_tree_fs_ok s).
  - intros n c. apply set_files_file.
Qed.

(** Opening a path that leads to a file. *)
Lemma vfs_open_file s pbuf p pre n fl node c :
  fs_ok s -> holds pbuf p -> entry_path p pre n -> walk s (root_of s) (components p) = Some node -> file_is s node c ->
  exists s', vfs_open pbuf fl s = Ok (Some (next_key s), s') /\ fs_ok s' /\ same_tree s s' /\
    handle s' (next_key s) node 0 /\ file_is s' node c.
Proof using Type.
  intros Hfs Hp He Hw (v & i & b & Hr & Ec). pose proof (fo_objs s Hfs) as Ho.
  pose proof (opened_tree s node v fl Ho) as Ht. pose proof (ob_next s Ho) as Hk.
  exists (opened s node v fl). split_and!; [|by apply (same_tree_fs_ok s)|done| |].
  - destruct (vfs_open_ok s pbuf p pre n Hfs Hp He fl) as (nb & _ & E). rewrite E, Hw.
    apply open_node_ok; [done|apply (rg_vnode _ _ _ _ _ Hr)].
  - split; [lia|]. exists (Some fl). cbn. by rewrite lookup_insert_eq, (rg_ops _ _ _ _ _ Hr).
  - exists v, i, b. split; [|done]. by apply opened_regular.
Qed.

(** Opening a path that leads nowhere, with [O_CREAT]. *)
Lemma vfs_open_new s buf p pre n d v i flags :
  fs_ok s -> holds buf p -> entry_path p pre n -> n <> [] -> pre <> [47] -> (length n < 16)%nat ->
  walk s (root_of s) (components pre) = Some d ->
  vnodes s !! d = Some v -> v_ops v = Tmpfs -> inodes s !! internal v = Some i -> i_type i = FSNODE_TYPE_DIR ->
  child s d n = None -> (length (children s d) < 16)%nat -> Z.land flags O_CREAT <> 0 ->
  exists s' h w j b, vfs_open buf flags s = Ok (Some h, s') /\ fs_ok s' /\
    walk s' (root_of s') (components p) = Some (next_key s) /\
    h <> 0 /\ files s' !! h = Some (File (next_key s) 0 Tmpfs (Some flags)) /\
    regular s' (next_key s) w j b /\ contents j b = [] /\ i_type j = FSNODE_TYPE_FILE /\
    (forall q y, walk s (root_of s) q = Some y -> walk s' (root_of s') q = Some y).
Proof using Type.
  intros Hf Hp He Hne Hpre Hl Hd Hv Hvo Hi Hit Hc Hroom Hfl. pose proof (fo_objs s Hf) as Ho.
  destruct (entry_nonzero buf p pre n Hp He) as [_ Hn]. pose proof (root_vnode s Hf) as Hr.
  pose proof (added_adds s d v i FSNODE_TYPE_FILE n Ho Hv Hi Hn Hl Hroom) as Ha.
  set (k := next_key s) in *. set (s1 := added s d v i FSNODE_TYPE_FILE n) in *.
  destruct (vfs_open_ok s buf p pre n Hf Hp He flags) as (nbuf & Hnb & E).
  set (w := Vnode 0 Tmpfs Tmpfs (k + 1)). set (j := named_inode k FSNODE_TYPE_FILE n).
  assert (Ew : vnodes s1 !! k = Some w) by (cbn; by rewrite lookup_insert_eq).
  pose proof (adds_fs_ok s s1 d n k Ha Hf) as Hf1. pose proof (fo_objs s1 Hf1) as Ho1.
  set (s2 := opened s1 k w flags). pose proof (opened_tree s1 k w flags Ho1) as Ht. fold s2 in Ht.
  assert (Ep : components p = components pre ++ [n]).
  { rewrite (ep_eq _ _ _ He). apply components_entry; [apply (ep_name _ _ _ He)|done|done]. }
  assert (Er2 : root_of s2 = root_of s).
  { rewrite (same_tree_root s1 s2 Ht). by apply (adds_root s s1 d n k). }
  exists s2, (next_key s1), w, j, (replicate 4096 None). split_and!.
  - rewrite E, Ep, walk_last, Hd. cbn [mbind option_bind]. rewrite Hc. cbn [mbind option_bind].
    destruct (Z.eqb_spec (Z.land flags O_CREAT) 0); [done|]. destruct (ob_vnode s Ho d v Hv) as (? & _).
    run (deref_ok vnodes d s v ltac:(lia) Hv). rewrite Hvo.
    rewrite (bind_ok _ _ s (1, Some k) s1).
    + rewrite (bind_ok _ _ s1 k s1 eq_refl). by apply open_node_ok.
    + change (tmpfs_create d nbuf s = Ok (1, Some k, s1)).
      rewrite (tmpfs_create_ok s d v i nbuf n Ho Hv Hi Hnb), decide_False by (rewrite Hit; auto). rewrite Hc.
      destruct (Nat.ltb_spec (length (children s d)) 16), (Nat.leb_spec (length n) 256), (Nat.ltb_spec (length n) 16); (done || lia).
  - by apply (same_tree_fs_ok s1 s2 Ht).
  - rewrite (same_tree_walk s1 s2 Ht), Er2, Ep. by apply (adds_new s s1 d n k Ho Ha).
  - pose proof (ob_next s1 Ho1). lia.
  - cbn. by rewrite lookup_insert_eq.
  - apply opened_regular. destruct (ob_vnode s Ho d v Hv) as (? & ? & _). pose proof (ob_next s Ho).
    split; cbn; try done.
    + rewrite lookup_insert_ne by (unfold k; lia). by rewrite lookup_insert_eq.
    + unfold k. lia.
    + by rewrite lookup_insert_eq.
    + lia.
  - done.
  - done.
  - intros q y Hq. rewrite (same_tree_walk s1 s2 Ht), Er2. by apply (proj1 (adds_walk s s1 d n k Ho Ha q _ Hr)).
Qed.
End Kernel.
