(* ===== verification/FsSpec.v ===== *)
(** What the kernel's file systems do through the virtual file system. *)
From Stdlib Require Import Ascii String.
From S2P Require Import Prelude CString FsData Vfs Tmpfs Initramfs Fat32 FsInv VfsSpec VfsMount FsNodes TmpfsSpec.
From S2P Require Import FileSystems FsTree FileOps.

Section Kernel.
Variables (fuel : nat) (junk : list Z).
#[local] Existing Instance kernel_ops.
#[local] Existing Instance kernel_laws.
Let ops : Ops := kernel_ops fuel junk.
#[local] Existing Instance ops | 0.
Let laws : @FsLaws ops := kernel_laws fuel junk.
#[local] Existing Instance laws | 0.

(** * Properties *)

(** C22. The lookup of a path is the walk over its components from the root, each mount
    followed: it finds the node the walk reaches, returns 0 when a component is missing,
    never overruns its buffer for a path whose components are shorter than 256
    characters, and changes nothing. *)
Theorem vfs_lookup_spec s buf p :
  fs_ok s -> holds buf p -> Forall (fun w => (length w < 256)%nat) (components p) ->
  vfs_lookup buf s = Ok (walk s (root_of s) (components p), s).
Proof using Type. intros Hf. apply (vfs_lookup_ok s (fo_objs s Hf) buf p Hf). Qed.

(** Making a directory in a tmpfs directory with room. *)
Lemma vfs_mkdir_added s buf p pre n d v i :
  fs_ok s -> holds buf p -> entry_path p pre n -> (length n < 16)%nat ->
  walk s (root_of s) (components pre) = Some d ->
  vnodes s !! d = Some v -> v_ops v = Tmpfs -> inodes s !! internal v = Some i -> i_type i = FSNODE_TYPE_DIR ->
  child s d n = None -> (length (children s d) < 16)%nat ->
  vfs_mkdir buf s = Ok (1, added s d v i FSNODE_TYPE_DIR n) /\
  adds s (added s d v i FSNODE_TYPE_DIR n) d n (next_key s).
Proof using Type.
  intros Hf Hp He Hl Hd Hv Hvo Hi Hit Hc Hroom. pose proof (fo_objs s Hf) as Ho.
  destruct (entry_nonzero buf p pre n Hp He) as [_ Hn].
  destruct (vfs_mkdir_ok s buf p pre n Hf Hp He) as (nbuf & Hnb & E). split; [|by apply added_adds].
  rewrite E, Hd. destruct (ob_vnode s Ho d v Hv) as (? & _). run (deref_ok vnodes d s v ltac:(lia) Hv).
  rewrite Hvo. rewrite (bind_ok _ _ s (0, Some (next_key s)) (added s d v i FSNODE_TYPE_DIR n)); [done|].
  change (tmpfs_mkdir d nbuf s = Ok (0, Some (next_key s), added s d v i FSNODE_TYPE_DIR n)).
  rewrite (tmpfs_mkdir_ok s d v i nbuf n Ho Hv Hi Hnb), decide_False by (rewrite Hit; auto).
  destruct (Nat.ltb_spec (length (children s d)) 16), (Nat.leb_spec (length n) 256), (Nat.ltb_spec (length n) 16); (done || lia).
Qed.

(** Making a directory in a tmpfs directory with room: the path leads to a new empty
    node, every old path leads where it led, and no other path is new. *)
Theorem vfs_mkdir_spec s buf p pre n d v i :
  fs_ok s -> holds buf p -> entry_path p pre n -> n <> [] -> pre <> [47] -> (length n < 16)%nat ->
  walk s (root_of s) (components pre) = Some d ->
  vnodes s !! d = Some v -> v_ops v = Tmpfs -> inodes s !! internal v = Some i -> i_type i = FSNODE_TYPE_DIR ->
  child s d n = None -> (length (children s d) < 16)%nat ->
  exists s', vfs_mkdir buf s = Ok (1, s') /\ fs_ok s' /\ root_of s' = root_of s /\
    walk s' (root_of s) (components p) = Some (next_key s) /\ (forall m, child s' (next_key s) m = None) /\
    (forall q y, walk s (root_of s) q = Some y -> walk s' (root_of s) q = Some y) /\
    (forall q y, walk s' (root_of s) q = Some y -> walk s (root_of s) q = Some y \/ y = next_key s).
Proof using Type.
  intros Hf Hp He Hne Hpre Hl Hd Hv Hvo Hi Hit Hc Hroom. pose proof (fo_objs s Hf) as Ho.
  destruct (vfs_mkdir_added s buf p pre n d v i Hf Hp He Hl Hd Hv Hvo Hi Hit Hc Hroom) as [E Ha].
  exists (added s d v i FSNODE_TYPE_DIR n). pose proof (root_vnode s Hf) as Hr.
  split_and!; [exact E|by eapply adds_fs_ok|by eapply adds_root| |apply (ad_empty _ _ _ _ _ Ha)| |].
  - rewrite (ep_eq _ _ _ He), components_entry by (done || apply (ep_name _ _ _ He)).
    by apply (adds_new s _ d n _ Ho Ha).
  - intros q. apply (proj1 (adds_walk s _ d n _ Ho Ha q _ Hr)).
  - intros q. apply (proj2 (adds_walk s _ d n _ Ho Ha q _ Hr)).
Qed.

(** Opening a path that leads nowhere with [O_CREAT], in a tmpfs directory with room:
    a handle at the start of a new empty file, to which the path leads from then on;
    the old paths lead where they led. *)
Theorem vfs_open_creates s buf p pre n d v i flags :
  fs_ok s -> holds buf p -> entry_path p pre n -> n <> [] -> pre <> [47] -> (length n < 16)%nat ->
  walk s (root_of s) (components pre) = Some d ->
  vnodes s !! d = Some v -> v_ops v = Tmpfs -> inodes s !! internal v = Some i -> i_type i = FSNODE_TYPE_DIR ->
  child s d n = None -> (length (children s d) < 16)%nat -> Z.land flags O_CREAT <> 0 ->
  exists s' h w j b, vfs_open buf flags s = Ok (Some h, s') /\ fs_ok s' /\
    walk s' (root_of s') (components p) = Some (next_key s) /\
    h <> 0 /\ files s' !! h = Some (File (next_key s) 0 Tmpfs (Some flags)) /\
    regular s' (next_key s) w j b /\ contents j b = [] /\ i_type j = FSNODE_TYPE_FILE /\
    (forall q y, walk s (root_of s) q = Some y -> walk s' (root_of s') q = Some y).
Proof using Type. apply vfs_open_new. Qed.

(** C23. What a handle wrote to a tmpfs file is what a handle opened later on the path of the
    file reads: the bytes written replace those from the position of the first handle on,
    the others are as they were, and the second handle reads them all. *)
Theorem file_roundtrip s f node pos c buf len pbuf p pre n fl out :
  fs_ok s -> handle s f node pos -> file_is s node c -> 0 <= pos <= Z.of_nat (length c) ->
  0 < len <= Z.of_nat (length buf) -> pos + len <= 4096 ->
  holds pbuf p -> entry_path p pre n -> walk s (root_of s) (components p) = Some node ->
  4096 <= Z.of_nat (length out) < 2 ^ 63 ->
  let c' := take (Z.to_nat pos) c ++ take (Z.to_nat len) buf ++ drop (Z.to_nat (pos + len)) c in
  exists s1 s2 s3 s4 g, vfs_write f buf len s = Ok (len, s1) /\ vfs_close f s1 = Ok (1, s2) /\
    vfs_open pbuf fl s2 = Ok (Some g, s3) /\
    vfs_read g out (Z.of_nat (length out)) s3 = Ok (Z.of_nat (length c'), c' ++ drop (length c') out, s4).
Proof using Type.
  intros Hfs Hh Hc Hpos Hlen Hfit Hp He Hw Hout c'.
  destruct (vfs_write_ok fuel junk s f node pos c buf len Hfs Hh Hc Hpos Hlen Hfit) as (s1 & E1 & Hs1 & Ht1 & Hh1 & Hc1).
  destruct (vfs_close_ok fuel junk s1 f node _ Hs1 Hh1) as (s2 & E2 & Hs2 & Ht2 & _ & Hc2). apply Hc2 in Hc1.
  assert (Hw2 : walk s2 (root_of s2) (components p) = Some node).
  { by rewrite (same_tree_root s1 s2 Ht2), (same_tree_root s s1 Ht1), (same_tree_walk s1 s2 Ht2), (same_tree_walk s s1 Ht1). }
  destruct (vfs_open_file fuel junk s2 pbuf p pre n fl node c' Hs2 Hp He Hw2 Hc1) as (s3 & E3 & Hs3 & _ & Hh3 & Hc3).
  pose proof (file_is_length s3 node c' Hc3) as Hl.
  destruct (vfs_read_ok fuel junk s3 (next_key s2) node 0 c' out (Z.of_nat (length out)) Hs3 Hh3 Hc3 ltac:(lia) ltac:(lia) ltac:(lia))
    as (s4 & E4 & _).
  exists s1, s2, s3, s4, (next_key s2). split_and!; [done..|]. etrans; [exact E4|].
  replace (Z.min (Z.of_nat (length out)) (Z.of_nat (length c') - 0)) with (Z.of_nat (length c')) by lia.
  by rewrite Nat2Z.id, drop_0, (take_ge c') by lia.
Qed.

(** Mounting on a directory nothing is mounted on, when the file system's own setup
    returns: the path of the directory leads to the root the setup made, and the paths
    to older nodes lead where they led.  A file system nobody registered, or a missing
    directory, makes it return 0 and change nothing. *)
Theorem vfs_mount_spec s t tbuf p pre n fbuf nm d c v r0 s1 `{!Mountable t} :
  fs_ok s -> holds tbuf p -> entry_path p pre n -> n <> [] -> pre <> [47] -> holds fbuf nm ->
  (find_fs s nm = None \/ walk s (root_of s) (components p) = None -> vfs_mount tbuf fbuf s = Ok (0, s)) /\
  (find_fs s nm = Some t -> walk s (root_of s) (components pre) = Some d -> child s d n = Some c ->
   vnodes s !! c = Some v -> v_mount v = 0 -> mount_pre (set_next_key (next_key s + 1) s) ->
   setup_mount (fs_table t) t (next_key s) (set_next_key (next_key s + 1) s) = Ok (r0, s1) ->
   exists s' rt, vfs_mount tbuf fbuf s = Ok (1, s') /\ fs_ok s' /\ root_of s' = root_of s /\
     mounts s1 !! next_key s = Some (Mount rt t) /\ next_key s < rt /\
     walk s' (root_of s) (components p) = Some rt /\
     (forall q y, walk s (root_of s) q = Some y -> y < c -> walk s' (root_of s) q = Some y)).
Proof using Type.
  intros Hs Hp He Hne Hpre Hn. split.
  - apply (mount_failures s tbuf p fbuf nm Hs Hp (ep_len _ _ _ He) Hn).
  - intros Hf Hd Hc Hv Hv0 Hpm Es.
    destruct (vfs_mount_ok s t tbuf p pre n fbuf nm d c v r0 s1 Hs Hp He Hne Hpre Hn Hf Hd Hc Hv Hv0 Hpm Es)
      as (E & Hok & Hr & (rt & Hm & Hlt & Hw) & Hold).
    by exists (mount_on s1 c (next_key s) v), rt.
Qed.

End Kernel.

(** * Instances *)

Section Example.
Let ops : Ops := kernel_ops 4 (replicate 32 0).
#[local] Existing Instance ops | 0.

(** A tmpfs root with nothing in it, the three file systems being registered. *)
Definition ex_root : vnode := Vnode 0 Tmpfs Tmpfs 3.
Definition ex_root_inode : inode := Inode FSNODE_TYPE_DIR (replicate 16 0) (replicate 16 0) (4, 0) 0.
Definition ex_state (B : gmap Z (list (option Z))) (k : Z) (base : ptr) : fs_state :=
  FsState {[2 := ex_root]} {[3 := ex_root_inode]} ∅ {[1 := Mount 2 Tmpfs]} ∅ B k
    [Some Tmpfs; Some Initramfs; Some Fat32; None; None; None; None; None] 1 base
    (FatInfo 0 0 0 0 0 0 0) [] [] ∅.
Definition ex_fs : fs_state := ex_state {[4 := replicate 4096 None]} 5 (0, 0).

Lemma ex_vnode B k base x v : vnodes (ex_state B k base) !! x = Some v -> x = 2 /\ v = ex_root.
Proof.
  intros H. change (({[2 := ex_root]} : gmap Z vnode) !! x = Some v) in H.
  by apply lookup_singleton_Some in H as [<- <-].
Qed.

Lemma ex_state_ok B k base : 5 <= k -> (forall x, k <= x -> B !! x = None) -> fs_ok (ex_state B k base).
Proof.
  intros Hk HB. split; [split|done|].
  - cbn. lia.
  - intros x v [-> ->]%ex_vnode. cbn. split; [lia|]. split; [lia|]. exists ex_root_inode.
    split; [done|]. split; [|done|by exists 16%nat|done|by intros c ?%elem_of_nil].
    split; [apply nonzero_nil|by exists (replicate 15 0)].
  - intros x x' v v' [-> ->]%ex_vnode [-> ->]%ex_vnode. done.
  - intros x v [-> ->]%ex_vnode. done.
  - intros x Hx. cbn in Hx. cbn. split_and!; [apply lookup_singleton_ne; lia|apply lookup_singleton_ne; lia|done|by apply HB].
  - split; [done|]. exists (Mount 2 Tmpfs). split; [done|]. by exists ex_root.
Qed.

Lemma ex_fs_ok : fs_ok ex_fs.
Proof. apply ex_state_ok; [lia|]. intros x Hx. apply lookup_singleton_ne. lia. Qed.

(** With the directory "a"; with the file "f" and a handle on it. *)
Definition ex_dir : fs_state := added ex_fs 2 ex_root ex_root_inode FSNODE_TYPE_DIR (chars "a").
Definition ex_closed : fs_state := added ex_fs 2 ex_root ex_root_inode FSNODE_TYPE_FILE (chars "f").
Definition ex_file : fs_state := opened ex_closed 5 (Vnode 0 Tmpfs Tmpfs 6) 0.

Lemma ex_room : (length (children ex_fs 2) < 16)%nat.
Proof. apply Nat.ltb_lt. vm_compute. reflexivity. Qed.

Lemma ex_adds type n : nonzero n -> (length n < 16)%nat ->
  adds ex_fs (added ex_fs 2 ex_root ex_root_inode type n) 2 n 5.
Proof. intros Hn Hl. apply added_adds; [apply ex_fs_ok|reflexivity|reflexivity|exact Hn|exact Hl|exact ex_room]. Qed.

Lemma ex_dir_ok : fs_ok ex_dir.
Proof. apply (adds_fs_ok ex_fs ex_dir 2 (chars "a") 5); [apply ex_adds; [repeat constructor|cbn; lia]|apply ex_fs_ok]. Qed.

Lemma ex_closed_ok : fs_ok ex_closed.
Proof. apply (adds_fs_ok ex_fs ex_closed 2 (chars "f") 5); [apply ex_adds; [repeat constructor|cbn; lia]|apply ex_fs_ok]. Qed.

Lemma ex_file_ok : fs_ok ex_file.
Proof.
  apply (same_tree_fs_ok ex_closed); [|apply ex_closed_ok]. apply opened_tree. apply (fo_objs _ ex_closed_ok).
Qed.

Lemma cstr_holds s : nonzero (chars s) -> holds (cstr s) (chars s).
Proof. intros H. by apply holds_self. Qed.

Lemma vfs_lookup_spec_witness : vfs_lookup (cstr "/a") ex_dir = Ok (walk ex_dir 2 [chars "a"], ex_dir).
Proof.
  apply (vfs_lookup_spec 4 (replicate 32 0) ex_dir (cstr "/a") (chars "/a") ex_dir_ok).
  - apply cstr_holds. repeat constructor.
  - cbn. constructor; [cbn; lia|constructor].
Defined.

Lemma ex_walk : walk ex_dir 2 [chars "a"] = Some 5.
Proof. vm_compute. reflexivity. Qed.

Lemma vfs_mkdir_spec_witness : exists s', vfs_mkdir (cstr "/a") ex_fs = Ok (1, s') /\ walk s' 2 [chars "a"] = Some 5.
Proof.
  destruct (vfs_mkdir_spec 4 (replicate 32 0) ex_fs (cstr "/a") (chars "/a") [] (chars "a") 2 ex_root ex_root_inode
    ex_fs_ok (cstr_holds "/a" ltac:(repeat constructor)) ltac:(split; [done|by repeat constructor|cbn; lia]) ltac:(done) ltac:(done)
    ltac:(cbn; lia) eq_refl eq_refl eq_refl eq_refl eq_refl eq_refl ex_room) as (s' & E & _ & _ & Hw & _).
  exists s'. split; [exact E|exact Hw].
Defined.

Lemma vfs_open_creates_witness :
  exists s' h, vfs_open (cstr "/f") O_CREAT ex_fs = Ok (Some h, s') /\ walk s' (root_of s') [chars "f"] = Some 5.
Proof.
  destruct (vfs_open_creates 4 (replicate 32 0) ex_fs (cstr "/f") (chars "/f") [] (chars "f") 2 ex_root ex_root_inode O_CREAT
    ex_fs_ok (cstr_holds "/f" ltac:(repeat constructor)) ltac:(split; [done|by repeat constructor|cbn; lia]) ltac:(done) ltac:(done)
    ltac:(cbn; lia) eq_refl eq_refl eq_refl eq_refl eq_refl eq_refl ex_room ltac:(done))
    as (s' & h & w & j & b & E & _ & Hw & _).
  exists s', h. split; [exact E|exact Hw].
Defined.

Lemma file_roundtrip_witness :
  exists s1 s2 s3 s4 g, vfs_write 8 [1; 2; 3] 3 ex_file = Ok (3, s1) /\ vfs_close 8 s1 = Ok (1, s2) /\
    vfs_open (cstr "/f") 0 s2 = Ok (Some g, s3) /\
    vfs_read g (replicate 4096 0) 4096 s3 = Ok (3, [1; 2; 3] ++ replicate 4093 0, s4).
Proof.
  apply (file_roundtrip 4 (replicate 32 0) ex_file 8 5 0 [] [1; 2; 3] 3 (cstr "/f") (chars "/f") [] (chars "f") 0
    (replicate 4096 0)).
  - apply ex_file_ok.
  - split; [done|]. by exists (Some 0).
  - exists (Vnode 0 Tmpfs Tmpfs 6), (named_inode 5 FSNODE_TYPE_FILE (chars "f")), (replicate 4096 None). split; [|done].
    split; try done. intros k Hk. cbn in Hk. lia.
  - cbn. lia.
  - cbn. lia.
  - lia.
  - apply cstr_holds. repeat constructor.
  - split; [done|by repeat constructor|cbn; lia].
  - reflexivity.
  - rewrite length_replicate. lia.
Defined.

Lemma vfs_mount_spec_witness :
  exists s' rt, vfs_mount (cstr "/a") (cstr "tmpfs") ex_dir = Ok (1, s') /\ walk s' 2 [chars "a"] = Some rt /\ 8 < rt.
Proof.
  destruct (proj2 (vfs_mount_spec 4 (replicate 32 0) ex_dir Tmpfs (cstr "/a") (chars "/a") [] (chars "a") (cstr "tmpfs")
    (chars "tmpfs") 2 5 (Vnode 0 Tmpfs Tmpfs 6) 1 _ (Mountable0 := tmpfs_mountable 4 (replicate 32 0)) ex_dir_ok
    (cstr_holds "/a" ltac:(repeat constructor)) ltac:(split; [done|by repeat constructor|cbn; lia]) ltac:(done) ltac:(done)
    (cstr_holds "tmpfs" ltac:(repeat constructor))) eq_refl eq_refl eq_refl eq_refl eq_refl I eq_refl)
    as (s' & rt & E & _ & _ & _ & Hlt & Hw & _).
  exists s', rt. split; [exact E|]. split; [exact Hw|exact Hlt].
Defined.
End Example.
