(* ===== verification/FatSpec.v ===== *)
(** The structures of the card as [fat32.c] changes them: the allocation table, the chains
    of clusters, the entries of a directory. *)
From S2P Require Import Prelude CString FsData Vfs Tmpfs Fat32 FsInv.

(** * Fields of a block *)

Definition byte (c : Z) : Prop := 0 <= c < 256.

Lemma le_ok n l : (n <= length l)%nat -> Forall byte l -> exists v, le n l = Some v /\ 0 <= v < 256 ^ Z.of_nat n.
Proof.
  revert l. induction n as [|n IH]; intros [|c l] Hl Hb; try (cbn in Hl; lia); [by exists 0|by exists 0|].
  apply Forall_cons in Hb as [Hc Hb]. destruct (IH l ltac:(cbn in Hl; lia) Hb) as (v & E & Hv). exists (c + 256 * v).
  split; [cbn [le]; by rewrite E|]. unfold byte in Hc. rewrite Nat2Z.inj_succ, Z.pow_succ_r by lia. lia.
Qed.

Lemma le_take n l : le n (take n l) = le n l.
Proof. revert l. induction n as [|n IH]; intros [|c l]; cbn; [done|done|done|]. by rewrite IH. Qed.

Lemma le_bytes_length n v : length (le_bytes n v) = n.
Proof. revert v. induction n as [|n IH]; intros v; cbn; [done|]. by rewrite IH. Qed.

Lemma le_bytes_byte n v : Forall byte (le_bytes n v).
Proof. revert v. induction n as [|n IH]; intros v; constructor; [apply u8_range|apply IH]. Qed.

Lemma le_le_bytes n v l : 0 <= v < 256 ^ Z.of_nat n -> le n (le_bytes n v ++ l) = Some v.
Proof.
  revert v. induction n as [|n IH]; intros v Hv; [cbn in *; f_equal; lia|].
  rewrite Nat2Z.inj_succ, Z.pow_succ_r in Hv by lia.
  cbn [le_bytes app le]. rewrite IH; [|split; [apply Z.div_pos; lia|apply Z.div_lt_upper_bound; lia]].
  cbn [mbind option_bind]. f_equal. unfold u8. change (2 ^ 8) with 256. pose proof (Z.div_mod v 256 ltac:(lia)). lia.
Qed.

(** [bytes] over the bytes of [b] from [off] on. *)
Definition splice (off : nat) (bytes b : list Z) : list Z := take off b ++ bytes ++ drop (off + length bytes) b.

Lemma splice_length off bytes b : (off + length bytes <= length b)%nat -> length (splice off bytes b) = length b.
Proof. intros H. unfold splice. rewrite !length_app, length_take, length_drop. lia. Qed.

Lemma splice_byte off bytes b : Forall byte bytes -> Forall byte b -> Forall byte (splice off bytes b).
Proof. intros H1 H2. unfold splice. apply Forall_app; split; [by apply Forall_take|]. apply Forall_app; split; [done|by apply Forall_drop]. Qed.

Lemma splice_lookup off bytes b k : (off + length bytes <= length b)%nat ->
  splice off bytes b !! k = if decide (off <= k < off + length bytes)%nat then bytes !! (k - off)%nat else b !! k.
Proof.
  intros H. unfold splice. destruct (decide _) as [[H1 H2]|Hn].
  - rewrite lookup_app_r; rewrite length_take; [|lia]. rewrite lookup_app_l by lia. f_equal. lia.
  - destruct (Nat.lt_ge_cases k off) as [Hk|Hk].
    + rewrite lookup_app_l by (rewrite length_take; lia). by apply lookup_take_lt.
    + rewrite lookup_app_r; rewrite length_take; [|lia]. rewrite lookup_app_r by lia. rewrite lookup_drop. f_equal. lia.
Qed.

(** The [j]-th piece of [n] bytes, and a block with another [i]-th piece. *)
Definition piece (n : nat) (j : Z) (b : list Z) : list Z := take n (drop (Z.to_nat (Z.of_nat n * j)) b).

Lemma piece_splice n i j bytes b : length bytes = n -> 0 <= i -> 0 <= j -> Z.of_nat n * i + Z.of_nat n <= Z.of_nat (length b) ->
  piece n j (splice (Z.to_nat (Z.of_nat n * i)) bytes b) = if decide (j = i) then bytes else piece n j b.
Proof.
  intros Hn Hi Hj Hb. unfold piece. apply list_eq. intros k.
  destruct (Nat.lt_ge_cases k n) as [Hk|Hk].
  - rewrite lookup_take_lt, lookup_drop, splice_lookup by lia. destruct (decide (j = i)) as [->|Hji].
    + rewrite decide_True by lia. f_equal. lia.
    + rewrite lookup_take_lt, lookup_drop by lia. rewrite decide_False; [done|].
      intros [H1 H2]. assert (j < i \/ i < j) as [H|H] by lia; nia.
  - rewrite lookup_take_ge by lia. destruct (decide (j = i)); [by rewrite lookup_ge_None_2 by lia|by rewrite lookup_take_ge by lia].
Qed.

(** * The card *)

Definition card_ok (s : fs_state) : Prop := forall k b, sd s !! k = Some b -> length b = 512%nat /\ Forall byte b.

Definition card_okb (s : fs_state) : bool :=
  forallb (fun p => (length p.2 =? 512)%nat && forallb (fun c => (0 <=? c) && (c <? 256)) p.2) (map_to_list (sd s)).

Lemma card_okb_ok s : card_okb s = true -> card_ok s.
Proof.
  intros H k b Hb. apply elem_of_map_to_list, list_elem_of_In in Hb. apply (proj1 (forallb_forall _ _) H) in Hb.
  apply andb_true_iff in Hb as [H1 H2]. split; [by apply Nat.eqb_eq|]. apply Forall_forall. intros c Hc%list_elem_of_In.
  apply (proj1 (forallb_forall _ _) H2) in Hc. unfold byte. by zbool.
Qed.

Lemma card_read_ok s idx b : sd s !! s32 idx = Some b -> readblock idx s = Ok (b, s).
Proof. intros E. unfold readblock. by rewrite E. Qed.

Lemma card_write_ok s idx b b' : sd s !! s32 idx = Some b -> length b' = 512%nat ->
  writeblock idx b' s = Ok (tt, set_sd (<[s32 idx := b']>) s).
Proof. intros E Hl. unfold writeblock. rewrite E. rewrite take_ge by lia. done. Qed.

Lemma card_insert s k b : card_ok s -> length b = 512%nat -> Forall byte b -> card_ok (set_sd (<[k := b]>) s).
Proof. intros Hs Hl Hb k' b' E. cbn in E. apply lookup_insert_Some in E as [[<- <-]|[_ E]]; [done|by apply (Hs k')]. Qed.

Lemma s32_u32_inj x y : s32 (u32 x) = s32 (u32 y) -> u32 x = u32 y.
Proof.
  unfold s32, u32. intros E.
  pose proof (Z.mod_pos_bound x (2 ^ 32) ltac:(lia)). pose proof (Z.mod_pos_bound y (2 ^ 32) ltac:(lia)).
  revert E. generalize dependent (x mod 2 ^ 32). generalize dependent (y mod 2 ^ 32). intros a Ha b Hb.
  Z.div_mod_to_equations. lia.
Qed.

(** * The allocation table *)

Definition fat_block (s : fs_state) (c : Z) : Z := s32 (u32 (fat_region (fat_info s) + c / 128)).

(** The entry of a cluster. *)
Definition fat_entry (s : fs_state) (c : Z) : option Z :=
  b ← sd s !! fat_block s c; le 4 (piece 4 (c mod 128) b).

Lemma fat_block_inj s c c' : 0 <= c < 2 ^ 32 -> 0 <= c' < 2 ^ 32 -> fat_block s c = fat_block s c' -> c / 128 = c' / 128.
Proof.
  intros Hc Hc' E. apply s32_u32_inj in E. unfold u32 in E. revert E. clear -Hc Hc'. Z.div_mod_to_equations. lia.
Qed.

Lemma field_ok n off l (s : fs_state) v : le n (drop (Z.to_nat off) l) = Some v -> field n off l s = Ok (v, s).
Proof. intros E. unfold field. by rewrite E. Qed.

Lemma le_piece n j b : le n (piece n j b) = le n (drop (Z.to_nat (Z.of_nat n * j)) b).
Proof. apply le_take. Qed.

Lemma read_fat_entry_ok s c v : fat_entry s c = Some v -> read_fat_entry c s = Ok (v, s).
Proof.
  intros E. unfold fat_entry in E. destruct (sd s !! fat_block s c) as [b|] eqn:Eb; [|done]. cbn [mbind option_bind] in E.
  unfold read_fat_entry. run (gets_ok fat_info s). run (card_read_ok s _ b Eb). apply field_ok. rewrite le_piece in E. exact E.
Qed.

Lemma lor_bound a b k : 0 <= k -> 0 <= a < 2 ^ k -> 0 <= b < 2 ^ k -> 0 <= Z.lor a b < 2 ^ k.
Proof.
  intros Hk Ha Hb. assert (H0 : 0 <= Z.lor a b) by (apply Z.lor_nonneg; lia). split; [done|].
  rewrite <-(Z.mod_small a (2 ^ k)), <-(Z.mod_small b (2 ^ k)), <-!Z.land_ones, <-Z.land_lor_distr_l, Z.land_ones by lia.
  apply Z.mod_pos_bound. lia.
Qed.

(** The state after the entry of [c] was or-ed with [value]. *)
Definition fat_written (s : fs_state) (c : Z) (b : list Z) (old value : Z) : fs_state :=
  set_sd (<[fat_block s c := splice (Z.to_nat (4 * (c mod 128))) (le_bytes 4 (Z.lor old value)) b]>) s.

Section Write.
Variables (s : fs_state) (c value old : Z) (b : list Z).
Hypotheses (Hs : card_ok s) (Hc : 0 <= c < 2 ^ 32) (Hv : 0 <= value < 2 ^ 32)
  (Hb : sd s !! fat_block s c = Some b) (Hold : le 4 (piece 4 (c mod 128) b) = Some old).
Let b' : list Z := splice (Z.to_nat (4 * (c mod 128))) (le_bytes 4 (Z.lor old value)) b.

Lemma written_block : length b' = 512%nat /\ Forall byte b'.
Proof using Hs Hb.
  destruct (Hs _ _ Hb) as [Hl Hbb]. pose proof (Z.mod_pos_bound c 128 ltac:(lia)). split.
  - unfold b'. rewrite splice_length; rewrite ?le_bytes_length; lia.
  - by apply splice_byte; [apply le_bytes_byte|].
Qed.

Lemma write_fat_table_ok : write_fat_table c value s = Ok (tt, fat_written s c b old value).
Proof using Hs Hb Hold.
  unfold write_fat_table. run (gets_ok fat_info s). run (card_read_ok s _ b Hb).
  rewrite le_piece in Hold. run (field_ok 4 _ b s old Hold).
  replace (Z.to_nat (4 * (c mod 128) + 4)) with (Z.to_nat (4 * (c mod 128)) + length (le_bytes 4 (Z.lor old value)))%nat.
  2:{ rewrite le_bytes_length. pose proof (Z.mod_pos_bound c 128 ltac:(lia)). lia. }
  fold (splice (Z.to_nat (4 * (c mod 128))) (le_bytes 4 (Z.lor old value)) b).
  apply (card_write_ok s _ b); [done|apply written_block].
Qed.

Lemma fat_written_entry c' : 0 <= c' < 2 ^ 32 ->
  fat_entry (fat_written s c b old value) c' = if decide (c' = c) then Some (Z.lor old value) else fat_entry s c'.
Proof using Hs Hc Hv Hb Hold.
  intros Hc'. unfold fat_entry, fat_written. cbn [sd set_sd]. change (fat_block (set_sd _ s) c') with (fat_block s c').
  destruct (Hs _ _ Hb) as [Hl Hbb]. pose proof (Z.mod_pos_bound c 128 ltac:(lia)) as M. pose proof (Z.mod_pos_bound c' 128 ltac:(lia)) as M'.
  assert (Ho : 0 <= old < 2 ^ 32).
  { rewrite le_piece in Hold. destruct (le_ok 4 (drop (Z.to_nat (4 * (c mod 128))) b)) as (x & Ex & Hx).
    - rewrite length_drop. lia.
    - by apply Forall_drop.
    - pose proof (eq_trans (eq_sym Ex) Hold) as E. injection E as ->. exact Hx. }
  destruct (decide (fat_block s c' = fat_block s c)) as [E|E].
  - pose proof (fat_block_inj s c' c Hc' Hc E) as Ed. rewrite E, Hb, lookup_insert_eq. cbn [mbind option_bind].
    change (Z.to_nat (4 * (c mod 128))) with (Z.to_nat (Z.of_nat 4 * (c mod 128))).
    rewrite piece_splice by (rewrite ?le_bytes_length; lia).
    pose proof (Z.div_mod c 128 ltac:(lia)). pose proof (Z.div_mod c' 128 ltac:(lia)).
    destruct (decide (c' mod 128 = c mod 128)) as [Em|Em].
    + rewrite decide_True by lia. rewrite <-(app_nil_r (le_bytes 4 _)). apply le_le_bytes. by apply (lor_bound _ _ 32).
    + rewrite decide_False by (intros ->; auto). done.
  - rewrite lookup_insert_ne by congruence. rewrite decide_False by (intros ->; auto). done.
Qed.
End Write.

(** The first free cluster. *)
Definition is_free (s : fs_state) (c : Z) : Prop := exists v, fat_entry s c = Some v /\ FAT_ENTRY v = FAT_ENTRY_FREE.
Definition is_used (s : fs_state) (c : Z) : Prop := exists v, fat_entry s c = Some v /\ FAT_ENTRY v <> FAT_ENTRY_FREE.

Lemma used_not_free s c : is_used s c -> is_free s c -> False.
Proof. intros (v & E & H) (w & E' & H'). congruence. Qed.

Section Free.
Variable (s : fs_state).

(** The search of a block. *)
Lemma free_entry_ok k b : sd s !! s32 (u32 (fat_region (fat_info s) + k)) = Some b ->
  forall n i, 0 <= k -> 0 <= i -> i + Z.of_nat n <= 128 ->
  (forall j, i <= j < i + Z.of_nat n -> is_used s (128 * k + j) \/ is_free s (128 * k + j)) ->
  exists r, free_entry n i b s = Ok (r, s) /\
    match r with
    | Some j => i <= j < i + Z.of_nat n /\ is_free s (128 * k + j) /\ forall j', i <= j' < j -> is_used s (128 * k + j')
    | None => forall j, i <= j < i + Z.of_nat n -> is_used s (128 * k + j)
    end.
Proof using Type.
  intros Hb. induction n as [|n IH]; intros i Hk Hi Hn Hall; [exists None; split; [done|intros j Hj; lia]|].
  assert (He : fat_entry s (128 * k + i) = le 4 (drop (Z.to_nat (4 * i)) b)).
  { unfold fat_entry, fat_block. replace ((128 * k + i) / 128) with k by (Z.div_mod_to_equations; lia).
    replace ((128 * k + i) mod 128) with i by (Z.div_mod_to_equations; lia). rewrite Hb. cbn [mbind option_bind]. by rewrite le_piece. }
  cbn [free_entry]. destruct (Hall i ltac:(lia)) as [(v & Ev & Hv)|(v & Ev & Hv)]; rewrite He in Ev; run (field_ok 4 _ b s v Ev).
  - rewrite (proj2 (Z.eqb_neq _ _) Hv). destruct (IH (i + 1)) as (r & E & Hr); [done|lia|lia|intros j Hj; apply Hall; lia|].
    assert (Hu : is_used s (128 * k + i)) by (exists v; by rewrite He).
    exists r. split; [done|]. destruct r as [j|].
    + destruct Hr as (Hj & Hf & Hr). split_and!; [lia|lia|done|]. intros j' Hj'. destruct (decide (j' = i)) as [->|]; [done|]. apply Hr. lia.
    + intros j Hj. destruct (decide (j = i)) as [->|]; [done|]. apply Hr. lia.
  - rewrite (proj2 (Z.eqb_eq _ _) Hv). exists (Some i). split; [done|]. split_and!; [lia|lia| |intros j' Hj'; lia].
    exists v. by rewrite He.
Qed.

(** The search of the table from its block [k] on. *)
Lemma free_cluster_ok n : forall k, 0 <= k -> 0 <= fat_region (fat_info s) -> fat_region (fat_info s) + k + Z.of_nat n < 2 ^ 32 ->
  (forall j, k <= j < k + Z.of_nat n -> is_Some (sd s !! fat_block s (128 * j))) ->
  (forall c, 128 * k <= c < 128 * (k + Z.of_nat n) -> is_used s c \/ is_free s c) ->
  exists r, free_cluster_loop n (fat_region (fat_info s) + k) s = Ok (r, s) /\
    ((forall c, 128 * k <= c < 128 * (k + Z.of_nat n) -> is_used s c) /\ r = 0 \/
     exists c, 128 * k <= c < 128 * (k + Z.of_nat n) /\ is_free s c /\ (forall c', 128 * k <= c' < c -> is_used s c') /\ r = c mod 128).
Proof using Type.
  induction n as [|n IH]; intros k Hk Hr Hw Hb Hall; [exists 0; split; [done|left; split; [intros c Hc; lia|done]]|].
  cbn [free_cluster_loop]. destruct (Hb k ltac:(lia)) as [b Eb]. unfold fat_block in Eb.
  replace (128 * k / 128) with k in Eb by (Z.div_mod_to_equations; lia).
  destruct (free_entry_ok k b Eb 128 0 Hk ltac:(lia) ltac:(lia)) as (r & E & Hres); [intros j Hj; apply Hall; lia|].
  rewrite u32_small in Eb by lia. run (card_read_ok s _ b Eb). run E. destruct r as [j|].
  - destruct Hres as (Hj & Hf & Hu). exists j. split; [done|]. right. exists (128 * k + j). split_and!; [lia|lia|done| |Z.div_mod_to_equations; lia].
    intros c' Hc'. replace c' with (128 * k + (c' - 128 * k)) by lia. apply Hu. lia.
  - assert (Hu : forall c, 128 * k <= c < 128 * (k + 1) -> is_used s c).
    { intros c Hc. replace c with (128 * k + (c - 128 * k)) by lia. apply Hres. lia. }
    destruct (IH (k + 1)) as (r & E' & Hr'); [lia|done|lia|intros j Hj; apply Hb; lia|intros c Hc; apply Hall; lia|].
    exists r. rewrite <-Z.add_assoc. split; [done|]. destruct Hr' as [[Hu' ->]|(c & Hc & Hf & Hu' & ->)].
    + left. split; [|done]. intros c Hc. destruct (Z.lt_ge_cases c (128 * (k + 1))); [apply Hu; lia|apply Hu'; lia].
    + right. exists c. split_and!; [lia|lia|done| |done]. intros c' Hc'.
      destruct (Z.lt_ge_cases c' (128 * (k + 1))); [apply Hu; lia|apply Hu'; lia].
Qed.
End Free.

(** * Chains of clusters and directories *)

(** From the cluster [c] the table leads through [l] to [e]. *)
Inductive fat_path (s : fs_state) : Z -> list Z -> Z -> Prop :=
  | path_nil c : fat_path s c [] c
  | path_cons c n l e : IS_FAT_ENTRY_VALID c = true -> fat_entry s c = Some n -> fat_path s n l e -> fat_path s c (c :: l) e.

(** The block of a cluster the code reads: the first. *)
Definition cluster_data (s : fs_state) (c : Z) : option (list Z) := sd s !! s32 (cluster_block (fat_info s) c).

(** The 16 entries of a block of a directory. *)
Definition dir_entries (b : list Z) : list (list Z) := (fun j => piece 32 j b) <$> seqZ 0 16.
Definition entry_unused (e : list Z) : bool := bool_decide (e !! 11%nat = Some 0).
Definition first_unused (b : list Z) : option Z := List.find (fun j => entry_unused (piece 32 j b)) (seqZ 0 16).

Lemma unused_entry_ok b n (s : fs_state) : length b = 512%nat -> Forall byte b ->
  forall i, 0 <= i -> i + Z.of_nat n <= 16 ->
  unused_entry n i b s = Ok (List.find (fun j => entry_unused (piece 32 j b)) (seqZ i (Z.of_nat n)), s).
Proof.
  intros Hl Hb. induction n as [|n IH]; intros i Hi Hn; [done|].
  rewrite (seqZ_cons i (Z.of_nat (S n))) by lia. replace (Z.pred (Z.of_nat (S n))) with (Z.of_nat n) by lia.
  change (List.find ?f (?x :: ?l)) with (if f x then Some x else List.find f l). cbv beta.
  cbn [unused_entry]. destruct (lookup_lt_is_Some_2 b (Z.to_nat (32 * i + 11)) ltac:(lia)) as [a Ea].
  assert (Ef : le 1 (drop (Z.to_nat (32 * i + 11)) b) = Some a).
  { rewrite (drop_S _ _ _ Ea). cbn [le mbind option_bind]. f_equal. lia. }
  run (field_ok 1 _ b s a Ef).
  assert (Eu : entry_unused (piece 32 i b) = bool_decide (Some a = Some 0)); [|rewrite Eu].
  { unfold entry_unused, piece. rewrite lookup_take_lt, lookup_drop by lia. replace (Z.to_nat (Z.of_nat 32 * i) + 11)%nat with (Z.to_nat (32 * i + 11)) by lia.
    by rewrite Ea. }
  destruct (Z.eqb_spec a 0) as [->|Hne]; cbn [negb].
  - by rewrite bool_decide_true.
  - rewrite bool_decide_false by congruence. apply IH; lia.
Qed.

Lemma first_unused_ok b (s : fs_state) : length b = 512%nat -> Forall byte b -> unused_entry 16 0 b s = Ok (first_unused b, s).
Proof. intros Hl Hb. exact (unused_entry_ok b 16 s Hl Hb 0 ltac:(lia) ltac:(lia)). Qed.

Section NewEntry.
Variables (s : fs_state) (bytes : list Z).
Hypotheses (Hs : card_ok s) (Hl : length bytes = 32%nat).

(** The walk over the full clusters [l]. *)
Lemma new_dir_entry_ok fuel : forall l cur nxt c n, (length l < fuel)%nat ->
  fat_path s cur l c -> fat_entry s cur = Some nxt -> fat_entry s c = Some n ->
  Forall (fun x => exists b, cluster_data s x = Some b /\ first_unused b = None) l ->
  new_dir_entry_loop fuel cur nxt bytes s =
    if IS_FAT_ENTRY_VALID c then
      match cluster_data s c with
      | Some b => match first_unused b with
                  | Some j => Ok (tt, set_sd (<[s32 (cluster_block (fat_info s) c) := splice (Z.to_nat (32 * j)) bytes b]>) s)
                  | None => new_dir_entry_loop (fuel - length l) c n bytes s
                  end
      | None => Err Hang
      end
    else Ok (tt, s).
Proof using Hs Hl.
  induction fuel as [|fuel IH]; intros l cur nxt c n Hf Hp Hn Hc Hfull; [lia|].
  destruct Hp as [c|cur n' l c Hv Hn' Hp].
  - cbn [new_dir_entry_loop length Nat.sub]. rewrite Hn in Hc. injection Hc as ->. destruct (IS_FAT_ENTRY_VALID c); [|done].
    run (gets_ok fat_info s). unfold cluster_data. destruct (sd s !! s32 (cluster_block (fat_info s) c)) as [b|] eqn:Eb.
    2:{ apply bind_err. unfold readblock. by rewrite Eb. }
    run (card_read_ok s _ b Eb). destruct (Hs _ _ Eb) as [Hbl Hbb].
    run (first_unused_ok b s Hbl Hbb).
    destruct (first_unused b) as [j|] eqn:Ej; [|done].
    apply List.find_some in Ej as [Ej _]. apply list_elem_of_In, elem_of_seqZ in Ej.
    replace (take _ b ++ bytes ++ drop _ b) with (splice (Z.to_nat (32 * j)) bytes b) by (unfold splice; by rewrite Hl).
    apply (card_write_ok s _ b); [done|].
    rewrite splice_length; lia.
  - rewrite Hn in Hn'. injection Hn' as <-. apply Forall_cons in Hfull as [(b & Eb & Hu) Hfull].
    assert (exists m, fat_entry s nxt = Some m) as [m Em] by (destruct Hp; by eexists).
    cbn [length] in Hf. cbn [new_dir_entry_loop length Nat.sub]. rewrite Hv. run (gets_ok fat_info s). run (card_read_ok s _ b Eb).
    destruct (Hs _ _ Eb) as [Hbl Hbb]. run (first_unused_ok b s Hbl Hbb). rewrite Hu.
    run (read_fat_entry_ok s nxt m Em). apply IH; try done. lia.
Qed.

Lemma entries_splice j b : length b = 512%nat -> 0 <= j < 16 ->
  dir_entries (splice (Z.to_nat (32 * j)) bytes b) = <[Z.to_nat j := bytes]> (dir_entries b).
Proof using Hl.
  intros Hb Hj. apply list_eq. intros k. unfold dir_entries. destruct (Nat.lt_ge_cases k 16) as [Hk|Hk].
  - rewrite list_lookup_fmap. rewrite (proj2 (lookup_seqZ 0 16 k (Z.of_nat k))) by lia. cbn [fmap option_fmap option_map].
    change (Z.to_nat (32 * j)) with (Z.to_nat (Z.of_nat 32 * j)). rewrite piece_splice by lia.
    destruct (decide (Z.of_nat k = j)) as [<-|Hne].
    + rewrite Nat2Z.id, list_lookup_insert_eq; [done|]. rewrite length_fmap, length_seqZ. lia.
    + rewrite list_lookup_insert_ne by lia. rewrite list_lookup_fmap. by rewrite (proj2 (lookup_seqZ 0 16 k (Z.of_nat k))) by lia.
  - rewrite !lookup_ge_None_2; [done| |]; rewrite ?length_insert, length_fmap, length_seqZ; lia.
Qed.
End NewEntry.

(** * The operations *)

(** [write_fat_table] changes the entry of the cluster only, to the bits it had
    together with those of [value]; the entries of all other clusters, and the blocks
    outside that of the entry, stay. *)
Theorem write_fat_table_spec s c value old : card_ok s -> 0 <= c < 2 ^ 32 -> 0 <= value < 2 ^ 32 -> fat_entry s c = Some old ->
  exists s', write_fat_table c value s = Ok (tt, s') /\ card_ok s' /\
    (forall c', 0 <= c' < 2 ^ 32 -> fat_entry s' c' = if decide (c' = c) then Some (Z.lor old value) else fat_entry s c') /\
    (forall k, k <> fat_block s c -> sd s' !! k = sd s !! k).
Proof.
  intros Hs Hc Hv E. unfold fat_entry in E. destruct (sd s !! fat_block s c) as [b|] eqn:Eb; [|done]. cbn [mbind option_bind] in E.
  exists (fat_written s c b old value). split_and!.
  - by apply write_fat_table_ok.
  - destruct (written_block s c value old b Hs Eb) as [H1 H2]. by apply card_insert.
  - intros c'. by apply (fat_written_entry s c value old b).
  - intros k Hk. cbn. by rewrite lookup_insert_ne by auto.
Qed.

(** [get_free_fat_cluster] looks for the first free entry of the table, but returns its
    index in its block of the table: the number of the cluster only where the entry is
    in the first block. *)
Theorem get_free_fat_cluster_spec s : let i := fat_info s in
  0 <= fat_region i -> 0 <= sectors_per_fat i -> fat_region i + sectors_per_fat i < 2 ^ 32 ->
  (forall j, 0 <= j < sectors_per_fat i -> is_Some (sd s !! fat_block s (128 * j))) ->
  (forall c, 0 <= c < 128 * sectors_per_fat i -> is_used s c \/ is_free s c) ->
  exists r, get_free_fat_cluster s = Ok (r, s) /\
    ((forall c, 0 <= c < 128 * sectors_per_fat i -> is_used s c) /\ r = 0 \/
     exists c, 0 <= c < 128 * sectors_per_fat i /\ is_free s c /\ (forall c', 0 <= c' < c -> is_used s c') /\ r = c mod 128).
Proof.
  intros i H1 H2 H3 Hb Hall. unfold get_free_fat_cluster. run (gets_ok fat_info s). fold i.
  rewrite u32_small by lia. replace (fat_region i + sectors_per_fat i - fat_region i) with (sectors_per_fat i) by lia.
  destruct (free_cluster_ok s (Z.to_nat (sectors_per_fat i)) 0) as (r & E & Hr); fold i; rewrite ?Z2Nat.id by lia; try lia.
  - intros j Hj. apply Hb. lia.
  - intros c Hc. apply Hall. lia.
  - fold i in E, Hr. rewrite Z2Nat.id in Hr by lia. rewrite Z.add_0_r in E. exists r. split; [exact E|exact Hr].
Qed.

(** [fat32_new_dir_entry] follows the clusters of the directory past the full ones
    and puts the entry in the first place that is not used, and changes nothing else on
    the card; at the end of the chain it changes nothing. *)
Theorem fat32_new_dir_entry_spec s dir l c bytes fuel : card_ok s -> length bytes = 32%nat ->
  fat_path s dir l c -> is_Some (fat_entry s c) -> (length l < fuel)%nat ->
  Forall (fun x => exists b, cluster_data s x = Some b /\ first_unused b = None) l ->
  (IS_FAT_ENTRY_VALID c = false -> fat32_new_dir_entry fuel dir bytes s = Ok (tt, s)) /\
  (forall b j, IS_FAT_ENTRY_VALID c = true -> cluster_data s c = Some b -> first_unused b = Some j ->
   exists b', fat32_new_dir_entry fuel dir bytes s = Ok (tt, set_sd (<[s32 (cluster_block (fat_info s) c) := b']>) s) /\
     length b' = 512%nat /\ 0 <= j < 16 /\ dir_entries b' = <[Z.to_nat j := bytes]> (dir_entries b)).
Proof.
  intros Hs Hl Hp [n Hn] Hf Hfull.
  assert (exists nxt, fat_entry s dir = Some nxt) as [nxt Hnxt] by (destruct Hp; by eexists).
  pose proof (new_dir_entry_ok s bytes Hs Hl fuel l dir nxt c n Hf Hp Hnxt Hn Hfull) as E.
  unfold fat32_new_dir_entry. rewrite (bind_ok _ _ s nxt s (read_fat_entry_ok s dir nxt Hnxt)). rewrite E. split.
  - by intros ->.
  - intros b j -> Hb Hj. rewrite Hb, Hj. destruct (Hs _ _ Hb) as [Hbl _].
    apply List.find_some in Hj as [Hj _]. apply list_elem_of_In, elem_of_seqZ in Hj.
    eexists. split; [reflexivity|]. split; [rewrite splice_length; lia|]. split; [lia|]. by apply entries_splice.
Qed.

(** * Instances *)

(** A table of one block whose entries 2 and 3 are a chain, and a full cluster before one
    with room. *)
Definition ex_table : list Z := splice 0 (le_bytes 4 1 ++ le_bytes 4 1 ++ le_bytes 4 3 ++ le_bytes 4 0x0ffffff8) (replicate 512 0).
Definition ex_table_state : fs_state :=
  FsState ∅ ∅ ∅ ∅ ∅ ∅ 1 [] 0 (0, 0) (FatInfo 1 2 3 1 1 1 0) [] [] {[2 := ex_table; 3 := replicate 512 32; 4 := splice 11 [32] (replicate 512 0); 2097153 := replicate 512 0]}.

Lemma ex_table_state_ok : card_ok ex_table_state.
Proof. apply card_okb_ok. by vm_compute. Qed.

Lemma write_fat_table_spec_witness :
  exists s', write_fat_table 4 FAT_ENTRY_EOC ex_table_state = Ok (tt, s') /\ fat_entry s' 4 = Some 0x0ffffff8 /\ fat_entry s' 3 = Some 0x0ffffff8.
Proof.
  destruct (write_fat_table_spec ex_table_state 4 FAT_ENTRY_EOC 0 ex_table_state_ok ltac:(lia) ltac:(unfold FAT_ENTRY_EOC; lia) ltac:(by vm_compute))
    as (s' & E & _ & H & _).
  exists s'. split; [exact E|]. rewrite !H by lia. split; by vm_compute.
Defined.

Lemma fat32_new_dir_entry_spec_witness :
  exists b', fat32_new_dir_entry 3 2 (replicate 32 65) ex_table_state = Ok (tt, set_sd (<[4 := b']>) ex_table_state) /\
    nth 1 (dir_entries b') [] = replicate 32 65.
Proof.
  destruct (fat32_new_dir_entry_spec ex_table_state 2 [2] 3 (replicate 32 65) 3 ex_table_state_ok ltac:(by vm_compute)) as [_ H].
  - apply (path_cons _ 2 3); [done|by vm_compute|constructor].
  - exists 0x0ffffff8. by vm_compute.
  - cbn. lia.
  - constructor; [|constructor]. exists (replicate 512 32). split; by vm_compute.
  - destruct (H (splice 11 [32] (replicate 512 0)) 1 ltac:(by vm_compute) ltac:(by vm_compute) ltac:(by vm_compute)) as (b' & E & _ & _ & Hd).
    exists b'. split; [exact E|]. rewrite Hd. by vm_compute.
Defined.
