(* ===== verification/FatMount.v ===== *)
(** What mounting a FAT32 card makes: the tree of its directories. *)
From S2P Require Import Prelude CString FsData Vfs Tmpfs Fat32 FsInv VfsSpec VfsMount FsNodes TmpfsSpec FileSystems FsTree FatSpec.

(** * The directories of the card *)

(** The entry that starts with the bytes [l]. *)
Definition parse_entry (l : list Z) : sfn_entry :=
  SfnEntry (take 8 l) (take 3 (drop 8 l)) (default 0 (le 1 (drop 11 l))) (default 0 (le 2 (drop 20 l)))
    (default 0 (le 2 (drop 26 l))) (default 0 (le 4 (drop 28 l))).
Definition entry_cluster (e : sfn_entry) : Z := Z.lor (Z.shiftl (cluster_high e) 16) (cluster_low e).
Definition is_dir (e : sfn_entry) : bool := negb (Z.land (attr e) ATTR_DIRECTORY =? 0).
Definition entry_type (e : sfn_entry) : fsnode_type := if is_dir e then FSNODE_TYPE_DIR else FSNODE_TYPE_FILE.

(** The entries of a block, and of the clusters of a directory, that are files or
    directories. *)
Definition shown (e : sfn_entry) : bool := negb (skip_entry e).
Definition entries_from (b : list Z) (j : Z) (m : nat) : list sfn_entry :=
  List.filter shown ((fun j => parse_entry (drop (Z.to_nat (32 * j)) b)) <$> seqZ j (Z.of_nat m)).
Definition block_entries (b : list Z) : list sfn_entry := entries_from b 0 16.
Definition listing (s : fs_state) (l : list Z) : list sfn_entry :=
  l ≫= fun c => match cluster_data s c with Some b => block_entries b | None => [] end.

(** The clusters [l] are those of the directory that starts at [c].  The code also reads
    the entry of the mark that ends the chain. *)
Definition dir_clusters (s : fs_state) (c : Z) (l : list Z) : Prop :=
  Forall (fun x => is_Some (cluster_data s x)) l /\
  exists e, fat_path s c l e /\ IS_FAT_ENTRY_VALID e = false /\ is_Some (fat_entry s e).

(** A directory no deeper than [n], with at most 16 entries, in at most [n] clusters. *)
Fixpoint card_dir (n : nat) (s : fs_state) (c : Z) : Prop :=
  match n with
  | O => False
  | S n => exists l, dir_clusters s c l /\ (length l <= n)%nat /\ (length (listing s l) <= 16)%nat /\
      Forall (fun e => is_Some (cluster_data s (entry_cluster e)) /\ (is_dir e = true -> card_dir n s (entry_cluster e)))
        (listing s l)
  end.

(** * The nodes made of them *)

(** The vnode [x] is a node with the name, type, size and first block of [e]; it and what
    it consists of are not older than [lo]. *)
Record node_is (s : fs_state) (lo x : Z) (e : sfn_entry) (k : Z) (j : inode) : Prop := {
  ni_vnode : vnodes s !! x = Some (Vnode 0 Fat32 Fat32 k);
  ni_inode : inodes s !! k = Some j;
  ni_fat : fat_nodes s !! k = Some (FatNode (entry_cluster e) (cluster_block (fat_info s) (entry_cluster e)));
  ni_type : i_type j = entry_type e;
  ni_name : upto0 (i_name j) = upto0 (entry_name e);
  ni_size : data_size j = file_size e;
  ni_off : (data j).2 = 0;
  ni_block : exists b, blocks s !! (data j).1 = Some (Some <$> b) /\ length b = 512%nat /\
    (is_dir e = false -> cluster_data s (entry_cluster e) = Some b);
  ni_keys : lo <= x /\ lo <= k /\ lo <= (data j).1;
  ni_file : is_dir e = false -> upto0 (childs j) = []
}.

(** The nodes [xs] are the entries of the directory that starts at [c], and so on below. *)
Fixpoint tree_up (n : nat) (lo : Z) (s : fs_state) (xs : list Z) (c : Z) : Prop :=
  match n with
  | O => False
  | S n => exists l, dir_clusters s c l /\ (length l <= n)%nat /\
      Forall2 (fun x e => exists k j, node_is s lo x e k j /\
        (is_dir e = true -> tree_up n lo s (upto0 (childs j)) (entry_cluster e))) xs (listing s l)
  end.

Definition node_up (n : nat) (lo : Z) (s : fs_state) (x : Z) (e : sfn_entry) : Prop :=
  exists k j, node_is s lo x e k j /\ (is_dir e = true -> tree_up n lo s (upto0 (childs j)) (entry_cluster e)).

(** [s'] is [s] with more objects, and with other children and data of the directory with
    the inode [kd] and the data block [bd]. *)
Record built (s s' : fs_state) (kd bd : Z) : Prop := {
  bu_objs : objs_ok s';
  bu_vnodes : forall x, x < next_key s -> vnodes s' !! x = vnodes s !! x;
  bu_inodes : forall x, x < next_key s -> x <> kd -> inodes s' !! x = inodes s !! x;
  bu_dir : forall i, inodes s !! kd = Some i -> exists l, inodes s' !! kd = Some (with_child l i);
  bu_fat : forall x, x < next_key s -> fat_nodes s' !! x = fat_nodes s !! x;
  bu_blocks : forall x, x < next_key s -> x <> bd -> blocks s' !! x = blocks s !! x;
  bu_data : exists b, blocks s' !! bd = Some (Some <$> b) /\ length b = 512%nat;
  bu_next : next_key s <= next_key s';
  bu_rest : mounts s' = mounts s /\ files s' = files s /\ filesystems s' = filesystems s /\ rootfs s' = rootfs s /\
    cpio_base s' = cpio_base s /\ sd s' = sd s /\ fat_info s' = fat_info s
}.

(** The card is seen through [sd] and [fat_info] only. *)
Section SameCard.
Variables (s s' : fs_state).
Hypotheses (Hsd : sd s' = sd s) (Hi : fat_info s' = fat_info s).

Lemma same_card_entry c : fat_entry s' c = fat_entry s c.
Proof using Hsd Hi. unfold fat_entry, fat_block. by rewrite Hsd, Hi. Qed.

Lemma same_card_data c : cluster_data s' c = cluster_data s c.
Proof using Hsd Hi. unfold cluster_data. by rewrite Hsd, Hi. Qed.

Lemma same_card_path c l e : fat_path s c l e -> fat_path s' c l e.
Proof using Hsd Hi. induction 1 as [|c n l e Hv He _ IH]; [constructor|]. by apply (path_cons _ _ n); rewrite ?same_card_entry. Qed.

Lemma same_card_clusters c l : dir_clusters s c l -> dir_clusters s' c l.
Proof using Hsd Hi.
  intros [Hl (e & Hp & Hv & He)]. split.
  - eapply Forall_impl; [exact Hl|]. intros x. by rewrite same_card_data.
  - exists e. rewrite same_card_entry. split; [by apply same_card_path|done].
Qed.

Lemma same_card_listing l : listing s' l = listing s l.
Proof using Hsd Hi. unfold listing. induction l as [|c l IH]; [done|]. cbn. by rewrite same_card_data, IH. Qed.

Lemma same_card_dir n : forall c, card_dir n s c -> card_dir n s' c.
Proof using Hsd Hi.
  induction n as [|n IH]; intros c; [done|]. intros (l & Hc & Hn & H16 & Hall). exists l.
  rewrite same_card_listing. split_and!; [by apply same_card_clusters|done|done|].
  eapply Forall_impl; [exact Hall|]. intros e [He Hd]. rewrite same_card_data. split; [done|]. intros. by apply IH, Hd.
Qed.

(** A tree keeps while its own objects do. *)
Hypotheses (lo hi : Z) (Ho : objs_ok s) (Hhi : next_key s <= hi)
  (Hv : forall x, lo <= x < hi -> vnodes s' !! x = vnodes s !! x)
  (Hn : forall x, lo <= x < hi -> inodes s' !! x = inodes s !! x)
  (Hf : forall x, lo <= x < hi -> fat_nodes s' !! x = fat_nodes s !! x)
  (Hb : forall x, lo <= x < hi -> blocks s' !! x = blocks s !! x).

Lemma same_node x e k j : node_is s lo x e k j -> node_is s' lo x e k j.
Proof using Type*.
  intros [H1 H2 H3 H4 H5 H6 H7 (b & H8 & H8l & H8c) H9 H10].
  destruct (ob_vnode s Ho x _ H1) as (Hx & Hk & _). cbn in Hk.
  assert (Hd : (data j).1 < hi).
  { destruct (Z.lt_ge_cases (data j).1 (next_key s)) as [|Hge]; [lia|]. destruct (ob_fresh s Ho _ Hge) as (_ & _ & _ & F). congruence. }
  split; try done.
  - by rewrite Hv by lia.
  - by rewrite Hn by lia.
  - by rewrite Hf, Hi by lia.
  - exists b. rewrite Hb, same_card_data by lia. done.
Qed.

Lemma same_tree_up n : forall xs c, tree_up n lo s xs c -> tree_up n lo s' xs c.
Proof using Type*.
  induction n as [|n IH]; intros xs c; [done|]. intros (l & Hc & Hlen & Hall). exists l. split; [by apply same_card_clusters|]. split; [done|].
  rewrite same_card_listing. eapply Forall2_impl; [exact Hall|]. intros x e (k & j & Hnode & Hsub).
  exists k, j. split; [by apply same_node|]. intros. by apply IH, Hsub.
Qed.
End SameCard.

Lemma tree_up_weaken n : forall lo lo' s xs c, lo' <= lo -> tree_up n lo s xs c -> tree_up n lo' s xs c.
Proof.
  induction n as [|n IH]; intros lo lo' s xs c Hlo; [done|]. intros (l & Hc & Hlen & Hall). exists l. split; [done|]. split; [done|].
  eapply Forall2_impl; [exact Hall|]. intros x e (k & j & [H1 H2 H3 H4 H5 H6 H7 H8 H9 H10] & Hsub).
  exists k, j. split; [split; try done; lia|]. intros Hd. by apply (IH lo), Hsub.
Qed.

(** * One entry *)

Definition entry_inode (k : Z) (e : sfn_entry) : inode :=
  let nm := upto0 (entry_name e) in
  Inode (entry_type e) (nm ++ 0 :: drop (S (length nm)) (replicate 16 0)) (replicate 16 0) (k + 2, 0) (file_size e).

(** The state after the node of [e] was put in the directory with the inode [i] at [kd]. *)
Definition entry_state (s : fs_state) (kd : Z) (i : inode) (e : sfn_entry) (b : list Z) : fs_state :=
  set_fat_nodes (<[next_key s + 1 := FatNode (entry_cluster e) (cluster_block (fat_info s) (entry_cluster e))]>)
    (attach (new_node s Fat32 0 (entry_inode (next_key s) e) (Some <$> b)) kd i (next_key s)).

Record entry_wf (e : sfn_entry) : Prop := {
  ew_name : Forall byte (sfn_name e) /\ (length (sfn_name e) <= 8)%nat;
  ew_ext : Forall byte (file_ext e) /\ (length (file_ext e) <= 3)%nat
}.

Lemma upto0_app_zero l : upto0 (l ++ [0]) = upto0 l.
Proof. induction l as [|c l IH]; [done|]. cbn. by rewrite IH. Qed.

Lemma holds_upto0 l : Forall byte l -> holds (l ++ [0]) (upto0 l).
Proof.
  unfold byte. induction l as [|c l IH]; intros Hl; [split; [apply nonzero_nil|by exists []]|].
  apply Forall_cons in Hl as [Hc Hl]. cbn. destruct (Z.eqb_spec c 0) as [->|]; [split; [apply nonzero_nil|by eexists]|].
  apply holds_cons; [lia|]. by apply IH.
Qed.

Lemma filter_len (l : list Z) : (length (filter (fun c : Z => c <> 32%Z) l) <= length l)%nat.
Proof. induction l as [|c l IH]; [cbn; lia|]. rewrite filter_cons. destruct (decide _); cbn; lia. Qed.

Lemma filter_byte (l : list Z) : Forall byte l -> Forall byte (filter (fun c => c <> 32) l).
Proof. intros Hl. apply Forall_forall. intros c [_ Hc]%list_elem_of_filter. by apply (proj1 (Forall_forall byte l) Hl). Qed.

Lemma entry_name_ok e : entry_wf e ->
  holds (entry_name e) (upto0 (entry_name e)) /\ (length (upto0 (entry_name e)) < 16)%nat.
Proof.
  intros [[N1 N2] [X1 X2]]. unfold entry_name.
  pose proof (filter_len (sfn_name e)). pose proof (filter_len (file_ext e)).
  set (base := filter _ (sfn_name e)) in *. set (ext := filter _ (file_ext e)) in *.
  assert (Hb : Forall byte base) by (by apply filter_byte). assert (Hx : Forall byte ext) by (by apply filter_byte).
  assert (G : forall l, Forall byte l -> (length l < 16)%nat -> holds (l ++ [0]) (upto0 (l ++ [0])) /\ (length (upto0 (l ++ [0%Z])) < 16)%nat).
  { intros l Hl Hn. rewrite upto0_app_zero. split; [by apply holds_upto0|]. pose proof (upto0_le l). lia. }
  destruct (negb _); [by apply G; [|lia]|].
  change (base ++ [46] ++ ext ++ [0]) with (base ++ ([46] ++ ext) ++ [0]). rewrite app_assoc. apply G.
  - apply Forall_app; split; [done|]. apply Forall_app; split; [|done]. constructor; [unfold byte; lia|constructor].
  - rewrite !length_app. cbn. lia.
Qed.

Lemma copy_full p b old s : p <> 0 -> blocks s !! p = Some old -> length old = 512%nat -> length b = 512%nat ->
  copy_to (p, 0) b BLOCK_SIZE s = Ok (tt, set_blocks (<[p := Some <$> b]>) s).
Proof.
  intros Hp Hb Ho Hl. unfold copy_to.
  assert (E : read_block (p, 0) s = Ok (old, s)).
  { unfold read_block. cbn [fst snd]. run (deref_ok blocks p s old Hp Hb). rewrite Ho. reflexivity. }
  run E. change (Z.to_nat BLOCK_SIZE) with 512%nat.
  run (pure_op_ok _ s _ (memcpy_ok old (Some <$> b) 512 ltac:(lia) ltac:(rewrite length_fmap; lia))).
  unfold modify, set_blocks. rewrite (take_ge (Some <$> b)) by (rewrite length_fmap; lia). rewrite (drop_ge old), app_nil_r by lia. reflexivity.
Qed.

Lemma read_data_ok idx p b old s : p <> 0 -> sd s !! s32 idx = Some b -> length b = 512%nat -> blocks s !! p = Some old ->
  length old = 512%nat -> read_data idx (p, 0) s = Ok (tt, set_blocks (<[p := Some <$> b]>) s).
Proof. intros Hp Hs Hl Hb Ho. unfold read_data. run (card_read_ok s idx b Hs). by apply (copy_full p b old). Qed.

Lemma block_bytes_ok p b s : p <> 0 -> blocks s !! p = Some (Some <$> b) -> length b = 512%nat ->
  block_bytes (p, 0) s = Ok (b, s).
Proof.
  intros Hp Hb Hl. unfold block_bytes, copy_from.
  assert (E : read_block (p, 0) s = Ok (Some <$> b, s)).
  { unfold read_block. cbn [fst snd]. run (deref_ok blocks p s _ Hp Hb). rewrite length_fmap, Hl. reflexivity. }
  run E. change (Z.to_nat BLOCK_SIZE) with 512%nat.
  run (pure_op_ok _ s _ (memcpy_ok (Some <$> replicate 512 0) (Some <$> b) 512 ltac:(rewrite length_fmap, length_replicate; lia) ltac:(rewrite length_fmap; lia))).
  rewrite <-fmap_take, <-fmap_drop, <-fmap_app, mapM_some, take_ge, drop_ge, app_nil_r by (rewrite ?length_replicate; lia). reflexivity.
Qed.

Lemma fs_state_eq s t : vnodes s = vnodes t -> inodes s = inodes t -> fat_nodes s = fat_nodes t -> mounts s = mounts t ->
  files s = files t -> blocks s = blocks t -> next_key s = next_key t -> filesystems s = filesystems t ->
  rootfs s = rootfs t -> cpio_base s = cpio_base t -> fat_info s = fat_info t -> fat_boot_sector s = fat_boot_sector t ->
  mbr s = mbr t -> sd s = sd t -> s = t.
Proof. destruct s, t. cbn. by intros -> -> -> -> -> -> -> -> -> -> -> -> -> ->. Qed.

Section Entry.
Variables (s : fs_state) (d : Z) (v : vnode) (i : inode) (e : sfn_entry) (b : list Z).
Hypotheses (Hs : objs_ok s) (Hd : vnodes s !! d = Some v) (Hi : inodes s !! internal v = Some i)
  (Hroom : (length (children s d) < 16)%nat) (He : entry_wf e)
  (Hb : cluster_data s (entry_cluster e) = Some b) (Hl : length b = 512%nat).
Let k := next_key s.
Let s' := entry_state s (internal v) i e b.

Lemma setup_entry_ok rec :
  setup_entry rec (internal v) e (Z.of_nat (length (children s d))) s = if is_dir e then rec (k + 1) s' else Ok (tt, s').
Proof using Hs Hd Hi Hroom He Hb Hl.
  pose proof (ob_next s Hs) as Hk. destruct (ob_vnode s Hs d v Hd) as (Hdk & Hik & i' & Hi' & Hiok).
  rewrite Hi in Hi'. injection Hi' as <-. fold k in Hk, Hdk, Hik.
  assert (Ec : children s d = upto0 (childs i)) by (apply (attach_children_eq s d v i Hd Hi)).
  destruct (entry_name_ok e He) as [Hn Hnl]. unfold setup_entry, fat32_create_vnode. fold (is_dir e). fold (entry_type e).
  set (j0 := Inode (entry_type e) (replicate 16 0) (replicate 16 0) (k + 2, 0) 0).
  set (s1 := set_fat_nodes (<[k + 1 := FatNode 0 0]>) (new_node s Fat32 0 j0 (replicate 512 (Some 0)))).
  assert (Hk1 : vnodes s1 !! k = Some (Vnode 0 Fat32 Fat32 (k + 1))) by (cbn; by rewrite lookup_insert_eq).
  rewrite (bind_ok _ _ s k s1).
  2:{ run (create_vnode_ok Fat32 BLOCK_SIZE (Some 0) 0 (entry_type e) s). fold k. fold j0.
      by run (deref_ok vnodes k (new_node s Fat32 0 j0 (replicate 512 (Some 0))) _ ltac:(lia) Hk1). }
  assert (Hi1 : inodes s1 !! internal v = Some i) by (cbn; rewrite lookup_insert_ne; [done|fold k; lia]).
  run (deref_ok inodes (internal v) s1 i ltac:(lia) Hi1). rewrite Ec in *. assert (El : length (childs i) = 16%nat) by apply Hiok.
  run (lift_opt_ok OutOfBounds _ s1 _ (zset_ok (childs i) (Z.of_nat (length (upto0 (childs i)))) k ltac:(lia))).
  rewrite Nat2Z.id. set (i2 := with_child _ i). set (s2 := set_inodes (<[internal v := i2]>) s1).
  run (eq_refl : modify (set_inodes (<[internal v := i2]>)) s1 = Ok (tt, s2)).
  assert (Hk2 : vnodes s2 !! k = Some (Vnode 0 Fat32 Fat32 (k + 1))) by exact Hk1.
  assert (Hj2 : inodes s2 !! (k + 1) = Some j0).
  { cbn. rewrite lookup_insert_ne by (fold k; lia). by rewrite lookup_insert_eq. }
  assert (Hnode : inode_of k s2 = Ok (j0, s2)).
  { unfold inode_of. run (deref_ok vnodes k s2 _ ltac:(lia) Hk2). apply deref_ok; [cbn; lia|done]. }
  run Hnode. run (pure_op_ok _ s2 _ (strcpy_ok (i_name j0) _ _ Hn Hnl)).
  assert (Hupd : forall f t j, vnodes t !! k = Some (Vnode 0 Fat32 Fat32 (k + 1)) -> inodes t !! (k + 1) = Some j ->
    upd_inode k f t = Ok (tt, set_inodes (<[k + 1 := f j]>) t)).
  { intros f t j Hv Hj. unfold upd_inode. run (deref_ok vnodes k t _ ltac:(lia) Hv). by run (deref_ok inodes (k + 1) t j ltac:(lia) Hj). }
  run (Hupd (with_name (upto0 (entry_name e) ++ 0 :: drop (S (length (upto0 (entry_name e)))) (i_name j0))) s2 j0 Hk2 Hj2). match goal with |- mbind _ _ ?x = _ => set (s3 := x) end.
  run (gets_ok fat_info s3). change (fat_info s3) with (fat_info s).
  rewrite (bind_ok _ _ s3 tt (set_fat_nodes (<[k + 1 := FatNode (entry_cluster e) (cluster_block (fat_info s) (entry_cluster e))]>) s3)).
  2:{ unfold set_fat_node. by run (deref_ok vnodes k s3 _ ltac:(lia) Hk2). }
  match goal with |- mbind _ _ ?x = _ => set (s4 := x) end.
  run (read_data_ok (cluster_block (fat_info s) (entry_cluster e)) (k + 2) b (replicate 512 (Some 0)) s4 ltac:(lia) Hb Hl
    ltac:(cbn; by rewrite lookup_insert_eq) ltac:(by rewrite length_replicate)).
  match goal with |- mbind _ _ ?x = _ => set (s5 := x) end.
  run (Hupd (with_size (file_size e)) s5 _ Hk2 ltac:(cbn; by rewrite lookup_insert_eq)).
  match goal with |- mbind _ _ ?x = _ => set (s6 := x) end.
  assert (E6 : s6 = s').
  { apply fs_state_eq; try reflexivity.
    - change (inodes s6) with (<[k + 1 := entry_inode k e]> (<[k + 1 := with_name (i_name (entry_inode k e)) j0]> (<[internal v := i2]> (<[k + 1 := j0]> (inodes s))))).
      change (inodes s') with (<[internal v := i2]> (<[k + 1 := entry_inode k e]> (inodes s))).
      rewrite insert_insert_eq, (insert_insert_ne _ (k + 1) (internal v)), insert_insert_eq by lia. done.
    - change (fat_nodes s6) with (<[k + 1 := FatNode (entry_cluster e) (cluster_block (fat_info s) (entry_cluster e))]> (<[k + 1 := FatNode 0 0]> (fat_nodes s))).
      by rewrite insert_insert_eq.
    - change (blocks s6) with (<[k + 2 := Some <$> b]> (<[k + 2 := replicate 512 (Some 0)]> (blocks s))). by rewrite insert_insert_eq. }
  run (deref_ok vnodes k s6 _ ltac:(lia) Hk2). rewrite E6. unfold entry_type. by destruct (is_dir e).
Qed.
End Entry.

Lemma built_trans s s1 s2 kd bd kd' bd' : built s s1 kd bd -> built s1 s2 kd' bd' -> kd < next_key s -> bd < next_key s ->
  kd' = kd \/ next_key s <= kd' -> bd' = bd \/ next_key s <= bd' -> built s s2 kd bd.
Proof.
  intros [A1 A2 A3 A4 A5 A6 A7 A8 A9] [B1 B2 B3 B4 B5 B6 B7 B8 B9] Hk Hb Hk' Hb'. split.
  - done.
  - intros x Hx. rewrite B2 by lia. by apply A2.
  - intros x Hx Hne. rewrite B3 by lia. by apply A3.
  - intros i Hi. destruct (A4 i Hi) as [l Hl]. destruct (decide (kd' = kd)) as [->|].
    + destruct (B4 _ Hl) as [l' Hl']. exists l'. exact Hl'.
    + exists l. rewrite B3 by lia. done.
  - intros x Hx. rewrite B5 by lia. by apply A5.
  - intros x Hx Hne. rewrite B6 by lia. by apply A6.
  - destruct (decide (bd' = bd)) as [->|]; [done|]. rewrite B6 by lia. done.
  - lia.
  - destruct A9 as (? & ? & ? & ? & ? & ? & ?), B9 as (? & ? & ? & ? & ? & ? & ?). split_and!; congruence.
Qed.

Lemma built_refl s kd bd b : objs_ok s -> is_Some (inodes s !! kd) -> blocks s !! bd = Some (Some <$> b) -> length b = 512%nat -> built s s kd bd.
Proof.
  intros Hs Hk Hb Hl. split; try done.
  - intros i Hi. exists (childs i). rewrite Hi. by destruct i.
  - by exists b.
Qed.

(** What was set up stays so while other directories are. *)
Lemma built_node_up s s' kd bd n lo x e : objs_ok s -> built s s' kd bd -> kd < lo -> bd < lo ->
  node_up n lo s x e -> node_up n lo s' x e.
Proof.
  intros Hs Hb Hk Hbd (k & j & Hn & Ht). destruct Hb as [B1 B2 B3 B4 B5 B6 B7 B8 (_ & _ & _ & _ & _ & B9 & B10)].
  exists k, j. split.
  - by apply (same_node s s' B9 B10 lo (next_key s) Hs); try done; intros y Hy; [apply B2|apply B3|apply B5|apply B6]; lia.
  - intros Hd. apply (same_tree_up s s' B9 B10 lo (next_key s) Hs); try done; [intros y Hy; apply B2; lia|intros y Hy; apply B3; lia
      |intros y Hy; apply B5; lia|intros y Hy; apply B6; lia|by apply Ht].
Qed.

Section EntryFacts.
Variables (s : fs_state) (d : Z) (v : vnode) (i : inode) (e : sfn_entry) (b : list Z) (bd : Z) (bb : list Z).
Hypotheses (Hs : objs_ok s) (Hd : vnodes s !! d = Some v) (Hi : inodes s !! internal v = Some i)
  (Hroom : (length (children s d) < 16)%nat) (He : entry_wf e)
  (Hb : cluster_data s (entry_cluster e) = Some b) (Hl : length b = 512%nat)
  (Hbd : blocks s !! bd = Some (Some <$> bb)) (Hbl : length bb = 512%nat).
Let k := next_key s.
Let s' := entry_state s (internal v) i e b.

Lemma old_block : bd < next_key s.
Proof using Hs Hbd.
  clear -Hs Hbd. destruct (Z.lt_ge_cases bd (next_key s)) as [|Hge]; [done|].
  destruct (ob_fresh s Hs bd Hge) as (_ & _ & _ & F). congruence.
Qed.

Lemma entry_inode_fresh : fresh_inode (entry_inode k e).
Proof using He.
  clear -He. destruct (entry_name_ok e He) as [Hn Hnl]. set (nm := upto0 (entry_name e)) in *.
  assert (Hh : holds (i_name (entry_inode k e)) nm) by (apply holds_self; apply Hn).
  split; [by rewrite (upto0_holds _ _ Hh)| |done].
  cbn [i_name entry_inode]. rewrite length_app. cbn [length]. rewrite length_drop, length_replicate. fold nm. lia.
Qed.

Lemma entry_attach : let s1 := new_node s Fat32 0 (entry_inode k e) (Some <$> b) in
  objs_ok (attach s1 (internal v) i k) /\ children (attach s1 (internal v) i k) d = children s d ++ [k].
Proof using Hs Hd Hi Hroom He.
  clear Hb Hl Hbd Hbl.
  pose proof (ob_next s Hs) as Hk. destruct (ob_vnode s Hs d v Hd) as (Hdk & Hik & _).
  intros s1. pose proof (new_node_ok s Fat32 (entry_inode k e) (Some <$> b) Hs entry_inode_fresh) as Hs1. fold s1 in Hs1.
  pose proof (new_node_grows s Fat32 (entry_inode k e) (Some <$> b) Hs) as Hg. fold s1 in Hg.
  pose proof (grows_vnode s s1 Hg d v Hd) as Hd1.
  assert (Hi1 : inodes s1 !! internal v = Some i) by (cbn; rewrite lookup_insert_ne; [done|fold k; lia]).
  assert (Hk1 : is_Some (vnodes s1 !! k)) by (cbn; rewrite lookup_insert_eq; by eexists).
  assert (Hc1 : children s1 d = children s d) by (unfold children; by rewrite (grows_inode s s1 Hs Hg d ltac:(by eexists))).
  assert (Hroom1 : (length (children s1 d) < 16)%nat) by (by rewrite Hc1).
  split; [by apply (attach_ok s1 d v i k Hs1 Hd1 Hi1 Hroom1 ltac:(fold k in Hdk; lia) Hk1)|].
  rewrite (attach_children s1 d v i k Hs1 Hd1 Hi1 Hroom1 ltac:(fold k in Hdk; lia) d ltac:(by eexists)), Hc1.
  by rewrite decide_True.
Qed.

Lemma entry_built : built s s' (internal v) bd.
Proof using Hs Hd Hi Hroom He Hl Hbd Hbl.
  destruct (ob_vnode s Hs d v Hd) as (Hdk & Hik & _). pose proof old_block as Ho. destruct entry_attach as [Ha _].
  split; try done; cbn.
  - apply (same_tree_ok (attach (new_node s Fat32 0 (entry_inode k e) (Some <$> b)) (internal v) i k) s'); [|exact Ha]. split; try done. intros x Hx. by destruct (ob_fresh _ Ha x Hx) as (_ & _ & ? & ?).
  - intros x Hx. rewrite lookup_insert_ne by lia. done.
  - intros x Hx Hne. rewrite !lookup_insert_ne by lia. done.
  - intros i' Hi'. rewrite Hi in Hi'. injection Hi' as <-. eexists. by rewrite lookup_insert_eq.
  - intros x Hx. rewrite lookup_insert_ne by lia. done.
  - intros x Hx Hne. rewrite lookup_insert_ne by lia. done.
  - exists bb. rewrite lookup_insert_ne by lia. done.
  - lia.
Qed.

Lemma entry_children : children s' d = children s d ++ [k].
Proof using Hs Hd Hi Hroom He. apply entry_attach. Qed.

Lemma entry_node lo : lo <= k -> node_is s' lo k e (k + 1) (entry_inode k e).
Proof using Hs Hd He Hb Hl.
  clear Hroom Hbl. intros Hlo. destruct (ob_vnode s Hs d v Hd) as (Hdk & Hik & _).
  destruct entry_inode_fresh as [_ _ _]. destruct (entry_name_ok e He) as [Hn Hnl].
  split; cbn; try done; fold k.
  - by rewrite lookup_insert_eq.
  - rewrite lookup_insert_ne by (fold k in Hik; lia). by rewrite lookup_insert_eq.
  - by rewrite lookup_insert_eq.
  - apply upto0_holds, holds_self, Hn.
  - exists b. rewrite lookup_insert_eq. done.
  - lia.
Qed.
End EntryFacts.

(** * Directories *)

(** A directory whose children are not set up yet. *)
Record fresh_dir (s : fs_state) (d : Z) (v : vnode) (i : inode) (bd c : Z) : Prop := {
  fd_vnode : vnodes s !! d = Some v;
  fd_inode : inodes s !! internal v = Some i;
  fd_fat : exists a, fat_nodes s !! internal v = Some (FatNode c a);
  fd_data : data i = (bd, 0) /\ bd <> 0;
  fd_block : exists b, blocks s !! bd = Some (Some <$> b) /\ length b = 512%nat;
  fd_empty : children s d = []
}.

(** [rec] sets up the directories that are no deeper than [n]. *)
Definition rec_ok (n : nat) (rec : Z -> M fs_state unit) : Prop :=
  forall s d v i bd c, objs_ok s -> card_ok s -> fresh_dir s d v i bd c -> card_dir n s c ->
  exists s', rec (internal v) s = Ok (tt, s') /\ built s s' (internal v) bd /\ tree_up n (next_key s) s' (children s' d) c.

(** An entry that can be set up. *)
Definition entry_good (n : nat) (s : fs_state) (e : sfn_entry) : Prop :=
  entry_wf e /\ is_Some (cluster_data s (entry_cluster e)) /\ (is_dir e = true -> card_dir n s (entry_cluster e)).

Lemma same_card_good n s s' e : sd s' = sd s -> fat_info s' = fat_info s -> entry_good n s e -> entry_good n s' e.
Proof.
  intros E1 E2 (H1 & H2 & H3). split; [done|]. rewrite (same_card_data s s' E1 E2). split; [done|].
  intros Hd. by apply (same_card_dir s s' E1 E2), H3.
Qed.

(** The node of one entry, with what is below it. *)
Lemma setup_entry_up n rec s d v i e bd bb lo : rec_ok n rec -> objs_ok s -> card_ok s ->
  vnodes s !! d = Some v -> inodes s !! internal v = Some i -> (length (children s d) < 16)%nat -> entry_good n s e ->
  blocks s !! bd = Some (Some <$> bb) -> length bb = 512%nat -> lo <= next_key s ->
  exists s', setup_entry rec (internal v) e (Z.of_nat (length (children s d))) s = Ok (tt, s') /\
    built s s' (internal v) bd /\ blocks s' !! bd = Some (Some <$> bb) /\
    children s' d = children s d ++ [next_key s] /\ node_up n lo s' (next_key s) e.
Proof.
  intros Hrec Hs Hcard Hd Hi Hroom (He & [b Hb] & Hdir) Hbd Hbl Hlo. destruct (Hcard _ _ Hb) as [Hl _].
  pose proof (entry_built s d v i e b bd bb Hs Hd Hi Hroom He Hl Hbd Hbl) as B1.
  pose proof (entry_children s d v i e b Hs Hd Hi Hroom He) as C1.
  pose proof (entry_node s d v i e b Hs Hd He Hb Hl lo Hlo) as N1.
  rewrite (setup_entry_ok s d v i e b Hs Hd Hi Hroom He Hb Hl rec).
  pose proof (old_block s bd bb Hs Hbd) as Hbn. destruct (ob_vnode s Hs d v Hd) as (Hdk & Hik & _).
  set (k := next_key s) in *. set (s1 := entry_state s (internal v) i e b) in *.
  assert (Hbd1 : blocks s1 !! bd = Some (Some <$> bb)) by (cbn; rewrite lookup_insert_ne; [done|fold k; lia]).
  destruct (is_dir e) eqn:Ed.
  2:{ exists s1. split_and!; [done..|]. exists (k + 1), (entry_inode k e). split; [done|congruence]. }
  assert (F1 : fresh_dir s1 k (Vnode 0 Fat32 Fat32 (k + 1)) (entry_inode k e) (k + 2) (entry_cluster e)).
  { destruct N1 as [M1 M2 M3 _ _ _ _ (b0 & M8 & M9 & _) _ _]. split; [done|done|by eexists|split; [done|lia]|by exists b0|].
    unfold children, node_inode. rewrite M1. cbn [mbind option_bind internal]. by rewrite M2. }
  destruct (Hrec s1 k (Vnode 0 Fat32 Fat32 (k + 1)) (entry_inode k e) (k + 2) (entry_cluster e)) as (s2 & E2 & B2 & T2); [apply B1|exact Hcard|exact F1| |].
  { by apply (same_card_dir s s1 eq_refl eq_refl), Hdir. }
  cbn [internal] in *. exists s2. split; [exact E2|].
  assert (Hk1 : next_key s1 = k + 3) by done.
  split_and!.
  - apply (built_trans s s1 s2 _ _ _ _ B1 B2); [lia|lia|right; fold k; lia|right; fold k; lia].
  - rewrite (bu_blocks _ _ _ _ B2) by lia. done.
  - rewrite <-C1. unfold children, node_inode. rewrite (bu_vnodes _ _ _ _ B2) by lia.
    change (vnodes s1) with (<[k := Vnode 0 Fat32 Fat32 (k + 1)]> (vnodes s)). rewrite lookup_insert_ne, Hd by lia.
    cbn [mbind option_bind]. by rewrite (bu_inodes _ _ _ _ B2) by lia.
  - destruct N1 as [M1 M2 M3 M4 M5 M6 M7 (b0 & M8 & M9 & _) M10 _].
    destruct (bu_dir _ _ _ _ B2 _ M2) as [l Hl2]. destruct (bu_data _ _ _ _ B2) as (b2 & Hb2 & Hbl2).
    assert (Ev : vnodes s2 !! k = Some (Vnode 0 Fat32 Fat32 (k + 1))) by (rewrite (bu_vnodes _ _ _ _ B2) by lia; exact M1).
    exists (k + 1), (with_child l (entry_inode k e)). split; [split; try done|].
    + rewrite (bu_fat _ _ _ _ B2) by lia. destruct (bu_rest _ _ _ _ B2) as (_ & _ & _ & _ & _ & _ & ->). exact M3.
    + exists b2. split_and!; [exact Hb2|done|congruence].
    + congruence.
    + intros _. unfold children, node_inode in T2. rewrite Ev in T2. cbn [mbind option_bind internal] in T2. rewrite Hl2 in T2.
      apply (tree_up_weaken n (next_key s1)); [lia|exact T2].
Qed.

(** The state of a directory while its entries are set up. *)
Record dir_state (s : fs_state) (d : Z) (v : vnode) (bd : Z) (bb : list Z) : Prop := {
  ds_objs : objs_ok s;
  ds_card : card_ok s;
  ds_vnode : vnodes s !! d = Some v;
  ds_inode : exists i, inodes s !! internal v = Some i /\ data i = (bd, 0);
  ds_ptr : bd <> 0;
  ds_block : blocks s !! bd = Some (Some <$> bb);
  ds_len : length bb = 512%nat
}.

Lemma dir_state_built s s' d v bd bb bb' : dir_state s d v bd bb -> built s s' (internal v) bd ->
  blocks s' !! bd = Some (Some <$> bb') -> length bb' = 512%nat -> dir_state s' d v bd bb'.
Proof.
  intros [H1 H2 H3 (i & H4 & H4') H5 H6 H7] B Hb Hl. destruct (ob_vnode s H1 d v H3) as (Hdk & Hik & _).
  destruct B as [B1 B2 B3 B4 B5 B6 B7 B8 (_ & _ & _ & _ & _ & B9 & _)]. destruct (B4 i H4) as [l Hl'].
  split; try done.
  - unfold card_ok. by rewrite B9.
  - by rewrite B2 by lia.
  - exists (with_child l i). by destruct i.
Qed.

(** Entries set up in a row. *)
Record set_up (n : nat) (lo : Z) (s s' : fs_state) (d : Z) (v : vnode) (bd : Z) (es : list sfn_entry) : Prop := {
  su_built : built s s' (internal v) bd;
  su_nodes : exists xs, children s' d = children s d ++ xs /\ Forall2 (node_up n lo s') xs es
}.

Lemma set_up_trans n lo s s1 s2 d v bd es es' : objs_ok s -> objs_ok s1 -> internal v < lo -> bd < lo -> lo <= next_key s ->
  set_up n lo s s1 d v bd es -> set_up n lo s1 s2 d v bd es' -> set_up n lo s s2 d v bd (es ++ es').
Proof.
  intros Hs Hs1 Hv Hb Hlo [B1 (xs & C1 & F1)] [B2 (ys & C2 & F2)]. split.
  - apply (built_trans s s1 s2 _ _ _ _ B1 B2); lia.
  - exists (xs ++ ys). split; [by rewrite C2, C1, app_assoc|]. apply Forall2_app; [|done].
    eapply Forall2_impl; [exact F1|]. intros x e. by apply (built_node_up s1 s2 (internal v) bd).
Qed.

Lemma set_up_length n lo s s' d v bd es : set_up n lo s s' d v bd es ->
  length (children s' d) = (length (children s d) + length es)%nat.
Proof. intros [_ (xs & -> & F)]. rewrite length_app. by rewrite (Forall2_length _ _ _ F). Qed.

Lemma good_built n s s' kd bd es : built s s' kd bd -> Forall (entry_good n s) es -> Forall (entry_good n s') es.
Proof.
  intros B Hes. destruct (bu_rest _ _ _ _ B) as (_ & _ & _ & _ & _ & E1 & E2).
  eapply Forall_impl; [exact Hes|]. intros e. by apply (same_card_good n s s').
Qed.

Lemma read_entry_ok l (s : fs_state) : (32 <= length l)%nat -> Forall byte l ->
  read_entry l s = Ok (parse_entry l, s) /\ entry_wf (parse_entry l).
Proof.
  intros Hl Hb.
  assert (G : forall n off, (off + n <= 32)%nat -> exists x, field n (Z.of_nat off) l s = Ok (x, s) /\ x = default 0 (le n (drop off l))).
  { intros n off Hn. destruct (le_ok n (drop off l)) as (x & E & _); [rewrite length_drop; lia|by apply Forall_drop|].
    exists x. rewrite E. split; [|done]. apply field_ok. by rewrite Nat2Z.id. }
  destruct (G 1%nat 11%nat ltac:(lia)) as (a & Ea & Da), (G 2%nat 20%nat ltac:(lia)) as (h & Eh & Dh).
  destruct (G 2%nat 26%nat ltac:(lia)) as (w & Ew & Dw), (G 4%nat 28%nat ltac:(lia)) as (z & Ez & Dz).
  split.
  - unfold read_entry. run Ea. run Eh. run Ew. run Ez. unfold parse_entry. by rewrite <-Da, <-Dh, <-Dw, <-Dz.
  - split; cbn [parse_entry sfn_name file_ext]; (split; [|rewrite length_take; lia]).
    + by apply Forall_take.
    + by apply Forall_take, Forall_drop.
Qed.

(** A block of the directory, read to its buffer. *)
Lemma dir_read_ok s d v bd bb b idx : dir_state s d v bd bb -> sd s !! s32 idx = Some b ->
  let s1 := set_blocks (<[bd := Some <$> b]>) s in
  read_data idx (bd, 0) s = Ok (tt, s1) /\ dir_state s1 d v bd b /\ built s s1 (internal v) bd.
Proof.
  intros Hs Eb s1. pose proof Hs as [Ho Hc Hd (i & Hi & Hdata) Hp Hblk Hl]. destruct (Hc _ _ Eb) as [Hbl _].
  pose proof (old_block s bd bb Ho Hblk) as Hbdn.
  assert (Ho1 : objs_ok s1).
  { apply (same_tree_ok s s1); [|done]. split; try done. intros x Hx. destruct (ob_fresh s Ho x Hx) as (_ & _ & ? & F).
    split; [done|]. change (next_key s1) with (next_key s) in Hx. cbn. by rewrite lookup_insert_ne by lia. }
  split_and!.
  - apply (read_data_ok idx bd b (Some <$> bb) s Hp Eb Hbl Hblk). by rewrite length_fmap.
  - split; try done; [by exists i|cbn; by rewrite lookup_insert_eq].
  - split; try done; cbn; [intros j Hj; exists (childs j); rewrite Hj; by destruct j|intros x Hx Hne; by rewrite lookup_insert_ne
      |exists b; by rewrite lookup_insert_eq].
Qed.

Lemma entries_from_S b j m : entries_from b j (S m) =
  let e := parse_entry (drop (Z.to_nat (32 * j)) b) in
  if shown e then e :: entries_from b (j + 1) m else entries_from b (j + 1) m.
Proof.
  unfold entries_from. rewrite (seqZ_cons j) by lia. by replace (Z.pred (Z.of_nat (S m))) with (Z.of_nat m) by lia.
Qed.

Section Directory.
Variables (n : nat) (rec : Z -> M fs_state unit) (d : Z) (v : vnode) (bd lo : Z).
Hypotheses (Hrec : rec_ok n rec) (Hv : internal v < lo) (Hbd : bd < lo).
Let kd := internal v.
Let pos (s : fs_state) : Z := Z.of_nat (length (children s d)).

(** The entries of the block in the directory's buffer. *)
Lemma setup_entries_ok bb : Forall byte bb -> forall m j s, dir_state s d v bd bb -> lo <= next_key s -> 0 <= j -> j + Z.of_nat m <= 16 ->
  Forall (fun e => entry_wf e -> entry_good n s e) (entries_from bb j m) ->
  (length (children s d) + length (entries_from bb j m) <= 16)%nat ->
  exists s', setup_entries rec m j kd (pos s) s = Ok (pos s', s') /\ set_up n lo s s' d v bd (entries_from bb j m) /\
    blocks s' !! bd = Some (Some <$> bb).
Proof using Hrec Hv Hbd.
  intros Hbb. induction m as [|m IH]; intros j s Hs Hlo Hj Hm Hes Hroom; pose proof Hs as [Ho Hc Hd (i & Hi & Hdata) Hp Hblk Hl].
  { exists s. split; [done|]. split; [|done]. split; [by apply (built_refl s kd bd bb)|]. exists []. by rewrite app_nil_r. }
  rewrite entries_from_S in *. set (e := parse_entry (drop (Z.to_nat (32 * j)) bb)) in *. unfold shown in *.
  destruct (ob_vnode s Ho d v Hd) as (Hdk & Hik & _). cbn [setup_entries].
  run (deref_ok inodes kd s i ltac:(unfold kd; lia) Hi). rewrite Hdata. run (block_bytes_ok bd bb s Hp Hblk Hl).
  destruct (read_entry_ok (drop (Z.to_nat (32 * j)) bb) s ltac:(rewrite length_drop; lia) ltac:(by apply Forall_drop)) as [Ee Hwf].
  run Ee. fold e. fold e in Hwf. destruct (skip_entry e); cbn [negb] in *.
  - apply IH; (done || lia).
  - apply Forall_cons in Hes as [He Hes]. cbn [length] in Hroom. specialize (He Hwf).
    destruct (setup_entry_up n rec s d v i e bd bb lo Hrec Ho Hc Hd Hi ltac:(lia) He Hblk Hl Hlo) as (s1 & E1 & B1 & Hb1 & C1 & N1).
    unfold pos. run E1. fold (pos s1). assert (Hs1 : dir_state s1 d v bd bb) by (by apply (dir_state_built s s1 d v bd bb)).
    assert (U1 : set_up n lo s s1 d v bd [e]) by (split; [done|]; exists [next_key s]; split; [done|]; by constructor).
    pose proof (set_up_length _ _ _ _ _ _ _ _ U1) as L1. cbn [length] in L1.
    replace (Z.of_nat (length (children s d)) + 1) with (pos s1) by (unfold pos; lia).
    destruct (IH (j + 1) s1 Hs1) as (s2 & E2 & U2 & Hb2); [pose proof (bu_next _ _ _ _ B1); lia|lia|lia| |lia|].
    + eapply Forall_impl; [exact Hes|]. intros e' G W. destruct (bu_rest _ _ _ _ B1) as (_ & _ & _ & _ & _ & X1 & X2).
      by apply (same_card_good n s s1 e' X1 X2), G.
    + exists s2. fold (pos s2). split; [exact E2|]. split; [|done].
      exact (set_up_trans n lo s s1 s2 d v bd [e] _ Ho (ds_objs _ _ _ _ _ Hs1) Hv Hbd Hlo U1 U2).
Qed.

(** The clusters of the directory. *)
Lemma setup_clusters_ok e : IS_FAT_ENTRY_VALID e = false -> forall fuel l cur nxt s bb, dir_state s d v bd bb -> lo <= next_key s ->
  (length l < fuel)%nat -> fat_path s cur l e -> fat_entry s cur = Some nxt -> is_Some (fat_entry s e) ->
  Forall (fun x => is_Some (cluster_data s x)) l -> Forall (fun e => entry_wf e -> entry_good n s e) (listing s l) ->
  (length (children s d) + length (listing s l) <= 16)%nat ->
  exists s', setup_clusters rec fuel kd cur nxt (pos s) s = Ok (tt, s') /\ objs_ok s' /\ set_up n lo s s' d v bd (listing s l).
Proof using Hrec Hv Hbd.
  intros Hev. induction fuel as [|fuel IH]; intros l cur nxt s bb Hs Hlo Hf Hp Hn He Hcl Hes Hroom; [lia|].
  pose proof Hs as [Ho Hc Hd (i & Hi & Hdata) Hp0 Hblk Hl]. destruct (ob_vnode s Ho d v Hd) as (Hdk & Hik & _).
  destruct Hp as [c|cur n' l e Hcv Hn' Hp]; cbn [setup_clusters].
  { rewrite Hev. exists s. split; [done|]. split; [done|]. split; [by apply (built_refl s kd bd bb)|]. exists []. by rewrite app_nil_r. }
  rewrite Hn in Hn'. injection Hn' as <-. apply Forall_cons in Hcl as [[b Eb] Hcl]. cbn [length] in Hf.
  assert (El : listing s (cur :: l) = block_entries b ++ listing s l) by (unfold listing; cbn; by rewrite Eb).
  rewrite El in *. apply Forall_app in Hes as [Hes1 Hes2]. rewrite length_app in Hroom.
  assert (exists m, fat_entry s nxt = Some m) as [m Em] by (destruct Hp; [by destruct He as [m Em]; exists m|by eexists]).
  rewrite Hcv. run (gets_ok fat_info s). run (deref_ok inodes kd s i ltac:(unfold kd; lia) Hi). rewrite Hdata.
  destruct (Hc _ _ Eb) as [Hbl Hbb]. destruct (dir_read_ok s d v bd bb b _ Hs Eb) as (Er & Hs1 & B1). run Er.
  set (s1 := set_blocks (<[bd := Some <$> b]>) s) in *. assert (Hbdn : bd < next_key s) by (by apply (old_block s bd bb)).
  change (pos s) with (pos s1).
  destruct (setup_entries_ok b Hbb 16 0 s1 Hs1 Hlo ltac:(lia) ltac:(lia)) as (s2 & E2 & U2 & Hb2).
  { eapply Forall_impl; [exact Hes1|]. intros e' G W. by apply (same_card_good n s s1 e' eq_refl eq_refl), G. }
  { unfold block_entries in Hroom. change (length (children s1 d)) with (length (children s d)). lia. }
  run E2. assert (U : set_up n lo s s2 d v bd (block_entries b)).
  { destruct U2 as [B2 F2]. split; [|exact F2]. apply (built_trans s s1 s2 kd bd kd bd B1 B2); [unfold kd|..]; lia. }
  assert (Hs2 : dir_state s2 d v bd b) by (by apply (dir_state_built s s2 d v bd bb b Hs (su_built _ _ _ _ _ _ _ _ U))).
  pose proof (su_built _ _ _ _ _ _ _ _ U) as B2. destruct (bu_rest _ _ _ _ B2) as (_ & _ & _ & _ & _ & X1 & X2).
  rewrite <-(same_card_entry s s2 X1 X2) in Em. run (read_fat_entry_ok s2 nxt m Em).
  pose proof (set_up_length _ _ _ _ _ _ _ _ U) as L2.
  destruct (IH l nxt m s2 b Hs2) as (s3 & E3 & Ho3 & U3); rewrite ?(same_card_entry s s2 X1 X2), ?(same_card_listing s s2 X1 X2); try done.
  - pose proof (bu_next _ _ _ _ B2). lia.
  - lia.
  - by apply (same_card_path s s2 X1 X2).
  - by rewrite <-(same_card_entry s s2 X1 X2).
  - eapply Forall_impl; [exact Hcl|]. intros x. by rewrite (same_card_data s s2 X1 X2).
  - eapply Forall_impl; [exact Hes2|]. intros e' G W. by apply (same_card_good n s s2 e' X1 X2), G.
  - lia.
  - rewrite (same_card_listing s s2 X1 X2) in U3. exists s3. split; [exact E3|]. split; [done|].
    exact (set_up_trans n lo s s2 s3 d v bd _ _ Ho (ds_objs _ _ _ _ _ Hs2) Hv Hbd Hlo U U3).
Qed.
End Directory.

(** Every directory of the card becomes a directory with its entries. *)
Lemma setup_fat32_ok n : rec_ok n (setup_fat32 n).
Proof.
  induction n as [|n IH]; intros s d v i bd c Hs Hc Hf Hdir; [done|].
  destruct Hdir as (l & Hdc & Hn & H16 & Hall). pose proof Hdc as (Hcl & e & Hp & Hev & Hee).
  pose proof Hf as [F1 F2 (a & F3) [F4 F4'] (b & F5 & F5') F6]. destruct (ob_vnode s Hs d v F1) as (Hdk & Hik & _).
  assert (exists m, fat_entry s c = Some m) as [m Em] by (destruct Hp; [by destruct Hee as [m Em]; exists m|by eexists]).
  cbn [setup_fat32]. run (deref_ok fat_nodes (internal v) s _ ltac:(lia) F3). cbn [cluster]. run (read_fat_entry_ok s c m Em).
  assert (Hs' : dir_state s d v bd b) by (split; try done; by exists i).
  pose proof (old_block s bd b Hs F5) as Hbdn.
  destruct (setup_clusters_ok n (setup_fat32 n) d v bd (next_key s) IH ltac:(lia) Hbdn e Hev (S n) l c m s b Hs' ltac:(lia) ltac:(lia) Hp Em Hee Hcl)
    as (s' & E & Ho' & [B (xs & Cx & Fx)]).
  - eapply Forall_impl; [exact Hall|]. intros e' [G1 G2] W. by split.
  - rewrite F6. cbn. lia.
  - rewrite F6 in Cx, E. exists s'. split; [exact E|]. split; [done|]. rewrite Cx. exists l.
    destruct (bu_rest _ _ _ _ B) as (_ & _ & _ & _ & _ & X1 & X2).
    split; [by apply (same_card_clusters s s' X1 X2)|]. split; [done|]. rewrite (same_card_listing s s' X1 X2). exact Fx.
Qed.

(** * Mounting *)

(** What the first partition of the card says of the file system. *)
Definition card_info (s : fs_state) : option (fat32_info * list Z * list Z) :=
  m ← sd s !! 0;
  sig ← le 2 (drop 510 m);
  start ← le 4 (drop 454 m);
  raw ← sd s !! s32 start;
  let b := take 90 raw in
  reserved ← le 2 (drop 14 b);
  copies ← le 1 (drop 16 b);
  spf ← le 4 (drop 36 b);
  spc ← le 1 (drop 13 b);
  type ← le 1 (drop 450 m);
  let fat := u32 (start + reserved) in
  if sig =? 0xaa55 then Some (FatInfo start fat (u32 (fat + copies * spf)) spc spf spc type, b, m) else None.

Lemma get_fat32_boot_sector_ok s i b m : card_ok s -> card_info s = Some (i, b, m) ->
  get_fat32_boot_sector s = Ok (tt, set_fat_info i b m s) /\ Forall byte b /\ length b = 90%nat.
Proof.
  intros Hs E. unfold card_info in E.
  destruct (sd s !! 0) as [m'|] eqn:Em; [|done]. cbn [mbind option_bind] in E. destruct (Hs _ _ Em) as [Hml Hmb].
  destruct (le 2 (drop 510 m')) as [sig|] eqn:Esig; [|done]. cbn [mbind option_bind] in E.
  destruct (le 4 (drop 454 m')) as [start|] eqn:Est; [|done]. cbn [mbind option_bind] in E.
  destruct (sd s !! s32 start) as [raw|] eqn:Er; [|done]. cbn [mbind option_bind] in E. destruct (Hs _ _ Er) as [Hrl Hrb].
  destruct (le 2 (drop 14 (take 90 raw))) as [res|] eqn:Eres; [|done]. cbn [mbind option_bind] in E.
  destruct (le 1 (drop 16 (take 90 raw))) as [cop|] eqn:Ecop; [|done]. cbn [mbind option_bind] in E.
  destruct (le 4 (drop 36 (take 90 raw))) as [spf|] eqn:Espf; [|done]. cbn [mbind option_bind] in E.
  destruct (le 1 (drop 13 (take 90 raw))) as [spc|] eqn:Espc; [|done]. cbn [mbind option_bind] in E.
  destruct (le 1 (drop 450 m')) as [type|] eqn:Ety; [|done]. cbn [mbind option_bind] in E.
  destruct (Z.eqb_spec sig 0xaa55) as [->|]; [|done]. injection E as <- <- <-.
  split; [|split; [by apply Forall_take|rewrite length_take; lia]].
  unfold get_fat32_boot_sector. set (s1 := set_fat_info (fat_info s) (fat_boot_sector s) m' s).
  rewrite (bind_ok _ _ s tt s1).
  2:{ unfold get_mbr. run (card_read_ok s 0 m' Em).
      run (pure_op_ok _ s _ (memcpy_ok (replicate 512 0) m' 512 ltac:(by rewrite length_replicate) ltac:(lia))).
      rewrite take_ge, drop_ge, app_nil_r by (rewrite ?length_replicate; lia).
      run (eq_refl : modify (fun s => set_fat_info (fat_info s) (fat_boot_sector s) m' s) s = Ok (tt, s1)).
      by run (field_ok 2 510 m' s1 _ Esig). }
  run (gets_ok mbr s1). run (field_ok 4 (446 + 8) m' s1 _ Est). run (card_read_ok s1 start raw Er).
  change BOOT_SECTOR_SIZE with 90%nat.
  run (pure_op_ok _ s1 _ (memcpy_ok (replicate 90 0) raw 90 ltac:(by rewrite length_replicate) ltac:(lia))).
  rewrite (drop_ge (replicate 90 0)), app_nil_r by (by rewrite length_replicate).
  run (field_ok 2 14 _ s1 _ Eres). run (field_ok 1 16 _ s1 _ Ecop). run (field_ok 4 36 _ s1 _ Espf). run (field_ok 1 13 _ s1 _ Espc).
  run (field_ok 1 (446 + 4) m' s1 _ Ety). done.
Qed.

(** A card with a FAT32 file system whose directories are no deeper than [n]; the root
    directory starts at the cluster [c]. *)
Record fat_card (n : nat) (s : fs_state) (i : fat32_info) (b m : list Z) (c : Z) : Prop := {
  fc_card : card_ok s;
  fc_info : card_info s = Some (i, b, m);
  fc_region : is_Some (sd s !! s32 (data_region i));
  fc_root : le 4 (drop 44 b) = Some c;
  fc_dir : card_dir n (set_fat_info i b m s) c
}.

Definition root_inode (k : Z) : inode := Inode FSNODE_TYPE_DIR (replicate 16 0) (replicate 16 0) (k + 2, 0) 0.

(** The state before the directories are set up. *)
Definition root_state (s : fs_state) (m : Z) (i : fat32_info) (b mb : list Z) (c : Z) (buf : list Z) : fs_state :=
  let k := next_key s in
  set_fat_info i b mb (set_mounts (<[m := Mount k Fat32]>)
    (set_fat_nodes (<[k + 1 := FatNode c (cluster_block i c)]>)
      (new_node s Fat32 0 (root_inode k) (Some <$> buf)))).

Section Mount.
Variables (n : nat) (s : fs_state) (m : Z) (i : fat32_info) (b mb : list Z) (c : Z).
Hypotheses (Hs : objs_ok s) (Hm : 0 < m < next_key s) (Hnone : mounts s !! m = None) (Hcard : fat_card n s i b mb c).
Let k := next_key s.

Lemma fat32_setup_root : exists buf, sd s !! s32 (data_region i) = Some buf /\ length buf = 512%nat /\
  fat32_setup_mount n Fat32 m s =
    (_ ← setup_fat32 n (k + 1); mret 1) (root_state s m i b mb c buf).
Proof using Hs Hcard.
  clear Hnone Hm. destruct Hcard as [H1 H2 [buf H3] H4 H5]. destruct (H1 _ _ H3) as [Hbl _]. exists buf. split; [done|]. split; [done|].
  pose proof (ob_next s Hs) as Hk. fold k in Hk. unfold fat32_setup_mount, fat32_create_vnode.
  set (s1 := set_fat_nodes (<[k + 1 := FatNode 0 0]>) (new_node s Fat32 0 (root_inode k) (replicate 512 (Some 0)))).
  assert (Hk1 : vnodes s1 !! k = Some (Vnode 0 Fat32 Fat32 (k + 1))) by (cbn; by rewrite lookup_insert_eq).
  rewrite (bind_ok _ _ s k s1).
  2:{ run (create_vnode_ok Fat32 BLOCK_SIZE (Some 0) 0 FSNODE_TYPE_DIR s).
      by run (deref_ok vnodes k (new_node s Fat32 0 (root_inode k) (replicate 512 (Some 0))) _ ltac:(lia) Hk1). }
  set (s2 := set_mounts (<[m := Mount k Fat32]>) s1).
  run (eq_refl : modify (set_mounts (<[m := Mount k Fat32]>)) s1 = Ok (tt, s2)).
  assert (Hnode : inode_of k s2 = Ok (root_inode k, s2)).
  { unfold inode_of. run (deref_ok vnodes k s2 _ ltac:(lia) Hk1). apply deref_ok; [cbn; lia|cbn; by rewrite lookup_insert_eq]. }
  run Hnode. destruct (get_fat32_boot_sector_ok s2 i b mb H1 H2) as (E & Hbb & _). run E. set (s3 := set_fat_info i b mb s2).
  run (gets_ok fat_info s3). change (fat_info s3) with i.
  assert (Hset : forall f t, vnodes t !! k = Some (Vnode 0 Fat32 Fat32 (k + 1)) ->
    set_fat_node k f t = Ok (tt, set_fat_nodes (<[k + 1 := f]>) t)).
  { intros f t Ht. unfold set_fat_node. by run (deref_ok vnodes k t _ ltac:(lia) Ht). }
  run (Hset (FatNode (data_region i) 0) s3 Hk1). set (s4 := set_fat_nodes _ s3).
  run (card_read_ok s4 (data_region i) buf H3).
  run (copy_full (k + 2) buf (replicate 512 (Some 0)) s4 ltac:(lia) ltac:(cbn; by rewrite lookup_insert_eq) ltac:(by rewrite length_replicate) Hbl).
  set (s5 := set_blocks _ s4). run (gets_ok fat_boot_sector s5). run (field_ok 4 44 b s5 c H4).
  run (Hset (FatNode c (cluster_block i c)) s5 Hk1). set (s6 := set_fat_nodes _ s5).
  run (deref_ok vnodes k s6 _ ltac:(lia) Hk1). cbn [internal].
  assert (E6 : s6 = root_state s m i b mb c buf); [|by rewrite E6].
  apply fs_state_eq; try reflexivity.
  - change (fat_nodes s6) with (<[k + 1 := FatNode c (cluster_block i c)]> (<[k + 1 := FatNode (data_region i) 0]> (<[k + 1 := FatNode 0 0]> (fat_nodes s)))).
    by rewrite !insert_insert_eq.
  - change (blocks s6) with (<[k + 2 := Some <$> buf]> (<[k + 2 := replicate 512 (Some 0)]> (blocks s))). by rewrite insert_insert_eq.
Qed.

Lemma root_state_ok buf : length buf = 512%nat -> let s1 := root_state s m i b mb c buf in
  objs_ok s1 /\ grows s s1 /\ fresh_dir s1 k (Vnode 0 Fat32 Fat32 (k + 1)) (root_inode k) (k + 2) c.
Proof using Hs Hm Hnone.
  clear Hcard. intros Hbl s1. pose proof (ob_next s Hs) as Hk. fold k in Hk.
  set (s0 := new_node s Fat32 0 (root_inode k) (Some <$> buf)).
  assert (H0 : objs_ok s0) by (apply new_node_ok; [done|apply empty_fresh]).
  pose proof (new_node_grows s Fat32 (root_inode k) (Some <$> buf) Hs) as G0. fold s0 in G0.
  destruct (objs_mount s0 m (Mount k Fat32) H0) as [H1 G1]; [cbn; fold k in Hm; lia|done|].
  set (s0' := set_mounts _ s0) in *.
  assert (Hsame : same_tree s0' s1).
  { split; try done. intros x Hx. by destruct (ob_fresh _ H1 x Hx) as (_ & _ & ? & ?). }
  split; [by apply (same_tree_ok s0' s1)|]. split.
  - destruct (grows_trans s s0 s0' G0 G1). by split.
  - split; cbn; fold k.
    + by rewrite lookup_insert_eq.
    + by rewrite lookup_insert_eq.
    + exists (cluster_block i c). by rewrite lookup_insert_eq.
    + split; [done|lia].
    + exists buf. by rewrite lookup_insert_eq.
    + unfold children, node_inode. cbn. fold k. rewrite lookup_insert_eq. cbn. by rewrite lookup_insert_eq.
Qed.

(** Mounting makes the tree of the card below a new root. *)
Lemma fat32_setup_ok : exists s', fat32_setup_mount n Fat32 m s = Ok (1, s') /\ objs_ok s' /\ grows s s' /\
  mounts s' !! m = Some (Mount k Fat32) /\ vnodes s' !! k = Some (Vnode 0 Fat32 Fat32 (k + 1)) /\
  sd s' = sd s /\ fat_info s' = i /\ tree_up n (k + 3) s' (children s' k) c.
Proof using Hs Hm Hnone Hcard.
  destruct fat32_setup_root as (buf & Hbuf & Hbl & ->). destruct (root_state_ok buf Hbl) as (H1 & G1 & F1).
  set (s1 := root_state s m i b mb c buf) in *. destruct Hcard as [C1 _ _ _ C5].
  destruct (setup_fat32_ok n s1 k _ _ _ _ H1 C1 F1) as (s' & E & B & T).
  { by apply (same_card_dir (set_fat_info i b mb s) s1 eq_refl eq_refl). }
  cbn [internal] in E, B. destruct B as [B1 B2 B3 B4 B5 B6 B7 B8 (X1 & X2 & X3 & X4 & X5 & X6 & X7)].
  change (next_key s1) with (k + 3) in *. exists s'. run E. split; [done|]. split; [done|]. split_and!; try done.
  - destruct G1 as [G1 G2 G3 G4 G5 G6 G7 G8 G9]. split; try congruence.
    + apply map_subseteq_spec. intros x w Hx. rewrite B2; [by apply (lookup_weaken (vnodes s))|].
      destruct (ob_vnode s Hs x w Hx) as (? & _). fold k in H. lia.
    + apply map_subseteq_spec. intros x w Hx.
      destruct (Z.lt_ge_cases x k) as [|Hge]; [|destruct (ob_fresh s Hs x Hge); congruence].
      rewrite B3 by lia. by apply (lookup_weaken (inodes s)).
    + by rewrite X1.
    + apply map_subseteq_spec. intros x w Hx.
      destruct (Z.lt_ge_cases x k) as [|Hge]; [|destruct (ob_fresh s Hs x Hge) as (_ & _ & _ & F); congruence].
      rewrite B6 by lia. by apply (lookup_weaken (blocks s)).
    + fold k. lia.
  - rewrite X1. cbn. by rewrite lookup_insert_eq.
  - rewrite B2 by lia. apply F1.
Qed.
End Mount.

(** * Paths of the card *)

(** The clusters of a directory. *)
Fixpoint chain (n : nat) (s : fs_state) (c : Z) : list Z :=
  match n with
  | O => []
  | S n => if IS_FAT_ENTRY_VALID c then c :: chain n s (default 0 (fat_entry s c)) else []
  end.

Lemma chain_path s c l e n : fat_path s c l e -> IS_FAT_ENTRY_VALID e = false -> (length l <= n)%nat -> chain n s c = l.
Proof.
  intros Hp He. revert n. induction Hp as [c|c x l e Hv Hx _ IH]; intros n Hn.
  - destruct n; cbn; [done|by rewrite He].
  - destruct n as [|n]; cbn in Hn; [lia|]. cbn. rewrite Hv, Hx. cbn. by rewrite IH by (done || lia).
Qed.

(** The entry a path leads to, from the directory that starts at [c]. *)
Fixpoint card_lookup (n : nat) (s : fs_state) (c : Z) (q : list (list Z)) : option sfn_entry :=
  match n, q with
  | S n, nm :: q =>
    e ← List.find (fun e => bool_decide (upto0 (entry_name e) = nm)) (listing s (chain n s c));
    match q with
    | [] => Some e
    | _ => if is_dir e then card_lookup n s (entry_cluster e) q else None
    end
  | _, _ => None
  end.

Lemma find_up n lo s xs es nm : Forall2 (node_up n lo s) xs es ->
  match List.find (fun e => bool_decide (upto0 (entry_name e) = nm)) es with
  | Some e => exists x, List.find (fun x => bool_decide (name_of s x = nm)) xs = Some x /\ node_up n lo s x e
  | None => List.find (fun x => bool_decide (name_of s x = nm)) xs = None
  end.
Proof.
  intros H. induction H as [|x e xs es Hx Hall IH]; [done|]. cbn. pose proof Hx as (k & j & Hn & _).
  assert (name_of s x = upto0 (entry_name e)) as ->.
  { unfold name_of, node_inode. rewrite (ni_vnode _ _ _ _ _ _ Hn). cbn. rewrite (ni_inode _ _ _ _ _ _ Hn). apply (ni_name _ _ _ _ _ _ Hn). }
  destruct (bool_decide (upto0 (entry_name e) = nm)); [by exists x|exact IH].
Qed.

(** The paths below the root are the paths of the card. *)
Lemma tree_walk n : forall s lo d c q, tree_up n lo s (children s d) c -> q <> [] ->
  match card_lookup n s c q with
  | Some e => exists x k j, walk s d q = Some x /\ node_is s lo x e k j
  | None => walk s d q = None
  end.
Proof.
  induction n as [|n IH]; intros s lo d c q; [done|]. intros (l & Hl & Hn & Hall) Hq.
  destruct q as [|nm q]; [done|]. cbn [card_lookup walk]. unfold child.
  destruct Hl as (_ & e0 & Hp & He0 & _). rewrite (chain_path s c l e0 n Hp He0 Hn).
  pose proof (find_up n lo s (children s d) (listing s l) nm Hall) as Hf.
  destruct (List.find _ (listing s l)) as [e|]; [|by rewrite Hf].
  destruct Hf as (x & -> & k & j & Hnode & Hsub). cbn [mbind option_bind].
  assert (Hm : mounted s x = x) by (unfold mounted; by rewrite (ni_vnode _ _ _ _ _ _ Hnode)). rewrite Hm.
  destruct q as [|nm' q]; [by exists x, k, j|].
  assert (Hch : children s x = upto0 (childs j)).
  { unfold children, node_inode. rewrite (ni_vnode _ _ _ _ _ _ Hnode). cbn. by rewrite (ni_inode _ _ _ _ _ _ Hnode). }
  destruct (is_dir e) eqn:Ed.
  - apply IH; [|done]. rewrite Hch. by apply Hsub.
  - cbn [walk]. unfold child. rewrite Hch, (ni_file _ _ _ _ _ _ Hnode Ed). done.
Qed.

(** * Deciding that a directory is one *)

Fixpoint chain_end (n : nat) (s : fs_state) (c : Z) : Z :=
  match n with
  | O => c
  | S n => if IS_FAT_ENTRY_VALID c then chain_end n s (default 0 (fat_entry s c)) else c
  end.

Definition readable (s : fs_state) (c : Z) : bool := bool_decide (is_Some (cluster_data s c)) && bool_decide (is_Some (fat_entry s c)).

Lemma chain_is_path n s : forall c, forallb (readable s) (chain n s c) = true ->
  fat_path s c (chain n s c) (chain_end n s c) /\ (length (chain n s c) <= n)%nat.
Proof.
  induction n as [|n IH]; intros c H; cbn in *; [split; [constructor|lia]|].
  destruct (IS_FAT_ENTRY_VALID c) eqn:Ev; [|split; [constructor|cbn; lia]].
  cbn in H. apply andb_true_iff in H as [H1 H2]. unfold readable in H1. apply andb_true_iff in H1 as [_ H1].
  apply bool_decide_eq_true in H1 as [x Ex]. destruct (IH _ H2) as [Hp Hl]. split; [|cbn; lia].
  rewrite Ex in *. by apply (path_cons s c x).
Qed.

Fixpoint card_dirb (n : nat) (s : fs_state) (c : Z) : bool :=
  match n with
  | O => false
  | S n =>
    let l := chain n s c in
    let e := chain_end n s c in
    forallb (readable s) l && negb (IS_FAT_ENTRY_VALID e) && bool_decide (is_Some (fat_entry s e)) &&
    (length (listing s l) <=? 16)%nat &&
    forallb (fun e => bool_decide (is_Some (cluster_data s (entry_cluster e))) && (negb (is_dir e) || card_dirb n s (entry_cluster e)))
      (listing s l)
  end.

Lemma card_dirb_ok n s : forall c, card_dirb n s c = true -> card_dir n s c.
Proof.
  induction n as [|n IH]; intros c H; [done|]. cbn [card_dirb] in H. cbv zeta in H.
  apply andb_true_iff in H as [H H5]. apply andb_true_iff in H as [H H4]. apply andb_true_iff in H as [H H3].
  apply andb_true_iff in H as [H1 H2]. destruct (chain_is_path n s c H1) as [Hp Hl].
  exists (chain n s c). split_and!; [split|done|by apply Nat.leb_le|].
  - apply Forall_forall. intros x Hx%list_elem_of_In. apply (proj1 (forallb_forall _ _) H1) in Hx.
    apply andb_true_iff in Hx as [Hx _]. by apply bool_decide_eq_true in Hx.
  - exists (chain_end n s c). split; [done|]. split; [by apply negb_true_iff|]. by apply bool_decide_eq_true in H3.
  - apply Forall_forall. intros e He%list_elem_of_In. apply (proj1 (forallb_forall _ _) H5) in He.
    apply andb_true_iff in He as [He1 He2]. apply bool_decide_eq_true in He1. split; [done|]. intros Hd. rewrite Hd in He2. by apply IH.
Qed.

(** More fuel than the depth of the directories does not matter. *)
Lemma card_dir_mono n n' s : (n <= n')%nat -> forall c, card_dir n s c -> card_dir n' s c.
Proof.
  revert n'. induction n as [|n IH]; intros n' Hn c; [done|]. destruct n' as [|n']; [lia|].
  intros (l & H1 & H2 & H3 & H4). exists l. split_and!; [done|lia|done|].
  eapply Forall_impl; [exact H4|]. intros e [He Hd]. split; [done|]. intros E. apply IH; [lia|by apply Hd].
Qed.
