(* ===== verification/FatFile.v ===== *)
(** Files of a FAT32 card: the virtual file system mounted on it, what a handle writes and
    reads, and what the card holds afterwards. *)
From Stdlib Require Import Ascii String.
From S2P Require Import Prelude CString FsData Vfs Tmpfs Initramfs Fat32 FsInv VfsSpec VfsMount FsNodes TmpfsSpec.
From S2P Require Import FileSystems FsTree FileOps FsSpec FatSpec FatMount.

(** * A file and its block *)

(** The vnode [node] is a file with the block [a] of the card, which holds [b]; its buffer
    in memory, at [bd], holds [buf]. *)
Record fat_file (s : fs_state) (node a bd : Z) (j : inode) (buf b : list Z) : Prop := {
  ff_node : exists m cl k, vnodes s !! node = Some (Vnode m Fat32 Fat32 k) /\ inodes s !! k = Some j /\
    fat_nodes s !! k = Some (FatNode cl a);
  ff_data : data j = (bd, 0) /\ bd <> 0;
  ff_buf : blocks s !! bd = Some (Some <$> buf) /\ length buf = 512%nat;
  ff_card : sd s !! s32 a = Some b /\ length b = 512%nat;
  ff_size : 0 <= data_size j <= 512
}.

(** [memcpy] to and from the buffer at a position. *)
Lemma copy_in p pos src len old s : p <> 0 -> blocks s !! p = Some (Some <$> old) -> 0 <= pos -> 0 <= len <= Z.of_nat (length src) ->
  pos + len <= Z.of_nat (length old) ->
  copy_to (p, pos) src len s = Ok (tt, set_blocks (<[p := Some <$> splice (Z.to_nat pos) (take (Z.to_nat len) src) old]>) s).
Proof.
  intros Hp Hb Hpos Hlen Hfit. unfold copy_to.
  assert (E : read_block (p, pos) s = Ok (Some <$> drop (Z.to_nat pos) old, s)).
  { unfold read_block. cbn [fst snd]. run (deref_ok blocks p s _ Hp Hb). rewrite length_fmap, fmap_drop. by repeat zcase; try lia. }
  run E. run (pure_op_ok _ s _ (memcpy_ok (Some <$> drop (Z.to_nat pos) old) (Some <$> src) (Z.to_nat len)
    ltac:(rewrite length_fmap, length_drop; lia) ltac:(rewrite length_fmap; lia))).
  unfold modify, set_blocks. cbv beta. cbn [fst snd]. rewrite Hb. cbn [default]. do 4 f_equal. unfold splice.
  rewrite !fmap_app, !fmap_take, !fmap_drop, drop_drop, length_take. do 3 f_equal. f_equal. lia.
Qed.

Lemma copy_out p pos dst len old s : p <> 0 -> blocks s !! p = Some (Some <$> old) -> 0 <= pos -> 0 <= len <= Z.of_nat (length dst) ->
  pos + len <= Z.of_nat (length old) ->
  copy_from dst (p, pos) len s = Ok (take (Z.to_nat len) (drop (Z.to_nat pos) old) ++ drop (Z.to_nat len) dst, s).
Proof.
  intros Hp Hb Hpos Hlen Hfit. unfold copy_from.
  assert (E : read_block (p, pos) s = Ok (Some <$> drop (Z.to_nat pos) old, s)).
  { unfold read_block. cbn [fst snd]. run (deref_ok blocks p s _ Hp Hb). rewrite length_fmap, fmap_drop. by repeat zcase; try lia. }
  run E. run (pure_op_ok _ s _ (memcpy_ok (Some <$> dst) (Some <$> drop (Z.to_nat pos) old) (Z.to_nat len)
    ltac:(rewrite length_fmap; lia) ltac:(rewrite length_fmap, length_drop; lia))).
  by rewrite <-fmap_take, <-fmap_drop, <-fmap_app, mapM_some.
Qed.

Section File.
Variables (s : fs_state) (f node pos a bd : Z) (fl : option Z) (j : inode) (buf b : list Z).
Hypotheses (Hs : objs_ok s) (Hf0 : f <> 0) (Hf : files s !! f = Some (File node pos Fat32 fl))
  (Hff : fat_file s node a bd j buf b).

(** The inode and the block of the file, in a state with the same objects. *)
Lemma fat_nodes_ok t : vnodes t = vnodes s -> inodes t = inodes s -> fat_nodes t = fat_nodes s ->
  inode_of node t = Ok (j, t) /\ (exists cl, fat_node_of node t = Ok (FatNode cl a, t)) /\
  exists k, forall g, upd_inode node g t = Ok (tt, set_inodes (<[k := g j]>) t) /\ inodes s !! k = Some j /\
    exists m, vnodes s !! node = Some (Vnode m Fat32 Fat32 k).
Proof using Hs Hff.
  intros E1 E2 E3. destruct Hff as [(m & cl & k & H1 & H2 & H3) _ _ _ _].
  destruct (ob_vnode s Hs node _ H1) as (Hn & Hk & _). cbn in Hk. rewrite <-E1 in H1. rewrite <-E2 in H2. rewrite <-E3 in H3.
  split_and!.
  - unfold inode_of. run (deref_ok vnodes node t _ ltac:(lia) H1). apply deref_ok; [cbn; lia|done].
  - exists cl. unfold fat_node_of. run (deref_ok vnodes node t _ ltac:(lia) H1). apply deref_ok; [cbn; lia|done].
  - exists k. intros g. rewrite <-E1, <-E2. split; [|by split; [|exists m]]. unfold upd_inode.
    run (deref_ok vnodes node t _ ltac:(lia) H1). by run (deref_ok inodes k t j ltac:(lia) H2).
Qed.

(** The state after a write. *)
Definition fat_wrote (bytes : list Z) (k : Z) : fs_state :=
  let b' := splice (Z.to_nat pos) bytes buf in
  let p := pos + Z.of_nat (length bytes) in
  let s1 := set_files (<[f := File node p Fat32 fl]>) (set_sd (<[s32 a := b']>) (set_blocks (<[bd := Some <$> b']>) s)) in
  if data_size j <? p then set_inodes (<[k := with_size p j]>) s1 else s1.

Lemma fat32_write_ok src len : 0 <= pos -> 0 < len <= Z.of_nat (length src) -> pos + len <= 512 ->
  exists k, fat32_write f src len s = Ok (len, fat_wrote (take (Z.to_nat len) src) k) /\ inodes s !! k = Some j /\
    exists m, vnodes s !! node = Some (Vnode m Fat32 Fat32 k).
Proof using Hs Hf0 Hf Hff.
  intros Hpos Hlen Hfit. pose proof Hff as [_ [Hd Hbd] [Hb Hbl] [Hc Hcl] Hsz].
  set (bytes := take (Z.to_nat len) src). assert (Hn : Z.of_nat (length bytes) = len) by (unfold bytes; rewrite length_take; lia).
  set (b' := splice (Z.to_nat pos) bytes buf). assert (Hb' : length b' = 512%nat) by (unfold b'; rewrite splice_length; lia).
  set (s1 := set_blocks (<[bd := Some <$> b']>) s). set (s2 := set_sd (<[s32 a := b']>) s1).
  set (s3 := set_files (<[f := File node (pos + len) Fat32 fl]>) s2).
  destruct (fat_nodes_ok s eq_refl eq_refl eq_refl) as (E1 & _ & _).
  destruct (fat_nodes_ok s1 eq_refl eq_refl eq_refl) as (_ & (cl & E2) & _).
  destruct (fat_nodes_ok s3 eq_refl eq_refl eq_refl) as (_ & _ & k & E3).
  exists k. split; [|by destruct (E3 id) as (_ & ?)].
  unfold fat32_write. destruct (Z.eqb_spec len 0); [lia|]. run (deref_ok files f s _ Hf0 Hf). cbn [f_vnode f_pos f_ops f_flags].
  run E1. rewrite Hd. cbn [fst snd]. rewrite Z.add_0_l.
  run (copy_in bd pos src len buf s Hbd Hb Hpos ltac:(lia) ltac:(lia)). fold bytes b' s1. run E2.
  assert (Eb : blocks s1 !! bd = Some (Some <$> b')) by (cbn; by rewrite lookup_insert_eq).
  run (block_bytes_ok bd b' s1 Hbd Eb Hb'). cbn [abs_block_num]. run (card_write_ok s1 a b b' Hc Hb'). fold s2.
  rewrite u64_small by lia. run (eq_refl : modify (set_files (<[f := File node (pos + len) Fat32 fl]>)) s2 = Ok (tt, s3)).
  unfold fat_wrote. rewrite Hn. fold b' s1 s2 s3. rewrite s32_small by lia. destruct (data_size j <? pos + len); [|done].
  destruct (E3 (with_size (pos + len))) as (E & _). by run E.
Qed.

(** A read goes to the card. *)
Lemma fat32_read_ok dst len : 0 <= pos <= data_size j -> 0 <= len < 2 ^ 63 ->
  let n := Z.min len (data_size j - pos) in n <= Z.of_nat (length dst) ->
  fat32_read f dst len s = Ok (n, take (Z.to_nat n) (drop (Z.to_nat pos) b) ++ drop (Z.to_nat n) dst,
    set_files (<[f := File node (pos + n) Fat32 fl]>) (set_blocks (<[bd := Some <$> b]>) s)).
Proof using Hs Hf0 Hf Hff.
  intros Hpos Hlen n Hn. pose proof Hff as [_ [Hd Hbd] [Hb Hbl] [Hc Hcl] Hsz].
  set (s1 := set_blocks (<[bd := Some <$> b]>) s).
  destruct (fat_nodes_ok s eq_refl eq_refl eq_refl) as (E1 & (cl & E2) & _).
  destruct (fat_nodes_ok s1 eq_refl eq_refl eq_refl) as (E3 & _ & _).
  unfold fat32_read. run (deref_ok files f s _ Hf0 Hf). cbn [f_vnode]. run E1. run E2. cbn [abs_block_num]. rewrite Hd.
  run (read_data_ok a bd b (Some <$> buf) s Hbd Hc Hcl Hb ltac:(by rewrite length_fmap)). fold s1.
  unfold read_node. run (deref_ok files f s1 _ Hf0 Hf). cbn [f_vnode f_pos f_ops f_flags]. run E3.
  rewrite (u64_small (pos + len)) by lia.
  assert (En : (if data_size j <? pos + len then u64 (data_size j - pos) else len) = n).
  { unfold n. zcase; [rewrite u64_small by lia|]; lia. }
  rewrite En, Hd. cbn [fst snd]. rewrite Z.add_0_l.
  assert (Eb : blocks s1 !! bd = Some (Some <$> b)) by (cbn; by rewrite lookup_insert_eq).
  run (copy_out bd pos dst n b s1 Hbd Eb ltac:(lia) ltac:(lia) ltac:(lia)).
  rewrite u64_small by lia. unfold mbind, M_bind, modify, mret, M_ret. rewrite s32_small by lia. done.
Qed.

(** The file after a write. *)
Lemma wrote_file bytes k m : inodes s !! k = Some j -> vnodes s !! node = Some (Vnode m Fat32 Fat32 k) ->
  0 <= pos -> pos + Z.of_nat (length bytes) <= 512 ->
  let s1 := fat_wrote bytes k in
  let b' := splice (Z.to_nat pos) bytes buf in
  objs_ok s1 /\ exists j', fat_file s1 node a bd j' b' b' /\ data_size j' = Z.max (data_size j) (pos + Z.of_nat (length bytes)) /\
    sd s1 = <[s32 a := b']> (sd s) /\
    files s1 = <[f := File node (pos + Z.of_nat (length bytes)) Fat32 fl]> (files s).
Proof using Hs Hf Hff.
  intros Hk Hm Hpos Hfit s1 b'. pose proof Hff as [(m' & cl & k' & H1 & H2 & H3) [Hd Hbd] [Hb Hbl] [Hc Hcl] Hsz].
  rewrite Hm in H1. injection H1 as <- <-. set (p := pos + Z.of_nat (length bytes)) in *.
  assert (Hb' : length b' = 512%nat) by (unfold b'; rewrite splice_length; lia).
  set (j' := if data_size j <? p then with_size p j else j).
  assert (Hin : forall x, inodes s1 !! x = if decide (x = k) then Some j' else inodes s !! x).
  { intros x. unfold s1, fat_wrote, j'. fold p. destruct (data_size j <? p); cbn; destruct (decide (x = k)) as [->|]; try done;
      [by rewrite lookup_insert_eq|by rewrite lookup_insert_ne]. }
  assert (Hrest : vnodes s1 = vnodes s /\ fat_nodes s1 = fat_nodes s /\ blocks s1 = <[bd := Some <$> b']> (blocks s) /\
    sd s1 = <[s32 a := b']> (sd s) /\ files s1 = <[f := File node p Fat32 fl]> (files s) /\ next_key s1 = next_key s /\
    mounts s1 = mounts s /\ rootfs s1 = rootfs s /\ filesystems s1 = filesystems s).
  { unfold s1, fat_wrote. fold p b'. by destruct (data_size j <? p). }
  destruct Hrest as (E1 & E2 & E3 & E4 & E5 & E6 & E7 & E8 & E9). split.
  - apply (same_tree_ok s s1); [|done]. split; try done.
    + intros x. rewrite Hin. destruct (decide (x = k)) as [->|]; [|done]. rewrite Hk. unfold j'. by destruct (data_size j <? p).
    + lia.
    + intros x Hx. rewrite E6 in Hx. destruct (ob_fresh s Hs x Hx) as (_ & _ & F1 & F2). rewrite E3, E5.
      split; rewrite lookup_insert_ne; try done; intros <-; congruence.
  - exists j'. split; [|split; [unfold j'; destruct (Z.ltb_spec (data_size j) p); cbn; lia|done]]. split.
    + exists m, cl, k. rewrite E1, E2, Hin, decide_True by done. done.
    + unfold j'. by destruct (data_size j <? p).
    + rewrite E3, lookup_insert_eq. done.
    + rewrite E4, lookup_insert_eq. done.
    + unfold j'. destruct (Z.ltb_spec (data_size j) p); cbn; lia.
Qed.
End File.

(** The start of a block after a write inside it. *)
Lemma splice_take size pos len bytes b : 0 <= pos <= size -> size <= Z.of_nat (length b) -> Z.of_nat (length bytes) = len ->
  pos + len <= Z.of_nat (length b) ->
  take (Z.to_nat (Z.max size (pos + len))) (splice (Z.to_nat pos) bytes b) =
  take (Z.to_nat pos) (take (Z.to_nat size) b) ++ bytes ++ drop (Z.to_nat (pos + len)) (take (Z.to_nat size) b).
Proof.
  intros Hp Hs Hl Hf. apply list_eq. intros i. rewrite take_take. replace (Z.to_nat pos `min` Z.to_nat size)%nat with (Z.to_nat pos) by lia.
  destruct (Nat.lt_ge_cases i (Z.to_nat (Z.max size (pos + len)))) as [Hi|Hi].
  - rewrite lookup_take_lt, splice_lookup by lia. destruct (decide _) as [[H1 H2]|Hn].
    + rewrite lookup_app_r; rewrite length_take; [|lia]. rewrite lookup_app_l by lia. f_equal. lia.
    + destruct (Nat.lt_ge_cases i (Z.to_nat pos)).
      * rewrite lookup_app_l by (rewrite length_take; lia). by rewrite lookup_take_lt.
      * rewrite lookup_app_r; rewrite length_take; [|lia]. rewrite lookup_app_r by lia. rewrite lookup_drop, lookup_take_lt by lia. f_equal. lia.
  - rewrite lookup_take_ge by lia. symmetry. apply lookup_ge_None_2. rewrite !length_app, length_drop, !length_take. lia.
Qed.

(** * The virtual file system over the card *)

Lemma fat_card_same n s s' i b mb c : sd s' = sd s -> fat_card n s i b mb c -> fat_card n s' i b mb c.
Proof.
  intros E [H1 H2 H3 H4 H5]. split.
  - unfold card_ok. by rewrite E.
  - rewrite <-H2. unfold card_info. by rewrite E.
  - by rewrite E.
  - done.
  - by apply (same_card_dir (set_fat_info i b mb s) (set_fat_info i b mb s') E eq_refl).
Qed.

Lemma same_card_lookup s s' : sd s' = sd s -> fat_info s' = fat_info s ->
  forall n c q, card_lookup n s' c q = card_lookup n s c q.
Proof.
  intros E1 E2. assert (Hch : forall n c, chain n s' c = chain n s c).
  { induction n as [|n IH]; intros c; [done|]. cbn. by rewrite IH, (same_card_entry s s' E1 E2). }
  induction n as [|n IH]; intros c q; [done|]. destruct q as [|nm q]; [done|]. cbn [card_lookup].
  rewrite Hch, (same_card_listing s s' E1 E2). destruct (List.find _ _) as [e|]; [|done]. cbn.
  destruct q; [done|]. by rewrite IH.
Qed.

Section Kernel.
Variables (fuel : nat) (junk : list Z).
#[local] Existing Instance kernel_ops.
#[local] Existing Instance kernel_laws.
Let ops : Ops := kernel_ops fuel junk.
#[local] Existing Instance ops | 0.
Let laws : @FsLaws ops := kernel_laws fuel junk.
#[local] Existing Instance laws | 0.

#[export] Instance fat32_mountable : Mountable Fat32.
Proof.
  refine {| mount_pre := fun s => exists i b mb c, fat_card fuel s i b mb c |}.
  intros s m r s' Hs (i & b & mb & c & Hc) Hm Hnone E.
  destruct (fat32_setup_ok fuel s m i b mb c Hs Hm Hnone Hc) as (s1 & E1 & Ho & Hg & Em & Hv & _).
  change (fat32_setup_mount fuel Fat32 m s = Ok (r, s')) in E. rewrite E1 in E. injection E as <- <-.
  split; [done|]. split; [done|]. split; [done|]. exists (next_key s). split; [done|]. split; [lia|by eexists].
Defined.

(** The mount of a card on a directory nothing is mounted on. *)
Lemma fat32_mount_ok s i b mb cl tbuf p pre n fbuf d c v :
  fs_ok s -> fat_card fuel s i b mb cl -> holds tbuf p -> entry_path p pre n -> n <> [] -> pre <> [47] ->
  holds fbuf (chars "fat32") -> find_fs s (chars "fat32") = Some Fat32 ->
  walk s (root_of s) (components pre) = Some d -> child s d n = Some c -> vnodes s !! c = Some v -> v_mount v = 0 ->
  exists s' rt, vfs_mount tbuf fbuf s = Ok (1, s') /\ mounts_on s s' c rt /\ sd s' = sd s /\ fat_info s' = i /\
    forall q, q <> [] ->
      match card_lookup fuel (set_fat_info i b mb s) cl q with
      | Some e => exists x k j, walk s' (root_of s') (components p ++ q) = Some x /\ node_is s' (next_key s) x e k j
      | None => walk s' (root_of s') (components p ++ q) = None
      end.
Proof using Type.
  intros Hf Hcard Ht He Hne Hpre Hfb Hfs Hd Hc Hv Hv0. pose proof (fo_objs s Hf) as Ho. pose proof (ob_next s Ho) as Hk.
  destruct (vnode_pos s Ho c ltac:(by eexists)) as [_ Hck]. set (m := next_key s) in *.
  set (s0 := set_next_key (m + 1) s). assert (Hcard0 : fat_card fuel s0 i b mb cl) by (by apply (fat_card_same fuel s s0)).
  destruct (fat32_setup_ok fuel s0 m i b mb cl (objs_key s Ho) ltac:(cbn; lia) ltac:(apply (ob_fresh s Ho); unfold m; lia) Hcard0)
    as (s1 & E1 & Ho1 & Hg1 & Em1 & Hrv & Esd & Ei & T).
  cbn [next_key s0 set_next_key] in *. set (rt := m + 1) in *.
  assert (Hpm : @mount_pre ops Fat32 fat32_mountable s0) by (by exists i, b, mb, cl).
  destruct (vfs_mount_ok s Fat32 tbuf p pre n fbuf (chars "fat32") d c v 1 s1 Hf Ht He Hne Hpre Hfb Hfs Hd Hc Hv Hv0 Hpm E1)
    as (E & Hf' & Hr' & (rt' & Ert & _ & Hwalk) & _).
  set (s' := mount_on s1 c (next_key s) v) in *. fold m in Ert. rewrite Em1 in Ert. injection Ert as <-.
  pose proof (grows_trans s s0 s1 (grows_key s) Hg1) as Hg. exists s', rt. split; [exact E|]. split.
  { apply (mount_on_mounts s s1 c rt v Fat32); try done; [by apply (grows_fs_ok s s1)|unfold rt, m; lia]. }
  split; [done|]. split; [done|]. intros q Hq.
  assert (Hv1 : vnodes s1 !! c = Some v) by (by apply (grows_vnode s0 s1 Hg1)).
  assert (T' : tree_up fuel m s' (children s' rt) cl).
  { assert (children s' rt = children s1 rt) as -> by (unfold children, s'; by rewrite mount_on_inode).
    apply (tree_up_weaken fuel (rt + 3)); [unfold rt; lia|].
    apply (same_tree_up s1 s' eq_refl eq_refl (rt + 3) (next_key s1) Ho1); try done.
    intros x Hx. cbn. rewrite lookup_insert_ne; [done|unfold rt in Hx; lia]. }
  pose proof (tree_walk fuel s' m rt cl q T' Hq) as Hw.
  rewrite walk_app, Hr', Hwalk. cbn [mbind option_bind].
  rewrite <-(same_card_lookup (set_fat_info i b mb s) s' Esd Ei). exact Hw.
Qed.

(** A file of a mounted card. *)
Lemma node_file s lo x e k j : card_ok s -> 0 < lo -> node_is s lo x e k j -> is_dir e = false -> 0 <= file_size e <= 512 ->
  exists a bd b, fat_file s x a bd j b b /\ cluster_data s (entry_cluster e) = Some b /\ data_size j = file_size e.
Proof using Type.
  intros Hc Hlo [H1 H2 H3 _ _ H6 H7 (b & H8 & H9 & H10) (_ & _ & H11) _] Ed Hsz.
  exists (cluster_block (fat_info s) (entry_cluster e)), (data j).1, b. split; [|by auto]. split.
  - by exists 0, (entry_cluster e), k.
  - split; [|lia]. destruct (data j). cbn in *. by subst.
  - done.
  - split; [by apply H10|done].
  - lia.
Qed.

Lemma opened_fat s node v fl x a bd j b1 b : fat_file s x a bd j b1 b -> fat_file (opened s node v fl) x a bd j b1 b.
Proof using Type. intros []. by split. Qed.


(** A file of the card, read through the virtual file system: once the card is
    mounted on a directory, opening a path that leads to a file of the card and reading
    gives the bytes of the file, which are the first of its first block. *)
Theorem fat32_file_spec s i b mb cl tbuf p pre n fbuf d c v q e blk pbuf pp pre' n' fl out len :
  fs_ok s -> fat_card fuel s i b mb cl -> holds tbuf p -> entry_path p pre n -> n <> [] -> pre <> [47] ->
  holds fbuf (chars "fat32") -> find_fs s (chars "fat32") = Some Fat32 ->
  walk s (root_of s) (components pre) = Some d -> child s d n = Some c -> vnodes s !! c = Some v -> v_mount v = 0 ->
  q <> [] -> card_lookup fuel (set_fat_info i b mb s) cl q = Some e -> is_dir e = false -> 0 <= file_size e <= 512 ->
  cluster_data (set_fat_info i b mb s) (entry_cluster e) = Some blk ->
  holds pbuf pp -> entry_path pp pre' n' -> components pp = components p ++ q ->
  file_size e <= len < 2 ^ 63 -> len <= Z.of_nat (length out) ->
  exists s1 s2 s3 g, vfs_mount tbuf fbuf s = Ok (1, s1) /\ fs_ok s1 /\ vfs_open pbuf fl s1 = Ok (Some g, s2) /\
    vfs_read g out len s2 =
      Ok (file_size e, take (Z.to_nat (file_size e)) blk ++ drop (Z.to_nat (file_size e)) out, s3).
Proof using Type.
  intros Hf Hcard Ht He Hne Hpre Hfb Hfs Hd Hc Hv Hv0 Hq Hlook Ed Hsz Hblk Hp Hpp Hcomp Hlen Hout.
  pose proof (ob_next s (fo_objs s Hf)) as Hk0.
  destruct (fat32_mount_ok s i b mb cl tbuf p pre n fbuf d c v Hf Hcard Ht He Hne Hpre Hfb Hfs Hd Hc Hv Hv0)
    as (s1 & rt & E1 & Hmo & Esd & Ei & Hw). pose proof (mo_ok _ _ _ _ Hmo) as Hf1.
  specialize (Hw q Hq). rewrite Hlook in Hw. destruct Hw as (x & k & j & Hw & Hnode).
  assert (Hc1 : card_ok s1) by (unfold card_ok; rewrite Esd; apply (fc_card _ _ _ _ _ _ Hcard)).
  destruct (node_file s1 (next_key s) x e k j Hc1 Hk0 Hnode Ed Hsz) as (a & bd & b1 & Hfile & Hb1 & Ej).
  rewrite (same_card_data (set_fat_info i b mb s) s1 Esd Ei), Hblk in Hb1. injection Hb1 as <-.
  destruct (vfs_open_ok s1 pbuf pp pre' n' Hf1 Hp Hpp fl) as (nb & _ & Eopen). rewrite Hcomp, Hw in Eopen.
  pose proof (ni_vnode _ _ _ _ _ _ Hnode) as Hx. pose proof (fo_objs s1 Hf1) as Ho1. pose proof (ob_next s1 Ho1) as Hk1.
  pose proof (eq_trans Eopen (open_node_ok fuel junk s1 x _ fl Ho1 Hx)) as Eopen2. clear Eopen.
  set (s2 := opened s1 x (Vnode 0 Fat32 Fat32 k) fl) in Eopen2. set (g := next_key s1) in *.
  assert (Hg : files s2 !! g = Some (File x 0 Fat32 (Some fl))) by (cbn; by rewrite lookup_insert_eq).
  assert (Ho2 : objs_ok s2) by (by apply (same_tree_ok s1 s2 (opened_tree s1 x _ fl Ho1))).
  pose proof (fat32_read_ok s2 g x 0 a bd (Some fl) j blk blk Ho2 ltac:(unfold g; lia) Hg
    (opened_fat s1 x _ fl x a bd j blk blk Hfile) out len ltac:(lia) ltac:(lia) ltac:(lia)) as Eread.
  replace (Z.min len (data_size j - 0)) with (file_size e) in Eread by lia.
  eexists s1, s2, _, g. split; [exact E1|]. split; [done|]. split; [exact Eopen2|].
  unfold vfs_read. run (deref_ok files g s2 _ ltac:(unfold g; lia) Hg). exact Eread.
Qed.

(** C26. A write to a file of the card whose buffer agrees with the card goes through: the
    block of the card then holds the bytes of the file, with those written in place of
    the old ones, the other blocks are as they were, and another handle reads the bytes
    back from the card. *)
Theorem fat_file_roundtrip s f g node pos a bd fl fl' j b src len out :
  objs_ok s -> f <> 0 -> g <> 0 -> f <> g -> files s !! f = Some (File node pos Fat32 fl) ->
  files s !! g = Some (File node 0 Fat32 fl') -> fat_file s node a bd j b b ->
  0 <= pos <= data_size j -> 0 < len <= Z.of_nat (length src) -> pos + len <= 512 -> 512 <= Z.of_nat (length out) < 2 ^ 63 ->
  let c := take (Z.to_nat (data_size j)) b in
  let c' := take (Z.to_nat pos) c ++ take (Z.to_nat len) src ++ drop (Z.to_nat (pos + len)) c in
  exists s1 s2 b', vfs_write f src len s = Ok (len, s1) /\ sd s1 = <[s32 a := b']> (sd s) /\
    take (length c') b' = c' /\ length b' = 512%nat /\ drop (Z.to_nat (pos + len)) b' = drop (Z.to_nat (pos + len)) b /\
    vfs_read g out (Z.of_nat (length out)) s1 = Ok (Z.of_nat (length c'), c' ++ drop (length c') out, s2).
Proof using Type.
  intros Hs Hf0 Hg0 Hfg Hf Hg Hff Hpos Hlen Hfit Hout c c'. set (bytes := take (Z.to_nat len) src) in *.
  assert (Hn : Z.of_nat (length bytes) = len) by (unfold bytes; rewrite length_take; lia).
  destruct (fat32_write_ok s f node pos a bd fl j b b Hs Hf0 Hf Hff src len ltac:(lia) Hlen Hfit) as (k & E1 & Hk & m & Hm).
  fold bytes in E1. set (s1 := fat_wrote s f node pos a bd fl j b bytes k) in *.
  destruct (wrote_file s f node pos a bd fl j b b Hs Hf Hff bytes k m Hk Hm ltac:(lia) ltac:(lia)) as (Ho1 & j1 & Hff1 & Ej1 & Esd & Efl).
  fold s1 in Ho1, Hff1, Esd, Efl. set (b' := splice (Z.to_nat pos) bytes b) in *. rewrite Hn in Ej1.
  destruct Hff as [_ _ [_ Hbl] [_ _] Hsz].
  assert (Hc : length c = Z.to_nat (data_size j)) by (unfold c; rewrite length_take; lia).
  assert (Hc' : Z.of_nat (length c') = data_size j1).
  { unfold c'. rewrite !length_app, length_take, length_drop, Hc, Ej1. lia. }
  assert (Eb : take (length c') b' = c').
  { replace (length c') with (Z.to_nat (Z.max (data_size j) (pos + len))) by lia. unfold b', c', c. apply splice_take; lia. }
  assert (Hg1 : files s1 !! g = Some (File node 0 Fat32 fl')) by (by rewrite Efl, lookup_insert_ne).
  pose proof (fat32_read_ok s1 g node 0 a bd fl' j1 b' b' Ho1 Hg0 Hg1 Hff1 out (Z.of_nat (length out)) ltac:(lia) ltac:(lia)) as Eread.
  cbn zeta in Eread. replace (Z.min (Z.of_nat (length out)) (data_size j1 - 0)) with (Z.of_nat (length c')) in Eread by lia.
  specialize (Eread ltac:(lia)). rewrite Nat2Z.id, drop_0, Eb in Eread.
  eexists s1, _, b'. split_and!; [|exact Esd|exact Eb| | |].
  - unfold vfs_write. run (deref_ok files f s _ Hf0 Hf). exact E1.
  - unfold b'. rewrite splice_length; lia.
  - unfold b'. rewrite <-Hn. apply list_eq. intros i. rewrite !lookup_drop, splice_lookup by lia. rewrite decide_False by lia. done.
  - unfold vfs_read. run (deref_ok files g s1 _ Hg0 Hg1). exact Eread.
Qed.
End Kernel.

(** * Instances *)

(** A card with the file A.TXT and the directory D, which has the file B.TXT. *)
Definition blank : list Z := replicate 512 0.
Definition entry_at (j : nat) (nm ext : list Z) (a c z : Z) (b : list Z) : list Z :=
  splice (32 * j) (entry_bytes (replicate 32 0) (SfnEntry (take 8 (nm ++ replicate 8 32)) (take 3 (ext ++ replicate 3 32)) a 0 c z)) b.
Definition ex_card : gmap Z (list Z) := list_to_map [
  (0, splice 454 [1] (splice 510 [0x55; 0xaa] blank));
  (1, splice 13 [1; 1; 0; 1] (splice 36 [1] (splice 44 [2] blank)));
  (2, splice 8 (le_bytes 4 0x0fffffff ++ le_bytes 4 0x0fffffff ++ le_bytes 4 0x0fffffff ++ le_bytes 4 0x0fffffff) blank);
  (3, entry_at 0 (chars "A") (chars "TXT") ATTR_ARCHIVE 3 3 (entry_at 1 (chars "D") [] ATTR_DIRECTORY 4 0 blank));
  (4, splice 0 [97; 98; 99] blank);
  (5, entry_at 0 (chars "B") (chars "TXT") ATTR_ARCHIVE 5 2 blank);
  (6, splice 0 [120; 121] blank);
  (2097153, blank)].
Definition ex_fat : fs_state := set_sd (fun _ => ex_card) ex_dir.
Definition ex_info : fat32_info := FatInfo 1 2 3 1 1 1 0.
Definition ex_mbr : list Z := default [] (ex_card !! 0).
Definition ex_sector : list Z := take 90 (default [] (ex_card !! 1)).

Lemma ex_fat_ok : fs_ok ex_fat.
Proof.
  apply (same_tree_fs_ok ex_dir); [|exact ex_dir_ok]. split; try done. intros k Hk.
  by destruct (ob_fresh _ (fo_objs _ ex_dir_ok) k Hk) as (_ & _ & ? & ?).
Qed.

Lemma ex_fat_card : fat_card 3 ex_fat ex_info ex_sector ex_mbr 2.
Proof.
  split.
  - apply card_okb_ok. by vm_compute.
  - by vm_compute.
  - eexists. by vm_compute.
  - by vm_compute.
  - apply card_dirb_ok. by vm_compute.
Qed.

Section Example.
Let ops : Ops := kernel_ops 3 (replicate 32 0).
#[local] Existing Instance ops | 0.


Lemma fat32_file_spec_witness :
  exists s1 s2 s3 g, vfs_mount (cstr "/a") (cstr "fat32") ex_fat = Ok (1, s1) /\ fs_ok s1 /\
    vfs_open (cstr "/a/D/B.TXT") 0 s1 = Ok (Some g, s2) /\ vfs_read g [0; 0; 9] 3 s2 = Ok (2, [120; 121; 9], s3).
Proof.
  pose proof (fat32_file_spec 3 (replicate 32 0) ex_fat ex_info ex_sector ex_mbr 2 (cstr "/a") (chars "/a") [] (chars "a")
    (cstr "fat32") 2 5 (Vnode 0 Tmpfs Tmpfs 6) [chars "D"; chars "B.TXT"]
    (SfnEntry (chars "B       ") (chars "TXT") ATTR_ARCHIVE 0 5 2) (splice 0 [120; 121] blank)
    (cstr "/a/D/B.TXT") (chars "/a/D/B.TXT") (chars "/a/D") (chars "B.TXT") 0 [0; 0; 9] 3 ex_fat_ok ex_fat_card) as H.
  apply H; clear H; try done.
  - apply cstr_holds. by repeat constructor.
  - split; [done|by repeat constructor|cbn; lia].
  - apply cstr_holds. by repeat constructor.
  - apply cstr_holds. by repeat constructor.
  - split; [done|by repeat constructor|cbn; lia].
Defined.
End Example.

(** The mounted file A.TXT, opened twice. *)
Definition ex_sd : gmap Z (list Z) := {[4 := splice 0 [97; 98; 99] blank]}.
Definition ex_node : inode := Inode FSNODE_TYPE_FILE (chars "A.TXT" ++ replicate 11 0) (replicate 16 0) (7, 0) 3.
Definition ex_open : fs_state :=
  FsState {[5 := Vnode 0 Fat32 Fat32 6]} {[6 := ex_node]} {[6 := FatNode 3 4]} ∅
    (<[8 := File 5 1 Fat32 None]> {[9 := File 5 0 Fat32 None]}) {[7 := Some <$> splice 0 [97; 98; 99] blank]} 10
    [Some Tmpfs; Some Initramfs; Some Fat32; None; None; None; None; None] 1 (0, 0) ex_info [] [] ex_sd.

Lemma ex_open_ok : objs_ok ex_open.
Proof.
  split.
  - cbn. lia.
  - intros k v Hv. cbn in Hv. apply lookup_singleton_Some in Hv as [<- <-]. cbn. split; [lia|]. split; [lia|]. exists ex_node. split; [done|].
    split; cbn; [split; [by repeat constructor|by exists (replicate 10 0)]|done|by exists 16%nat|done|]. intros c Hc. by apply elem_of_nil in Hc.
  - intros k k' v v' Hv Hv' _. cbn in Hv, Hv'. apply lookup_singleton_Some in Hv as [<- _], Hv' as [<- _]. done.
  - intros k v Hv Hm. cbn in Hv. by apply lookup_singleton_Some in Hv as [<- <-].
  - intros k Hk. cbn in *. rewrite !lookup_singleton_ne, lookup_insert_ne, lookup_singleton_ne by lia. by rewrite lookup_empty.
Qed.

Section Roundtrip.
Let ops : Ops := kernel_ops 3 (replicate 32 0).
#[local] Existing Instance ops | 0.
Lemma fat_file_roundtrip_witness :
  exists s1 s2 b', vfs_write 8 [120; 121; 122] 3 ex_open = Ok (3, s1) /\ sd s1 = <[4 := b']> ex_sd /\
    take 4 b' = [97; 120; 121; 122] /\
    vfs_read 9 (replicate 512 0) 512 s1 = Ok (4, [97; 120; 121; 122] ++ replicate 508 0, s2).
Proof.
  destruct (fat_file_roundtrip 3 (replicate 32 0) ex_open 8 9 5 1 4 7 None None ex_node (splice 0 [97; 98; 99] blank) [120; 121; 122] 3
    (replicate 512 0) ex_open_ok ltac:(done) ltac:(done) ltac:(done) eq_refl eq_refl) as (s1 & s2 & b' & E1 & E2 & E3 & _ & _ & E4).
  - split; [exists 0, 3, 6|..]; done.
  - cbn. lia.
  - cbn. lia.
  - lia.
  - rewrite length_replicate. lia.
  - exists s1, s2, b'. split; [exact E1|]. split; [exact E2|]. split; [exact E3|exact E4].
Defined.
End Roundtrip.
