(* ===== verification/InitramfsSpec.v ===== *)
(** What [initramfs_init] makes of a cpio archive. *)
From Stdlib Require Import Ascii String.
From S2P Require Import Prelude CString FsData Vfs Tmpfs Initramfs FsInv VfsSpec VfsMount FsNodes TmpfsSpec.
From S2P Require Import FileSystems FsTree FileOps FsSpec.

(** * One file *)

(** The inode of a file of the archive: its data are the bytes of the archive. *)
Definition file_inode_of (nm : list Z) (buf : ptr) (ns fs : Z) : inode :=
  Inode FSNODE_TYPE_FILE nm (replicate 16 0) (buf.1, buf.2 + data_offset ns) (u64 fs).

(** The state after the file was put in the directory [d]. *)
Definition with_file (s : fs_state) (v : vnode) (i : inode) (nm : list Z) (buf : ptr) (ns fs : Z) : fs_state :=
  attach (new_node s Initramfs 0 (file_inode_of nm buf ns fs) (replicate 4096 None)) (internal v) i (next_key s).

Section AddFile.
Variables (s : fs_state) (d : Z) (v : vnode) (i : inode) (buf : ptr) (l nm : list Z) (ns fs : Z).
Hypotheses (Hs : objs_ok s) (Hd : vnodes s !! d = Some v) (Hi : inodes s !! internal v = Some i)
  (Hn : holds (drop 110 l) nm) (Hl : (length nm < 16)%nat) (Hroom : (length (children s d) < 16)%nat).
Let k := next_key s.
Let buffer := nm ++ 0 :: drop (S (length nm)) (replicate 16 0).

Lemma with_file_fresh : fresh_inode (file_inode_of buffer buf ns fs).
Proof using Hn Hl.
  clear Hroom k. assert (Hh : holds buffer nm) by (apply holds_self; apply Hn).
  split; cbn [i_name file_inode_of]; [by rewrite (upto0_holds _ _ Hh)| |done].
  unfold buffer. rewrite length_app. cbn [length]. rewrite length_drop, length_replicate. lia.
Qed.

Lemma add_file_ok :
  add_file (internal v) buf l ns fs (Z.of_nat (length (children s d))) s =
    Ok (tt, with_file s v i buffer buf ns fs).
Proof using Hs Hd Hi Hn Hl Hroom.
  pose proof (ob_next s Hs) as Hk. destruct (ob_vnode s Hs d v Hd) as (Hdk & Hik & i' & Hi' & Hiok).
  rewrite Hi in Hi'. injection Hi' as <-.
  assert (Ec : children s d = upto0 (childs i)) by (unfold children, node_inode; rewrite Hd; cbn; by rewrite Hi).
  unfold add_file, initramfs_create_vnode. run (create_vnode_ok Initramfs DEFAULT_INODE_SIZE None 0 FSNODE_TYPE_FILE s).
  fold k. set (j0 := Inode FSNODE_TYPE_FILE (replicate 16 0) (replicate 16 0) (k + 2, 0) 0).
  set (s1 := new_node s Initramfs 0 j0 _).
  assert (Hs1 : objs_ok s1).
  { apply new_node_ok; [done|apply empty_fresh]. }
  assert (Hk1 : vnodes s1 !! k = Some (Vnode 0 Initramfs Initramfs (k + 1))) by (cbn; by rewrite lookup_insert_eq).
  assert (Hj1 : inodes s1 !! (k + 1) = Some j0) by (cbn; by rewrite lookup_insert_eq).
  run (inode_of_ok s1 Hs1 k j0 ltac:(unfold node_inode; rewrite Hk1; exact Hj1)).
  run (pure_op_ok _ s1 _ (strcpy_ok (i_name j0) _ nm Hn Hl)).
  run (upd_inode_ok s1 k _ j0 (fun j => Inode (i_type j) (nm ++ 0 :: drop (S (length nm)) (i_name j0)) (childs j)
    (buf.1, buf.2 + data_offset ns) (u64 fs)) Hs1 Hk1 Hj1).
  cbn [internal]. match goal with |- mbind _ _ ?x = _ => set (s2 := x) end.
  assert (Hi2 : inodes s2 !! internal v = Some i).
  { cbn. rewrite !lookup_insert_ne by (fold k; lia). done. }
  run (deref_ok inodes (internal v) s2 i ltac:(lia) Hi2).
  assert (El : length (childs i) = 16%nat) by apply Hiok. rewrite Ec in *.
  run (lift_opt_ok OutOfBounds _ s2 _ (zset_ok (childs i) (Z.of_nat (length (upto0 (childs i)))) k ltac:(lia))).
  rewrite Nat2Z.id. unfold modify. f_equal. f_equal.
  unfold with_file, attach, s2, s1, new_node, set_inodes, with_child. cbn. f_equal. f_equal. by rewrite insert_insert_eq.
Qed.

(** The directory after it, and what it leaves alone. *)
Lemma with_file_facts : let s' := with_file s v i buffer buf ns fs in
  objs_ok s' /\ children s' d = children s d ++ [k] /\
  vnodes s' !! k = Some (Vnode 0 Initramfs Initramfs (k + 1)) /\
  inodes s' !! (k + 1) = Some (file_inode_of buffer buf ns fs) /\
  (forall x, is_Some (vnodes s !! x) -> x <> d -> node_inode s' x = node_inode s x) /\
  (forall x, is_Some (vnodes s !! x) -> vnodes s' !! x = vnodes s !! x) /\
  (forall x, x < next_key s -> x <> internal v -> inodes s' !! x = inodes s !! x) /\
  blocks s' = <[k + 2 := replicate 4096 None]> (blocks s).
Proof using Hs Hd Hi Hn Hl Hroom.
  pose proof (ob_next s Hs) as Hk. destruct (ob_vnode s Hs d v Hd) as (Hdk & Hik & i' & Hi' & Hiok).
  set (j := file_inode_of buffer buf ns fs). set (s1 := new_node s Initramfs 0 j (replicate 4096 None)).
  pose proof (new_node_ok s Initramfs j (replicate 4096 None) Hs with_file_fresh) as Hs1. fold s1 in Hs1.
  pose proof (new_node_grows s Initramfs j (replicate 4096 None) Hs) as Hg. fold s1 in Hg.
  pose proof (grows_vnode s s1 Hg d v Hd) as Hd1.
  assert (Hi1 : inodes s1 !! internal v = Some i) by (cbn; rewrite lookup_insert_ne; [done|fold k; lia]).
  assert (Hk1 : is_Some (vnodes s1 !! k)) by (cbn; rewrite lookup_insert_eq; by eexists).
  assert (Hc1 : children s1 d = children s d).
  { unfold children. by rewrite (grows_inode s s1 Hs Hg d ltac:(by eexists)). }
  assert (Hroom1 : (length (children s1 d) < 16)%nat) by (by rewrite Hc1).
  change (with_file s v i buffer buf ns fs) with (attach s1 (internal v) i k). cbv zeta.
  split_and!.
  - apply (attach_ok s1 d v i k); (done || (fold k in Hdk; lia)).
  - rewrite (attach_children s1 d v i k Hs1 Hd1 Hi1 Hroom1 ltac:(fold k in Hdk; lia) d ltac:(by eexists)), Hc1.
    by rewrite decide_True.
  - cbn. by rewrite lookup_insert_eq.
  - cbn. rewrite lookup_insert_ne by (fold k in Hik; lia). by rewrite lookup_insert_eq.
  - intros x Hx Hne. destruct (vnode_inode s Hs x Hx) as (jx & Hjx & _).
    rewrite (attach_node s1 d v i k Hs1 Hd1 Hi1 x jx).
    + by rewrite decide_False.
    + destruct Hx as [w Hw]. exists w. by apply (grows_vnode s s1 Hg).
    + by rewrite (grows_inode s s1 Hs Hg x Hx).
  - intros x Hx. exact (new_node_vnode s Initramfs j (replicate 4096 None) Hs x Hx).
  - intros x Hx Hne. cbn. rewrite lookup_insert_ne by done. rewrite lookup_insert_ne; [done|lia].
  - done.
Qed.

End AddFile.

(** * Archives *)

(** A file of an archive, with the header fields the kernel does not look at and the
    bytes that fill up the name and the data to multiples of 4. *)
Record entry := Entry {
  e_name : list Z;
  e_data : list Z;
  e_ids : list Z;
  e_devs : list Z;
  e_check : list Z;
  e_pad1 : list Z;
  e_pad2 : list Z
}.

Definition header (e : entry) : list Z :=
  chars "070701" ++ e_ids e ++ hex_string true 8 (Z.of_nat (length (e_data e))) ++ e_devs e
    ++ hex_string true 8 (Z.of_nat (length (e_name e)) + 1) ++ e_check e.
Definition encode (e : entry) : list Z :=
  header e ++ e_name e ++ 0 :: e_pad1 e ++ e_data e ++ e_pad2 e.

Record entry_ok (e : entry) : Prop := {
  en_ids : length (e_ids e) = 48%nat;
  en_devs : length (e_devs e) = 32%nat;
  en_check : length (e_check e) = 8%nat;
  en_name : nonzero (e_name e);
  en_short : (length (e_name e) < 16)%nat;
  en_trailer : take 9 (e_name e) <> chars "TRAILER!!";
  en_size : Z.of_nat (length (e_data e)) < 2 ^ 31 - 4;
  en_pad1 : (length (e_pad1 e) < 4)%nat /\ (4 | 111 + Z.of_nat (length (e_name e)) + Z.of_nat (length (e_pad1 e)));
  en_pad2 : (length (e_pad2 e) < 4)%nat /\ (4 | Z.of_nat (length (e_data e)) + Z.of_nat (length (e_pad2 e)))
}.

(** The record that ends an archive. *)
Definition trailer (l : list Z) : Prop :=
  (119 <= length l)%nat /\ take 6 l = chars "070701" /\ take 9 (drop 110 l) = chars "TRAILER!!".

Lemma align4 x p : 0 <= x -> 0 <= p < 4 -> (4 | x + p) -> Z.land (x + 4 - 1) (Z.lnot (4 - 1)) = x + p.
Proof.
  intros Hx Hp [q Hq]. change 4 with (2 ^ 2). rewrite land_lnot_ones by lia. change (2 ^ 2) with 4.
  replace (x + 4 - 1) with (q * 4 + (3 - p)) by lia. rewrite Z.div_add_l, (Z.div_small (3 - p)) by lia. lia.
Qed.

Section Entry.
Variables (e : entry) (tl : list Z).
Hypotheses (He : entry_ok e) (Htl : (9 <= length tl)%nat).
Let l := encode e ++ tl.
Let ns := Z.of_nat (length (e_name e)) + 1.
Let fs := Z.of_nat (length (e_data e)) + Z.of_nat (length (e_pad2 e)).

Lemma header_length : length (header e) = 110%nat.
Proof using He.
  unfold header. rewrite !length_app, !hex_string_length, (en_ids e He), (en_devs e He), (en_check e He). done.
Qed.

Lemma entry_cpio : is_cpio l = Ok true.
Proof using Type. reflexivity. Qed.

Lemma entry_tail : drop 110 l = e_name e ++ 0 :: e_pad1 e ++ e_data e ++ e_pad2 e ++ tl.
Proof using He.
  unfold l, encode. rewrite <-!app_assoc. rewrite drop_app_length' by (by rewrite header_length).
  cbn. by rewrite <-!app_assoc.
Qed.

Lemma entry_holds : holds (drop 110 l) (e_name e).
Proof using He. rewrite entry_tail. apply holds_self, (en_name e He). Qed.

Lemma entry_not_trailer : not_trailer l = Ok true.
Proof using He Htl.
  unfold not_trailer. rewrite entry_tail. set (r := e_pad1 e ++ e_data e ++ e_pad2 e ++ tl).
  assert (Hr : (9 <= length (e_name e ++ 0%Z :: r))%nat) by (rewrite length_app; cbn; unfold r; rewrite !length_app; lia).
  destruct (memcmp_ok (e_name e ++ 0 :: r) (chars "TRAILER!!") 9 Hr ltac:(cbn; lia)) as (d & E & Hd).
  rewrite E, res_bind_ok. f_equal. apply negb_true_iff, Z.eqb_neq. intros E0. apply Hd in E0.
  apply (en_trailer e He). destruct (decide (9 <= length (e_name e))%nat) as [Hl|Hl].
  - by rewrite take_app_le in E0.
  - exfalso. assert (E1 : (take 9 (e_name e ++ 0 :: r)) !! length (e_name e) = Some 0).
    { rewrite lookup_take_lt by lia. by apply list_lookup_middle. }
    rewrite E0 in E1. cbn in E1. apply list_elem_of_lookup_2 in E1.
    cbn in E1. repeat (apply elem_of_cons in E1 as [E1|E1]; [done|]). by apply elem_of_nil in E1.
Qed.

Lemma entry_sizes : cpio_sizes l = Ok (ns, fs).
Proof using He.
  clear Htl.
  unfold cpio_sizes, namesize, filesize.
  assert (E1 : drop 94 l = hex_string true 8 ns ++ e_check e ++ e_name e ++ 0 :: e_pad1 e ++ e_data e ++ e_pad2 e ++ tl).
  { unfold l, encode, header. rewrite <-!app_assoc.
    rewrite drop_app_ge by (cbn; lia). change (length (chars "070701")) with 6%nat.
    rewrite drop_app_ge by (rewrite (en_ids e He); lia). rewrite (en_ids e He).
    rewrite drop_app_ge by (rewrite hex_string_length; lia). rewrite hex_string_length.
    rewrite drop_app_ge by (rewrite (en_devs e He); lia). rewrite (en_devs e He). cbn [Nat.sub]. rewrite drop_0. cbn [app]. by rewrite <-!app_assoc. }
  assert (E2 : exists r, drop 54 l = hex_string true 8 (Z.of_nat (length (e_data e))) ++ r).
  { unfold l, encode, header. rewrite <-!app_assoc.
    rewrite drop_app_ge by (cbn; lia). change (length (chars "070701")) with 6%nat.
    rewrite drop_app_ge by (rewrite (en_ids e He); lia). rewrite (en_ids e He). cbn [Nat.sub]. rewrite drop_0.
    by eexists. }
  destruct E2 as [r E2]. rewrite E1, E2. pose proof (en_short e He). pose proof (en_size e He).
  pose proof (en_pad2 e He) as [Hp Hq]. unfold hex2bin. change (Z.to_nat 8) with 8%nat.
  rewrite (hex2bin_string true 8 ns) by (unfold ns; cbn; lia). cbn [mbind res_bind].
  rewrite (hex2bin_string true 8 (Z.of_nat (length (e_data e)))) by (cbn; lia). cbn [mbind res_bind].
  do 2 f_equal. unfold ALIGN_int. rewrite (align4 _ (Z.of_nat (length (e_pad2 e)))) by (done || lia).
  unfold fs. rewrite s32_small by lia. done.
Qed.

Lemma entry_offset : data_offset ns = 111 + Z.of_nat (length (e_name e)) + Z.of_nat (length (e_pad1 e)).
Proof using He.
  clear Htl.
  pose proof (en_short e He). pose proof (en_pad1 e He) as [Hp Hq]. unfold data_offset, ALIGN, CPIO_SIZE.
  rewrite (u64_small (110 + ns)) by (unfold ns; lia).
  rewrite (align4 (110 + ns) (Z.of_nat (length (e_pad1 e)))); [|unfold ns; lia|lia|].
  - rewrite u64_small by (unfold ns; lia). rewrite s64_small by (unfold ns; lia). unfold ns. lia.
  - unfold ns. replace (110 + (Z.of_nat (length (e_name e)) + 1)) with (111 + Z.of_nat (length (e_name e))) by lia. done.
Qed.

Lemma entry_step : cpio_step ns fs = Z.of_nat (length (encode e)).
Proof using He.
  clear Htl.
  pose proof (en_short e He). pose proof (en_size e He). pose proof (en_pad1 e He) as [? _]. pose proof (en_pad2 e He) as [? _].
  unfold cpio_step. rewrite entry_offset, s64_small by (unfold fs; lia).
  unfold encode. rewrite length_app, header_length, length_app. cbn [length]. rewrite !length_app. unfold fs. lia.
Qed.
End Entry.

(** * The whole archive *)

(** The node [c] is the file [e] of the archive in the block [blk]; the bytes that fill
    up the data count as data. *)
Definition holds_file (s : fs_state) (blk : Z) (arch : list Z) (c : Z) (e : entry) : Prop :=
  exists k j, vnodes s !! c = Some (Vnode 0 Initramfs Initramfs k) /\ inodes s !! k = Some j /\ i_type j = FSNODE_TYPE_FILE /\ upto0 (i_name j) = e_name e /\
    (data j).1 = blk /\ 0 <= (data j).2 <= Z.of_nat (length arch) /\ data_size j = Z.of_nat (length (e_data e) + length (e_pad2 e)) /\
    take (Z.to_nat (data_size j)) (drop (Z.to_nat (data j).2) arch) = e_data e ++ e_pad2 e.

Lemma holds_file_kept s s' blk arch x e : vnodes s' !! x = vnodes s !! x -> node_inode s' x = node_inode s x ->
  holds_file s blk arch x e -> holds_file s' blk arch x e.
Proof.
  unfold node_inode. intros Ev En (k & j & Hk & Hj & Hrest). exists k, j. rewrite Ev, Hk in *. cbn in En. by rewrite En.
Qed.

Lemma Forall2_weaken_l {A B} (P Q : A -> B -> Prop) l k :
  (forall x y, x ∈ l -> P x y -> Q x y) -> Forall2 P l k -> Forall2 Q l k.
Proof.
  intros HPQ H. induction H as [|x y l k Hx _ IH]; [done|]. constructor; [apply HPQ; [by left|done]|].
  apply IH. intros a b Ha. apply HPQ. by right.
Qed.

(** A directory entry of the archive has no data, and is passed over. *)
Definition is_file (e : entry) : bool := negb (bool_decide (e_data e ++ e_pad2 e = [])).
Definition files_of (es : list entry) : list entry := List.filter is_file es.

(** What the loop leaves alone, [d] being the directory. *)
Record frame (s s' : fs_state) (d : Z) (v : vnode) : Prop := {
  fr_vnodes : forall x, is_Some (vnodes s !! x) -> vnodes s' !! x = vnodes s !! x;
  fr_nodes : forall x, is_Some (vnodes s !! x) -> x <> d -> node_inode s' x = node_inode s x;
  fr_inodes : forall x, x < next_key s -> x <> internal v -> inodes s' !! x = inodes s !! x;
  fr_next : next_key s <= next_key s';
  fr_blocks : blocks s ⊆ blocks s';
  fr_rest : mounts s' = mounts s /\ files s' = files s /\ filesystems s' = filesystems s /\
    rootfs s' = rootfs s /\ cpio_base s' = cpio_base s /\ sd s' = sd s
}.

Lemma frame_refl s d v : frame s s d v.
Proof. by split. Qed.

Lemma frame_trans s s1 s2 d v : frame s s1 d v -> frame s1 s2 d v -> frame s s2 d v.
Proof.
  intros [A1 A2 A3 A4 A5 A6] [B1 B2 B3 B4 B5 B6]. split.
  - intros x Hx. rewrite B1; [by apply A1|]. by rewrite A1.
  - intros x Hx Hne. rewrite B2; [by apply A2| |done]. by rewrite A1.
  - intros x Hx Hne. rewrite B3; [by apply A3|lia|done].
  - lia.
  - by etrans.
  - destruct A6 as (? & ? & ? & ? & ? & ?), B6 as (? & ? & ? & ? & ? & ?). split_and!; congruence.
Qed.

Lemma bytes_from_ok s blk o arch :
  blk <> 0 -> blocks s !! blk = Some (Some <$> arch) -> 0 <= o <= Z.of_nat (length arch) ->
  bytes_from (blk, o) s = Ok (drop (Z.to_nat o) arch, s).
Proof.
  intros Hb E Ho. unfold bytes_from, read_block. cbn [fst snd].
  rewrite (bind_ok _ _ s (drop (Z.to_nat o) (Some <$> arch)) s).
  - unfold mret, M_ret. by rewrite <-fmap_drop, written_some.
  - run (deref_ok blocks blk s _ Hb E). rewrite length_fmap. by repeat zcase; try lia.
Qed.

(** One file, in the middle of the archive. *)
Lemma holds_file_at s c k blk arch e pre tl :
  entry_ok e -> arch = pre ++ encode e ++ tl -> vnodes s !! c = Some (Vnode 0 Initramfs Initramfs k) ->
  inodes s !! k = Some (file_inode_of (e_name e ++ 0 :: drop (S (length (e_name e))) (replicate 16 0))
    (blk, Z.of_nat (length pre)) (Z.of_nat (length (e_name e)) + 1)
    (Z.of_nat (length (e_data e)) + Z.of_nat (length (e_pad2 e)))) ->
  holds_file s blk arch c e.
Proof.
  intros He Ea Hv Hn. pose proof (en_size e He). pose proof (en_pad2 e He) as [? _]. pose proof (en_pad1 e He) as [? _].
  eexists k, _. split; [exact Hv|]. split; [exact Hn|]. cbn [i_type i_name data data_size file_inode_of fst snd].
  split; [done|]. split; [apply upto0_holds, holds_self, (en_name e He)|]. split; [done|].
  rewrite u64_small by lia. rewrite (entry_offset e He). split.
  { subst arch. unfold encode. rewrite !length_app, (header_length e He). cbn [length]. rewrite !length_app. lia. }
  split; [lia|]. subst arch.
  replace (Z.to_nat (Z.of_nat (length pre) + (111 + Z.of_nat (length (e_name e)) + Z.of_nat (length (e_pad1 e)))))
    with (length pre + (110 + (length (e_name e) + S (length (e_pad1 e)))))%nat by lia.
  rewrite drop_app_add'; [|done]. rewrite <-drop_drop, (entry_tail e tl He).
  replace (e_name e ++ 0 :: e_pad1 e ++ e_data e ++ e_pad2 e ++ tl)
    with ((e_name e ++ 0 :: e_pad1 e) ++ (e_data e ++ e_pad2 e) ++ tl) by (by rewrite <-!app_assoc).
  rewrite drop_app_length' by (rewrite length_app; cbn; lia).
  rewrite take_app_length'; [done|]. rewrite length_app. lia.
Qed.

Section Archive.
Variables (blk : Z) (arch tr : list Z) (d : Z) (v : vnode).
Hypotheses (Hblk : blk <> 0) (Htr : trailer tr).

Lemma trailer_stops : is_cpio tr = Ok true /\ not_trailer tr = Ok false.
Proof using Htr.
  destruct Htr as (Hl & E6 & E9).
  destruct (memcmp_ok tr (chars "070701") 6 ltac:(lia) ltac:(cbn; lia)) as (x & Ex & Hx).
  destruct (memcmp_ok (drop 110 tr) (chars "TRAILER!!") 9 ltac:(rewrite length_drop; lia) ltac:(cbn; lia)) as (y & Ey & Hy).
  unfold is_cpio, not_trailer. rewrite Ex, Ey. cbn [mbind res_bind].
  rewrite (proj2 (Z.eqb_eq x 0)) by (by apply Hx). by rewrite (proj2 (Z.eqb_eq y 0)) by (by apply Hy).
Qed.

Lemma initramfs_loop_ok es : forall fuel pre s i,
  (length es < fuel)%nat -> Forall entry_ok es -> arch = pre ++ flat_map encode es ++ tr ->
  objs_ok s -> blocks s !! blk = Some (Some <$> arch) ->
  vnodes s !! d = Some v -> inodes s !! internal v = Some i ->
  (length (children s d) + length (files_of es) <= 16)%nat ->
  exists s', initramfs_init_loop fuel (internal v) (blk, Z.of_nat (length pre)) (Z.of_nat (length (children s d))) s = Ok (tt, s') /\
    objs_ok s' /\ frame s s' d v /\ exists cs, children s' d = children s d ++ cs /\
      Forall2 (holds_file s' blk arch) cs (files_of es).
Proof using Hblk Htr.
  induction es as [|e es IH]; intros [|fuel] pre s i Hf Hes Ea Hs Hb Hd Hi Hroom; try (cbn in Hf; lia); cbn [initramfs_init_loop].
  - cbn in Ea. run (bytes_from_ok s blk (Z.of_nat (length pre)) arch Hblk Hb ltac:(subst arch; rewrite length_app; lia)).
    rewrite Nat2Z.id. subst arch. rewrite drop_app_length. destruct trailer_stops as [E1 E2].
    run (pure_op_ok _ s _ E1). cbn [negb]. run (pure_op_ok _ s _ E2). exists s. split_and!; [done|done|apply frame_refl|].
    exists []. by rewrite app_nil_r.
  - apply Forall_cons in Hes as [He Hes].
    assert (Htl : (9 <= length (flat_map encode es ++ tr))%nat) by (destruct Htr; rewrite length_app; lia).
    assert (Ea' : arch = pre ++ encode e ++ (flat_map encode es ++ tr)) by (rewrite Ea; cbn; by rewrite <-!app_assoc).
    run (bytes_from_ok s blk (Z.of_nat (length pre)) arch Hblk Hb ltac:(rewrite Ea'; rewrite length_app; lia)).
    set (l := encode e ++ flat_map encode es ++ tr).
    assert (Edrop : drop (length pre) arch = l) by (rewrite Ea'; apply drop_app_length).
    rewrite Nat2Z.id, Edrop.
    run (pure_op_ok _ s _ (entry_cpio e (flat_map encode es ++ tr))). cbn [negb].
    run (pure_op_ok _ s _ (entry_not_trailer e _ He Htl)). cbn [negb].
    run (pure_op_ok _ s _ (entry_sizes e (flat_map encode es ++ tr) He)). cbn [fst snd].
    set (ns := Z.of_nat (length (e_name e)) + 1). set (fs := Z.of_nat (length (e_data e)) + Z.of_nat (length (e_pad2 e))).
    assert (Enext : (blk, Z.of_nat (length pre) + cpio_step ns fs) = (blk, Z.of_nat (length (pre ++ encode e)))).
    { unfold ns, fs. rewrite (entry_step e He), length_app. f_equal. lia. }
    assert (Ea2 : arch = (pre ++ encode e) ++ flat_map encode es ++ tr) by (rewrite Ea'; by rewrite <-!app_assoc).
    unfold files_of in *. cbn [List.filter] in *. unfold is_file at 1 in Hroom. unfold is_file at 1.
    destruct (Z.eqb_spec fs 0) as [E0|E0].
    + assert (Enil : e_data e ++ e_pad2 e = []).
      { apply length_zero_iff_nil. rewrite length_app. unfold fs in E0. lia. }
      rewrite (bool_decide_true _ Enil) in *. cbn [negb] in *.
      rewrite (bind_ok _ (mret (Z.of_nat (length (children s d)))) s _ s eq_refl). rewrite Enext.
      apply (IH fuel (pre ++ encode e) s i); try done. cbn in Hf. lia.
    + assert (Enil : e_data e ++ e_pad2 e <> []).
      { intros E. apply (f_equal length) in E. rewrite length_app in E. unfold fs in E0. cbn in E. lia. }
      rewrite (bool_decide_false _ Enil) in *. cbn [negb length] in *.
      pose proof (add_file_ok s d v i (blk, Z.of_nat (length pre)) l (e_name e) ns fs Hs Hd Hi
        (entry_holds e _ He) (en_short e He) ltac:(lia)) as Eadd.
      pose proof (with_file_facts s d v i (blk, Z.of_nat (length pre)) l (e_name e) ns fs Hs Hd Hi
        (entry_holds e _ He) (en_short e He) ltac:(lia)) as Hfacts.
      match type of Eadd with _ = Ok (_, ?x) => set (s1 := x) in * end.
      destruct Hfacts as (Hs1 & Hc1 & Hkv1 & Hn1 & Ho1 & Hv1 & Hi1 & Hb1).
      rewrite (bind_ok _ _ s (Z.of_nat (length (children s d)) + 1) s1) by (by run Eadd). rewrite Enext.
      replace (Z.of_nat (length (children s d)) + 1) with (Z.of_nat (length (children s1 d)))
        by (rewrite Hc1, length_app; cbn; lia).
      assert (Hd1 : vnodes s1 !! d = Some v) by (rewrite Hv1; [done|by eexists]).
      assert (Hkb : blk < next_key s).
      { destruct (Z.lt_ge_cases blk (next_key s)) as [|Hge]; [done|].
        destruct (ob_fresh s Hs blk Hge) as (_ & _ & _ & F). congruence. }
      assert (Hk0 : next_key s1 = next_key s + 3) by done.
      assert (Hfr : frame s s1 d v).
      { split; try done; [lia|]. rewrite Hb1. apply insert_subseteq. apply (ob_fresh s Hs). lia. }
      destruct (ob_vnode s1 Hs1 d v Hd1) as (_ & _ & i1 & Hi1' & _).
      destruct (IH fuel (pre ++ encode e) s1 i1) as (s' & E & Hs' & Hfr' & cs & Hcs & Hall); try done.
      { cbn in Hf. lia. }
      { rewrite Hb1, lookup_insert_ne by lia. done. }
      { rewrite Hc1, length_app. cbn. lia. }
      exists s'. split_and!; [exact E|done|by eapply frame_trans|]. exists (next_key s :: cs).
      split; [rewrite Hcs, Hc1; by rewrite <-app_assoc|]. constructor; [|done].
      destruct (ob_vnode s Hs d v Hd) as (Hdk & Hik & _).
      apply (holds_file_at s' (next_key s) (next_key s + 1) blk arch e pre (flat_map encode es ++ tr) He Ea').
      * rewrite (fr_vnodes _ _ _ _ Hfr'); [exact Hkv1|by eexists].
      * rewrite (fr_inodes _ _ _ _ Hfr'); [exact Hn1|lia|lia].
Qed.

End Archive.

(** The archive the kernel was booted with: its records, at [cpio_base]. *)
Definition archive_at (s : fs_state) (blk : Z) (arch : list Z) (es : list entry) : Prop :=
  blk <> 0 /\ blocks s !! blk = Some (Some <$> arch) /\ Forall entry_ok es /\
  (length (files_of es) <= 16)%nat /\
  exists pre tr, trailer tr /\ arch = pre ++ flat_map encode es ++ tr /\ cpio_base s = (blk, Z.of_nat (length pre)).

Lemma initramfs_init_ok s blk arch es d v i :
  objs_ok s -> archive_at s blk arch es -> vnodes s !! d = Some v -> inodes s !! internal v = Some i ->
  children s d = [] ->
  exists s', initramfs_init (internal v) s = Ok (tt, s') /\ objs_ok s' /\ frame s s' d v /\
    Forall2 (holds_file s' blk arch) (children s' d) (files_of es).
Proof.
  intros Hs (Hblk & Hb & Hes & Hfiles & pre & tr & Htr & Ea & Ebase) Hd Hi Hc. unfold initramfs_init.
  run (gets_ok cpio_base s). rewrite Ebase.
  run (bytes_from_ok s blk (Z.of_nat (length pre)) arch Hblk Hb ltac:(subst arch; rewrite length_app; lia)).
  assert (Edrop : drop (length pre) arch = flat_map encode es ++ tr) by (subst arch; apply drop_app_length).
  rewrite Nat2Z.id, Edrop.
  assert (Ecpio : is_cpio (flat_map encode es ++ tr) = Ok true).
  { destruct es as [|e es]; [apply trailer_stops; apply Htr|]. cbn [flat_map]. rewrite <-app_assoc. apply entry_cpio. }
  run (pure_op_ok _ s _ Ecpio). cbn [negb].
  assert (Hlen : (length es < S (length (flat_map encode es ++ tr)))%nat).
  { clear -Hes. induction Hes as [|e es He Hes IH]; cbn [flat_map length]; [lia|]. rewrite <-app_assoc, length_app. unfold encode at 1.
    rewrite length_app, (header_length e He). lia. }
  destruct (initramfs_loop_ok blk arch tr d v Hblk Htr es _ pre s i Hlen Hes Ea Hs Hb Hd Hi ltac:(rewrite Hc; cbn; lia))
    as (s' & E & Hs' & Hfr & cs & Hcs & Hall).
  rewrite Hc in *. cbn [length app] in *. exists s'. rewrite Hcs. split_and!; [exact E|done..].
Qed.

(** The children of the directory, by name: the first file with a name is found. *)
Lemma archive_lookup s d blk arch es n :
  Forall2 (holds_file s blk arch) (children s d) es ->
  match List.find (fun e => bool_decide (e_name e = n)) es with
  | Some e => exists c, child s d n = Some c /\ holds_file s blk arch c e
  | None => child s d n = None
  end.
Proof.
  unfold child. intros H. induction H as [|c e cs es Hc Hall IH]; [done|]. cbn.
  pose proof Hc as (k & j & Hk & Hj & _ & En & _).
  assert (name_of s c = e_name e) as -> by (unfold name_of, node_inode; rewrite Hk; cbn; by rewrite Hj).
  destruct (bool_decide (e_name e = n)); [by exists c|exact IH].
Qed.

(** So is a walk of one step from it; nothing is mounted on a file. *)
Lemma archive_walk s d blk arch es n :
  Forall2 (holds_file s blk arch) (children s d) es ->
  match List.find (fun e => bool_decide (e_name e = n)) es with
  | Some e => exists x, walk s d [n] = Some x /\ holds_file s blk arch x e
  | None => walk s d [n] = None
  end.
Proof.
  intros Hall. pose proof (archive_lookup s d blk arch es n Hall) as Hx.
  destruct (List.find _ es) as [e|]; cbn; [|by rewrite Hx].
  destruct Hx as (x & Hx & Hfile). exists x. split; [|done]. rewrite Hx. cbn. f_equal.
  destruct Hfile as (k & j & Hk & _). unfold mounted. by rewrite Hk.
Qed.

(** * Mounting the archive *)

Lemma initramfs_setup_ok s m blk arch es :
  objs_ok s -> archive_at s blk arch es -> 0 < m < next_key s -> mounts s !! m = None ->
  exists s', initramfs_setup_mount Initramfs m s = Ok (1, s') /\ objs_ok s' /\ grows s s' /\
    mounts s' !! m = Some (Mount (next_key s) Initramfs) /\ is_Some (vnodes s' !! next_key s) /\ sd s' = sd s /\
    Forall2 (holds_file s' blk arch) (children s' (next_key s)) (files_of es).
Proof.
  intros Hs Harch Hm Hnone. pose proof (ob_next s Hs) as Hk. set (r := next_key s).
  unfold initramfs_setup_mount, initramfs_create_vnode.
  run (create_vnode_ok Initramfs DEFAULT_INODE_SIZE None 0 FSNODE_TYPE_DIR s). fold r.
  set (i := Inode FSNODE_TYPE_DIR (replicate 16 0) (replicate 16 0) (r + 2, 0) 0).
  set (b := replicate _ None). set (s1 := new_node s Initramfs 0 i b).
  pose proof (new_node_ok s Initramfs i b Hs (empty_fresh _ _)) as Hs1. fold s1 in Hs1.
  pose proof (new_node_grows s Initramfs i b Hs) as Hg1. fold s1 in Hg1.
  destruct (objs_mount s1 m (Mount r Initramfs) Hs1 ltac:(pose proof (gr_next s s1 Hg1); lia) Hnone) as [Hs2 Hg2].
  set (s2 := set_mounts (<[m := Mount r Initramfs]>) s1) in *. set (v := Vnode 0 Initramfs Initramfs (r + 1)).
  run (eq_refl : modify (set_mounts (<[m := Mount r Initramfs]>)) s1 = Ok (tt, s2)).
  assert (Hv : vnodes s2 !! r = Some v) by (cbn; by rewrite lookup_insert_eq).
  assert (Hi : inodes s2 !! internal v = Some i) by (cbn; by rewrite lookup_insert_eq).
  run (deref_ok vnodes r s2 v ltac:(unfold r; lia) Hv).
  assert (Hc : children s2 r = []) by (unfold children, node_inode; rewrite Hv; cbn [mbind option_bind]; by rewrite Hi).
  assert (Ha2 : archive_at s2 blk arch es).
  { destruct Harch as (Hblk & Hb & Hrest). split; [done|]. split; [|done].
    by apply (lookup_weaken (blocks s)), (gr_blocks s s1 Hg1). }
  destruct (initramfs_init_ok s2 blk arch es r v i Hs2 Ha2 Hv Hi Hc) as (s' & E & Hs' & Hfr & Hall).
  run E. exists s'. destruct (fr_rest _ _ _ _ Hfr) as (Em & Ef & Efs & Er & Eb & Esd).
  split; [done|]. split; [done|]. split; [|split; [rewrite Em; apply lookup_insert_eq|split; [|by rewrite Esd]]].
  - assert (Hsv : forall x w, vnodes s !! x = Some w -> vnodes s2 !! x = Some w).
    { intros x w Hw. by apply (grows_vnode s s1 Hg1). }
    split.
    + apply map_subseteq_spec. intros x w Hw. rewrite (fr_vnodes _ _ _ _ Hfr); [by apply Hsv|].
      exists w. by apply Hsv.
    + apply map_subseteq_spec. intros x w Hw.
      assert (x < r).
      { destruct (Z.lt_ge_cases x r) as [|Hge]; [done|]. destruct (ob_fresh s Hs x Hge) as (F & _). congruence. }
      rewrite (fr_inodes _ _ _ _ Hfr); [|cbn; fold r; lia|cbn; lia].
      by apply (lookup_weaken (inodes s)), (gr_inodes s s1 Hg1).
    + rewrite Em. etrans; [apply (gr_mounts s s1 Hg1)|apply (gr_mounts _ _ Hg2)].
    + by rewrite Ef.
    + etrans; [apply (gr_blocks s s1 Hg1)|apply (fr_blocks _ _ _ _ Hfr)].
    + pose proof (fr_next _ _ _ _ Hfr). pose proof (gr_next s s1 Hg1). cbn in *. lia.
    + by rewrite Efs.
    + by rewrite Er.
    + by rewrite Eb.
  - rewrite (fr_vnodes _ _ _ _ Hfr); by eexists.
Qed.

Section Kernel.
Variables (fuel : nat) (junk : list Z).
Let ops : Ops := kernel_ops fuel junk.
#[local] Existing Instance ops | 0.
Let laws : @FsLaws ops := kernel_laws fuel junk.
#[local] Existing Instance laws | 0.

#[export] Instance initramfs_mountable : Mountable Initramfs.
Proof.
  refine {| mount_pre := fun s => exists blk arch es, archive_at s blk arch es |}.
  intros s m r s' Hs (blk & arch & es & Ha) Hm Hnone E.
  destruct (initramfs_setup_ok s m blk arch es Hs Ha Hm Hnone) as (s1 & E1 & Ho & Hg & Em & Hv & _).
  change (initramfs_setup_mount Initramfs m s = Ok (r, s')) in E. rewrite E1 in E. injection E as <- <-.
  split; [done|]. split; [done|]. split; [done|]. exists (next_key s). split; [done|]. split; [lia|done].
Defined.

(** The mount of the archive on a directory nothing is mounted on. *)
Lemma initramfs_mount_ok s blk arch es tbuf p pre n fbuf d c v :
  fs_ok s -> archive_at s blk arch es -> holds tbuf p -> entry_path p pre n -> n <> [] -> pre <> [47] ->
  holds fbuf (chars "initramfs") -> find_fs s (chars "initramfs") = Some Initramfs ->
  walk s (root_of s) (components pre) = Some d -> child s d n = Some c -> vnodes s !! c = Some v -> v_mount v = 0 ->
  exists s' rt, vfs_mount tbuf fbuf s = Ok (1, s') /\ mounts_on s s' c rt /\ sd s' = sd s /\
    walk s' (root_of s') (components p) = Some rt /\ is_Some (vnodes s' !! rt) /\
    Forall2 (holds_file s' blk arch) (children s' rt) (files_of es).
Proof using Type.
  intros Hf Harch Ht He Hne Hpre Hfb Hfs Hd Hc Hv Hv0.
  pose proof (fo_objs s Hf) as Ho. pose proof (ob_next s Ho) as Hk. destruct (vnode_pos s Ho c ltac:(by eexists)) as [_ Hck].
  set (s0 := set_next_key (next_key s + 1) s). set (m := next_key s).
  destruct (initramfs_setup_ok s0 m blk arch es (objs_key s Ho) Harch ltac:(cbn; unfold m; lia)
    ltac:(apply (ob_fresh s Ho); unfold m; lia)) as (s1 & E1 & Ho1 & Hg1 & Em1 & Hrv & Esd & Hall).
  assert (Hpm : @mount_pre ops Initramfs initramfs_mountable s0) by (by exists blk, arch, es).
  destruct (vfs_mount_ok s Initramfs tbuf p pre n fbuf (chars "initramfs") d c v 1 s1 Hf Ht He Hne Hpre Hfb Hfs Hd Hc Hv Hv0
    Hpm E1) as (E & Hf' & Hr' & (rt & Ert & Hrt & Hwalk) & _).
  fold m in Ert. rewrite Em1 in Ert. injection Ert as <-. cbn [next_key s0 set_next_key] in *. set (rt := m + 1) in *.
  assert (Hv1 : vnodes s1 !! c = Some v) by (by apply (grows_vnode s0 s1 Hg1)).
  pose proof (grows_trans s s0 s1 (grows_key s) Hg1) as Hg. exists (mount_on s1 c (next_key s) v), rt. split; [exact E|].
  split; [by apply (mount_on_mounts s s1 c rt v Initramfs); try done; apply (grows_fs_ok s s1)|].
  split; [exact Esd|]. split; [by rewrite Hr'|]. split; [by apply mount_on_some|].
  assert (children (mount_on s1 c (next_key s) v) rt = children s1 rt) as -> by (unfold children; by rewrite mount_on_inode).
  pose proof (fun x => children_vnode s1 Ho1 rt x) as Hlt.
  apply (Forall2_weaken_l (holds_file s1 blk arch)); [|exact Hall]. intros x e Hx. destruct (Hlt x Hx).
  apply holds_file_kept; [|by rewrite mount_on_inode]. cbn. rewrite lookup_insert_ne; [done|unfold rt, m in *; lia].
Qed.

(** Reading a file of the archive from the start. *)
Lemma initramfs_read_ok s g c fl blk arch e out len :
  objs_ok s -> g <> 0 -> files s !! g = Some (File c 0 Initramfs fl) -> holds_file s blk arch c e ->
  blk <> 0 -> blocks s !! blk = Some (Some <$> arch) ->
  Z.of_nat (length (e_data e ++ e_pad2 e)) <= len < 2 ^ 31 -> len <= Z.of_nat (length out) ->
  exists s', initramfs_read g out len s =
    Ok (Z.of_nat (length (e_data e ++ e_pad2 e)), (e_data e ++ e_pad2 e) ++ drop (length (e_data e ++ e_pad2 e)) out, s').
Proof using Type.
  intros Hs Hg0 Hg (k & j & Hk & Hj & _ & _ & Hptr & Hoff & Hsz & Htake) Hblk Hb Hlen Hout.
  assert (Hni : node_inode s c = Some j) by (unfold node_inode; rewrite Hk; exact Hj).
  set (bytes := e_data e ++ e_pad2 e) in *.
  assert (Hbl : Z.of_nat (length bytes) = data_size j) by (rewrite Hsz; unfold bytes; by rewrite length_app).
  unfold initramfs_read, read_node. run (deref_ok files g s _ Hg0 Hg). cbn [f_vnode f_pos f_ops f_flags].
  run (inode_of_ok s Hs c j Hni). rewrite (u64_small (0 + len)) by lia. rewrite Z.add_0_l, Z.sub_0_r.
  assert (En : (if data_size j <? len then u64 (data_size j) else len) = data_size j).
  { zcase; [apply u64_small; lia|lia]. }
  rewrite En, Z.add_0_r, Hptr.
  rewrite (bind_ok _ _ s (bytes ++ drop (length bytes) out) s).
  - eexists. rewrite s32_small by lia. rewrite <-Hbl. reflexivity.
  - unfold copy_from, read_block. cbn [fst snd].
    rewrite (bind_ok _ _ s (drop (Z.to_nat (data j).2) (Some <$> arch)) s).
    2:{ run (deref_ok blocks blk s _ Hblk Hb). rewrite length_fmap. by repeat zcase; try lia. }
    rewrite <-fmap_drop.
    assert (Hroom : (Z.to_nat (data_size j) <= length (drop (Z.to_nat (data j).2) arch))%nat).
    { rewrite <-Hbl, Nat2Z.id. rewrite <-Htake, length_take. lia. }
    run (pure_op_ok _ s _ (memcpy_ok (Some <$> out) (Some <$> drop (Z.to_nat (data j).2) arch) (Z.to_nat (data_size j))
      ltac:(rewrite length_fmap; lia) ltac:(rewrite length_fmap; lia))).
    rewrite <-fmap_take, Htake, <-fmap_drop, <-fmap_app. replace (Z.to_nat (data_size j)) with (length bytes) by lia.
    by rewrite mapM_some.
Qed.
(** * Properties *)

(** [initramfs_init] on a well-formed archive: the directory gets one node for each
    record with data, in the order of the archive, with its name and its bytes; a name
    that occurs twice is found at its first record. *)
Theorem initramfs_init_spec s blk arch es d v i n :
  objs_ok s -> archive_at s blk arch es -> vnodes s !! d = Some v -> inodes s !! internal v = Some i ->
  children s d = [] ->
  exists s', initramfs_init (internal v) s = Ok (tt, s') /\ objs_ok s' /\
    Forall2 (holds_file s' blk arch) (children s' d) (files_of es) /\
    match List.find (fun e => bool_decide (e_name e = n)) (files_of es) with
    | Some e => exists c, child s' d n = Some c /\ holds_file s' blk arch c e
    | None => child s' d n = None
    end.
Proof using Type.
  intros Hs Ha Hv Hi Hc. destruct (initramfs_init_ok s blk arch es d v i Hs Ha Hv Hi Hc) as (s' & E & Hs' & _ & Hall).
  exists s'. split_and!; [done..|]. by apply (archive_lookup s' d blk arch).
Qed.

(** C24. A file of the archive, read through the virtual file system: once the file system
    is mounted on a directory, opening the name of a file below it and reading gives
    the bytes of its record. *)
Theorem initramfs_file_spec s blk arch es tbuf p pre n fbuf d c v e pbuf fl out len :
  fs_ok s -> archive_at s blk arch es -> holds tbuf p -> entry_path p pre n -> n <> [] -> pre <> [47] ->
  holds fbuf (chars "initramfs") -> find_fs s (chars "initramfs") = Some Initramfs ->
  walk s (root_of s) (components pre) = Some d -> child s d n = Some c -> vnodes s !! c = Some v -> v_mount v = 0 ->
  List.find (fun e' => bool_decide (e_name e' = e_name e)) (files_of es) = Some e ->
  Forall (fun x => x <> 47) (e_name e) -> e_name e <> [] -> (length (p ++ 47%Z :: e_name e) < 256)%nat ->
  holds pbuf (p ++ 47 :: e_name e) ->
  Z.of_nat (length (e_data e ++ e_pad2 e)) <= len < 2 ^ 31 -> len <= Z.of_nat (length out) ->
  exists s1 s2 s3 g, vfs_mount tbuf fbuf s = Ok (1, s1) /\ fs_ok s1 /\
    vfs_open pbuf fl s1 = Ok (Some g, s2) /\
    vfs_read g out len s2 =
      Ok (Z.of_nat (length (e_data e ++ e_pad2 e)), (e_data e ++ e_pad2 e) ++ drop (length (e_data e ++ e_pad2 e)) out, s3).
Proof using Type.
  intros Hf Harch Ht He Hne Hpre Hfb Hfs Hd Hc Hv Hv0 Hfind Hslash Hname Hlen Hp Hl Hout.
  destruct (initramfs_mount_ok s blk arch es tbuf p pre n fbuf d c v Hf Harch Ht He Hne Hpre Hfb Hfs Hd Hc Hv Hv0)
    as (s' & rt & E & Hmo & _ & Hwalk & _ & Hall). pose proof (mo_ok _ _ _ _ Hmo) as Hf'.
  pose proof (archive_walk s' rt blk arch (files_of es) (e_name e) Hall) as Hx. rewrite Hfind in Hx. destruct Hx as (x & Hw & Hfile').
  pose proof Hfile' as (k & j & Hkx & _).
  assert (Hwx : walk s' (root_of s') (components (p ++ 47 :: e_name e)) = Some x).
  { rewrite components_entry; [|done|done|].
    2:{ rewrite (ep_eq _ _ _ He). intros E'. destruct pre; [by injection E' as ->|]. injection E' as _ E'. by destruct pre. }
    rewrite walk_app, Hwalk. exact Hw. }
  destruct (vfs_open_ok s' pbuf _ p (e_name e) Hf' Hp ltac:(by split) fl) as (nb & Hnb & Eopen). rewrite Hwx in Eopen.
  pose proof (eq_trans Eopen (open_node_ok fuel junk s' x _ fl (fo_objs _ Hf') Hkx)) as Eopen2. clear Eopen.
  set (s2 := opened s' x (Vnode 0 Initramfs Initramfs k) fl) in Eopen2. set (g := next_key s') in *.
  pose proof (ob_next s' (fo_objs _ Hf')) as Hg0.
  assert (Hg : files s2 !! g = Some (File x 0 Initramfs (Some fl))) by (cbn; by rewrite lookup_insert_eq).
  assert (Ho2 : objs_ok s2) by (by apply (same_tree_ok s' s2 (opened_tree s' x _ fl (fo_objs _ Hf'))), Hf').
  destruct Harch as (Hblk & Hb & _).
  assert (Hb2 : blocks s2 !! blk = Some (Some <$> arch)) by (by apply (lookup_weaken (blocks s)), (mo_blocks _ _ _ _ Hmo)).
  destruct (initramfs_read_ok s2 g x (Some fl) blk arch e out len Ho2 ltac:(unfold g; lia) Hg Hfile' Hblk Hb2 Hl Hout) as (s3 & Eread).
  exists s', s2, s3, g. split; [exact E|]. split; [done|]. split; [exact Eopen2|].
  unfold vfs_read. run (deref_ok files g s2 _ ltac:(unfold g; lia) Hg). exact Eread.
Qed.

End Kernel.

(** * Instances *)

(** An archive with the file "h", and a kernel booted with it, with the directory "/a". *)
Definition ex_entry : entry :=
  Entry (chars "h") [1; 2; 3; 4] (replicate 48 48) (replicate 32 48) (replicate 8 48) [] [].
Definition ex_trailer : list Z := chars "070701" ++ replicate 104 48 ++ chars "TRAILER!!!" ++ [0].
Definition ex_arch : list Z := encode ex_entry ++ ex_trailer.
Definition ex_boot : fs_state :=
  ex_state (<[5 := Some <$> ex_arch]> {[4 := replicate 4096 None]}) 6 (5, 0).
Definition ex_boot_dir : fs_state := added ex_boot 2 ex_root ex_root_inode FSNODE_TYPE_DIR (chars "a").

Lemma ex_boot_ok : fs_ok ex_boot.
Proof.
  apply ex_state_ok; [lia|]. intros x Hx. rewrite lookup_insert_ne by lia. apply lookup_singleton_ne. lia.
Qed.

Lemma ex_archive s : blocks s !! 5 = Some (Some <$> ex_arch) -> cpio_base s = (5, 0) ->
  archive_at s 5 ex_arch [ex_entry].
Proof.
  intros Hb Hc. split; [done|]. split; [exact Hb|]. split.
  { constructor; [|constructor]. split; try done; cbn; try lia.
    - by repeat constructor.
    - split; [lia|]. by exists 28.
    - split; [lia|]. by exists 1. }
  split; [cbn; lia|]. exists [], ex_trailer. split; [|split; [reflexivity|exact Hc]].
  split; [|done]. apply Nat.leb_le. vm_compute. reflexivity.
Qed.

Lemma ex_boot_dir_ok : fs_ok ex_boot_dir.
Proof.
  apply (adds_fs_ok ex_boot ex_boot_dir 2 (chars "a") 6); [|apply ex_boot_ok].
  apply (added_adds ex_boot 2 ex_root ex_root_inode); [apply ex_boot_ok|reflexivity|reflexivity|by repeat constructor|cbn; lia|].
  apply Nat.ltb_lt. vm_compute. reflexivity.
Qed.

Lemma initramfs_init_spec_witness :
  exists s', initramfs_init 3 ex_boot = Ok (tt, s') /\ Forall2 (holds_file s' 5 ex_arch) (children s' 2) [ex_entry].
Proof.
  destruct (initramfs_init_spec ex_boot 5 ex_arch [ex_entry] 2 ex_root ex_root_inode (chars "h")
    (fo_objs _ ex_boot_ok) (ex_archive ex_boot eq_refl eq_refl) eq_refl eq_refl eq_refl) as (s' & E & _ & Hall & _).
  exists s'. split; [exact E|exact Hall].
Defined.

Section Example.
Let ops : Ops := kernel_ops 4 (replicate 32 0).
#[local] Existing Instance ops | 0.

Lemma initramfs_file_spec_witness :
  exists s1 s2 s3 g, vfs_mount (cstr "/a") (cstr "initramfs") ex_boot_dir = Ok (1, s1) /\ fs_ok s1 /\
    vfs_open (cstr "/a/h") 0 s1 = Ok (Some g, s2) /\ vfs_read g [0; 0; 0; 0; 9] 5 s2 = Ok (4, [1; 2; 3; 4; 9], s3).
Proof.
  apply (initramfs_file_spec 4 (replicate 32 0) ex_boot_dir 5 ex_arch [ex_entry] (cstr "/a") (chars "/a") [] (chars "a")
    (cstr "initramfs") 2 6 (Vnode 0 Tmpfs Tmpfs 7) ex_entry (cstr "/a/h") 0 [0; 0; 0; 0; 9] 5); try done.
  - exact ex_boot_dir_ok.
  - apply ex_archive; reflexivity.
  - apply cstr_holds. by repeat constructor.
  - split; [done|by repeat constructor|cbn; lia].
  - apply cstr_holds. by repeat constructor.
  - by repeat constructor.
  - cbn. lia.
  - apply cstr_holds. by repeat constructor.
Defined.
End Example.
