(* ===== verification/RootFs.v ===== *)
(** The file systems at the end of [rootfs_init]: a file system in memory as the root, the
    archive on /initramfs and the card on /boot. *)
From Stdlib Require Import Ascii String.
From S2P Require Import Prelude CString FsData Vfs Tmpfs Initramfs Fat32 FsInv VfsSpec VfsMount FsNodes TmpfsSpec.
From S2P Require Import FileSystems FsTree FileOps FsSpec FatSpec FatMount FatFile InitramfsSpec.

(** * A directory of the root *)

(** The root [r] is a directory in memory with the entries [l]. *)
Record root_dir (s : fs_state) (r : Z) (l : list Z) : Prop := {
  rd_ok : fs_ok s;
  rd_root : root_of s = r;
  rd_node : exists v i, vnodes s !! r = Some v /\ v_ops v = Tmpfs /\ inodes s !! internal v = Some i /\ i_type i = FSNODE_TYPE_DIR;
  rd_children : children s r = l
}.

(** [s'] is [s] with the new directory [k] in [r], with the name [n]. *)
Record new_dir (s s' : fs_state) (r : Z) (n : list Z) (k : Z) : Prop := {
  nd_adds : adds s s' r n k;
  nd_node : exists v, vnodes s' !! k = Some v /\ v_mount v = 0;
  nd_inode : forall x, is_Some (vnodes s !! x) -> x <> r -> node_inode s' x = node_inode s x;
  nd_blocks : blocks s ⊆ blocks s';
  nd_rest : sd s' = sd s /\ cpio_base s' = cpio_base s
}.

(** The state when the kernel starts the file systems. *)
Record at_boot (s : fs_state) : Prop := {
  bt_vnodes : vnodes s = ∅;
  bt_inodes : inodes s = ∅;
  bt_mounts : mounts s = ∅;
  bt_files : files s = ∅;
  bt_next : 0 < next_key s;
  bt_blocks : forall k, next_key s <= k -> blocks s !! k = None;
  bt_filesystems : filesystems s = replicate 8 None
}.

Definition registered : list (option fs_type) :=
  [Some Tmpfs; Some Initramfs; Some Fat32; None; None; None; None; None].

Lemma boot_objs s : at_boot s -> objs_ok s.
Proof.
  intros [Hv Hi Hm Hf Hn Hb _]. split; [done| | | |]; rewrite ?Hv, ?Hi, ?Hm, ?Hf.
  - intros k v. by rewrite lookup_empty.
  - intros k k' v v'. by rewrite lookup_empty.
  - intros k v. by rewrite lookup_empty.
  - intros k Hk. rewrite !lookup_empty. by rewrite (Hb k Hk).
Qed.

(** A mount on a directory of the root keeps the root. *)
Lemma mounts_root s s' r l c rt : root_dir s r l -> c <> r -> mounts_on s s' c rt -> root_dir s' r l.
Proof.
  intros [Hf Hr (v & i & Hv & Ho & Hi & Ht) Hl] Hc Hmo. split.
  - apply Hmo.
  - by rewrite (mo_root _ _ _ _ Hmo).
  - exists v, i. rewrite (mo_vnode _ _ _ _ Hmo) by (done || by eexists). split_and!; try done.
    by apply (lookup_weaken (inodes s)), Hmo.
  - unfold children. rewrite (mo_node _ _ _ _ Hmo) by by eexists. exact Hl.
Qed.

Lemma mounts_mounted s s' c rt x : objs_ok s -> mounts_on s s' c rt -> is_Some (vnodes s !! x) -> x <> c -> mounted s' x = mounted s x.
Proof.
  intros Hs Hmo [v Hv] Hx. unfold mounted. rewrite (mo_vnode _ _ _ _ Hmo), Hv by (done || by eexists).
  destruct (Z.eqb_spec (v_mount v) 0); [done|]. destruct (ob_mount s Hs x v Hv n) as (_ & m & Em & _).
  by rewrite Em, (lookup_weaken _ (mounts s') _ _ Em (mo_mounts _ _ _ _ Hmo)).
Qed.

Section Kernel.
Variables (fuel : nat) (junk : list Z).
#[local] Existing Instance kernel_ops.
#[local] Existing Instance kernel_laws.
Let ops : Ops := kernel_ops fuel junk.
#[local] Existing Instance ops | 0.
Let laws : @FsLaws ops := kernel_laws fuel junk.
#[local] Existing Instance laws | 0.

Lemma registered_names s : filesystems s = registered ->
  find_fs s (chars "initramfs") = Some Initramfs /\ find_fs s (chars "fat32") = Some Fat32.
Proof using Type. intros E. unfold find_fs. rewrite E. done. Qed.

(** [vfs_mkdir] of "/n". *)
Lemma mkdir_root s r l n : root_dir s r l -> nonzero n -> Forall (fun c => c <> 47) n -> n <> [] -> (length n < 16)%nat ->
  (length l < 16)%nat -> child s r n = None ->
  exists s', vfs_mkdir (47 :: n ++ [0]) s = Ok (1, s') /\ root_dir s' r (l ++ [next_key s]) /\ new_dir s s' r n (next_key s).
Proof using Type.
  intros [Hf Hr (v & i & Hv & Ho & Hi & Ht) Hl] Hn Hs Hne Hlen Hroom Hc. pose proof (fo_objs s Hf) as Hob.
  destruct (vfs_mkdir_added fuel junk s (47 :: n ++ [0]) (47 :: n) [] n r v i) as [E Ha]; try done.
  - split; [by apply nonzero_cons|]. by exists [].
  - split; [done|done|cbn; lia].
  - cbn. by rewrite Hr.
  - by rewrite Hl.
  - set (k := next_key s) in *. set (s' := added s r v i FSNODE_TYPE_DIR n) in *. exists s'. split; [exact E|].
    pose proof (vnode_pos s Hob r ltac:(by eexists)) as Hrk.
    set (s1 := new_node s Tmpfs 0 (named_inode k FSNODE_TYPE_DIR n) (replicate 4096 None)).
    pose proof (new_node_grows s Tmpfs (named_inode k FSNODE_TYPE_DIR n) (replicate 4096 None) Hob) as Hg. fold s1 in Hg.
    assert (Hob1 : objs_ok s1) by (apply new_node_ok; [done|by apply named_inode_fresh]).
    assert (Hv1 : vnodes s1 !! r = Some v) by (by apply (grows_vnode s s1 Hg)).
    assert (Hi1 : inodes s1 !! internal v = Some i) by (by apply (lookup_weaken (inodes s)), Hg).
    assert (Hl1 : children s1 r = l) by (unfold children; by rewrite (grows_inode s s1 Hob Hg r) by by eexists).
    assert (Hk1 : is_Some (vnodes s1 !! k)) by (cbn; rewrite lookup_insert_eq; by eexists).
    split; split; try done.
    + by eapply adds_fs_ok.
    + exists v. eexists. split; [exact Hv1|]. split; [done|]. split; [apply lookup_insert_eq|done].
    + change s' with (attach s1 (internal v) i k). rewrite (attach_children s1 r v i k Hob1 Hv1 Hi1 ltac:(by rewrite Hl1) ltac:(unfold k; lia) r ltac:(by eexists)), Hl1.
      by rewrite decide_True.
    + eexists. split; [cbn; by rewrite lookup_insert_eq|done].
    + intros x Hx Hxr. assert (Hx1 : is_Some (vnodes s1 !! x)) by (destruct Hx as [w Hw]; exists w; by apply (grows_vnode s s1 Hg)).
      destruct (vnode_inode s1 Hob1 x Hx1) as (j & Hj & _). change s' with (attach s1 (internal v) i k).
      rewrite (attach_node s1 r v i k Hob1 Hv1 Hi1 x j Hx1 Hj), decide_False by done. by rewrite <-Hj, (grows_inode s s1 Hob Hg x Hx).
    + apply Hg.
Qed.

(** The root, before anything is in it. *)
Lemma root_mounted s : at_boot s ->
  let m := next_key s in
  let s0 := set_rootfs m (set_next_key (m + 1) (set_filesystems registered s)) in
  exists s1, tmpfs_setup_mount Tmpfs m s0 = Ok (1, s1) /\ root_dir s1 (m + 1) [] /\ filesystems s1 = registered /\
    sd s1 = sd s /\ cpio_base s1 = cpio_base s /\ blocks s ⊆ blocks s1 /\ m < next_key s1.
Proof using Type.
  intros Hb m s0. pose proof (boot_objs s Hb) as Hs.
  assert (Hs0 : objs_ok s0).
  { destruct (objs_key s Hs) as [H1 H2 H3 H4 H5]. split; try done.
    intros k v Hv. destruct (H2 k v Hv) as (? & ? & j & ? & [J1 J2 J3 J4 J5]). split; [done|]. split; [done|]. exists j. by split. }
  unfold tmpfs_setup_mount, tmpfs_create_vnode. run (create_vnode_ok Tmpfs DEFAULT_INODE_SIZE None 0 FSNODE_TYPE_DIR s0).
  change (next_key s0) with (m + 1). set (i := Inode _ _ _ _ _). set (b := replicate _ None). set (s1 := new_node s0 Tmpfs 0 i b).
  assert (Hs1 : objs_ok s1) by (apply new_node_ok; [done|apply empty_fresh]).
  pose proof (new_node_grows s0 Tmpfs i b Hs0) as Hg. fold s1 in Hg.
  destruct (objs_mount s1 m (Mount (m + 1) Tmpfs) Hs1) as [Hs2 Hg2].
  { pose proof (gr_next _ _ Hg). change (next_key s0) with (m + 1) in *. lia. }
  { change (mounts s !! m = None). apply (ob_fresh s Hs). unfold m. lia. }
  eexists. split; [reflexivity|]. set (s2 := set_mounts _ s1) in *.
  assert (Hv : vnodes s2 !! (m + 1) = Some (Vnode 0 Tmpfs Tmpfs (m + 1 + 1))) by (cbn; by rewrite lookup_insert_eq).
  assert (Hi : inodes s2 !! (m + 1 + 1) = Some i) by (cbn; by rewrite lookup_insert_eq).
  split; [split|].
  - split; [done|done|]. split; [cbn; pose proof (bt_next s Hb); unfold m; lia|]. exists (Mount (m + 1) Tmpfs).
    split; [apply lookup_insert_eq|by eexists].
  - unfold root_of. cbn. by rewrite lookup_insert_eq.
  - by exists (Vnode 0 Tmpfs Tmpfs (m + 1 + 1)), i.
  - unfold children, node_inode. rewrite Hv. cbn [mbind option_bind internal]. by rewrite Hi.
  - split_and!; try done; [apply Hg|]. cbn. fold m. lia.
Qed.

Lemma child_nil s d n : children s d = [] -> child s d n = None.
Proof using Type. intros E. unfold child. by rewrite E. Qed.

(** A new directory is found, and the entries of the directories are as they were. *)
Lemma new_dir_child s s' r n k x m : new_dir s s' r n k -> is_Some (vnodes s !! x) -> child s r n = None ->
  child s' x m = if decide (x = r /\ m = n) then Some k else child s x m.
Proof using Type.
  intros Hd Hx Hn. rewrite (ad_child _ _ _ _ _ (nd_adds _ _ _ _ _ Hd) x m Hx).
  destruct (decide (x = r /\ m = n)) as [[-> ->]|]; [by rewrite Hn|by destruct (child s x m)].
Qed.

(** The archive below its directory [c1] of the root, after the directory for the card was
    made and the card mounted on it. *)
Lemma archive_kept s3 s4 s5 r n c1 c2 rt1 rt2 blk arch es :
  objs_ok s3 -> is_Some (vnodes s3 !! c1) -> is_Some (vnodes s3 !! rt1) -> r < rt1 -> c1 <> r -> child s3 r n = None ->
  new_dir s3 s4 r n c2 -> mounts_on s4 s5 c2 rt2 -> mounted s3 c1 = rt1 ->
  Forall2 (holds_file s3 blk arch) (children s3 rt1) es ->
  mounted s5 c1 = rt1 /\ Forall2 (holds_file s5 blk arch) (children s5 rt1) es.
Proof using Type.
  intros Ho3 Hc1 Hr1 Hlt Hc1r Hno Hd Hmo Hm Hall. pose proof (nd_adds _ _ _ _ _ Hd) as Ha. pose proof (ad_objs _ _ _ _ _ Ha) as Ho4.
  assert (Hv : forall x, is_Some (vnodes s3 !! x) -> vnodes s4 !! x = vnodes s3 !! x /\ x <> c2).
  { intros x Hx. split; [by apply (ad_old _ _ _ _ _ Ha)|]. intros ->. rewrite (ad_none _ _ _ _ _ Ha) in Hx. by destruct Hx. }
  assert (Hk : forall x, is_Some (vnodes s3 !! x) -> x <> r -> vnodes s5 !! x = vnodes s3 !! x /\ node_inode s5 x = node_inode s3 x).
  { intros x Hx Hxr. destruct (Hv x Hx) as [Ev Hx2]. assert (Hx4 : is_Some (vnodes s4 !! x)) by by rewrite Ev.
    split; [by rewrite (mo_vnode _ _ _ _ Hmo)|]. rewrite (mo_node _ _ _ _ Hmo) by done. by apply (nd_inode _ _ _ _ _ Hd). }
  split.
  - destruct (Hv c1 Hc1) as [Ev Hc12]. rewrite (mounts_mounted s4 s5 c2 rt2 c1) by (done || by rewrite Ev).
    by rewrite (adds_mounted s3 s4 r n c2 Ho3 Ha).
  - assert (children s5 rt1 = children s3 rt1) as -> by (unfold children; by rewrite (proj2 (Hk rt1 Hr1 ltac:(lia)))).
    apply (Forall2_weaken_l (holds_file s3 blk arch)); [|done]. intros x e Hx.
    destruct (children_vnode s3 Ho3 rt1 x Hx) as [Hxv Hxlt]. destruct (Hk x Hxv ltac:(lia)). by apply holds_file_kept.
Qed.

(** The four calls after the root is there, and the calls before. *)
Definition directories : M fs_state unit :=
  _ ← vfs_mkdir (cstr "/initramfs"); _ ← vfs_mount (cstr "/initramfs") (cstr "initramfs");
  _ ← vfs_mkdir (cstr "/boot"); _ ← vfs_mount (cstr "/boot") (cstr "fat32"); mret tt.

Lemma rootfs_init_start s sd_init : at_boot s -> sd_init s = Ok (tt, s) ->
  rootfs_init sd_init s = (_ ← tmpfs_setup_mount Tmpfs (next_key s); directories)
    (set_rootfs (next_key s) (set_next_key (next_key s + 1) (set_filesystems registered s))).
Proof using Type.
  intros [_ _ _ _ _ _ Hf] Esd. unfold rootfs_init. run Esd.
  destruct s as [V I N C F B k fs r cpio fi bs mb card]. cbn in Hf. subst fs. reflexivity.
Qed.

(** The root [r] has one entry, /initramfs, at [c] with the archive below [rt]. *)
Record archive_mounted (s : fs_state) (r c rt blk : Z) (arch : list Z) (es : list entry) : Prop := {
  am_root : root_dir s r [c];
  am_child : forall m, child s r m = if decide (m = chars "initramfs") then Some c else None;
  am_above : r < c /\ r < rt;
  am_node : is_Some (vnodes s !! rt);
  am_mounted : mounted s c = rt;
  am_files : Forall2 (holds_file s blk arch) (children s rt) (files_of es);
  am_registered : filesystems s = registered
}.

Lemma initramfs_directory_ok s r blk arch es :
  root_dir s r [] -> filesystems s = registered -> archive_at s blk arch es ->
  exists s' c rt, (_ ← vfs_mkdir (cstr "/initramfs"); vfs_mount (cstr "/initramfs") (cstr "initramfs")) s = Ok (1, s') /\
    archive_mounted s' r c rt blk arch es /\ sd s' = sd s /\ next_key s < next_key s'.
Proof using Type.
  intros R1 Ereg Harch. pose proof R1 as [Hf1 Hroot1 (v1 & i1 & Hv1 & _) Hc1]. pose proof (fo_objs s Hf1) as Ho1.
  destruct (mkdir_root s r [] (chars "initramfs") R1) as (s2 & E2 & R2 & D2);
    [by repeat constructor|by repeat constructor|done|cbn; lia|cbn; lia|by apply child_nil|].
  set (c := next_key s) in *. pose proof R2 as [Hf2 Hroot2 _ _]. pose proof (fo_objs s2 Hf2) as Ho2.
  pose proof (nd_adds _ _ _ _ _ D2) as A2. destruct (nd_node _ _ _ _ _ D2) as (w & Hw & Hw0).
  destruct (vnode_pos s Ho1 r ltac:(by eexists)) as [_ Hrc]. fold c in Hrc.
  assert (Hr2 : is_Some (vnodes s2 !! r)) by (rewrite <-Hroot2; by apply root_vnode).
  assert (Hx2 : forall m, child s2 r m = if decide (m = chars "initramfs") then Some c else None).
  { intros m. rewrite (new_dir_child s s2 r _ c r _ D2), (child_nil s r m Hc1) by (by eexists || by apply child_nil).
    by repeat case_decide; naive_solver. }
  assert (Hreg2 : filesystems s2 = registered) by (by rewrite (ad_filesystems _ _ _ _ _ A2)).
  destruct (registered_names s2 Hreg2) as [Hn2 _].
  assert (Harch2 : archive_at s2 blk arch es).
  { destruct Harch as (Hblk & Hb & Hes & Hlen & pre & tr & Htr & Ea & Eb). split; [done|].
    split; [by apply (lookup_weaken (blocks s)), (nd_blocks _ _ _ _ _ D2)|]. split; [done|]. split; [done|].
    exists pre, tr. by rewrite (proj2 (nd_rest _ _ _ _ _ D2)). }
  destruct (initramfs_mount_ok fuel junk s2 blk arch es (cstr "/initramfs") (chars "/initramfs") [] (chars "initramfs") (cstr "initramfs")
    r c w Hf2 Harch2 (cstr_holds "/initramfs" ltac:(by repeat constructor)) ltac:(by split; [|repeat constructor|cbn; lia]) ltac:(done) ltac:(done)
    (cstr_holds "initramfs" ltac:(by repeat constructor)) Hn2 ltac:(cbn; by rewrite Hroot2) (Hx2 _) Hw Hw0)
    as (s3 & rt & E3 & M3 & Esd3 & _ & Hrt & Hall3).
  exists s3, c, rt. split; [by run E2|]. pose proof (vnode_pos s2 Ho2 r Hr2). pose proof (mo_new _ _ _ _ M3).
  destruct (vnode_pos s2 Ho2 c ltac:(by eexists)) as [_ ?]. pose proof (mo_ok _ _ _ _ M3) as Hf3.
  destruct (vnode_pos s3 (fo_objs s3 Hf3) rt Hrt) as [_ ?].
  split; [split; try done|split; [by rewrite Esd3, (proj1 (nd_rest _ _ _ _ _ D2))|lia]].
  - apply (mounts_root s2 s3 r [c] c rt R2); [lia|done].
  - intros m. by rewrite (child_kept s2 s3 Ho2 (mo_node _ _ _ _ M3) r m Hr2), Hx2.
  - lia.
  - apply M3.
  - by rewrite (proj1 (mo_rest _ _ _ _ M3)).
Qed.

Lemma boot_directory_ok s r c rt blk arch es i b mb cl :
  archive_mounted s r c rt blk arch es -> fat_card fuel s i b mb cl ->
  exists s', (_ ← vfs_mkdir (cstr "/boot"); vfs_mount (cstr "/boot") (cstr "fat32")) s = Ok (1, s') /\
    fs_ok s' /\ root_of s' = r /\ sd s' = sd s /\ child s' r (chars "initramfs") = Some c /\ mounted s' c = rt /\
    Forall2 (holds_file s' blk arch) (children s' rt) (files_of es) /\
    (forall q, q <> [] -> match card_lookup fuel (set_fat_info i b mb s) cl q with
       | Some e => exists x k j lo, walk s' r (chars "boot" :: q) = Some x /\ node_is s' lo x e k j /\ next_key s <= lo
       | None => walk s' r (chars "boot" :: q) = None
       end).
Proof using Type.
  intros [R3 Hch [Hrc Hrrt] Hrt Hm Hall Ereg] Hcard. pose proof R3 as [Hf3 Hroot3 _ Hch3]. pose proof (fo_objs s Hf3) as Ho3.
  assert (Hno3 : child s r (chars "boot") = None) by by rewrite Hch.
  destruct (mkdir_root s r [c] (chars "boot") R3) as (s4 & E4 & R4 & D4);
    [by repeat constructor|by repeat constructor|done|cbn; lia|cbn; lia|done|].
  set (c2 := next_key s) in *. pose proof R4 as [Hf4 Hroot4 _ _]. pose proof (fo_objs s4 Hf4) as Ho4.
  pose proof (nd_adds _ _ _ _ _ D4) as A4. destruct (nd_node _ _ _ _ _ D4) as (w & Hw & Hw0).
  assert (Hr3 : is_Some (vnodes s !! r)) by (rewrite <-Hroot3; by apply root_vnode).
  assert (Hr4 : is_Some (vnodes s4 !! r)) by (rewrite <-Hroot4; by apply root_vnode).
  assert (Hx4 : child s4 r (chars "boot") = Some c2 /\ child s4 r (chars "initramfs") = Some c).
  { split; rewrite (new_dir_child s s4 r _ c2 r _ D4 Hr3 Hno3), ?Hch; [by rewrite decide_True|by rewrite decide_False by (by intros [_ ?])]. }
  destruct Hx4 as [Hx4 Hi4]. destruct (registered_names s4 ltac:(by rewrite (ad_filesystems _ _ _ _ _ A4))) as [_ Hn4].
  pose proof (proj1 (nd_rest _ _ _ _ _ D4)) as Esd4.
  destruct (fat32_mount_ok fuel junk s4 i b mb cl (cstr "/boot") (chars "/boot") [] (chars "boot") (cstr "fat32") r c2 w Hf4
    (fat_card_same fuel s s4 i b mb cl Esd4 Hcard) (cstr_holds "/boot" ltac:(by repeat constructor))
    ltac:(by split; [|repeat constructor|cbn; lia]) ltac:(done) ltac:(done) (cstr_holds "fat32" ltac:(by repeat constructor)) Hn4
    ltac:(cbn; by rewrite Hroot4) Hx4 Hw Hw0) as (s5 & rt2 & E5 & M5 & Esd5 & Ei5 & Hcard5).
  assert (Hcv : is_Some (vnodes s !! c)) by (apply (child_vnode s Ho3 r (chars "initramfs")); by rewrite Hch).
  destruct (archive_kept s s4 s5 r (chars "boot") c c2 rt rt2 blk arch (files_of es) Ho3 Hcv Hrt Hrrt ltac:(lia) Hno3 D4 M5 Hm Hall) as [Hm5 Hall5].
  pose proof (mo_root _ _ _ _ M5) as Hroot5. rewrite Hroot4 in Hroot5. destruct (vnode_pos s4 Ho4 c2 ltac:(by eexists)) as [_ ?].
  exists s5. split; [run E4; exact E5|]. split; [apply M5|]. split; [done|]. split; [by rewrite Esd5|].
  split; [by rewrite (child_kept s4 s5 Ho4 (mo_node _ _ _ _ M5) r _ Hr4)|]. split; [done|]. split; [done|].
  intros q Hq. specialize (Hcard5 q Hq). rewrite Hroot5 in Hcard5.
  rewrite (same_card_lookup (set_fat_info i b mb s) (set_fat_info i b mb s4) Esd4 eq_refl) in Hcard5.
  change (components (chars "/boot") ++ q) with (chars "boot" :: q) in Hcard5.
  destruct (card_lookup _ _ cl q) as [e|]; [|done]. destruct Hcard5 as (x & k & j & Hwx & Hn). exists x, k, j, (next_key s4). split; [done|].
  split; [done|unfold c2 in *; lia].
Qed.

Lemma node_is_weaken s lo lo' x e k j : lo' <= lo -> node_is s lo x e k j -> node_is s lo' x e k j.
Proof using Type. intros Hlo [N1 N2 N3 N4 N5 N6 N7 N8 N9 N10]. split; try done. lia. Qed.

(** From the state of the boot, with the archive in memory and a card in the slot,
    [rootfs_init] makes one tree: below /initramfs are the files of the archive, each with
    its bytes, and nothing else, and below /boot the directories and files of the card. *)
Theorem rootfs_init_spec s sd_init blk arch es i b mb cl :
  at_boot s -> sd_init s = Ok (tt, s) -> archive_at s blk arch es -> fat_card fuel s i b mb cl ->
  exists s', rootfs_init sd_init s = Ok (tt, s') /\ fs_ok s' /\ sd s' = sd s /\
    (forall n, match List.find (fun e => bool_decide (e_name e = n)) (files_of es) with
       | Some e => exists x, walk s' (root_of s') [chars "initramfs"; n] = Some x /\ holds_file s' blk arch x e
       | None => walk s' (root_of s') [chars "initramfs"; n] = None
       end) /\
    (forall q, q <> [] -> match card_lookup fuel (set_fat_info i b mb s) cl q with
       | Some e => exists x k j, walk s' (root_of s') (chars "boot" :: q) = Some x /\ node_is s' (next_key s) x e k j
       | None => walk s' (root_of s') (chars "boot" :: q) = None
       end).
Proof using Type.
  intros Hb Esd (Hblk & Hbb & Hes & Hlen & pre & tr & Htr & Ea & Ebase) Hcard.
  destruct (root_mounted s Hb) as (s1 & E1 & R1 & Ereg & Esd1 & Ecpio & Hblocks & Hnext). set (r := next_key s + 1) in *.
  destruct (initramfs_directory_ok s1 r blk arch es R1 Ereg) as (s2 & c & rt & E2 & A2 & Esd2 & Hnext2).
  { split; [done|]. split; [by apply (lookup_weaken (blocks s))|]. split; [done|]. split; [done|]. exists pre, tr. by rewrite Ecpio. }
  assert (Esd20 : sd s2 = sd s) by (by rewrite Esd2).
  destruct (boot_directory_ok s2 r c rt blk arch es i b mb cl A2 (fat_card_same fuel s s2 i b mb cl Esd20 Hcard))
    as (s' & E & Hf & Hr & Esd' & Hc & Hm & Hall & Hboot).
  exists s'. rewrite Hr. split; [|split; [done|split; [by rewrite Esd'|split]]].
  - rewrite (rootfs_init_start s sd_init Hb Esd). run E1. unfold directories. inv_step E2 as x s3 E3. run E3. run E2.
    inv_step E as y s4 E4. run E4. by run E.
  - intros n. pose proof (archive_walk s' rt blk arch (files_of es) n Hall) as Hw.
    change (walk s' r [chars "initramfs"; n]) with (x ← child s' r (chars "initramfs"); walk s' (mounted s' x) [n]).
    rewrite Hc. cbn [mbind option_bind]. by rewrite Hm.
  - intros q Hq. specialize (Hboot q Hq). rewrite (same_card_lookup (set_fat_info i b mb s) (set_fat_info i b mb s2) Esd20 eq_refl) in Hboot.
    destruct (card_lookup _ _ cl q) as [e|]; [|done]. destruct Hboot as (x & k & j & lo & Hw & Hn & Hlo).
    exists x, k, j. split; [done|]. apply (node_is_weaken s' lo); [lia|done].
Qed.

End Kernel.

(** * An instance *)

(** The archive with the file "h" and the card with A.TXT and D/B.TXT. *)
Definition ex_start : fs_state :=
  FsState ∅ ∅ ∅ ∅ ∅ {[5 := Some <$> ex_arch]} 6 (replicate 8 None) 0 (5, 0) (FatInfo 0 0 0 0 0 0 0) [] [] ex_card.

Lemma ex_at_boot : at_boot ex_start.
Proof. split; try reflexivity. intros k Hk. cbn in *. apply lookup_singleton_ne. lia. Qed.

Section Example.
Let ops : Ops := kernel_ops 3 (replicate 32 0).
#[local] Existing Instance ops | 0.

Lemma rootfs_init_spec_witness :
  exists s' x y, rootfs_init (fun s => Ok (tt, s)) ex_start = Ok (tt, s') /\
    walk s' (root_of s') [chars "initramfs"; chars "h"] = Some x /\ holds_file s' 5 ex_arch x ex_entry /\
    walk s' (root_of s') [chars "boot"; chars "D"; chars "B.TXT"] = Some y.
Proof.
  destruct (rootfs_init_spec 3 (replicate 32 0) ex_start (fun s => Ok (tt, s)) 5 ex_arch [ex_entry] ex_info ex_sector ex_mbr 2 ex_at_boot eq_refl
    (ex_archive ex_start eq_refl eq_refl) (fat_card_same 3 ex_fat ex_start _ _ _ _ eq_refl ex_fat_card)) as (s' & E & _ & _ & Hi & Hb).
  specialize (Hi (chars "h")). specialize (Hb [chars "D"; chars "B.TXT"] ltac:(done)).
  assert (Ei : List.find (fun e => bool_decide (e_name e = chars "h")) (files_of [ex_entry]) = Some ex_entry) by reflexivity.
  rewrite Ei in Hi. destruct Hi as (x & Hx & Hfile).
  assert (Eb : is_Some (card_lookup 3 (set_fat_info ex_info ex_sector ex_mbr ex_start) 2 [chars "D"; chars "B.TXT"]))
    by (vm_compute; by eexists).
  destruct (card_lookup 3 _ 2 [chars "D"; chars "B.TXT"]) as [e|]; [|by destruct Eb].
  destruct Hb as (y & k & j & Hy & _). exists s', x, y. split; [exact E|]. split; [exact Hx|]. split; [exact Hfile|exact Hy].
Defined.
End Example.
