(* ===== verification/PathSpec.v ===== *)
(** What [get_absolute_path] makes of a path. *)
From Stdlib Require Import Ascii String.
From S2P Require Import Prelude CString FsData Vfs.

(** The path before "." and ".." are dealt with. *)
Definition joined (cwd q : list Z) : list Z :=
  match q with
  | c :: _ => if c =? 47 then q else (if bool_decide (cwd = [47]) then [47] else cwd ++ [47]) ++ q
  | [] => (if bool_decide (cwd = [47]) then [47] else cwd ++ [47])
  end.

(** No component starts with a dot. *)
Definition no_dot (a : list Z) : Prop := forall l r, a <> l ++ 47 :: 46 :: r.

Fixpoint dotless (a : list Z) : bool :=
  match a with
  | [] => true
  | c :: a => negb ((c =? 47) && (default 0 (head a) =? 46)) && dotless a
  end.

Lemma dotless_no_dot a : dotless a = true -> no_dot a.
Proof.
  induction a as [|c a IH]; intros H l r E; [by destruct l|]. cbn in H. apply andb_true_iff in H as [H1 H2].
  destruct l as [|x l]; injection E as -> E.
  - by rewrite E in H1.
  - by apply (IH H2 l r).
Qed.

(** The two characters the loop looks at, [c] being the one after [dn]. *)
Lemma abs_chars abs a dn c rem :
  holds abs a -> a = dn ++ c :: rem ->
  strlen abs = Ok (Z.of_nat (length a)) /\ (Z.of_nat (length dn) <? Z.of_nat (length a)) = true /\
  abs.[Z.of_nat (length dn)] = Some c /\ abs.[Z.of_nat (length dn) + 1] = Some (default 0 (head rem)).
Proof.
  intros Ha E. split_and!; [by apply strlen_ok|subst a; rewrite length_app; cbn; apply Z.ltb_lt; lia| |];
    destruct Ha as [_ [r ->]]; subst a; rewrite <-app_assoc; cbn [app].
  - by apply zget_app_mid.
  - replace (dn ++ c :: rem ++ 0 :: r) with ((dn ++ [c]) ++ rem ++ 0 :: r) by (by rewrite <-app_assoc).
    destruct rem; cbn [app head default]; apply zget_app_mid; rewrite length_app; cbn; lia.
Qed.

(** The loop copies characters as long as no component starts with a dot. *)
Lemma absolute_loop_copy abs a mid : forall n dn w rest rem,
  holds abs a -> a = dn ++ mid ++ rem -> no_dot (dn ++ mid ++ take 1 rem) ->
  (length mid <= length rest)%nat ->
  absolute_loop (length mid + n) abs (w ++ rest) (Z.of_nat (length dn)) (Z.of_nat (length w)) =
  absolute_loop n abs (w ++ mid ++ drop (length mid) rest) (Z.of_nat (length (dn ++ mid)))
    (Z.of_nat (length (w ++ mid))).
Proof.
  induction mid as [|c mid IH]; intros n dn w rest rem Ha E Hnd Hl.
  { by rewrite !app_nil_r. }
  destruct (abs_chars abs a dn c (mid ++ rem) Ha E) as (Es & El & Ec & Ec1).
  cbn [length Nat.add absolute_loop]. rewrite Es, res_bind_ok, El, Ec, Ec1. cbn [opt_res mbind res_bind].
  assert (Hno : (c =? 47) && (default 0 (head (mid ++ rem)) =? 46) = false).
  { destruct (Z.eqb_spec c 47) as [->|]; [|done]. destruct (Z.eqb_spec (default 0 (head (mid ++ rem))) 46) as [E46|]; [|done].
    exfalso. destruct mid as [|x mid]; cbn in E46.
    - destruct rem as [|x rem]; [done|]. cbn in E46. subst x. by apply (Hnd dn []).
    - subst x. by apply (Hnd dn (mid ++ take 1 rem)). }
  rewrite Hno. cbn [andb]. destruct rest as [|x rest]; [cbn in Hl; lia|].
  rewrite (zset_app_mid w rest x c _ eq_refl). cbn [opt_res mbind res_bind].
  replace (w ++ c :: rest) with ((w ++ [c]) ++ rest) by (by rewrite <-app_assoc).
  replace (Z.of_nat (length dn) + 1) with (Z.of_nat (length (dn ++ [c]))) by (rewrite length_app; cbn; lia).
  replace (Z.of_nat (length w) + 1) with (Z.of_nat (length (w ++ [c]))) by (rewrite length_app; cbn; lia).
  rewrite (IH n (dn ++ [c]) (w ++ [c]) rest rem Ha); [|by rewrite <-app_assoc|by rewrite <-app_assoc|cbn in Hl; lia].
  by rewrite <-!app_assoc.
Qed.

(** The first part: the joined path in [abs_path]. *)
Lemma join_ok path cur q cwd {B} (k : list Z -> res B) c0 :
  holds path q -> holds cur cwd -> (length (joined cwd q) < 256)%nat -> path.[0] = Some c0 ->
  exists rest, length (joined cwd q ++ 0 :: rest) = 256%nat /\
  (abs ← (if negb (c0 =? 47) then
       a ← strcpy path_buffer cur; d ← strcmp cur [47; 0];
       a ← (if negb (d =? 0) then strcat a [47; 0] else Ok a); strcat a path
     else strcpy path_buffer path); k abs) = k (joined cwd q ++ 0 :: rest).
Proof.
  intros Hp Hc Hl E0.
  assert (Hslash : holds [47; 0] [47]) by (split; [by repeat constructor|by exists []]).
  assert (H256 : length path_buffer = 256%nat) by done.
  assert (Hq0 : c0 = default 0 (head q)).
  { destruct Hp as [_ [r ->]]. destruct q; cbn in E0; by injection E0. }
  destruct (Z.eqb_spec c0 47) as [->|Hne]; cbn [negb].
  - assert (Ej : joined cwd q = q) by (destruct q as [|c q]; cbn in Hq0; [done|]; subst c; done). rewrite Ej in *.
    exists (drop (S (length q)) path_buffer). rewrite (strcpy_ok _ _ q) by (done || lia).
    split; [|done]. rewrite length_app. cbn [length]. rewrite length_drop. lia.
  - set (pre := if bool_decide (cwd = [47]) then [47] else cwd ++ [47]).
    assert (Ej : joined cwd q = pre ++ q).
    { unfold joined. destruct q as [|c q]; [by rewrite app_nil_r|]. cbn in Hq0. subst c0.
      destruct (Z.eqb_spec c 47); [done|]. done. }
    rewrite Ej in *. rewrite length_app in Hl.
    assert (Hcl : (length cwd <= length pre)%nat) by (unfold pre; destruct (bool_decide_reflect (cwd = [47])) as [->|]; rewrite ?length_app; cbn; lia).
    rewrite (strcpy_ok _ _ cwd) by (done || lia). cbn [mbind res_bind].
    set (b1 := cwd ++ 0 :: drop (S (length cwd)) path_buffer).
    assert (Hb1 : holds b1 cwd) by (apply holds_self; apply Hc).
    assert (Hb1l : length b1 = 256%nat) by (unfold b1; rewrite length_app; cbn [length]; rewrite length_drop; lia).
    destruct (strcmp_ok cur [47; 0] cwd [47] Hc Hslash) as (d & -> & Hd). cbn [mbind res_bind].
    assert (exists b2, (if negb (d =? 0) then strcat b1 [47; 0] else Ok b1) = Ok b2 /\ holds b2 pre /\ length b2 = 256%nat)
      as (b2 & -> & Hb2 & Hb2l).
    { destruct (Z.eqb_spec d 0) as [Ed|Ed]; cbn [negb].
      - assert (Ecw : cwd = [47]) by (by apply Hd). exists b1. unfold pre. rewrite bool_decide_true by done.
        by rewrite <-Ecw.
      - assert (Hne' : cwd <> [47]) by (intros E; apply Ed; by apply Hd).
        unfold pre in *. rewrite bool_decide_false in * by done. rewrite length_app in *. cbn [length] in *.
        rewrite (strcat_ok b1 [47; 0] cwd [47] Hb1 Hslash) by (cbn [length]; lia). eexists. split; [done|].
        split; [|rewrite !length_app; cbn [length]; rewrite length_drop; cbn [length]; lia].
        rewrite app_assoc. apply holds_self. apply nonzero_app. split; [apply Hc|apply Hslash]. }
    cbn [mbind res_bind]. rewrite (strcat_ok b2 path pre q Hb2 Hp) by lia. cbn [mbind res_bind].
    rewrite app_assoc. eexists. split; [|done].
    rewrite !length_app. cbn [length]. rewrite length_drop. lia.
Qed.

Lemma joined_nonzero cwd q : nonzero cwd -> nonzero q -> nonzero (joined cwd q).
Proof.
  intros Hc Hq. assert (Hs : nonzero [47]) by by repeat constructor.
  assert (Hpre : nonzero (if bool_decide (cwd = [47]) then [47] else cwd ++ [47])).
  { destruct (bool_decide (cwd = [47])); [done|]. by apply nonzero_app. }
  unfold joined. destruct q as [|c q]; [done|]. destruct (c =? 47); [done|]. by apply nonzero_app.
Qed.

(** A path without components that start with a dot becomes itself, made absolute. *)
Lemma absolute_plain path cur q cwd :
  holds path q -> holds cur cwd -> (length (joined cwd q) < 256)%nat -> (length (joined cwd q) < length path)%nat ->
  no_dot (joined cwd q) ->
  get_absolute_path path cur = Ok (joined cwd q ++ 0 :: drop (S (length (joined cwd q))) path).
Proof.
  intros Hp Hc Hl Hlp Hnd. unfold get_absolute_path.
  assert (exists c0, path.[0] = Some c0) as [c0 E0] by (apply zget_is_Some; lia). rewrite E0. cbn [opt_res mbind res_bind].
  destruct (join_ok path cur q cwd (fun abs_path =>
    r ← absolute_loop (S (length abs_path)) abs_path path 0 0; opt_res OutOfBounds (r.1).[r.2 := 0]) c0 Hp Hc Hl E0) as (rest & Hr & E).
  etrans; [exact E|]. set (a := joined cwd q) in *.
  assert (Ha : holds (a ++ 0 :: rest) a) by (apply holds_self, joined_nonzero; [apply Hc|apply Hp]).
  assert (El : S (length (a ++ 0 :: rest)) = (length a + (257 - length a))%nat) by lia. rewrite El.
  pose proof (absolute_loop_copy _ a a (257 - length a) [] [] path [] Ha ltac:(by rewrite app_nil_r)
    ltac:(cbn; by rewrite app_nil_r) ltac:(lia)) as Ecopy.
  cbn [app] in Ecopy. change (Z.of_nat (length (A:=Z) [])) with 0 in Ecopy. rewrite Ecopy.
  destruct (257 - length a)%nat as [|m] eqn:Em; [lia|]. cbn [absolute_loop].
  rewrite (strlen_ok _ a Ha), res_bind_ok, Z.ltb_irrefl. cbn [mbind res_bind fst snd].
  destruct (drop (length a) path) as [|x r] eqn:Ed.
  { assert (length (drop (length a) path) = 0%nat) by (by rewrite Ed). rewrite length_drop in *. lia. }
  rewrite (zset_app_mid a r x 0 _ eq_refl). cbn [opt_res]. do 3 f_equal.
  rewrite <-Nat.add_1_r, <-drop_drop, Ed. done.
Qed.

(** Going back to the last '/'. *)
Lemma back_up_ok fuel l i j :
  0 <= j <= i -> (Z.to_nat (i - j) < fuel)%nat -> l.[j] = Some 47 ->
  (forall k, j < k <= i -> exists c, l.[k] = Some c /\ c <> 47) -> back_up fuel l i = Ok j.
Proof.
  revert i. induction fuel as [|fuel IH]; intros i Hj Hf Hs Hn; [lia|]. cbn [back_up].
  destruct (Z.leb_spec 0 i); [|lia]. destruct (decide (i = j)) as [->|Hne].
  - rewrite Hs. done.
  - destruct (Hn i ltac:(lia)) as (c & Ec & Hc). rewrite Ec. cbn [opt_res mbind res_bind].
    destruct (Z.eqb_spec c 47); [done|]. cbn [negb]. apply IH; [lia|lia|done|].
    intros k Hk. apply Hn. lia.
Qed.

Lemma no_dot_slash a : no_dot a -> no_dot (a ++ [47]).
Proof.
  intros H l r E. destruct (decide (r = [])) as [->|Hr].
  - assert (El : List.last (a ++ [47]) 0 = List.last (l ++ [47; 46]) 0) by (by rewrite E).
    rewrite last_last in El. replace (l ++ [47; 46]) with ((l ++ [47]) ++ [46]) in El by (by rewrite <-app_assoc).
    rewrite last_last in El. done.
  - assert (Er : removelast (a ++ [47]) = removelast (l ++ 47 :: 46 :: r)) by (by rewrite E).
    rewrite removelast_last, removelast_app in Er by done. apply (H l (removelast r)). rewrite Er.
    f_equal. cbn. by destruct r.
Qed.

(** The rounds on "/.." and at the end. *)
Lemma absolute_loop_dotdot n abs path len i idx j :
  strlen abs = Ok len -> (i <? len) = true -> abs.[i] = Some 47 -> abs.[i + 1] = Some 46 -> abs.[i + 2] = Some 46 ->
  back_up (S (S (length path))) path idx = Ok j ->
  absolute_loop (S n) abs path i idx = absolute_loop n abs path (i + 3) j.
Proof.
  intros El Ei E0 E1 E2 Eb. cbn [absolute_loop]. rewrite El, res_bind_ok, Ei, E0, E1, E2. cbn [opt_res].
  rewrite !res_bind_ok. change (47 =? 47) with true. change (46 =? 46) with true. cbn [andb opt_res].
  by rewrite res_bind_ok, Eb, res_bind_ok.
Qed.

Lemma absolute_loop_end n abs path len i idx :
  strlen abs = Ok len -> (i <? len) = false -> absolute_loop (S n) abs path i idx = Ok (path, idx).
Proof. intros El Ei. cbn [absolute_loop]. by rewrite El, res_bind_ok, Ei. Qed.

(** ".." leads from a directory to the one it is in. *)
Lemma absolute_parent cur pre n m :
  holds cur (pre ++ 47 :: n) -> n <> [] -> Forall (fun c => c <> 47) n -> no_dot (pre ++ 47 :: n) ->
  (length (pre ++ 47%Z :: n) < 253)%nat -> (length (pre ++ 47%Z :: n) < 2 + m)%nat ->
  exists out, get_absolute_path ([46; 46] ++ replicate m 0) cur = Ok out /\ holds out pre.
Proof.
  intros Hc Hne Hns Hnd Hl Hm. set (cwd := pre ++ 47 :: n) in *. set (path := [46; 46] ++ replicate m 0).
  assert (Hcw : (2 <= length cwd)%nat) by (unfold cwd; rewrite length_app; destruct n; [done|cbn; lia]).
  assert (Hp : holds path [46; 46]).
  { split; [by repeat constructor|]. destruct m as [|m]; [lia|]. by exists (replicate m 0). }
  assert (Ej : joined cwd [46; 46] = cwd ++ [47; 46; 46]).
  { unfold joined. change (46 =? 47) with false. cbv iota. rewrite bool_decide_false; [by rewrite <-app_assoc|].
    intros E. rewrite E in Hcw. cbn in Hcw. lia. }
  unfold get_absolute_path. change (path.[0]) with (Some 46). cbn [opt_res mbind res_bind].
  destruct (join_ok path cur [46; 46] cwd (fun abs_path =>
    r ← absolute_loop (S (length abs_path)) abs_path path 0 0; opt_res OutOfBounds (r.1).[r.2 := 0]) 46 Hp Hc
    ltac:(rewrite Ej, length_app; cbn; lia) eq_refl) as (rest & Hr & E).
  rewrite Ej in *. set (a := cwd ++ [47; 46; 46]) in *.
  assert (Ha : holds (a ++ 0 :: rest) a).
  { apply holds_self, nonzero_app. split; [apply Hc|by repeat constructor]. }
  assert (Hal : length a = (length cwd + 3)%nat) by (unfold a; by rewrite length_app).
  assert (El : S (length (a ++ 0 :: rest)) = (length cwd + S (S (255 - length cwd)))%nat) by lia.
  set (path1 := cwd ++ drop (length cwd) path).
  assert (Hd0 : exists r, drop (length cwd) path = 0 :: r).
  { unfold path. rewrite drop_app_ge by (cbn; lia). rewrite drop_replicate. cbn [length].
    destruct (m - (length cwd - 2))%nat as [|k] eqn:Ek; [lia|]. by eexists. }
  destruct Hd0 as [r0 Hd0].
  assert (Ep1 : path1 = pre ++ 47 :: n ++ 0 :: r0) by (unfold path1, cwd; rewrite <-app_assoc; fold cwd; by rewrite Hd0).
  assert (Eback : back_up (S (S (length path1))) path1 (Z.of_nat (length cwd)) = Ok (Z.of_nat (length pre))).
  { apply back_up_ok.
    - unfold cwd. rewrite length_app. cbn. lia.
    - rewrite Ep1. unfold cwd. rewrite !length_app. cbn. rewrite length_app. cbn. lia.
    - rewrite Ep1. by apply zget_app_mid.
    - intros k Hk. rewrite Ep1. unfold cwd in Hk. rewrite length_app in Hk. cbn in Hk.
      replace (pre ++ 47 :: n ++ 0 :: r0) with ((pre ++ [47]) ++ n ++ 0 :: r0) by (by rewrite <-app_assoc).
      unfold zget. destruct (Z.leb_spec 0 k); [|lia].
      rewrite lookup_app_r by (rewrite length_app; cbn; lia). set (q := (Z.to_nat k - length (pre ++ [47%Z]))%nat).
      assert (Hq : (q <= length n)%nat) by (unfold q; rewrite length_app; cbn; lia).
      destruct (decide (q < length n)%nat) as [Hlt|Hge].
      + rewrite lookup_app_l by done. destruct (lookup_lt_is_Some_2 n q Hlt) as [c Hcq]. exists c.
        split; [exact Hcq|]. by apply (proj1 (Forall_lookup _ n) Hns q c).
      + exists 0. split; [|done]. apply list_lookup_middle. lia. }
  exists (pre ++ 0 :: n ++ 0 :: r0). split; [|apply holds_self].
  2:{ destruct Hc as [Hz _]. unfold cwd in Hz. by apply nonzero_app in Hz as [Hz _]. }
  etrans; [exact E|]. rewrite El.
  pose proof (absolute_loop_copy _ a cwd (S (S (255 - length cwd))) [] [] path [47; 46; 46] Ha eq_refl
    ltac:(cbn; by apply no_dot_slash) ltac:(unfold path; rewrite length_app, length_replicate; cbn; lia)) as Ecopy.
  cbn [app] in Ecopy. change (Z.of_nat (length (A:=Z) [])) with 0 in Ecopy. rewrite Ecopy. fold path1.
  destruct (abs_chars _ a cwd 47 [46; 46] Ha eq_refl) as (Es & Ell & Ec & Ec1).
  assert (Ec2 : (a ++ 0 :: rest).[Z.of_nat (length cwd) + 2] = Some 46).
  { unfold a. rewrite <-app_assoc. replace (cwd ++ [47; 46; 46] ++ 0 :: rest) with ((cwd ++ [47; 46]) ++ 46 :: 0 :: rest) by (by rewrite <-app_assoc).
    apply zget_app_mid. rewrite length_app. cbn. lia. }
  rewrite (absolute_loop_dotdot _ _ path1 _ _ _ _ Es Ell Ec Ec1 Ec2 Eback).
  rewrite (absolute_loop_end _ _ path1 _ _ _ Es) by (apply Z.ltb_ge; lia).
  rewrite res_bind_ok. cbn [fst snd].
  rewrite Ep1, (zset_app_mid pre (n ++ 0 :: r0) 47 0 _ eq_refl). done.
Qed.

(** * Properties *)

(** C27. A path none of whose components starts with a dot is made absolute, after the
    current directory when it does not start with '/', and left as it is; ".." from a
    directory is the directory it is in. *)
Theorem get_absolute_path_spec path cur q cwd :
  holds path q -> holds cur cwd ->
  (no_dot (joined cwd q) -> (length (joined cwd q) < 256)%nat -> (length (joined cwd q) < length path)%nat ->
   get_absolute_path path cur = Ok (joined cwd q ++ 0 :: drop (S (length (joined cwd q))) path)) /\
  (forall pre n m, cwd = pre ++ 47 :: n -> n <> [] -> Forall (fun c => c <> 47) n -> no_dot cwd ->
   (length cwd < 253)%nat -> (length cwd < 2 + m)%nat -> path = [46; 46] ++ replicate m 0 ->
   exists out, get_absolute_path path cur = Ok out /\ holds out pre).
Proof.
  intros Hp Hc. split.
  - intros Hnd Hl Hlp. by apply absolute_plain.
  - intros pre n m -> Hne Hns Hnd Hl Hm ->. by apply (absolute_parent cur pre n m).
Qed.

(** In the middle of an absolute path ".." takes nothing away: the character the loop
    looks at first is the '/' the path had there before. *)
Lemma dotdot_in_path_ignored :
  get_absolute_path (cstr "/aaa/bbb/../ccc" ++ replicate 240 0) (cstr "/") =
    Ok (cstr "/aaa/bbb/ccc" ++ chars "cc" ++ replicate 241 0).
Proof. vm_compute. reflexivity. Qed.

Lemma get_absolute_path_spec_witness :
  get_absolute_path (cstr "b" ++ replicate 254 0) (cstr "/a") = Ok (cstr "/a/b" ++ replicate 251 0) /\
  exists out, get_absolute_path (cstr ".." ++ replicate 253 0) (cstr "/a/b") = Ok out /\ holds out (chars "/a").
Proof.
  split.
  - apply (proj1 (get_absolute_path_spec (cstr "b" ++ replicate 254 0) (cstr "/a") (chars "b") (chars "/a")
      ltac:(split; [by repeat constructor|by exists (replicate 254 0)]) ltac:(split; [by repeat constructor|by exists []]))).
    + by apply dotless_no_dot.
    + apply Nat.ltb_lt. vm_compute. reflexivity.
    + apply Nat.ltb_lt. vm_compute. reflexivity.
  - apply (proj2 (get_absolute_path_spec (cstr ".." ++ replicate 253 0) (cstr "/a/b") (chars "..") (chars "/a/b")
      ltac:(split; [by repeat constructor|by exists (replicate 253 0)]) ltac:(split; [by repeat constructor|by exists []]))
      (chars "/a") (chars "b") 254%nat eq_refl ltac:(done) ltac:(by repeat constructor)).
    + by apply dotless_no_dot.
    + apply Nat.ltb_lt. vm_compute. reflexivity.
    + apply Nat.ltb_lt. vm_compute. reflexivity.
    + done.
Defined.
