(* ===== verification/Console.v ===== *)
(** Formatted output: [vsprintf] of [src/src/sprintf.c] and the output functions of
    [src/src/uart.c].  What is sent to the UART is the list of the characters. *)
From Stdlib Require Import Ascii String.
From S2P Require Import Prelude CString.

(** * Output *)

(* [src/src/uart.c:97-105 uart_puts] *)
Fixpoint uart_puts (s : list Z) : res (list Z) :=
  match s with
  | [] => Err OutOfBounds
  | c :: s =>
    if c =? 0 then Ok []
    else
      r ← uart_puts s;
      Ok ((if c =? 10 then [13] else []) ++ c :: r)
  end.

(** The digit loop: [c] runs over 28, 24, ..., 0. *)
(* [src/src/uart.c:114-120 uart_hex] *)
Fixpoint uart_hex_loop (n : nat) (d c : Z) : list Z :=
  match n with
  | O => []
  | S n =>
    let x := Z.land (Z.shiftr d c) 0xF in
    (x + (if 9 <? x then 0x37 else 0x30)) :: uart_hex_loop n d (c - 4)
  end.
(* [src/src/uart.c:110-121 uart_hex] *)
Definition uart_hex (d : Z) : list Z := uart_hex_loop 8 (u32 d) 28.

(* [src/src/uart.c:146-149 check_digit] *)
Definition check_digit (ch : Z) : bool := (48 <=? ch) && (ch <=? 57).

(** One line of the dump: the bytes in hexadecimal, by fours, then as characters. *)
(* [src/src/uart.c:160-171 uart_dump] *)
Definition dump_line (mem : Z -> Z) (a : Z) : list Z :=
  let digit d := d + (if 9 <? d then 0x37 else 0x30) in
  flat_map (fun b => let c := mem (a + b) in
    [digit (Z.land (Z.shiftr c 4) 0xF); digit (Z.land c 0xF); 32] ++ (if b mod 4 =? 3 then [32] else []))
    (seqZ 0 16) ++
  map (fun b => let c := mem (a + b) in if (c <? 32) || (127 <=? c) then 46 else c) (seqZ 0 16).
(** [mem] gives the byte at an address. *)
(* [src/src/uart.c:154-175 uart_dump] *)
Definition uart_dump (mem : Z -> Z) (ptr : Z) : list Z :=
  flat_map (fun k => let a := ptr + 16 * k in
    uart_hex a ++ chars ": " ++ dump_line mem a ++ [13; 10]) (seqZ 0 32).

(** * [vsprintf] *)

(** A variable argument: a number, or a pointer to a string, which may be [NULL]. *)
Inductive arg :=
  | ArgWord (w : Z)
  | ArgStr (s : list Z)
  | ArgNull.

(** [va_arg] for a number or a pointer: the next argument, which must be of that kind. *)
Definition next_word (args : list arg) : res (Z * list arg) :=
  match args with ArgWord w :: l => Ok (w, l) | _ => Err Uninit end.
Definition next_ptr (args : list arg) : res (option (list Z) * list arg) :=
  match args with
  | ArgStr s :: l => Ok (Some s, l)
  | ArgNull :: l => Ok (None, l)
  | _ => Err Uninit
  end.

(** The width, and what follows it. *)
(* [src/src/sprintf.c:53-57 vsprintf] *)
Fixpoint width (len : Z) (fmt : list Z) : res (Z * list Z) :=
  match fmt with
  | [] => Err OutOfBounds
  | c :: fmt' =>
    if (48 <=? c) && (c <=? 57) then width (s32 (s32 (len * 10) + (c - 48))) fmt' else Ok (len, fmt)
  end.

(** [tmpstr] is filled from its end: [p] is what it holds from the index [i] on. *)
(* [src/src/sprintf.c:84-87 vsprintf] *)
Fixpoint decimal_loop (n : nat) (arg i : Z) (p : list Z) : Z * list Z :=
  match n with
  | O => (i, p)
  | S n =>
    let p := 48 + arg mod 10 :: p in
    let arg := arg / 10 in
    let i := i - 1 in
    if negb (arg =? 0) && (0 <? i) then decimal_loop n arg i p else (i, p)
  end.
(* [src/src/sprintf.c:104-109 vsprintf] *)
Fixpoint hex_loop (n : nat) (arg i : Z) (p : list Z) : Z * list Z :=
  match n with
  | O => (i, p)
  | S n =>
    let d := Z.land arg 0xf in
    let p := d + (if 9 <? d then 0x37 else 0x30) :: p in
    let arg := Z.shiftr arg 4 in
    let i := i - 1 in
    if negb (arg =? 0) && (0 <? i) then hex_loop n arg i p else (i, p)
  end.
(* [src/src/sprintf.c:92-96 vsprintf] *)
Fixpoint pad_loop (n : nat) (c i limit : Z) (p : list Z) : list Z :=
  match n with
  | O => p
  | S n => if limit <? i then pad_loop n c (i - 1) limit (c :: p) else p
  end.

(** The text of a decimal or hexadecimal number in [tmpstr]. *)
(* [src/src/sprintf.c:70-97 vsprintf] *)
Definition decimal_text (arg len : Z) : list Z :=
  let sign := arg <? 0 in
  let arg := if sign then - arg else arg in
  let arg := if 99999999999999999 <? arg then 99999999999999999 else arg in
  let '(i, p) := decimal_loop 18 arg 18 [0] in
  let '(i, p) := if sign then (i - 1, 45 :: p) else (i, p) in
  if (0 <? len) && (len <? 18) then pad_loop 18 32 i (18 - len) p else p.
(* [src/src/sprintf.c:99-116 vsprintf] *)
Definition hex_text (arg len : Z) : list Z :=
  let '(i, p) := hex_loop 16 arg 16 [0] in
  if (0 <? len) && (len <=? 16) then pad_loop 16 48 i (16 - len) p else p.

(* [src/src/sprintf.c:123-125 vsprintf] *)
Fixpoint copy_string (p dst : list Z) (pos : Z) : res (list Z * Z) :=
  match p with
  | [] => Err OutOfBounds
  | c :: p =>
    if c =? 0 then Ok (dst, pos)
    else dst ← opt_res OutOfBounds dst.[pos := c]; copy_string p dst (pos + 1)
  end.

(** [fmt] is what is left of the format, [pos] the next character of [dst]. *)
(* [src/src/sprintf.c:43-131 vsprintf] *)
Fixpoint vsprintf_loop (n : nat) (fmt : list Z) (args : list arg) (dst : list Z) (pos : Z) : res (list Z * Z) :=
  match n, fmt with
  | O, _ => Err NoFuel
  | S _, [] => Err OutOfBounds
  | S n, c :: fmt =>
    if c =? 0 then Ok (dst, pos)
    else if c =? 37 then
      match fmt with
      | [] => Err OutOfBounds
      | c1 :: fmt1 =>
        if c1 =? 37 then
          dst ← opt_res OutOfBounds dst.[pos := c1];
          vsprintf_loop n fmt1 args dst (pos + 1)
        else
          w ← width 0 fmt;
          match (match w.2 with c2 :: f => if c2 =? 108 then f else w.2 | [] => [] end) with
          | [] => Err OutOfBounds
          | k :: fmt =>
            if k =? 99 then
              a ← next_word args;
              dst ← opt_res OutOfBounds dst.[pos := u8 a.1];
              vsprintf_loop n fmt a.2 dst (pos + 1)
            else if k =? 100 then
              a ← next_word args;
              d ← copy_string (decimal_text (s32 a.1) w.1) dst pos;
              vsprintf_loop n fmt a.2 d.1 d.2
            else if k =? 120 then
              a ← next_word args;
              d ← copy_string (hex_text (s64 a.1) w.1) dst pos;
              vsprintf_loop n fmt a.2 d.1 d.2
            else if k =? 115 then
              a ← next_ptr args;
              d ← copy_string (default (cstr "(null)") a.1) dst pos;
              vsprintf_loop n fmt a.2 d.1 d.2
            else vsprintf_loop n fmt args dst pos
          end
      end
    else
      dst ← opt_res OutOfBounds dst.[pos := c];
      vsprintf_loop n fmt args dst (pos + 1)
  end.

(** [dst] or [fmt] is [NULL] when it is [None]; the result is the buffer and the number
    of characters. *)
(* [src/src/sprintf.c:30-135 vsprintf] *)
Definition vsprintf (dst fmt : option (list Z)) (args : list arg) : res (option (list Z) * Z) :=
  match dst, fmt with
  | Some d, Some f =>
    r ← vsprintf_loop (S (length f)) f args d 0;
    d ← opt_res OutOfBounds (r.1).[r.2 := 0];
    Ok (Some d, u32 r.2)
  | _, _ => Ok (dst, 0)
  end.

(* [src/src/sprintf.c:140-145 sprintf] *)
Definition sprintf (dst fmt : list Z) (args : list arg) : res (list Z * Z) :=
  r ← vsprintf (Some dst) (Some fmt) args;
  Ok (default dst r.1, r.2).

(** [tmp] is the static buffer of 128 characters; the characters sent and the buffer
    after it. *)
(* [src/src/uart.c:126-144 printf] *)
Definition printf (tmp fmt : list Z) (args : list arg) : res (list Z * list Z) :=
  r ← vsprintf (Some tmp) (Some fmt) args;
  o ← uart_puts (default tmp r.1);
  Ok (o, default tmp r.1).
