(* ===== verification/ConsoleSpec.v ===== *)
(** What formatted output prints. *)
From Stdlib Require Import Ascii String.
From S2P Require Import Prelude CString Console.

(** * Numerals *)

(** The hexadecimal digits of [v] without leading zeros. *)
Fixpoint hexadecimal (n : nat) (v : Z) : list Z :=
  match n with
  | O => []
  | S n => if v <? 16 then [hex_char true v] else hexadecimal n (v / 16) ++ [hex_char true (v mod 16)]
  end.

Lemma decimal_loop_ok n v i p :
  n <> O -> 0 <= v < 10 ^ Z.of_nat n -> Z.of_nat n <= i ->
  decimal_loop n v i p = (i - Z.of_nat (length (decimal n v)), decimal n v ++ p).
Proof.
  revert v i p. induction n as [|n IH]; intros v i p Hn Hv Hi; [done|]. cbn [decimal_loop decimal].
  pose proof (Z.div_mod v 10 ltac:(lia)). pose proof (Z.mod_pos_bound v 10 ltac:(lia)).
  destruct (Z.ltb_spec v 10).
  - rewrite Z.mod_small, (Z.div_small v 10) by lia. done.
  - destruct (Z.eqb_spec (v / 10) 0); [lia|]. destruct n as [|n].
    { change (10 ^ Z.of_nat 1) with 10 in Hv. lia. }
    destruct (Z.ltb_spec 0 (i - 1)); [|lia]. cbn [negb andb].
    rewrite Nat2Z.inj_succ, Z.pow_succ_r in Hv by lia.
    rewrite (IH (v / 10) (i - 1) (48 + v mod 10 :: p)) by (done || (split; [lia|]; apply Z.div_lt_upper_bound; lia) || lia).
    rewrite length_app. cbn [length]. f_equal; [lia|]. by rewrite <-app_assoc.
Qed.

Lemma hex_digit_text d : 0 <= d < 16 -> d + (if 9 <? d then 0x37 else 0x30) = hex_char true d.
Proof. intros Hd. unfold hex_char. repeat zcase; lia. Qed.

Lemma hex_loop_ok n v i p :
  n <> O -> 0 <= v < 16 ^ Z.of_nat n -> Z.of_nat n <= i ->
  hex_loop n v i p = (i - Z.of_nat (length (hexadecimal n v)), hexadecimal n v ++ p).
Proof.
  revert v i p. induction n as [|n IH]; intros v i p Hn Hv Hi; [done|]. cbn [hex_loop hexadecimal].
  pose proof (Z.div_mod v 16 ltac:(lia)). pose proof (Z.mod_pos_bound v 16 ltac:(lia)).
  change (Z.land v 15) with (Z.land v (Z.ones 4)). rewrite Z.land_ones by lia. rewrite Z.shiftr_div_pow2 by lia.
  change (2 ^ 4) with 16. rewrite hex_digit_text by done. destruct (Z.ltb_spec v 16).
  - rewrite Z.mod_small, (Z.div_small v 16) by lia. done.
  - destruct (Z.eqb_spec (v / 16) 0); [lia|]. destruct n as [|n].
    { change (16 ^ Z.of_nat 1) with 16 in Hv. lia. }
    destruct (Z.ltb_spec 0 (i - 1)); [|lia]. cbn [negb andb].
    rewrite Nat2Z.inj_succ, Z.pow_succ_r in Hv by lia.
    rewrite (IH (v / 16) (i - 1) (hex_char true (v mod 16) :: p)) by (done || (split; [lia|]; apply Z.div_lt_upper_bound; lia) || lia).
    rewrite length_app. cbn [length]. f_equal; [lia|]. by rewrite <-app_assoc.
Qed.

(** A negative number has all the digits of its two's complement. *)
Lemma hex_loop_neg n v p : v < 0 -> n <> O ->
  hex_loop n v (Z.of_nat n) p = (0, hex_string true n (v mod 16 ^ Z.of_nat n) ++ p).
Proof.
  revert v p. induction n as [|n IH]; intros v p Hv Hn; [done|]. cbn [hex_loop hex_string].
  pose proof (Z.div_mod v 16 ltac:(lia)). pose proof (Z.mod_pos_bound v 16 ltac:(lia)).
  change (Z.land v 15) with (Z.land v (Z.ones 4)). rewrite Z.land_ones by lia. rewrite Z.shiftr_div_pow2 by lia.
  change (2 ^ 4) with 16. rewrite hex_digit_text by done.
  assert (Hd : v / 16 < 0) by (apply Z.div_lt_upper_bound; lia).
  assert (Er : v mod 16 ^ Z.of_nat (S n) = v mod 16 + 16 * ((v / 16) mod 16 ^ Z.of_nat n)).
  { rewrite Nat2Z.inj_succ, Z.pow_succ_r by lia. apply Z.rem_mul_r; [lia|apply Z.pow_pos_nonneg; lia]. }
  assert (E1 : (v mod 16 ^ Z.of_nat (S n)) mod 16 = v mod 16).
  { rewrite Er, (Z.mul_comm 16), Z.mod_add by lia. apply Z.mod_small. lia. }
  assert (E2 : (v mod 16 ^ Z.of_nat (S n)) / 16 = (v / 16) mod 16 ^ Z.of_nat n).
  { rewrite Er, (Z.mul_comm 16), Z.div_add by lia. rewrite (Z.div_small (v mod 16)) by lia. lia. }
  rewrite E1, E2. destruct (Z.eqb_spec (v / 16) 0); [lia|]. cbn [negb].
  replace (Z.of_nat (S n) - 1) with (Z.of_nat n) by lia. destruct n as [|n]; [done|].
  destruct (Z.ltb_spec 0 (Z.of_nat (S n))); [|lia]. cbn [andb].
  rewrite (IH (v / 16)) by done. by rewrite <-app_assoc.
Qed.

(** Padding on the left to a width. *)
Definition padded (c : Z) (w : nat) (l : list Z) : list Z := replicate (w - length l) c ++ l.

Lemma pad_loop_ok n c i limit p : i - limit <= Z.of_nat n ->
  pad_loop n c i limit p = replicate (Z.to_nat (i - limit)) c ++ p.
Proof.
  revert i p. induction n as [|n IH]; intros i p Hi; cbn [pad_loop].
  - by replace (Z.to_nat (i - limit)) with O by lia.
  - destruct (Z.ltb_spec limit i).
    + rewrite IH by lia. replace (Z.to_nat (i - limit)) with (S (Z.to_nat (i - 1 - limit))) by lia.
      rewrite <-(Nat.add_1_r (Z.to_nat (i - 1 - limit))), replicate_add, <-app_assoc. done.
    + by replace (Z.to_nat (i - limit)) with O by lia.
Qed.

(** The text of a number as the specification has it. *)
Definition show_decimal (v : Z) : list Z :=
  if v <? 0 then 45 :: decimal 18 (- v) else decimal 18 v.
Definition show_hex (v : Z) : list Z :=
  if v <? 2 ^ 63 then hexadecimal 16 v else hex_string true 16 v.

Lemma decimal_length n k v : 0 <= v < 10 ^ Z.of_nat k -> (k <> O) -> (length (decimal n v) <= k)%nat.
Proof.
  revert k v. induction n as [|n IH]; intros k v Hv Hk; cbn [decimal]; [cbn; lia|].
  destruct (Z.ltb_spec v 10); [cbn; lia|]. rewrite length_app. cbn [length].
  destruct k as [|[|k]]; [done|change (10 ^ Z.of_nat 1) with 10 in Hv; lia|].
  rewrite Nat2Z.inj_succ, Z.pow_succ_r in Hv by lia.
  pose proof (IH (S k) (v / 10)) as Hl. rewrite Nat.add_1_r. apply le_n_S, Hl; [|done].
  split; [apply Z.div_pos; lia|apply Z.div_lt_upper_bound; lia].
Qed.

Lemma hexadecimal_length n v : (length (hexadecimal n v) <= n)%nat.
Proof. revert v. induction n as [|n IH]; intros v; cbn; [lia|]. destruct (v <? 16); [cbn; lia|]. rewrite length_app. specialize (IH (v / 16)). cbn. lia. Qed.

Lemma decimal_text_ok v w : - 2 ^ 31 <= v < 2 ^ 31 -> 0 <= w < 18 ->
  decimal_text v w = padded 32 (Z.to_nat w) (show_decimal v) ++ [0].
Proof.
  intros Hv Hw. unfold decimal_text, show_decimal. set (a := if v <? 0 then - v else v).
  assert (Ha : 0 <= a <= 2 ^ 31) by (unfold a; zcase; lia).
  assert (Ec : (if 99999999999999999 <? a then 99999999999999999 else a) = a) by (zcase; lia).
  rewrite Ec. change 18%nat with (Z.to_nat 18) at 1. rewrite (decimal_loop_ok (Z.to_nat 18) a 18 [0]) by (done || (change (10 ^ Z.of_nat (Z.to_nat 18)) with 1000000000000000000; lia) || (cbn; lia)).
  change (Z.to_nat 18) with 18%nat. set (ds := decimal 18 a).
  assert (Hl : (length ds <= 10)%nat) by (apply decimal_length; [change (10 ^ Z.of_nat 10) with 10000000000; lia|done]).
  set (t := if v <? 0 then 45 :: ds else ds).
  assert (Et : (if v <? 0 then 45 :: decimal 18 (- v) else decimal 18 v) = t).
  { unfold t, ds, a. by destruct (v <? 0). }
  rewrite Et. assert (Hlt : (length t <= 11)%nat) by (clear Et; unfold t; destruct (v <? 0); cbn [length]; lia).
  assert (E : (if v <? 0 then (18 - Z.of_nat (length ds) - 1, 45 :: ds ++ [0]) else (18 - Z.of_nat (length ds), ds ++ [0]))
    = (18 - Z.of_nat (length t), t ++ [0])).
  { clear Et Hlt. unfold t. destruct (v <? 0); cbn [length]; [f_equal; lia|done]. }
  rewrite E. unfold padded. destruct (Z.ltb_spec 0 w), (Z.ltb_spec w 18); try lia; cbn [andb].
  - rewrite pad_loop_ok by lia. rewrite <-app_assoc. do 2 f_equal. lia.
  - replace (Z.to_nat w - length t)%nat with O by lia. done.
Qed.

Lemma hex_text_ok v w : 0 <= v < 2 ^ 64 -> 0 <= w <= 16 ->
  hex_text (s64 v) w = padded 48 (Z.to_nat w) (show_hex v) ++ [0].
Proof.
  intros Hv Hw. unfold hex_text, show_hex.
  assert (E : exists t, t = (if v <? 2 ^ 63 then hexadecimal 16 v else hex_string true 16 v) /\ (length t <= 16)%nat /\
    hex_loop 16 (s64 v) 16 [0] = (16 - Z.of_nat (length t), t ++ [0])).
  { eexists. split; [done|]. destruct (Z.ltb_spec v (2 ^ 63)) as [Hlt|Hge].
    - split; [apply hexadecimal_length|]. rewrite s64_small by lia. apply hex_loop_ok; [done|change (16 ^ Z.of_nat 16) with (2 ^ 64); lia|cbn; lia].
    - rewrite hex_string_length. split; [done|].
      assert (Es : s64 v = v - 2 ^ 64).
      { unfold s64. replace (v + 2 ^ 63) with (v - 2 ^ 63 + 1 * 2 ^ 64) by lia. rewrite Z.mod_add by lia.
        rewrite Z.mod_small by lia. lia. }
      rewrite Es. change 16 with (Z.of_nat 16) at 1. rewrite hex_loop_neg by (done || lia). do 3 f_equal.
      change (16 ^ Z.of_nat 16) with (2 ^ 64). replace (v - 2 ^ 64) with (v + (-1) * 2 ^ 64) by lia.
      rewrite Z.mod_add by lia. apply Z.mod_small. lia. }
  destruct E as (t & <- & Hl & ->). unfold padded. destruct (Z.ltb_spec 0 w), (Z.leb_spec w 16); try lia; cbn [andb].
  - rewrite pad_loop_ok by lia. rewrite <-app_assoc. do 2 f_equal. lia.
  - replace (Z.to_nat w - length t)%nat with O by lia. done.
Qed.

(** * Formats

    A format is a sequence of pieces; [fmt_of] is its text, [args_of] are the arguments
    it takes and [render] is what it prints. *)

Inductive piece :=
  | Lit (c : Z)
  | Percent
  | Dec (w : nat) (v : Z)
  | Hex (w : nat) (v : Z)
  | Chr (v : Z)
  | Str (s : option (list Z)).

Definition width_text (w : nat) : list Z := match w with O => [] | _ => decimal 18 (Z.of_nat w) end.
Definition piece_fmt (p : piece) : list Z :=
  match p with
  | Lit c => [c]
  | Percent => [37; 37]
  | Dec w _ => 37 :: width_text w ++ [100]
  | Hex w _ => 37 :: width_text w ++ [120]
  | Chr _ => [37; 99]
  | Str _ => [37; 115]
  end.
Definition piece_args (p : piece) : list arg :=
  match p with
  | Lit _ | Percent => []
  | Dec _ v | Hex _ v | Chr v => [ArgWord v]
  | Str (Some s) => [ArgStr (s ++ [0])]
  | Str None => [ArgNull]
  end.
Definition piece_text (p : piece) : list Z :=
  match p with
  | Lit c => [c]
  | Percent => [37]
  | Dec w v => padded 32 w (show_decimal (s32 v))
  | Hex w v => padded 48 w (show_hex v)
  | Chr v => [u8 v]
  | Str s => default (chars "(null)") s
  end.
Definition piece_ok (p : piece) : Prop :=
  match p with
  | Lit c => 0 < c < 256 /\ c <> 37
  | Percent => True
  | Dec w v => (w < 18)%nat
  | Hex w v => (w <= 16)%nat /\ 0 <= v < 2 ^ 64
  | Chr v => True
  | Str s => from_option nonzero True s
  end.

Definition fmt_of (ps : list piece) : list Z := flat_map piece_fmt ps.
Definition args_of (ps : list piece) : list arg := flat_map piece_args ps.
Definition render (ps : list piece) : list Z := flat_map piece_text ps.

(** The width is read back. *)
Lemma width_digits l len k rest : forallb check_digit l = true -> check_digit k = false ->
  width len (l ++ k :: rest) = Ok (foldl (fun n c => s32 (s32 (n * 10) + (c - 48))) len l, k :: rest).
Proof.
  intros Hl Hk. revert len Hl. induction l as [|c l IH]; intros len Hl; cbn [app width foldl].
  - unfold check_digit in Hk. by rewrite Hk.
  - cbn [forallb] in Hl. apply andb_true_iff in Hl as [Hc Hl]. unfold check_digit in Hc. by rewrite Hc, IH.
Qed.

Lemma width_ok w k rest : (w < 18)%nat -> check_digit k = false ->
  width 0 (width_text w ++ k :: rest) = Ok (Z.of_nat w, k :: rest).
Proof.
  intros Hw Hk. do 18 (destruct w as [|w]; [apply width_digits; [reflexivity|done]|]). lia.
Qed.

(** The character after [%] and a width is never [%]. *)
Lemma width_head w k : k <> 37 -> exists c t, width_text w ++ [k] = c :: t /\ c <> 37.
Proof.
  intros Hk. destruct (width_text w) as [|c t] eqn:E; [by exists k, []|]. exists c, (t ++ [k]). split; [done|].
  destruct w as [|w]; [done|]. apply decimal_head in E; [lia|lia].
Qed.

(** The buffer is what has been written followed by what is left of it. *)
Definition filled (t d o : list Z) : res (list Z * Z) :=
  if (length t <=? length o)%nat then Ok (d ++ t ++ drop (length t) o, Z.of_nat (length d + length t))
  else Err OutOfBounds.

Lemma put_ok {B} c d o (k : list Z -> res B) :
  (l ← opt_res OutOfBounds (d ++ o).[Z.of_nat (length d) := c]; k l) =
  match o with [] => Err OutOfBounds | _ :: o => k ((d ++ [c]) ++ o) end.
Proof.
  destruct o as [|x o].
  - unfold zset. by rewrite app_nil_r, Z.ltb_irrefl, andb_false_r.
  - rewrite zset_app_mid by done. cbn [opt_res]. rewrite res_bind_ok. by rewrite <-app_assoc.
Qed.

Lemma pos_snoc (d : list Z) c : Z.of_nat (length d) + 1 = Z.of_nat (length (d ++ [c])).
Proof. rewrite length_app. cbn. lia. Qed.

Lemma copy_string_ok t r d o : nonzero t ->
  copy_string (t ++ 0 :: r) (d ++ o) (Z.of_nat (length d)) = filled t d o.
Proof.
  intros Ht. revert d o. induction t as [|c t IH]; intros d o.
  - unfold filled. cbn. by rewrite Nat.add_0_r.
  - apply nonzero_cons in Ht as [Hc Ht]. cbn [app copy_string]. destruct (Z.eqb_spec c 0); [lia|].
    rewrite put_ok. destruct o as [|x o]; [done|]. rewrite (pos_snoc d c), (IH Ht). unfold filled.
    cbn [length Nat.leb drop]. destruct (length t <=? length o)%nat; [|done].
    rewrite length_app, <-app_assoc. cbn [length app]. do 2 f_equal. lia.
Qed.

(** The texts of numbers hold no NUL. *)
Lemma hex_char_nonzero d : 0 <= d < 16 -> 0 < hex_char true d < 256.
Proof. intros Hd. unfold hex_char. repeat zcase; lia. Qed.

Lemma hex_string_nonzero n v : nonzero (hex_string true n v).
Proof.
  revert v. induction n as [|n IH]; intros v; cbn [hex_string]; [apply nonzero_nil|].
  apply nonzero_app. split; [apply IH|]. apply nonzero_cons. split; [|apply nonzero_nil].
  apply hex_char_nonzero. apply Z.mod_pos_bound. lia.
Qed.

Lemma hexadecimal_nonzero n v : 0 <= v -> nonzero (hexadecimal n v).
Proof.
  revert v. induction n as [|n IH]; intros v Hv; cbn [hexadecimal]; [apply nonzero_nil|].
  destruct (Z.ltb_spec v 16).
  - apply nonzero_cons. split; [|apply nonzero_nil]. apply hex_char_nonzero. lia.
  - apply nonzero_app. split; [apply IH, Z.div_pos; lia|]. apply nonzero_cons. split; [|apply nonzero_nil].
    apply hex_char_nonzero, Z.mod_pos_bound. lia.
Qed.

Lemma decimal_nonzero n v : 0 <= v -> nonzero (decimal n v).
Proof. intros Hv. eapply Forall_impl; [by apply decimal_digits|]. cbn. lia. Qed.

Lemma padded_nonzero c w l : 0 < c < 256 -> nonzero l -> nonzero (padded c w l).
Proof. intros Hc Hl. unfold padded. apply nonzero_app. split; [|done]. by apply Forall_replicate. Qed.

Lemma show_decimal_nonzero v : nonzero (show_decimal v).
Proof.
  unfold show_decimal. destruct (Z.ltb_spec v 0); [|by apply decimal_nonzero].
  apply nonzero_cons. split; [lia|]. apply decimal_nonzero. lia.
Qed.

Lemma show_hex_nonzero v : 0 <= v -> nonzero (show_hex v).
Proof.
  intros Hv. unfold show_hex. destruct (v <? 2 ^ 63); [by apply hexadecimal_nonzero|apply hex_string_nonzero].
Qed.
#[export] Hint Resolve padded_nonzero show_decimal_nonzero show_hex_nonzero : kernel.

(** * One piece *)

(** The conversion after a width is copied by [copy_string]; the loop goes on after it. *)
Lemma conversion_ok n w k rest args d o :
  (w < 18)%nat -> check_digit k = false -> k <> 37 -> k <> 108 ->
  vsprintf_loop (S n) (37 :: width_text w ++ k :: rest) args (d ++ o) (Z.of_nat (length d)) =
  (if k =? 99 then
     a ← next_word args;
     dst ← opt_res OutOfBounds (d ++ o).[Z.of_nat (length d) := u8 a.1];
     vsprintf_loop n rest a.2 dst (Z.of_nat (length d) + 1)
   else if k =? 100 then
     a ← next_word args;
     d ← copy_string (decimal_text (s32 a.1) (Z.of_nat w)) (d ++ o) (Z.of_nat (length d));
     vsprintf_loop n rest a.2 d.1 d.2
   else if k =? 120 then
     a ← next_word args;
     d ← copy_string (hex_text (s64 a.1) (Z.of_nat w)) (d ++ o) (Z.of_nat (length d));
     vsprintf_loop n rest a.2 d.1 d.2
   else if k =? 115 then
     a ← next_ptr args;
     d ← copy_string (default (cstr "(null)") a.1) (d ++ o) (Z.of_nat (length d));
     vsprintf_loop n rest a.2 d.1 d.2
   else vsprintf_loop n rest args (d ++ o) (Z.of_nat (length d))).
Proof.
  intros Hw Hd H37 H108. cbn [vsprintf_loop]. change (37 =? 0) with false. change (37 =? 37) with true. cbn match.
  pose proof (width_ok w k rest Hw Hd) as E. destruct (width_head w k H37) as (c & t & Ec & Hc).
  assert (Et : width_text w ++ k :: rest = c :: t ++ rest).
  { change (k :: rest) with ([k] ++ rest). by rewrite app_assoc, Ec. }
  rewrite Et in *. destruct (Z.eqb_spec c 37); [done|]. rewrite E, res_bind_ok. cbn [fst snd].
  destruct (Z.eqb_spec k 108); [done|]. done.
Qed.

Lemma put_filled {B} c d o (k : list Z -> Z -> res B) :
  (l ← opt_res OutOfBounds (d ++ o).[Z.of_nat (length d) := c]; k l (Z.of_nat (length d) + 1)) =
  (r ← filled [c] d o; k r.1 r.2).
Proof.
  rewrite put_ok. unfold filled. destruct o as [|x o]; [done|]. cbn [length Nat.leb drop].
  rewrite res_bind_ok, <-app_assoc. cbn [fst snd app]. f_equal. lia.
Qed.

Lemma piece_step p n rest args d o : piece_ok p ->
  vsprintf_loop (S n) (piece_fmt p ++ rest) (piece_args p ++ args) (d ++ o) (Z.of_nat (length d)) =
  (r ← filled (piece_text p) d o; vsprintf_loop n rest args r.1 r.2).
Proof.
  destruct p as [c| |w v|w v|v|[s|]]; cbn [piece_ok piece_fmt piece_args piece_text from_option default]; intros Hp.
  - cbn [app vsprintf_loop]. destruct (Z.eqb_spec c 0), (Z.eqb_spec c 37); try lia. by rewrite put_filled.
  - cbn [app vsprintf_loop]. change (37 =? 0) with false. change (37 =? 37) with true. cbn match. by rewrite put_filled.
  - rewrite <-app_comm_cons, <-app_assoc. cbn [app]. rewrite conversion_ok by done. cbn [next_word Z.eqb Pos.eqb].
    rewrite res_bind_ok. cbn [fst snd]. rewrite decimal_text_ok, Nat2Z.id by (apply s32_range || lia).
    by rewrite copy_string_ok by auto with kernel lia.
  - destruct Hp as [Hw Hv]. rewrite <-app_comm_cons, <-app_assoc. cbn [app]. rewrite conversion_ok by (done || lia).
    cbn [next_word Z.eqb Pos.eqb]. rewrite res_bind_ok. cbn [fst snd]. rewrite hex_text_ok, Nat2Z.id by lia.
    by rewrite copy_string_ok by (apply padded_nonzero; [lia|apply show_hex_nonzero; lia]).
  - pose proof (conversion_ok n 0 99 rest (ArgWord v :: args) d o ltac:(lia) eq_refl ltac:(lia) ltac:(lia)) as E.
    cbn [width_text app next_word Z.eqb Pos.eqb] in *. rewrite E, res_bind_ok. cbn [fst snd]. by rewrite put_filled.
  - pose proof (conversion_ok n 0 115 rest (ArgStr (s ++ [0]) :: args) d o ltac:(lia) eq_refl ltac:(lia) ltac:(lia)) as E.
    cbn [width_text app next_ptr Z.eqb Pos.eqb] in *. rewrite E, res_bind_ok. cbn [fst snd default].
    unfold id. by rewrite copy_string_ok.
  - pose proof (conversion_ok n 0 115 rest (ArgNull :: args) d o ltac:(lia) eq_refl ltac:(lia) ltac:(lia)) as E.
    cbn [width_text app next_ptr Z.eqb Pos.eqb] in *. rewrite E, res_bind_ok. cbn [fst snd default].
    unfold cstr. rewrite copy_string_ok by (repeat constructor; lia). done.
Qed.

(** * The property *)

Lemma filled_app t u d o :
  (r ← filled t d o; filled u (d ++ t) (drop (length t) o)) = filled (t ++ u) d o.
Proof.
  unfold filled. rewrite !length_app, length_drop.
  destruct (Nat.leb_spec (length t) (length o)), (Nat.leb_spec (length t + length u) (length o)); try lia; try done;
    rewrite res_bind_ok; destruct (Nat.leb_spec (length u) (length o - length t)); try lia; try done.
  rewrite drop_drop, <-!app_assoc. do 3 f_equal. lia.
Qed.

Lemma vsprintf_loop_ok ps n args d o : Forall piece_ok ps -> (length ps < n)%nat ->
  vsprintf_loop n (fmt_of ps ++ [0]) (args_of ps ++ args) (d ++ o) (Z.of_nat (length d)) = filled (render ps) d o.
Proof.
  revert n d o. induction ps as [|p ps IH]; intros n d o Hps Hn; (destruct n as [|n]; [cbn in Hn; lia|]).
  - cbn. unfold filled. cbn. by rewrite Nat.add_0_r.
  - apply Forall_cons in Hps as [Hp Hps]. cbn [fmt_of args_of render flat_map]. rewrite <-!app_assoc.
    rewrite piece_step by done. rewrite <-filled_app. unfold filled at 1 3.
    destruct (length (piece_text p) <=? length o)%nat; [|done]. rewrite !res_bind_ok. cbn [fst snd].
    rewrite app_assoc, <-length_app. apply IH; [done|cbn in Hn; lia].
Qed.

Lemma fmt_length ps : (length ps <= length (fmt_of ps))%nat.
Proof.
  induction ps as [|p ps IH]; [done|]. cbn [fmt_of flat_map length]. rewrite length_app.
  assert (1 <= length (piece_fmt p))%nat by (destruct p; cbn; lia). fold (fmt_of ps). lia.
Qed.

Lemma vsprintf_ok dst ps args : Forall piece_ok ps -> Z.of_nat (length dst) < 2 ^ 32 ->
  vsprintf (Some dst) (Some (fmt_of ps ++ [0])) (args_of ps ++ args) =
  if (length (render ps) <? length dst)%nat
  then Ok (Some (render ps ++ 0 :: drop (S (length (render ps))) dst), Z.of_nat (length (render ps)))
  else Err OutOfBounds.
Proof.
  intros Hps Hd. unfold vsprintf.
  pose proof (vsprintf_loop_ok ps (S (length (fmt_of ps ++ [0]))) args [] dst Hps) as E. cbn [app length] in E.
  change (Z.of_nat 0) with 0 in E. rewrite E by (rewrite length_app; pose proof (fmt_length ps); lia). unfold filled. set (t := render ps).
  destruct (Nat.leb_spec (length t) (length dst)), (Nat.ltb_spec (length t) (length dst)); try lia; try done;
    rewrite res_bind_ok; cbn [fst snd app Nat.add].
  - destruct (drop (length t) dst) as [|x l] eqn:El; [apply (f_equal length) in El; rewrite length_drop in El; cbn in El; lia|].
    cbn [length Nat.add]. rewrite zset_app_mid by done. cbn [opt_res]. rewrite res_bind_ok, u32_small by lia. do 4 f_equal.
    rewrite <-(Nat.add_1_r (length t)), <-drop_drop, El. done.
  - rewrite drop_ge by lia. unfold zset. by rewrite app_nil_r, Z.ltb_irrefl, andb_false_r.
Qed.

(** C40. [vsprintf] writes what the pieces of its format print, ended by a NUL, and returns
    the number of characters; the rest of the buffer is as it was.  When the text and its
    NUL do not fit in the buffer it writes past its end: nothing bounds it.  The numbers
    are printed in full at every width the code pads to. *)
Theorem vsprintf_spec dst ps args :
  Forall piece_ok ps -> Z.of_nat (length dst) < 2 ^ 32 ->
  vsprintf (Some dst) (Some (fmt_of ps ++ [0])) (args_of ps ++ args) =
  if (length (render ps) <? length dst)%nat
  then Ok (Some (render ps ++ 0 :: drop (S (length (render ps))) dst), Z.of_nat (length (render ps)))
  else Err OutOfBounds.
Proof. apply vsprintf_ok. Qed.

(** A format with padded numbers, in a buffer of sixteen characters. *)
Lemma vsprintf_spec_witness :
  vsprintf (Some (replicate 16 7)) (Some (cstr "n=%3d 0x%4x%%")) [ArgWord 42; ArgWord 255] =
  Ok (Some (cstr "n= 42 0x00FF%" ++ [7; 7]), 13).
Proof.
  exact (vsprintf_spec (replicate 16 7)
    [Lit 110; Lit 61; Dec 3 42; Lit 32; Lit 48; Lit 120; Hex 4 255; Percent] []
    ltac:(repeat constructor; lia) ltac:(cbn; lia)).
Defined.
