(* ===== verification/Kernel.v ===== *)
(** The state of the whole kernel, and the parts of it a handler works on.

    The memory of the current process is a map from its addresses to their bytes: the
    translation, whose tables [PageTable] models, is the processor's, and a task switch or
    [exec] brings another map.  [k_rx] are the characters the UART is going to receive,
    [k_tx] those that were sent by the functions of this layer; the messages of the
    functions they call are not in it.  [k_ier] is the interrupt enable register of the
    UART. *)
From Stdlib Require Import Ascii String.
From S2P Require Import Prelude CString FsData Sched Timer Queue Console.

Record kernel := Kernel {
  k_sched : sched_state;
  k_fs : fs_state;
  k_user : gmap Z Z;
  k_timers : timers;
  k_read : queue;
  k_write : queue;
  k_rx : list Z;
  k_tx : list Z;
  k_mbox : list Z;
  k_ier : Z
}.

Definition with_sched (s : sched_state) (k : kernel) : kernel :=
  Kernel s (k_fs k) (k_user k) (k_timers k) (k_read k) (k_write k) (k_rx k) (k_tx k) (k_mbox k) (k_ier k).
Definition with_fs (s : fs_state) (k : kernel) : kernel :=
  Kernel (k_sched k) s (k_user k) (k_timers k) (k_read k) (k_write k) (k_rx k) (k_tx k) (k_mbox k) (k_ier k).
Definition with_user (u : gmap Z Z) (k : kernel) : kernel :=
  Kernel (k_sched k) (k_fs k) u (k_timers k) (k_read k) (k_write k) (k_rx k) (k_tx k) (k_mbox k) (k_ier k).
Definition with_timers (t : timers) (k : kernel) : kernel :=
  Kernel (k_sched k) (k_fs k) (k_user k) t (k_read k) (k_write k) (k_rx k) (k_tx k) (k_mbox k) (k_ier k).
Definition with_queues (r w : queue) (k : kernel) : kernel :=
  Kernel (k_sched k) (k_fs k) (k_user k) (k_timers k) r w (k_rx k) (k_tx k) (k_mbox k) (k_ier k).
Definition with_rx (l : list Z) (k : kernel) : kernel :=
  Kernel (k_sched k) (k_fs k) (k_user k) (k_timers k) (k_read k) (k_write k) l (k_tx k) (k_mbox k) (k_ier k).
Definition with_tx (l : list Z) (k : kernel) : kernel :=
  Kernel (k_sched k) (k_fs k) (k_user k) (k_timers k) (k_read k) (k_write k) (k_rx k) l (k_mbox k) (k_ier k).
Definition with_mbox (l : list Z) (k : kernel) : kernel :=
  Kernel (k_sched k) (k_fs k) (k_user k) (k_timers k) (k_read k) (k_write k) (k_rx k) (k_tx k) l (k_ier k).
Definition with_ier (v : Z) (k : kernel) : kernel :=
  Kernel (k_sched k) (k_fs k) (k_user k) (k_timers k) (k_read k) (k_write k) (k_rx k) (k_tx k) (k_mbox k) v.

(** * Operations on a part of the state *)

Section On.
Context {S : Type} (get_part : kernel -> S) (set_part : S -> kernel -> kernel).

Definition on_part {A} (m : M S A) : M kernel A :=
  fun k => match m (get_part k) with
           | Ok (a, s) => Ok (a, set_part s k)
           | Err f => Err f
           end.

Lemma on_part_ok {A} (m : M S A) k a s : m (get_part k) = Ok (a, s) -> on_part m k = Ok (a, set_part s k).
Proof. intros E. unfold on_part. by rewrite E. Qed.

Lemma on_part_err {A} (m : M S A) k f : m (get_part k) = Err f -> on_part m k = Err f.
Proof. intros E. unfold on_part. by rewrite E. Qed.
End On.

Definition on_sched {A} : M sched_state A -> M kernel A := on_part k_sched with_sched.
Definition on_fs {A} : M fs_state A -> M kernel A := on_part k_fs with_fs.
Definition on_timers {A} : M timers A -> M kernel A := on_part k_timers with_timers.
Definition lift_res {A} (r : res A) : M kernel A := fun k => match r with Ok a => Ok (a, k) | Err f => Err f end.

Lemma lift_res_ok {A} (r : res A) k a : r = Ok a -> lift_res r k = Ok (a, k).
Proof. by intros ->. Qed.

(** * The memory of the process *)

(** The bytes from an address on, as far as the memory goes. *)
Fixpoint user_run (n : nat) (u : gmap Z Z) (p : Z) : list Z :=
  match n with
  | O => []
  | S n => match u !! p with Some c => c :: user_run n u (p + 1) | None => [] end
  end.
Definition user_at (p : Z) : M kernel (list Z) := gets (fun k => user_run (base.size (k_user k)) (k_user k) p).

Fixpoint put_run (u : gmap Z Z) (p : Z) (l : list Z) : gmap Z Z :=
  match l with
  | [] => u
  | c :: l => put_run (<[p := c]> u) (p + 1) l
  end.
Lemma put_run_lookup u p l a :
  put_run u p l !! a = if (p <=? a) && (a <? p + Z.of_nat (length l)) then l !! Z.to_nat (a - p) else u !! a.
Proof.
  revert u p. induction l as [|c l IH]; intros u p; cbn [put_run length].
  - destruct (Z.leb_spec p a), (Z.ltb_spec a (p + Z.of_nat 0)); cbn [andb]; (lia || done).
  - rewrite IH. destruct (Z.eq_dec a p) as [->|Hne].
    + destruct (Z.leb_spec (p + 1) p); [lia|]. cbn [andb]. rewrite lookup_insert_eq.
      destruct (Z.leb_spec p p), (Z.ltb_spec p (p + Z.of_nat (S (length l)))); try lia. cbn [andb].
      by rewrite Z.sub_diag.
    + rewrite lookup_insert_ne by done.
      destruct (Z.leb_spec (p + 1) a), (Z.ltb_spec a (p + 1 + Z.of_nat (length l))), (Z.leb_spec p a),
        (Z.ltb_spec a (p + Z.of_nat (S (length l)))); try lia; cbn [andb]; try done.
      replace (Z.to_nat (a - p)) with (S (Z.to_nat (a - (p + 1)))) by lia. done.
Qed.

Definition put_user (p : Z) (l : list Z) : M kernel unit := modify (fun k => with_user (put_run (k_user k) p l) k).

(** * The UART *)

(** The receiver is waited for until it has a character. *)
(* [src/src/uart.c:82-92 uart_getc] *)
Definition uart_getc : M kernel Z :=
  fun k => match k_rx k with
           | c :: l => let r := u8 c in Ok (if r =? 13 then 10 else r, with_rx l k)
           | [] => Err Hang
           end.

(* [src/src/uart.c:70-77 uart_send] *)
Definition uart_send (c : Z) : M kernel unit := modify (fun k => with_tx (k_tx k ++ [c]) k).

(** A string of the kernel's. *)
Definition say (s : String.string) : M kernel unit :=
  l ← lift_res (uart_puts (cstr s)); modify (fun k => with_tx (k_tx k ++ l) k).
Definition say_line (s : String.string) : M kernel unit :=
  l ← lift_res (uart_puts (chars s ++ [10; 0])); modify (fun k => with_tx (k_tx k ++ l) k).
Definition say_format (s : String.string) (args : list arg) : M kernel unit :=
  r ← lift_res (printf (replicate 128 0) (cstr s) args); modify (fun k => with_tx (k_tx k ++ r.1) k).
Definition say_hex (v : Z) : M kernel unit := modify (fun k => with_tx (k_tx k ++ uart_hex v) k).

(** A line of input, echoed: the buffer [cmd] after it.  An empty line leaves the buffer
    as it was. *)
(* [src/src/shell.c:25-29 shell_input] *)
Fixpoint shell_input_loop (n : nat) (cmd : list Z) (idx end_ : Z) : M kernel (list Z) :=
  match n with
  | O => fail NoFuel
  | S n =>
    c ← uart_getc;
    if c =? 10 then mret cmd
    else
      _ ← uart_send c;
      cmd ← lift_opt OutOfBounds cmd.[idx := c];
      cmd ← lift_opt OutOfBounds cmd.[end_ + 1 := 0];
      shell_input_loop n cmd (idx + 1) (end_ + 1)
  end.
(* [src/src/shell.c:20-30 shell_input] *)
Definition shell_input (cmd : list Z) : M kernel (list Z) :=
  n ← gets (fun k => S (length (k_rx k)));
  shell_input_loop n cmd 0 0.
