(* ===== verification/Initrd.v ===== *)
(** The archive of the boot as the shell, [exec] and the boot see it: the rest of
    [src/src/initrd.c].

    The archive is the list of the bytes from [cpio_base] on, and a header is at an offset
    in it. *)
From Stdlib Require Import Ascii String.
From S2P Require Import Prelude ListHead Memblock MemblockAlloc Buddy Slab PageTable Sched CMem CString FsData.
From S2P Require Import Initramfs Process Console Kernel.

(** The bytes from an offset on. *)
Definition archive_at (l : list Z) (off : Z) : res (list Z) :=
  if (0 <=? off) && (off <=? Z.of_nat (length l)) then Ok (drop (Z.to_nat off) l) else Err OutOfBounds.

(** [!memcmp(buf, "070701", 6) && memcmp(buf + sizeof(cpio_f), "TRAILER!!", 9)] *)
Definition is_file (buf : list Z) : res bool :=
  m ← is_cpio buf;
  if negb m then Ok false else not_trailer buf.

Definition newline : list Z := [13; 10].

(* [src/src/initrd.c:85-94 initrd_ls] *)
Fixpoint initrd_ls_loop (fuel : nat) (l : list Z) (off : Z) : res (list Z) :=
  match fuel with
  | O => Err NoFuel
  | S fuel =>
    buf ← archive_at l off;
    f ← is_file buf;
    if negb f then Ok []
    else
      z ← cpio_sizes buf;
      name ← uart_puts (drop 110 buf);
      rest ← initrd_ls_loop fuel l (off + cpio_step z.1 z.2);
      Ok (name ++ newline ++ rest)
  end.
(** What is sent to the UART. *)
(* [src/src/initrd.c:77-95 initrd_ls] *)
Definition initrd_ls (l : list Z) : res (list Z) :=
  m ← is_cpio l;
  if negb m then Ok []
  else
    r ← initrd_ls_loop (S (length l)) l 0;
    Ok (chars "." ++ newline ++ r).

(** The fields [initrd_list] prints. *)
Definition hex_field (buf : list Z) (off : nat) : res (list Z) :=
  v ← hex2bin (drop off buf) 8; Ok (uart_hex v).

(* [src/src/initrd.c:52-71 initrd_list] *)
Fixpoint initrd_list_loop (fuel : nat) (base : Z) (l : list Z) (off : Z) : res (list Z) :=
  match fuel with
  | O => Err NoFuel
  | S fuel =>
    buf ← archive_at l off;
    f ← is_file buf;
    if negb f then Ok []
    else
      z ← cpio_sizes buf;
      mode ← hex_field buf 14;
      uid ← hex_field buf 22;
      gid ← hex_field buf 30;
      name ← uart_puts (drop 110 buf);
      rest ← initrd_list_loop fuel base l (off + cpio_step z.1 z.2);
      Ok (mode ++ [32] ++ uart_hex (u32 (base + off) + CPIO_SIZE + z.1) ++ [32] ++ uart_hex z.2 ++ [32] ++
          uid ++ [46] ++ gid ++ [9] ++ name ++ newline ++ rest)
  end.
(* [src/src/initrd.c:44-72 initrd_list] *)
Definition initrd_list (base : Z) (l : list Z) : res (list Z) :=
  m ← is_cpio l;
  if negb m then Ok []
  else
    h ← uart_puts (cstr "Type     Offset   Size     Access rights");
    h2 ← uart_puts (9 :: cstr "Filename");
    r ← initrd_list_loop (S (length l)) base l 0;
    Ok (h ++ h2 ++ newline ++ r).

(** The header of a file, by name: its offset and its two sizes. *)
(* [src/src/initrd.c:109-129 initrd_cat] *)
Fixpoint find_file (fuel : nat) (name l : list Z) (off : Z) : res (option (Z * Z * Z)) :=
  match fuel with
  | O => Err NoFuel
  | S fuel =>
    buf ← archive_at l off;
    f ← is_file buf;
    if negb f then Ok None
    else
      z ← cpio_sizes buf;
      d ← strcmp name (drop 110 buf);
      if d =? 0 then Ok (Some (off, z.1, z.2))
      else find_file fuel name l (off + cpio_step z.1 z.2)
  end.

(** [size] bytes at an offset. *)
Definition archive_bytes (l : list Z) (off size : Z) : res (list Z) :=
  b ← archive_at l off;
  if (0 <=? size) && (size <=? Z.of_nat (length b)) then Ok (take (Z.to_nat size) b) else Err OutOfBounds.

(** The bytes of the file, as they are. *)
(* [src/src/file.c:3-7 readfile] *)
Definition readfile (l : list Z) (off size : Z) : res (list Z) := archive_bytes l off size.

(** What is sent once the name, in [buffer], was read. *)
(* [src/src/initrd.c:97-131 initrd_cat] *)
Definition initrd_cat (buffer l : list Z) : res (list Z) :=
  m ← is_cpio l;
  if negb m then Ok []
  else
    f ← find_file (S (length l)) buffer l 0;
    match f with
    | None => uart_puts (chars "File not found" ++ [10; 0])
    | Some (off, ns, fs) =>
      if fs =? 0 then Ok ([10] ++ chars "This is a directory" ++ newline)
      else
        b ← readfile l (off + CPIO_SIZE + ns) fs;
        Ok (10 :: b)
    end.

(** ** Running a program of the archive *)

(** [memmove] of bytes to the memory of the kernel, which the archive is not a part of:
    the order of the bytes does not matter. *)
(* [src/library/kernel.h:52-61 memmove] *)
Fixpoint move_bytes (d : Z) (bytes : list Z) : M Slab.slab_state unit :=
  match bytes with
  | [] => mret tt
  | c :: bytes => _ ← store_byte d c; move_bytes (u64 (d + 1)) bytes
  end.

Section Code.
Context `{Link}.

(** The bytes of the archive. *)
Definition archive : M kernel (list Z) := on_fs (p ← gets cpio_base; bytes_from p).

(** The copy of the program and its size. *)
(* [src/src/initrd.c:134-171 _initrd_usr_prog] *)
Definition _initrd_usr_prog (cmd : list Z) : M kernel (option (Z * Z)) :=
  l ← archive;
  m ← lift_res (is_cpio l);
  if negb m then mret None
  else
    f ← lift_res (find_file (S (length l)) cmd l 0);
    match f with
    | None => mret None
    | Some (off, ns, fs) =>
      if fs =? 0 then mret None
      else
        prog_page ← on_sched (on_heap (kmalloc (u64 fs)));
        b ← lift_res (archive_bytes l (off + data_offset ns) fs);
        _ ← on_sched (on_heap (move_bytes prog_page b));
        mret (Some (prog_page, u32 fs))
    end.

(** The processor goes to the program, or the function returns. *)
(* [src/src/initrd.c:174-185 initrd_usr_prog] *)
Definition initrd_usr_prog (cmd : list Z) : M kernel resume :=
  prog ← _initrd_usr_prog cmd;
  match prog with
  | Some (p, size) => on_sched (do_exec p size)
  | None => mret Return
  end.
End Code.

(** ** The memory of the archive *)

(** The offset of the trailer: this loop does not test the magic number. *)
(* [src/src/initrd.c:207-214 initrd_reserve_memory] *)
Fixpoint find_trailer (fuel : nat) (l : list Z) (off : Z) : res Z :=
  match fuel with
  | O => Err NoFuel
  | S fuel =>
    buf ← archive_at l off;
    t ← not_trailer buf;
    if negb t then Ok off
    else
      z ← cpio_sizes buf;
      find_trailer fuel l (off + cpio_step z.1 z.2)
  end.
(** [base] is the virtual address of the archive. *)
(* [src/src/initrd.c:196-218 initrd_reserve_memory] *)
Definition initrd_reserve_memory (mb : memblock) (base : Z) (l : list Z) : res memblock :=
  m ← is_cpio l;
  if negb m then Ok mb
  else
    off ← find_trailer (S (length l)) l 0;
    let end_ := off + ALIGN (CPIO_SIZE + 10) 4 in
    r ← memblock_reserve mb (virt_to_phys base) (ALIGN end_ 8);
    Ok r.2.
