(* ===== verification/Syscall.v ===== *)
(** The system calls on files, on the UART, [exec] and the mailbox, and the table of all of
    them [src/src/syscall.c]; the handler that dispatches them, [syscall_handler] of
    [src/src/exception.c]. *)
From Stdlib Require Import Ascii String.
From S2P Require Import Prelude Sched Process CString FsData Vfs Fat32 Queue Timer Console Kernel Initrd.

Section Code.
Context `{Link} `{Ops}.
(** [videocore]: the answer of the video core to a request in the message buffer. *)
Variable videocore : Z -> list Z -> list Z.

(** * Registers and the process *)

Definition x_at (tf i : Z) : M kernel Z := on_sched (get_x tf i).
Definition set_x_at (tf i v : Z) : M kernel unit := on_sched (set_x tf i v).
Definition this_task : M kernel task_struct := on_sched current_task.

(** [trapframe->x[0] = v; return status;] *)
Definition answer (tf v status : Z) : M kernel sysret :=
  _ ← set_x_at tf 0 v; mret (Status status).

(** The path at a pointer of the process, made absolute in a buffer of the kernel's. *)
(* [src/src/syscall.c:254-262 sys_open] *)
Definition resolve (p : Z) : M kernel (list Z) :=
  path ← user_at p;
  a ← lift_res (strcpy path_buffer path);
  t ← this_task;
  lift_res (get_absolute_path a (current_dir t)).

(** * Files *)

(** The descriptors from [i] on: the first free one takes the handle. *)
(* [src/src/syscall.c:263-277 sys_open] *)
Fixpoint open_loop (n : nat) (i tf : Z) (path : list Z) (flags : Z) : M kernel sysret :=
  match n with
  | O => answer tf (-1) SYSCALL_ERROR
  | S n =>
    t ← this_task;
    f ← lift_opt OutOfBounds (fd_table t).[i];
    if f =? 0 then
      r ← on_fs (vfs_open path flags);
      match r with
      | Some h =>
        t ← this_task;
        l ← lift_opt OutOfBounds (fd_table t).[i := h];
        _ ← on_sched (upd_current (set_fd_table l));
        answer tf i SYSCALL_SUCCESS
      | None => answer tf (-1) SYSCALL_ERROR
      end
    else open_loop n (i + 1) tf path flags
  end.

(* [src/include/vfs.h:12-12 FD_TABLE_SIZE] *)
Definition FD_TABLE_SIZE : Z := 16.

(* [src/src/syscall.c:250-278 sys_open] *)
Definition sys_open (tf : Z) : M kernel sysret :=
  x0 ← x_at tf 0;
  x1 ← x_at tf 1;
  path ← resolve x0;
  open_loop (Z.to_nat FD_TABLE_SIZE) 0 tf path (s32 x1).

(** The handle of the descriptor in [x0]; no bound is tested. *)
Definition fd_handle (fd : Z) : M kernel Z :=
  t ← this_task; lift_opt OutOfBounds (fd_table t).[fd].

(* [src/src/syscall.c:280-302 sys_close] *)
Definition sys_close (tf : Z) : M kernel sysret :=
  x0 ← x_at tf 0;
  let fd := s32 x0 in
  f ← fd_handle fd;
  if negb (f =? 0) then
    r ← on_fs (vfs_close f);
    if negb (r =? 0) then
      t ← this_task;
      l ← lift_opt OutOfBounds (fd_table t).[fd := 0];
      _ ← on_sched (upd_current (set_fd_table l));
      answer tf 0 SYSCALL_SUCCESS
    else answer tf (-1) SYSCALL_ERROR
  else answer tf (-1) SYSCALL_ERROR.

(* [src/src/syscall.c:304-321 sys_write] *)
Definition sys_write (tf : Z) : M kernel sysret :=
  x0 ← x_at tf 0;
  x1 ← x_at tf 1;
  len ← x_at tf 2;
  f ← fd_handle (s32 x0);
  if negb (f =? 0) then
    buf ← user_at x1;
    r ← on_fs (vfs_write f buf len);
    answer tf r SYSCALL_SUCCESS
  else answer tf (-1) SYSCALL_ERROR.

(* [src/src/syscall.c:323-340 sys_read] *)
Definition sys_read (tf : Z) : M kernel sysret :=
  x0 ← x_at tf 0;
  x1 ← x_at tf 1;
  len ← x_at tf 2;
  f ← fd_handle (s32 x0);
  if negb (f =? 0) then
    buf ← user_at x1;
    r ← on_fs (vfs_read f buf len);
    _ ← put_user x1 r.2;
    answer tf r.1 SYSCALL_SUCCESS
  else answer tf (-1) SYSCALL_ERROR.

(** The path is made absolute in the memory of the process. *)
(* [src/src/syscall.c:342-352 sys_mkdir] *)
Definition sys_mkdir (tf : Z) : M kernel sysret :=
  x0 ← x_at tf 0;
  path ← user_at x0;
  t ← this_task;
  path ← lift_res (get_absolute_path path (current_dir t));
  _ ← put_user x0 path;
  r ← on_fs (vfs_mkdir path);
  answer tf r SYSCALL_SUCCESS.

(* [src/src/syscall.c:354-369 sys_mount] *)
Definition sys_mount (tf : Z) : M kernel sysret :=
  x1 ← x_at tf 1;
  x2 ← x_at tf 2;
  target ← resolve x1;
  file_system ← user_at x2;
  r ← on_fs (vfs_mount target file_system);
  answer tf r SYSCALL_SUCCESS.

(* [src/src/syscall.c:371-391 sys_chdir] *)
Definition sys_chdir (tf : Z) : M kernel sysret :=
  x0 ← x_at tf 0;
  path ← resolve x0;
  r ← on_fs (vfs_lookup path);
  match r with
  | None => answer tf (-1) SYSCALL_ERROR
  | Some _ =>
    t ← this_task;
    d ← lift_res (strcpy (current_dir t) path);
    _ ← on_sched (upd_current (set_current_dir d));
    answer tf 0 SYSCALL_SUCCESS
  end.

(** * The UART *)

(* [src/src/syscall.c:55-56 sys_uart_read] *)
Fixpoint uart_read_loop (n : nat) (p : Z) : M kernel unit :=
  match n with
  | O => mret tt
  | S n =>
    c ← uart_getc;
    u ← gets k_user;
    _ ← lift_opt OutOfBounds (u !! p);
    _ ← put_user p [c];
    uart_read_loop n (p + 1)
  end.
(* [src/src/syscall.c:46-62 sys_uart_read] *)
Definition sys_uart_read (tf : Z) : M kernel sysret :=
  x0 ← x_at tf 0;
  x1 ← x_at tf 1;
  _ ← uart_read_loop (Z.to_nat x1) x0;
  answer tf x1 SYSCALL_SUCCESS.

(* [src/src/syscall.c:73-74 sys_uart_write] *)
Fixpoint uart_write_loop (n : nat) (p : Z) : M kernel unit :=
  match n with
  | O => mret tt
  | S n =>
    u ← gets k_user;
    c ← lift_opt OutOfBounds (u !! p);
    _ ← uart_send c;
    uart_write_loop n (p + 1)
  end.
(* [src/src/syscall.c:65-77 sys_uart_write] *)
Definition sys_uart_write (tf : Z) : M kernel sysret :=
  x0 ← x_at tf 0;
  x1 ← x_at tf 1;
  _ ← uart_write_loop (Z.to_nat x1) x0;
  answer tf x1 SYSCALL_SUCCESS.

(** * Programs and the mailbox *)

(* [src/src/syscall.c:80-89 sys_exec] *)
Definition sys_exec (tf : Z) : M kernel sysret :=
  x0 ← x_at tf 0;
  cmd ← user_at x0;
  r ← initrd_usr_prog cmd;
  match r with
  | Return => answer tf 0 SYSCALL_SUCCESS
  | _ => mret (Away r)
  end.

(** The message buffer is 36 words; the answer is the second of them. *)
(* [src/src/mbox.c:40-40 MBOX_RESPONSE] *)
Definition MBOX_RESPONSE : Z := 0x80000000.
(* [src/src/mbox.c:76-79 mbox_call] *)
Definition mbox_call (ch : Z) : M kernel Z :=
  m ← gets k_mbox;
  let m' := videocore ch m in
  _ ← modify (with_mbox m');
  v ← lift_opt OutOfBounds (le 4 (drop 4 m'));
  mret (if v =? MBOX_RESPONSE then 1 else 0).

(** The size is the first word of the message. *)
(* [src/src/syscall.c:158-169 sys_mbox_call] *)
Definition sys_mbox_call (tf : Z) : M kernel sysret :=
  x0 ← x_at tf 0;
  umbox ← x_at tf 1;
  u ← user_at umbox;
  size ← lift_opt OutOfBounds (le 4 u);
  m ← gets k_mbox;
  m ← lift_res (memcpy m u (Z.to_nat size));
  _ ← modify (with_mbox m);
  r ← mbox_call (u8 x0);
  _ ← set_x_at tf 0 r;
  m ← gets k_mbox;
  u ← lift_res (memcpy u m (Z.to_nat size));
  _ ← put_user umbox u;
  mret (Status SYSCALL_SUCCESS).

(** * Dispatch *)

(* [src/include/syscall.h:25-25 SYSCALL_NUM] *)
Definition SYSCALL_NUM : Z := 18.

(** [fuel] is for the scheduler. *)
(* [src/src/syscall.c:14-33 sys_call_table] *)
Definition sys_call_table (fuel : nat) : list (Z -> M kernel sysret) :=
  [ fun tf => on_sched (sys_get_taskid tf);
    sys_uart_read;
    sys_uart_write;
    sys_exec;
    fun tf => on_sched (sys_fork tf);
    fun tf => on_sched (sys_exit fuel tf);
    sys_mbox_call;
    fun tf => on_sched (sys_kill tf);
    fun tf => on_sched (sys_signal tf);
    fun tf => on_sched (sys_sigkill tf);
    fun tf => on_sched (sys_sigreturn fuel tf);
    sys_open;
    sys_close;
    sys_write;
    sys_read;
    sys_mkdir;
    sys_mount;
    sys_chdir ].

(* [src/src/exception.c:81-93 syscall_handler] *)
Definition syscall_handler (fuel : nat) (tf : Z) : M kernel resume :=
  x8 ← x_at tf 8;
  let syscall_num := s32 x8 in
  if (0 <=? syscall_num) && (syscall_num <? SYSCALL_NUM) then
    f ← lift_opt OutOfBounds (sys_call_table fuel).[syscall_num];
    r ← f tf;
    match r with
    | Away r => mret r
    | Status v =>
      _ ← (if negb (v =? 0) then say_line "[syscall_handler] System call failed" else mret tt);
      mret Return
    end
  else
    _ ← say_line "[syscall_handler] Unknown syscall";
    mret Return.
End Code.
