(* ===== verification/Exception.v ===== *)
(** The exception and interrupt handlers [src/src/exception.c].

    The exception registers, the values the interrupt and UART registers hold when they
    are read, the time, and what the stack holds where a buffer is, are arguments of the
    handlers.  The kernel is built without [ENABLE_TASKLET]. *)
From Stdlib Require Import Ascii String.
From S2P Require Import Prelude Sched Process CString FsData Vfs Queue Timer Console Kernel Initrd Syscall.

(** * Reports *)

(* [src/src/exception.c:20-33 exc_handler] *)
Definition exception_class (esr : Z) : String.string :=
  let ec := Z.shiftr esr 26 in
  if ec =? 0 then "Unknown"
  else if ec =? 1 then "Trapped WFI/WFE"
  else if ec =? 14 then "Illegal execution"
  else if ec =? 21 then "System call"
  else if ec =? 32 then "Instruction abort, lower EL"
  else if ec =? 33 then "Instruction abort, same EL"
  else if ec =? 34 then "Instruction alignment fault"
  else if ec =? 36 then "Data abort, lower EL"
  else if ec =? 37 then "Data abort, same EL"
  else if ec =? 38 then "Stack alignment fault"
  else if ec =? 44 then "Floating point"
  else "Unknown".

(* [src/src/exception.c:34-39 exc_handler] *)
Definition fault_level (esr : Z) : String.string :=
  let l := Z.land esr 3 in
  if l =? 0 then " at level 0" else if l =? 1 then " at level 1" else if l =? 2 then " at level 2"
  else " at level 3".

(* [src/src/exception.c:43-48 exc_handler] *)
Definition fault_cause (esr : Z) : String.string :=
  let c := Z.land (Z.shiftr esr 2) 3 in
  if c =? 0 then "Address size fault" else if c =? 1 then "Translation fault"
  else if c =? 2 then "Access flag fault" else "Permission fault".

Definition say_register (name : String.string) (v : Z) : M kernel unit :=
  _ ← say name; _ ← say_hex (Z.shiftr v 32); say_hex v.

(** The report, after which the handler never returns. *)
(* [src/src/exception.c:17-69 exc_handler] *)
Definition exc_report (esr elr spsr far : Z) : M kernel unit :=
  _ ← say (exception_class esr);
  _ ← say (fault_level esr);
  _ ← (if (Z.shiftr esr 26 =? 36) || (Z.shiftr esr 26 =? 37) then
         _ ← say ", "; _ ← say (fault_cause esr); say (fault_level esr)
       else mret tt);
  _ ← say_line ":";
  _ ← say_register "  ESR_EL1 " esr;
  _ ← say_register " ELR_EL1 " elr;
  _ ← say_line "";
  _ ← say_register " SPSR_EL1 " spsr;
  _ ← say_register " FAR_EL1 " far;
  say_line "".
(* [src/src/exception.c:71-75 exc_handler] *)
Definition exc_handler {A} (esr elr spsr far : Z) : M kernel A :=
  _ ← exc_report esr elr spsr far; fail Hang.

(* [src/src/exception.c:197-203 invalid_exception_handler] *)
Definition invalid_exception_handler {A} : M kernel A := _ ← say_line "Invalid exception"; fail Hang.

(** The demonstration runs tasklets for ever: here only its message, in [Demo] its loop. *)
Definition demo_bh_irq {A} : M kernel A :=
  _ ← say_line "Demo Lab3 Advanced 2: bottom half irq"; fail Hang.

(** * System calls and the other [svc] *)

Section Code.
Context `{Link} `{Ops}.
Variable videocore : Z -> list Z -> list Z.

(** [cmd] and [message]: the buffers of 64 characters. *)
(* [src/src/exception.c:98-147 svc_handler] *)
Definition svc_handler (fuel : nat) (now : Z) (cmd message : list Z) (esr elr spsr far tf : Z) : M kernel resume :=
  let svc_num := Z.land esr 0xffff in
  if negb (Z.shiftr esr 26 =? 21) then exc_handler esr elr spsr far
  else if svc_num =? 0 then syscall_handler videocore fuel tf
  else if svc_num =? 1 then
    _ ← say_line "svc 1: user program";
    _ ← say "name :";
    cmd ← shell_input cmd;
    initrd_usr_prog cmd
  else if svc_num =? 2 then
    _ ← say_line "svc 2: enable timer";
    _ ← say_format "Current time: %d" [ArgWord now];
    _ ← say_line "";
    mret Return
  else if svc_num =? 3 then
    _ ← say_line "svc 3: set timeout";
    _ ← say "timeout: ";
    cmd ← shell_input cmd;
    timeout ← lift_res (atoi cmd);
    _ ← say_line "";
    _ ← say "message: ";
    message ← shell_input message;
    _ ← say_line "";
    _ ← on_timers (timer_set now (u64 timeout) message);
    mret Return
  else if svc_num =? 4 then
    _ ← say_line "svc 4: User Program System call";
    exc_handler esr elr spsr far
  else if svc_num =? 5 then
    _ ← say_line "svc 5: Demo bottom half irq";
    demo_bh_irq
  else
    _ ← say_line "Unknown svc, print reg information";
    exc_handler esr elr spsr far.

(** * Interrupts *)

(** [lsr i]: the line status when the [i]-th character is taken off the queue. *)
(* [src/src/exception.c:161-165 uart_interrupt_handler] *)
Fixpoint transmit_loop (n : nat) (i : nat) (lsr : nat -> Z) : M kernel unit :=
  q ← gets k_write;
  if is_empty q then mret tt
  else
    match n with
    | O => fail NoFuel
    | S n =>
      '(c, q) ← lift_res (dequeue_char q);
      _ ← modify (fun k => with_queues (k_read k) q k);
      _ ← (if negb (Z.land (lsr i) 0x20 =? 0) then uart_send c else mret tt);
      transmit_loop n (S i) lsr
    end.

(** [iir] and [iir']: the two reads of the interrupt identification. *)
(* [src/src/exception.c:150-185 uart_interrupt_handler] *)
Definition uart_interrupt_handler (iir iir' rx_lsr : Z) (lsr : nat -> Z) : M kernel unit :=
  _ ← modify (fun k => with_ier (Z.ldiff (k_ier k) 1) k);
  _ ← (if negb (Z.land iir 2 =? 0) then
         _ ← modify (fun k => with_ier (Z.ldiff (k_ier k) 2) k);
         q ← gets k_write;
         transmit_loop (length (buffer q)) 0 lsr
       else if negb (Z.land iir' 4 =? 0) then
         if negb (Z.land rx_lsr 1 =? 0) then
           c ← uart_getc;
           q ← gets k_read;
           q ← lift_res (enqueue_char q c);
           modify (fun k => with_queues q (k_write k) k)
         else mret tt
       else say_line "Unknown uart interrupt");
  modify (fun k => with_ier (Z.lor (k_ier k) 1) k).

(** The next interrupt is set up in the processor's timer. *)
(* [src/src/exception.c:214-242 core_timer_handler] *)
Definition core_timer_handler (fuel : nat) (now : Z) : M kernel resume :=
  _ ← on_timers (timer_update now);
  on_sched (do_timer fuel).

(** What the handlers of an interrupt find in the registers. *)
Record irq_regs := IrqRegs {
  core0_irq_source : Z;
  irq_pending1 : Z;
  aux_iir : Z;
  aux_iir' : Z;
  aux_rx_lsr : Z;
  aux_lsr : nat -> Z
}.

(* [src/src/exception.c:188-195 irq_router] *)
Definition irq_router (fuel : nat) (now : Z) (r : irq_regs) : M kernel resume :=
  if negb (Z.land (core0_irq_source r) 2 =? 0) then core_timer_handler fuel now
  else
    _ ← (if negb (Z.land (irq_pending1 r) (2 ^ 29) =? 0) then
           uart_interrupt_handler (aux_iir r) (aux_iir' r) (aux_rx_lsr r) (aux_lsr r)
         else mret tt);
    mret Return.

(** * The system call functions of the processes, [src/src/syscall_.S]

    [svc 0] saves the registers in a trap frame on the kernel's stack, at [tf], runs the
    handler with the class of the exception in [esr], and loads them back. *)

Fixpoint save_args (tf i : Z) (args : list Z) : M kernel unit :=
  match args with
  | [] => mret tt
  | a :: args => _ ← set_x_at tf i a; save_args tf (i + 1) args
  end.

(** The result of a call that comes back is in [x0]. *)
(* [src/src/exception_.S:147-156 exception_handler] *)
Definition user_call (fuel : nat) (tf num : Z) (args : list Z) : M kernel Z :=
  _ ← save_args tf 0 args;
  _ ← set_x_at tf 8 num;
  r ← svc_handler fuel 0 [] [] 0x56000000 0 0 0 tf;
  match r with
  | Return => x_at tf 0
  | _ => fail Hang
  end.

(* [src/include/syscall.h:17-20 SYS_OPEN] *)
Definition SYS_OPEN : Z := 11.
Definition SYS_CLOSE : Z := 12.
Definition SYS_WRITE : Z := 13.
Definition SYS_READ : Z := 14.

(* [src/src/syscall_.S:57-61 open] *)
Definition user_open (fuel : nat) (tf pathname flags : Z) : M kernel Z := user_call fuel tf SYS_OPEN [pathname; flags].
(* [src/src/syscall_.S:63-67 close] *)
Definition user_close (fuel : nat) (tf fd : Z) : M kernel Z := user_call fuel tf SYS_CLOSE [fd].
(* [src/src/syscall_.S:69-73 write] *)
Definition user_write (fuel : nat) (tf fd buf count : Z) : M kernel Z := user_call fuel tf SYS_WRITE [fd; buf; count].
(* [src/src/syscall_.S:75-79 read] *)
Definition user_read (fuel : nat) (tf fd buf count : Z) : M kernel Z := user_call fuel tf SYS_READ [fd; buf; count].
End Code.
