(* ===== verification/SyscallSpec.v ===== *)
(** What the file system calls do, over any file systems: each call on its own, by what the
    virtual file system answers. *)
From Stdlib Require Import Ascii String.
From S2P Require Import Prelude Slab Sched SchedInv Process ProcessSpec CString FsData Vfs FsInv PathSpec Kernel Syscall.

(** * Small steps *)

(** Task [t], at the index [c], is the current one. *)
Definition process (k : kernel) (c : nat) (t : task_struct) : Prop :=
  current (k_sched k) = Z.of_nat c /\ task_pool (k_sched k) !! c = Some t.

(** The register [x[i]] of the trap frame. *)
Definition reg (k : kernel) (tf i : Z) : Z := xreg (k_sched k) tf i.

(** The kernel after a register was set, and after a change of the current task. *)
Definition set_reg (k : kernel) (tf i v : Z) : kernel :=
  let h := heap (k_sched k) in
  with_sched (with_heap (SlabState (zone_of h) (kmem_caches h) (<[tf + 8 * i := u64 v]> (words h))) (k_sched k)) k.
Definition set_task (k : kernel) (c : nat) (t : task_struct) : kernel :=
  with_sched (with_pool (<[c := t]> (task_pool (k_sched k))) (k_sched k)) k.

Lemma set_reg_process k tf i v c t : process k c t -> process (set_reg k tf i v) c t.
Proof. done. Qed.

Lemma set_task_process k c t t' : process k c t -> process (set_task k c t') c t'.
Proof.
  intros [E Ht]. split; [exact E|]. cbn. apply list_lookup_insert_eq. by apply lookup_lt_Some in Ht.
Qed.

Lemma set_reg_reg k tf i v j : reg (set_reg k tf i v) tf j = if decide (i = j) then u64 v else reg k tf j.
Proof.
  unfold reg, xreg. cbn. destruct (decide (i = j)) as [->|Hij]; [by rewrite lookup_insert_eq|].
  rewrite lookup_insert_ne by lia. done.
Qed.

Lemma set_task_reg k c t tf j : reg (set_task k c t) tf j = reg k tf j.
Proof. done. Qed.
#[export] Hint Resolve set_reg_process set_task_process : kernel.

Section Steps.
Context `{Link} `{Ops}.
Implicit Types (k : kernel) (tf : Z).

Lemma x_at_ok tf i k : x_at tf i k = Ok (reg k tf i, k).
Proof using Type. unfold x_at, on_sched, on_part. rewrite get_x_ok. by destruct k. Qed.

Lemma set_x_at_ok tf i v k : set_x_at tf i v k = Ok (tt, set_reg k tf i v).
Proof using Type. done. Qed.

Lemma answer_ok tf v st k : answer tf v st k = Ok (Status st, set_reg k tf 0 v).
Proof using Type. done. Qed.

Lemma this_task_ok k c t : process k c t -> this_task k = Ok (t, k).
Proof using Type.
  intros [Ec Et]. unfold this_task, on_sched, on_part. rewrite (current_task_ok _ c t Ec Et). by destruct k.
Qed.

Lemma process_put_task k c t f : process k c t -> on_sched (upd_current f) k = Ok (tt, set_task k c (f t)).
Proof using Type. intros [Ec Et]. unfold on_sched, on_part. by rewrite (upd_current_ok _ c t f Ec Et). Qed.

Lemma on_fs_ok {A} (m : M fs_state A) k a s : m (k_fs k) = Ok (a, s) -> on_fs m k = Ok (a, with_fs s k).
Proof using Type. apply on_part_ok. Qed.

Lemma user_at_ok p k : user_at p k = Ok (user_run (base.size (k_user k)) (k_user k) p, k).
Proof using Type. done. Qed.

(** * Paths *)

(** The process has the string [q] at [p]. *)
Definition user_string k (p : Z) (q : list Z) : Prop := holds (user_run (base.size (k_user k)) (k_user k) p) q.

(** A path without dots is resolved against the current directory. *)
Lemma resolve_ok k c t p q cwd :
  process k c t -> user_string k p q -> holds (current_dir t) cwd ->
  (length q < 256)%nat -> (length (joined cwd q) < 256)%nat -> no_dot (joined cwd q) ->
  exists path, resolve p k = Ok (path, k) /\ holds path (joined cwd q).
Proof using Type.
  intros Hk Hq Hc Hql Hl Hnd. unfold resolve. run (user_at_ok p k).
  assert (H256 : length path_buffer = 256%nat) by done.
  pose proof (strcpy_ok path_buffer _ q Hq ltac:(lia)) as E1. run (lift_res_ok _ k _ E1). run (this_task_ok k c t Hk).
  assert (Hh : holds (q ++ 0 :: drop (S (length q)) path_buffer) q) by (apply holds_self; apply Hq).
  pose proof (absolute_plain _ _ q cwd Hh Hc Hl ltac:(rewrite length_app; cbn [length]; rewrite length_drop; lia) Hnd) as E2.
  eexists. split; [by apply lift_res_ok|]. apply holds_self. apply joined_nonzero; [apply Hc|apply Hq].
Qed.

(** A path that does not fit in the buffer overruns it. *)
Lemma resolve_long k p q : user_string k p q -> (256 <= length q)%nat -> resolve p k = Err OutOfBounds.
Proof using Type.
  intros Hq Hl. unfold resolve. run (user_at_ok p k). unfold lift_res at 1, mbind, M_bind.
  by rewrite (strcpy_short path_buffer _ q Hq).
Qed.

(** * Opening *)

(** The first free descriptor. *)
Definition first_free (t : task_struct) (i : nat) : Prop :=
  fd_table t !! i = Some 0 /\ forall j, (j < i)%nat -> exists h, fd_table t !! j = Some h /\ h <> 0.
Definition table_full (t : task_struct) : Prop :=
  length (fd_table t) = 16%nat /\ Forall (fun h => h <> 0) (fd_table t).

Lemma fd_get t i x : fd_table t !! i = Some x -> (fd_table t).[Z.of_nat i] = Some x.
Proof using Type. intros E. apply zget_Some. split; [lia|]. by rewrite Nat2Z.id. Qed.

Lemma fd_set t i x y : fd_table t !! i = Some x -> (fd_table t).[Z.of_nat i := y] = Some (<[i := y]> (fd_table t)).
Proof using Type. intros E. apply lookup_lt_Some in E. rewrite zset_ok by lia. by rewrite Nat2Z.id. Qed.

(** The loop tries the slot [i] after the slots in use. *)
Lemma open_loop_skip n j m k c t tf path flags :
  process k c t -> (forall x, (j <= x < j + m)%nat -> exists h, fd_table t !! x = Some h /\ h <> 0) ->
  open_loop (m + n) (Z.of_nat j) tf path flags k = open_loop n (Z.of_nat (j + m)) tf path flags k.
Proof using Type.
  intros Hk. revert j. induction m as [|m IH]; intros j Hj; [by rewrite Nat.add_0_r|].
  destruct (Hj j ltac:(lia)) as (h & Eh & Hh). cbn [Nat.add open_loop]. run (this_task_ok k c t Hk).
  run (lift_opt_ok OutOfBounds _ k _ (fd_get t j h Eh)).
  destruct (Z.eqb_spec h 0); [done|]. replace (Z.of_nat j + 1) with (Z.of_nat (S j)) by lia.
  rewrite IH by (intros x Hx; apply Hj; lia). f_equal; lia.
Qed.

(** The loop reaches the first free slot, and opens the file. *)
Lemma open_loop_first k c t tf path flags i :
  process k c t -> first_free t i -> (i < 16)%nat ->
  open_loop 16 0 tf path flags k =
    (r ← on_fs (vfs_open path flags);
     match r with
     | Some h =>
       t ← this_task;
       l ← lift_opt OutOfBounds (fd_table t).[Z.of_nat i := h];
       _ ← on_sched (upd_current (set_fd_table l));
       answer tf (Z.of_nat i) SYSCALL_SUCCESS
     | None => answer tf (-1) SYSCALL_ERROR
     end) k.
Proof using Type.
  intros Hk [Ei Hj] Hi. replace 16%nat with (i + S (15 - i))%nat by lia.
  rewrite (open_loop_skip _ 0 i k c t) by (done || (intros x Hx; apply Hj; lia)). cbn [Nat.add open_loop].
  run (this_task_ok k c t Hk). by run (lift_opt_ok OutOfBounds _ k _ (fd_get t i 0 Ei)).
Qed.

Lemma open_loop_ok k c t tf path flags i h s' :
  process k c t -> first_free t i -> (i < 16)%nat -> vfs_open path flags (k_fs k) = Ok (Some h, s') ->
  open_loop 16 0 tf path flags k =
    Ok (Status 0, set_reg (set_task (with_fs s' k) c (set_fd_table (<[i := h]> (fd_table t)) t)) tf 0 (Z.of_nat i)).
Proof using Type.
  intros Hk Hf Hi Ho. rewrite (open_loop_first k c t tf path flags i Hk Hf Hi).
  run (on_fs_ok _ k _ _ Ho). assert (Hk' : process (with_fs s' k) c t) by done. run (this_task_ok _ c t Hk').
  run (lift_opt_ok OutOfBounds _ (with_fs s' k) _ (fd_set t i 0 h (proj1 Hf))). by run (process_put_task _ c t (set_fd_table (<[i := h]> (fd_table t))) Hk').
Qed.

Lemma open_loop_none k c t tf path flags i s' :
  process k c t -> first_free t i -> (i < 16)%nat -> vfs_open path flags (k_fs k) = Ok (None, s') ->
  open_loop 16 0 tf path flags k = Ok (Status (-1), set_reg (with_fs s' k) tf 0 (-1)).
Proof using Type.
  intros Hk Hf Hi Ho. rewrite (open_loop_first k c t tf path flags i Hk Hf Hi).
  by run (on_fs_ok _ k _ _ Ho).
Qed.

Lemma open_loop_err k c t tf path flags i f :
  process k c t -> first_free t i -> (i < 16)%nat -> vfs_open path flags (k_fs k) = Err f ->
  open_loop 16 0 tf path flags k = Err f.
Proof using Type.
  intros Hk Hf Hi Ho. rewrite (open_loop_first k c t tf path flags i Hk Hf Hi).
  apply bind_err. by apply on_part_err.
Qed.

Lemma open_loop_full k c t tf path flags :
  process k c t -> table_full t -> open_loop 16 0 tf path flags k = Ok (Status (-1), set_reg k tf 0 (-1)).
Proof using Type.
  intros Hk [Hl Hf]. change 16%nat with (16 + 0)%nat.
  rewrite (open_loop_skip _ 0 16 k c t); [done..|]. intros x Hx. destruct (lookup_lt_is_Some_2 (fd_table t) x ltac:(lia)) as [h Eh].
  exists h. split; [done|]. by apply (Forall_lookup_1 _ _ _ _ Hf Eh).
Qed.

(** * Handles *)

Lemma fd_handle_ok k c t fd h :
  process k c t -> fd_table t !! fd = Some h -> fd_handle (Z.of_nat fd) k = Ok (h, k).
Proof using Type. intros Hk E. unfold fd_handle. run (this_task_ok k c t Hk). by apply lift_opt_ok, fd_get. Qed.

(** A descriptor outside the table is looked up all the same. *)
Lemma fd_handle_out k c t fd :
  process k c t -> fd < 0 \/ Z.of_nat (length (fd_table t)) <= fd -> fd_handle fd k = Err OutOfBounds.
Proof using Type.
  intros Hk Hfd. unfold fd_handle. run (this_task_ok k c t Hk).
  destruct (zget (fd_table t) fd) eqn:E; [|done]. apply zget_lt in E. lia.
Qed.

(** The calls, by what the virtual file system answers. *)
Lemma sys_open_ok k c t tf i path h s' :
  process k c t -> first_free t i -> (i < 16)%nat -> resolve (reg k tf 0) k = Ok (path, k) ->
  vfs_open path (s32 (reg k tf 1)) (k_fs k) = Ok (Some h, s') ->
  sys_open tf k =
    Ok (Status 0, set_reg (set_task (with_fs s' k) c (set_fd_table (<[i := h]> (fd_table t)) t)) tf 0 (Z.of_nat i)).
Proof using Type.
  intros Hk Hi Hi16 Hp Ho. unfold sys_open. run (x_at_ok tf 0 k). run (x_at_ok tf 1 k). run Hp.
  by apply (open_loop_ok k c t).
Qed.

Lemma sys_close_ok k c t tf fd h s' :
  process k c t -> s32 (reg k tf 0) = Z.of_nat fd -> fd_table t !! fd = Some h -> h <> 0 ->
  vfs_close h (k_fs k) = Ok (1, s') ->
  sys_close tf k = Ok (Status 0, set_reg (set_task (with_fs s' k) c (set_fd_table (<[fd := 0]> (fd_table t)) t)) tf 0 0).
Proof using Type.
  intros Hk E0 Eh Hh Hc. unfold sys_close. run (x_at_ok tf 0 k). rewrite E0. run (fd_handle_ok k c t fd h Hk Eh).
  destruct (Z.eqb_spec h 0); [done|]. cbn [negb]. run (on_fs_ok _ k _ _ Hc). cbn [Z.eqb negb].
  assert (Hk' : process (with_fs s' k) c t) by done. run (this_task_ok _ c t Hk').
  run (lift_opt_ok OutOfBounds _ (with_fs s' k) _ (fd_set t fd h 0 Eh)).
  by run (process_put_task _ c t (set_fd_table (<[fd := 0]> (fd_table t))) Hk').
Qed.

Lemma sys_write_ok k c t tf fd h r s' :
  process k c t -> s32 (reg k tf 0) = Z.of_nat fd -> fd_table t !! fd = Some h -> h <> 0 ->
  vfs_write h (user_run (base.size (k_user k)) (k_user k) (reg k tf 1)) (reg k tf 2) (k_fs k) = Ok (r, s') ->
  sys_write tf k = Ok (Status 0, set_reg (with_fs s' k) tf 0 r).
Proof using Type.
  intros Hk E0 Eh Hh Hc. unfold sys_write. run (x_at_ok tf 0 k). run (x_at_ok tf 1 k). run (x_at_ok tf 2 k).
  rewrite E0. run (fd_handle_ok k c t fd h Hk Eh). destruct (Z.eqb_spec h 0); [done|]. cbn [negb].
  run (user_at_ok (reg k tf 1) k). by run (on_fs_ok _ k _ _ Hc).
Qed.

Lemma sys_read_ok k c t tf fd h r out s' :
  process k c t -> s32 (reg k tf 0) = Z.of_nat fd -> fd_table t !! fd = Some h -> h <> 0 ->
  vfs_read h (user_run (base.size (k_user k)) (k_user k) (reg k tf 1)) (reg k tf 2) (k_fs k) = Ok (r, out, s') ->
  sys_read tf k = Ok (Status 0,
    set_reg (with_user (put_run (k_user k) (reg k tf 1) out) (with_fs s' k)) tf 0 r).
Proof using Type.
  intros Hk E0 Eh Hh Hc. unfold sys_read. run (x_at_ok tf 0 k). run (x_at_ok tf 1 k). run (x_at_ok tf 2 k).
  rewrite E0. run (fd_handle_ok k c t fd h Hk Eh). destruct (Z.eqb_spec h 0); [done|]. cbn [negb].
  run (user_at_ok (reg k tf 1) k). by run (on_fs_ok _ k _ _ Hc).
Qed.

(** * Properties *)

(** [open] resolves the path of the process against its current directory and gives the
    handle the virtual file system answers the lowest free descriptor; when all sixteen
    are in use, or the file cannot be opened, it returns -1 and takes none.  The length of
    the path is not checked: one of 256 characters or more overruns the kernel's
    buffer. *)
Theorem sys_open_spec k c t tf q cwd :
  process k c t -> user_string k (reg k tf 0) q -> holds (current_dir t) cwd ->
  ((256 <= length q)%nat -> sys_open tf k = Err OutOfBounds) /\
  ((length q < 256)%nat -> (length (joined cwd q) < 256)%nat -> no_dot (joined cwd q) ->
   exists path, holds path (joined cwd q) /\
     (table_full t -> sys_open tf k = Ok (Status SYSCALL_ERROR, set_reg k tf 0 (-1))) /\
     forall i, first_free t i -> (i < 16)%nat ->
       sys_open tf k =
         match vfs_open path (s32 (reg k tf 1)) (k_fs k) with
         | Ok (Some h, s') =>
             Ok (Status SYSCALL_SUCCESS,
                 set_reg (set_task (with_fs s' k) c (set_fd_table (<[i := h]> (fd_table t)) t)) tf 0 (Z.of_nat i))
         | Ok (None, s') => Ok (Status SYSCALL_ERROR, set_reg (with_fs s' k) tf 0 (-1))
         | Err f => Err f
         end).
Proof using Type.
  intros Hk Hq Hc. split.
  - intros Hl. unfold sys_open. run (x_at_ok tf 0 k). run (x_at_ok tf 1 k).
    by rewrite (bind_err _ _ k _ (resolve_long k _ q Hq Hl)).
  - intros Hql Hl Hnd. destruct (resolve_ok k c t _ q cwd Hk Hq Hc Hql Hl Hnd) as (path & Ep & Hp).
    exists path. split; [done|]. split.
    + intros Hf. unfold sys_open. run (x_at_ok tf 0 k). run (x_at_ok tf 1 k). run Ep. by apply (open_loop_full k c t).
    + intros i Hi Hi16. destruct (vfs_open path (s32 (reg k tf 1)) (k_fs k)) as [[[h|] s']|f] eqn:Ho.
      * by apply (sys_open_ok k c t tf i path).
      * unfold sys_open. run (x_at_ok tf 0 k). run (x_at_ok tf 1 k). run Ep. by apply (open_loop_none k c t tf path _ i).
      * unfold sys_open. run (x_at_ok tf 0 k). run (x_at_ok tf 1 k). run Ep. by apply (open_loop_err k c t tf path _ i).
Qed.

(** C29. The calls on an open file do not check the descriptor: one outside the table of the
    process is looked up all the same, beyond the table. *)
Theorem sys_fd_unchecked k c t tf :
  process k c t -> length (fd_table t) = 16%nat ->
  s32 (reg k tf 0) < 0 \/ 16 <= s32 (reg k tf 0) ->
  sys_close tf k = Err OutOfBounds /\ sys_write tf k = Err OutOfBounds /\ sys_read tf k = Err OutOfBounds.
Proof using Type.
  intros Hk Hl Hfd. pose proof (fd_handle_out k c t (s32 (reg k tf 0)) Hk ltac:(lia)) as E.
  unfold sys_close, sys_write, sys_read. rewrite !(bind_ok _ _ _ _ _ (x_at_ok tf 0 k)). cbv beta.
  rewrite !(bind_ok _ _ _ _ _ (x_at_ok tf 1 k)). cbv beta. rewrite !(bind_ok _ _ _ _ _ (x_at_ok tf 2 k)).
  split_and!; by apply bind_err.
Qed.
End Steps.
