(* ===== verification/UserSpec.v ===== *)
(** What a process sees of the file system calls, from the [svc] of its call to the value
    it returns. *)
From Stdlib Require Import Ascii String.
From S2P Require Import Prelude Queue Timer Slab Sched SchedInv SchedSpec Process ProcessSpec CString FsData Vfs Tmpfs.
From S2P Require Import Initramfs Fat32.
From S2P Require Import FsInv VfsSpec VfsMount FsNodes TmpfsSpec FileSystems FsTree FileOps FsSpec PathSpec.
From S2P Require Import Kernel Syscall SyscallSpec Exception.

(** * The memory of a process *)

Lemma user_run_lookup n u p i x : user_run n u p !! i = Some x -> u !! (p + Z.of_nat i) = Some x.
Proof.
  revert p i. induction n as [|n IH]; intros p i; cbn [user_run]; [done|].
  destruct (u !! p) as [c|] eqn:E; [|done]. destruct i as [|i]; intros Hi.
  - injection Hi as <-. by rewrite Z.add_0_r.
  - replace (p + Z.of_nat (S i)) with (p + 1 + Z.of_nat i) by lia. exact (IH (p + 1) i Hi).
Qed.

(** Writing back over a part of the memory that goes on at least as far. *)
Lemma put_run_same n u p l r a :
  user_run n u p = l ++ r -> forall l', length l' = length l ->
  put_run u p (l' ++ r) !! a = if (p <=? a) && (a <? p + Z.of_nat (length l')) then l' !! Z.to_nat (a - p) else u !! a.
Proof.
  intros E l' Hl. rewrite put_run_lookup, length_app.
  destruct (Z.leb_spec p a), (Z.ltb_spec a (p + Z.of_nat (length l' + length r))), (Z.ltb_spec a (p + Z.of_nat (length l')));
    cbn [andb]; try lia; try done.
  - by rewrite lookup_app_l by lia.
  - rewrite lookup_app_r by lia. destruct (lookup_lt_is_Some_2 r (Z.to_nat (a - p) - length l')) as [x Ex]; [lia|].
    rewrite Ex. symmetry. replace a with (p + Z.of_nat (Z.to_nat (a - p))) by lia. apply (user_run_lookup n).
    rewrite E, lookup_app_r by lia. by rewrite <-Hl.
Qed.

(** * A call *)

Section Call.
Context `{Link} `{Ops}.
Variable videocore : Z -> list Z -> list Z.

(** The kernel when the handler starts. *)
Fixpoint entered (k : kernel) (tf i : Z) (args : list Z) : kernel :=
  match args with
  | [] => k
  | a :: args => entered (set_reg k tf i a) tf (i + 1) args
  end.
Definition at_call (k : kernel) (tf num : Z) (args : list Z) : kernel := set_reg (entered k tf 0 args) tf 8 num.

Lemma save_args_ok tf i args k : save_args tf i args k = Ok (tt, entered k tf i args).
Proof using Type. revert i k. induction args as [|a args IH]; intros i k; [done|]. cbn. apply IH. Qed.

Lemma entered_keeps k tf i args :
  let k' := entered k tf i args in
  (forall c t, process k c t -> process k' c t) /\ k_fs k' = k_fs k /\ k_user k' = k_user k /\
  (forall j, j < i -> reg k' tf j = reg k tf j).
Proof using Type.
  revert i k. induction args as [|a args IH]; intros i k; [done|]. cbn.
  destruct (IH (i + 1) (set_reg k tf i a)) as (H1 & H2 & H3 & H4). split_and!; [|done|done|].
  - intros c t Hk. by apply H1.
  - intros j Hj. rewrite H4 by lia. rewrite set_reg_reg, decide_False by lia. done.
Qed.

Lemma entered_reg k tf i args j a : args !! j = Some a -> reg (entered k tf i args) tf (i + Z.of_nat j) = u64 a.
Proof using Type.
  revert i k j. induction args as [|b args IH]; intros i k j Hj; [done|]. cbn [entered]. destruct j as [|j].
  - injection Hj as ->. destruct (entered_keeps (set_reg k tf i a) tf (i + 1) args) as (_ & _ & _ & E).
    rewrite Z.add_0_r, E by lia. by rewrite set_reg_reg, decide_True.
  - replace (i + Z.of_nat (S j)) with (i + 1 + Z.of_nat j) by lia. by apply IH.
Qed.

Lemma at_call_keeps k tf num args :
  let k' := at_call k tf num args in
  (forall c t, process k c t -> process k' c t) /\ k_fs k' = k_fs k /\ k_user k' = k_user k.
Proof using Type. destruct (entered_keeps k tf 0 args) as (H1 & H2 & H3 & _). split_and!; try done. Qed.

Lemma at_call_reg k tf num args j a : args !! j = Some a -> (j < 8)%nat -> reg (at_call k tf num args) tf (Z.of_nat j) = u64 a.
Proof using Type.
  intros Hj Hlt. unfold at_call. rewrite set_reg_reg, decide_False by lia. apply (entered_reg k tf 0 args j a Hj).
Qed.

Lemma call3_regs k tf num a b c : 0 <= a < 2 ^ 64 -> 0 <= b < 2 ^ 64 -> 0 <= c < 2 ^ 64 ->
  let k1 := at_call k tf num [a; b; c] in reg k1 tf 0 = a /\ reg k1 tf 1 = b /\ reg k1 tf 2 = c.
Proof using Type.
  intros Ha Hb Hc k1. split_and!.
  - etrans; [exact (at_call_reg k tf num [a; b; c] 0 a eq_refl ltac:(lia))|apply u64_small; lia].
  - etrans; [exact (at_call_reg k tf num [a; b; c] 1 b eq_refl ltac:(lia))|apply u64_small; lia].
  - etrans; [exact (at_call_reg k tf num [a; b; c] 2 c eq_refl ltac:(lia))|apply u64_small; lia].
Qed.

(** A call whose handler returns success. *)
Lemma user_call_ok n tf num args k f k' :
  sys_call_table videocore n !! Z.to_nat num = Some f -> 0 <= num < 18 ->
  f tf (at_call k tf num args) = Ok (Status 0, k') ->
  user_call videocore n tf num args k = Ok (reg k' tf 0, k').
Proof using Type.
  intros Ef Hn E. unfold user_call. run (save_args_ok tf 0 args k). run (set_x_at_ok tf 8 num (entered k tf 0 args)).
  fold (at_call k tf num args). set (k1 := at_call k tf num args) in *.
  rewrite (bind_ok _ _ k1 Return k').
  - by apply x_at_ok.
  - unfold svc_handler. change (negb (Z.shiftr 0x56000000 26 =? 21)) with false. change (Z.land 0x56000000 0xffff =? 0) with true.
    cbn match. unfold syscall_handler. run (x_at_ok tf 8 k1).
    assert (E8 : reg k1 tf 8 = num) by (unfold k1, at_call; rewrite set_reg_reg, decide_True by done; apply u64_small; lia).
    rewrite E8, s32_small by lia. destruct (Z.leb_spec 0 num), (Z.ltb_spec num SYSCALL_NUM); unfold SYSCALL_NUM in *; try lia.
    cbn [andb]. assert (Ez : (sys_call_table videocore n).[num] = Some f) by (apply zget_Some; split; [lia|done]).
    run (lift_opt_ok OutOfBounds _ k1 _ Ez). by run E.
Qed.

(** The calls on files, each by what the virtual file system answers. *)
Lemma user_open_ok n tf k c t i pq q cwd fl :
  process k c t -> first_free t i -> (i < 16)%nat -> user_string k pq q -> holds (current_dir t) cwd ->
  (length q < 256)%nat -> (length (joined cwd q) < 256)%nat -> no_dot (joined cwd q) ->
  0 <= pq < 2 ^ 64 -> 0 <= fl < 2 ^ 31 ->
  exists path, holds path (joined cwd q) /\
    forall h s', vfs_open path fl (k_fs k) = Ok (Some h, s') ->
    exists k', user_open videocore n tf pq fl k = Ok (Z.of_nat i, k') /\
      process k' c (set_fd_table (<[i := h]> (fd_table t)) t) /\ k_fs k' = s' /\ k_user k' = k_user k.
Proof using Type.
  intros Hk Hi Hi16 Hq Hc Hql Hl Hnd Hpq Hfl. set (k1 := at_call k tf SYS_OPEN [pq; fl]).
  destruct (at_call_keeps k tf SYS_OPEN [pq; fl]) as (H1 & H2 & H3). fold k1 in H1, H2, H3. apply H1 in Hk.
  assert (Hq1 : user_string k1 pq q) by (unfold user_string; by rewrite H3).
  destruct (resolve_ok k1 c t pq q cwd Hk Hq1 Hc Hql Hl Hnd) as (path & Ep & Hp). exists path. split; [done|].
  intros h s' Ho. rewrite <-H2 in Ho.
  pose proof (at_call_reg k tf SYS_OPEN [pq; fl] 0 pq eq_refl ltac:(lia) : reg k1 tf 0 = u64 pq) as E0.
  pose proof (at_call_reg k tf SYS_OPEN [pq; fl] 1 fl eq_refl ltac:(lia) : reg k1 tf 1 = u64 fl) as E1.
  rewrite u64_small in E0, E1 by lia. rewrite <-E0 in Ep.
  assert (Es : s32 (reg k1 tf 1) = fl) by (rewrite E1; apply s32_small; lia). rewrite <-Es in Ho.
  pose proof (sys_open_ok k1 c t tf i path h s' Hk Hi Hi16 Ep Ho) as E. eexists. split_and!.
  - unfold user_open. rewrite (user_call_ok n tf SYS_OPEN _ k sys_open _ eq_refl ltac:(done) E).
    by rewrite set_reg_reg, decide_True, u64_small by (done || lia).
  - apply set_reg_process. by apply (set_task_process _ c t).
  - done.
  - done.
Qed.

Lemma user_close_ok n tf k c t fd h s' :
  process k c t -> fd_table t !! fd = Some h -> (fd < 16)%nat -> h <> 0 -> vfs_close h (k_fs k) = Ok (1, s') ->
  exists k', user_close videocore n tf (Z.of_nat fd) k = Ok (0, k') /\
    process k' c (set_fd_table (<[fd := 0]> (fd_table t)) t) /\ k_fs k' = s' /\ k_user k' = k_user k.
Proof using Type.
  intros Hk Eh Hfd Hh Hc. set (k1 := at_call k tf SYS_CLOSE [Z.of_nat fd]).
  destruct (at_call_keeps k tf SYS_CLOSE [Z.of_nat fd]) as (H1 & H2 & H3). fold k1 in H1, H2, H3. apply H1 in Hk.
  rewrite <-H2 in Hc.
  pose proof (at_call_reg k tf SYS_CLOSE [Z.of_nat fd] 0 _ eq_refl ltac:(lia)) as E0. fold k1 in E0.
  change (Z.of_nat 0) with 0 in E0. assert (E1 : s32 (reg k1 tf 0) = Z.of_nat fd) by (rewrite E0, u64_small, s32_small by lia; done).
  pose proof (sys_close_ok k1 c t tf fd h s' Hk E1 Eh Hh Hc) as E. eexists. split_and!.
  - unfold user_close. rewrite (user_call_ok n tf SYS_CLOSE _ k sys_close _ eq_refl ltac:(done) E).
    by rewrite set_reg_reg, decide_True.
  - apply set_reg_process. by apply (set_task_process _ c t).
  - done.
  - done.
Qed.

Lemma user_write_ok n tf k c t fd h pb len r s' :
  process k c t -> fd_table t !! fd = Some h -> (fd < 16)%nat -> h <> 0 -> 0 <= pb < 2 ^ 64 -> 0 <= len < 2 ^ 64 ->
  0 <= r < 2 ^ 64 -> vfs_write h (user_run (base.size (k_user k)) (k_user k) pb) len (k_fs k) = Ok (r, s') ->
  exists k', user_write videocore n tf (Z.of_nat fd) pb len k = Ok (r, k') /\
    process k' c t /\ k_fs k' = s' /\ k_user k' = k_user k.
Proof using Type.
  intros Hk Eh Hfd Hh Hpb Hlen Hr Hw. set (args := [Z.of_nat fd; pb; len]). set (k1 := at_call k tf SYS_WRITE args).
  destruct (at_call_keeps k tf SYS_WRITE args) as (H1 & H2 & H3). fold k1 in H1, H2, H3. apply H1 in Hk.
  destruct (call3_regs k tf SYS_WRITE (Z.of_nat fd) pb len ltac:(lia) Hpb Hlen) as (E0 & E1 & E2). fold args k1 in E0, E1, E2.
  assert (Es : s32 (reg k1 tf 0) = Z.of_nat fd) by (rewrite E0; apply s32_small; lia).
  rewrite <-H2, <-H3, <-E1, <-E2 in Hw.
  pose proof (sys_write_ok k1 c t tf fd h r s' Hk Es Eh Hh Hw) as E. eexists. split_and!.
  - unfold user_write. fold args. rewrite (user_call_ok n tf SYS_WRITE _ k sys_write _ eq_refl ltac:(done) E).
    by rewrite set_reg_reg, decide_True, u64_small by (done || lia).
  - by apply set_reg_process.
  - done.
  - done.
Qed.

Lemma user_read_ok n tf k c t fd h pb len r out s' :
  process k c t -> fd_table t !! fd = Some h -> (fd < 16)%nat -> h <> 0 -> 0 <= pb < 2 ^ 64 -> 0 <= len < 2 ^ 64 ->
  0 <= r < 2 ^ 64 -> vfs_read h (user_run (base.size (k_user k)) (k_user k) pb) len (k_fs k) = Ok (r, out, s') ->
  exists k', user_read videocore n tf (Z.of_nat fd) pb len k = Ok (r, k') /\
    process k' c t /\ k_fs k' = s' /\ k_user k' = put_run (k_user k) pb out.
Proof using Type.
  intros Hk Eh Hfd Hh Hpb Hlen Hr Hw. set (args := [Z.of_nat fd; pb; len]). set (k1 := at_call k tf SYS_READ args).
  destruct (at_call_keeps k tf SYS_READ args) as (H1 & H2 & H3). fold k1 in H1, H2, H3. apply H1 in Hk.
  destruct (call3_regs k tf SYS_READ (Z.of_nat fd) pb len ltac:(lia) Hpb Hlen) as (E0 & E1 & E2). fold args k1 in E0, E1, E2.
  assert (Es : s32 (reg k1 tf 0) = Z.of_nat fd) by (rewrite E0; apply s32_small; lia).
  rewrite <-H2, <-H3, <-E1, <-E2 in Hw.
  pose proof (sys_read_ok k1 c t tf fd h r out s' Hk Es Eh Hh Hw) as E. eexists. split_and!.
  - unfold user_read. fold args. rewrite (user_call_ok n tf SYS_READ _ k sys_read _ eq_refl ltac:(done) E).
    by rewrite set_reg_reg, decide_True, u64_small by (done || lia).
  - by apply set_reg_process.
  - done.
  - transitivity (put_run (k_user k1) (reg k1 tf 1) out); [done|by rewrite H3, E1].
Qed.
End Call.

(** * Properties *)

Section Kernel.
Context `{Link}.
Variables (fuel : nat) (junk : list Z) (videocore : Z -> list Z -> list Z).
#[local] Existing Instance kernel_ops.
Let ops : Ops := kernel_ops fuel junk.
#[local] Existing Instance ops | 0.

(** Creating a file, writing to it and closing it. *)
Lemma create_session n tf k c t fd pq q cwd pre nm d v i pb len :
  process k c t -> first_free t fd -> (fd < 16)%nat -> fs_ok (k_fs k) ->
  user_string k pq q -> holds (current_dir t) cwd -> (length q < 256)%nat -> no_dot (joined cwd q) ->
  entry_path (joined cwd q) pre nm -> nm <> [] -> pre <> [47] -> (length nm < 16)%nat ->
  walk (k_fs k) (root_of (k_fs k)) (components pre) = Some d ->
  vnodes (k_fs k) !! d = Some v -> v_ops v = Tmpfs -> inodes (k_fs k) !! internal v = Some i ->
  i_type i = FSNODE_TYPE_DIR -> child (k_fs k) d nm = None -> (length (children (k_fs k) d) < 16)%nat ->
  0 <= pq < 2 ^ 64 -> 0 <= pb < 2 ^ 64 -> 0 < len <= 4096 ->
  let mem := user_run (base.size (k_user k)) (k_user k) in len <= Z.of_nat (length (mem pb)) ->
  exists k' node,
    (fd ← user_open videocore n tf pq O_CREAT; w ← user_write videocore n tf fd pb len;
     _ ← user_close videocore n tf fd; mret (fd, w)) k = Ok ((Z.of_nat fd, len), k') /\
    process k' c t /\ k_user k' = k_user k /\ fs_ok (k_fs k') /\
    walk (k_fs k') (root_of (k_fs k')) (components (joined cwd q)) = Some node /\
    file_is (k_fs k') node (take (Z.to_nat len) (mem pb)).
Proof using Type.
  intros Hk Hfd Hfd16 Hfs Hq Hc Hql Hnd He Hne Hpre Hnl Hd Hv Hvo Hi Hit Hch Hroom Hpq Hpb Hlen mem Hb.
  pose proof (ep_len _ _ _ He) as Hjl.
  destruct (user_open_ok videocore n tf k c t fd pq q cwd O_CREAT Hk Hfd Hfd16 Hq Hc Hql Hjl Hnd Hpq ltac:(done))
    as (path & Hp & F).
  destruct (vfs_open_new fuel junk (k_fs k) path _ pre nm d v i O_CREAT Hfs Hp He Hne Hpre Hnl Hd Hv Hvo Hi Hit Hch Hroom ltac:(done))
    as (s1 & h & w & j & b & E1 & Hs1 & Hw1 & Hh0 & Hf1 & Hr1 & Hc1 & _).
  set (node := next_key (k_fs k)) in *. assert (Hh1 : handle s1 h node 0) by (split; [done|by eexists]).
  destruct (F h s1 E1) as (k1 & C1 & Hk1 & Ef1 & Eu1). set (t1 := set_fd_table (<[fd := h]> (fd_table t)) t) in *.
  assert (Et1 : fd_table t1 !! fd = Some h).
  { apply list_lookup_insert_eq. destruct Hfd as [Hfd _]. by apply lookup_lt_Some in Hfd. }
  destruct (vfs_write_ok fuel junk s1 h node 0 [] (mem pb) len Hs1 Hh1 ltac:(by exists w, j, b) ltac:(cbn; lia) ltac:(lia) ltac:(lia))
    as (s2 & E2 & Hs2 & Ht2 & Hh2 & Hc2). rewrite take_nil, drop_nil, app_nil_r in Hc2. cbn [app] in Hc2.
  subst mem. rewrite <-Eu1, <-Ef1 in E2.
  destruct (user_write_ok videocore n tf k1 c t1 fd h pb len len s2 Hk1 Et1 Hfd16 Hh0 Hpb ltac:(lia) ltac:(lia) E2)
    as (k2 & C2 & Hk2 & Ef2 & Eu2).
  destruct (vfs_close_ok fuel junk s2 h node _ Hs2 Hh2) as (s3 & E3 & Hs3 & Ht3 & _ & Hc3). rewrite <-Ef2 in E3.
  destruct (user_close_ok videocore n tf k2 c t1 fd h s3 Hk2 Et1 Hfd16 Hh0 E3) as (k3 & C3 & Hk3 & Ef3 & Eu3).
  assert (Etask : set_fd_table (<[fd := 0]> (fd_table t1)) t1 = t).
  { unfold t1. cbn. rewrite list_insert_insert_eq, list_insert_id by apply Hfd. by destruct t. }
  rewrite Etask in Hk3. exists k3, node. rewrite Ef3. split_and!; [|done|congruence|done| |by apply Hc3].
  - run C1. run C2. by run C3.
  - by rewrite (same_tree_root s2 s3 Ht3), (same_tree_root s1 s2 Ht2), (same_tree_walk s2 s3 Ht3), (same_tree_walk s1 s2 Ht2).
Qed.

(** Opening a file and reading it. *)
Lemma read_session n tf k c t fd pq q cwd pre nm node bytes po :
  process k c t -> first_free t fd -> (fd < 16)%nat -> fs_ok (k_fs k) ->
  user_string k pq q -> holds (current_dir t) cwd -> (length q < 256)%nat -> no_dot (joined cwd q) ->
  entry_path (joined cwd q) pre nm -> walk (k_fs k) (root_of (k_fs k)) (components (joined cwd q)) = Some node ->
  file_is (k_fs k) node bytes -> 0 <= pq < 2 ^ 64 -> 0 <= po < 2 ^ 64 ->
  let mem := user_run (base.size (k_user k)) (k_user k) in (length bytes <= length (mem po))%nat ->
  exists k',
    (fd ← user_open videocore n tf pq 0; r ← user_read videocore n tf fd po (Z.of_nat (length bytes)); mret (fd, r)) k =
      Ok ((Z.of_nat fd, Z.of_nat (length bytes)), k') /\
    forall a, k_user k' !! a =
      if (po <=? a) && (a <? po + Z.of_nat (length bytes)) then bytes !! Z.to_nat (a - po) else k_user k !! a.
Proof using Type.
  intros Hk Hfd Hfd16 Hfs Hq Hc Hql Hnd He Hw Hfile Hpq Hpo mem Hb.
  destruct (user_open_ok videocore n tf k c t fd pq q cwd 0 Hk Hfd Hfd16 Hq Hc Hql (ep_len _ _ _ He) Hnd Hpq ltac:(done))
    as (path & Hp & F).
  destruct (vfs_open_file fuel junk (k_fs k) path _ pre nm 0 node bytes Hfs Hp He Hw Hfile) as (s1 & E1 & Hs1 & _ & Hh1 & Hc1).
  set (g := next_key (k_fs k)) in *. destruct (F g s1 E1) as (k1 & C1 & Hk1 & Ef1 & Eu1).
  set (t1 := set_fd_table (<[fd := g]> (fd_table t)) t) in *.
  assert (Et1 : fd_table t1 !! fd = Some g).
  { apply list_lookup_insert_eq. destruct Hfd as [Hfd _]. by apply lookup_lt_Some in Hfd. }
  pose proof (file_is_length _ _ _ Hc1) as Hbl.
  destruct (vfs_read_ok fuel junk s1 g node 0 bytes (mem po) (Z.of_nat (length bytes)) Hs1 Hh1 Hc1 ltac:(lia) ltac:(lia) ltac:(lia))
    as (s2 & E2 & _). rewrite Z.sub_0_r, Z.min_id, !Nat2Z.id, drop_0, take_ge in E2 by lia.
  subst mem. rewrite <-Eu1, <-Ef1 in E2.
  destruct (user_read_ok videocore n tf k1 c t1 fd g po (Z.of_nat (length bytes)) (Z.of_nat (length bytes)) _ s2 Hk1 Et1 Hfd16 (proj1 Hh1) Hpo ltac:(lia) ltac:(lia) E2)
    as (k2 & C2 & Hk2 & Ef2 & Eu2).
  exists k2. split; [run C1; by run C2|]. intros a. rewrite Eu2, Eu1.
  set (m := user_run (base.size (k_user k)) (k_user k) po) in *.
  apply (put_run_same (base.size (k_user k)) (k_user k) po (take (length bytes) m) (drop (length bytes) m) a).
  - by rewrite take_drop.
  - rewrite length_take. lia.
Qed.

(** C28. A process that opens a new file of a tmpfs directory with [O_CREAT], writes, closes,
    opens it again and reads finds the bytes it wrote: the calls return the lowest free
    descriptor and the numbers of bytes, and of the memory of the process only the buffer
    of the read has changed. *)
Theorem user_file_roundtrip n tf k c t fd pq q cwd pre nm d v i pb len po :
  process k c t -> first_free t fd -> (fd < 16)%nat -> fs_ok (k_fs k) ->
  user_string k pq q -> holds (current_dir t) cwd -> (length q < 256)%nat -> no_dot (joined cwd q) ->
  entry_path (joined cwd q) pre nm -> nm <> [] -> pre <> [47] -> (length nm < 16)%nat ->
  walk (k_fs k) (root_of (k_fs k)) (components pre) = Some d ->
  vnodes (k_fs k) !! d = Some v -> v_ops v = Tmpfs -> inodes (k_fs k) !! internal v = Some i ->
  i_type i = FSNODE_TYPE_DIR -> child (k_fs k) d nm = None -> (length (children (k_fs k) d) < 16)%nat ->
  0 <= pq < 2 ^ 64 -> 0 <= pb < 2 ^ 64 -> 0 <= po < 2 ^ 64 -> 0 < len <= 4096 ->
  let mem := user_run (base.size (k_user k)) (k_user k) in
  len <= Z.of_nat (length (mem pb)) -> len <= Z.of_nat (length (mem po)) ->
  exists k',
    (fd1 ← user_open videocore n tf pq O_CREAT;
     w ← user_write videocore n tf fd1 pb len;
     _ ← user_close videocore n tf fd1;
     fd2 ← user_open videocore n tf pq 0;
     r ← user_read videocore n tf fd2 po len;
     mret (fd1, w, fd2, r)) k = Ok ((Z.of_nat fd, len, Z.of_nat fd, len), k') /\
    (forall a, 0 <= a < len -> k_user k' !! (po + a) = k_user k !! (pb + a)) /\
    (forall a, a < po \/ po + len <= a -> k_user k' !! a = k_user k !! a).
Proof using Type.
  intros Hk Hfd Hfd16 Hfs Hq Hc Hql Hnd He Hne Hpre Hnl Hd Hv Hvo Hi Hit Hch Hroom Hpq Hpb Hpo Hlen mem Hb Ho.
  destruct (create_session n tf k c t fd pq q cwd pre nm d v i pb len Hk Hfd Hfd16 Hfs Hq Hc Hql Hnd He Hne Hpre Hnl Hd Hv Hvo
    Hi Hit Hch Hroom Hpq Hpb Hlen Hb) as (k1 & node & E1 & Hk1 & Eu1 & Hfs1 & Hw1 & Hf1).
  set (bytes := take (Z.to_nat len) (mem pb)) in *.
  assert (Hbl : Z.of_nat (length bytes) = len) by (unfold bytes; rewrite length_take; lia).
  destruct (read_session n tf k1 c t fd pq q cwd pre nm node bytes po Hk1 Hfd Hfd16 Hfs1 ltac:(unfold user_string; by rewrite Eu1)
    Hc Hql Hnd He Hw1 Hf1 Hpq Hpo ltac:(rewrite Eu1; unfold mem in Ho; lia)) as (k2 & E2 & Eu2).
  rewrite Hbl in E2, Eu2. exists k2. split_and!.
  - apply bind_inv in E1 as (fd1 & ka & E1a & E1). run E1a. apply bind_inv in E1 as (w & kb & E1b & E1). run E1b.
    apply bind_inv in E1 as (z & kc & E1c & E1). run E1c. injection E1 as -> -> ->.
    apply bind_inv in E2 as (fd2 & kd & E2a & E2). run E2a. apply bind_inv in E2 as (r & ke & E2b & E2). run E2b.
    by injection E2 as -> -> ->.
  - intros a Ha. rewrite Eu2. destruct (Z.leb_spec po (po + a)), (Z.ltb_spec (po + a) (po + len)); try lia. cbn [andb].
    replace (po + a - po) with a by lia. destruct (lookup_lt_is_Some_2 bytes (Z.to_nat a)) as [x Ex]; [lia|]. rewrite Ex.
    symmetry. unfold bytes in Ex. rewrite lookup_take_lt in Ex by lia.
    replace a with (Z.of_nat (Z.to_nat a)) by lia. by apply (user_run_lookup (base.size (k_user k))).
  - intros a Ha. rewrite Eu2, Eu1. destruct (Z.leb_spec po a), (Z.ltb_spec a (po + len)); try lia; done.
Qed.

(** [chdir] to a path that leads somewhere makes its absolute form the current directory;
    one that leads nowhere is answered -1 and changes nothing else. *)
Theorem sys_chdir_spec k c t tf q cwd :
  process k c t -> fs_ok (k_fs k) -> user_string k (reg k tf 0) q -> holds (current_dir t) cwd ->
  length (current_dir t) = 256%nat -> (length q < 256)%nat -> (length (joined cwd q) < 256)%nat -> no_dot (joined cwd q) ->
  match walk (k_fs k) (root_of (k_fs k)) (components (joined cwd q)) with
  | Some _ => exists dir, holds dir (joined cwd q) /\ length dir = 256%nat /\
      sys_chdir tf k = Ok (Status SYSCALL_SUCCESS, set_reg (set_task k c (set_current_dir dir t)) tf 0 0)
  | None => sys_chdir tf k = Ok (Status SYSCALL_ERROR, set_reg k tf 0 (-1))
  end.
Proof using Type.
  intros Hk Hfs Hq Hc Hcl Hql Hl Hnd. destruct (resolve_ok k c t _ q cwd Hk Hq Hc Hql Hl Hnd) as (path & Ep & Hp).
  pose proof (vfs_lookup_ok (k_fs k) (fo_objs _ Hfs) path (joined cwd q) Hfs Hp (components_length _ Hl)) as El.
  assert (Ek : with_fs (k_fs k) k = k) by (by destruct k).
  destruct (walk _ _ _) as [node|]; [eexists (joined cwd q ++ 0 :: drop (S (length (joined cwd q))) (current_dir t))|].
  - split_and!; [apply holds_self, Hp|rewrite length_app; cbn [length]; rewrite length_drop; lia|].
    unfold sys_chdir. run (x_at_ok tf 0 k). run Ep. rewrite (bind_ok _ _ _ _ _ (on_fs_ok _ k _ _ El)). cbv beta iota. rewrite Ek.
    run (this_task_ok k c t Hk). run (lift_res_ok _ k _ (strcpy_ok (current_dir t) path _ Hp ltac:(lia))).
    by run (process_put_task k c t (set_current_dir (joined cwd q ++ 0 :: drop (S (length (joined cwd q))) (current_dir t))) Hk).
  - unfold sys_chdir. run (x_at_ok tf 0 k). run Ep. rewrite (bind_ok _ _ _ _ _ (on_fs_ok _ k _ _ El)). cbv beta iota. by rewrite Ek.
Qed.
End Kernel.

(** * Instances *)

Section Example.
#[local] Existing Instance kernel_ops.
Let ops : Ops := kernel_ops 4 (replicate 32 0).
#[local] Existing Instance ops | 0.

(** A process with the string "f" at 4096, three bytes at 4098 and room at 4101, on an
    empty tmpfs. *)
Definition ex_user : gmap Z Z := list_to_map (zip (seqZ 4096 9) (cstr "f" ++ [1; 2; 3] ++ [0; 0; 0; 9])).
Definition ex_kernel : kernel :=
  Kernel ex_procs ex_fs ex_user (Timers [] []) read_buffer0 read_buffer0 [] [] (replicate 144 0) 0.
Definition ex_shell : task_struct := ex_task 0 TASK_RUNNING 1 1 0.
Definition ex_videocore (ch : Z) (m : list Z) : list Z := m.

Lemma ex_process : process ex_kernel 0 ex_shell.
Proof. by split. Qed.

Lemma ex_run : user_run (base.size ex_user) ex_user 4096 = cstr "f" ++ [1; 2; 3; 0; 0; 0; 9].
Proof. vm_compute. reflexivity. Qed.

Lemma ex_string : user_string ex_kernel 4096 (chars "f").
Proof. unfold user_string. cbn [k_user ex_kernel]. rewrite ex_run. split; [repeat constructor|by eexists]. Qed.

Lemma ex_cwd : holds (current_dir ex_shell) [].
Proof. split; [apply nonzero_nil|by exists (replicate 255 0)]. Qed.

Lemma ex_dotless : no_dot (joined [] (chars "f")).
Proof. apply dotless_no_dot. reflexivity. Qed.

Lemma ex_free : first_free ex_shell 0.
Proof. split; [done|]. intros j Hj. lia. Qed.

Lemma ex_path : entry_path (joined [] (chars "f")) [] (chars "f").
Proof. split; [done|apply Forall_cons_2; [done|apply Forall_nil_2]|apply Nat.ltb_lt; reflexivity]. Qed.

Lemma user_file_roundtrip_witness :
  exists k',
    (fd1 ← user_open ex_videocore 1 ex_tf 4096 O_CREAT;
     w ← user_write ex_videocore 1 ex_tf fd1 4098 3;
     _ ← user_close ex_videocore 1 ex_tf fd1;
     fd2 ← user_open ex_videocore 1 ex_tf 4096 0;
     r ← user_read ex_videocore 1 ex_tf fd2 4101 3;
     mret (fd1, w, fd2, r)) ex_kernel = Ok ((0, 3, 0, 3), k') /\
    (forall a, 0 <= a < 3 -> k_user k' !! (4101 + a) = ex_user !! (4098 + a)) /\
    (forall a, a < 4101 \/ 4104 <= a -> k_user k' !! a = ex_user !! a).
Proof.
  apply (user_file_roundtrip 4 (replicate 32 0) ex_videocore 1 ex_tf ex_kernel 0 ex_shell 0 4096 (chars "f") [] [] (chars "f")
    2 ex_root ex_root_inode 4098 3 4101 ex_process ex_free ltac:(lia) ex_fs_ok ex_string ex_cwd ltac:(apply Nat.ltb_lt; reflexivity) ex_dotless
    ex_path ltac:(done) ltac:(done) ltac:(apply Nat.ltb_lt; reflexivity) eq_refl eq_refl eq_refl eq_refl eq_refl eq_refl ex_room); try lia.
  - apply Z.leb_le. vm_compute. reflexivity.
  - apply Z.leb_le. vm_compute. reflexivity.
Defined.

(** The process opens the root directory's "f", which is not there. *)
Lemma sys_open_spec_witness :
  sys_open ex_tf (set_reg (set_reg ex_kernel ex_tf 0 4096) ex_tf 1 0) =
    Ok (Status SYSCALL_ERROR, set_reg (set_reg (set_reg ex_kernel ex_tf 0 4096) ex_tf 1 0) ex_tf 0 (-1)).
Proof.
  set (k := set_reg (set_reg ex_kernel ex_tf 0 4096) ex_tf 1 0).
  assert (E0 : reg k ex_tf 0 = 4096) by (unfold k; rewrite set_reg_reg, decide_False, set_reg_reg, decide_True by lia; reflexivity).
  assert (E1 : reg k ex_tf 1 = 0) by (unfold k; rewrite set_reg_reg, decide_True by lia; reflexivity).
  destruct (proj2 (sys_open_spec k 0 ex_shell ex_tf (chars "f") [] ex_process ltac:(rewrite E0; exact ex_string) ex_cwd)
    ltac:(apply Nat.ltb_lt; reflexivity) ltac:(apply Nat.ltb_lt; reflexivity) ex_dotless) as (path & Hp & _ & H).
  rewrite (H 0%nat ex_free ltac:(lia)), E1. change (k_fs k) with ex_fs.
  destruct (VfsSpec.vfs_open_ok ex_fs path _ [] (chars "f") ex_fs_ok Hp ex_path (s32 0)) as (nb & _ & E).
  etrans; [exact (f_equal (fun r => match r with Ok (Some h, s') => _ | Ok (None, s') => _ | Err f => _ end) E)|]. reflexivity.
Defined.

Lemma sys_fd_unchecked_witness :
  let k := set_reg ex_kernel ex_tf 0 16 in
  sys_close ex_tf k = Err OutOfBounds /\ sys_write ex_tf k = Err OutOfBounds /\ sys_read ex_tf k = Err OutOfBounds.
Proof.
  apply (sys_fd_unchecked (set_reg ex_kernel ex_tf 0 16) 0 ex_shell ex_tf ex_process eq_refl).
  right. rewrite set_reg_reg, decide_True by done. vm_compute. discriminate.
Defined.

Lemma sys_chdir_spec_witness :
  sys_chdir ex_tf (set_reg ex_kernel ex_tf 0 4096) =
    Ok (Status SYSCALL_ERROR, set_reg (set_reg ex_kernel ex_tf 0 4096) ex_tf 0 (-1)).
Proof.
  pose proof (sys_chdir_spec 4 (replicate 32 0) (set_reg ex_kernel ex_tf 0 4096) 0 ex_shell ex_tf (chars "f") [] ex_process ex_fs_ok
    ltac:(rewrite set_reg_reg, decide_True by done; exact ex_string) ex_cwd eq_refl ltac:(apply Nat.ltb_lt; reflexivity) ltac:(apply Nat.ltb_lt; reflexivity) ex_dotless) as H.
  exact H.
Defined.
End Example.
