(* ===== verification/ExceptionSpec.v ===== *)
(** What the interrupt handlers do to the kernel. *)
From Stdlib Require Import Ascii String.
From S2P Require Import Prelude Sched SchedInv SchedSpec Process ProcessSpec CString FsData Vfs Timer Queue Console Kernel Syscall Exception UserSpec.

(** * The UART interrupt *)

(** The characters of [l] that the line status lets through, the first being the [i]-th. *)
Fixpoint sent (lsr : nat -> Z) (i : nat) (l : list Z) : list Z :=
  match l with
  | [] => []
  | c :: l => (if negb (Z.land (lsr i) 0x20 =? 0) then [c] else []) ++ sent lsr (S i) l
  end.

Lemma sent_all lsr i l : (forall j, Z.land (lsr j) 0x20 <> 0) -> sent lsr i l = l.
Proof.
  intros Hr. revert i. induction l as [|c l IH]; intros i; [done|]. cbn. rewrite IH.
  destruct (Z.eqb_spec (Z.land (lsr i) 0x20) 0) as [E|_]; [by apply Hr in E|done].
Qed.

Lemma transmit_loop_ok n i lsr k l :
  queue_ok (k_write k) -> contents (k_write k) = l -> (length l <= n)%nat ->
  exists q, transmit_loop n i lsr k = Ok (tt, with_tx (k_tx k ++ sent lsr i l) (with_queues (k_read k) q k)) /\
    queue_ok q /\ contents q = [] /\ Queue.size q = Queue.size (k_write k).
Proof.
  revert i k l. induction n as [|n IH]; intros i k l Hq Hc Hl.
  - destruct l; [|cbn in Hl; lia]. exists (k_write k). cbn [transmit_loop]. run (gets_ok k_write k).
    rewrite (proj2 (is_empty_ok _ Hq) Hc). rewrite app_nil_r. split; [by destruct k|done].
  - cbn [transmit_loop]. run (gets_ok k_write k). destruct l as [|c l].
    + exists (k_write k). rewrite (proj2 (is_empty_ok _ Hq) Hc), app_nil_r. split; [by destruct k|done].
    + destruct (is_empty (k_write k)) eqn:Ee; [apply (is_empty_ok _ Hq) in Ee; congruence|].
      destruct (dequeue_ok _ c l Hq Hc) as (q & Ed & Hq' & Hs & Hc'). run (lift_res_ok _ k _ Ed).
      set (k1 := with_queues (k_read k) q k). run (eq_refl : modify (fun k => with_queues (k_read k) q k) k = Ok (tt, k1)).
      cbn [sent]. destruct (Z.land (lsr i) 32 =? 0); cbn [negb].
      * run (eq_refl : (mret tt : M kernel unit) k1 = Ok (tt, k1)). destruct (IH (S i) k1 l Hq' Hc' ltac:(cbn in Hl; lia)) as (q2 & E & H2 & H3 & H4).
        exists q2. rewrite E. split; [done|]. split_and!; [done|done|]. rewrite H4. exact Hs.
      * set (k2 := with_tx (k_tx k1 ++ [c]) k1). run (eq_refl : uart_send c k1 = Ok (tt, k2)).
        destruct (IH (S i) k2 l Hq' Hc' ltac:(cbn in Hl; lia)) as (q2 & E & H2 & H3 & H4).
        exists q2. rewrite E. split; [|split_and!; [done|done|]; rewrite H4; exact Hs].
        cbn. by rewrite <-app_assoc.
Qed.

(** C30. The interrupt of the transmitter empties the queue of the characters to send; only
    those the transmitter has room for when they are taken off are sent, the others are
    lost.  The interrupt of the receiver moves the next character, a carriage return as a
    newline, to the queue of the characters read, which loses them all when it was full.
    Nothing else changes; the receive interrupt is on in the end, the transmit interrupt
    off once it has been served. *)
Theorem uart_interrupt_spec iir iir' rx lsr k :
  queue_ok (k_read k) -> queue_ok (k_write k) ->
  (Z.land iir 2 <> 0 -> exists q,
     uart_interrupt_handler iir iir' rx lsr k =
       Ok (tt, with_ier (Z.lor (Z.ldiff (Z.ldiff (k_ier k) 1) 2) 1)
                 (with_tx (k_tx k ++ sent lsr 0 (contents (k_write k))) (with_queues (k_read k) q k))) /\
     queue_ok q /\ contents q = []) /\
  (forall c l, Z.land iir 2 = 0 -> Z.land iir' 4 <> 0 -> Z.land rx 1 <> 0 -> k_rx k = c :: l -> exists q,
     uart_interrupt_handler iir iir' rx lsr k =
       Ok (tt, with_ier (Z.lor (Z.ldiff (k_ier k) 1) 1) (with_queues q (k_write k) (with_rx l k))) /\
     queue_ok q /\
     contents q = if waiting (k_read k) <? Queue.size (k_read k) - 1
                  then contents (k_read k) ++ [if u8 c =? 13 then 10 else u8 c] else []).
Proof.
  intros Hr Hw. split.
  - intros Hi. unfold uart_interrupt_handler. destruct (Z.eqb_spec (Z.land iir 2) 0); [done|]. cbn [negb].
    set (k1 := with_ier (Z.ldiff (k_ier k) 1) k). run (eq_refl : modify (fun k => with_ier (Z.ldiff (k_ier k) 1) k) k = Ok (tt, k1)).
    set (k2 := with_ier (Z.ldiff (k_ier k1) 2) k1).
    destruct (transmit_loop_ok (length (buffer (k_write k))) 0 lsr k2 (contents (k_write k)) Hw eq_refl) as (q & E & Hq & Hc & _).
    { pose proof (contents_length _ Hw). pose proof (waiting_range _ Hw). pose proof (qo_size _ Hw). lia. }
    exists q. split; [|done].
    rewrite (bind_ok _ _ k1 tt (with_tx (k_tx k2 ++ sent lsr 0 (contents (k_write k))) (with_queues (k_read k2) q k2))); [done|].
    run (eq_refl : modify (fun k => with_ier (Z.ldiff (k_ier k) 2) k) k1 = Ok (tt, k2)). run (gets_ok k_write k2). exact E.
  - intros c l Hi Hi' Hx Hrx. unfold uart_interrupt_handler.
    destruct (Z.eqb_spec (Z.land iir 2) 0), (Z.eqb_spec (Z.land iir' 4) 0), (Z.eqb_spec (Z.land rx 1) 0); try done. cbn [negb].
    set (k1 := with_ier (Z.ldiff (k_ier k) 1) k). run (eq_refl : modify (fun k => with_ier (Z.ldiff (k_ier k) 1) k) k = Ok (tt, k1)).
    set (x := if u8 c =? 13 then 10 else u8 c). destruct (enqueue_ok (k_read k) x Hr) as (q & E & Hq & _ & Hc).
    assert (Hx8 : u8 x = x).
    { apply u8_small. unfold x. pose proof (u8_range c). destruct (u8 c =? 13); lia. }
    rewrite Hx8 in Hc. exists q. split; [|split; [done|exact Hc]].
    set (k2 := with_rx l k1). rewrite (bind_ok _ _ k1 tt (with_queues q (k_write k2) k2)); [done|].
    assert (Eg : uart_getc k1 = Ok (x, k2)) by (unfold uart_getc; cbn; by rewrite Hrx).
    run Eg. run (gets_ok k_read k2). by run (lift_res_ok _ k2 _ E).
Qed.

(** * The timer interrupt *)

Section Timer.
Context `{Link}.

(** A timer interrupt turns off the software timers that expired and takes one unit from
    the task that runs, recharging the runnable tasks when it was the last of all; the
    task that runs in the end is one that can run, and neither the files nor the memory
    of the process nor the queues of the UART have changed. *)
Theorem timer_interrupt_spec fuel now r k :
  Z.land (core0_irq_source r) 2 <> 0 ->
  sched_ok (k_sched k) -> quiet (k_sched k) -> active (k_sched k) -> timers_ok (k_timers k) ->
  exists res k' c p n, irq_router (S (S fuel)) now r k = Ok (res, k') /\
    sched_ok (k_sched k') /\ active (k_sched k') /\
    timer_pool (k_timers k') = map (tick now) (timer_pool (k_timers k)) /\
    k_fs k' = k_fs k /\ k_user k' = k_user k /\ k_read k' = k_read k /\ k_write k' = k_write k /\
    current (k_sched k) = Z.of_nat c /\ slices (k_sched k) !! c = Some (true, p, n) /\
    let l := <[c := (true, p, n - 1)]> (slices (k_sched k)) in
    (slices (k_sched k') = l \/
     ((forall i p' n', l !! i = Some (true, p', n') -> n' = 0) /\ slices (k_sched k') = map refill l)).
Proof.
  intros Hr Hs Hq Ha Ht. unfold irq_router. destruct (Z.eqb_spec (Z.land (core0_irq_source r) 2) 0) as [|_]; [done|]. cbn [negb].
  unfold core_timer_handler. pose proof (timer_update_ok (k_timers k) now Ht) as Et. set (t' := Timers _ _) in Et.
  set (k1 := with_timers t' k). run (on_part_ok _ _ _ k _ _ Et : on_timers (timer_update now) k = Ok (tt, k1)).
  destruct (tick_ok (k_sched k) fuel Hs Hq Ha) as (res & s' & c & p & n & E & Hs' & _ & Ha' & Hc & Hsl & Hcase).
  exists res, (with_sched s' k1), c, p, n. split_and!; try done.
  exact (on_part_ok k_sched with_sched (do_timer (S (S fuel))) k1 res s' E).
Qed.
End Timer.

(** * Instances *)

(** Three characters wait to be sent; the transmitter has no room for the second. *)
Definition ex_sending : kernel := with_queues read_buffer0 ex_queue ex_kernel.
Definition ex_lsr (i : nat) : Z := match i with 1%nat => 0x40 | _ => 0x60 end.

Lemma uart_interrupt_spec_witness :
  exists q, uart_interrupt_handler 2 0 0 ex_lsr ex_sending =
      Ok (tt, with_ier 1 (with_tx [97; 99] (with_queues read_buffer0 q ex_sending))) /\
    queue_ok q /\ contents q = [].
Proof.
  apply (proj1 (uart_interrupt_spec 2 0 0 ex_lsr ex_sending read_buffer0_ok ex_queue_ok)). done.
Defined.

Definition ex_ticking : kernel := with_timers ex_timers ex_kernel.
Definition ex_irq : irq_regs := IrqRegs 2 0 0 0 0 ex_lsr.

Lemma timer_interrupt_spec_witness :
  exists res k', irq_router 2 14 ex_irq ex_ticking = Ok (res, k') /\ sched_ok (k_sched k') /\
    timer_pool (k_timers k') = map (tick 14) (timer_pool ex_timers).
Proof.
  destruct (timer_interrupt_spec 0 14 ex_irq ex_ticking ltac:(done) ex_procs_ok ex_quiet
    ltac:(exists O, 1, 1; done) ex_timers_ok) as (res & k' & c & p & n & E & Hs & _ & Ht & _).
  exists res, k'. split; [exact E|]. split; [exact Hs|exact Ht].
Defined.
