(* ===== verification/KernelInv.v ===== *)
(** The kernel as a transition system: system calls, interrupts and signal handlers in any
    order, the invariant every one of them keeps, and that no interrupt can go wrong. *)
From Stdlib Require Import Ascii String.
From S2P Require Import Prelude ListHead Memblock Buddy Slab Sched SchedInv SchedSpec Process ProcessSpec TaskInv CString FsData Vfs FsInv FileSystems FsSpec FsSafe Timer Queue Console.
From S2P Require Import Kernel Initramfs Initrd Syscall SyscallSpec Exception UserSpec ExceptionSpec.

(** The invariant: the tasks, the tree of the files, and what the interrupts work on. *)
Record kernel_ok (k : kernel) : Prop := {
  ko_tasks : tasks_ok (k_sched k);
  ko_fs : tree_ok (k_fs k);
  ko_timers : timers_ok (k_timers k);
  ko_read : queue_ok (k_read k);
  ko_write : queue_ok (k_write k)
}.

(** * The parts *)

Lemma keeps_on_sched {A} (m : M sched_state A) Q : keeps tasks_ok m Q -> keeps kernel_ok (on_sched m) Q.
Proof.
  intros Hm k a k' [H1 H2 H3 H4 H5] E. unfold on_sched, on_part in E. destruct (m (k_sched k)) as [[b s]|] eqn:Em; [|done].
  injection E as <- <-. destruct (Hm _ _ _ H1 Em). by split.
Qed.
Lemma keeps_on_fs {A} (m : M fs_state A) Q : keeps tree_ok m Q -> keeps kernel_ok (on_fs m) Q.
Proof.
  intros Hm k a k' [H1 H2 H3 H4 H5] E. unfold on_fs, on_part in E. destruct (m (k_fs k)) as [[b s]|] eqn:Em; [|done].
  injection E as <- <-. destruct (Hm _ _ _ H2 Em). by split.
Qed.
Lemma keeps_on_timers {A} (m : M timers A) Q : keeps timers_ok m Q -> keeps kernel_ok (on_timers m) Q.
Proof.
  intros Hm k a k' [H1 H2 H3 H4 H5] E. unfold on_timers, on_part in E. destruct (m (k_timers k)) as [[b s]|] eqn:Em; [|done].
  injection E as <- <-. destruct (Hm _ _ _ H3 Em). by split.
Qed.

#[export] Hint Extern 2 (keeps kernel_ok (on_fs _) _) => apply keeps_on_fs : keeps.
#[export] Hint Extern 2 (keeps kernel_ok (on_sched _) _) => apply keeps_on_sched : keeps.
#[export] Hint Extern 1 (keeps kernel_ok (lift_res _) _) => (apply (keeps_lift_res _ _ _ _ (fun _ => eq_refl)); intros; exact Logic.I) : keeps.
#[export] Hint Extern 1 (keeps kernel_ok (modify _) _) => (apply keeps_modify; let H := fresh in intros ? H; destruct H; by split) : keeps.
#[export] Hint Extern 1 (keeps kernel_ok (put_user _ _) _) => (apply keeps_modify; let H := fresh in intros ? H; destruct H; by split) : keeps.
#[export] Hint Extern 1 (keeps kernel_ok (user_at _) _) => apply keeps_gets : keeps.

(** ** The timers *)

Definition timer_ok (t : timer) : Prop := (enable t = TIMER_DISABLE \/ enable t = TIMER_ENABLE) /\ length (message t) = 64%nat.

Lemma keeps_timer_at i : keeps timers_ok (timer_at i) timer_ok.
Proof.
  apply keeps_pure. intros s t s' E. unfold timer_at in E. destruct ((timer_pool s).[i]) as [u|] eqn:Eu; [|done]. injection E as <- <-.
  split; [done|]. intros [_ Ht]. apply zget_Some in Eu as [_ Eu]. by apply (Ht _ _ Eu).
Qed.
Lemma keeps_put_timer i t : timer_ok t -> keeps timers_ok (put_timer i t) (fun _ => True).
Proof.
  intros Ht s u s' [Hl Hs] E. split; [|done]. unfold put_timer in E. destruct ((timer_pool s).[i := t]) as [l|] eqn:El; [|done].
  injection E as _ <-. split; cbn [timer_pool].
  - by rewrite (zset_length _ _ _ _ El).
  - intros j v Hv. apply zset_Some in El as (_ & ->). apply list_lookup_insert_Some in Hv as [(_ & <- & _)|[_ Hv]]; [done|by apply (Hs j)].
Qed.
Lemma keeps_print e : keeps timers_ok (print e) (fun _ => True).
Proof. apply keeps_modify. by intros s [? ?]. Qed.

Lemma keeps_timer_set_loop n i now tmo msg : keeps timers_ok (timer_set_loop n i now tmo msg) (fun _ => True).
Proof.
  revert i. induction n as [|n IH]; intros i; cbn [timer_set_loop].
  - apply keeps_then; [apply keeps_print|keep].
  - apply (keeps_bind _ _ _ _ _ (keeps_timer_at i)). intros t [_ Hm]. destruct (_ =? _); [|apply IH].
    apply (keeps_bind _ _ _ (fun m => length m = 64%nat)).
    + apply (keeps_lift_res _ (strcpy (message t) msg) _ _ (fun _ => eq_refl)). intros m Em. rewrite <-Hm. apply (strcpy_shape _ _ _ Em).
    + intros m Hl. apply keeps_then; [|keep]. apply keeps_put_timer. split; [by right|done].
Qed.
Lemma keeps_timer_set now tmo msg : keeps timers_ok (timer_set now tmo msg) (fun _ => True).
Proof. apply keeps_then; [apply keeps_print|]. intros _. apply keeps_timer_set_loop. Qed.
Lemma keeps_timer_update now : keeps timers_ok (timer_update now) (fun _ => True).
Proof.
  intros s u s' Hs E. split; [|done]. rewrite (timer_update_ok s now Hs) in E. injection E as _ <-. destruct Hs as [Hl Ht].
  split; cbn [timer_pool]; [by rewrite length_map|]. intros i t Hi. apply list_lookup_fmap_Some in Hi as (v & -> & Hv).
  destruct (Ht i v Hv) as [He Hm]. unfold tick, disarm. destruct (expired now v); [|done]. cbn. rewrite length_insert. auto.
Qed.
#[export] Hint Extern 1 (keeps kernel_ok (on_timers (timer_set _ _ _)) _) => (apply keeps_on_timers, keeps_timer_set) : keeps.
#[export] Hint Extern 1 (keeps kernel_ok (on_timers (timer_update _)) _) => (apply keeps_on_timers, keeps_timer_update) : keeps.

(** ** The UART *)

Lemma keeps_getc : keeps kernel_ok uart_getc (fun _ => True).
Proof.
  intros k c k' [? ? ? ? ?] E. unfold uart_getc in E. destruct (k_rx k); [done|]. injection E as _ <-. by split.
Qed.
Lemma keeps_send c : keeps kernel_ok (uart_send c) (fun _ => True).
Proof. unfold uart_send. keep. Qed.
Lemma keeps_say s : keeps kernel_ok (say s) (fun _ => True).
Proof. unfold say. keep. Qed.
Lemma keeps_say_line s : keeps kernel_ok (say_line s) (fun _ => True).
Proof. unfold say_line. keep. Qed.
Lemma keeps_say_format s args : keeps kernel_ok (say_format s args) (fun _ => True).
Proof. unfold say_format. keep. Qed.
Lemma keeps_say_hex v : keeps kernel_ok (say_hex v) (fun _ => True).
Proof. unfold say_hex. keep. Qed.
#[export] Hint Resolve keeps_getc keeps_send keeps_say keeps_say_line keeps_say_format keeps_say_hex : keeps.

Lemma keeps_shell_input cmd : keeps kernel_ok (shell_input cmd) (fun _ => True).
Proof.
  unfold shell_input. apply keeps_then; [keep|]. intros n. generalize 0 at 1 as idx. generalize 0 as end_.
  revert cmd. induction n as [|n IH]; intros cmd end_ idx; cbn [shell_input_loop]; keep.
Qed.

Lemma dequeue_queue_ok q c q' : queue_ok q -> dequeue_char q = Ok (c, q') -> queue_ok q'.
Proof.
  intros [H1 H2 H3 H4] E. unfold dequeue_char in E. destruct ((buffer q).[tail q]); [|done]. cbn in E. injection E as _ <-.
  split; cbn; try done. rewrite Z.rem_mod_nonneg by lia. by apply Z.mod_pos_bound.
Qed.

Lemma keeps_queues r w : queue_ok r -> queue_ok w -> keeps kernel_ok (modify (with_queues r w)) (fun _ => True).
Proof. intros Hr Hw. apply keeps_modify. intros k [? ? ? _ _]. by split. Qed.

Lemma keeps_read_queue : keeps kernel_ok (gets k_read) queue_ok.
Proof. apply keeps_pure. intros k q k' E. injection E as <- <-. split; [done|]. apply ko_read. Qed.
Lemma keeps_write_queue : keeps kernel_ok (gets k_write) queue_ok.
Proof. apply keeps_pure. intros k q k' E. injection E as <- <-. split; [done|]. apply ko_write. Qed.

Lemma keeps_transmit n i lsr : keeps kernel_ok (transmit_loop n i lsr) (fun _ => True).
Proof.
  revert i. induction n as [|n IH]; intros i; cbn [transmit_loop];
    apply (keeps_bind _ _ _ _ _ keeps_write_queue); intros q Hq; (destruct (is_empty q); [keep|]); [keep|].
  apply (keeps_bind _ _ _ (fun r => queue_ok r.2)).
  { apply (keeps_lift_res _ (dequeue_char q) _ _ (fun _ => eq_refl)). intros [c q'] Ed. by apply (dequeue_queue_ok q c). }
  intros [c q'] Hq'. cbn in Hq'. apply keeps_then; [|intros _; apply keeps_then; keep; apply IH].
  apply keeps_modify. intros k [? ? ? ? _]. by split.
Qed.

Lemma keeps_uart_interrupt iir iir' rx lsr : keeps kernel_ok (uart_interrupt_handler iir iir' rx lsr) (fun _ => True).
Proof.
  unfold uart_interrupt_handler. apply keeps_then; [keep|]. intros _. apply keeps_then; [|keep]. destruct (negb _).
  { pose proof (fun n => keeps_transmit n 0 lsr). keep. }
  destruct (negb _); [|keep]. destruct (negb _); [|keep]. apply keeps_then; [keep|]. intros c.
  apply (keeps_bind _ _ _ _ _ keeps_read_queue). intros q Hq. apply (keeps_bind _ _ _ queue_ok).
  - apply (keeps_lift_res _ (enqueue_char q c) _ _ (fun _ => eq_refl)). intros q' E. destruct (enqueue_ok q c Hq) as (x & Ex & Hx & _). congruence.
  - intros q' Hq'. apply keeps_modify. intros k [? ? ? _ ?]. by split.
Qed.
#[export] Hint Resolve keeps_shell_input keeps_uart_interrupt : keeps.

Section Kernel.
Context `{Link}.
Variables (card_fuel : nat) (junk : list Z) (videocore : Z -> list Z -> list Z).
Let ops : Ops := kernel_ops card_fuel junk.
#[local] Existing Instance ops | 0.

(** * The system calls *)

Lemma keeps_x_at tf i : keeps kernel_ok (x_at tf i) (fun _ => True).
Proof using Type. apply keeps_on_sched, keeps_get_x. Qed.
Lemma keeps_set_x_at tf i v : keeps kernel_ok (set_x_at tf i v) (fun _ => True).
Proof using Type. apply keeps_on_sched, keeps_set_x. Qed.
Lemma keeps_answer tf v status : keeps kernel_ok (answer tf v status) (fun _ => True).
Proof using Type. apply keeps_then; [apply keeps_set_x_at|keep]. Qed.
Lemma keeps_this_task : keeps kernel_ok this_task shaped.
Proof using Type. apply keeps_on_sched, keeps_current_task. Qed.
Lemma keeps_this : keeps kernel_ok this_task (fun _ => True).
Proof using Type. apply (keeps_any _ _ _ keeps_this_task). Qed.
#[local] Hint Resolve keeps_x_at keeps_set_x_at keeps_answer keeps_this : keeps.

Lemma keeps_resolve p : keeps kernel_ok (resolve p) (fun _ => True).
Proof using Type. unfold resolve. keep. Qed.
#[local] Hint Resolve keeps_resolve : keeps.

(** The current task with another array. *)
Lemma keeps_set_table l : length l = 16%nat -> keeps kernel_ok (on_sched (upd_current (set_fd_table l))) (fun _ => True).
Proof using Type.
  intros Hl. apply keeps_on_sched, keeps_upd_current. intros i t [? ? ? ? ? ?] [? ? ?]. split_and?; [by split|by split|done|done].
Qed.
Lemma keeps_set_dir d : length d = 256%nat -> 0 ∈ d -> keeps kernel_ok (on_sched (upd_current (set_current_dir d))) (fun _ => True).
Proof using Type.
  intros Hl Hd. apply keeps_on_sched, keeps_upd_current. intros i t [? ? ? ? ? ?] [? ? ?]. split_and?; [by split|by split|done|done].
Qed.

(** A descriptor of the current task is written. *)
Lemma keeps_descriptor {A} fd h (m : M kernel A) : keeps kernel_ok m (fun _ => True) ->
  keeps kernel_ok (t ← this_task; l ← lift_opt OutOfBounds (fd_table t).[fd := h]; _ ← on_sched (upd_current (set_fd_table l)); m) (fun _ => True).
Proof using Type.
  intros Hm. apply (keeps_bind _ _ _ _ _ keeps_this_task). intros t [Hl _ _].
  apply (keeps_bind _ _ _ (fun l => length l = 16%nat)); [apply keeps_lift; intros l E; by rewrite (zset_length _ _ _ _ E)|].
  intros l Hl'. apply keeps_then; [by apply keeps_set_table|by intros _].
Qed.

Lemma keeps_open tf : keeps kernel_ok (sys_open tf) (fun _ => True).
Proof using Type.
  unfold sys_open. apply keeps_then; [keep|]. intros x0. apply keeps_then; [keep|]. intros x1. apply keeps_then; [keep|]. intros path.
  generalize 0 as i. induction (Z.to_nat FD_TABLE_SIZE) as [|n IH]; intros i; cbn [open_loop]; [keep|].
  apply keeps_then; [keep|]. intros t. apply keeps_then; [keep|]. intros f. destruct (f =? 0); [|apply IH].
  apply keeps_then; [keep|]. intros [h|]; [|keep]. apply keeps_descriptor. keep.
Qed.
Lemma keeps_close tf : keeps kernel_ok (sys_close tf) (fun _ => True).
Proof using Type.
  unfold sys_close, fd_handle. apply keeps_then; [keep|]. intros x0. cbv zeta. apply keeps_then; [keep|]. intros f.
  destruct (negb _); [|keep]. apply keeps_then; [keep|]. intros r. destruct (negb _); [|keep]. apply keeps_descriptor. keep.
Qed.
Lemma keeps_chdir tf : keeps kernel_ok (sys_chdir tf) (fun _ => True).
Proof using Type.
  unfold sys_chdir. apply keeps_then; [keep|]. intros x0. apply keeps_then; [keep|]. intros path. apply keeps_then; [keep|].
  intros [v|]; [|keep]. apply (keeps_bind _ _ _ _ _ keeps_this_task). intros t [_ Hl _].
  apply (keeps_bind _ _ _ (fun d => length d = 256%nat /\ 0 ∈ d)).
  - apply (keeps_lift_res _ (strcpy (current_dir t) path) _ _ (fun _ => eq_refl)). intros d Ed. rewrite <-Hl. by apply (strcpy_shape _ path).
  - intros d [Hd Hz]. apply keeps_then; [by apply keeps_set_dir|keep].
Qed.
Lemma keeps_write tf : keeps kernel_ok (sys_write tf) (fun _ => True).
Proof using Type. unfold sys_write, fd_handle. keep. Qed.
Lemma keeps_read tf : keeps kernel_ok (sys_read tf) (fun _ => True).
Proof using Type. unfold sys_read, fd_handle. keep. Qed.
Lemma keeps_mkdir tf : keeps kernel_ok (sys_mkdir tf) (fun _ => True).
Proof using Type. unfold sys_mkdir. keep. Qed.
Lemma keeps_mount tf : keeps kernel_ok (sys_mount tf) (fun _ => True).
Proof using Type. unfold sys_mount. keep. Qed.

Lemma keeps_uart_read tf : keeps kernel_ok (sys_uart_read tf) (fun _ => True).
Proof using Type.
  unfold sys_uart_read. apply keeps_then; [keep|]. intros x0. apply keeps_then; [keep|]. intros x1. apply keeps_then; [|keep].
  revert x0. induction (Z.to_nat x1) as [|n IH]; intros p; cbn [uart_read_loop]; keep.
Qed.
Lemma keeps_uart_write tf : keeps kernel_ok (sys_uart_write tf) (fun _ => True).
Proof using Type.
  unfold sys_uart_write. apply keeps_then; [keep|]. intros x0. apply keeps_then; [keep|]. intros x1. apply keeps_then; [|keep].
  revert x0. induction (Z.to_nat x1) as [|n IH]; intros p; cbn [uart_write_loop]; keep.
Qed.

Lemma keeps_archive : keeps kernel_ok archive (fun _ => True).
Proof using Type. apply keeps_on_fs. keep. Qed.
#[local] Hint Resolve keeps_archive : keeps.
Lemma keeps_usr_prog cmd : keeps kernel_ok (initrd_usr_prog cmd) (fun _ => True).
Proof using Type. unfold initrd_usr_prog, _initrd_usr_prog. keep. Qed.
#[local] Hint Resolve keeps_usr_prog : keeps.
Lemma keeps_exec tf : keeps kernel_ok (sys_exec tf) (fun _ => True).
Proof using Type. unfold sys_exec. keep. Qed.
Lemma keeps_mbox_call tf : keeps kernel_ok (sys_mbox_call videocore tf) (fun _ => True).
Proof using Type. unfold sys_mbox_call, mbox_call. keep. Qed.

(** A call of a task that runs, in a state of the invariant, ends in one. *)
Definition calls_ok (f : Z -> M kernel sysret) : Prop :=
  forall tf k a k', kernel_ok k -> current_running (k_sched k) -> f tf k = Ok (a, k') -> kernel_ok k'.

Lemma calls_keeps f : (forall tf, keeps kernel_ok (f tf) (fun _ => True)) -> calls_ok f.
Proof using Type. intros Hf tf k a k' Hk _ E. by apply (Hf tf k a k'). Qed.

Lemma calls_sched (f : Z -> M sched_state sysret) :
  (forall tf s a s', tasks_ok s -> current_running s -> f tf s = Ok (a, s') -> tasks_ok s') -> calls_ok (fun tf => on_sched (f tf)).
Proof using Type.
  intros Hf tf k a k' [H1 H2 H3 H4 H5] Hr E. unfold on_sched, on_part in E.
  destruct (f tf (k_sched k)) as [[b s]|] eqn:Ef; [|done]. injection E as <- <-. split; try done. by apply (Hf tf (k_sched k) b s).
Qed.

Lemma table_ok fuel f : f ∈ sys_call_table videocore fuel -> calls_ok f.
Proof using Type.
  revert f. apply Forall_forall. unfold sys_call_table.
  repeat first [apply Forall_nil_2 | apply Forall_cons_2];
    first [ apply calls_keeps; eauto 2 using keeps_uart_read, keeps_uart_write, keeps_exec, keeps_mbox_call, keeps_open, keeps_close,
              keeps_write, keeps_read, keeps_mkdir, keeps_mount, keeps_chdir; fail
          | apply calls_sched; intros tf s a s' Hs Hr E; first [by apply (fork_keeps tf s a) | by apply (exit_keeps fuel tf s a)]
          | apply calls_keeps; intros tf; apply keeps_on_sched; eauto 2 with keeps ].
Qed.

Lemma syscall_ok fuel tf k r k' :
  kernel_ok k -> current_running (k_sched k) -> syscall_handler videocore fuel tf k = Ok (r, k') -> kernel_ok k'.
Proof using Type.
  intros Hk Hr E. unfold syscall_handler in E. rewrite (bind_ok _ _ _ _ _ (x_at_ok tf 8 k)) in E. cbv zeta in E.
  destruct (_ && _).
  2:{ assert (Hno : keeps kernel_ok (_ ← say_line "[syscall_handler] Unknown syscall"; mret Return) (fun _ => True)) by keep.
      by apply (Hno k r k'). }
  inv_step E as f k1 E1. unfold lift_opt in E1. destruct ((sys_call_table videocore fuel).[_]) as [g|] eqn:Eg; [|done].
  injection E1 as -> ->. apply zget_Some in Eg as [_ Eg]. inv_step E as a k2 E2.
  pose proof (table_ok fuel f (list_elem_of_lookup_2 _ _ _ Eg) tf k1 a k2 Hk Hr E2) as Hk2.
  assert (Hrest : keeps kernel_ok (match a with Away r => mret r | Status v =>
    _ ← (if negb (v =? 0) then say_line "[syscall_handler] System call failed" else mret tt); mret Return end) (fun _ => True)) by keep.
  by apply (Hrest k2 r k').
Qed.

Lemma keeps_report esr elr spsr far : keeps kernel_ok (exc_report esr elr spsr far) (fun _ => True).
Proof using Type. unfold exc_report, say_register. keep. Qed.
Lemma keeps_exc {A} esr elr spsr far : keeps kernel_ok (exc_handler (A:=A) esr elr spsr far) (fun _ => True).
Proof using Type. apply keeps_then; [apply keeps_report|keep]. Qed.
#[local] Hint Resolve keeps_exc : keeps.

Lemma svc_ok fuel now cmd message esr elr spsr far tf k r k' :
  kernel_ok k -> current_running (k_sched k) ->
  svc_handler videocore fuel now cmd message esr elr spsr far tf k = Ok (r, k') -> kernel_ok k'.
Proof using Type.
  intros Hk Hr E. unfold svc_handler in E. cbv zeta in E.
  destruct (negb _); [by apply (keeps_exc (A:=resume) esr elr spsr far k r k')|].
  destruct (Z.land esr 0xffff =? 0); [by apply (syscall_ok fuel tf k r)|].
  match type of E with ?m _ = _ => assert (Hm : keeps kernel_ok m (fun _ => True)) by (unfold demo_bh_irq; keep) end.
  by apply (Hm k r k').
Qed.

(** * Interrupts *)

Lemma irq_ok fuel now r : keeps kernel_ok (irq_router fuel now r) (fun _ => True).
Proof using Type.
  unfold irq_router, core_timer_handler. destruct (negb _); [|keep].
  apply keeps_then; [keep|]. intros _. apply keeps_on_sched, keeps_do_timer.
Qed.

(** The receiver says that it has a character only when it has one. *)
Definition ready (r : irq_regs) (k : kernel) : Prop := Z.land (aux_rx_lsr r) 1 <> 0 -> k_rx k <> [].

Lemma unknown_interrupt k : exists k', say_line "Unknown uart interrupt" k = Ok (tt, k').
Proof using Type.
  assert (E : exists l, uart_puts (chars "Unknown uart interrupt" ++ [10; 0]) = Ok l) by (by eexists).
  destruct E as (l & E). unfold say_line. run (lift_res_ok _ k _ E). by eexists.
Qed.

Lemma uart_runs iir iir' rx lsr k : kernel_ok k -> (Z.land rx 1 <> 0 -> k_rx k <> []) ->
  exists k', uart_interrupt_handler iir iir' rx lsr k = Ok (tt, k').
Proof using Type.
  intros [_ _ _ Hr Hw] Hrx. unfold uart_interrupt_handler. set (k1 := with_ier (Z.ldiff (k_ier k) 1) k).
  run (eq_refl : modify (fun k => with_ier (Z.ldiff (k_ier k) 1) k) k = Ok (tt, k1)).
  match goal with |- exists _, (_ ← ?m; _) k1 = _ => assert (Hm : exists k', m k1 = Ok (tt, k')) end.
  2:{ destruct Hm as (k2 & E). rewrite (bind_ok _ _ _ _ _ E). by eexists. }
  destruct (negb _).
  { run (eq_refl : modify (fun k => with_ier (Z.ldiff (k_ier k) 2) k) k1 = Ok (tt, with_ier (Z.ldiff (k_ier k1) 2) k1)).
    set (k2 := with_ier _ k1). run (gets_ok k_write k2).
    destruct (transmit_loop_ok (length (buffer (k_write k2))) 0 lsr k2 (contents (k_write k2)) Hw eq_refl) as (q & E & _); [|by eexists].
    pose proof (contents_length _ Hw). pose proof (waiting_range _ Hw). pose proof (qo_size _ Hw).
    change (k_write k2) with (k_write k). lia. }
  destruct (negb _); [|apply unknown_interrupt]. destruct (Z.eqb_spec (Z.land rx 1) 0) as [|Hx]; cbn [negb]; [by eexists|].
  destruct (k_rx k) as [|c l] eqn:Erx; [by destruct (Hrx Hx)|].
  set (x := if u8 c =? 13 then 10 else u8 c). destruct (enqueue_ok (k_read k) x Hr) as (q & Eq & _).
  assert (Eg : uart_getc k1 = Ok (x, with_rx l k1)) by (unfold uart_getc; cbn; by rewrite Erx).
  run Eg. run (gets_ok k_read (with_rx l k1)). run (lift_res_ok _ (with_rx l k1) _ Eq). by eexists.
Qed.

(** An interrupt comes to its end, unless a task with a signal gets no stack for it. *)
Lemma irq_runs fuel now r k : kernel_ok k -> ready r k ->
  (exists res k', irq_router (S (S fuel)) now r k = Ok (res, k')) \/
  (exists f, irq_router (S (S fuel)) now r k = Err f /\ no_stack (k_sched k) f).
Proof using Type.
  intros Hk Hr. unfold irq_router. destruct (negb (Z.land (core0_irq_source r) 2 =? 0)).
  - unfold core_timer_handler. pose proof (timer_update_ok (k_timers k) now (ko_timers k Hk)) as Et. set (t' := Timers _ _) in Et.
    run (on_part_ok _ _ _ k _ _ Et : on_timers (timer_update now) k = Ok (tt, with_timers t' k)). unfold on_sched, on_part.
    change (k_sched (with_timers t' k)) with (k_sched k).
    destruct (do_timer_runs (k_sched k) fuel (ko_tasks k Hk)) as [(res & s' & ->)|(f & -> & Hf)]; [left; by do 2 eexists|right; by exists f].
  - left. destruct (negb _); [|by do 2 eexists].
    destruct (uart_runs (aux_iir r) (aux_iir' r) (aux_rx_lsr r) (aux_lsr r) k Hk Hr) as (k' & E). run E. by do 2 eexists.
Qed.

(** * The kernel as a transition system *)

(** What happens to the kernel: a system call, or another [svc], of the task that runs; an
    interrupt; in a signal handler, the return from it or the default action; and, between
    those, whatever the processes do to their memory and registers and the outside to the
    receiver.  On entry the registers go to the kernel's stack, so its words change too. *)
Inductive step (k : kernel) : kernel -> Prop :=
  | step_svc fuel now cmd message esr elr spsr far tf r k' :
      current_running (k_sched k) ->
      svc_handler videocore fuel now cmd message esr elr spsr far tf k = Ok (r, k') -> step k k'
  | step_irq fuel now regs r k' : irq_router fuel now regs k = Ok (r, k') -> step k k'
  | step_sigreturn fuel tf r k' : on_sched (sys_sigreturn fuel tf) k = Ok (r, k') -> step k k'
  | step_sigkill r k' : current_running (k_sched k) -> on_sched run_default_sigkill k = Ok (r, k') -> step k k'
  | step_user u rx regs w :
      let s := k_sched k in
      step k (with_rx rx (with_user u (with_sched
        (Sched (task_pool s) (num_running_task s) (current s) regs (SlabState (zone_of (heap s)) (kmem_caches (heap s)) w)) k))).

Lemma step_ok k k' : kernel_ok k -> step k k' -> kernel_ok k'.
Proof using Type.
  intros Hk Hs. destruct Hs as [fuel now cmd message esr elr spsr far tf r k' Hr E|fuel now regs r k' E|fuel tf r k' E|r k' Hr E|u rx regs w].
  - by apply (svc_ok fuel now cmd message esr elr spsr far tf k r).
  - by apply (irq_ok fuel now regs k r k').
  - by apply (keeps_on_sched _ _ (keeps_sigreturn fuel tf) k r k').
  - destruct Hk as [H1 H2 H3 H4 H5]. unfold on_sched, on_part in E. destruct (run_default_sigkill (k_sched k)) as [[b s]|] eqn:Ef; [|done].
    injection E as <- <-. split; try done. by apply (default_sigkill_keeps (k_sched k) b).
  - destruct Hk as [H1 H2 H3 H4 H5]. split; try done. by apply tasks_ok_regs.
Qed.

End Kernel.

(** * Instances *)

Section Example.
Let ops : Ops := kernel_ops 4 (replicate 32 0).
#[local] Existing Instance ops | 0.
Abbreviation ex_step := (step 4 (replicate 32 0) ex_videocore).

Lemma ex_tasks_ok : tasks_ok ex_procs.
Proof.
  split; [split; [exact ex_procs_ok|]|].
  - intros i t Hi. do 16 (destruct i as [|i]; [injection Hi as <-; split; [reflexivity|reflexivity|by left]|]). discriminate Hi.
  - intros c t Hc Ht _. assert (c = 0%nat) as -> by (cbn in Hc; lia). injection Ht as <-. reflexivity.
Qed.

Lemma ex_ticking_ok : kernel_ok ex_ticking.
Proof. split; [exact ex_tasks_ok|exact (fs_ok_tree _ ex_fs_ok)|exact ex_timers_ok|exact read_buffer0_ok|exact read_buffer0_ok]. Qed.

(** The timer interrupts task 0, which has no time left, so task 1 starts; it puts its
    registers into the frame, and asks to kill task 0. *)
Definition after (r : res (resume * kernel)) : kernel := match r with Ok (_, k) => k | Err _ => ex_ticking end.
Definition returned (r : res (resume * kernel)) : bool := match r with Ok _ => true | Err _ => false end.
Lemma returned_after r : returned r = true -> exists a, r = Ok (a, after r).
Proof. destruct r as [[a k]|]; [by exists a|done]. Qed.

Definition ex_ticked : kernel := after (irq_router 2 14 ex_irq ex_ticking).
Definition ex_asking : kernel :=
  let s := k_sched ex_ticked in
  with_rx [] (with_user ∅ (with_sched (Sched (task_pool s) (num_running_task s) (current s) (regs s)
    (SlabState (zone_of (heap s)) (kmem_caches (heap s)) (<[ex_tf + 8 * 8 := 7]> (<[ex_tf := 0]> (words (heap s)))))) ex_ticked)).
Definition ex_killed : kernel := after (svc_handler ex_videocore 2 0 [] [] 0x56000000 0 0 0 ex_tf ex_asking).

End Example.
