(* ===== verification/InitrdSpec.v ===== *)
(** What the shell's listing and [exec] find in an archive. *)
From Stdlib Require Import Ascii String.
From S2P Require Import Prelude Queue Timer Memblock Slab Sched SchedInv SchedSpec CMem Process ProcessSpec CString FsData.
From S2P Require Import Initramfs FsSpec InitramfsSpec Console Kernel Initrd UserSpec.

(** * One record *)

(** What [uart_puts] sends for a string. *)
Definition uart_text (s : list Z) : list Z := flat_map (fun c => if c =? 10 then [13; 10] else [c]) s.

Lemma uart_puts_ok buf s : holds buf s -> uart_puts buf = Ok (uart_text s).
Proof.
  intros [Hs [r ->]]. induction s as [|c s IH]; [done|]. apply nonzero_cons in Hs as [Hc Hs]. cbn [app uart_puts].
  destruct (Z.eqb_spec c 0); [lia|]. rewrite (IH Hs), res_bind_ok. unfold uart_text. cbn [flat_map]. by destruct (Z.eqb_spec c 10) as [->|].
Qed.

Section Record.
Variables (l : list Z) (pre : list Z) (es : list entry) (tr : list Z).
Hypotheses (Htr : trailer tr) (Hes : Forall entry_ok es) (El : l = pre ++ flat_map encode es ++ tr).

Lemma at_offset : Initrd.archive_at l (Z.of_nat (length pre)) = Ok (flat_map encode es ++ tr).
Proof using El.
  clear Hes Htr. subst l. unfold Initrd.archive_at. rewrite length_app.
  destruct (Z.leb_spec 0 (Z.of_nat (length pre))), (Z.leb_spec (Z.of_nat (length pre)) (Z.of_nat (length pre + length (flat_map encode es ++ tr))));
    try lia. cbn [andb]. by rewrite Nat2Z.id, drop_app_length.
Qed.

Lemma no_file : Initrd.is_file tr = Ok false.
Proof using Htr. clear El. unfold Initrd.is_file. destruct (trailer_stops tr Htr) as [E1 E2]. by rewrite E1, res_bind_ok. Qed.
End Record.

Section Next.
Variables (e : entry) (es : list entry) (tr : list Z).
Hypotheses (Htr : trailer tr) (He : entry_ok e).
Let buf := flat_map encode (e :: es) ++ tr.
Let tl := flat_map encode es ++ tr.

Lemma tail_long : (9 <= length tl)%nat.
Proof using Htr. clear He buf. destruct Htr. unfold tl. rewrite length_app. lia. Qed.

Lemma record_eq : buf = encode e ++ tl.
Proof using Type. unfold buf, tl. cbn [flat_map]. by rewrite <-app_assoc. Qed.

Lemma one_file : Initrd.is_file buf = Ok true.
Proof using Htr He.
  rewrite record_eq. unfold Initrd.is_file. rewrite (entry_cpio e tl), res_bind_ok.
  apply (entry_not_trailer e tl He tail_long).
Qed.

Lemma record_sizes : cpio_sizes buf =
  Ok (Z.of_nat (length (e_name e)) + 1, Z.of_nat (length (e_data e)) + Z.of_nat (length (e_pad2 e))).
Proof using He. clear Htr. rewrite record_eq. apply (entry_sizes e tl He). Qed.

Lemma record_name : holds (drop 110 buf) (e_name e).
Proof using He. clear Htr. rewrite record_eq. apply (entry_holds e tl He). Qed.

Lemma next_offset pre :
  Z.of_nat (length pre) + cpio_step (Z.of_nat (length (e_name e)) + 1) (Z.of_nat (length (e_data e)) + Z.of_nat (length (e_pad2 e)))
  = Z.of_nat (length (pre ++ encode e)).
Proof using He. clear Htr. rewrite (entry_step e He), length_app. lia. Qed.
End Next.

Lemma next_record (l pre : list Z) e es tr :
  l = pre ++ flat_map encode (e :: es) ++ tr -> l = (pre ++ encode e) ++ flat_map encode es ++ tr.
Proof. intros ->. cbn [flat_map]. by rewrite <-!app_assoc. Qed.

(** The records are fewer than the bytes. *)
Lemma records_short es tr : Forall entry_ok es -> (length es <= length (flat_map encode es ++ tr))%nat.
Proof.
  intros Hes. induction Hes as [|e es He Hes IH]; cbn [flat_map length]; [lia|].
  rewrite <-app_assoc, length_app. unfold encode at 1. rewrite length_app, (header_length e He). lia.
Qed.

Lemma archive_magic es tr : trailer tr -> is_cpio (flat_map encode es ++ tr) = Ok true.
Proof.
  intros Htr. destruct es as [|e es]; [apply trailer_stops, Htr|]. cbn [flat_map]. rewrite <-app_assoc. apply entry_cpio.
Qed.

(** * The loops *)

Lemma ls_loop_ok l tr es : forall fuel pre,
  (length es < fuel)%nat -> Forall entry_ok es -> trailer tr -> l = pre ++ flat_map encode es ++ tr ->
  initrd_ls_loop fuel l (Z.of_nat (length pre)) = Ok (flat_map (fun e => uart_text (e_name e) ++ newline) es).
Proof.
  induction es as [|e es IH]; intros [|fuel] pre Hf Hes Htr El; try (cbn in Hf; lia); cbn [initrd_ls_loop];
    rewrite (at_offset l pre _ tr El), res_bind_ok.
  - cbn [flat_map app]. by rewrite (no_file tr Htr), res_bind_ok.
  - apply Forall_cons in Hes as [He Hes]. rewrite (one_file e es tr Htr He), res_bind_ok. cbn [negb].
    rewrite (record_sizes e es tr He), res_bind_ok. cbn [fst snd].
    rewrite (uart_puts_ok _ _ (record_name e es tr He)), res_bind_ok, (next_offset e He).
    rewrite (IH fuel (pre ++ encode e)); [|cbn in Hf; lia|done|done|by apply next_record].
    rewrite res_bind_ok. cbn [flat_map]. by rewrite <-!app_assoc.
Qed.

Lemma find_file_ok l tr name nm es : forall fuel pre,
  (length es < fuel)%nat -> Forall entry_ok es -> trailer tr -> l = pre ++ flat_map encode es ++ tr -> holds name nm ->
  (find_file fuel name l (Z.of_nat (length pre)) = Ok None /\ Forall (fun e => e_name e <> nm) es) \/
  (exists es1 e es2, es = es1 ++ e :: es2 /\ e_name e = nm /\ Forall (fun e => e_name e <> nm) es1 /\
     find_file fuel name l (Z.of_nat (length pre)) =
       Ok (Some (Z.of_nat (length (pre ++ flat_map encode es1)), Z.of_nat (length nm) + 1,
                 Z.of_nat (length (e_data e)) + Z.of_nat (length (e_pad2 e))))).
Proof.
  induction es as [|e es IH]; intros [|fuel] pre Hf Hes Htr El Hn; try (cbn in Hf; lia); cbn [find_file];
    rewrite (at_offset l pre _ tr El), res_bind_ok.
  - left. cbn [flat_map app]. by rewrite (no_file tr Htr), res_bind_ok.
  - apply Forall_cons in Hes as [He Hes]. rewrite (one_file e es tr Htr He), res_bind_ok. cbn [negb].
    rewrite (record_sizes e es tr He), res_bind_ok. cbn [fst snd].
    destruct (strcmp_ok _ _ _ _ Hn (record_name e es tr He)) as (d & -> & Hd). rewrite res_bind_ok.
    destruct (Z.eqb_spec d 0) as [E0|E0].
    + right. exists [], e, es. assert (En : nm = e_name e) by (by apply Hd). split; [done|]. split; [done|]. split; [constructor|].
      cbn [flat_map]. by rewrite app_nil_r, En.
    + assert (En : e_name e <> nm) by (intros E; apply E0, Hd; done). rewrite (next_offset e He).
      destruct (IH fuel (pre ++ encode e) ltac:(cbn in Hf; lia) Hes Htr (next_record l pre e es tr El) Hn)
        as [[E Hall]|(es1 & e' & es2 & -> & Ee & Hall & E)].
      * left. split; [exact E|]. by constructor.
      * right. exists (e :: es1), e', es2. split; [done|]. split; [done|]. split; [by constructor|].
        cbn [flat_map]. by rewrite E, <-app_assoc.
Qed.

(** The first record with a name. *)
Definition named (nm : list Z) (e : entry) : bool := bool_decide (e_name e = nm).

Lemma find_none nm es : Forall (fun e => e_name e <> nm) es -> List.find (named nm) es = None.
Proof.
  induction 1 as [|e es He Hes IH]; [done|]. cbn. unfold named at 1. by rewrite bool_decide_false.
Qed.

Lemma find_some nm es1 e es2 :
  Forall (fun e => e_name e <> nm) es1 -> e_name e = nm -> List.find (named nm) (es1 ++ e :: es2) = Some e.
Proof.
  intros H He. induction H as [|x es1 Hx H IH]; cbn; unfold named at 1; [by rewrite bool_decide_true|].
  by rewrite bool_decide_false.
Qed.

(** * The program in memory *)

Lemma move_bytes_ok bytes d s :
  0 <= d -> d + Z.of_nat (length bytes) < 2 ^ 64 ->
  exists s', move_bytes d bytes s = Ok (tt, s') /\
    (forall j c, bytes !! j = Some c -> byte_at s' (d + Z.of_nat j) = u8 c) /\
    (forall a, a < d \/ d + Z.of_nat (length bytes) <= a -> byte_at s' a = byte_at s a).
Proof.
  revert d s. induction bytes as [|c bytes IH]; intros d s Hd Hl; cbn [move_bytes length] in *; [by exists s|].
  run (store_byte_ok s d c). rewrite u64_small by lia.
  destruct (IH (d + 1) (poke s d c) ltac:(lia) ltac:(lia)) as (s' & E & Hin & Hout). exists s'. split; [exact E|]. split.
  - intros [|j] x Hx; cbn in Hx.
    + injection Hx as ->. rewrite Hout, Z.add_0_r by lia. apply byte_poke_eq.
    + replace (d + Z.of_nat (S j)) with (d + 1 + Z.of_nat j) by lia. by apply Hin.
  - intros a Ha. rewrite Hout by lia. apply byte_poke_ne. lia.
Qed.

(** The data of a record, found by its offset. *)
Lemma record_bytes arch pre e tl :
  entry_ok e -> arch = pre ++ encode e ++ tl ->
  archive_bytes arch (Z.of_nat (length pre) + data_offset (Z.of_nat (length (e_name e)) + 1))
    (Z.of_nat (length (e_data e)) + Z.of_nat (length (e_pad2 e))) = Ok (e_data e ++ e_pad2 e).
Proof.
  intros He ->. rewrite (entry_offset e He). unfold archive_bytes.
  set (lead := header e ++ e_name e ++ 0 :: e_pad1 e).
  assert (Hll : Z.of_nat (length lead) = 111 + Z.of_nat (length (e_name e)) + Z.of_nat (length (e_pad1 e))).
  { unfold lead. rewrite length_app, (header_length e He), length_app. cbn [length]. lia. }
  assert (Ee : pre ++ encode e ++ tl = (pre ++ lead) ++ (e_data e ++ e_pad2 e) ++ tl).
  { unfold encode, lead. rewrite <-!app_assoc. cbn [app]. by rewrite <-!app_assoc. }
  assert (El : Z.of_nat (length pre) + (111 + Z.of_nat (length (e_name e)) + Z.of_nat (length (e_pad1 e))) = Z.of_nat (length (pre ++ lead)))
    by (rewrite length_app; lia).
  rewrite El, Ee. unfold Initrd.archive_at. rewrite (length_app (pre ++ lead)).
  destruct (Z.leb_spec 0 (Z.of_nat (length (pre ++ lead)))), (Z.leb_spec (Z.of_nat (length (pre ++ lead)))
    (Z.of_nat (length (pre ++ lead) + length ((e_data e ++ e_pad2 e) ++ tl)))); try lia. cbn [andb].
  rewrite res_bind_ok, Nat2Z.id, drop_app_length.
  set (n := Z.of_nat (length (e_data e)) + Z.of_nat (length (e_pad2 e))).
  assert (Hn : Z.of_nat (length (e_data e ++ e_pad2 e)) = n) by (rewrite length_app; lia).
  rewrite (length_app (e_data e ++ e_pad2 e)). destruct (Z.leb_spec 0 n),
    (Z.leb_spec n (Z.of_nat (length (e_data e ++ e_pad2 e) + length tl))); try lia. cbn [andb].
  by rewrite take_app_length' by lia.
Qed.

(** * Properties *)

(** The listing of an archive is a line with a dot and the names of its records, one on
    a line, in their order. *)
Theorem initrd_ls_spec es tr :
  Forall entry_ok es -> trailer tr ->
  initrd_ls (flat_map encode es ++ tr) =
    Ok (chars "." ++ newline ++ flat_map (fun e => uart_text (e_name e) ++ newline) es).
Proof.
  intros Hes Htr. unfold initrd_ls. rewrite (archive_magic es tr Htr), res_bind_ok. cbn [negb].
  pose proof (records_short es tr Hes).
  pose proof (ls_loop_ok (flat_map encode es ++ tr) tr es (S (length (flat_map encode es ++ tr))) [] ltac:(lia) Hes Htr eq_refl) as E.
  change (Z.of_nat (length (A:=Z) [])) with 0 in E. by rewrite E, res_bind_ok.
Qed.

(** C31. Loading a program: the data of the first record with its name, with the padding
    that follows them, are copied to a new block of the kernel's memory, and nothing
    else is written; a name the archive does not have, or the name of a record without
    data, loads nothing. *)
Theorem initrd_usr_prog_spec k blk arch es cmd nm :
  InitramfsSpec.archive_at (k_fs k) blk arch es -> holds cmd nm ->
  match List.find (named nm) es with
  | None => _initrd_usr_prog cmd k = Ok (None, k)
  | Some e =>
    let prog := e_data e ++ e_pad2 e in
    if bool_decide (prog = []) then _initrd_usr_prog cmd k = Ok (None, k)
    else forall page h, kmalloc (Z.of_nat (length prog)) (heap (k_sched k)) = Ok (page, h) ->
      0 <= page -> page + Z.of_nat (length prog) < 2 ^ 64 ->
      exists h', _initrd_usr_prog cmd k =
          Ok (Some (page, Z.of_nat (length prog)), with_sched (with_heap h' (k_sched k)) k) /\
        (forall j c, prog !! j = Some c -> byte_at h' (page + Z.of_nat j) = u8 c) /\
        (forall a, a < page \/ page + Z.of_nat (length prog) <= a -> byte_at h' a = byte_at h a)
  end.
Proof.
  intros (Hblk & Hb & Hes & _ & pre & tr & Htr & Ea & Ebase) Hn.
  set (l := flat_map encode es ++ tr). assert (El : drop (length pre) arch = l) by (subst arch; apply drop_app_length).
  assert (Earch : archive k = Ok (l, k)).
  { unfold archive, on_fs. rewrite (on_part_ok k_fs with_fs _ k l (k_fs k)); [by destruct k|].
    run (gets_ok cpio_base (k_fs k)). rewrite Ebase.
    rewrite (bytes_from_ok (k_fs k) blk (Z.of_nat (length pre)) arch Hblk Hb ltac:(subst arch; rewrite length_app; lia)). by rewrite Nat2Z.id, El. }
  unfold _initrd_usr_prog. run Earch. run (lift_res_ok _ k _ (archive_magic es tr Htr)). cbn [negb].
  pose proof (records_short es tr Hes).
  destruct (find_file_ok l tr cmd nm es (S (length l)) [] ltac:(unfold l; lia) Hes Htr eq_refl Hn)
    as [[E Hall]|(es1 & e & es2 & -> & En & Hall & E)].
  { rewrite (find_none nm es Hall). by run (lift_res_ok _ k _ E). }
  rewrite (find_some nm es1 e es2 Hall En). cbv zeta. set (prog := e_data e ++ e_pad2 e).
  apply Forall_app in Hes as [_ [He _]%Forall_cons].
  set (fs := Z.of_nat (length (e_data e)) + Z.of_nat (length (e_pad2 e))) in *.
  assert (Hfs : Z.of_nat (length prog) = fs) by (unfold prog; rewrite length_app; lia).
  run (lift_res_ok _ k _ E). destruct (Z.eqb_spec fs 0) as [E0|E0]; cbn match.
  { rewrite bool_decide_true; [done|]. apply length_zero_iff_nil. lia. }
  rewrite bool_decide_false by (intros Ep; rewrite Ep in Hfs; cbn in Hfs; lia).
  intros page h Hm Hp Hp2. pose proof (en_size e He). pose proof (en_pad2 e He) as [? _].
  rewrite Hfs in *. rewrite (u64_small fs) by lia.
  set (k1 := with_sched (with_heap h (k_sched k)) k).
  run (on_part_ok k_sched with_sched _ k page _ (on_heap_ok _ (k_sched k) page h Hm) : on_sched (on_heap (kmalloc fs)) k = Ok (page, k1)).
  subst nm. cbn [app].
  run (lift_res_ok _ k1 _ (record_bytes l (flat_map encode es1) e (flat_map encode es2 ++ tr) He
    ltac:(unfold l; rewrite flat_map_app; cbn [flat_map]; by rewrite <-!app_assoc))).
  destruct (move_bytes_ok prog page h Hp ltac:(lia)) as (h' & Emv & Hin & Hout). exists h'.
  pose proof (on_part_ok k_sched with_sched _ k1 tt _ (on_heap_ok _ (k_sched k1) tt h' Emv)) as Emv'.
  rewrite Hfs in Hout. split; [|split; [exact Hin|exact Hout]].
  rewrite (bind_ok _ _ k1 tt _ Emv'). rewrite (u32_small fs) by lia. done.
Qed.

(** * Instances *)

Lemma ex_entry_ok : entry_ok ex_entry.
Proof. destruct (ex_archive ex_boot eq_refl eq_refl) as (_ & _ & H & _). by apply Forall_cons in H as [H _]. Qed.

Lemma ex_trailer_ok : trailer ex_trailer.
Proof. split; [|done]. apply Nat.leb_le. vm_compute. reflexivity. Qed.

Lemma initrd_ls_spec_witness :
  initrd_ls (encode ex_entry ++ ex_trailer) = Ok (chars "." ++ newline ++ chars "h" ++ newline).
Proof.
  exact (initrd_ls_spec [ex_entry] ex_trailer (Forall_cons_2 _ _ _ ex_entry_ok (Forall_nil_2 _)) ex_trailer_ok).
Defined.

Definition ex_booted : kernel := with_fs ex_boot (with_sched ex_exec ex_kernel).

Lemma initrd_usr_prog_spec_witness :
  exists h', _initrd_usr_prog (cstr "h") ex_booted =
      Ok (Some (0xffff000000000000, 4), with_sched (with_heap h' ex_exec) ex_booted) /\
    (forall j c, [1; 2; 3; 4] !! j = Some c -> byte_at h' (0xffff000000000000 + Z.of_nat j) = u8 c).
Proof.
  pose proof (initrd_usr_prog_spec ex_booted 5 ex_arch [ex_entry] (cstr "h") (chars "h") (ex_archive ex_boot eq_refl eq_refl)
    (cstr_holds "h" ltac:(by repeat constructor))) as H.
  destruct (kmalloc 4 (heap (k_sched ex_booted))) as [[page h]|f] eqn:E.
  - assert (Ep : match kmalloc 4 (heap (k_sched ex_booted)) with Ok (p, _) => p =? 0xffff000000000000 | _ => false end = true)
      by (vm_compute; reflexivity).
    rewrite E in Ep. apply Z.eqb_eq in Ep. subst page.
    destruct (H 0xffff000000000000 h E ltac:(lia) ltac:(cbn; lia)) as (h' & E' & Hin & _). exists h'. split; [exact E'|exact Hin].
  - exfalso. assert (Ep : match kmalloc 4 (heap (k_sched ex_booted)) with Ok _ => true | _ => false end = true) by (vm_compute; reflexivity).
    by rewrite E in Ep.
Defined.
