(* ===== verification/Dtb.v ===== *)
(** The flattened device tree the firmware leaves: [src/src/dtb.c], [src/include/dtb.h],
    [src/library/byteswap.h], and the callback of [src/src/initrd.c] that finds the archive.

    The blob is the list of its bytes; a pointer into it is an offset from [dtb_address].
    The numbers in it are big-endian, and the processor loads them little-endian. *)
From Stdlib Require Import Ascii String.
From S2P Require Import Prelude Memblock CString FsData Fat32.

(* [src/include/dtb.h:8-8 FDT_MAGIC] *)
Definition FDT_MAGIC : Z := 0xd00dfeed.
(* [src/include/dtb.h:10-10 FDT_BEGIN_NODE] *)
Definition FDT_BEGIN_NODE : Z := 1.
(* [src/include/dtb.h:12-12 FDT_PROP] *)
Definition FDT_PROP : Z := 3.
(* [src/include/dtb.h:14-14 FDT_END] *)
Definition FDT_END : Z := 9.

(* [src/library/byteswap.h:6-6 bswap_32] *)
Definition bswap_32 (num : Z) : Z :=
  Z.lor (Z.lor (Z.lor (Z.shiftr num 24) (u32 (Z.shiftl num 24))) (u32 (Z.shiftl (Z.land num 0x0000ff00) 8)))
        (Z.shiftr (Z.land num 0x00ff0000) 8).

(** [ALIGN] of an [unsigned int], and of an [int] that does not overflow. *)
Definition ALIGN_u32 (x a : Z) : Z := u32 (Z.land (u32 (x + a - 1)) (Z.lnot (a - 1))).
Definition ALIGN_s32 (x a : Z) : Z := Z.land (x + a - 1) (Z.lnot (a - 1)).

(** The bytes from a pointer on, and the 32-bit word there. *)
Definition at_ptr (blob : list Z) (p : Z) : res (list Z) :=
  if (0 <=? p) && (p <=? Z.of_nat (length blob)) then Ok (drop (Z.to_nat p) blob) else Err OutOfBounds.
Definition load32 (blob : list Z) (p : Z) : res Z :=
  b ← at_ptr blob p; opt_res OutOfBounds (le 4 b).
Definition load_be32 (blob : list Z) (p : Z) : res Z :=
  v ← load32 blob p; Ok (bswap_32 v).

(** The offsets of the fields of the header, of [fdt_prop] and of [fdt_node_header]. *)
(* [src/include/dtb.h:16-27 fdt_header] *)
Definition fdt_magic : Z := 0.
Definition fdt_totalsize : Z := 4.
Definition off_dt_struct : Z := 8.
Definition off_dt_strings : Z := 12.
(* [src/include/dtb.h:29-32 fdt_node_header] *)
Definition node_name_off : Z := 4.
(* [src/include/dtb.h:34-37 fdt_prop] *)
Definition prop_len : Z := 0.
Definition prop_nameoff : Z := 4.
Definition sizeof_fdt_prop : Z := 8.

Section Traverse.
Context {S : Type} (blob : list Z).
(** The property, the name of the node, the name of the property. *)
Variable callback : Z -> option Z -> Z -> M S unit.

Definition lift {A} (r : res A) : M S A := fun s => match r with Ok a => Ok (a, s) | Err f => Err f end.

(* [src/src/dtb.c:45-70 fdt_traverse] *)
Fixpoint fdt_traverse_loop (fuel : nat) (struct_sp string_sp : Z) (node_name : option Z) : M S unit :=
  match fuel with
  | O => fail NoFuel
  | Datatypes.S fuel =>
    token ← lift (load_be32 blob struct_sp);
    if token =? FDT_BEGIN_NODE then
      let name := struct_sp + node_name_off in
      n ← lift (b ← at_ptr blob name; strlen b);
      let struct_sp := struct_sp + 4 * (ALIGN_s32 n 4 / 4) in
      fdt_traverse_loop fuel (struct_sp + 4) string_sp (Some name)
    else if token =? FDT_PROP then
      let prop := struct_sp + 4 in
      len ← lift (load_be32 blob (prop + prop_len));
      let struct_sp := struct_sp + 4 * (u64 (sizeof_fdt_prop + ALIGN_u32 len 4) / 4) in
      nameoff ← lift (load_be32 blob (prop + prop_nameoff));
      let property_name := string_sp + nameoff in
      _ ← callback prop node_name property_name;
      fdt_traverse_loop fuel (struct_sp + 4) string_sp node_name
    else if token =? FDT_END then mret tt
    else fdt_traverse_loop fuel (struct_sp + 4) string_sp node_name
  end.

(** Each turn of the loop moves at least a word on. *)
(* [src/src/dtb.c:36-71 fdt_traverse] *)
Definition fdt_traverse : M S unit :=
  magic ← lift (load_be32 blob fdt_magic);
  if negb (magic =? FDT_MAGIC) then mret tt
  else
    struct_sp ← lift (load_be32 blob off_dt_struct);
    string_sp ← lift (load_be32 blob off_dt_strings);
    fdt_traverse_loop (Datatypes.S (length blob)) struct_sp string_sp None.

Lemma lift_ok {A} (r : res A) s a : r = Ok a -> lift r s = Ok (a, s).
Proof. by intros ->. Qed.

Lemma traverse_step fuel sp ss nn token s :
  load_be32 blob sp = Ok token -> token <> FDT_BEGIN_NODE -> token <> FDT_PROP -> token <> FDT_END ->
  fdt_traverse_loop (Datatypes.S fuel) sp ss nn s = fdt_traverse_loop fuel (sp + 4) ss nn s.
Proof.
  intros E H1 H2 H3. cbn [fdt_traverse_loop]. run (lift_ok _ s _ E).
  by rewrite (proj2 (Z.eqb_neq _ _) H1), (proj2 (Z.eqb_neq _ _) H2), (proj2 (Z.eqb_neq _ _) H3).
Qed.
End Traverse.

(** ** Finding the archive *)

(** The state is [cpio_base], an address; the message is not modelled. *)
(* [src/src/initrd.c:187-194 initramfs_callback] *)
Definition initramfs_callback (blob : list Z) (prop : Z) (node_name : option Z) (property_name : Z) : M Z unit :=
  node_name ← lift_opt NullDeref node_name;
  d ← lift (b ← at_ptr blob node_name; strcmp b (cstr "chosen"));
  if negb (d =? 0) then mret tt
  else
    d ← lift (b ← at_ptr blob property_name; strcmp b (cstr "linux,initrd-start"));
    if negb (d =? 0) then mret tt
    else
      load_addr ← lift (load32 blob (prop + sizeof_fdt_prop));
      put (phys_to_virt (bswap_32 load_addr)).

(** The address of the blob, which the boot code left in [x18], and [cpio_base]. *)
(* [src/src/dtb.c:14-22 fdt_init] *)
Definition fdt_init (x18 : Z) (blob : list Z) : M Z Z :=
  _ ← fdt_traverse blob (initramfs_callback blob); mret x18.

(** ** The memory of the blob *)

(* [src/src/dtb.c:24-33 fdt_reserve_memory] *)
Definition fdt_reserve_memory (mb : memblock) (dtb_address : Z) (blob : list Z) : res memblock :=
  totalsize ← load_be32 blob fdt_totalsize;
  let len := s32 (ALIGN_u32 totalsize 4096) in
  magic ← load_be32 blob fdt_magic;
  if negb (magic =? FDT_MAGIC) then Ok mb
  else
    r ← memblock_reserve mb dtb_address (u64 (ALIGN_s32 len 8));
    Ok r.2.
