(* ===== verification/DtbSpec.v ===== *)
(** What the traversal of a device tree blob calls its callback on, and the archive it finds.

    The abstract device tree is a tree of nodes with their properties; a blob holds it as
    the tokens of its nodes in preorder, with any number of [FDT_NOP]s between them. *)
From Stdlib Require Import Ascii String Btauto.
From S2P Require Import Prelude Memblock CString FsData Fat32 Dtb.

(** * Big-endian words *)

Definition be32 (v : Z) : list Z := [u8 (v / 2 ^ 24); u8 (v / 2 ^ 16); u8 (v / 2 ^ 8); u8 v].

(** The value of the first four bytes. *)
Definition be_value (l : list Z) : Z :=
  match l with
  | b3 :: b2 :: b1 :: b0 :: _ => b3 * 2 ^ 24 + b2 * 2 ^ 16 + b1 * 2 ^ 8 + b0
  | _ => 0
  end.

Definition is_byte (b : Z) : Prop := 0 <= b < 2 ^ 8.

Lemma land_mask n k : 0 <= k -> Z.land n (2 ^ 8 * 2 ^ k - 2 ^ k) = (n / 2 ^ k) mod 2 ^ 8 * 2 ^ k.
Proof.
  intros Hk. replace (2 ^ 8 * 2 ^ k - 2 ^ k) with (Z.shiftl (Z.ones 8) k)
    by (rewrite Z.shiftl_mul_pow2, Z.ones_equiv by lia; lia).
  rewrite <-(Z.shiftl_mul_pow2 _ k) by lia. apply Z.bits_inj'. intros i Hi.
  rewrite Z.land_spec, !Z.shiftl_spec by lia. destruct (Z.lt_ge_cases i k).
  - rewrite !(Z.testbit_neg_r _ (i - k)) by lia. apply andb_false_r.
  - rewrite <-Z.land_ones by lia. rewrite Z.land_spec. f_equal.
    rewrite <-Z.shiftr_div_pow2, Z.shiftr_spec by lia. f_equal. lia.
Qed.

Lemma lor_reorder a b c d : Z.lor (Z.lor (Z.lor a b) c) d = Z.lor (Z.lor (Z.lor a d) c) b.
Proof. apply Z.bits_inj'. intros i _. rewrite !Z.lor_spec. btauto. Qed.

(** The macro reverses the bytes of a word. *)
Lemma bswap_ok b0 b1 b2 b3 : is_byte b0 -> is_byte b1 -> is_byte b2 -> is_byte b3 ->
  bswap_32 (b0 + 256 * (b1 + 256 * (b2 + 256 * (b3 + 256 * 0)))) = be_value [b0; b1; b2; b3].
Proof.
  unfold is_byte. intros H0 H1 H2 H3. set (n := b0 + _). unfold bswap_32, u32, be_value.
  rewrite !Z.shiftl_mul_pow2, !Z.shiftr_div_pow2 by lia.
  change 0x0000ff00 with (2 ^ 8 * 2 ^ 8 - 2 ^ 8). change 0x00ff0000 with (2 ^ 8 * 2 ^ 16 - 2 ^ 16). rewrite !land_mask by lia.
  assert (E3 : n / 2 ^ 24 = b3) by (unfold n; symmetry; apply Z.div_unique with (b0 + 2 ^ 8 * b1 + 2 ^ 16 * b2); lia).
  assert (E2 : n / 2 ^ 16 mod 2 ^ 8 = b2).
  { rewrite <-(Z.div_unique n (2 ^ 16) (b2 + 2 ^ 8 * b3) (b0 + 2 ^ 8 * b1)) by (unfold n; lia).
    symmetry. apply Z.mod_unique with b3; lia. }
  assert (E1 : n / 2 ^ 8 mod 2 ^ 8 = b1).
  { rewrite <-(Z.div_unique n (2 ^ 8) (b1 + 2 ^ 8 * b2 + 2 ^ 16 * b3) b0) by (unfold n; lia).
    symmetry. apply Z.mod_unique with (b2 + 2 ^ 8 * b3); lia. }
  assert (E0 : n * 2 ^ 24 mod 2 ^ 32 = b0 * 2 ^ 24).
  { symmetry. apply Z.mod_unique with (b1 + 2 ^ 8 * b2 + 2 ^ 16 * b3); unfold n; lia. }
  rewrite E0, E1, E2, E3.
  replace (b1 * 2 ^ 8 * 2 ^ 8 mod 2 ^ 32) with (b1 * 2 ^ 16) by (rewrite Z.mod_small; lia).
  replace (b2 * 2 ^ 16 / 2 ^ 8) with (b2 * 2 ^ 8) by (apply Z.div_unique with 0; lia).
  rewrite lor_reorder, (lor_shift b3 b2 8) by lia. rewrite (lor_shift _ b1 16), (lor_shift _ b0 24) by lia. lia.
Qed.

(** * The bytes at a pointer *)

(** [l] starts with [x] at the offset [p]. *)
Definition has (l : list Z) (p : Z) (x : list Z) : Prop :=
  0 <= p /\ exists pre post, l = pre ++ x ++ post /\ p = Z.of_nat (length pre).

Lemma has_at l p x : has l p x -> exists post, at_ptr l p = Ok (x ++ post).
Proof.
  intros (Hp & pre & post & -> & ->). exists post. unfold at_ptr. rewrite length_app.
  repeat zcase; try lia. by rewrite Nat2Z.id, drop_app_length.
Qed.

Lemma has_app l p x y : has l p (x ++ y) -> has l p x /\ has l (p + Z.of_nat (length x)) y.
Proof.
  intros (Hp & pre & post & -> & ->). split.
  - split; [lia|]. exists pre, (y ++ post). by rewrite !app_assoc.
  - split; [lia|]. exists (pre ++ x), post. rewrite length_app, !app_assoc. split; [done|lia].
Qed.

Lemma has_load l p b0 b1 b2 b3 r : has l p (b0 :: b1 :: b2 :: b3 :: r) ->
  load32 l p = Ok (b0 + 256 * (b1 + 256 * (b2 + 256 * (b3 + 256 * 0)))).
Proof. intros H. destruct (has_at _ _ _ H) as [post E]. unfold load32. by rewrite E. Qed.

Lemma has_be_value l p b0 b1 b2 b3 r :
  is_byte b0 -> is_byte b1 -> is_byte b2 -> is_byte b3 -> has l p (b0 :: b1 :: b2 :: b3 :: r) ->
  load_be32 l p = Ok (be_value [b0; b1; b2; b3]).
Proof. intros H0 H1 H2 H3 H. unfold load_be32. by rewrite (has_load _ _ _ _ _ _ _ H), res_bind_ok, bswap_ok. Qed.

Lemma be_value_be32 v : 0 <= v < 2 ^ 32 -> be_value (be32 v) = v.
Proof.
  intros Hv. unfold be32, be_value, u8.
  pose proof (Z.div_mod v (2 ^ 8) ltac:(lia)). pose proof (Z.div_mod (v / 2 ^ 8) (2 ^ 8) ltac:(lia)).
  pose proof (Z.div_mod (v / 2 ^ 16) (2 ^ 8) ltac:(lia)).
  replace (v / 2 ^ 8 / 2 ^ 8) with (v / 2 ^ 16) in * by (rewrite Z.div_div by lia; done).
  replace (v / 2 ^ 16 / 2 ^ 8) with (v / 2 ^ 24) in * by (rewrite Z.div_div by lia; done).
  rewrite (Z.mod_small (v / 2 ^ 24)) by (split; [apply Z.div_pos; lia|apply Z.div_lt_upper_bound; lia]). lia.
Qed.

Lemma has_be32 l p v : 0 <= v < 2 ^ 32 -> has l p (be32 v) -> load_be32 l p = Ok v.
Proof.
  intros Hv H. pose proof (fun x => Z.mod_pos_bound x (2 ^ 8) ltac:(lia)) as Hb.
  unfold be32 in H. rewrite (has_be_value _ _ _ _ _ _ _ (Hb _) (Hb _) (Hb _) (Hb _) H). f_equal. by apply be_value_be32.
Qed.

(** * Tokens *)

Record dt_prop := DProp { p_name : list Z; p_nameoff : Z; p_data : list Z }.
Inductive token := TBegin (name : list Z) | TEnd | TProp (p : dt_prop) | TNop.

(** The zero bytes up to a multiple of four. *)
Definition padding (n : nat) : list Z := replicate (Z.to_nat ((- Z.of_nat n) mod 4)) 0.

Definition encode_token (t : token) : list Z :=
  match t with
  | TBegin name => be32 1 ++ (name ++ [0]) ++ padding (S (length name))
  | TEnd => be32 2
  | TProp p => be32 3 ++ be32 (Z.of_nat (length (p_data p))) ++ be32 (p_nameoff p) ++ p_data p ++ padding (length (p_data p))
  | TNop => be32 4
  end.

Definition token_len (t : token) : Z := Z.of_nat (length (encode_token t)).

(** What a token of a well-formed blob is; the strings start at [strings]. *)
Definition token_ok (blob : list Z) (strings : Z) (t : token) : Prop :=
  match t with
  | TBegin name => nonzero name
  | TProp p => Z.of_nat (length (p_data p)) < 2 ^ 31 /\ 0 <= p_nameoff p < 2 ^ 32 /\ nonzero (p_name p) /\
               has blob (strings + p_nameoff p) (p_name p ++ [0])
  | TEnd | TNop => True
  end.

Lemma padding_len n : Z.of_nat n + Z.of_nat (length (padding n)) = Z.land (Z.of_nat n + 4 - 1) (Z.lnot (4 - 1)).
Proof.
  unfold padding. rewrite length_replicate. change (4 - 1) with (2 ^ 2 - 1). rewrite land_lnot_ones by lia. change (2 ^ 2) with 4.
  pose proof (Z.mod_pos_bound (- Z.of_nat n) 4 ltac:(lia)). pose proof (Z.div_mod (- Z.of_nat n) 4 ltac:(lia)).
  rewrite Z2Nat.id by lia. pose proof (Z.div_mod (Z.of_nat n + 4 - 1) 4 ltac:(lia)).
  pose proof (Z.mod_pos_bound (Z.of_nat n + 4 - 1) 4 ltac:(lia)). lia.
Qed.

Section Calls.
Context {St : Type} (blob : list Z) (strings : Z) (callback : Z -> option Z -> Z -> M St unit).

(** The calls for the tokens at the offset [p], in order. *)
Fixpoint calls (p : Z) (node : option Z) (ts : list token) : M St unit :=
  match ts with
  | [] => mret tt
  | TBegin name :: ts => calls (p + token_len (TBegin name)) (Some (p + 4)) ts
  | TProp pr :: ts => _ ← callback (p + 4) node (strings + p_nameoff pr); calls (p + token_len (TProp pr)) node ts
  | t :: ts => calls (p + token_len t) node ts
  end.

Lemma begin_ok p node name x s :
  nonzero name -> has blob p (encode_token (TBegin name) ++ x) -> exists k, (1 <= k)%nat /\
    4 * Z.of_nat k <= token_len (TBegin name) /\
    forall fuel, fdt_traverse_loop blob callback (k + fuel) p strings node s =
    fdt_traverse_loop blob callback fuel (p + token_len (TBegin name)) strings (Some (p + 4)) s.
Proof using Type.
  intros Hn H. apply has_app in H as [H _]. unfold encode_token in H. apply has_app in H as [Ht H].
  apply (has_be32 _ _ 1 ltac:(lia)) in Ht. change (Z.of_nat (length (be32 1))) with 4 in H.
  assert (El : token_len (TBegin name) = 4 + (Z.of_nat (S (length name)) + Z.of_nat (length (padding (S (length name)))))).
  { unfold token_len, encode_token. rewrite !length_app. cbn [length be32]. lia. }
  destruct (has_at _ _ _ H) as [post Ha].
  assert (Hs : lift (b ← at_ptr blob (p + node_name_off); strlen b) s = Ok (Z.of_nat (length name), s)).
  { apply lift_ok. change (p + node_name_off) with (p + 4). rewrite Ha, res_bind_ok. apply strlen_ok. split; [done|].
    exists (padding (S (length name)) ++ post). by rewrite <-!app_assoc. }
  pose proof (padding_len (S (length name))) as Hp1. set (n := Z.of_nat (length name)) in *.
  replace (Z.of_nat (S (length name))) with (n + 1) in * by lia.
  assert (HA : ALIGN_s32 n 4 = (n + 3) / 4 * 4).
  { unfold ALIGN_s32. change (4 - 1) with (2 ^ 2 - 1). rewrite land_lnot_ones by lia. by replace (n + 4 - 1) with (n + 3) by lia. }
  change (4 - 1) with (2 ^ 2 - 1) in Hp1. rewrite land_lnot_ones in Hp1 by lia. change (2 ^ 2) with 4 in Hp1.
  replace (n + 1 + 4 - 1) with (n + 4) in Hp1 by lia.
  assert (E1 : forall f, fdt_traverse_loop blob callback (S f) p strings node s =
    fdt_traverse_loop blob callback f (p + 4 + (n + 3) / 4 * 4) strings (Some (p + 4)) s).
  { intros f. cbn [fdt_traverse_loop]. run (lift_ok _ s _ Ht). cbn [Z.eqb Pos.eqb FDT_BEGIN_NODE]. run Hs.
    rewrite HA, Z.div_mul by lia. f_equal. lia. }
  destruct (decide (n mod 4 = 0)) as [Hm|Hm].
  - (* the terminator is a word of its own *)
    assert (Hd : (n + 3) / 4 * 4 = n /\ (n + 4) / 4 * 4 = n + 4) by (clear -Hm; Z.div_mod_to_equations; lia). destruct Hd as [Hd1 Hd2].
    exists 2%nat. split; [lia|]. split; [lia|]. intros fuel. change (2 + fuel)%nat with (S (S fuel)). rewrite E1, Hd1.
    assert (Hz : load_be32 blob (p + 4 + n) = Ok 0).
    { rewrite <-app_assoc in H. apply has_app in H as [_ H]. fold n in H.
      assert (Hl : length (padding (S (length name))) = 3%nat) by lia. unfold padding in H, Hl. rewrite length_replicate in Hl.
      rewrite Hl in H. by apply (has_be32 _ _ 0 ltac:(lia)). }
    rewrite (traverse_step blob callback fuel _ _ _ 0 _ Hz) by done. f_equal. lia.
  - exists 1%nat. split; [lia|]. split; [lia|]. intros fuel. change (1 + fuel)%nat with (S fuel). rewrite E1. f_equal.
    assert ((n + 3) / 4 * 4 = (n + 4) / 4 * 4) by (clear -Hm; Z.div_mod_to_equations; lia). lia.
Qed.

Lemma prop_ok fuel p node pr x s :
  token_ok blob strings (TProp pr) -> has blob p (encode_token (TProp pr) ++ x) ->
  fdt_traverse_loop blob callback (S fuel) p strings node s =
  (_ ← callback (p + 4) node (strings + p_nameoff pr);
   fdt_traverse_loop blob callback fuel (p + token_len (TProp pr)) strings node) s.
Proof using Type.
  intros (Hl & Ho & _) H. apply has_app in H as [H _]. unfold encode_token in H. apply has_app in H as [Ht H].
  apply has_app in H as [Hlen H]. apply has_app in H as [Hoff _].
  change (Z.of_nat (length (be32 3))) with 4 in *. set (n := Z.of_nat (length (p_data pr))) in *.
  change (Z.of_nat (length (be32 n))) with 4 in *.
  apply (has_be32 _ _ 3 ltac:(lia)) in Ht. apply (has_be32 _ _ n ltac:(lia)) in Hlen. apply (has_be32 _ _ _ Ho) in Hoff.
  cbn [fdt_traverse_loop]. run (lift_ok _ s _ Ht). change (3 =? FDT_BEGIN_NODE) with false. change (3 =? FDT_PROP) with true. cbv iota.
  change (p + 4 + prop_nameoff) with (p + 4 + 4). replace (p + 4 + prop_len) with (p + 4) by (unfold prop_len; lia).
  run (lift_ok _ s _ Hlen). run (lift_ok _ s _ Hoff).
  assert (El : p + 4 * (u64 (sizeof_fdt_prop + ALIGN_u32 n 4) / 4) + 4 = p + token_len (TProp pr)).
  { unfold token_len, encode_token. rewrite !length_app. pose proof (padding_len (length (p_data pr))) as Hp.
    unfold ALIGN_u32. fold n in Hp |- *. rewrite (u32_small (n + 4 - 1)), <-Hp by lia.
    change (4 - 1) with (2 ^ 2 - 1) in Hp. rewrite land_lnot_ones in Hp by lia. change (2 ^ 2) with 4 in Hp.
    pose proof (Z.div_mod (n + 4 - 1) 4 ltac:(lia)). pose proof (Z.mod_pos_bound (n + 4 - 1) 4 ltac:(lia)).
    unfold sizeof_fdt_prop. rewrite u32_small, u64_small, Hp by lia. set (q := (n + 4 - 1) / 4) in *.
    replace (8 + q * 4) with ((2 + q) * 4) by lia. rewrite Z.div_mul by lia. cbn [length be32]. lia. }
  by rewrite El.
Qed.

Lemma other_ok fuel p node t x v s :
  encode_token t = be32 v -> v = 2 \/ v = 4 -> has blob p (encode_token t ++ x) ->
  fdt_traverse_loop blob callback (S fuel) p strings node s =
  fdt_traverse_loop blob callback fuel (p + token_len t) strings node s.
Proof using Type.
  intros E Hv H. unfold token_len. rewrite E in *. apply has_app in H as [Ht _]. apply (has_be32 _ _ v ltac:(lia)) in Ht.
  rewrite (traverse_step blob callback fuel _ _ _ v _ Ht); [done| | |]; destruct Hv as [-> | ->]; done.
Qed.

(** The loop makes exactly the calls of the tokens. *)
Lemma traverse_loop_ok ts : forall fuel p node s,
  has blob p (flat_map encode_token ts ++ be32 FDT_END) -> Forall (token_ok blob strings) ts ->
  (length (flat_map encode_token ts) < 4 * fuel)%nat ->
  fdt_traverse_loop blob callback fuel p strings node s = calls p node ts s.
Proof using Type.
  induction ts as [|t ts IH]; intros fuel p node s H Hok Hf.
  - destruct fuel as [|fuel]; [lia|]. cbn [fdt_traverse_loop calls]. apply (has_be32 _ _ FDT_END ltac:(done)) in H.
    by run (lift_ok _ s _ H).
  - apply Forall_cons in Hok as [Ht Hok]. cbn [flat_map] in H, Hf. rewrite <-app_assoc in H. rewrite length_app in Hf.
    pose proof (proj2 (has_app _ _ _ _ H)) as Hn. fold (token_len t) in Hn.
    destruct t as [name| |pr|]; cbn [calls].
    + destruct (begin_ok p node name _ s Ht H) as (k & Hk1 & Hk & E). unfold token_len in Hk.
      replace fuel with (k + (fuel - k))%nat by lia. rewrite E. apply IH; [done..|lia].
    + destruct fuel as [|fuel]; [lia|]. rewrite (other_ok fuel p node TEnd _ 2 s eq_refl ltac:(lia) H). apply IH; [done..|cbn [encode_token length be32] in Hf; lia].
    + destruct fuel as [|fuel]; [lia|]. rewrite (prop_ok fuel p node pr _ s Ht H).
      unfold mbind, M_bind. destruct (callback _ _ _ s) as [[[] s']|]; [|done]. apply IH; [done..|].
      cbn [encode_token] in Hf. rewrite !length_app in Hf. cbn [length be32] in Hf. lia.
    + destruct fuel as [|fuel]; [lia|]. rewrite (other_ok fuel p node TNop _ 4 s eq_refl ltac:(lia) H). apply IH; [done..|cbn [encode_token length be32] in Hf; lia].
Qed.
End Calls.

(** * The device tree *)

#[local] Set Warnings "-register-all".
Inductive dt_node := DNode (name : list Z) (props : list dt_prop) (children : list dt_node).

Fixpoint tokens (n : dt_node) : list token :=
  let 'DNode name props children := n in TBegin name :: map TProp props ++ flat_map tokens children ++ [TEnd].

(** The properties in preorder, each with the name of its node. *)
Fixpoint entries (n : dt_node) : list (list Z * dt_prop) :=
  let 'DNode name props children := n in map (pair name) props ++ flat_map entries children.

(** [ts] is the tokens of the tree with some [FDT_NOP]s. *)
Definition not_nop (t : token) : Prop := match t with TNop => False | _ => True end.
#[global] Instance not_nop_dec t : Decision (not_nop t).
Proof. destruct t; cbn; apply _. Defined.
Definition tokens_of (n : dt_node) (ts : list token) : Prop := filter not_nop ts = tokens n.

(** The properties of a list of tokens, each with the name that was begun last. *)
Fixpoint scan (cur : option (list Z)) (ts : list token) : list (option (list Z) * dt_prop) :=
  match ts with
  | [] => []
  | TBegin name :: ts => scan (Some name) ts
  | TProp pr :: ts => (cur, pr) :: scan cur ts
  | _ :: ts => scan cur ts
  end.

Lemma scan_filter ts : forall cur, scan cur (filter not_nop ts) = scan cur ts.
Proof.
  induction ts as [|t ts IH]; intros cur; [done|].
  destruct t; [rewrite filter_cons_True by done..|rewrite filter_cons_False by tauto]; cbn [scan]; by rewrite IH.
Qed.

Lemma scan_props props cur ts : scan cur (map TProp props ++ ts) = map (pair cur) props ++ scan cur ts.
Proof. induction props as [|p props IH]; cbn; [done|by rewrite IH]. Qed.

(** After the properties of a node, the next property is one of a node that was begun
    since: the properties of a node come before its children. *)
Definition begins (ts : list token) : Prop := forall cur cur', scan cur ts = scan cur' ts.

Section Induction.
Variable P : dt_node -> Prop.
Hypothesis step : forall name props children, Forall P children -> P (DNode name props children).
Fixpoint dt_node_ind' (n : dt_node) : P n :=
  let 'DNode name props children := n in
  step name props children
    ((fix go l : Forall P l := match l with [] => Forall_nil_2 P | x :: l => Forall_cons_2 P x l (dt_node_ind' x) (go l) end) children).
End Induction.

Definition named_entries (n : dt_node) : list (option (list Z) * dt_prop) := map (fun e => (Some e.1, e.2)) (entries n).

Lemma scan_tokens n : forall ts cur, begins ts -> scan cur (tokens n ++ ts) = named_entries n ++ scan None ts.
Proof.
  induction n as [name props children IH] using dt_node_ind'. intros ts cur Hts. unfold named_entries. cbn [tokens entries app scan].
  rewrite <-!app_assoc, scan_props, map_app, map_map, <-app_assoc. f_equal.
  assert (H : forall cur, scan cur (flat_map tokens children ++ [TEnd] ++ ts) =
    flat_map named_entries children ++ scan None ts).
  { clear cur. induction IH as [|c children Hc _ IHc]; intros cur.
    - cbn [flat_map app scan]. apply Hts.
    - cbn [flat_map]. rewrite <-!app_assoc. rewrite Hc.
      + f_equal. apply IHc.
      + intros cur1 cur2. by rewrite !IHc. }
  rewrite H. f_equal. clear. induction children as [|c children IH]; [done|]. cbn [flat_map]. rewrite map_app, <-IH. done.
Qed.

Lemma scan_tree n ts cur : tokens_of n ts -> scan cur ts = named_entries n.
Proof.
  intros E. rewrite <-scan_filter, E, <-(app_nil_r (tokens n)), scan_tokens by done. cbn. apply app_nil_r.
Qed.

(** * The archive *)

Definition initrd_start : list Z := chars "linux,initrd-start".

(** The address of the archive by the device tree; [cpio] if it does not say. *)
Definition archive_address (cpio : Z) (es : list (list Z * dt_prop)) : Z :=
  fold_left (fun cpio e =>
    if decide (e.1 = chars "chosen" /\ p_name e.2 = initrd_start) then phys_to_virt (be_value (p_data e.2)) else cpio)
    es cpio.

(** The value of the property is there. *)
Definition value_ok (t : token) : Prop :=
  match t with
  | TProp p => p_name p = initrd_start -> (4 <= length (p_data p))%nat /\ Forall is_byte (p_data p)
  | _ => True
  end.

(** A blob at whose structure offset are the tokens [ts]. *)
Record fdt_blob (blob : list Z) (strings : Z) (ts : list token) : Prop := {
  fb_magic : has blob 0 (be32 FDT_MAGIC);
  fb_struct : exists p, 0 <= p < 2 ^ 32 /\ has blob off_dt_struct (be32 p) /\ has blob p (flat_map encode_token ts ++ be32 FDT_END);
  fb_strings : 0 <= strings < 2 ^ 32 /\ has blob off_dt_strings (be32 strings);
  fb_tokens : Forall (token_ok blob strings) ts
}.

Lemma strcmp_at (blob : list Z) p nm k (z : Z) :
  nonzero nm -> has blob p (nm ++ [0]) -> nonzero k ->
  exists d, lift (b ← at_ptr blob p; strcmp b (k ++ [0])) z = Ok (d, z) /\ (d = 0 <-> nm = k).
Proof.
  intros Hn H Hk. destruct (has_at _ _ _ H) as [post E].
  destruct (strcmp_ok ((nm ++ [0]) ++ post) (k ++ [0]) nm k) as (d & Ed & Hd).
  - rewrite <-app_assoc. by apply holds_self.
  - by apply holds_self.
  - exists d. split; [|done]. apply lift_ok. by rewrite E, res_bind_ok.
Qed.

Lemma callback_ok blob strings prop q pname name pr cpio post :
  nonzero name -> has blob q (name ++ [0]) -> token_ok blob strings (TProp pr) -> value_ok (TProp pr) ->
  has blob (prop + 8) (p_data pr ++ post) -> pname = strings + p_nameoff pr ->
  initramfs_callback blob prop (Some q) pname cpio = Ok (tt, archive_address cpio [(name, pr)]).
Proof.
  intros Hn Hq (_ & _ & Hp & Hs) Hv Hd ->. unfold archive_address, initramfs_callback. cbn [fold_left fst snd].
  assert (Hc : nonzero (chars "chosen")) by (vm_compute; repeat constructor; done).
  assert (Hi : nonzero initrd_start) by (vm_compute; repeat constructor; done).
  rewrite (bind_ok _ (lift_opt NullDeref (Some q)) cpio q cpio eq_refl).
  destruct (strcmp_at blob q name _ cpio Hn Hq Hc) as (d & E & Hd1). run E.
  destruct (Z.eqb_spec d 0) as [Ed|Ed]; cbn [negb].
  2:{ rewrite decide_False; [done|]. intros [E1 _]. by apply Ed, Hd1. }
  destruct (strcmp_at blob _ (p_name pr) _ cpio Hp Hs Hi) as (d2 & E2 & Hd2). run E2.
  destruct (Z.eqb_spec d2 0) as [Ed2|Ed2]; cbn [negb].
  2:{ rewrite decide_False; [done|]. intros [_ E1]. by apply Ed2, Hd2. }
  apply Hd1 in Ed. apply Hd2 in Ed2. rewrite decide_True by done. destruct (Hv Ed2) as [Hl Hb].
  destruct (p_data pr) as [|b0 [|b1 [|b2 [|b3 r]]]]; cbn in Hl; try lia.
  rewrite (bind_ok _ _ cpio _ cpio (lift_ok _ cpio _ (has_load blob (prop + 8) _ _ _ _ _ Hd))).
  repeat (apply Forall_cons in Hb as [? Hb]). by rewrite bswap_ok.
Qed.

(** The node whose name [node] points to. *)
Definition node_named (blob : list Z) (node : option Z) (cur : option (list Z)) : Prop :=
  match node, cur with
  | Some q, Some name => nonzero name /\ has blob q (name ++ [0])
  | None, None => True
  | _, _ => False
  end.

Lemma calls_ok blob strings ts : forall p node cur cpio es post,
  has blob p (flat_map encode_token ts ++ post) -> Forall (token_ok blob strings) ts -> Forall value_ok ts ->
  node_named blob node cur -> scan cur ts = map (fun e => (Some e.1, e.2)) es ->
  calls strings (initramfs_callback blob) p node ts cpio = Ok (tt, archive_address cpio es).
Proof.
  induction ts as [|t ts IH]; intros p node cur cpio es post H Hok Hv Hn Hs.
  - destruct es; [done|discriminate].
  - apply Forall_cons in Hok as [Ht Hok]. apply Forall_cons in Hv as [Hvt Hv]. cbn [flat_map] in H. rewrite <-app_assoc in H.
    pose proof (has_app _ _ _ _ H) as [Hh Hnx]. fold (token_len t) in Hnx. destruct t as [name| |pr|]; cbn [calls scan] in *.
    + apply (IH _ _ (Some name) _ _ post); try done. split; [done|]. unfold encode_token in Hh. by apply has_app in Hh as [_ Hh%has_app%proj1].
    + by apply (IH _ _ cur _ _ post).
    + destruct es as [|[name pr'] es]; [discriminate|]. injection Hs as -> <- Hs.
      destruct node as [q|]; [|done]. destruct Hn as [Hn Hq].
      assert (Hd : has blob (p + 4 + 8) (p_data pr ++ padding (length (p_data pr)))).
      { unfold encode_token in Hh. apply has_app in Hh as [_ Hh%has_app%proj2%has_app%proj2]. cbn [length be32] in Hh.
        by replace (p + 4 + 8) with (p + Z.of_nat 4 + Z.of_nat 4 + Z.of_nat 4) by lia. }
      run (callback_ok blob strings (p + 4) q _ name pr cpio _ Hn Hq Ht Hvt Hd eq_refl).
      change (archive_address cpio ((name, pr) :: es)) with (archive_address (archive_address cpio [(name, pr)]) es).
      by apply (IH _ (Some q) (Some name) _ _ post).
    + by apply (IH _ _ cur _ _ post).
Qed.

Lemma fdt_init_ok x18 blob strings ts n cpio :
  fdt_blob blob strings ts -> tokens_of n ts -> Forall value_ok ts ->
  fdt_init x18 blob cpio = Ok (x18, archive_address cpio (entries n)).
Proof.
  intros [Hm (p & Hp & Ho & Hb) [Hs1 Hs] Hok] Hn Hv. unfold fdt_init, fdt_traverse.
  assert (El : (length (flat_map encode_token ts) < 4 * S (length blob))%nat).
  { destruct Hb as (_ & pre & post & -> & _). rewrite !length_app. lia. }
  rewrite (bind_ok _ _ cpio tt (archive_address cpio (entries n))); [done|].
  run (lift_ok _ cpio _ (has_be32 _ _ FDT_MAGIC ltac:(done) Hm)). rewrite Z.eqb_refl. cbn [negb].
  run (lift_ok _ cpio _ (has_be32 _ _ p Hp Ho)). run (lift_ok _ cpio _ (has_be32 _ _ strings Hs1 Hs)).
  rewrite (traverse_loop_ok _ _ _ ts _ _ _ _ Hb Hok El).
  apply (calls_ok blob strings ts p None None cpio (entries n) _ Hb Hok Hv I). by apply scan_tree.
Qed.


(** * An instance *)

Lemma has_check l p x : 0 <= p <= Z.of_nat (length l) -> take (length x) (drop (Z.to_nat p) l) = x -> has l p x.
Proof.
  intros Hp E. split; [lia|]. exists (take (Z.to_nat p) l), (drop (length x) (drop (Z.to_nat p) l)).
  split; [|rewrite length_take; lia]. rewrite <-E at 1. by rewrite (take_drop (length x)), take_drop.
Qed.

(** A root with one property and the node [chosen], whose name is followed by an
    [FDT_NOP] and whose properties are the end of the archive and its start. *)
Definition ex_strings : list Z := cstr "compatible" ++ cstr "linux,initrd-end" ++ cstr "linux,initrd-start".
Definition ex_tree : dt_node :=
  DNode [] [DProp (chars "compatible") 0 (cstr "raspi3")]
    [DNode (chars "chosen") [DProp (chars "linux,initrd-end") 11 (be32 0x8004000);
                             DProp initrd_start 28 (be32 0x8000000)] []].
Definition ex_tokens : list token :=
  match tokens ex_tree with a :: b :: c :: ts => a :: b :: c :: TNop :: ts | ts => ts end.
Definition ex_struct : list Z := flat_map encode_token ex_tokens ++ be32 FDT_END.
Definition ex_blob : list Z :=
  be32 FDT_MAGIC ++ be32 0x200 ++ be32 16 ++ be32 (16 + Z.of_nat (length ex_struct)) ++ ex_struct ++ ex_strings.

Lemma ex_chars (s : String.string) : bool_decide (Forall (fun c => 0 < c < 256) (chars s)) = true -> nonzero (chars s).
Proof. intros E. by apply bool_decide_eq_true in E. Qed.

Lemma ex_blob_ok : fdt_blob ex_blob (16 + Z.of_nat (length ex_struct)) ex_tokens.
Proof.
  split.
  - apply has_check; [vm_compute; split; discriminate|by vm_compute].
  - exists 16. split; [lia|]. split; (apply has_check; [vm_compute; split; discriminate|by vm_compute]).
  - split; [vm_compute; split; congruence|]. apply has_check; [vm_compute; split; discriminate|by vm_compute].
  - repeat apply Forall_cons_2; [..|apply Forall_nil_2]; try exact I; cbn [token_ok p_data p_nameoff p_name];
      try (apply ex_chars; by vm_compute); try constructor.
    all: try (vm_compute; split_and?; congruence).
    all: split_and!; try lia; try (apply ex_chars; by vm_compute); try (vm_compute; congruence).
    all: apply has_check; [vm_compute; split; discriminate|by vm_compute].
Qed.

Lemma ex_tokens_of : tokens_of ex_tree ex_tokens.
Proof. by vm_compute. Qed.

Lemma ex_values_ok : Forall value_ok ex_tokens.
Proof.
  repeat apply Forall_cons_2; [..|apply Forall_nil_2]; try exact I; cbn [value_ok p_name p_data]; intros E;
    try (vm_compute in E; discriminate).
  split; [cbn; lia|]. vm_compute. repeat constructor; discriminate.
Qed.

