(* ===== verification/Boot.v ===== *)
(** The boot: [mm_init] of [src/src/mm.c], which puts the three allocators one on top of
    the other, over what the firmware left in memory. *)
From S2P Require Import Prelude Memblock Buddy Slab Initrd Dtb.

(** What the boot finds on the board: what the mailbox says of the memory, the end of the
    kernel, the addresses of the archive and of the device tree with their bytes. *)
Record board := Board {
  b_memory : Z * Z;
  b_end : Z;
  b_cpio : Z;
  b_archive : list Z;
  b_dtb : Z;
  b_blob : list Z
}.

(** [raw] is what the memory [mem_map] is put in holds, [w] the other words of the memory;
    [fuel] bounds the search for that memory. *)
(* [src/src/mm.c:308-313 mm_init] *)
Definition mm_init (fuel : nat) (b : board) (raw : Z -> page) (w : gmap Z Z) : res (memblock * slab_state) :=
  mb ← memblock_init (fun mb => initrd_reserve_memory mb (b_cpio b) (b_archive b))
                     (fun mb => fdt_reserve_memory mb (b_dtb b) (b_blob b)) memblock0 (b_memory b) (b_end b);
  r ← buddy_init fuel raw mb mm0;
  s ← slab_init (SlabState r.2 (replicate 9 (KmemCache 0 0 0 0)) w);
  Ok (r.1, s.2).
