(* ===== verification/BootSpec.v ===== *)
(** The memory after the boot: the allocators are set up, and what the kernel, the archive,
    the device tree and the page structures occupy is never handed out. *)
From Stdlib Require Import Ascii String.
From S2P Require Import Prelude ListHead Memblock MemblockAlloc Buddy BuddyInv BuddyBoot Slab SlabInv SlabSpec.
From S2P Require Import CString Fat32 FsData Initramfs InitramfsSpec Initrd InitrdSpec Dtb DtbSpec Boot.

(** * The list nodes outlive every operation *)

Lemma set_next_dom (p v : option lnode) h h' : set_next p v h = Ok h' -> dom h' = dom h.
Proof.
  destruct p as [a|]; [|done]. unfold set_next. destruct (h !! a) eqn:E; [|done]. cbn. intros [= <-].
  by apply dom_insert_lookup_L.
Qed.
Lemma set_prev_dom (p v : option lnode) h h' : set_prev p v h = Ok h' -> dom h' = dom h.
Proof.
  destruct p as [a|]; [|done]. unfold set_prev. destruct (h !! a) eqn:E; [|done]. cbn. intros [= <-].
  by apply dom_insert_lookup_L.
Qed.

(** The assignments of a list operation, one by one. *)
Ltac dom_steps H :=
  repeat match type of H with
  | mbind _ (set_next ?p ?v ?h) = Ok _ =>
      let E := fresh in destruct (set_next p v h) eqn:E; [apply set_next_dom in E; rewrite res_bind_ok in H; cbv beta in H|discriminate H]
  | mbind _ (set_prev ?p ?v ?h) = Ok _ =>
      let E := fresh in destruct (set_prev p v h) eqn:E; [apply set_prev_dom in E; rewrite res_bind_ok in H; cbv beta in H|discriminate H]
  | mbind _ (node_at ?h ?p) = Ok _ => destruct (node_at h p); [rewrite res_bind_ok in H; cbv beta in H|discriminate H]
  | set_next _ _ _ = Ok _ => apply set_next_dom in H
  | set_prev _ _ _ = Ok _ => apply set_prev_dom in H
  end; congruence.

(** The memory has the nodes [D]. *)
Definition has_nodes (D : gset lnode) (s : mm) : Prop := dom (nodes s) = D.

Section Nodes.
Context (D : gset lnode).
Abbreviation stays m := (keeps (has_nodes D) m (fun _ => True)).

Lemma init_dom (a : lnode) h h' : INIT_LIST_HEAD a h = Ok h' -> dom h' = dom h.
Proof. unfold INIT_LIST_HEAD. intros H. dom_steps H. Qed.
Lemma add_tail_dom (a b : lnode) h h' : list_add_tail a b h = Ok h' -> dom h' = dom h.
Proof. unfold list_add_tail, __list_add. intros H. dom_steps H. Qed.
Lemma list_del_dom (a b : option lnode) h h' : __list_del a b h = Ok h' -> dom h' = dom h.
Proof. unfold __list_del. intros H. dom_steps H. Qed.
Lemma del_dom (a : lnode) h h' : list_del a h = Ok h' -> dom h' = dom h.
Proof.
  unfold list_del. intros H. destruct (node_at h (Some a)) as [n|]; [|done]. rewrite res_bind_ok in H. cbv beta in H.
  destruct (__list_del (prev n) (next n) h) as [h1|] eqn:E1; [|done]. apply list_del_dom in E1.
  rewrite res_bind_ok in H. cbv beta in H. dom_steps H.
Qed.

Lemma nodes_on f : (forall h h', f h = Ok h' -> dom h' = dom h) -> stays (on_nodes f).
Proof using Type.
  intros Hf s a s' Hs E. unfold on_nodes in E. destruct (f (nodes s)) eqn:Ef; [|done]. injection E as <- <-.
  split; [|done]. unfold has_nodes. cbn [nodes]. by rewrite (Hf _ _ Ef).
Qed.
Lemma nodes_init a : stays (on_nodes (INIT_LIST_HEAD a)).
Proof using Type. apply nodes_on, init_dom. Qed.
Lemma nodes_add a b : stays (on_nodes (list_add_tail a b)).
Proof using Type. apply nodes_on, add_tail_dom. Qed.
Lemma nodes_del a : stays (on_nodes (list_del a)).
Proof using Type. apply nodes_on, del_dom. Qed.
Lemma nodes_page p : stays (page_at p).
Proof using Type. intros s a s' Hs E. unfold page_at in E. destruct (mem_map s !! p); by simplify_eq. Qed.
Lemma nodes_upd p f : stays (upd_page p f).
Proof using Type. intros s a s' Hs E. unfold upd_page in E. destruct (mem_map s !! p); by simplify_eq. Qed.
Lemma nodes_set_nr o v : stays (set_nr_free o v).
Proof using Type. intros s a s' Hs E. unfold set_nr_free in E. destruct (zset _ _ _); by simplify_eq. Qed.
Lemma nodes_upd_nr o d : stays (upd_nr_free o d).
Proof using Type. intros s a s' Hs E. unfold upd_nr_free in E. destruct (zget _ _); [|done]. by apply nodes_set_nr in E. Qed.
Lemma nodes_managed d : stays (upd_managed d).
Proof using Type. by apply keeps_modify. Qed.
#[local] Hint Resolve nodes_init nodes_add nodes_del nodes_page nodes_upd nodes_set_nr nodes_upd_nr nodes_managed : keeps.

Lemma nodes_area o : stays (area o).
Proof using Type. unfold area. keep. Qed.
#[local] Hint Resolve nodes_area : keeps.

Lemma nodes_merge n : forall page pfn order, stays (merge_buddies n page pfn order).
Proof using Type.
  induction n as [|n IH]; intros page pfn order; cbn [merge_buddies]; unfold find_buddy_page_pfn, page_is_buddy, del_page_from_free_area; keep.
Qed.
#[local] Hint Resolve nodes_merge : keeps.

Lemma nodes_free page pfn order : stays (__free_one_page page pfn order).
Proof using Type. unfold __free_one_page, set_buddy_order, set_page_order, set_page_buddy, add_to_free_area. keep. Qed.
#[local] Hint Resolve nodes_free : keeps.

Lemma nodes_area_init : stays buddy_free_area_init.
Proof using Type. unfold buddy_free_area_init. generalize 0. induction (Z.to_nat MAX_ORDER) as [|n IH]; intros i; cbn [area_init_loop]; keep. Qed.
Lemma nodes_reserve_pages n : forall pfn, stays (reserve_pages n pfn).
Proof using Type. induction n as [|n IH]; intros pfn; cbn [reserve_pages]; keep. Qed.
#[local] Hint Resolve nodes_reserve_pages : keeps.
Lemma nodes_reserve l : stays (reserve_regions l).
Proof using Type. induction l as [|r l IH]; cbn [reserve_regions]; keep. Qed.
Lemma nodes_free_pages n : forall i, stays (free_pages_loop n i).
Proof using Type. induction n as [|n IH]; intros i; cbn [free_pages_loop]; keep. Qed.
End Nodes.

(** The heads of the lists of the slab allocator are there after the buddy allocator was
    set up. *)
Lemma buddy_init_nodes fuel raw mb mb' s a :
  buddy_init fuel raw mb mm0 = Ok (mb', s) -> is_Some (nodes mm0 !! a) -> is_Some (nodes s !! a).
Proof.
  unfold buddy_init, page_frame_init. intros E Ha. inv_bind E as [[] s1] E1.
  destruct (nodes_area_init _ _ _ _ eq_refl E1) as [K1 _].
  destruct (memblock_phys_alloc _ _ _) as [[va mb1]|]; [|done]. cbn [fst snd] in E.
  destruct (reserve_regions _ _) as [[[] s2]|] eqn:E3; [|done]. destruct (nodes_reserve _ _ _ _ _ eq_refl E3) as [K3 _]. cbn [fst snd] in E.
  destruct (free_pages_loop _ _ _) as [[[] s3]|] eqn:E4; [|done]. destruct (nodes_free_pages _ _ _ _ _ _ eq_refl E4) as [K4 _]. injection E as <- <-.
  apply elem_of_dom. cbn [snd] in *. rewrite K4, K3. cbn [nodes]. apply elem_of_dom.
  apply elem_of_dom in Ha. rewrite <-K1 in Ha. apply elem_of_dom in Ha. destruct Ha as [n Hn]. exists n. by apply lookup_union_Some_l.
Qed.

(** * The reservations *)

Lemma find_trailer_ok l tr es : forall fuel pre,
  (length es < fuel)%nat -> Forall entry_ok es -> trailer tr -> l = pre ++ flat_map encode es ++ tr ->
  find_trailer fuel l (Z.of_nat (length pre)) = Ok (Z.of_nat (length (pre ++ flat_map encode es))).
Proof.
  induction es as [|e es IH]; intros [|fuel] pre Hf Hes Htr El; try (cbn in Hf; lia); cbn [find_trailer];
    rewrite (at_offset l pre _ tr El), res_bind_ok.
  - cbn [flat_map app]. destruct (trailer_stops tr Htr) as [_ ->]. by rewrite res_bind_ok, app_nil_r.
  - apply Forall_cons in Hes as [He Hes]. cbn [flat_map]. rewrite <-!app_assoc.
    rewrite (entry_not_trailer e (flat_map encode es ++ tr) He (tail_long es tr Htr)), res_bind_ok. cbn [negb].
    pose proof (record_sizes e es tr He) as Ez. cbn [flat_map] in Ez. rewrite <-app_assoc in Ez. rewrite Ez, res_bind_ok. cbn [fst snd].
    rewrite (next_offset e He), (IH fuel (pre ++ encode e)); [by rewrite <-app_assoc|cbn in Hf; lia|done|done|by apply next_record].
Qed.

Lemma initrd_reserve_ok mb base es tr :
  Forall entry_ok es -> trailer tr ->
  initrd_reserve_memory mb base (flat_map encode es ++ tr) =
  opt_reserve (Some (virt_to_phys base, ALIGN (Z.of_nat (length (flat_map encode es)) + 120) 8)) mb.
Proof.
  intros Hes Htr. unfold initrd_reserve_memory. rewrite (archive_magic es tr Htr), res_bind_ok. cbn [negb].
  pose proof (records_short es tr Hes).
  rewrite (find_trailer_ok _ tr es (S (length (flat_map encode es ++ tr))) []) by (done || lia). by rewrite res_bind_ok.
Qed.

Lemma ALIGN_multiple q k : 0 <= k < 64 -> 0 <= q -> q * 2 ^ k + 2 ^ k - 1 < 2 ^ 64 -> ALIGN (q * 2 ^ k) (2 ^ k) = q * 2 ^ k.
Proof.
  intros Hk Hq Ho. pose proof (pow2_pos k ltac:(lia)). destruct (ALIGN_spec (q * 2 ^ k) k Hk ltac:(nia) Ho) as [Hr [p Hp]].
  rewrite Hp in *. assert (p = q) by nia. by subst.
Qed.

Lemma fdt_reserve_ok mb a blob total :
  has blob fdt_magic (be32 FDT_MAGIC) -> has blob fdt_totalsize (be32 total) -> 0 < total < 2 ^ 30 ->
  fdt_reserve_memory mb a blob = opt_reserve (Some (a, ALIGN total 4096)) mb.
Proof.
  intros Hm Ht Hb. unfold fdt_reserve_memory.
  rewrite (has_be32 _ _ total ltac:(lia) Ht), res_bind_ok, (has_be32 _ _ FDT_MAGIC ltac:(done) Hm), res_bind_ok, Z.eqb_refl. cbn [negb].
  assert (E : u64 (ALIGN_s32 (s32 (ALIGN_u32 total 4096)) 8) = ALIGN total 4096); [|by rewrite E].
  destruct (ALIGN_spec total 12 ltac:(lia) ltac:(lia) ltac:(lia)) as [Hr [q Hq]]. change (2 ^ 12) with 4096 in *.
  assert (E1 : ALIGN_u32 total 4096 = ALIGN total 4096).
  { assert (Hv : 0 <= Z.land (total + 4096 - 1) (Z.lnot (4096 - 1)) <= total + 4095).
    { change (4096 - 1) with (2 ^ 12 - 1). rewrite land_lnot_ones by lia.
      pose proof (Z.div_pos (total + 4096 - 1) (2 ^ 12)). pose proof (Z.mul_div_le (total + 4096 - 1) (2 ^ 12)). lia. }
    unfold ALIGN_u32, ALIGN. rewrite (u32_small (total + 4096 - 1)), u64_small, u32_small by lia. done. }
  rewrite E1, s32_small by lia. change (u64 (ALIGN_s32 (ALIGN total 4096) 8)) with (ALIGN (ALIGN total 4096) 8).
  rewrite Hq. replace (q * 4096) with (q * 2 ^ 9 * 2 ^ 3) by lia. apply (ALIGN_multiple (q * 2 ^ 9) 3); lia.
Qed.

(** * The boot *)

(** The archive and the blob, as the boot reserves them. *)
Definition archive_range (b : board) (es : list entry) : option (Z * Z) :=
  Some (virt_to_phys (b_cpio b), ALIGN (Z.of_nat (length (flat_map encode es)) + 120) 8).
Definition blob_range (b : board) (total : Z) : option (Z * Z) := Some (b_dtb b, ALIGN total 4096).

(** The addresses the kernel image, the archive and the device tree occupy. *)
Definition occupied (b : board) (es : list entry) (total a : Z) : Prop :=
  0 <= a < ALIGN (Z.land (b_end b) 0xffffffff) 8 \/ opt_covers (archive_range b es) a \/ opt_covers (blob_range b total) a.

(** A board with [n] pages of memory, an archive of the records [es] and a device tree of
    [total] bytes, nothing of them in the last page. *)
Record board_ok (b : board) (n : Z) (es : list entry) (total : Z) : Prop := {
  bo_memory : b_memory b = (0, 4096 * n);
  bo_pages : 0 < n < 2 ^ 20;
  bo_blocks : (2 ^ (MAX_ORDER - 1) | n);
  bo_end : 0 < Z.land (b_end b) 0xffffffff;
  bo_entries : Forall entry_ok es;
  bo_archive : exists tr, trailer tr /\ b_archive b = flat_map encode es ++ tr;
  bo_length : Z.of_nat (length (b_archive b)) < 2 ^ 30;
  bo_magic : has (b_blob b) fdt_magic (be32 FDT_MAGIC);
  bo_total : has (b_blob b) fdt_totalsize (be32 total) /\ 0 < total < 2 ^ 30;
  bo_dtb : 0 <= b_dtb b;
  bo_fits : forall a, occupied b es total a -> a < 4096 * (n - 1)
}.

Lemma mm0_partial j : 0 <= j < NR_OBJECTS -> is_Some (nodes mm0 !! HPartial j).
Proof.
  intros Hj. unfold NR_OBJECTS in Hj.
  assert (Hall : forallb (fun j => bool_decide (is_Some (nodes mm0 !! HPartial j))) (seqZ 0 9) = true) by (by vm_compute).
  rewrite forallb_forall in Hall. specialize (Hall j). apply bool_decide_eq_true in Hall; [done|].
  apply list_elem_of_In, elem_of_seqZ. lia.
Qed.

(** The frames a list of regions touches: [frames_of] counts the end of a region too. *)
Lemma reserved_frame_iff t x : wf_type t ->
  reserved_frame (live t) x <-> exists a, 4096 * x - 1 <= a < 4096 * (x + 1) /\ covers (live t) a.
Proof.
  intros Hwf. unfold reserved_frame, covers, frames_of, inside. change (2 ^ 12) with 4096. split.
  - intros (r & Hr & Hx). apply list_elem_of_lookup in Hr as Hi. destruct Hi as [i Hi].
    pose proof (live_in_range _ _ _ Hwf Hi). exists (Z.max (base r) (4096 * x - 1)).
    pose proof (Z.mul_div_le (base r + size r) 4096 ltac:(lia)). pose proof (Z.mul_succ_div_gt (base r) 4096 ltac:(lia)).
    split; [nia|]. exists r. split; [done|nia].
  - intros (a & Ha & r & Hr & Hin). exists r. split; [done|]. split.
    + apply Z.lt_succ_r, Z.div_lt_upper_bound; lia.
    + apply Z.div_le_lower_bound; lia.
Qed.

Lemma regions_fit t n : wf_type t -> 0 < n < 2 ^ 20 -> (forall a, covers (live t) a -> a < 4096 * (n - 1)) ->
  Forall (region_fits n) (live t).
Proof.
  intros Hwf Hn Hc. apply Forall_forall. intros r Hr. apply list_elem_of_lookup in Hr as Hi. destruct Hi as [i Hi].
  pose proof (live_in_range _ _ _ Hwf Hi). assert (base r + size r - 1 < 4096 * (n - 1)).
  { apply Hc. exists r. split; [done|]. unfold inside. lia. }
  split_and!; try lia. apply Z.div_lt_upper_bound; lia.
Qed.

(** The lengths of the ranges are positive and do not wrap. *)
Lemma ranges_valid b n es total : board_ok b n es total ->
  opt_valid (archive_range b es) /\ opt_valid (blob_range b total).
Proof.
  intros [_ Hn _ _ _ (tr & _ & El) Hl _ [_ Ht] Hd Hf].
  assert (Hes : Z.of_nat (length (flat_map encode es)) < 2 ^ 30) by (rewrite El, length_app in Hl; lia).
  pose proof (ALIGN8_spec (Z.of_nat (length (flat_map encode es)) + 120) ltac:(lia)) as Ha.
  destruct (ALIGN_spec total 12 ltac:(lia) ltac:(lia) ltac:(lia)) as [Hb _]. change (2 ^ 12) with 4096 in Hb.
  set (x := ALIGN (Z.of_nat (length (flat_map encode es)) + 120) 8) in *. set (y := ALIGN total 4096) in *.
  pose proof (ALIGN8_spec x ltac:(lia)) as Ha'. pose proof (ALIGN8_spec y ltac:(lia)) as Hb'.
  assert (Hv : 0 <= virt_to_phys (b_cpio b)) by (unfold virt_to_phys; apply Z.land_nonneg; right; by vm_compute).
  split; unfold archive_range, blob_range, opt_valid; fold x y.
  - split_and!; [done|lia|].
    assert (Ho : occupied b es total (virt_to_phys (b_cpio b))); [|apply Hf in Ho; lia].
    right. left. cbn [archive_range opt_covers]. fold x. lia.
  - split_and!; [done|lia|].
    assert (Ho : occupied b es total (b_dtb b)); [|apply Hf in Ho; lia].
    right. right. cbn [blob_range opt_covers]. fold y. lia.
Qed.

Lemma cnt_live t : wf_type t -> cnt t <= Z.max 1 (Z.of_nat (length (live t))).
Proof.
  intros Hwf. destruct (decide (live t = [])) as [E|E]; [rewrite (wf_dummy t Hwf E); lia|].
  destruct (live_split t Hwf E) as [-> _]. lia.
Qed.

(** The state of the early allocator, and the memory it finds for [mem_map]. *)
Lemma early_ok fuel b n es total c0 :
  board_ok b n es total -> 9 <= Z.of_nat fuel ->
  (8 | c0) -> 0 <= c0 -> c0 + 48 * n <= 4096 * (n - 1) -> (forall a, c0 <= a < c0 + 48 * n -> ~ occupied b es total a) ->
  exists mb va mb' c,
    memblock_init (fun mb => initrd_reserve_memory mb (b_cpio b) (b_archive b))
      (fun mb => fdt_reserve_memory mb (b_dtb b) (b_blob b)) memblock0 (b_memory b) (b_end b) = Ok mb /\
    current_limit mb = 4096 * n /\ memblock_phys_alloc fuel mb (u64 (sizeof_page * n)) = Ok (va, mb') /\ wf_memblock mb' /\
    0 <= c <= c0 /\ (8 | c) /\ (forall a, c <= a < c + 48 * n -> ~ occupied b es total a) /\
    forall a, covers (live (reserved mb')) a <-> occupied b es total a \/ c <= a < c + 48 * n.
Proof.
  intros Hb Hfuel H8 Hc0 Hc1 Hfree. destruct (ranges_valid b n es total Hb) as [Hv1 Hv2].
  destruct Hb as [Em Hn Hd He Hes (tr & Htr & Earch) _ Hm [Ht Htt] _ Hf]. rewrite Em.
  assert (Hend : 0 < Z.land (b_end b) 0xffffffff < 2 ^ 32).
  { split; [done|]. change 0xffffffff with (Z.ones 32). rewrite Z.land_ones by lia. apply Z.mod_pos_bound. lia. }
  destruct (memblock_init_ok 0 (4096 * n) (b_end b) (fun mb => initrd_reserve_memory mb (b_cpio b) (b_archive b))
      (fun mb => fdt_reserve_memory mb (b_dtb b) (b_blob b)) (archive_range b es) (blob_range b total))
    as (mb & E & Hwf & Ep & El & Emax & Hlm & Hlr & Hcm & Hcr); try done; try lia.
  { intros mb. rewrite Earch. by apply initrd_reserve_ok. }
  { intros mb. by apply fdt_reserve_ok. }
  exists mb. assert (Hocc : forall a, covers (live (reserved mb)) a <-> occupied b es total a) by exact Hcr.
  assert (H0 : occupied b es total 0).
  { left. pose proof (ALIGN8_spec (Z.land (b_end b) 0xffffffff) ltac:(lia)). lia. }
  pose proof (cnt_live _ (wf_memory _ Hwf)). pose proof (cnt_live _ (wf_reserved _ Hwf)).
  destruct (memblock_phys_alloc_range_spec fuel mb (48 * n) 3 0 0 c0) as [(c & mb' & Ea & Hcc & Hin & Hfr & Hwf' & Emm & Hcv)|[_ Hx]];
    try done; cbn [Z.eqb]; rewrite ?Ep.
  - by apply Hocc.
  - split_and!; lia.
  - lia.
  - split_and!; [lia|lia|exact H8].
  - intros a Ha. rewrite Hcm, Hocc. split; [lia|by apply Hfree].
  - lia.
  - exists (phys_to_virt c), mb', c. destruct Hin as (Hi1 & _ & Hi3).
    assert (Eu : u64 (sizeof_page * n) = 48 * n) by (unfold sizeof_page; rewrite u64_small by lia; lia).
    split_and!; try done; try lia.
    + unfold memblock_phys_alloc. rewrite Eu. change MEMBLOCK_ALLOC_ACCESSIBLE with 0. change 8 with (2 ^ 3). by rewrite Ea.
    + intros a Ha. rewrite <-Hocc. by apply Hfr.
    + intros a. rewrite Hcv, Hocc. pose proof (ALIGN_multiple (6 * n) 3 ltac:(lia) ltac:(lia) ltac:(lia)) as EA.
      replace (6 * n * 2 ^ 3) with (48 * n) in EA by lia. change (2 ^ 3) with 8 in EA. by rewrite EA.
  - lia.
Qed.

(** The allocators [s] of [mm_init] over the map of the frames [B], the page structures at
    [c]: nothing is allocated, and the frames that may be are clear of what is occupied. *)
Definition memory_ready (b : board) (n : Z) (es : list entry) (total c0 c : Z) (B : gmap Z (bstate * Z)) (s : slab_state) : Prop :=
  slab_inv B (fun _ => []) (fun _ => []) s /\ (forall a l, ~ held B (fun _ => []) (fun _ => []) a l) /\
  0 <= c <= c0 /\ (8 | c) /\ (forall a, c <= a < c + 48 * n -> ~ occupied b es total a) /\
  (forall x, avail B x <-> 0 <= x < n /\
     forall a, 4096 * x - 1 <= a < 4096 * (x + 1) -> ~ (occupied b es total a \/ c <= a < c + 48 * n)).

Lemma mm_init_ok fuel b n es total c0 raw w :
  board_ok b n es total -> 9 <= Z.of_nat fuel ->
  (forall p, flags (raw p) <> PG_buddy /\ flags (raw p) <> PG_RESERVED) ->
  (8 | c0) -> 0 <= c0 -> c0 + 48 * n <= 4096 * (n - 1) -> (forall a, c0 <= a < c0 + 48 * n -> ~ occupied b es total a) ->
  exists c mb B s, mm_init fuel b raw w = Ok (mb, s) /\ memory_ready b n es total c0 c B s.
Proof.
  intros Hb Hfuel Hraw H8 Hc0 Hc1 Hfree.
  destruct (early_ok fuel b n es total c0) as (mb & va & mb' & c & E1 & El & E2 & Hwf & Hc & Hc8 & Hcf & Hcv); try done.
  pose proof (bo_pages _ _ _ _ Hb) as Hn.
  assert (En : n = Z.shiftr (current_limit mb) 12).
  { rewrite El, Z.shiftr_div_pow2 by lia. change (2 ^ 12) with 4096. rewrite Z.mul_comm. by rewrite Z.div_mul. }
  destruct (boot_ok fuel raw mb va mb' n En ltac:(lia) (bo_blocks _ _ _ _ Hb) Hraw E2) as (B & z & E3 & HB & Hnr & Hnu & Hav).
  { intros E. assert (Hx : covers (live (reserved mb')) c) by (apply Hcv; right; lia). rewrite E in Hx. by apply covers_nil in Hx. }
  { apply regions_fit; [apply Hwf|done|]. intros a [Ha|Ha]%Hcv; [by apply (bo_fits _ _ _ _ Hb)|lia]. }
  destruct (slab_boot_ok B z w HB Hnu ltac:(lia)) as (s & E4 & Hinv).
  { intros j Hj. by apply (buddy_init_nodes _ _ _ _ _ _ E3), mm0_partial. }
  exists c, mb', B, s. split.
  { unfold mm_init. rewrite E1, res_bind_ok, E3, res_bind_ok. cbn [fst snd]. rewrite E4, res_bind_ok. reflexivity. }
  split; [exact Hinv|]. split; [|split; [lia|split; [done|split; [done|]]]].
  - intros a l [(i & _ & (p & []%elem_of_nil & _) & _)|(p & k & [Hp _] & _)]. by apply Hnu in Hp.
  - intros x. rewrite Hav, (reserved_frame_iff _ x (wf_reserved _ Hwf)). split; intros [Hx Hno]; (split; [done|]).
    + intros a Ha Ho. apply Hno. exists a. split; [done|]. by apply Hcv.
    + intros (a & Ha & Ho). by apply (Hno a Ha), Hcv.
Qed.


(** * An instance *)

(** 2 MiB of memory with 32 KiB of kernel, an archive and a device tree. *)
Definition ex_board : board :=
  Board (0, 0x200000) 0xffff000000008000 0xffff000000100000 (flat_map encode [ex_entry] ++ ex_trailer) 0x180000 ex_blob.

Lemma ex_occupied a : occupied ex_board [ex_entry] 0x200 a <->
  0 <= a < 0x8000 \/ 0x100000 <= a < 0x1000f0 \/ 0x180000 <= a < 0x181000.
Proof.
  unfold occupied, archive_range, blob_range, opt_covers.
  change (virt_to_phys (b_cpio ex_board)) with 0x100000. change (b_dtb ex_board) with 0x180000.
  assert (E1 : ALIGN (Z.land (b_end ex_board) 0xffffffff) 8 = 0x8000) by (by vm_compute).
  assert (E2 : ALIGN (ALIGN (Z.of_nat (length (flat_map encode [ex_entry])) + 120) 8) 8 = 0xf0) by (by vm_compute).
  assert (E3 : ALIGN (ALIGN 0x200 4096) 8 = 0x1000) by (by vm_compute).
  rewrite E1, E2, E3. lia.
Qed.

Lemma ex_board_ok : board_ok ex_board 512 [ex_entry] 0x200.
Proof.
  split.
  - done.
  - lia.
  - by exists 1.
  - done.
  - apply Forall_cons_2; [apply ex_entry_ok|apply Forall_nil_2].
  - exists ex_trailer. split; [apply ex_trailer_ok|done].
  - by vm_compute.
  - apply has_check; [vm_compute; split; discriminate|by vm_compute].
  - split; [|lia]. apply has_check; [vm_compute; split; discriminate|by vm_compute].
  - done.
  - intros a Ha. apply (proj1 (ex_occupied a)) in Ha. lia.
Qed.

