(* ===== verification/Mmio.v ===== *)
(** Memory-mapped devices: registers that are read and written at an address.

    What a device does is not in the repository: it is a class, with a read, which may
    change the state of the device, and a write.  The drivers are defined over any device,
    and what they need of theirs is stated where they are proved correct.  Loops that wait
    without a bound are given fuel. *)
From S2P Require Import Prelude Memblock.

Class Device (D : Type) := {
  dev_read : Z -> D -> Z * D;
  dev_write : Z -> Z -> D -> D
}.

(* [src/include/mm.h:67-67 MMIO_BASE] *)
Definition MMIO_BASE : Z := Z.lor KERNEL_VADDR_BASE 0x3F000000.
(* [src/include/gpio.h:37-37 GPIO_BASE] *)
Definition GPIO_BASE : Z := MMIO_BASE + 0x00200000.
(* [src/include/gpio.h:38-38 AUX_BASE] *)
Definition AUX_BASE : Z := MMIO_BASE + 0x00215000.
(* [src/include/gpio.h:39-39 IRQ_BASE] *)
Definition IRQ_BASE : Z := MMIO_BASE + 0x0000B000.

Section Registers.
Context {D : Type} `{!Device D}.
Implicit Types (d : D).

(** The 32-bit loads and stores of [src/src/sd.c] and of the [volatile] pointers. *)
(* [src/src/sd.c:85-86 get] *)
Definition get_reg (a : Z) : M D Z := fun d => let '(v, d') := dev_read a d in Ok (u32 v, d').
(* [src/src/sd.c:82-83 set] *)
Definition set_reg (a v : Z) : M D unit := fun d => Ok (tt, dev_write a (u32 v) d).

(** Reading a register at most [S n] times until [done] holds of its value. *)
Fixpoint polls (n : nat) (a : Z) (test : Z -> bool) (d : D) : option D :=
  let v := u32 (dev_read a d).1 in
  let d' := (dev_read a d).2 in
  if test v then Some d'
  else match n with O => None | S n => polls n a test d' end.

Lemma get_reg_ok a d : get_reg a d = Ok (u32 (dev_read a d).1, (dev_read a d).2).
Proof. unfold get_reg. by destruct (dev_read a d). Qed.
End Registers.
