(* ===== verification/SdCard.v ===== *)
(** The driver of the SD card: [src/src/sd.c].

    A buffer is its 128 words.  [print_block] and [print_mbr_info], which only print, are
    left out, and so is [delay], a loop of [nop]s. *)
From S2P Require Import Prelude Memblock Mmio.

(* [src/src/sd.c:7-7 GPIO_GPFSEL4] *)
Definition GPIO_GPFSEL4 : Z := GPIO_BASE + 0x10.
(* [src/src/sd.c:8-8 GPIO_GPFSEL5] *)
Definition GPIO_GPFSEL5 : Z := GPIO_BASE + 0x14.
(* [src/src/sd.c:9-9 GPIO_GPPUD] *)
Definition GPIO_GPPUD : Z := GPIO_BASE + 0x94.
(* [src/src/sd.c:10-10 GPIO_GPPUDCLK1] *)
Definition GPIO_GPPUDCLK1 : Z := GPIO_BASE + 0x9c.

(** The commands. *)
(* [src/src/sd.c:13-13 GO_IDLE_STATE] *)
Definition GO_IDLE_STATE : Z := 0.
(* [src/src/sd.c:15-15 ALL_SEND_CID] *)
Definition ALL_SEND_CID : Z := 2.
(* [src/src/sd.c:16-16 SEND_RELATIVE_ADDR] *)
Definition SEND_RELATIVE_ADDR : Z := 3.
(* [src/src/sd.c:17-17 SELECT_CARD] *)
Definition SELECT_CARD : Z := 7.
(* [src/src/sd.c:19-19 SEND_IF_COND] *)
Definition SEND_IF_COND : Z := 8.
(* [src/src/sd.c:20-20 VOLTAGE_CHECK_PATTERN] *)
Definition VOLTAGE_CHECK_PATTERN : Z := 0x1aa.
(* [src/src/sd.c:22-22 STOP_TRANSMISSION] *)
Definition STOP_TRANSMISSION : Z := 12.
(* [src/src/sd.c:23-23 SET_BLOCKLEN] *)
Definition SET_BLOCKLEN : Z := 16.
(* [src/src/sd.c:24-24 READ_SINGLE_BLOCK] *)
Definition READ_SINGLE_BLOCK : Z := 17.
(* [src/src/sd.c:25-25 WRITE_SINGLE_BLOCK] *)
Definition WRITE_SINGLE_BLOCK : Z := 24.
(* [src/src/sd.c:27-27 SD_APP_OP_COND] *)
Definition SD_APP_OP_COND : Z := 41.
(* [src/src/sd.c:28-28 SDCARD_3_3V] *)
Definition SDCARD_3_3V : Z := Z.shiftl 1 21.
(* [src/src/sd.c:29-29 SDCARD_ISHCS] *)
Definition SDCARD_ISHCS : Z := Z.shiftl 1 30.
(* [src/src/sd.c:30-30 SDCARD_READY] *)
Definition SDCARD_READY : Z := Z.shiftl 1 31.
(* [src/src/sd.c:32-32 APP_CMD] *)
Definition APP_CMD : Z := 55.

(** The registers of the host controller. *)
(* [src/src/sd.c:35-35 SDHOST_BASE] *)
Definition SDHOST_BASE : Z := MMIO_BASE + 0x202000.
(* [src/src/sd.c:37-37 SDHOST_CMD] *)
Definition SDHOST_CMD : Z := SDHOST_BASE + 0.
(* [src/src/sd.c:38-38 SDHOST_READ] *)
Definition SDHOST_READ : Z := 0x40.
(* [src/src/sd.c:39-39 SDHOST_WRITE] *)
Definition SDHOST_WRITE : Z := 0x80.
(* [src/src/sd.c:40-40 SDHOST_LONG_RESPONSE] *)
Definition SDHOST_LONG_RESPONSE : Z := 0x200.
(* [src/src/sd.c:41-41 SDHOST_NO_REPONSE] *)
Definition SDHOST_NO_REPONSE : Z := 0x400.
(* [src/src/sd.c:42-42 SDHOST_BUSY] *)
Definition SDHOST_BUSY : Z := 0x800.
(* [src/src/sd.c:43-43 SDHOST_NEW_CMD] *)
Definition SDHOST_NEW_CMD : Z := 0x8000.
(* [src/src/sd.c:45-45 SDHOST_ARG] *)
Definition SDHOST_ARG : Z := SDHOST_BASE + 0x4.
(* [src/src/sd.c:47-48 SDHOST_TOUT] *)
Definition SDHOST_TOUT : Z := SDHOST_BASE + 0x8.
Definition SDHOST_TOUT_DEFAULT : Z := 0xf00000.
(* [src/src/sd.c:50-52 SDHOST_CDIV] *)
Definition SDHOST_CDIV : Z := SDHOST_BASE + 0xc.
Definition SDHOST_CDIV_DEFAULT : Z := 0x148.
(* [src/src/sd.c:54-54 SDHOST_RESP0] *)
Definition SDHOST_RESP0 : Z := SDHOST_BASE + 0x10.
(* [src/src/sd.c:59-60 SDHOST_HSTS] *)
Definition SDHOST_HSTS : Z := SDHOST_BASE + 0x20.
Definition SDHOST_HSTS_MASK : Z := 0x7f8.
(* [src/src/sd.c:61-61 SDHOST_HSTS_ERR_MASK] *)
Definition SDHOST_HSTS_ERR_MASK : Z := 0xf8.
(* [src/src/sd.c:62-62 SDHOST_HSTS_DATA] *)
Definition SDHOST_HSTS_DATA : Z := Z.shiftl 1 0.
(* [src/src/sd.c:64-64 SDHOST_PWR] *)
Definition SDHOST_PWR : Z := SDHOST_BASE + 0x30.
(* [src/src/sd.c:66-68 SDHOST_DBG] *)
Definition SDHOST_DBG : Z := SDHOST_BASE + 0x34.
Definition SDHOST_DBG_FSM_MASK : Z := 0xf.
(* [src/src/sd.c:69-70 SDHOST_DBG_MASK] *)
Definition SDHOST_DBG_MASK : Z := Z.lor (Z.shiftl 0x1f 14) (Z.shiftl 0x1f 9).
Definition SDHOST_DBG_FIFO : Z := Z.lor (Z.shiftl 0x4 14) (Z.shiftl 0x4 9).
(* [src/src/sd.c:72-75 SDHOST_CFG] *)
Definition SDHOST_CFG : Z := SDHOST_BASE + 0x38.
Definition SDHOST_CFG_DATA_EN : Z := Z.shiftl 1 4.
Definition SDHOST_CFG_SLOW : Z := Z.shiftl 1 3.
Definition SDHOST_CFG_INTBUS : Z := Z.shiftl 1 1.
(* [src/src/sd.c:77-79 SDHOST_SIZE] *)
Definition SDHOST_SIZE : Z := SDHOST_BASE + 0x3c.
Definition SDHOST_DATA : Z := SDHOST_BASE + 0x40.
Definition SDHOST_CNT : Z := SDHOST_BASE + 0x50.

(** The number of times the driver reads a register before it gives up. *)
Definition LIMIT : nat := Z.to_nat 1000000.

Section Driver.
Context {D : Type} `{!Device D}.

(** [cnt] reads are left: -1 when there is none. *)
(* [src/src/sd.c:135-141 wait_sd] *)
Fixpoint wait_sd_loop (cnt : nat) : M D Z :=
  match cnt with
  | O => mret (-1)
  | S cnt =>
    cmd ← get_reg SDHOST_CMD;
    if Z.land cmd SDHOST_NEW_CMD =? 0 then mret 0 else wait_sd_loop cnt
  end.
(* [src/src/sd.c:131-143 wait_sd] *)
Definition wait_sd : M D Z := wait_sd_loop LIMIT.

(* [src/src/sd.c:145-150 sd_cmd] *)
Definition sd_cmd (cmd arg : Z) : M D Z :=
  _ ← set_reg SDHOST_ARG arg;
  _ ← set_reg SDHOST_CMD (Z.lor cmd SDHOST_NEW_CMD);
  wait_sd.

(* [src/src/sd.c:188-194 wait_fifo] *)
Fixpoint wait_fifo_loop (cnt : nat) : M D Z :=
  match cnt with
  | O => mret (-1)
  | S cnt =>
    hsts ← get_reg SDHOST_HSTS;
    if negb (Z.land hsts SDHOST_HSTS_DATA =? 0) then mret 0 else wait_fifo_loop cnt
  end.
(* [src/src/sd.c:184-196 wait_fifo] *)
Definition wait_fifo : M D Z := wait_fifo_loop LIMIT.

(* [src/src/sd.c:198-202 set_block] *)
Definition set_block (size cnt : Z) : M D unit :=
  _ ← set_reg SDHOST_SIZE size;
  set_reg SDHOST_CNT cnt.

(** The mask is compared with [SDHOST_HSTS_DATA], which has the value of
    [SDHOST_DBG_FSM_DATA]. *)
(* [src/src/sd.c:204-210 wait_finish] *)
Fixpoint wait_finish (fuel : nat) : M D unit :=
  match fuel with
  | O => fail NoFuel
  | S fuel =>
    dbg ← get_reg SDHOST_DBG;
    if Z.land dbg SDHOST_DBG_FSM_MASK =? SDHOST_HSTS_DATA then mret tt else wait_finish fuel
  end.

(** ** Setting up *)

(* [src/src/sd.c:97-106 pin_setup] *)
Definition pin_setup : M D unit :=
  _ ← set_reg GPIO_GPFSEL4 0x24000000;
  _ ← set_reg GPIO_GPFSEL5 0x924;
  _ ← set_reg GPIO_GPPUD 0;
  _ ← set_reg GPIO_GPPUDCLK1 0xffffffff;
  set_reg GPIO_GPPUDCLK1 0.

(* [src/src/sd.c:108-129 sdhost_setup] *)
Definition sdhost_setup : M D unit :=
  _ ← set_reg SDHOST_PWR 0;
  _ ← set_reg SDHOST_CMD 0;
  _ ← set_reg SDHOST_ARG 0;
  _ ← set_reg SDHOST_TOUT SDHOST_TOUT_DEFAULT;
  _ ← set_reg SDHOST_CDIV 0;
  _ ← set_reg SDHOST_HSTS SDHOST_HSTS_MASK;
  _ ← set_reg SDHOST_CFG 0;
  _ ← set_reg SDHOST_CNT 0;
  _ ← set_reg SDHOST_SIZE 0;
  tmp ← get_reg SDHOST_DBG;
  let tmp := Z.land tmp (Z.lnot SDHOST_DBG_MASK) in
  let tmp := Z.lor tmp SDHOST_DBG_FIFO in
  _ ← set_reg SDHOST_DBG tmp;
  _ ← set_reg SDHOST_PWR 1;
  _ ← set_reg SDHOST_CFG (Z.lor (Z.lor SDHOST_CFG_SLOW SDHOST_CFG_INTBUS) SDHOST_CFG_DATA_EN);
  set_reg SDHOST_CDIV SDHOST_CDIV_DEFAULT.

(** Asking for the operating conditions until the card is ready: the last answer. *)
(* [src/src/sd.c:161-173 sdcard_setup] *)
Fixpoint op_cond_loop (fuel : nat) : M D Z :=
  match fuel with
  | O => fail NoFuel
  | S fuel =>
    r ← sd_cmd APP_CMD 0;
    if r =? -1 then op_cond_loop fuel
    else
      _ ← sd_cmd SD_APP_OP_COND (Z.lor SDCARD_3_3V SDCARD_ISHCS);
      tmp ← get_reg SDHOST_RESP0;
      if negb (Z.land tmp SDCARD_READY =? 0) then mret tmp else op_cond_loop fuel
  end.

(** The result, and [is_hcs] when it was set. *)
(* [src/src/sd.c:152-182 sdcard_setup] *)
Definition sdcard_setup (fuel : nat) (is_hcs : Z) : M D (Z * Z) :=
  _ ← sd_cmd (Z.lor GO_IDLE_STATE SDHOST_NO_REPONSE) 0;
  _ ← sd_cmd SEND_IF_COND VOLTAGE_CHECK_PATTERN;
  tmp ← get_reg SDHOST_RESP0;
  if negb (tmp =? VOLTAGE_CHECK_PATTERN) then mret (-1, is_hcs)
  else
    tmp ← op_cond_loop fuel;
    let is_hcs := s32 (Z.land tmp SDCARD_ISHCS) in
    _ ← sd_cmd (Z.lor ALL_SEND_CID SDHOST_LONG_RESPONSE) 0;
    _ ← sd_cmd SEND_RELATIVE_ADDR 0;
    tmp ← get_reg SDHOST_RESP0;
    _ ← sd_cmd SELECT_CARD tmp;
    _ ← sd_cmd SET_BLOCKLEN 512;
    mret (0, is_hcs).

(** [is_hcs] after it. *)
(* [src/src/sd.c:303-308 sd_init] *)
Definition sd_init (fuel : nat) (is_hcs : Z) : M D Z :=
  _ ← pin_setup;
  _ ← sdhost_setup;
  r ← sdcard_setup fuel is_hcs;
  mret r.2.

(** ** Transfers *)

(** The results of [wait_fifo] and [sd_cmd] are ignored. *)
(* [src/src/sd.c:261-264 readblock] *)
Fixpoint read_words (n : nat) : M D (list Z) :=
  match n with
  | O => mret []
  | S n =>
    _ ← wait_fifo;
    w ← get_reg SDHOST_DATA;
    ws ← read_words n;
    mret (w :: ws)
  end.

(* [src/src/sd.c:287-290 writeblock] *)
Fixpoint write_words (n : nat) (buf : list Z) (i : Z) : M D unit :=
  match n with
  | O => mret tt
  | S n =>
    _ ← wait_fifo;
    w ← lift_opt OutOfBounds buf.[i];
    _ ← set_reg SDHOST_DATA w;
    write_words n buf (i + 1)
  end.

(** Whether the transfer went well; if not, the errors are cleared and it is stopped. *)
(* [src/src/sd.c:265-272 readblock] *)
Definition transfer_ok : M D bool :=
  hsts ← get_reg SDHOST_HSTS;
  if negb (Z.land hsts SDHOST_HSTS_ERR_MASK =? 0) then
    _ ← set_reg SDHOST_HSTS SDHOST_HSTS_ERR_MASK;
    _ ← sd_cmd (Z.lor STOP_TRANSMISSION SDHOST_BUSY) 0;
    mret false
  else mret true.

(** The argument of a command: a number of a block, or of a byte. *)
(* [src/src/sd.c:255-257 readblock] *)
Definition card_address (is_hcs block_idx : Z) : Z :=
  if is_hcs =? 0 then s32 (Z.shiftl block_idx 9) else block_idx.

(* [src/src/sd.c:258-273 readblock] *)
Fixpoint readblock_loop (fuel : nat) (block_idx : Z) : M D (list Z) :=
  match fuel with
  | O => fail NoFuel
  | S fuel =>
    _ ← set_block 512 1;
    _ ← sd_cmd (Z.lor READ_SINGLE_BLOCK SDHOST_READ) block_idx;
    ws ← read_words 128;
    ok ← transfer_ok;
    if ok : bool then mret ws else readblock_loop fuel block_idx
  end.
(** The words the buffer holds in the end. *)
(* [src/src/sd.c:251-275 readblock] *)
Definition readblock (fuel : nat) (is_hcs block_idx : Z) : M D (list Z) :=
  ws ← readblock_loop fuel (card_address is_hcs block_idx);
  _ ← wait_finish fuel;
  mret ws.

(* [src/src/sd.c:284-299 writeblock] *)
Fixpoint writeblock_loop (fuel : nat) (block_idx : Z) (buf : list Z) : M D unit :=
  match fuel with
  | O => fail NoFuel
  | S fuel =>
    _ ← set_block 512 1;
    _ ← sd_cmd (Z.lor WRITE_SINGLE_BLOCK SDHOST_WRITE) block_idx;
    _ ← write_words 128 buf 0;
    ok ← transfer_ok;
    if ok : bool then mret tt else writeblock_loop fuel block_idx buf
  end.
(* [src/src/sd.c:277-301 writeblock] *)
Definition writeblock (fuel : nat) (is_hcs block_idx : Z) (buf : list Z) : M D unit :=
  _ ← writeblock_loop fuel (card_address is_hcs block_idx) buf;
  wait_finish fuel.
End Driver.
