(* ===== verification/SdSpec.v ===== *)
(** The SD card driver against what the host controller and the card promise: reading a block
    gives its contents, writing one changes it and nothing else, whatever the number of
    transfers that fail first; and so the driver refines the blocks the FAT32 code is
    modelled on. *)
From S2P Require Import Prelude Memblock Mmio SdCard FsData Fat32.

(** * What the controller promises *)

Section Contract.
Context {D : Type} `{!Device D}.
Implicit Types (d : D) (c : gmap Z (list Z)).

Definition command (cmd arg : Z) (d : D) : D :=
  dev_write SDHOST_CMD (u32 (Z.lor cmd SDHOST_NEW_CMD)) (dev_write SDHOST_ARG (u32 arg) d).

(** The command is taken before the driver stops waiting for it. *)
Definition taken (d d' : D) : Prop := polls (pred LIMIT) SDHOST_CMD (fun v => Z.land v SDHOST_NEW_CMD =? 0) d = Some d'.

(** The data register can be used before the driver stops waiting for it. *)
Definition data_ready (d d' : D) : Prop :=
  polls (pred LIMIT) SDHOST_HSTS (fun v => negb (Z.land v SDHOST_HSTS_DATA =? 0)) d = Some d'.

(** The words come out of the data register, and go into it, one by one. *)
Fixpoint gives (ws : list Z) (d d' : D) : Prop :=
  match ws with
  | [] => d' = d
  | w :: ws => exists d1, data_ready d d1 /\ u32 (dev_read SDHOST_DATA d1).1 = w /\ gives ws (dev_read SDHOST_DATA d1).2 d'
  end.
Fixpoint takes (ws : list Z) (d d' : D) : Prop :=
  match ws with
  | [] => d' = d
  | w :: ws => exists d1, data_ready d d1 /\ takes ws (dev_write SDHOST_DATA (u32 w) d1) d'
  end.

Definition failed (d : D) : Prop := Z.land (u32 (dev_read SDHOST_HSTS d).1) SDHOST_HSTS_ERR_MASK <> 0.
Definition after_status (d : D) : D := (dev_read SDHOST_HSTS d).2.

(** The controller after the errors were cleared and the transfer was stopped. *)
Definition stopped (d d' : D) : Prop :=
  taken (command (Z.lor STOP_TRANSMISSION SDHOST_BUSY) 0 (dev_write SDHOST_HSTS (u32 SDHOST_HSTS_ERR_MASK) (after_status d))) d'.

Definition ready_for (cmd arg : Z) (d d' : D) : Prop :=
  taken (command cmd arg (dev_write SDHOST_CNT (u32 1) (dev_write SDHOST_SIZE (u32 512) d))) d'.

Definition is_word (w : Z) : Prop := 0 <= w < 2 ^ 32.
Definition block_ok (ws : list Z) : Prop := length ws = 128%nat /\ Forall is_word ws.
End Contract.

(** A controller with a card.  [idle c f d]: the contents of the card are [c], at most [f]
    transfers are going to fail, and the controller waits for a command.  [sdhc] says
    whether the card is addressed by blocks or by bytes, [settle] bounds the time a
    transfer takes to finish. *)
Class SdHost (D : Type) `{!Device D} := {
  sdhc : bool;
  settle : nat;
  idle : gmap Z (list Z) -> nat -> D -> Prop;
  finished (c : gmap Z (list Z)) (f : nat) (d : D) : Prop :=
    exists d', polls settle SDHOST_DBG (fun v => Z.land v SDHOST_DBG_FSM_MASK =? SDHOST_HSTS_DATA) d = Some d' /\ idle c f d';
  idle_blocks : forall c f d b ws, idle c f d -> c !! b = Some ws -> block_ok ws;
  host_read : forall c f d b ws, idle c f d -> c !! b = Some ws -> 0 <= b < 2 ^ 22 ->
    exists d1 got d2, ready_for (Z.lor READ_SINGLE_BLOCK SDHOST_READ) (if sdhc then b else 512 * b) d d1 /\
      gives got d1 d2 /\ length got = 128%nat /\
      ((~ failed d2 /\ got = ws /\ finished c f (after_status d2)) \/
       (failed d2 /\ exists f' d3, f = S f' /\ stopped d2 d3 /\ idle c f' d3));
  host_write : forall c f d b old ws, idle c f d -> c !! b = Some old -> 0 <= b < 2 ^ 22 -> block_ok ws ->
    exists d1 d2, ready_for (Z.lor WRITE_SINGLE_BLOCK SDHOST_WRITE) (if sdhc then b else 512 * b) d d1 /\ takes ws d1 d2 /\
      ((~ failed d2 /\ finished (<[b := ws]> c) f (after_status d2)) \/
       (failed d2 /\ exists f' d3 part, f = S f' /\ stopped d2 d3 /\ idle (<[b := part]> c) f' d3))
}.

(** * The driver *)

Section Driver.
Context {D : Type} `{HD : !Device D} `{!SdHost D}.
Implicit Types (d : D) (c : gmap Z (list Z)).

Lemma set_reg_ok a v d : set_reg a v d = Ok (tt, dev_write a (u32 v) d).
Proof using Type. done. Qed.

Lemma wait_sd_ok n d d' :
  polls n SDHOST_CMD (fun v => Z.land v SDHOST_NEW_CMD =? 0) d = Some d' -> wait_sd_loop (S n) d = Ok (0, d').
Proof using Type.
  revert d. induction n as [|n IH]; intros d E; cbn [polls] in E; change (wait_sd_loop (S ?k)) with
    (cmd ← get_reg SDHOST_CMD; if Z.land cmd SDHOST_NEW_CMD =? 0 then mret 0 else wait_sd_loop (D := D) k);
    run (get_reg_ok SDHOST_CMD d); destruct (Z.land _ _ =? 0); [by simplify_eq|done|by simplify_eq|by apply IH].
Qed.

Lemma wait_fifo_ok n d d' :
  polls n SDHOST_HSTS (fun v => negb (Z.land v SDHOST_HSTS_DATA =? 0)) d = Some d' -> wait_fifo_loop (S n) d = Ok (0, d').
Proof using Type.
  revert d. induction n as [|n IH]; intros d E; cbn [polls] in E; change (wait_fifo_loop (S ?k)) with
    (hsts ← get_reg SDHOST_HSTS; if negb (Z.land hsts SDHOST_HSTS_DATA =? 0) then mret 0 else wait_fifo_loop (D := D) k);
    run (get_reg_ok SDHOST_HSTS d); destruct (Z.land _ _ =? 0); cbn [negb] in *; [done|by simplify_eq|by apply IH|by simplify_eq].
Qed.

Lemma limit_eq : LIMIT = S (pred LIMIT).
Proof using Type. unfold LIMIT. lia. Qed.

Lemma sd_cmd_ok cmd arg d d' : taken (command cmd arg d) d' -> sd_cmd cmd arg d = Ok (0, d').
Proof using Type.
  intros H. unfold sd_cmd. run (set_reg_ok SDHOST_ARG arg d). run (set_reg_ok SDHOST_CMD (Z.lor cmd SDHOST_NEW_CMD) (dev_write SDHOST_ARG (u32 arg) d)).
  unfold wait_sd. rewrite limit_eq. by apply wait_sd_ok.
Qed.

Lemma fifo_ok d d' : data_ready d d' -> wait_fifo d = Ok (0, d').
Proof using Type. intros H. unfold wait_fifo. rewrite limit_eq. by apply wait_fifo_ok. Qed.

Lemma read_words_ok ws : forall d d', gives ws d d' -> read_words (length ws) d = Ok (ws, d').
Proof using Type.
  induction ws as [|w ws IH]; intros d d' H; cbn [gives length read_words] in *; [by subst|].
  destruct H as (d1 & H1 & Hw & H2). run (fifo_ok d d1 H1). run (get_reg_ok SDHOST_DATA d1). run (IH _ _ H2). by rewrite Hw.
Qed.

Lemma write_words_ok ws : forall pre d d', takes ws d d' ->
  write_words (length ws) (pre ++ ws) (Z.of_nat (length pre)) d = Ok (tt, d').
Proof using Type.
  induction ws as [|w ws IH]; intros pre d d' H; cbn [takes length write_words] in *; [by subst|].
  destruct H as (d1 & H1 & H2). run (fifo_ok d d1 H1). rewrite (zget_app_mid pre ws w) by done.
  rewrite (bind_ok _ (lift_opt OutOfBounds (Some w)) d1 w d1) by done.
  run (set_reg_ok SDHOST_DATA w d1). specialize (IH (pre ++ [w]) _ _ H2). rewrite <-app_assoc in IH.
  rewrite <-IH. f_equal. rewrite length_app. cbn. lia.
Qed.

(** The end of a transfer, in the two cases. *)
Lemma transfer_good d : ~ failed d -> transfer_ok d = Ok (true, after_status d).
Proof using Type.
  intros H. unfold transfer_ok. run (get_reg_ok SDHOST_HSTS d). unfold failed in H.
  by destruct (Z.eqb_spec (Z.land (u32 (dev_read SDHOST_HSTS d).1) SDHOST_HSTS_ERR_MASK) 0).
Qed.
Lemma transfer_bad d d' : failed d -> stopped d d' -> transfer_ok d = Ok (false, d').
Proof using Type.
  intros H Hs. unfold transfer_ok. run (get_reg_ok SDHOST_HSTS d). unfold failed in H.
  destruct (Z.eqb_spec (Z.land (u32 (dev_read SDHOST_HSTS d).1) SDHOST_HSTS_ERR_MASK) 0); [done|]. cbn [negb].
  run (set_reg_ok SDHOST_HSTS SDHOST_HSTS_ERR_MASK (after_status d)). by run (sd_cmd_ok _ _ _ d' Hs).
Qed.

Lemma start_ok cmd arg d d' : ready_for cmd arg d d' ->
  exists d0, set_block 512 1 d = Ok (tt, d0) /\ sd_cmd cmd arg d0 = Ok (0, d').
Proof using Type. intros H. eexists. split; [reflexivity|]. by apply sd_cmd_ok. Qed.

Lemma finish_ok c f d : finished c f d -> forall fuel, (settle < fuel)%nat ->
  exists d', wait_finish fuel d = Ok (tt, d') /\ idle c f d'.
Proof using Type.
  intros (d' & E & Hi) fuel Hn. exists d'. split; [|done]. clear Hi. revert Hn E. generalize settle as n. intros n.
  revert d fuel. induction n as [|n IH]; intros d [|fuel] Hn E; try lia; cbn [polls wait_finish] in *;
    run (get_reg_ok SDHOST_DBG d); destruct (Z.land _ _ =? _); try (by simplify_eq). apply IH; [lia|done].
Qed.

Lemma address_ok is_hcs b : 0 <= b < 2 ^ 22 -> (is_hcs <> 0 <-> sdhc = true) -> card_address is_hcs b = if sdhc then b else 512 * b.
Proof using Type.
  intros Hb Hh. unfold card_address. destruct (Z.eqb_spec is_hcs 0) as [->|E].
  - destruct sdhc; [by apply Hh in E || (exfalso; by apply (proj2 Hh))|]. rewrite Z.shiftl_mul_pow2, s32_small by lia. lia.
  - by rewrite (proj1 Hh E).
Qed.

Lemma read_loop_ok c b ws : forall f fuel d,
  idle c f d -> c !! b = Some ws -> 0 <= b < 2 ^ 22 -> (f < fuel)%nat ->
  exists d' f', readblock_loop fuel (if sdhc then b else 512 * b) d = Ok (ws, d') /\ (f' <= f)%nat /\ finished c f' d'.
Proof using Type.
  induction f as [f IH] using lt_wf_ind. intros [|fuel] d Hi Hc Hb Hf; [lia|].
  destruct (host_read c f d b ws Hi Hc Hb) as (d1 & got & d2 & Hr & Hg & Hl & Hend). cbn [readblock_loop].
  destruct (start_ok _ _ _ _ Hr) as (d0 & E0 & E1). run E0. run E1. rewrite <-Hl. run (read_words_ok got d1 d2 Hg).
  destruct Hend as [(Hok & -> & Hfin)|(Hbad & f' & d3 & -> & Hs & Hi')].
  - run (transfer_good d2 Hok). eexists _, f. split; [reflexivity|]. split; [lia|exact Hfin].
  - run (transfer_bad d2 d3 Hbad Hs). destruct (IH f' ltac:(lia) fuel d3 Hi' Hc Hb ltac:(lia)) as (d' & f2 & E & Hle & Hfin).
    exists d', f2. split; [exact E|]. split; [lia|exact Hfin].
Qed.

Lemma write_loop_ok b ws : block_ok ws -> forall f fuel c d old,
  idle c f d -> c !! b = Some old -> 0 <= b < 2 ^ 22 -> (f < fuel)%nat ->
  exists d' f', writeblock_loop fuel (if sdhc then b else 512 * b) ws d = Ok (tt, d') /\ (f' <= f)%nat /\ finished (<[b := ws]> c) f' d'.
Proof using Type.
  intros Hw f. induction f as [f IH] using lt_wf_ind. intros [|fuel] c d old Hi Hc Hb Hf; [lia|].
  destruct (host_write c f d b old ws Hi Hc Hb Hw) as (d1 & d2 & Hr & Ht & Hend). cbn [writeblock_loop].
  destruct (start_ok _ _ _ _ Hr) as (d0 & E0 & E1). run E0. run E1. destruct Hw as [Hl Hww]. rewrite <-Hl.
  run (write_words_ok ws [] d1 d2 Ht).
  destruct Hend as [(Hok & Hfin)|(Hbad & f' & d3 & part & -> & Hs & Hi')].
  - run (transfer_good d2 Hok). eexists _, f. split; [reflexivity|]. split; [lia|exact Hfin].
  - run (transfer_bad d2 d3 Hbad Hs).
    destruct (IH f' ltac:(lia) fuel (<[b := part]> c) d3 part Hi' (lookup_insert_eq _ _ _) Hb ltac:(lia)) as (d' & f2 & E & Hle & Hfin).
    rewrite insert_insert_eq in Hfin. exists d', f2. split; [exact E|]. split; [lia|exact Hfin].
Qed.

Lemma readblock_ok c f d b ws is_hcs fuel :
  idle c f d -> c !! b = Some ws -> 0 <= b < 2 ^ 22 -> (is_hcs <> 0 <-> sdhc = true) -> (f < fuel)%nat -> (settle < fuel)%nat ->
  exists d' f', SdCard.readblock fuel is_hcs b d = Ok (ws, d') /\ (f' <= f)%nat /\ idle c f' d'.
Proof using Type.
  intros Hi Hc Hb Hh Hf Hs. unfold SdCard.readblock. rewrite (address_ok is_hcs b Hb Hh).
  destruct (read_loop_ok c b ws f fuel d Hi Hc Hb Hf) as (d1 & f' & E & Hle & Hfin). run E.
  destruct (finish_ok c f' d1 Hfin fuel Hs) as (d2 & E2 & Hi2). run E2. by exists d2, f'.
Qed.

Lemma writeblock_ok c f d b old ws is_hcs fuel :
  idle c f d -> c !! b = Some old -> 0 <= b < 2 ^ 22 -> block_ok ws -> (is_hcs <> 0 <-> sdhc = true) -> (f < fuel)%nat ->
  (settle < fuel)%nat ->
  exists d' f', SdCard.writeblock fuel is_hcs b ws d = Ok (tt, d') /\ (f' <= f)%nat /\ idle (<[b := ws]> c) f' d'.
Proof using Type.
  intros Hi Hc Hb Hw Hh Hf Hs. unfold SdCard.writeblock. rewrite (address_ok is_hcs b Hb Hh).
  destruct (write_loop_ok b ws Hw f fuel c d old Hi Hc Hb Hf) as (d1 & f' & E & Hle & Hfin). run E.
  destruct (finish_ok _ f' d1 Hfin fuel Hs) as (d2 & E2 & Hi2). by exists d2, f'.
Qed.
End Driver.

(** * The blocks of the FAT32 model *)

(** The bytes of a buffer of words, and the words of a buffer of bytes. *)
Definition to_bytes (ws : list Z) : list Z := flat_map (le_bytes 4) ws.
Fixpoint to_words (n : nat) (l : list Z) : list Z :=
  match n with O => [] | S n => default 0 (le 4 l) :: to_words n (drop 4 l) end.

(** The blocks on the card are those of the file system's model, byte for byte. *)
Definition same_blocks (c : gmap Z (list Z)) (s : fs_state) : Prop := sd s = to_bytes <$> c.

Lemma byte_split b v : 0 <= b < 256 -> u8 (b + 256 * v) = b /\ (b + 256 * v) / 256 = v.
Proof.
  intros Hb. unfold u8. change (2 ^ 8) with 256. split; [symmetry; apply Z.mod_unique with v; lia|].
  symmetry. apply Z.div_unique with b; lia.
Qed.

Lemma words_bytes n : forall l, (4 * n <= length l)%nat -> Forall (fun b => 0 <= b < 256) l ->
  to_bytes (to_words n l) = take (4 * n) l /\ length (to_words n l) = n /\ Forall is_word (to_words n l).
Proof.
  induction n as [|n IH]; intros l Hl Hb; [done|].
  destruct l as [|b0 [|b1 [|b2 [|b3 l]]]]; cbn [length] in Hl; try lia.
  apply Forall_cons in Hb as [H0 Hb]. apply Forall_cons in Hb as [H1 Hb]. apply Forall_cons in Hb as [H2 Hb]. apply Forall_cons in Hb as [H3 Hb].
  destruct (IH l ltac:(lia) Hb) as (E & El & Hw). cbn [to_words]. change (drop 4 (b0 :: b1 :: b2 :: b3 :: l)) with l. set (w := default 0 _).
  assert (Ew : w = b0 + 256 * (b1 + 256 * (b2 + 256 * (b3 + 256 * 0)))) by done.
  split_and!; [|cbn [length]; lia|].
  - unfold to_bytes in *. cbn [flat_map]. rewrite E, Ew. cbn [le_bytes].
    destruct (byte_split b0 (b1 + 256 * (b2 + 256 * (b3 + 256 * 0))) H0) as [-> ->].
    destruct (byte_split b1 (b2 + 256 * (b3 + 256 * 0)) H1) as [-> ->]. destruct (byte_split b2 (b3 + 256 * 0) H2) as [-> ->].
    destruct (byte_split b3 0 H3) as [-> _]. by replace (4 * S n)%nat with (S (S (S (S (4 * n))))) by lia.
  - constructor; [|done]. unfold is_word. lia.
Qed.

(** A sequence of block operations, as the file system makes them. *)
Inductive block_op := ReadBlock (b : Z) | WriteBlock (b : Z) (bytes : list Z).

Definition op_ok (o : block_op) : Prop :=
  match o with
  | ReadBlock b => 0 <= b < 2 ^ 22
  | WriteBlock b l => 0 <= b < 2 ^ 22 /\ (512 <= length l)%nat /\ Forall (fun b => 0 <= b < 256) l
  end.

(** The operations on the blocks of the model, and what they read. *)
Fixpoint model_run (ops : list block_op) : M fs_state (list (list Z)) :=
  match ops with
  | [] => mret []
  | ReadBlock b :: ops => l ← Fat32.readblock b; r ← model_run ops; mret (l :: r)
  | WriteBlock b l :: ops => _ ← Fat32.writeblock b l; model_run ops
  end.

Section Refinement.
Context {D : Type} `{HD : !Device D} `{!SdHost D}.

(** The operations by the driver. *)
Fixpoint driver_run (fuel : nat) (is_hcs : Z) (ops : list block_op) : M D (list (list Z)) :=
  match ops with
  | [] => mret []
  | ReadBlock b :: ops => ws ← SdCard.readblock fuel is_hcs b; r ← driver_run fuel is_hcs ops; mret (to_bytes ws :: r)
  | WriteBlock b l :: ops => _ ← SdCard.writeblock fuel is_hcs b (to_words 128 l); driver_run fuel is_hcs ops
  end.

Lemma refines_ok fuel is_hcs ops : forall c f (d : D) s outs s',
  idle c f d -> same_blocks c s -> (is_hcs <> 0 <-> sdhc = true) -> (f < fuel)%nat -> (settle < fuel)%nat ->
  Forall op_ok ops -> model_run ops s = Ok (outs, s') ->
  exists c' f' d', driver_run fuel is_hcs ops d = Ok (outs, d') /\ idle c' f' d' /\ same_blocks c' s'.
Proof using Type.
  induction ops as [|o ops IH]; intros c f d s outs s' Hi Hs Hh Hf Hset Hops E; cbn [model_run driver_run] in *.
  { injection E as <- <-. by exists c, f, d. }
  apply Forall_cons in Hops as [Ho Hops]. destruct o as [b|b l]; cbn [op_ok] in Ho.
  - inv_step E as l s1 E1. inv_step E as r s2 E2. injection E as <- <-. unfold Fat32.readblock in E1. rewrite s32_small in E1 by lia.
    unfold same_blocks in Hs. rewrite Hs, lookup_fmap in E1. destruct (c !! b) as [ws|] eqn:Ec; [|done]. injection E1 as <- <-.
    destruct (readblock_ok c f d b ws is_hcs fuel Hi Ec Ho Hh Hf Hset) as (d1 & f1 & E1 & Hle & Hi1). run E1.
    destruct (IH c f1 d1 s r s2 Hi1 Hs Hh ltac:(lia) Hset Hops E2) as (c' & f' & d' & Er & Hi' & Hs'). run Er. by exists c', f', d'.
  - destruct Ho as (Hb & Hl & Hby). inv_step E as u s1 E1. unfold Fat32.writeblock in E1. rewrite s32_small in E1 by lia.
    unfold same_blocks in Hs. rewrite Hs, lookup_fmap in E1. destruct (c !! b) as [ws|] eqn:Ec; [|done]. injection E1 as <- <-.
    destruct (words_bytes 128 l ltac:(lia) Hby) as (Eb & Elen & Hw).
    destruct (writeblock_ok c f d b ws (to_words 128 l) is_hcs fuel Hi Ec Hb (conj Elen Hw) Hh Hf Hset) as (d1 & f1 & E1 & Hle & Hi1). run E1.
    apply (IH _ f1 d1 _ outs s' Hi1) in E; [exact E| |done|lia|done|done].
    unfold same_blocks. rewrite fmap_insert, Eb. by rewrite <-Hs.
Qed.

(** C37. The driver implements the blocks the FAT32 code is modelled on: whatever sequence of
    reads and writes of blocks the model performs, the driver performs it too, with the
    same bytes read, and leaves the same blocks on the card, although the controller
    answers only after a while and transfers fail and are made again. *)
Theorem sd_refines fuel is_hcs ops c f (d : D) s outs s' :
  idle c f d -> same_blocks c s -> (is_hcs <> 0 <-> sdhc = true) -> (f < fuel)%nat -> (settle < fuel)%nat ->
  Forall op_ok ops -> model_run ops s = Ok (outs, s') ->
  exists c' f' d', driver_run fuel is_hcs ops d = Ok (outs, d') /\ idle c' f' d' /\ same_blocks c' s'.
Proof using Type. apply refines_ok. Qed.
End Refinement.

(** * A controller *)

(** Every second read of the status says the data is not there yet, and the first
    [sim_fail] transfers fail. *)
Record sim := Sim {
  sim_card : gmap Z (list Z);
  sim_fail : nat;
  sim_arg : Z;
  sim_out : list Z;
  sim_in : option (Z * list Z);
  sim_late : bool
}.

Definition sim_read (a : Z) (d : sim) : Z * sim :=
  if a =? SDHOST_HSTS then
    match sim_out d, sim_in d with
    | [], None => (if decide (sim_fail d = 0%nat) then 0 else 8, d)
    | _, _ => (if sim_late d then 1 else 0, Sim (sim_card d) (sim_fail d) (sim_arg d) (sim_out d) (sim_in d) (negb (sim_late d)))
    end
  else if a =? SDHOST_DATA then
    match sim_out d with
    | w :: ws => (w, Sim (sim_card d) (sim_fail d) (sim_arg d) ws (sim_in d) (sim_late d))
    | [] => (0, d)
    end
  else if a =? SDHOST_DBG then (1, d)
  else (0, d).

Definition sim_write (a v : Z) (d : sim) : sim :=
  if a =? SDHOST_ARG then Sim (sim_card d) (sim_fail d) v (sim_out d) (sim_in d) (sim_late d)
  else if a =? SDHOST_HSTS then Sim (sim_card d) (pred (sim_fail d)) (sim_arg d) (sim_out d) (sim_in d) (sim_late d)
  else if a =? SDHOST_CMD then
    if v =? 0x8051 then Sim (sim_card d) (sim_fail d) (sim_arg d) (default [] (sim_card d !! sim_arg d)) None (sim_late d)
    else if v =? 0x8098 then Sim (sim_card d) (sim_fail d) (sim_arg d) [] (Some (sim_arg d, [])) (sim_late d)
    else d
  else if a =? SDHOST_DATA then
    match sim_in d with
    | Some (b, l) =>
      if decide (length l = 127%nat) then
        Sim (if decide (sim_fail d = 0%nat) then <[b := l ++ [v]]> (sim_card d) else sim_card d) (sim_fail d) (sim_arg d) [] None (sim_late d)
      else Sim (sim_card d) (sim_fail d) (sim_arg d) [] (Some (b, l ++ [v])) (sim_late d)
    | None => d
    end
  else d.

#[global] Instance sim_device : Device sim := {| dev_read := sim_read; dev_write := sim_write |}.

Definition sim_idle (c : gmap Z (list Z)) (f : nat) (d : sim) : Prop :=
  sim_card d = c /\ sim_fail d = f /\ sim_out d = [] /\ sim_in d = None /\ forall b ws, c !! b = Some ws -> block_ok ws.

Lemma limit_pos : exists n, pred LIMIT = S n.
Proof. exists (pred (pred LIMIT)). unfold LIMIT. lia. Qed.

Definition next_late (d : sim) : sim := Sim (sim_card d) (sim_fail d) (sim_arg d) (sim_out d) (sim_in d) false.

Lemma sim_ready d : sim_out d <> [] \/ sim_in d <> None -> data_ready d (next_late d).
Proof.
  intros H. unfold data_ready. destruct limit_pos as [n ->].
  assert (E : forall d, sim_out d <> [] \/ sim_in d <> None -> dev_read SDHOST_HSTS d =
    (if sim_late d then 1 else 0, Sim (sim_card d) (sim_fail d) (sim_arg d) (sim_out d) (sim_in d) (negb (sim_late d)))).
  { intros x Hx. change (dev_read SDHOST_HSTS x) with (sim_read SDHOST_HSTS x). unfold sim_read. rewrite Z.eqb_refl.
    destruct (sim_out x), (sim_in x); try done. naive_solver. }
  destruct d as [c f a o i []]; cbn [polls]; rewrite (E _ H); [done|]. cbn [fst snd sim_late]. change (u32 0) with 0.
  cbn [Z.land Z.eqb negb]. destruct n; cbn [polls]; by rewrite E.
Qed.

Lemma sim_gives ws : forall c f a late, Forall is_word ws ->
  exists late', gives ws (Sim c f a ws None late) (Sim c f a [] None late').
Proof.
  induction ws as [|w ws IH]; intros c f a late Hw; [by exists late|]. apply Forall_cons in Hw as [Hw Hws].
  destruct (IH c f a false Hws) as [late' H]. exists late'. cbn [gives].
  exists (next_late (Sim c f a (w :: ws) None late)). split; [apply sim_ready; by left|]. split; [by apply u32_small|exact H].
Qed.

Lemma sim_takes ws : forall c f a b l late, Forall is_word ws -> (length l + length ws = 128)%nat -> ws <> [] ->
  exists late', takes ws (Sim c f a [] (Some (b, l)) late)
    (Sim (if decide (f = 0%nat) then <[b := l ++ ws]> c else c) f a [] None late').
Proof.
  induction ws as [|w ws IH]; intros c f a b l late Hw Hl Hne; [done|]. apply Forall_cons in Hw as [Hw Hws]. cbn [takes length] in *.
  assert (Ew : forall d, d = Sim c f a [] (Some (b, l)) false -> dev_write SDHOST_DATA (u32 w) d =
    if decide (length l = 127%nat) then Sim (if decide (f = 0%nat) then <[b := l ++ [w]]> c else c) f a [] None false
    else Sim c f a [] (Some (b, l ++ [w])) false) by (intros d ->; by rewrite u32_small).
  destruct (decide (ws = [])) as [->|Hws0].
  - exists false, (Sim c f a [] (Some (b, l)) false). split; [apply (sim_ready (Sim c f a [] (Some (b, l)) late)); by right|].
    rewrite (Ew _ eq_refl), decide_True by (cbn in Hl; lia). done.
  - assert (Hpos : (0 < length ws)%nat) by (destruct ws; [done|cbn; lia]).
    destruct (IH c f a b (l ++ [w]) false Hws) as [late' H]; [rewrite length_app; cbn; lia|done|].
    exists late', (Sim c f a [] (Some (b, l)) false). split; [apply (sim_ready (Sim c f a [] (Some (b, l)) late)); by right|].
    rewrite (Ew _ eq_refl), decide_False by lia. by rewrite <-app_assoc in H.
Qed.

#[global] Program Instance sim_host : SdHost sim := {| sdhc := true; settle := 0; idle := sim_idle |}.
Next Obligation. intros c f d b ws (_ & _ & _ & _ & H) Hc. by apply (H b). Qed.
Next Obligation.
  intros c f [c0 f0 a o i late] b ws (E1 & E2 & E3 & E4 & Hok) Hc Hb. cbn in E1, E2, E3, E4. subst c0 f0 o i.
  destruct (Hok b ws Hc) as [Hl Hw]. destruct (sim_gives ws c f b late Hw) as [late' Hg].
  exists (Sim c f b ws None late), ws, (Sim c f b [] None late'). split; [|split; [exact Hg|split; [exact Hl|]]].
  - unfold ready_for, taken, command. destruct limit_pos as [n ->]. cbn [polls].
    change (dev_write SDHOST_ARG (u32 b) _) with (Sim c f (u32 b) [] None late). rewrite (u32_small b) by lia.
    change (dev_write SDHOST_CMD _ (Sim c f b [] None late)) with (Sim c f b (default [] (c !! b)) None late). by rewrite Hc.
  - destruct f as [|f]; [left|right].
    + split; [by intros H|]. split; [done|]. exists (Sim c 0 b [] None late'). done.
    + split; [done|]. exists f, (Sim c f 0 [] None late'). split; [done|]. split; [|done].
      unfold stopped, taken. destruct limit_pos as [n ->]. done.
Qed.
Next Obligation.
  intros c f [c0 f0 a o i late] b old ws (E1 & E2 & E3 & E4 & Hok) Hc Hb [Hl Hw]. cbn in E1, E2, E3, E4. subst c0 f0 o i.
  assert (Hne : ws <> []) by (intros ->; discriminate).
  destruct (sim_takes ws c f b b [] late Hw ltac:(cbn; lia) Hne) as [late' Ht].
  exists (Sim c f b [] (Some (b, [])) late), (Sim (if decide (f = 0%nat) then <[b := ws]> c else c) f b [] None late').
  split; [|split; [exact Ht|]].
  - unfold ready_for, taken, command. destruct limit_pos as [n ->]. cbn [polls].
    change (dev_write SDHOST_ARG (u32 b) _) with (Sim c f (u32 b) [] None late). rewrite (u32_small b) by lia. reflexivity.
  - destruct f as [|f]; [left|right].
    + split; [by intros H|]. exists (Sim (<[b := ws]> c) 0 b [] None late'). split; [done|]. split_and!; try done.
      intros b' ws' [[<- <-]|[_ Hb']]%lookup_insert_Some; [by split|by apply (Hok b')].
    + split; [done|]. exists f, (Sim c f 0 [] None late'), old. split; [done|]. split.
      * unfold stopped, taken. destruct limit_pos as [n ->]. done.
      * by rewrite (insert_id c b old Hc).
Qed.

(** Two blocks, the first transfer fails: block 7 is written and both are read. *)
Definition ex_card : gmap Z (list Z) := {[7 := replicate 128 0; 9 := replicate 128 1]}.
Definition ex_fs : fs_state :=
  FsState ∅ ∅ ∅ ∅ ∅ ∅ 1 [] 0 (0, 0) (FatInfo 0 0 0 0 0 0 0) [] [] (to_bytes <$> ex_card).
Definition ex_ops : list block_op := [WriteBlock 7 (replicate 512 66); ReadBlock 7; ReadBlock 9].

Definition ex_outs : list (list Z) := [replicate 512 66; to_bytes (replicate 128 1)].

Lemma sd_refines_witness :
  exists c' f' d' s', model_run ex_ops ex_fs = Ok (ex_outs, s') /\
    driver_run 2 1 ex_ops (Sim ex_card 1 0 [] None false) = Ok (ex_outs, d') /\ sim_idle c' f' d' /\ same_blocks c' s'.
Proof.
  destruct (model_run ex_ops ex_fs) as [[outs s']|] eqn:E; [|vm_compute in E; discriminate].
  assert (Hout : outs = ex_outs) by (vm_compute in E; injection E as <- <-; by vm_compute). subst outs.
  destruct (sd_refines 2 1 ex_ops ex_card 1 (Sim ex_card 1 0 [] None false) ex_fs ex_outs s') as (c' & f' & d' & Er & Hi & Hs);
    [|reflexivity|split; [reflexivity|lia]|lia|cbn; lia| |exact E|].
  - split; [reflexivity|]. split; [reflexivity|]. split; [reflexivity|]. split; [reflexivity|]. intros b ws H. unfold ex_card in H.
    apply lookup_insert_Some in H as [[<- <-]|[_ [<- <-]%lookup_singleton_Some]];
      (split; [done|apply Forall_replicate; unfold is_word; lia]).
  - repeat apply Forall_cons_2; [| | |apply Forall_nil_2]; cbn [op_ok]; try lia.
    split; [lia|]. split; [rewrite length_replicate; lia|apply Forall_replicate; lia].
  - exists c', f', d', s'. split; [reflexivity|]. split; [exact Er|]. split; [exact Hi|exact Hs].
Defined.
