(* ===== verification/Devices.v ===== *)
(** The smaller drivers: the mailbox ([src/src/mbox.c]), the timers a program waits with
    ([src/src/delays.c]), power management ([src/src/power.c]) and the setting up of the
    UART ([src/src/uart.c]).

    The message of the mailbox is in memory the graphics processor writes too: it is read
    and written like a register.  [mbox] is its address.  Loops of [nop]s are left out. *)
From Stdlib Require Import Ascii String.
From S2P Require Import Prelude Memblock CString Console Mmio.

(** * Registers *)

(* [src/src/mbox.c:32-32 VIDEOCORE_MBOX] *)
Definition VIDEOCORE_MBOX : Z := MMIO_BASE + 0xB880.
(* [src/src/mbox.c:33-33 MBOX_READ] *)
Definition MBOX_READ : Z := VIDEOCORE_MBOX.
(* [src/src/mbox.c:36-36 MBOX_STATUS] *)
Definition MBOX_STATUS : Z := VIDEOCORE_MBOX + 0x18.
(* [src/src/mbox.c:38-38 MBOX_WRITE] *)
Definition MBOX_WRITE : Z := VIDEOCORE_MBOX + 0x20.
Definition MBOX_RESPONSE : Z := 0x80000000.
(* [src/src/mbox.c:40-40 MBOX_FULL] *)
Definition MBOX_FULL : Z := 0x80000000.
(* [src/src/mbox.c:41-41 MBOX_EMPTY] *)
Definition MBOX_EMPTY : Z := 0x40000000.
(* [src/src/mbox.c:43-43 GET_BOARD_REVISION] *)
Definition GET_BOARD_REVISION : Z := 0x00010002.
(* [src/src/mbox.c:44-44 GET_ARM_MEMORY] *)
Definition GET_ARM_MEMORY : Z := 0x00010005.
(* [src/include/mbox.h:46-46 MBOX_TAG_SETPOWER] *)
Definition MBOX_TAG_SETPOWER : Z := 0x28001.

(* [src/src/power.c:30-32 PM_RSTC] *)
Definition PM_RSTC : Z := MMIO_BASE + 0x0010001c.
Definition PM_RSTS : Z := MMIO_BASE + 0x00100020.
Definition PM_WDOG : Z := MMIO_BASE + 0x00100024.
(* [src/src/power.c:34-35 PM_WDOG_MAGIC] *)
Definition PM_WDOG_MAGIC : Z := 0x5a000000.
Definition PM_RSTC_FULLRST : Z := 0x00000020.

(* [src/src/delays.c:28-29 SYSTMR_LO] *)
Definition SYSTMR_LO : Z := MMIO_BASE + 0x3004.
Definition SYSTMR_HI : Z := MMIO_BASE + 0x3008.

(** The fields of [gpio_t] and [aux_t] the drivers use. *)
(* [src/include/gpio.h:49-75 gpio_t] *)
Definition GPFSEL (i : Z) : Z := GPIO_BASE + 4 * i.
Definition GPPUD : Z := GPIO_BASE + 0x94.
Definition GPPUDCLK (i : Z) : Z := GPIO_BASE + 0x98 + 4 * i.
(* [src/include/gpio.h:77-91 aux_t] *)
Definition AUX_ENABLES : Z := AUX_BASE + 0x04.
Definition AUX_MU_IER_REG : Z := AUX_BASE + 0x44.
Definition AUX_MU_IIR_REG : Z := AUX_BASE + 0x48.
Definition AUX_MU_LCR_REG : Z := AUX_BASE + 0x4c.
Definition AUX_MU_MCR_REG : Z := AUX_BASE + 0x50.
Definition AUX_MU_CNTL_REG : Z := AUX_BASE + 0x60.
Definition AUX_MU_BAUD_REG : Z := AUX_BASE + 0x68.

Section Drivers.
Context {D : Type} `{!Device D} (mbox : Z).

(** * The mailbox *)

Definition word (i : Z) : Z := mbox + 4 * i.

(** Waiting until none of the bits is set. *)
Fixpoint wait_clear (fuel : nat) (a bits : Z) : M D unit :=
  match fuel with
  | O => fail NoFuel
  | S fuel =>
    v ← get_reg a;
    if Z.land v bits =? 0 then mret tt else wait_clear fuel a bits
  end.

(* [src/src/mbox.c:59-69 __mbox_call] *)
Fixpoint wait_response (fuel : nat) (r : Z) : M D unit :=
  match fuel with
  | O => fail NoFuel
  | S fuel' =>
    _ ← wait_clear fuel MBOX_STATUS MBOX_EMPTY;
    v ← get_reg MBOX_READ;
    if r =? v then mret tt else wait_response fuel' r
  end.

(* [src/src/mbox.c:50-71 __mbox_call] *)
Definition __mbox_call (fuel : nat) (ch : Z) : M D Z :=
  let r := Z.lor (Z.land (u32 mbox) 0xFFFFFFF0) (Z.land ch 0xF) in
  _ ← wait_clear fuel MBOX_STATUS MBOX_FULL;
  _ ← set_reg MBOX_WRITE r;
  _ ← wait_response fuel r;
  v ← get_reg (word 1);
  mret (if v =? MBOX_RESPONSE then 1 else 0).

(* [src/src/mbox.c:76-79 mbox_call] *)
Definition mbox_call (fuel : nat) (ch : Z) : M D Z := __mbox_call fuel ch.

(** Writing the words of a message one after the other. *)
Fixpoint put_message (i : Z) (l : list Z) : M D unit :=
  match l with
  | [] => mret tt
  | w :: l => _ ← set_reg (word i) w; put_message (i + 1) l
  end.

Definition text (s : String.string) (args : list arg) : M D (list Z) :=
  fun d => match printf (replicate 128 0) (chars s ++ [10; 0]) args with Ok r => Ok (r.1, d) | Err f => Err f end.

(** What is printed. *)
(* [src/src/mbox.c:81-95 get_board_revision] *)
Definition get_board_revision (fuel : nat) : M D (list Z) :=
  _ ← put_message 0 [7 * 4; 0; GET_BOARD_REVISION; 4; 0; 0; 0];
  _ ← mbox_call fuel 8;
  v ← get_reg (word 5);
  mret (chars "board revision: 0x" ++ uart_hex v ++ [10]).

(** What is printed; the two words are read again for each line. *)
(* [src/src/mbox.c:97-111 get_memory_info] *)
Definition get_memory_info (fuel : nat) : M D (list Z) :=
  _ ← put_message 0 [8 * 4; 0; GET_ARM_MEMORY; 8; 0; 0; 0; 0];
  _ ← mbox_call fuel 8;
  base ← get_reg (word 5);
  t1 ← text "arm memory base address : 0x%8x" [ArgWord base];
  size ← get_reg (word 6);
  t2 ← text "arm memory base size    :   %8x" [ArgWord size];
  mret (t1 ++ t2).

(** The base and the size of the memory, and what is printed. *)
(* [src/src/mbox.c:113-130 __get_memory_info] *)
Definition __get_memory_info (fuel : nat) : M D (Z * Z * list Z) :=
  _ ← put_message 0 [8 * 4; 0; GET_ARM_MEMORY; 8; 0; 0; 0; 0];
  _ ← mbox_call fuel 8;
  b ← get_reg (word 5);
  t1 ← text "==== init: memory manager ---arm memory base address : 0x%8x" [ArgWord b];
  s ← get_reg (word 6);
  t2 ← text "==== init: memory manager ---arm memory base size    :   %8x" [ArgWord s];
  base ← get_reg (word 5);
  size ← get_reg (word 6);
  mret (base, size, t1 ++ t2).

(** * Power *)

(* [src/src/power.c:45-55 power_off] *)
Fixpoint power_off_devices (fuel n : nat) (r : Z) : M D unit :=
  match n with
  | O => mret tt
  | S n =>
    _ ← put_message 0 [8 * 4; 0; MBOX_TAG_SETPOWER; 8; 8; u32 r; 0; 0];
    _ ← mbox_call fuel 8;
    power_off_devices fuel n (r + 1)
  end.

Fixpoint set_regs (l : list (Z * Z)) : M D unit :=
  match l with
  | [] => mret tt
  | (a, v) :: l => _ ← set_reg a v; set_regs l
  end.

(* [src/src/power.c:40-71 power_off] *)
Definition power_off (fuel : nat) : M D unit :=
  _ ← power_off_devices fuel 16 0;
  _ ← set_regs [(GPFSEL 0, 0); (GPFSEL 1, 0); (GPFSEL 2, 0); (GPFSEL 3, 0); (GPFSEL 4, 0); (GPFSEL 5, 0); (GPPUD, 0);
                (GPPUDCLK 0, 0xffffffff); (GPPUDCLK 1, 0xffffffff); (GPPUDCLK 0, 0); (GPPUDCLK 1, 0)];
  r ← get_reg PM_RSTS;
  let r := Z.land r (u32 (Z.lnot 0xfffffaaa)) in
  let r := Z.lor r 0x555 in
  set_regs [(PM_RSTS, Z.lor PM_WDOG_MAGIC r); (PM_WDOG, Z.lor PM_WDOG_MAGIC 10); (PM_RSTC, Z.lor PM_WDOG_MAGIC PM_RSTC_FULLRST)].

(* [src/src/power.c:76-84 reset] *)
Definition reset : M D unit :=
  r ← get_reg PM_RSTS;
  let r := Z.land r (u32 (Z.lnot 0xfffffaaa)) in
  set_regs [(PM_RSTS, Z.lor PM_WDOG_MAGIC r); (PM_WDOG, Z.lor PM_WDOG_MAGIC 10); (PM_RSTC, Z.lor PM_WDOG_MAGIC PM_RSTC_FULLRST)].

(** * Timers *)

(* [src/src/delays.c:66-79 get_system_timer] *)
Definition get_system_timer : M D Z :=
  h ← get_reg SYSTMR_HI;
  l ← get_reg SYSTMR_LO;
  h' ← get_reg SYSTMR_HI;
  if negb (h =? h') then
    h ← get_reg SYSTMR_HI;
    l ← get_reg SYSTMR_LO;
    mret (Z.lor (u64 (Z.shiftl h 32)) l)
  else mret (Z.lor (u64 (Z.shiftl h 32)) l).

(* [src/src/delays.c:89-89 wait_msec_st] *)
Fixpoint wait_timer (fuel : nat) (t n : Z) : M D unit :=
  match fuel with
  | O => fail NoFuel
  | S fuel =>
    now ← get_system_timer;
    if u64 (now - t) <? n then wait_timer fuel t n else mret tt
  end.
(* [src/src/delays.c:84-90 wait_msec_st] *)
Definition wait_msec_st (fuel : nat) (n : Z) : M D unit :=
  t ← get_system_timer;
  if t =? 0 then mret tt else wait_timer fuel t n.

(** * The UART *)

(* [src/src/uart.c:37-65 uart_init] *)
Definition uart_init : M D unit :=
  _ ← set_regs [(AUX_ENABLES, 1); (AUX_MU_CNTL_REG, 0); (AUX_MU_LCR_REG, 3); (AUX_MU_MCR_REG, 0); (AUX_MU_IER_REG, 0);
                (AUX_MU_IIR_REG, 0xc6); (AUX_MU_BAUD_REG, 270)];
  r ← get_reg (GPFSEL 1);
  let r := Z.land r (u32 (Z.lnot (Z.lor (Z.shiftl 7 12) (Z.shiftl 7 15)))) in
  let r := Z.lor r (Z.lor (Z.shiftl 2 12) (Z.shiftl 2 15)) in
  set_regs [(GPFSEL 1, r); (GPPUD, 0); (GPPUDCLK 0, Z.lor (Z.shiftl 1 14) (Z.shiftl 1 15)); (GPPUDCLK 0, 0); (AUX_MU_CNTL_REG, 3)].
End Drivers.

(** ** The generic timer *)

(** [counter]: what [cntpct_el0] holds at each reading; [f] is its frequency. *)
(* [src/src/delays.c:52-52 wait_msec] *)
Fixpoint wait_counter (counter : list Z) (t i : Z) : res (list Z) :=
  match counter with
  | [] => Err Hang
  | r :: counter => if u64 (r - t) <? i then wait_counter counter t i else Ok counter
  end.
(* [src/src/delays.c:42-53 wait_msec] *)
Definition wait_msec (f n : Z) (counter : list Z) : res (list Z) :=
  match counter with
  | [] => Err Hang
  | t :: counter => wait_counter counter t (u64 (f / 1000 * n) / 1000)
  end.
(* [src/src/delays.c:58-61 wait_sec] *)
Definition wait_sec (f n : Z) (counter : list Z) : res (list Z) := wait_msec f (u32 (n * 1000000)) counter.
