(* ===== verification/DevicesSpec.v ===== *)
(** The system timer read in two halves, and the loop that waits for it. *)
From S2P Require Import Prelude Memblock Mmio Devices.

(** A counter of 64 bits that goes on with every access, by at most [step]: [now d] is the
    count when the state is [d].  The reading of a half takes the count as it is then. *)
Class SystemTimer (D : Type) `{!Device D} := {
  now : D -> Z;
  step : Z;
  step_small : 0 < step < 2 ^ 30;
  now_range : forall d, 0 <= now d;
  read_hi : forall d, u32 (dev_read SYSTMR_HI d).1 = u32 (now d / 2 ^ 32);
  read_lo : forall d, u32 (dev_read SYSTMR_LO d).1 = now d mod 2 ^ 32;
  goes_on : forall a d, now d < now (dev_read a d).2 <= now d + step
}.

Section Timer.
Context {D : Type} `{HD : !Device D} `{!SystemTimer D}.
Implicit Types (d : D).

(** The two halves, put together. *)
Lemma halves h l : 0 <= h < 2 ^ 32 -> 0 <= l < 2 ^ 32 -> Z.lor (u64 (Z.shiftl h 32)) l = h * 2 ^ 32 + l.
Proof using Type.
  intros Hh Hl. rewrite Z.shiftl_mul_pow2 by lia. rewrite u64_small by lia. rewrite Z.lor_comm, lor_shift by lia. lia.
Qed.

(** Two counts with the same upper half, and one between them. *)
Lemma same_half a b c : 0 <= a -> a <= b <= c -> a / 2 ^ 32 = c / 2 ^ 32 -> a / 2 ^ 32 * 2 ^ 32 + b mod 2 ^ 32 = b.
Proof using Type.
  intros Ha Hb E. assert (a / 2 ^ 32 <= b / 2 ^ 32 <= c / 2 ^ 32) by (split; apply Z.div_le_mono; lia).
  pose proof (Z.div_mod b (2 ^ 32) ltac:(lia)). nia.
Qed.

(** A count whose upper half changed is past the carry, but not past the next one. *)
Lemma carry a b x s : 0 <= a -> a < b -> a / 2 ^ 32 <> b / 2 ^ 32 -> b <= x <= a + 4 * s -> 0 < s < 2 ^ 30 ->
  x / 2 ^ 32 = a / 2 ^ 32 + 1.
Proof using Type.
  intros Ha Hab E Hx Hs. assert (Hc : 0 < 2 ^ 32) by lia. assert (Hle : a <= b) by lia.
  pose proof (Z.div_le_mono a b (2 ^ 32) Hc Hle) as Hq.
  pose proof (Z.div_mod a (2 ^ 32) ltac:(lia)) as Da. pose proof (Z.mod_pos_bound a (2 ^ 32) Hc) as Ma.
  pose proof (Z.div_mod b (2 ^ 32) ltac:(lia)) as Db. pose proof (Z.mod_pos_bound b (2 ^ 32) Hc) as Mb.
  symmetry. apply Z.div_unique with (x - (a / 2 ^ 32 + 1) * 2 ^ 32); [left|]; lia.
Qed.

Lemma get_system_timer_ok d : now d < 2 ^ 63 ->
  exists v d', get_system_timer d = Ok (v, d') /\ now d <= v < now d' /\ now d' <= now d + 5 * step.
Proof using Type.
  intros Hn. pose proof step_small as Hs. unfold get_system_timer.
  set (d1 := (dev_read SYSTMR_HI d).2). set (d2 := (dev_read SYSTMR_LO d1).2). set (d3 := (dev_read SYSTMR_HI d2).2).
  set (d4 := (dev_read SYSTMR_HI d3).2). set (d5 := (dev_read SYSTMR_LO d4).2).
  pose proof (now_range d) as H0. pose proof (goes_on SYSTMR_HI d : now d < now d1 <= _) as H1. pose proof (goes_on SYSTMR_LO d1 : now d1 < now d2 <= _) as H2.
  pose proof (goes_on SYSTMR_HI d2 : now d2 < now d3 <= _) as H3. pose proof (goes_on SYSTMR_HI d3 : now d3 < now d4 <= _) as H4. pose proof (goes_on SYSTMR_LO d4 : now d4 < now d5 <= _) as H5.
  run (get_reg_ok SYSTMR_HI d). fold d1. run (get_reg_ok SYSTMR_LO d1). fold d2. run (get_reg_ok SYSTMR_HI d2). fold d3.
  assert (Hq : forall x, 0 <= now x < 2 ^ 64 -> 0 <= now x / 2 ^ 32 < 2 ^ 32).
  { intros x Hx. split; [apply Z.div_pos; lia|apply Z.div_lt_upper_bound; lia]. }
  rewrite (read_hi d), (read_lo d1), (read_hi d2), (u32_small _ (Hq d ltac:(lia))), (u32_small _ (Hq d2 ltac:(lia))).
  assert (Hm : forall x, 0 <= now x mod 2 ^ 32 < 2 ^ 32) by (intros; apply Z.mod_pos_bound; lia).
  destruct (Z.eqb_spec (now d / 2 ^ 32) (now d2 / 2 ^ 32)) as [E|E]; cbn [negb].
  - eexists _, d3. split; [reflexivity|]. rewrite (halves _ _ (Hq d ltac:(lia)) (Hm d1)).
    rewrite (same_half (now d) (now d1) (now d2)) by (done || lia). lia.
  - run (get_reg_ok SYSTMR_HI d3). fold d4. run (get_reg_ok SYSTMR_LO d4). fold d5. rewrite (read_hi d3), (read_lo d4), (u32_small _ (Hq d3 ltac:(lia))).
    eexists _, d5. split; [reflexivity|]. rewrite (halves _ _ (Hq d3 ltac:(lia)) (Hm d4)).
    rewrite (same_half (now d3) (now d4) (now d4)); [lia|lia|lia|].
    rewrite (carry (now d) (now d2) (now d3) step), (carry (now d) (now d2) (now d4) step) by lia. done.
Qed.

(** The loop of [wait_msec_st], started when the count [t] was read. *)
Lemma wait_timer_ok n t : 0 <= t -> 0 <= n -> forall fuel d,
  t <= now d -> t + n + 5 * step < 2 ^ 62 -> t + n - now d < Z.of_nat fuel -> (0 < fuel)%nat -> now d <= t + n + 5 * step ->
  exists d', wait_timer fuel t n d = Ok (tt, d') /\ t + n <= now d'.
Proof using Type.
  intros Ht Hn fuel. induction fuel as [|fuel IH]; intros d Hd Hb Hf Hp Hlt; [lia|]. cbn [wait_timer].
  pose proof step_small as Hs. destruct (get_system_timer_ok d ltac:(lia)) as (v & d' & E & Hv & Hd'). run E.
  rewrite u64_small by lia. destruct (Z.ltb_spec (v - t) n) as [Hl|Hl]; [|exists d'; split; [done|lia]].
  apply IH; lia.
Qed.

(** [wait_msec_st] returns, however the counter wraps around its lower half, and not before
    [n] more than it read first have been counted; a timer that stands at 0, which is what
    an emulator without one shows, is not waited for. *)
Theorem wait_msec_st_spec n d fuel :
  0 <= n < 2 ^ 32 -> 0 < now d < 2 ^ 60 -> n < Z.of_nat fuel ->
  exists d', wait_msec_st fuel n d = Ok (tt, d') /\ now d + n <= now d'.
Proof using Type.
  intros Hn Hd Hf. unfold wait_msec_st. pose proof step_small as Hs.
  destruct (get_system_timer_ok d ltac:(lia)) as (v & d1 & E & Hv & Hd1). run E.
  destruct (Z.eqb_spec v 0); [lia|].
  destruct (wait_timer_ok n v ltac:(lia) ltac:(lia) fuel d1) as (d' & E' & H'); [lia..|]. exists d'. split; [exact E'|lia].
Qed.
End Timer.

(** A counter that counts the accesses. *)
#[global] Instance count_device : Device nat := {|
  dev_read a n := (if a =? SYSTMR_HI then Z.of_nat n / 2 ^ 32 else Z.of_nat n mod 2 ^ 32, S n);
  dev_write _ _ n := n
|}.

#[global] Program Instance count_timer : SystemTimer nat := {| now := Z.of_nat; step := 1 |}.
Next Obligation. lia. Qed.
Next Obligation. intros d. lia. Qed.
Next Obligation. done. Qed.
Next Obligation. intros d. apply u32_small, Z.mod_pos_bound. lia. Qed.
Next Obligation. intros a d. cbn [dev_read count_device snd]. lia. Qed.

Lemma wait_msec_st_spec_witness : exists d', wait_msec_st 11 10 7%nat = Ok (tt, d') /\ now 7%nat + 10 <= now d'.
Proof. apply (wait_msec_st_spec 10 7%nat 11); [lia|cbn; lia|lia]. Defined.
