(* ===== verification/Serial.v ===== *)
(** A serial line behind a status and a data register, and the UART of the kernel on one.

    The class [SerialPort] is what the drivers need of the controller: the bytes on their
    way come out of the data register in order, once the status says so, and what is
    written to it is sent.  A controller that loses bytes because nobody takes them in time
    is not one.  The functions of [src/src/uart.c] on such a port do what [Kernel], where
    the line is two lists, says of them. *)
From S2P Require Import Prelude Memblock CString FsData Console Kernel Mmio Devices.

(** Two registers, and how the status tells that a byte can be sent, or was received. *)
Record port := Port { p_status : Z; p_data : Z; can_send : Z -> bool; has_data : Z -> bool }.

(** [rx d]: the bytes on their way, the next one first; [tx d]: what was sent so far. *)
Class SerialPort (D : Type) `{!Device D} (p : port) := {
  rx : D -> list Z;
  tx : D -> list Z;
  patience : nat;
  receives : forall d c l, rx d = c :: l -> exists d1, polls patience (p_status p) (has_data p) d = Some d1 /\
    u8 (u32 (dev_read (p_data p) d1).1) = c /\ rx (dev_read (p_data p) d1).2 = l /\ tx (dev_read (p_data p) d1).2 = tx d;
  transmits : forall d c, exists d1, polls patience (p_status p) (can_send p) d = Some d1 /\
    rx (dev_write (p_data p) (u32 c) d1) = rx d /\ tx (dev_write (p_data p) (u32 c) d1) = tx d ++ [u8 c]
}.

Arguments rx {D _} p {_} d.
Arguments tx {D _} p {_} d.
Arguments patience {D _} p {_}.
Arguments receives {D _} p {_} d c l.
Arguments transmits {D _} p {_} d c.

(** * Loops that wait *)

Section Wait.
Context {D : Type} `{!Device D}.

(** Reading a register until the test holds of it. *)
Fixpoint wait_until (fuel : nat) (a : Z) (test : Z -> bool) : M D unit :=
  match fuel with
  | O => fail NoFuel
  | S fuel => v ← get_reg a; if test v then mret tt else wait_until fuel a test
  end.

Lemma wait_until_ok n a test : forall fuel d d',
  polls n a test d = Some d' -> (n < fuel)%nat -> wait_until fuel a test d = Ok (tt, d').
Proof.
  induction n as [|n IH]; intros [|fuel] d d' E Hf; try lia; cbn [polls wait_until] in *;
    run (get_reg_ok a d); destruct (test _); try (by simplify_eq). apply IH; [done|lia].
Qed.

(** Receiving and sending a byte on a port. *)
Definition receive (p : port) (fuel : nat) : M D Z :=
  _ ← wait_until fuel (p_status p) (has_data p); v ← get_reg (p_data p); mret (u8 v).
Definition transmit (p : port) (fuel : nat) (c : Z) : M D unit :=
  _ ← wait_until fuel (p_status p) (can_send p); set_reg (p_data p) c.
End Wait.

Section Port.
Context {D : Type} `{!Device D} (p : port) `{!SerialPort D p}.

Lemma receive_ok fuel d c l : rx p d = c :: l -> (patience p < fuel)%nat ->
  exists d', receive p fuel d = Ok (c, d') /\ rx p d' = l /\ tx p d' = tx p d.
Proof using Type.
  intros E Hf. destruct (receives p d c l E) as (d1 & E1 & Hc & Hr & Ht). unfold receive.
  run (wait_until_ok _ _ _ fuel _ _ E1 Hf). run (get_reg_ok (p_data p) d1). rewrite Hc. by eexists.
Qed.

Lemma transmit_ok fuel d c : (patience p < fuel)%nat ->
  exists d', transmit p fuel c d = Ok (tt, d') /\ rx p d' = rx p d /\ tx p d' = tx p d ++ [u8 c].
Proof using Type.
  intros Hf. destruct (transmits p d c) as (d1 & E1 & Hr & Ht). unfold transmit.
  run (wait_until_ok _ _ _ fuel _ _ E1 Hf). by eexists.
Qed.
End Port.

(** * The mini UART *)

Definition AUX_MU_IO_REG : Z := AUX_BASE + 0x40.
Definition AUX_MU_LSR_REG : Z := AUX_BASE + 0x54.

Definition mini_uart : port :=
  Port AUX_MU_LSR_REG AUX_MU_IO_REG (fun v => negb (Z.land v 0x20 =? 0)) (fun v => negb (Z.land v 0x01 =? 0)).

Section MiniUart.
Context {D : Type} `{!Device D}.

(* [src/src/uart.c:70-77 uart_send] *)
Definition uart_send (fuel : nat) (c : Z) : M D unit :=
  _ ← wait_until fuel AUX_MU_LSR_REG (fun v => negb (Z.land v 0x20 =? 0));
  set_reg AUX_MU_IO_REG c.

(* [src/src/uart.c:82-92 uart_getc] *)
Definition uart_getc (fuel : nat) : M D Z :=
  _ ← wait_until fuel AUX_MU_LSR_REG (fun v => negb (Z.land v 0x01 =? 0));
  v ← get_reg AUX_MU_IO_REG;
  let r := u8 v in
  mret (if r =? 13 then 10 else r).

Context `{!SerialPort D mini_uart}.

(** The kernel [k] and the device [d] agree on the line. *)
Definition line_of (k : kernel) (d : D) : Prop := k_rx k = rx mini_uart d /\ map u8 (k_tx k) = tx mini_uart d.

Lemma uart_send_ok fuel c d : (patience mini_uart < fuel)%nat ->
  exists d', uart_send fuel c d = Ok (tt, d') /\ rx mini_uart d' = rx mini_uart d /\ tx mini_uart d' = tx mini_uart d ++ [u8 c].
Proof using Type. apply (transmit_ok mini_uart). Qed.

Lemma uart_getc_port fuel c l d : rx mini_uart d = c :: l -> (patience mini_uart < fuel)%nat ->
  exists d', uart_getc fuel d = Ok (if c =? 13 then 10 else c, d') /\ rx mini_uart d' = l /\ tx mini_uart d' = tx mini_uart d.
Proof using Type.
  intros E Hf. destruct (receives mini_uart d c l E) as (d1 & E1 & Hc & Hr & Ht). unfold uart_getc.
  run (wait_until_ok _ _ _ fuel _ _ E1 Hf). run (get_reg_ok AUX_MU_IO_REG d1).
  change (p_data mini_uart) with AUX_MU_IO_REG in *. rewrite Hc. by eexists.
Qed.

Lemma rx_u8 c l d : rx mini_uart d = c :: l -> u8 c = c.
Proof using Type.
  intros E. destruct (receives mini_uart d c l E) as (d1 & _ & <- & _). apply u8_small, u8_range.
Qed.

(** The driver of the mini UART refines the two lists the kernel is modelled on: as long
    as there is something to receive, [uart_getc] returns what it returns there; [uart_send]
    sends the character; and the lists go on describing the line. *)
Theorem uart_refines fuel k d c : line_of k d -> (patience mini_uart < fuel)%nat ->
  (exists k' d', Kernel.uart_send c k = Ok (tt, k') /\ uart_send fuel c d = Ok (tt, d') /\ line_of k' d') /\
  (k_rx k <> [] -> exists r k' d', Kernel.uart_getc k = Ok (r, k') /\ uart_getc fuel d = Ok (r, d') /\ line_of k' d').
Proof using Type.
  intros [Hrx Htx] Hf. split.
  - destruct (uart_send_ok fuel c d Hf) as (d' & E & Hr & Ht). eexists _, d'. split; [reflexivity|]. split; [done|].
    split; cbn; [by rewrite Hr|]. by rewrite map_app, Htx, Ht.
  - intros Hne. destruct (k_rx k) as [|x l] eqn:Ek; [done|]. symmetry in Hrx.
    destruct (uart_getc_port fuel x l d Hrx Hf) as (d' & E & Hr & Ht). unfold Kernel.uart_getc. rewrite Ek.
    rewrite (rx_u8 x l d Hrx). eexists _, _, d'. split; [reflexivity|]. split; [done|]. split; cbn; [done|]. by rewrite Ht.
Qed.
End MiniUart.

(** * A line without delays *)

(** A controller that is always ready, with status [v]. *)
Record wire (p : port) (v : Z) := Wire { w_rx : list Z; w_tx : list Z }.
Arguments Wire {p v} w_rx w_tx.
Arguments w_rx {p v} w.
Arguments w_tx {p v} w.

#[global] Instance wire_device p v : Device (wire p v) := {|
  dev_read a d := if a =? p_data p then (hd 0 (w_rx d), Wire (tl (w_rx d)) (w_tx d)) else (v, d);
  dev_write a x d := if a =? p_data p then Wire (w_rx d) (w_tx d ++ [x]) else d
|}.

Lemma u8_u32 x : u8 (u32 x) = u8 x.
Proof. unfold u8, u32. change (2 ^ 32) with (2 ^ 8 * 2 ^ 24). rewrite Z.rem_mul_r by lia. by rewrite Z.mul_comm, Z_mod_plus_full, Z.mod_mod by lia. Qed.

#[refine] Instance wire_port p v
  (H : (p_status p =? p_data p) = false) (Hs : can_send p (u32 v) = true) (Hd : has_data p (u32 v) = true) : SerialPort (wire p v) p :=
  {| rx d := map u8 (w_rx d); tx d := map u8 (w_tx d); patience := 0 |}.
Proof.
  - intros d c l E. exists d. cbn. rewrite H, Z.eqb_refl. cbn. rewrite Hd. destruct (w_rx d) as [|x r]; [done|].
    cbn in *. simplify_eq. by rewrite u8_u32.
  - intros d c. exists d. cbn. rewrite H, Z.eqb_refl. cbn. rewrite Hs, map_app. cbn. by rewrite u8_u32.
Defined.

#[global] Instance mini_uart_wire : SerialPort (wire mini_uart 0x21) mini_uart.
Proof. by apply wire_port. Defined.

