(* ===== verification/Loader.v ===== *)
(** The boot loader, the separate program under [src/bootloader/]: it moves itself out of
    the way ([relocate.c], [start.S]), then reads commands from the PL011 UART ([uart.c]),
    one of which receives an image over the line and jumps to it ([shell.c], [main.c]).

    The state is the device and the memory, a map from addresses to bytes; [mbox] is the
    address of the message buffer of the mailbox.  The symbols of the linker script are
    arguments.  Loops of [nop]s are left out. *)
From Stdlib Require Import Ascii String.
From S2P Require Import Prelude CString Console Kernel Mmio Devices Serial.

(** * Registers *)

(* [src/bootloader/include/gpio.h:26-26 MMIO_BASE] *)
Definition MMIO_BASE : Z := 0x3F000000.
(* [src/bootloader/include/gpio.h:29-29 GPFSEL1] *)
Definition GPFSEL1 : Z := MMIO_BASE + 0x00200004.
(* [src/bootloader/include/gpio.h:42-43 GPPUD] *)
Definition GPPUD : Z := MMIO_BASE + 0x00200094.
Definition GPPUDCLK0 : Z := MMIO_BASE + 0x00200098.

(* [src/bootloader/src/uart.c:31-38 UART0_DR] *)
Definition UART0_DR : Z := MMIO_BASE + 0x00201000.
Definition UART0_FR : Z := MMIO_BASE + 0x00201018.
Definition UART0_IBRD : Z := MMIO_BASE + 0x00201024.
Definition UART0_FBRD : Z := MMIO_BASE + 0x00201028.
Definition UART0_LCRH : Z := MMIO_BASE + 0x0020102C.
Definition UART0_CR : Z := MMIO_BASE + 0x00201030.
Definition UART0_ICR : Z := MMIO_BASE + 0x00201044.

(* [src/bootloader/src/mbox.c:32-38 VIDEOCORE_MBOX] *)
Definition VIDEOCORE_MBOX : Z := MMIO_BASE + 0x0000B880.
Definition MBOX_READ : Z := VIDEOCORE_MBOX.
Definition MBOX_STATUS : Z := VIDEOCORE_MBOX + 0x18.
Definition MBOX_WRITE : Z := VIDEOCORE_MBOX + 0x20.
(* [src/bootloader/src/mbox.c:39-41 MBOX_RESPONSE] *)
Definition MBOX_RESPONSE : Z := 0x80000000.
Definition MBOX_FULL : Z := 0x80000000.
Definition MBOX_EMPTY : Z := 0x40000000.
(* [src/bootloader/include/mbox.h:44-45 MBOX_TAG_SETCLKRATE] *)
Definition MBOX_TAG_SETCLKRATE : Z := 0x38002.
Definition MBOX_TAG_LAST : Z := 0.

(** The PL011 as a serial port. *)
Definition pl011 : port := Port UART0_FR UART0_DR (fun v => Z.land v 0x20 =? 0) (fun v => Z.land v 0x10 =? 0).

(** * Moving out of the way *)

(** Each byte is read from where it is when its turn comes. *)
(* [src/bootloader/src/relocate.c:9-10 relocate] *)
Fixpoint relocate_loop (n : nat) (new_bl bl : Z) (m : gmap Z Z) : res (gmap Z Z) :=
  match n with
  | O => Ok m
  | S n =>
    c ← opt_res OutOfBounds (m !! bl);
    relocate_loop n (new_bl + 1) (bl + 1) (<[new_bl := c]> m)
  end.

(** The memory, and where the program goes on. *)
(* [src/bootloader/src/relocate.c:3-14 relocate] *)
Definition relocate (_begin _end __boot_loader : Z) (m : gmap Z Z) : res (gmap Z Z * Z) :=
  let kernel_size := _end - _begin in
  m ← relocate_loop (Z.to_nat (kernel_size + 1)) __boot_loader _begin m;
  Ok (m, __boot_loader).

Definition store_zeros (a : Z) (m : gmap Z Z) : gmap Z Z := put_run m a (replicate 8 0).

(* [src/bootloader/src/start.S:54-57 _relocate] *)
Fixpoint clear_bss (n : nat) (a : Z) (m : gmap Z Z) : gmap Z Z :=
  match n with
  | O => m
  | S n => clear_bss n (a + 8) (store_zeros a m)
  end.

(** The eight bytes of a double word. *)
Definition dword (v : Z) : list Z := map (fun i => u8 (Z.shiftr v (8 * i))) (seqZ 0 8).

(** [x0] is the address of the device tree. *)
(* [src/bootloader/src/start.S:38-60 _relocate] *)
Definition _relocate (_begin _end __boot_loader __dtb __bss_start __bss_size x0 : Z) (m : gmap Z Z) : res (gmap Z Z * Z) :=
  let m := put_run m __dtb (dword x0) in
  let m := clear_bss (Z.to_nat __bss_size) __bss_start m in
  relocate _begin _end __boot_loader m.

(** * The drivers *)

Section Drivers.
Context {D : Type} `{!Device D} (mbox : Z) (fuel : nat).

(* [src/bootloader/src/mbox.c:58-65 mbox_call] *)
Fixpoint wait_response (n : nat) (r : Z) : M D Z :=
  match n with
  | O => fail NoFuel
  | S n =>
    _ ← wait_clear fuel MBOX_STATUS MBOX_EMPTY;
    v ← get_reg MBOX_READ;
    if r =? v then w ← get_reg (word mbox 1); mret (if w =? MBOX_RESPONSE then 1 else 0)
    else wait_response n r
  end.

(* [src/bootloader/src/mbox.c:50-67 mbox_call] *)
Definition mbox_call (ch : Z) : M D Z :=
  let r := Z.lor (Z.land (u32 mbox) 0xFFFFFFF0) (Z.land ch 0xF) in
  _ ← wait_clear fuel MBOX_STATUS MBOX_FULL;
  _ ← set_reg MBOX_WRITE r;
  wait_response fuel r.

(* [src/bootloader/src/uart.c:43-78 uart_init] *)
Definition uart_init : M D unit :=
  _ ← set_reg UART0_CR 0;
  _ ← put_message mbox 0 [9 * 4; 0; MBOX_TAG_SETCLKRATE; 12; 8; 2; 4000000; 0; MBOX_TAG_LAST];
  _ ← mbox_call 8;
  r ← get_reg GPFSEL1;
  let r := Z.land r (u32 (Z.lnot (Z.lor (Z.shiftl 7 12) (Z.shiftl 7 15)))) in
  let r := Z.lor r (Z.lor (Z.shiftl 4 12) (Z.shiftl 4 15)) in
  set_regs [(GPFSEL1, r); (GPPUD, 0); (GPPUDCLK0, Z.lor (Z.shiftl 1 14) (Z.shiftl 1 15)); (GPPUDCLK0, 0);
            (UART0_ICR, 0x7FF); (UART0_IBRD, 2); (UART0_FBRD, 0xB); (UART0_LCRH, Z.shiftl 0x7 4); (UART0_CR, 0x301)].

(* [src/bootloader/src/uart.c:83-91 uart_send] *)
Definition uart_send (c : Z) : M D unit :=
  _ ← wait_until fuel UART0_FR (fun v => Z.land v 0x20 =? 0);
  set_reg UART0_DR c.

(* [src/bootloader/src/uart.c:96-107 uart_getc] *)
Definition uart_getc : M D Z :=
  _ ← wait_until fuel UART0_FR (fun v => Z.land v 0x10 =? 0);
  v ← get_reg UART0_DR;
  let r := u8 v in
  mret (if r =? 13 then 10 else r).

(* [src/bootloader/src/uart.c:109-120 uart_getb] *)
Definition uart_getb : M D Z :=
  _ ← wait_until fuel UART0_FR (fun v => Z.land v 0x10 =? 0);
  v ← get_reg UART0_DR;
  mret (u8 v).

(** The string as far as the memory goes. *)
(* [src/bootloader/src/uart.c:125-133 uart_puts] *)
Fixpoint uart_puts (s : list Z) : M D unit :=
  match s with
  | [] => fail OutOfBounds
  | c :: s =>
    if c =? 0 then mret tt
    else
      _ ← (if c =? 10 then uart_send 13 else mret tt);
      _ ← uart_send c;
      uart_puts s
  end.

(** [c] runs over 28, 24, ..., 0. *)
(* [src/bootloader/src/uart.c:142-148 uart_hex] *)
Fixpoint uart_hex_loop (n : nat) (d c : Z) : M D unit :=
  match n with
  | O => mret tt
  | S n =>
    let x := Z.land (Z.shiftr d c) 0xF in
    _ ← uart_send (x + (if 9 <? x then 0x37 else 0x30));
    uart_hex_loop n d (c - 4)
  end.
(* [src/bootloader/src/uart.c:138-149 uart_hex] *)
Definition uart_hex (d : Z) : M D unit := uart_hex_loop 8 (u32 d) 28.

(* [src/bootloader/src/uart.c:151-154 check_digit] *)
Definition check_digit (ch : Z) : bool := (48 <=? ch) && (ch <=? 57).

(* [src/bootloader/src/uart.c:160-163 read_int] *)
Fixpoint skip_to_digit (n : nat) (f ch : Z) : M D (Z * Z) :=
  if check_digit ch then mret (f, ch)
  else
    match n with
    | O => fail NoFuel
    | S n => let f := Z.lor f (if ch =? 45 then 1 else 0) in ch ← uart_getc; skip_to_digit n f ch
    end.
(* [src/bootloader/src/uart.c:164-164 read_int] *)
Fixpoint read_digits (n : nat) (x ch : Z) : M D Z :=
  if check_digit ch then
    match n with
    | O => fail NoFuel
    | S n => let x := s32 (s32 (Z.shiftl x 3) + s32 (Z.shiftl x 1) + Z.lxor ch 48) in ch ← uart_getc; read_digits n x ch
    end
  else mret x.
(* [src/bootloader/src/uart.c:156-166 read_int] *)
Definition read_int (n : nat) : M D Z :=
  '(f, ch) ← skip_to_digit n 0 0;
  x ← read_digits n 0 ch;
  mret (if negb (f =? 0) then s32 (- x) else x).
End Drivers.

(** * The commands *)

Record loader (D : Type) := Ldr { l_dev : D; l_mem : gmap Z Z }.
Arguments Ldr {D} l_dev l_mem.
Arguments l_dev {D} l.
Arguments l_mem {D} l.

(** Whether a command comes back, or the program is left for the code at an address. *)
Inductive next := Back | Jump (a : Z).

Definition CMD_LEN : Z := 128.

(** [strcmp] of the boot loader: the same function as the kernel's. *)
(* [src/bootloader/src/my_string.c:7-16 strcmp] *)
Fixpoint strcmp (a b : list Z) : res Z :=
  match a, b with
  | x :: a, y :: b =>
    if x =? 0 then Ok (x - y)
    else if negb (x =? y) then Ok (x - y)
    else strcmp a b
  | _, _ => Err OutOfBounds
  end.

Section Commands.
Context {D : Type} `{!Device D} (mbox : Z) (fuel : nat).
Abbreviation ML := (M (loader D)).

Definition on_dev {A} (m : M D A) : ML A :=
  fun s => match m (l_dev s) with Ok (a, d) => Ok (a, Ldr d (l_mem s)) | Err f => Err f end.
Definition puts (s : list Z) : ML unit := on_dev (uart_puts fuel (s ++ [0])).
Definition is_command (cmd : list Z) (s : String.string) : ML bool :=
  d ← (fun l => match strcmp cmd (cstr s) with Ok d => Ok (d, l) | Err f => Err f end); mret (d =? 0).

(* [src/bootloader/src/shell.c:6-10 shell_init] *)
Definition shell_init : ML unit :=
  _ ← on_dev (uart_init mbox fuel); puts ([10; 10] ++ chars " Hello from Raspi 3b" ++ [10]).

(** The buffer [cmd] after it; an empty line leaves it as it was. *)
(* [src/bootloader/src/shell.c:17-21 shell_input] *)
Fixpoint shell_input_loop (n : nat) (cmd : list Z) (idx end_ : Z) : ML (list Z) :=
  match n with
  | O => fail NoFuel
  | S n =>
    c ← on_dev (uart_getc fuel);
    if c =? 10 then mret cmd
    else
      _ ← on_dev (uart_send fuel c);
      cmd ← lift_opt OutOfBounds cmd.[idx := c];
      cmd ← lift_opt OutOfBounds cmd.[end_ + 1 := 0];
      shell_input_loop n cmd (idx + 1) (end_ + 1)
  end.
(* [src/bootloader/src/shell.c:12-22 shell_input] *)
Definition shell_input (cmd : list Z) : ML (list Z) := shell_input_loop fuel cmd 0 0.

(* [src/bootloader/src/shell.c:46-49 load_img] *)
Fixpoint read_size (n : nat) (img_size : Z) : ML Z :=
  match n with
  | O => mret img_size
  | S n =>
    let img_size := s32 (Z.shiftl img_size 8) in
    b ← on_dev (uart_getb fuel);
    read_size n (s32 (Z.lor img_size b))
  end.

(** The bytes from [i] on. *)
(* [src/bootloader/src/shell.c:56-59 load_img] *)
Fixpoint receive_image (n : nat) (kernel_address i : Z) : ML unit :=
  match n with
  | O => mret tt
  | S n =>
    c ← on_dev (uart_getb fuel);
    _ ← modify (fun s => Ldr (l_dev s) (<[kernel_address + i := c]> (l_mem s)));
    receive_image n kernel_address (i + 1)
  end.

(* [src/bootloader/src/shell.c:40-65 load_img] *)
Definition load_img : ML next :=
  let kernel_address := 0x80000 in
  img_size ← read_size 4 0;
  _ ← puts (chars "img_size: ");
  _ ← on_dev (uart_hex fuel (u32 img_size));
  _ ← on_dev (uart_send fuel 10);
  _ ← receive_image (Z.to_nat img_size) kernel_address 0;
  _ ← puts (chars "Jump to image" ++ [10]);
  mret (Jump kernel_address).

(* [src/bootloader/src/shell.c:24-38 shell_controller] *)
Definition shell_controller (cmd : list Z) : ML next :=
  _ ← on_dev (uart_send fuel 10);
  e ← is_command cmd "";
  if (e : bool) then mret Back else
  h ← is_command cmd "help";
  if (h : bool) then
    _ ← puts (chars "help      : print this help menu" ++ [10]);
    _ ← puts (chars "loadimg   : load image" ++ [10]);
    mret Back
  else
  l ← is_command cmd "loadimg";
  if (l : bool) then load_img
  else _ ← puts (chars "shell: command not found" ++ [10]); mret Back.

(** The loop of [main], which is left for the image: [stack] is what the array of the
    command holds each time it comes into being, and bounds the commands. *)
(* [src/bootloader/src/main.c:35-40 main] *)
Fixpoint main_loop (stack : list (list Z)) : ML Z :=
  match stack with
  | [] => fail NoFuel
  | cmd :: stack =>
    _ ← puts (chars "# ");
    cmd ← shell_input cmd;
    r ← shell_controller cmd;
    match r with Back => main_loop stack | Jump a => mret a end
  end.

(* [src/bootloader/src/main.c:31-41 main] *)
Definition main (stack : list (list Z)) : ML Z := _ ← shell_init; main_loop stack.
End Commands.

(** * The other end of the line *)

(** What [sendimg.py] writes: the command, the size in four bytes, the image in pieces. *)
(* [src/sendimg.py:56-78 main] *)
Definition sendimg (bytecodes : list Z) : list Z :=
  let file_size := Z.of_nat (length bytecodes) in
  let per_chunk := 64 in
  let chunk_count := file_size / per_chunk in
  let chunk_count := if negb (file_size mod per_chunk =? 0) then chunk_count + 1 else chunk_count in
  chars "loadimg" ++ [10] ++ map (fun i => u8 (Z.shiftr file_size (8 * i))) [3; 2; 1; 0] ++
  flat_map (fun i => take (Z.to_nat per_chunk) (drop (Z.to_nat (i * per_chunk)) bytecodes)) (seqZ 0 chunk_count).
