(* ===== verification/LoaderSpec.v ===== *)
(** What the boot loader does: the image sent with [sendimg.py] is in memory, and nothing
    else is, when it jumps to it; moving the program copies it whole. *)
From Stdlib Require Import Ascii String.
From S2P Require Import Prelude CString Console Kernel Mmio Devices Serial Loader.

(** The size of an image, as it is sent. *)
Definition size_bytes (n : Z) : list Z := map (fun i => u8 (Z.shiftr n (8 * i))) [3; 2; 1; 0].

Lemma size_step x : 0 <= x < 2 ^ 31 -> s32 (Z.lor (s32 (Z.shiftl (x / 256) 8)) (u8 x)) = x.
Proof.
  intros Hx. pose proof (Z.div_mod x 256 ltac:(lia)). pose proof (Z.mod_pos_bound x 256 ltac:(lia)).
  unfold u8. change (2 ^ 8) with 256. rewrite Z.shiftl_mul_pow2 by lia.
  rewrite (s32_small (x / 256 * 2 ^ 8)) by lia. rewrite Z.lor_comm, lor_shift by lia. rewrite s32_small; lia.
Qed.

Lemma size_ok n : 0 <= n < 2 ^ 31 -> fold_left (fun v b => s32 (Z.lor (s32 (Z.shiftl v 8)) b)) (size_bytes n) 0 = n.
Proof.
  intros Hn. cbn [size_bytes map fold_left]. rewrite !Z.shiftr_div_pow2 by lia.
  change (2 ^ (8 * 3)) with (256 * 256 * 256). change (2 ^ (8 * 2)) with (256 * 256). change (2 ^ (8 * 1)) with 256.
  change (2 ^ (8 * 0)) with 1. rewrite Z.div_1_r, <-!Z.div_div by lia.
  assert (Hd : forall x, 0 <= x < 2 ^ 31 -> 0 <= x / 256 < 2 ^ 31 /\ x / 256 <= x / 256).
  { intros x Hx. pose proof (Z.div_mod x 256 ltac:(lia)). pose proof (Z.mod_pos_bound x 256 ltac:(lia)). lia. }
  assert (E0 : n / 256 / 256 / 256 / 256 = 0) by (rewrite !Z.div_div by lia; apply Z.div_small; lia).
  rewrite <-E0 at 1. rewrite !size_step; [done|..]; repeat apply Hd; done.
Qed.

(** * The image in pieces *)

Lemma pieces_ok (k : nat) : (0 < k)%nat -> forall n (l : list Z), (length l <= n * k)%nat ->
  flat_map (fun i => take k (drop (Z.to_nat (i * Z.of_nat k)) l)) (seqZ 0 (Z.of_nat n)) = l.
Proof.
  intros Hk. assert (H : forall n j (l pre : list Z), (length l <= n * k)%nat -> 0 <= j ->
    Z.of_nat (length pre) = j * Z.of_nat k \/ l = [] /\ Z.of_nat (length pre) <= j * Z.of_nat k ->
    flat_map (fun i => take k (drop (Z.to_nat (i * Z.of_nat k)) (pre ++ l))) (seqZ j (Z.of_nat n)) = l).
  { induction n as [|n IH]; intros j l pre Hl Hj Hp; [by destruct l; [|cbn in Hl; lia]|].
    rewrite seqZ_cons by lia. cbn [flat_map]. replace (Z.pred (Z.of_nat (S n))) with (Z.of_nat n) by lia.
    assert (E : take k (drop (Z.to_nat (j * Z.of_nat k)) (pre ++ l)) = take k l).
    { destruct Hp as [<-|[-> Hp]]; [by rewrite Nat2Z.id, drop_app_length|].
      rewrite drop_ge by (rewrite length_app; cbn; lia). done. }
    rewrite E. transitivity (take k l ++ drop k l); [f_equal|apply take_drop].
    replace (pre ++ l) with ((pre ++ take k l) ++ drop k l) by (by rewrite <-app_assoc, take_drop).
    apply IH; [rewrite length_drop; lia|lia|]. rewrite length_app, length_take.
    destruct (Nat.le_gt_cases k (length l)).
    - destruct Hp as [Hp|[-> _]]; [left|cbn in *]; lia.
    - right. split; [apply drop_ge; lia|]. destruct Hp as [Hp|[-> Hp]]; cbn in *; lia. }
  intros n l Hl. apply (H n 0 l []); [done|lia|by left].
Qed.

Lemma sendimg_ok img : sendimg img = chars "loadimg" ++ [10] ++ size_bytes (Z.of_nat (length img)) ++ img.
Proof.
  unfold sendimg. do 3 f_equal. remember (Z.of_nat (length img)) as n eqn:En.
  assert (Hq : exists k, (if negb (n mod 64 =? 0) then n / 64 + 1 else n / 64) = Z.of_nat k /\ (length img <= k * 64)%nat).
  { pose proof (Z.div_mod n 64 ltac:(lia)). pose proof (Z.mod_pos_bound n 64 ltac:(lia)). assert (0 <= n) by lia.
    destruct (Z.eqb_spec (n mod 64) 0); cbn [negb]; [exists (Z.to_nat (n / 64))|exists (Z.to_nat (n / 64 + 1))]; lia. }
  destruct Hq as (k & -> & Hk). exact (pieces_ok 64 ltac:(lia) k img Hk).
Qed.

(** * Conversations *)

(** Characters as they are sent: a new line is a carriage return first. *)
Definition crlf (s : list Z) : list Z := flat_map (fun c => if c =? 10 then [13; 10] else [c]) s.

Section Conversation.
Context {D : Type} `{!Device D} `{!SerialPort D pl011} (fuel : nat).
Hypothesis Hfuel : (patience pl011 < fuel)%nat.
Implicit Types (m : gmap Z Z).

(** [does e m inp a out m']: [e] takes [inp] off the line, sends [out], turns the memory
    [m] into [m'] and returns [a]. *)
Definition does {A} (e : M (loader D) A) m (inp : list Z) (a : A) (out : list Z) m' : Prop :=
  forall d l, rx pl011 d = inp ++ l ->
    exists d', e (Ldr d m) = Ok (a, Ldr d' m') /\ rx pl011 d' = l /\ tx pl011 d' = tx pl011 d ++ out.

Lemma does_ret {A} (a : A) m : does (mret a) m [] a [] m.
Proof using Type. intros d l E. exists d. by rewrite app_nil_r. Qed.

Lemma does_bind {A B} (e : M (loader D) A) (k : A -> M (loader D) B) m i a o m1 i' b o' m2 :
  does e m i a o m1 -> does (k a) m1 i' b o' m2 -> does (e ≫= k) m (i ++ i') b (o ++ o') m2.
Proof using Type.
  intros H1 H2 d l E. rewrite <-app_assoc in E. destruct (H1 d _ E) as (d1 & E1 & Hr & Ht).
  destruct (H2 d1 _ Hr) as (d2 & E2 & Hr2 & Ht2). exists d2. run E1. split; [exact E2|]. split; [done|].
  by rewrite Ht2, Ht, app_assoc.
Qed.

(** What takes nothing off the line, and what says nothing. *)
Lemma does_then {A B} (e : M (loader D) A) (k : A -> M (loader D) B) m a o m1 i' b o' m2 :
  does e m [] a o m1 -> does (k a) m1 i' b o' m2 -> does (e ≫= k) m i' b (o ++ o') m2.
Proof using Type. apply (does_bind e k m []). Qed.
Lemma does_silent {A B} (e : M (loader D) A) (k : A -> M (loader D) B) m i a m1 i' b o' m2 :
  does e m i a [] m1 -> does (k a) m1 i' b o' m2 -> does (e ≫= k) m (i ++ i') b o' m2.
Proof using Type. intros H. apply (does_bind e k m i a []). exact H. Qed.
Lemma does_pure {A B} (e : M (loader D) A) (k : A -> M (loader D) B) m a m1 i' b o' m2 :
  does e m [] a [] m1 -> does (k a) m1 i' b o' m2 -> does (e ≫= k) m i' b o' m2.
Proof using Type. intros H. apply (does_bind e k m [] a []). exact H. Qed.

Lemma does_take {A B} (e : M (loader D) A) (k : A -> M (loader D) B) m i a m1 b o' m2 :
  does e m i a [] m1 -> does (k a) m1 [] b o' m2 -> does (e ≫= k) m i b o' m2.
Proof using Type. intros H1 H2. pose proof (does_silent e k m i a m1 [] b o' m2 H1 H2) as H. by rewrite app_nil_r in H. Qed.
Lemma does_end {A B} (e : M (loader D) A) m a o m1 (b : B) :
  does e m [] a o m1 -> does (_ ← e; mret b) m [] b o m1.
Proof using Type.
  intros H. pose proof (does_then e (fun _ => mret b) m a o m1 [] b [] m1 H (does_ret b m1)) as H'. by rewrite app_nil_r in H'.
Qed.

Lemma does_opt {A} (o : option A) a f m : o = Some a -> does (lift_opt f o) m [] a [] m.
Proof using Type. intros -> d l E. exists d. by rewrite app_nil_r. Qed.

Lemma does_send c m : does (on_dev (uart_send fuel c)) m [] tt [u8 c] m.
Proof using Hfuel.
  intros d l E. destruct (transmit_ok pl011 fuel d c Hfuel) as (d' & E' & Hr & Ht). exists d'.
  change (uart_send fuel c d = Ok (tt, d')) in E'. unfold on_dev. cbn [l_dev l_mem]. rewrite E'. by rewrite Hr.
Qed.

Lemma does_getb c m : does (on_dev (uart_getb fuel)) m [c] c [] m.
Proof using Hfuel.
  intros d l E. destruct (receive_ok pl011 fuel d c l E Hfuel) as (d' & E' & Hr & Ht). exists d'.
  change (uart_getb fuel d = Ok (c, d')) in E'. unfold on_dev. cbn [l_dev l_mem]. rewrite E'. by rewrite app_nil_r.
Qed.

Lemma does_getc c m : does (on_dev (uart_getc fuel)) m [c] (if c =? 13 then 10 else c) [] m.
Proof using Hfuel.
  intros d l E. destruct (does_getb c m d l E) as (d' & E' & H). exists d'. split; [|done]. revert E'.
  unfold on_dev, uart_getc, uart_getb, mbind, M_bind, mret, M_ret. cbn [l_dev l_mem].
  destruct (wait_until _ _ _ d) as [[[] d1]|]; [|done]. destruct (get_reg UART0_DR d1) as [[v d2]|]; [|done].
  intros E'. by simplify_eq.
Qed.

Lemma does_ext {A} (e e' : M (loader D) A) m i a o m' : (forall s, e s = e' s) -> does e' m i a o m' -> does e m i a o m'.
Proof using Type. intros He H d l E. rewrite He. by apply H. Qed.

Lemma on_dev_bind {A B} (e : M D A) (k : A -> M D B) s : on_dev (e ≫= k) s = (a ← on_dev e; on_dev (k a)) s.
Proof using Type. unfold on_dev, mbind, M_bind. by destruct (e (l_dev s)) as [[]|]. Qed.

(** The first step of a computation on the device. *)
Lemma does_dev {A B} (e : M D A) (k : A -> M D B) m a o m1 i b o' m2 :
  does (on_dev e) m [] a o m1 -> does (on_dev (k a)) m1 i b o' m2 -> does (on_dev (e ≫= k)) m i b (o ++ o') m2.
Proof using Type.
  intros H1 H2. eapply does_ext; [apply on_dev_bind|]. eapply does_then; [exact H1|exact H2].
Qed.

Lemma does_puts s m : Forall (fun c => 0 < c < 256) s -> does (puts fuel s) m [] tt (crlf s) m.
Proof using Hfuel.
  unfold puts. intros H. induction H as [|c s Hc Hs IH]; [exact (does_ret _ m)|].
  cbn [app uart_puts]. destruct (Z.eqb_spec c 0); [lia|].
  assert (Ec : crlf (c :: s) = (if c =? 10 then [13] else []) ++ [u8 c] ++ crlf s).
  { cbn [crlf flat_map]. rewrite u8_small by lia. destruct (Z.eqb_spec c 10) as [->|]; done. }
  rewrite Ec. apply (does_dev _ _ m tt _ m).
  - destruct (c =? 10); [apply (does_send 13)|exact (does_ret tt m)].
  - apply (does_dev _ _ m tt _ m); [apply does_send|exact IH].
Qed.

Lemma does_hex_loop n v m : forall c, does (on_dev (uart_hex_loop fuel n v c)) m [] tt (map u8 (Console.uart_hex_loop n v c)) m.
Proof using Hfuel.
  induction n as [|n IH]; intros c; cbn [uart_hex_loop Console.uart_hex_loop map]; [exact (does_ret tt m)|].
  apply (does_dev _ _ m tt [_] m); [apply does_send|apply IH].
Qed.

Lemma does_hex v m : does (on_dev (uart_hex fuel v)) m [] tt (map u8 (Console.uart_hex v)) m.
Proof using Hfuel. apply does_hex_loop. Qed.

(** * The commands *)

Lemma does_size n : forall l v m, length l = n ->
  does (read_size fuel n v) m l (fold_left (fun v b => s32 (Z.lor (s32 (Z.shiftl v 8)) b)) l v) [] m.
Proof using Hfuel.
  induction n as [|n IH]; intros [|b l] v m Hl; simplify_eq/=; [exact (does_ret _ m)|].
  apply (does_silent _ _ m [b] b m); [apply does_getb|by apply IH].
Qed.

Lemma does_image a l : forall i m,
  does (receive_image fuel (length l) a i) m l tt [] (put_run m (a + i) l).
Proof using Hfuel.
  induction l as [|c l IH]; intros i m; cbn [length receive_image put_run]; [exact (does_ret _ m)|].
  apply (does_silent _ _ m [c] c m); [apply does_getb|].
  apply (does_pure _ _ m tt (<[a + i := c]> m)); [intros d l' E; exists d; by rewrite app_nil_r|].
  replace (a + i + 1) with (a + (i + 1)) by lia. apply IH.
Qed.

Definition loaded (n : Z) : list Z :=
  chars "img_size: " ++ map u8 (Console.uart_hex n) ++ [10] ++ crlf (chars "Jump to image" ++ [10]).

Lemma does_load_img img m : Z.of_nat (length img) < 2 ^ 31 ->
  does (load_img fuel) m (size_bytes (Z.of_nat (length img)) ++ img) (Jump 0x80000) (loaded (Z.of_nat (length img)))
    (put_run m 0x80000 img).
Proof using Hfuel.
  intros Hn. unfold load_img. set (n := Z.of_nat (length img)) in *.
  eapply (does_silent _ _ m (size_bytes n) _ m); [by apply does_size|]. rewrite size_ok by lia.
  apply (does_then _ _ m tt _ m); [apply does_puts; repeat constructor|].
  rewrite (u32_small n) by lia.
  apply (does_then _ _ m tt _ m); [apply does_hex|].
  apply (does_then _ _ m tt [10] m); [apply (does_send 10)|].
  unfold n. rewrite Nat2Z.id.
  apply (does_take _ _ m img tt (put_run m 0x80000 img)); [apply (does_image 0x80000 img 0)|].
  apply (does_end _ _ tt), does_puts. repeat constructor.
Qed.

Lemma does_input s : Forall (fun c => c <> 10 /\ c <> 13) s -> forall n pre tl m,
  (length s < length tl)%nat -> (length s < n)%nat ->
  does (shell_input_loop fuel n (pre ++ tl) (Z.of_nat (length pre)) (Z.of_nat (length pre))) m (s ++ [10]) (pre ++ typed s tl) (map u8 s) m.
Proof using Hfuel.
  induction s as [|c s IH]; intros Hs [|n] pre tl m Hl Hn; try (cbn in Hn; lia); cbn [shell_input_loop app map].
  - apply (does_take _ _ m [10] 10 m); [apply (does_getc 10)|]. apply does_ret.
  - apply Forall_cons in Hs as [[H10 H13] Hs]. destruct tl as [|y [|y2 tl]]; cbn [length] in Hl; [lia..|].
    apply (does_silent _ _ m [c] c m).
    { pose proof (does_getc c m) as H. by destruct (Z.eqb_spec c 13). }
    destruct (Z.eqb_spec c 10); [done|]. apply (does_then _ _ m tt [u8 c] m); [apply does_send|].
    apply (does_pure _ _ m (pre ++ c :: y2 :: tl) m); [by apply does_opt, zset_app_mid|].
    change (pre ++ c :: y2 :: tl) with (pre ++ [c] ++ y2 :: tl). rewrite app_assoc.
    apply (does_pure _ _ m ((pre ++ [c]) ++ 0 :: tl) m).
    { apply does_opt, zset_app_mid. rewrite length_app. cbn. lia. }
    assert (E : pre ++ typed (c :: s) (y :: y2 :: tl) = (pre ++ [c]) ++ typed s (0 :: tl)).
    { rewrite <-app_assoc. unfold typed. cbn [app length drop]. by destruct s. }
    rewrite E. replace (Z.of_nat (length pre) + 1) with (Z.of_nat (length (pre ++ [c]))) by (rewrite length_app; cbn; lia).
    apply IH; [done|cbn [length] in *; lia..].
Qed.

Lemma does_is_command cmd (t : String.string) (s : list Z) m : holds cmd s -> nonzero (chars t) ->
  does (is_command cmd t) m [] (bool_decide (s = chars t)) [] m.
Proof using Type.
  intros Hc Ht. destruct (strcmp_ok cmd (cstr t) s (chars t) Hc) as (d & E & Hd); [by split; [|exists []]|].
  change (strcmp cmd (cstr t) = Ok d) in E. intros x l Ex. exists x. unfold is_command, mbind, M_bind. rewrite E.
  rewrite app_nil_r. destruct (Z.eqb_spec d 0), (bool_decide_reflect (s = chars t)); intuition done.
Qed.

(** The command that loads an image, typed or left in the array. *)
Lemma does_loadimg cmd img m : holds cmd (chars "loadimg") -> Z.of_nat (length img) < 2 ^ 31 ->
  does (shell_controller fuel cmd) m (size_bytes (Z.of_nat (length img)) ++ img) (Jump 0x80000)
    ([10] ++ loaded (Z.of_nat (length img))) (put_run m 0x80000 img).
Proof using Hfuel.
  intros Hc Hn. unfold shell_controller. apply (does_then _ _ m tt [10] m); [apply (does_send 10)|].
  apply (does_pure _ _ m false m); [apply (does_is_command cmd "" _ m Hc); constructor|].
  apply (does_pure _ _ m false m); [apply (does_is_command cmd "help" _ m Hc); repeat constructor|].
  apply (does_pure _ _ m true m); [apply (does_is_command cmd "loadimg" _ m Hc); repeat constructor|].
  by apply does_load_img.
Qed.

(** One command that is the last: [s] is what is typed. *)
Lemma does_last stack cmd s img m : Forall (fun c => c <> 10 /\ c <> 13) s -> (length s < length cmd)%nat -> (length s < fuel)%nat ->
  holds (typed s cmd) (chars "loadimg") -> Z.of_nat (length img) < 2 ^ 31 ->
  does (main_loop fuel (cmd :: stack)) m (s ++ [10] ++ size_bytes (Z.of_nat (length img)) ++ img) 0x80000
    (chars "# " ++ map u8 s ++ [10] ++ loaded (Z.of_nat (length img))) (put_run m 0x80000 img).
Proof using Hfuel.
  intros Hs Hl Hf Hc Hn. cbn [main_loop]. apply (does_then _ _ m tt (chars "# ") m); [apply does_puts; repeat constructor|].
  rewrite (app_assoc s). apply (does_bind _ _ m _ (typed s cmd) _ m); [exact (does_input s Hs fuel [] cmd m Hl Hf)|].
  rewrite <-(app_nil_r (_ ++ img)), <-(app_nil_r ([10] ++ _)).
  apply (does_bind _ _ m _ (Jump 0x80000) _ (put_run m 0x80000 img)); [by apply does_loadimg|]. apply does_ret.
Qed.

(** C32. Sending an image with [sendimg.py] to the loop of the boot loader makes it leave for the
    address of the kernel, with the bytes of the image from there on and the rest of the
    memory as it was; what comes after the image is still on the line, and the transcript
    names the size of the image. *)
Theorem load_image_spec img rest stack cmd m d :
  length cmd = Z.to_nat CMD_LEN -> Z.of_nat (length img) < 2 ^ 31 -> (7 < fuel)%nat -> rx pl011 d = sendimg img ++ rest ->
  exists d' m', main_loop fuel (cmd :: stack) (Ldr d m) = Ok (0x80000, Ldr d' m') /\
    (forall a, m' !! a = if (0x80000 <=? a) && (a <? 0x80000 + Z.of_nat (length img)) then img !! Z.to_nat (a - 0x80000) else m !! a) /\
    rx pl011 d' = rest /\
    tx pl011 d' = tx pl011 d ++ chars "# loadimg" ++ [10] ++ loaded (Z.of_nat (length img)).
Proof using Hfuel.
  intros Hc Hn Hf E. rewrite sendimg_ok in E.
  assert (Hs : Forall (fun c => c <> 10 /\ c <> 13) (chars "loadimg")) by (repeat (apply Forall_cons; split; [done|]); by apply Forall_nil).
  assert (Ht : holds (typed (chars "loadimg") cmd) (chars "loadimg")) by (split; [repeat constructor|]; by exists (drop 8 cmd)).
  destruct (does_last stack cmd (chars "loadimg") img m Hs ltac:(rewrite Hc; by apply Nat.ltb_lt) Hf Ht Hn d rest E) as (d' & E' & Hr & Htx).
  exists d', (put_run m 0x80000 img). split; [done|]. split; [intros a; apply put_run_lookup|]. split; [done|]. by rewrite Htx.
Qed.

(** An empty line leaves the array of the command as it was: when that still holds a
    command, it runs again. *)
Theorem empty_line_repeats img rest stack cmd m d :
  holds cmd (chars "loadimg") -> Z.of_nat (length img) < 2 ^ 31 ->
  rx pl011 d = [10] ++ size_bytes (Z.of_nat (length img)) ++ img ++ rest ->
  exists d', main_loop fuel (cmd :: stack) (Ldr d m) = Ok (0x80000, Ldr d' (put_run m 0x80000 img)) /\ rx pl011 d' = rest.
Proof using Hfuel.
  intros Hc Hn E. assert (Hl : (0 < length cmd)%nat) by (destruct Hc as (_ & r & ->); rewrite length_app; cbn; lia).
  rewrite (app_assoc (size_bytes _)), app_assoc in E.
  destruct (does_last stack cmd [] img m (Forall_nil_2 _) Hl ltac:(cbn; lia) Hc Hn d rest E) as (d' & E' & Hr & _). by exists d'.
Qed.
End Conversation.

#[global] Instance pl011_wire : SerialPort (wire pl011 0) pl011.
Proof. by apply wire_port. Defined.

Lemma load_image_spec_witness :
  let d : wire pl011 0 := Wire (sendimg [7; 13; 10] ++ [65]) [] in
  exists d' m', main_loop 8 [replicate 128 255] (Ldr d ∅) = Ok (0x80000, Ldr d' m') /\
    (forall a, m' !! a = if (0x80000 <=? a) && (a <? 0x80000 + 3) then [7; 13; 10] !! Z.to_nat (a - 0x80000) else (∅ : gmap Z Z) !! a) /\
    rx pl011 d' = [65] /\
    tx pl011 d' = tx pl011 d ++ chars "# loadimg" ++ [10] ++ loaded 3.
Proof.
  apply (load_image_spec (D := wire pl011 0) 8 ltac:(apply Nat.ltb_lt; reflexivity) [7; 13; 10] [65] [] (replicate 128 255)); [reflexivity|cbn; lia|lia|reflexivity].
Defined.

(** * Moving the program *)

Lemma relocate_loop_ok l : forall dst src m, dst < src -> (forall i c, l !! i = Some c -> m !! (src + Z.of_nat i) = Some c) ->
  relocate_loop (length l) dst src m = Ok (put_run m dst l).
Proof.
  induction l as [|c l IH]; intros dst src m Hd Hm; cbn [length relocate_loop put_run]; [done|].
  pose proof (Hm 0%nat c eq_refl) as H0. rewrite Z.add_0_r in H0. rewrite H0. cbn [opt_res]. rewrite res_bind_ok.
  apply IH; [lia|]. intros i x Hi. rewrite lookup_insert_ne by lia.
  replace (src + 1 + Z.of_nat i) with (src + Z.of_nat (S i)) by lia. by apply Hm.
Qed.

(** [relocate] goes on at [__boot_loader], where the program is now, with the byte after it;
    nothing else changed.  The two places may overlap, as long as the new one is before the
    old one. *)
Theorem relocate_spec _begin _end __boot_loader l m :
  __boot_loader < _begin -> Z.of_nat (length l) = _end - _begin + 1 ->
  (forall i c, l !! i = Some c -> m !! (_begin + Z.of_nat i) = Some c) ->
  exists m', relocate _begin _end __boot_loader m = Ok (m', __boot_loader) /\
    (forall i c, l !! i = Some c -> m' !! (__boot_loader + Z.of_nat i) = Some c) /\
    (forall a, ~ __boot_loader <= a <= __boot_loader + (_end - _begin) -> m' !! a = m !! a).
Proof.
  intros Hd Hl Hm. unfold relocate. rewrite <-Hl, Nat2Z.id, (relocate_loop_ok l __boot_loader _begin m Hd Hm), res_bind_ok.
  eexists. split; [reflexivity|]. split.
  - intros i c Hi. pose proof (lookup_lt_Some _ _ _ Hi). rewrite put_run_lookup.
    destruct (Z.leb_spec __boot_loader (__boot_loader + Z.of_nat i)), (Z.ltb_spec (__boot_loader + Z.of_nat i) (__boot_loader + Z.of_nat (length l))); try lia.
    cbn [andb]. by replace (Z.to_nat (__boot_loader + Z.of_nat i - __boot_loader)) with i by lia.
  - intros a Ha. rewrite put_run_lookup.
    destruct (Z.leb_spec __boot_loader a), (Z.ltb_spec a (__boot_loader + Z.of_nat (length l))); try lia; done.
Qed.
