(* ===== verification/Asm.v ===== *)
(** The AArch64 instructions the kernel's assembly files use, on the registers and the
    memory they act on.

    The memory is a map from the addresses of double words to their values; which address
    it has is what the program sees, translated or not.  The stack pointer is one of three
    registers, by the exception level and the stack select bit of the processor state.
    Barriers and invalidations have no effect here.  A [symbol] of the linker has an
    address. *)
From Stdlib Require Import String.
From stdpp Require Import functions.
From S2P Require Import Prelude.

Inductive sysreg :=
  | sp_el0 | sp_el1 | sp_el2
  | spsr_el1 | spsr_el2 | elr_el1 | elr_el2 | esr_el1 | far_el1
  | vbar_el1 | hcr_el2 | tcr_el1 | mair_el1 | sctlr_el1 | ttbr0_el1 | tpidr_el1 | mpidr_el1
  | cntp_ctl_el0 | cntkctl_el1 | cntfrq_el0 | cntp_tval_el0.

#[global] Instance sysreg_eq_dec : EqDecision sysreg.
Proof. solve_decision. Defined.

(** [x n]: a general register; [SP]: the current stack pointer; [xzr]: zero. *)
Inductive reg := x (n : nat) | SP | xzr.

Record cpu := Cpu {
  c_x : nat -> Z;
  c_sys : sysreg -> Z;
  c_pc : Z;
  c_pstate : Z;
  c_mem : gmap Z Z
}.

Definition lr : reg := x 30.
Definition fp : reg := x 29.

(** * The processor state *)

(** Exception level and stack select, in the low bits. *)
Definition EL0t : Z := 0x0.
Definition EL1h : Z := 0x5.
Definition el (pstate : Z) : Z := Z.land (Z.shiftr pstate 2) 3.
Definition cur_sp (pstate : Z) : sysreg :=
  if Z.land pstate 1 =? 0 then sp_el0
  else if el pstate =? 1 then sp_el1 else sp_el2.

Definition rd (r : reg) (c : cpu) : Z :=
  match r with
  | x n => c_x c n
  | SP => c_sys c (cur_sp (c_pstate c))
  | xzr => 0
  end.

Definition set_x (n : nat) (v : Z) (c : cpu) : cpu := Cpu (<[n := u64 v]> (c_x c)) (c_sys c) (c_pc c) (c_pstate c) (c_mem c).
Definition set_sys (s : sysreg) (v : Z) (c : cpu) : cpu := Cpu (c_x c) (<[s := u64 v]> (c_sys c)) (c_pc c) (c_pstate c) (c_mem c).
Definition set_pc (v : Z) (c : cpu) : cpu := Cpu (c_x c) (c_sys c) v (c_pstate c) (c_mem c).
Definition set_pstate (v : Z) (c : cpu) : cpu := Cpu (c_x c) (c_sys c) (c_pc c) v (c_mem c).
Definition set_mem (m : gmap Z Z) (c : cpu) : cpu := Cpu (c_x c) (c_sys c) (c_pc c) (c_pstate c) m.

Definition wr (r : reg) (v : Z) (c : cpu) : cpu :=
  match r with
  | x n => set_x n v c
  | SP => set_sys (cur_sp (c_pstate c)) v c
  | xzr => c
  end.

(** * Instructions *)

Abbreviation MC := (M cpu).

Definition load (a : Z) : MC Z := fun c => match c_mem c !! u64 a with Some v => Ok (v, c) | None => Err OutOfBounds end.
Definition store (a v : Z) : MC unit :=
  fun c => match c_mem c !! u64 a with Some _ => Ok (tt, set_mem (<[u64 a := v]> (c_mem c)) c) | None => Err OutOfBounds end.

Inductive instr :=
  | MOV (d : reg) (v : Z)
  | MOVR (d s : reg)
  | ADD (d s : reg) (v : Z)
  | SUB (d s : reg) (v : Z)
  | AND (d s : reg) (v : Z)
  | ORR (d s : reg) (v : Z)
  | LSR (d s : reg) (v : Z)
  | MRS (d : reg) (s : sysreg)
  | MSR (s : sysreg) (r : reg)
  | DAIFSET (v : Z)
  | DAIFCLR (v : Z)
  | LDR (a b : reg) (off : Z)
  | STR (a b : reg) (off : Z)
  | STR_POST (a b : reg) (inc : Z)
  | LDP (a1 a2 b : reg) (off : Z)
  | STP (a1 a2 b : reg) (off : Z)
  | BARRIER.

(** The mask bits D, A, I, F are the bits 9 to 6 of the processor state. *)
Definition step (i : instr) : MC unit :=
  match i with
  | MOV d v => modify (wr d v)
  | MOVR d s => modify (fun c => wr d (rd s c) c)
  | ADD d s v => modify (fun c => wr d (rd s c + v) c)
  | SUB d s v => modify (fun c => wr d (rd s c - v) c)
  | AND d s v => modify (fun c => wr d (Z.land (rd s c) v) c)
  | ORR d s v => modify (fun c => wr d (Z.lor (rd s c) v) c)
  | LSR d s v => modify (fun c => wr d (Z.shiftr (rd s c) v) c)
  | MRS d s => modify (fun c => wr d (c_sys c s) c)
  | MSR s r => modify (fun c => set_sys s (rd r c) c)
  | DAIFSET v => modify (fun c => set_pstate (Z.lor (c_pstate c) (Z.shiftl v 6)) c)
  | DAIFCLR v => modify (fun c => set_pstate (Z.ldiff (c_pstate c) (Z.shiftl v 6)) c)
  | LDR a b off => p ← gets (rd b); v ← load (p + off); modify (wr a v)
  | STR a b off => p ← gets (rd b); v ← gets (rd a); store (p + off) v
  | STR_POST a b inc => p ← gets (rd b); v ← gets (rd a); _ ← store p v; modify (wr b (p + inc))
  | LDP a1 a2 b off =>
    p ← gets (rd b);
    v1 ← load (p + off); v2 ← load (p + off + 8);
    _ ← modify (wr a1 v1); modify (wr a2 v2)
  | STP a1 a2 b off =>
    p ← gets (rd b);
    v1 ← gets (rd a1); v2 ← gets (rd a2);
    _ ← store (p + off) v1; store (p + off + 8) v2
  | BARRIER => mret tt
  end.

Fixpoint exec (l : list instr) : MC unit :=
  match l with
  | [] => mret tt
  | i :: l => _ ← step i; exec l
  end.

(** [ret]; [eret] at the exception level 1 and 2. *)
Definition ret : MC unit := modify (fun c => set_pc (rd lr c) c).
Definition eret : MC unit := modify (fun c => set_pc (c_sys c elr_el1) (set_pstate (c_sys c spsr_el1) c)).
Definition eret_el2 : MC unit := modify (fun c => set_pc (c_sys c elr_el2) (set_pstate (c_sys c spsr_el2) c)).

(** [bl] with the address it comes back to. *)
Definition bl (back : Z) (f : MC unit) : MC unit := _ ← modify (wr lr back); f.

(** * Exceptions *)

Inductive exception := Synchronous | Irq | Fiq | SError.
Definition slot (e : exception) : Z := match e with Synchronous => 0 | Irq => 1 | Fiq => 2 | SError => 3 end.

(** The four groups of the vector table; [AArch32] is not entered. *)
Definition group (pstate : Z) : Z := if el pstate =? 0 then 2 else if Z.land pstate 1 =? 0 then 0 else 1.

(** Entry at the exception level 1, with the mask bits set; [back] is where the handler
    is going to return to. *)
Definition enter (back esr far : Z) : MC unit :=
  modify (fun c => set_pstate (Z.lor EL1h 0x3C0)
    (set_sys spsr_el1 (c_pstate c) (set_sys elr_el1 back (set_sys esr_el1 esr (set_sys far_el1 far c))))).

(** * Lemmas on registers *)

Lemma exec_app l1 l2 c : exec (l1 ++ l2) c = (_ ← exec l1; exec l2) c.
Proof.
  revert c. induction l1 as [|i l1 IH]; intros c; [done|]. cbn [app exec]. unfold mbind, M_bind in *.
  destruct (step i c) as [[? c']|]; [apply IH|done].
Qed.

Lemma exec_cons i l c c' : step i c = Ok (tt, c') -> exec (i :: l) c = exec l c'.
Proof. intros E. cbn [exec]. by run E. Qed.

Lemma exec_step i l c c' r : step i c = Ok (tt, c') -> exec l c' = r -> exec (i :: l) c = r.
Proof. intros E <-. by apply exec_cons. Qed.

Lemma exec_bind l1 l2 c c' r : exec l1 c = Ok (tt, c') -> exec l2 c' = r -> exec (l1 ++ l2) c = r.
Proof. intros E <-. rewrite exec_app. by run E. Qed.
