(* ===== verification/Entry.v ===== *)
(** The way into the kernel and out of it: [src/src/exception_.S], the system call functions
    of [src/src/syscall_.S], and [src/src/timer_.S], instruction by instruction.

    The C functions the assembly calls are arguments, as functions on the processor. *)
From Stdlib Require Import String.
From S2P Require Import Prelude Asm.

(** * Saving and loading the registers *)

(* [src/src/exception_.S:42-67 save_all] *)
Definition save_all : list instr :=
  [ SUB SP SP (34 * 8);
    STP (x 0) (x 1) SP (16 * 0);
    STP (x 2) (x 3) SP (16 * 1);
    STP (x 4) (x 5) SP (16 * 2);
    STP (x 6) (x 7) SP (16 * 3);
    STP (x 8) (x 9) SP (16 * 4);
    STP (x 10) (x 11) SP (16 * 5);
    STP (x 12) (x 13) SP (16 * 6);
    STP (x 14) (x 15) SP (16 * 7);
    STP (x 16) (x 17) SP (16 * 8);
    STP (x 18) (x 19) SP (16 * 9);
    STP (x 20) (x 21) SP (16 * 10);
    STP (x 22) (x 23) SP (16 * 11);
    STP (x 24) (x 25) SP (16 * 12);
    STP (x 26) (x 27) SP (16 * 13);
    STP (x 28) (x 29) SP (16 * 14);
    MRS (x 21) sp_el0;
    STP (x 30) (x 21) SP (16 * 15);
    MRS (x 21) spsr_el1;
    MRS (x 22) elr_el1;
    STP (x 21) (x 22) SP (16 * 16) ].

(* [src/src/exception_.S:70-95 load_all] *)
Definition load_all : list instr :=
  [ LDP (x 30) (x 21) SP (16 * 15);
    MSR sp_el0 (x 21);
    LDP (x 21) (x 22) SP (16 * 16);
    MSR spsr_el1 (x 21);
    MSR elr_el1 (x 22);
    LDP (x 0) (x 1) SP (16 * 0);
    LDP (x 2) (x 3) SP (16 * 1);
    LDP (x 4) (x 5) SP (16 * 2);
    LDP (x 6) (x 7) SP (16 * 3);
    LDP (x 8) (x 9) SP (16 * 4);
    LDP (x 10) (x 11) SP (16 * 5);
    LDP (x 12) (x 13) SP (16 * 6);
    LDP (x 14) (x 15) SP (16 * 7);
    LDP (x 16) (x 17) SP (16 * 8);
    LDP (x 18) (x 19) SP (16 * 9);
    LDP (x 20) (x 21) SP (16 * 10);
    LDP (x 22) (x 23) SP (16 * 11);
    LDP (x 24) (x 25) SP (16 * 12);
    LDP (x 26) (x 27) SP (16 * 13);
    LDP (x 28) (x 29) SP (16 * 14);
    LDR (x 30) SP (16 * 15);
    ADD SP SP (34 * 8) ].

(** * The handlers *)

Section Handlers.
Variables (svc_handler irq_router invalid_exception_handler : M cpu unit).
Context (symbol : String.string -> Z).

(* [src/src/exception_.S:147-156 exception_handler] *)
Definition exception_handler : M cpu unit :=
  _ ← exec (save_all ++
    [ MRS (x 0) esr_el1;
      MRS (x 1) elr_el1;
      MRS (x 2) spsr_el1;
      MRS (x 3) far_el1;
      MOVR (x 4) SP ]);
  _ ← bl (symbol "exception_handler+back") svc_handler;
  _ ← exec load_all;
  eret.

(* [src/src/exception_.S:158-167 irq_handler] *)
Definition irq_handler : M cpu unit :=
  _ ← exec (save_all ++
    [ MRS (x 0) esr_el1;
      MRS (x 1) elr_el1;
      MRS (x 2) spsr_el1;
      MRS (x 3) far_el1 ]);
  _ ← bl (symbol "irq_handler+back") irq_router;
  _ ← exec load_all;
  eret.

(* [src/src/exception_.S:169-170 non_handler] *)
Definition non_handler : M cpu unit := invalid_exception_handler.

(** Each entry is a branch, at a multiple of [0x80]. *)
(* [src/src/exception_.S:97-138 exception_vector_table] *)
Definition exception_vector_table : list (M cpu unit) :=
  [ exception_handler; non_handler; non_handler; non_handler;
    exception_handler; irq_handler; non_handler; non_handler;
    exception_handler; irq_handler; non_handler; non_handler;
    non_handler; non_handler; non_handler; non_handler ].

(** An exception is taken: the processor branches to the entry of its kind. *)
Definition take_exception (e : exception) (back esr far : Z) : M cpu unit :=
  g ← gets (fun c => group (c_pstate c));
  _ ← enter back esr far;
  f ← lift_opt OutOfBounds exception_vector_table.[4 * g + slot e];
  f.

(** [svc]: the immediate is in the syndrome, and the handler goes back to [back], the next
    instruction. *)
Definition svc (n back : Z) : M cpu unit := take_exception Synchronous back (Z.lor (Z.shiftl 21 26) (Z.lor (2 ^ 25) n)) 0.

(** ** The system call functions *)

Definition stub (num : Z) (name : String.string) : M cpu unit :=
  _ ← step (MOV (x 8) num);
  _ ← svc 0 (symbol (String.append name "+8"));
  ret.

(* [src/src/syscall_.S:3-7 get_taskid] *)
Definition get_taskid : M cpu unit := stub 0 "get_taskid".
(* [src/src/syscall_.S:9-13 uart_read] *)
Definition uart_read : M cpu unit := stub 1 "uart_read".
(* [src/src/syscall_.S:15-19 uart_write] *)
Definition uart_write : M cpu unit := stub 2 "uart_write".
(* [src/src/syscall_.S:21-25 exec] *)
Definition exec_ : M cpu unit := stub 3 "exec".
(* [src/src/syscall_.S:27-31 fork] *)
Definition fork : M cpu unit := stub 4 "fork".
(* [src/src/syscall_.S:33-37 exit] *)
Definition exit_ : M cpu unit := stub 5 "exit".
(* [src/src/syscall_.S:39-43 mailbox_call] *)
Definition mailbox_call : M cpu unit := stub 6 "mailbox_call".
(* [src/src/syscall_.S:45-49 kill] *)
Definition kill : M cpu unit := stub 7 "kill".
(* [src/src/syscall_.S:51-55 sigreturn] *)
Definition sigreturn : M cpu unit := stub 10 "sigreturn".
(* [src/src/syscall_.S:57-61 open] *)
Definition open_ : M cpu unit := stub 11 "open".
(* [src/src/syscall_.S:63-67 close] *)
Definition close_ : M cpu unit := stub 12 "close".
(* [src/src/syscall_.S:69-73 write] *)
Definition write_ : M cpu unit := stub 13 "write".
(* [src/src/syscall_.S:75-79 read] *)
Definition read_ : M cpu unit := stub 14 "read".
(* [src/src/syscall_.S:81-85 mkdir] *)
Definition mkdir : M cpu unit := stub 15 "mkdir".
(* [src/src/syscall_.S:87-91 mount] *)
Definition mount_ : M cpu unit := stub 16 "mount".
(* [src/src/syscall_.S:93-97 chdir] *)
Definition chdir : M cpu unit := stub 17 "chdir".

(** ** Changes of the exception level *)

(* [src/src/exception_.S:3-24 from_el2_to_el1] *)
Definition from_el2_to_el1 : M cpu unit :=
  _ ← exec
    [ MOV (x 0) (Z.shiftl 1 31);
      MSR hcr_el2 (x 0);
      MOV (x 0) 0x3c5;
      MSR spsr_el2 (x 0);
      MSR elr_el2 lr;
      MOV (x 0) (symbol "_start");
      MSR sp_el1 (x 0) ];
  eret_el2.

(* [src/src/exception_.S:27-39 move_to_user_mode] *)
Definition move_to_user_mode : M cpu unit :=
  _ ← exec
    [ MOV (x 0) 0x70000;
      MSR sp_el0 (x 0);
      MOV (x 1) 0;
      MSR spsr_el1 (x 1);
      MOVR (x 1) lr;
      AND (x 1) (x 1) 0xffffffffffff;
      MSR elr_el1 (x 1) ];
  eret.

(** ** The current task and its registers *)

(* [src/src/sched_.S:2-5 update_current] *)
Definition update_current : M cpu unit := _ ← step (MSR tpidr_el1 (x 0)); ret.
(* [src/src/sched_.S:50-53 get_current] *)
Definition get_current : M cpu unit := _ ← step (MRS (x 0) tpidr_el1); ret.

(* [src/src/sched_.S:8-36 switch_to] *)
Definition switch_to : M cpu unit :=
  _ ← exec
    [ MOVR (x 9) SP;
      MRS (x 2) ttbr0_el1;
      STP (x 19) (x 20) (x 0) (16 * 0);
      STP (x 21) (x 22) (x 0) (16 * 1);
      STP (x 23) (x 24) (x 0) (16 * 2);
      STP (x 25) (x 26) (x 0) (16 * 3);
      STP (x 27) (x 28) (x 0) (16 * 4);
      STP fp lr (x 0) (16 * 5);
      STP (x 9) (x 2) (x 0) (16 * 6);
      LDP (x 19) (x 20) (x 1) (16 * 0);
      LDP (x 21) (x 22) (x 1) (16 * 1);
      LDP (x 23) (x 24) (x 1) (16 * 2);
      LDP (x 25) (x 26) (x 1) (16 * 3);
      LDP (x 27) (x 28) (x 1) (16 * 4);
      LDP fp lr (x 1) (16 * 5);
      LDP (x 9) (x 2) (x 1) (16 * 6);
      MOVR SP (x 9);
      BARRIER;
      MSR ttbr0_el1 (x 2);
      BARRIER; BARRIER; BARRIER ];
  ret.

(* [src/src/sched_.S:38-48 sig_restore_context] *)
Definition sig_restore_context : M cpu unit :=
  _ ← exec
    [ LDP (x 19) (x 20) (x 0) (16 * 0);
      LDP (x 21) (x 22) (x 0) (16 * 1);
      LDP (x 23) (x 24) (x 0) (16 * 2);
      LDP (x 25) (x 26) (x 0) (16 * 3);
      LDP (x 27) (x 28) (x 0) (16 * 4);
      LDP fp lr (x 0) (16 * 5);
      LDR (x 9) (x 0) (16 * 6);
      MOVR SP (x 9) ];
  ret.

(* [src/src/exception_.S:140-144 set_exception_vector_table] *)
Definition set_exception_vector_table : M cpu unit :=
  _ ← exec [ MOV (x 0) (symbol "exception_vector_table"); MSR vbar_el1 (x 0) ]; ret.

(* [src/src/exception_.S:172-175 exit_kernel] *)
Definition exit_kernel : M cpu unit := _ ← exec load_all; eret.

(* [src/src/exception_.S:177-180 disable_interrupt] *)
Definition disable_interrupt : M cpu unit := _ ← exec [ DAIFSET 0xf ]; ret.
(* [src/src/exception_.S:182-185 enable_interrupt] *)
Definition enable_interrupt : M cpu unit := _ ← exec [ DAIFCLR 0xf ]; ret.
(* [src/src/exception_.S:187-190 enable_irq] *)
Definition enable_irq : M cpu unit := _ ← exec [ DAIFCLR 0x2 ]; ret.
(* [src/src/exception_.S:192-195 disable_irq] *)
Definition disable_irq : M cpu unit := _ ← exec [ DAIFSET 0x2 ]; ret.

(** The interrupt control of the core is a word of the memory. *)
(* [src/src/timer_.S:1-1 CORE0_TIMER_IRQ_CTRL] *)
Definition CORE0_TIMER_IRQ_CTRL : Z := 0x40000040.
(* [src/src/timer_.S:3-19 core_timer_enable] *)
Definition core_timer_enable : M cpu unit :=
  _ ← exec
    [ MOV (x 0) 1;
      MSR cntp_ctl_el0 (x 0);
      MRS (x 0) cntkctl_el1;
      ORR (x 0) (x 0) 1;
      MSR cntkctl_el1 (x 0);
      MRS (x 0) cntfrq_el0;
      LSR (x 0) (x 0) 5;
      MSR cntp_tval_el0 (x 0);
      MOV (x 0) 2;
      MOV (x 1) CORE0_TIMER_IRQ_CTRL;
      STR (x 0) (x 1) 0 ];
  ret.
End Handlers.
