(* ===== verification/EntrySpec.v ===== *)
(** What goes into the kernel comes out of it: an interrupt is invisible to what it
    interrupts, a system call changes the registers that carry its number and its result,
    and switching tasks exchanges the registers a C function keeps. *)
From Stdlib Require Import String.
From stdpp Require Import functions.
From S2P Require Import Prelude Sched Asm Entry.

(** * Double words in memory *)

Definition words_at (m : gmap Z Z) (p : Z) (l : list Z) : Prop :=
  forall i v, l !! i = Some v -> m !! (p + 8 * Z.of_nat i) = Some v.

Definition mapped (m : gmap Z Z) (p : Z) (n : nat) : Prop :=
  forall i, (i < n)%nat -> is_Some (m !! (p + 8 * Z.of_nat i)).

(** Between [p] and its end there is no wrap-around. *)
Definition fits (p : Z) (n : nat) : Prop := 0 <= p /\ p + 8 * Z.of_nat n < 2 ^ 64.

Fixpoint put_words (m : gmap Z Z) (p : Z) (l : list Z) : gmap Z Z :=
  match l with
  | [] => m
  | v :: l => put_words (<[p := v]> m) (p + 8) l
  end.

Lemma words_at_cons m p v l : words_at m p (v :: l) <-> m !! p = Some v /\ words_at m (p + 8) l.
Proof.
  split.
  - intros H. split; [rewrite <-(H 0%nat v eq_refl); f_equal; lia|]. intros i w Hi.
    rewrite <-(H (S i) w Hi). f_equal. lia.
  - intros [H0 H] [|i] w Hi; [cbn in Hi; simplify_eq; rewrite <-H0; f_equal; lia|].
    rewrite <-(H i w Hi). f_equal. lia.
Qed.

Lemma put_words_before m p l a : a < p -> put_words m p l !! a = m !! a.
Proof.
  revert m p. induction l as [|v l IH]; intros m p Ha; [done|]. cbn [put_words]. rewrite IH by lia.
  by rewrite lookup_insert_ne by lia.
Qed.

Lemma put_words_after m p l a : p + 8 * Z.of_nat (length l) <= a -> put_words m p l !! a = m !! a.
Proof.
  revert m p. induction l as [|v l IH]; intros m p Ha; [done|]. cbn [put_words length] in *. rewrite IH by lia.
  by rewrite lookup_insert_ne by lia.
Qed.

Lemma put_words_at m p l : words_at (put_words m p l) p l.
Proof.
  revert m p. induction l as [|v l IH]; intros m p; [by intros i w Hi|]. apply words_at_cons. split; [|apply IH].
  cbn [put_words]. rewrite put_words_before by lia. apply lookup_insert_eq.
Qed.

Lemma put_words_app m p l1 l2 : put_words m p (l1 ++ l2) = put_words (put_words m p l1) (p + 8 * Z.of_nat (length l1)) l2.
Proof.
  revert m p. induction l1 as [|v l1 IH]; intros m p; cbn [app put_words length]; [f_equal; lia|]. rewrite IH. f_equal. lia.
Qed.

Lemma put_words_mapped m p l q n : mapped m q n -> mapped (put_words m p l) q n.
Proof.
  revert m p. induction l as [|v l IH]; intros m p H; [done|]. cbn [put_words]. apply IH. intros i Hi.
  destruct (decide (p = q + 8 * Z.of_nat i)) as [->|]; [rewrite lookup_insert_eq; by eexists|].
  rewrite lookup_insert_ne by done. by apply H.
Qed.

Lemma mapped_drop m p n k : (k <= n)%nat -> mapped m p n -> mapped m (p + 8 * Z.of_nat k) (n - k).
Proof. intros Hk H i Hi. destruct (H (k + i)%nat ltac:(lia)) as [v Hv]. exists v. rewrite <-Hv. f_equal. lia. Qed.

Lemma words_at_insert m p l k v : words_at m p l -> (k < length l)%nat -> words_at (<[p + 8 * Z.of_nat k := v]> m) p (<[k := v]> l).
Proof.
  intros H Hk i w Hi. apply list_lookup_insert_Some in Hi as [(-> & -> & _)|(Hne & Hi)]; [apply lookup_insert_eq|].
  rewrite lookup_insert_ne by lia. by apply H.
Qed.

(** * Runs of pairs *)

Fixpoint stps (b : reg) (k : Z) (l : list (reg * reg)) : list instr :=
  match l with [] => [] | (r1, r2) :: l => STP r1 r2 b (16 * k) :: stps b (k + 1) l end.
Fixpoint ldps (b : reg) (k : Z) (l : list (nat * nat)) : list instr :=
  match l with [] => [] | (n1, n2) :: l => LDP (x n1) (x n2) b (16 * k) :: ldps b (k + 1) l end.

Definition values (c : cpu) (l : list (reg * reg)) : list Z := flat_map (fun r => [rd r.1 c; rd r.2 c]) l.

Lemma load_ok a v c : 0 <= a < 2 ^ 64 -> c_mem c !! a = Some v -> load a c = Ok (v, c).
Proof. intros Ha E. unfold load. by rewrite u64_small, E. Qed.

Lemma store_ok a v c : 0 <= a < 2 ^ 64 -> is_Some (c_mem c !! a) -> store a v c = Ok (tt, set_mem (<[a := v]> (c_mem c)) c).
Proof. intros Ha [w E]. unfold store. by rewrite u64_small, E. Qed.

Lemma rd_mem r m c : rd r (set_mem m c) = rd r c.
Proof. by destruct r. Qed.

Lemma values_mem l m c : values (set_mem m c) l = values c l.
Proof. unfold values. induction l as [|[r1 r2] l IH]; [done|]. cbn [flat_map fst snd]. by rewrite !rd_mem, IH. Qed.

Lemma stp_ok r1 r2 b off c p : rd b c = p -> fits (p + off) 2 -> mapped (c_mem c) (p + off) 2 ->
  step (STP r1 r2 b off) c = Ok (tt, set_mem (put_words (c_mem c) (p + off) [rd r1 c; rd r2 c]) c).
Proof.
  intros Ep [H0 H1] Hm. cbn [step]. run (gets_ok (rd b) c). run (gets_ok (rd r1) c). run (gets_ok (rd r2) c). rewrite Ep.
  pose proof (Hm 0%nat ltac:(lia)) as M0. pose proof (Hm 1%nat ltac:(lia)) as M1.
  replace (p + off + 8 * Z.of_nat 0) with (p + off) in M0 by lia. replace (p + off + 8 * Z.of_nat 1) with (p + off + 8) in M1 by lia.
  run (store_ok (p + off) (rd r1 c) c ltac:(lia) M0). rewrite store_ok; [done|lia|].
  cbn [c_mem set_mem]. by rewrite lookup_insert_ne by lia.
Qed.

Lemma stps_ok b l : forall k c p, rd b c = p -> 0 <= k -> fits (p + 16 * k) (2 * length l) ->
  mapped (c_mem c) (p + 16 * k) (2 * length l) ->
  exec (stps b k l) c = Ok (tt, set_mem (put_words (c_mem c) (p + 16 * k) (values c l)) c).
Proof.
  induction l as [|[r1 r2] l IH]; intros k c p Ep Hk Hf Hm; [by destruct c|]. cbn [stps length] in *. unfold fits in Hf.
  eapply exec_step. { apply (stp_ok r1 r2 b _ c p); [done|unfold fits; lia|]. intros i Hi. apply Hm. lia. }
  rewrite (IH (k + 1) _ p); [|by rewrite rd_mem|lia|unfold fits; lia|].
  - rewrite values_mem. by replace (p + 16 * (k + 1)) with (p + 16 * k + 8 + 8) by lia.
  - cbn [c_mem set_mem]. apply put_words_mapped. replace (p + 16 * (k + 1)) with (p + 16 * k + 8 * Z.of_nat 2) by lia.
    replace (2 * length l)%nat with (2 * S (length l) - 2)%nat by lia. apply mapped_drop; [lia|done].
Qed.

(** Registers set one after the other. *)
Fixpoint put_regs (ns : list nat) (vs : list Z) (c : cpu) : cpu :=
  match ns, vs with
  | n :: ns, v :: vs => put_regs ns vs (set_x n v c)
  | _, _ => c
  end.

Lemma put_regs_other ns vs c n : n ∉ ns -> c_x (put_regs ns vs c) n = c_x c n.
Proof.
  revert vs c. induction ns as [|k ns IH]; intros [|v vs] c Hn; try done. apply not_elem_of_cons in Hn as [? ?].
  cbn [put_regs]. rewrite IH by done. cbn. by rewrite fn_lookup_insert_ne.
Qed.

Lemma put_regs_lookup ns vs c i n v : NoDup ns -> ns !! i = Some n -> vs !! i = Some v -> c_x (put_regs ns vs c) n = u64 v.
Proof.
  intros Hd. revert vs c i. induction Hd as [|k ns Hk Hd IH]; intros [|w vs] c [|i] Hi Hv; simplify_eq/=.
  - rewrite put_regs_other by done. cbn. by rewrite fn_lookup_insert.
  - by apply (IH vs _ i).
Qed.

Lemma put_regs_rest ns vs c : let c' := put_regs ns vs c in
  c_sys c' = c_sys c /\ c_pc c' = c_pc c /\ c_pstate c' = c_pstate c /\ c_mem c' = c_mem c.
Proof. revert vs c. induction ns as [|n ns IH]; intros [|v vs] c; try done. apply (IH vs (set_x n v c)). Qed.

Lemma ldp_ok n1 n2 b off c p v1 v2 : rd b c = p -> fits (p + off) 2 -> words_at (c_mem c) (p + off) [v1; v2] ->
  step (LDP (x n1) (x n2) b off) c = Ok (tt, put_regs [n1; n2] [v1; v2] c).
Proof.
  intros Ep [H0 H1] [M0 [M1 _]%words_at_cons]%words_at_cons. cbn [step]. run (gets_ok (rd b) c). rewrite Ep.
  run (load_ok (p + off) v1 c ltac:(lia) M0). by run (load_ok (p + off + 8) v2 c ltac:(lia) M1).
Qed.

Definition names (l : list (nat * nat)) : list nat := flat_map (fun n => [n.1; n.2]) l.

(** The base is not loaded. *)
Definition keeps_base (b : reg) (ns : list nat) : Prop := match b with x n => n ∉ ns | _ => True end.

Lemma ldps_ok b l : forall k c p vs, rd b c = p -> keeps_base b (names l) -> fits (p + 16 * k) (2 * length l) ->
  length vs = (2 * length l)%nat -> words_at (c_mem c) (p + 16 * k) vs ->
  exec (ldps b k l) c = Ok (tt, put_regs (names l) vs c).
Proof.
  induction l as [|[n1 n2] l IH]; intros k c p vs Ep Hb Hf Hl Hw; [by destruct vs|]. destruct vs as [|v1 [|v2 vs]]; [done|cbn in Hl; lia|].
  cbn [ldps length names flat_map fst snd app] in *. unfold fits in Hf.
  apply words_at_cons in Hw as [W1 Hw]. apply words_at_cons in Hw as [W2 Hw].
  eapply exec_step.
  { apply (ldp_ok n1 n2 b _ c p v1 v2 Ep); [unfold fits; lia|]. apply words_at_cons. split; [done|]. apply words_at_cons. split; [done|]. by intros i w Hi. }
  rewrite (IH (k + 1) _ p vs); [done| | |unfold fits; lia|lia|].
  - rewrite <-Ep. destruct b as [n| |]; try done. cbn in Hb |- *. apply not_elem_of_cons in Hb as [? [? _]%not_elem_of_cons].
    by rewrite !fn_lookup_insert_ne.
  - destruct b as [n| |]; try done. cbn in Hb |- *. by apply not_elem_of_cons in Hb as [_ [_ ?]%not_elem_of_cons].
  - cbn [c_mem put_regs set_x]. by replace (p + 16 * (k + 1)) with (p + 16 * k + 8 + 8) by lia.
Qed.

(** * Saving and loading *)

Definition word (v : Z) : Prop := 0 <= v < 2 ^ 64.

(** What a trap frame holds of a processor: [x[31]], [sp], [pstate], [pc]. *)
Definition frame_of (c : cpu) : list Z := map (c_x c) (seq 0 31) ++ [c_sys c sp_el0; c_sys c spsr_el1; c_sys c elr_el1].

(** What a program sees of it. *)
Definition visible (c : cpu) : list Z := map (c_x c) (seq 0 31) ++ [c_sys c sp_el0; c_pstate c; c_pc c].

(** The processor uses the stack of the exception level 1, at [p]. *)
Definition stack_at (p : Z) (c : cpu) : Prop := cur_sp (c_pstate c) = sp_el1 /\ c_sys c sp_el1 = p.

Definition saved (p : Z) (c : cpu) : cpu :=
  set_mem (put_words (c_mem c) p (frame_of c))
    (put_regs [21; 21; 22]%nat [c_sys c sp_el0; c_sys c spsr_el1; c_sys c elr_el1] (set_sys sp_el1 p c)).

Definition pairs : list (nat * nat) := map (fun k => (2 * k, 2 * k + 1)%nat) (seq 0 15).

Lemma save_all_eq :
  save_all = SUB SP SP 272 :: stps SP 0 (map (fun n => (x n.1, x n.2)) pairs) ++ MRS (x 21) sp_el0 ::
    stps SP 15 [(x 30, x 21)] ++ MRS (x 21) spsr_el1 :: MRS (x 22) elr_el1 :: stps SP 16 [(x 21, x 22)].
Proof. reflexivity. Qed.

Lemma load_all_eq :
  load_all = ldps SP 15 [(30, 21)]%nat ++ MSR sp_el0 (x 21) :: ldps SP 16 [(21, 22)]%nat ++ MSR spsr_el1 (x 21) :: MSR elr_el1 (x 22) ::
    ldps SP 0 pairs ++ [LDR (x 30) SP 240; ADD SP SP 272].
Proof. reflexivity. Qed.

Lemma stack_rd p c : stack_at p c -> rd SP c = p.
Proof. intros [E E']. cbn. by rewrite E. Qed.

Lemma mapped_part m p n q k j : q = p + 8 * Z.of_nat k -> (k + j <= n)%nat -> mapped m p n -> mapped m q j.
Proof. intros -> Hk H i Hi. apply (mapped_drop m p n k ltac:(lia) H). lia. Qed.

Lemma save_all_ok p c : stack_at (p + 272) c -> fits p 34 -> mapped (c_mem c) p 34 -> Forall word (frame_of c) ->
  exec save_all c = Ok (tt, saved p c).
Proof.
  intros [Ec Es] [H0 H1] Hm Hw.
  assert (Hword : word (c_sys c sp_el0) /\ word (c_sys c spsr_el1) /\ word (c_sys c elr_el1)).
  { unfold frame_of in Hw. apply Forall_app in Hw as [_ Hw]. repeat (apply Forall_cons in Hw as [? Hw]). done. }
  destruct Hword as (W1 & W2 & W3). rewrite save_all_eq.
  set (c1 := set_sys sp_el1 p c). assert (S1 : forall ns vs m, rd SP (set_mem m (put_regs ns vs c1)) = p).
  { intros ns vs m. destruct (put_regs_rest ns vs c1) as (E1 & _ & E3 & _). cbn in *. rewrite E1, E3, Ec. cbn. rewrite fn_lookup_insert. apply u64_small. lia. }
  eapply exec_step.
  { cbn [step]. unfold modify. rewrite (stack_rd _ c (conj Ec Es)). cbn [wr]. rewrite Ec. replace (p + 272 - 272) with p by lia. reflexivity. }
  fold c1. eapply exec_bind. { apply (stps_ok SP _ 0 c1 p); [apply (S1 [] [])|lia|unfold fits; cbn; lia|]. apply (mapped_part _ p 34 _ 0); [lia|cbn; lia|exact Hm]. }
  eapply exec_step; [reflexivity|].
  eapply exec_bind.
  { apply (stps_ok SP _ 15 _ p); [apply (S1 [21%nat] [c_sys c sp_el0])|lia|unfold fits; cbn; lia|].
    apply put_words_mapped. apply (mapped_part _ p 34 _ 30); [lia|cbn; lia|exact Hm]. }
  eapply exec_step; [reflexivity|]. eapply exec_step; [reflexivity|].
  etrans.
  { apply (stps_ok SP _ 16 _ p); [apply (S1 [21; 21; 22]%nat [c_sys c sp_el0; c_sys c spsr_el1; c_sys c elr_el1])|lia|unfold fits; cbn; lia|].
    apply put_words_mapped, put_words_mapped. apply (mapped_part _ p 34 _ 32); [lia|cbn; lia|exact Hm]. }
  transitivity (Ok (tt, set_mem (put_words (put_words (put_words (c_mem c) (p + 16 * 0) (map (c_x c) (seq 0 30)))
    (p + 16 * 15) [c_x c 30; u64 (c_sys c sp_el0)]) (p + 16 * 16) [u64 (c_sys c spsr_el1); u64 (c_sys c elr_el1)])
    (put_regs [21; 21; 22]%nat [c_sys c sp_el0; c_sys c spsr_el1; c_sys c elr_el1] c1))); [reflexivity|].
  rewrite !u64_small by done. unfold saved. do 3 f_equal. unfold frame_of.
  change (map (c_x c) (seq 0 31)) with (map (c_x c) (seq 0 30) ++ [c_x c 30]). rewrite <-app_assoc, !(put_words_app _ p (map (c_x c) (seq 0 30))), length_map, length_seq.
  replace (p + 16 * 0) with p by lia. by replace (p + 16 * 15) with (p + 8 * Z.of_nat 30) by lia; replace (p + 16 * 16) with (p + 8 * Z.of_nat 30 + 8 + 8) by lia.
Qed.

Lemma words_part m p l q k l' : q = p + 8 * Z.of_nat k -> l' = take (length l') (drop k l) -> words_at m p l -> words_at m q l'.
Proof.
  intros -> E H i v Hi. rewrite E, lookup_take_Some, lookup_drop in Hi. destruct Hi as [Hi _].
  rewrite <-(H _ _ Hi). f_equal. lia.
Qed.

(** The processor after it loaded the frame [l], which ends in the words [a], [b], [c], [d]. *)
Definition loaded (p : Z) (l : list Z) (vlr vsp vpstate vpc : Z) (c : cpu) : cpu :=
  set_sys sp_el1 (p + 272) (set_x 30 vlr (put_regs (names pairs) l (set_sys elr_el1 (u64 vpc) (set_sys spsr_el1 (u64 vpstate)
    (put_regs [21; 22]%nat [vpstate; vpc] (set_sys sp_el0 (u64 vsp) (put_regs [30; 21]%nat [vlr; vsp] c))))))).

Lemma load_all_exec p l vlr vsp vpstate vpc c : stack_at p c -> fits p 34 -> length l = 30%nat ->
  words_at (c_mem c) p (l ++ [vlr; vsp; vpstate; vpc]) ->
  exec load_all c = Ok (tt, loaded p l vlr vsp vpstate vpc c).
Proof.
  intros [Ec Es] [H0 H1] Hl Hw. rewrite load_all_eq.
  assert (S0 : forall d : cpu, c_pstate d = c_pstate c -> c_sys d sp_el1 = c_sys c sp_el1 -> rd SP d = p).
  { intros d E1 E2. cbn. by rewrite E1, Ec, E2. }
  eapply exec_bind.
  { apply (ldps_ok SP [(30, 21)]%nat 15 c p [vlr; vsp]); [by apply S0|done|unfold fits; cbn; lia|done|].
    apply (words_part _ p (l ++ [vlr; vsp; vpstate; vpc]) _ 30); [lia| |exact Hw]. by rewrite <-Hl, drop_app_length. }
  eapply exec_step; [reflexivity|].
  eapply exec_bind.
  { apply (ldps_ok SP [(21, 22)]%nat 16 _ p [vpstate; vpc]); [by apply S0|done|unfold fits; cbn; lia|done|].
    apply (words_part _ p (l ++ [vlr; vsp; vpstate; vpc]) _ 32); [lia| |exact Hw]. change 32%nat with (30 + 2)%nat. by rewrite <-Hl, <-drop_drop, drop_app_length. }
  eapply exec_step; [reflexivity|]. eapply exec_step; [reflexivity|].
  set (c5 := set_sys elr_el1 _ _).
  eapply exec_bind.
  { apply (ldps_ok SP pairs 0 c5 p l); [by apply S0|done|unfold fits; cbn; lia|done|].
    apply (words_part _ p (l ++ [vlr; vsp; vpstate; vpc]) _ 0); [lia| |exact Hw]. by rewrite drop_0, take_app_length. }
  destruct (put_regs_rest (names pairs) l c5) as (E1 & _ & E3 & E4).
  eapply exec_step.
  { cbn [step]. run (gets_ok (rd SP) (put_regs (names pairs) l c5)). rewrite (S0 (put_regs (names pairs) l c5)) by (by rewrite ?E1, ?E3).
    rewrite (bind_ok _ _ _ vlr (put_regs (names pairs) l c5)); [reflexivity|]. apply load_ok; [lia|]. rewrite E4.
    replace (p + 240) with (p + 8 * Z.of_nat 30) by lia. apply Hw. rewrite lookup_app_r by lia. by rewrite Hl. }
  eapply exec_step; [|reflexivity]. cbn [step]. unfold modify.
  set (c6 := set_x 30 vlr (put_regs (names pairs) l c5)). change (wr (x 30) vlr (put_regs (names pairs) l c5)) with c6.
  assert (E5 : c_pstate c6 = c_pstate c) by exact E3. rewrite (S0 c6 E5 (f_equal (fun f => f sp_el1) E1)).
  cbn [wr]. by rewrite E5, Ec.
Qed.

Lemma put_regs_map ns vs c : NoDup ns -> length vs = length ns -> map (c_x (put_regs ns vs c)) ns = map u64 vs.
Proof.
  intros Hd Hl. apply list_eq. intros i. rewrite !list_lookup_fmap.
  destruct (ns !! i) as [n|] eqn:En; cbn.
  - destruct (lookup_lt_is_Some_2 vs i) as [v Ev]; [rewrite Hl; by eapply lookup_lt_Some|]. rewrite Ev. cbn.
    by rewrite (put_regs_lookup ns vs c i n v).
  - by rewrite lookup_ge_None_2; [|rewrite Hl; apply lookup_ge_None].
Qed.

Lemma tail4 {A} (l : list A) n : length l = (n + 4)%nat -> exists l0 a b c d, l = l0 ++ [a; b; c; d] /\ length l0 = n.
Proof.
  intros Hl. rewrite <-(take_drop n l). assert (Hd : length (drop n l) = 4%nat) by (rewrite length_drop; lia).
  destruct (drop n l) as [|a [|b [|c [|d [|]]]]]; try done. exists (take n l), a, b, c, d. split; [done|]. rewrite length_take. lia.
Qed.

Lemma u64_u64 v : u64 (u64 v) = u64 v.
Proof. apply u64_small, u64_range. Qed.

(** Loading a frame; the stack pointer is moved back. *)
Lemma load_all_ok p l c : stack_at p c -> fits p 34 -> length l = 34%nat -> words_at (c_mem c) p l ->
  exists c', exec load_all c = Ok (tt, c') /\ frame_of c' = map u64 l /\ c_sys c' sp_el1 = u64 (p + 272) /\
    c_mem c' = c_mem c /\ c_pstate c' = c_pstate c /\ c_pc c' = c_pc c.
Proof.
  intros Hs Hf Hl Hw. destruct (tail4 l 30 Hl) as (l0 & a & b & d & e & -> & Hl0).
  exists (loaded p l0 a b d e c). split; [by apply load_all_exec|]. unfold loaded. set (c5 := set_sys elr_el1 _ _).
  destruct (put_regs_rest (names pairs) l0 c5) as (E1 & E2 & E3 & E4).
  split_and!; [|reflexivity|exact E4|exact E3|exact E2].
  unfold frame_of. change (seq 0 31) with (names pairs ++ [30%nat]). rewrite !map_app, <-app_assoc. f_equal.
  - rewrite <-(put_regs_map (names pairs) l0 c5); [|by apply (bool_decide_unpack _)|done].
    apply map_ext_in. intros n Hn. change (names pairs) with (seq 0 30) in Hn. cbn [c_x set_sys set_x]. apply fn_lookup_insert_ne. intros <-.
    apply in_seq in Hn. lia.
  - transitivity [u64 a; c_sys c5 sp_el0; c_sys c5 spsr_el1; c_sys c5 elr_el1]; [by rewrite <-E1|].
    cbn. by rewrite !u64_u64.
Qed.

(** * Into the kernel and back *)

(** What the two handlers have in common: [pre] passes the arguments to the function [h]. *)
Definition trap (pre : list instr) (back : Z) (h : M cpu unit) : M cpu unit :=
  _ ← exec (save_all ++ pre); _ ← bl back h; _ ← exec load_all; eret.

(** The registers that go back are those of the frame [l] the function leaves. *)
Lemma trap_ok p c pre c1 back h c2 l :
  stack_at (p + 272) c -> fits p 34 -> mapped (c_mem c) p 34 -> Forall word (frame_of c) ->
  exec pre (saved p c) = Ok (tt, c1) -> h (wr lr back c1) = Ok (tt, c2) ->
  stack_at p c2 -> length l = 34%nat -> words_at (c_mem c2) p l -> Forall word l ->
  exists c3, trap pre back h c = Ok (tt, c3) /\ visible c3 = l /\ c_sys c3 sp_el1 = p + 272 /\ c_mem c3 = c_mem c2.
Proof.
  intros Hs Hf Hm Hw Epre Eh Hs2 Hl Hl2 Hwl. unfold trap.
  assert (E1 : exec (save_all ++ pre) c = Ok (tt, c1)).
  { eapply exec_bind; [by apply save_all_ok|done]. }
  run E1. rewrite (bind_ok _ _ c1 tt c2) by exact Eh.
  destruct (load_all_ok p l c2 Hs2 Hf Hl Hl2) as (c' & E & Hfr & Hsp & Hme & _ & _). run E.
  exists (set_pc (c_sys c' elr_el1) (set_pstate (c_sys c' spsr_el1) c')). split; [done|]. split; [|split; [|done]].
  - change (frame_of c' = l). rewrite Hfr. clear -Hwl. induction Hwl as [|v l Hv _ IH]; [done|]. cbn. rewrite IH. by rewrite u64_small.
  - cbn. rewrite Hsp. apply u64_small. unfold fits in Hf. lia.
Qed.

(** The processor when it enters the handler. *)
Definition entered (back esr far : Z) (c : cpu) : cpu :=
  set_pstate (Z.lor EL1h 0x3C0) (set_sys spsr_el1 (c_pstate c) (set_sys elr_el1 back (set_sys esr_el1 esr (set_sys far_el1 far c)))).

Lemma entered_frame back esr far c : word (c_pstate c) -> word back ->
  frame_of (entered back esr far c) = visible (set_pc back c).
Proof.
  intros Hp Hb. unfold frame_of, visible. f_equal. cbn.
  by rewrite (u64_small (c_pstate c)), (u64_small back).
Qed.

Lemma saved_stack p c : 0 <= p < 2 ^ 64 -> stack_at (p + 272) c -> stack_at p (saved p c).
Proof. intros Hp [E _]. split; [exact E|]. cbn. by apply u64_small. Qed.

Section Traps.
Variables (svc_handler irq_router invalid_exception_handler : M cpu unit).
Context (symbol : String.string -> Z).
Abbreviation take_exception := (take_exception svc_handler irq_router invalid_exception_handler symbol).
Implicit Types (c : cpu) (p : Z).

(** A program, at the exception level 0 or in the kernel, that an exception can interrupt:
    below the kernel's stack pointer there is room for a frame. *)
Record interruptible p c : Prop := {
  int_level : el (c_pstate c) = 0 \/ el (c_pstate c) = 1 /\ Z.land (c_pstate c) 1 <> 0;
  int_stack : c_sys c sp_el1 = p + 272;
  int_fits : fits p 34;
  int_mapped : mapped (c_mem c) p 34;
  int_words : Forall word (visible c)
}.

Lemma int_entered p c back esr far : interruptible p c -> word back ->
  stack_at (p + 272) (entered back esr far c) /\ Forall word (frame_of (entered back esr far c)) /\ c_mem (entered back esr far c) = c_mem c.
Proof using Type.
  intros [Hl Hs Hf Hm Hw] Hb. split; [by split|]. split; [|done]. unfold visible in Hw. apply Forall_app in Hw as [Hx Hw].
  apply Forall_cons in Hw as [H1 Hw]. apply Forall_cons in Hw as [H2 _]. rewrite entered_frame by done.
  apply Forall_app. split; [exact Hx|]. repeat (apply Forall_cons; split; [done|]). by apply Forall_nil.
Qed.

Lemma irq_entry ps : el ps = 0 \/ el ps = 1 /\ Z.land ps 1 <> 0 ->
  (exception_vector_table svc_handler irq_router invalid_exception_handler symbol).[4 * group ps + slot Irq] =
    Some (irq_handler irq_router symbol).
Proof using Type.
  unfold group. intros [->|[-> H1]]; [done|]. by destruct (Z.eqb_spec (Z.land ps 1) 0).
Qed.

Lemma sync_entry ps : el ps = 0 ->
  (exception_vector_table svc_handler irq_router invalid_exception_handler symbol).[4 * group ps + slot Synchronous] =
    Some (exception_handler svc_handler symbol).
Proof using Type. unfold group. by intros ->. Qed.

Lemma handle e back esr far c f : (exception_vector_table svc_handler irq_router invalid_exception_handler symbol).[4 * group (c_pstate c) + slot e] = Some f ->
  take_exception e back esr far c = f (entered back esr far c).
Proof using Type. intros E. unfold Entry.take_exception, mbind, M_bind, lift_opt. cbn -[zget exception_vector_table]. by rewrite E. Qed.

(** An exception, from the program to the function that handles it and back. *)
Lemma handled e p c back esr far pre lab h c1 c2 l : let ce := entered back esr far c in
  interruptible p c -> word back ->
  (exception_vector_table svc_handler irq_router invalid_exception_handler symbol).[4 * group (c_pstate c) + slot e] = Some (trap pre lab h) ->
  exec pre (saved p ce) = Ok (tt, c1) -> h (wr lr lab c1) = Ok (tt, c2) ->
  stack_at p c2 -> length l = 34%nat -> words_at (c_mem c2) p l -> Forall word l ->
  exists c', take_exception e back esr far c = Ok (tt, c') /\ visible c' = l /\ c_sys c' sp_el1 = c_sys c sp_el1 /\ c_mem c' = c_mem c2.
Proof using Type.
  intros ce Hi Hb Ht Epre Eh Hs2 Hl Hw2 Hwl. destruct (int_entered p c back esr far Hi Hb) as (Hs & Hwe & Hme).
  rewrite (handle _ _ _ _ c _ Ht), (int_stack _ _ Hi).
  apply (trap_ok p ce pre c1 lab h c2 l Hs (int_fits _ _ Hi)); try done. exact (int_mapped _ _ Hi).
Qed.

(** The stack and the memory when the function is called. *)
Lemma called p c back esr far : interruptible p c -> word back -> let ce := entered back esr far c in
  stack_at p (saved p ce) /\ c_mem (saved p ce) = put_words (c_mem c) p (visible (set_pc back c)).
Proof using Type.
  intros Hi Hb ce. destruct (int_entered p c back esr far Hi Hb) as (Hs & _ & _). split.
  - apply saved_stack; [|done]. pose proof (int_fits _ _ Hi) as Hf. unfold fits in Hf. lia.
  - change (put_words (c_mem c) p (frame_of ce) = put_words (c_mem c) p (visible (set_pc back c))). f_equal. apply entered_frame; [|done].
    pose proof (int_words _ _ Hi) as Hw. unfold visible in Hw. apply Forall_app in Hw as [_ Hw]. repeat (apply Forall_cons in Hw as [? Hw]). done.
Qed.

Lemma visible_pc c : visible (set_pc (c_pc c) c) = visible c.
Proof using Type. done. Qed.

(** Passing arguments. *)
Lemma passed ns vs back d : let d' := wr lr back (put_regs ns vs d) in
  c_mem d' = c_mem d /\ (forall p, stack_at p d -> stack_at p d').
Proof using Type.
  destruct (put_regs_rest ns vs d) as (E1 & _ & E3 & E4). split; [exact E4|]. intros p [H1 H2].
  split; [change (cur_sp (c_pstate (put_regs ns vs d)) = sp_el1); by rewrite E3|].
  change (c_sys (put_regs ns vs d) sp_el1 = p). by rewrite E1.
Qed.

(** The registers a handler reads, as arguments. *)
Definition syndrome (d : cpu) : list Z := [c_sys d esr_el1; c_sys d elr_el1; c_sys d spsr_el1; c_sys d far_el1].

Lemma syndrome_ok d : exec [MRS (x 0) esr_el1; MRS (x 1) elr_el1; MRS (x 2) spsr_el1; MRS (x 3) far_el1] d =
  Ok (tt, put_regs [0; 1; 2; 3]%nat (syndrome d) d).
Proof using Type. reflexivity. Qed.

Lemma syndrome_sp_ok d : exec [MRS (x 0) esr_el1; MRS (x 1) elr_el1; MRS (x 2) spsr_el1; MRS (x 3) far_el1; MOVR (x 4) SP] d =
  Ok (tt, put_regs [0; 1; 2; 3; 4]%nat (syndrome d ++ [rd SP d]) d).
Proof using Type. reflexivity. Qed.

(** C33. An interrupt is invisible: whatever the program was doing, it goes on with the registers,
    the stack pointers, the program counter and the processor state it had, if the C
    function leaves the frame it was interrupted with; the memory is the one that function
    leaves. *)
Theorem irq_transparent p c esr far (Q : gmap Z Z -> Prop) :
  interruptible p c ->
  (forall c1, stack_at p c1 -> c_mem c1 = put_words (c_mem c) p (visible c) ->
    exists c2, irq_router c1 = Ok (tt, c2) /\ stack_at p c2 /\ words_at (c_mem c2) p (visible c) /\ Q (c_mem c2)) ->
  exists c', take_exception Irq (c_pc c) esr far c = Ok (tt, c') /\
    visible c' = visible c /\ c_sys c' sp_el1 = c_sys c sp_el1 /\ Q (c_mem c').
Proof using Type.
  intros Hi Hc. assert (Wpc : word (c_pc c)).
  { pose proof (int_words _ _ Hi) as Hw. unfold visible in Hw. apply Forall_app in Hw as [_ Hw]. repeat (apply Forall_cons in Hw as [? Hw]). done. }
  destruct (called p c (c_pc c) esr far Hi Wpc) as [Hs Hme]. set (ce := entered (c_pc c) esr far c) in *. rewrite visible_pc in Hme.
  destruct (passed [0; 1; 2; 3]%nat (syndrome (saved p ce)) (symbol "irq_handler+back") (saved p ce)) as [Pm Ps]. rewrite Hme in Pm.
  destruct (Hc _ (Ps p Hs) Pm) as (c2 & E2 & Hs2 & Hw2 & HQ).
  destruct (handled Irq p c (c_pc c) esr far _ (symbol "irq_handler+back") irq_router _ c2 (visible c) Hi Wpc (irq_entry _ (int_level _ _ Hi))
    (syndrome_ok _) E2 Hs2 eq_refl Hw2 (int_words _ _ Hi)) as (c' & E & Hv & Hsp & Hm). exists c'. rewrite Hm. done.
Qed.

(** C34. A system call function, called by a process, returns to its caller: [x0] holds what the
    handler put in the frame, [x8] the number of the call; every other register, the stack
    and the processor state are as they were.  The handler finds the frame at the address
    in [x4], with the registers of the process. *)
Theorem system_call_spec num name p c r (Q : gmap Z Z -> Prop) :
  let back := symbol (String.append name "+8") in
  let frame := <[33%nat := back]> (<[8%nat := num]> (visible c)) in
  interruptible p c -> el (c_pstate c) = 0 -> word num -> word back -> word r ->
  (forall c1, stack_at p c1 -> c_x c1 0 = 0x56000000 -> c_x c1 4 = p -> c_mem c1 = put_words (c_mem c) p frame ->
    exists c2, svc_handler c1 = Ok (tt, c2) /\ stack_at p c2 /\ words_at (c_mem c2) p (<[0%nat := r]> frame) /\ Q (c_mem c2)) ->
  exists c', stub svc_handler irq_router invalid_exception_handler symbol num name c = Ok (tt, c') /\
    visible c' = <[33%nat := c_x c 30]> (<[0%nat := r]> (<[8%nat := num]> (visible c))) /\
    c_sys c' sp_el1 = c_sys c sp_el1 /\ Q (c_mem c').
Proof using Type.
  intros back frame Hi Hel Hnum Hb Hr Hc. set (c0 := set_x 8 num c).
  assert (Ef : visible (set_pc back c0) = frame) by (unfold frame, visible; cbn; by rewrite u64_small).
  assert (Hi0 : interruptible p c0).
  { destruct Hi as [H1 H2 H3 H4 H5]. split; try done.
    assert (E0 : visible c0 = <[8%nat := num]> (visible c)) by (unfold visible; cbn; by rewrite u64_small).
    rewrite E0. by apply Forall_insert. }
  assert (Hwf : Forall word (<[0%nat := r]> frame)) by (apply Forall_insert; [apply Forall_insert; [apply Forall_insert; [apply Hi|]|]|]; done).
  assert (Hlf : length (<[0%nat := r]> frame) = 34%nat) by (unfold frame; by rewrite !length_insert).
  destruct (called p c0 back 0x56000000 0 Hi0 Hb) as [Hs Hme]. set (ce := entered back 0x56000000 0 c0) in *. rewrite Ef in Hme.
  destruct (passed [0; 1; 2; 3; 4]%nat (syndrome (saved p ce) ++ [rd SP (saved p ce)]) (symbol "exception_handler+back") (saved p ce)) as [Pm Ps].
  rewrite Hme in Pm. destruct (Hc _ (Ps p Hs)) as (c2 & E2 & Hs2 & Hw2 & HQ); [reflexivity| |exact Pm|].
  { change (u64 (rd SP (saved p ce)) = p). rewrite (stack_rd p (saved p ce) Hs). apply u64_small.
    pose proof (int_fits _ _ Hi) as Hf. unfold fits in Hf. lia. }
  destruct (handled Synchronous p c0 back 0x56000000 0 _ (symbol "exception_handler+back") svc_handler _ c2 (<[0%nat := r]> frame) Hi0 Hb
    (sync_entry _ Hel) (syndrome_sp_ok _) E2 Hs2 Hlf Hw2 Hwf) as (c' & E & Hv & Hsp & Hm).
  exists (set_pc (rd lr c') c'). unfold stub. rewrite (bind_ok _ _ c tt c0) by done. rewrite (bind_ok _ _ c0 tt c') by exact E.
  split; [done|]. split; [|split; [exact Hsp|by rewrite <-Hm in HQ]].
  assert (Elr : c_x c' 30 = c_x c 30).
  { assert (E30 : visible c' !! 30%nat = Some (c_x c 30)) by (by rewrite Hv). cbn in E30. by simplify_eq. }
  change (<[33%nat := c_x c' 30]> (visible c') = <[33%nat := c_x c 30]> (<[0%nat := r]> (<[8%nat := num]> (visible c)))).
  rewrite Elr, Hv. unfold frame. by rewrite (list_insert_insert_ne _ 0 33), list_insert_insert_eq.
Qed.
End Traps.

(** * Examples *)

Lemma put_words_mapped_self m p l : mapped (put_words m p l) p (length l).
Proof. intros i Hi. destruct (lookup_lt_is_Some_2 l i Hi) as [v Hv]. exists v. by apply put_words_at. Qed.

(** A process at the exception level 0, with an empty stack of the kernel that ends at
    [0x1110]. *)
Definition ex_cpu : cpu :=
  Cpu (fun n => Z.of_nat n + 100) (fun s => if decide (s = sp_el1) then 0x1110 else if decide (s = sp_el0) then 0x8000 else 0) 0x400 EL0t
    (put_words ∅ 0x1000 (replicate 34 0)).
Definition ex_symbol (s : String.string) : Z := Z.of_nat (String.length s).

Lemma ex_interruptible : interruptible 0x1000 ex_cpu.
Proof.
  split; [by left|done|unfold fits; lia|apply (put_words_mapped_self ∅ 0x1000 (replicate 34 0))|].
  apply (Forall_impl (fun v => (0 <=? v) && (v <? 2 ^ 64) = true)); [|intros v Hv; zbool; by split].
  apply Forall_forall. intros v Hv. revert v Hv. apply Forall_forall. repeat (apply Forall_cons; split; [reflexivity|]). by apply Forall_nil.
Qed.

(** Functions that use registers, and one that gives a result. *)
Definition ex_router : M cpu unit := exec [MOV (x 0) 5; MOV (x 21) 6; MOV (x 30) 7].
Definition ex_svc : M cpu unit := exec [MOV (x 0) 42; STR (x 0) (x 4) 0; MOV (x 9) 3].

Lemma irq_transparent_witness :
  exists c', take_exception ex_svc ex_router ex_router ex_symbol Irq (c_pc ex_cpu) 0 0 ex_cpu = Ok (tt, c') /\
    visible c' = visible ex_cpu /\ c_sys c' sp_el1 = c_sys ex_cpu sp_el1 /\ words_at (c_mem c') 0x1000 (visible ex_cpu).
Proof.
  apply (irq_transparent ex_svc ex_router ex_router ex_symbol 0x1000 ex_cpu 0 0 (fun m => words_at m 0x1000 (visible ex_cpu)) ex_interruptible).
  intros c1 Hs Hm. eexists. split; [reflexivity|]. split; [exact Hs|]. assert (Hw : words_at (c_mem c1) 0x1000 (visible ex_cpu)) by (rewrite Hm; apply put_words_at).
  split; exact Hw.
Defined.

Lemma system_call_spec_witness :
  exists c', get_taskid ex_svc ex_router ex_router ex_symbol ex_cpu = Ok (tt, c') /\
    visible c' = <[33%nat := c_x ex_cpu 30]> (<[0%nat := 42]> (<[8%nat := 0]> (visible ex_cpu))) /\
    c_sys c' sp_el1 = c_sys ex_cpu sp_el1 /\ True.
Proof.
  apply (system_call_spec ex_svc ex_router ex_router ex_symbol 0 "get_taskid" 0x1000 ex_cpu 42 (fun _ => True) ex_interruptible);
    [reflexivity|by split|by split|by split|].
  intros c1 Hs H0 H4 Hm. set (l := <[33%nat := _]> _) in *.
  exists (set_x 9 3 (set_mem (<[0x1000 := 42]> (c_mem c1)) (set_x 0 42 c1))). split; [|split; [exact Hs|split; [|done]]].
  - unfold ex_svc. eapply exec_step; [reflexivity|].
    apply (exec_step _ _ _ (set_mem (<[0x1000 := 42]> (c_mem c1)) (set_x 0 42 c1))); [|reflexivity].
    cbn [step]. run (gets_ok (rd (x 4)) (set_x 0 42 c1)). run (gets_ok (rd (x 0)) (set_x 0 42 c1)).
    change (rd (x 4) (set_x 0 42 c1)) with (c_x c1 4). rewrite H4. apply (store_ok _ _ (set_x 0 42 c1)); [cbn; lia|]. change (c_mem (set_x 0 42 c1)) with (c_mem c1). rewrite Hm.
    exists 100. apply (put_words_at _ 0x1000 l 0%nat). reflexivity.
  - change (words_at (<[0x1000 + 8 * Z.of_nat 0 := 42]> (c_mem c1)) 0x1000 (<[0%nat := 42]> l)).
    apply words_at_insert; [rewrite Hm; apply put_words_at|]. apply (bool_decide_unpack _). reflexivity.
Defined.
