(* ===== verification/SwitchSpec.v ===== *)
(** The assembly of the context switch ([src/src/sched_.S]) implements the switch the
    scheduler is modelled with: registers and task structures go on describing the
    processor and its memory. *)
From Stdlib Require Import String.
From stdpp Require Import functions.
From S2P Require Import Prelude Slab Sched SchedSpec Asm Entry EntrySpec.

(** The words of a [cpu_context] in memory. *)
Definition ctx_words (t : cpu_context) : list Z := x19_x28 t ++ [Sched.fp t; Sched.lr t; sp t; pgd t].

Definition ctx_ok (t : cpu_context) : Prop := length (x19_x28 t) = 10%nat /\ Forall word (ctx_words t).

(** The context of the processor, in the kernel. *)
Definition cpu_ctx (c : cpu) : cpu_context :=
  CpuContext (map (c_x c) (seq 19 10)) (c_x c 29) (c_x c 30) (c_sys c sp_el1) (c_sys c ttbr0_el1).

Definition switch_pairs : list (nat * nat) := [(19, 20); (21, 22); (23, 24); (25, 26); (27, 28); (29, 30); (9, 2)]%nat.

Lemma words_at_mapped m p l : words_at m p l -> mapped m p (length l).
Proof. intros H i Hi. destruct (lookup_lt_is_Some_2 l i Hi) as [v Hv]. exists v. by apply H. Qed.

Lemma words_at_apart m p l q l' : words_at m q l' -> p + 8 * Z.of_nat (length l) <= q \/ q + 8 * Z.of_nat (length l') <= p ->
  words_at (put_words m p l) q l'.
Proof.
  intros H Ha i v Hi. pose proof (lookup_lt_Some _ _ _ Hi). rewrite <-(H i v Hi).
  destruct Ha; [apply put_words_after|apply put_words_before]; lia.
Qed.

Lemma switch_eq :
  switch_to = (_ ← exec (MOVR (x 9) SP :: MRS (x 2) ttbr0_el1 :: stps (x 0) 0 (map (fun n => (x n.1, x n.2)) switch_pairs) ++
    ldps (x 1) 0 switch_pairs ++ [MOVR SP (x 9); BARRIER; MSR ttbr0_el1 (x 2); BARRIER; BARRIER; BARRIER]); ret).
Proof. reflexivity. Qed.

(** The processor after it loaded the context of words [l]. *)
Lemma ctx_loaded t d : ctx_ok t -> c_pstate d = c_pstate d ->
  let d' := put_regs (names switch_pairs) (ctx_words t) d in
  map (c_x d') (seq 19 10) = x19_x28 t /\ c_x d' 29 = Sched.fp t /\ c_x d' 30 = Sched.lr t /\ c_x d' 9 = sp t /\ c_x d' 2 = pgd t.
Proof.
  intros [Hl Hw] _ d'. destruct t as [l f r s g]. cbn [x19_x28] in Hl. do 10 (destruct l as [|? l]; [done|]). destruct l; [|done].
  unfold ctx_words in Hw. cbn in Hw. repeat (apply Forall_cons in Hw as [? Hw]).
  unfold d', ctx_words. cbn. by rewrite !u64_small.
Qed.

Lemma switch_exec c a b t : cur_sp (c_pstate c) = sp_el1 -> ctx_ok (cpu_ctx c) -> c_x c 0 = a -> c_x c 1 = b ->
  fits a 14 -> mapped (c_mem c) a 14 -> fits b 14 -> ctx_ok t ->
  words_at (put_words (c_mem c) a (ctx_words (cpu_ctx c))) b (ctx_words t) ->
  exists c', switch_to c = Ok (tt, c') /\ cpu_ctx c' = t /\ c_pc c' = Sched.lr t /\
    c_mem c' = put_words (c_mem c) a (ctx_words (cpu_ctx c)) /\ c_pstate c' = c_pstate c.
Proof.
  intros Hsp [_ Hok] Ha Hb Hfa Hma Hfb Ht Hw. rewrite switch_eq.
  set (c1 := set_x 2 (c_sys c ttbr0_el1) (set_x 9 (c_sys c sp_el1) c)).
  set (c2 := set_mem (put_words (c_mem c) a (ctx_words (cpu_ctx c))) c1).
  set (c3 := put_regs (names switch_pairs) (ctx_words t) c2).
  assert (Ev : values c1 (map (fun n => (x n.1, x n.2)) switch_pairs) = ctx_words (cpu_ctx c)).
  { unfold ctx_words in Hok. cbn in Hok. repeat (apply Forall_cons in Hok as [? Hok]). cbn. by rewrite (u64_small (c_sys c sp_el1)), (u64_small (c_sys c ttbr0_el1)). }
  assert (Ht' := Ht). destruct Ht' as [Hlt Hwt]. assert (Hl14 : length (ctx_words t) = 14%nat) by (unfold ctx_words; rewrite length_app, Hlt; done).
  destruct (put_regs_rest (names switch_pairs) (ctx_words t) c2) as (E1 & E2 & E3 & E4). fold c3 in E1, E2, E3, E4.
  destruct (ctx_loaded t c2 Ht eq_refl) as (X1 & X2 & X3 & X4 & X5). fold c3 in X1, X2, X3, X4, X5.
  set (c4 := set_sys ttbr0_el1 (c_x c3 2) (set_sys sp_el1 (c_x c3 9) c3)).
  assert (E : exec (MOVR (x 9) SP :: MRS (x 2) ttbr0_el1 :: stps (x 0) 0 (map (fun n => (x n.1, x n.2)) switch_pairs) ++
    ldps (x 1) 0 switch_pairs ++ [MOVR SP (x 9); BARRIER; MSR ttbr0_el1 (x 2); BARRIER; BARRIER; BARRIER]) c = Ok (tt, c4)).
  { eapply exec_step; [cbn [step]; unfold modify; cbn [rd wr]; rewrite Hsp; reflexivity|]. eapply exec_step; [reflexivity|].
    change (set_x 2 _ _) with c1. unfold fits in Hfa, Hfb.
    eapply exec_bind.
    { rewrite (stps_ok (x 0) _ 0 c1 a); [rewrite Ev, Z.add_0_r; reflexivity|exact Ha|lia|unfold fits; cbn; lia|rewrite Z.add_0_r; exact Hma]. }
    change (set_mem _ _) with c2.
    eapply exec_bind.
    { apply (ldps_ok (x 1) _ 0 c2 b (ctx_words t)); [exact Hb|by apply (bool_decide_unpack _)|unfold fits; cbn; lia|by rewrite Hl14|].
      rewrite Z.add_0_r. exact Hw. }
    fold c3. eapply exec_step; [cbn [step]; unfold modify; cbn [rd wr]; rewrite E3; cbn [c_pstate c2 c1 set_mem set_x]; rewrite Hsp; reflexivity|].
    reflexivity. }
  exists (set_pc (c_x c3 30) c4). rewrite (bind_ok _ _ c tt c4) by exact E. split; [done|].
  unfold ctx_words in Hwt. apply Forall_app in Hwt as [_ Hwt]. repeat (apply Forall_cons in Hwt as [? Hwt]).
  split; [|split; [exact X3|split; [exact E4|exact E3]]].
  unfold cpu_ctx. cbn [c_x c_sys set_pc set_sys c4]. rewrite X1, X2, X3.
  destruct t as [l f r s g]. cbn in *. rewrite X4, X5, !u64_small by done. done.
Qed.

(** * The simulation *)

Section Simulation.
Context `{Link} (tss_addr : Z -> Z).
(** The structures of the tasks are in the address space and do not overlap. *)
Hypothesis tss_fits : forall i, 0 <= i < NR_TASKS -> fits (tss_addr i) 14.
Hypothesis tss_apart : forall i j, 0 <= i < NR_TASKS -> 0 <= j < NR_TASKS -> i <> j ->
  tss_addr i + 8 * 14 <= tss_addr j \/ tss_addr j + 8 * 14 <= tss_addr i.
Hypothesis switch_ret_word : word switch_ret.

(** The processor, in the kernel, holds the registers of the model; the memory holds the
    contexts of the tasks. *)
Record sim (s : sched_state) (c : cpu) : Prop := {
  sim_kernel : cur_sp (c_pstate c) = sp_el1;
  sim_regs : regs s = cpu_ctx c;
  sim_ok : ctx_ok (cpu_ctx c);
  sim_length : length (task_pool s) = Z.to_nat NR_TASKS;
  sim_tasks : forall i t, (task_pool s).[i] = Some t ->
    ctx_ok (ctx (tss t)) /\ words_at (c_mem c) (tss_addr i) (ctx_words (ctx (tss t)))
}.

(** The call [switch_to(&prev->tss, &next->tss)]. *)
Definition at_switch (prev next : Z) (c : cpu) : cpu :=
  wr lr switch_ret (set_x 1 (tss_addr next) (set_x 0 (tss_addr prev) c)).

Lemma task_index s c i t : sim s c -> (task_pool s).[i] = Some t -> 0 <= i < NR_TASKS.
Proof using Type. intros Hs E. apply zget_lt in E. rewrite (sim_length _ _ Hs) in E. unfold NR_TASKS in *. lia. Qed.

Lemma ctx_length t : ctx_ok t -> length (ctx_words t) = 14%nat.
Proof using Type. intros [Hl _]. unfold ctx_words. rewrite length_app, Hl. done. Qed.

(** C35. The assembly refines the model: after it, the processor goes on where the model says,
    and registers and memory are those of its new state. *)
Theorem switch_to_refines prev next s pc s' c :
  sim s c -> Sched.switch_to prev next s = Ok (pc, s') ->
  exists c', Entry.switch_to (at_switch prev next c) = Ok (tt, c') /\ c_pc c' = pc /\ sim s' c'.
Proof using tss_fits tss_apart switch_ret_word.
  intros Hs E. unfold Sched.switch_to in E. inv_step E as r s0 E0. injection E0 as <- <-.
  inv_step E as u s1 E1. unfold upd_task in E1. inv_step E1 as tp s2 E2. unfold task_at in E2.
  destruct ((task_pool s).[prev]) as [tp'|] eqn:Ep; [|done]. injection E2 as -> <-.
  unfold put_task in E1. destruct (zset (task_pool s) prev _) as [l|] eqn:El; [|done]. injection E1 as _ <-.
  inv_step E as tn s3 E3. unfold task_at in E3. cbn [task_pool] in E3. destruct (zget l next) as [tn'|] eqn:En; [|done]. injection E3 as -> <-.
  inv_step E as v s4 E4. injection E4 as _ <-. injection E as <- <-.
  set (ca := at_switch prev next c). set (saved := CpuContext (x19_x28 (regs s)) (Sched.fp (regs s)) switch_ret (sp (regs s)) (pgd (regs s))) in *.
  assert (Esv : cpu_ctx ca = saved).
  { unfold saved. rewrite (sim_regs _ _ Hs). unfold ca, at_switch, cpu_ctx. cbn. by rewrite u64_small. }
  destruct (sim_ok _ _ Hs) as [Hlr Hwr].
  assert (Hok : ctx_ok saved).
  { unfold saved. rewrite (sim_regs _ _ Hs). split; [done|]. unfold ctx_words in *. cbn [x19_x28 Sched.fp Sched.lr sp pgd] in *.
    apply Forall_app in Hwr as [? Hwr]. apply Forall_app. split; [done|]. repeat (apply Forall_cons in Hwr as [? Hwr]).
    repeat (apply Forall_cons; split; [done|]). by apply Forall_nil. }
  assert (Hp : 0 <= prev < NR_TASKS) by (by eapply task_index).
  assert (Hln : length l = length (task_pool s)) by (by eapply zset_length).
  assert (Hn : 0 <= next < NR_TASKS) by (apply zget_lt in En; rewrite Hln, (sim_length _ _ Hs) in En; unfold NR_TASKS in *; lia).
  destruct (sim_tasks _ _ Hs prev tp Ep) as [Hctp Hwtp].
  assert (Hnew : forall i t, l.[i] = Some t -> ctx_ok (ctx (tss t)) /\
    words_at (put_words (c_mem c) (tss_addr prev) (ctx_words saved)) (tss_addr i) (ctx_words (ctx (tss t)))).
  { intros i t Hi. destruct (decide (prev = i)) as [<-|Hne].
    - rewrite (zget_zset_eq _ _ _ _ El) in Hi. injection Hi as <-. split; [exact Hok|apply put_words_at].
    - rewrite (zget_zset_ne _ _ _ _ _ El Hne) in Hi. destruct (sim_tasks _ _ Hs i t Hi) as [Hc Hw]. split; [done|].
      apply words_at_apart; [done|]. rewrite !ctx_length by done. apply (tss_apart prev i Hp); [by eapply task_index|done]. }
  destruct (Hnew next tn En) as [Hcn Hwn].
  destruct (switch_exec ca (tss_addr prev) (tss_addr next) (ctx (tss tn))) as (c' & Ec & Ectx & Epc & Em & Eps).
  - exact (sim_kernel _ _ Hs).
  - by rewrite Esv.
  - unfold ca. cbn. apply u64_small. pose proof (tss_fits prev Hp) as F. unfold fits in F. lia.
  - unfold ca. cbn. apply u64_small. pose proof (tss_fits next Hn) as F. unfold fits in F. lia.
  - by apply tss_fits.
  - rewrite <-(ctx_length _ Hctp). by apply words_at_mapped.
  - by apply tss_fits.
  - done.
  - by rewrite Esv.
  - exists c'. split; [done|]. split; [done|]. split.
    + rewrite Eps. exact (sim_kernel _ _ Hs).
    + done.
    + by rewrite Ectx.
    + cbn [task_pool]. by rewrite Hln, (sim_length _ _ Hs).
    + intros i t Hi. cbn [task_pool] in Hi. rewrite Em, Esv. by apply Hnew.
Qed.
End Simulation.

(** * An example *)

Fixpoint words_atb (m : gmap Z Z) (p : Z) (l : list Z) : bool :=
  match l with [] => true | v :: l => bool_decide (m !! p = Some v) && words_atb m (p + 8) l end.

Lemma words_atb_ok m l : forall p, words_atb m p l = true -> words_at m p l.
Proof.
  induction l as [|v l IH]; intros p Hp; [by intros i w Hi|]. cbn in Hp. apply andb_true_iff in Hp as [H1 H2].
  apply words_at_cons. split; [by apply bool_decide_eq_true in H1|by apply IH].
Qed.

Definition ex_ctx (i : Z) : cpu_context := CpuContext (replicate 10 i) 0 (0x100 + i) (0x9000 + i) i.
Definition ex_tss (i : Z) : Z := 0x1000 + 0x200 * i.
Definition ex_tasks : sched_state :=
  Sched (map (fun i => Task i 0 0 0 0 0 (replicate 10 0) 0 (Tss (ex_ctx i) 0) (Mm 0 0) [] []) (seqZ 0 16)) 2 3
    (CpuContext (map (fun n => Z.of_nat n) (seq 19 10)) 29 30 0x7000 0x3000) (SlabState (zone_of (heap ex_sched)) [] ∅).
Definition ex_kernel_cpu : cpu :=
  Cpu Z.of_nat (fun s => if decide (s = sp_el1) then 0x7000 else if decide (s = ttbr0_el1) then 0x3000 else 0) 0 EL1h
    (fold_left (fun m i => put_words m (ex_tss i) (ctx_words (ex_ctx i))) (seqZ 0 16) ∅).

Lemma ctx_okb t : bool_decide (length (x19_x28 t) = 10%nat) && forallb (fun v => (0 <=? v) && (v <? 2 ^ 64)) (ctx_words t) = true -> ctx_ok t.
Proof.
  intros [H1 H2]%andb_true_iff. split; [by apply bool_decide_eq_true in H1|]. apply Forall_forall. intros v Hv.
  rewrite forallb_forall in H2. specialize (H2 v (proj1 (list_elem_of_In _ _) Hv)). zbool. by split.
Qed.

Lemma ex_sim : sim ex_tss ex_tasks ex_kernel_cpu.
Proof.
  split; [done|done|by apply ctx_okb|done|]. intros i t [Hi Et]%zget_Some. cbn [ex_tasks task_pool] in Et.
  rewrite list_lookup_fmap in Et. destruct (seqZ 0 16 !! Z.to_nat i) as [j|] eqn:Ej; [|done]. injection Et as <-.
  apply lookup_seqZ in Ej as [-> Hlt]. rewrite Z.add_0_l, Z2Nat.id by done. cbn [tss ctx].
  assert (Hall : forallb (fun j => bool_decide (length (x19_x28 (ex_ctx j)) = 10%nat) && forallb (fun v => (0 <=? v) && (v <? 2 ^ 64)) (ctx_words (ex_ctx j))
    && words_atb (c_mem ex_kernel_cpu) (ex_tss j) (ctx_words (ex_ctx j))) (seqZ 0 16) = true) by (vm_compute; reflexivity).
  rewrite forallb_forall in Hall. specialize (Hall i). assert (Hin : i ∈ seqZ 0 16) by (apply elem_of_seqZ; lia).
  apply list_elem_of_In in Hin. apply Hall, andb_true_iff in Hin as [H1 H2]. split; [by apply ctx_okb|by apply words_atb_ok].
Qed.

Lemma switch_to_refines_witness :
  exists c', Entry.switch_to (at_switch ex_tss 3 5 ex_kernel_cpu) = Ok (tt, c') /\ c_pc c' = 0x105 /\
    exists s', Sched.switch_to 3 5 ex_tasks = Ok (0x105, s') /\ sim ex_tss s' c'.
Proof.
  destruct (Sched.switch_to 3 5 ex_tasks) as [[pc s']|f] eqn:E; [|discriminate E].
  assert (Epc : pc = 0x105) by (revert E; vm_compute; congruence). subst pc.
  destruct (switch_to_refines ex_tss) with (prev := 3) (next := 5) (s := ex_tasks) (pc := 0x105) (s' := s') (c := ex_kernel_cpu) as (c' & Ec & Epc & Hs).
  - intros i Hi. unfold fits, ex_tss, NR_TASKS in *. lia.
  - intros i j Hi Hj Hne. unfold ex_tss, NR_TASKS in *. lia.
  - split; [discriminate|reflexivity].
  - exact ex_sim.
  - exact E.
  - exists c'. split; [exact Ec|]. split; [exact Epc|]. exists s'. split; [reflexivity|exact Hs].
Defined.
