(* ===== verification/Start.v ===== *)
(** The start of the kernel, [src/src/start.S], up to [main]: one core, at the exception
    level 1, with the exception vectors, the translation tables, a stack and cleared global
    variables.

    [setup_page_table] is modelled in [BootTables]; here it is a function on the processor
    of which the assembly needs that it comes back and keeps the registers it set, among
    them [x18], which the calling convention does not promise. *)
From Stdlib Require Import String.
From stdpp Require Import functions.
From S2P Require Import Prelude BootTables Asm Entry EntrySpec.

(** * Translation control *)

(* [src/include/mm.h:17-19 TCR_CONFIG_REGION_48bit] *)
Definition TCR_CONFIG_REGION_48bit : Z := Z.lor (Z.shiftl (64 - 48) 0) (Z.shiftl (64 - 48) 16).
(* [src/include/mm.h:21-23 TCR_CONFIG_4KB] *)
Definition TCR_CONFIG_4KB : Z := Z.lor (Z.shiftl 0 14) (Z.shiftl 2 30).
(* [src/include/mm.h:25-27 TCR_CONFIG_CACHE_POLICY_NC] *)
Definition TCR_CONFIG_CACHE_POLICY_NC : Z := Z.lor (Z.shiftl 0 24) (Z.shiftl 0 26).
(* [src/include/mm.h:29-32 TCR_CONFIG_DEFAULT] *)
Definition TCR_CONFIG_DEFAULT : Z := Z.lor (Z.lor TCR_CONFIG_REGION_48bit TCR_CONFIG_4KB) TCR_CONFIG_CACHE_POLICY_NC.
(* [src/include/mm.h:35-36 MAIR_NORMAL_NOCACHE] *)
Definition MAIR_DEVICE_nGnRnE : Z := 0.
Definition MAIR_NORMAL_NOCACHE : Z := 0x44.
(* [src/include/mm.h:40-42 MAIR_CONFIG] *)
Definition MAIR_CONFIG : Z :=
  Z.lor (Z.shiftl MAIR_DEVICE_nGnRnE (MAIR_IDX_DEVICE_nGnRnE * 8)) (Z.shiftl MAIR_NORMAL_NOCACHE (MAIR_IDX_NORMAL_NOCACHE * 8)).

(** * The code *)

Section Start.
Variable setup_page_table : M cpu unit.
Context (symbol : String.string -> Z).

(** [w2] double words are left. *)
(* [src/src/start.S:79-82 _start] *)
Fixpoint clear_bss (n : nat) : M cpu unit :=
  w2 ← gets (rd (x 2));
  if w2 =? 0 then mret tt
  else
    match n with
    | O => fail NoFuel
    | S n => _ ← exec [ STR_POST xzr (x 1) 8; SUB (x 2) (x 2) 1 ]; clear_bss n
    end.

(* [src/src/start.S:32-88 _start] *)
Definition _start : M cpu unit :=
  _ ← exec [ MRS (x 1) mpidr_el1; AND (x 1) (x 1) 3 ];
  core ← gets (rd (x 1));
  if negb (core =? 0) then fail Hang
  else
    _ ← exec [ MOVR (x 18) (x 0) ];
    _ ← bl (symbol "_start+1") (set_exception_vector_table symbol);
    _ ← bl (symbol "_start+2") (from_el2_to_el1 symbol);
    _ ← exec
      [ MOV (x 0) TCR_CONFIG_DEFAULT;
        MSR tcr_el1 (x 0);
        MOV (x 0) MAIR_CONFIG;
        MSR mair_el1 (x 0);
        MOV SP 0x80000 ];
    _ ← bl (symbol "_start+3") setup_page_table;
    _ ← exec
      [ MRS (x 2) sctlr_el1;
        ORR (x 2) (x 2) 1;
        MSR sctlr_el1 (x 2);
        MOV (x 0) (symbol "__KERNEL_START_ADDR");
        MOVR SP (x 0);
        MOV (x 1) (symbol "__bss_start");
        MOV (x 2) (u32 (symbol "__bss_size")) ];
    _ ← clear_bss (Z.to_nat (u32 (symbol "__bss_size")));
    _ ← exec [ MOV (x 0) (symbol "main") ];
    modify (fun c => set_pc (rd (x 0) c) c).

(** * What it leaves *)

Lemma clear_bss_ok n : forall p c, c_x c 2 = Z.of_nat n -> c_x c 1 = p -> fits p n -> Z.of_nat n < 2 ^ 64 -> mapped (c_mem c) p n ->
  exists c', clear_bss n c = Ok (tt, c') /\ c_mem c' = put_words (c_mem c) p (replicate n 0) /\
    c_sys c' = c_sys c /\ c_pstate c' = c_pstate c /\ (forall k, k <> 1%nat -> k <> 2%nat -> c_x c' k = c_x c k).
Proof using Type.
  induction n as [|n IH]; intros p c H2 H1 Hf Hn Hm; cbn [clear_bss]; run (gets_ok (rd (x 2)) c); cbn [rd]; rewrite H2.
  - exists c. by destruct (Z.eqb_spec (Z.of_nat 0) 0).
  - destruct (Z.eqb_spec (Z.of_nat (S n)) 0); [lia|]. unfold fits in Hf.
    set (c1 := set_x 2 (Z.of_nat n) (set_x 1 (p + 8) (set_mem (<[p := 0]> (c_mem c)) c))).
    assert (E : exec [ STR_POST xzr (x 1) 8; SUB (x 2) (x 2) 1 ] c = Ok (tt, c1)).
    { apply (exec_step _ _ _ (set_x 1 (p + 8) (set_mem (<[p := 0]> (c_mem c)) c))).
      - cbn [step]. run (gets_ok (rd (x 1)) c). run (gets_ok (rd xzr) c). cbn [rd]. rewrite H1.
        assert (Hs : is_Some (c_mem c !! p)) by (destruct (Hm 0%nat ltac:(lia)) as [v Hv]; exists v; rewrite <-Hv; f_equal; lia).
        by run (store_ok p 0 c ltac:(lia) Hs).
      - unfold c1. cbn [exec step]. unfold modify, mbind, M_bind, mret, M_ret. cbn [rd wr]. repeat f_equal.
        cbn. rewrite fn_lookup_insert_ne by done. rewrite H2. lia. }
    run E. destruct (IH (p + 8) c1) as (c' & E' & Hme & Hsy & Hps & Hx).
    + unfold c1. cbn. rewrite fn_lookup_insert. apply u64_small. lia.
    + unfold c1. cbn. rewrite fn_lookup_insert_ne, fn_lookup_insert by done. apply u64_small. lia.
    + unfold fits. lia.
    + lia.
    + intros i Hi. destruct (Hm (S i) ltac:(lia)) as [v Hv]. exists v. cbn. rewrite lookup_insert_ne by lia. rewrite <-Hv. f_equal. lia.
    + exists c'. split; [done|]. split; [by rewrite Hme|]. split; [by rewrite Hsy|]. split; [by rewrite Hps|].
      intros k K1 K2. rewrite Hx by done. unfold c1. cbn. by rewrite !fn_lookup_insert_ne.
Qed.

(** What the call of [setup_page_table] keeps: what was set before it. *)
Definition keeps (c c' : cpu) : Prop :=
  c_pstate c' = c_pstate c /\ c_x c' 18 = c_x c 18 /\ (forall s, s = vbar_el1 \/ s = tcr_el1 \/ s = mair_el1 \/ s = hcr_el2 -> c_sys c' s = c_sys c s).

(** The steps up to the call, and those after it. *)
Lemma vectors_ok back c : word (symbol "exception_vector_table") ->
  exists c', bl back (set_exception_vector_table symbol) c = Ok (tt, c') /\
    c_sys c' vbar_el1 = symbol "exception_vector_table" /\ c_x c' 18 = c_x c 18 /\ c_mem c' = c_mem c.
Proof using Type. intros Hs. eexists. split; [reflexivity|]. split; [|done]. change (u64 (u64 (symbol "exception_vector_table")) = symbol "exception_vector_table"). by rewrite u64_u64, u64_small. Qed.

Lemma to_el1_ok back c :
  exists c', bl back (from_el2_to_el1 symbol) c = Ok (tt, c') /\
    c_pstate c' = 0x3c5 /\ c_sys c' vbar_el1 = c_sys c vbar_el1 /\ c_x c' 18 = c_x c 18 /\ c_mem c' = c_mem c.
Proof using Type. eexists. split; [reflexivity|]. done. Qed.

Lemma translation_ok c : c_pstate c = 0x3c5 ->
  exists c', exec [ MOV (x 0) TCR_CONFIG_DEFAULT; MSR tcr_el1 (x 0); MOV (x 0) MAIR_CONFIG; MSR mair_el1 (x 0); MOV SP 0x80000 ] c = Ok (tt, c') /\
    c_pstate c' = 0x3c5 /\ c_sys c' tcr_el1 = TCR_CONFIG_DEFAULT /\ c_sys c' mair_el1 = MAIR_CONFIG /\ c_sys c' sp_el1 = 0x80000 /\
    c_sys c' vbar_el1 = c_sys c vbar_el1 /\ c_x c' 18 = c_x c 18 /\ c_mem c' = c_mem c.
Proof using Type.
  intros Hp. eexists. split.
  { do 4 (eapply exec_step; [reflexivity|]).
    eapply exec_step; [cbn [step]; unfold modify; cbn [wr]; cbn [c_pstate set_x set_sys]; rewrite Hp; reflexivity|reflexivity]. }
  by split_and!.
Qed.

Lemma switched_on_ok c n : c_pstate c = 0x3c5 -> (forall v, word (symbol v)) -> 0 <= n < 2 ^ 32 -> symbol "__bss_size" = n ->
  exists c', exec [ MRS (x 2) sctlr_el1; ORR (x 2) (x 2) 1; MSR sctlr_el1 (x 2); MOV (x 0) (symbol "__KERNEL_START_ADDR"); MOVR SP (x 0);
      MOV (x 1) (symbol "__bss_start"); MOV (x 2) (u32 (symbol "__bss_size")) ] c = Ok (tt, c') /\
    c_pstate c' = 0x3c5 /\ Z.testbit (c_sys c' sctlr_el1) 0 = true /\ c_sys c' sp_el1 = symbol "__KERNEL_START_ADDR" /\
    c_x c' 1 = symbol "__bss_start" /\ c_x c' 2 = n /\
    (forall s, s = vbar_el1 \/ s = tcr_el1 \/ s = mair_el1 -> c_sys c' s = c_sys c s) /\ c_x c' 18 = c_x c 18 /\ c_mem c' = c_mem c.
Proof using Type.
  intros Hp Hs Hn En. eexists. split.
  { do 4 (eapply exec_step; [reflexivity|]). eapply exec_step; [cbn [step]; unfold modify; cbn [wr]; cbn [c_pstate set_x set_sys]; rewrite Hp; reflexivity|].
    do 2 (eapply exec_step; [reflexivity|]). reflexivity. }
  split; [done|]. split; [|split; [|split; [|split; [|split; [|done]]]]].
  - change (Z.testbit (u64 (u64 (Z.lor (u64 (c_sys c sctlr_el1)) 1))) 0 = true). rewrite u64_u64. unfold u64. rewrite Z.mod_pow2_bits_low, Z.lor_spec by lia. by rewrite orb_true_r.
  - change (u64 (u64 (symbol "__KERNEL_START_ADDR")) = symbol "__KERNEL_START_ADDR"). rewrite u64_u64. apply u64_small, Hs.
  - change (u64 (symbol "__bss_start") = symbol "__bss_start"). apply u64_small, Hs.
  - change (u64 (u32 (symbol "__bss_size")) = n). rewrite En, u32_small by lia. apply u64_small. lia.
  - intros s [->|[->| ->]]; done.
Qed.

(** On the first core, which the firmware starts at the exception level 2, [_start] comes to
    [main] at the exception level 1 with every interrupt masked, the vectors, the
    translation and its attributes set up and switched on, a stack that ends where the
    kernel starts, the global variables cleared, and the address of the device tree, which
    was in [x0], in [x18]. *)
Theorem start_spec c : let n := Z.to_nat (symbol "__bss_size") in
  cur_sp (c_pstate c) = sp_el2 -> el (c_pstate c) = 2 -> Z.land (u64 (c_sys c mpidr_el1)) 3 = 0 ->
  (forall v, word (symbol v)) -> symbol "__bss_size" < 2 ^ 32 -> fits (symbol "__bss_start") n -> word (c_x c 0) ->
  (forall c1, c_pstate c1 = 0x3c5 -> c_sys c1 sp_el1 = 0x80000 -> c_mem c1 = c_mem c ->
    exists c2, setup_page_table c1 = Ok (tt, c2) /\ keeps c1 c2 /\ mapped (c_mem c2) (symbol "__bss_start") n) ->
  exists c', _start c = Ok (tt, c') /\ c_pc c' = symbol "main" /\ c_pstate c' = 0x3c5 /\
    c_sys c' vbar_el1 = symbol "exception_vector_table" /\ c_sys c' tcr_el1 = TCR_CONFIG_DEFAULT /\ c_sys c' mair_el1 = MAIR_CONFIG /\
    Z.testbit (c_sys c' sctlr_el1) 0 = true /\ c_sys c' sp_el1 = symbol "__KERNEL_START_ADDR" /\
    c_x c' 18 = c_x c 0 /\ (forall i, (i < n)%nat -> c_mem c' !! (symbol "__bss_start" + 8 * Z.of_nat i) = Some 0).
Proof using Type.
  intros n Hsp Hel Hcore Hsym Hn Hf Hx0 Hset. unfold _start.
  set (c1 := set_x 1 (Z.land (u64 (c_sys c mpidr_el1)) 3) (set_x 1 (c_sys c mpidr_el1) c)).
  assert (E1 : exec [ MRS (x 1) mpidr_el1; AND (x 1) (x 1) 3 ] c = Ok (tt, c1)).
  { cbn. unfold modify, mbind, M_bind, mret, M_ret. cbn. by rewrite fn_lookup_insert. }
  run E1. run (gets_ok (rd (x 1)) c1). assert (Ecore : (rd (x 1) c1 =? 0) = true).
  { unfold c1. cbn. rewrite fn_lookup_insert, Hcore. done. }
  rewrite Ecore. cbn [negb].
  set (c2 := set_x 18 (c_x c 0) c1). rewrite (bind_ok _ _ c1 tt c2) by done.
  destruct (vectors_ok (symbol "_start+1") c2 (Hsym _)) as (c3 & E3 & V3 & X3 & M3). run E3.
  destruct (to_el1_ok (symbol "_start+2") c3) as (c4 & E4 & P4 & V4 & X4 & M4). run E4.
  destruct (translation_ok c4 P4) as (c5 & E5 & P5 & T5 & A5 & S5 & V5 & X5 & M5). run E5.
  destruct (Hset (wr lr (symbol "_start+3") c5) P5 S5) as (c6 & E6 & [P6 [X6 K6]] & B6); [by change (c_mem c5 = c_mem c); rewrite M5, M4, M3|].
  rewrite (bind_ok _ _ c5 tt c6) by exact E6.
  assert (Hsz : 0 <= symbol "__bss_size" < 2 ^ 32) by (pose proof (Hsym "__bss_size"%string) as [? ?]; lia).
  destruct (switched_on_ok c6 (symbol "__bss_size") ltac:(by rewrite P6) Hsym Hsz eq_refl)
    as (c7 & E7 & P7 & C7 & S7 & R7 & Q7 & K7 & X7 & M7). run E7.
  rewrite (u32_small (symbol "__bss_size")) by lia. fold n.
  destruct (clear_bss_ok n (symbol "__bss_start") c7) as (c8 & E8 & M8 & Y8 & P8 & X8);
    [rewrite Q7; unfold n; lia|done|done|unfold n; lia|by rewrite M7|]. run E8.
  set (c9 := set_x 0 (symbol "main") c8). rewrite (bind_ok _ _ c8 tt c9) by done.
  exists (set_pc (c_x c9 0) c9). split; [done|]. assert (Kv : forall s, s = vbar_el1 \/ s = tcr_el1 \/ s = mair_el1 -> c_sys c8 s = c_sys c5 s).
  { intros s Hs. rewrite Y8, K7 by done. rewrite K6 by tauto. done. }
  split_and!.
  - cbn. rewrite fn_lookup_insert. apply u64_small, Hsym.
  - cbn. by rewrite P8, P7.
  - cbn. by rewrite Kv, V5, V4, V3 by tauto.
  - cbn. by rewrite Kv, T5 by tauto.
  - cbn. by rewrite Kv, A5 by tauto.
  - cbn. by rewrite Y8.
  - cbn. by rewrite Y8, S7.
  - cbn. rewrite fn_lookup_insert_ne, X8, X7 by done. etrans; [exact X6|]. cbn. rewrite fn_lookup_insert_ne by done.
    rewrite X5, X4, X3. unfold c2. cbn. rewrite fn_lookup_insert. by apply u64_small.
  - intros i Hi. cbn. rewrite M8. apply put_words_at, lookup_replicate_2. done.
Qed.
End Start.
