(* ===== verification/Shell.v ===== *)
(** The shell of the kernel ([src/src/shell.c]) and the demonstration of the asynchronous
    UART it can start ([src/src/demo.c]).

    The shell is a task of the kernel, with an [svc] for what has to be done in a handler.
    Its state is that of the kernel with the devices; what the arrays on the stack hold when
    they come into being is an argument, and so is the time. *)
From Stdlib Require Import Ascii String.
From S2P Require Import Prelude Sched Process CString FsData Vfs Queue Timer Console Kernel Initramfs Initrd Syscall Exception Mmio Devices.

Record machine (D : Type) := Machine { m_kernel : kernel; m_dev : D }.
Arguments Machine {D} m_kernel m_dev.
Arguments m_kernel {D} m.
Arguments m_dev {D} m.

Section Shell.
Context {D : Type} `{!Device D} `{Link} `{Ops} (videocore : Z -> list Z -> list Z).
(** [mbox]: the message buffer; [cpio_address]: where the archive is; [fuel]: for the
    drivers and the scheduler. *)
Context (mbox cpio_address : Z) (fuel : nat).
Abbreviation MM := (M (machine D)).

Definition on_kernel {A} (m : M kernel A) : MM A :=
  fun s => match m (m_kernel s) with Ok (a, k) => Ok (a, Machine k (m_dev s)) | Err f => Err f end.
Definition on_dev {A} (m : M D A) : MM A :=
  fun s => match m (m_dev s) with Ok (a, d) => Ok (a, Machine (m_kernel s) d) | Err f => Err f end.

Definition say_text (r : res (list Z)) : M kernel unit := l ← lift_res r; modify (fun k => with_tx (k_tx k ++ l) k).

(* [src/src/shell.c:14-18 shell_init] *)
Definition shell_init : MM unit :=
  _ ← on_dev uart_init;
  on_kernel (_ ← say_line ""; _ ← say_line ""; _ ← say_line " Hello from Raspi 3b+"; say_line "==== init: UART").

(** What an [svc] finds in the registers, the time, and the arrays of its handler. *)
Record call := Call { at_time : Z; esr_low : Z; ret_pc : Z; ret_pstate : Z; fault_at : Z; frame : Z; buf1 : list Z; buf2 : list Z }.

Definition svc (n : Z) (c : call) : M kernel resume :=
  svc_handler videocore fuel (at_time c) (buf1 c) (buf2 c) (Z.lor (Z.shiftl 21 26) (Z.lor (2 ^ 25) n)) (ret_pc c) (ret_pstate c) (fault_at c) (frame c).

(** The name is read to [buffer]. *)
(* [src/src/initrd.c:97-106 initrd_cat] *)
Definition initrd_cat_input (buffer : list Z) : M kernel unit :=
  l ← archive;
  m ← lift_res (is_cpio l);
  if negb m then mret tt
  else
    _ ← say "filename: ";
    buffer ← shell_input buffer;
    say_text (initrd_cat buffer l).

(** ** The asynchronous UART *)

(* [src/src/uart.c:184-188 uart_async_init] *)
Definition uart_async_init : MM unit :=
  _ ← on_kernel (modify (fun k => with_ier (Z.lor (k_ier k) 1) k));
  on_dev (v ← get_reg (IRQ_BASE + 0x210); set_reg (IRQ_BASE + 0x210) (Z.lor v (2 ^ 29))).

(** Queueing a string, then enabling the interrupt that sends it. *)
Definition async_puts (s : list Z) : M kernel unit :=
  q ← gets k_write;
  q ← lift_res (uart_async_puts q s);
  _ ← modify (fun k => with_queues (k_read k) q k);
  modify (fun k => with_ier (Z.lor (k_ier k) 2) k).

(** A round of the loop; the array after it. *)
(* [src/src/demo.c:64-71 demo_async_uart] *)
Definition demo_round (string : list Z) : M kernel (list Z) :=
  q ← gets k_read;
  '(len, q, string) ← lift_res (uart_async_gets (length (buffer q)) q string 0);
  _ ← modify (fun k => with_queues q (k_write k) k);
  if 0 <? len then
    _ ← say_hex len;
    _ ← async_puts [10; 0];
    _ ← async_puts string;
    _ ← async_puts [10; 0];
    mret string
  else mret string.

(** The loop, which never ends: [between] is what the interrupts do to the kernel after each
    round, as far as it is looked at. *)
(* [src/src/demo.c:63-73 demo_async_uart] *)
Fixpoint demo_loop (between : list (kernel -> kernel)) (string : list Z) : M kernel (list Z) :=
  match between with
  | [] => mret string
  | irq :: between =>
    string ← demo_round string;
    _ ← modify irq;
    demo_loop between string
  end.

(* [src/src/demo.c:55-74 demo_async_uart] *)
Definition demo_async_uart (between : list (kernel -> kernel)) (string : list Z) : MM (list Z) :=
  _ ← uart_async_init;
  _ ← on_kernel (async_puts (chars "Demo lab 3: Asynchronous UART" ++ [10; 0]));
  on_kernel (demo_loop between string).

(** * The commands *)

(** The arrays and the [svc] of a command, and what happens during the demonstration. *)
Record env := Env { e_call : call; e_buffer : list Z; e_between : list (kernel -> kernel) }.

Definition is_command (cmd : list Z) (s : String.string) : MM bool :=
  on_kernel (d ← lift_res (strcmp cmd (cstr s)); mret (d =? 0)).

(* [src/src/shell.c:38-47 shell_controller] *)
Definition help : M kernel unit :=
  _ ← say_line "help           : print this help menu";
  _ ← say_line "hello          : print Hello World!";
  _ ← say_line "ls             : list file in initramfs.cpio";
  _ ← say_line "cat            : show the file content.";
  _ ← say_line "reboot         : reboot the device.";
  _ ← say_line "run            : load user program and run.";
  _ ← say_line "timer_on       : enable timer and print out current second periodiccally.";
  _ ← say_line "set_timeout    : set the timer to trigger an interrupt after given second.";
  _ ← say_line "demo_uart      : demo for asynchronous uart. Lab 3 Basic Exercise 3";
  say_line "demo_irq       : demo for bottom half irq. Lab 3 Advanced Exercise 2".

(** Where the processor goes on: in the shell ([Return]), or in a program it started. *)
Definition back (m : MM unit) : MM resume := _ ← m; mret Return.

(* [src/src/shell.c:32-73 shell_controller] *)
Definition shell_controller (e : env) (cmd : list Z) : MM resume :=
  _ ← on_kernel (uart_send 10);
  c ← is_command cmd ""; if (c : bool) then mret Return else
  c ← is_command cmd "help"; if (c : bool) then back (on_kernel help) else
  c ← is_command cmd "hello"; if (c : bool) then back (on_kernel (say_line "Hello World!")) else
  c ← is_command cmd "reboot"; if (c : bool) then back (on_dev reset) else
  c ← is_command cmd "shutdown"; if (c : bool) then back (on_dev (power_off mbox fuel)) else
  c ← is_command cmd "ls"; if (c : bool) then back (on_kernel (l ← archive; say_text (initrd_ls l))) else
  c ← is_command cmd "ls -l"; if (c : bool) then back (on_kernel (l ← archive; say_text (initrd_list cpio_address l))) else
  c ← is_command cmd "cat"; if (c : bool) then back (on_kernel (initrd_cat_input (e_buffer e))) else
  c ← is_command cmd "run"; if (c : bool) then on_kernel (svc 1 (e_call e)) else
  c ← is_command cmd "timer_on"; if (c : bool) then on_kernel (svc 2 (e_call e)) else
  c ← is_command cmd "set_timeout"; if (c : bool) then on_kernel (svc 3 (e_call e)) else
  c ← is_command cmd "demo_uart"; if (c : bool) then _ ← demo_async_uart (e_between e) (e_buffer e); fail Hang else
  c ← is_command cmd "demo_irq"; if (c : bool) then on_kernel (svc 5 (e_call e)) else
  back (on_kernel (say_line "shell: command not found")).

(** A round of the shell: [cmd] is the array the command is read to. *)
(* [src/src/shell.c:79-82 do_shell_user] *)
Definition shell_round (e : env) (cmd : list Z) : MM resume :=
  _ ← on_kernel (say "# ");
  cmd ← on_kernel (shell_input cmd);
  shell_controller e cmd.

(** The loop, as long as the commands come back to it. *)
(* [src/src/shell.c:76-84 do_shell_user] *)
Fixpoint do_shell_user (rounds : list (env * list Z)) : MM resume :=
  match rounds with
  | [] => mret Return
  | (e, cmd) :: rounds =>
    r ← shell_round e cmd;
    match r with Return => do_shell_user rounds | _ => mret r end
  end.

(** [code]: the address the linker gives to [do_shell_user]. *)
(* [src/src/shell.c:87-90 do_shell] *)
Definition do_shell (code : Z) : MM resume := on_kernel (on_sched (do_exec code 1024)).

(* [src/src/shell.c:92-95 do_user_image] *)
Definition do_user_image : MM resume :=
  r ← on_kernel (initrd_usr_prog (cstr "vfs2.img"));
  match r with Return => fail Hang | _ => mret r end.
End Shell.
