(* ===== verification/ShellSpec.v ===== *)
(** What a round of the shell does: it reads and echoes a line, then runs the command the
    line names. *)
From Stdlib Require Import Ascii String.
From S2P Require Import Prelude Mmio Devices Serial Sched CString FsData Vfs FileSystems Console Kernel Initrd Exception SchedSpec UserSpec Shell.

(** * Reading a line *)

Definition is_line (s : list Z) : Prop := Forall (fun c => 0 < c < 256 /\ c <> 10 /\ c <> 13) s.

Lemma uart_getc_ok k c l : k_rx k = c :: l -> 0 <= c < 256 -> uart_getc k = Ok (if c =? 13 then 10 else c, with_rx l k).
Proof. intros E Hc. unfold uart_getc. rewrite E, u8_small by lia. done. Qed.

Lemma shell_input_loop_ok s rest : is_line s -> forall n pre tl k, k_rx k = s ++ 10 :: rest ->
  (length s < length tl)%nat -> (length s < n)%nat ->
  shell_input_loop n (pre ++ tl) (Z.of_nat (length pre)) (Z.of_nat (length pre)) k =
    Ok (pre ++ typed s tl, with_rx rest (with_tx (k_tx k ++ s) k)).
Proof.
  induction s as [|c s IH]; intros Hs [|n] pre tl k Ek Hl Hn; try (cbn in Hn; lia); cbn [shell_input_loop].
  - run (uart_getc_ok k 10 rest Ek ltac:(lia)). cbn. rewrite app_nil_r. by destruct k.
  - apply Forall_cons in Hs as [(Hc & H10 & H13) Hs]. destruct tl as [|y [|y2 tl]]; cbn [length] in Hl; [lia..|].
    run (uart_getc_ok k c (s ++ 10 :: rest) Ek ltac:(lia)). destruct (Z.eqb_spec c 13); [done|]. destruct (Z.eqb_spec c 10); [done|].
    set (k1 := with_tx (k_tx k ++ [c]) (with_rx (s ++ 10 :: rest) k)). rewrite (bind_ok _ _ _ tt k1) by done.
    rewrite (bind_ok _ _ k1 (pre ++ c :: y2 :: tl) k1) by (unfold lift_opt; by rewrite zset_app_mid).
    change (pre ++ c :: y2 :: tl) with (pre ++ [c] ++ y2 :: tl). rewrite app_assoc.
    rewrite (bind_ok _ _ k1 ((pre ++ [c]) ++ 0 :: tl) k1) by (unfold lift_opt; rewrite zset_app_mid; [done|rewrite length_app; cbn; lia]).
    replace (Z.of_nat (length pre) + 1) with (Z.of_nat (length (pre ++ [c]))) by (rewrite length_app; cbn; lia).
    rewrite (IH Hs n (pre ++ [c]) (0 :: tl) k1); [|done|cbn [length] in *; lia..]. f_equal. f_equal.
    + rewrite <-app_assoc. unfold typed. cbn [app length drop]. by destruct s.
    + unfold k1. destruct k. cbn. by rewrite <-app_assoc.
Qed.

(** A line of the input: the buffer, the echo, and what is still to be received. *)
Lemma shell_input_ok s rest cmd k : is_line s -> k_rx k = s ++ 10 :: rest -> (length s < length cmd)%nat ->
  shell_input cmd k = Ok (typed s cmd, with_rx rest (with_tx (k_tx k ++ s) k)).
Proof.
  intros Hs Ek Hl. unfold shell_input. run (gets_ok (fun k => S (length (k_rx k))) k).
  apply (shell_input_loop_ok s rest Hs _ [] cmd k Ek Hl). rewrite Ek, length_app. cbn. lia.
Qed.

Section Tests.
Context {D : Type}.

Lemma is_command_ok cmd s t st : holds cmd s -> nonzero (chars t) -> is_command (D := D) cmd t st = Ok (bool_decide (s = chars t), st).
Proof using Type.
  intros Hc Ht. destruct (strcmp_ok cmd (cstr t) s (chars t) Hc) as (d & E & Hd); [by split; [|exists []]|].
  change (strcmp cmd (cstr t) = Ok d) in E. unfold is_command, on_kernel. rewrite (bind_ok _ _ _ d (m_kernel st)) by (by apply lift_res_ok).
  cbn. destruct st. destruct (Z.eqb_spec d 0), (bool_decide_reflect (s = chars t)); intuition done.
Qed.

(** The tests of [shell_controller], one after the other. *)
Lemma test_ok cmd s t (a b : M (machine D) resume) st : holds cmd s -> nonzero (chars t) ->
  (c ← is_command cmd t; if (c : bool) then a else b) st = (if decide (s = chars t) then a else b) st.
Proof using Type.
  intros Hc Ht. run (is_command_ok cmd s t st Hc Ht). by destruct (decide (s = chars t)) as [E|E]; [rewrite bool_decide_true|rewrite bool_decide_false].
Qed.

End Tests.

Section Shell.
Context {D : Type} `{!Device D} `{Link} `{Ops} (videocore : Z -> list Z -> list Z).
Context (mbox cpio_address : Z) (fuel : nat).

(** * The commands *)

Definition commands (e : env) : list (String.string * M (machine D) resume) :=
  [ (""%string, mret Return);
    ("help"%string, back (on_kernel help));
    ("hello"%string, back (on_kernel (say_line "Hello World!")));
    ("reboot"%string, back (on_dev reset));
    ("shutdown"%string, back (on_dev (power_off mbox fuel)));
    ("ls"%string, back (on_kernel (l ← archive; say_text (initrd_ls l))));
    ("ls -l"%string, back (on_kernel (l ← archive; say_text (initrd_list cpio_address l))));
    ("cat"%string, back (on_kernel (initrd_cat_input (e_buffer e))));
    ("run"%string, on_kernel (svc videocore fuel 1 (e_call e)));
    ("timer_on"%string, on_kernel (svc videocore fuel 2 (e_call e)));
    ("set_timeout"%string, on_kernel (svc videocore fuel 3 (e_call e)));
    ("demo_uart"%string, _ ← demo_async_uart (e_between e) (e_buffer e); fail Hang);
    ("demo_irq"%string, on_kernel (svc videocore fuel 5 (e_call e))) ].

Fixpoint find_command (s : list Z) (l : list (String.string * M (machine D) resume)) : M (machine D) resume :=
  match l with
  | [] => back (on_kernel (say_line "shell: command not found"))
  | (t, m) :: l => if decide (s = chars t) then m else find_command s l
  end.

Lemma shell_controller_ok e cmd s k d : holds cmd s ->
  shell_controller videocore mbox cpio_address fuel e cmd (Machine k d) =
    find_command s (commands e) (Machine (with_tx (k_tx k ++ [10]) k) d).
Proof using Type.
  intros Hc. unfold shell_controller. set (k1 := with_tx (k_tx k ++ [10]) k).
  rewrite (bind_ok _ _ _ tt (Machine k1 d)) by done. unfold commands. cbn [find_command].
  do 13 (rewrite (test_ok cmd s) by (first [exact Hc | repeat constructor]); destruct (decide _) as [->|]; [done|]). done.
Qed.

(** C36. A round of the shell, given a line, prints the prompt and the line and runs the command
    of that name, or says that there is none: [s] is the line unless that is empty, when it
    is what the array of the command happened to hold. *)
Theorem shell_round_spec e cmd line rest s k d :
  is_line line -> k_rx k = line ++ 10 :: rest -> (length line < length cmd)%nat -> holds (typed line cmd) s ->
  shell_round videocore mbox cpio_address fuel e cmd (Machine k d) =
    find_command s (commands e) (Machine (with_rx rest (with_tx (k_tx k ++ chars "# " ++ line ++ [10]) k)) d).
Proof using Type.
  intros Hl Ek Hn Hs. unfold shell_round. set (k1 := with_tx (k_tx k ++ chars "# ") k).
  rewrite (bind_ok _ _ _ tt (Machine k1 d)) by done.
  rewrite (bind_ok _ _ _ (typed line cmd) (Machine (with_rx rest (with_tx (k_tx k1 ++ line) k1)) d)).
  - rewrite (shell_controller_ok e _ s _ d Hs). unfold k1. destruct k. cbn. by rewrite <-!app_assoc.
  - unfold on_kernel. cbn [m_kernel m_dev]. by rewrite (shell_input_ok line rest cmd k1 Hl Ek Hn).
Qed.
End Shell.

(** * An example *)

#[local] Existing Instance kernel_ops.

Definition ex_env : env := Env (Call 0 0 0 0 0 0 (replicate 64 0) (replicate 64 0)) (replicate 64 0) [].

Section Example.
Let ops : Ops := kernel_ops 4 (replicate 32 0).
#[local] Existing Instance ops | 0.

Lemma shell_round_spec_witness :
  let k := with_rx (chars "hello" ++ 10 :: [33]) ex_kernel in
  shell_round (D := wire mini_uart 0x21) (fun _ l => l) 0 0 0 ex_env (replicate 128 255) (Machine k (Wire [] [])) =
    find_command (chars "hello") (commands (fun _ l => l) 0 0 0 ex_env)
      (Machine (with_rx [33] (with_tx (k_tx k ++ chars "# " ++ chars "hello" ++ [10]) k)) (Wire [] [])).
Proof.
  apply (shell_round_spec (D := wire mini_uart 0x21)).
  - repeat (apply Forall_cons; split; [done|]). by apply Forall_nil.
  - reflexivity.
  - by apply Nat.ltb_lt.
  - apply typed_holds; [done|repeat constructor].
Defined.
End Example.
