(* ===== verification/Main.v ===== *)
(** The kernel from [main] ([src/src/main.c]) to its first task: the initialisations, in
    their order, each on its part of one state. *)
From Stdlib Require Import Ascii String.
From S2P Require Import Prelude Memblock Buddy Slab Sched FsData Vfs Timer Tasklet Console Kernel Dtb Boot Mmio Devices Shell.

(** What the firmware and [start.S] leave: the answer of the mailbox on the memory, the end
    of the kernel, [x18] with the device tree there, the bytes from an address on, the pages
    and words of the memory the allocators use, and the exception level. *)
Record firmware := Firmware {
  fw_memory : Z * Z;
  fw_end : Z;
  fw_x18 : Z;
  fw_blob : list Z;
  fw_archive : Z -> list Z;
  fw_pages : Z -> page;
  fw_words : gmap Z Z;
  fw_el : Z
}.

(** The whole state: the kernel with its devices, the tasklets, the early allocator, and the
    address of the archive. *)
Record system (D W : Type) := System {
  sy_machine : machine D;
  sy_tasklets : tasklets W;
  sy_memblock : memblock;
  sy_cpio : Z
}.
Arguments System {D W} sy_machine sy_tasklets sy_memblock sy_cpio.
Arguments sy_machine {D W} s.
Arguments sy_tasklets {D W} s.
Arguments sy_memblock {D W} s.
Arguments sy_cpio {D W} s.

(* [src/src/exception.c:245-250 print_current_el] *)
Definition print_current_el (current_el : Z) : M kernel unit :=
  say_format "-- CurrentEL: %d
" [ArgWord (Z.land (Z.shiftr current_el 2) 3)].

Definition set_cpio_base (p : ptr) (s : fs_state) : fs_state :=
  FsState (vnodes s) (inodes s) (fat_nodes s) (mounts s) (files s) (blocks s) (next_key s) (filesystems s)
    (rootfs s) p (fat_info s) (fat_boot_sector s) (mbr s) (sd s).
Definition set_heap (h : slab_state) (s : sched_state) : sched_state :=
  Sched (task_pool s) (num_running_task s) (current s) (regs s) h.

Section Main.
Context {D W : Type} `{!Device D} `{Link} `{Ops}.
(** [locate]: the block and the offset of an address; [sd_init]: what the driver of the card
    does to the state of the files; [fuel] bounds the search of [mm_init]. *)
Context (fw : firmware) (locate : Z -> ptr) (sd_init : M fs_state unit) (fuel : nat).
Abbreviation MS := (M (system D W)).

Definition on_machine {A} (m : M (machine D) A) : MS A :=
  fun s => match m (sy_machine s) with
           | Ok (a, x) => Ok (a, System x (sy_tasklets s) (sy_memblock s) (sy_cpio s))
           | Err f => Err f
           end.
Definition on_kernel {A} (m : M kernel A) : MS A := on_machine (Shell.on_kernel m).
Definition on_tasklets {A} (m : M (tasklets W) A) : MS A :=
  fun s => match m (sy_tasklets s) with
           | Ok (a, x) => Ok (a, System (sy_machine s) x (sy_memblock s) (sy_cpio s))
           | Err f => Err f
           end.

(** [fdt_init]: the archive is where the device tree says. *)
Definition boot_fdt : MS Z :=
  fun s => match fdt_init (fw_x18 fw) (fw_blob fw) (sy_cpio s) with
           | Ok (a, c) =>
             let k := m_kernel (sy_machine s) in
             Ok (a, System (Machine (with_fs (set_cpio_base (locate c) (k_fs k)) k) (m_dev (sy_machine s))) (sy_tasklets s) (sy_memblock s) c)
           | Err f => Err f
           end.

(** [mm_init]: the allocators, whose state is the heap the tasks use. *)
Definition boot_mm (dtb_address : Z) : MS unit :=
  fun s =>
    let b := Board (fw_memory fw) (fw_end fw) (sy_cpio s) (fw_archive fw (sy_cpio s)) dtb_address (fw_blob fw) in
    match mm_init fuel b (fw_pages fw) (fw_words fw) with
    | Ok (mb, h) =>
      let k := m_kernel (sy_machine s) in
      Ok (tt, System (Machine (with_sched (set_heap h (k_sched k)) k) (m_dev (sy_machine s))) (sy_tasklets s) mb (sy_cpio s))
    | Err f => Err f
    end.

(** The result is where the processor goes on: [sched_init] does not come back. *)
(* [src/src/main.c:20-33 main] *)
Definition main : MS Z :=
  _ ← on_machine shell_init;
  _ ← on_kernel (print_current_el (fw_el fw));
  dtb_address ← boot_fdt;
  _ ← on_kernel (on_timers timer_init);
  _ ← on_tasklets tasklet_init;
  _ ← boot_mm dtb_address;
  _ ← on_kernel (on_fs (rootfs_init sd_init));
  on_kernel (on_sched sched_init).
End Main.
