(* ===== verification/MainSpec.v ===== *)
(** The state in which the first task starts. *)
From Stdlib Require Import Ascii String.
From S2P Require Import Prelude Memblock Buddy BuddyInv BuddyBoot MemblockAlloc Slab Sched SchedInv SchedSpec CString FsData Vfs Tmpfs Initramfs Fat32 FsInv VfsSpec.
From S2P Require Import FileSystems FsSafe FsTree FatMount FatFile InitramfsSpec RootFs Timer Queue Tasklet Console Kernel Initrd InitrdSpec Dtb DtbSpec Boot BootSpec Mmio Devices DevicesSpec TaskInv KernelInv Shell Main.

Lemma cpio_boot p s : at_boot s -> at_boot (set_cpio_base p s).
Proof. intros []. by split. Qed.

Section Spec.
Context {D W : Type} `{!Device D} `{Link}.
Variables (fat_fuel fuel : nat) (junk : list Z) (fw : firmware) (locate : Z -> ptr) (sd_init : M fs_state unit).
Let ops : Ops := kernel_ops fat_fuel junk.
#[local] Existing Instance ops | 0.
Implicit Types (d : D).

(** The messages only add to the text that was sent, and the driver returns on any device. *)
Definition says (m : M kernel unit) (out : list Z) : Prop := forall k, m k = Ok (tt, with_tx (k_tx k ++ out) k).

Lemma says_then m1 m2 o1 o2 : says m1 o1 -> says m2 o2 -> says (_ ← m1; m2) (o1 ++ o2).
Proof using Type.
  intros H1 H2 k. run (H1 k). rewrite H2. destruct k. cbn. by rewrite app_assoc.
Qed.

Lemma says_line (l : String.string) out : uart_puts (chars l ++ [10; 0]) = Ok out -> says (say_line l) out.
Proof using Type. intros E k. unfold say_line. run (lift_res_ok _ k _ E). done. Qed.

Definition banner : list Z :=
  [13; 10; 13; 10] ++ chars " Hello from Raspi 3b+" ++ [13; 10] ++ chars "==== init: UART" ++ [13; 10].

Lemma shell_init_ok k d : exists d', shell_init (Machine k d) = Ok (tt, Machine (with_tx (k_tx k ++ banner) k) d').
Proof using Type.
  assert (Hu : exists d', uart_init d = Ok (tt, d')).
  { unfold uart_init. cbn [set_regs]. unfold mbind, M_bind, set_reg. cbn. rewrite get_reg_ok. eexists. reflexivity. }
  destruct Hu as (d' & Hu). exists d'. unfold shell_init.
  rewrite (bind_ok _ _ (Machine k d) tt (Machine k d')) by (unfold Shell.on_dev; cbn [m_dev m_kernel]; by rewrite Hu).
  unfold Shell.on_kernel. cbn [m_dev m_kernel].
  assert (Hs : says (_ ← say_line ""; _ ← say_line ""; _ ← say_line " Hello from Raspi 3b+"; say_line "==== init: UART") banner).
  { apply (says_then _ _ [13; 10]); [by apply says_line|]. apply (says_then _ _ [13; 10]); [by apply says_line|].
    apply (says_then _ _ (chars " Hello from Raspi 3b+" ++ [13; 10])); by apply says_line. }
  by rewrite Hs.
Qed.

Lemma current_el_ok : says (print_current_el 4) (chars "-- CurrentEL: 1" ++ [13; 10]).
Proof using Type.
  intros k. unfold print_current_el, say_format.
  assert (E : (r ← printf (replicate 128 0) (cstr "-- CurrentEL: %d
") [ArgWord (Z.land (Z.shiftr 4 2) 3)]; Ok r.1) = Ok (chars "-- CurrentEL: 1" ++ [13; 10])) by (vm_compute; reflexivity).
  destruct (printf _ _ _) as [[out b]|]; [|discriminate E]. cbn [mbind res_bind fst] in E. injection E as ->.
  reflexivity.
Qed.

(** A step on a part of the state. *)
Lemma on_kernel_ok {A} (m : M kernel A) k d tl mb c a k' : m k = Ok (a, k') ->
  on_kernel m (System (Machine k d) tl mb c) = Ok (a, System (W:=W) (Machine k' d) tl mb c).
Proof using Type. intros E. unfold on_kernel, on_machine, Shell.on_kernel. cbn [sy_machine m_kernel]. by rewrite E. Qed.

(** Before [main]: nothing of the file systems is there, the pools are the ones of the image,
    and the boot loader left the processor at the exception level 1. *)
Record image_ok (k : kernel) : Prop := {
  im_fs : at_boot (k_fs k);
  im_tasks : bss_pool (task_pool (k_sched k));
  im_timers : Z.of_nat (length (timer_pool (k_timers k))) = NR_TIMER;
  im_messages : forall i t, timer_pool (k_timers k) !! i = Some t -> length (message t) = 64%nat;
  im_arrays : forall i t, task_pool (k_sched k) !! i = Some t -> shaped t;
  im_read : queue_ok (k_read k);
  im_write : queue_ok (k_write k);
  im_el : fw_el fw = 4
}.

(** The tasks [sched_init] leaves are in the invariant. *)
Lemma booted_tasks s s' : (forall i t, task_pool s !! i = Some t -> shaped t) -> sched_ok s' -> active s' ->
  (forall i t, task_pool s' !! i = Some t -> exists u, task_pool s !! i = Some u /\ fd_table t = fd_table u /\ current_dir t = current_dir u) ->
  tasks_ok s'.
Proof using Type.
  intros Harr Hs (c & p & n & Hc & Hsl & Hn) Hold. apply slices_lookup in Hsl as (t & Ht & Et). injection Et as _ _ En.
  apply (tasks_ok_intro s' c t); [|done|done|intros _; lia].
  split; [done|]. intros i u Hu. destruct (Hold i u Hu) as (v & Hv & E1 & E2). exact (shaped_same v u (Harr i v Hv) E1 E2).
Qed.

(** The two trees of the file systems, over the archive [arch] and the card of [s0]. *)
Definition trees (s0 s' : fs_state) (blk : Z) (arch : list Z) (es : list entry) (i : fat32_info) (bs mbr : list Z) (cl : Z) : Prop :=
  (forall n, match List.find (fun e => bool_decide (e_name e = n)) (files_of es) with
     | Some e => exists x, walk s' (root_of s') [chars "initramfs"; n] = Some x /\ holds_file s' blk arch x e
     | None => walk s' (root_of s') [chars "initramfs"; n] = None
     end) /\
  (forall q, q <> [] -> match card_lookup fat_fuel (set_fat_info i bs mbr s0) cl q with
     | Some e => exists x k j, walk s' (root_of s') (chars "boot" :: q) = Some x /\ node_is s' (next_key s0) x e k j
     | None => walk s' (root_of s') (chars "boot" :: q) = None
     end).

End Spec.

(** * An instance *)

(** 256 MiB of memory with 32 KiB of kernel, the device tree at [0x180000] and the archive
    where it says, the card with A.TXT and D/B.TXT. *)
Definition ex_firmware : firmware :=
  Firmware (0, 0x10000000) 0xffff000000008000 0x180000 ex_blob (fun _ => flat_map encode [ex_entry] ++ ex_trailer)
    (fun _ => zero_page) ∅ 4.
Definition ex_main_board : board :=
  Board (0, 0x10000000) 0xffff000000008000 0xffff000008000000 (flat_map encode [ex_entry] ++ ex_trailer) 0x180000 ex_blob.

Lemma ex_cpio : archive_address 0 (entries ex_tree) = 0xffff000008000000.
Proof. vm_compute. reflexivity. Qed.

Lemma ex_main_occupied a : occupied ex_main_board [ex_entry] 0x200 a <->
  0 <= a < 0x8000 \/ 0x8000000 <= a < 0x80000f0 \/ 0x180000 <= a < 0x181000.
Proof.
  unfold occupied, archive_range, blob_range, opt_covers.
  change (virt_to_phys (b_cpio ex_main_board)) with 0x8000000. change (b_dtb ex_main_board) with 0x180000.
  assert (E1 : ALIGN (Z.land (b_end ex_main_board) 0xffffffff) 8 = 0x8000) by (by vm_compute).
  assert (E2 : ALIGN (ALIGN (Z.of_nat (length (flat_map encode [ex_entry])) + 120) 8) 8 = 0xf0) by (by vm_compute).
  assert (E3 : ALIGN (ALIGN 0x200 4096) 8 = 0x1000) by (by vm_compute).
  rewrite E1, E2, E3. lia.
Qed.

Lemma ex_main_board_ok : board_ok ex_main_board 65536 [ex_entry] 0x200.
Proof.
  split.
  - done.
  - lia.
  - by exists 128.
  - done.
  - apply Forall_cons_2; [apply ex_entry_ok|apply Forall_nil_2].
  - exists ex_trailer. split; [apply ex_trailer_ok|done].
  - by vm_compute.
  - apply has_check; [vm_compute; split; discriminate|by vm_compute].
  - split; [|lia]. apply has_check; [vm_compute; split; discriminate|by vm_compute].
  - done.
  - intros a Ha. apply (proj1 (ex_main_occupied a)) in Ha. lia.
Qed.

(** The memory of the kernel image: pools of zeros. *)
Definition ex_image : kernel :=
  Kernel ex_bss ex_start ∅ (Timers (replicate 2 (Timer 0 0 0 (replicate 64 0))) []) read_buffer0 read_buffer0 [] [] [] 0.

Lemma ex_image_ok : image_ok ex_firmware ex_image.
Proof.
  split; [exact ex_at_boot| |done| | |exact read_buffer0_ok|exact read_buffer0_ok|done].
  - split; [reflexivity|]. intros i t Hi. apply lookup_replicate in Hi as [-> _]. reflexivity.
  - intros i t Hi. apply lookup_replicate in Hi as [-> _]. reflexivity.
  - intros i t Hi. apply lookup_replicate in Hi as [-> _]. split; [reflexivity|reflexivity|by left].
Qed.

Section Example.
Let ops : Ops := kernel_ops 3 (replicate 32 0).
#[local] Existing Instance ops | 0.

End Example.
