(* ===== verification/Demo.v ===== *)
(** The reports and the demonstrations: [get_buddy_info] of [mm.c], [print_memblock_info] of
    [memblock.c], the contents of the card that [sd.c] and [fat32.c] print, and what
    [demo.c] has besides the asynchronous UART of [Shell]: the allocators, the bottom half
    of an interrupt, and the program that forks.

    The reports leave everything but the text as it was, a directory of the card is printed
    to the end of its clusters, the demonstration of the allocators reports the same free
    blocks before and after, and the program that forks ends. *)
From Stdlib Require Import Ascii String.
From S2P Require Import Prelude ListHead Memblock Buddy BuddyInv BuddySpec Slab SlabInv SlabSpec Sched CString FsData Fat32 FatSpec FatMount.
From S2P Require Import Vfs Queue Timer Tasklet Console ConsoleSpec Kernel InitrdSpec Mmio Devices Shell Main MainSpec.

(** * Reports *)

Definition say_words (s : String.string) (l : list Z) : M kernel unit := say_format s (ArgWord <$> l).

(** ** The allocators *)

(* [src/src/mm.c:338-340 get_buddy_info] *)
Fixpoint buddy_info_loop (n : nat) (i : Z) : M kernel unit :=
  match n with
  | O => mret tt
  | S n =>
    l ← gets (fun k => nr_free (zone_of (heap (k_sched k))));
    v ← lift_opt OutOfBounds l.[i];
    _ ← say_words "Order %d free pages: %d
" [i; v];
    buddy_info_loop n (i + 1)
  end.
(* [src/src/mm.c:335-342 get_buddy_info] *)
Definition get_buddy_info : M kernel unit :=
  _ ← say_words "
=====================
Buddy System Information
-------------------
" [];
  _ ← buddy_info_loop (Z.to_nat MAX_ORDER) 0;
  say_words "=====================

" [].

(** The entries of an array of ranges. *)
(* [src/src/memblock.c:305-309 print_memblock_info] *)
Fixpoint regions_loop (n : nat) (i : Z) (t : memblock_type) : M kernel unit :=
  match n with
  | O => mret tt
  | S n =>
    _ ← say_words "    regions [%d]: " [i];
    r ← lift_opt OutOfBounds (regions t).[i];
    _ ← say_words "%x - %x
" [Memblock.base r; u64 (Memblock.base r + Memblock.size r)];
    regions_loop n (i + 1) t
  end.
(* [src/src/memblock.c:295-311 print_memblock_info] *)
Definition print_memblock_info (mb : memblock) : M kernel unit :=
  _ ← say_words "
===============
Memory block information:
" [];
  _ ← say_words "Memory:
" [];
  _ ← regions_loop (Z.to_nat (cnt (memory mb))) 0 (memory mb);
  _ ← say_words "Reserved:
" [];
  _ ← regions_loop (Z.to_nat (cnt (reserved mb))) 0 (reserved mb);
  say_line "===============".

(** ** The card *)

(** The bytes of [l] from [i] on, [n] of them, in the format [fmt], with a line break after
    those [brk] tells. *)
(* [src/src/sd.c:217-221 print_block] *)
Fixpoint bytes_loop (fmt : String.string) (brk : Z -> bool) (n : nat) (i : Z) (l : list Z) : M kernel unit :=
  match n with
  | O => mret tt
  | S n =>
    c ← lift_opt OutOfBounds l.[i];
    _ ← say_words fmt [c];
    _ ← (if brk i then uart_send 10 else mret tt);
    bytes_loop fmt brk n (i + 1) l
  end.

(* [src/src/sd.c:212-222 print_block] *)
Definition print_block (block_idx : Z) : M kernel unit :=
  buf ← on_fs (readblock block_idx);
  bytes_loop "%x " (fun i => i mod 32 =? 31) 512 0 buf.

(** The first entry of the partition table is at 446, the signature at 510. *)
(* [src/src/sd.c:224-249 print_mbr_info] *)
Definition print_mbr_info : M kernel unit :=
  buf ← on_fs (readblock 0);
  _ ← bytes_loop "%2x " (fun i => i mod 8 =? 7) 512 0 buf;
  sig ← on_fs (field 2 510 buf);
  _ ← say_words "
mbr boot signature: %d
" [Z.b2z (sig =? 0xaa55)];
  _ ← say_words "partition entry: " [];
  _ ← bytes_loop "%2x " (fun _ => false) 16 0 (drop 446 buf);
  boot ← on_fs (field 1 446 buf);
  _ ← say_words "
partition boot indicator: %x
" [boot];
  start ← on_fs (field 4 (446 + 8) buf);
  _ ← say_words "starting sector 0x%x = %d
" [start; start];
  sz ← on_fs (field 4 (446 + 12) buf);
  say_words "partition size 0x%x = %d
" [sz; sz].

(* [src/src/fat32.c:486-495 print_fat32_boot_sector] *)
Definition print_fat32_boot_sector : M kernel unit :=
  m ← gets (fun k => mbr (k_fs k));
  b ← gets (fun k => fat_boot_sector (k_fs k));
  v ← on_fs (field 1 (446 + 4) m);
  _ ← say_words "partition type            %x
" [v];
  v ← on_fs (field 2 11 b);
  _ ← say_words "bytes per sector          %d
" [v];
  v ← on_fs (boot_sectors_per_cluster b);
  _ ← say_words "sector per cluster        %d
" [v];
  v ← on_fs (field 4 44 b);
  _ ← say_words "root dir                  %d
" [v];
  v ← on_fs (boot_nr_reserved_sectors b);
  _ ← say_words "number of reserved sector %d
" [v];
  v ← on_fs (boot_nr_fat_copies b);
  _ ← say_words "number of FAT table       %d
" [v];
  v ← on_fs (boot_sectors_per_fat b);
  say_words "sectors per FAT table     %d

" [v].

(* [src/src/fat32.c:513-514 print_fat32_dir] *)
Fixpoint name_loop (n : nat) (k : Z) (tmp_buf : list Z) : M kernel unit :=
  match n with
  | O => mret tt
  | S n =>
    c ← lift_opt OutOfBounds tmp_buf.[k];
    _ ← say_words "%c. " [c];
    name_loop n (k + 1) tmp_buf
  end.
(* [src/src/fat32.c:510-517 print_fat32_dir] *)
Fixpoint entries_loop (n : nat) (i : Z) (buf : list Z) : M kernel unit :=
  match n with
  | O => mret tt
  | S n =>
    let tmp_buf := drop (Z.to_nat (32 * i)) buf in
    e ← on_fs (read_entry tmp_buf);
    let c := Z.lor (Z.shiftl (cluster_high e) 16) (cluster_low e) in
    _ ← name_loop 11 0 tmp_buf;
    _ ← say_words "attr %x, cluster %d, file size %d." [attr e; c; file_size e];
    _ ← say_words "
" [];
    entries_loop n (i + 1) buf
  end.
(* [src/src/fat32.c:505-521 print_fat32_dir] *)
Fixpoint dir_loop (fuel : nat) (cur nxt : Z) : M kernel unit :=
  match fuel with
  | O => fail NoFuel
  | S fuel =>
    if IS_FAT_ENTRY_VALID cur then
      _ ← say_words "current cluster %d %x
" [cur; cur];
      _ ← say_words "next cluster    %d %x
" [nxt; nxt];
      i ← gets (fun k => fat_info (k_fs k));
      buf ← on_fs (readblock (cluster_block i cur));
      _ ← entries_loop 16 0 buf;
      _ ← say_words "----next block of this directory
" [];
      n ← on_fs (read_fat_entry nxt);
      dir_loop fuel nxt n
    else mret tt
  end.
(* [src/src/fat32.c:498-525 print_fat32_dir] *)
Definition print_fat32_dir (fuel : nat) (cluster : Z) : M kernel unit :=
  nxt ← on_fs (read_fat_entry cluster);
  _ ← dir_loop fuel cluster nxt;
  say_words "[print_dir_table] end of root directory
" [].

(** * Demonstrations *)

(** ** The allocators *)

(** [addr[idx] = kmalloc(size)], and the message [msg] of it. *)
(* [src/src/demo.c:110-111 demo_memory_allocator] *)
Definition get_memory (addr : list Z) (idx size : Z) (msg : String.string) : M kernel (list Z) :=
  a ← on_sched (on_heap (kmalloc size));
  addr ← lift_opt OutOfBounds addr.[idx := a];
  v ← lift_opt OutOfBounds addr.[idx];
  _ ← say_words msg [v];
  mret addr.

(* [src/src/demo.c:100-103 demo_memory_allocator] *)
Fixpoint get_pages (n : nat) (i : Z) (addr : list Z) : M kernel (list Z) :=
  match n with
  | O => mret addr
  | S n =>
    addr ← get_memory addr i (Z.shiftl 4096 2) "addr: %x

";
    get_pages n (i + 1) addr
  end.
(* [src/src/demo.c:106-107 demo_memory_allocator] *)
Fixpoint free_pages (n : nat) (i : Z) (addr : list Z) : M kernel unit :=
  match n with
  | O => mret tt
  | S n =>
    a ← lift_opt OutOfBounds addr.[i];
    _ ← on_sched (on_heap (kfree a));
    free_pages n (i + 1) addr
  end.

(** Blocks of pages; the array after it. *)
(* [src/src/demo.c:98-108 demo_memory_allocator] *)
Definition demo_pages (addr : list Z) : M kernel (list Z) :=
  _ ← get_buddy_info;
  _ ← say_line "==Get order 2 page for 6 times==
";
  addr ← get_pages 6 0 addr;
  _ ← get_buddy_info;
  _ ← say_line "Free order 2 page for 6 times";
  _ ← free_pages 6 0 addr;
  _ ← get_buddy_info;
  mret addr.

(** Small objects. *)
(* [src/src/demo.c:110-129 demo_memory_allocator] *)
Definition demo_objects (addr : list Z) : M kernel unit :=
  addr ← get_memory addr 0 8 "Get 8 bytes memory addr: %x
";
  addr ← get_memory addr 0 8 "Get 8 bytes memory addr: %x
";
  addr ← get_memory addr 1 16 "Get 16 bytes memory addr: %x
";
  addr ← get_memory addr 2 16 "Get 16 bytes memory addr: %x
";
  _ ← say_line "Free the previous 16 bytes";
  a ← lift_opt OutOfBounds addr.[1];
  _ ← on_sched (on_heap (kfree a));
  addr ← get_memory addr 1 16 "Get 16 bytes memory addr: %x
";
  _ ← get_memory addr 3 16 "Get 16 bytes memory addr: %x
";
  mret tt.

(** [mb]: the early allocator; [addr]: what the array of the addresses holds. *)
(* [src/src/demo.c:90-130 demo_memory_allocator] *)
Definition demo_memory_allocator (mb : memblock) (addr : list Z) : M kernel unit :=
  _ ← print_memblock_info mb;
  addr ← demo_pages addr;
  demo_objects addr.

(** ** The UART and the bottom half of an interrupt *)

(* [src/src/uart.c:197-201 uart_async_send] *)
Definition uart_async_send (c : Z) : M kernel unit :=
  q ← gets k_write;
  q ← lift_res (enqueue_char q c);
  _ ← modify (fun k => with_queues (k_read k) q k);
  modify (fun k => with_ier (Z.lor (k_ier k) 2) k).

Section BottomHalf.
Context {D W : Type} `{!Device D} (call : Z -> Z -> W -> res W) (fuel : nat).

(** The loop, which never ends: [between] is what the interrupts do after each round, as far
    as it is looked at. *)
(* [src/src/demo.c:83-86 demo_bh_irq] *)
Fixpoint bh_loop (between : list (system D W -> system D W)) : M (system D W) unit :=
  match between with
  | [] => mret tt
  | irq :: between =>
    _ ← on_tasklets (do_tasklet call fuel);
    _ ← modify irq;
    bh_loop between
  end.

(** The interrupts and the timer of the core are switched on in the processor. *)
(* [src/src/demo.c:77-87 demo_bh_irq] *)
Definition demo_bh_irq (between : list (system D W -> system D W)) : M (system D W) unit :=
  _ ← on_machine uart_async_init;
  _ ← Main.on_kernel (say_line "Demo Lab3 Advanced 2: bottom half irq");
  bh_loop between.
End BottomHalf.

(** ** The program that forks *)

(** A program as the system calls it makes: what it does with the result of each. *)
Inductive prog :=
  | GetTaskid (k : Z -> prog)
  | Fork (k : Z -> prog)
  | StackPointer (k : Z -> prog)
  | Printf (s : String.string) (args : list Z) (k : prog)
  | Delay (k : prog)
  | Exit (status : Z).

(** [cnt_ptr] is the address of the local variable [cnt]; [n]: the rounds left. *)
(* [src/src/demo.c:37-42 fork_test] *)
Fixpoint second_child (cnt_ptr : Z) (n : nat) (cnt : Z) (k : prog) : prog :=
  match n with
  | O => k
  | S n =>
    StackPointer (fun cur_sp => GetTaskid (fun pid =>
      Printf "second child, pid: %d, cnt: %d, ptr: %x, sp: %x
" [pid; cnt; cnt_ptr; cur_sp] (Delay (second_child cnt_ptr n (cnt + 1) k))))
  end.

(* [src/src/demo.c:22-52 fork_test] *)
Definition fork_test (cnt_ptr : Z) : prog :=
  GetTaskid (fun pid => Printf "
Fork Test, pid %d
" [pid] (
  let cnt := 1 in
  Fork (fun ret =>
    if ret =? 0 then
      StackPointer (fun cur_sp => GetTaskid (fun pid =>
      Printf "first child, pid %d, cnt: %d, ptr: %x, sp: %x
" [pid; cnt; cnt_ptr; cur_sp] (
      let cnt := cnt + 1 in
      let child_exit := GetTaskid (fun pid => Printf "child %d exit.
" [pid] (Exit 0)) in
      Fork (fun ret =>
        if negb (ret =? 0) then
          Delay (StackPointer (fun cur_sp => GetTaskid (fun pid =>
          Printf "first child, pid: %d, cnt: %d, ptr: %x, sp: %x
" [pid; cnt; cnt_ptr; cur_sp] child_exit)))
        else second_child cnt_ptr (Z.to_nat (5 - cnt)) cnt child_exit))))
    else
      GetTaskid (fun pid => Printf "parent here, pid %d, child %d
" [pid; ret] (Delay (Printf "parent exit.
" [] (Exit 0))))))).

(** * What is printed *)

(** From [k], whatever was sent before, [m] sends [out], changes nothing else and returns [a]. *)
Definition sends {A} (m : M kernel A) (k : kernel) (out : list Z) (a : A) : Prop :=
  forall tx, m (with_tx tx k) = Ok (a, with_tx (tx ++ out) k).

Lemma sends_ret {A} k (a : A) : sends (mret a) k [] a.
Proof. intros tx. by rewrite app_nil_r. Qed.

Lemma sends_bind {A B} (m : M kernel A) (f : A -> M kernel B) k o1 o2 a b :
  sends m k o1 a -> sends (f a) k o2 b -> sends (x ← m; f x) k (o1 ++ o2) b.
Proof. intros H1 H2 tx. run (H1 tx). by rewrite H2, app_assoc. Qed.

(** A part that sends nothing. *)
Lemma sends_next {A B} (m : M kernel A) (f : A -> M kernel B) k o a b :
  sends m k [] a -> sends (f a) k o b -> sends (x ← m; f x) k o b.
Proof. exact (sends_bind m f k [] o a b). Qed.

Lemma sends_says m k out : says m out -> sends m k out tt.
Proof. intros H tx. by rewrite H. Qed.

Lemma sends_lift {A} f (o : option A) a k : o = Some a -> sends (lift_opt f o) k [] a.
Proof. intros -> tx. by rewrite app_nil_r. Qed.

Lemma sends_fs {A} (m : M fs_state A) k a : m (k_fs k) = Ok (a, k_fs k) -> sends (on_fs m) k [] a.
Proof. intros E tx. unfold on_fs. rewrite (on_part_ok _ _ m (with_tx tx k) a (k_fs k) E), app_nil_r. by destruct k. Qed.

(** The room the text of a piece may take. *)
Definition room (p : piece) : nat :=
  match p with
  | Lit _ | Percent | Chr _ => 1
  | Dec w _ => Nat.max w 11
  | Hex w _ => Nat.max w 16
  | Str s => length (default (chars "(null)") s)
  end.

Lemma padded_length c w l n : (length l <= n)%nat -> (length (padded c w l) <= Nat.max w n)%nat.
Proof. intros Hl. unfold padded. rewrite length_app, length_replicate. lia. Qed.

Lemma show_decimal_length v : - 2 ^ 31 <= v < 2 ^ 31 -> (length (show_decimal v) <= 11)%nat.
Proof.
  intros Hv. assert (H : forall x, 0 <= x <= 2 ^ 31 -> (length (decimal 18 x) <= 10)%nat).
  { intros x Hx. apply decimal_length; [change (10 ^ Z.of_nat 10) with 10000000000; lia|done]. }
  unfold show_decimal. destruct (Z.ltb_spec v 0); cbn [length]; [pose proof (H (- v))|pose proof (H v)]; lia.
Qed.

Lemma show_hex_length v : (length (show_hex v) <= 16)%nat.
Proof. unfold show_hex. destruct (v <? 2 ^ 63); [apply hexadecimal_length|by rewrite hex_string_length]. Qed.

Lemma piece_room p : (length (piece_text p) <= room p)%nat.
Proof.
  destruct p as [| |w v|w v| |]; cbn [piece_text room]; try done.
  - apply padded_length, show_decimal_length, s32_range.
  - apply padded_length, show_hex_length.
Qed.

Lemma render_room ps : (length (render ps) <= foldr (fun p n => room p + n)%nat O ps)%nat.
Proof.
  induction ps as [|p ps IH]; [done|]. cbn [foldr]. unfold render in *. cbn [flat_map]. rewrite length_app.
  pose proof (piece_room p). lia.
Qed.

(** A string ends at its first zero. *)
Fixpoint shown (l : list Z) : list Z :=
  match l with [] => [] | c :: l => if c =? 0 then [] else c :: shown l end.

Lemma uart_puts_shown l r : uart_puts (l ++ 0 :: r) = Ok (uart_text (shown l)).
Proof.
  induction l as [|c l IH]; [done|]. cbn [app uart_puts shown]. destruct (Z.eqb_spec c 0); [done|].
  rewrite IH, res_bind_ok. unfold uart_text. cbn [flat_map]. by destruct (Z.eqb_spec c 10) as [->|].
Qed.

(** A message of the kernel's: the pieces say what its format is. *)
Lemma sends_words s l ps k : cstr s = fmt_of ps ++ [0] -> ArgWord <$> l = args_of ps ->
  Forall piece_ok ps -> (foldr (fun p n => room p + n)%nat O ps < 128)%nat ->
  sends (say_words s l) k (uart_text (shown (render ps))) tt.
Proof.
  intros Es El Hps Hn tx. unfold say_words, say_format. rewrite Es, El.
  pose proof (length_replicate 128 (0 : Z)) as Hl. set (tmp := replicate 128 0) in *.
  assert (E : printf tmp (fmt_of ps ++ [0]) (args_of ps) =
    Ok (uart_text (shown (render ps)), render ps ++ 0 :: drop (S (length (render ps))) tmp)).
  { unfold printf. rewrite <-(app_nil_r (args_of ps)), vsprintf_ok by (done || lia).
    pose proof (render_room ps). rewrite (proj2 (Nat.ltb_lt _ _)) by lia. rewrite res_bind_ok. unfold default, id. cbn [fst].
    by rewrite uart_puts_shown. }
  by rewrite (bind_ok _ _ _ _ _ (lift_res_ok _ (with_tx tx k) _ E)).
Qed.

Definition lits (s : String.string) : list piece := Lit <$> chars s.

Lemma lits_ok s : forallb (fun c => (0 <? c) && (c <? 256) && negb (c =? 37)) (chars s) = true -> Forall piece_ok (lits s).
Proof.
  intros H. apply Forall_fmap, Forall_forall. intros c Hc. cbn.
  apply list_elem_of_In in Hc. apply (proj1 (forallb_forall _ _) H) in Hc. zbool. lia.
Qed.

(** The obligations of [sends_words]. *)
Ltac pieces := repeat first [apply Forall_nil; exact Logic.I | apply Forall_app; split | apply lits_ok; reflexivity | apply Forall_cons; split; [cbn; try lia|]].
Ltac words ps := apply (sends_words _ _ ps); [reflexivity|reflexivity|pieces|cbn; lia].

(** * The reports *)

(** ** The buddy allocator *)

(** A line for each order. *)
Fixpoint buddy_lines (i : Z) (l : list Z) : list Z :=
  match l with
  | [] => []
  | v :: l => uart_text (shown (render (lits "Order " ++ [Dec 0 i] ++ lits " free pages: " ++ [Dec 0 v; Lit 10]))) ++ buddy_lines (i + 1) l
  end.
Definition buddy_report (l : list Z) : list Z :=
  uart_text (chars "
=====================
Buddy System Information
-------------------
") ++ buddy_lines 0 l ++ uart_text (chars "=====================

").

Definition free_counts (k : kernel) : list Z := nr_free (zone_of (heap (k_sched k))).

Lemma buddy_info_loop_ok k n : forall i, 0 <= i -> (Z.to_nat i + n = length (free_counts k))%nat ->
  sends (buddy_info_loop n i) k (buddy_lines i (drop (Z.to_nat i) (free_counts k))) tt.
Proof.
  induction n as [|n IH]; intros i Hi Hn; cbn [buddy_info_loop].
  - rewrite drop_ge by lia. apply sends_ret.
  - destruct (lookup_lt_is_Some_2 (free_counts k) (Z.to_nat i)) as [v Hv]; [lia|].
    rewrite (drop_S _ _ _ Hv). cbn [buddy_lines].
    apply (sends_next _ _ _ _ (free_counts k)); [intros tx; by rewrite app_nil_r|].
    apply (sends_next _ _ _ _ v). { apply sends_lift, zget_Some. by split. }
    apply (sends_bind _ _ _ _ _ tt).
    + words (lits "Order " ++ [Dec 0 i] ++ lits " free pages: " ++ [Dec 0 v; Lit 10]).
    + replace (S (Z.to_nat i)) with (Z.to_nat (i + 1)) by lia. apply IH; lia.
Qed.

(** [get_buddy_info] prints the number of free blocks of each order. *)
Lemma get_buddy_info_ok k : length (free_counts k) = 10%nat -> sends get_buddy_info k (buddy_report (free_counts k)) tt.
Proof.
  intros Hl. unfold get_buddy_info, buddy_report. apply (sends_bind _ _ _ _ _ tt).
  { words (lits "
=====================
Buddy System Information
-------------------
"). }
  apply (sends_bind _ _ _ _ _ tt).
  - apply (buddy_info_loop_ok k (Z.to_nat MAX_ORDER) 0); [lia|by rewrite Hl].
  - words (lits "=====================

").
Qed.

(** ** The early allocator *)

(** What is printed is left open. *)
Definition prints {A} (m : M kernel A) (k : kernel) (a : A) : Prop := exists out, sends m k out a.

Lemma prints_sends {A} (m : M kernel A) k out a : sends m k out a -> prints m k a.
Proof. by exists out. Qed.

Lemma prints_bind {A B} (m : M kernel A) (f : A -> M kernel B) k a b :
  prints m k a -> prints (f a) k b -> prints (x ← m; f x) k b.
Proof. intros [o1 H1] [o2 H2]. exists (o1 ++ o2). by apply (sends_bind _ _ _ _ _ a). Qed.

Ltac line ps := apply (prints_bind _ _ _ tt); [eapply prints_sends; words ps|].

Lemma regions_loop_ok k mt n : forall i, 0 <= i -> (Z.to_nat i + n <= length (regions mt))%nat ->
  Forall (fun r => 0 <= base r < 2 ^ 64) (regions mt) -> prints (regions_loop n i mt) k tt.
Proof.
  induction n as [|n IH]; intros i Hi Hn Hr; cbn [regions_loop]; [eapply prints_sends, sends_ret|].
  line (lits "    regions [" ++ [Dec 0 i] ++ lits "]: ").
  destruct (lookup_lt_is_Some_2 (regions mt) (Z.to_nat i)) as [r Er]; [lia|].
  apply (prints_bind _ _ _ r). { eapply prints_sends, sends_lift, zget_Some. by split. }
  pose proof (proj1 (Forall_lookup _ _) Hr _ _ Er) as Hb. cbn in Hb. pose proof (u64_range (Memblock.base r + Memblock.size r)).
  line ([Hex 0 (base r)] ++ lits " - " ++ [Hex 0 (u64 (Memblock.base r + Memblock.size r)); Lit 10]). apply IH; [lia|lia|done].
Qed.

Lemma print_memblock_info_ok k mb :
  (forall mt, mt = memory mb \/ mt = reserved mb ->
     (Z.to_nat (cnt mt) <= length (regions mt))%nat /\ Forall (fun r => 0 <= base r < 2 ^ 64) (regions mt)) ->
  prints (print_memblock_info mb) k tt.
Proof.
  intros H. destruct (H (memory mb)) as [Hm1 Hm2]; [by left|]. destruct (H (reserved mb)) as [Hr1 Hr2]; [by right|].
  unfold print_memblock_info. line (lits "
===============
Memory block information:
"). line (lits "Memory:
").
  apply (prints_bind _ _ _ tt); [by apply regions_loop_ok|]. line (lits "Reserved:
").
  apply (prints_bind _ _ _ tt); [by apply regions_loop_ok|]. eapply prints_sends, sends_says, says_line. reflexivity.
Qed.

(** ** The card *)

Lemma bytes_loop_ok k fmt ps brk l n : (forall c, cstr fmt = fmt_of (ps c) ++ [0] /\ ArgWord <$> [c] = args_of (ps c)) ->
  (forall c, byte c -> Forall piece_ok (ps c) /\ (foldr (fun p n => room p + n)%nat O (ps c) < 128)%nat) -> Forall byte l ->
  forall i, 0 <= i -> (Z.to_nat i + n <= length l)%nat -> prints (bytes_loop fmt brk n i l) k tt.
Proof.
  intros Hf Hp Hl. induction n as [|n IH]; intros i Hi Hn; cbn [bytes_loop]; [eapply prints_sends, sends_ret|].
  destruct (lookup_lt_is_Some_2 l (Z.to_nat i)) as [c Ec]; [lia|].
  apply (prints_bind _ _ _ c). { eapply prints_sends, sends_lift, zget_Some. by split. }
  destruct (Hf c), (Hp c) as [H1 H2]; [by apply (proj1 (Forall_lookup _ _) Hl _ _ Ec)|].
  apply (prints_bind _ _ _ tt); [by eapply prints_sends, (sends_words _ _ (ps c))|].
  apply (prints_bind _ _ _ tt); [|apply IH; lia].
  destruct (brk i); [|eapply prints_sends, sends_ret]. exists [10]. intros tx. done.
Qed.

(** [print_block] prints any block of the card. *)
Lemma print_block_ok k i b : card_ok (k_fs k) -> sd (k_fs k) !! s32 i = Some b -> prints (print_block i) k tt.
Proof.
  intros Hc Hb. destruct (Hc _ _ Hb) as [Hl Hbs]. unfold print_block.
  apply (prints_bind _ _ _ b). { by eapply prints_sends, sends_fs, card_read_ok. }
  apply (bytes_loop_ok k "%x " (fun c => [Hex 0 c; Lit 32])); [done| |done|lia|by rewrite Hl].
  intros c Hbc. unfold byte in Hbc. split; [pieces|cbn; lia].
Qed.

Lemma name_loop_ok k l n : forall i, 0 <= i -> (Z.to_nat i + n <= length l)%nat -> prints (name_loop n i l) k tt.
Proof.
  induction n as [|n IH]; intros i Hi Hn; cbn [name_loop]; [eapply prints_sends, sends_ret|].
  destruct (lookup_lt_is_Some_2 l (Z.to_nat i)) as [c Ec]; [lia|].
  apply (prints_bind _ _ _ c). { eapply prints_sends, sends_lift, zget_Some. by split. }
  line ([Chr c] ++ lits ". "). apply IH; lia.
Qed.

Lemma entry_attr l (s : fs_state) e : (32 <= length l)%nat -> Forall byte l -> read_entry l s = Ok (e, s) -> 0 <= attr e < 256.
Proof.
  intros Hl Hb E. destruct (le_ok 1 (drop 11 l)) as (v & Ev & Hv); [rewrite length_drop; lia|by apply Forall_drop|].
  unfold read_entry in E. rewrite (bind_ok _ _ _ _ _ (field_ok 1 11 l s v Ev)) in E.
  inv_step E as h s1 E1. inv_step E as w s2 E2. inv_step E as z s3 E3. injection E as <- _. exact Hv.
Qed.

Lemma entries_loop_ok k b n : length b = 512%nat -> Forall byte b ->
  forall i, 0 <= i -> i + Z.of_nat n <= 16 -> prints (entries_loop n i b) k tt.
Proof.
  intros Hl Hb. induction n as [|n IH]; intros i Hi Hn; cbn [entries_loop]; [eapply prints_sends, sends_ret|].
  set (t := drop (Z.to_nat (32 * i)) b). assert (Ht : (32 <= length t)%nat) by (unfold t; rewrite length_drop; lia).
  assert (Hbt : Forall byte t) by by apply Forall_drop.
  destruct (read_entry_ok t (k_fs k) Ht Hbt) as [Ee _]. pose proof (entry_attr t _ _ Ht Hbt Ee) as Ha.
  generalize dependent (parse_entry t). intros e Ee Ha. clearbody t. cbv zeta.
  apply (prints_bind _ _ _ e). { by eapply prints_sends, sends_fs. }
  apply (prints_bind _ _ _ tt). { apply name_loop_ok; lia. }
  line (lits "attr " ++ [Hex 0 (attr e)] ++ lits ", cluster " ++ [Dec 0 (Z.lor (Z.shiftl (cluster_high e) 16) (cluster_low e))]
    ++ lits ", file size " ++ [Dec 0 (file_size e); Lit 46]).
  line [Lit 10]. apply IH; lia.
Qed.

Lemma fat_entry_range s c n : card_ok s -> fat_entry s c = Some n -> 0 <= n < 2 ^ 32.
Proof.
  intros Hs E. unfold fat_entry in E. destruct (sd s !! fat_block s c) as [b|] eqn:Eb; [|done]. cbn [mbind option_bind] in E.
  destruct (Hs _ _ Eb) as [Hl Hb]. rewrite le_piece in E. pose proof (Z.mod_pos_bound c 128 ltac:(lia)).
  destruct (le_ok 4 (drop (Z.to_nat (Z.of_nat 4 * (c mod 128))) b)) as (v & Ev & Hv); [rewrite length_drop; lia|by apply Forall_drop|].
  rewrite Ev in E. injection E as <-. exact Hv.
Qed.

Lemma dir_loop_ok k l e : card_ok (k_fs k) -> Forall (fun x => is_Some (cluster_data (k_fs k) x)) l ->
  IS_FAT_ENTRY_VALID e = false -> is_Some (fat_entry (k_fs k) e) ->
  forall cur nxt fuel, 0 <= cur < 2 ^ 32 -> fat_path (k_fs k) cur l e -> fat_entry (k_fs k) cur = Some nxt ->
  (length l < fuel)%nat -> prints (dir_loop fuel cur nxt) k tt.
Proof.
  intros Hc Hl He [ne Hne] cur nxt fuel Hr Hp. revert nxt fuel Hr.
  induction Hp as [c|c n l e Hv Hn Hp IH]; intros nxt [|fuel] Hr Hx Hf; cbn [length] in Hf; try lia; cbn [dir_loop].
  - rewrite He. eapply prints_sends, sends_ret.
  - rewrite Hv. assert (nxt = n) as -> by congruence. pose proof (fat_entry_range _ _ _ Hc Hn) as Hrn.
    apply Forall_cons in Hl as [[b Hb] Hl]. destruct (Hc _ _ Hb) as [Hlb Hbb].
    line (lits "current cluster " ++ [Dec 0 c; Lit 32; Hex 0 c; Lit 10]).
    line (lits "next cluster    " ++ [Dec 0 n; Lit 32; Hex 0 n; Lit 10]).
    apply (prints_bind _ _ _ (fat_info (k_fs k))). { exists []. intros tx. by rewrite app_nil_r. }
    apply (prints_bind _ _ _ b). { by eapply prints_sends, sends_fs, card_read_ok. }
    apply (prints_bind _ _ _ tt). { by apply entries_loop_ok. }
    line (lits "----next block of this directory" ++ [Lit 10]).
    assert (exists n', fat_entry (k_fs k) n = Some n') as [n' Hn'].
    { inversion Hp; subst; [by eexists|by eexists]. }
    apply (prints_bind _ _ _ n'). { by eapply prints_sends, sends_fs, read_fat_entry_ok. }
    apply (IH Hl He Hne n' fuel); [done|done|lia].
Qed.

(** [print_fat32_dir] comes to the end of the clusters of a directory, changing nothing: the
    fuel is one more than their number. *)
Lemma print_fat32_dir_ok k c l fuel : card_ok (k_fs k) -> 0 <= c < 2 ^ 32 -> dir_clusters (k_fs k) c l -> (length l < fuel)%nat ->
  prints (print_fat32_dir fuel c) k tt.
Proof.
  intros Hc Hr (Hl & e & Hp & He & Hne) Hf. unfold print_fat32_dir.
  assert (exists n, fat_entry (k_fs k) c = Some n) as [n Hn].
  { inversion Hp; subst; [destruct Hne; by eexists|by eexists]. }
  apply (prints_bind _ _ _ n). { by eapply prints_sends, sends_fs, read_fat_entry_ok. }
  apply (prints_bind _ _ _ tt). { by apply (dir_loop_ok k l e). }
  eapply prints_sends. words (lits "[print_dir_table] end of root directory" ++ [Lit 10]).
Qed.

(** * The allocators *)

(** The numbers of free blocks are those of the partition. *)
Lemma counts_eq B z z' : buddy_ok B z -> buddy_ok B z' -> nr_free z = nr_free z'.
Proof.
  intros ([L Hi] & _) ([L' Hi'] & _). pose proof (bi_length _ _ _ Hi) as Hl. pose proof (bi_length _ _ _ Hi') as Hl'.
  apply list_eq_same_length with 10%nat; [done..|]. intros i x x' Hlt Hx Hx'.
  assert (Ho : 0 <= Z.of_nat i < MAX_ORDER) by (unfold MAX_ORDER; lia).
  pose proof (bi_list _ _ _ Hi _ Ho) as [D1 E1 C1]. pose proof (bi_list _ _ _ Hi' _ Ho) as [D2 E2 C2].
  apply zget_Some in C1 as [_ C1]. apply zget_Some in C2 as [_ C2]. rewrite Nat2Z.id in C1, C2.
  assert (El : length (L (Z.of_nat i)) = length (L' (Z.of_nat i))); [|congruence].
  apply Permutation_length, NoDup_Permutation.
  - destruct D1 as [[_ Hd]%NoDup_cons _]. by eapply NoDup_fmap_1.
  - destruct D2 as [[_ Hd]%NoDup_cons _]. by eapply NoDup_fmap_1.
  - intros b. by rewrite E1, E2.
Qed.

Lemma same_heap k : let s := k_sched k in
  with_tx (k_tx k) (with_sched (Sched (task_pool s) (num_running_task s) (current s) (regs s) (heap s)) k) = k.
Proof. by destruct k as [[] ? ? ? ? ? ? ? ? ?]. Qed.

Section Pages.
Context (B : gmap Z (bstate * Z)) (P F : Z -> list Z) (k : kernel).

(** [k] with the heap [h], when [tx] was sent. *)
Definition at_heap (h : slab_state) (tx : list Z) : kernel :=
  let s := k_sched k in
  with_tx tx (with_sched (Sched (task_pool s) (num_running_task s) (current s) (regs s) h) k).

Lemma on_heap_at {A} (m : M slab_state A) h a h' tx : m h = Ok (a, h') ->
  on_sched (on_heap m) (at_heap h tx) = Ok (a, at_heap h' tx).
Proof using Type. intros E. unfold on_sched, on_part, on_heap. cbn. by rewrite E. Qed.

(** The blocks [bs] of four pages were taken from the partition [B]. *)
Record taken (h : slab_state) (bs : list Z) (B' : gmap Z (bstate * Z)) : Prop := {
  ta_inv : slab_inv B' P F h;
  ta_nodup : NoDup bs;
  ta_new : forall b, b ∈ bs -> (forall o, B !! b <> Some (Used, o)) /\ (forall i, 0 <= i < NR_OBJECTS -> b ∉ P i);
  ta_avail : forall x, avail B x <-> avail B' x \/ exists b, b ∈ bs /\ b <= x < b + 4;
  ta_used : forall c j, B' !! c = Some (Used, j) <-> B !! c = Some (Used, j) \/ (c ∈ bs /\ j = 2)
}.

Lemma taken_nil h : slab_inv B P F h -> taken h [] B.
Proof using Type. intros Hi. split; [done|constructor|set_solver|intros x; set_solver|intros c j; set_solver]. Qed.

(** Nothing is left of them once they are given back. *)
Lemma taken_back h h0 B' : slab_inv B P F h0 -> nr_pages (zone_of h) = nr_pages (zone_of h0) -> taken h [] B' -> B' = B.
Proof using Type.
  intros H0 Hn [Hi _ _ Ha Hu]. apply (partition_eq (nr_pages (zone_of h0))).
  - rewrite <-Hn. by apply ok_partition, (si_buddy _ _ _ _ Hi).
  - by apply ok_partition, (si_buddy _ _ _ _ H0).
  - intros x. rewrite Ha. set_solver.
  - intros b o. rewrite Hu. set_solver.
Qed.

Lemma take_more h bs B' : taken h bs B' ->
  kmalloc (Z.shiftl 4096 2) h = Err NullDeref \/
  (exists b B2 h', kmalloc (Z.shiftl 4096 2) h = Ok (slab_address b, h') /\ taken h' (bs ++ [b]) B2 /\
     nr_pages (zone_of h') = nr_pages (zone_of h)).
Proof using Type.
  intros [Hi Hnd Hnew Ha Hu].
  destruct (kmalloc_pages_ok B' P F h (Z.shiftl 4096 2) 2 Hi) as [[E _]|(b & B2 & h' & E & _ & Hi' & Hn & Hnb & Ha2 & (o & Hb) & Hu2)];
    [by vm_compute|by vm_compute|done|by left|right].
  exists b, B2, h'. split; [exact E|]. split; [|exact Hn]. split; [done| | | |].
  - apply NoDup_app. split; [done|]. split; [|apply NoDup_singleton].
    intros x Hx ->%list_elem_of_singleton. assert (B' !! b = Some (Used, 2)) by (apply Hu; by right). congruence.
  - intros x [Hx| ->%list_elem_of_singleton]%elem_of_app; [by apply Hnew|]. split; [|done].
    intros j Hj. assert (B' !! b = Some (Used, j)) by (apply Hu; by left). congruence.
  - intros x. rewrite Ha, Ha2. change (2 ^ 2) with 4. setoid_rewrite elem_of_app. setoid_rewrite list_elem_of_singleton. naive_solver.
  - intros c j. rewrite Hu2, Hu, elem_of_app, list_elem_of_singleton. naive_solver.
Qed.

Lemma give_back h b bs B' : taken h (b :: bs) B' ->
  exists B2 h', kfree (slab_address b) h = Ok (tt, h') /\ taken h' bs B2 /\ nr_pages (zone_of h') = nr_pages (zone_of h).
Proof using Type.
  intros [Hi Hnd Hnew Ha Hu]. apply NoDup_cons in Hnd as [Hb Hnd]. destruct (Hnew b) as [Hb1 Hb2]; [left|].
  destruct (kfree_pages_ok B' P F h b 2 Hi) as (B2 & h' & E & Hi' & Hn & Ha2 & Hu2); [apply Hu; right; split; [left|done]|done|].
  exists B2, h'. split; [exact E|]. split; [|exact Hn]. split; [done|done| | |].
  - intros x Hx. apply Hnew. by right.
  - intros x. rewrite Ha, Ha2. change (2 ^ 2) with 4. setoid_rewrite elem_of_cons. naive_solver.
  - intros c j. rewrite Hu2, Hu, elem_of_cons. naive_solver.
Qed.
Lemma sends_at {A} (m : M kernel A) h tx out a : sends m (at_heap h tx) out a ->
  m (at_heap h tx) = Ok (a, at_heap h (tx ++ out)).
Proof using Type. intros H. exact (H tx). Qed.

Lemma taken_range h bs B' b : taken h bs B' -> b ∈ bs -> 0 <= slab_address b < 2 ^ 64.
Proof using Type.
  intros [Hi _ _ _ Hu] Hb. destruct (block_range B' P F h b 2 Hi) as (Hr & _ & ->); [apply Hu; by right|].
  unfold KERNEL_VADDR_BASE. lia.
Qed.

(** The addresses of the blocks in the array, from [i] on. *)
Definition stored (addr : list Z) (i : nat) (bs : list Z) : Prop :=
  length addr = 10%nat /\ forall j b, bs !! j = Some b -> addr !! (i + j)%nat = Some (slab_address b).

Lemma stored_snoc addr bs b : stored addr 0 bs -> (length bs < 10)%nat ->
  stored (<[length bs := slab_address b]> addr) 0 (bs ++ [b]).
Proof using Type.
  intros [Hl Hs] Hn. split; [by rewrite length_insert|]. intros j c Hc. cbn [Nat.add].
  apply lookup_app_Some in Hc as [Hc|[Hj Hc]].
  - rewrite list_lookup_insert_ne by (apply lookup_lt_Some in Hc; lia). by apply (Hs j).
  - apply list_lookup_singleton_Some in Hc as [Hj0 <-]. replace j with (length bs) by lia.
    apply list_lookup_insert_eq. lia.
Qed.

Lemma get_pages_ok n : forall addr h tx bs B', taken h bs B' -> stored addr 0 bs -> (length bs + n <= 10)%nat ->
  get_pages n (Z.of_nat (length bs)) addr (at_heap h tx) = Err NullDeref \/
  (exists addr' bs' B2 h' out, get_pages n (Z.of_nat (length bs)) addr (at_heap h tx) = Ok (addr', at_heap h' (tx ++ out)) /\
     taken h' bs' B2 /\ stored addr' 0 bs' /\ length bs' = (length bs + n)%nat /\ nr_pages (zone_of h') = nr_pages (zone_of h)).
Proof using Type.
  induction n as [|n IH]; intros addr h tx bs B' Ht Hst Hn; cbn [get_pages].
  - right. exists addr, bs, B', h, []. rewrite app_nil_r. split_and!; try done; lia.
  - unfold get_memory. destruct (take_more h bs B' Ht) as [E|(b & B2 & h' & E & Ht' & Hp)].
    { left. apply bind_err, bind_err. unfold on_sched. apply on_part_err. unfold on_heap. cbn. by rewrite E. }
    pose proof (stored_snoc addr bs b Hst ltac:(lia)) as Hst'. pose proof (taken_range _ _ _ b Ht' ltac:(set_solver)) as Hb.
    set (addr' := <[length bs := slab_address b]> addr) in *. destruct Hst as [Hl Hst].
    assert (Ea : addr.[Z.of_nat (length bs) := slab_address b] = Some addr').
    { rewrite zset_ok by lia. by rewrite Nat2Z.id. }
    assert (Eg : addr'.[Z.of_nat (length bs)] = Some (slab_address b)).
    { apply zget_Some. split; [lia|]. rewrite Nat2Z.id. apply list_lookup_insert_eq. lia. }
    assert (Em : sends (say_words "addr: %x

" [slab_address b]) (at_heap h' tx) (uart_text (shown (render (lits "addr: " ++ [Hex 0 (slab_address b); Lit 10; Lit 10])))) tt)
      by words (lits "addr: " ++ [Hex 0 (slab_address b); Lit 10; Lit 10]).
    apply sends_at in Em. revert Em. generalize (uart_text (shown (render (lits "addr: " ++ [Hex 0 (slab_address b); Lit 10; Lit 10])))).
    intros o1 Em.
    rewrite (bind_ok _ _ (at_heap h tx) addr' (at_heap h' (tx ++ o1))).
    2:{ rewrite (bind_ok _ _ _ _ _ (on_heap_at _ _ _ _ tx E)). unfold lift_opt. rewrite (bind_ok _ _ (at_heap h' tx) addr' (at_heap h' tx)) by by rewrite Ea.
        rewrite (bind_ok _ _ (at_heap h' tx) (slab_address b) (at_heap h' tx)) by by rewrite Eg.
        by rewrite (bind_ok _ _ _ _ _ Em). }
    replace (Z.of_nat (length bs) + 1) with (Z.of_nat (length (bs ++ [b]))) by (rewrite length_app; cbn; lia).
    destruct (IH addr' h' (tx ++ o1) (bs ++ [b]) B2 Ht' Hst') as [E2|(addr2 & bs2 & B3 & h2 & o2 & E2 & Ht2 & Hs2 & Hl2 & Hp2)];
      [rewrite length_app; cbn; lia|by left|right].
    exists addr2, bs2, B3, h2, (o1 ++ o2). rewrite app_assoc. split_and!; try done; [rewrite Hl2, length_app; cbn; lia|congruence].
Qed.

Lemma free_pages_ok : forall bs i addr h B', taken h bs B' -> stored addr i bs ->
  exists B2 h', (forall tx, free_pages (length bs) (Z.of_nat i) addr (at_heap h tx) = Ok (tt, at_heap h' tx)) /\
    taken h' [] B2 /\ nr_pages (zone_of h') = nr_pages (zone_of h).
Proof using Type.
  induction bs as [|b bs IH]; intros i addr h B' Ht [Hl Hs]; cbn [free_pages length].
  - by exists B', h.
  - destruct (give_back h b bs B' Ht) as (B2 & h' & E & Ht' & Hp).
    assert (Ea : addr.[Z.of_nat i] = Some (slab_address b)).
    { apply zget_Some. split; [lia|]. rewrite Nat2Z.id. rewrite <-(Hs O b eq_refl). f_equal. lia. }
    destruct (IH (S i) addr h' B2 Ht') as (B3 & h2 & E2 & Ht2 & Hp2).
    { split; [done|]. intros j c Hc. rewrite <-(Hs (S j) c Hc). f_equal. lia. }
    exists B3, h2. split_and!; [|done|congruence]. intros tx.
    rewrite (bind_ok _ _ (at_heap h tx) (slab_address b) (at_heap h tx)) by (unfold lift_opt; by rewrite Ea).
    rewrite (bind_ok _ _ _ _ _ (on_heap_at _ _ _ _ tx E)).
    replace (Z.of_nat i + 1) with (Z.of_nat (S i)) by lia. apply E2.
Qed.

Lemma taken_apart h bs B' b c : taken h bs B' -> b ∈ bs -> c ∈ bs -> b < c -> slab_address b + 16384 <= slab_address c.
Proof using Type.
  intros [Hi _ _ _ Hu] Hb Hc Hlt. assert (Eb : B' !! b = Some (Used, 2)) by (apply Hu; by right).
  assert (Ec : B' !! c = Some (Used, 2)) by (apply Hu; by right).
  destruct (block_range _ _ _ _ _ _ Hi Eb) as (_ & _ & ->), (block_range _ _ _ _ _ _ Hi Ec) as (_ & _ & ->).
  destruct (si_buddy _ _ _ _ Hi) as ([L Hb'] & _). pose proof (wb_disj _ _ (bi_wf _ _ _ Hb') _ _ _ _ _ _ Eb Ec Hlt). lia.
Qed.

Lemma stored_apart h bs B' addr i j x x' : taken h bs B' -> stored addr 0 bs ->
  (i < length bs)%nat -> (j < length bs)%nat -> i <> j -> addr !! i = Some x -> addr !! j = Some x' ->
  x + 16384 <= x' \/ x' + 16384 <= x.
Proof using Type.
  intros Ht [_ Hs] Hi Hj Hne Hx Hx'. apply lookup_lt_is_Some_2 in Hi as [b Hb], Hj as [c Hc].
  pose proof (Hs i b Hb) as Eb. pose proof (Hs j c Hc) as Ec. cbn [Nat.add] in Eb, Ec.
  assert (x = slab_address b) as -> by congruence. assert (x' = slab_address c) as -> by congruence.
  assert (b <> c) by (intros ->; by apply Hne, (NoDup_lookup bs i j c (ta_nodup _ _ _ Ht))).
  apply list_elem_of_lookup_2 in Hb, Hc. destruct (Z.lt_total b c) as [?|[?|?]]; [left|done|right]; by eapply taken_apart.
Qed.

Lemma counts_of h B' : slab_inv B' P F h -> length (nr_free (zone_of h)) = 10%nat.
Proof using Type. intros Hi. destruct (si_buddy _ _ _ _ Hi) as ([L Hb] & _). apply (bi_length _ _ _ Hb). Qed.

Lemma report_at h tx : length (nr_free (zone_of h)) = 10%nat ->
  get_buddy_info (at_heap h tx) = Ok (tt, at_heap h (tx ++ buddy_report (nr_free (zone_of h)))).
Proof using Type. intros Hl. exact (sends_at _ h tx _ _ (get_buddy_info_ok (at_heap h tx) Hl)). Qed.

Lemma line_at s t h tx : uart_puts (chars s ++ [10; 0]) = Ok t -> exists o, say_line s (at_heap h tx) = Ok (tt, at_heap h (tx ++ o)).
Proof using Type. intros E. exists t. exact (sends_at _ h tx _ _ (sends_says _ _ _ (says_line s t E))). Qed.

Lemma demo_pages_at h tx addr : slab_inv B P F h -> length addr = 10%nat ->
  demo_pages addr (at_heap h tx) = Err NullDeref \/
  (exists addr' h' mid, let r := buddy_report (nr_free (zone_of h)) in
     demo_pages addr (at_heap h tx) = Ok (addr', at_heap h' (tx ++ r ++ mid ++ r)) /\ slab_inv B P F h' /\ length addr' = 10%nat /\
     forall i j a a', (i < 6)%nat -> (j < 6)%nat -> i <> j -> addr' !! i = Some a -> addr' !! j = Some a' ->
       a + 16384 <= a' \/ a' + 16384 <= a).
Proof using Type.
  intros Hi Hl. unfold demo_pages. cbv zeta.
  pose proof (report_at h tx (counts_of h B Hi)) as E1. set (r := buddy_report (nr_free (zone_of h))) in *.
  rewrite (bind_ok _ _ _ _ _ E1).
  destruct (line_at "==Get order 2 page for 6 times==
" _ h (tx ++ r) eq_refl) as (o2 & E2). rewrite (bind_ok _ _ _ _ _ E2).
  destruct (get_pages_ok 6 addr h ((tx ++ r) ++ o2) [] B (taken_nil h Hi)) as [E3|(addr' & bs & B2 & h2 & o3 & E3 & Ht & Hst & Hlb & Hp)];
    [by split|cbn; lia|left; by apply bind_err|right]. change (Z.of_nat (length [])) with 0 in E3. cbn [length Nat.add] in Hlb.
  rewrite (bind_ok _ _ _ _ _ E3), (bind_ok _ _ _ _ _ (report_at h2 _ (counts_of _ _ (ta_inv _ _ _ Ht)))).
  destruct (line_at "Free order 2 page for 6 times" _ h2 ((((tx ++ r) ++ o2) ++ o3) ++ buddy_report (nr_free (zone_of h2))) eq_refl) as (o5 & E5).
  rewrite (bind_ok _ _ _ _ _ E5).
  destruct (free_pages_ok bs 0 addr' h2 B2 Ht Hst) as (B3 & h3 & E6 & Ht3 & Hp3).
  rewrite Hlb in E6. rewrite (bind_ok _ _ _ _ _ (E6 _)).
  assert (B3 = B) as -> by (apply (taken_back h3 h); [done|congruence|done]). pose proof (ta_inv _ _ _ Ht3) as Hi3.
  rewrite (bind_ok _ _ _ _ _ (report_at h3 _ (counts_of _ _ Hi3))).
  rewrite (counts_eq B (zone_of h3) (zone_of h)) by (by eapply si_buddy). fold r.
  exists addr', h3, (o2 ++ o3 ++ buddy_report (nr_free (zone_of h2)) ++ o5). split; [by rewrite <-!app_assoc|]. split; [done|].
  split; [apply Hst|]. intros i j x x'. rewrite <-Hlb. by apply (stored_apart h2 bs B2).
Qed.

(** The six blocks of the demonstration do not overlap, and once they are given back every
    block is as it was: the third report is the first one.  It fails only when there is no
    block of four pages left. *)
Theorem demo_pages_spec addr : slab_inv B P F (heap (k_sched k)) -> length addr = 10%nat ->
  demo_pages addr k = Err NullDeref \/
  (exists addr' h' mid, let r := buddy_report (nr_free (zone_of (heap (k_sched k)))) in
     demo_pages addr k = Ok (addr', at_heap h' (k_tx k ++ r ++ mid ++ r)) /\ slab_inv B P F h' /\ length addr' = 10%nat /\
     forall i j a a', (i < 6)%nat -> (j < 6)%nat -> i <> j -> addr' !! i = Some a -> addr' !! j = Some a' ->
       a + 16384 <= a' \/ a' + 16384 <= a).
Proof using Type.
  intros Hi Hl. pose proof (demo_pages_at _ (k_tx k) addr Hi Hl) as H.
  assert (Ek : at_heap (heap (k_sched k)) (k_tx k) = k) by apply same_heap. by rewrite Ek in H.
Qed.
End Pages.

(** * The program that forks *)

(** The processes that run the program, in any order: what [fork] gives the child is 0, and
    the parent the number of a process that there is not yet. *)
Inductive pstep : list (Z * prog) -> list (Z * prog) -> Prop :=
  | step_taskid l1 l2 pid f : pstep (l1 ++ (pid, GetTaskid f) :: l2) (l1 ++ (pid, f pid) :: l2)
  | step_fork l1 l2 pid f c : 0 < c -> c ∉ (l1 ++ (pid, Fork f) :: l2).*1 ->
      pstep (l1 ++ (pid, Fork f) :: l2) (l1 ++ (pid, f c) :: (c, f 0) :: l2)
  | step_sp l1 l2 pid f v : pstep (l1 ++ (pid, StackPointer f) :: l2) (l1 ++ (pid, f v) :: l2)
  | step_printf l1 l2 pid s args q : pstep (l1 ++ (pid, Printf s args q) :: l2) (l1 ++ (pid, q) :: l2)
  | step_delay l1 l2 pid q : pstep (l1 ++ (pid, Delay q) :: l2) (l1 ++ (pid, q) :: l2)
  | step_exit l1 l2 pid v : pstep (l1 ++ (pid, Exit v) :: l2) (l1 ++ l2).

(** At most [n] steps are left, those of the children included. *)
Inductive bounded : nat -> prog -> Prop :=
  | bounded_taskid n f : (forall v, bounded n (f v)) -> bounded (S n) (GetTaskid f)
  | bounded_fork n m f : bounded n (f 0) -> (forall v, 0 < v -> bounded m (f v)) -> bounded (S (n + m)) (Fork f)
  | bounded_sp n f : (forall v, bounded n (f v)) -> bounded (S n) (StackPointer f)
  | bounded_printf n s args q : bounded n q -> bounded (S n) (Printf s args q)
  | bounded_delay n q : bounded n q -> bounded (S n) (Delay q)
  | bounded_exit v : bounded 1 (Exit v).

Definition pool_bounded (n : nat) (l : list (Z * prog)) : Prop :=
  exists ns, Forall2 (fun m p => bounded m p.2) ns l /\ sum_list ns = n.

Lemma pool_split l1 p l2 n : pool_bounded n (l1 ++ p :: l2) <->
  exists n1 m n2, pool_bounded n1 l1 /\ bounded m p.2 /\ pool_bounded n2 l2 /\ n = (n1 + (m + n2))%nat.
Proof.
  split.
  - intros (ns & (ns1 & ns2 & H1 & H2 & ->)%Forall2_app_inv_r & <-).
    apply Forall2_cons_inv_r in H2 as (m & ns3 & Hm & H3 & ->).
    exists (sum_list ns1), m, (sum_list ns3). rewrite sum_list_with_app. split_and!; [by exists ns1|done|by exists ns3|done].
  - intros (n1 & m & n2 & (ns1 & H1 & <-) & Hm & (ns2 & H2 & <-) & ->).
    exists (ns1 ++ m :: ns2). rewrite sum_list_with_app. split; [by apply Forall2_app; [|constructor]|done].
Qed.

Lemma pool_app l1 l2 n1 n2 : pool_bounded n1 l1 -> pool_bounded n2 l2 -> pool_bounded (n1 + n2) (l1 ++ l2).
Proof. intros (ns1 & H1 & <-) (ns2 & H2 & <-). exists (ns1 ++ ns2). rewrite sum_list_with_app. split; [by apply Forall2_app|done]. Qed.

(** Every step of a process leaves fewer. *)
Lemma pstep_bounded n l l' : pool_bounded n l -> pstep l l' -> exists n', (n' < n)%nat /\ pool_bounded n' l'.
Proof.
  intros Hn Hs. destruct Hs as [l1 l2 pid f|l1 l2 pid f c Hc _|l1 l2 pid f v|l1 l2 pid s args q|l1 l2 pid q|l1 l2 pid v];
    apply pool_split in Hn as (n1 & m & n2 & H1 & Hm & H2 & ->); cbn [snd] in Hm;
    inversion Hm as [m' f' Hf|m0 m1 f' H0 Hf|m' f' Hf|m' s' args' q' Hq|m' q' Hq|v']; subst.
  - exists (n1 + (m' + n2))%nat. split; [lia|]. apply pool_split. exists n1, m', n2. split_and!; [done|apply Hf|done|done].
  - exists (n1 + (m1 + (m0 + n2)))%nat. split; [lia|]. apply pool_split. exists n1, m1, (m0 + n2)%nat.
    split_and!; [done|by apply Hf| |done]. apply (pool_split []). exists O, m0, n2. split_and!; [by exists []|done|done|done].
  - exists (n1 + (m' + n2))%nat. split; [lia|]. apply pool_split. exists n1, m', n2. split_and!; [done|apply Hf|done|done].
  - exists (n1 + (m' + n2))%nat. split; [lia|]. apply pool_split. by exists n1, m', n2.
  - exists (n1 + (m' + n2))%nat. split; [lia|]. apply pool_split. by exists n1, m', n2.
  - exists (n1 + n2)%nat. split; [lia|]. by apply pool_app.
Qed.

Lemma pstep_progress l : l <> [] -> exists l', pstep l l'.
Proof.
  destruct l as [|[pid q] l]; [done|intros _]. destruct q as [f|f|f|s args q|q|v].
  - eexists. apply (step_taskid [] l).
  - set (ids := ((pid, Fork f) :: l).*1). exists ((pid, f (1 + foldr Z.max 0 ids)) :: (1 + foldr Z.max 0 ids, f 0) :: l).
    assert (H : forall c, c ∈ ids -> c <= foldr Z.max 0 ids).
    { intros c. generalize ids. intros js. induction js as [|j js IH]; [set_solver|]. intros [->|Hc]%elem_of_cons; cbn; [lia|].
      specialize (IH Hc). lia. }
    assert (H0 : 0 <= foldr Z.max 0 ids) by (generalize ids; intros js; induction js; cbn; lia).
    apply (step_fork [] l); [lia|]. intros Hc%H. lia.
  - exists ((pid, f 0) :: l). apply (step_sp [] l).
  - eexists. apply (step_printf [] l).
  - eexists. apply (step_delay [] l).
  - eexists. apply (step_exit [] l).
Qed.

Lemma fork_test_bounded ptr : bounded 34 (fork_test ptr).
Proof.
  do 2 constructor. change 32%nat with (S (26 + 5)). constructor.
  - cbn. do 3 constructor. change 23%nat with (S (15 + 7)). constructor.
    + cbn. repeat (constructor; intros).
    + intros w Hw. destruct (Z.eqb_spec w 0); [lia|]. cbn. repeat (constructor; intros).
  - intros w Hw. destruct (Z.eqb_spec w 0); [lia|]. repeat (constructor; intros).
Qed.

(** In whatever order the processes run, after at most 34 steps they have all exited, and
    until then one of them can go on. *)
Theorem fork_test_ends pid ptr n l : nsteps pstep n [(pid, fork_test ptr)] l ->
  (n <= 34)%nat /\ (l = [] \/ exists l', pstep l l').
Proof.
  intros Hs. split; [|destruct (decide (length l = 0%nat)) as [->%nil_length_inv|Hl]; [by left|right; apply pstep_progress; by intros ->]].
  assert (H : forall m p q, nsteps pstep m p q -> forall b, pool_bounded b p -> (m <= b)%nat).
  { intros m p q. induction 1 as [p|m p r q Hpr _ IH]; intros b Hb; [lia|].
    destruct (pstep_bounded b p r Hb Hpr) as (b' & Hlt & Hb'). specialize (IH b' Hb'). lia. }
  apply (H _ _ _ Hs). exists [34%nat]. split; [|done]. constructor; [apply fork_test_bounded|constructor].
Qed.
